(* ===== verification/_CoqProject ===== *)
-Q . S2P
Prelude.v
Sorting.v
GoStrings.v
GoBase64.v
GoNet.v
GoURL.v
Extra.v
Types.v
VmwareTypes.v
Libs.v
Constants.v
Errors.v
ConvLib.v
GovmomiTypes.v
GovmomiConv.v
GovmomiRoundTrip.v
HubSpoke.v
HubSpokeUp.v
ConvRef.v
SupervisorTypes.v
SupervisorConv.v
SupervisorHubSpoke.v
SupervisorUp.v
Converter.v
VmopTypes.v
VmopConv.v
VmopRoundTrip.v
VmopConverter.v
Prog.v
ConversionClient.v
VmopClient.v
World.v
RefLibs.v
Conditions.v
Identity.v
Owners.v
MachineUtil.v
Metadata.v
NetStatus.v
Ipam.v
VMUtil.v
Power.v
Clone.v
Pci.v
Cluster.v
ClusterModules.v
ClusterController.v
ZoneController.v
IdentityController.v
MachineInterface.v
VimMachine.v
MachineController.v
Webhooks.v
VMService.v
VMPass.v
VMInterface.v
ReconcileVM.v
DestroyVM.v
VMRefine.v
Claims.v
VMController.v
VmopCommon.v
VMGroup.v
NetworkInterface.v
Network.v
VmopMachine.v
ControlPlaneEndpoint.v
VmwareCluster.v
SupervisorUtil.v
ServiceAccounts.v
ServiceDiscovery.v
MachineTemplate.v
VmwareWebhooks.v
