(* ===== verification/Prelude.v ===== *)
(** * Cluster API Provider vSphere: a verified model

    The program under [src/] makes the machines of Kubernetes clusters on VMware
    vSphere: a manager whose controllers each reconcile one kind of object with
    what there is on vCenter and on the API server. It has two modes: in the govmomi mode
    it clones and configures the virtual machines itself, in the supervisor mode it
    writes VirtualMachine objects for the VM Operator of the supervisor cluster.
    This library models both, in layers, each of which reads like the Go code it
    stands for.

    ** How the program is modelled

    - Values. [Types] has one record per struct of [api/govmomi/v1beta2], one
      field per field, and [VmwareTypes] those of [api/supervisor/v1beta2] and of
      [pkg/conversion/api/vmoperator/hub] with the fields the code touches; a pointer is an [option], a slice a [list], a map a [gmap]
      (in the files of the conversions an [option] of those, because a conversion tells nil from empty),
      an integer a [Z], with the width written out where the code can overflow.
      [GoStrings], [GoBase64], [GoNet] and [Sorting] are the parts of Go's library
      the code calls, on byte strings. [Errors] has the error values, [%w] chains
      and the tests on them; a call gives a value, an error, or does not return
      ([Stop Panics] for a nil pointer or an index out of range, [Stop Diverges]
      for a loop that does not end).
    - Effects. [Prog] has programs that make calls and carry a state: [bind],
      [try], [wrap], [defer] with and without a named result, loops; their runs
      (a trace of calls, a result, a state) as an inductive relation, their
      execution in a concrete world, and a weakest precondition that is
      equivalent to all runs. [World] lists every call on vCenter, on the API
      server, on the clock and on goroutines; what a library answers is left
      open, so a theorem holds for every answer, errors included. [effects] are
      the calls that change something.
    - Libraries. [Libs] is the interface of the helpers of Cluster API and
      controller-runtime with the laws the code relies on (conditions that are
      set can be read, finalizers, owner references). [RefLibs] is an instance
      and a small world, in which the examples and the witnesses run.
    - Conditions. [World] has the steps on the conditions of a VSphereVM,
      [Conditions] those of any object with conditions (class [Conditioned]).

    ** The components

    - [MachineUtil], [Metadata], [Owners] ([pkg/util]): provider IDs, names,
      labels, hardware versions, the cloud-init metadata, owners of machines.
    - [Extra] ([services/govmomi/extra]): the guest data of a VM.
    - [NetStatus] ([services/govmomi/net], waits of [util.go]), [Ipam]
      ([services/govmomi/ipam]): addresses that vCenter reports, and addresses
      that IPAM gave.
    - [VMUtil] ([errors.go], [util.go]), [Power] ([power.go]), [Clone]
      ([vcenter/clone.go]), [Pci] ([pci/device.go]), [Cluster] ([cluster],
      [find], [clustermodules]): finding a VM and the task in flight, power,
      clone, devices, groups and modules of compute clusters.
    - [VMService] ([service.go], [storageprofile_util.go]): [ReconcileVM] and
      [DestroyVM] with all their steps. [VMPass] has what both have in common,
      [ReconcileVM] and [DestroyVM] their theorems; [VMInterface] is
      [services.VirtualMachineService] as a class with laws and [VMRefine] the
      instance, so that the controller is proved against the interface.
    - [Claims] ([vspherevm_ipaddress_reconciler.go]) and [VMController]
      ([vspherevm_controller.go]): the controller of VSphereVMs.
    - [MachineInterface] ([pkg/context/interfaces.go],
      [services.VSphereMachineService]), [MachineController]
      ([vspheremachine_controller.go]), [VimMachine] ([vimmachine.go],
      [machine_context.go]): the controller of VSphereMachines over the interface,
      and the service of the govmomi mode as its instance.
    - [Identity] ([pkg/identity], [pkg/session]), [IdentityController]
      ([vsphereclusteridentity_controller.go]): credentials, sessions, and who
      owns a secret.
    - [ClusterModules] ([pkg/clustermodule], [clustermodule_reconciler.go]) and
      [ClusterController] ([vspherecluster_reconciler.go]): anti-affinity and the
      controller of VSphereClusters.
    - [ZoneController] ([vspheredeploymentzone_controller.go] and its [_domain],
      [pkg/taggable]): the controller of deployment zones.
    - [Webhooks] ([internal/webhooks]): what the API server lets users create and
      change of the objects of the govmomi mode.

    - [VmopCommon], [SupervisorUtil]: what the supervisor mode shares; the feature
      gates are a class, so that theorems hold for every choice of them.
    - [VMGroup] ([vmware/virtualmachinegroup_reconciler.go]): the group through which
      the VMs of workers are placed.
    - [NetworkInterface] ([services.NetworkProvider] and the services of the
      supervisor mode, as classes with laws) and [Network] ([services/network],
      [pkg/manager]): the providers of networks, as an instance.
    - [VmopMachine] ([vmoperator/vmopmachine.go]): the VirtualMachine of a machine,
      as an instance of the machine service of [MachineInterface], so that the
      theorems of [MachineController] hold in this mode too. A [VMModifier] is a
      closure of the controller; it is represented by the provider it calls.
    - [ControlPlaneEndpoint] ([vmoperator/control_plane_endpoint.go],
      [resource_policy.go]) and [VmwareCluster]
      ([vmware/vspherecluster_reconciler.go]): the endpoint behind a load balancer,
      and the controller of VSphereClusters over the interfaces.
    - [ServiceAccounts], [ServiceDiscovery], [MachineTemplate]
      ([vmware/serviceaccount_controller.go], [servicediscovery_controller.go],
      [vspheremachinetemplate_controller.go]): the accounts of a cluster in the
      supervisor, the way from the workload cluster to the supervisor (with [GoURL],
      Go's [net/url]), and what a machine template says of its nodes. [KGuest] marks
      the objects of the workload cluster.
    - [VmwareWebhooks] ([internal/webhooks/vmware]): the validations of the objects
      of the supervisor mode, and that what they accept can be given to a VM.

    - [ConvLib], [GovmomiTypes], [GovmomiConv] ([api/govmomi/v1beta1]): the objects
      of the govmomi mode in both versions, field by field, and every conversion
      function between them, generated or written by hand; [HubSpoke], [HubSpokeUp]
      ([internal/webhooks/conversion]): the converters the API server calls, which
      keep the hub object in an annotation and restore from it. [GovmomiRoundTrip]
      has the round trips of the parts, [ConvRef] concrete libraries and the
      theorems at concrete objects.
    - [SupervisorTypes], [SupervisorConv] ([api/supervisor/v1beta1]),
      [SupervisorHubSpoke] ([internal/webhooks/vmware/conversion]) and [SupervisorUp]:
      the same for the objects of the supervisor mode, with the round trips both
      ways; the tactics and the classes are those of the govmomi mode.
    - [Converter] ([pkg/conversion/converter.go], [converter_builder.go]): which Go
      types are hub types and which are versions of them, and what converts between
      them; [ConversionClient] ([pkg/conversion/client]): the client that converts
      before every write and after every read, over the requests of the client
      inside.
    - [VmopTypes], [VmopConv] ([pkg/conversion/api/vmoperator]): the objects of VM
      Operator in the hub version and in three versions of the API server, and the
      functions between them; [VmopRoundTrip]: that they take each other back;
      [VmopConverter] ([pkg/conversion/api/converter.go]): the default converter
      with these functions, and [VmopClient]: the client with that converter.
    ** What is shown

    - Safety of a pass over a VM: at most one task is started in a pass and it is
      the one the status records ([ReconcileVM_one_task],
      [Reconcile_records_task]); nothing is done while a task is in flight; a VM is
      powered on only with its metadata in place, cloned only when it does not
      exist ([ReconcileVM_clones_missing]), never powered off by a reconciliation, and destroyed only when it is
      powered off.
    - Let go only when clean: the finalizers of VSphereVMs, VSphereMachines,
      VSphereClusters, deployment zones and identities are removed only when what
      they protect is gone ([reconcile_finalizer], [machine_finalizer],
      [cluster_finalizer], [zone_finalizer], [identity_finalizer]). Whether a VM is
      gone is what vCenter answered to the lookups of the pass, by UUID through
      [FindByBIOSUUID] and [FindByInstanceUUID] of the session in [World], or by
      name; the exceptions are in the statements: a lookup of the folder of the
      VM that finds no folder counts as the VM not being found, and a
      VSphereMachine that is being deleted without an owner is let go without a
      look at its VM.
    - Ready means ready: what a pass that succeeds has checked and published
      ([reconcile_ready], [machine_pass], [ReconcileNormal_publishes],
      [cluster_provisioned], [zone_ready_valid], [identity_ready]).
    - Objects stay well formed: what the API server lets a user do to a VSphereVM
      never changes what it is made from ([VSphereVM_updates_frozen]), and every
      VSphereMachine it stores is well formed ([stored_well_formed]).
    - Refinement: the VM service keeps the promises of its interface; the clone
      is one task with a specification that is given field by field.
    - The supervisor mode: what is written of the VirtualMachine of a machine, when,
      and that it is a fixed point ([supervisor_vm_written],
      [worker_waits_for_group], [desired_vm_stable]); when a machine is done
      ([supervisor_machine_done]); where machines are placed, for good
      ([computed_group], [placement_persists], [group_made_for_batch]); the network
      and the endpoint of a cluster ([network_provisioned], [endpoint_given],
      [supervisor_cluster_endpoint]), and its failure domains
      ([failure_domains_found]).
    - Versions: what is written as a hub version, served in another version and sent back
      is what it was ([machine_hub_spoke_hub], [cluster_hub_spoke_hub]), the other way round
      but for the fields the hub version has no place for ([machine_spoke_hub_spoke] with
      [without_dropped] and [sayable]); likewise [vmware_machine_hub_spoke_hub] and
      [vmware_machine_spoke_hub_spoke]. In the supervisor mode the API server is only sent
      objects of the version it serves ([no_hub_is_sent]). What was read of it is sent
      again with the fields the conversions use ([sent_as_it_was_read], [nothing_is_lost],
      [hub_goes_back]): the model has no other fields of a VirtualMachine, such as
      [spec.suspendMode], and says nothing of them; the hub version fits in the newest version
      ([newest_version_is_complete]); the registries of a converter stay consistent
      ([converter_well_formed]).
    - Functions: round trips (base64, provider IDs), equivalences ([Compare] does
      not depend on the order), bounds (names, labels, disks, timeouts),
      termination ([encode] ends or loops for ever, and when; the loops on
      labels), sorted output.
    - Progress: a pass that destroys a VM gets nearer to the end or says what it
      waits for ([DestroyVM_progress]).
    - Examples run the programs on concrete inputs, among them the inputs on which
      the code does not do what it means to.

    ** Fuel

    Three loops of the code are not structural. [Extra.encode_loop] decodes as
    long as the text is base64; a decoding is shorter than its code, so the length
    of the text is enough, and the text that decodes to nothing is the one on
    which the loop does not end. [MachineUtil.truncate_loop] drops a label part at
    a time; the length is enough. [VMController.poll_cache] asks the cache every
    5 milliseconds for 5 seconds: [poll_times] is 1001, the first time and one for
    every interval; the world may end the poll before.

    ** Not modelled

    - Registering controllers, watches and indexes, flags and start-up ([main.go],
      [pkg/manager], the [Add...ToManager] functions): wiring without a logic of
      its own. Logs, metrics and recorded events have no effect on the rest.
    - Generated deep copies and fakes.
    - Tools and test infrastructure: [packaging/flavorgen], [hack], [test],
      [internal/test]. *)
From stdpp Require Export base tactics list strings gmap pretty.
From Stdlib Require Export ZArith Lia.

#[global] Set Default Goal Selector "!".
#[global] Open Scope string_scope.
#[global] Open Scope Z_scope.

(** * Pointers and slices *)

(** [ptr.Deref p d]: the value behind [p], or [d] when [p] is nil. *)
Definition ptr_deref {A} (p : option A) (d : A) : A :=
  match p with Some v => v | None => d end.

(** Go's [len] as a signed integer. *)
Definition zlen {A} (l : list A) : Z := Z.of_nat (length l).

(** Go's conversion [int32(n)], which keeps the low 32 bits. *)
Definition to_int32 (n : Z) : Z := (n + 2 ^ 31) mod 2 ^ 32 - 2 ^ 31.
Definition is_int32 (n : Z) : Prop := - 2 ^ 31 <= n < 2 ^ 31.

Lemma to_int32_id n : is_int32 n -> to_int32 n = n.
Proof. intros H. unfold to_int32, is_int32 in *. rewrite Z.mod_small by lia. lia. Qed.

(** Range over a slice with its index, from [i]. *)
Fixpoint enumerate_from {A} (i : Z) (l : list A) : list (Z * A) :=
  match l with
  | [] => []
  | x :: l' => (i, x) :: enumerate_from (i + 1) l'
  end.

Definition enumerate {A} (l : list A) : list (Z * A) := enumerate_from 0 l.

Lemma zlen_nonneg {A} (l : list A) : 0 <= zlen l.
Proof. unfold zlen. lia. Qed.

Lemma length_enumerate_from {A} i (l : list A) :
  length (enumerate_from i l) = length l.
Proof. revert i. induction l; intros i; simpl; auto. Qed.

Lemma enumerate_from_lookup {A} i (l : list A) k x :
  l !! k = Some x -> enumerate_from i l !! k = Some (i + Z.of_nat k, x).
Proof.
  revert i k. induction l as [|y l IH]; intros i [|k] H; simpl in *; try done.
  - injection H as <-. do 2 f_equal. lia.
  - rewrite (IH _ _ H). do 2 f_equal. lia.
Qed.

Lemma enumerate_from_lookup_inv {A} i (l : list A) k p :
  enumerate_from i l !! k = Some p -> p.1 = i + Z.of_nat k /\ l !! k = Some p.2.
Proof.
  revert i k. induction l as [|y l IH]; intros i [|k] H; simpl in *; try done.
  - injection H as <-. split; [simpl; lia|done].
  - destruct (IH _ _ H) as [-> Hl]. split; [lia|done].
Qed.

Lemma enumerate_lookup {A} (l : list A) k i x :
  enumerate l !! k = Some (i, x) -> i = Z.of_nat k /\ l !! k = Some x.
Proof. intros H. apply enumerate_from_lookup_inv in H as [H1 H2]. simpl in *. split; [lia|done]. Qed.

Lemma enumerate_from_indices {A} i (l : list A) :
  NoDup (map fst (enumerate_from i l)) /\ Forall (fun p => i <= p.1) (enumerate_from i l).
Proof.
  revert i. induction l as [|x l IH]; intros i; simpl; [by split; constructor|].
  destruct (IH (i + 1)) as [Hn Hf]. rewrite NoDup_cons, Forall_cons. rewrite Forall_forall in Hf.
  split_and!; [|exact Hn|reflexivity|].
  - rewrite list_elem_of_fmap. intros (p & Hp & Hin). specialize (Hf _ Hin). cbn beta in Hf. lia.
  - apply Forall_forall. intros p Hin. specialize (Hf _ Hin). cbn beta in Hf. lia.
Qed.

(** * Strings

    A Go string is a sequence of bytes; a Rocq [string] is one too, so
    [String.length] is [len] and [String.get] is indexing. *)

Definition lf : Ascii.ascii := Ascii.ascii_of_nat 10.
Definition cr : Ascii.ascii := Ascii.ascii_of_nat 13.
Definition dquote : Ascii.ascii := Ascii.ascii_of_nat 34.
Definition backslash : Ascii.ascii := Ascii.ascii_of_nat 92.

Definition slen (s : string) : Z := Z.of_nat (String.length s).

(** [strconv.Itoa] and the verb [%d]. *)
Definition itoa (n : Z) : string := pretty n.
