(* ===== verification/Sorting.v ===== *)
(** Go's [sort.SliceStable] and [slices.SortFunc] by a string key, and what is
    known of sorted slices. *)
From S2P Require Export Prelude.
From Stdlib Require Import String Sorted.
From stdpp Require Import sorting.

Section sort_by.
Context {A : Type} (key : A -> string).

Definition key_le (x y : A) : Prop := String.le (key x) (key y).

(** A stable sort: an element stays before those with the same key that came
    after it. *)
Fixpoint insert_by (x : A) (l : list A) : list A :=
  match l with
  | [] => [x]
  | y :: l' => if String.ltb (key y) (key x) then y :: insert_by x l' else x :: l
  end.
Fixpoint sort_by (l : list A) : list A :=
  match l with
  | [] => []
  | x :: l' => insert_by x (sort_by l')
  end.

Lemma ltb_le s t : String.ltb s t = true -> String.le s t.
Proof. unfold String.ltb, String.le, String.leb. by destruct (String.compare s t). Qed.
Lemma not_ltb_le s t : String.ltb s t = false -> String.le t s.
Proof.
  unfold String.ltb, String.le, String.leb. rewrite (String.compare_antisym t s).
  by destruct (String.compare s t).
Qed.

#[local] Instance key_le_trans : Transitive key_le.
Proof. intros x y z. unfold key_le. by etrans. Qed.

Lemma insert_by_perm x l : insert_by x l ≡ₚ x :: l.
Proof.
  induction l as [|y l IH]; [done|]. cbn [insert_by]. destruct (String.ltb _ _); [|done].
  rewrite IH. constructor.
Qed.
Lemma sort_by_perm l : sort_by l ≡ₚ l.
Proof. induction l as [|x l IH]; [done|]. cbn [sort_by]. by rewrite insert_by_perm, IH. Qed.

Lemma insert_by_sorted x l : StronglySorted key_le l -> StronglySorted key_le (insert_by x l).
Proof.
  induction 1 as [|y l Hs IH Hy]; [by repeat constructor|]. cbn [insert_by].
  destruct (String.ltb _ _) eqn:E.
  - constructor; [done|]. rewrite insert_by_perm. constructor; [by apply ltb_le in E|done].
  - apply not_ltb_le in E. constructor; [by constructor|]. constructor; [done|].
    eapply Forall_impl; [exact Hy|]. intros z Hz. by trans y.
Qed.
Lemma sort_by_sorted l : StronglySorted key_le (sort_by l).
Proof. induction l; [constructor|]. by apply insert_by_sorted. Qed.

(** With distinct keys there is only one sorted order. *)
Lemma sorted_unique l l' :
  NoDup (map key l) -> StronglySorted key_le l -> StronglySorted key_le l' -> l ≡ₚ l' -> l = l'.
Proof.
  intros Hnd Hl Hl' Hp. eapply (StronglySorted_unique_strong key_le); try done.
  intros x y Hx Hy Hxy Hyx. rewrite <-Hp in Hy.
  assert (Hk : key x = key y) by (by apply (anti_symm String.le)).
  apply list_elem_of_lookup in Hx as [i Hi]. apply list_elem_of_lookup in Hy as [j Hj].
  assert (i = j).
  { eapply NoDup_lookup; [exact Hnd| |].
    - rewrite list_lookup_fmap, Hi. reflexivity.
    - rewrite list_lookup_fmap, Hj. cbn. by rewrite Hk. }
  subst j. congruence.
Qed.

(** A slice with distinct keys is sorted to the same whatever its order was. *)
Lemma sort_by_unique l l' : NoDup (map key l) -> l ≡ₚ l' -> sort_by l = sort_by l'.
Proof.
  intros Hnd Hp. apply sorted_unique; [|apply sort_by_sorted..|by rewrite !sort_by_perm].
  by rewrite sort_by_perm.
Qed.

Lemma sort_by_id l : StronglySorted key_le l -> sort_by l = l.
Proof.
  induction 1 as [|x l Hs IH Hx]; [done|]. cbn [sort_by]. rewrite IH.
  destruct Hx as [|y l Hy _]; [done|]. cbn [insert_by].
  destruct (String.ltb (key y) (key x)) eqn:E; [|done].
  exfalso. unfold key_le, String.le, String.leb, String.ltb in *.
  rewrite (String.compare_antisym (key y) (key x)) in E. by destruct (String.compare (key x) (key y)).
Qed.
End sort_by.

(** A map that keeps the key commutes with sorting. *)
Lemma sort_by_map {A} (key : A -> string) (f : A -> A) l :
  (forall x, key (f x) = key x) -> sort_by key (map f l) = map f (sort_by key l).
Proof.
  intros Hf. assert (Hi : forall x l, insert_by key (f x) (map f l) = map f (insert_by key x l)).
  { intros x l'. induction l' as [|y l' IH]; [done|]. cbn. rewrite !Hf.
    destruct (String.ltb _ _); cbn; [by rewrite IH|done]. }
  induction l as [|x l IH]; [done|]. cbn. by rewrite IH, Hi.
Qed.
