(* ===== verification/GoStrings.v ===== *)
(** The functions of Go's [strings], [strconv] and [fmt] packages that the
    modelled code calls, on byte strings. *)
From S2P Require Export Prelude.
From Stdlib Require Import Ascii String.

(** * [strings] *)

(** [strings.Join]. *)
Fixpoint str_join (sep : string) (l : list string) : string :=
  match l with
  | [] => ""
  | [s] => s
  | s :: l' => s +:+ sep +:+ str_join sep l'
  end.

(** [strings.HasPrefix]. *)
Definition has_prefix (s p : string) : bool := String.prefix p s.

(** [s[i:]] for [0 <= i <= len s]. *)
Fixpoint drop_str (n : nat) (s : string) : string :=
  match n, s with
  | O, _ => s
  | S n', String _ s' => drop_str n' s'
  | S _, EmptyString => EmptyString
  end.

(** [s[:i]] for [0 <= i <= len s]. *)
Fixpoint take_str (n : nat) (s : string) : string :=
  match n, s with
  | S n', String c s' => String c (take_str n' s')
  | _, _ => EmptyString
  end.

(** [strings.HasSuffix]. *)
Definition has_suffix (s p : string) : bool :=
  (String.length p <=? String.length s)%nat &&
  String.eqb (drop_str (String.length s - String.length p) s) p.

(** [strings.Contains]. *)
Fixpoint str_contains (s sub : string) : bool :=
  has_prefix s sub || match s with EmptyString => false | String _ s' => str_contains s' sub end.

(** [strings.TrimPrefix] and [strings.TrimSuffix]. *)
Definition trim_prefix (s p : string) : string :=
  if has_prefix s p then drop_str (String.length p) s else s.
Definition trim_suffix (s p : string) : string :=
  if has_suffix s p then take_str (String.length s - String.length p) s else s.

(** [strings.IndexByte] and [strings.LastIndex] for a one-byte needle;
    [None] stands for [-1]. *)
Fixpoint index_byte (c : ascii) (s : string) : option nat :=
  match s with
  | EmptyString => None
  | String d s' => if Ascii.eqb c d then Some O else S <$> index_byte c s'
  end.

Fixpoint last_index_byte (c : ascii) (s : string) : option nat :=
  match s with
  | EmptyString => None
  | String d s' =>
      match last_index_byte c s' with
      | Some i => Some (S i)
      | None => if Ascii.eqb c d then Some O else None
      end
  end.

(** [strings.Split] for a one-byte separator. *)
Fixpoint split_byte (c : ascii) (s : string) : list string :=
  match s with
  | EmptyString => [EmptyString]
  | String d s' =>
      if Ascii.eqb c d then EmptyString :: split_byte c s'
      else match split_byte c s' with
           | [] => [String d EmptyString]
           | w :: ws => String d w :: ws
           end
  end.

(** [strings.ReplaceAll] of a byte by a byte. *)
Fixpoint replace_byte (a b : ascii) (s : string) : string :=
  match s with
  | EmptyString => EmptyString
  | String c s' => String (if Ascii.eqb a c then b else c) (replace_byte a b s')
  end.

(** ASCII case folding, which is what [strings.EqualFold] does on the MAC
    addresses it is used for. *)
Definition lower_ascii (c : ascii) : ascii :=
  let n := nat_of_ascii c in
  if (65 <=? n)%nat && (n <=? 90)%nat then ascii_of_nat (n + 32) else c.
Fixpoint lower (s : string) : string :=
  match s with
  | EmptyString => EmptyString
  | String c s' => String (lower_ascii c) (lower s')
  end.
Definition equal_fold (s t : string) : bool := String.eqb (lower s) (lower t).

(** * [strconv] *)

Definition is_digit (c : ascii) : bool :=
  let n := nat_of_ascii c in (48 <=? n)%nat && (n <=? 57)%nat.
Definition digit_val (c : ascii) : Z := Z.of_nat (nat_of_ascii c) - 48.

(** The value of a run of decimal digits, [None] at any other byte. *)
Fixpoint digits_val (acc : Z) (s : string) : option Z :=
  match s with
  | EmptyString => Some acc
  | String c s' => if is_digit c then digits_val (acc * 10 + digit_val c) s' else None
  end.

(** [strconv.Atoi] on a 64-bit platform: an optional sign, then at least one
    digit; a value outside [int] is an error. *)
Inductive atoi_error := ErrSyntax | ErrRange.

Definition int64_min : Z := - 2 ^ 63.
Definition int64_max : Z := 2 ^ 63 - 1.

Definition atoi (s : string) : Z + atoi_error :=
  let '(neg, body) :=
    match s with
    | String c s' =>
        if Ascii.eqb c "+" then (false, s')
        else if Ascii.eqb c "-" then (true, s')
        else (false, s)
    | EmptyString => (false, s)
    end in
  match body with
  | EmptyString => inr ErrSyntax
  | _ =>
      match digits_val 0 body with
      | None => inr ErrSyntax
      | Some v =>
          let v := if neg then - v else v in
          if (int64_min <=? v) && (v <=? int64_max) then inl v else inr ErrRange
      end
  end.

(** [strconv.Quote] and the verb [%q]: ASCII escapes as Go writes them; a byte
    above 127 is taken as part of a printable UTF-8 sequence and kept. *)
Definition hex_digit (n : nat) : ascii :=
  if (n <? 10)%nat then ascii_of_nat (48 + n) else ascii_of_nat (87 + n).

Definition escape_byte (c : ascii) : string :=
  let n := nat_of_ascii c in
  let bs s := String backslash s in
  match n with
  | 7%nat => bs "a" | 8%nat => bs "b" | 9%nat => bs "t" | 10%nat => bs "n"
  | 11%nat => bs "v" | 12%nat => bs "f" | 13%nat => bs "r"
  | 34%nat => bs (String dquote "") | 92%nat => bs (String backslash "")
  | _ =>
      if (n <? 32)%nat || (n =? 127)%nat then
        bs (String "x" (String (hex_digit (n / 16)) (String (hex_digit (n mod 16)) "")))
      else String c ""
  end.

Fixpoint escape (s : string) : string :=
  match s with
  | EmptyString => ""
  | String c s' => escape_byte c +:+ escape s'
  end.
Definition quote (s : string) : string :=
  String dquote "" +:+ escape s +:+ String dquote "".

(** * [fmt.Sprintf]

    The verbs the code uses: [%s] and [%v] print an operand, [%d] an integer,
    [%q] quotes a string. Operands are consumed from left to right. *)
Inductive fmt_arg := AS (s : string) | AZ (n : Z) | AL (l : list string).

Definition show_arg (a : fmt_arg) : string :=
  match a with
  | AS s => s
  | AZ n => itoa n
  | AL l => "[" +:+ str_join " " l +:+ "]"
  end.
Definition quote_arg (a : fmt_arg) : string :=
  match a with AS s => quote s | AZ n => itoa n | AL l => "[" +:+ str_join " " (quote <$> l) +:+ "]" end.

Fixpoint sprintf (f : string) (args : list fmt_arg) : string :=
  match f with
  | EmptyString => ""
  | String c f' =>
      if Ascii.eqb c "%" then
        match f' with
        | String v f'' =>
            if Ascii.eqb v "%" then String "%" (sprintf f'' args)
            else match args with
                 | a :: args' =>
                     (if Ascii.eqb v "q" then quote_arg a else show_arg a) +:+ sprintf f'' args'
                 | [] => "%!" +:+ String v "(MISSING)" +:+ sprintf f'' []
                 end
        | EmptyString => "%!(NOVERB)"
        end
      else String c (sprintf f' args)
  end.

(** * [path.Join] of two elements *)

(** The components [path.Clean] keeps, last first: empty ones and dots go, and
    a double dot takes the one before it, or goes at the root. *)
Fixpoint clean_components (rooted : bool) (l acc : list string) : list string :=
  match l with
  | [] => acc
  | c :: l' =>
      if String.eqb c "" || String.eqb c "." then clean_components rooted l' acc
      else if String.eqb c ".." then
        clean_components rooted l'
          (match acc with
           | [] => if rooted then [] else [".."]
           | d :: acc' => if String.eqb d ".." then ".." :: acc else acc'
           end)
      else clean_components rooted l' (c :: acc)
  end.

Definition path_clean (p : string) : string :=
  let rooted := has_prefix p "/" in
  let s := str_join "/" (rev (clean_components rooted (split_byte "/" p) [])) in
  if rooted then "/" +:+ s else if String.eqb s "" then "." else s.

Definition path_join (a b : string) : string :=
  if String.eqb a "" then (if String.eqb b "" then "" else path_clean b)
  else if String.eqb b "" then path_clean a
  else path_clean (a +:+ "/" +:+ b).

Example path_join_1 : path_join "/dc0/vm/folder" "vm-1" = "/dc0/vm/folder/vm-1" /\
  path_join "/a//b/./" "../c" = "/a/c" /\ path_join "" "x" = "x" /\ path_join "a" "../.." = "..".
Proof. repeat split; reflexivity. Qed.

(** * Lemmas *)

Lemma string_app_cons c (s t : string) : String c s +:+ t = String c (s +:+ t).
Proof. reflexivity. Qed.

Lemma string_app_nil_l (s : string) : "" +:+ s = s.
Proof. reflexivity. Qed.

Lemma string_app_nil_r (s : string) : s +:+ "" = s.
Proof. induction s as [|c s IH]; [done|]. by rewrite string_app_cons, IH. Qed.

Lemma string_app_assoc (s t u : string) : (s +:+ t) +:+ u = s +:+ (t +:+ u).
Proof. induction s as [|c s IH]; [done|]. by rewrite !string_app_cons, IH. Qed.

Lemma string_length_app (s t : string) :
  String.length (s +:+ t) = (String.length s + String.length t)%nat.
Proof. induction s as [|c s IH]; [done|]. rewrite string_app_cons. simpl. by rewrite IH. Qed.

Lemma length_take_str n s : String.length (take_str n s) = Nat.min n (String.length s).
Proof. revert s. induction n as [|n IH]; intros [|c s]; simpl; auto. Qed.

Lemma length_drop_str n s : String.length (drop_str n s) = (String.length s - n)%nat.
Proof. revert s. induction n as [|n IH]; intros [|c s]; simpl; auto. Qed.

Lemma take_str_app s t : take_str (String.length s) (s +:+ t) = s.
Proof.
  induction s as [|c s IH]; [by destruct t|]. rewrite string_app_cons. simpl. by rewrite IH.
Qed.

Lemma drop_str_app s t : drop_str (String.length s) (s +:+ t) = t.
Proof. induction s as [|c s IH]; auto. Qed.

Lemma take_drop_str n s : take_str n s +:+ drop_str n s = s.
Proof.
  revert s. induction n as [|n IH]; intros [|c s]; auto.
  simpl. by rewrite string_app_cons, IH.
Qed.

Lemma split_byte_nonempty c s : split_byte c s <> [].
Proof.
  destruct s as [|d s]; simpl; [done|]. destruct (Ascii.eqb c d); [done|].
  by destruct (split_byte c s).
Qed.

(** [strings.Join] undoes [strings.Split]. *)
Lemma str_join_cons sep w w' ws : str_join sep (w :: w' :: ws) = w +:+ sep +:+ str_join sep (w' :: ws).
Proof. reflexivity. Qed.

Lemma str_join_cons_head sep d w ws : str_join sep (String d w :: ws) = String d (str_join sep (w :: ws)).
Proof. destruct ws; [done|]. by rewrite !str_join_cons, string_app_cons. Qed.

Lemma str_join_split c s : str_join (String c "") (split_byte c s) = s.
Proof.
  induction s as [|d s IH]; [done|]. simpl.
  pose proof (split_byte_nonempty c s) as Hne.
  destruct (Ascii.eqb c d) eqn:E.
  - apply Ascii.eqb_eq in E as ->.
    destruct (split_byte d s) as [|w ws]; [done|].
    by rewrite str_join_cons, IH.
  - destruct (split_byte c s) as [|w ws]; [done|].
    by rewrite str_join_cons_head, IH.
Qed.

Lemma last_index_byte_app_notin c s t :
  last_index_byte c t = None ->
  last_index_byte c (s +:+ String c t) = Some (String.length s).
Proof.
  intros Ht. induction s as [|d s IH].
  - rewrite string_app_nil_l. simpl. by rewrite Ht, Ascii.eqb_refl.
  - rewrite string_app_cons. simpl. by rewrite IH.
Qed.

Lemma last_index_byte_lt c s i : last_index_byte c s = Some i -> (i < String.length s)%nat.
Proof.
  revert i. induction s as [|d s IH]; intros i; simpl; [done|].
  destruct (last_index_byte c s) as [j|].
  - intros [= <-]. specialize (IH j eq_refl). lia.
  - destruct (Ascii.eqb c d); [intros [= <-]; lia|done].
Qed.

(** A decimal numeral holds no byte that is not a digit (or the sign). *)
Lemma last_index_byte_pretty_N_go c x s :
  is_digit c = false ->
  last_index_byte c (pretty_N_go x s) = None <-> last_index_byte c s = None.
Proof.
  intros Hc. revert s.
  induction (N.lt_wf_0 x) as [x _ IH]; intros s.
  destruct (decide (x = 0)%N) as [->|Hx]; [by rewrite pretty_N_go_0|].
  rewrite pretty_N_go_step by lia.
  rewrite IH by (apply N.div_lt; lia). simpl.
  destruct (last_index_byte c s); [done|].
  assert (Hd : Ascii.eqb c (pretty_N_char (x `mod` 10)) = false).
  { apply Ascii.eqb_neq. intros ->. revert Hc.
    unfold pretty_N_char. by repeat case_match. }
  by rewrite Hd.
Qed.

Lemma last_index_byte_itoa c n :
  is_digit c = false -> 0 <= n -> last_index_byte c (itoa n) = None.
Proof.
  intros Hc Hn. unfold itoa, pretty, pretty_Z. destruct n as [|p|p]; [| |lia].
  - simpl. destruct (Ascii.eqb c "0") eqn:E; [|done].
    apply Ascii.eqb_eq in E as ->. done.
  - unfold pretty, pretty_N. destruct (decide (N.pos p = 0)%N); [done|].
    by apply last_index_byte_pretty_N_go.
Qed.

(** Splitting at the last occurrence of a byte is unique. *)
Lemma last_sep_inj c s1 t1 s2 t2 :
  last_index_byte c t1 = None -> last_index_byte c t2 = None ->
  s1 +:+ String c t1 = s2 +:+ String c t2 -> s1 = s2 /\ t1 = t2.
Proof.
  intros H1 H2 E.
  pose proof (last_index_byte_app_notin c s1 t1 H1) as L1.
  pose proof (last_index_byte_app_notin c s2 t2 H2) as L2.
  rewrite E, L2 in L1. injection L1 as L1.
  assert (s1 = s2) as ->.
  { rewrite <- (take_str_app s1 (String c t1)), E, <- L1. by rewrite take_str_app. }
  split; [done|].
  apply (f_equal (drop_str (String.length s2))) in E.
  rewrite !drop_str_app in E. by injection E.
Qed.

#[export] Instance itoa_inj : Inj (=) (=) itoa.
Proof. intros x y H. by apply (inj pretty) in H. Qed.
