(* ===== verification/GoBase64.v ===== *)
(** Go's [encoding/base64], standard encoding with padding: [EncodeToString]
    and [DecodeString] on byte strings, and their round trip. *)
From S2P Require Export GoStrings.
From Stdlib Require Import Ascii String.

Definition byte_val (c : ascii) : Z := Z.of_N (N_of_ascii c).
Definition byte_of (n : Z) : ascii := ascii_of_N (Z.to_N n).

Definition b64_pad : ascii := "="%char.

(** The alphabet of [base64.StdEncoding]: upper case, lower case, digits, plus
    and slash. *)
Definition b64_char (n : Z) : ascii :=
  byte_of
    (if n <? 26 then 65 + n
     else if n <? 52 then 71 + n
     else if n <? 62 then n - 4
     else if n =? 62 then 43 else 47).

Definition b64_val (c : ascii) : option Z :=
  let n := byte_val c in
  if (65 <=? n) && (n <=? 90) then Some (n - 65)
  else if (97 <=? n) && (n <=? 122) then Some (n - 71)
  else if (48 <=? n) && (n <=? 57) then Some (n + 4)
  else if n =? 43 then Some 62
  else if n =? 47 then Some 63
  else None.

(** The three bytes of a 24-bit group, and its four 6-bit digits. *)
Definition group3 (a b c : Z) : Z := a * 65536 + b * 256 + c.
Definition group4 (x y z w : Z) : Z := x * 262144 + y * 4096 + z * 64 + w.
Definition digit64 (v : Z) (k : Z) : ascii := b64_char (v / 64 ^ k mod 64).
Definition octet (v : Z) (k : Z) : ascii := byte_of (v / 256 ^ k mod 256).

(** [base64.StdEncoding.EncodeToString]. *)
Fixpoint b64_encode (s : string) : string :=
  match s with
  | EmptyString => ""
  | String a EmptyString =>
      let v := group3 (byte_val a) 0 0 in
      String (digit64 v 3) (String (digit64 v 2) (String b64_pad (String b64_pad "")))
  | String a (String b EmptyString) =>
      let v := group3 (byte_val a) (byte_val b) 0 in
      String (digit64 v 3) (String (digit64 v 2) (String (digit64 v 1) (String b64_pad "")))
  | String a (String b (String c s')) =>
      let v := group3 (byte_val a) (byte_val b) (byte_val c) in
      String (digit64 v 3) (String (digit64 v 2)
        (String (digit64 v 1) (String (digit64 v 0) (b64_encode s'))))
  end.

(** Carriage returns and line feeds are ignored wherever they occur. *)
Fixpoint strip_newlines (s : string) : string :=
  match s with
  | EmptyString => ""
  | String c s' =>
      if Ascii.eqb c lf || Ascii.eqb c cr then strip_newlines s'
      else String c (strip_newlines s')
  end.

(** Quanta of four bytes; the last one may end in one or two padding bytes, and
    nothing may follow padding. Trailing bits of a padded quantum are not
    checked, as [StdEncoding] is not strict. *)
Fixpoint b64_decode_quanta (s : string) : option string :=
  match s with
  | EmptyString => Some ""
  | String a (String b (String c (String d r))) =>
      match b64_val a, b64_val b with
      | Some x, Some y =>
          match b64_val c with
          | Some z =>
              match b64_val d with
              | Some w =>
                  let v := group4 x y z w in
                  (fun t => String (octet v 2) (String (octet v 1) (String (octet v 0) t)))
                    <$> b64_decode_quanta r
              | None =>
                  if Ascii.eqb d b64_pad && String.eqb r "" then
                    let v := group4 x y z 0 in
                    Some (String (octet v 2) (String (octet v 1) ""))
                  else None
              end
          | None =>
              if Ascii.eqb c b64_pad && Ascii.eqb d b64_pad && String.eqb r "" then
                Some (String (octet (group4 x y 0 0) 2) "")
              else None
          end
      | _, _ => None
      end
  | _ => None
  end.

(** [base64.StdEncoding.DecodeString]; [None] is a [CorruptInputError]. *)
Definition b64_decode (s : string) : option string := b64_decode_quanta (strip_newlines s).

(** * Lemmas *)

(** Induction on a string three (or four) bytes at a time. *)
Lemma string_strong_ind (P : string -> Prop) :
  (forall s, (forall t, (String.length t < String.length s)%nat -> P t) -> P s) -> forall s, P s.
Proof.
  intros H s. remember (String.length s) as n eqn:E. revert s E.
  induction (Nat.lt_wf_0 n) as [n _ IH]; intros s ->. apply H. intros t Ht. by eapply IH.
Qed.

Lemma byte_val_range c : 0 <= byte_val c < 256.
Proof.
  unfold byte_val. pose proof (N_ascii_bounded c). lia.
Qed.

Lemma byte_of_val c : byte_of (byte_val c) = c.
Proof. unfold byte_of, byte_val. rewrite N2Z.id. apply ascii_N_embedding. Qed.

Lemma byte_val_of n : 0 <= n < 256 -> byte_val (byte_of n) = n.
Proof.
  intros H. unfold byte_of, byte_val. rewrite N_ascii_embedding; [|lia]. lia.
Qed.

(** Every digit of the alphabet is recognised: checked on the 64 digits. *)
Lemma b64_val_char n : 0 <= n < 64 -> b64_val (b64_char n) = Some n.
Proof.
  intros H.
  assert (HA : Forall (fun k => b64_val (b64_char k) = Some k) (seqZ 0 64)).
  { apply Forall_forall. intros k. revert k. apply Forall_forall.
    repeat (constructor; [reflexivity|]). constructor. }
  rewrite Forall_forall in HA. apply HA. apply elem_of_seqZ. lia.
Qed.

Lemma b64_char_not_newline n : 0 <= n < 64 ->
  Ascii.eqb (b64_char n) lf || Ascii.eqb (b64_char n) cr = false.
Proof.
  intros H. pose proof (b64_val_char n H) as HV.
  destruct (Ascii.eqb (b64_char n) lf) eqn:E1.
  { apply Ascii.eqb_eq in E1. rewrite E1 in HV. discriminate. }
  destruct (Ascii.eqb (b64_char n) cr) eqn:E2; [|done].
  apply Ascii.eqb_eq in E2. rewrite E2 in HV. discriminate.
Qed.

Lemma digit64_range v k : 0 <= v / 64 ^ k mod 64 < 64.
Proof. apply Z.mod_pos_bound. lia. Qed.

Lemma b64_val_digit v k : b64_val (digit64 v k) = Some (v / 64 ^ k mod 64).
Proof. apply b64_val_char, digit64_range. Qed.

Lemma digit64_not_newline v k :
  Ascii.eqb (digit64 v k) lf || Ascii.eqb (digit64 v k) cr = false.
Proof. apply b64_char_not_newline, digit64_range. Qed.

(** The four digits of a group give the group back. *)
Lemma group4_digits v : 0 <= v < 16777216 ->
  group4 (v / 64 ^ 3 mod 64) (v / 64 ^ 2 mod 64) (v / 64 ^ 1 mod 64) (v / 64 ^ 0 mod 64) = v.
Proof.
  intros H. unfold group4.
  change (64 ^ 3) with 262144. change (64 ^ 2) with 4096.
  change (64 ^ 1) with 64. change (64 ^ 0) with 1.
  Z.to_euclidean_division_equations. lia.
Qed.

Lemma group4_digits_2 v : 0 <= v < 16777216 -> v mod 64 = 0 ->
  group4 (v / 64 ^ 3 mod 64) (v / 64 ^ 2 mod 64) (v / 64 ^ 1 mod 64) 0 = v.
Proof.
  intros H H0. rewrite <- (group4_digits v H) at 4.
  change (64 ^ 0) with 1. rewrite Z.div_1_r. by rewrite H0.
Qed.

Lemma group4_digits_1 v : 0 <= v < 16777216 -> v mod 4096 = 0 ->
  group4 (v / 64 ^ 3 mod 64) (v / 64 ^ 2 mod 64) 0 0 = v.
Proof.
  intros H H0. unfold group4.
  change (64 ^ 3) with 262144. change (64 ^ 2) with 4096.
  Z.to_euclidean_division_equations. lia.
Qed.

(** The three octets of a group of three bytes are those bytes. *)
Lemma octets_group3 a b c : 0 <= a < 256 -> 0 <= b < 256 -> 0 <= c < 256 ->
  group3 a b c / 256 ^ 2 mod 256 = a /\ group3 a b c / 256 ^ 1 mod 256 = b /\
  group3 a b c / 256 ^ 0 mod 256 = c.
Proof.
  intros Ha Hb Hc. unfold group3.
  change (256 ^ 2) with 65536. change (256 ^ 1) with 256. change (256 ^ 0) with 1.
  Z.to_euclidean_division_equations. lia.
Qed.

Lemma strip_newlines_encode s : strip_newlines (b64_encode s) = b64_encode s.
Proof.
  induction s as [s IH] using string_strong_ind.
  destruct s as [|a [|b [|c s]]]; cbn [b64_encode strip_newlines];
    rewrite ?digit64_not_newline; try done.
  rewrite IH by (simpl; lia). done.
Qed.

Lemma b64_decode_quanta_encode s : b64_decode_quanta (b64_encode s) = Some s.
Proof.
  induction s as [s IH] using string_strong_ind.
  assert (HL : group3 0 0 0 = 0) by reflexivity.
  destruct s as [|a [|b [|c s]]].
  - done.
  - pose proof (byte_val_range a) as Ha.
    destruct (octets_group3 (byte_val a) 0 0) as (E2 & _ & _); try lia.
    assert (Hm : group3 (byte_val a) 0 0 mod 4096 = 0)
      by (unfold group3; Z.to_euclidean_division_equations; lia).
    cbn [b64_encode b64_decode_quanta]. rewrite !b64_val_digit.
    change (b64_val b64_pad) with (@None Z). cbn.
    rewrite group4_digits_1; [|unfold group3; lia|done].
    unfold octet. rewrite E2, byte_of_val. done.
  - pose proof (byte_val_range a) as Ha. pose proof (byte_val_range b) as Hb.
    destruct (octets_group3 (byte_val a) (byte_val b) 0) as (E2 & E1 & _); try lia.
    assert (Hm : group3 (byte_val a) (byte_val b) 0 mod 64 = 0)
      by (unfold group3; Z.to_euclidean_division_equations; lia).
    cbn [b64_encode b64_decode_quanta]. rewrite !b64_val_digit.
    change (b64_val b64_pad) with (@None Z). cbn.
    rewrite group4_digits_2; [|unfold group3; lia|done].
    unfold octet. rewrite E2, E1, !byte_of_val. done.
  - pose proof (byte_val_range a) as Ha. pose proof (byte_val_range b) as Hb.
    pose proof (byte_val_range c) as Hc.
    destruct (octets_group3 (byte_val a) (byte_val b) (byte_val c)) as (E2 & E1 & E0); try lia.
    cbn [b64_encode b64_decode_quanta]. rewrite !b64_val_digit.
    rewrite IH by (simpl; lia). rewrite group4_digits by (unfold group3; lia).
    cbn. unfold octet. rewrite E2, E1, E0, !byte_of_val. done.
Qed.

(** [DecodeString (EncodeToString s) = s]. *)
Lemma b64_decode_encode s : b64_decode (b64_encode s) = Some s.
Proof. unfold b64_decode. rewrite strip_newlines_encode. apply b64_decode_quanta_encode. Qed.

Lemma length_strip_newlines s : (String.length (strip_newlines s) <= String.length s)%nat.
Proof. induction s as [|c s IH]; simpl; [lia|]. destruct (_ || _); simpl; lia. Qed.

(** A decoded text is three quarters of the encoded one at most. *)
Lemma length_b64_decode_quanta s t :
  b64_decode_quanta s = Some t -> (4 * String.length t <= 3 * String.length s)%nat.
Proof.
  revert t. induction s as [s IH] using string_strong_ind. intros t H.
  destruct s as [|a [|b [|c [|d r]]]]; simpl in H; try discriminate.
  { injection H as <-. simpl. lia. }
  repeat case_match; simplify_eq/=; try lia.
  destruct (b64_decode_quanta r) as [t'|] eqn:E; simplify_eq/=.
  apply IH in E; [|simpl; lia]. lia.
Qed.

Lemma length_b64_decode s t :
  b64_decode s = Some t -> (4 * String.length t <= 3 * String.length s)%nat.
Proof.
  intros H. apply length_b64_decode_quanta in H.
  pose proof (length_strip_newlines s). lia.
Qed.

(** Decoding shortens every non-empty text, whatever it holds. *)
Lemma b64_decode_shorter s t :
  s <> "" -> b64_decode s = Some t -> (String.length t < String.length s)%nat.
Proof.
  intros Hs H. apply length_b64_decode in H.
  destruct s; [done|]. simpl in *. lia.
Qed.
