(* ===== verification/GoNet.v ===== *)
(** Go's [net/netip] and the part of [net] the code uses: parsing, classifying
    and printing IP addresses, prefixes and CIDR blocks. *)
From S2P Require Export GoStrings.
From Stdlib Require Import Ascii.

(** [netip.Addr] (valid addresses): four octets, or eight 16-bit fields and a
    zone. *)
Inductive Addr :=
| V4 (a b c d : Z)
| V6 (fields : list Z) (zone : string).

#[export] Instance addr_eq_dec : EqDecision Addr.
Proof. solve_decision. Defined.

(** * Parsing *)

(** A field of a dotted address: one to three digits without a leading zero, at
    most 255. *)
Definition parse_octet (s : string) : option Z :=
  match s with
  | EmptyString => None
  | String c s' =>
      if Ascii.eqb c "0" && negb (String.eqb s' "") then None
      else match digits_val 0 s with
           | Some v => if v <=? 255 then Some v else None
           | None => None
           end
  end.

(** [netip.parseIPv4Fields]. *)
Definition parse_ipv4_fields (s : string) : option (Z * Z * Z * Z) :=
  match split_byte "." s with
  | [a; b; c; d] =>
      a ← parse_octet a; b ← parse_octet b; c ← parse_octet c; d ← parse_octet d;
      Some (a, b, c, d)
  | _ => None
  end.

Definition hex_val (c : ascii) : option Z :=
  let n := Z.of_nat (nat_of_ascii c) in
  if (48 <=? n) && (n <=? 57) then Some (n - 48)
  else if (97 <=? n) && (n <=? 102) then Some (n - 87)
  else if (65 <=? n) && (n <=? 70) then Some (n - 55)
  else None.

(** The longest run of hexadecimal digits: its value, its length, the rest. *)
Fixpoint hex_run (acc : Z) (n : nat) (s : string) : Z * nat * string :=
  match s with
  | EmptyString => (acc, n, s)
  | String c s' =>
      match hex_val c with
      | Some v => hex_run (acc * 16 + v) (S n) s'
      | None => (acc, n, s)
      end
  end.

(** The loop of [netip.parseIPv6]: the fields read so far, the place of the
    ellipsis, and what is left of the text. *)
Fixpoint parse_ipv6_loop (fuel : nat) (s : string) (fs : list Z) (ell : option nat)
    : option (list Z * option nat) :=
  match fuel with
  | O => None
  | S fuel' =>
      if (length fs =? 8)%nat then (if String.eqb s "" then Some (fs, ell) else None)
      else
        let '(v, n, rest) := hex_run 0 0 s in
        if (n =? 0)%nat || (4 <? n)%nat then None
        else
          match rest with
          | EmptyString => Some ((fs ++ [v])%list, ell)
          | String c rest' =>
              if Ascii.eqb c "." then
                if (bool_decide (ell = None) && negb (length fs =? 6)%nat) || (6 <? length fs)%nat
                then None
                else match parse_ipv4_fields s with
                     | Some (a, b, c, d) => Some ((fs ++ [a * 256 + b; c * 256 + d])%list, ell)
                     | None => None
                     end
              else if Ascii.eqb c ":" then
                match rest' with
                | EmptyString => None
                | String c' rest'' =>
                    if Ascii.eqb c' ":" then
                      match ell with
                      | Some _ => None
                      | None =>
                          let fs' := (fs ++ [v])%list in
                          if String.eqb rest'' "" then Some (fs', Some (length fs'))
                          else parse_ipv6_loop fuel' rest'' fs' (Some (length fs'))
                      end
                    else parse_ipv6_loop fuel' rest' (fs ++ [v])%list ell
                end
              else None
          end
  end.

(** The fields the ellipsis stands for are filled in; it must stand for one at
    least, and only an ellipsis may make an address shorter than eight fields. *)
Definition expand_ellipsis (fs : list Z) (ell : option nat) : option (list Z) :=
  match ell with
  | None => if (length fs =? 8)%nat then Some fs else None
  | Some i =>
      if (length fs <? 8)%nat
      then Some ((take i fs ++ replicate (8 - length fs) 0 ++ drop i fs)%list)
      else None
  end.

Definition parse_ipv6 (s : string) : option Addr :=
  let '(body, zone) :=
    match index_byte "%" s with
    | Some i => (take_str i s, Some (drop_str (S i) s))
    | None => (s, None)
    end in
  if bool_decide (zone = Some "") then None
  else
    let z := ptr_deref zone "" in
    match body with
    | String a (String b rest) =>
        if Ascii.eqb a ":" && Ascii.eqb b ":" then
          if String.eqb rest "" then Some (V6 (replicate 8 0) z)
          else '(fs, ell) ← parse_ipv6_loop 9 rest [] (Some O);
               fs ← expand_ellipsis fs ell; Some (V6 fs z)
        else '(fs, ell) ← parse_ipv6_loop 9 body [] None;
             fs ← expand_ellipsis fs ell; Some (V6 fs z)
    | _ =>
        '(fs, ell) ← parse_ipv6_loop 9 body [] None;
        fs ← expand_ellipsis fs ell; Some (V6 fs z)
    end.

(** [netip.ParseAddr]: the first dot, colon or percent sign decides. *)
Fixpoint first_special (s : string) : option ascii :=
  match s with
  | EmptyString => None
  | String c s' =>
      if Ascii.eqb c "." || Ascii.eqb c ":" || Ascii.eqb c "%" then Some c else first_special s'
  end.

Definition parse_addr (s : string) : option Addr :=
  match first_special s with
  | Some c =>
      if Ascii.eqb c "." then '(a, b, c, d) ← parse_ipv4_fields s; Some (V4 a b c d)
      else if Ascii.eqb c ":" then parse_ipv6 s
      else None
  | None => None
  end.

Definition is4 (a : Addr) : bool := match a with V4 _ _ _ _ => true | V6 _ _ => false end.
Definition zone_of (a : Addr) : string := match a with V4 _ _ _ _ => "" | V6 _ z => z end.
Definition bit_len (a : Addr) : Z := if is4 a then 32 else 128.

(** [net.IP] in its 16-byte form, as eight fields. *)
Definition as16 (a : Addr) : list Z :=
  match a with
  | V4 a b c d => [0; 0; 0; 0; 0; 65535; a * 256 + b; c * 256 + d]
  | V6 fs _ => fs
  end.

(** [net.ParseIP]. *)
Definition parse_ip (s : string) : option (list Z) :=
  a ← parse_addr s; if String.eqb (zone_of a) "" then Some (as16 a) else None.

(** [net.IP.To4]. *)
Definition to4 (ip : list Z) : option (Z * Z * Z * Z) :=
  match ip with
  | [0; 0; 0; 0; 0; m; x; y] =>
      if m =? 65535 then Some (x / 256, x mod 256, y / 256, y mod 256) else None
  | _ => None
  end.

(** [net.ParseCIDR]: the address of the block (its first result). *)
Definition parse_cidr (s : string) : option (list Z) :=
  match index_byte "/" s with
  | None => None
  | Some i =>
      a ← parse_addr (take_str i s);
      let mask := drop_str (S i) s in
      if negb (String.eqb (zone_of a) "") || String.eqb mask "" then None
      else match digits_val 0 mask with
           | Some n => if n <=? bit_len a then Some (as16 a) else None
           | None => None
           end
  end.

(** [netip.Prefix] and [netip.ParsePrefix]. *)
Record Prefix := { paddr : Addr; pbits : Z }.

#[export] Instance prefix_eq_dec : EqDecision Prefix.
Proof. solve_decision. Defined.

Definition parse_prefix (s : string) : option Prefix :=
  match last_index_byte "/" s with
  | None => None
  | Some i =>
      a ← parse_addr (take_str i s);
      let bs := drop_str (S i) s in
      if negb (String.eqb (zone_of a) "") then None
      else if match bs with
              | String c (String _ _) => negb (is_digit c) || Ascii.eqb c "0"
              | _ => false
              end then None
      else match atoi bs with
           | inl n => if (n <? 0) || (bit_len a <? n) then None
                      else Some {| paddr := a; pbits := n |}
           | inr _ => None
           end
  end.

(** * Printing *)

Definition dotted (a b c d : Z) : string :=
  itoa a +:+ "." +:+ itoa b +:+ "." +:+ itoa c +:+ "." +:+ itoa d.

(** A 16-bit field in hexadecimal without leading zeros. *)
Definition hex_field (v : Z) : string :=
  let d k := String (hex_digit (Z.to_nat (v / 16 ^ k mod 16))) "" in
  (if 4096 <=? v then d 3 else "") +:+ (if 256 <=? v then d 2 else "") +:+
  (if 16 <=? v then d 1 else "") +:+ d 0.

(** The first longest run of at least two zero fields, as start and end. *)
Fixpoint zero_run (fs : list Z) : nat :=
  match fs with 0 :: fs' => S (zero_run fs') | _ => O end.
Fixpoint best_run (i : nat) (fs : list Z) (best : nat * nat) : nat * nat :=
  match fs with
  | [] => best
  | _ :: fs' =>
      let l := zero_run fs in
      best_run (S i) fs'
        (if (2 <=? l)%nat && (best.2 - best.1 <? l)%nat then (i, (i + l)%nat) else best)
  end.

Definition print_fields (fs : list Z) : string :=
  let '(b, e) := best_run 0 fs (O, O) in
  if (b =? e)%nat then str_join ":" (hex_field <$> fs)
  else str_join ":" (hex_field <$> take b fs) +:+ "::" +:+ str_join ":" (hex_field <$> drop e fs).

(** [netip.Addr.String]. *)
Definition addr_string (a : Addr) : string :=
  match a with
  | V4 a b c d => dotted a b c d
  | V6 fs z =>
      (match to4 fs with
       | Some (a, b, c, d) => "::ffff:" +:+ dotted a b c d
       | None => print_fields fs
       end) +:+ (if String.eqb z "" then "" else "%" +:+ z)
  end.

(** [netip.Prefix.String]. *)
Definition prefix_string (p : Prefix) : string :=
  addr_string (paddr p) +:+ "/" +:+ itoa (pbits p).

(** [net.IP.String]; the nil address prints as [<nil>]. *)
Definition ip_string (ip : option (list Z)) : string :=
  match ip with
  | None => "<nil>"
  | Some fs =>
      match to4 fs with
      | Some (a, b, c, d) => dotted a b c d
      | None => print_fields fs
      end
  end.

(** * Classification of [net.IP] *)

Definition is_unspecified (ip : list Z) : bool :=
  bool_decide (ip = replicate 8 0) || bool_decide (ip = [0; 0; 0; 0; 0; 65535; 0; 0]).
Definition field0 (ip : list Z) : Z := match ip with f :: _ => f | [] => 0 end.
Definition is_link_local_multicast (ip : list Z) : bool :=
  match to4 ip with
  | Some (a, b, c, _) => (a =? 224) && (b =? 0) && (c =? 0)
  | None => (field0 ip / 256 =? 255) && (Z.land (field0 ip) 15 =? 2)
  end.
Definition is_link_local_unicast (ip : list Z) : bool :=
  match to4 ip with
  | Some (a, b, _, _) => (a =? 169) && (b =? 254)
  | None => (field0 ip / 256 =? 254) && (Z.land (field0 ip) 192 =? 128)
  end.
Definition is_loopback (ip : list Z) : bool :=
  match to4 ip with
  | Some (a, _, _, _) => a =? 127
  | None => bool_decide (ip = [0; 0; 0; 0; 0; 0; 0; 1])
  end.

(** * The length of an address text *)

Lemma digits_val_octet c s v : 0 <= v -> digits_val v s = Some c -> 0 <= c.
Proof.
  revert v. induction s as [|d s IH]; intros v Hv; simpl; [intros [= <-]; done|].
  destruct (is_digit d) eqn:E; [|done]. apply IH.
  unfold is_digit in E. unfold digit_val. apply andb_prop in E as [E1 _]. apply Nat.leb_le in E1. lia.
Qed.

(** A number of [k] digits after [v] is at least [v * 10 ^ k]. *)
Lemma digits_val_lower s v c :
  0 <= v -> digits_val v s = Some c -> v * 10 ^ slen s <= c.
Proof.
  unfold slen. revert v. induction s as [|d s IH]; intros v Hv; simpl; [intros [= <-]; lia|].
  destruct (is_digit d) eqn:E; [|done]. intros H.
  assert (Hd : 0 <= digit_val d).
  { unfold is_digit in E. unfold digit_val. apply andb_prop in E as [E1 _]. apply Nat.leb_le in E1. lia. }
  pose proof (IH (v * 10 + digit_val d) ltac:(lia) H) as G.
  rewrite Nat2Z.inj_succ, Z.pow_succ_r by lia.
  assert (0 <= 10 ^ Z.of_nat (String.length s)) by (apply Z.pow_nonneg; lia). nia.
Qed.

Lemma parse_octet_length s v : parse_octet s = Some v -> (String.length s <= 3)%nat.
Proof.
  destruct s as [|c s]; [done|]. unfold parse_octet.
  destruct (Ascii.eqb c "0") eqn:E0.
  - destruct (String.eqb s "") eqn:E; [|done]. apply String.eqb_eq in E as ->. simpl. lia.
  - simpl negb. cbv iota. destruct (digits_val 0 (String c s)) as [w|] eqn:E; [|done].
    destruct (w <=? 255) eqn:Hw; [|done]. intros _. apply Z.leb_le in Hw.
    simpl in E. destruct (is_digit c) eqn:Ec; [|done].
    assert (Hd : 1 <= digit_val c).
    { unfold is_digit in Ec. unfold digit_val. apply andb_prop in Ec as [E1 _]. apply Nat.leb_le in E1.
      apply Ascii.eqb_neq in E0. destruct (decide (nat_of_ascii c = 48%nat)) as [H48|]; [|lia].
      exfalso. apply E0. rewrite <-(ascii_nat_embedding c), H48. reflexivity. }
    pose proof (digits_val_lower _ _ _ (ltac:(lia) : 0 <= digit_val c) E) as G.
    destruct (decide (3 <= String.length s)%nat) as [H3|]; [|simpl; lia].
    exfalso. assert (10 ^ 3 <= 10 ^ slen s) by (apply Z.pow_le_mono_r; unfold slen; lia).
    change (10 ^ 3) with 1000 in *. nia.
Qed.

Lemma parse_ipv4_fields_length s r : parse_ipv4_fields s = Some r -> (String.length s <= 15)%nat.
Proof.
  unfold parse_ipv4_fields. pose proof (str_join_split "." s) as J.
  destruct (split_byte "." s) as [|a [|b [|c [|d [|]]]]]; try done.
  destruct (parse_octet a) eqn:Ea; [|done]. destruct (parse_octet b) eqn:Eb; [|done].
  destruct (parse_octet c) eqn:Ec; [|done]. destruct (parse_octet d) eqn:Ed; [|done].
  intros _. apply parse_octet_length in Ea, Eb, Ec, Ed. rewrite <-J. cbn [str_join].
  rewrite !string_length_app. simpl. lia.
Qed.

Lemma hex_run_length acc n s v n' rest :
  hex_run acc n s = (v, n', rest) -> (n' + String.length rest = n + String.length s)%nat.
Proof.
  revert acc n. induction s as [|c s IH]; intros acc n; simpl; [intros [= _ <- <-]; done|].
  destruct (hex_val c); [|intros [= _ <- <-]; done].
  intros H%IH. lia.
Qed.

Lemma parse_ipv6_loop_length fuel s fs ell r :
  parse_ipv6_loop fuel s fs ell = Some r -> (length fs <= 8)%nat ->
  (String.length s <= 5 * (8 - length fs) + 5 + match ell with Some _ => 0 | None => 1 end)%nat.
Proof.
  revert s fs ell. induction fuel as [|fuel IH]; intros s fs ell; [done|].
  simpl. destruct (length fs =? 8)%nat eqn:E8.
  { destruct (String.eqb s "") eqn:E; [|done]. apply String.eqb_eq in E as ->. simpl. lia. }
  apply Nat.eqb_neq in E8. destruct (hex_run 0 0 s) as [[v n] rest] eqn:Er.
  apply hex_run_length in Er. destruct ((n =? 0)%nat || (4 <? n)%nat) eqn:En; [done|].
  apply orb_false_iff in En as [_ En]. apply Nat.ltb_ge in En. intros H Hl.
  destruct rest as [|c rest']; [simpl in *; destruct ell; lia|]. simpl in Er.
  destruct (Ascii.eqb c ".").
  - destruct ((bool_decide (ell = None) && negb (length fs =? 6)%nat) || (6 <? length fs)%nat) eqn:E6; [done|].
    apply orb_false_iff in E6 as [_ E6]. apply Nat.ltb_ge in E6.
    destruct (parse_ipv4_fields s) eqn:E4; [|done]. apply parse_ipv4_fields_length in E4. lia.
  - destruct (Ascii.eqb c ":"); [|done]. destruct rest' as [|c' rest'']; [done|].
    destruct (Ascii.eqb c' ":").
    + destruct ell; [done|]. destruct (String.eqb rest'' "") eqn:E.
      * apply String.eqb_eq in E as ->. simpl in *. lia.
      * apply IH in H; rewrite length_app in *; simpl in *; lia.
    + apply IH in H; rewrite length_app in *; simpl in *; destruct ell; lia.
Qed.

Lemma index_byte_drop c s i :
  index_byte c s = Some i -> String.length s = (i + S (String.length (drop_str (S i) s)))%nat.
Proof.
  revert i. induction s as [|d s IH]; intros i; simpl; [done|].
  destruct (Ascii.eqb c d); [intros [= <-]; destruct s; done|].
  destruct (index_byte c s) as [j|] eqn:E; [|done]. intros [= <-].
  specialize (IH j eq_refl). simpl in *. lia.
Qed.

(** An address without a zone is at most 48 bytes long. *)
Lemma parse_ip_length s ip : parse_ip s = Some ip -> (String.length s <= 48)%nat.
Proof.
  unfold parse_ip, parse_addr. destruct (first_special s) as [c|]; [|done].
  destruct (Ascii.eqb c ".").
  { destruct (parse_ipv4_fields s) eqn:E; [|done]. apply parse_ipv4_fields_length in E. lia. }
  destruct (Ascii.eqb c ":"); [|done]. unfold parse_ipv6.
  destruct (index_byte "%" s) as [i|] eqn:Ei.
  { remember (drop_str (S i) s) as zone eqn:Ezone. clear Ezone.
    case_bool_decide as Hz; [done|]. cbn [ptr_deref]. intros H. exfalso.
    assert (Hne : zone <> "") by congruence.
    assert (G : forall o : option (list Z * option nat),
      (a ← ('(fs, ell) ← o; fs ← expand_ellipsis fs ell; Some (V6 fs zone));
       if String.eqb (zone_of a) "" then Some (as16 a) else None) <> None -> False).
    { intros [[fs ell]|]; simpl; [|done]. destruct (expand_ellipsis fs ell); simpl; [|done].
      by rewrite (proj2 (String.eqb_neq _ _) Hne). }
    destruct (take_str i s) as [|a [|b rest]]; [by eapply G; rewrite H|by eapply G; rewrite H|].
    destruct (Ascii.eqb a ":" && Ascii.eqb b ":"); [|by eapply G; rewrite H].
    destruct (String.eqb rest ""); [|by eapply G; rewrite H].
    simpl in H. by rewrite (proj2 (String.eqb_neq _ _) Hne) in H. }
  rewrite bool_decide_eq_false_2 by done. cbn [ptr_deref].
  assert (G : forall b (t : string) ell, String.length s = (b + String.length t)%nat -> (b <= 2)%nat ->
    (exists r, parse_ipv6_loop 9 t [] ell = Some r) -> (String.length s <= 48)%nat).
  { intros b t ell Hs Hb [r Hr]. apply parse_ipv6_loop_length in Hr; simpl in *; [|lia].
    destruct ell; lia. }
  destruct s as [|a [|b rest]]; [simpl; lia|simpl; lia|].
  destruct (Ascii.eqb a ":" && Ascii.eqb b ":").
  - destruct (String.eqb rest "") eqn:E; [apply String.eqb_eq in E as ->; simpl; lia|].
    destruct (parse_ipv6_loop 9 rest [] (Some O)) as [r|] eqn:Er; [|done].
    intros _. apply (G 2%nat rest (Some O)); eauto.
  - destruct (parse_ipv6_loop 9 (String a (String b rest)) [] None) as [r|] eqn:Er; [|done].
    intros _. apply (G 0%nat (String a (String b rest)) None); eauto.
Qed.

(** * Checks on concrete addresses *)

Example parse_v4 : parse_addr "10.0.0.1" = Some (V4 10 0 0 1).
Proof. reflexivity. Qed.
Example parse_v4_bad : parse_addr "10.0.0.01" = None /\ parse_addr "10.0.256.1" = None.
Proof. split; reflexivity. Qed.
Example print_v6 :
  addr_string <$> parse_addr "2001:DB8:0:0:1:0:0:1" = Some "2001:db8::1:0:0:1".
Proof. reflexivity. Qed.
Example print_v6_zone : addr_string <$> parse_addr "fe80::1%eth0" = Some "fe80::1%eth0".
Proof. reflexivity. Qed.
Example print_mapped : addr_string <$> parse_addr "::ffff:10.0.0.1" = Some "::ffff:10.0.0.1".
Proof. reflexivity. Qed.
Example print_prefix :
  prefix_string <$> parse_prefix "fd00::/64" = Some "fd00::/64" /\
  parse_prefix "10.0.0.0/33" = None /\ parse_prefix "10.0.0.0/08" = None.
Proof. repeat split; reflexivity. Qed.
Example cidr_ip : ip_string (parse_cidr "192.168.0.7/24") = "192.168.0.7".
Proof. reflexivity. Qed.
