(* ===== verification/GoURL.v ===== *)
(** The part of Go's [net/url] the code uses: [Parse], as far as it decides whether a
    text is a URL and what its host is, and [URL.Hostname] (Go 1.26). *)
From S2P Require Export GoNet.
From Stdlib Require Import Ascii.

(** * Texts *)

(** [strings.Cut] at a byte: what is before it and, where it is, what is after. *)
Fixpoint cut_byte (c : ascii) (s : string) : string * option string :=
  match s with
  | EmptyString => (EmptyString, None)
  | String d s' => if Ascii.eqb c d then (EmptyString, Some s') else let '(a, b) := cut_byte c s' in (String d a, b)
  end.
Definition before (c : ascii) (s : string) : string := (cut_byte c s).1.
Definition has_byte (c : ascii) (s : string) : bool := bool_decide ((cut_byte c s).2 <> None).
Fixpoint count_byte (c : ascii) (s : string) : nat :=
  match s with EmptyString => O | String d s' => ((if Ascii.eqb c d then 1 else 0) + count_byte c s')%nat end.
Fixpoint all_bytes (P : ascii -> bool) (s : string) : bool :=
  match s with EmptyString => true | String c s' => P c && all_bytes P s' end.
(** The place of ["%25"]. *)
Fixpoint index_zone (s : string) : option nat :=
  if has_prefix s "%25" then Some O else match s with EmptyString => None | String _ s' => S <$> index_zone s' end.

Definition code (c : ascii) : nat := nat_of_ascii c.
Definition is_letter (c : ascii) : bool :=
  ((65 <=? code c)%nat && (code c <=? 90)%nat) || ((97 <=? code c)%nat && (code c <=? 122)%nat).
Definition byte_in (l : string) (c : ascii) : bool := has_byte c l.
Definition is_control (c : ascii) : bool := (code c <? 32)%nat || (code c =? 127)%nat.

(** * Escapes *)

Inductive encoding := encodePath | encodeUserPassword | encodeHost | encodeZone | encodeFragment.

(** [shouldEscape] for the two encodings of hosts: a double quote is not escaped either. *)
Definition shouldEscape_host (c : ascii) : bool :=
  negb (is_letter c || is_digit c || byte_in "!$&'()*+,;=:[]<>-_.~" c || (code c =? 34)%nat).
Definition is_host_mode (mode : encoding) : bool := match mode with encodeHost | encodeZone => true | _ => false end.

(** Whether an escape may be in a text, by its two digits. *)
Definition escape_allowed (mode : encoding) (hi lo : Z) : bool :=
  match mode with
  | encodeHost => negb (hi <? 8) || ((hi =? 2) && (lo =? 5))
  | encodeZone =>
      let v := ascii_of_nat (Z.to_nat (hi * 16 + lo)) in
      ((hi =? 2) && (lo =? 5)) || Ascii.eqb v " " || negb (shouldEscape_host v)
  | _ => true
  end.

(** [unescape]. *)
Fixpoint unescape (mode : encoding) (s : string) : option string :=
  match s with
  | EmptyString => Some EmptyString
  | String c s' =>
      if Ascii.eqb c "%" then
        match s' with
        | String x (String y rest) =>
            hi ← hex_val x; lo ← hex_val y;
            if escape_allowed mode hi lo
            then String (ascii_of_nat (Z.to_nat (hi * 16 + lo))) <$> unescape mode rest
            else None
        | _ => None
        end
      else if is_host_mode mode && (code c <? 128)%nat && shouldEscape_host c then None
      else String c <$> unescape mode s'
  end.

(** * The authority *)

(** [validOptionalPort]. *)
Definition validOptionalPort (port : string) : bool :=
  match port with EmptyString => true | String c digits => Ascii.eqb c ":" && all_bytes is_digit digits end.

(** [validUserinfo]. *)
Definition validUserinfo (s : string) : bool :=
  all_bytes (fun c => is_letter c || is_digit c || byte_in "-._:~!$&'()*+,;=%@" c) s.

(** A host in brackets: what is between them is an IPv6 address, whose zone follows an
    escaped percent sign. *)
Definition unescape_literal (hostname : string) : option string :=
  match index_zone hostname with
  | Some i =>
      a ← unescape encodeHost (take_str i hostname); z ← unescape encodeZone (drop_str i hostname); Some (a +:+ z)
  | None => unescape encodeHost hostname
  end.

(** [parseHost]. *)
Definition parseHost (scheme host : string) : option string :=
  match last_index_byte "[" host with
  | Some (S _) => None
  | Some O =>
      close ← last_index_byte "]" host;
      let colonPort := drop_str (S close) host in
      if negb (validOptionalPort colonPort) then None
      else
        port ← unescape encodeHost colonPort;
        hostname ← unescape_literal (take_str (close - 1) (drop_str 1 host));
        addr ← parse_addr hostname;
        if is4 addr then None else Some ("[" +:+ hostname +:+ "]" +:+ port)
  | None =>
      match index_byte ":" host, last_index_byte ":" host with
      | Some first, Some last =>
          let i := if String.eqb scheme "postgresql" || String.eqb scheme "postgres" then last else first in
          if validOptionalPort (drop_str i host) then unescape encodeHost host else None
      | _, _ => unescape encodeHost host
      end
  end.

(** [parseAuthority], for the host it finds. *)
Definition parseAuthority (scheme authority : string) : option string :=
  match last_index_byte "@" authority with
  | None => parseHost scheme authority
  | Some i =>
      host ← parseHost scheme (drop_str (S i) authority);
      let userinfo := take_str i authority in
      if negb (validUserinfo userinfo) then None
      else
        let '(username, password) := cut_byte ":" userinfo in
        _ ← unescape encodeUserPassword username;
        _ ← unescape encodeUserPassword (default "" password);
        Some host
  end.

(** * URLs *)

Record URL := mkURL { url_Scheme : string; url_Host : string }.

(** The place of the colon after a scheme. *)
Fixpoint scheme_length (first : bool) (s : string) : option nat :=
  match s with
  | EmptyString => None
  | String c s' =>
      if is_letter c || (negb first && (is_digit c || byte_in "+-." c)) then S <$> scheme_length false s'
      else if Ascii.eqb c ":" then Some O
      else None
  end.
(** [getScheme]: the scheme and what comes after it; a text that does not begin with a
    scheme is all rest. *)
Definition getScheme (rawURL : string) : option (string * string) :=
  match scheme_length true rawURL with
  | Some O => None
  | Some n => Some (take_str n rawURL, drop_str (S n) rawURL)
  | None => Some ("", rawURL)
  end.

(** What is left of the query: it is cut off. *)
Definition without_query (rest : string) : string := before "?" rest.

(** [parse], for a text that is not a request. *)
Definition parse (rawURL : string) : option URL :=
  if negb (all_bytes (fun c => negb (is_control c)) rawURL) then None
  else if String.eqb rawURL "*" then Some (mkURL "" "")
  else
    '(scheme, rest) ← getScheme rawURL;
    let scheme := lower scheme in
    let rest := without_query rest in
    let rooted := has_prefix rest "/" in
    if negb rooted && negb (String.eqb scheme "") then Some (mkURL scheme "")
    else if negb rooted && has_byte ":" (before "/" rest) then None
    else if (negb (String.eqb scheme "") || negb (has_prefix rest "///")) && has_prefix rest "//" then
      let authority := before "/" (drop_str 2 rest) in
      host ← parseAuthority scheme authority;
      _ ← unescape encodePath (drop_str (2 + String.length authority) rest);
      Some (mkURL scheme host)
    else
      _ ← unescape encodePath rest;
      Some (mkURL scheme "").

(** [Parse]. *)
Definition Parse (rawURL : string) : option URL :=
  let '(u, frag) := cut_byte "#" rawURL in
  url ← parse u;
  _ ← unescape encodeFragment (default "" frag);
  Some url.

(** [URL.Hostname]. *)
Definition Hostname (u : URL) : string :=
  let host := url_Host u in
  let host :=
    match last_index_byte ":" host with
    | Some colon => if validOptionalPort (drop_str colon host) then take_str colon host else host
    | None => host
    end in
  if has_prefix host "[" && has_suffix host "]" then take_str (String.length host - 2) (drop_str 1 host) else host.

Definition hostname_of (rawURL : string) : option string := Hostname <$> Parse rawURL.

Example hostname_name : hostname_of "https://Example.COM:6443/a?b#c" = Some "Example.COM".
Proof. by vm_compute. Qed.
Example hostname_ipv6 : hostname_of "https://[fd00::1]:6443" = Some "fd00::1".
Proof. by vm_compute. Qed.
Example hostname_zone : hostname_of "https://[fe80::1%25en0]" = Some "fe80::1%en0".
Proof. by vm_compute. Qed.
Example hostname_user : hostname_of "HTTP://a:b@h" = Some "h".
Proof. by vm_compute. Qed.
Example hostname_none : hostname_of "https://" = Some "".
Proof. by vm_compute. Qed.
Example hostname_relative : hostname_of "/a/b" = Some "".
Proof. by vm_compute. Qed.
Example hostname_opaque : hostname_of "10.0.0.1:6443" = None.
Proof. by vm_compute. Qed.
Example hostname_bad : hostname_of "https://host^name:6443" = None.
Proof. by vm_compute. Qed.
Example hostname_colons : hostname_of "https://fd00::1:6443" = None.
Proof. by vm_compute. Qed.

(** * The host of a URL with a port *)

(** The bytes of names and addresses, and those of IPv6 addresses. *)
Definition plain (c : ascii) : bool := is_letter c || is_digit c || byte_in "-." c.
Definition plain_or_colon (c : ascii) : bool := plain c || Ascii.eqb c ":".

Lemma all_bytes_app P s t : all_bytes P (s +:+ t) = all_bytes P s && all_bytes P t.
Proof. induction s as [|c s IH]; simpl; [done|]. by rewrite IH, andb_assoc. Qed.

Lemma cut_none c s : all_bytes (fun d => negb (Ascii.eqb c d)) s = true -> cut_byte c s = (s, None).
Proof.
  induction s as [|d s IH]; simpl; [done|]. intros [Hd Hs]%andb_prop. apply negb_true_iff in Hd. by rewrite Hd, IH.
Qed.
Lemma last_index_none c s : all_bytes (fun d => negb (Ascii.eqb c d)) s = true -> last_index_byte c s = None.
Proof.
  induction s as [|d s IH]; simpl; [done|]. intros [Hd Hs]%andb_prop. apply negb_true_iff in Hd. by rewrite IH, Hd.
Qed.
Lemma index_after c s t : all_bytes (fun d => negb (Ascii.eqb c d)) s = true -> index_byte c (s +:+ String c t) = Some (String.length s).
Proof.
  induction s as [|d s IH]; simpl; [by rewrite Ascii.eqb_refl|].
  intros [Hd Hs]%andb_prop. apply negb_true_iff in Hd. by rewrite Hd, IH.
Qed.
Lemma last_index_before c s t : all_bytes (fun d => negb (Ascii.eqb c d)) t = true -> last_index_byte c (s +:+ String c t) = Some (String.length s).
Proof.
  intros Ht. induction s as [|d s IH]; simpl; [by rewrite last_index_none, Ascii.eqb_refl|]. by rewrite IH.
Qed.
Lemma take_all s : take_str (String.length s) s = s.
Proof. induction s as [|c s IH]; simpl; [done|]. by rewrite IH. Qed.

Lemma unescape_plain s :
  all_bytes (fun c => negb (Ascii.eqb c "%") && negb (shouldEscape_host c)) s = true -> unescape encodeHost s = Some s.
Proof.
  induction s as [|c s IH]; [done|]. cbn [all_bytes]. intros [[H1 H2]%andb_prop Hs]%andb_prop.
  apply negb_true_iff in H1, H2. cbn [unescape]. by rewrite H1, H2, andb_false_r, IH.
Qed.

(** A property of bytes that holds of all 256 of them. *)
Lemma every_byte (P : ascii -> bool) :
  forallb (fun n => P (ascii_of_nat n)) (seq 0 256) = true -> forall c, P c = true.
Proof.
  intros Hall c. rewrite List.forallb_forall in Hall. rewrite <-(ascii_nat_embedding c). apply Hall.
  apply List.in_seq. pose proof (nat_ascii_bounded c). lia.
Qed.
Lemma bytes_implied (P Q : ascii -> bool) s :
  forallb (fun n => implb (P (ascii_of_nat n)) (Q (ascii_of_nat n))) (seq 0 256) = true -> all_bytes P s = true -> all_bytes Q s = true.
Proof.
  intros Hall. pose proof (every_byte (fun c => implb (P c) (Q c)) Hall) as HPQ.
  induction s as [|c s IH]; simpl; [done|]. intros [Hc Hs]%andb_prop. specialize (HPQ c). cbn beta in HPQ. rewrite Hc in HPQ. cbn in HPQ.
  by rewrite HPQ, IH.
Qed.
(** The bytes of a text are of a kind whose bytes are of another. *)
Ltac bytes := rewrite ?all_bytes_app; cbn [all_bytes]; rewrite ?andb_true_iff; repeat split;
  try (eapply bytes_implied; [|eassumption]; vm_compute; reflexivity); try reflexivity.

Lemma valid_port port : all_bytes is_digit port = true -> validOptionalPort (String ":" port) = true.
Proof. done. Qed.

Lemma drop_str_0 s : drop_str 0 s = s.
Proof. by destruct s. Qed.
Lemma drop_all s : drop_str (String.length s) s = "".
Proof. by induction s. Qed.

(** The URL of an authority without a user. *)
Lemma parse_https authority host :
  all_bytes (fun c => plain_or_colon c || byte_in "[]" c) authority = true -> parseHost "https" authority = Some host ->
  Parse ("https://" +:+ authority) = Some (mkURL "https" host).
Proof.
  intros Ha Hh. unfold Parse. rewrite cut_none by bytes. unfold parse.
  replace (all_bytes _ _) with true by (symmetry; bytes). cbn [negb].
  change (String.eqb ("https://" +:+ authority) "*") with false. cbn iota.
  change (getScheme ("https://" +:+ authority)) with (Some ("https", "//" +:+ authority)). cbn [mbind option_bind].
  assert (Hq : without_query ("//" +:+ authority) = "//" +:+ authority) by (unfold without_query, before; by rewrite cut_none by bytes).
  rewrite Hq. change (drop_str 2 ("//" +:+ authority)) with (drop_str 0 authority). rewrite drop_str_0.
  assert (Hb : before "/" authority = authority) by (unfold before; by rewrite cut_none by bytes).
  rewrite Hb. unfold parseAuthority. change (lower "https") with "https".
  cbn -[last_index_byte unescape drop_str parseHost plus]. rewrite last_index_none by bytes. rewrite Hh.
  change (drop_str (2 + String.length authority) _) with (drop_str (String.length authority) authority).
  change (has_prefix ("//" +:+ authority) "/") with true. replace (has_prefix ("//" +:+ authority) "//") with true by (by destruct authority).
  by rewrite drop_all.
Qed.

Lemma parseHost_with_port host port :
  all_bytes plain host = true -> all_bytes is_digit port = true ->
  parseHost "https" (host +:+ String ":" port) = Some (host +:+ String ":" port).
Proof.
  intros Hh Hp. unfold parseHost. rewrite last_index_none by bytes. rewrite index_after, last_index_before by bytes.
  cbn -[drop_str validOptionalPort unescape]. rewrite drop_str_app, valid_port by done.
  rewrite unescape_plain by bytes. done.
Qed.

(** A text of these bytes is not one in brackets. *)
Lemma no_bracket host : all_bytes plain host = true -> has_prefix host "[" = false.
Proof.
  destruct host as [|c host]; [done|]. cbn [all_bytes]. intros [Hc _]%andb_prop.
  unfold has_prefix. cbn [String.prefix]. destruct (ascii_dec "[" c) as [<-|]; [by vm_compute in Hc|done].
Qed.

(** A name or an IPv4 address with a port. *)
Lemma hostname_with_port host port :
  all_bytes plain host = true -> all_bytes is_digit port = true ->
  hostname_of ("https://" +:+ host +:+ String ":" port) = Some host.
Proof.
  intros Hh Hp. unfold hostname_of. rewrite (parse_https _ (host +:+ String ":" port)); [|by bytes|by apply parseHost_with_port].
  cbn [fmap option_fmap option_map]. unfold Hostname; cbn [url_Host].
  rewrite last_index_before by bytes. rewrite drop_str_app, valid_port, take_str_app by done.
  by rewrite no_bracket.
Qed.

Lemma index_zone_none s : all_bytes (fun c => negb (Ascii.eqb c "%")) s = true -> index_zone s = None.
Proof.
  induction s as [|c s IH]; [done|]. cbn [all_bytes index_zone]. intros [Hc Hs]%andb_prop. rewrite (IH Hs).
  unfold has_prefix. cbn [String.prefix]. destruct (ascii_dec "%" c) as [<-|]; [done|done].
Qed.

Lemma string_app_nil s : s +:+ "" = s.
Proof. induction s as [|c s IH]; [done|]. change (String c (s +:+ "") = String c s). by rewrite IH. Qed.

(** A literal in brackets, with a port. *)
Definition literal (host : string) : string := String "[" (host +:+ "]").
#[local] Arguments literal : simpl never.
Lemma literal_length host : String.length (literal host) = S (S (String.length host)).
Proof. unfold literal. cbn [String.length]. rewrite string_length_app. simpl. lia. Qed.
Lemma literal_app host t : literal host +:+ t = String "[" (host +:+ String "]" t).
Proof. change (String "[" ((host +:+ "]") +:+ t) = String "[" (host +:+ ("]" +:+ t))). by rewrite string_app_assoc. Qed.
Lemma literal_open host t : all_bytes plain_or_colon host = true -> all_bytes plain_or_colon t = true ->
  last_index_byte "[" (literal host +:+ t) = Some O.
Proof.
  intros Hh Ht. rewrite literal_app. apply (last_index_before "[" "" (host +:+ String "]" t)). by bytes.
Qed.
Lemma literal_close host t : all_bytes plain_or_colon t = true ->
  last_index_byte "]" (literal host +:+ t) = Some (S (String.length host)).
Proof. intros Ht. rewrite literal_app. apply (last_index_before "]" (String "[" host) t). by bytes. Qed.
Lemma literal_inside host t : take_str (String.length host) (drop_str 1 (literal host +:+ t)) = host.
Proof. rewrite literal_app. change (drop_str 1 (String "[" ?s)) with (drop_str 0 s). rewrite drop_str_0. apply take_str_app. Qed.

Lemma parseHost_literal host fs port :
  all_bytes plain_or_colon host = true -> parse_addr host = Some (V6 fs "") -> all_bytes is_digit port = true ->
  parseHost "https" (literal host +:+ String ":" port) = Some (literal host +:+ String ":" port).
Proof.
  intros Hh Ha Hp. unfold parseHost. rewrite literal_open by bytes. rewrite literal_close by bytes.
  cbn [mbind option_bind].
  replace (drop_str (S (S (String.length host))) (literal host +:+ String ":" port)) with (String ":" port)
    by (rewrite <-literal_length; by rewrite drop_str_app).
  rewrite valid_port by done. cbn [negb]. rewrite unescape_plain by bytes. cbn [mbind option_bind].
  replace (S (String.length host) - 1)%nat with (String.length host) by lia. rewrite literal_inside.
  unfold unescape_literal. rewrite index_zone_none, unescape_plain by bytes. cbn [mbind option_bind]. rewrite Ha. cbn [mbind option_bind is4].
  by rewrite literal_app.
Qed.

(** An IPv6 address with a port. *)
Lemma hostname_of_ipv6 host fs port :
  all_bytes plain_or_colon host = true -> parse_addr host = Some (V6 fs "") -> all_bytes is_digit port = true ->
  hostname_of ("https://" +:+ literal host +:+ String ":" port) = Some host.
Proof.
  intros Hh Ha Hp. unfold hostname_of.
  assert (Hl : all_bytes (fun c => plain_or_colon c || byte_in "[]" c) (literal host) = true) by (change (literal host) with (String "[" host +:+ "]"); by bytes).
  rewrite (parse_https _ (literal host +:+ String ":" port)); [|by bytes|by eapply parseHost_literal].
  cbn [fmap option_fmap option_map]. unfold Hostname; cbn [url_Host].
  rewrite last_index_before by bytes. rewrite drop_str_app, valid_port, take_str_app by done.
  replace (has_prefix (literal host) "[") with true by (by destruct host).
  replace (has_suffix (literal host) "]") with true; cbn [andb].
  - rewrite literal_length. replace (S (S (String.length host)) - 2)%nat with (String.length host) by lia.
    pose proof (literal_inside host "") as Hi. rewrite string_app_nil in Hi. by rewrite Hi.
  - unfold has_suffix. rewrite literal_length. cbn [String.length].
    replace (S (S (String.length host)) - 1)%nat with (String.length (String "[" host)) by (cbn; lia).
    change (literal host) with (String "[" host +:+ "]"). by rewrite drop_str_app.
Qed.
