(* ===== verification/Extra.v ===== *)
(** [pkg/services/govmomi/extra/config.go]: the extra configuration of a VM,
    through which bootstrap data and metadata reach the guest. *)
From S2P Require Import Prelude GoStrings GoBase64.

Module Extra.

(** [types.OptionValue], of which the code only uses string values. *)
Record OptionValue := { Key : string; Value : string }.

(** [Config] is a slice of options; the methods append to it. *)
Definition Config := list OptionValue.

Definition guestInfoIgnitionData : string := "guestinfo.ignition.config.data".
Definition guestInfoIgnitionEncoding : string := "guestinfo.ignition.config.data.encoding".
Definition guestInfoCloudInitData : string := "guestinfo.userdata".
Definition guestInfoCloudInitEncoding : string := "guestinfo.userdata.encoding".

(** One turn of the loop of [encode] per unit of fuel: the data is replaced by
    its decoding while it decodes, then encoded once. [None] is a loop that has
    not returned. *)
Fixpoint encode_loop (fuel : nat) (data : string) : option string :=
  match fuel with
  | O => None
  | S fuel' =>
      match b64_decode data with
      | None => Some (b64_encode data)
      | Some decoded => encode_loop fuel' decoded
      end
  end.

Definition encode (fuel : nat) (data : string) : option string :=
  if (slen data =? 0) then Some "" else encode_loop fuel data.

Definition setUserData (fuel : nat) (e : Config) (userdataKey encodingKey data : string)
    : option Config :=
  v ← encode fuel data;
  Some ((e ++ [{| Key := userdataKey; Value := v |};
               {| Key := encodingKey; Value := "base64" |}])%list).

Definition SetCloudInitUserData (fuel : nat) (e : Config) (data : string) : option Config :=
  setUserData fuel e guestInfoCloudInitData guestInfoCloudInitEncoding data.

Definition SetCloudInitMetadata (fuel : nat) (e : Config) (data : string) : option Config :=
  v ← encode fuel data;
  Some ((e ++ [{| Key := "guestinfo.metadata"; Value := v |};
               {| Key := "guestinfo.metadata.encoding"; Value := "base64" |}])%list).

Definition SetIgnitionUserData (fuel : nat) (e : Config) (data : string) : option Config :=
  setUserData fuel e guestInfoIgnitionData guestInfoIgnitionEncoding data.

(** [customKeys] in the order the range over the Go map visits it. *)
Definition SetCustomVMXKeys (e : Config) (customKeys : list (string * string)) : Config :=
  fold_left (fun e '(k, v) => (e ++ [{| Key := k; Value := v |}])%list) customKeys e.

(** ** The texts the loop goes through *)

(** [unwraps d p]: [p] is reached from [d] by decoding zero or more times. *)
Inductive unwraps : string -> string -> Prop :=
| unwraps_refl d : unwraps d d
| unwraps_step d d' p : b64_decode d = Some d' -> unwraps d' p -> unwraps d p.

(** A text no further decoding applies to. *)
Definition plain (p : string) : Prop := b64_decode p = None.

Lemma encode_loop_empty fuel : encode_loop fuel "" = None.
Proof. by induction fuel. Qed.

Lemma encode_loop_unwraps_empty fuel d : unwraps d "" -> encode_loop fuel d = None.
Proof.
  intros H. remember "" as e eqn:E. revert fuel.
  induction H as [d|d d' p Hd H IH]; intros fuel; subst.
  - apply encode_loop_empty.
  - destruct fuel as [|fuel]; [done|]. simpl. rewrite Hd. by apply IH.
Qed.

Lemma unwraps_empty p : unwraps "" p -> p = "".
Proof.
  intros H. remember "" as e eqn:E. induction H as [d|d d' p Hd H IH]; [done|].
  subst. injection Hd as <-. by apply IH.
Qed.

Lemma encode_loop_plain fuel d p :
  unwraps d p -> plain p -> (String.length d < fuel)%nat -> encode_loop fuel d = Some (b64_encode p).
Proof.
  intros H. revert fuel. induction H as [d|d d' p Hd H IH]; intros fuel Hp Hf.
  - destruct fuel; [lia|]. simpl. by rewrite Hp.
  - destruct fuel as [|fuel]; [lia|]. simpl. rewrite Hd. apply IH; [done|].
    destruct (decide (d = "")) as [->|Hne].
    + injection Hd as <-. apply unwraps_empty in H as ->. discriminate Hp.
    + pose proof (b64_decode_shorter d d' Hne Hd). lia.
Qed.

(** Decoding repeatedly ends at a plain text or at the empty text. *)
Lemma unwraps_total d : unwraps d "" \/ exists p, unwraps d p /\ plain p.
Proof.
  induction d as [d IH] using string_strong_ind.
  destruct (b64_decode d) as [d'|] eqn:E.
  - destruct (decide (d = "")) as [->|Hne]; [left; constructor|].
    pose proof (b64_decode_shorter d d' Hne E).
    destruct (IH d' ltac:(done)) as [H0|(p & H1 & H2)].
    + left. by econstructor.
    + right. exists p. split; [by econstructor|done].
  - right. exists d. split; [constructor|done].
Qed.

Lemma unwraps_encode d p : unwraps d p -> unwraps (b64_encode d) p.
Proof. intros H. econstructor; [apply b64_decode_encode|done]. Qed.

Lemma b64_encode_nonempty d : d <> "" -> b64_encode d <> "".
Proof. destruct d as [|a [|b [|c d]]]; done. Qed.

(** ** Properties *)

(** C40: [encode] returns exactly on the data whose chain of decodings does not
    reach the empty text, with the base64 of the plain text the chain ends at;
    one unit of fuel more than the length of the data is then enough. On any
    other non-empty data (a line feed, say) the loop runs for ever. *)
Theorem encode_returns_or_loops d :
  d <> "" ->
  (exists p, unwraps d p /\ plain p /\
     forall fuel, (String.length d < fuel)%nat -> encode fuel d = Some (b64_encode p)) \/
  (unwraps d "" /\ forall fuel, encode fuel d = None).
Proof.
  intros Hd. assert (Hl : (slen d =? 0) = false) by (destruct d; [done|]; unfold slen; simpl; lia).
  unfold encode. rewrite Hl.
  destruct (unwraps_total d) as [H|(p & H & Hp)].
  - right. split; [done|]. intros fuel. by apply encode_loop_unwraps_empty.
  - left. exists p. repeat split; try done. intros fuel Hf. by apply encode_loop_plain.
Qed.

(** The data of a single line feed decodes to the empty text, which decodes to
    itself. *)
Definition newline_data : string := String lf "".

Lemma encode_returns_or_loops_witness :
  newline_data <> "" /\
  ((exists p, unwraps newline_data p /\ plain p /\
     forall fuel, (String.length newline_data < fuel)%nat ->
       encode fuel newline_data = Some (b64_encode p)) \/
   (unwraps newline_data "" /\ forall fuel, encode fuel newline_data = None)).
Proof. split; [done|]. apply (encode_returns_or_loops newline_data). done. Defined.

(** what [encode] writes decodes to a text that is not base64 itself, and
    encoding data that was already encoded (once or more) changes nothing: the
    guest decodes once and gets the plain text. *)
Theorem encode_idempotent fuel d r :
  d <> "" -> encode fuel d = Some r ->
  (exists p, b64_decode r = Some p /\ plain p) /\
  encode (S fuel) (b64_encode d) = Some r.
Proof.
  intros Hd. unfold encode.
  destruct (slen d =? 0) eqn:Hl.
  { destruct d; [done|]. unfold slen in Hl. simpl in Hl. lia. }
  intros H. split.
  - clear Hd Hl. revert d H. induction fuel as [|fuel IH]; intros d H; [done|].
    simpl in H. destruct (b64_decode d) eqn:E; [by eapply IH|].
    injection H as <-. exists d. split; [apply b64_decode_encode|done].
  - destruct (slen (b64_encode d) =? 0) eqn:Hl'.
    { pose proof (b64_encode_nonempty d Hd). destruct (b64_encode d); [done|].
      unfold slen in Hl'. simpl in Hl'. lia. }
    simpl. by rewrite b64_decode_encode.
Qed.

Lemma encode_idempotent_witness :
  (exists p, b64_decode "Zm9vIQ==" = Some p /\ plain p) /\
  encode 11 (b64_encode "foo!") = Some "Zm9vIQ==".
Proof. apply (encode_idempotent 10 "foo!"); [done|]. reflexivity. Defined.

End Extra.
