(* ===== verification/Types.v ===== *)
(** The API objects of [api/govmomi/v1beta2] and the metadata they embed: one
    record per Go struct, one field per Go field (prefixed by an abbreviation of
    the struct's name). A Go pointer is an [option], a slice a [list], a map a
    [gmap], an [int32] or [int64] a [Z], an enumeration with a string type a
    [string] together with its named constants. A [set_] function is the
    assignment of a field. *)
From S2P Require Export Prelude.

(** * Kubernetes metadata *)

(** A point in time in nanoseconds; [metav1.Time] is [None] when it is zero. *)
Definition Time := option Z.

(** [metav1.OwnerReference], the fields the code sets and reads. *)
Record OwnerReference := mkOwnerReference {
  or_APIVersion : string;
  or_Kind : string;
  or_Name : string;
  or_UID : string;
  or_Controller : option bool
}.

(** The literal of a reference that says nothing about a controller. *)
#[warnings="-notation-for-abbreviation"]
Notation owner_ref apiVersion kind name uid := (mkOwnerReference apiVersion kind name uid None) (only parsing).

#[export] Instance or_eq_dec : EqDecision OwnerReference.
Proof. solve_decision. Defined.

(** [metav1.ObjectMeta], the fields the code sets and reads. *)
Record ObjectMeta := mkObjectMeta {
  om_Name : string;
  om_Namespace : string;
  om_UID : string;
  om_Labels : option (gmap string string);
  om_OwnerReferences : list OwnerReference;
  om_Finalizers : list string;
  om_DeletionTimestamp : Time
}.

Definition set_om_Labels (v : option (gmap string string)) (r : ObjectMeta) : ObjectMeta := {|
  om_Name := om_Name r;
  om_Namespace := om_Namespace r;
  om_UID := om_UID r;
  om_Labels := v;
  om_OwnerReferences := om_OwnerReferences r;
  om_Finalizers := om_Finalizers r;
  om_DeletionTimestamp := om_DeletionTimestamp r
|}.

Definition set_om_OwnerReferences (v : list OwnerReference) (r : ObjectMeta) : ObjectMeta := {|
  om_Name := om_Name r;
  om_Namespace := om_Namespace r;
  om_UID := om_UID r;
  om_Labels := om_Labels r;
  om_OwnerReferences := v;
  om_Finalizers := om_Finalizers r;
  om_DeletionTimestamp := om_DeletionTimestamp r
|}.

Definition set_om_Finalizers (v : list string) (r : ObjectMeta) : ObjectMeta := {|
  om_Name := om_Name r;
  om_Namespace := om_Namespace r;
  om_UID := om_UID r;
  om_Labels := om_Labels r;
  om_OwnerReferences := om_OwnerReferences r;
  om_Finalizers := v;
  om_DeletionTimestamp := om_DeletionTimestamp r
|}.

(** [metav1.Condition]. *)
Record Condition := mkCondition {
  c_Type : string;
  c_Status : string;
  c_ObservedGeneration : Z;
  c_LastTransitionTime : Time;
  c_Reason : string;
  c_Message : string
}.

#[export] Instance c_eq_dec : EqDecision Condition.
Proof. solve_decision. Defined.

Definition ConditionTrue : string := "True".
Definition ConditionFalse : string := "False".
Definition ConditionUnknown : string := "Unknown".

(** The literal [metav1.Condition{Type: t, Status: s, Reason: r, Message: m}]. *)
Definition cond (t s r m : string) : Condition :=
  mkCondition t s 0 None r m.

(** [clusterv1.Condition], the conditions of the v1beta1 contract. *)
Record V1Beta1Condition := mkV1Beta1Condition {
  c1_Type : string;
  c1_Status : string;
  c1_Severity : string;
  c1_LastTransitionTime : Time;
  c1_Reason : string;
  c1_Message : string
}.

#[export] Instance c1_eq_dec : EqDecision V1Beta1Condition.
Proof. solve_decision. Defined.

(** * Enumerations *)

Definition FullClone : string := "fullClone".
Definition LinkedClone : string := "linkedClone".

Definition FtEncryptionDisabled : string := "ftEncryptionDisabled".
Definition FtEncryptionOpportunistic : string := "ftEncryptionOpportunistic".
Definition FtEncryptionRequired : string := "ftEncryptionRequired".

Definition DisabledMigrateEncryption : string := "disabled".
Definition OpportunisticMigrateEncryption : string := "opportunistic".
Definition RequiredMigrateEncryption : string := "required".

Definition Linux : string := "Linux".
Definition Windows : string := "Windows".

Definition VirtualMachinePowerOpModeHard : string := "hard".
Definition VirtualMachinePowerOpModeSoft : string := "soft".
Definition VirtualMachinePowerOpModeTrySoft : string := "trySoft".

Definition ThinProvisioningMode : string := "Thin".
Definition ThickProvisioningMode : string := "Thick".
Definition EagerlyZeroedProvisioningMode : string := "EagerlyZeroed".

Definition VirtualMachinePowerStatePoweredOn : string := "poweredOn".
Definition VirtualMachinePowerStatePoweredOff : string := "poweredOff".
Definition VirtualMachinePowerStateSuspended : string := "suspended".

(** * Specification of a virtual machine *)

(** A static route. *)
Record NetworkRouteSpec := mkNetworkRouteSpec {
  rt_To : string;
  rt_Via : string;
  rt_Metric : option Z
}.

#[export] Instance rt_eq_dec : EqDecision NetworkRouteSpec.
Proof. solve_decision. Defined.

(** Overrides of DHCP behaviours; only configured values are sent. *)
Record DHCPOverrides := mkDHCPOverrides {
  dh_Hostname : option string;
  dh_RouteMetric : option Z;
  dh_SendHostname : option bool;
  dh_UseDNS : option bool;
  dh_UseDomains : option string;
  dh_UseHostname : option bool;
  dh_UseMTU : option bool;
  dh_UseNTP : option bool;
  dh_UseRoutes : option string
}.

#[export] Instance dh_eq_dec : EqDecision DHCPOverrides.
Proof. solve_decision. Defined.

(** A reference to a pool of addresses. *)
Record IPPoolReference := mkIPPoolReference {
  pr_Name : string;
  pr_Kind : string;
  pr_APIGroup : string
}.

#[export] Instance pr_eq_dec : EqDecision IPPoolReference.
Proof. solve_decision. Defined.

(** The configuration of one network device. *)
Record NetworkDeviceSpec := mkNetworkDeviceSpec {
  nd_NetworkName : string;
  nd_DeviceName : string;
  nd_DHCP4 : option bool;
  nd_DHCP6 : option bool;
  nd_Gateway4 : string;
  nd_Gateway6 : string;
  nd_IPAddrs : list string;
  nd_MTU : option Z;
  nd_MACAddr : string;
  nd_Nameservers : list string;
  nd_Routes : list NetworkRouteSpec;
  nd_SearchDomains : list string;
  nd_AddressesFromPools : list IPPoolReference;
  nd_DHCP4Overrides : option DHCPOverrides;
  nd_DHCP6Overrides : option DHCPOverrides;
  nd_SkipIPAllocation : option bool
}.

Definition set_nd_NetworkName (v : string) (r : NetworkDeviceSpec) : NetworkDeviceSpec := {|
  nd_NetworkName := v;
  nd_DeviceName := nd_DeviceName r;
  nd_DHCP4 := nd_DHCP4 r;
  nd_DHCP6 := nd_DHCP6 r;
  nd_Gateway4 := nd_Gateway4 r;
  nd_Gateway6 := nd_Gateway6 r;
  nd_IPAddrs := nd_IPAddrs r;
  nd_MTU := nd_MTU r;
  nd_MACAddr := nd_MACAddr r;
  nd_Nameservers := nd_Nameservers r;
  nd_Routes := nd_Routes r;
  nd_SearchDomains := nd_SearchDomains r;
  nd_AddressesFromPools := nd_AddressesFromPools r;
  nd_DHCP4Overrides := nd_DHCP4Overrides r;
  nd_DHCP6Overrides := nd_DHCP6Overrides r;
  nd_SkipIPAllocation := nd_SkipIPAllocation r
|}.

Definition set_nd_DHCP4 (v : option bool) (r : NetworkDeviceSpec) : NetworkDeviceSpec := {|
  nd_NetworkName := nd_NetworkName r;
  nd_DeviceName := nd_DeviceName r;
  nd_DHCP4 := v;
  nd_DHCP6 := nd_DHCP6 r;
  nd_Gateway4 := nd_Gateway4 r;
  nd_Gateway6 := nd_Gateway6 r;
  nd_IPAddrs := nd_IPAddrs r;
  nd_MTU := nd_MTU r;
  nd_MACAddr := nd_MACAddr r;
  nd_Nameservers := nd_Nameservers r;
  nd_Routes := nd_Routes r;
  nd_SearchDomains := nd_SearchDomains r;
  nd_AddressesFromPools := nd_AddressesFromPools r;
  nd_DHCP4Overrides := nd_DHCP4Overrides r;
  nd_DHCP6Overrides := nd_DHCP6Overrides r;
  nd_SkipIPAllocation := nd_SkipIPAllocation r
|}.

Definition set_nd_DHCP6 (v : option bool) (r : NetworkDeviceSpec) : NetworkDeviceSpec := {|
  nd_NetworkName := nd_NetworkName r;
  nd_DeviceName := nd_DeviceName r;
  nd_DHCP4 := nd_DHCP4 r;
  nd_DHCP6 := v;
  nd_Gateway4 := nd_Gateway4 r;
  nd_Gateway6 := nd_Gateway6 r;
  nd_IPAddrs := nd_IPAddrs r;
  nd_MTU := nd_MTU r;
  nd_MACAddr := nd_MACAddr r;
  nd_Nameservers := nd_Nameservers r;
  nd_Routes := nd_Routes r;
  nd_SearchDomains := nd_SearchDomains r;
  nd_AddressesFromPools := nd_AddressesFromPools r;
  nd_DHCP4Overrides := nd_DHCP4Overrides r;
  nd_DHCP6Overrides := nd_DHCP6Overrides r;
  nd_SkipIPAllocation := nd_SkipIPAllocation r
|}.

Definition set_nd_Gateway4 (v : string) (r : NetworkDeviceSpec) : NetworkDeviceSpec := {|
  nd_NetworkName := nd_NetworkName r;
  nd_DeviceName := nd_DeviceName r;
  nd_DHCP4 := nd_DHCP4 r;
  nd_DHCP6 := nd_DHCP6 r;
  nd_Gateway4 := v;
  nd_Gateway6 := nd_Gateway6 r;
  nd_IPAddrs := nd_IPAddrs r;
  nd_MTU := nd_MTU r;
  nd_MACAddr := nd_MACAddr r;
  nd_Nameservers := nd_Nameservers r;
  nd_Routes := nd_Routes r;
  nd_SearchDomains := nd_SearchDomains r;
  nd_AddressesFromPools := nd_AddressesFromPools r;
  nd_DHCP4Overrides := nd_DHCP4Overrides r;
  nd_DHCP6Overrides := nd_DHCP6Overrides r;
  nd_SkipIPAllocation := nd_SkipIPAllocation r
|}.

Definition set_nd_Gateway6 (v : string) (r : NetworkDeviceSpec) : NetworkDeviceSpec := {|
  nd_NetworkName := nd_NetworkName r;
  nd_DeviceName := nd_DeviceName r;
  nd_DHCP4 := nd_DHCP4 r;
  nd_DHCP6 := nd_DHCP6 r;
  nd_Gateway4 := nd_Gateway4 r;
  nd_Gateway6 := v;
  nd_IPAddrs := nd_IPAddrs r;
  nd_MTU := nd_MTU r;
  nd_MACAddr := nd_MACAddr r;
  nd_Nameservers := nd_Nameservers r;
  nd_Routes := nd_Routes r;
  nd_SearchDomains := nd_SearchDomains r;
  nd_AddressesFromPools := nd_AddressesFromPools r;
  nd_DHCP4Overrides := nd_DHCP4Overrides r;
  nd_DHCP6Overrides := nd_DHCP6Overrides r;
  nd_SkipIPAllocation := nd_SkipIPAllocation r
|}.

Definition set_nd_IPAddrs (v : list string) (r : NetworkDeviceSpec) : NetworkDeviceSpec := {|
  nd_NetworkName := nd_NetworkName r;
  nd_DeviceName := nd_DeviceName r;
  nd_DHCP4 := nd_DHCP4 r;
  nd_DHCP6 := nd_DHCP6 r;
  nd_Gateway4 := nd_Gateway4 r;
  nd_Gateway6 := nd_Gateway6 r;
  nd_IPAddrs := v;
  nd_MTU := nd_MTU r;
  nd_MACAddr := nd_MACAddr r;
  nd_Nameservers := nd_Nameservers r;
  nd_Routes := nd_Routes r;
  nd_SearchDomains := nd_SearchDomains r;
  nd_AddressesFromPools := nd_AddressesFromPools r;
  nd_DHCP4Overrides := nd_DHCP4Overrides r;
  nd_DHCP6Overrides := nd_DHCP6Overrides r;
  nd_SkipIPAllocation := nd_SkipIPAllocation r
|}.

Definition set_nd_MACAddr (v : string) (r : NetworkDeviceSpec) : NetworkDeviceSpec := {|
  nd_NetworkName := nd_NetworkName r;
  nd_DeviceName := nd_DeviceName r;
  nd_DHCP4 := nd_DHCP4 r;
  nd_DHCP6 := nd_DHCP6 r;
  nd_Gateway4 := nd_Gateway4 r;
  nd_Gateway6 := nd_Gateway6 r;
  nd_IPAddrs := nd_IPAddrs r;
  nd_MTU := nd_MTU r;
  nd_MACAddr := v;
  nd_Nameservers := nd_Nameservers r;
  nd_Routes := nd_Routes r;
  nd_SearchDomains := nd_SearchDomains r;
  nd_AddressesFromPools := nd_AddressesFromPools r;
  nd_DHCP4Overrides := nd_DHCP4Overrides r;
  nd_DHCP6Overrides := nd_DHCP6Overrides r;
  nd_SkipIPAllocation := nd_SkipIPAllocation r
|}.

Definition set_nd_Nameservers (v : list string) (r : NetworkDeviceSpec) : NetworkDeviceSpec := {|
  nd_NetworkName := nd_NetworkName r;
  nd_DeviceName := nd_DeviceName r;
  nd_DHCP4 := nd_DHCP4 r;
  nd_DHCP6 := nd_DHCP6 r;
  nd_Gateway4 := nd_Gateway4 r;
  nd_Gateway6 := nd_Gateway6 r;
  nd_IPAddrs := nd_IPAddrs r;
  nd_MTU := nd_MTU r;
  nd_MACAddr := nd_MACAddr r;
  nd_Nameservers := v;
  nd_Routes := nd_Routes r;
  nd_SearchDomains := nd_SearchDomains r;
  nd_AddressesFromPools := nd_AddressesFromPools r;
  nd_DHCP4Overrides := nd_DHCP4Overrides r;
  nd_DHCP6Overrides := nd_DHCP6Overrides r;
  nd_SkipIPAllocation := nd_SkipIPAllocation r
|}.

Definition set_nd_Routes (v : list NetworkRouteSpec) (r : NetworkDeviceSpec) : NetworkDeviceSpec := {|
  nd_NetworkName := nd_NetworkName r;
  nd_DeviceName := nd_DeviceName r;
  nd_DHCP4 := nd_DHCP4 r;
  nd_DHCP6 := nd_DHCP6 r;
  nd_Gateway4 := nd_Gateway4 r;
  nd_Gateway6 := nd_Gateway6 r;
  nd_IPAddrs := nd_IPAddrs r;
  nd_MTU := nd_MTU r;
  nd_MACAddr := nd_MACAddr r;
  nd_Nameservers := nd_Nameservers r;
  nd_Routes := v;
  nd_SearchDomains := nd_SearchDomains r;
  nd_AddressesFromPools := nd_AddressesFromPools r;
  nd_DHCP4Overrides := nd_DHCP4Overrides r;
  nd_DHCP6Overrides := nd_DHCP6Overrides r;
  nd_SkipIPAllocation := nd_SkipIPAllocation r
|}.

Definition set_nd_SearchDomains (v : list string) (r : NetworkDeviceSpec) : NetworkDeviceSpec := {|
  nd_NetworkName := nd_NetworkName r;
  nd_DeviceName := nd_DeviceName r;
  nd_DHCP4 := nd_DHCP4 r;
  nd_DHCP6 := nd_DHCP6 r;
  nd_Gateway4 := nd_Gateway4 r;
  nd_Gateway6 := nd_Gateway6 r;
  nd_IPAddrs := nd_IPAddrs r;
  nd_MTU := nd_MTU r;
  nd_MACAddr := nd_MACAddr r;
  nd_Nameservers := nd_Nameservers r;
  nd_Routes := nd_Routes r;
  nd_SearchDomains := v;
  nd_AddressesFromPools := nd_AddressesFromPools r;
  nd_DHCP4Overrides := nd_DHCP4Overrides r;
  nd_DHCP6Overrides := nd_DHCP6Overrides r;
  nd_SkipIPAllocation := nd_SkipIPAllocation r
|}.

Definition set_nd_AddressesFromPools (v : list IPPoolReference) (r : NetworkDeviceSpec) : NetworkDeviceSpec := {|
  nd_NetworkName := nd_NetworkName r;
  nd_DeviceName := nd_DeviceName r;
  nd_DHCP4 := nd_DHCP4 r;
  nd_DHCP6 := nd_DHCP6 r;
  nd_Gateway4 := nd_Gateway4 r;
  nd_Gateway6 := nd_Gateway6 r;
  nd_IPAddrs := nd_IPAddrs r;
  nd_MTU := nd_MTU r;
  nd_MACAddr := nd_MACAddr r;
  nd_Nameservers := nd_Nameservers r;
  nd_Routes := nd_Routes r;
  nd_SearchDomains := nd_SearchDomains r;
  nd_AddressesFromPools := v;
  nd_DHCP4Overrides := nd_DHCP4Overrides r;
  nd_DHCP6Overrides := nd_DHCP6Overrides r;
  nd_SkipIPAllocation := nd_SkipIPAllocation r
|}.

Definition set_nd_DHCP4Overrides (v : option DHCPOverrides) (r : NetworkDeviceSpec) : NetworkDeviceSpec := {|
  nd_NetworkName := nd_NetworkName r;
  nd_DeviceName := nd_DeviceName r;
  nd_DHCP4 := nd_DHCP4 r;
  nd_DHCP6 := nd_DHCP6 r;
  nd_Gateway4 := nd_Gateway4 r;
  nd_Gateway6 := nd_Gateway6 r;
  nd_IPAddrs := nd_IPAddrs r;
  nd_MTU := nd_MTU r;
  nd_MACAddr := nd_MACAddr r;
  nd_Nameservers := nd_Nameservers r;
  nd_Routes := nd_Routes r;
  nd_SearchDomains := nd_SearchDomains r;
  nd_AddressesFromPools := nd_AddressesFromPools r;
  nd_DHCP4Overrides := v;
  nd_DHCP6Overrides := nd_DHCP6Overrides r;
  nd_SkipIPAllocation := nd_SkipIPAllocation r
|}.

Definition set_nd_DHCP6Overrides (v : option DHCPOverrides) (r : NetworkDeviceSpec) : NetworkDeviceSpec := {|
  nd_NetworkName := nd_NetworkName r;
  nd_DeviceName := nd_DeviceName r;
  nd_DHCP4 := nd_DHCP4 r;
  nd_DHCP6 := nd_DHCP6 r;
  nd_Gateway4 := nd_Gateway4 r;
  nd_Gateway6 := nd_Gateway6 r;
  nd_IPAddrs := nd_IPAddrs r;
  nd_MTU := nd_MTU r;
  nd_MACAddr := nd_MACAddr r;
  nd_Nameservers := nd_Nameservers r;
  nd_Routes := nd_Routes r;
  nd_SearchDomains := nd_SearchDomains r;
  nd_AddressesFromPools := nd_AddressesFromPools r;
  nd_DHCP4Overrides := nd_DHCP4Overrides r;
  nd_DHCP6Overrides := v;
  nd_SkipIPAllocation := nd_SkipIPAllocation r
|}.

#[export] Instance nd_eq_dec : EqDecision NetworkDeviceSpec.
Proof. solve_decision. Defined.

(** [infrav1.NetworkDeviceSpec{}]. *)
Definition NetworkDeviceSpec_zero : NetworkDeviceSpec :=
  mkNetworkDeviceSpec "" "" None None "" "" [] None "" [] [] [] [] None None None.

(** The devices of a machine and the routes shared by all of them. *)
Record NetworkSpec := mkNetworkSpec {
  ns_Devices : list NetworkDeviceSpec;
  ns_Routes : list NetworkRouteSpec
}.

Definition set_ns_Devices (v : list NetworkDeviceSpec) (r : NetworkSpec) : NetworkSpec := {|
  ns_Devices := v;
  ns_Routes := ns_Routes r
|}.

#[export] Instance ns_eq_dec : EqDecision NetworkSpec.
Proof. solve_decision. Defined.

(** A PCI device, given by device and vendor or by a vGPU profile. *)
Record PCIDeviceSpec := mkPCIDeviceSpec {
  pci_DeviceID : option Z;
  pci_VendorID : option Z;
  pci_VGPUProfile : string;
  pci_CustomLabel : string
}.

#[export] Instance pci_eq_dec : EqDecision PCIDeviceSpec.
Proof. solve_decision. Defined.

(** A disk added to the ones of the template. *)
Record VSphereDisk := mkVSphereDisk {
  vd_Name : string;
  vd_SizeGiB : Z;
  vd_ProvisioningMode : string
}.

#[export] Instance vd_eq_dec : EqDecision VSphereDisk.
Proof. solve_decision. Defined.

(** Quantities of cpu (hertz) and memory (bytes), each by its integer value. *)
Record VirtualMachineResourceSpec := mkVirtualMachineResourceSpec {
  rs_CPU : Z;
  rs_Memory : Z
}.

#[export] Instance rs_eq_dec : EqDecision VirtualMachineResourceSpec.
Proof. solve_decision. Defined.

(** Shares of cpu and memory. *)
Record VirtualMachineResourceShares := mkVirtualMachineResourceShares {
  sh_CPU : Z;
  sh_Memory : Z
}.

#[export] Instance sh_eq_dec : EqDecision VirtualMachineResourceShares.
Proof. solve_decision. Defined.

(** Reservations, limits and shares. *)
Record VirtualMachineResources := mkVirtualMachineResources {
  res_Requests : VirtualMachineResourceSpec;
  res_Limits : VirtualMachineResourceSpec;
  res_Shares : VirtualMachineResourceShares
}.

#[export] Instance res_eq_dec : EqDecision VirtualMachineResources.
Proof. solve_decision. Defined.

(** What a virtual machine is cloned from, and how it is configured. *)
Record VirtualMachineCloneSpec := mkVirtualMachineCloneSpec {
  cs_Template : string;
  cs_CloneMode : string;
  cs_Snapshot : string;
  cs_Server : string;
  cs_Thumbprint : string;
  cs_Datacenter : string;
  cs_Folder : string;
  cs_Datastore : string;
  cs_StoragePolicyName : string;
  cs_ResourcePool : string;
  cs_Network : NetworkSpec;
  cs_NumCPUs : Z;
  cs_NumCoresPerSocket : option Z;
  cs_Resources : VirtualMachineResources;
  cs_MemoryMiB : Z;
  cs_DiskGiB : Z;
  cs_AdditionalDisksGiB : list Z;
  cs_CustomVMXKeys : option (gmap string string);
  cs_TagIDs : list string;
  cs_PciDevices : list PCIDeviceSpec;
  cs_OS : string;
  cs_HardwareVersion : string;
  cs_DataDisks : list VSphereDisk;
  cs_NestedHV : option bool;
  cs_FtEncryptionMode : string;
  cs_MigrateEncryption : string;
  cs_CryptoKeyID : string;
  cs_CryptoProfile : string
}.

Definition set_cs_Server (v : string) (r : VirtualMachineCloneSpec) : VirtualMachineCloneSpec := {|
  cs_Template := cs_Template r;
  cs_CloneMode := cs_CloneMode r;
  cs_Snapshot := cs_Snapshot r;
  cs_Server := v;
  cs_Thumbprint := cs_Thumbprint r;
  cs_Datacenter := cs_Datacenter r;
  cs_Folder := cs_Folder r;
  cs_Datastore := cs_Datastore r;
  cs_StoragePolicyName := cs_StoragePolicyName r;
  cs_ResourcePool := cs_ResourcePool r;
  cs_Network := cs_Network r;
  cs_NumCPUs := cs_NumCPUs r;
  cs_NumCoresPerSocket := cs_NumCoresPerSocket r;
  cs_Resources := cs_Resources r;
  cs_MemoryMiB := cs_MemoryMiB r;
  cs_DiskGiB := cs_DiskGiB r;
  cs_AdditionalDisksGiB := cs_AdditionalDisksGiB r;
  cs_CustomVMXKeys := cs_CustomVMXKeys r;
  cs_TagIDs := cs_TagIDs r;
  cs_PciDevices := cs_PciDevices r;
  cs_OS := cs_OS r;
  cs_HardwareVersion := cs_HardwareVersion r;
  cs_DataDisks := cs_DataDisks r;
  cs_NestedHV := cs_NestedHV r;
  cs_FtEncryptionMode := cs_FtEncryptionMode r;
  cs_MigrateEncryption := cs_MigrateEncryption r;
  cs_CryptoKeyID := cs_CryptoKeyID r;
  cs_CryptoProfile := cs_CryptoProfile r
|}.

Definition set_cs_Thumbprint (v : string) (r : VirtualMachineCloneSpec) : VirtualMachineCloneSpec := {|
  cs_Template := cs_Template r;
  cs_CloneMode := cs_CloneMode r;
  cs_Snapshot := cs_Snapshot r;
  cs_Server := cs_Server r;
  cs_Thumbprint := v;
  cs_Datacenter := cs_Datacenter r;
  cs_Folder := cs_Folder r;
  cs_Datastore := cs_Datastore r;
  cs_StoragePolicyName := cs_StoragePolicyName r;
  cs_ResourcePool := cs_ResourcePool r;
  cs_Network := cs_Network r;
  cs_NumCPUs := cs_NumCPUs r;
  cs_NumCoresPerSocket := cs_NumCoresPerSocket r;
  cs_Resources := cs_Resources r;
  cs_MemoryMiB := cs_MemoryMiB r;
  cs_DiskGiB := cs_DiskGiB r;
  cs_AdditionalDisksGiB := cs_AdditionalDisksGiB r;
  cs_CustomVMXKeys := cs_CustomVMXKeys r;
  cs_TagIDs := cs_TagIDs r;
  cs_PciDevices := cs_PciDevices r;
  cs_OS := cs_OS r;
  cs_HardwareVersion := cs_HardwareVersion r;
  cs_DataDisks := cs_DataDisks r;
  cs_NestedHV := cs_NestedHV r;
  cs_FtEncryptionMode := cs_FtEncryptionMode r;
  cs_MigrateEncryption := cs_MigrateEncryption r;
  cs_CryptoKeyID := cs_CryptoKeyID r;
  cs_CryptoProfile := cs_CryptoProfile r
|}.

Definition set_cs_Datacenter (v : string) (r : VirtualMachineCloneSpec) : VirtualMachineCloneSpec := {|
  cs_Template := cs_Template r;
  cs_CloneMode := cs_CloneMode r;
  cs_Snapshot := cs_Snapshot r;
  cs_Server := cs_Server r;
  cs_Thumbprint := cs_Thumbprint r;
  cs_Datacenter := v;
  cs_Folder := cs_Folder r;
  cs_Datastore := cs_Datastore r;
  cs_StoragePolicyName := cs_StoragePolicyName r;
  cs_ResourcePool := cs_ResourcePool r;
  cs_Network := cs_Network r;
  cs_NumCPUs := cs_NumCPUs r;
  cs_NumCoresPerSocket := cs_NumCoresPerSocket r;
  cs_Resources := cs_Resources r;
  cs_MemoryMiB := cs_MemoryMiB r;
  cs_DiskGiB := cs_DiskGiB r;
  cs_AdditionalDisksGiB := cs_AdditionalDisksGiB r;
  cs_CustomVMXKeys := cs_CustomVMXKeys r;
  cs_TagIDs := cs_TagIDs r;
  cs_PciDevices := cs_PciDevices r;
  cs_OS := cs_OS r;
  cs_HardwareVersion := cs_HardwareVersion r;
  cs_DataDisks := cs_DataDisks r;
  cs_NestedHV := cs_NestedHV r;
  cs_FtEncryptionMode := cs_FtEncryptionMode r;
  cs_MigrateEncryption := cs_MigrateEncryption r;
  cs_CryptoKeyID := cs_CryptoKeyID r;
  cs_CryptoProfile := cs_CryptoProfile r
|}.

Definition set_cs_Folder (v : string) (r : VirtualMachineCloneSpec) : VirtualMachineCloneSpec := {|
  cs_Template := cs_Template r;
  cs_CloneMode := cs_CloneMode r;
  cs_Snapshot := cs_Snapshot r;
  cs_Server := cs_Server r;
  cs_Thumbprint := cs_Thumbprint r;
  cs_Datacenter := cs_Datacenter r;
  cs_Folder := v;
  cs_Datastore := cs_Datastore r;
  cs_StoragePolicyName := cs_StoragePolicyName r;
  cs_ResourcePool := cs_ResourcePool r;
  cs_Network := cs_Network r;
  cs_NumCPUs := cs_NumCPUs r;
  cs_NumCoresPerSocket := cs_NumCoresPerSocket r;
  cs_Resources := cs_Resources r;
  cs_MemoryMiB := cs_MemoryMiB r;
  cs_DiskGiB := cs_DiskGiB r;
  cs_AdditionalDisksGiB := cs_AdditionalDisksGiB r;
  cs_CustomVMXKeys := cs_CustomVMXKeys r;
  cs_TagIDs := cs_TagIDs r;
  cs_PciDevices := cs_PciDevices r;
  cs_OS := cs_OS r;
  cs_HardwareVersion := cs_HardwareVersion r;
  cs_DataDisks := cs_DataDisks r;
  cs_NestedHV := cs_NestedHV r;
  cs_FtEncryptionMode := cs_FtEncryptionMode r;
  cs_MigrateEncryption := cs_MigrateEncryption r;
  cs_CryptoKeyID := cs_CryptoKeyID r;
  cs_CryptoProfile := cs_CryptoProfile r
|}.

Definition set_cs_Datastore (v : string) (r : VirtualMachineCloneSpec) : VirtualMachineCloneSpec := {|
  cs_Template := cs_Template r;
  cs_CloneMode := cs_CloneMode r;
  cs_Snapshot := cs_Snapshot r;
  cs_Server := cs_Server r;
  cs_Thumbprint := cs_Thumbprint r;
  cs_Datacenter := cs_Datacenter r;
  cs_Folder := cs_Folder r;
  cs_Datastore := v;
  cs_StoragePolicyName := cs_StoragePolicyName r;
  cs_ResourcePool := cs_ResourcePool r;
  cs_Network := cs_Network r;
  cs_NumCPUs := cs_NumCPUs r;
  cs_NumCoresPerSocket := cs_NumCoresPerSocket r;
  cs_Resources := cs_Resources r;
  cs_MemoryMiB := cs_MemoryMiB r;
  cs_DiskGiB := cs_DiskGiB r;
  cs_AdditionalDisksGiB := cs_AdditionalDisksGiB r;
  cs_CustomVMXKeys := cs_CustomVMXKeys r;
  cs_TagIDs := cs_TagIDs r;
  cs_PciDevices := cs_PciDevices r;
  cs_OS := cs_OS r;
  cs_HardwareVersion := cs_HardwareVersion r;
  cs_DataDisks := cs_DataDisks r;
  cs_NestedHV := cs_NestedHV r;
  cs_FtEncryptionMode := cs_FtEncryptionMode r;
  cs_MigrateEncryption := cs_MigrateEncryption r;
  cs_CryptoKeyID := cs_CryptoKeyID r;
  cs_CryptoProfile := cs_CryptoProfile r
|}.

Definition set_cs_ResourcePool (v : string) (r : VirtualMachineCloneSpec) : VirtualMachineCloneSpec := {|
  cs_Template := cs_Template r;
  cs_CloneMode := cs_CloneMode r;
  cs_Snapshot := cs_Snapshot r;
  cs_Server := cs_Server r;
  cs_Thumbprint := cs_Thumbprint r;
  cs_Datacenter := cs_Datacenter r;
  cs_Folder := cs_Folder r;
  cs_Datastore := cs_Datastore r;
  cs_StoragePolicyName := cs_StoragePolicyName r;
  cs_ResourcePool := v;
  cs_Network := cs_Network r;
  cs_NumCPUs := cs_NumCPUs r;
  cs_NumCoresPerSocket := cs_NumCoresPerSocket r;
  cs_Resources := cs_Resources r;
  cs_MemoryMiB := cs_MemoryMiB r;
  cs_DiskGiB := cs_DiskGiB r;
  cs_AdditionalDisksGiB := cs_AdditionalDisksGiB r;
  cs_CustomVMXKeys := cs_CustomVMXKeys r;
  cs_TagIDs := cs_TagIDs r;
  cs_PciDevices := cs_PciDevices r;
  cs_OS := cs_OS r;
  cs_HardwareVersion := cs_HardwareVersion r;
  cs_DataDisks := cs_DataDisks r;
  cs_NestedHV := cs_NestedHV r;
  cs_FtEncryptionMode := cs_FtEncryptionMode r;
  cs_MigrateEncryption := cs_MigrateEncryption r;
  cs_CryptoKeyID := cs_CryptoKeyID r;
  cs_CryptoProfile := cs_CryptoProfile r
|}.

Definition set_cs_Network (v : NetworkSpec) (r : VirtualMachineCloneSpec) : VirtualMachineCloneSpec := {|
  cs_Template := cs_Template r;
  cs_CloneMode := cs_CloneMode r;
  cs_Snapshot := cs_Snapshot r;
  cs_Server := cs_Server r;
  cs_Thumbprint := cs_Thumbprint r;
  cs_Datacenter := cs_Datacenter r;
  cs_Folder := cs_Folder r;
  cs_Datastore := cs_Datastore r;
  cs_StoragePolicyName := cs_StoragePolicyName r;
  cs_ResourcePool := cs_ResourcePool r;
  cs_Network := v;
  cs_NumCPUs := cs_NumCPUs r;
  cs_NumCoresPerSocket := cs_NumCoresPerSocket r;
  cs_Resources := cs_Resources r;
  cs_MemoryMiB := cs_MemoryMiB r;
  cs_DiskGiB := cs_DiskGiB r;
  cs_AdditionalDisksGiB := cs_AdditionalDisksGiB r;
  cs_CustomVMXKeys := cs_CustomVMXKeys r;
  cs_TagIDs := cs_TagIDs r;
  cs_PciDevices := cs_PciDevices r;
  cs_OS := cs_OS r;
  cs_HardwareVersion := cs_HardwareVersion r;
  cs_DataDisks := cs_DataDisks r;
  cs_NestedHV := cs_NestedHV r;
  cs_FtEncryptionMode := cs_FtEncryptionMode r;
  cs_MigrateEncryption := cs_MigrateEncryption r;
  cs_CryptoKeyID := cs_CryptoKeyID r;
  cs_CryptoProfile := cs_CryptoProfile r
|}.

Definition set_cs_OS (v : string) (r : VirtualMachineCloneSpec) : VirtualMachineCloneSpec := {|
  cs_Template := cs_Template r;
  cs_CloneMode := cs_CloneMode r;
  cs_Snapshot := cs_Snapshot r;
  cs_Server := cs_Server r;
  cs_Thumbprint := cs_Thumbprint r;
  cs_Datacenter := cs_Datacenter r;
  cs_Folder := cs_Folder r;
  cs_Datastore := cs_Datastore r;
  cs_StoragePolicyName := cs_StoragePolicyName r;
  cs_ResourcePool := cs_ResourcePool r;
  cs_Network := cs_Network r;
  cs_NumCPUs := cs_NumCPUs r;
  cs_NumCoresPerSocket := cs_NumCoresPerSocket r;
  cs_Resources := cs_Resources r;
  cs_MemoryMiB := cs_MemoryMiB r;
  cs_DiskGiB := cs_DiskGiB r;
  cs_AdditionalDisksGiB := cs_AdditionalDisksGiB r;
  cs_CustomVMXKeys := cs_CustomVMXKeys r;
  cs_TagIDs := cs_TagIDs r;
  cs_PciDevices := cs_PciDevices r;
  cs_OS := v;
  cs_HardwareVersion := cs_HardwareVersion r;
  cs_DataDisks := cs_DataDisks r;
  cs_NestedHV := cs_NestedHV r;
  cs_FtEncryptionMode := cs_FtEncryptionMode r;
  cs_MigrateEncryption := cs_MigrateEncryption r;
  cs_CryptoKeyID := cs_CryptoKeyID r;
  cs_CryptoProfile := cs_CryptoProfile r
|}.

Definition set_cs_CustomVMXKeys (v : option (gmap string string)) (r : VirtualMachineCloneSpec) : VirtualMachineCloneSpec := {|
  cs_Template := cs_Template r;
  cs_CloneMode := cs_CloneMode r;
  cs_Snapshot := cs_Snapshot r;
  cs_Server := cs_Server r;
  cs_Thumbprint := cs_Thumbprint r;
  cs_Datacenter := cs_Datacenter r;
  cs_Folder := cs_Folder r;
  cs_Datastore := cs_Datastore r;
  cs_StoragePolicyName := cs_StoragePolicyName r;
  cs_ResourcePool := cs_ResourcePool r;
  cs_Network := cs_Network r;
  cs_NumCPUs := cs_NumCPUs r;
  cs_NumCoresPerSocket := cs_NumCoresPerSocket r;
  cs_Resources := cs_Resources r;
  cs_MemoryMiB := cs_MemoryMiB r;
  cs_DiskGiB := cs_DiskGiB r;
  cs_AdditionalDisksGiB := cs_AdditionalDisksGiB r;
  cs_CustomVMXKeys := v;
  cs_TagIDs := cs_TagIDs r;
  cs_PciDevices := cs_PciDevices r;
  cs_OS := cs_OS r;
  cs_HardwareVersion := cs_HardwareVersion r;
  cs_DataDisks := cs_DataDisks r;
  cs_NestedHV := cs_NestedHV r;
  cs_FtEncryptionMode := cs_FtEncryptionMode r;
  cs_MigrateEncryption := cs_MigrateEncryption r;
  cs_CryptoKeyID := cs_CryptoKeyID r;
  cs_CryptoProfile := cs_CryptoProfile r
|}.

#[export] Instance cs_eq_dec : EqDecision VirtualMachineCloneSpec.
Proof. solve_decision. Defined.

(** [infrav1.VirtualMachineCloneSpec{}]. *)
Definition VirtualMachineCloneSpec_zero : VirtualMachineCloneSpec :=
  mkVirtualMachineCloneSpec "" "" "" "" "" "" "" "" "" "" (mkNetworkSpec [] []) 0 None
    (mkVirtualMachineResources (mkVirtualMachineResourceSpec 0 0)
       (mkVirtualMachineResourceSpec 0 0) (mkVirtualMachineResourceShares 0 0))
    0 0 [] None [] [] "" "" [] None "" "" "" "".

(** * VSphereVM *)

(** The status of one of a VM's networks. *)
Record NetworkStatus := mkNetworkStatus {
  st_Connected : option bool;
  st_IPAddrs : list string;
  st_MACAddr : string;
  st_NetworkName : string
}.

Definition set_st_IPAddrs (v : list string) (r : NetworkStatus) : NetworkStatus := {|
  st_Connected := st_Connected r;
  st_IPAddrs := v;
  st_MACAddr := st_MACAddr r;
  st_NetworkName := st_NetworkName r
|}.

#[export] Instance st_eq_dec : EqDecision NetworkStatus.
Proof. solve_decision. Defined.

(** The secret that holds the bootstrap data. *)
Record VSphereVMBootstrapReference := mkVSphereVMBootstrapReference {
  br_Name : string
}.

#[export] Instance br_eq_dec : EqDecision VSphereVMBootstrapReference.
Proof. solve_decision. Defined.

(** The desired state of a VSphereVM. *)
Record VSphereVMSpec := mkVSphereVMSpec {
  vs_VirtualMachineCloneSpec : VirtualMachineCloneSpec;
  vs_BootstrapRef : VSphereVMBootstrapReference;
  vs_BiosUUID : string;
  vs_PowerOffMode : string;
  vs_GuestSoftPowerOffTimeoutSeconds : Z
}.

Definition set_vs_VirtualMachineCloneSpec (v : VirtualMachineCloneSpec) (r : VSphereVMSpec) : VSphereVMSpec := {|
  vs_VirtualMachineCloneSpec := v;
  vs_BootstrapRef := vs_BootstrapRef r;
  vs_BiosUUID := vs_BiosUUID r;
  vs_PowerOffMode := vs_PowerOffMode r;
  vs_GuestSoftPowerOffTimeoutSeconds := vs_GuestSoftPowerOffTimeoutSeconds r
|}.

Definition set_vs_BootstrapRef (v : VSphereVMBootstrapReference) (r : VSphereVMSpec) : VSphereVMSpec := {|
  vs_VirtualMachineCloneSpec := vs_VirtualMachineCloneSpec r;
  vs_BootstrapRef := v;
  vs_BiosUUID := vs_BiosUUID r;
  vs_PowerOffMode := vs_PowerOffMode r;
  vs_GuestSoftPowerOffTimeoutSeconds := vs_GuestSoftPowerOffTimeoutSeconds r
|}.

Definition set_vs_BiosUUID (v : string) (r : VSphereVMSpec) : VSphereVMSpec := {|
  vs_VirtualMachineCloneSpec := vs_VirtualMachineCloneSpec r;
  vs_BootstrapRef := vs_BootstrapRef r;
  vs_BiosUUID := v;
  vs_PowerOffMode := vs_PowerOffMode r;
  vs_GuestSoftPowerOffTimeoutSeconds := vs_GuestSoftPowerOffTimeoutSeconds r
|}.

Definition set_vs_PowerOffMode (v : string) (r : VSphereVMSpec) : VSphereVMSpec := {|
  vs_VirtualMachineCloneSpec := vs_VirtualMachineCloneSpec r;
  vs_BootstrapRef := vs_BootstrapRef r;
  vs_BiosUUID := vs_BiosUUID r;
  vs_PowerOffMode := v;
  vs_GuestSoftPowerOffTimeoutSeconds := vs_GuestSoftPowerOffTimeoutSeconds r
|}.

Definition set_vs_GuestSoftPowerOffTimeoutSeconds (v : Z) (r : VSphereVMSpec) : VSphereVMSpec := {|
  vs_VirtualMachineCloneSpec := vs_VirtualMachineCloneSpec r;
  vs_BootstrapRef := vs_BootstrapRef r;
  vs_BiosUUID := vs_BiosUUID r;
  vs_PowerOffMode := vs_PowerOffMode r;
  vs_GuestSoftPowerOffTimeoutSeconds := v
|}.

(** The part of the status that is deprecated with v1beta1. *)
Record VSphereVMV1Beta1DeprecatedStatus := mkVSphereVMV1Beta1DeprecatedStatus {
  vb_Conditions : list V1Beta1Condition;
  vb_FailureReason : option string;
  vb_FailureMessage : option string
}.

(** The deprecated status fields. *)
Record VSphereVMDeprecatedStatus := mkVSphereVMDeprecatedStatus {
  vx_V1Beta1 : option VSphereVMV1Beta1DeprecatedStatus
}.

(** The observed state of a VSphereVM. *)
Record VSphereVMStatus := mkVSphereVMStatus {
  vt_Conditions : list Condition;
  vt_Host : string;
  vt_Ready : option bool;
  vt_Addresses : list string;
  vt_CloneMode : string;
  vt_Snapshot : string;
  vt_RetryAfter : Time;
  vt_TaskRef : string;
  vt_Network : list NetworkStatus;
  vt_ModuleUUID : option string;
  vt_VMRef : string;
  vt_Deprecated : option VSphereVMDeprecatedStatus
}.

Definition set_vt_Conditions (v : list Condition) (r : VSphereVMStatus) : VSphereVMStatus := {|
  vt_Conditions := v;
  vt_Host := vt_Host r;
  vt_Ready := vt_Ready r;
  vt_Addresses := vt_Addresses r;
  vt_CloneMode := vt_CloneMode r;
  vt_Snapshot := vt_Snapshot r;
  vt_RetryAfter := vt_RetryAfter r;
  vt_TaskRef := vt_TaskRef r;
  vt_Network := vt_Network r;
  vt_ModuleUUID := vt_ModuleUUID r;
  vt_VMRef := vt_VMRef r;
  vt_Deprecated := vt_Deprecated r
|}.

Definition set_vt_Host (v : string) (r : VSphereVMStatus) : VSphereVMStatus := {|
  vt_Conditions := vt_Conditions r;
  vt_Host := v;
  vt_Ready := vt_Ready r;
  vt_Addresses := vt_Addresses r;
  vt_CloneMode := vt_CloneMode r;
  vt_Snapshot := vt_Snapshot r;
  vt_RetryAfter := vt_RetryAfter r;
  vt_TaskRef := vt_TaskRef r;
  vt_Network := vt_Network r;
  vt_ModuleUUID := vt_ModuleUUID r;
  vt_VMRef := vt_VMRef r;
  vt_Deprecated := vt_Deprecated r
|}.

Definition set_vt_Ready (v : option bool) (r : VSphereVMStatus) : VSphereVMStatus := {|
  vt_Conditions := vt_Conditions r;
  vt_Host := vt_Host r;
  vt_Ready := v;
  vt_Addresses := vt_Addresses r;
  vt_CloneMode := vt_CloneMode r;
  vt_Snapshot := vt_Snapshot r;
  vt_RetryAfter := vt_RetryAfter r;
  vt_TaskRef := vt_TaskRef r;
  vt_Network := vt_Network r;
  vt_ModuleUUID := vt_ModuleUUID r;
  vt_VMRef := vt_VMRef r;
  vt_Deprecated := vt_Deprecated r
|}.

Definition set_vt_Addresses (v : list string) (r : VSphereVMStatus) : VSphereVMStatus := {|
  vt_Conditions := vt_Conditions r;
  vt_Host := vt_Host r;
  vt_Ready := vt_Ready r;
  vt_Addresses := v;
  vt_CloneMode := vt_CloneMode r;
  vt_Snapshot := vt_Snapshot r;
  vt_RetryAfter := vt_RetryAfter r;
  vt_TaskRef := vt_TaskRef r;
  vt_Network := vt_Network r;
  vt_ModuleUUID := vt_ModuleUUID r;
  vt_VMRef := vt_VMRef r;
  vt_Deprecated := vt_Deprecated r
|}.

Definition set_vt_CloneMode (v : string) (r : VSphereVMStatus) : VSphereVMStatus := {|
  vt_Conditions := vt_Conditions r;
  vt_Host := vt_Host r;
  vt_Ready := vt_Ready r;
  vt_Addresses := vt_Addresses r;
  vt_CloneMode := v;
  vt_Snapshot := vt_Snapshot r;
  vt_RetryAfter := vt_RetryAfter r;
  vt_TaskRef := vt_TaskRef r;
  vt_Network := vt_Network r;
  vt_ModuleUUID := vt_ModuleUUID r;
  vt_VMRef := vt_VMRef r;
  vt_Deprecated := vt_Deprecated r
|}.

Definition set_vt_Snapshot (v : string) (r : VSphereVMStatus) : VSphereVMStatus := {|
  vt_Conditions := vt_Conditions r;
  vt_Host := vt_Host r;
  vt_Ready := vt_Ready r;
  vt_Addresses := vt_Addresses r;
  vt_CloneMode := vt_CloneMode r;
  vt_Snapshot := v;
  vt_RetryAfter := vt_RetryAfter r;
  vt_TaskRef := vt_TaskRef r;
  vt_Network := vt_Network r;
  vt_ModuleUUID := vt_ModuleUUID r;
  vt_VMRef := vt_VMRef r;
  vt_Deprecated := vt_Deprecated r
|}.

Definition set_vt_RetryAfter (v : Time) (r : VSphereVMStatus) : VSphereVMStatus := {|
  vt_Conditions := vt_Conditions r;
  vt_Host := vt_Host r;
  vt_Ready := vt_Ready r;
  vt_Addresses := vt_Addresses r;
  vt_CloneMode := vt_CloneMode r;
  vt_Snapshot := vt_Snapshot r;
  vt_RetryAfter := v;
  vt_TaskRef := vt_TaskRef r;
  vt_Network := vt_Network r;
  vt_ModuleUUID := vt_ModuleUUID r;
  vt_VMRef := vt_VMRef r;
  vt_Deprecated := vt_Deprecated r
|}.

Definition set_vt_TaskRef (v : string) (r : VSphereVMStatus) : VSphereVMStatus := {|
  vt_Conditions := vt_Conditions r;
  vt_Host := vt_Host r;
  vt_Ready := vt_Ready r;
  vt_Addresses := vt_Addresses r;
  vt_CloneMode := vt_CloneMode r;
  vt_Snapshot := vt_Snapshot r;
  vt_RetryAfter := vt_RetryAfter r;
  vt_TaskRef := v;
  vt_Network := vt_Network r;
  vt_ModuleUUID := vt_ModuleUUID r;
  vt_VMRef := vt_VMRef r;
  vt_Deprecated := vt_Deprecated r
|}.

Definition set_vt_Network (v : list NetworkStatus) (r : VSphereVMStatus) : VSphereVMStatus := {|
  vt_Conditions := vt_Conditions r;
  vt_Host := vt_Host r;
  vt_Ready := vt_Ready r;
  vt_Addresses := vt_Addresses r;
  vt_CloneMode := vt_CloneMode r;
  vt_Snapshot := vt_Snapshot r;
  vt_RetryAfter := vt_RetryAfter r;
  vt_TaskRef := vt_TaskRef r;
  vt_Network := v;
  vt_ModuleUUID := vt_ModuleUUID r;
  vt_VMRef := vt_VMRef r;
  vt_Deprecated := vt_Deprecated r
|}.

Definition set_vt_ModuleUUID (v : option string) (r : VSphereVMStatus) : VSphereVMStatus := {|
  vt_Conditions := vt_Conditions r;
  vt_Host := vt_Host r;
  vt_Ready := vt_Ready r;
  vt_Addresses := vt_Addresses r;
  vt_CloneMode := vt_CloneMode r;
  vt_Snapshot := vt_Snapshot r;
  vt_RetryAfter := vt_RetryAfter r;
  vt_TaskRef := vt_TaskRef r;
  vt_Network := vt_Network r;
  vt_ModuleUUID := v;
  vt_VMRef := vt_VMRef r;
  vt_Deprecated := vt_Deprecated r
|}.

Definition set_vt_VMRef (v : string) (r : VSphereVMStatus) : VSphereVMStatus := {|
  vt_Conditions := vt_Conditions r;
  vt_Host := vt_Host r;
  vt_Ready := vt_Ready r;
  vt_Addresses := vt_Addresses r;
  vt_CloneMode := vt_CloneMode r;
  vt_Snapshot := vt_Snapshot r;
  vt_RetryAfter := vt_RetryAfter r;
  vt_TaskRef := vt_TaskRef r;
  vt_Network := vt_Network r;
  vt_ModuleUUID := vt_ModuleUUID r;
  vt_VMRef := v;
  vt_Deprecated := vt_Deprecated r
|}.

Definition set_vt_Deprecated (v : option VSphereVMDeprecatedStatus) (r : VSphereVMStatus) : VSphereVMStatus := {|
  vt_Conditions := vt_Conditions r;
  vt_Host := vt_Host r;
  vt_Ready := vt_Ready r;
  vt_Addresses := vt_Addresses r;
  vt_CloneMode := vt_CloneMode r;
  vt_Snapshot := vt_Snapshot r;
  vt_RetryAfter := vt_RetryAfter r;
  vt_TaskRef := vt_TaskRef r;
  vt_Network := vt_Network r;
  vt_ModuleUUID := vt_ModuleUUID r;
  vt_VMRef := vt_VMRef r;
  vt_Deprecated := v
|}.

(** A VSphereVM; [vm_GVK] is the group, version and kind of its type, as printed. *)
Record VSphereVM := mkVSphereVM {
  vm_GVK : string;
  vm_ObjectMeta : ObjectMeta;
  vm_Spec : VSphereVMSpec;
  vm_Status : VSphereVMStatus
}.

Definition set_vm_ObjectMeta (v : ObjectMeta) (r : VSphereVM) : VSphereVM := {|
  vm_GVK := vm_GVK r;
  vm_ObjectMeta := v;
  vm_Spec := vm_Spec r;
  vm_Status := vm_Status r
|}.

Definition set_vm_Spec (v : VSphereVMSpec) (r : VSphereVM) : VSphereVM := {|
  vm_GVK := vm_GVK r;
  vm_ObjectMeta := vm_ObjectMeta r;
  vm_Spec := v;
  vm_Status := vm_Status r
|}.

Definition set_vm_Status (v : VSphereVMStatus) (r : VSphereVM) : VSphereVM := {|
  vm_GVK := vm_GVK r;
  vm_ObjectMeta := vm_ObjectMeta r;
  vm_Spec := vm_Spec r;
  vm_Status := v
|}.

(** [GetConditions], [SetConditions]. *)
Definition GetConditions (c : VSphereVM) : list Condition := vt_Conditions (vm_Status c).
Definition SetConditions (c : VSphereVM) (conditions : list Condition) : VSphereVM :=
  set_vm_Status (set_vt_Conditions conditions (vm_Status c)) c.

(** [GetV1Beta1Conditions]: none when either level of the deprecated status is
    nil. *)
Definition GetV1Beta1Conditions (c : VSphereVM) : list V1Beta1Condition :=
  match vt_Deprecated (vm_Status c) with
  | Some d => match vx_V1Beta1 d with Some b => vb_Conditions b | None => [] end
  | None => []
  end.

(** [SetV1Beta1Conditions]: missing levels are created. *)
Definition SetV1Beta1Conditions (c : VSphereVM) (conditions : list V1Beta1Condition) : VSphereVM :=
  let d := ptr_deref (vt_Deprecated (vm_Status c)) (mkVSphereVMDeprecatedStatus None) in
  let b := ptr_deref (vx_V1Beta1 d) (mkVSphereVMV1Beta1DeprecatedStatus [] None None) in
  let b := mkVSphereVMV1Beta1DeprecatedStatus conditions (vb_FailureReason b) (vb_FailureMessage b) in
  set_vm_Status (set_vt_Deprecated (Some (mkVSphereVMDeprecatedStatus (Some b))) (vm_Status c)) c.

(** Shorthands for the paths [vm.Spec.X] of the embedded clone spec, [vm.Name],
    [vm.Namespace] and [vm.UID]. *)
Definition vm_clone (vm : VSphereVM) : VirtualMachineCloneSpec :=
  vs_VirtualMachineCloneSpec (vm_Spec vm).
Definition vm_Name (vm : VSphereVM) : string := om_Name (vm_ObjectMeta vm).
Definition vm_Namespace (vm : VSphereVM) : string := om_Namespace (vm_ObjectMeta vm).
Definition vm_UID (vm : VSphereVM) : string := om_UID (vm_ObjectMeta vm).
Definition vm_devices (vm : VSphereVM) : list NetworkDeviceSpec := ns_Devices (cs_Network (vm_clone vm)).

(** An assignment [vm.Status.X = v]. *)
Definition on_status (f : VSphereVMStatus -> VSphereVMStatus) (vm : VSphereVM) : VSphereVM :=
  set_vm_Status (f (vm_Status vm)) vm.

(** * Conditions and reasons of a VSphereVM

    The ones that are aliases of constants of Cluster API are fields of
    [ClusterV1] in [Libs]. *)
Definition VSphereVMVirtualMachineProvisionedCondition : string := "VirtualMachineProvisioned".
Definition VSphereVMVirtualMachineWaitingForCloneReason : string := "WaitingForClone".
Definition VSphereVMVirtualMachineWaitingForStaticIPAllocationReason : string :=
  "WaitingForStaticIPAllocation".
Definition VSphereVMVirtualMachineWaitingForIPAddressReason : string := "WaitingForIPAddress".
Definition VSphereVMVirtualMachineWaitingForIPAllocationReason : string := "WaitingForIPAllocation".
Definition VSphereVMVirtualMachinePoweringOnReason : string := "PoweringOn".
Definition VSphereVMVirtualMachineTaskFailedReason : string := "TaskFailed".
Definition VSphereVMVirtualMachineNotFoundByBIOSUUIDReason : string := "NotFoundByBIOSUUID".
Definition VSphereVMVCenterAvailableCondition : string := "VCenterAvailable".
Definition VSphereVMVCenterUnreachableReason : string := "VCenterUnreachable".
Definition VSphereVMIPAddressClaimsFulfilledCondition : string := "IPAddressClaimsFulfilled".
Definition VSphereVMIPAddressClaimsBeingCreatedReason : string := "IPAddressClaimsBeingCreated".
Definition VSphereVMIPAddressClaimsWaitingForIPAddressReason : string := "WaitingForIPAddress".
Definition VSphereVMIPAddressClaimsFulfilledReason : string := "Fulfilled".
Definition VSphereVMIPAddressClaimsNotFulfilledReason : string := "NotFulfilled".
Definition VSphereVMGuestSoftPowerOffSucceededCondition : string := "GuestSoftPowerOffSucceeded".
Definition VSphereVMGuestSoftPowerOffInProgressReason : string := "InProgress".
Definition VSphereVMGuestSoftPowerOffFailedReason : string := "Failed".
Definition VSphereVMGuestSoftPowerOffSucceededReason : string := "Succeeded".
Definition VSphereVMPCIDevicesDetachedCondition : string := "PCIDevicesDetached".
Definition VSphereVMPCIDevicesDetachedNotFoundReason : string := "NotFound".

(** Condition types and reasons of the v1beta1 contract
    ([condition_consts.go]). *)
Definition VMProvisionedV1Beta1Condition : string := "VMProvisioned".
Definition WaitingForClusterInfrastructureV1Beta1Reason : string := "WaitingForClusterInfrastructure".
Definition WaitingForBootstrapDataV1Beta1Reason : string := "WaitingForBootstrapData".
Definition WaitingForStaticIPAllocationV1Beta1Reason : string := "WaitingForStaticIPAllocation".
Definition WaitingForIPAllocationV1Beta1Reason : string := "WaitingForIPAllocation".
Definition CloningV1Beta1Reason : string := "Cloning".
Definition CloningFailedV1Beta1Reason : string := "CloningFailed".
Definition PoweringOnV1Beta1Reason : string := "PoweringOn".
Definition PoweringOnFailedV1Beta1Reason : string := "PoweringOnFailed".
Definition NotFoundByBIOSUUIDV1Beta1Reason : string := "NotFoundByBIOSUUID".
Definition TaskFailure : string := "TaskFailure".
Definition WaitingForNetworkAddressesV1Beta1Reason : string := "WaitingForNetworkAddresses".
Definition TagsAttachmentFailedV1Beta1Reason : string := "TagsAttachmentFailed".
Definition PCIDevicesDetachedV1Beta1Condition : string := "PCIDevicesDetached".
Definition NotFoundV1Beta1Reason : string := "NotFound".
Definition VCenterAvailableV1Beta1Condition : string := "VCenterAvailable".
Definition VCenterUnreachableV1Beta1Reason : string := "VCenterUnreachable".
Definition ClusterModulesAvailableV1Beta1Condition : string := "ClusterModulesAvailable".
Definition VCenterVersionIncompatibleV1Beta1Reason : string := "VCenterVersionIncompatible".
Definition ClusterModuleSetupFailedV1Beta1Reason : string := "ClusterModuleSetupFailed".
Definition IPAddressClaimedV1Beta1Condition : string := "IPAddressClaimed".
Definition IPAddressClaimsBeingCreatedV1Beta1Reason : string := "IPAddressClaimsBeingCreated".
Definition WaitingForIPAddressV1Beta1Reason : string := "WaitingForIPAddress".
Definition IPAddressClaimNotFoundV1Beta1Reason : string := "IPAddressClaimNotFound".
Definition GuestSoftPowerOffSucceededV1Beta1Condition : string := "GuestSoftPowerOffSucceeded".
Definition GuestSoftPowerOffInProgressV1Beta1Reason : string := "GuestSoftPowerOffInProgress".
Definition GuestSoftPowerOffFailedV1Beta1Reason : string := "GuestSoftPowerOffFailed".

Definition VMFinalizer : string := "vspherevm.infrastructure.cluster.x-k8s.io".
Definition IPAddressClaimFinalizer : string :=
  "vspherevm.infrastructure.cluster.x-k8s.io/ip-claim-protection".

(** The untyped constant [5 * 60]. *)
Definition GuestSoftPowerOffDefaultTimeoutSeconds : Z := 5 * 60.

(** * Result of the VM service ([pkg/services/interfaces.go]) *)

Definition VirtualMachineStateNotFound : string := "notfound".
Definition VirtualMachineStatePending : string := "pending".
Definition VirtualMachineStateReady : string := "ready".

(** [services.VirtualMachine]: what the VM service reports about a VM. *)
Record VirtualMachine := mkVirtualMachine {
  v_Name : string;
  v_BiosUUID : string;
  v_State : string;
  v_Network : list NetworkStatus;
  v_VMRef : string
}.

Definition set_v_BiosUUID (v : string) (r : VirtualMachine) : VirtualMachine := {|
  v_Name := v_Name r;
  v_BiosUUID := v;
  v_State := v_State r;
  v_Network := v_Network r;
  v_VMRef := v_VMRef r
|}.

Definition set_v_State (v : string) (r : VirtualMachine) : VirtualMachine := {|
  v_Name := v_Name r;
  v_BiosUUID := v_BiosUUID r;
  v_State := v;
  v_Network := v_Network r;
  v_VMRef := v_VMRef r
|}.

Definition set_v_Network (v : list NetworkStatus) (r : VirtualMachine) : VirtualMachine := {|
  v_Name := v_Name r;
  v_BiosUUID := v_BiosUUID r;
  v_State := v_State r;
  v_Network := v;
  v_VMRef := v_VMRef r
|}.

Definition set_v_VMRef (v : string) (r : VirtualMachine) : VirtualMachine := {|
  v_Name := v_Name r;
  v_BiosUUID := v_BiosUUID r;
  v_State := v_State r;
  v_Network := v_Network r;
  v_VMRef := v
|}.

(** * Failure domains and clusters *)

(** [FailureDomainType]. *)
Definition HostGroupFailureDomain : string := "HostGroup".
Definition ComputeClusterFailureDomain : string := "ComputeCluster".
Definition DatacenterFailureDomain : string := "Datacenter".

(** The groups of virtual machines and hosts of a failure domain. *)
Record FailureDomainHosts := mkFailureDomainHosts {
  fh_VMGroupName : string;
  fh_HostGroupName : string
}.

#[export] Instance fh_eq_dec : EqDecision FailureDomainHosts.
Proof. solve_decision. Defined.

(** [FailureDomainHosts.IsDefined]. *)
Definition FailureDomainHosts_IsDefined (m : FailureDomainHosts) : bool :=
  negb (String.eqb (fh_VMGroupName m) "") || negb (String.eqb (fh_HostGroupName m) "").

(** The network configuration of a failure domain. *)
Record NetworkConfiguration := mkNetworkConfiguration {
  nc_NetworkName : string;
  nc_DHCP4 : option bool;
  nc_DHCP6 : option bool;
  nc_Nameservers : list string;
  nc_SearchDomains : list string;
  nc_DHCP4Overrides : option DHCPOverrides;
  nc_DHCP6Overrides : option DHCPOverrides;
  nc_AddressesFromPools : list IPPoolReference
}.

#[export] Instance nc_eq_dec : EqDecision NetworkConfiguration.
Proof. solve_decision. Defined.

(** The vSphere objects a failure domain stands for. *)
Record Topology := mkTopology {
  tp_Datacenter : string;
  tp_ComputeCluster : string;
  tp_Hosts : FailureDomainHosts;
  tp_Networks : list string;
  tp_NetworkConfigurations : list NetworkConfiguration;
  tp_Datastore : string
}.

#[export] Instance tp_eq_dec : EqDecision Topology.
Proof. solve_decision. Defined.

(** A region or a zone, identified by a tag. *)
Record FailureDomain := mkFailureDomain {
  fd_Name : string;
  fd_Type : string;
  fd_TagCategory : string
}.

#[export] Instance fd_eq_dec : EqDecision FailureDomain.
Proof. solve_decision. Defined.

(** The desired state of a failure domain. *)
Record VSphereFailureDomainSpec := mkVSphereFailureDomainSpec {
  fs_Region : FailureDomain;
  fs_Zone : FailureDomain;
  fs_Topology : Topology
}.

#[export] Instance fs_eq_dec : EqDecision VSphereFailureDomainSpec.
Proof. solve_decision. Defined.

(** A failure domain. *)
Record VSphereFailureDomain := mkVSphereFailureDomain {
  vf_ObjectMeta : ObjectMeta;
  vf_Spec : VSphereFailureDomainSpec
}.

Definition set_vf_ObjectMeta (v : ObjectMeta) (r : VSphereFailureDomain) : VSphereFailureDomain := {|
  vf_ObjectMeta := v;
  vf_Spec := vf_Spec r
|}.

(** Where in a failure domain machines are placed. *)
Record PlacementConstraint := mkPlacementConstraint {
  pc_ResourcePool : string;
  pc_Folder : string
}.

#[export] Instance pc_eq_dec : EqDecision PlacementConstraint.
Proof. solve_decision. Defined.

(** The desired state of a deployment zone. *)
Record VSphereDeploymentZoneSpec := mkVSphereDeploymentZoneSpec {
  dz_Server : string;
  dz_FailureDomain : string;
  dz_ControlPlane : option bool;
  dz_PlacementConstraint : PlacementConstraint
}.

#[export] Instance dz_eq_dec : EqDecision VSphereDeploymentZoneSpec.
Proof. solve_decision. Defined.

(** A cluster module, for the control plane or a machine deployment. *)
Record ClusterModule := mkClusterModule {
  cm_ControlPlane : option bool;
  cm_TargetObjectName : string;
  cm_ModuleUUID : string
}.

#[export] Instance cm_eq_dec : EqDecision ClusterModule.
Proof. solve_decision. Defined.

(** The identity whose credentials a cluster uses. *)
Record VSphereIdentityReference := mkVSphereIdentityReference {
  ir_Kind : string;
  ir_Name : string
}.

#[export] Instance ir_eq_dec : EqDecision VSphereIdentityReference.
Proof. solve_decision. Defined.

(** [VSphereIdentityReference.IsDefined]. *)
Definition VSphereIdentityReference_IsDefined (m : VSphereIdentityReference) : bool :=
  negb (String.eqb (ir_Kind m) "") || negb (String.eqb (ir_Name m) "").

(** A reachable API server. *)
Record APIEndpoint := mkAPIEndpoint {
  ep_Host : string;
  ep_Port : Z
}.

#[export] Instance ep_eq_dec : EqDecision APIEndpoint.
Proof. solve_decision. Defined.

(** [metav1.LabelSelector]: labels that must be equal, and expressions (key, operator, values). *)
Record LabelSelector := mkLabelSelector {
  sl_MatchLabels : gmap string string;
  sl_MatchExpressions : list (string * string * list string)
}.

#[export] Instance sl_eq_dec : EqDecision LabelSelector.
Proof. solve_decision. Defined.

(** [clusterv1.FailureDomain], the fields the code sets. *)
Record KubeFailureDomain := mkKubeFailureDomain {
  kf_Name : string;
  kf_ControlPlane : option bool
}.

#[export] Instance kf_eq_dec : EqDecision KubeFailureDomain.
Proof. solve_decision. Defined.

(** The desired state of a VSphereCluster. *)
Record VSphereClusterSpec := mkVSphereClusterSpec {
  ls_Server : string;
  ls_Thumbprint : string;
  ls_ControlPlaneEndpoint : APIEndpoint;
  ls_IdentityRef : VSphereIdentityReference;
  ls_ClusterModules : list ClusterModule;
  ls_DisableClusterModule : option bool;
  ls_FailureDomainSelector : option LabelSelector
}.

Definition set_ls_ClusterModules (v : list ClusterModule) (r : VSphereClusterSpec) : VSphereClusterSpec := {|
  ls_Server := ls_Server r;
  ls_Thumbprint := ls_Thumbprint r;
  ls_ControlPlaneEndpoint := ls_ControlPlaneEndpoint r;
  ls_IdentityRef := ls_IdentityRef r;
  ls_ClusterModules := v;
  ls_DisableClusterModule := ls_DisableClusterModule r;
  ls_FailureDomainSelector := ls_FailureDomainSelector r
|}.

#[export] Instance ls_eq_dec : EqDecision VSphereClusterSpec.
Proof. solve_decision. Defined.

(** A VSphereCluster; of its status only what the modelled code reads or writes. *)
Record VSphereCluster := mkVSphereCluster {
  vc_ObjectMeta : ObjectMeta;
  vc_Spec : VSphereClusterSpec;
  vc_Conditions : list Condition;
  vc_V1Beta1Conditions : list V1Beta1Condition;
  vc_VCenterVersion : string;
  vc_FailureDomains : list KubeFailureDomain;
  vc_Provisioned : option bool;
  vc_GVK : string
}.

Definition set_vc_ObjectMeta (v : ObjectMeta) (r : VSphereCluster) : VSphereCluster := {|
  vc_ObjectMeta := v;
  vc_Spec := vc_Spec r;
  vc_Conditions := vc_Conditions r;
  vc_V1Beta1Conditions := vc_V1Beta1Conditions r;
  vc_VCenterVersion := vc_VCenterVersion r;
  vc_FailureDomains := vc_FailureDomains r;
  vc_Provisioned := vc_Provisioned r;
  vc_GVK := vc_GVK r
|}.

Definition set_vc_Spec (v : VSphereClusterSpec) (r : VSphereCluster) : VSphereCluster := {|
  vc_ObjectMeta := vc_ObjectMeta r;
  vc_Spec := v;
  vc_Conditions := vc_Conditions r;
  vc_V1Beta1Conditions := vc_V1Beta1Conditions r;
  vc_VCenterVersion := vc_VCenterVersion r;
  vc_FailureDomains := vc_FailureDomains r;
  vc_Provisioned := vc_Provisioned r;
  vc_GVK := vc_GVK r
|}.

Definition set_vc_Conditions (v : list Condition) (r : VSphereCluster) : VSphereCluster := {|
  vc_ObjectMeta := vc_ObjectMeta r;
  vc_Spec := vc_Spec r;
  vc_Conditions := v;
  vc_V1Beta1Conditions := vc_V1Beta1Conditions r;
  vc_VCenterVersion := vc_VCenterVersion r;
  vc_FailureDomains := vc_FailureDomains r;
  vc_Provisioned := vc_Provisioned r;
  vc_GVK := vc_GVK r
|}.

Definition set_vc_V1Beta1Conditions (v : list V1Beta1Condition) (r : VSphereCluster) : VSphereCluster := {|
  vc_ObjectMeta := vc_ObjectMeta r;
  vc_Spec := vc_Spec r;
  vc_Conditions := vc_Conditions r;
  vc_V1Beta1Conditions := v;
  vc_VCenterVersion := vc_VCenterVersion r;
  vc_FailureDomains := vc_FailureDomains r;
  vc_Provisioned := vc_Provisioned r;
  vc_GVK := vc_GVK r
|}.

Definition set_vc_VCenterVersion (v : string) (r : VSphereCluster) : VSphereCluster := {|
  vc_ObjectMeta := vc_ObjectMeta r;
  vc_Spec := vc_Spec r;
  vc_Conditions := vc_Conditions r;
  vc_V1Beta1Conditions := vc_V1Beta1Conditions r;
  vc_VCenterVersion := v;
  vc_FailureDomains := vc_FailureDomains r;
  vc_Provisioned := vc_Provisioned r;
  vc_GVK := vc_GVK r
|}.

Definition set_vc_FailureDomains (v : list KubeFailureDomain) (r : VSphereCluster) : VSphereCluster := {|
  vc_ObjectMeta := vc_ObjectMeta r;
  vc_Spec := vc_Spec r;
  vc_Conditions := vc_Conditions r;
  vc_V1Beta1Conditions := vc_V1Beta1Conditions r;
  vc_VCenterVersion := vc_VCenterVersion r;
  vc_FailureDomains := v;
  vc_Provisioned := vc_Provisioned r;
  vc_GVK := vc_GVK r
|}.

Definition set_vc_Provisioned (v : option bool) (r : VSphereCluster) : VSphereCluster := {|
  vc_ObjectMeta := vc_ObjectMeta r;
  vc_Spec := vc_Spec r;
  vc_Conditions := vc_Conditions r;
  vc_V1Beta1Conditions := vc_V1Beta1Conditions r;
  vc_VCenterVersion := vc_VCenterVersion r;
  vc_FailureDomains := vc_FailureDomains r;
  vc_Provisioned := v;
  vc_GVK := vc_GVK r
|}.

(** A deployment zone with its status. *)
Record VSphereDeploymentZone := mkVSphereDeploymentZone {
  zn_ObjectMeta : ObjectMeta;
  zn_Spec : VSphereDeploymentZoneSpec;
  zn_Ready : option bool;
  zn_Conditions : list Condition;
  zn_V1Beta1Conditions : list V1Beta1Condition
}.

Definition set_zn_ObjectMeta (v : ObjectMeta) (r : VSphereDeploymentZone) : VSphereDeploymentZone := {|
  zn_ObjectMeta := v;
  zn_Spec := zn_Spec r;
  zn_Ready := zn_Ready r;
  zn_Conditions := zn_Conditions r;
  zn_V1Beta1Conditions := zn_V1Beta1Conditions r
|}.

Definition set_zn_Ready (v : option bool) (r : VSphereDeploymentZone) : VSphereDeploymentZone := {|
  zn_ObjectMeta := zn_ObjectMeta r;
  zn_Spec := zn_Spec r;
  zn_Ready := v;
  zn_Conditions := zn_Conditions r;
  zn_V1Beta1Conditions := zn_V1Beta1Conditions r
|}.

Definition set_zn_Conditions (v : list Condition) (r : VSphereDeploymentZone) : VSphereDeploymentZone := {|
  zn_ObjectMeta := zn_ObjectMeta r;
  zn_Spec := zn_Spec r;
  zn_Ready := zn_Ready r;
  zn_Conditions := v;
  zn_V1Beta1Conditions := zn_V1Beta1Conditions r
|}.

Definition set_zn_V1Beta1Conditions (v : list V1Beta1Condition) (r : VSphereDeploymentZone) : VSphereDeploymentZone := {|
  zn_ObjectMeta := zn_ObjectMeta r;
  zn_Spec := zn_Spec r;
  zn_Ready := zn_Ready r;
  zn_Conditions := zn_Conditions r;
  zn_V1Beta1Conditions := v
|}.

(** * VSphereMachine *)

(** How the name of the VSphereVM is made. *)
Record VSphereVMNamingSpec := mkVSphereVMNamingSpec {
  nm_Template : string
}.

#[export] Instance nm_eq_dec : EqDecision VSphereVMNamingSpec.
Proof. solve_decision. Defined.

(** The desired state of a VSphereMachine. *)
Record VSphereMachineSpec := mkVSphereMachineSpec {
  ps_VirtualMachineCloneSpec : VirtualMachineCloneSpec;
  ps_ProviderID : string;
  ps_PowerOffMode : string;
  ps_GuestSoftPowerOffTimeoutSeconds : Z;
  ps_Naming : VSphereVMNamingSpec
}.

Definition set_ps_ProviderID (v : string) (r : VSphereMachineSpec) : VSphereMachineSpec := {|
  ps_VirtualMachineCloneSpec := ps_VirtualMachineCloneSpec r;
  ps_ProviderID := v;
  ps_PowerOffMode := ps_PowerOffMode r;
  ps_GuestSoftPowerOffTimeoutSeconds := ps_GuestSoftPowerOffTimeoutSeconds r;
  ps_Naming := ps_Naming r
|}.

(** [clusterv1.MachineAddress]. *)
Record MachineAddress := mkMachineAddress {
  ma_Type : string;
  ma_Address : string
}.

#[export] Instance ma_eq_dec : EqDecision MachineAddress.
Proof. solve_decision. Defined.

(** The part of the status that is deprecated with v1beta1. *)
Record VSphereMachineV1Beta1DeprecatedStatus := mkVSphereMachineV1Beta1DeprecatedStatus {
  pb_Conditions : list V1Beta1Condition;
  pb_FailureReason : option string;
  pb_FailureMessage : option string
}.

(** The deprecated status fields. *)
Record VSphereMachineDeprecatedStatus := mkVSphereMachineDeprecatedStatus {
  px_V1Beta1 : option VSphereMachineV1Beta1DeprecatedStatus
}.

(** The observed state of a VSphereMachine; [pt_Provisioned] is [Initialization.Provisioned]. *)
Record VSphereMachineStatus := mkVSphereMachineStatus {
  pt_Conditions : list Condition;
  pt_Provisioned : option bool;
  pt_Addresses : list MachineAddress;
  pt_Network : list NetworkStatus;
  pt_Deprecated : option VSphereMachineDeprecatedStatus
}.

Definition set_pt_Conditions (v : list Condition) (r : VSphereMachineStatus) : VSphereMachineStatus := {|
  pt_Conditions := v;
  pt_Provisioned := pt_Provisioned r;
  pt_Addresses := pt_Addresses r;
  pt_Network := pt_Network r;
  pt_Deprecated := pt_Deprecated r
|}.

Definition set_pt_Provisioned (v : option bool) (r : VSphereMachineStatus) : VSphereMachineStatus := {|
  pt_Conditions := pt_Conditions r;
  pt_Provisioned := v;
  pt_Addresses := pt_Addresses r;
  pt_Network := pt_Network r;
  pt_Deprecated := pt_Deprecated r
|}.

Definition set_pt_Addresses (v : list MachineAddress) (r : VSphereMachineStatus) : VSphereMachineStatus := {|
  pt_Conditions := pt_Conditions r;
  pt_Provisioned := pt_Provisioned r;
  pt_Addresses := v;
  pt_Network := pt_Network r;
  pt_Deprecated := pt_Deprecated r
|}.

Definition set_pt_Network (v : list NetworkStatus) (r : VSphereMachineStatus) : VSphereMachineStatus := {|
  pt_Conditions := pt_Conditions r;
  pt_Provisioned := pt_Provisioned r;
  pt_Addresses := pt_Addresses r;
  pt_Network := v;
  pt_Deprecated := pt_Deprecated r
|}.

Definition set_pt_Deprecated (v : option VSphereMachineDeprecatedStatus) (r : VSphereMachineStatus) : VSphereMachineStatus := {|
  pt_Conditions := pt_Conditions r;
  pt_Provisioned := pt_Provisioned r;
  pt_Addresses := pt_Addresses r;
  pt_Network := pt_Network r;
  pt_Deprecated := v
|}.

(** A VSphereMachine; [p_GVK] is the group, version and kind of its type, as printed. *)
Record VSphereMachine := mkVSphereMachine {
  p_GVK : string;
  p_ObjectMeta : ObjectMeta;
  p_Spec : VSphereMachineSpec;
  p_Status : VSphereMachineStatus
}.

Definition set_p_ObjectMeta (v : ObjectMeta) (r : VSphereMachine) : VSphereMachine := {|
  p_GVK := p_GVK r;
  p_ObjectMeta := v;
  p_Spec := p_Spec r;
  p_Status := p_Status r
|}.

Definition set_p_Spec (v : VSphereMachineSpec) (r : VSphereMachine) : VSphereMachine := {|
  p_GVK := p_GVK r;
  p_ObjectMeta := p_ObjectMeta r;
  p_Spec := v;
  p_Status := p_Status r
|}.

Definition set_p_Status (v : VSphereMachineStatus) (r : VSphereMachine) : VSphereMachine := {|
  p_GVK := p_GVK r;
  p_ObjectMeta := p_ObjectMeta r;
  p_Spec := p_Spec r;
  p_Status := v
|}.

(** * Objects of Cluster API and of Kubernetes

    The fields the code reads. *)

(** [clusterv1.Cluster]: the kind and the name of its infrastructure reference, when that is defined, the blocks of addresses of its pods and services, the name of its control plane reference, when that is defined, and of its status whether the infrastructure is provisioned and the control plane initialized. *)
Record KubeCluster := mkKubeCluster {
  kc_ObjectMeta : ObjectMeta;
  kc_InfrastructureRef : option (string * string);
  kc_ControlPlaneEndpoint : APIEndpoint;
  kc_InfrastructureProvisioned : option bool;
  kc_Conditions : list Condition;
  kc_PodCIDRBlocks : list string;
  kc_ServiceCIDRBlocks : list string;
  kc_ControlPlaneRef : option string;
  kc_ControlPlaneInitialized : option bool
}.

Definition kc_InfrastructureRefName (c : KubeCluster) : option string := option_map snd (kc_InfrastructureRef c).

(** [clusterv1.Machine]; [mc_GVK] is the group, version and kind of its type, as printed. *)
Record Machine := mkMachine {
  mc_ObjectMeta : ObjectMeta;
  mc_FailureDomain : string;
  mc_BootstrapDataSecretName : option string;
  mc_Version : string;
  mc_GVK : string
}.

Definition set_mc_ObjectMeta (v : ObjectMeta) (r : Machine) : Machine := {|
  mc_ObjectMeta := v;
  mc_FailureDomain := mc_FailureDomain r;
  mc_BootstrapDataSecretName := mc_BootstrapDataSecretName r;
  mc_Version := mc_Version r;
  mc_GVK := mc_GVK r
|}.

(** A VSphereClusterIdentity: whether it is ready, its secret, and the selector of the namespaces that may use it. *)
Record VSphereClusterIdentity := mkVSphereClusterIdentity {
  ci_ObjectMeta : ObjectMeta;
  ci_Ready : option bool;
  ci_SecretName : string;
  ci_AllowedNamespaces : option LabelSelector;
  ci_Conditions : list Condition;
  ci_V1Beta1Conditions : list V1Beta1Condition
}.

Definition set_ci_ObjectMeta (v : ObjectMeta) (r : VSphereClusterIdentity) : VSphereClusterIdentity := {|
  ci_ObjectMeta := v;
  ci_Ready := ci_Ready r;
  ci_SecretName := ci_SecretName r;
  ci_AllowedNamespaces := ci_AllowedNamespaces r;
  ci_Conditions := ci_Conditions r;
  ci_V1Beta1Conditions := ci_V1Beta1Conditions r
|}.

Definition set_ci_Ready (v : option bool) (r : VSphereClusterIdentity) : VSphereClusterIdentity := {|
  ci_ObjectMeta := ci_ObjectMeta r;
  ci_Ready := v;
  ci_SecretName := ci_SecretName r;
  ci_AllowedNamespaces := ci_AllowedNamespaces r;
  ci_Conditions := ci_Conditions r;
  ci_V1Beta1Conditions := ci_V1Beta1Conditions r
|}.

Definition set_ci_Conditions (v : list Condition) (r : VSphereClusterIdentity) : VSphereClusterIdentity := {|
  ci_ObjectMeta := ci_ObjectMeta r;
  ci_Ready := ci_Ready r;
  ci_SecretName := ci_SecretName r;
  ci_AllowedNamespaces := ci_AllowedNamespaces r;
  ci_Conditions := v;
  ci_V1Beta1Conditions := ci_V1Beta1Conditions r
|}.

Definition set_ci_V1Beta1Conditions (v : list V1Beta1Condition) (r : VSphereClusterIdentity) : VSphereClusterIdentity := {|
  ci_ObjectMeta := ci_ObjectMeta r;
  ci_Ready := ci_Ready r;
  ci_SecretName := ci_SecretName r;
  ci_AllowedNamespaces := ci_AllowedNamespaces r;
  ci_Conditions := ci_Conditions r;
  ci_V1Beta1Conditions := v
|}.

(** [clientcmdapi.Config]: its clusters by their names, each with its server, its
    contexts, each with the name of its cluster, and the name of the current one. *)
Record KubeConfig := mkKubeConfig {
  cg_Clusters : gmap string string;
  cg_Contexts : gmap string string;
  cg_CurrentContext : string
}.
