(* ===== verification/VmwareTypes.v ===== *)
(** The API objects of the supervisor mode, one record per Go struct with the
    fields the code sets and reads: [vmwarev1] holds those of
    [api/supervisor/v1beta2], [vmoprvhub] those of
    [pkg/conversion/api/vmoperator/hub], and what follows the objects of other
    projects the supervisor mode works with. *)
From S2P Require Export Prelude Types.

#[export] Instance om_eq_dec : EqDecision ObjectMeta.
Proof. solve_decision. Defined.

(** [rbacv1.PolicyRule]. *)
Record PolicyRule := mkPolicyRule {
  pu_Verbs : list string;
  pu_APIGroups : list string;
  pu_Resources : list string;
  pu_ResourceNames : list string;
  pu_NonResourceURLs : list string
}.

#[export] Instance pu_eq_dec : EqDecision PolicyRule.
Proof. solve_decision. Defined.

(** * [api/supervisor/v1beta2] *)

Module vmwarev1.

(** A host and the port of its API server. *)
Record APIEndpoint := mkAPIEndpoint {
  ae_Host : string;
  ae_Port : Z
}.

#[export] Instance ae_eq_dec : EqDecision APIEndpoint.
Proof. solve_decision. Defined.

(** [APIEndpoint.IsZero]. *)
Definition APIEndpoint_IsZero (v : APIEndpoint) : bool := String.eqb (ae_Host v) "" && (ae_Port v =? 0).

(** The network of a cluster: [nw_CreateSubnetSet] is [NSXVPC.CreateSubnetSet]. *)
Record Network := mkNetwork {
  nw_CreateSubnetSet : option bool;
  nw_Provider : string
}.

#[export] Instance nw_eq_dec : EqDecision Network.
Proof. solve_decision. Defined.

(** The desired state of a VSphereCluster; [vs_Selector] is [FailureDomains.ControlPlane.Selector]. *)
Record VSphereClusterSpec := mkVSphereClusterSpec {
  vs_ControlPlaneEndpoint : APIEndpoint;
  vs_Network : Network;
  vs_Selector : option LabelSelector
}.

Definition set_vs_ControlPlaneEndpoint (v : APIEndpoint) (r : VSphereClusterSpec) : VSphereClusterSpec := {|
  vs_ControlPlaneEndpoint := v;
  vs_Network := vs_Network r;
  vs_Selector := vs_Selector r
|}.

#[export] Instance vs_eq_dec : EqDecision VSphereClusterSpec.
Proof. solve_decision. Defined.

(** The deprecated status fields: the conditions of the v1beta1 contract, in two
    structs behind pointers. *)
Record V1Beta1DeprecatedStatus := mkV1Beta1DeprecatedStatus { db_Conditions : list V1Beta1Condition }.
Record DeprecatedStatus := mkDeprecatedStatus { dx_V1Beta1 : option V1Beta1DeprecatedStatus }.
#[export] Instance db_eq_dec : EqDecision V1Beta1DeprecatedStatus.
Proof. solve_decision. Defined.
#[export] Instance dx_eq_dec : EqDecision DeprecatedStatus.
Proof. solve_decision. Defined.

(** [GetV1Beta1Conditions] and [SetV1Beta1Conditions] on them. *)
Definition deprecated_get (d : option DeprecatedStatus) : list V1Beta1Condition :=
  match d with
  | None => []
  | Some d => match dx_V1Beta1 d with None => [] | Some b => db_Conditions b end
  end.
Definition deprecated_set (d : option DeprecatedStatus) (l : list V1Beta1Condition) : option DeprecatedStatus :=
  Some (mkDeprecatedStatus (Some (mkV1Beta1DeprecatedStatus l))).

(** The observed state of a VSphereCluster. *)
Record VSphereClusterStatus := mkVSphereClusterStatus {
  vt_Conditions : list Condition;
  vt_Provisioned : option bool;
  vt_FailureDomains : list KubeFailureDomain;
  vt_Deprecated : option DeprecatedStatus
}.

Definition set_vt_Conditions (v : list Condition) (r : VSphereClusterStatus) : VSphereClusterStatus := {|
  vt_Conditions := v;
  vt_Provisioned := vt_Provisioned r;
  vt_FailureDomains := vt_FailureDomains r;
  vt_Deprecated := vt_Deprecated r
|}.

Definition set_vt_Provisioned (v : option bool) (r : VSphereClusterStatus) : VSphereClusterStatus := {|
  vt_Conditions := vt_Conditions r;
  vt_Provisioned := v;
  vt_FailureDomains := vt_FailureDomains r;
  vt_Deprecated := vt_Deprecated r
|}.

Definition set_vt_FailureDomains (v : list KubeFailureDomain) (r : VSphereClusterStatus) : VSphereClusterStatus := {|
  vt_Conditions := vt_Conditions r;
  vt_Provisioned := vt_Provisioned r;
  vt_FailureDomains := v;
  vt_Deprecated := vt_Deprecated r
|}.

Definition set_vt_Deprecated (v : option DeprecatedStatus) (r : VSphereClusterStatus) : VSphereClusterStatus := {|
  vt_Conditions := vt_Conditions r;
  vt_Provisioned := vt_Provisioned r;
  vt_FailureDomains := vt_FailureDomains r;
  vt_Deprecated := v
|}.

#[export] Instance vt_eq_dec : EqDecision VSphereClusterStatus.
Proof. solve_decision. Defined.

(** A VSphereCluster; [v_GVK] is the group, version and kind of its type, as printed. *)
Record VSphereCluster := mkVSphereCluster {
  v_GVK : string;
  v_ObjectMeta : ObjectMeta;
  v_Spec : VSphereClusterSpec;
  v_Status : VSphereClusterStatus
}.

Definition set_v_ObjectMeta (v : ObjectMeta) (r : VSphereCluster) : VSphereCluster := {|
  v_GVK := v_GVK r;
  v_ObjectMeta := v;
  v_Spec := v_Spec r;
  v_Status := v_Status r
|}.

Definition set_v_Spec (v : VSphereClusterSpec) (r : VSphereCluster) : VSphereCluster := {|
  v_GVK := v_GVK r;
  v_ObjectMeta := v_ObjectMeta r;
  v_Spec := v;
  v_Status := v_Status r
|}.

Definition set_v_Status (v : VSphereClusterStatus) (r : VSphereCluster) : VSphereCluster := {|
  v_GVK := v_GVK r;
  v_ObjectMeta := v_ObjectMeta r;
  v_Spec := v_Spec r;
  v_Status := v
|}.

#[export] Instance v_eq_dec : EqDecision VSphereCluster.
Proof. solve_decision. Defined.

(** A volume of a machine. *)
Record VSphereMachineVolume := mkVSphereMachineVolume {
  vv_Name : string;
  vv_Capacity : gmap string string;
  vv_StorageClass : string
}.

#[export] Instance vv_eq_dec : EqDecision VSphereMachineVolume.
Proof. solve_decision. Defined.

(** A reference to a network object. *)
Record InterfaceNetworkReference := mkInterfaceNetworkReference {
  nr_Kind : string;
  nr_Name : string;
  nr_APIVersion : string
}.

#[export] Instance nr_eq_dec : EqDecision InterfaceNetworkReference.
Proof. solve_decision. Defined.

(** A static route. *)
Record RouteSpec := mkRouteSpec {
  ro_To : string;
  ro_Via : string
}.

#[export] Instance ro_eq_dec : EqDecision RouteSpec.
Proof. solve_decision. Defined.

(** A network interface. *)
Record InterfaceSpec := mkInterfaceSpec {
  if_NetworkRef : InterfaceNetworkReference;
  if_MTU : Z;
  if_Routes : list RouteSpec
}.

#[export] Instance if_eq_dec : EqDecision InterfaceSpec.
Proof. solve_decision. Defined.

(** [InterfaceSpec.IsDefined]. *)
Definition InterfaceSpec_IsDefined (r : InterfaceSpec) : bool :=
  negb (bool_decide (r = mkInterfaceSpec (mkInterfaceNetworkReference "" "" "") 0 [])).

(** A secondary network interface. *)
Record SecondaryInterfaceSpec := mkSecondaryInterfaceSpec {
  si_Name : string;
  si_Interface : InterfaceSpec
}.

#[export] Instance si_eq_dec : EqDecision SecondaryInterfaceSpec.
Proof. solve_decision. Defined.

(** A VLAN sub-interface. *)
Record VLANSpec := mkVLANSpec {
  vl_Name : string;
  vl_ID : option Z;
  vl_Link : string
}.

#[export] Instance vl_eq_dec : EqDecision VLANSpec.
Proof. solve_decision. Defined.

(** The network of a machine; [mn_Primary] and [mn_Secondary] are [Interfaces.Primary] and [Interfaces.Secondary]. *)
Record VSphereMachineNetworkSpec := mkVSphereMachineNetworkSpec {
  mn_Primary : InterfaceSpec;
  mn_Secondary : list SecondaryInterfaceSpec;
  mn_VLANs : list VLANSpec
}.

#[export] Instance mn_eq_dec : EqDecision VSphereMachineNetworkSpec.
Proof. solve_decision. Defined.

(** A reference to an infrastructure policy. *)
Record PolicyRef := mkPolicyRef {
  po_Name : string;
  po_Kind : string
}.

#[export] Instance po_eq_dec : EqDecision PolicyRef.
Proof. solve_decision. Defined.

(** How the VM of a machine is named. *)
Record VirtualMachineNamingSpec := mkVirtualMachineNamingSpec {
  na_Template : string
}.

#[export] Instance na_eq_dec : EqDecision VirtualMachineNamingSpec.
Proof. solve_decision. Defined.

(** The desired state of a VSphereMachine. *)
Record VSphereMachineSpec := mkVSphereMachineSpec {
  ms_ProviderID : string;
  ms_ImageName : string;
  ms_ClassName : string;
  ms_StorageClass : string;
  ms_Volumes : list VSphereMachineVolume;
  ms_Network : VSphereMachineNetworkSpec;
  ms_PowerOffMode : string;
  ms_MinHardwareVersion : string;
  ms_Naming : VirtualMachineNamingSpec;
  ms_Policies : list PolicyRef
}.

Definition set_ms_ProviderID (v : string) (r : VSphereMachineSpec) : VSphereMachineSpec := {|
  ms_ProviderID := v;
  ms_ImageName := ms_ImageName r;
  ms_ClassName := ms_ClassName r;
  ms_StorageClass := ms_StorageClass r;
  ms_Volumes := ms_Volumes r;
  ms_Network := ms_Network r;
  ms_PowerOffMode := ms_PowerOffMode r;
  ms_MinHardwareVersion := ms_MinHardwareVersion r;
  ms_Naming := ms_Naming r;
  ms_Policies := ms_Policies r
|}.

#[export] Instance ms_eq_dec : EqDecision VSphereMachineSpec.
Proof. solve_decision. Defined.

Definition VirtualMachinePowerOpModeHard : string := "hard".
Definition VirtualMachinePowerOpModeSoft : string := "soft".
Definition VirtualMachinePowerOpModeTrySoft : string := "trySoft".

(** The phases of a VSphereMachine. *)
Definition VSphereMachinePhaseNotFound : string := "NotFound".
Definition VSphereMachinePhaseCreated : string := "Created".
Definition VSphereMachinePhasePoweredOn : string := "PoweredOn".
Definition VSphereMachinePhasePending : string := "Pending".
Definition VSphereMachinePhaseReady : string := "Ready".
Definition VSphereMachinePhaseDeleting : string := "Deleting".
Definition VSphereMachinePhaseError : string := "Error".

(** The DNS configuration of an interface. *)
Record VSphereMachineNetworkDNSStatus := mkVSphereMachineNetworkDNSStatus {
  ds_DHCP : option bool;
  ds_DomainName : string;
  ds_HostName : string;
  ds_Nameservers : list string;
  ds_SearchDomains : list string
}.

#[export] Instance ds_eq_dec : EqDecision VSphereMachineNetworkDNSStatus.
Proof. solve_decision. Defined.

(** DHCP options; a [KeyValuePair] is a pair. *)
Record VSphereMachineNetworkDHCPOptionsStatus := mkVSphereMachineNetworkDHCPOptionsStatus {
  do_Config : list (string * string);
  do_Enabled : option bool
}.

#[export] Instance do_eq_dec : EqDecision VSphereMachineNetworkDHCPOptionsStatus.
Proof. solve_decision. Defined.

(** The DHCP configuration of an interface. *)
Record VSphereMachineNetworkDHCPStatus := mkVSphereMachineNetworkDHCPStatus {
  dp_IP4 : VSphereMachineNetworkDHCPOptionsStatus;
  dp_IP6 : VSphereMachineNetworkDHCPOptionsStatus
}.

#[export] Instance dp_eq_dec : EqDecision VSphereMachineNetworkDHCPStatus.
Proof. solve_decision. Defined.

(** An address of an interface. *)
Record VSphereMachineNetworkInterfaceIPAddrStatus := mkVSphereMachineNetworkInterfaceIPAddrStatus {
  ia_Address : string;
  ia_Lifetime : Time;
  ia_Origin : string;
  ia_State : string
}.

#[export] Instance ia_eq_dec : EqDecision VSphereMachineNetworkInterfaceIPAddrStatus.
Proof. solve_decision. Defined.

(** The addresses of an interface. *)
Record VSphereMachineNetworkInterfaceIPStatus := mkVSphereMachineNetworkInterfaceIPStatus {
  ii_AutoConfigurationEnabled : option bool;
  ii_DHCP : VSphereMachineNetworkDHCPStatus;
  ii_Addresses : list VSphereMachineNetworkInterfaceIPAddrStatus;
  ii_MACAddr : string
}.

#[export] Instance ii_eq_dec : EqDecision VSphereMachineNetworkInterfaceIPStatus.
Proof. solve_decision. Defined.

(** The status of an interface. *)
Record VSphereMachineNetworkInterfaceStatus := mkVSphereMachineNetworkInterfaceStatus {
  is_Name : string;
  is_DeviceKey : Z;
  is_IP : VSphereMachineNetworkInterfaceIPStatus;
  is_DNS : VSphereMachineNetworkDNSStatus
}.

#[export] Instance is_eq_dec : EqDecision VSphereMachineNetworkInterfaceStatus.
Proof. solve_decision. Defined.

(** The zero values of the structs an interface may leave out. *)
Definition no_DHCPOptions : VSphereMachineNetworkDHCPOptionsStatus := mkVSphereMachineNetworkDHCPOptionsStatus [] None.
Definition no_DHCP : VSphereMachineNetworkDHCPStatus := mkVSphereMachineNetworkDHCPStatus no_DHCPOptions no_DHCPOptions.
Definition no_IP : VSphereMachineNetworkInterfaceIPStatus := mkVSphereMachineNetworkInterfaceIPStatus None no_DHCP [] "".
Definition no_DNS : VSphereMachineNetworkDNSStatus := mkVSphereMachineNetworkDNSStatus None "" "" [] [].

(** The observed state of a VSphereMachine; [mt_Interfaces] is [Network.Interfaces]. *)
Record VSphereMachineStatus := mkVSphereMachineStatus {
  mt_Conditions : list Condition;
  mt_Provisioned : option bool;
  mt_Addresses : list MachineAddress;
  mt_FailureDomain : string;
  mt_BiosUUID : string;
  mt_Phase : string;
  mt_Interfaces : list VSphereMachineNetworkInterfaceStatus;
  mt_Deprecated : option DeprecatedStatus
}.

Definition set_mt_Conditions (v : list Condition) (r : VSphereMachineStatus) : VSphereMachineStatus := {|
  mt_Conditions := v;
  mt_Provisioned := mt_Provisioned r;
  mt_Addresses := mt_Addresses r;
  mt_FailureDomain := mt_FailureDomain r;
  mt_BiosUUID := mt_BiosUUID r;
  mt_Phase := mt_Phase r;
  mt_Interfaces := mt_Interfaces r;
  mt_Deprecated := mt_Deprecated r
|}.

Definition set_mt_Provisioned (v : option bool) (r : VSphereMachineStatus) : VSphereMachineStatus := {|
  mt_Conditions := mt_Conditions r;
  mt_Provisioned := v;
  mt_Addresses := mt_Addresses r;
  mt_FailureDomain := mt_FailureDomain r;
  mt_BiosUUID := mt_BiosUUID r;
  mt_Phase := mt_Phase r;
  mt_Interfaces := mt_Interfaces r;
  mt_Deprecated := mt_Deprecated r
|}.

Definition set_mt_Addresses (v : list MachineAddress) (r : VSphereMachineStatus) : VSphereMachineStatus := {|
  mt_Conditions := mt_Conditions r;
  mt_Provisioned := mt_Provisioned r;
  mt_Addresses := v;
  mt_FailureDomain := mt_FailureDomain r;
  mt_BiosUUID := mt_BiosUUID r;
  mt_Phase := mt_Phase r;
  mt_Interfaces := mt_Interfaces r;
  mt_Deprecated := mt_Deprecated r
|}.

Definition set_mt_FailureDomain (v : string) (r : VSphereMachineStatus) : VSphereMachineStatus := {|
  mt_Conditions := mt_Conditions r;
  mt_Provisioned := mt_Provisioned r;
  mt_Addresses := mt_Addresses r;
  mt_FailureDomain := v;
  mt_BiosUUID := mt_BiosUUID r;
  mt_Phase := mt_Phase r;
  mt_Interfaces := mt_Interfaces r;
  mt_Deprecated := mt_Deprecated r
|}.

Definition set_mt_BiosUUID (v : string) (r : VSphereMachineStatus) : VSphereMachineStatus := {|
  mt_Conditions := mt_Conditions r;
  mt_Provisioned := mt_Provisioned r;
  mt_Addresses := mt_Addresses r;
  mt_FailureDomain := mt_FailureDomain r;
  mt_BiosUUID := v;
  mt_Phase := mt_Phase r;
  mt_Interfaces := mt_Interfaces r;
  mt_Deprecated := mt_Deprecated r
|}.

Definition set_mt_Phase (v : string) (r : VSphereMachineStatus) : VSphereMachineStatus := {|
  mt_Conditions := mt_Conditions r;
  mt_Provisioned := mt_Provisioned r;
  mt_Addresses := mt_Addresses r;
  mt_FailureDomain := mt_FailureDomain r;
  mt_BiosUUID := mt_BiosUUID r;
  mt_Phase := v;
  mt_Interfaces := mt_Interfaces r;
  mt_Deprecated := mt_Deprecated r
|}.

Definition set_mt_Interfaces (v : list VSphereMachineNetworkInterfaceStatus) (r : VSphereMachineStatus) : VSphereMachineStatus := {|
  mt_Conditions := mt_Conditions r;
  mt_Provisioned := mt_Provisioned r;
  mt_Addresses := mt_Addresses r;
  mt_FailureDomain := mt_FailureDomain r;
  mt_BiosUUID := mt_BiosUUID r;
  mt_Phase := mt_Phase r;
  mt_Interfaces := v;
  mt_Deprecated := mt_Deprecated r
|}.

Definition set_mt_Deprecated (v : option DeprecatedStatus) (r : VSphereMachineStatus) : VSphereMachineStatus := {|
  mt_Conditions := mt_Conditions r;
  mt_Provisioned := mt_Provisioned r;
  mt_Addresses := mt_Addresses r;
  mt_FailureDomain := mt_FailureDomain r;
  mt_BiosUUID := mt_BiosUUID r;
  mt_Phase := mt_Phase r;
  mt_Interfaces := mt_Interfaces r;
  mt_Deprecated := v
|}.

(** A VSphereMachine. *)
Record VSphereMachine := mkVSphereMachine {
  m_GVK : string;
  m_ObjectMeta : ObjectMeta;
  m_Spec : VSphereMachineSpec;
  m_Status : VSphereMachineStatus
}.

Definition set_m_ObjectMeta (v : ObjectMeta) (r : VSphereMachine) : VSphereMachine := {|
  m_GVK := m_GVK r;
  m_ObjectMeta := v;
  m_Spec := m_Spec r;
  m_Status := m_Status r
|}.

Definition set_m_Spec (v : VSphereMachineSpec) (r : VSphereMachine) : VSphereMachine := {|
  m_GVK := m_GVK r;
  m_ObjectMeta := m_ObjectMeta r;
  m_Spec := v;
  m_Status := m_Status r
|}.

Definition set_m_Status (v : VSphereMachineStatus) (r : VSphereMachine) : VSphereMachine := {|
  m_GVK := m_GVK r;
  m_ObjectMeta := m_ObjectMeta r;
  m_Spec := m_Spec r;
  m_Status := v
|}.

Definition m_Name (m : VSphereMachine) : string := om_Name (m_ObjectMeta m).
Definition m_Namespace (m : VSphereMachine) : string := om_Namespace (m_ObjectMeta m).
Definition m_Label (m : VSphereMachine) (key : string) : string :=
  default "" (default ∅ (om_Labels (m_ObjectMeta m)) !! key).

(** A ProviderServiceAccount; [ps_Ref] is the name in [Spec.Ref]. *)
Record ProviderServiceAccount := mkProviderServiceAccount {
  ps_ObjectMeta : ObjectMeta;
  ps_Annotations : option (gmap string string);
  ps_Ref : option string;
  ps_Rules : list PolicyRule;
  ps_TargetNamespace : string;
  ps_TargetSecretName : string
}.

#[export] Instance ps_eq_dec : EqDecision ProviderServiceAccount.
Proof. solve_decision. Defined.

(** A template of machines, with what it says about a node of them. *)
Record VSphereMachineTemplate := mkVSphereMachineTemplate {
  mz_ObjectMeta : ObjectMeta;
  mz_Spec : VSphereMachineSpec;
  mz_Capacity : option (gmap string string);
  mz_OperatingSystem : string;
  mz_Architecture : string
}.

#[export] Instance mz_eq_dec : EqDecision VSphereMachineTemplate.
Proof. solve_decision. Defined.

Definition VSphereResourceCPU : string := "cpu".
Definition VSphereResourceMemory : string := "memory".
Definition ArchitectureAmd64 : string := "amd64".
Definition ArchitectureArm64 : string := "arm64".
Definition ArchitectureS390x : string := "s390x".
Definition ArchitecturePpc64le : string := "ppc64le".
Definition VMwareSystemOSArchPropertyKey : string := "vmware-system.tkr.os-arch".
Definition VMwareSystemOSTypePropertyKey : string := "vmware-system.tkr.os-type".
Definition OperatingSystemLinux : string := "linux".
Definition OperatingSystemWindows : string := "windows".

End vmwarev1.

(** * [pkg/conversion/api/vmoperator/hub] *)

Module vmoprvhub.

(** A reference to an object of the same namespace. *)
Record PartialObjectRef := mkPartialObjectRef {
  pr_Kind : string;
  pr_APIVersion : string;
  pr_Name : string
}.

#[export] Instance pr_eq_dec : EqDecision PartialObjectRef.
Proof. solve_decision. Defined.

(** A static route. *)
Record VirtualMachineNetworkRouteSpec := mkVirtualMachineNetworkRouteSpec {
  rt_To : string;
  rt_Via : string;
  rt_Metric : Z
}.

#[export] Instance rt_eq_dec : EqDecision VirtualMachineNetworkRouteSpec.
Proof. solve_decision. Defined.

(** A network interface of a VM. *)
Record VirtualMachineNetworkInterfaceSpec := mkVirtualMachineNetworkInterfaceSpec {
  ns_Name : string;
  ns_Network : option PartialObjectRef;
  ns_Gateway4 : string;
  ns_Gateway6 : string;
  ns_MTU : option Z;
  ns_Routes : list VirtualMachineNetworkRouteSpec;
  ns_IPAMModes : list string
}.

Definition set_ns_Routes (v : list VirtualMachineNetworkRouteSpec) (r : VirtualMachineNetworkInterfaceSpec) : VirtualMachineNetworkInterfaceSpec := {|
  ns_Name := ns_Name r;
  ns_Network := ns_Network r;
  ns_Gateway4 := ns_Gateway4 r;
  ns_Gateway6 := ns_Gateway6 r;
  ns_MTU := ns_MTU r;
  ns_Routes := v;
  ns_IPAMModes := ns_IPAMModes r
|}.

#[export] Instance ns_eq_dec : EqDecision VirtualMachineNetworkInterfaceSpec.
Proof. solve_decision. Defined.

(** A VLAN sub-interface. *)
Record VirtualMachineNetworkVLANSpec := mkVirtualMachineNetworkVLANSpec {
  nv_Name : string;
  nv_ID : Z;
  nv_Link : string
}.

#[export] Instance nv_eq_dec : EqDecision VirtualMachineNetworkVLANSpec.
Proof. solve_decision. Defined.

(** The network of a VM. *)
Record VirtualMachineNetworkSpec := mkVirtualMachineNetworkSpec {
  nt_Interfaces : list VirtualMachineNetworkInterfaceSpec;
  nt_VLANs : list VirtualMachineNetworkVLANSpec
}.

Definition set_nt_Interfaces (v : list VirtualMachineNetworkInterfaceSpec) (r : VirtualMachineNetworkSpec) : VirtualMachineNetworkSpec := {|
  nt_Interfaces := v;
  nt_VLANs := nt_VLANs r
|}.

Definition set_nt_VLANs (v : list VirtualMachineNetworkVLANSpec) (r : VirtualMachineNetworkSpec) : VirtualMachineNetworkSpec := {|
  nt_Interfaces := nt_Interfaces r;
  nt_VLANs := v
|}.

#[export] Instance nt_eq_dec : EqDecision VirtualMachineNetworkSpec.
Proof. solve_decision. Defined.

(** A term of an affinity rule. *)
Record VMAffinityTerm := mkVMAffinityTerm {
  at_LabelSelector : option LabelSelector;
  at_TopologyKey : string
}.

#[export] Instance at_eq_dec : EqDecision VMAffinityTerm.
Proof. solve_decision. Defined.

(** The affinity of a VM: the terms of [VMAffinity.RequiredDuringSchedulingPreferredDuringExecution] and of [VMAntiAffinity.PreferredDuringSchedulingPreferredDuringExecution], when these structs are there. *)
Record AffinitySpec := mkAffinitySpec {
  af_VMAffinity : option (list VMAffinityTerm);
  af_VMAntiAffinity : option (list VMAffinityTerm)
}.

#[export] Instance af_eq_dec : EqDecision AffinitySpec.
Proof. solve_decision. Defined.

(** A key of a secret. *)
Record SecretKeySelector := mkSecretKeySelector {
  sk_Name : string;
  sk_Key : string
}.

#[export] Instance sk_eq_dec : EqDecision SecretKeySelector.
Proof. solve_decision. Defined.

(** [VirtualMachineBootstrapCloudInitSpec] and [VirtualMachineBootstrapSpec]. *)
Record VirtualMachineBootstrapCloudInitSpec := mkVirtualMachineBootstrapCloudInitSpec { ci_RawCloudConfig : option SecretKeySelector }.
#[export] Instance ci_eq_dec : EqDecision VirtualMachineBootstrapCloudInitSpec.
Proof. solve_decision. Defined.
Record VirtualMachineBootstrapSpec := mkVirtualMachineBootstrapSpec { bs_CloudInit : option VirtualMachineBootstrapCloudInitSpec }.
#[export] Instance bs_eq_dec : EqDecision VirtualMachineBootstrapSpec.
Proof. solve_decision. Defined.
Definition set_bs_CloudInit (v : option VirtualMachineBootstrapCloudInitSpec) (r : VirtualMachineBootstrapSpec)
    : VirtualMachineBootstrapSpec := mkVirtualMachineBootstrapSpec v.
(** [VirtualMachineReservedSpec]. *)
Record VirtualMachineReservedSpec := mkVirtualMachineReservedSpec { re_ResourcePolicyName : string }.
#[export] Instance re_eq_dec : EqDecision VirtualMachineReservedSpec.
Proof. solve_decision. Defined.
Definition set_re_ResourcePolicyName (v : string) (r : VirtualMachineReservedSpec) : VirtualMachineReservedSpec :=
  mkVirtualMachineReservedSpec v.

(** A port to probe. *)
Record TCPSocketAction := mkTCPSocketAction {
  tc_Port : Z;
  tc_Host : string
}.

#[export] Instance tc_eq_dec : EqDecision TCPSocketAction.
Proof. solve_decision. Defined.

(** A volume of a VM: the name of its claim, with whether that is read-only, when it has a [PersistentVolumeClaim]. *)
Record VirtualMachineVolume := mkVirtualMachineVolume {
  vo_Name : string;
  vo_PersistentVolumeClaim : option (string * bool)
}.

#[export] Instance vo_eq_dec : EqDecision VirtualMachineVolume.
Proof. solve_decision. Defined.

(** A policy of a VM. *)
Record PolicySpec := mkPolicySpec {
  ps_APIVersion : string;
  ps_Kind : string;
  ps_Name : string
}.

#[export] Instance ps_eq_dec : EqDecision PolicySpec.
Proof. solve_decision. Defined.

(** The desired state of a VirtualMachine; [s_ReadinessProbe] is [ReadinessProbe] with its [TCPSocket]. *)
Record VirtualMachineSpec := mkVirtualMachineSpec {
  s_ImageName : string;
  s_ClassName : string;
  s_Affinity : option AffinitySpec;
  s_StorageClass : string;
  s_Bootstrap : option VirtualMachineBootstrapSpec;
  s_Network : option VirtualMachineNetworkSpec;
  s_PowerState : string;
  s_PowerOffMode : string;
  s_Volumes : list VirtualMachineVolume;
  s_ReadinessProbe : option (option TCPSocketAction);
  s_Reserved : option VirtualMachineReservedSpec;
  s_MinHardwareVersion : Z;
  s_GroupName : string;
  s_Policies : list PolicySpec
}.

Definition set_s_ImageName (v : string) (r : VirtualMachineSpec) : VirtualMachineSpec := {|
  s_ImageName := v;
  s_ClassName := s_ClassName r;
  s_Affinity := s_Affinity r;
  s_StorageClass := s_StorageClass r;
  s_Bootstrap := s_Bootstrap r;
  s_Network := s_Network r;
  s_PowerState := s_PowerState r;
  s_PowerOffMode := s_PowerOffMode r;
  s_Volumes := s_Volumes r;
  s_ReadinessProbe := s_ReadinessProbe r;
  s_Reserved := s_Reserved r;
  s_MinHardwareVersion := s_MinHardwareVersion r;
  s_GroupName := s_GroupName r;
  s_Policies := s_Policies r
|}.

Definition set_s_ClassName (v : string) (r : VirtualMachineSpec) : VirtualMachineSpec := {|
  s_ImageName := s_ImageName r;
  s_ClassName := v;
  s_Affinity := s_Affinity r;
  s_StorageClass := s_StorageClass r;
  s_Bootstrap := s_Bootstrap r;
  s_Network := s_Network r;
  s_PowerState := s_PowerState r;
  s_PowerOffMode := s_PowerOffMode r;
  s_Volumes := s_Volumes r;
  s_ReadinessProbe := s_ReadinessProbe r;
  s_Reserved := s_Reserved r;
  s_MinHardwareVersion := s_MinHardwareVersion r;
  s_GroupName := s_GroupName r;
  s_Policies := s_Policies r
|}.

Definition set_s_Affinity (v : option AffinitySpec) (r : VirtualMachineSpec) : VirtualMachineSpec := {|
  s_ImageName := s_ImageName r;
  s_ClassName := s_ClassName r;
  s_Affinity := v;
  s_StorageClass := s_StorageClass r;
  s_Bootstrap := s_Bootstrap r;
  s_Network := s_Network r;
  s_PowerState := s_PowerState r;
  s_PowerOffMode := s_PowerOffMode r;
  s_Volumes := s_Volumes r;
  s_ReadinessProbe := s_ReadinessProbe r;
  s_Reserved := s_Reserved r;
  s_MinHardwareVersion := s_MinHardwareVersion r;
  s_GroupName := s_GroupName r;
  s_Policies := s_Policies r
|}.

Definition set_s_StorageClass (v : string) (r : VirtualMachineSpec) : VirtualMachineSpec := {|
  s_ImageName := s_ImageName r;
  s_ClassName := s_ClassName r;
  s_Affinity := s_Affinity r;
  s_StorageClass := v;
  s_Bootstrap := s_Bootstrap r;
  s_Network := s_Network r;
  s_PowerState := s_PowerState r;
  s_PowerOffMode := s_PowerOffMode r;
  s_Volumes := s_Volumes r;
  s_ReadinessProbe := s_ReadinessProbe r;
  s_Reserved := s_Reserved r;
  s_MinHardwareVersion := s_MinHardwareVersion r;
  s_GroupName := s_GroupName r;
  s_Policies := s_Policies r
|}.

Definition set_s_Bootstrap (v : option VirtualMachineBootstrapSpec) (r : VirtualMachineSpec) : VirtualMachineSpec := {|
  s_ImageName := s_ImageName r;
  s_ClassName := s_ClassName r;
  s_Affinity := s_Affinity r;
  s_StorageClass := s_StorageClass r;
  s_Bootstrap := v;
  s_Network := s_Network r;
  s_PowerState := s_PowerState r;
  s_PowerOffMode := s_PowerOffMode r;
  s_Volumes := s_Volumes r;
  s_ReadinessProbe := s_ReadinessProbe r;
  s_Reserved := s_Reserved r;
  s_MinHardwareVersion := s_MinHardwareVersion r;
  s_GroupName := s_GroupName r;
  s_Policies := s_Policies r
|}.

Definition set_s_Network (v : option VirtualMachineNetworkSpec) (r : VirtualMachineSpec) : VirtualMachineSpec := {|
  s_ImageName := s_ImageName r;
  s_ClassName := s_ClassName r;
  s_Affinity := s_Affinity r;
  s_StorageClass := s_StorageClass r;
  s_Bootstrap := s_Bootstrap r;
  s_Network := v;
  s_PowerState := s_PowerState r;
  s_PowerOffMode := s_PowerOffMode r;
  s_Volumes := s_Volumes r;
  s_ReadinessProbe := s_ReadinessProbe r;
  s_Reserved := s_Reserved r;
  s_MinHardwareVersion := s_MinHardwareVersion r;
  s_GroupName := s_GroupName r;
  s_Policies := s_Policies r
|}.

Definition set_s_PowerState (v : string) (r : VirtualMachineSpec) : VirtualMachineSpec := {|
  s_ImageName := s_ImageName r;
  s_ClassName := s_ClassName r;
  s_Affinity := s_Affinity r;
  s_StorageClass := s_StorageClass r;
  s_Bootstrap := s_Bootstrap r;
  s_Network := s_Network r;
  s_PowerState := v;
  s_PowerOffMode := s_PowerOffMode r;
  s_Volumes := s_Volumes r;
  s_ReadinessProbe := s_ReadinessProbe r;
  s_Reserved := s_Reserved r;
  s_MinHardwareVersion := s_MinHardwareVersion r;
  s_GroupName := s_GroupName r;
  s_Policies := s_Policies r
|}.

Definition set_s_PowerOffMode (v : string) (r : VirtualMachineSpec) : VirtualMachineSpec := {|
  s_ImageName := s_ImageName r;
  s_ClassName := s_ClassName r;
  s_Affinity := s_Affinity r;
  s_StorageClass := s_StorageClass r;
  s_Bootstrap := s_Bootstrap r;
  s_Network := s_Network r;
  s_PowerState := s_PowerState r;
  s_PowerOffMode := v;
  s_Volumes := s_Volumes r;
  s_ReadinessProbe := s_ReadinessProbe r;
  s_Reserved := s_Reserved r;
  s_MinHardwareVersion := s_MinHardwareVersion r;
  s_GroupName := s_GroupName r;
  s_Policies := s_Policies r
|}.

Definition set_s_Volumes (v : list VirtualMachineVolume) (r : VirtualMachineSpec) : VirtualMachineSpec := {|
  s_ImageName := s_ImageName r;
  s_ClassName := s_ClassName r;
  s_Affinity := s_Affinity r;
  s_StorageClass := s_StorageClass r;
  s_Bootstrap := s_Bootstrap r;
  s_Network := s_Network r;
  s_PowerState := s_PowerState r;
  s_PowerOffMode := s_PowerOffMode r;
  s_Volumes := v;
  s_ReadinessProbe := s_ReadinessProbe r;
  s_Reserved := s_Reserved r;
  s_MinHardwareVersion := s_MinHardwareVersion r;
  s_GroupName := s_GroupName r;
  s_Policies := s_Policies r
|}.

Definition set_s_ReadinessProbe (v : option (option TCPSocketAction)) (r : VirtualMachineSpec) : VirtualMachineSpec := {|
  s_ImageName := s_ImageName r;
  s_ClassName := s_ClassName r;
  s_Affinity := s_Affinity r;
  s_StorageClass := s_StorageClass r;
  s_Bootstrap := s_Bootstrap r;
  s_Network := s_Network r;
  s_PowerState := s_PowerState r;
  s_PowerOffMode := s_PowerOffMode r;
  s_Volumes := s_Volumes r;
  s_ReadinessProbe := v;
  s_Reserved := s_Reserved r;
  s_MinHardwareVersion := s_MinHardwareVersion r;
  s_GroupName := s_GroupName r;
  s_Policies := s_Policies r
|}.

Definition set_s_Reserved (v : option VirtualMachineReservedSpec) (r : VirtualMachineSpec) : VirtualMachineSpec := {|
  s_ImageName := s_ImageName r;
  s_ClassName := s_ClassName r;
  s_Affinity := s_Affinity r;
  s_StorageClass := s_StorageClass r;
  s_Bootstrap := s_Bootstrap r;
  s_Network := s_Network r;
  s_PowerState := s_PowerState r;
  s_PowerOffMode := s_PowerOffMode r;
  s_Volumes := s_Volumes r;
  s_ReadinessProbe := s_ReadinessProbe r;
  s_Reserved := v;
  s_MinHardwareVersion := s_MinHardwareVersion r;
  s_GroupName := s_GroupName r;
  s_Policies := s_Policies r
|}.

Definition set_s_MinHardwareVersion (v : Z) (r : VirtualMachineSpec) : VirtualMachineSpec := {|
  s_ImageName := s_ImageName r;
  s_ClassName := s_ClassName r;
  s_Affinity := s_Affinity r;
  s_StorageClass := s_StorageClass r;
  s_Bootstrap := s_Bootstrap r;
  s_Network := s_Network r;
  s_PowerState := s_PowerState r;
  s_PowerOffMode := s_PowerOffMode r;
  s_Volumes := s_Volumes r;
  s_ReadinessProbe := s_ReadinessProbe r;
  s_Reserved := s_Reserved r;
  s_MinHardwareVersion := v;
  s_GroupName := s_GroupName r;
  s_Policies := s_Policies r
|}.

Definition set_s_GroupName (v : string) (r : VirtualMachineSpec) : VirtualMachineSpec := {|
  s_ImageName := s_ImageName r;
  s_ClassName := s_ClassName r;
  s_Affinity := s_Affinity r;
  s_StorageClass := s_StorageClass r;
  s_Bootstrap := s_Bootstrap r;
  s_Network := s_Network r;
  s_PowerState := s_PowerState r;
  s_PowerOffMode := s_PowerOffMode r;
  s_Volumes := s_Volumes r;
  s_ReadinessProbe := s_ReadinessProbe r;
  s_Reserved := s_Reserved r;
  s_MinHardwareVersion := s_MinHardwareVersion r;
  s_GroupName := v;
  s_Policies := s_Policies r
|}.

Definition set_s_Policies (v : list PolicySpec) (r : VirtualMachineSpec) : VirtualMachineSpec := {|
  s_ImageName := s_ImageName r;
  s_ClassName := s_ClassName r;
  s_Affinity := s_Affinity r;
  s_StorageClass := s_StorageClass r;
  s_Bootstrap := s_Bootstrap r;
  s_Network := s_Network r;
  s_PowerState := s_PowerState r;
  s_PowerOffMode := s_PowerOffMode r;
  s_Volumes := s_Volumes r;
  s_ReadinessProbe := s_ReadinessProbe r;
  s_Reserved := s_Reserved r;
  s_MinHardwareVersion := s_MinHardwareVersion r;
  s_GroupName := s_GroupName r;
  s_Policies := v
|}.

#[export] Instance s_eq_dec : EqDecision VirtualMachineSpec.
Proof. solve_decision. Defined.

(** DHCP options. *)
Record VirtualMachineNetworkDHCPOptionsStatus := mkVirtualMachineNetworkDHCPOptionsStatus {
  dq_Config : list (string * string);
  dq_Enabled : bool
}.

#[export] Instance dq_eq_dec : EqDecision VirtualMachineNetworkDHCPOptionsStatus.
Proof. solve_decision. Defined.

(** An address. *)
Record VirtualMachineNetworkInterfaceIPAddrStatus := mkVirtualMachineNetworkInterfaceIPAddrStatus {
  ad_Address : string;
  ad_Lifetime : Time;
  ad_Origin : string;
  ad_State : string
}.

#[export] Instance ad_eq_dec : EqDecision VirtualMachineNetworkInterfaceIPAddrStatus.
Proof. solve_decision. Defined.

(** The addresses of an interface; [ip_DHCP] has the options for IPv4 and for IPv6. *)
Record VirtualMachineNetworkInterfaceIPStatus := mkVirtualMachineNetworkInterfaceIPStatus {
  ip_AutoConfigurationEnabled : option bool;
  ip_DHCP : option (VirtualMachineNetworkDHCPOptionsStatus * VirtualMachineNetworkDHCPOptionsStatus);
  ip_Addresses : list VirtualMachineNetworkInterfaceIPAddrStatus;
  ip_MACAddr : string
}.

#[export] Instance ip_eq_dec : EqDecision VirtualMachineNetworkInterfaceIPStatus.
Proof. solve_decision. Defined.

(** The DNS configuration of an interface. *)
Record VirtualMachineNetworkDNSStatus := mkVirtualMachineNetworkDNSStatus {
  dn_DHCP : bool;
  dn_HostName : string;
  dn_DomainName : string;
  dn_Nameservers : list string;
  dn_SearchDomains : list string
}.

#[export] Instance dn_eq_dec : EqDecision VirtualMachineNetworkDNSStatus.
Proof. solve_decision. Defined.

(** The status of an interface. *)
Record VirtualMachineNetworkInterfaceStatus := mkVirtualMachineNetworkInterfaceStatus {
  in_Name : string;
  in_DeviceKey : Z;
  in_IP : option VirtualMachineNetworkInterfaceIPStatus;
  in_DNS : option VirtualMachineNetworkDNSStatus
}.

#[export] Instance in_eq_dec : EqDecision VirtualMachineNetworkInterfaceStatus.
Proof. solve_decision. Defined.

(** The observed network of a VM. *)
Record VirtualMachineNetworkStatus := mkVirtualMachineNetworkStatus {
  wt_Interfaces : list VirtualMachineNetworkInterfaceStatus;
  wt_PrimaryIP4 : string;
  wt_PrimaryIP6 : string
}.

#[export] Instance wt_eq_dec : EqDecision VirtualMachineNetworkStatus.
Proof. solve_decision. Defined.

(** The observed state of a VirtualMachine. *)
Record VirtualMachineStatus := mkVirtualMachineStatus {
  t_NodeName : string;
  t_PowerState : string;
  t_Conditions : list Condition;
  t_Network : option VirtualMachineNetworkStatus;
  t_BiosUUID : string;
  t_Zone : string
}.

#[export] Instance t_eq_dec : EqDecision VirtualMachineStatus.
Proof. solve_decision. Defined.

(** A VirtualMachine, with the parts of its metadata the code looks at. *)
Record VirtualMachine := mkVirtualMachine {
  o_GVK : string;
  o_ObjectMeta : ObjectMeta;
  o_Annotations : option (gmap string string);
  o_CreationTimestamp : Time;
  o_Spec : VirtualMachineSpec;
  o_Status : VirtualMachineStatus
}.

Definition set_o_ObjectMeta (v : ObjectMeta) (r : VirtualMachine) : VirtualMachine := {|
  o_GVK := o_GVK r;
  o_ObjectMeta := v;
  o_Annotations := o_Annotations r;
  o_CreationTimestamp := o_CreationTimestamp r;
  o_Spec := o_Spec r;
  o_Status := o_Status r
|}.

Definition set_o_Annotations (v : option (gmap string string)) (r : VirtualMachine) : VirtualMachine := {|
  o_GVK := o_GVK r;
  o_ObjectMeta := o_ObjectMeta r;
  o_Annotations := v;
  o_CreationTimestamp := o_CreationTimestamp r;
  o_Spec := o_Spec r;
  o_Status := o_Status r
|}.

Definition set_o_Spec (v : VirtualMachineSpec) (r : VirtualMachine) : VirtualMachine := {|
  o_GVK := o_GVK r;
  o_ObjectMeta := o_ObjectMeta r;
  o_Annotations := o_Annotations r;
  o_CreationTimestamp := o_CreationTimestamp r;
  o_Spec := v;
  o_Status := o_Status r
|}.

#[export] Instance o_eq_dec : EqDecision VirtualMachine.
Proof. solve_decision. Defined.

(** The power states and the modes to power off. *)
Definition VirtualMachinePowerStateOn : string := "PoweredOn".
Definition VirtualMachinePowerOpModeHard : string := "Hard".
Definition VirtualMachinePowerOpModeSoft : string := "Soft".
Definition VirtualMachinePowerOpModeTrySoft : string := "TrySoft".

(** The conditions of a VirtualMachine. *)
Definition VirtualMachineConditionClassReady : string := "VirtualMachineClassReady".
Definition VirtualMachineConditionImageReady : string := "VirtualMachineImageReady".
Definition VirtualMachineConditionVMSetResourcePolicyReady : string := "VirtualMachineConditionVMSetResourcePolicyReady".
Definition VirtualMachineConditionStorageReady : string := "VirtualMachineStorageReady".
Definition VirtualMachineConditionBootstrapReady : string := "VirtualMachineBootstrapReady".
Definition VirtualMachineConditionNetworkReady : string := "VirtualMachineNetworkReady".
Definition VirtualMachineConditionPlacementReady : string := "VirtualMachineConditionPlacementReady".
Definition VirtualMachineConditionCreated : string := "VirtualMachineCreated".

(** An object with nothing but a name. *)
Definition empty_spec : VirtualMachineSpec :=
  mkVirtualMachineSpec "" "" None "" None None "" "" [] None None 0 "" [].
Definition empty_status : VirtualMachineStatus := mkVirtualMachineStatus "" "" [] None "" "".

(** A member of a group. *)
Record GroupMember := mkGroupMember {
  gm_Name : string;
  gm_Kind : string
}.

#[export] Instance gm_eq_dec : EqDecision GroupMember.
Proof. solve_decision. Defined.

(** The members of a group that boot together; [bo_PowerOnDelay] in nanoseconds. *)
Record VirtualMachineGroupBootOrderGroup := mkVirtualMachineGroupBootOrderGroup {
  bo_Members : list GroupMember;
  bo_PowerOnDelay : option Z
}.

#[export] Instance bo_eq_dec : EqDecision VirtualMachineGroupBootOrderGroup.
Proof. solve_decision. Defined.

(** The status of a member: [gs_PlacementZone] is the zone of its [Placement], when that is there. *)
Record VirtualMachineGroupMemberStatus := mkVirtualMachineGroupMemberStatus {
  gs_Name : string;
  gs_PlacementZone : option string;
  gs_Conditions : list Condition
}.

#[export] Instance gs_eq_dec : EqDecision VirtualMachineGroupMemberStatus.
Proof. solve_decision. Defined.

(** A VirtualMachineGroup: [g_BootOrder] is the one field of its specification, [g_Members] of its status. *)
Record VirtualMachineGroup := mkVirtualMachineGroup {
  g_ObjectMeta : ObjectMeta;
  g_Annotations : option (gmap string string);
  g_BootOrder : list VirtualMachineGroupBootOrderGroup;
  g_Members : list VirtualMachineGroupMemberStatus
}.

Definition set_g_ObjectMeta (v : ObjectMeta) (r : VirtualMachineGroup) : VirtualMachineGroup := {|
  g_ObjectMeta := v;
  g_Annotations := g_Annotations r;
  g_BootOrder := g_BootOrder r;
  g_Members := g_Members r
|}.

Definition set_g_Annotations (v : option (gmap string string)) (r : VirtualMachineGroup) : VirtualMachineGroup := {|
  g_ObjectMeta := g_ObjectMeta r;
  g_Annotations := v;
  g_BootOrder := g_BootOrder r;
  g_Members := g_Members r
|}.

Definition set_g_BootOrder (v : list VirtualMachineGroupBootOrderGroup) (r : VirtualMachineGroup) : VirtualMachineGroup := {|
  g_ObjectMeta := g_ObjectMeta r;
  g_Annotations := g_Annotations r;
  g_BootOrder := v;
  g_Members := g_Members r
|}.

#[export] Instance g_eq_dec : EqDecision VirtualMachineGroup.
Proof. solve_decision. Defined.

Definition VirtualMachineGroupMemberConditionPlacementReady : string := "PlacementReady".

(** A port of a service. *)
Record VirtualMachineServicePort := mkVirtualMachineServicePort {
  sp_Name : string;
  sp_Protocol : string;
  sp_Port : Z;
  sp_TargetPort : Z
}.

#[export] Instance sp_eq_dec : EqDecision VirtualMachineServicePort.
Proof. solve_decision. Defined.

(** The desired state of a VirtualMachineService. *)
Record VirtualMachineServiceSpec := mkVirtualMachineServiceSpec {
  ss_Type : string;
  ss_Ports : list VirtualMachineServicePort;
  ss_Selector : gmap string string;
  ss_IPFamilies : list string;
  ss_IPFamilyPolicy : option string
}.

Definition set_ss_IPFamilies (v : list string) (r : VirtualMachineServiceSpec) : VirtualMachineServiceSpec := {|
  ss_Type := ss_Type r;
  ss_Ports := ss_Ports r;
  ss_Selector := ss_Selector r;
  ss_IPFamilies := v;
  ss_IPFamilyPolicy := ss_IPFamilyPolicy r
|}.

Definition set_ss_IPFamilyPolicy (v : option string) (r : VirtualMachineServiceSpec) : VirtualMachineServiceSpec := {|
  ss_Type := ss_Type r;
  ss_Ports := ss_Ports r;
  ss_Selector := ss_Selector r;
  ss_IPFamilies := ss_IPFamilies r;
  ss_IPFamilyPolicy := v
|}.

#[export] Instance ss_eq_dec : EqDecision VirtualMachineServiceSpec.
Proof. solve_decision. Defined.

(** A VirtualMachineService; [sv_Ingress] are the addresses of the ingresses of its load balancer. *)
Record VirtualMachineService := mkVirtualMachineService {
  sv_ObjectMeta : ObjectMeta;
  sv_Annotations : option (gmap string string);
  sv_Spec : VirtualMachineServiceSpec;
  sv_Ingress : list string
}.

Definition set_sv_ObjectMeta (v : ObjectMeta) (r : VirtualMachineService) : VirtualMachineService := {|
  sv_ObjectMeta := v;
  sv_Annotations := sv_Annotations r;
  sv_Spec := sv_Spec r;
  sv_Ingress := sv_Ingress r
|}.

Definition set_sv_Annotations (v : option (gmap string string)) (r : VirtualMachineService) : VirtualMachineService := {|
  sv_ObjectMeta := sv_ObjectMeta r;
  sv_Annotations := v;
  sv_Spec := sv_Spec r;
  sv_Ingress := sv_Ingress r
|}.

Definition set_sv_Spec (v : VirtualMachineServiceSpec) (r : VirtualMachineService) : VirtualMachineService := {|
  sv_ObjectMeta := sv_ObjectMeta r;
  sv_Annotations := sv_Annotations r;
  sv_Spec := v;
  sv_Ingress := sv_Ingress r
|}.

#[export] Instance sv_eq_dec : EqDecision VirtualMachineService.
Proof. solve_decision. Defined.

Definition VirtualMachineServiceTypeLoadBalancer : string := "LoadBalancer".

(** The desired state of a resource policy. *)
Record VirtualMachineSetResourcePolicySpec := mkVirtualMachineSetResourcePolicySpec {
  rs_ResourcePoolName : string;
  rs_Folder : string;
  rs_ClusterModuleGroups : list string
}.

#[export] Instance rs_eq_dec : EqDecision VirtualMachineSetResourcePolicySpec.
Proof. solve_decision. Defined.

(** A VirtualMachineSetResourcePolicy. *)
Record VirtualMachineSetResourcePolicy := mkVirtualMachineSetResourcePolicy {
  rp_ObjectMeta : ObjectMeta;
  rp_Spec : VirtualMachineSetResourcePolicySpec
}.

Definition set_rp_ObjectMeta (v : ObjectMeta) (r : VirtualMachineSetResourcePolicy) : VirtualMachineSetResourcePolicy := {|
  rp_ObjectMeta := v;
  rp_Spec := rp_Spec r
|}.

Definition set_rp_Spec (v : VirtualMachineSetResourcePolicySpec) (r : VirtualMachineSetResourcePolicy) : VirtualMachineSetResourcePolicy := {|
  rp_ObjectMeta := rp_ObjectMeta r;
  rp_Spec := v
|}.

#[export] Instance rp_eq_dec : EqDecision VirtualMachineSetResourcePolicy.
Proof. solve_decision. Defined.

(** A class of virtual machines, with its hardware; the memory is a quantity. *)
Record VirtualMachineClass := mkVirtualMachineClass {
  vk_ObjectMeta : ObjectMeta;
  vk_Cpus : Z;
  vk_Memory : string
}.

#[export] Instance vk_eq_dec : EqDecision VirtualMachineClass.
Proof. solve_decision. Defined.

(** An image, with its system properties. *)
Record ClusterVirtualMachineImage := mkClusterVirtualMachineImage {
  iy_ObjectMeta : ObjectMeta;
  iy_VMwareSystemProperties : list (string * string)
}.

#[export] Instance iy_eq_dec : EqDecision ClusterVirtualMachineImage.
Proof. solve_decision. Defined.

End vmoprvhub.

(** * Objects of other projects *)

(** [clusterv1.MachineDeployment]; the replicas are an [int32], [md_FailureDomain] is the one of the template. *)
Record MachineDeployment := mkMachineDeployment {
  md_ObjectMeta : ObjectMeta;
  md_Replicas : option Z;
  md_FailureDomain : string
}.

#[export] Instance md_eq_dec : EqDecision MachineDeployment.
Proof. solve_decision. Defined.

(** [corev1.PersistentVolumeClaim]. *)
Record PersistentVolumeClaim := mkPersistentVolumeClaim {
  pv_ObjectMeta : ObjectMeta;
  pv_Annotations : option (gmap string string);
  pv_AccessModes : list string;
  pv_Requests : gmap string string;
  pv_StorageClassName : option string
}.

Definition set_pv_ObjectMeta (v : ObjectMeta) (r : PersistentVolumeClaim) : PersistentVolumeClaim := {|
  pv_ObjectMeta := v;
  pv_Annotations := pv_Annotations r;
  pv_AccessModes := pv_AccessModes r;
  pv_Requests := pv_Requests r;
  pv_StorageClassName := pv_StorageClassName r
|}.

Definition set_pv_Annotations (v : option (gmap string string)) (r : PersistentVolumeClaim) : PersistentVolumeClaim := {|
  pv_ObjectMeta := pv_ObjectMeta r;
  pv_Annotations := v;
  pv_AccessModes := pv_AccessModes r;
  pv_Requests := pv_Requests r;
  pv_StorageClassName := pv_StorageClassName r
|}.

#[export] Instance pv_eq_dec : EqDecision PersistentVolumeClaim.
Proof. solve_decision. Defined.

(** [ncpv1.VirtualNetwork]. *)
Record VirtualNetwork := mkVirtualNetwork {
  vn_ObjectMeta : ObjectMeta;
  vn_WhitelistSourceRanges : string;
  vn_Conditions : list Condition
}.

Definition set_vn_ObjectMeta (v : ObjectMeta) (r : VirtualNetwork) : VirtualNetwork := {|
  vn_ObjectMeta := v;
  vn_WhitelistSourceRanges := vn_WhitelistSourceRanges r;
  vn_Conditions := vn_Conditions r
|}.

Definition set_vn_WhitelistSourceRanges (v : string) (r : VirtualNetwork) : VirtualNetwork := {|
  vn_ObjectMeta := vn_ObjectMeta r;
  vn_WhitelistSourceRanges := v;
  vn_Conditions := vn_Conditions r
|}.

#[export] Instance vn_eq_dec : EqDecision VirtualNetwork.
Proof. solve_decision. Defined.

(** [nsxvpcv1.SubnetSet]. *)
Record SubnetSet := mkSubnetSet {
  su_ObjectMeta : ObjectMeta;
  su_IPAddressType : string;
  su_Conditions : list Condition
}.

Definition set_su_ObjectMeta (v : ObjectMeta) (r : SubnetSet) : SubnetSet := {|
  su_ObjectMeta := v;
  su_IPAddressType := su_IPAddressType r;
  su_Conditions := su_Conditions r
|}.

Definition set_su_IPAddressType (v : string) (r : SubnetSet) : SubnetSet := {|
  su_ObjectMeta := su_ObjectMeta r;
  su_IPAddressType := v;
  su_Conditions := su_Conditions r
|}.

#[export] Instance su_eq_dec : EqDecision SubnetSet.
Proof. solve_decision. Defined.

(** [controlplanev1.KubeadmControlPlane]: the generation of its specification, the one its status and its conditions were made for, and the names in the certificate of the API server. *)
Record KubeadmControlPlane := mkKubeadmControlPlane {
  kp_ObjectMeta : ObjectMeta;
  kp_Generation : Z;
  kp_ObservedGeneration : Z;
  kp_ConditionGenerations : list Z;
  kp_CertSANs : list string
}.

#[export] Instance kp_eq_dec : EqDecision KubeadmControlPlane.
Proof. solve_decision. Defined.

(** [corev1.ConfigMap]. *)
Record ConfigMap := mkConfigMap {
  cf_ObjectMeta : ObjectMeta;
  cf_Data : gmap string string
}.

#[export] Instance cf_eq_dec : EqDecision ConfigMap.
Proof. solve_decision. Defined.

(** [corev1.Namespace]. *)
Record Namespace := mkNamespace {
  nm_ObjectMeta : ObjectMeta;
  nm_Annotations : option (gmap string string)
}.

#[export] Instance nm_eq_dec : EqDecision Namespace.
Proof. solve_decision. Defined.

(** [corev1.ServiceAccount] is looked at by its metadata. [corev1.Secret]. *)
Record Secret := mkSecret {
  sc_ObjectMeta : ObjectMeta;
  sc_Annotations : option (gmap string string);
  sc_Type : string;
  sc_Data : gmap string string
}.

Definition set_sc_ObjectMeta (v : ObjectMeta) (r : Secret) : Secret :=
  mkSecret v (sc_Annotations r) (sc_Type r) (sc_Data r).
Definition set_sc_Data (v : gmap string string) (r : Secret) : Secret :=
  mkSecret (sc_ObjectMeta r) (sc_Annotations r) (sc_Type r) v.

#[export] Instance sc_eq_dec : EqDecision Secret.
Proof. solve_decision. Defined.

(** [rbacv1.Role]. *)
Record Role := mkRole {
  rl_ObjectMeta : ObjectMeta;
  rl_Rules : list PolicyRule
}.

#[export] Instance rl_eq_dec : EqDecision Role.
Proof. solve_decision. Defined.

(** [rbacv1.RoleRef], [rbacv1.Subject] and [rbacv1.RoleBinding]. *)
Record RoleRef := mkRoleRef {
  rr_APIGroup : string;
  rr_Kind : string;
  rr_Name : string
}.

#[export] Instance rr_eq_dec : EqDecision RoleRef.
Proof. solve_decision. Defined.

Record Subject := mkSubject {
  sj_Kind : string;
  sj_APIGroup : string;
  sj_Name : string;
  sj_Namespace : string
}.

#[export] Instance sj_eq_dec : EqDecision Subject.
Proof. solve_decision. Defined.

Record RoleBinding := mkRoleBinding {
  rb_ObjectMeta : ObjectMeta;
  rb_RoleRef : RoleRef;
  rb_Subjects : list Subject
}.

#[export] Instance rb_eq_dec : EqDecision RoleBinding.
Proof. solve_decision. Defined.

(** [corev1.Service]: the ports are pairs of the port and the target port, the
    addresses those of the ingresses of its load balancer. *)
Record Service := mkService {
  sr_ObjectMeta : ObjectMeta;
  sr_ClusterIP : string;
  sr_Ports : list (Z * Z);
  sr_Ingress : list string
}.

#[export] Instance sr_eq_dec : EqDecision Service.
Proof. solve_decision. Defined.

(** [corev1.Endpoints]: the subsets with their addresses and ports. *)
Record Endpoints := mkEndpoints {
  en_ObjectMeta : ObjectMeta;
  en_Subsets : list (list string * list Z)
}.

#[export] Instance en_eq_dec : EqDecision Endpoints.
Proof. solve_decision. Defined.

(** * The kinds of objects

    A [Kind T] is a kind of objects that are [T]s. Of a Zone, an AvailabilityZone,
    a Network and a ServiceAccount the code looks at the metadata only. [KGuest] are
    the objects in the workload cluster, [KCached] those that are read through a
    cache of their own. *)
Inductive Kind : Type -> Type :=
| KVSphereMachine : Kind vmwarev1.VSphereMachine
| KVSphereCluster : Kind vmwarev1.VSphereCluster
| KVirtualMachine : Kind vmoprvhub.VirtualMachine
| KVirtualMachineGroup : Kind vmoprvhub.VirtualMachineGroup
| KVirtualMachineService : Kind vmoprvhub.VirtualMachineService
| KResourcePolicy : Kind vmoprvhub.VirtualMachineSetResourcePolicy
| KMachineDeployment : Kind MachineDeployment
| KPersistentVolumeClaim : Kind PersistentVolumeClaim
| KVirtualNetwork : Kind VirtualNetwork
| KSubnetSet : Kind SubnetSet
| KKubeadmControlPlane : Kind KubeadmControlPlane
| KConfigMap : Kind ConfigMap
| KNamespace : Kind Namespace
| KZone : Kind ObjectMeta
| KAvailabilityZone : Kind ObjectMeta
| KNetwork : Kind ObjectMeta
| KProviderServiceAccount : Kind vmwarev1.ProviderServiceAccount
| KServiceAccount : Kind ObjectMeta
| KSecret : Kind Secret
| KRole : Kind Role
| KRoleBinding : Kind RoleBinding
| KService : Kind Service
| KEndpoints : Kind Endpoints
| KVSphereMachineTemplate : Kind vmwarev1.VSphereMachineTemplate
| KVirtualMachineClass : Kind vmoprvhub.VirtualMachineClass
| KClusterVirtualMachineImage : Kind vmoprvhub.ClusterVirtualMachineImage
| KGuest {T : Type} (k : Kind T) : Kind T
| KCached {T : Type} (k : Kind T) : Kind T.

(** The metadata of an object of a kind, and the name of the kind. *)
Fixpoint kind_meta {T} (k : Kind T) : T -> ObjectMeta :=
  match k in Kind T return T -> ObjectMeta with
  | KVSphereMachine => vmwarev1.m_ObjectMeta
  | KVSphereCluster => vmwarev1.v_ObjectMeta
  | KVirtualMachine => vmoprvhub.o_ObjectMeta
  | KVirtualMachineGroup => vmoprvhub.g_ObjectMeta
  | KVirtualMachineService => vmoprvhub.sv_ObjectMeta
  | KResourcePolicy => vmoprvhub.rp_ObjectMeta
  | KMachineDeployment => md_ObjectMeta
  | KPersistentVolumeClaim => pv_ObjectMeta
  | KVirtualNetwork => vn_ObjectMeta
  | KSubnetSet => su_ObjectMeta
  | KKubeadmControlPlane => kp_ObjectMeta
  | KConfigMap => cf_ObjectMeta
  | KNamespace => nm_ObjectMeta
  | KZone | KAvailabilityZone | KNetwork | KServiceAccount => fun om => om
  | KProviderServiceAccount => vmwarev1.ps_ObjectMeta
  | KSecret => sc_ObjectMeta
  | KRole => rl_ObjectMeta
  | KRoleBinding => rb_ObjectMeta
  | KService => sr_ObjectMeta
  | KEndpoints => en_ObjectMeta
  | KVSphereMachineTemplate => vmwarev1.mz_ObjectMeta
  | KVirtualMachineClass => vmoprvhub.vk_ObjectMeta
  | KClusterVirtualMachineImage => vmoprvhub.iy_ObjectMeta
  | KGuest k | KCached k => kind_meta k
  end.
Fixpoint kind_name {T} (k : Kind T) : string :=
  match k with
  | KVSphereMachine => "VSphereMachine"
  | KVSphereCluster => "VSphereCluster"
  | KVirtualMachine => "VirtualMachine"
  | KVirtualMachineGroup => "VirtualMachineGroup"
  | KVirtualMachineService => "VirtualMachineService"
  | KResourcePolicy => "VirtualMachineSetResourcePolicy"
  | KMachineDeployment => "MachineDeployment"
  | KPersistentVolumeClaim => "PersistentVolumeClaim"
  | KVirtualNetwork => "VirtualNetwork"
  | KSubnetSet => "SubnetSet"
  | KKubeadmControlPlane => "KubeadmControlPlane"
  | KConfigMap => "ConfigMap"
  | KNamespace => "Namespace"
  | KZone => "Zone"
  | KAvailabilityZone => "AvailabilityZone"
  | KNetwork => "Network"
  | KProviderServiceAccount => "ProviderServiceAccount"
  | KServiceAccount => "ServiceAccount"
  | KSecret => "Secret"
  | KRole => "Role"
  | KRoleBinding => "RoleBinding"
  | KService => "Service"
  | KEndpoints => "Endpoints"
  | KVSphereMachineTemplate => "VSphereMachineTemplate"
  | KVirtualMachineClass => "VirtualMachineClass"
  | KClusterVirtualMachineImage => "ClusterVirtualMachineImage"
  | KGuest k | KCached k => kind_name k
  end.
