(* ===== verification/Libs.v ===== *)
(** What the code relies on of the libraries it calls, as one interface: the
    condition helpers of Cluster API, the object helpers of controller-runtime,
    the text of an aggregated error and the constants of Cluster API. Every
    component is stated against the interface; [RefLibs.v] gives an instance
    for concrete runs. *)
From S2P Require Export Prelude Types.

Class Libs := {
  (** [conditions.Get], [Set] (at a time, which becomes the transition time
      when the status changes) and [Delete] of
      sigs.k8s.io/cluster-api/util/conditions, on the conditions of an object. *)
  conditions_Get : list Condition -> string -> option Condition;
  conditions_Set : Z -> list Condition -> Condition -> list Condition;
  conditions_Delete : list Condition -> string -> list Condition;
  conditions_Get_Set_same now l c :
    exists g t, conditions_Get (conditions_Set now l c) (c_Type c) =
      Some (mkCondition (c_Type c) (c_Status c) g t (c_Reason c) (c_Message c));
  conditions_Get_Set_other now l c ty :
    ty <> c_Type c -> conditions_Get (conditions_Set now l c) ty = conditions_Get l ty;
  conditions_Get_type l ty c : conditions_Get l ty = Some c -> c_Type c = ty;
  conditions_Get_Delete_same l ty : conditions_Get (conditions_Delete l ty) ty = None;
  conditions_Get_Delete_other l ty ty' :
    ty' <> ty -> conditions_Get (conditions_Delete l ty) ty' = conditions_Get l ty';

  (** [conditions.SetSummaryCondition] over condition types, of which some are
      ignored when missing, with custom reasons: the conditions afterwards, or
      an error text. *)
  conditions_SetSummary :
    Z -> list Condition -> string -> list string -> list string ->
    (string * string * string) -> list Condition + string;
  conditions_SetSummary_other now l ty types ignored reasons l' ty' :
    conditions_SetSummary now l ty types ignored reasons = inl l' ->
    ty' <> ty -> conditions_Get l' ty' = conditions_Get l ty';
  (** [conditions.SetAggregateCondition] of the conditions of other objects. *)
  conditions_SetAggregate :
    Z -> list (list Condition) -> list Condition -> string -> string -> list Condition + string;
  conditions_SetAggregate_other now ls l src ty l' ty' :
    conditions_SetAggregate now ls l src ty = inl l' ->
    ty' <> ty -> conditions_Get l' ty' = conditions_Get l ty';

  (** [MarkTrue], [MarkFalse], [Delete], [SetSummary] and [SetAggregate] of
      sigs.k8s.io/cluster-api/util/conditions/deprecated/v1beta1. *)
  v1beta1_MarkTrue : Z -> list V1Beta1Condition -> string -> list V1Beta1Condition;
  v1beta1_MarkFalse :
    Z -> list V1Beta1Condition -> string -> string -> string -> string -> list V1Beta1Condition;
  v1beta1_Delete : list V1Beta1Condition -> string -> list V1Beta1Condition;
  v1beta1_SetSummary : Z -> list V1Beta1Condition -> list string -> list V1Beta1Condition;
  v1beta1_SetAggregate :
    Z -> list V1Beta1Condition -> string -> list (list V1Beta1Condition) -> list V1Beta1Condition;

  (** [controllerutil.AddFinalizer] and [RemoveFinalizer]: the finalizers and
      whether they changed; [clusterutilv1.EnsureOwnerRef]. *)
  AddFinalizer : list string -> string -> list string * bool;
  RemoveFinalizer : list string -> string -> list string * bool;
  RemoveFinalizer_spec l f x : x ∈ (RemoveFinalizer l f).1 <-> x ∈ l /\ x <> f;
  RemoveFinalizer_changed l f : (RemoveFinalizer l f).2 = bool_decide (f ∈ l);
  AddFinalizer_spec l f x : x ∈ (AddFinalizer l f).1 <-> x ∈ l \/ x = f;
  EnsureOwnerRef : list OwnerReference -> OwnerReference -> list OwnerReference;
  EnsureOwnerRef_in l r : r ∈ EnsureOwnerRef l r;

  (** [clusterutilv1.HasOwner]: a reference with the group and version and one of
      the kinds. *)
  HasOwner : list OwnerReference -> string -> list string -> bool;

  (** [kerrors.NewAggregate(errs).Error()] from the texts of the errors. *)
  aggregate_text : list string -> string;

  (** [conditions.SetMirrorCondition] (the source's conditions, the target's, the
      type in the source and in the target) and the v1beta1 [SetMirror]. *)
  conditions_SetMirror : Z -> list Condition -> list Condition -> string -> string -> list Condition;
  conditions_SetMirror_other now src l ty ty' t :
    t <> ty' -> conditions_Get (conditions_SetMirror now src l ty ty') t = conditions_Get l t;
  v1beta1_SetMirror : Z -> list V1Beta1Condition -> list V1Beta1Condition -> string -> list V1Beta1Condition;

  (** [clusterutilv1.IsOwnedByObject] (the references, the group, the kind and the
      name of the target) and [RemoveOwnerRef]. *)
  IsOwnedByObject : list OwnerReference -> string -> string -> string -> bool;
  RemoveOwnerRef : list OwnerReference -> OwnerReference -> list OwnerReference;
  RemoveOwnerRef_sublist l r x : x ∈ RemoveOwnerRef l r -> x ∈ l;

  (** The Machines [collections.FromMachineList] keeps of a list: a map from names,
      without namespaces, to Machines, in which a later Machine takes the place of an
      earlier one of its name. And [SortedByCreationTimestamp]. *)
  machine_collection : list Machine -> list Machine;
  machine_collection_spec l m :
    m ∈ machine_collection l <->
    exists before after, l = (before ++ m :: after)%list /\
      Forall (fun m' => om_Name (mc_ObjectMeta m') <> om_Name (mc_ObjectMeta m)) after;
  SortedByCreationTimestamp : list Machine -> list Machine;
  SortedByCreationTimestamp_perm l : Permutation (SortedByCreationTimestamp l) l;

  (** The errors of [validation.IsValidLabelValue]. *)
  IsValidLabelValue : string -> list string;

  (** [metav1.LabelSelectorAsSelector] succeeds; [Matches]. *)
  selector_valid : LabelSelector -> bool;
  selector_matches : LabelSelector -> gmap string string -> bool;
  (** The group of [schema.ParseGroupVersion], or the text of its error. *)
  ParseGroup : string -> string + string;
  (** [%x] of the SHA-256 of a text. *)
  sha256_hex : string -> string;
  (** The major version, when [semver.New] accepts the text. *)
  semver_major : string -> option Z;
  semver_major_empty : semver_major "" = None;
  semver_error_text : string -> string;

  (** [controllerutil.SetControllerReference] and [SetOwnerReference], from the
      API version, the kind and the metadata of the owner and the metadata of the
      object: the references of the object afterwards, or the text of an error. *)
  SetControllerReference : string -> string -> ObjectMeta -> ObjectMeta -> list OwnerReference + string;
  SetControllerReference_in apiVersion kind owner om l :
    SetControllerReference apiVersion kind owner om = inl l ->
    mkOwnerReference apiVersion kind (om_Name owner) (om_UID owner) (Some true) ∈ l;
  SetOwnerReference : string -> string -> ObjectMeta -> ObjectMeta -> list OwnerReference + string;
  SetOwnerReference_in apiVersion kind owner om l :
    SetOwnerReference apiVersion kind owner om = inl l ->
    exists c, mkOwnerReference apiVersion kind (om_Name owner) (om_UID owner) c ∈ l;

  (** [meta.FindStatusCondition] of k8s.io/apimachinery. *)
  FindStatusCondition : list Condition -> string -> option Condition;
  FindStatusCondition_type l ty c : FindStatusCondition l ty = Some c -> c_Type c = ty;

  (** [metav1.FormatLabelSelector], and the text of the error of
      [LabelSelectorAsSelector]. *)
  FormatLabelSelector : option LabelSelector -> string;
  selector_error_text : LabelSelector -> string;
  (** [Empty] of the selector that [LabelSelectorAsSelector] makes. *)
  selector_empty : LabelSelector -> bool;
  (** [resource.NewQuantity(n, DecimalSI)] as text, and [Quantity.IsZero]. *)
  NewQuantity : Z -> string;
  quantity_IsZero : string -> bool;
  (** [schema.ParseGroupVersion]: the group and the version. *)
  ParseGroupVersion : string -> option (string * string);
  (** The comparison of two texts as semantic versions, when [semver.Parse]
      accepts the first one; the second one is a constant. *)
  semver_compare : string -> string -> option comparison;
  (** A text as JSON. *)
  json_text : string -> string;
  (** What the verb [%+v] makes of the text of an error: the stack that
      [github.com/pkg/errors] keeps is added. *)
  stack_text : string -> string;

  (** [annotations.HasPaused] on the annotations of an object, and
      [metav1.GetControllerOf] on its references. *)
  HasPaused : option (gmap string string) -> bool;
  GetControllerOf : list OwnerReference -> option OwnerReference;
  GetControllerOf_in l r : GetControllerOf l = Some r -> r ∈ l /\ or_Controller r = Some true;
  (** [clientcmd.Load]: the configuration, or the text of the error. *)
  clientcmd_Load : string -> KubeConfig + string;
  (** The texts, in messages, of the error of [url.Parse] and of a URL it accepts. *)
  url_ParseError : string -> string;
  url_String : string -> string;

  (** A [metav1.Time] as text. *)
  time_text : Z -> string;
  (** The text of the error of [base64.StdEncoding.DecodeString]. *)
  base64_error_text : string -> string;
  (** [uuid.Parse] of github.com/google/uuid succeeds. *)
  uuid_valid : string -> bool;
  (** [klog.KRef(ns, name)] as text. *)
  KRef : string -> string -> string;

  (** Constants of sigs.k8s.io/cluster-api/api/core/v1beta2 and
      .../bootstrap/kubeadm/v1beta2. *)
  ReadyCondition : string;
  PausedCondition : string;
  ProvisionedReason : string;
  NotProvisionedReason : string;
  DeletingReason : string;
  AvailableReason : string;
  ReadyReason : string;
  NotReadyReason : string;
  ReadyUnknownReason : string;
  ClusterNameLabel : string;
  MachineControlPlaneLabel : string;
  MachineExternalIP : string;
  MachineInternalDNS : string;
  SeverityInfo : string;
  SeverityWarning : string;
  SeverityError : string;
  DeletingV1Beta1Reason : string;
  CloudConfig : string;
  Ignition : string;
  ClusterV1Group : string;
  ControlPlaneV1Group : string;
  ClusterControlPlaneInitializedCondition : string;
  DeletionFailedV1Beta1Reason : string;
  AvailableCondition : string;
  WaitingForClusterInfrastructureReadyReason : string;
  WaitingForControlPlaneInitializedReason : string;
  WaitingForBootstrapDataReason : string;
  WaitingForControlPlaneAvailableV1Beta1Reason : string;
  InternalErrorReason : string;
  MachineDeploymentNameLabel : string;
  MachineInternalIP : string;
  ClusterV1GroupVersion : string;

  (** Constants of k8s.io/api/core/v1, k8s.io/api/rbac/v1, k8s.io/apimachinery and
      k8s.io/cluster-bootstrap, and of the APIs of the network providers:
      their group and version, and the kinds of addresses of a SubnetSet. *)
  ServiceAccountNameKey : string;
  SecretTypeServiceAccountToken : string;
  ClusterIPNone : string;
  rbac_GroupName : string;
  NamespacePublic : string;
  ConfigMapClusterInfo : string;
  KubeConfigKey : string;
  LabelTopologyZone : string;
  LabelHostname : string;
  ReadWriteOnce : string;
  IPv4Protocol : string;
  IPv6Protocol : string;
  IPFamilyPolicySingleStack : string;
  IPFamilyPolicyRequireDualStack : string;
  netop_GroupVersion : string;
  ncp_GroupVersion : string;
  nsxvpc_GroupVersion : string;
  IPAddressTypeIPv4 : string;
  IPAddressTypeIPv6 : string;
  IPAddressTypeIPv4IPv6 : string
}.

(** [conditions.Has]. *)
Definition conditions_Has `{Libs} (l : list Condition) (ty : string) : bool :=
  bool_decide (is_Some (conditions_Get l ty)).

(** [conditions.IsTrue]. *)
Definition conditions_IsTrue `{Libs} (l : list Condition) (ty : string) : bool :=
  match conditions_Get l ty with Some c => String.eqb (c_Status c) ConditionTrue | None => false end.

(** [meta.IsStatusConditionTrue]. *)
Definition IsStatusConditionTrue `{Libs} (l : list Condition) (ty : string) : bool :=
  match FindStatusCondition l ty with Some c => String.eqb (c_Status c) ConditionTrue | None => false end.

(** [schema.FromAPIVersionAndKind]: the group, the version and the kind. *)
Definition FromAPIVersionAndKind `{Libs} (apiVersion kind : string) : string * string * string :=
  match ParseGroupVersion apiVersion with Some (g, v) => (g, v, kind) | None => ("", "", kind) end.

(** [ctrlutil.ContainsFinalizer]. *)
Definition ContainsFinalizer (l : list string) (f : string) : bool := bool_decide (f ∈ l).

Section laws.
Context `{Libs}.

Lemma conditions_Has_Set_same now l c : conditions_Has (conditions_Set now l c) (c_Type c) = true.
Proof.
  unfold conditions_Has. destruct (conditions_Get_Set_same now l c) as (g & t & ->).
  by rewrite bool_decide_eq_true_2.
Qed.

Lemma conditions_Has_Set_other now l c ty :
  ty <> c_Type c -> conditions_Has (conditions_Set now l c) ty = conditions_Has l ty.
Proof. intros Hne. unfold conditions_Has. by rewrite conditions_Get_Set_other. Qed.
End laws.
