(* ===== verification/Constants.v ===== *)
(** The condition types, the reasons and the finalizers of VSphereClusters,
    deployment zones, identities and machines ([api/govmomi/v1beta2]). *)
From S2P Require Import Prelude Libs.

(** * [vspherecluster_types.go] *)

Definition ClusterFinalizer : string := "vspherecluster.infrastructure.cluster.x-k8s.io".
Definition VSphereClusterReadyCondition `{Libs} : string := ReadyCondition.
Definition VSphereClusterReadyReason `{Libs} : string := ReadyReason.
Definition VSphereClusterNotReadyReason `{Libs} : string := NotReadyReason.
Definition VSphereClusterReadyUnknownReason `{Libs} : string := ReadyUnknownReason.
Definition VSphereClusterFailureDomainsReadyCondition : string := "FailureDomainsReady".
Definition VSphereClusterFailureDomainsReadyReason `{Libs} : string := ReadyReason.
Definition VSphereClusterFailureDomainsWaitingForFailureDomainStatusReason : string := "WaitingForFailureDomainStatus".
Definition VSphereClusterFailureDomainsNotReadyReason `{Libs} : string := NotReadyReason.
Definition VSphereClusterFailureDomainsDeletingReason `{Libs} : string := DeletingReason.
Definition VSphereClusterVCenterAvailableCondition : string := "VCenterAvailable".
Definition VSphereClusterVCenterAvailableReason `{Libs} : string := AvailableReason.
Definition VSphereClusterVCenterUnreachableReason : string := "VCenterUnreachable".
Definition VSphereClusterVCenterAvailableDeletingReason `{Libs} : string := DeletingReason.
Definition VSphereClusterClusterModulesReadyCondition : string := "ClusterModulesReady".
Definition VSphereClusterClusterModulesReadyReason `{Libs} : string := ReadyReason.
Definition VSphereClusterModulesInvalidVCenterVersionReason : string := "InvalidVCenterVersion".
Definition VSphereClusterClusterModulesNotReadyReason `{Libs} : string := NotReadyReason.
Definition VSphereClusterClusterModulesDeletingReason `{Libs} : string := DeletingReason.

(** * [vspheredeploymentzone_types.go] *)

Definition DeploymentZoneFinalizer : string := "vspheredeploymentzone.infrastructure.cluster.x-k8s.io".
Definition VSphereDeploymentZoneReadyCondition `{Libs} : string := ReadyCondition.
Definition VSphereDeploymentZoneReadyReason `{Libs} : string := ReadyReason.
Definition VSphereDeploymentZoneNotReadyReason `{Libs} : string := NotReadyReason.
Definition VSphereDeploymentZoneReadyUnknownReason `{Libs} : string := ReadyUnknownReason.
Definition VSphereDeploymentZoneVCenterAvailableCondition : string := "VCenterAvailable".
Definition VSphereDeploymentZoneVCenterAvailableReason `{Libs} : string := AvailableReason.
Definition VSphereDeploymentZoneVCenterUnreachableReason : string := "VCenterUnreachable".
Definition VSphereDeploymentZoneVCenterAvailableDeletingReason `{Libs} : string := DeletingReason.
Definition VSphereDeploymentZonePlacementConstraintReadyCondition : string := "PlacementConstraintReady".
Definition VSphereDeploymentZonePlacementConstraintReadyReason `{Libs} : string := ReadyReason.
Definition VSphereDeploymentZonePlacementConstraintResourcePoolNotFoundReason : string := "ResourcePoolNotFound".
Definition VSphereDeploymentZonePlacementConstraintFolderNotFoundReason : string := "FolderNotFound".
Definition VSphereDeploymentZonePlacementConstraintDeletingReason `{Libs} : string := DeletingReason.
Definition VSphereDeploymentZoneFailureDomainValidatedCondition : string := "FailureDomainValidated".
Definition VSphereDeploymentZoneFailureDomainValidatedReason : string := "Validated".
Definition VSphereDeploymentZoneFailureDomainValidationFailedReason : string := "ValidationFailed".
Definition VSphereDeploymentZoneFailureDomainRegionMisconfiguredReason : string := "RegionMisconfigured".
Definition VSphereDeploymentZoneFailureDomainZoneMisconfiguredReason : string := "ZoneMisconfigured".
Definition VSphereDeploymentZoneFailureDomainHostsMisconfiguredReason : string := "HostsMisconfigured".
Definition VSphereDeploymentZoneFailureDomainDatastoreNotFoundReason : string := "DatastoreNotFound".
Definition VSphereDeploymentZoneFailureDomainNetworkNotFoundReason : string := "NetworkNotFound".
Definition VSphereDeploymentZoneFailureDomainComputeClusterNotFoundReason : string := "ComputeClusterNotFound".
Definition VSphereDeploymentZoneFailureDomainResourcePoolNotFoundReason : string := "ResourcePoolNotFound".
Definition VSphereDeploymentZoneFailureDomainDeletingReason `{Libs} : string := DeletingReason.

(** * [vsphereclusteridentity_types.go] *)

Definition SecretIdentitySetFinalizer : string := "vspherecluster/infrastructure.cluster.x-k8s.io".
Definition VSphereClusterIdentityFinalizer : string := "vsphereclusteridentity/infrastructure.cluster.x-k8s.io".
Definition VSphereClusterIdentityAvailableCondition `{Libs} : string := AvailableCondition.
Definition VSphereClusterIdentityAvailableReason `{Libs} : string := AvailableReason.
Definition VSphereClusterIdentitySecretNotAvailableReason : string := "SecretNotAvailable".
Definition VSphereClusterIdentitySecretAlreadyInUseReason : string := "SecretAlreadyInUse".
Definition VSphereClusterIdentitySettingSecretOwnerReferenceFailedReason : string := "SettingSecretOwnerReferenceFailed".
Definition VSphereClusterIdentityDeletingReason `{Libs} : string := DeletingReason.

(** * [vspheremachine_types.go] *)

Definition MachineFinalizer : string := "vspheremachine.infrastructure.cluster.x-k8s.io".
Definition VSphereMachineReadyCondition `{Libs} : string := ReadyCondition.
Definition VSphereMachineReadyReason `{Libs} : string := ReadyReason.
Definition VSphereMachineNotReadyReason `{Libs} : string := NotReadyReason.
Definition VSphereMachineReadyUnknownReason `{Libs} : string := ReadyUnknownReason.
Definition VSphereMachineVirtualMachineProvisionedCondition : string := "VirtualMachineProvisioned".
Definition VSphereMachineVirtualMachineWaitingForClusterInfrastructureReadyReason `{Libs} : string := WaitingForClusterInfrastructureReadyReason.
Definition VSphereMachineVirtualMachineWaitingForControlPlaneInitializedReason `{Libs} : string := WaitingForControlPlaneInitializedReason.
Definition VSphereMachineVirtualMachineWaitingForBootstrapDataReason `{Libs} : string := WaitingForBootstrapDataReason.
Definition VSphereMachineVirtualMachineProvisioningReason : string := "Provisioning".
Definition VSphereMachineVirtualMachinePoweringOnReason : string := "PoweringOn".
Definition VSphereMachineVirtualMachineWaitingForVirtualMachineGroupReason : string := "WaitingForVirtualMachineGroup".
Definition VSphereMachineVirtualMachineWaitingForNetworkAddressReason : string := "WaitingForNetworkAddress".
Definition VSphereMachineVirtualMachineWaitingForBIOSUUIDReason : string := "WaitingForBIOSUUID".
Definition VSphereMachineVirtualMachineProvisionedReason `{Libs} : string := ProvisionedReason.
Definition VSphereMachineVirtualMachineNotProvisionedReason `{Libs} : string := NotProvisionedReason.
Definition VSphereMachineVirtualMachineDeletingReason `{Libs} : string := DeletingReason.

(** * [condition_consts.go] *)

Definition FailureDomainsAvailableV1Beta1Condition : string := "FailureDomainsAvailable".
Definition FailureDomainsSkippedV1Beta1Reason : string := "FailureDomainsSkipped".
Definition WaitingForFailureDomainStatusV1Beta1Reason : string := "WaitingForFailureDomainStatus".
Definition MissingVCenterVersionV1Beta1Reason : string := "MissingVCenterVersion".
Definition CredentialsAvailableV1Beta1Condition : string := "CredentialsAvailable".
Definition SecretNotAvailableV1Beta1Reason : string := "SecretNotAvailable".
Definition SecretOwnerReferenceFailedV1Beta1Reason : string := "SecretOwnerReferenceFailed".
Definition SecretAlreadyInUseV1Beta1Reason : string := "SecretInUse".
Definition PlacementConstraintMetV1Beta1Condition : string := "PlacementConstraintMet".
Definition ResourcePoolNotFoundV1Beta1Reason : string := "ResourcePoolNotFound".
Definition FolderNotFoundV1Beta1Reason : string := "FolderNotFound".
Definition VSphereFailureDomainValidatedV1Beta1Condition : string := "VSphereFailureDomainValidated".
Definition RegionMisconfiguredV1Beta1Reason : string := "FailureDomainRegionMisconfigured".
Definition ZoneMisconfiguredV1Beta1Reason : string := "FailureDomainZoneMisconfigured".
Definition ComputeClusterNotFoundV1Beta1Reason : string := "ComputeClusterNotFound".
Definition HostsMisconfiguredV1Beta1Reason : string := "HostsMisconfigured".
Definition HostsAffinityMisconfiguredV1Beta1Reason : string := "HostsAffinityMisconfigured".
Definition NetworkNotFoundV1Beta1Reason : string := "NetworkNotFound".
Definition DatastoreNotFoundV1Beta1Reason : string := "DatastoreNotFound".
Definition IPAddressInvalidV1Beta1Reason : string := "IPAddressInvalid".
