(* ===== verification/Errors.v ===== *)
(** Go error values and the results of fallible calls: the error types the
    code defines or inspects, the texts it builds with [github.com/pkg/errors]
    and [fmt], and the tests it makes on them. *)
From S2P Require Export Prelude GoStrings Libs.

(** What the code can learn of an error made by a library: it is a
    [*find.NotFoundError] of govmomi, the Kubernetes API answered that the
    object does not exist or exists already, the vAPI endpoint answered with an HTTP status, the
    workload cluster is not connected, or nothing in particular. *)
Inductive lib_error :=
| FinderNotFound
| APINotFound
| APIAlreadyExists
| RestStatus (code : Z)
| ClusterNotConnected
| OtherLibError.

(** The package-level error values the code compares with [errors.Is]. *)
Inductive sentinel :=
| ErrWaitingForIPAddr
| ErrNoMachineIPAddr
| ErrNetworkProviderEmpty
| ErrNoOwningCluster.

Definition sentinel_text `{Libs} (s : sentinel) : string :=
  match s with
  | ErrWaitingForIPAddr => "waiting for IP address claims to be bound"
  | ErrNoMachineIPAddr => "no IP addresses found for machine"
  | ErrNetworkProviderEmpty => "network provider is empty, wait for a valid value"
  | ErrNoOwningCluster => sprintf "missing %q label, cannot resolve the owning Cluster" [AS ClusterNameLabel]
  end.

(** [EVMNotFound uuid byInventoryPath] is [errNotFound] of
    pkg/services/govmomi/errors.go; [EIncompatible] is [IncompatibleOwnerError]
    of pkg/clustermodule/error.go; [EWrap] is what [Wrap] and [Wrapf] return for
    a non-nil error. *)
Inductive error :=
| ENew (msg : string)
| EWrap (msg : string) (cause : error)
| ESentinel (s : sentinel)
| EVMNotFound (uuid byInventoryPath : string)
| EIncompatible (resource : string)
| ELib (kind : lib_error) (msg : string)
| EAggregate (errs : list error).

(** [kerrors.NewAggregate], which leaves out nil errors. *)
Definition NewAggregate (errs : list (option error)) : option error :=
  match omap id errs with [] => None | errs => Some (EAggregate errs) end.

(** [err.Error()]. *)
Section error_string.
Context `{Libs}.

Fixpoint error_string (e : error) : string :=
  match e with
  | ENew msg => msg
  | EWrap msg cause => msg +:+ ": " +:+ error_string cause
  | ESentinel s => sentinel_text s
  | EVMNotFound uuid path =>
      if negb (String.eqb path "") then sprintf "vm with inventory path %s not found" [AS path]
      else sprintf "vm with bios uuid %s not found" [AS uuid]
  | EIncompatible resource => sprintf "%s %s" [AS resource; AS "not a compute cluster"]
  | ELib _ msg => msg
  | EAggregate errs => aggregate_text (map error_string errs)
  end.

(** [IsIncompatibleOwnerError] goes by the end of the text. *)
Definition IsIncompatibleOwnerError (e : error) : bool :=
  has_suffix (error_string e) "not a compute cluster".
End error_string.

(** The error a wrapping error wraps, followed to the end: what [errors.Is] and
    [errors.As] look through. *)
Fixpoint error_root (e : error) : error :=
  match e with EWrap _ cause => error_root cause | _ => e end.

(** [errors.Is(err, s)] for a package-level error. *)
Definition error_is (e : error) (s : sentinel) : bool :=
  match error_root e, s with
  | ESentinel ErrWaitingForIPAddr, ErrWaitingForIPAddr => true
  | ESentinel ErrNoMachineIPAddr, ErrNoMachineIPAddr => true
  | ESentinel ErrNetworkProviderEmpty, ErrNetworkProviderEmpty => true
  | ESentinel ErrNoOwningCluster, ErrNoOwningCluster => true
  | _, _ => false
  end.

(** [apierrors.IsNotFound] and [IsAlreadyExists], which look through wrapped errors, and
    [rest.IsStatusError], which does not. *)
Definition IsNotFound (e : error) : bool :=
  match error_root e with ELib APINotFound _ => true | _ => false end.
Definition IsAlreadyExists (e : error) : bool :=
  match error_root e with ELib APIAlreadyExists _ => true | _ => false end.
Definition IsStatusError (e : error) (code : Z) : bool :=
  match e with ELib (RestStatus c) _ => c =? code | _ => false end.
Definition IsClusterNotConnected (e : error) : bool :=
  match error_root e with ELib ClusterNotConnected _ => true | _ => false end.

(** * Results

    A call returns a value, returns an error, or does not return: it panics (a
    nil pointer is dereferenced, an index is out of range) or runs for ever. *)
Inductive no_return := Panics | Diverges.
Inductive res (A : Type) :=
| Ok (a : A)
| Err (e : error)
| Stop (w : no_return).
Arguments Ok {A} a.
Arguments Err {A} e.
Arguments Stop {A} w.

Definition res_map {A B} (f : A -> B) (r : res A) : res B :=
  match r with Ok a => Ok (f a) | Err e => Err e | Stop w => Stop w end.
Definition res_bind {A B} (r : res A) (k : A -> res B) : res B :=
  match r with Ok a => k a | Err e => Err e | Stop w => Stop w end.

(** [if err != nil { return errors.Wrapf(err, ...) }]. *)
Definition res_wrap {A} (msg : string) (r : res A) : res A :=
  match r with Err e => Err (EWrap msg e) | r => r end.
Arguments res_wrap {A} msg !r.

(** What is behind a pointer, or the element at an index, that the code takes
    to be there. *)
Definition or_panic {A} (o : option A) : res A :=
  match o with Some a => Ok a | None => Stop Panics end.
(** The result of a loop that was given fuel. *)
Definition or_diverge {A} (o : option A) : res A :=
  match o with Some a => Ok a | None => Stop Diverges end.

Arguments or_panic {A} !o.
Arguments or_diverge {A} !o.

Definition is_ok {A} (r : res A) : bool := match r with Ok _ => true | _ => false end.

Lemma res_bind_ok {A B} (r : res A) (k : A -> res B) b :
  res_bind r k = Ok b <-> exists a, r = Ok a /\ k a = Ok b.
Proof.
  destruct r; simpl; split; [by eauto|..]; try done.
  - by intros (a' & [= <-] & Hk).
  - by intros (a' & [=] & _).
  - by intros (a' & [=] & _).
Qed.
