(* ===== verification/ConvLib.v ===== *)
(** What the conversions between API versions share: the structs of other
    projects they copy, with the difference between a nil and an empty slice;
    results as a monad; the conversion functions of apimachinery and Cluster API as an
    interface with laws; and what a round trip through another version is. *)
From S2P Require Export Prelude Types VmwareTypes Libs Errors.

(** * Results as a monad

    [if err := f(&in.X, &out.X, s); err != nil { return err }] is [x ← f ...; ...]. *)
#[export] Instance res_mbind : MBind res := fun A B f r => res_bind r f.
#[export] Instance res_mret : MRet res := @Ok.

Lemma bind_ok {A B} (a : A) (k : A -> res B) : (x ← Ok a; k x) = k a.
Proof. reflexivity. Qed.
Lemma bind_ret {A B} (a : A) (k : A -> res B) : (x ← mret a; k x) = k a.
Proof. reflexivity. Qed.

(** [if in.X != nil { *out = new(T); convert(in.X, out.X) } else { out.X = nil }]. *)
Definition convert_ptr {A B} (f : A -> res B) (p : option A) : res (option B) :=
  match p with None => Ok None | Some a => b ← f a; Ok (Some b) end.

(** A loop over a slice that converts each element and returns the first error. *)
Fixpoint convert_list {A B} (f : A -> res B) (l : list A) : res (list B) :=
  match l with
  | [] => Ok []
  | a :: l => b ← f a; bs ← convert_list f l; Ok (b :: bs)
  end.

(** [if in.X != nil { *out = make([]T, len(in.X)); for i := range ... } else { out.X = nil }]:
    a nil slice stays nil, and an empty one stays empty. *)
Definition convert_slice {A B} (f : A -> res B) (s : option (list A)) : res (option (list B)) :=
  convert_ptr (convert_list f) s.

(** A pointer behind a pointer. *)
Lemma obind_some {A B} (k : A -> option B) a : (Some a ≫= k) = k a.
Proof. reflexivity. Qed.
Lemma obind_none {A B} (k : A -> option B) : (None ≫= k) = None.
Proof. reflexivity. Qed.

(** A conversion of elements that never fails. *)
Lemma convert_slice_pure {A B} (f : A -> res B) (g : A -> B) (s : option (list A)) :
  (forall a, f a = Ok (g a)) -> convert_slice f s = Ok (option_map (map g) s).
Proof.
  intros Hf. destruct s as [l|]; [|done]. unfold convert_slice. cbn.
  enough (E : convert_list f l = Ok (map g l)) by (by rewrite E).
  induction l as [|a l IH]; [done|]. cbn. by rewrite Hf, IH.
Qed.

(** [len(s)] and [range s] of a slice that may be nil. *)
Definition elems {A} (s : option (list A)) : list A := default [] s.

(** * Structs of other projects *)

(** [metav1.Duration], in nanoseconds, and [resource.Quantity], in its canonical text. *)
Definition Duration := Z.
Definition Quantity := string.
Definition zero_Quantity : Quantity := "0".

(** [metav1.ObjectMeta] with its annotations, which the controllers do not read. *)
Record MetaV1 := mkMetaV1 {
  mv_Meta : ObjectMeta;
  mv_Annotations : option (gmap string string)
}.
Definition zero_MetaV1 : MetaV1 := mkMetaV1 (mkObjectMeta "" "" "" None [] [] None) None.
Definition set_mv_Annotations (v : option (gmap string string)) (x : MetaV1) : MetaV1 := mkMetaV1 (mv_Meta x) v.

(** [metav1.ListMeta]. *)
Record ListMeta := mkListMeta {
  lm_SelfLink : string;
  lm_ResourceVersion : string;
  lm_Continue : string;
  lm_RemainingItemCount : option Z
}.
Definition zero_ListMeta : ListMeta := mkListMeta "" "" "" None.

(** [corev1.ObjectReference] and [corev1.TypedLocalObjectReference]. *)
Record ObjectReference := mkObjectReference {
  oj_Kind : string;
  oj_Namespace : string;
  oj_Name : string;
  oj_UID : string;
  oj_APIVersion : string;
  oj_ResourceVersion : string;
  oj_FieldPath : string
}.
Record TypedLocalObjectReference := mkTypedLocalObjectReference {
  tl_APIGroup : option string;
  tl_Kind : string;
  tl_Name : string
}.
Definition zero_TypedLocalObjectReference : TypedLocalObjectReference := mkTypedLocalObjectReference None "" "".

(** [clusterv1.ObjectMeta], the metadata of a template, of both versions. *)
Record TemplateMeta := mkTemplateMeta {
  tm_Labels : option (gmap string string);
  tm_Annotations : option (gmap string string)
}.
Definition zero_TemplateMeta : TemplateMeta := mkTemplateMeta None None.

(** [clusterv1.FailureDomain] and the failure domains of v1beta1, which are a map. *)
Record FailureDomain := mkFailureDomain {
  fo_Name : string;
  fo_ControlPlane : option bool;
  fo_Attributes : option (gmap string string)
}.
Record FailureDomainSpec := mkFailureDomainSpec {
  fp_ControlPlane : bool;
  fp_Attributes : option (gmap string string)
}.

Definition zero_MachineAddress : MachineAddress := mkMachineAddress "" "".
Definition zero_Condition : Condition := mkCondition "" "" 0 None "" "".
Definition zero_V1Beta1Condition : V1Beta1Condition := mkV1Beta1Condition "" "" "" None "" "".
Definition zero_LabelSelector : LabelSelector := mkLabelSelector ∅ [].
Definition zero_APIEndpoint : APIEndpoint := mkAPIEndpoint "" 0.

(** * Functions of other projects *)

(** The conversion functions the code calls: [metav1_] those of apimachinery,
    which never fail; [clusterv1_] and [clusterv1beta1_] those of Cluster API. A value behind a
    pointer is kept when it goes to a version without the pointer and the pointer is set;
    the functions of Cluster API that take what was restored decide between nil and a
    pointer to the zero value. Durations and the objects that both versions of Cluster API have
    go back and forth. *)
Class ConvLib := {
  metav1_Convert_bool_To_Pointer_bool : bool -> res (option bool);
  metav1_Convert_Pointer_bool_To_bool : option bool -> res bool;
  metav1_Convert_int32_To_Pointer_int32 : Z -> res (option Z);
  metav1_Convert_Pointer_int32_To_int32 : option Z -> res Z;
  metav1_Convert_string_To_Pointer_string : string -> res (option string);
  metav1_Convert_Pointer_string_To_string : option string -> res string;
  clusterv1_Convert_bool_To_Pointer_bool (src hasRestored : bool) (restored : option bool) : option bool;
  clusterv1_Convert_int32_To_Pointer_int32 (src : Z) (hasRestored : bool) (restored : option Z) : option Z;
  ConvertFromSeconds : option Z -> option Duration;
  ConvertToSeconds : option Duration -> option Z;
  Convert_v1beta1_Conditions_To_v1beta2_Deprecated_V1Beta1_Conditions : list V1Beta1Condition -> list V1Beta1Condition;
  Convert_v1beta2_Deprecated_V1Beta1_Conditions_To_v1beta1_Conditions : list V1Beta1Condition -> list V1Beta1Condition;
  clusterv1beta1_Convert_v1beta1_ObjectMeta_To_v1beta2_ObjectMeta : TemplateMeta -> res TemplateMeta;
  clusterv1beta1_Convert_v1beta2_ObjectMeta_To_v1beta1_ObjectMeta : TemplateMeta -> res TemplateMeta;
  clusterv1beta1_Convert_v1beta1_MachineAddress_To_v1beta2_MachineAddress : MachineAddress -> res MachineAddress;
  clusterv1beta1_Convert_v1beta2_MachineAddress_To_v1beta1_MachineAddress : MachineAddress -> res MachineAddress;

  bool_to_ptr b : metav1_Convert_bool_To_Pointer_bool b = Ok (Some b);
  ptr_to_bool p : metav1_Convert_Pointer_bool_To_bool p = Ok (default false p);
  int32_to_ptr n : metav1_Convert_int32_To_Pointer_int32 n = Ok (Some n);
  ptr_to_int32 p : metav1_Convert_Pointer_int32_To_int32 p = Ok (default 0 p);
  string_to_ptr s : metav1_Convert_string_To_Pointer_string s = Ok (Some s);
  ptr_to_string p : metav1_Convert_Pointer_string_To_string p = Ok (default "" p);
  cluster_bool_to_ptr b ok r : clusterv1_Convert_bool_To_Pointer_bool b ok r =
    if b then Some true else if ok && bool_decide (r = Some false) then Some false else None;
  cluster_int32_to_ptr n ok r : clusterv1_Convert_int32_To_Pointer_int32 n ok r =
    if negb (n =? 0) then Some n else if ok && bool_decide (r = Some 0) then Some 0 else None;
  from_seconds_nil : ConvertFromSeconds None = None;
  to_seconds_nil : ConvertToSeconds None = None;
  from_seconds n : is_int32 n -> ConvertFromSeconds (Some n) = Some (n * 1000000000);
  to_seconds n : is_int32 n -> ConvertToSeconds (Some (n * 1000000000)) = Some n;
  conditions_up_down l : Convert_v1beta2_Deprecated_V1Beta1_Conditions_To_v1beta1_Conditions (Convert_v1beta1_Conditions_To_v1beta2_Deprecated_V1Beta1_Conditions l) = l;
  conditions_down_up l : Convert_v1beta1_Conditions_To_v1beta2_Deprecated_V1Beta1_Conditions (Convert_v1beta2_Deprecated_V1Beta1_Conditions_To_v1beta1_Conditions l) = l;
  template_meta_up_down m : exists m', clusterv1beta1_Convert_v1beta1_ObjectMeta_To_v1beta2_ObjectMeta m = Ok m' /\ clusterv1beta1_Convert_v1beta2_ObjectMeta_To_v1beta1_ObjectMeta m' = Ok m;
  template_meta_down_up m : exists m', clusterv1beta1_Convert_v1beta2_ObjectMeta_To_v1beta1_ObjectMeta m = Ok m' /\ clusterv1beta1_Convert_v1beta1_ObjectMeta_To_v1beta2_ObjectMeta m' = Ok m;
  address_up_down a : exists a', clusterv1beta1_Convert_v1beta1_MachineAddress_To_v1beta2_MachineAddress a = Ok a' /\ clusterv1beta1_Convert_v1beta2_MachineAddress_To_v1beta1_MachineAddress a' = Ok a;
  address_down_up a : exists a', clusterv1beta1_Convert_v1beta2_MachineAddress_To_v1beta1_MachineAddress a = Ok a' /\ clusterv1beta1_Convert_v1beta1_MachineAddress_To_v1beta2_MachineAddress a' = Ok a
}.

(** The annotation with the hub object an object was converted from. [MarshalData x m] puts [x] into the
    annotations [m] of an object, and [UnmarshalData m] takes it out again. JSON does not tell an
    empty slice from a nil one and cuts times to seconds; [view] is what a conversion uses of the object, and that
    comes back when it is read into [zero], the object of a fresh variable ([json.Unmarshal] merges what it reads
    into any other). *)
Definition DataAnnotation : string := "cluster.x-k8s.io/conversion-data".

Class HubData (A V : Type) (view : A -> V) (zero : A) := {
  MarshalDataUnsafeNoCopy : A -> MetaV1 -> res MetaV1;
  UnmarshalData : A -> MetaV1 -> res (bool * A * MetaV1);
  marshal_data (x : A) (m : MetaV1) : exists data, MarshalDataUnsafeNoCopy x m =
    Ok (set_mv_Annotations (Some (<[DataAnnotation := data]> (default ∅ (mv_Annotations m)))) m) /\
    forall m' anns, mv_Annotations m' = Some anns -> anns !! DataAnnotation = Some data ->
      exists y, UnmarshalData zero m' = Ok (true, y, set_mv_Annotations (Some (delete DataAnnotation anns)) m') /\ view y = view x;
  unmarshal_nothing (target : A) (m : MetaV1) : default ∅ (mv_Annotations m) !! DataAnnotation = None ->
    UnmarshalData target m = Ok (false, target, m);
  unmarshal_keeps (target : A) (m m' : MetaV1) ok x : UnmarshalData target m = Ok (ok, x, m') ->
    mv_Meta m' = mv_Meta m /\ default ∅ (mv_Annotations m') = delete DataAnnotation (default ∅ (mv_Annotations m))
}.
Arguments MarshalDataUnsafeNoCopy {A V view zero _}.
Arguments UnmarshalData {A V view zero _}.

(** * Round trips

    [RoundTrip f zb g za P n Q]: an object [x] with [P x] is converted by [f] into a fresh object [zb],
    without an error, the result is converted by [g] into a fresh [za] as [n x], and [Q] relates [x] to
    what it was in between. *)
Class RoundTrip {A B} (f : A -> B -> res B) (zb : B) (g : B -> A -> res A) (za : A) (P : A -> Prop) (n : A -> A) (Q : A -> B -> Prop) :=
  round_trip x : P x -> exists y, f x zb = Ok y /\ g y za = Ok (n x) /\ Q x y.

(** Nothing is asked, nothing is said of what is in between. *)
Definition always {A} (_ : A) : Prop := True.
Definition anything {A B} (_ : A) (_ : B) : Prop := True.

(** Element by element. *)
Definition elementwise {A B} (Q : A -> B -> Prop) (s : option (list A)) (s' : option (list B)) : Prop :=
  Forall2 Q (elems s) (elems s').

Section round_trips.
Context {A B} (f : A -> B -> res B) (zb : B) (g : B -> A -> res A) (za : A) (P : A -> Prop) (n : A -> A) (Q : A -> B -> Prop).
Context `{!RoundTrip f zb g za P n Q}.

Lemma round_trip_ptr (p : option A) :
  (forall x, p = Some x -> P x) ->
  exists q, convert_ptr (λ a, f a zb) p = Ok q /\ convert_ptr (λ b, g b za) q = Ok (option_map n p).
Proof.
  intros HP. destruct p as [x|]; [|by exists None].
  destruct (round_trip x) as (y & E & E' & _); [by apply HP|]. exists (Some y). cbn. rewrite E. cbn. by rewrite E'.
Qed.

Lemma round_trip_list (l : list A) : Forall P l ->
  exists l', convert_list (λ a, f a zb) l = Ok l' /\ convert_list (λ b, g b za) l' = Ok (map n l) /\ Forall2 Q l l'.
Proof.
  induction 1 as [|x l Hx _ (l' & E & E' & HQ)]; [by exists []|].
  destruct (round_trip x Hx) as (y & F & F' & Hq). exists (y :: l'). cbn. rewrite F. cbn. rewrite E. cbn.
  rewrite F'. cbn. rewrite E'. cbn. auto.
Qed.

Lemma round_trip_slice (s : option (list A)) : Forall P (elems s) ->
  exists s', convert_slice (λ a, f a zb) s = Ok s' /\ convert_slice (λ b, g b za) s' = Ok (option_map (map n) s) /\
    elementwise Q s s'.
Proof.
  intros HP. destruct s as [l|]; [|exists None; split_and!; [done..|constructor]].
  destruct (round_trip_list l HP) as (l' & E & E' & HQ).
  exists (Some l'). unfold convert_slice. cbn. rewrite E. cbn. by rewrite E'.
Qed.
End round_trips.

Lemma option_map_id {A} (p : option A) : option_map id p = p.
Proof. by destruct p. Qed.
Lemma option_map_map_id {A} (p : option (list A)) : option_map (map id) p = p.
Proof. destruct p; cbn; [by rewrite map_id|done]. Qed.

(** A conversion that does not see what [e] changes. *)
Lemma convert_slice_explicit {A B} (f : A -> res B) (e : A -> A) (s : option (list A)) :
  (forall a, f (e a) = f a) -> convert_slice f (option_map (map e) s) = convert_slice f s.
Proof.
  intros Hf. destruct s as [l|]; [|done]. unfold convert_slice. cbn. f_equal.
  induction l as [|a l IH]; [done|]. cbn. by rewrite Hf, IH.
Qed.

(** A cast behind a pointer there and back. *)
Lemma cast_ptr {A B} (f : B -> A) (g : A -> B) (p : option A) :
  (forall x, f (g x) = x) -> option_map f (option_map g p) = p.
Proof. intros Hf. destruct p; cbn; [by rewrite Hf|done]. Qed.
(** A cast of each element of a slice there and back. *)
Lemma cast_slice {A B} (f : B -> A) (g : A -> B) (p : option (list A)) :
  (forall x, f (g x) = x) -> option_map (map f) (option_map (map g) p) = p.
Proof.
  intros Hf. destruct p as [l|]; cbn; [|done]. f_equal. induction l as [|x l IH]; cbn; [done|].
  by rewrite Hf, IH.
Qed.

Lemma always_list {A} (l : list A) : Forall always l.
Proof. by apply Forall_forall. Qed.
#[export] Hint Resolve always_list : core.
