(* ===== verification/GovmomiTypes.v ===== *)
(** The API objects of the govmomi mode as the conversions between versions see
    them: every field of the structs of [api/govmomi/v1beta2] (module [infrav1], the hub) and of
    [api/govmomi/v1beta1] (module [infrav1beta1]), a field named by its struct. A slice or a map is an
    [option], because a conversion tells nil from empty. ([Types] has the same hub objects as the
    controllers see them.) [TypeMeta] is set by the machinery around a conversion and left out.
    [zero_] is the zero value of a struct and [set_] the assignment of a field. *)
From S2P Require Export ConvLib.

(** [api/govmomi/v1beta2], the hub version *)
Module infrav1.

Record NetworkRouteSpec := mkNetworkRouteSpec {
  NetworkRouteSpec_To : string;
  NetworkRouteSpec_Via : string;
  NetworkRouteSpec_Metric : option Z
}.

Definition zero_NetworkRouteSpec : NetworkRouteSpec :=
  mkNetworkRouteSpec "" "" None.

Definition set_NetworkRouteSpec_Metric (v : option Z) (x : NetworkRouteSpec) : NetworkRouteSpec := {|
  NetworkRouteSpec_To := NetworkRouteSpec_To x;
  NetworkRouteSpec_Via := NetworkRouteSpec_Via x;
  NetworkRouteSpec_Metric := v
|}.

Record IPPoolReference := mkIPPoolReference {
  IPPoolReference_Name : string;
  IPPoolReference_Kind : string;
  IPPoolReference_APIGroup : string
}.

Definition zero_IPPoolReference : IPPoolReference :=
  mkIPPoolReference "" "" "".

Record DHCPOverrides := mkDHCPOverrides {
  DHCPOverrides_Hostname : option string;
  DHCPOverrides_RouteMetric : option Z;
  DHCPOverrides_SendHostname : option bool;
  DHCPOverrides_UseDNS : option bool;
  DHCPOverrides_UseDomains : option string;
  DHCPOverrides_UseHostname : option bool;
  DHCPOverrides_UseMTU : option bool;
  DHCPOverrides_UseNTP : option bool;
  DHCPOverrides_UseRoutes : option string
}.

Definition zero_DHCPOverrides : DHCPOverrides :=
  mkDHCPOverrides None None None None None None None None None.

Record NetworkDeviceSpec := mkNetworkDeviceSpec {
  NetworkDeviceSpec_NetworkName : string;
  NetworkDeviceSpec_DeviceName : string;
  NetworkDeviceSpec_DHCP4 : option bool;
  NetworkDeviceSpec_DHCP6 : option bool;
  NetworkDeviceSpec_Gateway4 : string;
  NetworkDeviceSpec_Gateway6 : string;
  NetworkDeviceSpec_IPAddrs : option (list string);
  NetworkDeviceSpec_MTU : option Z;
  NetworkDeviceSpec_MACAddr : string;
  NetworkDeviceSpec_Nameservers : option (list string);
  NetworkDeviceSpec_Routes : option (list NetworkRouteSpec);
  NetworkDeviceSpec_SearchDomains : option (list string);
  NetworkDeviceSpec_AddressesFromPools : option (list IPPoolReference);
  NetworkDeviceSpec_DHCP4Overrides : option DHCPOverrides;
  NetworkDeviceSpec_DHCP6Overrides : option DHCPOverrides;
  NetworkDeviceSpec_SkipIPAllocation : option bool
}.

Definition zero_NetworkDeviceSpec : NetworkDeviceSpec :=
  mkNetworkDeviceSpec "" "" None None "" "" None None "" None None None None None None None.

Definition set_NetworkDeviceSpec_DHCP4 (v : option bool) (x : NetworkDeviceSpec) : NetworkDeviceSpec := {|
  NetworkDeviceSpec_NetworkName := NetworkDeviceSpec_NetworkName x;
  NetworkDeviceSpec_DeviceName := NetworkDeviceSpec_DeviceName x;
  NetworkDeviceSpec_DHCP4 := v;
  NetworkDeviceSpec_DHCP6 := NetworkDeviceSpec_DHCP6 x;
  NetworkDeviceSpec_Gateway4 := NetworkDeviceSpec_Gateway4 x;
  NetworkDeviceSpec_Gateway6 := NetworkDeviceSpec_Gateway6 x;
  NetworkDeviceSpec_IPAddrs := NetworkDeviceSpec_IPAddrs x;
  NetworkDeviceSpec_MTU := NetworkDeviceSpec_MTU x;
  NetworkDeviceSpec_MACAddr := NetworkDeviceSpec_MACAddr x;
  NetworkDeviceSpec_Nameservers := NetworkDeviceSpec_Nameservers x;
  NetworkDeviceSpec_Routes := NetworkDeviceSpec_Routes x;
  NetworkDeviceSpec_SearchDomains := NetworkDeviceSpec_SearchDomains x;
  NetworkDeviceSpec_AddressesFromPools := NetworkDeviceSpec_AddressesFromPools x;
  NetworkDeviceSpec_DHCP4Overrides := NetworkDeviceSpec_DHCP4Overrides x;
  NetworkDeviceSpec_DHCP6Overrides := NetworkDeviceSpec_DHCP6Overrides x;
  NetworkDeviceSpec_SkipIPAllocation := NetworkDeviceSpec_SkipIPAllocation x
|}.

Definition set_NetworkDeviceSpec_DHCP6 (v : option bool) (x : NetworkDeviceSpec) : NetworkDeviceSpec := {|
  NetworkDeviceSpec_NetworkName := NetworkDeviceSpec_NetworkName x;
  NetworkDeviceSpec_DeviceName := NetworkDeviceSpec_DeviceName x;
  NetworkDeviceSpec_DHCP4 := NetworkDeviceSpec_DHCP4 x;
  NetworkDeviceSpec_DHCP6 := v;
  NetworkDeviceSpec_Gateway4 := NetworkDeviceSpec_Gateway4 x;
  NetworkDeviceSpec_Gateway6 := NetworkDeviceSpec_Gateway6 x;
  NetworkDeviceSpec_IPAddrs := NetworkDeviceSpec_IPAddrs x;
  NetworkDeviceSpec_MTU := NetworkDeviceSpec_MTU x;
  NetworkDeviceSpec_MACAddr := NetworkDeviceSpec_MACAddr x;
  NetworkDeviceSpec_Nameservers := NetworkDeviceSpec_Nameservers x;
  NetworkDeviceSpec_Routes := NetworkDeviceSpec_Routes x;
  NetworkDeviceSpec_SearchDomains := NetworkDeviceSpec_SearchDomains x;
  NetworkDeviceSpec_AddressesFromPools := NetworkDeviceSpec_AddressesFromPools x;
  NetworkDeviceSpec_DHCP4Overrides := NetworkDeviceSpec_DHCP4Overrides x;
  NetworkDeviceSpec_DHCP6Overrides := NetworkDeviceSpec_DHCP6Overrides x;
  NetworkDeviceSpec_SkipIPAllocation := NetworkDeviceSpec_SkipIPAllocation x
|}.

Definition set_NetworkDeviceSpec_Routes (v : option (list NetworkRouteSpec)) (x : NetworkDeviceSpec) : NetworkDeviceSpec := {|
  NetworkDeviceSpec_NetworkName := NetworkDeviceSpec_NetworkName x;
  NetworkDeviceSpec_DeviceName := NetworkDeviceSpec_DeviceName x;
  NetworkDeviceSpec_DHCP4 := NetworkDeviceSpec_DHCP4 x;
  NetworkDeviceSpec_DHCP6 := NetworkDeviceSpec_DHCP6 x;
  NetworkDeviceSpec_Gateway4 := NetworkDeviceSpec_Gateway4 x;
  NetworkDeviceSpec_Gateway6 := NetworkDeviceSpec_Gateway6 x;
  NetworkDeviceSpec_IPAddrs := NetworkDeviceSpec_IPAddrs x;
  NetworkDeviceSpec_MTU := NetworkDeviceSpec_MTU x;
  NetworkDeviceSpec_MACAddr := NetworkDeviceSpec_MACAddr x;
  NetworkDeviceSpec_Nameservers := NetworkDeviceSpec_Nameservers x;
  NetworkDeviceSpec_Routes := v;
  NetworkDeviceSpec_SearchDomains := NetworkDeviceSpec_SearchDomains x;
  NetworkDeviceSpec_AddressesFromPools := NetworkDeviceSpec_AddressesFromPools x;
  NetworkDeviceSpec_DHCP4Overrides := NetworkDeviceSpec_DHCP4Overrides x;
  NetworkDeviceSpec_DHCP6Overrides := NetworkDeviceSpec_DHCP6Overrides x;
  NetworkDeviceSpec_SkipIPAllocation := NetworkDeviceSpec_SkipIPAllocation x
|}.

Definition set_NetworkDeviceSpec_SkipIPAllocation (v : option bool) (x : NetworkDeviceSpec) : NetworkDeviceSpec := {|
  NetworkDeviceSpec_NetworkName := NetworkDeviceSpec_NetworkName x;
  NetworkDeviceSpec_DeviceName := NetworkDeviceSpec_DeviceName x;
  NetworkDeviceSpec_DHCP4 := NetworkDeviceSpec_DHCP4 x;
  NetworkDeviceSpec_DHCP6 := NetworkDeviceSpec_DHCP6 x;
  NetworkDeviceSpec_Gateway4 := NetworkDeviceSpec_Gateway4 x;
  NetworkDeviceSpec_Gateway6 := NetworkDeviceSpec_Gateway6 x;
  NetworkDeviceSpec_IPAddrs := NetworkDeviceSpec_IPAddrs x;
  NetworkDeviceSpec_MTU := NetworkDeviceSpec_MTU x;
  NetworkDeviceSpec_MACAddr := NetworkDeviceSpec_MACAddr x;
  NetworkDeviceSpec_Nameservers := NetworkDeviceSpec_Nameservers x;
  NetworkDeviceSpec_Routes := NetworkDeviceSpec_Routes x;
  NetworkDeviceSpec_SearchDomains := NetworkDeviceSpec_SearchDomains x;
  NetworkDeviceSpec_AddressesFromPools := NetworkDeviceSpec_AddressesFromPools x;
  NetworkDeviceSpec_DHCP4Overrides := NetworkDeviceSpec_DHCP4Overrides x;
  NetworkDeviceSpec_DHCP6Overrides := NetworkDeviceSpec_DHCP6Overrides x;
  NetworkDeviceSpec_SkipIPAllocation := v
|}.

Record NetworkSpec := mkNetworkSpec {
  NetworkSpec_Devices : option (list NetworkDeviceSpec);
  NetworkSpec_Routes : option (list NetworkRouteSpec)
}.

Definition zero_NetworkSpec : NetworkSpec :=
  mkNetworkSpec None None.

Definition set_NetworkSpec_Devices (v : option (list NetworkDeviceSpec)) (x : NetworkSpec) : NetworkSpec := {|
  NetworkSpec_Devices := v;
  NetworkSpec_Routes := NetworkSpec_Routes x
|}.

Definition set_NetworkSpec_Routes (v : option (list NetworkRouteSpec)) (x : NetworkSpec) : NetworkSpec := {|
  NetworkSpec_Devices := NetworkSpec_Devices x;
  NetworkSpec_Routes := v
|}.

Record VirtualMachineResourceSpec := mkVirtualMachineResourceSpec {
  VirtualMachineResourceSpec_CPU : Quantity;
  VirtualMachineResourceSpec_Memory : Quantity
}.

Definition zero_VirtualMachineResourceSpec : VirtualMachineResourceSpec :=
  mkVirtualMachineResourceSpec zero_Quantity zero_Quantity.

Record VirtualMachineResourceShares := mkVirtualMachineResourceShares {
  VirtualMachineResourceShares_CPU : Z;
  VirtualMachineResourceShares_Memory : Z
}.

Definition zero_VirtualMachineResourceShares : VirtualMachineResourceShares :=
  mkVirtualMachineResourceShares 0 0.

Record VirtualMachineResources := mkVirtualMachineResources {
  VirtualMachineResources_Requests : VirtualMachineResourceSpec;
  VirtualMachineResources_Limits : VirtualMachineResourceSpec;
  VirtualMachineResources_Shares : VirtualMachineResourceShares
}.

Definition zero_VirtualMachineResources : VirtualMachineResources :=
  mkVirtualMachineResources zero_VirtualMachineResourceSpec zero_VirtualMachineResourceSpec zero_VirtualMachineResourceShares.

Record PCIDeviceSpec := mkPCIDeviceSpec {
  PCIDeviceSpec_DeviceID : option Z;
  PCIDeviceSpec_VendorID : option Z;
  PCIDeviceSpec_VGPUProfile : string;
  PCIDeviceSpec_CustomLabel : string
}.

Definition zero_PCIDeviceSpec : PCIDeviceSpec :=
  mkPCIDeviceSpec None None "" "".

Record VSphereDisk := mkVSphereDisk {
  VSphereDisk_Name : string;
  VSphereDisk_SizeGiB : Z;
  VSphereDisk_ProvisioningMode : string
}.

Definition zero_VSphereDisk : VSphereDisk :=
  mkVSphereDisk "" 0 "".

Record VirtualMachineCloneSpec := mkVirtualMachineCloneSpec {
  VirtualMachineCloneSpec_Template : string;
  VirtualMachineCloneSpec_CloneMode : string;
  VirtualMachineCloneSpec_Snapshot : string;
  VirtualMachineCloneSpec_Server : string;
  VirtualMachineCloneSpec_Thumbprint : string;
  VirtualMachineCloneSpec_Datacenter : string;
  VirtualMachineCloneSpec_Folder : string;
  VirtualMachineCloneSpec_Datastore : string;
  VirtualMachineCloneSpec_StoragePolicyName : string;
  VirtualMachineCloneSpec_ResourcePool : string;
  VirtualMachineCloneSpec_Network : NetworkSpec;
  VirtualMachineCloneSpec_NumCPUs : Z;
  VirtualMachineCloneSpec_NumCoresPerSocket : option Z;
  VirtualMachineCloneSpec_Resources : VirtualMachineResources;
  VirtualMachineCloneSpec_MemoryMiB : Z;
  VirtualMachineCloneSpec_DiskGiB : Z;
  VirtualMachineCloneSpec_AdditionalDisksGiB : option (list Z);
  VirtualMachineCloneSpec_CustomVMXKeys : option (gmap string string);
  VirtualMachineCloneSpec_TagIDs : option (list string);
  VirtualMachineCloneSpec_PciDevices : option (list PCIDeviceSpec);
  VirtualMachineCloneSpec_OS : string;
  VirtualMachineCloneSpec_HardwareVersion : string;
  VirtualMachineCloneSpec_DataDisks : option (list VSphereDisk);
  VirtualMachineCloneSpec_NestedHV : option bool;
  VirtualMachineCloneSpec_FtEncryptionMode : string;
  VirtualMachineCloneSpec_MigrateEncryption : string;
  VirtualMachineCloneSpec_CryptoKeyID : string;
  VirtualMachineCloneSpec_CryptoProfile : string
}.

Definition zero_VirtualMachineCloneSpec : VirtualMachineCloneSpec :=
  mkVirtualMachineCloneSpec "" "" "" "" "" "" "" "" "" "" zero_NetworkSpec 0 None zero_VirtualMachineResources 0 0 None None None None "" "" None None "" "" "" "".

Definition set_VirtualMachineCloneSpec_Network (v : NetworkSpec) (x : VirtualMachineCloneSpec) : VirtualMachineCloneSpec := {|
  VirtualMachineCloneSpec_Template := VirtualMachineCloneSpec_Template x;
  VirtualMachineCloneSpec_CloneMode := VirtualMachineCloneSpec_CloneMode x;
  VirtualMachineCloneSpec_Snapshot := VirtualMachineCloneSpec_Snapshot x;
  VirtualMachineCloneSpec_Server := VirtualMachineCloneSpec_Server x;
  VirtualMachineCloneSpec_Thumbprint := VirtualMachineCloneSpec_Thumbprint x;
  VirtualMachineCloneSpec_Datacenter := VirtualMachineCloneSpec_Datacenter x;
  VirtualMachineCloneSpec_Folder := VirtualMachineCloneSpec_Folder x;
  VirtualMachineCloneSpec_Datastore := VirtualMachineCloneSpec_Datastore x;
  VirtualMachineCloneSpec_StoragePolicyName := VirtualMachineCloneSpec_StoragePolicyName x;
  VirtualMachineCloneSpec_ResourcePool := VirtualMachineCloneSpec_ResourcePool x;
  VirtualMachineCloneSpec_Network := v;
  VirtualMachineCloneSpec_NumCPUs := VirtualMachineCloneSpec_NumCPUs x;
  VirtualMachineCloneSpec_NumCoresPerSocket := VirtualMachineCloneSpec_NumCoresPerSocket x;
  VirtualMachineCloneSpec_Resources := VirtualMachineCloneSpec_Resources x;
  VirtualMachineCloneSpec_MemoryMiB := VirtualMachineCloneSpec_MemoryMiB x;
  VirtualMachineCloneSpec_DiskGiB := VirtualMachineCloneSpec_DiskGiB x;
  VirtualMachineCloneSpec_AdditionalDisksGiB := VirtualMachineCloneSpec_AdditionalDisksGiB x;
  VirtualMachineCloneSpec_CustomVMXKeys := VirtualMachineCloneSpec_CustomVMXKeys x;
  VirtualMachineCloneSpec_TagIDs := VirtualMachineCloneSpec_TagIDs x;
  VirtualMachineCloneSpec_PciDevices := VirtualMachineCloneSpec_PciDevices x;
  VirtualMachineCloneSpec_OS := VirtualMachineCloneSpec_OS x;
  VirtualMachineCloneSpec_HardwareVersion := VirtualMachineCloneSpec_HardwareVersion x;
  VirtualMachineCloneSpec_DataDisks := VirtualMachineCloneSpec_DataDisks x;
  VirtualMachineCloneSpec_NestedHV := VirtualMachineCloneSpec_NestedHV x;
  VirtualMachineCloneSpec_FtEncryptionMode := VirtualMachineCloneSpec_FtEncryptionMode x;
  VirtualMachineCloneSpec_MigrateEncryption := VirtualMachineCloneSpec_MigrateEncryption x;
  VirtualMachineCloneSpec_CryptoKeyID := VirtualMachineCloneSpec_CryptoKeyID x;
  VirtualMachineCloneSpec_CryptoProfile := VirtualMachineCloneSpec_CryptoProfile x
|}.

Definition set_VirtualMachineCloneSpec_NumCoresPerSocket (v : option Z) (x : VirtualMachineCloneSpec) : VirtualMachineCloneSpec := {|
  VirtualMachineCloneSpec_Template := VirtualMachineCloneSpec_Template x;
  VirtualMachineCloneSpec_CloneMode := VirtualMachineCloneSpec_CloneMode x;
  VirtualMachineCloneSpec_Snapshot := VirtualMachineCloneSpec_Snapshot x;
  VirtualMachineCloneSpec_Server := VirtualMachineCloneSpec_Server x;
  VirtualMachineCloneSpec_Thumbprint := VirtualMachineCloneSpec_Thumbprint x;
  VirtualMachineCloneSpec_Datacenter := VirtualMachineCloneSpec_Datacenter x;
  VirtualMachineCloneSpec_Folder := VirtualMachineCloneSpec_Folder x;
  VirtualMachineCloneSpec_Datastore := VirtualMachineCloneSpec_Datastore x;
  VirtualMachineCloneSpec_StoragePolicyName := VirtualMachineCloneSpec_StoragePolicyName x;
  VirtualMachineCloneSpec_ResourcePool := VirtualMachineCloneSpec_ResourcePool x;
  VirtualMachineCloneSpec_Network := VirtualMachineCloneSpec_Network x;
  VirtualMachineCloneSpec_NumCPUs := VirtualMachineCloneSpec_NumCPUs x;
  VirtualMachineCloneSpec_NumCoresPerSocket := v;
  VirtualMachineCloneSpec_Resources := VirtualMachineCloneSpec_Resources x;
  VirtualMachineCloneSpec_MemoryMiB := VirtualMachineCloneSpec_MemoryMiB x;
  VirtualMachineCloneSpec_DiskGiB := VirtualMachineCloneSpec_DiskGiB x;
  VirtualMachineCloneSpec_AdditionalDisksGiB := VirtualMachineCloneSpec_AdditionalDisksGiB x;
  VirtualMachineCloneSpec_CustomVMXKeys := VirtualMachineCloneSpec_CustomVMXKeys x;
  VirtualMachineCloneSpec_TagIDs := VirtualMachineCloneSpec_TagIDs x;
  VirtualMachineCloneSpec_PciDevices := VirtualMachineCloneSpec_PciDevices x;
  VirtualMachineCloneSpec_OS := VirtualMachineCloneSpec_OS x;
  VirtualMachineCloneSpec_HardwareVersion := VirtualMachineCloneSpec_HardwareVersion x;
  VirtualMachineCloneSpec_DataDisks := VirtualMachineCloneSpec_DataDisks x;
  VirtualMachineCloneSpec_NestedHV := VirtualMachineCloneSpec_NestedHV x;
  VirtualMachineCloneSpec_FtEncryptionMode := VirtualMachineCloneSpec_FtEncryptionMode x;
  VirtualMachineCloneSpec_MigrateEncryption := VirtualMachineCloneSpec_MigrateEncryption x;
  VirtualMachineCloneSpec_CryptoKeyID := VirtualMachineCloneSpec_CryptoKeyID x;
  VirtualMachineCloneSpec_CryptoProfile := VirtualMachineCloneSpec_CryptoProfile x
|}.

Record VSphereVMNamingSpec := mkVSphereVMNamingSpec {
  VSphereVMNamingSpec_Template : string
}.

Definition zero_VSphereVMNamingSpec : VSphereVMNamingSpec :=
  mkVSphereVMNamingSpec "".

#[global] Instance VSphereVMNamingSpec_eq_dec : EqDecision VSphereVMNamingSpec.
Proof. solve_decision. Defined.

Record VSphereMachineSpec := mkVSphereMachineSpec {
  VSphereMachineSpec_VirtualMachineCloneSpec : VirtualMachineCloneSpec;
  VSphereMachineSpec_ProviderID : string;
  VSphereMachineSpec_PowerOffMode : string;
  VSphereMachineSpec_GuestSoftPowerOffTimeoutSeconds : Z;
  VSphereMachineSpec_Naming : VSphereVMNamingSpec
}.

Definition zero_VSphereMachineSpec : VSphereMachineSpec :=
  mkVSphereMachineSpec zero_VirtualMachineCloneSpec "" "" 0 zero_VSphereVMNamingSpec.

Definition set_VSphereMachineSpec_VirtualMachineCloneSpec (v : VirtualMachineCloneSpec) (x : VSphereMachineSpec) : VSphereMachineSpec := {|
  VSphereMachineSpec_VirtualMachineCloneSpec := v;
  VSphereMachineSpec_ProviderID := VSphereMachineSpec_ProviderID x;
  VSphereMachineSpec_PowerOffMode := VSphereMachineSpec_PowerOffMode x;
  VSphereMachineSpec_GuestSoftPowerOffTimeoutSeconds := VSphereMachineSpec_GuestSoftPowerOffTimeoutSeconds x;
  VSphereMachineSpec_Naming := VSphereMachineSpec_Naming x
|}.

Definition set_VSphereMachineSpec_Naming (v : VSphereVMNamingSpec) (x : VSphereMachineSpec) : VSphereMachineSpec := {|
  VSphereMachineSpec_VirtualMachineCloneSpec := VSphereMachineSpec_VirtualMachineCloneSpec x;
  VSphereMachineSpec_ProviderID := VSphereMachineSpec_ProviderID x;
  VSphereMachineSpec_PowerOffMode := VSphereMachineSpec_PowerOffMode x;
  VSphereMachineSpec_GuestSoftPowerOffTimeoutSeconds := VSphereMachineSpec_GuestSoftPowerOffTimeoutSeconds x;
  VSphereMachineSpec_Naming := v
|}.

Definition set_VSphereMachineSpec_GuestSoftPowerOffTimeoutSeconds (v : Z) (x : VSphereMachineSpec) : VSphereMachineSpec := {|
  VSphereMachineSpec_VirtualMachineCloneSpec := VSphereMachineSpec_VirtualMachineCloneSpec x;
  VSphereMachineSpec_ProviderID := VSphereMachineSpec_ProviderID x;
  VSphereMachineSpec_PowerOffMode := VSphereMachineSpec_PowerOffMode x;
  VSphereMachineSpec_GuestSoftPowerOffTimeoutSeconds := v;
  VSphereMachineSpec_Naming := VSphereMachineSpec_Naming x
|}.

Record VSphereMachineTemplateResource := mkVSphereMachineTemplateResource {
  VSphereMachineTemplateResource_ObjectMeta : TemplateMeta;
  VSphereMachineTemplateResource_Spec : VSphereMachineSpec
}.

Definition zero_VSphereMachineTemplateResource : VSphereMachineTemplateResource :=
  mkVSphereMachineTemplateResource zero_TemplateMeta zero_VSphereMachineSpec.

Definition set_VSphereMachineTemplateResource_Spec (v : VSphereMachineSpec) (x : VSphereMachineTemplateResource) : VSphereMachineTemplateResource := {|
  VSphereMachineTemplateResource_ObjectMeta := VSphereMachineTemplateResource_ObjectMeta x;
  VSphereMachineTemplateResource_Spec := v
|}.

Record APIEndpoint := mkAPIEndpoint {
  APIEndpoint_Host : string;
  APIEndpoint_Port : Z
}.

Definition zero_APIEndpoint : APIEndpoint :=
  mkAPIEndpoint "" 0.

Record NetworkStatus := mkNetworkStatus {
  NetworkStatus_Connected : option bool;
  NetworkStatus_IPAddrs : option (list string);
  NetworkStatus_MACAddr : string;
  NetworkStatus_NetworkName : string
}.

Definition zero_NetworkStatus : NetworkStatus :=
  mkNetworkStatus None None "" "".

Definition set_NetworkStatus_Connected (v : option bool) (x : NetworkStatus) : NetworkStatus := {|
  NetworkStatus_Connected := v;
  NetworkStatus_IPAddrs := NetworkStatus_IPAddrs x;
  NetworkStatus_MACAddr := NetworkStatus_MACAddr x;
  NetworkStatus_NetworkName := NetworkStatus_NetworkName x
|}.

Record SSHUser := mkSSHUser {
  SSHUser_Name : string;
  SSHUser_AuthorizedKeys : option (list string)
}.

Definition zero_SSHUser : SSHUser :=
  mkSSHUser "" None.

Record VSphereIdentityReference := mkVSphereIdentityReference {
  VSphereIdentityReference_Kind : string;
  VSphereIdentityReference_Name : string
}.

Definition zero_VSphereIdentityReference : VSphereIdentityReference :=
  mkVSphereIdentityReference "" "".

#[global] Instance VSphereIdentityReference_eq_dec : EqDecision VSphereIdentityReference.
Proof. solve_decision. Defined.

Record ClusterModule := mkClusterModule {
  ClusterModule_ControlPlane : option bool;
  ClusterModule_TargetObjectName : string;
  ClusterModule_ModuleUUID : string
}.

Definition zero_ClusterModule : ClusterModule :=
  mkClusterModule None "" "".

Definition set_ClusterModule_ControlPlane (v : option bool) (x : ClusterModule) : ClusterModule := {|
  ClusterModule_ControlPlane := v;
  ClusterModule_TargetObjectName := ClusterModule_TargetObjectName x;
  ClusterModule_ModuleUUID := ClusterModule_ModuleUUID x
|}.

Record VSphereClusterSpec := mkVSphereClusterSpec {
  VSphereClusterSpec_Server : string;
  VSphereClusterSpec_Thumbprint : string;
  VSphereClusterSpec_ControlPlaneEndpoint : APIEndpoint;
  VSphereClusterSpec_IdentityRef : VSphereIdentityReference;
  VSphereClusterSpec_ClusterModules : option (list ClusterModule);
  VSphereClusterSpec_DisableClusterModule : option bool;
  VSphereClusterSpec_FailureDomainSelector : option LabelSelector
}.

Definition zero_VSphereClusterSpec : VSphereClusterSpec :=
  mkVSphereClusterSpec "" "" zero_APIEndpoint zero_VSphereIdentityReference None None None.

Definition set_VSphereClusterSpec_IdentityRef (v : VSphereIdentityReference) (x : VSphereClusterSpec) : VSphereClusterSpec := {|
  VSphereClusterSpec_Server := VSphereClusterSpec_Server x;
  VSphereClusterSpec_Thumbprint := VSphereClusterSpec_Thumbprint x;
  VSphereClusterSpec_ControlPlaneEndpoint := VSphereClusterSpec_ControlPlaneEndpoint x;
  VSphereClusterSpec_IdentityRef := v;
  VSphereClusterSpec_ClusterModules := VSphereClusterSpec_ClusterModules x;
  VSphereClusterSpec_DisableClusterModule := VSphereClusterSpec_DisableClusterModule x;
  VSphereClusterSpec_FailureDomainSelector := VSphereClusterSpec_FailureDomainSelector x
|}.

Definition set_VSphereClusterSpec_ClusterModules (v : option (list ClusterModule)) (x : VSphereClusterSpec) : VSphereClusterSpec := {|
  VSphereClusterSpec_Server := VSphereClusterSpec_Server x;
  VSphereClusterSpec_Thumbprint := VSphereClusterSpec_Thumbprint x;
  VSphereClusterSpec_ControlPlaneEndpoint := VSphereClusterSpec_ControlPlaneEndpoint x;
  VSphereClusterSpec_IdentityRef := VSphereClusterSpec_IdentityRef x;
  VSphereClusterSpec_ClusterModules := v;
  VSphereClusterSpec_DisableClusterModule := VSphereClusterSpec_DisableClusterModule x;
  VSphereClusterSpec_FailureDomainSelector := VSphereClusterSpec_FailureDomainSelector x
|}.

Definition set_VSphereClusterSpec_DisableClusterModule (v : option bool) (x : VSphereClusterSpec) : VSphereClusterSpec := {|
  VSphereClusterSpec_Server := VSphereClusterSpec_Server x;
  VSphereClusterSpec_Thumbprint := VSphereClusterSpec_Thumbprint x;
  VSphereClusterSpec_ControlPlaneEndpoint := VSphereClusterSpec_ControlPlaneEndpoint x;
  VSphereClusterSpec_IdentityRef := VSphereClusterSpec_IdentityRef x;
  VSphereClusterSpec_ClusterModules := VSphereClusterSpec_ClusterModules x;
  VSphereClusterSpec_DisableClusterModule := v;
  VSphereClusterSpec_FailureDomainSelector := VSphereClusterSpec_FailureDomainSelector x
|}.

Record VSphereClusterInitializationStatus := mkVSphereClusterInitializationStatus {
  VSphereClusterInitializationStatus_Provisioned : option bool
}.

Definition zero_VSphereClusterInitializationStatus : VSphereClusterInitializationStatus :=
  mkVSphereClusterInitializationStatus None.

#[global] Instance VSphereClusterInitializationStatus_eq_dec : EqDecision VSphereClusterInitializationStatus.
Proof. solve_decision. Defined.

Record VSphereClusterV1Beta1DeprecatedStatus := mkVSphereClusterV1Beta1DeprecatedStatus {
  VSphereClusterV1Beta1DeprecatedStatus_Conditions : option (list V1Beta1Condition)
}.

Definition zero_VSphereClusterV1Beta1DeprecatedStatus : VSphereClusterV1Beta1DeprecatedStatus :=
  mkVSphereClusterV1Beta1DeprecatedStatus None.

Record VSphereClusterDeprecatedStatus := mkVSphereClusterDeprecatedStatus {
  VSphereClusterDeprecatedStatus_V1Beta1 : option VSphereClusterV1Beta1DeprecatedStatus
}.

Definition zero_VSphereClusterDeprecatedStatus : VSphereClusterDeprecatedStatus :=
  mkVSphereClusterDeprecatedStatus None.

Record VSphereClusterStatus := mkVSphereClusterStatus {
  VSphereClusterStatus_Conditions : option (list Condition);
  VSphereClusterStatus_Initialization : VSphereClusterInitializationStatus;
  VSphereClusterStatus_FailureDomains : option (list FailureDomain);
  VSphereClusterStatus_VCenterVersion : string;
  VSphereClusterStatus_Deprecated : option VSphereClusterDeprecatedStatus
}.

Definition zero_VSphereClusterStatus : VSphereClusterStatus :=
  mkVSphereClusterStatus None zero_VSphereClusterInitializationStatus None "" None.

Definition set_VSphereClusterStatus_Conditions (v : option (list Condition)) (x : VSphereClusterStatus) : VSphereClusterStatus := {|
  VSphereClusterStatus_Conditions := v;
  VSphereClusterStatus_Initialization := VSphereClusterStatus_Initialization x;
  VSphereClusterStatus_FailureDomains := VSphereClusterStatus_FailureDomains x;
  VSphereClusterStatus_VCenterVersion := VSphereClusterStatus_VCenterVersion x;
  VSphereClusterStatus_Deprecated := VSphereClusterStatus_Deprecated x
|}.

Definition set_VSphereClusterStatus_Initialization (v : VSphereClusterInitializationStatus) (x : VSphereClusterStatus) : VSphereClusterStatus := {|
  VSphereClusterStatus_Conditions := VSphereClusterStatus_Conditions x;
  VSphereClusterStatus_Initialization := v;
  VSphereClusterStatus_FailureDomains := VSphereClusterStatus_FailureDomains x;
  VSphereClusterStatus_VCenterVersion := VSphereClusterStatus_VCenterVersion x;
  VSphereClusterStatus_Deprecated := VSphereClusterStatus_Deprecated x
|}.

Definition set_VSphereClusterStatus_FailureDomains (v : option (list FailureDomain)) (x : VSphereClusterStatus) : VSphereClusterStatus := {|
  VSphereClusterStatus_Conditions := VSphereClusterStatus_Conditions x;
  VSphereClusterStatus_Initialization := VSphereClusterStatus_Initialization x;
  VSphereClusterStatus_FailureDomains := v;
  VSphereClusterStatus_VCenterVersion := VSphereClusterStatus_VCenterVersion x;
  VSphereClusterStatus_Deprecated := VSphereClusterStatus_Deprecated x
|}.

Definition set_VSphereClusterStatus_Deprecated (v : option VSphereClusterDeprecatedStatus) (x : VSphereClusterStatus) : VSphereClusterStatus := {|
  VSphereClusterStatus_Conditions := VSphereClusterStatus_Conditions x;
  VSphereClusterStatus_Initialization := VSphereClusterStatus_Initialization x;
  VSphereClusterStatus_FailureDomains := VSphereClusterStatus_FailureDomains x;
  VSphereClusterStatus_VCenterVersion := VSphereClusterStatus_VCenterVersion x;
  VSphereClusterStatus_Deprecated := v
|}.

Record VSphereClusterV1Beta2Status := mkVSphereClusterV1Beta2Status {
  VSphereClusterV1Beta2Status_Conditions : option (list Condition)
}.

Definition zero_VSphereClusterV1Beta2Status : VSphereClusterV1Beta2Status :=
  mkVSphereClusterV1Beta2Status None.

Record VSphereCluster := mkVSphereCluster {
  VSphereCluster_ObjectMeta : MetaV1;
  VSphereCluster_Spec : VSphereClusterSpec;
  VSphereCluster_Status : VSphereClusterStatus
}.

Definition zero_VSphereCluster : VSphereCluster :=
  mkVSphereCluster zero_MetaV1 zero_VSphereClusterSpec zero_VSphereClusterStatus.

Definition set_VSphereCluster_ObjectMeta (v : MetaV1) (x : VSphereCluster) : VSphereCluster := {|
  VSphereCluster_ObjectMeta := v;
  VSphereCluster_Spec := VSphereCluster_Spec x;
  VSphereCluster_Status := VSphereCluster_Status x
|}.

Definition set_VSphereCluster_Spec (v : VSphereClusterSpec) (x : VSphereCluster) : VSphereCluster := {|
  VSphereCluster_ObjectMeta := VSphereCluster_ObjectMeta x;
  VSphereCluster_Spec := v;
  VSphereCluster_Status := VSphereCluster_Status x
|}.

Definition set_VSphereCluster_Status (v : VSphereClusterStatus) (x : VSphereCluster) : VSphereCluster := {|
  VSphereCluster_ObjectMeta := VSphereCluster_ObjectMeta x;
  VSphereCluster_Spec := VSphereCluster_Spec x;
  VSphereCluster_Status := v
|}.

Record VSphereClusterList := mkVSphereClusterList {
  VSphereClusterList_ListMeta : ListMeta;
  VSphereClusterList_Items : option (list VSphereCluster)
}.

Definition zero_VSphereClusterList : VSphereClusterList :=
  mkVSphereClusterList zero_ListMeta None.

Record AllowedNamespaces := mkAllowedNamespaces {
  AllowedNamespaces_Selector : LabelSelector
}.

Definition zero_AllowedNamespaces : AllowedNamespaces :=
  mkAllowedNamespaces zero_LabelSelector.

Record VSphereClusterIdentitySpec := mkVSphereClusterIdentitySpec {
  VSphereClusterIdentitySpec_SecretName : string;
  VSphereClusterIdentitySpec_AllowedNamespaces : option AllowedNamespaces
}.

Definition zero_VSphereClusterIdentitySpec : VSphereClusterIdentitySpec :=
  mkVSphereClusterIdentitySpec "" None.

Record VSphereClusterIdentityV1Beta1DeprecatedStatus := mkVSphereClusterIdentityV1Beta1DeprecatedStatus {
  VSphereClusterIdentityV1Beta1DeprecatedStatus_Conditions : option (list V1Beta1Condition)
}.

Definition zero_VSphereClusterIdentityV1Beta1DeprecatedStatus : VSphereClusterIdentityV1Beta1DeprecatedStatus :=
  mkVSphereClusterIdentityV1Beta1DeprecatedStatus None.

Record VSphereClusterIdentityDeprecatedStatus := mkVSphereClusterIdentityDeprecatedStatus {
  VSphereClusterIdentityDeprecatedStatus_V1Beta1 : option VSphereClusterIdentityV1Beta1DeprecatedStatus
}.

Definition zero_VSphereClusterIdentityDeprecatedStatus : VSphereClusterIdentityDeprecatedStatus :=
  mkVSphereClusterIdentityDeprecatedStatus None.

Record VSphereClusterIdentityStatus := mkVSphereClusterIdentityStatus {
  VSphereClusterIdentityStatus_Conditions : option (list Condition);
  VSphereClusterIdentityStatus_Ready : option bool;
  VSphereClusterIdentityStatus_Deprecated : option VSphereClusterIdentityDeprecatedStatus
}.

Definition zero_VSphereClusterIdentityStatus : VSphereClusterIdentityStatus :=
  mkVSphereClusterIdentityStatus None None None.

Definition set_VSphereClusterIdentityStatus_Conditions (v : option (list Condition)) (x : VSphereClusterIdentityStatus) : VSphereClusterIdentityStatus := {|
  VSphereClusterIdentityStatus_Conditions := v;
  VSphereClusterIdentityStatus_Ready := VSphereClusterIdentityStatus_Ready x;
  VSphereClusterIdentityStatus_Deprecated := VSphereClusterIdentityStatus_Deprecated x
|}.

Definition set_VSphereClusterIdentityStatus_Ready (v : option bool) (x : VSphereClusterIdentityStatus) : VSphereClusterIdentityStatus := {|
  VSphereClusterIdentityStatus_Conditions := VSphereClusterIdentityStatus_Conditions x;
  VSphereClusterIdentityStatus_Ready := v;
  VSphereClusterIdentityStatus_Deprecated := VSphereClusterIdentityStatus_Deprecated x
|}.

Definition set_VSphereClusterIdentityStatus_Deprecated (v : option VSphereClusterIdentityDeprecatedStatus) (x : VSphereClusterIdentityStatus) : VSphereClusterIdentityStatus := {|
  VSphereClusterIdentityStatus_Conditions := VSphereClusterIdentityStatus_Conditions x;
  VSphereClusterIdentityStatus_Ready := VSphereClusterIdentityStatus_Ready x;
  VSphereClusterIdentityStatus_Deprecated := v
|}.

Record VSphereClusterIdentity := mkVSphereClusterIdentity {
  VSphereClusterIdentity_ObjectMeta : MetaV1;
  VSphereClusterIdentity_Spec : VSphereClusterIdentitySpec;
  VSphereClusterIdentity_Status : VSphereClusterIdentityStatus
}.

Definition zero_VSphereClusterIdentity : VSphereClusterIdentity :=
  mkVSphereClusterIdentity zero_MetaV1 zero_VSphereClusterIdentitySpec zero_VSphereClusterIdentityStatus.

Definition set_VSphereClusterIdentity_ObjectMeta (v : MetaV1) (x : VSphereClusterIdentity) : VSphereClusterIdentity := {|
  VSphereClusterIdentity_ObjectMeta := v;
  VSphereClusterIdentity_Spec := VSphereClusterIdentity_Spec x;
  VSphereClusterIdentity_Status := VSphereClusterIdentity_Status x
|}.

Definition set_VSphereClusterIdentity_Spec (v : VSphereClusterIdentitySpec) (x : VSphereClusterIdentity) : VSphereClusterIdentity := {|
  VSphereClusterIdentity_ObjectMeta := VSphereClusterIdentity_ObjectMeta x;
  VSphereClusterIdentity_Spec := v;
  VSphereClusterIdentity_Status := VSphereClusterIdentity_Status x
|}.

Definition set_VSphereClusterIdentity_Status (v : VSphereClusterIdentityStatus) (x : VSphereClusterIdentity) : VSphereClusterIdentity := {|
  VSphereClusterIdentity_ObjectMeta := VSphereClusterIdentity_ObjectMeta x;
  VSphereClusterIdentity_Spec := VSphereClusterIdentity_Spec x;
  VSphereClusterIdentity_Status := v
|}.

Record VSphereClusterIdentityList := mkVSphereClusterIdentityList {
  VSphereClusterIdentityList_ListMeta : ListMeta;
  VSphereClusterIdentityList_Items : option (list VSphereClusterIdentity)
}.

Definition zero_VSphereClusterIdentityList : VSphereClusterIdentityList :=
  mkVSphereClusterIdentityList zero_ListMeta None.

Record VSphereClusterTemplateResource := mkVSphereClusterTemplateResource {
  VSphereClusterTemplateResource_ObjectMeta : TemplateMeta;
  VSphereClusterTemplateResource_Spec : VSphereClusterSpec
}.

Definition zero_VSphereClusterTemplateResource : VSphereClusterTemplateResource :=
  mkVSphereClusterTemplateResource zero_TemplateMeta zero_VSphereClusterSpec.

Definition set_VSphereClusterTemplateResource_Spec (v : VSphereClusterSpec) (x : VSphereClusterTemplateResource) : VSphereClusterTemplateResource := {|
  VSphereClusterTemplateResource_ObjectMeta := VSphereClusterTemplateResource_ObjectMeta x;
  VSphereClusterTemplateResource_Spec := v
|}.

Definition set_VSphereClusterTemplateResource_ObjectMeta (v : TemplateMeta) (x : VSphereClusterTemplateResource) : VSphereClusterTemplateResource := {|
  VSphereClusterTemplateResource_ObjectMeta := v;
  VSphereClusterTemplateResource_Spec := VSphereClusterTemplateResource_Spec x
|}.

Record VSphereClusterTemplateSpec := mkVSphereClusterTemplateSpec {
  VSphereClusterTemplateSpec_Template : VSphereClusterTemplateResource
}.

Definition zero_VSphereClusterTemplateSpec : VSphereClusterTemplateSpec :=
  mkVSphereClusterTemplateSpec zero_VSphereClusterTemplateResource.

Definition set_VSphereClusterTemplateSpec_Template (v : VSphereClusterTemplateResource) (x : VSphereClusterTemplateSpec) : VSphereClusterTemplateSpec := {|
  VSphereClusterTemplateSpec_Template := v
|}.

Record VSphereClusterTemplate := mkVSphereClusterTemplate {
  VSphereClusterTemplate_ObjectMeta : MetaV1;
  VSphereClusterTemplate_Spec : VSphereClusterTemplateSpec
}.

Definition zero_VSphereClusterTemplate : VSphereClusterTemplate :=
  mkVSphereClusterTemplate zero_MetaV1 zero_VSphereClusterTemplateSpec.

Definition set_VSphereClusterTemplate_ObjectMeta (v : MetaV1) (x : VSphereClusterTemplate) : VSphereClusterTemplate := {|
  VSphereClusterTemplate_ObjectMeta := v;
  VSphereClusterTemplate_Spec := VSphereClusterTemplate_Spec x
|}.

Definition set_VSphereClusterTemplate_Spec (v : VSphereClusterTemplateSpec) (x : VSphereClusterTemplate) : VSphereClusterTemplate := {|
  VSphereClusterTemplate_ObjectMeta := VSphereClusterTemplate_ObjectMeta x;
  VSphereClusterTemplate_Spec := v
|}.

Record VSphereClusterTemplateList := mkVSphereClusterTemplateList {
  VSphereClusterTemplateList_ListMeta : ListMeta;
  VSphereClusterTemplateList_Items : option (list VSphereClusterTemplate)
}.

Definition zero_VSphereClusterTemplateList : VSphereClusterTemplateList :=
  mkVSphereClusterTemplateList zero_ListMeta None.

Record PlacementConstraint := mkPlacementConstraint {
  PlacementConstraint_ResourcePool : string;
  PlacementConstraint_Folder : string
}.

Definition zero_PlacementConstraint : PlacementConstraint :=
  mkPlacementConstraint "" "".

Record VSphereDeploymentZoneSpec := mkVSphereDeploymentZoneSpec {
  VSphereDeploymentZoneSpec_Server : string;
  VSphereDeploymentZoneSpec_FailureDomain : string;
  VSphereDeploymentZoneSpec_ControlPlane : option bool;
  VSphereDeploymentZoneSpec_PlacementConstraint : PlacementConstraint
}.

Definition zero_VSphereDeploymentZoneSpec : VSphereDeploymentZoneSpec :=
  mkVSphereDeploymentZoneSpec "" "" None zero_PlacementConstraint.

Record VSphereDeploymentZoneV1Beta1DeprecatedStatus := mkVSphereDeploymentZoneV1Beta1DeprecatedStatus {
  VSphereDeploymentZoneV1Beta1DeprecatedStatus_Conditions : option (list V1Beta1Condition)
}.

Definition zero_VSphereDeploymentZoneV1Beta1DeprecatedStatus : VSphereDeploymentZoneV1Beta1DeprecatedStatus :=
  mkVSphereDeploymentZoneV1Beta1DeprecatedStatus None.

Record VSphereDeploymentZoneDeprecatedStatus := mkVSphereDeploymentZoneDeprecatedStatus {
  VSphereDeploymentZoneDeprecatedStatus_V1Beta1 : option VSphereDeploymentZoneV1Beta1DeprecatedStatus
}.

Definition zero_VSphereDeploymentZoneDeprecatedStatus : VSphereDeploymentZoneDeprecatedStatus :=
  mkVSphereDeploymentZoneDeprecatedStatus None.

Record VSphereDeploymentZoneStatus := mkVSphereDeploymentZoneStatus {
  VSphereDeploymentZoneStatus_Conditions : option (list Condition);
  VSphereDeploymentZoneStatus_Ready : option bool;
  VSphereDeploymentZoneStatus_Deprecated : option VSphereDeploymentZoneDeprecatedStatus
}.

Definition zero_VSphereDeploymentZoneStatus : VSphereDeploymentZoneStatus :=
  mkVSphereDeploymentZoneStatus None None None.

Definition set_VSphereDeploymentZoneStatus_Conditions (v : option (list Condition)) (x : VSphereDeploymentZoneStatus) : VSphereDeploymentZoneStatus := {|
  VSphereDeploymentZoneStatus_Conditions := v;
  VSphereDeploymentZoneStatus_Ready := VSphereDeploymentZoneStatus_Ready x;
  VSphereDeploymentZoneStatus_Deprecated := VSphereDeploymentZoneStatus_Deprecated x
|}.

Definition set_VSphereDeploymentZoneStatus_Deprecated (v : option VSphereDeploymentZoneDeprecatedStatus) (x : VSphereDeploymentZoneStatus) : VSphereDeploymentZoneStatus := {|
  VSphereDeploymentZoneStatus_Conditions := VSphereDeploymentZoneStatus_Conditions x;
  VSphereDeploymentZoneStatus_Ready := VSphereDeploymentZoneStatus_Ready x;
  VSphereDeploymentZoneStatus_Deprecated := v
|}.

Record VSphereDeploymentZone := mkVSphereDeploymentZone {
  VSphereDeploymentZone_ObjectMeta : MetaV1;
  VSphereDeploymentZone_Spec : VSphereDeploymentZoneSpec;
  VSphereDeploymentZone_Status : VSphereDeploymentZoneStatus
}.

Definition zero_VSphereDeploymentZone : VSphereDeploymentZone :=
  mkVSphereDeploymentZone zero_MetaV1 zero_VSphereDeploymentZoneSpec zero_VSphereDeploymentZoneStatus.

Definition set_VSphereDeploymentZone_ObjectMeta (v : MetaV1) (x : VSphereDeploymentZone) : VSphereDeploymentZone := {|
  VSphereDeploymentZone_ObjectMeta := v;
  VSphereDeploymentZone_Spec := VSphereDeploymentZone_Spec x;
  VSphereDeploymentZone_Status := VSphereDeploymentZone_Status x
|}.

Record VSphereDeploymentZoneList := mkVSphereDeploymentZoneList {
  VSphereDeploymentZoneList_ListMeta : ListMeta;
  VSphereDeploymentZoneList_Items : option (list VSphereDeploymentZone)
}.

Definition zero_VSphereDeploymentZoneList : VSphereDeploymentZoneList :=
  mkVSphereDeploymentZoneList zero_ListMeta None.

Record FailureDomain := mkFailureDomain {
  FailureDomain_Name : string;
  FailureDomain_Type : string;
  FailureDomain_TagCategory : string
}.

Definition zero_FailureDomain : FailureDomain :=
  mkFailureDomain "" "" "".

Record FailureDomainHosts := mkFailureDomainHosts {
  FailureDomainHosts_VMGroupName : string;
  FailureDomainHosts_HostGroupName : string
}.

Definition zero_FailureDomainHosts : FailureDomainHosts :=
  mkFailureDomainHosts "" "".

#[global] Instance FailureDomainHosts_eq_dec : EqDecision FailureDomainHosts.
Proof. solve_decision. Defined.

Record NetworkConfiguration := mkNetworkConfiguration {
  NetworkConfiguration_NetworkName : string;
  NetworkConfiguration_DHCP4 : option bool;
  NetworkConfiguration_DHCP6 : option bool;
  NetworkConfiguration_Nameservers : option (list string);
  NetworkConfiguration_SearchDomains : option (list string);
  NetworkConfiguration_DHCP4Overrides : option DHCPOverrides;
  NetworkConfiguration_DHCP6Overrides : option DHCPOverrides;
  NetworkConfiguration_AddressesFromPools : option (list IPPoolReference)
}.

Definition zero_NetworkConfiguration : NetworkConfiguration :=
  mkNetworkConfiguration "" None None None None None None None.

Record Topology := mkTopology {
  Topology_Datacenter : string;
  Topology_ComputeCluster : string;
  Topology_Hosts : FailureDomainHosts;
  Topology_Networks : option (list string);
  Topology_NetworkConfigurations : option (list NetworkConfiguration);
  Topology_Datastore : string
}.

Definition zero_Topology : Topology :=
  mkTopology "" "" zero_FailureDomainHosts None None "".

Definition set_Topology_Hosts (v : FailureDomainHosts) (x : Topology) : Topology := {|
  Topology_Datacenter := Topology_Datacenter x;
  Topology_ComputeCluster := Topology_ComputeCluster x;
  Topology_Hosts := v;
  Topology_Networks := Topology_Networks x;
  Topology_NetworkConfigurations := Topology_NetworkConfigurations x;
  Topology_Datastore := Topology_Datastore x
|}.

Record VSphereFailureDomainSpec := mkVSphereFailureDomainSpec {
  VSphereFailureDomainSpec_Region : FailureDomain;
  VSphereFailureDomainSpec_Zone : FailureDomain;
  VSphereFailureDomainSpec_Topology : Topology
}.

Definition zero_VSphereFailureDomainSpec : VSphereFailureDomainSpec :=
  mkVSphereFailureDomainSpec zero_FailureDomain zero_FailureDomain zero_Topology.

Record VSphereFailureDomain := mkVSphereFailureDomain {
  VSphereFailureDomain_ObjectMeta : MetaV1;
  VSphereFailureDomain_Spec : VSphereFailureDomainSpec
}.

Definition zero_VSphereFailureDomain : VSphereFailureDomain :=
  mkVSphereFailureDomain zero_MetaV1 zero_VSphereFailureDomainSpec.

Definition set_VSphereFailureDomain_ObjectMeta (v : MetaV1) (x : VSphereFailureDomain) : VSphereFailureDomain := {|
  VSphereFailureDomain_ObjectMeta := v;
  VSphereFailureDomain_Spec := VSphereFailureDomain_Spec x
|}.

Record VSphereFailureDomainList := mkVSphereFailureDomainList {
  VSphereFailureDomainList_ListMeta : ListMeta;
  VSphereFailureDomainList_Items : option (list VSphereFailureDomain)
}.

Definition zero_VSphereFailureDomainList : VSphereFailureDomainList :=
  mkVSphereFailureDomainList zero_ListMeta None.

Record VSphereMachineInitializationStatus := mkVSphereMachineInitializationStatus {
  VSphereMachineInitializationStatus_Provisioned : option bool
}.

Definition zero_VSphereMachineInitializationStatus : VSphereMachineInitializationStatus :=
  mkVSphereMachineInitializationStatus None.

#[global] Instance VSphereMachineInitializationStatus_eq_dec : EqDecision VSphereMachineInitializationStatus.
Proof. solve_decision. Defined.

Record VSphereMachineV1Beta1DeprecatedStatus := mkVSphereMachineV1Beta1DeprecatedStatus {
  VSphereMachineV1Beta1DeprecatedStatus_Conditions : option (list V1Beta1Condition);
  VSphereMachineV1Beta1DeprecatedStatus_FailureReason : option string;
  VSphereMachineV1Beta1DeprecatedStatus_FailureMessage : option string
}.

Definition zero_VSphereMachineV1Beta1DeprecatedStatus : VSphereMachineV1Beta1DeprecatedStatus :=
  mkVSphereMachineV1Beta1DeprecatedStatus None None None.

Record VSphereMachineDeprecatedStatus := mkVSphereMachineDeprecatedStatus {
  VSphereMachineDeprecatedStatus_V1Beta1 : option VSphereMachineV1Beta1DeprecatedStatus
}.

Definition zero_VSphereMachineDeprecatedStatus : VSphereMachineDeprecatedStatus :=
  mkVSphereMachineDeprecatedStatus None.

Record VSphereMachineStatus := mkVSphereMachineStatus {
  VSphereMachineStatus_Conditions : option (list Condition);
  VSphereMachineStatus_Initialization : VSphereMachineInitializationStatus;
  VSphereMachineStatus_Addresses : option (list MachineAddress);
  VSphereMachineStatus_Network : option (list NetworkStatus);
  VSphereMachineStatus_Deprecated : option VSphereMachineDeprecatedStatus
}.

Definition zero_VSphereMachineStatus : VSphereMachineStatus :=
  mkVSphereMachineStatus None zero_VSphereMachineInitializationStatus None None None.

Definition set_VSphereMachineStatus_Conditions (v : option (list Condition)) (x : VSphereMachineStatus) : VSphereMachineStatus := {|
  VSphereMachineStatus_Conditions := v;
  VSphereMachineStatus_Initialization := VSphereMachineStatus_Initialization x;
  VSphereMachineStatus_Addresses := VSphereMachineStatus_Addresses x;
  VSphereMachineStatus_Network := VSphereMachineStatus_Network x;
  VSphereMachineStatus_Deprecated := VSphereMachineStatus_Deprecated x
|}.

Definition set_VSphereMachineStatus_Initialization (v : VSphereMachineInitializationStatus) (x : VSphereMachineStatus) : VSphereMachineStatus := {|
  VSphereMachineStatus_Conditions := VSphereMachineStatus_Conditions x;
  VSphereMachineStatus_Initialization := v;
  VSphereMachineStatus_Addresses := VSphereMachineStatus_Addresses x;
  VSphereMachineStatus_Network := VSphereMachineStatus_Network x;
  VSphereMachineStatus_Deprecated := VSphereMachineStatus_Deprecated x
|}.

Definition set_VSphereMachineStatus_Network (v : option (list NetworkStatus)) (x : VSphereMachineStatus) : VSphereMachineStatus := {|
  VSphereMachineStatus_Conditions := VSphereMachineStatus_Conditions x;
  VSphereMachineStatus_Initialization := VSphereMachineStatus_Initialization x;
  VSphereMachineStatus_Addresses := VSphereMachineStatus_Addresses x;
  VSphereMachineStatus_Network := v;
  VSphereMachineStatus_Deprecated := VSphereMachineStatus_Deprecated x
|}.

Definition set_VSphereMachineStatus_Deprecated (v : option VSphereMachineDeprecatedStatus) (x : VSphereMachineStatus) : VSphereMachineStatus := {|
  VSphereMachineStatus_Conditions := VSphereMachineStatus_Conditions x;
  VSphereMachineStatus_Initialization := VSphereMachineStatus_Initialization x;
  VSphereMachineStatus_Addresses := VSphereMachineStatus_Addresses x;
  VSphereMachineStatus_Network := VSphereMachineStatus_Network x;
  VSphereMachineStatus_Deprecated := v
|}.

Record VSphereMachine := mkVSphereMachine {
  VSphereMachine_ObjectMeta : MetaV1;
  VSphereMachine_Spec : VSphereMachineSpec;
  VSphereMachine_Status : VSphereMachineStatus
}.

Definition zero_VSphereMachine : VSphereMachine :=
  mkVSphereMachine zero_MetaV1 zero_VSphereMachineSpec zero_VSphereMachineStatus.

Definition set_VSphereMachine_ObjectMeta (v : MetaV1) (x : VSphereMachine) : VSphereMachine := {|
  VSphereMachine_ObjectMeta := v;
  VSphereMachine_Spec := VSphereMachine_Spec x;
  VSphereMachine_Status := VSphereMachine_Status x
|}.

Definition set_VSphereMachine_Spec (v : VSphereMachineSpec) (x : VSphereMachine) : VSphereMachine := {|
  VSphereMachine_ObjectMeta := VSphereMachine_ObjectMeta x;
  VSphereMachine_Spec := v;
  VSphereMachine_Status := VSphereMachine_Status x
|}.

Definition set_VSphereMachine_Status (v : VSphereMachineStatus) (x : VSphereMachine) : VSphereMachine := {|
  VSphereMachine_ObjectMeta := VSphereMachine_ObjectMeta x;
  VSphereMachine_Spec := VSphereMachine_Spec x;
  VSphereMachine_Status := v
|}.

Record VSphereMachineList := mkVSphereMachineList {
  VSphereMachineList_ListMeta : ListMeta;
  VSphereMachineList_Items : option (list VSphereMachine)
}.

Definition zero_VSphereMachineList : VSphereMachineList :=
  mkVSphereMachineList zero_ListMeta None.

Record VSphereMachineTemplateSpec := mkVSphereMachineTemplateSpec {
  VSphereMachineTemplateSpec_Template : VSphereMachineTemplateResource
}.

Definition zero_VSphereMachineTemplateSpec : VSphereMachineTemplateSpec :=
  mkVSphereMachineTemplateSpec zero_VSphereMachineTemplateResource.

Definition set_VSphereMachineTemplateSpec_Template (v : VSphereMachineTemplateResource) (x : VSphereMachineTemplateSpec) : VSphereMachineTemplateSpec := {|
  VSphereMachineTemplateSpec_Template := v
|}.

Record VSphereMachineTemplate := mkVSphereMachineTemplate {
  VSphereMachineTemplate_ObjectMeta : MetaV1;
  VSphereMachineTemplate_Spec : VSphereMachineTemplateSpec
}.

Definition zero_VSphereMachineTemplate : VSphereMachineTemplate :=
  mkVSphereMachineTemplate zero_MetaV1 zero_VSphereMachineTemplateSpec.

Definition set_VSphereMachineTemplate_ObjectMeta (v : MetaV1) (x : VSphereMachineTemplate) : VSphereMachineTemplate := {|
  VSphereMachineTemplate_ObjectMeta := v;
  VSphereMachineTemplate_Spec := VSphereMachineTemplate_Spec x
|}.

Definition set_VSphereMachineTemplate_Spec (v : VSphereMachineTemplateSpec) (x : VSphereMachineTemplate) : VSphereMachineTemplate := {|
  VSphereMachineTemplate_ObjectMeta := VSphereMachineTemplate_ObjectMeta x;
  VSphereMachineTemplate_Spec := v
|}.

Record VSphereMachineTemplateList := mkVSphereMachineTemplateList {
  VSphereMachineTemplateList_ListMeta : ListMeta;
  VSphereMachineTemplateList_Items : option (list VSphereMachineTemplate)
}.

Definition zero_VSphereMachineTemplateList : VSphereMachineTemplateList :=
  mkVSphereMachineTemplateList zero_ListMeta None.

Record VSphereVMBootstrapReference := mkVSphereVMBootstrapReference {
  VSphereVMBootstrapReference_Name : string
}.

Definition zero_VSphereVMBootstrapReference : VSphereVMBootstrapReference :=
  mkVSphereVMBootstrapReference "".

Record VSphereVMSpec := mkVSphereVMSpec {
  VSphereVMSpec_VirtualMachineCloneSpec : VirtualMachineCloneSpec;
  VSphereVMSpec_BootstrapRef : VSphereVMBootstrapReference;
  VSphereVMSpec_BiosUUID : string;
  VSphereVMSpec_PowerOffMode : string;
  VSphereVMSpec_GuestSoftPowerOffTimeoutSeconds : Z
}.

Definition zero_VSphereVMSpec : VSphereVMSpec :=
  mkVSphereVMSpec zero_VirtualMachineCloneSpec zero_VSphereVMBootstrapReference "" "" 0.

Definition set_VSphereVMSpec_VirtualMachineCloneSpec (v : VirtualMachineCloneSpec) (x : VSphereVMSpec) : VSphereVMSpec := {|
  VSphereVMSpec_VirtualMachineCloneSpec := v;
  VSphereVMSpec_BootstrapRef := VSphereVMSpec_BootstrapRef x;
  VSphereVMSpec_BiosUUID := VSphereVMSpec_BiosUUID x;
  VSphereVMSpec_PowerOffMode := VSphereVMSpec_PowerOffMode x;
  VSphereVMSpec_GuestSoftPowerOffTimeoutSeconds := VSphereVMSpec_GuestSoftPowerOffTimeoutSeconds x
|}.

Definition set_VSphereVMSpec_BootstrapRef (v : VSphereVMBootstrapReference) (x : VSphereVMSpec) : VSphereVMSpec := {|
  VSphereVMSpec_VirtualMachineCloneSpec := VSphereVMSpec_VirtualMachineCloneSpec x;
  VSphereVMSpec_BootstrapRef := v;
  VSphereVMSpec_BiosUUID := VSphereVMSpec_BiosUUID x;
  VSphereVMSpec_PowerOffMode := VSphereVMSpec_PowerOffMode x;
  VSphereVMSpec_GuestSoftPowerOffTimeoutSeconds := VSphereVMSpec_GuestSoftPowerOffTimeoutSeconds x
|}.

Definition set_VSphereVMSpec_GuestSoftPowerOffTimeoutSeconds (v : Z) (x : VSphereVMSpec) : VSphereVMSpec := {|
  VSphereVMSpec_VirtualMachineCloneSpec := VSphereVMSpec_VirtualMachineCloneSpec x;
  VSphereVMSpec_BootstrapRef := VSphereVMSpec_BootstrapRef x;
  VSphereVMSpec_BiosUUID := VSphereVMSpec_BiosUUID x;
  VSphereVMSpec_PowerOffMode := VSphereVMSpec_PowerOffMode x;
  VSphereVMSpec_GuestSoftPowerOffTimeoutSeconds := v
|}.

Record VSphereVMV1Beta1DeprecatedStatus := mkVSphereVMV1Beta1DeprecatedStatus {
  VSphereVMV1Beta1DeprecatedStatus_Conditions : option (list V1Beta1Condition);
  VSphereVMV1Beta1DeprecatedStatus_FailureReason : option string;
  VSphereVMV1Beta1DeprecatedStatus_FailureMessage : option string
}.

Definition zero_VSphereVMV1Beta1DeprecatedStatus : VSphereVMV1Beta1DeprecatedStatus :=
  mkVSphereVMV1Beta1DeprecatedStatus None None None.

Record VSphereVMDeprecatedStatus := mkVSphereVMDeprecatedStatus {
  VSphereVMDeprecatedStatus_V1Beta1 : option VSphereVMV1Beta1DeprecatedStatus
}.

Definition zero_VSphereVMDeprecatedStatus : VSphereVMDeprecatedStatus :=
  mkVSphereVMDeprecatedStatus None.

Record VSphereVMStatus := mkVSphereVMStatus {
  VSphereVMStatus_Conditions : option (list Condition);
  VSphereVMStatus_Host : string;
  VSphereVMStatus_Ready : option bool;
  VSphereVMStatus_Addresses : option (list string);
  VSphereVMStatus_CloneMode : string;
  VSphereVMStatus_Snapshot : string;
  VSphereVMStatus_RetryAfter : Time;
  VSphereVMStatus_TaskRef : string;
  VSphereVMStatus_Network : option (list NetworkStatus);
  VSphereVMStatus_ModuleUUID : option string;
  VSphereVMStatus_VMRef : string;
  VSphereVMStatus_Deprecated : option VSphereVMDeprecatedStatus
}.

Definition zero_VSphereVMStatus : VSphereVMStatus :=
  mkVSphereVMStatus None "" None None "" "" None "" None None "" None.

Definition set_VSphereVMStatus_Conditions (v : option (list Condition)) (x : VSphereVMStatus) : VSphereVMStatus := {|
  VSphereVMStatus_Conditions := v;
  VSphereVMStatus_Host := VSphereVMStatus_Host x;
  VSphereVMStatus_Ready := VSphereVMStatus_Ready x;
  VSphereVMStatus_Addresses := VSphereVMStatus_Addresses x;
  VSphereVMStatus_CloneMode := VSphereVMStatus_CloneMode x;
  VSphereVMStatus_Snapshot := VSphereVMStatus_Snapshot x;
  VSphereVMStatus_RetryAfter := VSphereVMStatus_RetryAfter x;
  VSphereVMStatus_TaskRef := VSphereVMStatus_TaskRef x;
  VSphereVMStatus_Network := VSphereVMStatus_Network x;
  VSphereVMStatus_ModuleUUID := VSphereVMStatus_ModuleUUID x;
  VSphereVMStatus_VMRef := VSphereVMStatus_VMRef x;
  VSphereVMStatus_Deprecated := VSphereVMStatus_Deprecated x
|}.

Definition set_VSphereVMStatus_Ready (v : option bool) (x : VSphereVMStatus) : VSphereVMStatus := {|
  VSphereVMStatus_Conditions := VSphereVMStatus_Conditions x;
  VSphereVMStatus_Host := VSphereVMStatus_Host x;
  VSphereVMStatus_Ready := v;
  VSphereVMStatus_Addresses := VSphereVMStatus_Addresses x;
  VSphereVMStatus_CloneMode := VSphereVMStatus_CloneMode x;
  VSphereVMStatus_Snapshot := VSphereVMStatus_Snapshot x;
  VSphereVMStatus_RetryAfter := VSphereVMStatus_RetryAfter x;
  VSphereVMStatus_TaskRef := VSphereVMStatus_TaskRef x;
  VSphereVMStatus_Network := VSphereVMStatus_Network x;
  VSphereVMStatus_ModuleUUID := VSphereVMStatus_ModuleUUID x;
  VSphereVMStatus_VMRef := VSphereVMStatus_VMRef x;
  VSphereVMStatus_Deprecated := VSphereVMStatus_Deprecated x
|}.

Definition set_VSphereVMStatus_Network (v : option (list NetworkStatus)) (x : VSphereVMStatus) : VSphereVMStatus := {|
  VSphereVMStatus_Conditions := VSphereVMStatus_Conditions x;
  VSphereVMStatus_Host := VSphereVMStatus_Host x;
  VSphereVMStatus_Ready := VSphereVMStatus_Ready x;
  VSphereVMStatus_Addresses := VSphereVMStatus_Addresses x;
  VSphereVMStatus_CloneMode := VSphereVMStatus_CloneMode x;
  VSphereVMStatus_Snapshot := VSphereVMStatus_Snapshot x;
  VSphereVMStatus_RetryAfter := VSphereVMStatus_RetryAfter x;
  VSphereVMStatus_TaskRef := VSphereVMStatus_TaskRef x;
  VSphereVMStatus_Network := v;
  VSphereVMStatus_ModuleUUID := VSphereVMStatus_ModuleUUID x;
  VSphereVMStatus_VMRef := VSphereVMStatus_VMRef x;
  VSphereVMStatus_Deprecated := VSphereVMStatus_Deprecated x
|}.

Definition set_VSphereVMStatus_Deprecated (v : option VSphereVMDeprecatedStatus) (x : VSphereVMStatus) : VSphereVMStatus := {|
  VSphereVMStatus_Conditions := VSphereVMStatus_Conditions x;
  VSphereVMStatus_Host := VSphereVMStatus_Host x;
  VSphereVMStatus_Ready := VSphereVMStatus_Ready x;
  VSphereVMStatus_Addresses := VSphereVMStatus_Addresses x;
  VSphereVMStatus_CloneMode := VSphereVMStatus_CloneMode x;
  VSphereVMStatus_Snapshot := VSphereVMStatus_Snapshot x;
  VSphereVMStatus_RetryAfter := VSphereVMStatus_RetryAfter x;
  VSphereVMStatus_TaskRef := VSphereVMStatus_TaskRef x;
  VSphereVMStatus_Network := VSphereVMStatus_Network x;
  VSphereVMStatus_ModuleUUID := VSphereVMStatus_ModuleUUID x;
  VSphereVMStatus_VMRef := VSphereVMStatus_VMRef x;
  VSphereVMStatus_Deprecated := v
|}.

Record VSphereVM := mkVSphereVM {
  VSphereVM_ObjectMeta : MetaV1;
  VSphereVM_Spec : VSphereVMSpec;
  VSphereVM_Status : VSphereVMStatus
}.

Definition zero_VSphereVM : VSphereVM :=
  mkVSphereVM zero_MetaV1 zero_VSphereVMSpec zero_VSphereVMStatus.

Definition set_VSphereVM_ObjectMeta (v : MetaV1) (x : VSphereVM) : VSphereVM := {|
  VSphereVM_ObjectMeta := v;
  VSphereVM_Spec := VSphereVM_Spec x;
  VSphereVM_Status := VSphereVM_Status x
|}.

Definition set_VSphereVM_Spec (v : VSphereVMSpec) (x : VSphereVM) : VSphereVM := {|
  VSphereVM_ObjectMeta := VSphereVM_ObjectMeta x;
  VSphereVM_Spec := v;
  VSphereVM_Status := VSphereVM_Status x
|}.

Definition set_VSphereVM_Status (v : VSphereVMStatus) (x : VSphereVM) : VSphereVM := {|
  VSphereVM_ObjectMeta := VSphereVM_ObjectMeta x;
  VSphereVM_Spec := VSphereVM_Spec x;
  VSphereVM_Status := v
|}.

Record VSphereVMList := mkVSphereVMList {
  VSphereVMList_ListMeta : ListMeta;
  VSphereVMList_Items : option (list VSphereVM)
}.

Definition zero_VSphereVMList : VSphereVMList :=
  mkVSphereVMList zero_ListMeta None.

End infrav1.

(** [api/govmomi/v1beta1] *)
Module infrav1beta1.

Record NetworkRouteSpec := mkNetworkRouteSpec {
  NetworkRouteSpec_To : string;
  NetworkRouteSpec_Via : string;
  NetworkRouteSpec_Metric : Z
}.

Definition zero_NetworkRouteSpec : NetworkRouteSpec :=
  mkNetworkRouteSpec "" "" 0.

Record DHCPOverrides := mkDHCPOverrides {
  DHCPOverrides_Hostname : option string;
  DHCPOverrides_RouteMetric : option Z;
  DHCPOverrides_SendHostname : option bool;
  DHCPOverrides_UseDNS : option bool;
  DHCPOverrides_UseDomains : option string;
  DHCPOverrides_UseHostname : option bool;
  DHCPOverrides_UseMTU : option bool;
  DHCPOverrides_UseNTP : option bool;
  DHCPOverrides_UseRoutes : option string
}.

Definition zero_DHCPOverrides : DHCPOverrides :=
  mkDHCPOverrides None None None None None None None None None.

Record NetworkDeviceSpec := mkNetworkDeviceSpec {
  NetworkDeviceSpec_NetworkName : string;
  NetworkDeviceSpec_DeviceName : string;
  NetworkDeviceSpec_DHCP4 : bool;
  NetworkDeviceSpec_DHCP6 : bool;
  NetworkDeviceSpec_Gateway4 : string;
  NetworkDeviceSpec_Gateway6 : string;
  NetworkDeviceSpec_IPAddrs : option (list string);
  NetworkDeviceSpec_MTU : option Z;
  NetworkDeviceSpec_MACAddr : string;
  NetworkDeviceSpec_Nameservers : option (list string);
  NetworkDeviceSpec_Routes : option (list NetworkRouteSpec);
  NetworkDeviceSpec_SearchDomains : option (list string);
  NetworkDeviceSpec_AddressesFromPools : option (list TypedLocalObjectReference);
  NetworkDeviceSpec_DHCP4Overrides : option DHCPOverrides;
  NetworkDeviceSpec_DHCP6Overrides : option DHCPOverrides;
  NetworkDeviceSpec_SkipIPAllocation : bool
}.

Definition zero_NetworkDeviceSpec : NetworkDeviceSpec :=
  mkNetworkDeviceSpec "" "" false false "" "" None None "" None None None None None None false.

Record NetworkSpec := mkNetworkSpec {
  NetworkSpec_Devices : option (list NetworkDeviceSpec);
  NetworkSpec_Routes : option (list NetworkRouteSpec);
  NetworkSpec_PreferredAPIServerCIDR : string
}.

Definition zero_NetworkSpec : NetworkSpec :=
  mkNetworkSpec None None "".

Record VirtualMachineResourceSpec := mkVirtualMachineResourceSpec {
  VirtualMachineResourceSpec_CPU : Quantity;
  VirtualMachineResourceSpec_Memory : Quantity
}.

Definition zero_VirtualMachineResourceSpec : VirtualMachineResourceSpec :=
  mkVirtualMachineResourceSpec zero_Quantity zero_Quantity.

Record VirtualMachineResourceShares := mkVirtualMachineResourceShares {
  VirtualMachineResourceShares_CPU : Z;
  VirtualMachineResourceShares_Memory : Z
}.

Definition zero_VirtualMachineResourceShares : VirtualMachineResourceShares :=
  mkVirtualMachineResourceShares 0 0.

Record VirtualMachineResources := mkVirtualMachineResources {
  VirtualMachineResources_Requests : VirtualMachineResourceSpec;
  VirtualMachineResources_Limits : VirtualMachineResourceSpec;
  VirtualMachineResources_Shares : VirtualMachineResourceShares
}.

Definition zero_VirtualMachineResources : VirtualMachineResources :=
  mkVirtualMachineResources zero_VirtualMachineResourceSpec zero_VirtualMachineResourceSpec zero_VirtualMachineResourceShares.

Record PCIDeviceSpec := mkPCIDeviceSpec {
  PCIDeviceSpec_DeviceID : option Z;
  PCIDeviceSpec_VendorID : option Z;
  PCIDeviceSpec_VGPUProfile : string;
  PCIDeviceSpec_CustomLabel : string
}.

Definition zero_PCIDeviceSpec : PCIDeviceSpec :=
  mkPCIDeviceSpec None None "" "".

Record VSphereDisk := mkVSphereDisk {
  VSphereDisk_Name : string;
  VSphereDisk_SizeGiB : Z;
  VSphereDisk_ProvisioningMode : string
}.

Definition zero_VSphereDisk : VSphereDisk :=
  mkVSphereDisk "" 0 "".

Record VirtualMachineCloneSpec := mkVirtualMachineCloneSpec {
  VirtualMachineCloneSpec_Template : string;
  VirtualMachineCloneSpec_CloneMode : string;
  VirtualMachineCloneSpec_Snapshot : string;
  VirtualMachineCloneSpec_Server : string;
  VirtualMachineCloneSpec_Thumbprint : string;
  VirtualMachineCloneSpec_Datacenter : string;
  VirtualMachineCloneSpec_Folder : string;
  VirtualMachineCloneSpec_Datastore : string;
  VirtualMachineCloneSpec_StoragePolicyName : string;
  VirtualMachineCloneSpec_ResourcePool : string;
  VirtualMachineCloneSpec_Network : NetworkSpec;
  VirtualMachineCloneSpec_NumCPUs : Z;
  VirtualMachineCloneSpec_NumCoresPerSocket : Z;
  VirtualMachineCloneSpec_Resources : VirtualMachineResources;
  VirtualMachineCloneSpec_MemoryMiB : Z;
  VirtualMachineCloneSpec_DiskGiB : Z;
  VirtualMachineCloneSpec_AdditionalDisksGiB : option (list Z);
  VirtualMachineCloneSpec_CustomVMXKeys : option (gmap string string);
  VirtualMachineCloneSpec_TagIDs : option (list string);
  VirtualMachineCloneSpec_PciDevices : option (list PCIDeviceSpec);
  VirtualMachineCloneSpec_OS : string;
  VirtualMachineCloneSpec_HardwareVersion : string;
  VirtualMachineCloneSpec_DataDisks : option (list VSphereDisk);
  VirtualMachineCloneSpec_NestedHV : option bool;
  VirtualMachineCloneSpec_FtEncryptionMode : string;
  VirtualMachineCloneSpec_MigrateEncryption : string;
  VirtualMachineCloneSpec_CryptoKeyID : string;
  VirtualMachineCloneSpec_CryptoProfile : string
}.

Definition zero_VirtualMachineCloneSpec : VirtualMachineCloneSpec :=
  mkVirtualMachineCloneSpec "" "" "" "" "" "" "" "" "" "" zero_NetworkSpec 0 0 zero_VirtualMachineResources 0 0 None None None None "" "" None None "" "" "" "".

Record VSphereVMNamingStrategy := mkVSphereVMNamingStrategy {
  VSphereVMNamingStrategy_Template : option string
}.

Definition zero_VSphereVMNamingStrategy : VSphereVMNamingStrategy :=
  mkVSphereVMNamingStrategy None.

Definition set_VSphereVMNamingStrategy_Template (v : option string) (x : VSphereVMNamingStrategy) : VSphereVMNamingStrategy := {|
  VSphereVMNamingStrategy_Template := v
|}.

#[global] Instance VSphereVMNamingStrategy_eq_dec : EqDecision VSphereVMNamingStrategy.
Proof. solve_decision. Defined.

Record VSphereMachineSpec := mkVSphereMachineSpec {
  VSphereMachineSpec_VirtualMachineCloneSpec : VirtualMachineCloneSpec;
  VSphereMachineSpec_ProviderID : option string;
  VSphereMachineSpec_FailureDomain : option string;
  VSphereMachineSpec_PowerOffMode : string;
  VSphereMachineSpec_GuestSoftPowerOffTimeout : option Duration;
  VSphereMachineSpec_NamingStrategy : option VSphereVMNamingStrategy
}.

Definition zero_VSphereMachineSpec : VSphereMachineSpec :=
  mkVSphereMachineSpec zero_VirtualMachineCloneSpec None None "" None None.

Definition set_VSphereMachineSpec_ProviderID (v : option string) (x : VSphereMachineSpec) : VSphereMachineSpec := {|
  VSphereMachineSpec_VirtualMachineCloneSpec := VSphereMachineSpec_VirtualMachineCloneSpec x;
  VSphereMachineSpec_ProviderID := v;
  VSphereMachineSpec_FailureDomain := VSphereMachineSpec_FailureDomain x;
  VSphereMachineSpec_PowerOffMode := VSphereMachineSpec_PowerOffMode x;
  VSphereMachineSpec_GuestSoftPowerOffTimeout := VSphereMachineSpec_GuestSoftPowerOffTimeout x;
  VSphereMachineSpec_NamingStrategy := VSphereMachineSpec_NamingStrategy x
|}.

Definition set_VSphereMachineSpec_FailureDomain (v : option string) (x : VSphereMachineSpec) : VSphereMachineSpec := {|
  VSphereMachineSpec_VirtualMachineCloneSpec := VSphereMachineSpec_VirtualMachineCloneSpec x;
  VSphereMachineSpec_ProviderID := VSphereMachineSpec_ProviderID x;
  VSphereMachineSpec_FailureDomain := v;
  VSphereMachineSpec_PowerOffMode := VSphereMachineSpec_PowerOffMode x;
  VSphereMachineSpec_GuestSoftPowerOffTimeout := VSphereMachineSpec_GuestSoftPowerOffTimeout x;
  VSphereMachineSpec_NamingStrategy := VSphereMachineSpec_NamingStrategy x
|}.

Definition set_VSphereMachineSpec_GuestSoftPowerOffTimeout (v : option Duration) (x : VSphereMachineSpec) : VSphereMachineSpec := {|
  VSphereMachineSpec_VirtualMachineCloneSpec := VSphereMachineSpec_VirtualMachineCloneSpec x;
  VSphereMachineSpec_ProviderID := VSphereMachineSpec_ProviderID x;
  VSphereMachineSpec_FailureDomain := VSphereMachineSpec_FailureDomain x;
  VSphereMachineSpec_PowerOffMode := VSphereMachineSpec_PowerOffMode x;
  VSphereMachineSpec_GuestSoftPowerOffTimeout := v;
  VSphereMachineSpec_NamingStrategy := VSphereMachineSpec_NamingStrategy x
|}.

Definition set_VSphereMachineSpec_NamingStrategy (v : option VSphereVMNamingStrategy) (x : VSphereMachineSpec) : VSphereMachineSpec := {|
  VSphereMachineSpec_VirtualMachineCloneSpec := VSphereMachineSpec_VirtualMachineCloneSpec x;
  VSphereMachineSpec_ProviderID := VSphereMachineSpec_ProviderID x;
  VSphereMachineSpec_FailureDomain := VSphereMachineSpec_FailureDomain x;
  VSphereMachineSpec_PowerOffMode := VSphereMachineSpec_PowerOffMode x;
  VSphereMachineSpec_GuestSoftPowerOffTimeout := VSphereMachineSpec_GuestSoftPowerOffTimeout x;
  VSphereMachineSpec_NamingStrategy := v
|}.

Record VSphereMachineTemplateResource := mkVSphereMachineTemplateResource {
  VSphereMachineTemplateResource_ObjectMeta : TemplateMeta;
  VSphereMachineTemplateResource_Spec : VSphereMachineSpec
}.

Definition zero_VSphereMachineTemplateResource : VSphereMachineTemplateResource :=
  mkVSphereMachineTemplateResource zero_TemplateMeta zero_VSphereMachineSpec.

Definition set_VSphereMachineTemplateResource_Spec (v : VSphereMachineSpec) (x : VSphereMachineTemplateResource) : VSphereMachineTemplateResource := {|
  VSphereMachineTemplateResource_ObjectMeta := VSphereMachineTemplateResource_ObjectMeta x;
  VSphereMachineTemplateResource_Spec := v
|}.

Record APIEndpoint := mkAPIEndpoint {
  APIEndpoint_Host : string;
  APIEndpoint_Port : Z
}.

Definition zero_APIEndpoint : APIEndpoint :=
  mkAPIEndpoint "" 0.

Record NetworkStatus := mkNetworkStatus {
  NetworkStatus_Connected : bool;
  NetworkStatus_IPAddrs : option (list string);
  NetworkStatus_MACAddr : string;
  NetworkStatus_NetworkName : string
}.

Definition zero_NetworkStatus : NetworkStatus :=
  mkNetworkStatus false None "" "".

Record VirtualMachine := mkVirtualMachine {
  VirtualMachine_Name : string;
  VirtualMachine_BiosUUID : string;
  VirtualMachine_State : string;
  VirtualMachine_Network : option (list NetworkStatus);
  VirtualMachine_VMRef : string
}.

Definition zero_VirtualMachine : VirtualMachine :=
  mkVirtualMachine "" "" "" None "".

Record SSHUser := mkSSHUser {
  SSHUser_Name : string;
  SSHUser_AuthorizedKeys : option (list string)
}.

Definition zero_SSHUser : SSHUser :=
  mkSSHUser "" None.

Record VSphereIdentityReference := mkVSphereIdentityReference {
  VSphereIdentityReference_Kind : string;
  VSphereIdentityReference_Name : string
}.

Definition zero_VSphereIdentityReference : VSphereIdentityReference :=
  mkVSphereIdentityReference "" "".

Record ClusterModule := mkClusterModule {
  ClusterModule_ControlPlane : bool;
  ClusterModule_TargetObjectName : string;
  ClusterModule_ModuleUUID : string
}.

Definition zero_ClusterModule : ClusterModule :=
  mkClusterModule false "" "".

Record VSphereClusterSpec := mkVSphereClusterSpec {
  VSphereClusterSpec_Server : string;
  VSphereClusterSpec_Thumbprint : string;
  VSphereClusterSpec_ControlPlaneEndpoint : APIEndpoint;
  VSphereClusterSpec_IdentityRef : option VSphereIdentityReference;
  VSphereClusterSpec_ClusterModules : option (list ClusterModule);
  VSphereClusterSpec_DisableClusterModule : bool;
  VSphereClusterSpec_FailureDomainSelector : option LabelSelector
}.

Definition zero_VSphereClusterSpec : VSphereClusterSpec :=
  mkVSphereClusterSpec "" "" zero_APIEndpoint None None false None.

Definition set_VSphereClusterSpec_IdentityRef (v : option VSphereIdentityReference) (x : VSphereClusterSpec) : VSphereClusterSpec := {|
  VSphereClusterSpec_Server := VSphereClusterSpec_Server x;
  VSphereClusterSpec_Thumbprint := VSphereClusterSpec_Thumbprint x;
  VSphereClusterSpec_ControlPlaneEndpoint := VSphereClusterSpec_ControlPlaneEndpoint x;
  VSphereClusterSpec_IdentityRef := v;
  VSphereClusterSpec_ClusterModules := VSphereClusterSpec_ClusterModules x;
  VSphereClusterSpec_DisableClusterModule := VSphereClusterSpec_DisableClusterModule x;
  VSphereClusterSpec_FailureDomainSelector := VSphereClusterSpec_FailureDomainSelector x
|}.

Record VSphereClusterV1Beta2Status := mkVSphereClusterV1Beta2Status {
  VSphereClusterV1Beta2Status_Conditions : option (list Condition)
}.

Definition zero_VSphereClusterV1Beta2Status : VSphereClusterV1Beta2Status :=
  mkVSphereClusterV1Beta2Status None.

Record VSphereClusterStatus := mkVSphereClusterStatus {
  VSphereClusterStatus_Ready : bool;
  VSphereClusterStatus_Conditions : option (list V1Beta1Condition);
  VSphereClusterStatus_FailureDomains : option (gmap string FailureDomainSpec);
  VSphereClusterStatus_VCenterVersion : string;
  VSphereClusterStatus_V1Beta2 : option VSphereClusterV1Beta2Status
}.

Definition zero_VSphereClusterStatus : VSphereClusterStatus :=
  mkVSphereClusterStatus false None None "" None.

Definition set_VSphereClusterStatus_Ready (v : bool) (x : VSphereClusterStatus) : VSphereClusterStatus := {|
  VSphereClusterStatus_Ready := v;
  VSphereClusterStatus_Conditions := VSphereClusterStatus_Conditions x;
  VSphereClusterStatus_FailureDomains := VSphereClusterStatus_FailureDomains x;
  VSphereClusterStatus_VCenterVersion := VSphereClusterStatus_VCenterVersion x;
  VSphereClusterStatus_V1Beta2 := VSphereClusterStatus_V1Beta2 x
|}.

Definition set_VSphereClusterStatus_Conditions (v : option (list V1Beta1Condition)) (x : VSphereClusterStatus) : VSphereClusterStatus := {|
  VSphereClusterStatus_Ready := VSphereClusterStatus_Ready x;
  VSphereClusterStatus_Conditions := v;
  VSphereClusterStatus_FailureDomains := VSphereClusterStatus_FailureDomains x;
  VSphereClusterStatus_VCenterVersion := VSphereClusterStatus_VCenterVersion x;
  VSphereClusterStatus_V1Beta2 := VSphereClusterStatus_V1Beta2 x
|}.

Definition set_VSphereClusterStatus_FailureDomains (v : option (gmap string FailureDomainSpec)) (x : VSphereClusterStatus) : VSphereClusterStatus := {|
  VSphereClusterStatus_Ready := VSphereClusterStatus_Ready x;
  VSphereClusterStatus_Conditions := VSphereClusterStatus_Conditions x;
  VSphereClusterStatus_FailureDomains := v;
  VSphereClusterStatus_VCenterVersion := VSphereClusterStatus_VCenterVersion x;
  VSphereClusterStatus_V1Beta2 := VSphereClusterStatus_V1Beta2 x
|}.

Definition set_VSphereClusterStatus_V1Beta2 (v : option VSphereClusterV1Beta2Status) (x : VSphereClusterStatus) : VSphereClusterStatus := {|
  VSphereClusterStatus_Ready := VSphereClusterStatus_Ready x;
  VSphereClusterStatus_Conditions := VSphereClusterStatus_Conditions x;
  VSphereClusterStatus_FailureDomains := VSphereClusterStatus_FailureDomains x;
  VSphereClusterStatus_VCenterVersion := VSphereClusterStatus_VCenterVersion x;
  VSphereClusterStatus_V1Beta2 := v
|}.

Record VSphereCluster := mkVSphereCluster {
  VSphereCluster_ObjectMeta : MetaV1;
  VSphereCluster_Spec : VSphereClusterSpec;
  VSphereCluster_Status : VSphereClusterStatus
}.

Definition zero_VSphereCluster : VSphereCluster :=
  mkVSphereCluster zero_MetaV1 zero_VSphereClusterSpec zero_VSphereClusterStatus.

Definition set_VSphereCluster_ObjectMeta (v : MetaV1) (x : VSphereCluster) : VSphereCluster := {|
  VSphereCluster_ObjectMeta := v;
  VSphereCluster_Spec := VSphereCluster_Spec x;
  VSphereCluster_Status := VSphereCluster_Status x
|}.

Record VSphereClusterList := mkVSphereClusterList {
  VSphereClusterList_ListMeta : ListMeta;
  VSphereClusterList_Items : option (list VSphereCluster)
}.

Definition zero_VSphereClusterList : VSphereClusterList :=
  mkVSphereClusterList zero_ListMeta None.

Record AllowedNamespaces := mkAllowedNamespaces {
  AllowedNamespaces_Selector : LabelSelector
}.

Definition zero_AllowedNamespaces : AllowedNamespaces :=
  mkAllowedNamespaces zero_LabelSelector.

Record VSphereClusterIdentitySpec := mkVSphereClusterIdentitySpec {
  VSphereClusterIdentitySpec_SecretName : string;
  VSphereClusterIdentitySpec_AllowedNamespaces : option AllowedNamespaces
}.

Definition zero_VSphereClusterIdentitySpec : VSphereClusterIdentitySpec :=
  mkVSphereClusterIdentitySpec "" None.

Record VSphereClusterIdentityV1Beta2Status := mkVSphereClusterIdentityV1Beta2Status {
  VSphereClusterIdentityV1Beta2Status_Conditions : option (list Condition)
}.

Definition zero_VSphereClusterIdentityV1Beta2Status : VSphereClusterIdentityV1Beta2Status :=
  mkVSphereClusterIdentityV1Beta2Status None.

Record VSphereClusterIdentityStatus := mkVSphereClusterIdentityStatus {
  VSphereClusterIdentityStatus_Ready : bool;
  VSphereClusterIdentityStatus_Conditions : option (list V1Beta1Condition);
  VSphereClusterIdentityStatus_V1Beta2 : option VSphereClusterIdentityV1Beta2Status
}.

Definition zero_VSphereClusterIdentityStatus : VSphereClusterIdentityStatus :=
  mkVSphereClusterIdentityStatus false None None.

Definition set_VSphereClusterIdentityStatus_Conditions (v : option (list V1Beta1Condition)) (x : VSphereClusterIdentityStatus) : VSphereClusterIdentityStatus := {|
  VSphereClusterIdentityStatus_Ready := VSphereClusterIdentityStatus_Ready x;
  VSphereClusterIdentityStatus_Conditions := v;
  VSphereClusterIdentityStatus_V1Beta2 := VSphereClusterIdentityStatus_V1Beta2 x
|}.

Definition set_VSphereClusterIdentityStatus_V1Beta2 (v : option VSphereClusterIdentityV1Beta2Status) (x : VSphereClusterIdentityStatus) : VSphereClusterIdentityStatus := {|
  VSphereClusterIdentityStatus_Ready := VSphereClusterIdentityStatus_Ready x;
  VSphereClusterIdentityStatus_Conditions := VSphereClusterIdentityStatus_Conditions x;
  VSphereClusterIdentityStatus_V1Beta2 := v
|}.

Record VSphereClusterIdentity := mkVSphereClusterIdentity {
  VSphereClusterIdentity_ObjectMeta : MetaV1;
  VSphereClusterIdentity_Spec : VSphereClusterIdentitySpec;
  VSphereClusterIdentity_Status : VSphereClusterIdentityStatus
}.

Definition zero_VSphereClusterIdentity : VSphereClusterIdentity :=
  mkVSphereClusterIdentity zero_MetaV1 zero_VSphereClusterIdentitySpec zero_VSphereClusterIdentityStatus.

Definition set_VSphereClusterIdentity_ObjectMeta (v : MetaV1) (x : VSphereClusterIdentity) : VSphereClusterIdentity := {|
  VSphereClusterIdentity_ObjectMeta := v;
  VSphereClusterIdentity_Spec := VSphereClusterIdentity_Spec x;
  VSphereClusterIdentity_Status := VSphereClusterIdentity_Status x
|}.

Record VSphereClusterIdentityList := mkVSphereClusterIdentityList {
  VSphereClusterIdentityList_ListMeta : ListMeta;
  VSphereClusterIdentityList_Items : option (list VSphereClusterIdentity)
}.

Definition zero_VSphereClusterIdentityList : VSphereClusterIdentityList :=
  mkVSphereClusterIdentityList zero_ListMeta None.

Record VSphereClusterTemplateResource := mkVSphereClusterTemplateResource {
  VSphereClusterTemplateResource_Spec : VSphereClusterSpec
}.

Definition zero_VSphereClusterTemplateResource : VSphereClusterTemplateResource :=
  mkVSphereClusterTemplateResource zero_VSphereClusterSpec.

Record VSphereClusterTemplateSpec := mkVSphereClusterTemplateSpec {
  VSphereClusterTemplateSpec_Template : VSphereClusterTemplateResource
}.

Definition zero_VSphereClusterTemplateSpec : VSphereClusterTemplateSpec :=
  mkVSphereClusterTemplateSpec zero_VSphereClusterTemplateResource.

Record VSphereClusterTemplate := mkVSphereClusterTemplate {
  VSphereClusterTemplate_ObjectMeta : MetaV1;
  VSphereClusterTemplate_Spec : VSphereClusterTemplateSpec
}.

Definition zero_VSphereClusterTemplate : VSphereClusterTemplate :=
  mkVSphereClusterTemplate zero_MetaV1 zero_VSphereClusterTemplateSpec.

Definition set_VSphereClusterTemplate_ObjectMeta (v : MetaV1) (x : VSphereClusterTemplate) : VSphereClusterTemplate := {|
  VSphereClusterTemplate_ObjectMeta := v;
  VSphereClusterTemplate_Spec := VSphereClusterTemplate_Spec x
|}.

Record VSphereClusterTemplateList := mkVSphereClusterTemplateList {
  VSphereClusterTemplateList_ListMeta : ListMeta;
  VSphereClusterTemplateList_Items : option (list VSphereClusterTemplate)
}.

Definition zero_VSphereClusterTemplateList : VSphereClusterTemplateList :=
  mkVSphereClusterTemplateList zero_ListMeta None.

Record PlacementConstraint := mkPlacementConstraint {
  PlacementConstraint_ResourcePool : string;
  PlacementConstraint_Folder : string
}.

Definition zero_PlacementConstraint : PlacementConstraint :=
  mkPlacementConstraint "" "".

Record VSphereDeploymentZoneSpec := mkVSphereDeploymentZoneSpec {
  VSphereDeploymentZoneSpec_Server : string;
  VSphereDeploymentZoneSpec_FailureDomain : string;
  VSphereDeploymentZoneSpec_ControlPlane : option bool;
  VSphereDeploymentZoneSpec_PlacementConstraint : PlacementConstraint
}.

Definition zero_VSphereDeploymentZoneSpec : VSphereDeploymentZoneSpec :=
  mkVSphereDeploymentZoneSpec "" "" None zero_PlacementConstraint.

Record Network := mkNetwork {
  Network_Name : string;
  Network_DHCP4 : option bool;
  Network_DHCP6 : option bool
}.

Definition zero_Network : Network :=
  mkNetwork "" None None.

Record VSphereDeploymentZoneV1Beta2Status := mkVSphereDeploymentZoneV1Beta2Status {
  VSphereDeploymentZoneV1Beta2Status_Conditions : option (list Condition)
}.

Definition zero_VSphereDeploymentZoneV1Beta2Status : VSphereDeploymentZoneV1Beta2Status :=
  mkVSphereDeploymentZoneV1Beta2Status None.

Record VSphereDeploymentZoneStatus := mkVSphereDeploymentZoneStatus {
  VSphereDeploymentZoneStatus_Ready : option bool;
  VSphereDeploymentZoneStatus_Conditions : option (list V1Beta1Condition);
  VSphereDeploymentZoneStatus_V1Beta2 : option VSphereDeploymentZoneV1Beta2Status
}.

Definition zero_VSphereDeploymentZoneStatus : VSphereDeploymentZoneStatus :=
  mkVSphereDeploymentZoneStatus None None None.

Definition set_VSphereDeploymentZoneStatus_Conditions (v : option (list V1Beta1Condition)) (x : VSphereDeploymentZoneStatus) : VSphereDeploymentZoneStatus := {|
  VSphereDeploymentZoneStatus_Ready := VSphereDeploymentZoneStatus_Ready x;
  VSphereDeploymentZoneStatus_Conditions := v;
  VSphereDeploymentZoneStatus_V1Beta2 := VSphereDeploymentZoneStatus_V1Beta2 x
|}.

Definition set_VSphereDeploymentZoneStatus_V1Beta2 (v : option VSphereDeploymentZoneV1Beta2Status) (x : VSphereDeploymentZoneStatus) : VSphereDeploymentZoneStatus := {|
  VSphereDeploymentZoneStatus_Ready := VSphereDeploymentZoneStatus_Ready x;
  VSphereDeploymentZoneStatus_Conditions := VSphereDeploymentZoneStatus_Conditions x;
  VSphereDeploymentZoneStatus_V1Beta2 := v
|}.

Record VSphereDeploymentZone := mkVSphereDeploymentZone {
  VSphereDeploymentZone_ObjectMeta : MetaV1;
  VSphereDeploymentZone_Spec : VSphereDeploymentZoneSpec;
  VSphereDeploymentZone_Status : VSphereDeploymentZoneStatus
}.

Definition zero_VSphereDeploymentZone : VSphereDeploymentZone :=
  mkVSphereDeploymentZone zero_MetaV1 zero_VSphereDeploymentZoneSpec zero_VSphereDeploymentZoneStatus.

Definition set_VSphereDeploymentZone_ObjectMeta (v : MetaV1) (x : VSphereDeploymentZone) : VSphereDeploymentZone := {|
  VSphereDeploymentZone_ObjectMeta := v;
  VSphereDeploymentZone_Spec := VSphereDeploymentZone_Spec x;
  VSphereDeploymentZone_Status := VSphereDeploymentZone_Status x
|}.

Record VSphereDeploymentZoneList := mkVSphereDeploymentZoneList {
  VSphereDeploymentZoneList_ListMeta : ListMeta;
  VSphereDeploymentZoneList_Items : option (list VSphereDeploymentZone)
}.

Definition zero_VSphereDeploymentZoneList : VSphereDeploymentZoneList :=
  mkVSphereDeploymentZoneList zero_ListMeta None.

Record FailureDomain := mkFailureDomain {
  FailureDomain_Name : string;
  FailureDomain_Type : string;
  FailureDomain_TagCategory : string;
  FailureDomain_AutoConfigure : option bool
}.

Definition zero_FailureDomain : FailureDomain :=
  mkFailureDomain "" "" "" None.

Record FailureDomainHosts := mkFailureDomainHosts {
  FailureDomainHosts_VMGroupName : string;
  FailureDomainHosts_HostGroupName : string
}.

Definition zero_FailureDomainHosts : FailureDomainHosts :=
  mkFailureDomainHosts "" "".

#[global] Instance FailureDomainHosts_eq_dec : EqDecision FailureDomainHosts.
Proof. solve_decision. Defined.

Record NetworkConfiguration := mkNetworkConfiguration {
  NetworkConfiguration_NetworkName : string;
  NetworkConfiguration_DHCP4 : option bool;
  NetworkConfiguration_DHCP6 : option bool;
  NetworkConfiguration_Nameservers : option (list string);
  NetworkConfiguration_SearchDomains : option (list string);
  NetworkConfiguration_DHCP4Overrides : option DHCPOverrides;
  NetworkConfiguration_DHCP6Overrides : option DHCPOverrides;
  NetworkConfiguration_AddressesFromPools : option (list TypedLocalObjectReference)
}.

Definition zero_NetworkConfiguration : NetworkConfiguration :=
  mkNetworkConfiguration "" None None None None None None None.

Record Topology := mkTopology {
  Topology_Datacenter : string;
  Topology_ComputeCluster : option string;
  Topology_Hosts : option FailureDomainHosts;
  Topology_Networks : option (list string);
  Topology_NetworkConfigurations : option (list NetworkConfiguration);
  Topology_Datastore : string
}.

Definition zero_Topology : Topology :=
  mkTopology "" None None None None "".

Definition set_Topology_ComputeCluster (v : option string) (x : Topology) : Topology := {|
  Topology_Datacenter := Topology_Datacenter x;
  Topology_ComputeCluster := v;
  Topology_Hosts := Topology_Hosts x;
  Topology_Networks := Topology_Networks x;
  Topology_NetworkConfigurations := Topology_NetworkConfigurations x;
  Topology_Datastore := Topology_Datastore x
|}.

Definition set_Topology_Hosts (v : option FailureDomainHosts) (x : Topology) : Topology := {|
  Topology_Datacenter := Topology_Datacenter x;
  Topology_ComputeCluster := Topology_ComputeCluster x;
  Topology_Hosts := v;
  Topology_Networks := Topology_Networks x;
  Topology_NetworkConfigurations := Topology_NetworkConfigurations x;
  Topology_Datastore := Topology_Datastore x
|}.

Record VSphereFailureDomainSpec := mkVSphereFailureDomainSpec {
  VSphereFailureDomainSpec_Region : FailureDomain;
  VSphereFailureDomainSpec_Zone : FailureDomain;
  VSphereFailureDomainSpec_Topology : Topology
}.

Definition zero_VSphereFailureDomainSpec : VSphereFailureDomainSpec :=
  mkVSphereFailureDomainSpec zero_FailureDomain zero_FailureDomain zero_Topology.

Definition set_VSphereFailureDomainSpec_Topology (v : Topology) (x : VSphereFailureDomainSpec) : VSphereFailureDomainSpec := {|
  VSphereFailureDomainSpec_Region := VSphereFailureDomainSpec_Region x;
  VSphereFailureDomainSpec_Zone := VSphereFailureDomainSpec_Zone x;
  VSphereFailureDomainSpec_Topology := v
|}.

Record VSphereFailureDomain := mkVSphereFailureDomain {
  VSphereFailureDomain_ObjectMeta : MetaV1;
  VSphereFailureDomain_Spec : VSphereFailureDomainSpec
}.

Definition zero_VSphereFailureDomain : VSphereFailureDomain :=
  mkVSphereFailureDomain zero_MetaV1 zero_VSphereFailureDomainSpec.

Definition set_VSphereFailureDomain_ObjectMeta (v : MetaV1) (x : VSphereFailureDomain) : VSphereFailureDomain := {|
  VSphereFailureDomain_ObjectMeta := v;
  VSphereFailureDomain_Spec := VSphereFailureDomain_Spec x
|}.

Definition set_VSphereFailureDomain_Spec (v : VSphereFailureDomainSpec) (x : VSphereFailureDomain) : VSphereFailureDomain := {|
  VSphereFailureDomain_ObjectMeta := VSphereFailureDomain_ObjectMeta x;
  VSphereFailureDomain_Spec := v
|}.

Record VSphereFailureDomainList := mkVSphereFailureDomainList {
  VSphereFailureDomainList_ListMeta : ListMeta;
  VSphereFailureDomainList_Items : option (list VSphereFailureDomain)
}.

Definition zero_VSphereFailureDomainList : VSphereFailureDomainList :=
  mkVSphereFailureDomainList zero_ListMeta None.

Record VSphereMachineV1Beta2Status := mkVSphereMachineV1Beta2Status {
  VSphereMachineV1Beta2Status_Conditions : option (list Condition)
}.

Definition zero_VSphereMachineV1Beta2Status : VSphereMachineV1Beta2Status :=
  mkVSphereMachineV1Beta2Status None.

Record VSphereMachineStatus := mkVSphereMachineStatus {
  VSphereMachineStatus_Ready : bool;
  VSphereMachineStatus_Addresses : option (list MachineAddress);
  VSphereMachineStatus_Network : option (list NetworkStatus);
  VSphereMachineStatus_FailureReason : option string;
  VSphereMachineStatus_FailureMessage : option string;
  VSphereMachineStatus_Conditions : option (list V1Beta1Condition);
  VSphereMachineStatus_V1Beta2 : option VSphereMachineV1Beta2Status
}.

Definition zero_VSphereMachineStatus : VSphereMachineStatus :=
  mkVSphereMachineStatus false None None None None None None.

Definition set_VSphereMachineStatus_Ready (v : bool) (x : VSphereMachineStatus) : VSphereMachineStatus := {|
  VSphereMachineStatus_Ready := v;
  VSphereMachineStatus_Addresses := VSphereMachineStatus_Addresses x;
  VSphereMachineStatus_Network := VSphereMachineStatus_Network x;
  VSphereMachineStatus_FailureReason := VSphereMachineStatus_FailureReason x;
  VSphereMachineStatus_FailureMessage := VSphereMachineStatus_FailureMessage x;
  VSphereMachineStatus_Conditions := VSphereMachineStatus_Conditions x;
  VSphereMachineStatus_V1Beta2 := VSphereMachineStatus_V1Beta2 x
|}.

Definition set_VSphereMachineStatus_FailureReason (v : option string) (x : VSphereMachineStatus) : VSphereMachineStatus := {|
  VSphereMachineStatus_Ready := VSphereMachineStatus_Ready x;
  VSphereMachineStatus_Addresses := VSphereMachineStatus_Addresses x;
  VSphereMachineStatus_Network := VSphereMachineStatus_Network x;
  VSphereMachineStatus_FailureReason := v;
  VSphereMachineStatus_FailureMessage := VSphereMachineStatus_FailureMessage x;
  VSphereMachineStatus_Conditions := VSphereMachineStatus_Conditions x;
  VSphereMachineStatus_V1Beta2 := VSphereMachineStatus_V1Beta2 x
|}.

Definition set_VSphereMachineStatus_FailureMessage (v : option string) (x : VSphereMachineStatus) : VSphereMachineStatus := {|
  VSphereMachineStatus_Ready := VSphereMachineStatus_Ready x;
  VSphereMachineStatus_Addresses := VSphereMachineStatus_Addresses x;
  VSphereMachineStatus_Network := VSphereMachineStatus_Network x;
  VSphereMachineStatus_FailureReason := VSphereMachineStatus_FailureReason x;
  VSphereMachineStatus_FailureMessage := v;
  VSphereMachineStatus_Conditions := VSphereMachineStatus_Conditions x;
  VSphereMachineStatus_V1Beta2 := VSphereMachineStatus_V1Beta2 x
|}.

Definition set_VSphereMachineStatus_Conditions (v : option (list V1Beta1Condition)) (x : VSphereMachineStatus) : VSphereMachineStatus := {|
  VSphereMachineStatus_Ready := VSphereMachineStatus_Ready x;
  VSphereMachineStatus_Addresses := VSphereMachineStatus_Addresses x;
  VSphereMachineStatus_Network := VSphereMachineStatus_Network x;
  VSphereMachineStatus_FailureReason := VSphereMachineStatus_FailureReason x;
  VSphereMachineStatus_FailureMessage := VSphereMachineStatus_FailureMessage x;
  VSphereMachineStatus_Conditions := v;
  VSphereMachineStatus_V1Beta2 := VSphereMachineStatus_V1Beta2 x
|}.

Definition set_VSphereMachineStatus_V1Beta2 (v : option VSphereMachineV1Beta2Status) (x : VSphereMachineStatus) : VSphereMachineStatus := {|
  VSphereMachineStatus_Ready := VSphereMachineStatus_Ready x;
  VSphereMachineStatus_Addresses := VSphereMachineStatus_Addresses x;
  VSphereMachineStatus_Network := VSphereMachineStatus_Network x;
  VSphereMachineStatus_FailureReason := VSphereMachineStatus_FailureReason x;
  VSphereMachineStatus_FailureMessage := VSphereMachineStatus_FailureMessage x;
  VSphereMachineStatus_Conditions := VSphereMachineStatus_Conditions x;
  VSphereMachineStatus_V1Beta2 := v
|}.

Record VSphereMachine := mkVSphereMachine {
  VSphereMachine_ObjectMeta : MetaV1;
  VSphereMachine_Spec : VSphereMachineSpec;
  VSphereMachine_Status : VSphereMachineStatus
}.

Definition zero_VSphereMachine : VSphereMachine :=
  mkVSphereMachine zero_MetaV1 zero_VSphereMachineSpec zero_VSphereMachineStatus.

Definition set_VSphereMachine_ObjectMeta (v : MetaV1) (x : VSphereMachine) : VSphereMachine := {|
  VSphereMachine_ObjectMeta := v;
  VSphereMachine_Spec := VSphereMachine_Spec x;
  VSphereMachine_Status := VSphereMachine_Status x
|}.

Definition set_VSphereMachine_Spec (v : VSphereMachineSpec) (x : VSphereMachine) : VSphereMachine := {|
  VSphereMachine_ObjectMeta := VSphereMachine_ObjectMeta x;
  VSphereMachine_Spec := v;
  VSphereMachine_Status := VSphereMachine_Status x
|}.

Record VSphereMachineList := mkVSphereMachineList {
  VSphereMachineList_ListMeta : ListMeta;
  VSphereMachineList_Items : option (list VSphereMachine)
}.

Definition zero_VSphereMachineList : VSphereMachineList :=
  mkVSphereMachineList zero_ListMeta None.

Record VSphereMachineTemplateSpec := mkVSphereMachineTemplateSpec {
  VSphereMachineTemplateSpec_Template : VSphereMachineTemplateResource
}.

Definition zero_VSphereMachineTemplateSpec : VSphereMachineTemplateSpec :=
  mkVSphereMachineTemplateSpec zero_VSphereMachineTemplateResource.

Definition set_VSphereMachineTemplateSpec_Template (v : VSphereMachineTemplateResource) (x : VSphereMachineTemplateSpec) : VSphereMachineTemplateSpec := {|
  VSphereMachineTemplateSpec_Template := v
|}.

Record VSphereMachineTemplate := mkVSphereMachineTemplate {
  VSphereMachineTemplate_ObjectMeta : MetaV1;
  VSphereMachineTemplate_Spec : VSphereMachineTemplateSpec
}.

Definition zero_VSphereMachineTemplate : VSphereMachineTemplate :=
  mkVSphereMachineTemplate zero_MetaV1 zero_VSphereMachineTemplateSpec.

Definition set_VSphereMachineTemplate_ObjectMeta (v : MetaV1) (x : VSphereMachineTemplate) : VSphereMachineTemplate := {|
  VSphereMachineTemplate_ObjectMeta := v;
  VSphereMachineTemplate_Spec := VSphereMachineTemplate_Spec x
|}.

Definition set_VSphereMachineTemplate_Spec (v : VSphereMachineTemplateSpec) (x : VSphereMachineTemplate) : VSphereMachineTemplate := {|
  VSphereMachineTemplate_ObjectMeta := VSphereMachineTemplate_ObjectMeta x;
  VSphereMachineTemplate_Spec := v
|}.

Record VSphereMachineTemplateList := mkVSphereMachineTemplateList {
  VSphereMachineTemplateList_ListMeta : ListMeta;
  VSphereMachineTemplateList_Items : option (list VSphereMachineTemplate)
}.

Definition zero_VSphereMachineTemplateList : VSphereMachineTemplateList :=
  mkVSphereMachineTemplateList zero_ListMeta None.

Record VSphereVMSpec := mkVSphereVMSpec {
  VSphereVMSpec_VirtualMachineCloneSpec : VirtualMachineCloneSpec;
  VSphereVMSpec_BootstrapRef : option ObjectReference;
  VSphereVMSpec_BiosUUID : string;
  VSphereVMSpec_PowerOffMode : string;
  VSphereVMSpec_GuestSoftPowerOffTimeout : option Duration
}.

Definition zero_VSphereVMSpec : VSphereVMSpec :=
  mkVSphereVMSpec zero_VirtualMachineCloneSpec None "" "" None.

Definition set_VSphereVMSpec_BootstrapRef (v : option ObjectReference) (x : VSphereVMSpec) : VSphereVMSpec := {|
  VSphereVMSpec_VirtualMachineCloneSpec := VSphereVMSpec_VirtualMachineCloneSpec x;
  VSphereVMSpec_BootstrapRef := v;
  VSphereVMSpec_BiosUUID := VSphereVMSpec_BiosUUID x;
  VSphereVMSpec_PowerOffMode := VSphereVMSpec_PowerOffMode x;
  VSphereVMSpec_GuestSoftPowerOffTimeout := VSphereVMSpec_GuestSoftPowerOffTimeout x
|}.

Definition set_VSphereVMSpec_GuestSoftPowerOffTimeout (v : option Duration) (x : VSphereVMSpec) : VSphereVMSpec := {|
  VSphereVMSpec_VirtualMachineCloneSpec := VSphereVMSpec_VirtualMachineCloneSpec x;
  VSphereVMSpec_BootstrapRef := VSphereVMSpec_BootstrapRef x;
  VSphereVMSpec_BiosUUID := VSphereVMSpec_BiosUUID x;
  VSphereVMSpec_PowerOffMode := VSphereVMSpec_PowerOffMode x;
  VSphereVMSpec_GuestSoftPowerOffTimeout := v
|}.

Record VSphereVMV1Beta2Status := mkVSphereVMV1Beta2Status {
  VSphereVMV1Beta2Status_Conditions : option (list Condition)
}.

Definition zero_VSphereVMV1Beta2Status : VSphereVMV1Beta2Status :=
  mkVSphereVMV1Beta2Status None.

Record VSphereVMStatus := mkVSphereVMStatus {
  VSphereVMStatus_Host : string;
  VSphereVMStatus_Ready : bool;
  VSphereVMStatus_Addresses : option (list string);
  VSphereVMStatus_CloneMode : string;
  VSphereVMStatus_Snapshot : string;
  VSphereVMStatus_RetryAfter : Time;
  VSphereVMStatus_TaskRef : string;
  VSphereVMStatus_Network : option (list NetworkStatus);
  VSphereVMStatus_FailureReason : option string;
  VSphereVMStatus_FailureMessage : option string;
  VSphereVMStatus_Conditions : option (list V1Beta1Condition);
  VSphereVMStatus_ModuleUUID : option string;
  VSphereVMStatus_VMRef : string;
  VSphereVMStatus_V1Beta2 : option VSphereVMV1Beta2Status
}.

Definition zero_VSphereVMStatus : VSphereVMStatus :=
  mkVSphereVMStatus "" false None "" "" None "" None None None None None "" None.

Definition set_VSphereVMStatus_FailureReason (v : option string) (x : VSphereVMStatus) : VSphereVMStatus := {|
  VSphereVMStatus_Host := VSphereVMStatus_Host x;
  VSphereVMStatus_Ready := VSphereVMStatus_Ready x;
  VSphereVMStatus_Addresses := VSphereVMStatus_Addresses x;
  VSphereVMStatus_CloneMode := VSphereVMStatus_CloneMode x;
  VSphereVMStatus_Snapshot := VSphereVMStatus_Snapshot x;
  VSphereVMStatus_RetryAfter := VSphereVMStatus_RetryAfter x;
  VSphereVMStatus_TaskRef := VSphereVMStatus_TaskRef x;
  VSphereVMStatus_Network := VSphereVMStatus_Network x;
  VSphereVMStatus_FailureReason := v;
  VSphereVMStatus_FailureMessage := VSphereVMStatus_FailureMessage x;
  VSphereVMStatus_Conditions := VSphereVMStatus_Conditions x;
  VSphereVMStatus_ModuleUUID := VSphereVMStatus_ModuleUUID x;
  VSphereVMStatus_VMRef := VSphereVMStatus_VMRef x;
  VSphereVMStatus_V1Beta2 := VSphereVMStatus_V1Beta2 x
|}.

Definition set_VSphereVMStatus_FailureMessage (v : option string) (x : VSphereVMStatus) : VSphereVMStatus := {|
  VSphereVMStatus_Host := VSphereVMStatus_Host x;
  VSphereVMStatus_Ready := VSphereVMStatus_Ready x;
  VSphereVMStatus_Addresses := VSphereVMStatus_Addresses x;
  VSphereVMStatus_CloneMode := VSphereVMStatus_CloneMode x;
  VSphereVMStatus_Snapshot := VSphereVMStatus_Snapshot x;
  VSphereVMStatus_RetryAfter := VSphereVMStatus_RetryAfter x;
  VSphereVMStatus_TaskRef := VSphereVMStatus_TaskRef x;
  VSphereVMStatus_Network := VSphereVMStatus_Network x;
  VSphereVMStatus_FailureReason := VSphereVMStatus_FailureReason x;
  VSphereVMStatus_FailureMessage := v;
  VSphereVMStatus_Conditions := VSphereVMStatus_Conditions x;
  VSphereVMStatus_ModuleUUID := VSphereVMStatus_ModuleUUID x;
  VSphereVMStatus_VMRef := VSphereVMStatus_VMRef x;
  VSphereVMStatus_V1Beta2 := VSphereVMStatus_V1Beta2 x
|}.

Definition set_VSphereVMStatus_Conditions (v : option (list V1Beta1Condition)) (x : VSphereVMStatus) : VSphereVMStatus := {|
  VSphereVMStatus_Host := VSphereVMStatus_Host x;
  VSphereVMStatus_Ready := VSphereVMStatus_Ready x;
  VSphereVMStatus_Addresses := VSphereVMStatus_Addresses x;
  VSphereVMStatus_CloneMode := VSphereVMStatus_CloneMode x;
  VSphereVMStatus_Snapshot := VSphereVMStatus_Snapshot x;
  VSphereVMStatus_RetryAfter := VSphereVMStatus_RetryAfter x;
  VSphereVMStatus_TaskRef := VSphereVMStatus_TaskRef x;
  VSphereVMStatus_Network := VSphereVMStatus_Network x;
  VSphereVMStatus_FailureReason := VSphereVMStatus_FailureReason x;
  VSphereVMStatus_FailureMessage := VSphereVMStatus_FailureMessage x;
  VSphereVMStatus_Conditions := v;
  VSphereVMStatus_ModuleUUID := VSphereVMStatus_ModuleUUID x;
  VSphereVMStatus_VMRef := VSphereVMStatus_VMRef x;
  VSphereVMStatus_V1Beta2 := VSphereVMStatus_V1Beta2 x
|}.

Definition set_VSphereVMStatus_V1Beta2 (v : option VSphereVMV1Beta2Status) (x : VSphereVMStatus) : VSphereVMStatus := {|
  VSphereVMStatus_Host := VSphereVMStatus_Host x;
  VSphereVMStatus_Ready := VSphereVMStatus_Ready x;
  VSphereVMStatus_Addresses := VSphereVMStatus_Addresses x;
  VSphereVMStatus_CloneMode := VSphereVMStatus_CloneMode x;
  VSphereVMStatus_Snapshot := VSphereVMStatus_Snapshot x;
  VSphereVMStatus_RetryAfter := VSphereVMStatus_RetryAfter x;
  VSphereVMStatus_TaskRef := VSphereVMStatus_TaskRef x;
  VSphereVMStatus_Network := VSphereVMStatus_Network x;
  VSphereVMStatus_FailureReason := VSphereVMStatus_FailureReason x;
  VSphereVMStatus_FailureMessage := VSphereVMStatus_FailureMessage x;
  VSphereVMStatus_Conditions := VSphereVMStatus_Conditions x;
  VSphereVMStatus_ModuleUUID := VSphereVMStatus_ModuleUUID x;
  VSphereVMStatus_VMRef := VSphereVMStatus_VMRef x;
  VSphereVMStatus_V1Beta2 := v
|}.

Record VSphereVM := mkVSphereVM {
  VSphereVM_ObjectMeta : MetaV1;
  VSphereVM_Spec : VSphereVMSpec;
  VSphereVM_Status : VSphereVMStatus
}.

Definition zero_VSphereVM : VSphereVM :=
  mkVSphereVM zero_MetaV1 zero_VSphereVMSpec zero_VSphereVMStatus.

Definition set_VSphereVM_ObjectMeta (v : MetaV1) (x : VSphereVM) : VSphereVM := {|
  VSphereVM_ObjectMeta := v;
  VSphereVM_Spec := VSphereVM_Spec x;
  VSphereVM_Status := VSphereVM_Status x
|}.

Definition set_VSphereVM_Spec (v : VSphereVMSpec) (x : VSphereVM) : VSphereVM := {|
  VSphereVM_ObjectMeta := VSphereVM_ObjectMeta x;
  VSphereVM_Spec := v;
  VSphereVM_Status := VSphereVM_Status x
|}.

Record VSphereVMList := mkVSphereVMList {
  VSphereVMList_ListMeta : ListMeta;
  VSphereVMList_Items : option (list VSphereVM)
}.

Definition zero_VSphereVMList : VSphereVMList :=
  mkVSphereVMList zero_ListMeta None.

End infrav1beta1.
