(* ===== verification/GovmomiConv.v ===== *)
(** The conversions of [api/govmomi/v1beta1]: those of [zz_generated.conversion.go]
    ([autoConvert_] and the [Convert_] that only call one) and those written by hand in
    [conversion.go]. Each takes the object that is converted and the one that is
    filled in; a field that is not assigned keeps what it had. [cast_] is a cast of an unsafe pointer between structs
    with the same fields. *)
From S2P Require Export ConvLib GovmomiTypes Sorting.

Section conversions.
Context `{ConvLib}.

Definition autoConvert_v1beta1_APIEndpoint_To_v1beta2_APIEndpoint (x : infrav1beta1.APIEndpoint) (out : infrav1.APIEndpoint) : res infrav1.APIEndpoint :=
  mret {|
    infrav1.APIEndpoint_Host := infrav1beta1.APIEndpoint_Host x;
    infrav1.APIEndpoint_Port := infrav1beta1.APIEndpoint_Port x
  |}.

Definition Convert_v1beta1_APIEndpoint_To_v1beta2_APIEndpoint (x : infrav1beta1.APIEndpoint) (out : infrav1.APIEndpoint) : res infrav1.APIEndpoint :=
  autoConvert_v1beta1_APIEndpoint_To_v1beta2_APIEndpoint x out.

Definition autoConvert_v1beta2_APIEndpoint_To_v1beta1_APIEndpoint (x : infrav1.APIEndpoint) (out : infrav1beta1.APIEndpoint) : res infrav1beta1.APIEndpoint :=
  mret {|
    infrav1beta1.APIEndpoint_Host := infrav1.APIEndpoint_Host x;
    infrav1beta1.APIEndpoint_Port := infrav1.APIEndpoint_Port x
  |}.

Definition Convert_v1beta2_APIEndpoint_To_v1beta1_APIEndpoint (x : infrav1.APIEndpoint) (out : infrav1beta1.APIEndpoint) : res infrav1beta1.APIEndpoint :=
  autoConvert_v1beta2_APIEndpoint_To_v1beta1_APIEndpoint x out.

Definition autoConvert_v1beta1_AllowedNamespaces_To_v1beta2_AllowedNamespaces (x : infrav1beta1.AllowedNamespaces) (out : infrav1.AllowedNamespaces) : res infrav1.AllowedNamespaces :=
  mret {|
    infrav1.AllowedNamespaces_Selector := infrav1beta1.AllowedNamespaces_Selector x
  |}.

Definition Convert_v1beta1_AllowedNamespaces_To_v1beta2_AllowedNamespaces (x : infrav1beta1.AllowedNamespaces) (out : infrav1.AllowedNamespaces) : res infrav1.AllowedNamespaces :=
  autoConvert_v1beta1_AllowedNamespaces_To_v1beta2_AllowedNamespaces x out.

Definition autoConvert_v1beta2_AllowedNamespaces_To_v1beta1_AllowedNamespaces (x : infrav1.AllowedNamespaces) (out : infrav1beta1.AllowedNamespaces) : res infrav1beta1.AllowedNamespaces :=
  mret {|
    infrav1beta1.AllowedNamespaces_Selector := infrav1.AllowedNamespaces_Selector x
  |}.

Definition Convert_v1beta2_AllowedNamespaces_To_v1beta1_AllowedNamespaces (x : infrav1.AllowedNamespaces) (out : infrav1beta1.AllowedNamespaces) : res infrav1beta1.AllowedNamespaces :=
  autoConvert_v1beta2_AllowedNamespaces_To_v1beta1_AllowedNamespaces x out.

Definition autoConvert_v1beta1_ClusterModule_To_v1beta2_ClusterModule (x : infrav1beta1.ClusterModule) (out : infrav1.ClusterModule) : res infrav1.ClusterModule :=
  v_ControlPlane ← metav1_Convert_bool_To_Pointer_bool (infrav1beta1.ClusterModule_ControlPlane x);
  mret {|
    infrav1.ClusterModule_ControlPlane := v_ControlPlane;
    infrav1.ClusterModule_TargetObjectName := infrav1beta1.ClusterModule_TargetObjectName x;
    infrav1.ClusterModule_ModuleUUID := infrav1beta1.ClusterModule_ModuleUUID x
  |}.

Definition Convert_v1beta1_ClusterModule_To_v1beta2_ClusterModule (x : infrav1beta1.ClusterModule) (out : infrav1.ClusterModule) : res infrav1.ClusterModule :=
  autoConvert_v1beta1_ClusterModule_To_v1beta2_ClusterModule x out.

Definition autoConvert_v1beta2_ClusterModule_To_v1beta1_ClusterModule (x : infrav1.ClusterModule) (out : infrav1beta1.ClusterModule) : res infrav1beta1.ClusterModule :=
  v_ControlPlane ← metav1_Convert_Pointer_bool_To_bool (infrav1.ClusterModule_ControlPlane x);
  mret {|
    infrav1beta1.ClusterModule_ControlPlane := v_ControlPlane;
    infrav1beta1.ClusterModule_TargetObjectName := infrav1.ClusterModule_TargetObjectName x;
    infrav1beta1.ClusterModule_ModuleUUID := infrav1.ClusterModule_ModuleUUID x
  |}.

Definition Convert_v1beta2_ClusterModule_To_v1beta1_ClusterModule (x : infrav1.ClusterModule) (out : infrav1beta1.ClusterModule) : res infrav1beta1.ClusterModule :=
  autoConvert_v1beta2_ClusterModule_To_v1beta1_ClusterModule x out.

Definition autoConvert_v1beta1_DHCPOverrides_To_v1beta2_DHCPOverrides (x : infrav1beta1.DHCPOverrides) (out : infrav1.DHCPOverrides) : res infrav1.DHCPOverrides :=
  mret {|
    infrav1.DHCPOverrides_Hostname := infrav1beta1.DHCPOverrides_Hostname x;
    infrav1.DHCPOverrides_RouteMetric := option_map to_int32 (infrav1beta1.DHCPOverrides_RouteMetric x);
    infrav1.DHCPOverrides_SendHostname := infrav1beta1.DHCPOverrides_SendHostname x;
    infrav1.DHCPOverrides_UseDNS := infrav1beta1.DHCPOverrides_UseDNS x;
    infrav1.DHCPOverrides_UseDomains := infrav1beta1.DHCPOverrides_UseDomains x;
    infrav1.DHCPOverrides_UseHostname := infrav1beta1.DHCPOverrides_UseHostname x;
    infrav1.DHCPOverrides_UseMTU := infrav1beta1.DHCPOverrides_UseMTU x;
    infrav1.DHCPOverrides_UseNTP := infrav1beta1.DHCPOverrides_UseNTP x;
    infrav1.DHCPOverrides_UseRoutes := infrav1beta1.DHCPOverrides_UseRoutes x
  |}.

Definition Convert_v1beta1_DHCPOverrides_To_v1beta2_DHCPOverrides (x : infrav1beta1.DHCPOverrides) (out : infrav1.DHCPOverrides) : res infrav1.DHCPOverrides :=
  autoConvert_v1beta1_DHCPOverrides_To_v1beta2_DHCPOverrides x out.

Definition autoConvert_v1beta2_DHCPOverrides_To_v1beta1_DHCPOverrides (x : infrav1.DHCPOverrides) (out : infrav1beta1.DHCPOverrides) : res infrav1beta1.DHCPOverrides :=
  mret {|
    infrav1beta1.DHCPOverrides_Hostname := infrav1.DHCPOverrides_Hostname x;
    infrav1beta1.DHCPOverrides_RouteMetric := infrav1.DHCPOverrides_RouteMetric x;
    infrav1beta1.DHCPOverrides_SendHostname := infrav1.DHCPOverrides_SendHostname x;
    infrav1beta1.DHCPOverrides_UseDNS := infrav1.DHCPOverrides_UseDNS x;
    infrav1beta1.DHCPOverrides_UseDomains := infrav1.DHCPOverrides_UseDomains x;
    infrav1beta1.DHCPOverrides_UseHostname := infrav1.DHCPOverrides_UseHostname x;
    infrav1beta1.DHCPOverrides_UseMTU := infrav1.DHCPOverrides_UseMTU x;
    infrav1beta1.DHCPOverrides_UseNTP := infrav1.DHCPOverrides_UseNTP x;
    infrav1beta1.DHCPOverrides_UseRoutes := infrav1.DHCPOverrides_UseRoutes x
  |}.

Definition Convert_v1beta2_DHCPOverrides_To_v1beta1_DHCPOverrides (x : infrav1.DHCPOverrides) (out : infrav1beta1.DHCPOverrides) : res infrav1beta1.DHCPOverrides :=
  autoConvert_v1beta2_DHCPOverrides_To_v1beta1_DHCPOverrides x out.

Definition autoConvert_v1beta1_FailureDomain_To_v1beta2_FailureDomain (x : infrav1beta1.FailureDomain) (out : infrav1.FailureDomain) : res infrav1.FailureDomain :=
  mret {|
    infrav1.FailureDomain_Name := infrav1beta1.FailureDomain_Name x;
    infrav1.FailureDomain_Type := infrav1beta1.FailureDomain_Type x;
    infrav1.FailureDomain_TagCategory := infrav1beta1.FailureDomain_TagCategory x
  |}.

Definition autoConvert_v1beta2_FailureDomain_To_v1beta1_FailureDomain (x : infrav1.FailureDomain) (out : infrav1beta1.FailureDomain) : res infrav1beta1.FailureDomain :=
  mret {|
    infrav1beta1.FailureDomain_Name := infrav1.FailureDomain_Name x;
    infrav1beta1.FailureDomain_Type := infrav1.FailureDomain_Type x;
    infrav1beta1.FailureDomain_TagCategory := infrav1.FailureDomain_TagCategory x;
    infrav1beta1.FailureDomain_AutoConfigure := infrav1beta1.FailureDomain_AutoConfigure out
  |}.

Definition Convert_v1beta2_FailureDomain_To_v1beta1_FailureDomain (x : infrav1.FailureDomain) (out : infrav1beta1.FailureDomain) : res infrav1beta1.FailureDomain :=
  autoConvert_v1beta2_FailureDomain_To_v1beta1_FailureDomain x out.

Definition autoConvert_v1beta1_FailureDomainHosts_To_v1beta2_FailureDomainHosts (x : infrav1beta1.FailureDomainHosts) (out : infrav1.FailureDomainHosts) : res infrav1.FailureDomainHosts :=
  mret {|
    infrav1.FailureDomainHosts_VMGroupName := infrav1beta1.FailureDomainHosts_VMGroupName x;
    infrav1.FailureDomainHosts_HostGroupName := infrav1beta1.FailureDomainHosts_HostGroupName x
  |}.

Definition Convert_v1beta1_FailureDomainHosts_To_v1beta2_FailureDomainHosts (x : infrav1beta1.FailureDomainHosts) (out : infrav1.FailureDomainHosts) : res infrav1.FailureDomainHosts :=
  autoConvert_v1beta1_FailureDomainHosts_To_v1beta2_FailureDomainHosts x out.

Definition autoConvert_v1beta2_FailureDomainHosts_To_v1beta1_FailureDomainHosts (x : infrav1.FailureDomainHosts) (out : infrav1beta1.FailureDomainHosts) : res infrav1beta1.FailureDomainHosts :=
  mret {|
    infrav1beta1.FailureDomainHosts_VMGroupName := infrav1.FailureDomainHosts_VMGroupName x;
    infrav1beta1.FailureDomainHosts_HostGroupName := infrav1.FailureDomainHosts_HostGroupName x
  |}.

Definition Convert_v1beta2_FailureDomainHosts_To_v1beta1_FailureDomainHosts (x : infrav1.FailureDomainHosts) (out : infrav1beta1.FailureDomainHosts) : res infrav1beta1.FailureDomainHosts :=
  autoConvert_v1beta2_FailureDomainHosts_To_v1beta1_FailureDomainHosts x out.

Definition Convert_v1_TypedLocalObjectReference_To_v1beta2_IPPoolReference (x : TypedLocalObjectReference) (out : infrav1.IPPoolReference) : res infrav1.IPPoolReference :=
  mret {|
    infrav1.IPPoolReference_Name := tl_Name x;
    infrav1.IPPoolReference_Kind := tl_Kind x;
    infrav1.IPPoolReference_APIGroup := ptr_deref (tl_APIGroup x) ""
  |}.

Definition autoConvert_v1beta1_NetworkConfiguration_To_v1beta2_NetworkConfiguration (x : infrav1beta1.NetworkConfiguration) (out : infrav1.NetworkConfiguration) : res infrav1.NetworkConfiguration :=
  v_DHCP4Overrides ← convert_ptr (λ p, Convert_v1beta1_DHCPOverrides_To_v1beta2_DHCPOverrides p infrav1.zero_DHCPOverrides) (infrav1beta1.NetworkConfiguration_DHCP4Overrides x);
  v_DHCP6Overrides ← convert_ptr (λ p, Convert_v1beta1_DHCPOverrides_To_v1beta2_DHCPOverrides p infrav1.zero_DHCPOverrides) (infrav1beta1.NetworkConfiguration_DHCP6Overrides x);
  v_AddressesFromPools ← convert_slice (λ p, Convert_v1_TypedLocalObjectReference_To_v1beta2_IPPoolReference p infrav1.zero_IPPoolReference) (infrav1beta1.NetworkConfiguration_AddressesFromPools x);
  mret {|
    infrav1.NetworkConfiguration_NetworkName := infrav1beta1.NetworkConfiguration_NetworkName x;
    infrav1.NetworkConfiguration_DHCP4 := infrav1beta1.NetworkConfiguration_DHCP4 x;
    infrav1.NetworkConfiguration_DHCP6 := infrav1beta1.NetworkConfiguration_DHCP6 x;
    infrav1.NetworkConfiguration_Nameservers := infrav1beta1.NetworkConfiguration_Nameservers x;
    infrav1.NetworkConfiguration_SearchDomains := infrav1beta1.NetworkConfiguration_SearchDomains x;
    infrav1.NetworkConfiguration_DHCP4Overrides := v_DHCP4Overrides;
    infrav1.NetworkConfiguration_DHCP6Overrides := v_DHCP6Overrides;
    infrav1.NetworkConfiguration_AddressesFromPools := v_AddressesFromPools
  |}.

Definition Convert_v1beta1_NetworkConfiguration_To_v1beta2_NetworkConfiguration (x : infrav1beta1.NetworkConfiguration) (out : infrav1.NetworkConfiguration) : res infrav1.NetworkConfiguration :=
  autoConvert_v1beta1_NetworkConfiguration_To_v1beta2_NetworkConfiguration x out.

Definition Convert_v1beta2_IPPoolReference_To_v1_TypedLocalObjectReference (x : infrav1.IPPoolReference) (out : TypedLocalObjectReference) : res TypedLocalObjectReference :=
  mret {|
    tl_APIGroup := if String.eqb (infrav1.IPPoolReference_APIGroup x) "" then tl_APIGroup out else Some (infrav1.IPPoolReference_APIGroup x);
    tl_Kind := infrav1.IPPoolReference_Kind x;
    tl_Name := infrav1.IPPoolReference_Name x
  |}.

Definition autoConvert_v1beta2_NetworkConfiguration_To_v1beta1_NetworkConfiguration (x : infrav1.NetworkConfiguration) (out : infrav1beta1.NetworkConfiguration) : res infrav1beta1.NetworkConfiguration :=
  v_DHCP4Overrides ← convert_ptr (λ p, Convert_v1beta2_DHCPOverrides_To_v1beta1_DHCPOverrides p infrav1beta1.zero_DHCPOverrides) (infrav1.NetworkConfiguration_DHCP4Overrides x);
  v_DHCP6Overrides ← convert_ptr (λ p, Convert_v1beta2_DHCPOverrides_To_v1beta1_DHCPOverrides p infrav1beta1.zero_DHCPOverrides) (infrav1.NetworkConfiguration_DHCP6Overrides x);
  v_AddressesFromPools ← convert_slice (λ p, Convert_v1beta2_IPPoolReference_To_v1_TypedLocalObjectReference p zero_TypedLocalObjectReference) (infrav1.NetworkConfiguration_AddressesFromPools x);
  mret {|
    infrav1beta1.NetworkConfiguration_NetworkName := infrav1.NetworkConfiguration_NetworkName x;
    infrav1beta1.NetworkConfiguration_DHCP4 := infrav1.NetworkConfiguration_DHCP4 x;
    infrav1beta1.NetworkConfiguration_DHCP6 := infrav1.NetworkConfiguration_DHCP6 x;
    infrav1beta1.NetworkConfiguration_Nameservers := infrav1.NetworkConfiguration_Nameservers x;
    infrav1beta1.NetworkConfiguration_SearchDomains := infrav1.NetworkConfiguration_SearchDomains x;
    infrav1beta1.NetworkConfiguration_DHCP4Overrides := v_DHCP4Overrides;
    infrav1beta1.NetworkConfiguration_DHCP6Overrides := v_DHCP6Overrides;
    infrav1beta1.NetworkConfiguration_AddressesFromPools := v_AddressesFromPools
  |}.

Definition Convert_v1beta2_NetworkConfiguration_To_v1beta1_NetworkConfiguration (x : infrav1.NetworkConfiguration) (out : infrav1beta1.NetworkConfiguration) : res infrav1beta1.NetworkConfiguration :=
  autoConvert_v1beta2_NetworkConfiguration_To_v1beta1_NetworkConfiguration x out.

Definition autoConvert_v1beta1_NetworkRouteSpec_To_v1beta2_NetworkRouteSpec (x : infrav1beta1.NetworkRouteSpec) (out : infrav1.NetworkRouteSpec) : res infrav1.NetworkRouteSpec :=
  v_Metric ← metav1_Convert_int32_To_Pointer_int32 (infrav1beta1.NetworkRouteSpec_Metric x);
  mret {|
    infrav1.NetworkRouteSpec_To := infrav1beta1.NetworkRouteSpec_To x;
    infrav1.NetworkRouteSpec_Via := infrav1beta1.NetworkRouteSpec_Via x;
    infrav1.NetworkRouteSpec_Metric := v_Metric
  |}.

Definition Convert_v1beta1_NetworkRouteSpec_To_v1beta2_NetworkRouteSpec (x : infrav1beta1.NetworkRouteSpec) (out : infrav1.NetworkRouteSpec) : res infrav1.NetworkRouteSpec :=
  autoConvert_v1beta1_NetworkRouteSpec_To_v1beta2_NetworkRouteSpec x out.

Definition autoConvert_v1beta1_NetworkDeviceSpec_To_v1beta2_NetworkDeviceSpec (x : infrav1beta1.NetworkDeviceSpec) (out : infrav1.NetworkDeviceSpec) : res infrav1.NetworkDeviceSpec :=
  v_DHCP4 ← metav1_Convert_bool_To_Pointer_bool (infrav1beta1.NetworkDeviceSpec_DHCP4 x);
  v_DHCP6 ← metav1_Convert_bool_To_Pointer_bool (infrav1beta1.NetworkDeviceSpec_DHCP6 x);
  v_Routes ← convert_slice (λ p, Convert_v1beta1_NetworkRouteSpec_To_v1beta2_NetworkRouteSpec p infrav1.zero_NetworkRouteSpec) (infrav1beta1.NetworkDeviceSpec_Routes x);
  v_AddressesFromPools ← convert_slice (λ p, Convert_v1_TypedLocalObjectReference_To_v1beta2_IPPoolReference p infrav1.zero_IPPoolReference) (infrav1beta1.NetworkDeviceSpec_AddressesFromPools x);
  v_DHCP4Overrides ← convert_ptr (λ p, Convert_v1beta1_DHCPOverrides_To_v1beta2_DHCPOverrides p infrav1.zero_DHCPOverrides) (infrav1beta1.NetworkDeviceSpec_DHCP4Overrides x);
  v_DHCP6Overrides ← convert_ptr (λ p, Convert_v1beta1_DHCPOverrides_To_v1beta2_DHCPOverrides p infrav1.zero_DHCPOverrides) (infrav1beta1.NetworkDeviceSpec_DHCP6Overrides x);
  v_SkipIPAllocation ← metav1_Convert_bool_To_Pointer_bool (infrav1beta1.NetworkDeviceSpec_SkipIPAllocation x);
  mret {|
    infrav1.NetworkDeviceSpec_NetworkName := infrav1beta1.NetworkDeviceSpec_NetworkName x;
    infrav1.NetworkDeviceSpec_DeviceName := infrav1beta1.NetworkDeviceSpec_DeviceName x;
    infrav1.NetworkDeviceSpec_DHCP4 := v_DHCP4;
    infrav1.NetworkDeviceSpec_DHCP6 := v_DHCP6;
    infrav1.NetworkDeviceSpec_Gateway4 := infrav1beta1.NetworkDeviceSpec_Gateway4 x;
    infrav1.NetworkDeviceSpec_Gateway6 := infrav1beta1.NetworkDeviceSpec_Gateway6 x;
    infrav1.NetworkDeviceSpec_IPAddrs := infrav1beta1.NetworkDeviceSpec_IPAddrs x;
    infrav1.NetworkDeviceSpec_MTU := infrav1beta1.NetworkDeviceSpec_MTU x;
    infrav1.NetworkDeviceSpec_MACAddr := infrav1beta1.NetworkDeviceSpec_MACAddr x;
    infrav1.NetworkDeviceSpec_Nameservers := infrav1beta1.NetworkDeviceSpec_Nameservers x;
    infrav1.NetworkDeviceSpec_Routes := v_Routes;
    infrav1.NetworkDeviceSpec_SearchDomains := infrav1beta1.NetworkDeviceSpec_SearchDomains x;
    infrav1.NetworkDeviceSpec_AddressesFromPools := v_AddressesFromPools;
    infrav1.NetworkDeviceSpec_DHCP4Overrides := v_DHCP4Overrides;
    infrav1.NetworkDeviceSpec_DHCP6Overrides := v_DHCP6Overrides;
    infrav1.NetworkDeviceSpec_SkipIPAllocation := v_SkipIPAllocation
  |}.

Definition Convert_v1beta1_NetworkDeviceSpec_To_v1beta2_NetworkDeviceSpec (x : infrav1beta1.NetworkDeviceSpec) (out : infrav1.NetworkDeviceSpec) : res infrav1.NetworkDeviceSpec :=
  autoConvert_v1beta1_NetworkDeviceSpec_To_v1beta2_NetworkDeviceSpec x out.

Definition autoConvert_v1beta2_NetworkRouteSpec_To_v1beta1_NetworkRouteSpec (x : infrav1.NetworkRouteSpec) (out : infrav1beta1.NetworkRouteSpec) : res infrav1beta1.NetworkRouteSpec :=
  v_Metric ← metav1_Convert_Pointer_int32_To_int32 (infrav1.NetworkRouteSpec_Metric x);
  mret {|
    infrav1beta1.NetworkRouteSpec_To := infrav1.NetworkRouteSpec_To x;
    infrav1beta1.NetworkRouteSpec_Via := infrav1.NetworkRouteSpec_Via x;
    infrav1beta1.NetworkRouteSpec_Metric := v_Metric
  |}.

Definition Convert_v1beta2_NetworkRouteSpec_To_v1beta1_NetworkRouteSpec (x : infrav1.NetworkRouteSpec) (out : infrav1beta1.NetworkRouteSpec) : res infrav1beta1.NetworkRouteSpec :=
  autoConvert_v1beta2_NetworkRouteSpec_To_v1beta1_NetworkRouteSpec x out.

Definition autoConvert_v1beta2_NetworkDeviceSpec_To_v1beta1_NetworkDeviceSpec (x : infrav1.NetworkDeviceSpec) (out : infrav1beta1.NetworkDeviceSpec) : res infrav1beta1.NetworkDeviceSpec :=
  v_DHCP4 ← metav1_Convert_Pointer_bool_To_bool (infrav1.NetworkDeviceSpec_DHCP4 x);
  v_DHCP6 ← metav1_Convert_Pointer_bool_To_bool (infrav1.NetworkDeviceSpec_DHCP6 x);
  v_Routes ← convert_slice (λ p, Convert_v1beta2_NetworkRouteSpec_To_v1beta1_NetworkRouteSpec p infrav1beta1.zero_NetworkRouteSpec) (infrav1.NetworkDeviceSpec_Routes x);
  v_AddressesFromPools ← convert_slice (λ p, Convert_v1beta2_IPPoolReference_To_v1_TypedLocalObjectReference p zero_TypedLocalObjectReference) (infrav1.NetworkDeviceSpec_AddressesFromPools x);
  v_DHCP4Overrides ← convert_ptr (λ p, Convert_v1beta2_DHCPOverrides_To_v1beta1_DHCPOverrides p infrav1beta1.zero_DHCPOverrides) (infrav1.NetworkDeviceSpec_DHCP4Overrides x);
  v_DHCP6Overrides ← convert_ptr (λ p, Convert_v1beta2_DHCPOverrides_To_v1beta1_DHCPOverrides p infrav1beta1.zero_DHCPOverrides) (infrav1.NetworkDeviceSpec_DHCP6Overrides x);
  v_SkipIPAllocation ← metav1_Convert_Pointer_bool_To_bool (infrav1.NetworkDeviceSpec_SkipIPAllocation x);
  mret {|
    infrav1beta1.NetworkDeviceSpec_NetworkName := infrav1.NetworkDeviceSpec_NetworkName x;
    infrav1beta1.NetworkDeviceSpec_DeviceName := infrav1.NetworkDeviceSpec_DeviceName x;
    infrav1beta1.NetworkDeviceSpec_DHCP4 := v_DHCP4;
    infrav1beta1.NetworkDeviceSpec_DHCP6 := v_DHCP6;
    infrav1beta1.NetworkDeviceSpec_Gateway4 := infrav1.NetworkDeviceSpec_Gateway4 x;
    infrav1beta1.NetworkDeviceSpec_Gateway6 := infrav1.NetworkDeviceSpec_Gateway6 x;
    infrav1beta1.NetworkDeviceSpec_IPAddrs := infrav1.NetworkDeviceSpec_IPAddrs x;
    infrav1beta1.NetworkDeviceSpec_MTU := infrav1.NetworkDeviceSpec_MTU x;
    infrav1beta1.NetworkDeviceSpec_MACAddr := infrav1.NetworkDeviceSpec_MACAddr x;
    infrav1beta1.NetworkDeviceSpec_Nameservers := infrav1.NetworkDeviceSpec_Nameservers x;
    infrav1beta1.NetworkDeviceSpec_Routes := v_Routes;
    infrav1beta1.NetworkDeviceSpec_SearchDomains := infrav1.NetworkDeviceSpec_SearchDomains x;
    infrav1beta1.NetworkDeviceSpec_AddressesFromPools := v_AddressesFromPools;
    infrav1beta1.NetworkDeviceSpec_DHCP4Overrides := v_DHCP4Overrides;
    infrav1beta1.NetworkDeviceSpec_DHCP6Overrides := v_DHCP6Overrides;
    infrav1beta1.NetworkDeviceSpec_SkipIPAllocation := v_SkipIPAllocation
  |}.

Definition Convert_v1beta2_NetworkDeviceSpec_To_v1beta1_NetworkDeviceSpec (x : infrav1.NetworkDeviceSpec) (out : infrav1beta1.NetworkDeviceSpec) : res infrav1beta1.NetworkDeviceSpec :=
  autoConvert_v1beta2_NetworkDeviceSpec_To_v1beta1_NetworkDeviceSpec x out.

Definition autoConvert_v1beta1_NetworkSpec_To_v1beta2_NetworkSpec (x : infrav1beta1.NetworkSpec) (out : infrav1.NetworkSpec) : res infrav1.NetworkSpec :=
  v_Devices ← convert_slice (λ p, Convert_v1beta1_NetworkDeviceSpec_To_v1beta2_NetworkDeviceSpec p infrav1.zero_NetworkDeviceSpec) (infrav1beta1.NetworkSpec_Devices x);
  v_Routes ← convert_slice (λ p, Convert_v1beta1_NetworkRouteSpec_To_v1beta2_NetworkRouteSpec p infrav1.zero_NetworkRouteSpec) (infrav1beta1.NetworkSpec_Routes x);
  mret {|
    infrav1.NetworkSpec_Devices := v_Devices;
    infrav1.NetworkSpec_Routes := v_Routes
  |}.

Definition autoConvert_v1beta2_NetworkSpec_To_v1beta1_NetworkSpec (x : infrav1.NetworkSpec) (out : infrav1beta1.NetworkSpec) : res infrav1beta1.NetworkSpec :=
  v_Devices ← convert_slice (λ p, Convert_v1beta2_NetworkDeviceSpec_To_v1beta1_NetworkDeviceSpec p infrav1beta1.zero_NetworkDeviceSpec) (infrav1.NetworkSpec_Devices x);
  v_Routes ← convert_slice (λ p, Convert_v1beta2_NetworkRouteSpec_To_v1beta1_NetworkRouteSpec p infrav1beta1.zero_NetworkRouteSpec) (infrav1.NetworkSpec_Routes x);
  mret {|
    infrav1beta1.NetworkSpec_Devices := v_Devices;
    infrav1beta1.NetworkSpec_Routes := v_Routes;
    infrav1beta1.NetworkSpec_PreferredAPIServerCIDR := infrav1beta1.NetworkSpec_PreferredAPIServerCIDR out
  |}.

Definition Convert_v1beta2_NetworkSpec_To_v1beta1_NetworkSpec (x : infrav1.NetworkSpec) (out : infrav1beta1.NetworkSpec) : res infrav1beta1.NetworkSpec :=
  autoConvert_v1beta2_NetworkSpec_To_v1beta1_NetworkSpec x out.

Definition autoConvert_v1beta1_NetworkStatus_To_v1beta2_NetworkStatus (x : infrav1beta1.NetworkStatus) (out : infrav1.NetworkStatus) : res infrav1.NetworkStatus :=
  v_Connected ← metav1_Convert_bool_To_Pointer_bool (infrav1beta1.NetworkStatus_Connected x);
  mret {|
    infrav1.NetworkStatus_Connected := v_Connected;
    infrav1.NetworkStatus_IPAddrs := infrav1beta1.NetworkStatus_IPAddrs x;
    infrav1.NetworkStatus_MACAddr := infrav1beta1.NetworkStatus_MACAddr x;
    infrav1.NetworkStatus_NetworkName := infrav1beta1.NetworkStatus_NetworkName x
  |}.

Definition Convert_v1beta1_NetworkStatus_To_v1beta2_NetworkStatus (x : infrav1beta1.NetworkStatus) (out : infrav1.NetworkStatus) : res infrav1.NetworkStatus :=
  autoConvert_v1beta1_NetworkStatus_To_v1beta2_NetworkStatus x out.

Definition autoConvert_v1beta2_NetworkStatus_To_v1beta1_NetworkStatus (x : infrav1.NetworkStatus) (out : infrav1beta1.NetworkStatus) : res infrav1beta1.NetworkStatus :=
  v_Connected ← metav1_Convert_Pointer_bool_To_bool (infrav1.NetworkStatus_Connected x);
  mret {|
    infrav1beta1.NetworkStatus_Connected := v_Connected;
    infrav1beta1.NetworkStatus_IPAddrs := infrav1.NetworkStatus_IPAddrs x;
    infrav1beta1.NetworkStatus_MACAddr := infrav1.NetworkStatus_MACAddr x;
    infrav1beta1.NetworkStatus_NetworkName := infrav1.NetworkStatus_NetworkName x
  |}.

Definition Convert_v1beta2_NetworkStatus_To_v1beta1_NetworkStatus (x : infrav1.NetworkStatus) (out : infrav1beta1.NetworkStatus) : res infrav1beta1.NetworkStatus :=
  autoConvert_v1beta2_NetworkStatus_To_v1beta1_NetworkStatus x out.

Definition autoConvert_v1beta1_PCIDeviceSpec_To_v1beta2_PCIDeviceSpec (x : infrav1beta1.PCIDeviceSpec) (out : infrav1.PCIDeviceSpec) : res infrav1.PCIDeviceSpec :=
  mret {|
    infrav1.PCIDeviceSpec_DeviceID := infrav1beta1.PCIDeviceSpec_DeviceID x;
    infrav1.PCIDeviceSpec_VendorID := infrav1beta1.PCIDeviceSpec_VendorID x;
    infrav1.PCIDeviceSpec_VGPUProfile := infrav1beta1.PCIDeviceSpec_VGPUProfile x;
    infrav1.PCIDeviceSpec_CustomLabel := infrav1beta1.PCIDeviceSpec_CustomLabel x
  |}.

Definition Convert_v1beta1_PCIDeviceSpec_To_v1beta2_PCIDeviceSpec (x : infrav1beta1.PCIDeviceSpec) (out : infrav1.PCIDeviceSpec) : res infrav1.PCIDeviceSpec :=
  autoConvert_v1beta1_PCIDeviceSpec_To_v1beta2_PCIDeviceSpec x out.

Definition autoConvert_v1beta2_PCIDeviceSpec_To_v1beta1_PCIDeviceSpec (x : infrav1.PCIDeviceSpec) (out : infrav1beta1.PCIDeviceSpec) : res infrav1beta1.PCIDeviceSpec :=
  mret {|
    infrav1beta1.PCIDeviceSpec_DeviceID := infrav1.PCIDeviceSpec_DeviceID x;
    infrav1beta1.PCIDeviceSpec_VendorID := infrav1.PCIDeviceSpec_VendorID x;
    infrav1beta1.PCIDeviceSpec_VGPUProfile := infrav1.PCIDeviceSpec_VGPUProfile x;
    infrav1beta1.PCIDeviceSpec_CustomLabel := infrav1.PCIDeviceSpec_CustomLabel x
  |}.

Definition Convert_v1beta2_PCIDeviceSpec_To_v1beta1_PCIDeviceSpec (x : infrav1.PCIDeviceSpec) (out : infrav1beta1.PCIDeviceSpec) : res infrav1beta1.PCIDeviceSpec :=
  autoConvert_v1beta2_PCIDeviceSpec_To_v1beta1_PCIDeviceSpec x out.

Definition autoConvert_v1beta1_PlacementConstraint_To_v1beta2_PlacementConstraint (x : infrav1beta1.PlacementConstraint) (out : infrav1.PlacementConstraint) : res infrav1.PlacementConstraint :=
  mret {|
    infrav1.PlacementConstraint_ResourcePool := infrav1beta1.PlacementConstraint_ResourcePool x;
    infrav1.PlacementConstraint_Folder := infrav1beta1.PlacementConstraint_Folder x
  |}.

Definition Convert_v1beta1_PlacementConstraint_To_v1beta2_PlacementConstraint (x : infrav1beta1.PlacementConstraint) (out : infrav1.PlacementConstraint) : res infrav1.PlacementConstraint :=
  autoConvert_v1beta1_PlacementConstraint_To_v1beta2_PlacementConstraint x out.

Definition autoConvert_v1beta2_PlacementConstraint_To_v1beta1_PlacementConstraint (x : infrav1.PlacementConstraint) (out : infrav1beta1.PlacementConstraint) : res infrav1beta1.PlacementConstraint :=
  mret {|
    infrav1beta1.PlacementConstraint_ResourcePool := infrav1.PlacementConstraint_ResourcePool x;
    infrav1beta1.PlacementConstraint_Folder := infrav1.PlacementConstraint_Folder x
  |}.

Definition Convert_v1beta2_PlacementConstraint_To_v1beta1_PlacementConstraint (x : infrav1.PlacementConstraint) (out : infrav1beta1.PlacementConstraint) : res infrav1beta1.PlacementConstraint :=
  autoConvert_v1beta2_PlacementConstraint_To_v1beta1_PlacementConstraint x out.

Definition autoConvert_v1beta1_SSHUser_To_v1beta2_SSHUser (x : infrav1beta1.SSHUser) (out : infrav1.SSHUser) : res infrav1.SSHUser :=
  mret {|
    infrav1.SSHUser_Name := infrav1beta1.SSHUser_Name x;
    infrav1.SSHUser_AuthorizedKeys := infrav1beta1.SSHUser_AuthorizedKeys x
  |}.

Definition Convert_v1beta1_SSHUser_To_v1beta2_SSHUser (x : infrav1beta1.SSHUser) (out : infrav1.SSHUser) : res infrav1.SSHUser :=
  autoConvert_v1beta1_SSHUser_To_v1beta2_SSHUser x out.

Definition autoConvert_v1beta2_SSHUser_To_v1beta1_SSHUser (x : infrav1.SSHUser) (out : infrav1beta1.SSHUser) : res infrav1beta1.SSHUser :=
  mret {|
    infrav1beta1.SSHUser_Name := infrav1.SSHUser_Name x;
    infrav1beta1.SSHUser_AuthorizedKeys := infrav1.SSHUser_AuthorizedKeys x
  |}.

Definition Convert_v1beta2_SSHUser_To_v1beta1_SSHUser (x : infrav1.SSHUser) (out : infrav1beta1.SSHUser) : res infrav1beta1.SSHUser :=
  autoConvert_v1beta2_SSHUser_To_v1beta1_SSHUser x out.

Definition autoConvert_v1beta1_Topology_To_v1beta2_Topology (x : infrav1beta1.Topology) (out : infrav1.Topology) : res infrav1.Topology :=
  v_ComputeCluster ← metav1_Convert_Pointer_string_To_string (infrav1beta1.Topology_ComputeCluster x);
  v_NetworkConfigurations ← convert_slice (λ p, Convert_v1beta1_NetworkConfiguration_To_v1beta2_NetworkConfiguration p infrav1.zero_NetworkConfiguration) (infrav1beta1.Topology_NetworkConfigurations x);
  mret {|
    infrav1.Topology_Datacenter := infrav1beta1.Topology_Datacenter x;
    infrav1.Topology_ComputeCluster := v_ComputeCluster;
    infrav1.Topology_Hosts := infrav1.Topology_Hosts out;
    infrav1.Topology_Networks := infrav1beta1.Topology_Networks x;
    infrav1.Topology_NetworkConfigurations := v_NetworkConfigurations;
    infrav1.Topology_Datastore := infrav1beta1.Topology_Datastore x
  |}.

Definition autoConvert_v1beta2_Topology_To_v1beta1_Topology (x : infrav1.Topology) (out : infrav1beta1.Topology) : res infrav1beta1.Topology :=
  v_ComputeCluster ← metav1_Convert_string_To_Pointer_string (infrav1.Topology_ComputeCluster x);
  v_NetworkConfigurations ← convert_slice (λ p, Convert_v1beta2_NetworkConfiguration_To_v1beta1_NetworkConfiguration p infrav1beta1.zero_NetworkConfiguration) (infrav1.Topology_NetworkConfigurations x);
  mret {|
    infrav1beta1.Topology_Datacenter := infrav1.Topology_Datacenter x;
    infrav1beta1.Topology_ComputeCluster := v_ComputeCluster;
    infrav1beta1.Topology_Hosts := infrav1beta1.Topology_Hosts out;
    infrav1beta1.Topology_Networks := infrav1.Topology_Networks x;
    infrav1beta1.Topology_NetworkConfigurations := v_NetworkConfigurations;
    infrav1beta1.Topology_Datastore := infrav1.Topology_Datastore x
  |}.

Definition autoConvert_v1beta1_VSphereClusterSpec_To_v1beta2_VSphereClusterSpec (x : infrav1beta1.VSphereClusterSpec) (out : infrav1.VSphereClusterSpec) : res infrav1.VSphereClusterSpec :=
  v_ControlPlaneEndpoint ← Convert_v1beta1_APIEndpoint_To_v1beta2_APIEndpoint (infrav1beta1.VSphereClusterSpec_ControlPlaneEndpoint x) (infrav1.VSphereClusterSpec_ControlPlaneEndpoint out);
  v_ClusterModules ← convert_slice (λ p, Convert_v1beta1_ClusterModule_To_v1beta2_ClusterModule p infrav1.zero_ClusterModule) (infrav1beta1.VSphereClusterSpec_ClusterModules x);
  v_DisableClusterModule ← metav1_Convert_bool_To_Pointer_bool (infrav1beta1.VSphereClusterSpec_DisableClusterModule x);
  mret {|
    infrav1.VSphereClusterSpec_Server := infrav1beta1.VSphereClusterSpec_Server x;
    infrav1.VSphereClusterSpec_Thumbprint := infrav1beta1.VSphereClusterSpec_Thumbprint x;
    infrav1.VSphereClusterSpec_ControlPlaneEndpoint := v_ControlPlaneEndpoint;
    infrav1.VSphereClusterSpec_IdentityRef := infrav1.VSphereClusterSpec_IdentityRef out;
    infrav1.VSphereClusterSpec_ClusterModules := v_ClusterModules;
    infrav1.VSphereClusterSpec_DisableClusterModule := v_DisableClusterModule;
    infrav1.VSphereClusterSpec_FailureDomainSelector := infrav1beta1.VSphereClusterSpec_FailureDomainSelector x
  |}.

Definition autoConvert_v1beta1_VSphereIdentityReference_To_v1beta2_VSphereIdentityReference (x : infrav1beta1.VSphereIdentityReference) (out : infrav1.VSphereIdentityReference) : res infrav1.VSphereIdentityReference :=
  mret {|
    infrav1.VSphereIdentityReference_Kind := infrav1beta1.VSphereIdentityReference_Kind x;
    infrav1.VSphereIdentityReference_Name := infrav1beta1.VSphereIdentityReference_Name x
  |}.

Definition Convert_v1beta1_VSphereClusterSpec_To_v1beta2_VSphereClusterSpec (x : infrav1beta1.VSphereClusterSpec) (out : infrav1.VSphereClusterSpec) : res infrav1.VSphereClusterSpec :=
  out ← autoConvert_v1beta1_VSphereClusterSpec_To_v1beta2_VSphereClusterSpec x out;
  match infrav1beta1.VSphereClusterSpec_IdentityRef x with
  | None => Ok out
  | Some identityRef =>
      identityRef ← autoConvert_v1beta1_VSphereIdentityReference_To_v1beta2_VSphereIdentityReference
        identityRef (infrav1.VSphereClusterSpec_IdentityRef out);
      Ok (infrav1.set_VSphereClusterSpec_IdentityRef identityRef out)
  end.

Definition Convert_v1beta1_Condition_To_v1_Condition (_ : V1Beta1Condition) (out : Condition) : res Condition := mret out.

Definition autoConvert_v1beta1_VSphereClusterStatus_To_v1beta2_VSphereClusterStatus (x : infrav1beta1.VSphereClusterStatus) (out : infrav1.VSphereClusterStatus) : res infrav1.VSphereClusterStatus :=
  v_Conditions ← convert_slice (λ p, Convert_v1beta1_Condition_To_v1_Condition p zero_Condition) (infrav1beta1.VSphereClusterStatus_Conditions x);
  mret {|
    infrav1.VSphereClusterStatus_Conditions := v_Conditions;
    infrav1.VSphereClusterStatus_Initialization := infrav1.VSphereClusterStatus_Initialization out;
    infrav1.VSphereClusterStatus_FailureDomains := infrav1.VSphereClusterStatus_FailureDomains out;
    infrav1.VSphereClusterStatus_VCenterVersion := infrav1beta1.VSphereClusterStatus_VCenterVersion x;
    infrav1.VSphereClusterStatus_Deprecated := infrav1.VSphereClusterStatus_Deprecated out
  |}.

(** The loop over the sorted names of that map. *)
Definition failure_domains_of_map (m : gmap string FailureDomainSpec) : list FailureDomain :=
  omap (λ name, fd ← m !! name; Some (mkFailureDomain name (Some (fp_ControlPlane fd)) (fp_Attributes fd)))
    (sort_by id (map fst (map_to_list m))).

Definition Convert_v1beta1_VSphereClusterStatus_To_v1beta2_VSphereClusterStatus (x : infrav1beta1.VSphereClusterStatus) (out : infrav1.VSphereClusterStatus) : res infrav1.VSphereClusterStatus :=
  out ← autoConvert_v1beta1_VSphereClusterStatus_To_v1beta2_VSphereClusterStatus x out;
  let out := infrav1.set_VSphereClusterStatus_Conditions None out in
  let out := match infrav1beta1.VSphereClusterStatus_V1Beta2 x with
    | Some v1beta2 => infrav1.set_VSphereClusterStatus_Conditions (infrav1beta1.VSphereClusterV1Beta2Status_Conditions v1beta2) out
    | None => out
    end in
  let out := match infrav1beta1.VSphereClusterStatus_FailureDomains x with
    | Some failureDomains => infrav1.set_VSphereClusterStatus_FailureDomains (Some (failure_domains_of_map failureDomains)) out
    | None => out
    end in
  match infrav1beta1.VSphereClusterStatus_Conditions x with
  | None => Ok out
  | Some conditions =>
      Ok (infrav1.set_VSphereClusterStatus_Deprecated (Some (infrav1.mkVSphereClusterDeprecatedStatus (Some
        (infrav1.mkVSphereClusterV1Beta1DeprecatedStatus
          (Some (Convert_v1beta1_Conditions_To_v1beta2_Deprecated_V1Beta1_Conditions conditions)))))) out)
  end.

Definition autoConvert_v1beta1_VSphereCluster_To_v1beta2_VSphereCluster (x : infrav1beta1.VSphereCluster) (out : infrav1.VSphereCluster) : res infrav1.VSphereCluster :=
  v_Spec ← Convert_v1beta1_VSphereClusterSpec_To_v1beta2_VSphereClusterSpec (infrav1beta1.VSphereCluster_Spec x) (infrav1.VSphereCluster_Spec out);
  v_Status ← Convert_v1beta1_VSphereClusterStatus_To_v1beta2_VSphereClusterStatus (infrav1beta1.VSphereCluster_Status x) (infrav1.VSphereCluster_Status out);
  mret {|
    infrav1.VSphereCluster_ObjectMeta := infrav1beta1.VSphereCluster_ObjectMeta x;
    infrav1.VSphereCluster_Spec := v_Spec;
    infrav1.VSphereCluster_Status := v_Status
  |}.

Definition Convert_v1beta1_VSphereCluster_To_v1beta2_VSphereCluster (x : infrav1beta1.VSphereCluster) (out : infrav1.VSphereCluster) : res infrav1.VSphereCluster :=
  autoConvert_v1beta1_VSphereCluster_To_v1beta2_VSphereCluster x out.

Definition autoConvert_v1beta2_VSphereIdentityReference_To_v1beta1_VSphereIdentityReference (x : infrav1.VSphereIdentityReference) (out : infrav1beta1.VSphereIdentityReference) : res infrav1beta1.VSphereIdentityReference :=
  mret {|
    infrav1beta1.VSphereIdentityReference_Kind := infrav1.VSphereIdentityReference_Kind x;
    infrav1beta1.VSphereIdentityReference_Name := infrav1.VSphereIdentityReference_Name x
  |}.

Definition autoConvert_v1beta2_VSphereClusterSpec_To_v1beta1_VSphereClusterSpec (x : infrav1.VSphereClusterSpec) (out : infrav1beta1.VSphereClusterSpec) : res infrav1beta1.VSphereClusterSpec :=
  v_ControlPlaneEndpoint ← Convert_v1beta2_APIEndpoint_To_v1beta1_APIEndpoint (infrav1.VSphereClusterSpec_ControlPlaneEndpoint x) (infrav1beta1.VSphereClusterSpec_ControlPlaneEndpoint out);
  v_ClusterModules ← convert_slice (λ p, Convert_v1beta2_ClusterModule_To_v1beta1_ClusterModule p infrav1beta1.zero_ClusterModule) (infrav1.VSphereClusterSpec_ClusterModules x);
  v_DisableClusterModule ← metav1_Convert_Pointer_bool_To_bool (infrav1.VSphereClusterSpec_DisableClusterModule x);
  mret {|
    infrav1beta1.VSphereClusterSpec_Server := infrav1.VSphereClusterSpec_Server x;
    infrav1beta1.VSphereClusterSpec_Thumbprint := infrav1.VSphereClusterSpec_Thumbprint x;
    infrav1beta1.VSphereClusterSpec_ControlPlaneEndpoint := v_ControlPlaneEndpoint;
    infrav1beta1.VSphereClusterSpec_IdentityRef := infrav1beta1.VSphereClusterSpec_IdentityRef out;
    infrav1beta1.VSphereClusterSpec_ClusterModules := v_ClusterModules;
    infrav1beta1.VSphereClusterSpec_DisableClusterModule := v_DisableClusterModule;
    infrav1beta1.VSphereClusterSpec_FailureDomainSelector := infrav1.VSphereClusterSpec_FailureDomainSelector x
  |}.

Definition Convert_v1beta2_VSphereClusterSpec_To_v1beta1_VSphereClusterSpec (x : infrav1.VSphereClusterSpec) (out : infrav1beta1.VSphereClusterSpec) : res infrav1beta1.VSphereClusterSpec :=
  out ← autoConvert_v1beta2_VSphereClusterSpec_To_v1beta1_VSphereClusterSpec x out;
  if bool_decide (infrav1.VSphereClusterSpec_IdentityRef x = infrav1.zero_VSphereIdentityReference) then Ok out
  else
    identityRef ← autoConvert_v1beta2_VSphereIdentityReference_To_v1beta1_VSphereIdentityReference
      (infrav1.VSphereClusterSpec_IdentityRef x) infrav1beta1.zero_VSphereIdentityReference;
    Ok (infrav1beta1.set_VSphereClusterSpec_IdentityRef (Some identityRef) out).

(** The loop that puts failure domains into the map of v1beta1; of two with a name the later one stays. *)
Definition failure_domains_to_map (failureDomains : list FailureDomain) : gmap string FailureDomainSpec :=
  fold_left (λ m fd, <[fo_Name fd := mkFailureDomainSpec (ptr_deref (fo_ControlPlane fd) false) (fo_Attributes fd)]> m) failureDomains ∅.

Definition Convert_v1_Condition_To_v1beta1_Condition (_ : Condition) (out : V1Beta1Condition) : res V1Beta1Condition := mret out.

Definition autoConvert_v1beta2_VSphereClusterStatus_To_v1beta1_VSphereClusterStatus (x : infrav1.VSphereClusterStatus) (out : infrav1beta1.VSphereClusterStatus) : res infrav1beta1.VSphereClusterStatus :=
  v_Conditions ← convert_slice (λ p, Convert_v1_Condition_To_v1beta1_Condition p zero_V1Beta1Condition) (infrav1.VSphereClusterStatus_Conditions x);
  mret {|
    infrav1beta1.VSphereClusterStatus_Ready := infrav1beta1.VSphereClusterStatus_Ready out;
    infrav1beta1.VSphereClusterStatus_Conditions := v_Conditions;
    infrav1beta1.VSphereClusterStatus_FailureDomains := infrav1beta1.VSphereClusterStatus_FailureDomains out;
    infrav1beta1.VSphereClusterStatus_VCenterVersion := infrav1.VSphereClusterStatus_VCenterVersion x;
    infrav1beta1.VSphereClusterStatus_V1Beta2 := infrav1beta1.VSphereClusterStatus_V1Beta2 out
  |}.

Definition Convert_v1beta2_VSphereClusterStatus_To_v1beta1_VSphereClusterStatus (x : infrav1.VSphereClusterStatus) (out : infrav1beta1.VSphereClusterStatus) : res infrav1beta1.VSphereClusterStatus :=
  out ← autoConvert_v1beta2_VSphereClusterStatus_To_v1beta1_VSphereClusterStatus x out;
  let out := infrav1beta1.set_VSphereClusterStatus_Conditions None out in
  let out := match infrav1.VSphereClusterStatus_Deprecated x ≫= infrav1.VSphereClusterDeprecatedStatus_V1Beta1 with
    | Some deprecated =>
        let out := match infrav1.VSphereClusterV1Beta1DeprecatedStatus_Conditions deprecated with
          | Some conditions => infrav1beta1.set_VSphereClusterStatus_Conditions (Some (Convert_v1beta2_Deprecated_V1Beta1_Conditions_To_v1beta1_Conditions conditions)) out
          | None => out
          end in
        out
    | None => out
    end in
  let out := infrav1beta1.set_VSphereClusterStatus_Ready
    (ptr_deref (infrav1.VSphereClusterInitializationStatus_Provisioned (infrav1.VSphereClusterStatus_Initialization x)) false) out in
  let out := match infrav1.VSphereClusterStatus_FailureDomains x with
    | Some failureDomains => infrav1beta1.set_VSphereClusterStatus_FailureDomains (Some (failure_domains_to_map failureDomains)) out
    | None => out
    end in
  match infrav1.VSphereClusterStatus_Conditions x with
  | None => Ok out
  | Some conditions => Ok (infrav1beta1.set_VSphereClusterStatus_V1Beta2 (Some (infrav1beta1.mkVSphereClusterV1Beta2Status (Some conditions))) out)
  end.

Definition autoConvert_v1beta2_VSphereCluster_To_v1beta1_VSphereCluster (x : infrav1.VSphereCluster) (out : infrav1beta1.VSphereCluster) : res infrav1beta1.VSphereCluster :=
  v_Spec ← Convert_v1beta2_VSphereClusterSpec_To_v1beta1_VSphereClusterSpec (infrav1.VSphereCluster_Spec x) (infrav1beta1.VSphereCluster_Spec out);
  v_Status ← Convert_v1beta2_VSphereClusterStatus_To_v1beta1_VSphereClusterStatus (infrav1.VSphereCluster_Status x) (infrav1beta1.VSphereCluster_Status out);
  mret {|
    infrav1beta1.VSphereCluster_ObjectMeta := infrav1.VSphereCluster_ObjectMeta x;
    infrav1beta1.VSphereCluster_Spec := v_Spec;
    infrav1beta1.VSphereCluster_Status := v_Status
  |}.

Definition Convert_v1beta2_VSphereCluster_To_v1beta1_VSphereCluster (x : infrav1.VSphereCluster) (out : infrav1beta1.VSphereCluster) : res infrav1beta1.VSphereCluster :=
  autoConvert_v1beta2_VSphereCluster_To_v1beta1_VSphereCluster x out.

Definition cast_v1beta1_AllowedNamespaces (x : infrav1beta1.AllowedNamespaces) : infrav1.AllowedNamespaces := {|
  infrav1.AllowedNamespaces_Selector := infrav1beta1.AllowedNamespaces_Selector x
|}.

Definition autoConvert_v1beta1_VSphereClusterIdentitySpec_To_v1beta2_VSphereClusterIdentitySpec (x : infrav1beta1.VSphereClusterIdentitySpec) (out : infrav1.VSphereClusterIdentitySpec) : res infrav1.VSphereClusterIdentitySpec :=
  mret {|
    infrav1.VSphereClusterIdentitySpec_SecretName := infrav1beta1.VSphereClusterIdentitySpec_SecretName x;
    infrav1.VSphereClusterIdentitySpec_AllowedNamespaces := option_map cast_v1beta1_AllowedNamespaces (infrav1beta1.VSphereClusterIdentitySpec_AllowedNamespaces x)
  |}.

Definition Convert_v1beta1_VSphereClusterIdentitySpec_To_v1beta2_VSphereClusterIdentitySpec (x : infrav1beta1.VSphereClusterIdentitySpec) (out : infrav1.VSphereClusterIdentitySpec) : res infrav1.VSphereClusterIdentitySpec :=
  autoConvert_v1beta1_VSphereClusterIdentitySpec_To_v1beta2_VSphereClusterIdentitySpec x out.

Definition autoConvert_v1beta1_VSphereClusterIdentityStatus_To_v1beta2_VSphereClusterIdentityStatus (x : infrav1beta1.VSphereClusterIdentityStatus) (out : infrav1.VSphereClusterIdentityStatus) : res infrav1.VSphereClusterIdentityStatus :=
  v_Ready ← metav1_Convert_bool_To_Pointer_bool (infrav1beta1.VSphereClusterIdentityStatus_Ready x);
  v_Conditions ← convert_slice (λ p, Convert_v1beta1_Condition_To_v1_Condition p zero_Condition) (infrav1beta1.VSphereClusterIdentityStatus_Conditions x);
  mret {|
    infrav1.VSphereClusterIdentityStatus_Conditions := v_Conditions;
    infrav1.VSphereClusterIdentityStatus_Ready := v_Ready;
    infrav1.VSphereClusterIdentityStatus_Deprecated := infrav1.VSphereClusterIdentityStatus_Deprecated out
  |}.

Definition Convert_v1beta1_VSphereClusterIdentityStatus_To_v1beta2_VSphereClusterIdentityStatus (x : infrav1beta1.VSphereClusterIdentityStatus) (out : infrav1.VSphereClusterIdentityStatus) : res infrav1.VSphereClusterIdentityStatus :=
  out ← autoConvert_v1beta1_VSphereClusterIdentityStatus_To_v1beta2_VSphereClusterIdentityStatus x out;
  let out := infrav1.set_VSphereClusterIdentityStatus_Conditions None out in
  let out := match infrav1beta1.VSphereClusterIdentityStatus_V1Beta2 x with
    | Some v1beta2 => infrav1.set_VSphereClusterIdentityStatus_Conditions (infrav1beta1.VSphereClusterIdentityV1Beta2Status_Conditions v1beta2) out
    | None => out
    end in
  match infrav1beta1.VSphereClusterIdentityStatus_Conditions x with
  | None => Ok out
  | Some conditions =>
      Ok (infrav1.set_VSphereClusterIdentityStatus_Deprecated (Some (infrav1.mkVSphereClusterIdentityDeprecatedStatus (Some
        (infrav1.mkVSphereClusterIdentityV1Beta1DeprecatedStatus
          (Some (Convert_v1beta1_Conditions_To_v1beta2_Deprecated_V1Beta1_Conditions conditions)))))) out)
  end.

Definition autoConvert_v1beta1_VSphereClusterIdentity_To_v1beta2_VSphereClusterIdentity (x : infrav1beta1.VSphereClusterIdentity) (out : infrav1.VSphereClusterIdentity) : res infrav1.VSphereClusterIdentity :=
  v_Spec ← Convert_v1beta1_VSphereClusterIdentitySpec_To_v1beta2_VSphereClusterIdentitySpec (infrav1beta1.VSphereClusterIdentity_Spec x) (infrav1.VSphereClusterIdentity_Spec out);
  v_Status ← Convert_v1beta1_VSphereClusterIdentityStatus_To_v1beta2_VSphereClusterIdentityStatus (infrav1beta1.VSphereClusterIdentity_Status x) (infrav1.VSphereClusterIdentity_Status out);
  mret {|
    infrav1.VSphereClusterIdentity_ObjectMeta := infrav1beta1.VSphereClusterIdentity_ObjectMeta x;
    infrav1.VSphereClusterIdentity_Spec := v_Spec;
    infrav1.VSphereClusterIdentity_Status := v_Status
  |}.

Definition Convert_v1beta1_VSphereClusterIdentity_To_v1beta2_VSphereClusterIdentity (x : infrav1beta1.VSphereClusterIdentity) (out : infrav1.VSphereClusterIdentity) : res infrav1.VSphereClusterIdentity :=
  autoConvert_v1beta1_VSphereClusterIdentity_To_v1beta2_VSphereClusterIdentity x out.

Definition cast_v1beta2_AllowedNamespaces (x : infrav1.AllowedNamespaces) : infrav1beta1.AllowedNamespaces := {|
  infrav1beta1.AllowedNamespaces_Selector := infrav1.AllowedNamespaces_Selector x
|}.

Definition autoConvert_v1beta2_VSphereClusterIdentitySpec_To_v1beta1_VSphereClusterIdentitySpec (x : infrav1.VSphereClusterIdentitySpec) (out : infrav1beta1.VSphereClusterIdentitySpec) : res infrav1beta1.VSphereClusterIdentitySpec :=
  mret {|
    infrav1beta1.VSphereClusterIdentitySpec_SecretName := infrav1.VSphereClusterIdentitySpec_SecretName x;
    infrav1beta1.VSphereClusterIdentitySpec_AllowedNamespaces := option_map cast_v1beta2_AllowedNamespaces (infrav1.VSphereClusterIdentitySpec_AllowedNamespaces x)
  |}.

Definition Convert_v1beta2_VSphereClusterIdentitySpec_To_v1beta1_VSphereClusterIdentitySpec (x : infrav1.VSphereClusterIdentitySpec) (out : infrav1beta1.VSphereClusterIdentitySpec) : res infrav1beta1.VSphereClusterIdentitySpec :=
  autoConvert_v1beta2_VSphereClusterIdentitySpec_To_v1beta1_VSphereClusterIdentitySpec x out.

Definition autoConvert_v1beta2_VSphereClusterIdentityStatus_To_v1beta1_VSphereClusterIdentityStatus (x : infrav1.VSphereClusterIdentityStatus) (out : infrav1beta1.VSphereClusterIdentityStatus) : res infrav1beta1.VSphereClusterIdentityStatus :=
  v_Conditions ← convert_slice (λ p, Convert_v1_Condition_To_v1beta1_Condition p zero_V1Beta1Condition) (infrav1.VSphereClusterIdentityStatus_Conditions x);
  v_Ready ← metav1_Convert_Pointer_bool_To_bool (infrav1.VSphereClusterIdentityStatus_Ready x);
  mret {|
    infrav1beta1.VSphereClusterIdentityStatus_Ready := v_Ready;
    infrav1beta1.VSphereClusterIdentityStatus_Conditions := v_Conditions;
    infrav1beta1.VSphereClusterIdentityStatus_V1Beta2 := infrav1beta1.VSphereClusterIdentityStatus_V1Beta2 out
  |}.

Definition Convert_v1beta2_VSphereClusterIdentityStatus_To_v1beta1_VSphereClusterIdentityStatus (x : infrav1.VSphereClusterIdentityStatus) (out : infrav1beta1.VSphereClusterIdentityStatus) : res infrav1beta1.VSphereClusterIdentityStatus :=
  out ← autoConvert_v1beta2_VSphereClusterIdentityStatus_To_v1beta1_VSphereClusterIdentityStatus x out;
  let out := infrav1beta1.set_VSphereClusterIdentityStatus_Conditions None out in
  let out := match infrav1.VSphereClusterIdentityStatus_Deprecated x ≫= infrav1.VSphereClusterIdentityDeprecatedStatus_V1Beta1 with
    | Some deprecated =>
        let out := match infrav1.VSphereClusterIdentityV1Beta1DeprecatedStatus_Conditions deprecated with
          | Some conditions => infrav1beta1.set_VSphereClusterIdentityStatus_Conditions (Some (Convert_v1beta2_Deprecated_V1Beta1_Conditions_To_v1beta1_Conditions conditions)) out
          | None => out
          end in
        out
    | None => out
    end in
  match infrav1.VSphereClusterIdentityStatus_Conditions x with
  | None => Ok out
  | Some conditions => Ok (infrav1beta1.set_VSphereClusterIdentityStatus_V1Beta2 (Some (infrav1beta1.mkVSphereClusterIdentityV1Beta2Status (Some conditions))) out)
  end.

Definition autoConvert_v1beta2_VSphereClusterIdentity_To_v1beta1_VSphereClusterIdentity (x : infrav1.VSphereClusterIdentity) (out : infrav1beta1.VSphereClusterIdentity) : res infrav1beta1.VSphereClusterIdentity :=
  v_Spec ← Convert_v1beta2_VSphereClusterIdentitySpec_To_v1beta1_VSphereClusterIdentitySpec (infrav1.VSphereClusterIdentity_Spec x) (infrav1beta1.VSphereClusterIdentity_Spec out);
  v_Status ← Convert_v1beta2_VSphereClusterIdentityStatus_To_v1beta1_VSphereClusterIdentityStatus (infrav1.VSphereClusterIdentity_Status x) (infrav1beta1.VSphereClusterIdentity_Status out);
  mret {|
    infrav1beta1.VSphereClusterIdentity_ObjectMeta := infrav1.VSphereClusterIdentity_ObjectMeta x;
    infrav1beta1.VSphereClusterIdentity_Spec := v_Spec;
    infrav1beta1.VSphereClusterIdentity_Status := v_Status
  |}.

Definition Convert_v1beta2_VSphereClusterIdentity_To_v1beta1_VSphereClusterIdentity (x : infrav1.VSphereClusterIdentity) (out : infrav1beta1.VSphereClusterIdentity) : res infrav1beta1.VSphereClusterIdentity :=
  autoConvert_v1beta2_VSphereClusterIdentity_To_v1beta1_VSphereClusterIdentity x out.

Definition autoConvert_v1beta1_VSphereClusterIdentityList_To_v1beta2_VSphereClusterIdentityList (x : infrav1beta1.VSphereClusterIdentityList) (out : infrav1.VSphereClusterIdentityList) : res infrav1.VSphereClusterIdentityList :=
  v_Items ← convert_slice (λ p, Convert_v1beta1_VSphereClusterIdentity_To_v1beta2_VSphereClusterIdentity p infrav1.zero_VSphereClusterIdentity) (infrav1beta1.VSphereClusterIdentityList_Items x);
  mret {|
    infrav1.VSphereClusterIdentityList_ListMeta := infrav1beta1.VSphereClusterIdentityList_ListMeta x;
    infrav1.VSphereClusterIdentityList_Items := v_Items
  |}.

Definition Convert_v1beta1_VSphereClusterIdentityList_To_v1beta2_VSphereClusterIdentityList (x : infrav1beta1.VSphereClusterIdentityList) (out : infrav1.VSphereClusterIdentityList) : res infrav1.VSphereClusterIdentityList :=
  autoConvert_v1beta1_VSphereClusterIdentityList_To_v1beta2_VSphereClusterIdentityList x out.

Definition autoConvert_v1beta2_VSphereClusterIdentityList_To_v1beta1_VSphereClusterIdentityList (x : infrav1.VSphereClusterIdentityList) (out : infrav1beta1.VSphereClusterIdentityList) : res infrav1beta1.VSphereClusterIdentityList :=
  v_Items ← convert_slice (λ p, Convert_v1beta2_VSphereClusterIdentity_To_v1beta1_VSphereClusterIdentity p infrav1beta1.zero_VSphereClusterIdentity) (infrav1.VSphereClusterIdentityList_Items x);
  mret {|
    infrav1beta1.VSphereClusterIdentityList_ListMeta := infrav1.VSphereClusterIdentityList_ListMeta x;
    infrav1beta1.VSphereClusterIdentityList_Items := v_Items
  |}.

Definition Convert_v1beta2_VSphereClusterIdentityList_To_v1beta1_VSphereClusterIdentityList (x : infrav1.VSphereClusterIdentityList) (out : infrav1beta1.VSphereClusterIdentityList) : res infrav1beta1.VSphereClusterIdentityList :=
  autoConvert_v1beta2_VSphereClusterIdentityList_To_v1beta1_VSphereClusterIdentityList x out.

Definition autoConvert_v1beta1_VSphereClusterList_To_v1beta2_VSphereClusterList (x : infrav1beta1.VSphereClusterList) (out : infrav1.VSphereClusterList) : res infrav1.VSphereClusterList :=
  v_Items ← convert_slice (λ p, Convert_v1beta1_VSphereCluster_To_v1beta2_VSphereCluster p infrav1.zero_VSphereCluster) (infrav1beta1.VSphereClusterList_Items x);
  mret {|
    infrav1.VSphereClusterList_ListMeta := infrav1beta1.VSphereClusterList_ListMeta x;
    infrav1.VSphereClusterList_Items := v_Items
  |}.

Definition Convert_v1beta1_VSphereClusterList_To_v1beta2_VSphereClusterList (x : infrav1beta1.VSphereClusterList) (out : infrav1.VSphereClusterList) : res infrav1.VSphereClusterList :=
  autoConvert_v1beta1_VSphereClusterList_To_v1beta2_VSphereClusterList x out.

Definition autoConvert_v1beta2_VSphereClusterList_To_v1beta1_VSphereClusterList (x : infrav1.VSphereClusterList) (out : infrav1beta1.VSphereClusterList) : res infrav1beta1.VSphereClusterList :=
  v_Items ← convert_slice (λ p, Convert_v1beta2_VSphereCluster_To_v1beta1_VSphereCluster p infrav1beta1.zero_VSphereCluster) (infrav1.VSphereClusterList_Items x);
  mret {|
    infrav1beta1.VSphereClusterList_ListMeta := infrav1.VSphereClusterList_ListMeta x;
    infrav1beta1.VSphereClusterList_Items := v_Items
  |}.

Definition Convert_v1beta2_VSphereClusterList_To_v1beta1_VSphereClusterList (x : infrav1.VSphereClusterList) (out : infrav1beta1.VSphereClusterList) : res infrav1beta1.VSphereClusterList :=
  autoConvert_v1beta2_VSphereClusterList_To_v1beta1_VSphereClusterList x out.

Definition autoConvert_v1beta1_VSphereClusterTemplateResource_To_v1beta2_VSphereClusterTemplateResource (x : infrav1beta1.VSphereClusterTemplateResource) (out : infrav1.VSphereClusterTemplateResource) : res infrav1.VSphereClusterTemplateResource :=
  v_Spec ← Convert_v1beta1_VSphereClusterSpec_To_v1beta2_VSphereClusterSpec (infrav1beta1.VSphereClusterTemplateResource_Spec x) (infrav1.VSphereClusterTemplateResource_Spec out);
  mret {|
    infrav1.VSphereClusterTemplateResource_ObjectMeta := infrav1.VSphereClusterTemplateResource_ObjectMeta out;
    infrav1.VSphereClusterTemplateResource_Spec := v_Spec
  |}.

Definition Convert_v1beta1_VSphereClusterTemplateResource_To_v1beta2_VSphereClusterTemplateResource (x : infrav1beta1.VSphereClusterTemplateResource) (out : infrav1.VSphereClusterTemplateResource) : res infrav1.VSphereClusterTemplateResource :=
  autoConvert_v1beta1_VSphereClusterTemplateResource_To_v1beta2_VSphereClusterTemplateResource x out.

Definition autoConvert_v1beta1_VSphereClusterTemplateSpec_To_v1beta2_VSphereClusterTemplateSpec (x : infrav1beta1.VSphereClusterTemplateSpec) (out : infrav1.VSphereClusterTemplateSpec) : res infrav1.VSphereClusterTemplateSpec :=
  v_Template ← Convert_v1beta1_VSphereClusterTemplateResource_To_v1beta2_VSphereClusterTemplateResource (infrav1beta1.VSphereClusterTemplateSpec_Template x) (infrav1.VSphereClusterTemplateSpec_Template out);
  mret {|
    infrav1.VSphereClusterTemplateSpec_Template := v_Template
  |}.

Definition Convert_v1beta1_VSphereClusterTemplateSpec_To_v1beta2_VSphereClusterTemplateSpec (x : infrav1beta1.VSphereClusterTemplateSpec) (out : infrav1.VSphereClusterTemplateSpec) : res infrav1.VSphereClusterTemplateSpec :=
  autoConvert_v1beta1_VSphereClusterTemplateSpec_To_v1beta2_VSphereClusterTemplateSpec x out.

Definition autoConvert_v1beta1_VSphereClusterTemplate_To_v1beta2_VSphereClusterTemplate (x : infrav1beta1.VSphereClusterTemplate) (out : infrav1.VSphereClusterTemplate) : res infrav1.VSphereClusterTemplate :=
  v_Spec ← Convert_v1beta1_VSphereClusterTemplateSpec_To_v1beta2_VSphereClusterTemplateSpec (infrav1beta1.VSphereClusterTemplate_Spec x) (infrav1.VSphereClusterTemplate_Spec out);
  mret {|
    infrav1.VSphereClusterTemplate_ObjectMeta := infrav1beta1.VSphereClusterTemplate_ObjectMeta x;
    infrav1.VSphereClusterTemplate_Spec := v_Spec
  |}.

Definition Convert_v1beta1_VSphereClusterTemplate_To_v1beta2_VSphereClusterTemplate (x : infrav1beta1.VSphereClusterTemplate) (out : infrav1.VSphereClusterTemplate) : res infrav1.VSphereClusterTemplate :=
  autoConvert_v1beta1_VSphereClusterTemplate_To_v1beta2_VSphereClusterTemplate x out.

Definition autoConvert_v1beta2_VSphereClusterTemplateResource_To_v1beta1_VSphereClusterTemplateResource (x : infrav1.VSphereClusterTemplateResource) (out : infrav1beta1.VSphereClusterTemplateResource) : res infrav1beta1.VSphereClusterTemplateResource :=
  v_Spec ← Convert_v1beta2_VSphereClusterSpec_To_v1beta1_VSphereClusterSpec (infrav1.VSphereClusterTemplateResource_Spec x) (infrav1beta1.VSphereClusterTemplateResource_Spec out);
  mret {|
    infrav1beta1.VSphereClusterTemplateResource_Spec := v_Spec
  |}.

Definition Convert_v1beta2_VSphereClusterTemplateResource_To_v1beta1_VSphereClusterTemplateResource (x : infrav1.VSphereClusterTemplateResource) (out : infrav1beta1.VSphereClusterTemplateResource) : res infrav1beta1.VSphereClusterTemplateResource :=
  autoConvert_v1beta2_VSphereClusterTemplateResource_To_v1beta1_VSphereClusterTemplateResource x out.

Definition autoConvert_v1beta2_VSphereClusterTemplateSpec_To_v1beta1_VSphereClusterTemplateSpec (x : infrav1.VSphereClusterTemplateSpec) (out : infrav1beta1.VSphereClusterTemplateSpec) : res infrav1beta1.VSphereClusterTemplateSpec :=
  v_Template ← Convert_v1beta2_VSphereClusterTemplateResource_To_v1beta1_VSphereClusterTemplateResource (infrav1.VSphereClusterTemplateSpec_Template x) (infrav1beta1.VSphereClusterTemplateSpec_Template out);
  mret {|
    infrav1beta1.VSphereClusterTemplateSpec_Template := v_Template
  |}.

Definition Convert_v1beta2_VSphereClusterTemplateSpec_To_v1beta1_VSphereClusterTemplateSpec (x : infrav1.VSphereClusterTemplateSpec) (out : infrav1beta1.VSphereClusterTemplateSpec) : res infrav1beta1.VSphereClusterTemplateSpec :=
  autoConvert_v1beta2_VSphereClusterTemplateSpec_To_v1beta1_VSphereClusterTemplateSpec x out.

Definition autoConvert_v1beta2_VSphereClusterTemplate_To_v1beta1_VSphereClusterTemplate (x : infrav1.VSphereClusterTemplate) (out : infrav1beta1.VSphereClusterTemplate) : res infrav1beta1.VSphereClusterTemplate :=
  v_Spec ← Convert_v1beta2_VSphereClusterTemplateSpec_To_v1beta1_VSphereClusterTemplateSpec (infrav1.VSphereClusterTemplate_Spec x) (infrav1beta1.VSphereClusterTemplate_Spec out);
  mret {|
    infrav1beta1.VSphereClusterTemplate_ObjectMeta := infrav1.VSphereClusterTemplate_ObjectMeta x;
    infrav1beta1.VSphereClusterTemplate_Spec := v_Spec
  |}.

Definition Convert_v1beta2_VSphereClusterTemplate_To_v1beta1_VSphereClusterTemplate (x : infrav1.VSphereClusterTemplate) (out : infrav1beta1.VSphereClusterTemplate) : res infrav1beta1.VSphereClusterTemplate :=
  autoConvert_v1beta2_VSphereClusterTemplate_To_v1beta1_VSphereClusterTemplate x out.

Definition autoConvert_v1beta1_VSphereClusterTemplateList_To_v1beta2_VSphereClusterTemplateList (x : infrav1beta1.VSphereClusterTemplateList) (out : infrav1.VSphereClusterTemplateList) : res infrav1.VSphereClusterTemplateList :=
  v_Items ← convert_slice (λ p, Convert_v1beta1_VSphereClusterTemplate_To_v1beta2_VSphereClusterTemplate p infrav1.zero_VSphereClusterTemplate) (infrav1beta1.VSphereClusterTemplateList_Items x);
  mret {|
    infrav1.VSphereClusterTemplateList_ListMeta := infrav1beta1.VSphereClusterTemplateList_ListMeta x;
    infrav1.VSphereClusterTemplateList_Items := v_Items
  |}.

Definition Convert_v1beta1_VSphereClusterTemplateList_To_v1beta2_VSphereClusterTemplateList (x : infrav1beta1.VSphereClusterTemplateList) (out : infrav1.VSphereClusterTemplateList) : res infrav1.VSphereClusterTemplateList :=
  autoConvert_v1beta1_VSphereClusterTemplateList_To_v1beta2_VSphereClusterTemplateList x out.

Definition autoConvert_v1beta2_VSphereClusterTemplateList_To_v1beta1_VSphereClusterTemplateList (x : infrav1.VSphereClusterTemplateList) (out : infrav1beta1.VSphereClusterTemplateList) : res infrav1beta1.VSphereClusterTemplateList :=
  v_Items ← convert_slice (λ p, Convert_v1beta2_VSphereClusterTemplate_To_v1beta1_VSphereClusterTemplate p infrav1beta1.zero_VSphereClusterTemplate) (infrav1.VSphereClusterTemplateList_Items x);
  mret {|
    infrav1beta1.VSphereClusterTemplateList_ListMeta := infrav1.VSphereClusterTemplateList_ListMeta x;
    infrav1beta1.VSphereClusterTemplateList_Items := v_Items
  |}.

Definition Convert_v1beta2_VSphereClusterTemplateList_To_v1beta1_VSphereClusterTemplateList (x : infrav1.VSphereClusterTemplateList) (out : infrav1beta1.VSphereClusterTemplateList) : res infrav1beta1.VSphereClusterTemplateList :=
  autoConvert_v1beta2_VSphereClusterTemplateList_To_v1beta1_VSphereClusterTemplateList x out.

Definition autoConvert_v1beta1_VSphereClusterV1Beta2Status_To_v1beta2_VSphereClusterV1Beta2Status (x : infrav1beta1.VSphereClusterV1Beta2Status) (out : infrav1.VSphereClusterV1Beta2Status) : res infrav1.VSphereClusterV1Beta2Status :=
  mret {|
    infrav1.VSphereClusterV1Beta2Status_Conditions := infrav1beta1.VSphereClusterV1Beta2Status_Conditions x
  |}.

Definition Convert_v1beta1_VSphereClusterV1Beta2Status_To_v1beta2_VSphereClusterV1Beta2Status (x : infrav1beta1.VSphereClusterV1Beta2Status) (out : infrav1.VSphereClusterV1Beta2Status) : res infrav1.VSphereClusterV1Beta2Status :=
  autoConvert_v1beta1_VSphereClusterV1Beta2Status_To_v1beta2_VSphereClusterV1Beta2Status x out.

Definition autoConvert_v1beta2_VSphereClusterV1Beta2Status_To_v1beta1_VSphereClusterV1Beta2Status (x : infrav1.VSphereClusterV1Beta2Status) (out : infrav1beta1.VSphereClusterV1Beta2Status) : res infrav1beta1.VSphereClusterV1Beta2Status :=
  mret {|
    infrav1beta1.VSphereClusterV1Beta2Status_Conditions := infrav1.VSphereClusterV1Beta2Status_Conditions x
  |}.

Definition Convert_v1beta2_VSphereClusterV1Beta2Status_To_v1beta1_VSphereClusterV1Beta2Status (x : infrav1.VSphereClusterV1Beta2Status) (out : infrav1beta1.VSphereClusterV1Beta2Status) : res infrav1beta1.VSphereClusterV1Beta2Status :=
  autoConvert_v1beta2_VSphereClusterV1Beta2Status_To_v1beta1_VSphereClusterV1Beta2Status x out.

Definition autoConvert_v1beta1_VSphereDeploymentZoneSpec_To_v1beta2_VSphereDeploymentZoneSpec (x : infrav1beta1.VSphereDeploymentZoneSpec) (out : infrav1.VSphereDeploymentZoneSpec) : res infrav1.VSphereDeploymentZoneSpec :=
  v_PlacementConstraint ← Convert_v1beta1_PlacementConstraint_To_v1beta2_PlacementConstraint (infrav1beta1.VSphereDeploymentZoneSpec_PlacementConstraint x) (infrav1.VSphereDeploymentZoneSpec_PlacementConstraint out);
  mret {|
    infrav1.VSphereDeploymentZoneSpec_Server := infrav1beta1.VSphereDeploymentZoneSpec_Server x;
    infrav1.VSphereDeploymentZoneSpec_FailureDomain := infrav1beta1.VSphereDeploymentZoneSpec_FailureDomain x;
    infrav1.VSphereDeploymentZoneSpec_ControlPlane := infrav1beta1.VSphereDeploymentZoneSpec_ControlPlane x;
    infrav1.VSphereDeploymentZoneSpec_PlacementConstraint := v_PlacementConstraint
  |}.

Definition Convert_v1beta1_VSphereDeploymentZoneSpec_To_v1beta2_VSphereDeploymentZoneSpec (x : infrav1beta1.VSphereDeploymentZoneSpec) (out : infrav1.VSphereDeploymentZoneSpec) : res infrav1.VSphereDeploymentZoneSpec :=
  autoConvert_v1beta1_VSphereDeploymentZoneSpec_To_v1beta2_VSphereDeploymentZoneSpec x out.

Definition autoConvert_v1beta1_VSphereDeploymentZoneStatus_To_v1beta2_VSphereDeploymentZoneStatus (x : infrav1beta1.VSphereDeploymentZoneStatus) (out : infrav1.VSphereDeploymentZoneStatus) : res infrav1.VSphereDeploymentZoneStatus :=
  v_Conditions ← convert_slice (λ p, Convert_v1beta1_Condition_To_v1_Condition p zero_Condition) (infrav1beta1.VSphereDeploymentZoneStatus_Conditions x);
  mret {|
    infrav1.VSphereDeploymentZoneStatus_Conditions := v_Conditions;
    infrav1.VSphereDeploymentZoneStatus_Ready := infrav1beta1.VSphereDeploymentZoneStatus_Ready x;
    infrav1.VSphereDeploymentZoneStatus_Deprecated := infrav1.VSphereDeploymentZoneStatus_Deprecated out
  |}.

Definition Convert_v1beta1_VSphereDeploymentZoneStatus_To_v1beta2_VSphereDeploymentZoneStatus (x : infrav1beta1.VSphereDeploymentZoneStatus) (out : infrav1.VSphereDeploymentZoneStatus) : res infrav1.VSphereDeploymentZoneStatus :=
  out ← autoConvert_v1beta1_VSphereDeploymentZoneStatus_To_v1beta2_VSphereDeploymentZoneStatus x out;
  let out := infrav1.set_VSphereDeploymentZoneStatus_Conditions None out in
  let out := match infrav1beta1.VSphereDeploymentZoneStatus_V1Beta2 x with
    | Some v1beta2 => infrav1.set_VSphereDeploymentZoneStatus_Conditions (infrav1beta1.VSphereDeploymentZoneV1Beta2Status_Conditions v1beta2) out
    | None => out
    end in
  match infrav1beta1.VSphereDeploymentZoneStatus_Conditions x with
  | None => Ok out
  | Some conditions =>
      Ok (infrav1.set_VSphereDeploymentZoneStatus_Deprecated (Some (infrav1.mkVSphereDeploymentZoneDeprecatedStatus (Some
        (infrav1.mkVSphereDeploymentZoneV1Beta1DeprecatedStatus
          (Some (Convert_v1beta1_Conditions_To_v1beta2_Deprecated_V1Beta1_Conditions conditions)))))) out)
  end.

Definition autoConvert_v1beta1_VSphereDeploymentZone_To_v1beta2_VSphereDeploymentZone (x : infrav1beta1.VSphereDeploymentZone) (out : infrav1.VSphereDeploymentZone) : res infrav1.VSphereDeploymentZone :=
  v_Spec ← Convert_v1beta1_VSphereDeploymentZoneSpec_To_v1beta2_VSphereDeploymentZoneSpec (infrav1beta1.VSphereDeploymentZone_Spec x) (infrav1.VSphereDeploymentZone_Spec out);
  v_Status ← Convert_v1beta1_VSphereDeploymentZoneStatus_To_v1beta2_VSphereDeploymentZoneStatus (infrav1beta1.VSphereDeploymentZone_Status x) (infrav1.VSphereDeploymentZone_Status out);
  mret {|
    infrav1.VSphereDeploymentZone_ObjectMeta := infrav1beta1.VSphereDeploymentZone_ObjectMeta x;
    infrav1.VSphereDeploymentZone_Spec := v_Spec;
    infrav1.VSphereDeploymentZone_Status := v_Status
  |}.

Definition Convert_v1beta1_VSphereDeploymentZone_To_v1beta2_VSphereDeploymentZone (x : infrav1beta1.VSphereDeploymentZone) (out : infrav1.VSphereDeploymentZone) : res infrav1.VSphereDeploymentZone :=
  autoConvert_v1beta1_VSphereDeploymentZone_To_v1beta2_VSphereDeploymentZone x out.

Definition autoConvert_v1beta2_VSphereDeploymentZoneSpec_To_v1beta1_VSphereDeploymentZoneSpec (x : infrav1.VSphereDeploymentZoneSpec) (out : infrav1beta1.VSphereDeploymentZoneSpec) : res infrav1beta1.VSphereDeploymentZoneSpec :=
  v_PlacementConstraint ← Convert_v1beta2_PlacementConstraint_To_v1beta1_PlacementConstraint (infrav1.VSphereDeploymentZoneSpec_PlacementConstraint x) (infrav1beta1.VSphereDeploymentZoneSpec_PlacementConstraint out);
  mret {|
    infrav1beta1.VSphereDeploymentZoneSpec_Server := infrav1.VSphereDeploymentZoneSpec_Server x;
    infrav1beta1.VSphereDeploymentZoneSpec_FailureDomain := infrav1.VSphereDeploymentZoneSpec_FailureDomain x;
    infrav1beta1.VSphereDeploymentZoneSpec_ControlPlane := infrav1.VSphereDeploymentZoneSpec_ControlPlane x;
    infrav1beta1.VSphereDeploymentZoneSpec_PlacementConstraint := v_PlacementConstraint
  |}.

Definition Convert_v1beta2_VSphereDeploymentZoneSpec_To_v1beta1_VSphereDeploymentZoneSpec (x : infrav1.VSphereDeploymentZoneSpec) (out : infrav1beta1.VSphereDeploymentZoneSpec) : res infrav1beta1.VSphereDeploymentZoneSpec :=
  autoConvert_v1beta2_VSphereDeploymentZoneSpec_To_v1beta1_VSphereDeploymentZoneSpec x out.

Definition autoConvert_v1beta2_VSphereDeploymentZoneStatus_To_v1beta1_VSphereDeploymentZoneStatus (x : infrav1.VSphereDeploymentZoneStatus) (out : infrav1beta1.VSphereDeploymentZoneStatus) : res infrav1beta1.VSphereDeploymentZoneStatus :=
  v_Conditions ← convert_slice (λ p, Convert_v1_Condition_To_v1beta1_Condition p zero_V1Beta1Condition) (infrav1.VSphereDeploymentZoneStatus_Conditions x);
  mret {|
    infrav1beta1.VSphereDeploymentZoneStatus_Ready := infrav1.VSphereDeploymentZoneStatus_Ready x;
    infrav1beta1.VSphereDeploymentZoneStatus_Conditions := v_Conditions;
    infrav1beta1.VSphereDeploymentZoneStatus_V1Beta2 := infrav1beta1.VSphereDeploymentZoneStatus_V1Beta2 out
  |}.

Definition Convert_v1beta2_VSphereDeploymentZoneStatus_To_v1beta1_VSphereDeploymentZoneStatus (x : infrav1.VSphereDeploymentZoneStatus) (out : infrav1beta1.VSphereDeploymentZoneStatus) : res infrav1beta1.VSphereDeploymentZoneStatus :=
  out ← autoConvert_v1beta2_VSphereDeploymentZoneStatus_To_v1beta1_VSphereDeploymentZoneStatus x out;
  let out := infrav1beta1.set_VSphereDeploymentZoneStatus_Conditions None out in
  let out := match infrav1.VSphereDeploymentZoneStatus_Deprecated x ≫= infrav1.VSphereDeploymentZoneDeprecatedStatus_V1Beta1 with
    | Some deprecated =>
        let out := match infrav1.VSphereDeploymentZoneV1Beta1DeprecatedStatus_Conditions deprecated with
          | Some conditions => infrav1beta1.set_VSphereDeploymentZoneStatus_Conditions (Some (Convert_v1beta2_Deprecated_V1Beta1_Conditions_To_v1beta1_Conditions conditions)) out
          | None => out
          end in
        out
    | None => out
    end in
  match infrav1.VSphereDeploymentZoneStatus_Conditions x with
  | None => Ok out
  | Some conditions => Ok (infrav1beta1.set_VSphereDeploymentZoneStatus_V1Beta2 (Some (infrav1beta1.mkVSphereDeploymentZoneV1Beta2Status (Some conditions))) out)
  end.

Definition autoConvert_v1beta2_VSphereDeploymentZone_To_v1beta1_VSphereDeploymentZone (x : infrav1.VSphereDeploymentZone) (out : infrav1beta1.VSphereDeploymentZone) : res infrav1beta1.VSphereDeploymentZone :=
  v_Spec ← Convert_v1beta2_VSphereDeploymentZoneSpec_To_v1beta1_VSphereDeploymentZoneSpec (infrav1.VSphereDeploymentZone_Spec x) (infrav1beta1.VSphereDeploymentZone_Spec out);
  v_Status ← Convert_v1beta2_VSphereDeploymentZoneStatus_To_v1beta1_VSphereDeploymentZoneStatus (infrav1.VSphereDeploymentZone_Status x) (infrav1beta1.VSphereDeploymentZone_Status out);
  mret {|
    infrav1beta1.VSphereDeploymentZone_ObjectMeta := infrav1.VSphereDeploymentZone_ObjectMeta x;
    infrav1beta1.VSphereDeploymentZone_Spec := v_Spec;
    infrav1beta1.VSphereDeploymentZone_Status := v_Status
  |}.

Definition Convert_v1beta2_VSphereDeploymentZone_To_v1beta1_VSphereDeploymentZone (x : infrav1.VSphereDeploymentZone) (out : infrav1beta1.VSphereDeploymentZone) : res infrav1beta1.VSphereDeploymentZone :=
  autoConvert_v1beta2_VSphereDeploymentZone_To_v1beta1_VSphereDeploymentZone x out.

Definition autoConvert_v1beta1_VSphereDeploymentZoneList_To_v1beta2_VSphereDeploymentZoneList (x : infrav1beta1.VSphereDeploymentZoneList) (out : infrav1.VSphereDeploymentZoneList) : res infrav1.VSphereDeploymentZoneList :=
  v_Items ← convert_slice (λ p, Convert_v1beta1_VSphereDeploymentZone_To_v1beta2_VSphereDeploymentZone p infrav1.zero_VSphereDeploymentZone) (infrav1beta1.VSphereDeploymentZoneList_Items x);
  mret {|
    infrav1.VSphereDeploymentZoneList_ListMeta := infrav1beta1.VSphereDeploymentZoneList_ListMeta x;
    infrav1.VSphereDeploymentZoneList_Items := v_Items
  |}.

Definition Convert_v1beta1_VSphereDeploymentZoneList_To_v1beta2_VSphereDeploymentZoneList (x : infrav1beta1.VSphereDeploymentZoneList) (out : infrav1.VSphereDeploymentZoneList) : res infrav1.VSphereDeploymentZoneList :=
  autoConvert_v1beta1_VSphereDeploymentZoneList_To_v1beta2_VSphereDeploymentZoneList x out.

Definition autoConvert_v1beta2_VSphereDeploymentZoneList_To_v1beta1_VSphereDeploymentZoneList (x : infrav1.VSphereDeploymentZoneList) (out : infrav1beta1.VSphereDeploymentZoneList) : res infrav1beta1.VSphereDeploymentZoneList :=
  v_Items ← convert_slice (λ p, Convert_v1beta2_VSphereDeploymentZone_To_v1beta1_VSphereDeploymentZone p infrav1beta1.zero_VSphereDeploymentZone) (infrav1.VSphereDeploymentZoneList_Items x);
  mret {|
    infrav1beta1.VSphereDeploymentZoneList_ListMeta := infrav1.VSphereDeploymentZoneList_ListMeta x;
    infrav1beta1.VSphereDeploymentZoneList_Items := v_Items
  |}.

Definition Convert_v1beta2_VSphereDeploymentZoneList_To_v1beta1_VSphereDeploymentZoneList (x : infrav1.VSphereDeploymentZoneList) (out : infrav1beta1.VSphereDeploymentZoneList) : res infrav1beta1.VSphereDeploymentZoneList :=
  autoConvert_v1beta2_VSphereDeploymentZoneList_To_v1beta1_VSphereDeploymentZoneList x out.

Definition autoConvert_v1beta1_VSphereDisk_To_v1beta2_VSphereDisk (x : infrav1beta1.VSphereDisk) (out : infrav1.VSphereDisk) : res infrav1.VSphereDisk :=
  mret {|
    infrav1.VSphereDisk_Name := infrav1beta1.VSphereDisk_Name x;
    infrav1.VSphereDisk_SizeGiB := infrav1beta1.VSphereDisk_SizeGiB x;
    infrav1.VSphereDisk_ProvisioningMode := infrav1beta1.VSphereDisk_ProvisioningMode x
  |}.

Definition Convert_v1beta1_VSphereDisk_To_v1beta2_VSphereDisk (x : infrav1beta1.VSphereDisk) (out : infrav1.VSphereDisk) : res infrav1.VSphereDisk :=
  autoConvert_v1beta1_VSphereDisk_To_v1beta2_VSphereDisk x out.

Definition autoConvert_v1beta2_VSphereDisk_To_v1beta1_VSphereDisk (x : infrav1.VSphereDisk) (out : infrav1beta1.VSphereDisk) : res infrav1beta1.VSphereDisk :=
  mret {|
    infrav1beta1.VSphereDisk_Name := infrav1.VSphereDisk_Name x;
    infrav1beta1.VSphereDisk_SizeGiB := infrav1.VSphereDisk_SizeGiB x;
    infrav1beta1.VSphereDisk_ProvisioningMode := infrav1.VSphereDisk_ProvisioningMode x
  |}.

Definition Convert_v1beta2_VSphereDisk_To_v1beta1_VSphereDisk (x : infrav1.VSphereDisk) (out : infrav1beta1.VSphereDisk) : res infrav1beta1.VSphereDisk :=
  autoConvert_v1beta2_VSphereDisk_To_v1beta1_VSphereDisk x out.

Definition Convert_v1beta1_FailureDomain_To_v1beta2_FailureDomain (x : infrav1beta1.FailureDomain) (out : infrav1.FailureDomain) : res infrav1.FailureDomain :=
  autoConvert_v1beta1_FailureDomain_To_v1beta2_FailureDomain x out.

Definition Convert_v1beta1_Topology_To_v1beta2_Topology (x : infrav1beta1.Topology) (out : infrav1.Topology) : res infrav1.Topology :=
  out ← autoConvert_v1beta1_Topology_To_v1beta2_Topology x out;
  match infrav1beta1.Topology_Hosts x with
  | None => Ok out
  | Some hosts =>
      hosts ← autoConvert_v1beta1_FailureDomainHosts_To_v1beta2_FailureDomainHosts hosts (infrav1.Topology_Hosts out);
      Ok (infrav1.set_Topology_Hosts hosts out)
  end.

Definition autoConvert_v1beta1_VSphereFailureDomainSpec_To_v1beta2_VSphereFailureDomainSpec (x : infrav1beta1.VSphereFailureDomainSpec) (out : infrav1.VSphereFailureDomainSpec) : res infrav1.VSphereFailureDomainSpec :=
  v_Region ← Convert_v1beta1_FailureDomain_To_v1beta2_FailureDomain (infrav1beta1.VSphereFailureDomainSpec_Region x) (infrav1.VSphereFailureDomainSpec_Region out);
  v_Zone ← Convert_v1beta1_FailureDomain_To_v1beta2_FailureDomain (infrav1beta1.VSphereFailureDomainSpec_Zone x) (infrav1.VSphereFailureDomainSpec_Zone out);
  v_Topology ← Convert_v1beta1_Topology_To_v1beta2_Topology (infrav1beta1.VSphereFailureDomainSpec_Topology x) (infrav1.VSphereFailureDomainSpec_Topology out);
  mret {|
    infrav1.VSphereFailureDomainSpec_Region := v_Region;
    infrav1.VSphereFailureDomainSpec_Zone := v_Zone;
    infrav1.VSphereFailureDomainSpec_Topology := v_Topology
  |}.

Definition Convert_v1beta1_VSphereFailureDomainSpec_To_v1beta2_VSphereFailureDomainSpec (x : infrav1beta1.VSphereFailureDomainSpec) (out : infrav1.VSphereFailureDomainSpec) : res infrav1.VSphereFailureDomainSpec :=
  autoConvert_v1beta1_VSphereFailureDomainSpec_To_v1beta2_VSphereFailureDomainSpec x out.

Definition autoConvert_v1beta1_VSphereFailureDomain_To_v1beta2_VSphereFailureDomain (x : infrav1beta1.VSphereFailureDomain) (out : infrav1.VSphereFailureDomain) : res infrav1.VSphereFailureDomain :=
  v_Spec ← Convert_v1beta1_VSphereFailureDomainSpec_To_v1beta2_VSphereFailureDomainSpec (infrav1beta1.VSphereFailureDomain_Spec x) (infrav1.VSphereFailureDomain_Spec out);
  mret {|
    infrav1.VSphereFailureDomain_ObjectMeta := infrav1beta1.VSphereFailureDomain_ObjectMeta x;
    infrav1.VSphereFailureDomain_Spec := v_Spec
  |}.

Definition Convert_v1beta1_VSphereFailureDomain_To_v1beta2_VSphereFailureDomain (x : infrav1beta1.VSphereFailureDomain) (out : infrav1.VSphereFailureDomain) : res infrav1.VSphereFailureDomain :=
  autoConvert_v1beta1_VSphereFailureDomain_To_v1beta2_VSphereFailureDomain x out.

Definition Convert_v1beta2_Topology_To_v1beta1_Topology (x : infrav1.Topology) (out : infrav1beta1.Topology) : res infrav1beta1.Topology :=
  out ← autoConvert_v1beta2_Topology_To_v1beta1_Topology x out;
  if bool_decide (infrav1.Topology_Hosts x = infrav1.zero_FailureDomainHosts) then Ok out
  else
    hosts ← autoConvert_v1beta2_FailureDomainHosts_To_v1beta1_FailureDomainHosts (infrav1.Topology_Hosts x) infrav1beta1.zero_FailureDomainHosts;
    Ok (infrav1beta1.set_Topology_Hosts (Some hosts) out).

Definition autoConvert_v1beta2_VSphereFailureDomainSpec_To_v1beta1_VSphereFailureDomainSpec (x : infrav1.VSphereFailureDomainSpec) (out : infrav1beta1.VSphereFailureDomainSpec) : res infrav1beta1.VSphereFailureDomainSpec :=
  v_Region ← Convert_v1beta2_FailureDomain_To_v1beta1_FailureDomain (infrav1.VSphereFailureDomainSpec_Region x) (infrav1beta1.VSphereFailureDomainSpec_Region out);
  v_Zone ← Convert_v1beta2_FailureDomain_To_v1beta1_FailureDomain (infrav1.VSphereFailureDomainSpec_Zone x) (infrav1beta1.VSphereFailureDomainSpec_Zone out);
  v_Topology ← Convert_v1beta2_Topology_To_v1beta1_Topology (infrav1.VSphereFailureDomainSpec_Topology x) (infrav1beta1.VSphereFailureDomainSpec_Topology out);
  mret {|
    infrav1beta1.VSphereFailureDomainSpec_Region := v_Region;
    infrav1beta1.VSphereFailureDomainSpec_Zone := v_Zone;
    infrav1beta1.VSphereFailureDomainSpec_Topology := v_Topology
  |}.

Definition Convert_v1beta2_VSphereFailureDomainSpec_To_v1beta1_VSphereFailureDomainSpec (x : infrav1.VSphereFailureDomainSpec) (out : infrav1beta1.VSphereFailureDomainSpec) : res infrav1beta1.VSphereFailureDomainSpec :=
  autoConvert_v1beta2_VSphereFailureDomainSpec_To_v1beta1_VSphereFailureDomainSpec x out.

Definition autoConvert_v1beta2_VSphereFailureDomain_To_v1beta1_VSphereFailureDomain (x : infrav1.VSphereFailureDomain) (out : infrav1beta1.VSphereFailureDomain) : res infrav1beta1.VSphereFailureDomain :=
  v_Spec ← Convert_v1beta2_VSphereFailureDomainSpec_To_v1beta1_VSphereFailureDomainSpec (infrav1.VSphereFailureDomain_Spec x) (infrav1beta1.VSphereFailureDomain_Spec out);
  mret {|
    infrav1beta1.VSphereFailureDomain_ObjectMeta := infrav1.VSphereFailureDomain_ObjectMeta x;
    infrav1beta1.VSphereFailureDomain_Spec := v_Spec
  |}.

Definition Convert_v1beta2_VSphereFailureDomain_To_v1beta1_VSphereFailureDomain (x : infrav1.VSphereFailureDomain) (out : infrav1beta1.VSphereFailureDomain) : res infrav1beta1.VSphereFailureDomain :=
  autoConvert_v1beta2_VSphereFailureDomain_To_v1beta1_VSphereFailureDomain x out.

Definition autoConvert_v1beta1_VSphereFailureDomainList_To_v1beta2_VSphereFailureDomainList (x : infrav1beta1.VSphereFailureDomainList) (out : infrav1.VSphereFailureDomainList) : res infrav1.VSphereFailureDomainList :=
  v_Items ← convert_slice (λ p, Convert_v1beta1_VSphereFailureDomain_To_v1beta2_VSphereFailureDomain p infrav1.zero_VSphereFailureDomain) (infrav1beta1.VSphereFailureDomainList_Items x);
  mret {|
    infrav1.VSphereFailureDomainList_ListMeta := infrav1beta1.VSphereFailureDomainList_ListMeta x;
    infrav1.VSphereFailureDomainList_Items := v_Items
  |}.

Definition Convert_v1beta1_VSphereFailureDomainList_To_v1beta2_VSphereFailureDomainList (x : infrav1beta1.VSphereFailureDomainList) (out : infrav1.VSphereFailureDomainList) : res infrav1.VSphereFailureDomainList :=
  autoConvert_v1beta1_VSphereFailureDomainList_To_v1beta2_VSphereFailureDomainList x out.

Definition autoConvert_v1beta2_VSphereFailureDomainList_To_v1beta1_VSphereFailureDomainList (x : infrav1.VSphereFailureDomainList) (out : infrav1beta1.VSphereFailureDomainList) : res infrav1beta1.VSphereFailureDomainList :=
  v_Items ← convert_slice (λ p, Convert_v1beta2_VSphereFailureDomain_To_v1beta1_VSphereFailureDomain p infrav1beta1.zero_VSphereFailureDomain) (infrav1.VSphereFailureDomainList_Items x);
  mret {|
    infrav1beta1.VSphereFailureDomainList_ListMeta := infrav1.VSphereFailureDomainList_ListMeta x;
    infrav1beta1.VSphereFailureDomainList_Items := v_Items
  |}.

Definition Convert_v1beta2_VSphereFailureDomainList_To_v1beta1_VSphereFailureDomainList (x : infrav1.VSphereFailureDomainList) (out : infrav1beta1.VSphereFailureDomainList) : res infrav1beta1.VSphereFailureDomainList :=
  autoConvert_v1beta2_VSphereFailureDomainList_To_v1beta1_VSphereFailureDomainList x out.

Definition Convert_v1beta1_VSphereIdentityReference_To_v1beta2_VSphereIdentityReference (x : infrav1beta1.VSphereIdentityReference) (out : infrav1.VSphereIdentityReference) : res infrav1.VSphereIdentityReference :=
  autoConvert_v1beta1_VSphereIdentityReference_To_v1beta2_VSphereIdentityReference x out.

Definition Convert_v1beta2_VSphereIdentityReference_To_v1beta1_VSphereIdentityReference (x : infrav1.VSphereIdentityReference) (out : infrav1beta1.VSphereIdentityReference) : res infrav1beta1.VSphereIdentityReference :=
  autoConvert_v1beta2_VSphereIdentityReference_To_v1beta1_VSphereIdentityReference x out.

Definition Convert_v1beta1_NetworkSpec_To_v1beta2_NetworkSpec (x : infrav1beta1.NetworkSpec) (out : infrav1.NetworkSpec) : res infrav1.NetworkSpec :=
  autoConvert_v1beta1_NetworkSpec_To_v1beta2_NetworkSpec x out.

Definition autoConvert_v1beta1_VirtualMachineResourceSpec_To_v1beta2_VirtualMachineResourceSpec (x : infrav1beta1.VirtualMachineResourceSpec) (out : infrav1.VirtualMachineResourceSpec) : res infrav1.VirtualMachineResourceSpec :=
  mret {|
    infrav1.VirtualMachineResourceSpec_CPU := infrav1beta1.VirtualMachineResourceSpec_CPU x;
    infrav1.VirtualMachineResourceSpec_Memory := infrav1beta1.VirtualMachineResourceSpec_Memory x
  |}.

Definition Convert_v1beta1_VirtualMachineResourceSpec_To_v1beta2_VirtualMachineResourceSpec (x : infrav1beta1.VirtualMachineResourceSpec) (out : infrav1.VirtualMachineResourceSpec) : res infrav1.VirtualMachineResourceSpec :=
  autoConvert_v1beta1_VirtualMachineResourceSpec_To_v1beta2_VirtualMachineResourceSpec x out.

Definition autoConvert_v1beta1_VirtualMachineResourceShares_To_v1beta2_VirtualMachineResourceShares (x : infrav1beta1.VirtualMachineResourceShares) (out : infrav1.VirtualMachineResourceShares) : res infrav1.VirtualMachineResourceShares :=
  mret {|
    infrav1.VirtualMachineResourceShares_CPU := infrav1beta1.VirtualMachineResourceShares_CPU x;
    infrav1.VirtualMachineResourceShares_Memory := infrav1beta1.VirtualMachineResourceShares_Memory x
  |}.

Definition Convert_v1beta1_VirtualMachineResourceShares_To_v1beta2_VirtualMachineResourceShares (x : infrav1beta1.VirtualMachineResourceShares) (out : infrav1.VirtualMachineResourceShares) : res infrav1.VirtualMachineResourceShares :=
  autoConvert_v1beta1_VirtualMachineResourceShares_To_v1beta2_VirtualMachineResourceShares x out.

Definition autoConvert_v1beta1_VirtualMachineResources_To_v1beta2_VirtualMachineResources (x : infrav1beta1.VirtualMachineResources) (out : infrav1.VirtualMachineResources) : res infrav1.VirtualMachineResources :=
  v_Requests ← Convert_v1beta1_VirtualMachineResourceSpec_To_v1beta2_VirtualMachineResourceSpec (infrav1beta1.VirtualMachineResources_Requests x) (infrav1.VirtualMachineResources_Requests out);
  v_Limits ← Convert_v1beta1_VirtualMachineResourceSpec_To_v1beta2_VirtualMachineResourceSpec (infrav1beta1.VirtualMachineResources_Limits x) (infrav1.VirtualMachineResources_Limits out);
  v_Shares ← Convert_v1beta1_VirtualMachineResourceShares_To_v1beta2_VirtualMachineResourceShares (infrav1beta1.VirtualMachineResources_Shares x) (infrav1.VirtualMachineResources_Shares out);
  mret {|
    infrav1.VirtualMachineResources_Requests := v_Requests;
    infrav1.VirtualMachineResources_Limits := v_Limits;
    infrav1.VirtualMachineResources_Shares := v_Shares
  |}.

Definition Convert_v1beta1_VirtualMachineResources_To_v1beta2_VirtualMachineResources (x : infrav1beta1.VirtualMachineResources) (out : infrav1.VirtualMachineResources) : res infrav1.VirtualMachineResources :=
  autoConvert_v1beta1_VirtualMachineResources_To_v1beta2_VirtualMachineResources x out.

Definition cast_v1beta1_PCIDeviceSpec (x : infrav1beta1.PCIDeviceSpec) : infrav1.PCIDeviceSpec := {|
  infrav1.PCIDeviceSpec_DeviceID := infrav1beta1.PCIDeviceSpec_DeviceID x;
  infrav1.PCIDeviceSpec_VendorID := infrav1beta1.PCIDeviceSpec_VendorID x;
  infrav1.PCIDeviceSpec_VGPUProfile := infrav1beta1.PCIDeviceSpec_VGPUProfile x;
  infrav1.PCIDeviceSpec_CustomLabel := infrav1beta1.PCIDeviceSpec_CustomLabel x
|}.

Definition cast_v1beta1_VSphereDisk (x : infrav1beta1.VSphereDisk) : infrav1.VSphereDisk := {|
  infrav1.VSphereDisk_Name := infrav1beta1.VSphereDisk_Name x;
  infrav1.VSphereDisk_SizeGiB := infrav1beta1.VSphereDisk_SizeGiB x;
  infrav1.VSphereDisk_ProvisioningMode := infrav1beta1.VSphereDisk_ProvisioningMode x
|}.

Definition autoConvert_v1beta1_VirtualMachineCloneSpec_To_v1beta2_VirtualMachineCloneSpec (x : infrav1beta1.VirtualMachineCloneSpec) (out : infrav1.VirtualMachineCloneSpec) : res infrav1.VirtualMachineCloneSpec :=
  v_Network ← Convert_v1beta1_NetworkSpec_To_v1beta2_NetworkSpec (infrav1beta1.VirtualMachineCloneSpec_Network x) (infrav1.VirtualMachineCloneSpec_Network out);
  v_NumCoresPerSocket ← metav1_Convert_int32_To_Pointer_int32 (infrav1beta1.VirtualMachineCloneSpec_NumCoresPerSocket x);
  v_Resources ← Convert_v1beta1_VirtualMachineResources_To_v1beta2_VirtualMachineResources (infrav1beta1.VirtualMachineCloneSpec_Resources x) (infrav1.VirtualMachineCloneSpec_Resources out);
  mret {|
    infrav1.VirtualMachineCloneSpec_Template := infrav1beta1.VirtualMachineCloneSpec_Template x;
    infrav1.VirtualMachineCloneSpec_CloneMode := infrav1beta1.VirtualMachineCloneSpec_CloneMode x;
    infrav1.VirtualMachineCloneSpec_Snapshot := infrav1beta1.VirtualMachineCloneSpec_Snapshot x;
    infrav1.VirtualMachineCloneSpec_Server := infrav1beta1.VirtualMachineCloneSpec_Server x;
    infrav1.VirtualMachineCloneSpec_Thumbprint := infrav1beta1.VirtualMachineCloneSpec_Thumbprint x;
    infrav1.VirtualMachineCloneSpec_Datacenter := infrav1beta1.VirtualMachineCloneSpec_Datacenter x;
    infrav1.VirtualMachineCloneSpec_Folder := infrav1beta1.VirtualMachineCloneSpec_Folder x;
    infrav1.VirtualMachineCloneSpec_Datastore := infrav1beta1.VirtualMachineCloneSpec_Datastore x;
    infrav1.VirtualMachineCloneSpec_StoragePolicyName := infrav1beta1.VirtualMachineCloneSpec_StoragePolicyName x;
    infrav1.VirtualMachineCloneSpec_ResourcePool := infrav1beta1.VirtualMachineCloneSpec_ResourcePool x;
    infrav1.VirtualMachineCloneSpec_Network := v_Network;
    infrav1.VirtualMachineCloneSpec_NumCPUs := infrav1beta1.VirtualMachineCloneSpec_NumCPUs x;
    infrav1.VirtualMachineCloneSpec_NumCoresPerSocket := v_NumCoresPerSocket;
    infrav1.VirtualMachineCloneSpec_Resources := v_Resources;
    infrav1.VirtualMachineCloneSpec_MemoryMiB := infrav1beta1.VirtualMachineCloneSpec_MemoryMiB x;
    infrav1.VirtualMachineCloneSpec_DiskGiB := infrav1beta1.VirtualMachineCloneSpec_DiskGiB x;
    infrav1.VirtualMachineCloneSpec_AdditionalDisksGiB := infrav1beta1.VirtualMachineCloneSpec_AdditionalDisksGiB x;
    infrav1.VirtualMachineCloneSpec_CustomVMXKeys := infrav1beta1.VirtualMachineCloneSpec_CustomVMXKeys x;
    infrav1.VirtualMachineCloneSpec_TagIDs := infrav1beta1.VirtualMachineCloneSpec_TagIDs x;
    infrav1.VirtualMachineCloneSpec_PciDevices := option_map (map cast_v1beta1_PCIDeviceSpec) (infrav1beta1.VirtualMachineCloneSpec_PciDevices x);
    infrav1.VirtualMachineCloneSpec_OS := infrav1beta1.VirtualMachineCloneSpec_OS x;
    infrav1.VirtualMachineCloneSpec_HardwareVersion := infrav1beta1.VirtualMachineCloneSpec_HardwareVersion x;
    infrav1.VirtualMachineCloneSpec_DataDisks := option_map (map cast_v1beta1_VSphereDisk) (infrav1beta1.VirtualMachineCloneSpec_DataDisks x);
    infrav1.VirtualMachineCloneSpec_NestedHV := infrav1beta1.VirtualMachineCloneSpec_NestedHV x;
    infrav1.VirtualMachineCloneSpec_FtEncryptionMode := infrav1beta1.VirtualMachineCloneSpec_FtEncryptionMode x;
    infrav1.VirtualMachineCloneSpec_MigrateEncryption := infrav1beta1.VirtualMachineCloneSpec_MigrateEncryption x;
    infrav1.VirtualMachineCloneSpec_CryptoKeyID := infrav1beta1.VirtualMachineCloneSpec_CryptoKeyID x;
    infrav1.VirtualMachineCloneSpec_CryptoProfile := infrav1beta1.VirtualMachineCloneSpec_CryptoProfile x
  |}.

Definition Convert_v1beta1_VirtualMachineCloneSpec_To_v1beta2_VirtualMachineCloneSpec (x : infrav1beta1.VirtualMachineCloneSpec) (out : infrav1.VirtualMachineCloneSpec) : res infrav1.VirtualMachineCloneSpec :=
  autoConvert_v1beta1_VirtualMachineCloneSpec_To_v1beta2_VirtualMachineCloneSpec x out.

Definition autoConvert_v1beta1_VSphereMachineSpec_To_v1beta2_VSphereMachineSpec (x : infrav1beta1.VSphereMachineSpec) (out : infrav1.VSphereMachineSpec) : res infrav1.VSphereMachineSpec :=
  v_VirtualMachineCloneSpec ← Convert_v1beta1_VirtualMachineCloneSpec_To_v1beta2_VirtualMachineCloneSpec (infrav1beta1.VSphereMachineSpec_VirtualMachineCloneSpec x) (infrav1.VSphereMachineSpec_VirtualMachineCloneSpec out);
  v_ProviderID ← metav1_Convert_Pointer_string_To_string (infrav1beta1.VSphereMachineSpec_ProviderID x);
  mret {|
    infrav1.VSphereMachineSpec_VirtualMachineCloneSpec := v_VirtualMachineCloneSpec;
    infrav1.VSphereMachineSpec_ProviderID := v_ProviderID;
    infrav1.VSphereMachineSpec_PowerOffMode := infrav1beta1.VSphereMachineSpec_PowerOffMode x;
    infrav1.VSphereMachineSpec_GuestSoftPowerOffTimeoutSeconds := infrav1.VSphereMachineSpec_GuestSoftPowerOffTimeoutSeconds out;
    infrav1.VSphereMachineSpec_Naming := infrav1.VSphereMachineSpec_Naming out
  |}.

Definition Convert_v1beta1_VSphereMachineSpec_To_v1beta2_VSphereMachineSpec (x : infrav1beta1.VSphereMachineSpec) (out : infrav1.VSphereMachineSpec) : res infrav1.VSphereMachineSpec :=
  out ← autoConvert_v1beta1_VSphereMachineSpec_To_v1beta2_VSphereMachineSpec x out;
  out ← match infrav1beta1.VSphereMachineSpec_NamingStrategy x with
    | None => Ok out
    | Some namingStrategy =>
        template ← metav1_Convert_Pointer_string_To_string (infrav1beta1.VSphereVMNamingStrategy_Template namingStrategy);
        Ok (infrav1.set_VSphereMachineSpec_Naming (infrav1.mkVSphereVMNamingSpec template) out)
    end;
  Ok (infrav1.set_VSphereMachineSpec_GuestSoftPowerOffTimeoutSeconds
    (ptr_deref (ConvertToSeconds (infrav1beta1.VSphereMachineSpec_GuestSoftPowerOffTimeout x)) 0) out).

Definition Convert_v1beta1_MachineAddress_To_v1beta2_MachineAddress (x _ : MachineAddress) : res MachineAddress := clusterv1beta1_Convert_v1beta1_MachineAddress_To_v1beta2_MachineAddress x.

Definition autoConvert_v1beta1_VSphereMachineStatus_To_v1beta2_VSphereMachineStatus (x : infrav1beta1.VSphereMachineStatus) (out : infrav1.VSphereMachineStatus) : res infrav1.VSphereMachineStatus :=
  v_Addresses ← convert_slice (λ p, Convert_v1beta1_MachineAddress_To_v1beta2_MachineAddress p zero_MachineAddress) (infrav1beta1.VSphereMachineStatus_Addresses x);
  v_Network ← convert_slice (λ p, Convert_v1beta1_NetworkStatus_To_v1beta2_NetworkStatus p infrav1.zero_NetworkStatus) (infrav1beta1.VSphereMachineStatus_Network x);
  v_Conditions ← convert_slice (λ p, Convert_v1beta1_Condition_To_v1_Condition p zero_Condition) (infrav1beta1.VSphereMachineStatus_Conditions x);
  mret {|
    infrav1.VSphereMachineStatus_Conditions := v_Conditions;
    infrav1.VSphereMachineStatus_Initialization := infrav1.VSphereMachineStatus_Initialization out;
    infrav1.VSphereMachineStatus_Addresses := v_Addresses;
    infrav1.VSphereMachineStatus_Network := v_Network;
    infrav1.VSphereMachineStatus_Deprecated := infrav1.VSphereMachineStatus_Deprecated out
  |}.

Definition Convert_v1beta1_VSphereMachineStatus_To_v1beta2_VSphereMachineStatus (x : infrav1beta1.VSphereMachineStatus) (out : infrav1.VSphereMachineStatus) : res infrav1.VSphereMachineStatus :=
  out ← autoConvert_v1beta1_VSphereMachineStatus_To_v1beta2_VSphereMachineStatus x out;
  let out := infrav1.set_VSphereMachineStatus_Conditions None out in
  let out := match infrav1beta1.VSphereMachineStatus_V1Beta2 x with
    | Some v1beta2 => infrav1.set_VSphereMachineStatus_Conditions (infrav1beta1.VSphereMachineV1Beta2Status_Conditions v1beta2) out
    | None => out
    end in
  match infrav1beta1.VSphereMachineStatus_FailureReason x, infrav1beta1.VSphereMachineStatus_FailureMessage x, infrav1beta1.VSphereMachineStatus_Conditions x with
  | None, None, None => Ok out
  | FailureReason, FailureMessage, Conditions =>
      let deprecated := default infrav1.zero_VSphereMachineDeprecatedStatus (infrav1.VSphereMachineStatus_Deprecated out) in
      let old := default infrav1.zero_VSphereMachineV1Beta1DeprecatedStatus (infrav1.VSphereMachineDeprecatedStatus_V1Beta1 deprecated) in
      let conditions := match Conditions with
        | Some conditions => Some (Convert_v1beta1_Conditions_To_v1beta2_Deprecated_V1Beta1_Conditions conditions)
        | None => infrav1.VSphereMachineV1Beta1DeprecatedStatus_Conditions old
        end in
      Ok (infrav1.set_VSphereMachineStatus_Deprecated (Some (infrav1.mkVSphereMachineDeprecatedStatus (Some
        (infrav1.mkVSphereMachineV1Beta1DeprecatedStatus conditions FailureReason FailureMessage)))) out)
  end.

Definition autoConvert_v1beta1_VSphereMachine_To_v1beta2_VSphereMachine (x : infrav1beta1.VSphereMachine) (out : infrav1.VSphereMachine) : res infrav1.VSphereMachine :=
  v_Spec ← Convert_v1beta1_VSphereMachineSpec_To_v1beta2_VSphereMachineSpec (infrav1beta1.VSphereMachine_Spec x) (infrav1.VSphereMachine_Spec out);
  v_Status ← Convert_v1beta1_VSphereMachineStatus_To_v1beta2_VSphereMachineStatus (infrav1beta1.VSphereMachine_Status x) (infrav1.VSphereMachine_Status out);
  mret {|
    infrav1.VSphereMachine_ObjectMeta := infrav1beta1.VSphereMachine_ObjectMeta x;
    infrav1.VSphereMachine_Spec := v_Spec;
    infrav1.VSphereMachine_Status := v_Status
  |}.

Definition Convert_v1beta1_VSphereMachine_To_v1beta2_VSphereMachine (x : infrav1beta1.VSphereMachine) (out : infrav1.VSphereMachine) : res infrav1.VSphereMachine :=
  autoConvert_v1beta1_VSphereMachine_To_v1beta2_VSphereMachine x out.

Definition autoConvert_v1beta2_VirtualMachineResourceSpec_To_v1beta1_VirtualMachineResourceSpec (x : infrav1.VirtualMachineResourceSpec) (out : infrav1beta1.VirtualMachineResourceSpec) : res infrav1beta1.VirtualMachineResourceSpec :=
  mret {|
    infrav1beta1.VirtualMachineResourceSpec_CPU := infrav1.VirtualMachineResourceSpec_CPU x;
    infrav1beta1.VirtualMachineResourceSpec_Memory := infrav1.VirtualMachineResourceSpec_Memory x
  |}.

Definition Convert_v1beta2_VirtualMachineResourceSpec_To_v1beta1_VirtualMachineResourceSpec (x : infrav1.VirtualMachineResourceSpec) (out : infrav1beta1.VirtualMachineResourceSpec) : res infrav1beta1.VirtualMachineResourceSpec :=
  autoConvert_v1beta2_VirtualMachineResourceSpec_To_v1beta1_VirtualMachineResourceSpec x out.

Definition autoConvert_v1beta2_VirtualMachineResourceShares_To_v1beta1_VirtualMachineResourceShares (x : infrav1.VirtualMachineResourceShares) (out : infrav1beta1.VirtualMachineResourceShares) : res infrav1beta1.VirtualMachineResourceShares :=
  mret {|
    infrav1beta1.VirtualMachineResourceShares_CPU := infrav1.VirtualMachineResourceShares_CPU x;
    infrav1beta1.VirtualMachineResourceShares_Memory := infrav1.VirtualMachineResourceShares_Memory x
  |}.

Definition Convert_v1beta2_VirtualMachineResourceShares_To_v1beta1_VirtualMachineResourceShares (x : infrav1.VirtualMachineResourceShares) (out : infrav1beta1.VirtualMachineResourceShares) : res infrav1beta1.VirtualMachineResourceShares :=
  autoConvert_v1beta2_VirtualMachineResourceShares_To_v1beta1_VirtualMachineResourceShares x out.

Definition autoConvert_v1beta2_VirtualMachineResources_To_v1beta1_VirtualMachineResources (x : infrav1.VirtualMachineResources) (out : infrav1beta1.VirtualMachineResources) : res infrav1beta1.VirtualMachineResources :=
  v_Requests ← Convert_v1beta2_VirtualMachineResourceSpec_To_v1beta1_VirtualMachineResourceSpec (infrav1.VirtualMachineResources_Requests x) (infrav1beta1.VirtualMachineResources_Requests out);
  v_Limits ← Convert_v1beta2_VirtualMachineResourceSpec_To_v1beta1_VirtualMachineResourceSpec (infrav1.VirtualMachineResources_Limits x) (infrav1beta1.VirtualMachineResources_Limits out);
  v_Shares ← Convert_v1beta2_VirtualMachineResourceShares_To_v1beta1_VirtualMachineResourceShares (infrav1.VirtualMachineResources_Shares x) (infrav1beta1.VirtualMachineResources_Shares out);
  mret {|
    infrav1beta1.VirtualMachineResources_Requests := v_Requests;
    infrav1beta1.VirtualMachineResources_Limits := v_Limits;
    infrav1beta1.VirtualMachineResources_Shares := v_Shares
  |}.

Definition Convert_v1beta2_VirtualMachineResources_To_v1beta1_VirtualMachineResources (x : infrav1.VirtualMachineResources) (out : infrav1beta1.VirtualMachineResources) : res infrav1beta1.VirtualMachineResources :=
  autoConvert_v1beta2_VirtualMachineResources_To_v1beta1_VirtualMachineResources x out.

Definition cast_v1beta2_PCIDeviceSpec (x : infrav1.PCIDeviceSpec) : infrav1beta1.PCIDeviceSpec := {|
  infrav1beta1.PCIDeviceSpec_DeviceID := infrav1.PCIDeviceSpec_DeviceID x;
  infrav1beta1.PCIDeviceSpec_VendorID := infrav1.PCIDeviceSpec_VendorID x;
  infrav1beta1.PCIDeviceSpec_VGPUProfile := infrav1.PCIDeviceSpec_VGPUProfile x;
  infrav1beta1.PCIDeviceSpec_CustomLabel := infrav1.PCIDeviceSpec_CustomLabel x
|}.

Definition cast_v1beta2_VSphereDisk (x : infrav1.VSphereDisk) : infrav1beta1.VSphereDisk := {|
  infrav1beta1.VSphereDisk_Name := infrav1.VSphereDisk_Name x;
  infrav1beta1.VSphereDisk_SizeGiB := infrav1.VSphereDisk_SizeGiB x;
  infrav1beta1.VSphereDisk_ProvisioningMode := infrav1.VSphereDisk_ProvisioningMode x
|}.

Definition autoConvert_v1beta2_VirtualMachineCloneSpec_To_v1beta1_VirtualMachineCloneSpec (x : infrav1.VirtualMachineCloneSpec) (out : infrav1beta1.VirtualMachineCloneSpec) : res infrav1beta1.VirtualMachineCloneSpec :=
  v_Network ← Convert_v1beta2_NetworkSpec_To_v1beta1_NetworkSpec (infrav1.VirtualMachineCloneSpec_Network x) (infrav1beta1.VirtualMachineCloneSpec_Network out);
  v_NumCoresPerSocket ← metav1_Convert_Pointer_int32_To_int32 (infrav1.VirtualMachineCloneSpec_NumCoresPerSocket x);
  v_Resources ← Convert_v1beta2_VirtualMachineResources_To_v1beta1_VirtualMachineResources (infrav1.VirtualMachineCloneSpec_Resources x) (infrav1beta1.VirtualMachineCloneSpec_Resources out);
  mret {|
    infrav1beta1.VirtualMachineCloneSpec_Template := infrav1.VirtualMachineCloneSpec_Template x;
    infrav1beta1.VirtualMachineCloneSpec_CloneMode := infrav1.VirtualMachineCloneSpec_CloneMode x;
    infrav1beta1.VirtualMachineCloneSpec_Snapshot := infrav1.VirtualMachineCloneSpec_Snapshot x;
    infrav1beta1.VirtualMachineCloneSpec_Server := infrav1.VirtualMachineCloneSpec_Server x;
    infrav1beta1.VirtualMachineCloneSpec_Thumbprint := infrav1.VirtualMachineCloneSpec_Thumbprint x;
    infrav1beta1.VirtualMachineCloneSpec_Datacenter := infrav1.VirtualMachineCloneSpec_Datacenter x;
    infrav1beta1.VirtualMachineCloneSpec_Folder := infrav1.VirtualMachineCloneSpec_Folder x;
    infrav1beta1.VirtualMachineCloneSpec_Datastore := infrav1.VirtualMachineCloneSpec_Datastore x;
    infrav1beta1.VirtualMachineCloneSpec_StoragePolicyName := infrav1.VirtualMachineCloneSpec_StoragePolicyName x;
    infrav1beta1.VirtualMachineCloneSpec_ResourcePool := infrav1.VirtualMachineCloneSpec_ResourcePool x;
    infrav1beta1.VirtualMachineCloneSpec_Network := v_Network;
    infrav1beta1.VirtualMachineCloneSpec_NumCPUs := infrav1.VirtualMachineCloneSpec_NumCPUs x;
    infrav1beta1.VirtualMachineCloneSpec_NumCoresPerSocket := v_NumCoresPerSocket;
    infrav1beta1.VirtualMachineCloneSpec_Resources := v_Resources;
    infrav1beta1.VirtualMachineCloneSpec_MemoryMiB := infrav1.VirtualMachineCloneSpec_MemoryMiB x;
    infrav1beta1.VirtualMachineCloneSpec_DiskGiB := infrav1.VirtualMachineCloneSpec_DiskGiB x;
    infrav1beta1.VirtualMachineCloneSpec_AdditionalDisksGiB := infrav1.VirtualMachineCloneSpec_AdditionalDisksGiB x;
    infrav1beta1.VirtualMachineCloneSpec_CustomVMXKeys := infrav1.VirtualMachineCloneSpec_CustomVMXKeys x;
    infrav1beta1.VirtualMachineCloneSpec_TagIDs := infrav1.VirtualMachineCloneSpec_TagIDs x;
    infrav1beta1.VirtualMachineCloneSpec_PciDevices := option_map (map cast_v1beta2_PCIDeviceSpec) (infrav1.VirtualMachineCloneSpec_PciDevices x);
    infrav1beta1.VirtualMachineCloneSpec_OS := infrav1.VirtualMachineCloneSpec_OS x;
    infrav1beta1.VirtualMachineCloneSpec_HardwareVersion := infrav1.VirtualMachineCloneSpec_HardwareVersion x;
    infrav1beta1.VirtualMachineCloneSpec_DataDisks := option_map (map cast_v1beta2_VSphereDisk) (infrav1.VirtualMachineCloneSpec_DataDisks x);
    infrav1beta1.VirtualMachineCloneSpec_NestedHV := infrav1.VirtualMachineCloneSpec_NestedHV x;
    infrav1beta1.VirtualMachineCloneSpec_FtEncryptionMode := infrav1.VirtualMachineCloneSpec_FtEncryptionMode x;
    infrav1beta1.VirtualMachineCloneSpec_MigrateEncryption := infrav1.VirtualMachineCloneSpec_MigrateEncryption x;
    infrav1beta1.VirtualMachineCloneSpec_CryptoKeyID := infrav1.VirtualMachineCloneSpec_CryptoKeyID x;
    infrav1beta1.VirtualMachineCloneSpec_CryptoProfile := infrav1.VirtualMachineCloneSpec_CryptoProfile x
  |}.

Definition Convert_v1beta2_VirtualMachineCloneSpec_To_v1beta1_VirtualMachineCloneSpec (x : infrav1.VirtualMachineCloneSpec) (out : infrav1beta1.VirtualMachineCloneSpec) : res infrav1beta1.VirtualMachineCloneSpec :=
  autoConvert_v1beta2_VirtualMachineCloneSpec_To_v1beta1_VirtualMachineCloneSpec x out.

Definition autoConvert_v1beta2_VSphereMachineSpec_To_v1beta1_VSphereMachineSpec (x : infrav1.VSphereMachineSpec) (out : infrav1beta1.VSphereMachineSpec) : res infrav1beta1.VSphereMachineSpec :=
  v_VirtualMachineCloneSpec ← Convert_v1beta2_VirtualMachineCloneSpec_To_v1beta1_VirtualMachineCloneSpec (infrav1.VSphereMachineSpec_VirtualMachineCloneSpec x) (infrav1beta1.VSphereMachineSpec_VirtualMachineCloneSpec out);
  v_ProviderID ← metav1_Convert_string_To_Pointer_string (infrav1.VSphereMachineSpec_ProviderID x);
  mret {|
    infrav1beta1.VSphereMachineSpec_VirtualMachineCloneSpec := v_VirtualMachineCloneSpec;
    infrav1beta1.VSphereMachineSpec_ProviderID := v_ProviderID;
    infrav1beta1.VSphereMachineSpec_FailureDomain := infrav1beta1.VSphereMachineSpec_FailureDomain out;
    infrav1beta1.VSphereMachineSpec_PowerOffMode := infrav1.VSphereMachineSpec_PowerOffMode x;
    infrav1beta1.VSphereMachineSpec_GuestSoftPowerOffTimeout := infrav1beta1.VSphereMachineSpec_GuestSoftPowerOffTimeout out;
    infrav1beta1.VSphereMachineSpec_NamingStrategy := infrav1beta1.VSphereMachineSpec_NamingStrategy out
  |}.

Definition Convert_v1beta2_VSphereMachineSpec_To_v1beta1_VSphereMachineSpec (x : infrav1.VSphereMachineSpec) (out : infrav1beta1.VSphereMachineSpec) : res infrav1beta1.VSphereMachineSpec :=
  out ← autoConvert_v1beta2_VSphereMachineSpec_To_v1beta1_VSphereMachineSpec x out;
  out ← (if bool_decide (infrav1.VSphereMachineSpec_Naming x = infrav1.zero_VSphereVMNamingSpec) then Ok out
    else
      template ← metav1_Convert_string_To_Pointer_string (infrav1.VSphereVMNamingSpec_Template (infrav1.VSphereMachineSpec_Naming x));
      Ok (infrav1beta1.set_VSphereMachineSpec_NamingStrategy (Some (infrav1beta1.mkVSphereVMNamingStrategy template)) out));
  if infrav1.VSphereMachineSpec_GuestSoftPowerOffTimeoutSeconds x =? 0 then Ok out
  else Ok (infrav1beta1.set_VSphereMachineSpec_GuestSoftPowerOffTimeout
    (ConvertFromSeconds (Some (infrav1.VSphereMachineSpec_GuestSoftPowerOffTimeoutSeconds x))) out).

Definition Convert_v1beta2_MachineAddress_To_v1beta1_MachineAddress (x _ : MachineAddress) : res MachineAddress := clusterv1beta1_Convert_v1beta2_MachineAddress_To_v1beta1_MachineAddress x.

Definition autoConvert_v1beta2_VSphereMachineStatus_To_v1beta1_VSphereMachineStatus (x : infrav1.VSphereMachineStatus) (out : infrav1beta1.VSphereMachineStatus) : res infrav1beta1.VSphereMachineStatus :=
  v_Conditions ← convert_slice (λ p, Convert_v1_Condition_To_v1beta1_Condition p zero_V1Beta1Condition) (infrav1.VSphereMachineStatus_Conditions x);
  v_Addresses ← convert_slice (λ p, Convert_v1beta2_MachineAddress_To_v1beta1_MachineAddress p zero_MachineAddress) (infrav1.VSphereMachineStatus_Addresses x);
  v_Network ← convert_slice (λ p, Convert_v1beta2_NetworkStatus_To_v1beta1_NetworkStatus p infrav1beta1.zero_NetworkStatus) (infrav1.VSphereMachineStatus_Network x);
  mret {|
    infrav1beta1.VSphereMachineStatus_Ready := infrav1beta1.VSphereMachineStatus_Ready out;
    infrav1beta1.VSphereMachineStatus_Addresses := v_Addresses;
    infrav1beta1.VSphereMachineStatus_Network := v_Network;
    infrav1beta1.VSphereMachineStatus_FailureReason := infrav1beta1.VSphereMachineStatus_FailureReason out;
    infrav1beta1.VSphereMachineStatus_FailureMessage := infrav1beta1.VSphereMachineStatus_FailureMessage out;
    infrav1beta1.VSphereMachineStatus_Conditions := v_Conditions;
    infrav1beta1.VSphereMachineStatus_V1Beta2 := infrav1beta1.VSphereMachineStatus_V1Beta2 out
  |}.

Definition Convert_v1beta2_VSphereMachineStatus_To_v1beta1_VSphereMachineStatus (x : infrav1.VSphereMachineStatus) (out : infrav1beta1.VSphereMachineStatus) : res infrav1beta1.VSphereMachineStatus :=
  out ← autoConvert_v1beta2_VSphereMachineStatus_To_v1beta1_VSphereMachineStatus x out;
  let out := infrav1beta1.set_VSphereMachineStatus_Conditions None out in
  let out := match infrav1.VSphereMachineStatus_Deprecated x ≫= infrav1.VSphereMachineDeprecatedStatus_V1Beta1 with
    | Some deprecated =>
        let out := match infrav1.VSphereMachineV1Beta1DeprecatedStatus_Conditions deprecated with
          | Some conditions => infrav1beta1.set_VSphereMachineStatus_Conditions (Some (Convert_v1beta2_Deprecated_V1Beta1_Conditions_To_v1beta1_Conditions conditions)) out
          | None => out
          end in
        let out := infrav1beta1.set_VSphereMachineStatus_FailureReason (infrav1.VSphereMachineV1Beta1DeprecatedStatus_FailureReason deprecated) out in
        infrav1beta1.set_VSphereMachineStatus_FailureMessage (infrav1.VSphereMachineV1Beta1DeprecatedStatus_FailureMessage deprecated) out
    | None => out
    end in
  let out := infrav1beta1.set_VSphereMachineStatus_Ready
    (ptr_deref (infrav1.VSphereMachineInitializationStatus_Provisioned (infrav1.VSphereMachineStatus_Initialization x)) false) out in
  match infrav1.VSphereMachineStatus_Conditions x with
  | None => Ok out
  | Some conditions => Ok (infrav1beta1.set_VSphereMachineStatus_V1Beta2 (Some (infrav1beta1.mkVSphereMachineV1Beta2Status (Some conditions))) out)
  end.

Definition autoConvert_v1beta2_VSphereMachine_To_v1beta1_VSphereMachine (x : infrav1.VSphereMachine) (out : infrav1beta1.VSphereMachine) : res infrav1beta1.VSphereMachine :=
  v_Spec ← Convert_v1beta2_VSphereMachineSpec_To_v1beta1_VSphereMachineSpec (infrav1.VSphereMachine_Spec x) (infrav1beta1.VSphereMachine_Spec out);
  v_Status ← Convert_v1beta2_VSphereMachineStatus_To_v1beta1_VSphereMachineStatus (infrav1.VSphereMachine_Status x) (infrav1beta1.VSphereMachine_Status out);
  mret {|
    infrav1beta1.VSphereMachine_ObjectMeta := infrav1.VSphereMachine_ObjectMeta x;
    infrav1beta1.VSphereMachine_Spec := v_Spec;
    infrav1beta1.VSphereMachine_Status := v_Status
  |}.

Definition Convert_v1beta2_VSphereMachine_To_v1beta1_VSphereMachine (x : infrav1.VSphereMachine) (out : infrav1beta1.VSphereMachine) : res infrav1beta1.VSphereMachine :=
  autoConvert_v1beta2_VSphereMachine_To_v1beta1_VSphereMachine x out.

Definition autoConvert_v1beta1_VSphereMachineList_To_v1beta2_VSphereMachineList (x : infrav1beta1.VSphereMachineList) (out : infrav1.VSphereMachineList) : res infrav1.VSphereMachineList :=
  v_Items ← convert_slice (λ p, Convert_v1beta1_VSphereMachine_To_v1beta2_VSphereMachine p infrav1.zero_VSphereMachine) (infrav1beta1.VSphereMachineList_Items x);
  mret {|
    infrav1.VSphereMachineList_ListMeta := infrav1beta1.VSphereMachineList_ListMeta x;
    infrav1.VSphereMachineList_Items := v_Items
  |}.

Definition Convert_v1beta1_VSphereMachineList_To_v1beta2_VSphereMachineList (x : infrav1beta1.VSphereMachineList) (out : infrav1.VSphereMachineList) : res infrav1.VSphereMachineList :=
  autoConvert_v1beta1_VSphereMachineList_To_v1beta2_VSphereMachineList x out.

Definition autoConvert_v1beta2_VSphereMachineList_To_v1beta1_VSphereMachineList (x : infrav1.VSphereMachineList) (out : infrav1beta1.VSphereMachineList) : res infrav1beta1.VSphereMachineList :=
  v_Items ← convert_slice (λ p, Convert_v1beta2_VSphereMachine_To_v1beta1_VSphereMachine p infrav1beta1.zero_VSphereMachine) (infrav1.VSphereMachineList_Items x);
  mret {|
    infrav1beta1.VSphereMachineList_ListMeta := infrav1.VSphereMachineList_ListMeta x;
    infrav1beta1.VSphereMachineList_Items := v_Items
  |}.

Definition Convert_v1beta2_VSphereMachineList_To_v1beta1_VSphereMachineList (x : infrav1.VSphereMachineList) (out : infrav1beta1.VSphereMachineList) : res infrav1beta1.VSphereMachineList :=
  autoConvert_v1beta2_VSphereMachineList_To_v1beta1_VSphereMachineList x out.

Definition Convert_v1beta1_ObjectMeta_To_v1beta2_ObjectMeta (x _ : TemplateMeta) : res TemplateMeta := clusterv1beta1_Convert_v1beta1_ObjectMeta_To_v1beta2_ObjectMeta x.

Definition autoConvert_v1beta1_VSphereMachineTemplateResource_To_v1beta2_VSphereMachineTemplateResource (x : infrav1beta1.VSphereMachineTemplateResource) (out : infrav1.VSphereMachineTemplateResource) : res infrav1.VSphereMachineTemplateResource :=
  v_ObjectMeta ← Convert_v1beta1_ObjectMeta_To_v1beta2_ObjectMeta (infrav1beta1.VSphereMachineTemplateResource_ObjectMeta x) (infrav1.VSphereMachineTemplateResource_ObjectMeta out);
  v_Spec ← Convert_v1beta1_VSphereMachineSpec_To_v1beta2_VSphereMachineSpec (infrav1beta1.VSphereMachineTemplateResource_Spec x) (infrav1.VSphereMachineTemplateResource_Spec out);
  mret {|
    infrav1.VSphereMachineTemplateResource_ObjectMeta := v_ObjectMeta;
    infrav1.VSphereMachineTemplateResource_Spec := v_Spec
  |}.

Definition Convert_v1beta1_VSphereMachineTemplateResource_To_v1beta2_VSphereMachineTemplateResource (x : infrav1beta1.VSphereMachineTemplateResource) (out : infrav1.VSphereMachineTemplateResource) : res infrav1.VSphereMachineTemplateResource :=
  autoConvert_v1beta1_VSphereMachineTemplateResource_To_v1beta2_VSphereMachineTemplateResource x out.

Definition autoConvert_v1beta1_VSphereMachineTemplateSpec_To_v1beta2_VSphereMachineTemplateSpec (x : infrav1beta1.VSphereMachineTemplateSpec) (out : infrav1.VSphereMachineTemplateSpec) : res infrav1.VSphereMachineTemplateSpec :=
  v_Template ← Convert_v1beta1_VSphereMachineTemplateResource_To_v1beta2_VSphereMachineTemplateResource (infrav1beta1.VSphereMachineTemplateSpec_Template x) (infrav1.VSphereMachineTemplateSpec_Template out);
  mret {|
    infrav1.VSphereMachineTemplateSpec_Template := v_Template
  |}.

Definition Convert_v1beta1_VSphereMachineTemplateSpec_To_v1beta2_VSphereMachineTemplateSpec (x : infrav1beta1.VSphereMachineTemplateSpec) (out : infrav1.VSphereMachineTemplateSpec) : res infrav1.VSphereMachineTemplateSpec :=
  autoConvert_v1beta1_VSphereMachineTemplateSpec_To_v1beta2_VSphereMachineTemplateSpec x out.

Definition autoConvert_v1beta1_VSphereMachineTemplate_To_v1beta2_VSphereMachineTemplate (x : infrav1beta1.VSphereMachineTemplate) (out : infrav1.VSphereMachineTemplate) : res infrav1.VSphereMachineTemplate :=
  v_Spec ← Convert_v1beta1_VSphereMachineTemplateSpec_To_v1beta2_VSphereMachineTemplateSpec (infrav1beta1.VSphereMachineTemplate_Spec x) (infrav1.VSphereMachineTemplate_Spec out);
  mret {|
    infrav1.VSphereMachineTemplate_ObjectMeta := infrav1beta1.VSphereMachineTemplate_ObjectMeta x;
    infrav1.VSphereMachineTemplate_Spec := v_Spec
  |}.

Definition Convert_v1beta1_VSphereMachineTemplate_To_v1beta2_VSphereMachineTemplate (x : infrav1beta1.VSphereMachineTemplate) (out : infrav1.VSphereMachineTemplate) : res infrav1.VSphereMachineTemplate :=
  autoConvert_v1beta1_VSphereMachineTemplate_To_v1beta2_VSphereMachineTemplate x out.

Definition Convert_v1beta2_ObjectMeta_To_v1beta1_ObjectMeta (x _ : TemplateMeta) : res TemplateMeta := clusterv1beta1_Convert_v1beta2_ObjectMeta_To_v1beta1_ObjectMeta x.

Definition autoConvert_v1beta2_VSphereMachineTemplateResource_To_v1beta1_VSphereMachineTemplateResource (x : infrav1.VSphereMachineTemplateResource) (out : infrav1beta1.VSphereMachineTemplateResource) : res infrav1beta1.VSphereMachineTemplateResource :=
  v_ObjectMeta ← Convert_v1beta2_ObjectMeta_To_v1beta1_ObjectMeta (infrav1.VSphereMachineTemplateResource_ObjectMeta x) (infrav1beta1.VSphereMachineTemplateResource_ObjectMeta out);
  v_Spec ← Convert_v1beta2_VSphereMachineSpec_To_v1beta1_VSphereMachineSpec (infrav1.VSphereMachineTemplateResource_Spec x) (infrav1beta1.VSphereMachineTemplateResource_Spec out);
  mret {|
    infrav1beta1.VSphereMachineTemplateResource_ObjectMeta := v_ObjectMeta;
    infrav1beta1.VSphereMachineTemplateResource_Spec := v_Spec
  |}.

Definition Convert_v1beta2_VSphereMachineTemplateResource_To_v1beta1_VSphereMachineTemplateResource (x : infrav1.VSphereMachineTemplateResource) (out : infrav1beta1.VSphereMachineTemplateResource) : res infrav1beta1.VSphereMachineTemplateResource :=
  autoConvert_v1beta2_VSphereMachineTemplateResource_To_v1beta1_VSphereMachineTemplateResource x out.

Definition autoConvert_v1beta2_VSphereMachineTemplateSpec_To_v1beta1_VSphereMachineTemplateSpec (x : infrav1.VSphereMachineTemplateSpec) (out : infrav1beta1.VSphereMachineTemplateSpec) : res infrav1beta1.VSphereMachineTemplateSpec :=
  v_Template ← Convert_v1beta2_VSphereMachineTemplateResource_To_v1beta1_VSphereMachineTemplateResource (infrav1.VSphereMachineTemplateSpec_Template x) (infrav1beta1.VSphereMachineTemplateSpec_Template out);
  mret {|
    infrav1beta1.VSphereMachineTemplateSpec_Template := v_Template
  |}.

Definition Convert_v1beta2_VSphereMachineTemplateSpec_To_v1beta1_VSphereMachineTemplateSpec (x : infrav1.VSphereMachineTemplateSpec) (out : infrav1beta1.VSphereMachineTemplateSpec) : res infrav1beta1.VSphereMachineTemplateSpec :=
  autoConvert_v1beta2_VSphereMachineTemplateSpec_To_v1beta1_VSphereMachineTemplateSpec x out.

Definition autoConvert_v1beta2_VSphereMachineTemplate_To_v1beta1_VSphereMachineTemplate (x : infrav1.VSphereMachineTemplate) (out : infrav1beta1.VSphereMachineTemplate) : res infrav1beta1.VSphereMachineTemplate :=
  v_Spec ← Convert_v1beta2_VSphereMachineTemplateSpec_To_v1beta1_VSphereMachineTemplateSpec (infrav1.VSphereMachineTemplate_Spec x) (infrav1beta1.VSphereMachineTemplate_Spec out);
  mret {|
    infrav1beta1.VSphereMachineTemplate_ObjectMeta := infrav1.VSphereMachineTemplate_ObjectMeta x;
    infrav1beta1.VSphereMachineTemplate_Spec := v_Spec
  |}.

Definition Convert_v1beta2_VSphereMachineTemplate_To_v1beta1_VSphereMachineTemplate (x : infrav1.VSphereMachineTemplate) (out : infrav1beta1.VSphereMachineTemplate) : res infrav1beta1.VSphereMachineTemplate :=
  autoConvert_v1beta2_VSphereMachineTemplate_To_v1beta1_VSphereMachineTemplate x out.

Definition autoConvert_v1beta1_VSphereMachineTemplateList_To_v1beta2_VSphereMachineTemplateList (x : infrav1beta1.VSphereMachineTemplateList) (out : infrav1.VSphereMachineTemplateList) : res infrav1.VSphereMachineTemplateList :=
  v_Items ← convert_slice (λ p, Convert_v1beta1_VSphereMachineTemplate_To_v1beta2_VSphereMachineTemplate p infrav1.zero_VSphereMachineTemplate) (infrav1beta1.VSphereMachineTemplateList_Items x);
  mret {|
    infrav1.VSphereMachineTemplateList_ListMeta := infrav1beta1.VSphereMachineTemplateList_ListMeta x;
    infrav1.VSphereMachineTemplateList_Items := v_Items
  |}.

Definition Convert_v1beta1_VSphereMachineTemplateList_To_v1beta2_VSphereMachineTemplateList (x : infrav1beta1.VSphereMachineTemplateList) (out : infrav1.VSphereMachineTemplateList) : res infrav1.VSphereMachineTemplateList :=
  autoConvert_v1beta1_VSphereMachineTemplateList_To_v1beta2_VSphereMachineTemplateList x out.

Definition autoConvert_v1beta2_VSphereMachineTemplateList_To_v1beta1_VSphereMachineTemplateList (x : infrav1.VSphereMachineTemplateList) (out : infrav1beta1.VSphereMachineTemplateList) : res infrav1beta1.VSphereMachineTemplateList :=
  v_Items ← convert_slice (λ p, Convert_v1beta2_VSphereMachineTemplate_To_v1beta1_VSphereMachineTemplate p infrav1beta1.zero_VSphereMachineTemplate) (infrav1.VSphereMachineTemplateList_Items x);
  mret {|
    infrav1beta1.VSphereMachineTemplateList_ListMeta := infrav1.VSphereMachineTemplateList_ListMeta x;
    infrav1beta1.VSphereMachineTemplateList_Items := v_Items
  |}.

Definition Convert_v1beta2_VSphereMachineTemplateList_To_v1beta1_VSphereMachineTemplateList (x : infrav1.VSphereMachineTemplateList) (out : infrav1beta1.VSphereMachineTemplateList) : res infrav1beta1.VSphereMachineTemplateList :=
  autoConvert_v1beta2_VSphereMachineTemplateList_To_v1beta1_VSphereMachineTemplateList x out.

Definition autoConvert_v1beta1_VSphereVMSpec_To_v1beta2_VSphereVMSpec (x : infrav1beta1.VSphereVMSpec) (out : infrav1.VSphereVMSpec) : res infrav1.VSphereVMSpec :=
  v_VirtualMachineCloneSpec ← Convert_v1beta1_VirtualMachineCloneSpec_To_v1beta2_VirtualMachineCloneSpec (infrav1beta1.VSphereVMSpec_VirtualMachineCloneSpec x) (infrav1.VSphereVMSpec_VirtualMachineCloneSpec out);
  mret {|
    infrav1.VSphereVMSpec_VirtualMachineCloneSpec := v_VirtualMachineCloneSpec;
    infrav1.VSphereVMSpec_BootstrapRef := infrav1.VSphereVMSpec_BootstrapRef out;
    infrav1.VSphereVMSpec_BiosUUID := infrav1beta1.VSphereVMSpec_BiosUUID x;
    infrav1.VSphereVMSpec_PowerOffMode := infrav1beta1.VSphereVMSpec_PowerOffMode x;
    infrav1.VSphereVMSpec_GuestSoftPowerOffTimeoutSeconds := infrav1.VSphereVMSpec_GuestSoftPowerOffTimeoutSeconds out
  |}.

Definition Convert_v1beta1_VSphereVMSpec_To_v1beta2_VSphereVMSpec (x : infrav1beta1.VSphereVMSpec) (out : infrav1.VSphereVMSpec) : res infrav1.VSphereVMSpec :=
  out ← autoConvert_v1beta1_VSphereVMSpec_To_v1beta2_VSphereVMSpec x out;
  Ok (infrav1.set_VSphereVMSpec_GuestSoftPowerOffTimeoutSeconds
    (ptr_deref (ConvertToSeconds (infrav1beta1.VSphereVMSpec_GuestSoftPowerOffTimeout x)) 0) out).

Definition autoConvert_v1beta1_VSphereVMStatus_To_v1beta2_VSphereVMStatus (x : infrav1beta1.VSphereVMStatus) (out : infrav1.VSphereVMStatus) : res infrav1.VSphereVMStatus :=
  v_Ready ← metav1_Convert_bool_To_Pointer_bool (infrav1beta1.VSphereVMStatus_Ready x);
  v_Network ← convert_slice (λ p, Convert_v1beta1_NetworkStatus_To_v1beta2_NetworkStatus p infrav1.zero_NetworkStatus) (infrav1beta1.VSphereVMStatus_Network x);
  v_Conditions ← convert_slice (λ p, Convert_v1beta1_Condition_To_v1_Condition p zero_Condition) (infrav1beta1.VSphereVMStatus_Conditions x);
  mret {|
    infrav1.VSphereVMStatus_Conditions := v_Conditions;
    infrav1.VSphereVMStatus_Host := infrav1beta1.VSphereVMStatus_Host x;
    infrav1.VSphereVMStatus_Ready := v_Ready;
    infrav1.VSphereVMStatus_Addresses := infrav1beta1.VSphereVMStatus_Addresses x;
    infrav1.VSphereVMStatus_CloneMode := infrav1beta1.VSphereVMStatus_CloneMode x;
    infrav1.VSphereVMStatus_Snapshot := infrav1beta1.VSphereVMStatus_Snapshot x;
    infrav1.VSphereVMStatus_RetryAfter := infrav1beta1.VSphereVMStatus_RetryAfter x;
    infrav1.VSphereVMStatus_TaskRef := infrav1beta1.VSphereVMStatus_TaskRef x;
    infrav1.VSphereVMStatus_Network := v_Network;
    infrav1.VSphereVMStatus_ModuleUUID := infrav1beta1.VSphereVMStatus_ModuleUUID x;
    infrav1.VSphereVMStatus_VMRef := infrav1beta1.VSphereVMStatus_VMRef x;
    infrav1.VSphereVMStatus_Deprecated := infrav1.VSphereVMStatus_Deprecated out
  |}.

Definition Convert_v1beta1_VSphereVMStatus_To_v1beta2_VSphereVMStatus (x : infrav1beta1.VSphereVMStatus) (out : infrav1.VSphereVMStatus) : res infrav1.VSphereVMStatus :=
  out ← autoConvert_v1beta1_VSphereVMStatus_To_v1beta2_VSphereVMStatus x out;
  let out := infrav1.set_VSphereVMStatus_Conditions None out in
  let out := match infrav1beta1.VSphereVMStatus_V1Beta2 x with
    | Some v1beta2 => infrav1.set_VSphereVMStatus_Conditions (infrav1beta1.VSphereVMV1Beta2Status_Conditions v1beta2) out
    | None => out
    end in
  match infrav1beta1.VSphereVMStatus_FailureReason x, infrav1beta1.VSphereVMStatus_FailureMessage x, infrav1beta1.VSphereVMStatus_Conditions x with
  | None, None, None => Ok out
  | FailureReason, FailureMessage, Conditions =>
      let deprecated := default infrav1.zero_VSphereVMDeprecatedStatus (infrav1.VSphereVMStatus_Deprecated out) in
      let old := default infrav1.zero_VSphereVMV1Beta1DeprecatedStatus (infrav1.VSphereVMDeprecatedStatus_V1Beta1 deprecated) in
      let conditions := match Conditions with
        | Some conditions => Some (Convert_v1beta1_Conditions_To_v1beta2_Deprecated_V1Beta1_Conditions conditions)
        | None => infrav1.VSphereVMV1Beta1DeprecatedStatus_Conditions old
        end in
      Ok (infrav1.set_VSphereVMStatus_Deprecated (Some (infrav1.mkVSphereVMDeprecatedStatus (Some
        (infrav1.mkVSphereVMV1Beta1DeprecatedStatus conditions FailureReason FailureMessage)))) out)
  end.

Definition autoConvert_v1beta1_VSphereVM_To_v1beta2_VSphereVM (x : infrav1beta1.VSphereVM) (out : infrav1.VSphereVM) : res infrav1.VSphereVM :=
  v_Spec ← Convert_v1beta1_VSphereVMSpec_To_v1beta2_VSphereVMSpec (infrav1beta1.VSphereVM_Spec x) (infrav1.VSphereVM_Spec out);
  v_Status ← Convert_v1beta1_VSphereVMStatus_To_v1beta2_VSphereVMStatus (infrav1beta1.VSphereVM_Status x) (infrav1.VSphereVM_Status out);
  mret {|
    infrav1.VSphereVM_ObjectMeta := infrav1beta1.VSphereVM_ObjectMeta x;
    infrav1.VSphereVM_Spec := v_Spec;
    infrav1.VSphereVM_Status := v_Status
  |}.

Definition Convert_v1beta1_VSphereVM_To_v1beta2_VSphereVM (x : infrav1beta1.VSphereVM) (out : infrav1.VSphereVM) : res infrav1.VSphereVM :=
  autoConvert_v1beta1_VSphereVM_To_v1beta2_VSphereVM x out.

Definition autoConvert_v1beta2_VSphereVMSpec_To_v1beta1_VSphereVMSpec (x : infrav1.VSphereVMSpec) (out : infrav1beta1.VSphereVMSpec) : res infrav1beta1.VSphereVMSpec :=
  v_VirtualMachineCloneSpec ← Convert_v1beta2_VirtualMachineCloneSpec_To_v1beta1_VirtualMachineCloneSpec (infrav1.VSphereVMSpec_VirtualMachineCloneSpec x) (infrav1beta1.VSphereVMSpec_VirtualMachineCloneSpec out);
  mret {|
    infrav1beta1.VSphereVMSpec_VirtualMachineCloneSpec := v_VirtualMachineCloneSpec;
    infrav1beta1.VSphereVMSpec_BootstrapRef := infrav1beta1.VSphereVMSpec_BootstrapRef out;
    infrav1beta1.VSphereVMSpec_BiosUUID := infrav1.VSphereVMSpec_BiosUUID x;
    infrav1beta1.VSphereVMSpec_PowerOffMode := infrav1.VSphereVMSpec_PowerOffMode x;
    infrav1beta1.VSphereVMSpec_GuestSoftPowerOffTimeout := infrav1beta1.VSphereVMSpec_GuestSoftPowerOffTimeout out
  |}.

Definition Convert_v1beta2_VSphereVMSpec_To_v1beta1_VSphereVMSpec (x : infrav1.VSphereVMSpec) (out : infrav1beta1.VSphereVMSpec) : res infrav1beta1.VSphereVMSpec :=
  out ← autoConvert_v1beta2_VSphereVMSpec_To_v1beta1_VSphereVMSpec x out;
  if infrav1.VSphereVMSpec_GuestSoftPowerOffTimeoutSeconds x =? 0 then Ok out
  else Ok (infrav1beta1.set_VSphereVMSpec_GuestSoftPowerOffTimeout
    (ConvertFromSeconds (Some (infrav1.VSphereVMSpec_GuestSoftPowerOffTimeoutSeconds x))) out).

Definition autoConvert_v1beta2_VSphereVMStatus_To_v1beta1_VSphereVMStatus (x : infrav1.VSphereVMStatus) (out : infrav1beta1.VSphereVMStatus) : res infrav1beta1.VSphereVMStatus :=
  v_Conditions ← convert_slice (λ p, Convert_v1_Condition_To_v1beta1_Condition p zero_V1Beta1Condition) (infrav1.VSphereVMStatus_Conditions x);
  v_Ready ← metav1_Convert_Pointer_bool_To_bool (infrav1.VSphereVMStatus_Ready x);
  v_Network ← convert_slice (λ p, Convert_v1beta2_NetworkStatus_To_v1beta1_NetworkStatus p infrav1beta1.zero_NetworkStatus) (infrav1.VSphereVMStatus_Network x);
  mret {|
    infrav1beta1.VSphereVMStatus_Host := infrav1.VSphereVMStatus_Host x;
    infrav1beta1.VSphereVMStatus_Ready := v_Ready;
    infrav1beta1.VSphereVMStatus_Addresses := infrav1.VSphereVMStatus_Addresses x;
    infrav1beta1.VSphereVMStatus_CloneMode := infrav1.VSphereVMStatus_CloneMode x;
    infrav1beta1.VSphereVMStatus_Snapshot := infrav1.VSphereVMStatus_Snapshot x;
    infrav1beta1.VSphereVMStatus_RetryAfter := infrav1.VSphereVMStatus_RetryAfter x;
    infrav1beta1.VSphereVMStatus_TaskRef := infrav1.VSphereVMStatus_TaskRef x;
    infrav1beta1.VSphereVMStatus_Network := v_Network;
    infrav1beta1.VSphereVMStatus_FailureReason := infrav1beta1.VSphereVMStatus_FailureReason out;
    infrav1beta1.VSphereVMStatus_FailureMessage := infrav1beta1.VSphereVMStatus_FailureMessage out;
    infrav1beta1.VSphereVMStatus_Conditions := v_Conditions;
    infrav1beta1.VSphereVMStatus_ModuleUUID := infrav1.VSphereVMStatus_ModuleUUID x;
    infrav1beta1.VSphereVMStatus_VMRef := infrav1.VSphereVMStatus_VMRef x;
    infrav1beta1.VSphereVMStatus_V1Beta2 := infrav1beta1.VSphereVMStatus_V1Beta2 out
  |}.

Definition Convert_v1beta2_VSphereVMStatus_To_v1beta1_VSphereVMStatus (x : infrav1.VSphereVMStatus) (out : infrav1beta1.VSphereVMStatus) : res infrav1beta1.VSphereVMStatus :=
  out ← autoConvert_v1beta2_VSphereVMStatus_To_v1beta1_VSphereVMStatus x out;
  let out := infrav1beta1.set_VSphereVMStatus_Conditions None out in
  let out := match infrav1.VSphereVMStatus_Deprecated x ≫= infrav1.VSphereVMDeprecatedStatus_V1Beta1 with
    | Some deprecated =>
        let out := match infrav1.VSphereVMV1Beta1DeprecatedStatus_Conditions deprecated with
          | Some conditions => infrav1beta1.set_VSphereVMStatus_Conditions (Some (Convert_v1beta2_Deprecated_V1Beta1_Conditions_To_v1beta1_Conditions conditions)) out
          | None => out
          end in
        let out := infrav1beta1.set_VSphereVMStatus_FailureReason (infrav1.VSphereVMV1Beta1DeprecatedStatus_FailureReason deprecated) out in
        infrav1beta1.set_VSphereVMStatus_FailureMessage (infrav1.VSphereVMV1Beta1DeprecatedStatus_FailureMessage deprecated) out
    | None => out
    end in
  match infrav1.VSphereVMStatus_Conditions x with
  | None => Ok out
  | Some conditions => Ok (infrav1beta1.set_VSphereVMStatus_V1Beta2 (Some (infrav1beta1.mkVSphereVMV1Beta2Status (Some conditions))) out)
  end.

Definition autoConvert_v1beta2_VSphereVM_To_v1beta1_VSphereVM (x : infrav1.VSphereVM) (out : infrav1beta1.VSphereVM) : res infrav1beta1.VSphereVM :=
  v_Spec ← Convert_v1beta2_VSphereVMSpec_To_v1beta1_VSphereVMSpec (infrav1.VSphereVM_Spec x) (infrav1beta1.VSphereVM_Spec out);
  v_Status ← Convert_v1beta2_VSphereVMStatus_To_v1beta1_VSphereVMStatus (infrav1.VSphereVM_Status x) (infrav1beta1.VSphereVM_Status out);
  mret {|
    infrav1beta1.VSphereVM_ObjectMeta := infrav1.VSphereVM_ObjectMeta x;
    infrav1beta1.VSphereVM_Spec := v_Spec;
    infrav1beta1.VSphereVM_Status := v_Status
  |}.

Definition Convert_v1beta2_VSphereVM_To_v1beta1_VSphereVM (x : infrav1.VSphereVM) (out : infrav1beta1.VSphereVM) : res infrav1beta1.VSphereVM :=
  autoConvert_v1beta2_VSphereVM_To_v1beta1_VSphereVM x out.

Definition autoConvert_v1beta1_VSphereVMList_To_v1beta2_VSphereVMList (x : infrav1beta1.VSphereVMList) (out : infrav1.VSphereVMList) : res infrav1.VSphereVMList :=
  v_Items ← convert_slice (λ p, Convert_v1beta1_VSphereVM_To_v1beta2_VSphereVM p infrav1.zero_VSphereVM) (infrav1beta1.VSphereVMList_Items x);
  mret {|
    infrav1.VSphereVMList_ListMeta := infrav1beta1.VSphereVMList_ListMeta x;
    infrav1.VSphereVMList_Items := v_Items
  |}.

Definition Convert_v1beta1_VSphereVMList_To_v1beta2_VSphereVMList (x : infrav1beta1.VSphereVMList) (out : infrav1.VSphereVMList) : res infrav1.VSphereVMList :=
  autoConvert_v1beta1_VSphereVMList_To_v1beta2_VSphereVMList x out.

Definition autoConvert_v1beta2_VSphereVMList_To_v1beta1_VSphereVMList (x : infrav1.VSphereVMList) (out : infrav1beta1.VSphereVMList) : res infrav1beta1.VSphereVMList :=
  v_Items ← convert_slice (λ p, Convert_v1beta2_VSphereVM_To_v1beta1_VSphereVM p infrav1beta1.zero_VSphereVM) (infrav1.VSphereVMList_Items x);
  mret {|
    infrav1beta1.VSphereVMList_ListMeta := infrav1.VSphereVMList_ListMeta x;
    infrav1beta1.VSphereVMList_Items := v_Items
  |}.

Definition Convert_v1beta2_VSphereVMList_To_v1beta1_VSphereVMList (x : infrav1.VSphereVMList) (out : infrav1beta1.VSphereVMList) : res infrav1beta1.VSphereVMList :=
  autoConvert_v1beta2_VSphereVMList_To_v1beta1_VSphereVMList x out.

End conversions.
