(* ===== verification/GovmomiRoundTrip.v ===== *)
(** Round trips between the versions of the API objects of the govmomi mode: what is written
    as the hub version, sent as v1beta1 and read back ([_down_up]) is what was written, with
    pointers that v1beta1 does not have set ([explicit_]). *)
From Stdlib Require Import Sorted.
From stdpp Require Import sorting fin_maps.
From S2P Require Export ConvLib GovmomiTypes GovmomiConv Sorting.
#[local] Open Scope Z_scope.

#[local] Arguments mret : simpl never.
#[local] Arguments mbind : simpl never.

(** Conditions do not become conditions of the other version by themselves: the list keeps its
    length only, and the conversions of statuses reset it. *)
Lemma conditions_down `{ConvLib} (s : option (list Condition)) :
  convert_slice (λ p, Convert_v1_Condition_To_v1beta1_Condition p zero_V1Beta1Condition) s =
  Ok (option_map (map (λ _, zero_V1Beta1Condition)) s).
Proof. by apply convert_slice_pure. Qed.
Lemma conditions_up `{ConvLib} (s : option (list V1Beta1Condition)) :
  convert_slice (λ p, Convert_v1beta1_Condition_To_v1_Condition p zero_Condition) s =
  Ok (option_map (map (λ _, zero_Condition)) s).
Proof. by apply convert_slice_pure. Qed.

Ltac head_of t := lazymatch t with ?f _ => head_of f | _ => t end.

(** The functions of other projects, and what is known of the calls made so far. *)
Ltac conv_laws := repeat first
  [ rewrite bind_ok | rewrite bind_ret | rewrite obind_some | rewrite obind_none
  | rewrite bool_to_ptr | rewrite ptr_to_bool | rewrite int32_to_ptr | rewrite ptr_to_int32
  | rewrite string_to_ptr | rewrite ptr_to_string | rewrite conditions_down | rewrite conditions_up
  | match goal with E : _ = Ok _ |- _ => rewrite E end ].

(** The next call of a conversion in the goal, by the round trip known of it. *)
Ltac conv_call := match goal with
  | |- context [mbind _ (convert_slice (fun a => ?c a ?z) ?s)] =>
      let E := fresh "E" in let E' := fresh "E'" in let Q := fresh "Q" in
      destruct (round_trip_slice c z _ _ _ _ _ s) as (? & E & E' & Q); [|rewrite E]
  | |- context [mbind _ (convert_ptr (fun a => ?c a ?z) ?s)] =>
      let E := fresh "E" in let E' := fresh "E'" in
      destruct (round_trip_ptr c z _ _ _ _ _ s) as (? & E & E'); [|rewrite E]
  | |- context [mbind _ (?c ?a ?z)] =>
      let h := head_of c in lazymatch h with @mbind => fail | _ => idtac end;
      let E := fresh "E" in let E' := fresh "E'" in let Q := fresh "Q" in
      destruct (round_trip (f := c) (zb := z) a) as (? & E & E' & Q); [|rewrite E]
  end.

(** A call of which no round trip is known is run. *)
Ltac conv_run := match goal with
  | |- context [mbind _ (?c ?a ?z)] => let h := head_of c in
      lazymatch h with @mbind => fail | _ => unfold h end
  | |- exists y, ?c ?x ?z = Ok y /\ _ => let h := head_of c in
      lazymatch h with @mbind => fail | @mret => fail | @Ok => fail | _ => unfold h end
  | |- ?c ?x ?z = Ok _ => let h := head_of c in
      lazymatch h with @mbind => fail | @mret => fail | @Ok => fail | _ => unfold h end
  end.
Ltac conv_side := first [assumption | done | apply always_list | exact I].
Ltac conv_hyps Hx := hnf in Hx; repeat match goal with Hx : _ /\ _ |- _ => destruct Hx end.
Ltac conv_steps := repeat first [progress conv_laws | progress cbn | conv_call; [solve [conv_side]|] | conv_run].

(** A record that goes through field by field, and what went through unchanged. *)
Ltac conv_split := eexists; split; [reflexivity|]; split.
Ltac conv_fields := intros x Hx; conv_hyps Hx; conv_steps; conv_split; [conv_steps|].
Ltac conv_done := cbn; rewrite ?option_map_id, ?option_map_map_id; try reflexivity;
  try lazymatch goal with |- _ = Ok ?t => match t with context [?y] => is_var y; destruct y end end; cbn;
  rewrite ?cast_slice by (by intros []); rewrite ?cast_ptr by (by intros []); try reflexivity.
Ltac conv_sent := first [exact I | done | repeat split; cbn; first [done | assumption]].

(** Timeouts and names come back. *)
Lemma default_if_empty s : default "" (if String.eqb s "" then None else Some s) = s.
Proof. by destruct (String.eqb_spec s ""); subst. Qed.
Ltac conv_values := unfold ptr_deref; rewrite ?from_seconds_nil, ?to_seconds_nil, ?default_if_empty;
  repeat first [rewrite from_seconds by done | rewrite to_seconds by done].

(** By cases on what a status says of the v1beta1 contract. *)
Ltac by_cases := repeat first
  [ progress conv_steps
  | match goal with |- context [match ?p with Some _ => _ | None => _ end] => is_var p; destruct p end ].
Ltac conv_same := rewrite ?option_map_id, ?option_map_map_id, ?conditions_down_up, ?conditions_up_down; reflexivity.

Section round_trips.
Context `{ConvLib}.

(** ** Networks *)

Definition explicit_route (x : infrav1.NetworkRouteSpec) : infrav1.NetworkRouteSpec :=
  infrav1.set_NetworkRouteSpec_Metric (Some (default 0 (infrav1.NetworkRouteSpec_Metric x))) x.
Definition route_sent (x : infrav1.NetworkRouteSpec) (y : infrav1beta1.NetworkRouteSpec) : Prop :=
  infrav1beta1.NetworkRouteSpec_Metric y = default 0 (infrav1.NetworkRouteSpec_Metric x).
#[global] Instance NetworkRouteSpec_down_up : RoundTrip
  Convert_v1beta2_NetworkRouteSpec_To_v1beta1_NetworkRouteSpec infrav1beta1.zero_NetworkRouteSpec
  Convert_v1beta1_NetworkRouteSpec_To_v1beta2_NetworkRouteSpec infrav1.zero_NetworkRouteSpec
  always explicit_route route_sent.
Proof. conv_fields; [conv_done|conv_sent]. Qed.

(** The integers are 32 bits wide, as their Go type says. *)
Definition int32_overrides (x : infrav1.DHCPOverrides) : Prop := forall n, infrav1.DHCPOverrides_RouteMetric x = Some n -> is_int32 n.

#[global] Instance DHCPOverrides_down_up : RoundTrip
  Convert_v1beta2_DHCPOverrides_To_v1beta1_DHCPOverrides infrav1beta1.zero_DHCPOverrides
  Convert_v1beta1_DHCPOverrides_To_v1beta2_DHCPOverrides infrav1.zero_DHCPOverrides
  int32_overrides id anything.
Proof. conv_fields; [|exact I]. destruct x as [? []]; cbn in *; [rewrite to_int32_id by auto|]; reflexivity. Qed.

#[global] Instance IPPoolReference_down_up : RoundTrip
  Convert_v1beta2_IPPoolReference_To_v1_TypedLocalObjectReference zero_TypedLocalObjectReference
  Convert_v1_TypedLocalObjectReference_To_v1beta2_IPPoolReference infrav1.zero_IPPoolReference
  always id anything.
Proof. conv_fields; [|exact I]. destruct x as [? ? g]; cbn. destruct (String.eqb_spec g ""); by subst. Qed.

Definition int32_device (x : infrav1.NetworkDeviceSpec) : Prop :=
  (forall o, infrav1.NetworkDeviceSpec_DHCP4Overrides x = Some o -> int32_overrides o) /\
  (forall o, infrav1.NetworkDeviceSpec_DHCP6Overrides x = Some o -> int32_overrides o).

(** A pointer that v1beta1 does not have comes back set. *)
Definition explicit_device (x : infrav1.NetworkDeviceSpec) : infrav1.NetworkDeviceSpec :=
  infrav1.set_NetworkDeviceSpec_DHCP4 (Some (default false (infrav1.NetworkDeviceSpec_DHCP4 x)))
  (infrav1.set_NetworkDeviceSpec_DHCP6 (Some (default false (infrav1.NetworkDeviceSpec_DHCP6 x)))
  (infrav1.set_NetworkDeviceSpec_SkipIPAllocation (Some (default false (infrav1.NetworkDeviceSpec_SkipIPAllocation x)))
  (infrav1.set_NetworkDeviceSpec_Routes (option_map (map explicit_route) (infrav1.NetworkDeviceSpec_Routes x)) x))).
Definition device_sent (x : infrav1.NetworkDeviceSpec) (y : infrav1beta1.NetworkDeviceSpec) : Prop :=
  infrav1beta1.NetworkDeviceSpec_DHCP4 y = default false (infrav1.NetworkDeviceSpec_DHCP4 x) /\
  infrav1beta1.NetworkDeviceSpec_DHCP6 y = default false (infrav1.NetworkDeviceSpec_DHCP6 x) /\
  infrav1beta1.NetworkDeviceSpec_SkipIPAllocation y = default false (infrav1.NetworkDeviceSpec_SkipIPAllocation x) /\
  elementwise route_sent (infrav1.NetworkDeviceSpec_Routes x) (infrav1beta1.NetworkDeviceSpec_Routes y).

#[global] Instance NetworkDeviceSpec_down_up : RoundTrip
  Convert_v1beta2_NetworkDeviceSpec_To_v1beta1_NetworkDeviceSpec infrav1beta1.zero_NetworkDeviceSpec
  Convert_v1beta1_NetworkDeviceSpec_To_v1beta2_NetworkDeviceSpec infrav1.zero_NetworkDeviceSpec
  int32_device explicit_device device_sent.
Proof. conv_fields; [conv_done|conv_sent]. Qed.

Definition int32_network (x : infrav1.NetworkSpec) : Prop := Forall int32_device (elems (infrav1.NetworkSpec_Devices x)).
Definition explicit_network (x : infrav1.NetworkSpec) : infrav1.NetworkSpec :=
  infrav1.set_NetworkSpec_Devices (option_map (map explicit_device) (infrav1.NetworkSpec_Devices x))
  (infrav1.set_NetworkSpec_Routes (option_map (map explicit_route) (infrav1.NetworkSpec_Routes x)) x).
Definition network_sent (x : infrav1.NetworkSpec) (y : infrav1beta1.NetworkSpec) : Prop :=
  elementwise device_sent (infrav1.NetworkSpec_Devices x) (infrav1beta1.NetworkSpec_Devices y) /\
  elementwise route_sent (infrav1.NetworkSpec_Routes x) (infrav1beta1.NetworkSpec_Routes y).

#[global] Instance NetworkSpec_down_up : RoundTrip
  Convert_v1beta2_NetworkSpec_To_v1beta1_NetworkSpec infrav1beta1.zero_NetworkSpec
  Convert_v1beta1_NetworkSpec_To_v1beta2_NetworkSpec infrav1.zero_NetworkSpec
  int32_network explicit_network network_sent.
Proof. conv_fields; [conv_done|conv_sent]. Qed.

(** ** Specifications of machines *)

#[global] Instance VirtualMachineResourceSpec_down_up : RoundTrip
  Convert_v1beta2_VirtualMachineResourceSpec_To_v1beta1_VirtualMachineResourceSpec infrav1beta1.zero_VirtualMachineResourceSpec
  Convert_v1beta1_VirtualMachineResourceSpec_To_v1beta2_VirtualMachineResourceSpec infrav1.zero_VirtualMachineResourceSpec
  always id anything.
Proof. conv_fields; [conv_done|conv_sent]. Qed.

#[global] Instance VirtualMachineResourceShares_down_up : RoundTrip
  Convert_v1beta2_VirtualMachineResourceShares_To_v1beta1_VirtualMachineResourceShares infrav1beta1.zero_VirtualMachineResourceShares
  Convert_v1beta1_VirtualMachineResourceShares_To_v1beta2_VirtualMachineResourceShares infrav1.zero_VirtualMachineResourceShares
  always id anything.
Proof. conv_fields; [conv_done|conv_sent]. Qed.

#[global] Instance VirtualMachineResources_down_up : RoundTrip
  Convert_v1beta2_VirtualMachineResources_To_v1beta1_VirtualMachineResources infrav1beta1.zero_VirtualMachineResources
  Convert_v1beta1_VirtualMachineResources_To_v1beta2_VirtualMachineResources infrav1.zero_VirtualMachineResources
  always id anything.
Proof. conv_fields; [conv_done|conv_sent]. Qed.

Definition int32_clone (x : infrav1.VirtualMachineCloneSpec) : Prop := int32_network (infrav1.VirtualMachineCloneSpec_Network x).
Definition explicit_clone (x : infrav1.VirtualMachineCloneSpec) : infrav1.VirtualMachineCloneSpec :=
  infrav1.set_VirtualMachineCloneSpec_NumCoresPerSocket (Some (default 0 (infrav1.VirtualMachineCloneSpec_NumCoresPerSocket x)))
  (infrav1.set_VirtualMachineCloneSpec_Network (explicit_network (infrav1.VirtualMachineCloneSpec_Network x)) x).
Definition clone_sent (x : infrav1.VirtualMachineCloneSpec) (y : infrav1beta1.VirtualMachineCloneSpec) : Prop :=
  infrav1beta1.VirtualMachineCloneSpec_NumCoresPerSocket y = default 0 (infrav1.VirtualMachineCloneSpec_NumCoresPerSocket x) /\
  network_sent (infrav1.VirtualMachineCloneSpec_Network x) (infrav1beta1.VirtualMachineCloneSpec_Network y).

#[global] Instance VirtualMachineCloneSpec_down_up : RoundTrip
  Convert_v1beta2_VirtualMachineCloneSpec_To_v1beta1_VirtualMachineCloneSpec infrav1beta1.zero_VirtualMachineCloneSpec
  Convert_v1beta1_VirtualMachineCloneSpec_To_v1beta2_VirtualMachineCloneSpec infrav1.zero_VirtualMachineCloneSpec
  int32_clone explicit_clone clone_sent.
Proof. conv_fields; [conv_done|conv_sent]. Qed.

(** What [ConvertVSphereMachineHubToV1Beta1] does to the specification it converted: a pointer to
    an empty string becomes nil. *)
Definition nil_if_empty (p : option string) : option string :=
  match p with Some s => if String.eqb s "" then None else Some s | None => None end.

Definition tidy_machine (y : infrav1beta1.VSphereMachineSpec) : infrav1beta1.VSphereMachineSpec :=
  let y := infrav1beta1.set_VSphereMachineSpec_ProviderID (nil_if_empty (infrav1beta1.VSphereMachineSpec_ProviderID y)) y in
  let y := infrav1beta1.set_VSphereMachineSpec_FailureDomain (nil_if_empty (infrav1beta1.VSphereMachineSpec_FailureDomain y)) y in
  infrav1beta1.set_VSphereMachineSpec_NamingStrategy
    (option_map (λ n, infrav1beta1.set_VSphereVMNamingStrategy_Template (nil_if_empty (infrav1beta1.VSphereVMNamingStrategy_Template n)) n)
      (infrav1beta1.VSphereMachineSpec_NamingStrategy y)) y.

Definition int32_machine (x : infrav1.VSphereMachineSpec) : Prop :=
  int32_clone (infrav1.VSphereMachineSpec_VirtualMachineCloneSpec x) /\
  is_int32 (infrav1.VSphereMachineSpec_GuestSoftPowerOffTimeoutSeconds x).
Definition explicit_machine (x : infrav1.VSphereMachineSpec) : infrav1.VSphereMachineSpec :=
  infrav1.set_VSphereMachineSpec_VirtualMachineCloneSpec (explicit_clone (infrav1.VSphereMachineSpec_VirtualMachineCloneSpec x)) x.
Definition machine_sent (x : infrav1.VSphereMachineSpec) (y : infrav1beta1.VSphereMachineSpec) : Prop :=
  clone_sent (infrav1.VSphereMachineSpec_VirtualMachineCloneSpec x) (infrav1beta1.VSphereMachineSpec_VirtualMachineCloneSpec y).

#[global] Instance VSphereMachineSpec_down_up : RoundTrip
  (λ x out, y ← Convert_v1beta2_VSphereMachineSpec_To_v1beta1_VSphereMachineSpec x out; Ok (tidy_machine y)) infrav1beta1.zero_VSphereMachineSpec
  Convert_v1beta1_VSphereMachineSpec_To_v1beta2_VSphereMachineSpec infrav1.zero_VSphereMachineSpec
  int32_machine explicit_machine machine_sent.
Proof. 
  intros x (Hc & Ht). conv_steps.
  case_bool_decide as Hn; conv_steps; destruct (Z.eqb_spec (infrav1.VSphereMachineSpec_GuestSoftPowerOffTimeoutSeconds x) 0) as [E0|E0];
    conv_steps; (conv_split; [|exact Q]); conv_steps; conv_values; destruct x as [? ? ? ? []]; cbn in *;
    unfold infrav1.zero_VSphereVMNamingSpec in *; simplify_eq; reflexivity.
 Qed.

(** The reference to the bootstrap data is converted by [ConvertVSphereVMHubToV1Beta1]. *)
Definition int32_vm (x : infrav1.VSphereVMSpec) : Prop :=
  int32_clone (infrav1.VSphereVMSpec_VirtualMachineCloneSpec x) /\
  is_int32 (infrav1.VSphereVMSpec_GuestSoftPowerOffTimeoutSeconds x).
Definition explicit_vm (x : infrav1.VSphereVMSpec) : infrav1.VSphereVMSpec :=
  infrav1.set_VSphereVMSpec_VirtualMachineCloneSpec (explicit_clone (infrav1.VSphereVMSpec_VirtualMachineCloneSpec x))
  (infrav1.set_VSphereVMSpec_BootstrapRef infrav1.zero_VSphereVMBootstrapReference x).
Definition vm_sent (x : infrav1.VSphereVMSpec) (y : infrav1beta1.VSphereVMSpec) : Prop :=
  clone_sent (infrav1.VSphereVMSpec_VirtualMachineCloneSpec x) (infrav1beta1.VSphereVMSpec_VirtualMachineCloneSpec y).

(** [BootstrapRef] is set in between and not read by this conversion. *)
Definition with_bootstrap (r : option ObjectReference) (y : infrav1beta1.VSphereVMSpec) : infrav1beta1.VSphereVMSpec :=
  match r with Some _ => infrav1beta1.set_VSphereVMSpec_BootstrapRef r y | None => y end.

#[global] Instance VSphereVMSpec_down_up (r : option ObjectReference) : RoundTrip
  (λ x out, y ← Convert_v1beta2_VSphereVMSpec_To_v1beta1_VSphereVMSpec x out; Ok (with_bootstrap r y)) infrav1beta1.zero_VSphereVMSpec
  Convert_v1beta1_VSphereVMSpec_To_v1beta2_VSphereVMSpec infrav1.zero_VSphereVMSpec
  int32_vm explicit_vm (λ x y, vm_sent x y /\ infrav1beta1.VSphereVMSpec_BootstrapRef y = r).
Proof. 
  intros x (Hc & Ht). conv_steps. destruct (Z.eqb_spec (infrav1.VSphereVMSpec_GuestSoftPowerOffTimeoutSeconds x) 0) as [E0|E0];
    destruct r; conv_steps; (conv_split; [|by split; [exact Q|]]); conv_steps; conv_values; destruct x as [? [] ? ? ?]; cbn in *;
    simplify_eq; reflexivity.
 Qed.

(** ** Status of machines *)

Definition explicit_interface (x : infrav1.NetworkStatus) : infrav1.NetworkStatus :=
  infrav1.set_NetworkStatus_Connected (Some (default false (infrav1.NetworkStatus_Connected x))) x.
Definition interface_sent (x : infrav1.NetworkStatus) (y : infrav1beta1.NetworkStatus) : Prop :=
  infrav1beta1.NetworkStatus_Connected y = default false (infrav1.NetworkStatus_Connected x).

#[global] Instance NetworkStatus_down_up : RoundTrip
  Convert_v1beta2_NetworkStatus_To_v1beta1_NetworkStatus infrav1beta1.zero_NetworkStatus
  Convert_v1beta1_NetworkStatus_To_v1beta2_NetworkStatus infrav1.zero_NetworkStatus
  always explicit_interface interface_sent.
Proof. conv_fields; [conv_done|conv_sent]. Qed.

#[global] Instance MachineAddress_down_up : RoundTrip
  Convert_v1beta2_MachineAddress_To_v1beta1_MachineAddress zero_MachineAddress
  Convert_v1beta1_MachineAddress_To_v1beta2_MachineAddress zero_MachineAddress
  always id anything.
Proof. intros x _. destruct (address_down_up x) as (y & E & E'). by exists y. Qed.

#[global] Instance ObjectMeta_down_up : RoundTrip
  Convert_v1beta2_ObjectMeta_To_v1beta1_ObjectMeta zero_TemplateMeta
  Convert_v1beta1_ObjectMeta_To_v1beta2_ObjectMeta zero_TemplateMeta
  always id anything.
Proof. intros x _. destruct (template_meta_down_up x) as (y & E & E'). by exists y. Qed.

(** A status does not have deprecated fields that say nothing. *)
Definition deprecated_VSphereMachine (x : infrav1.VSphereMachineStatus) : Prop :=
  match infrav1.VSphereMachineStatus_Deprecated x with
  | None => True
  | Some d => exists b, infrav1.VSphereMachineDeprecatedStatus_V1Beta1 d = Some b /\ b <> infrav1.zero_VSphereMachineV1Beta1DeprecatedStatus
  end.
Definition explicit_machine_status (x : infrav1.VSphereMachineStatus) : infrav1.VSphereMachineStatus :=
  infrav1.set_VSphereMachineStatus_Initialization infrav1.zero_VSphereMachineInitializationStatus
  (infrav1.set_VSphereMachineStatus_Network (option_map (map explicit_interface) (infrav1.VSphereMachineStatus_Network x)) x).
Definition machine_status_sent (x : infrav1.VSphereMachineStatus) (y : infrav1beta1.VSphereMachineStatus) : Prop :=
  infrav1beta1.VSphereMachineStatus_Ready y =
    default false (infrav1.VSphereMachineInitializationStatus_Provisioned (infrav1.VSphereMachineStatus_Initialization x)) /\
  elementwise interface_sent (infrav1.VSphereMachineStatus_Network x) (infrav1beta1.VSphereMachineStatus_Network y).

#[global] Instance VSphereMachineStatus_down_up : RoundTrip
  Convert_v1beta2_VSphereMachineStatus_To_v1beta1_VSphereMachineStatus infrav1beta1.zero_VSphereMachineStatus
  Convert_v1beta1_VSphereMachineStatus_To_v1beta2_VSphereMachineStatus infrav1.zero_VSphereMachineStatus
  deprecated_VSphereMachine explicit_machine_status machine_status_sent.
Proof. 
  intros x Hx. destruct x. match goal with d : option infrav1.VSphereMachineDeprecatedStatus |- _ => destruct d as [[b]|] end;
    [destruct Hx as (b' & Hb & Hx); cbn in Hb; subst b; destruct b' as [[c|] r m]|];
    match goal with cs : option (list Condition) |- _ => destruct cs end;
    by_cases; conv_split; by_cases; first [conv_same | conv_sent | by destruct Hx].
 Qed.

(** A status does not have deprecated fields that say nothing. *)
Definition deprecated_VSphereVM (x : infrav1.VSphereVMStatus) : Prop :=
  match infrav1.VSphereVMStatus_Deprecated x with
  | None => True
  | Some d => exists b, infrav1.VSphereVMDeprecatedStatus_V1Beta1 d = Some b /\ b <> infrav1.zero_VSphereVMV1Beta1DeprecatedStatus
  end.
Definition explicit_vm_status (x : infrav1.VSphereVMStatus) : infrav1.VSphereVMStatus :=
  infrav1.set_VSphereVMStatus_Ready (Some (default false (infrav1.VSphereVMStatus_Ready x)))
  (infrav1.set_VSphereVMStatus_Network (option_map (map explicit_interface) (infrav1.VSphereVMStatus_Network x)) x).
Definition vm_status_sent (x : infrav1.VSphereVMStatus) (y : infrav1beta1.VSphereVMStatus) : Prop :=
  infrav1beta1.VSphereVMStatus_Ready y = default false (infrav1.VSphereVMStatus_Ready x) /\
  elementwise interface_sent (infrav1.VSphereVMStatus_Network x) (infrav1beta1.VSphereVMStatus_Network y).

#[global] Instance VSphereVMStatus_down_up : RoundTrip
  Convert_v1beta2_VSphereVMStatus_To_v1beta1_VSphereVMStatus infrav1beta1.zero_VSphereVMStatus
  Convert_v1beta1_VSphereVMStatus_To_v1beta2_VSphereVMStatus infrav1.zero_VSphereVMStatus
  deprecated_VSphereVM explicit_vm_status vm_status_sent.
Proof. 
  intros x Hx. destruct x. match goal with d : option infrav1.VSphereVMDeprecatedStatus |- _ => destruct d as [[b]|] end;
    [destruct Hx as (b' & Hb & Hx); cbn in Hb; subst b; destruct b' as [[c|] r m]|];
    match goal with cs : option (list Condition) |- _ => destruct cs end;
    by_cases; conv_split; by_cases; first [conv_same | conv_sent | by destruct Hx].
 Qed.

(** ** Clusters *)

#[global] Instance APIEndpoint_down_up : RoundTrip
  Convert_v1beta2_APIEndpoint_To_v1beta1_APIEndpoint infrav1beta1.zero_APIEndpoint
  Convert_v1beta1_APIEndpoint_To_v1beta2_APIEndpoint infrav1.zero_APIEndpoint
  always id anything.
Proof. conv_fields; [conv_done|conv_sent]. Qed.

#[global] Instance VSphereClusterIdentitySpec_down_up : RoundTrip
  Convert_v1beta2_VSphereClusterIdentitySpec_To_v1beta1_VSphereClusterIdentitySpec infrav1beta1.zero_VSphereClusterIdentitySpec
  Convert_v1beta1_VSphereClusterIdentitySpec_To_v1beta2_VSphereClusterIdentitySpec infrav1.zero_VSphereClusterIdentitySpec
  always id anything.
Proof. conv_fields; [conv_done|conv_sent]. Qed.

#[global] Instance PlacementConstraint_down_up : RoundTrip
  Convert_v1beta2_PlacementConstraint_To_v1beta1_PlacementConstraint infrav1beta1.zero_PlacementConstraint
  Convert_v1beta1_PlacementConstraint_To_v1beta2_PlacementConstraint infrav1.zero_PlacementConstraint
  always id anything.
Proof. conv_fields; [conv_done|conv_sent]. Qed.

#[global] Instance VSphereDeploymentZoneSpec_down_up : RoundTrip
  Convert_v1beta2_VSphereDeploymentZoneSpec_To_v1beta1_VSphereDeploymentZoneSpec infrav1beta1.zero_VSphereDeploymentZoneSpec
  Convert_v1beta1_VSphereDeploymentZoneSpec_To_v1beta2_VSphereDeploymentZoneSpec infrav1.zero_VSphereDeploymentZoneSpec
  always id anything.
Proof. conv_fields; [conv_done|conv_sent]. Qed.

#[global] Instance FailureDomain_down_up : RoundTrip
  Convert_v1beta2_FailureDomain_To_v1beta1_FailureDomain infrav1beta1.zero_FailureDomain
  Convert_v1beta1_FailureDomain_To_v1beta2_FailureDomain infrav1.zero_FailureDomain
  always id anything.
Proof. conv_fields; [conv_done|conv_sent]. Qed.

#[global] Instance VSphereIdentityReference_down_up : RoundTrip
  autoConvert_v1beta2_VSphereIdentityReference_To_v1beta1_VSphereIdentityReference infrav1beta1.zero_VSphereIdentityReference
  autoConvert_v1beta1_VSphereIdentityReference_To_v1beta2_VSphereIdentityReference infrav1.zero_VSphereIdentityReference
  always id anything.
Proof. conv_fields; [conv_done|conv_sent]. Qed.

#[global] Instance FailureDomainHosts_down_up : RoundTrip
  autoConvert_v1beta2_FailureDomainHosts_To_v1beta1_FailureDomainHosts infrav1beta1.zero_FailureDomainHosts
  autoConvert_v1beta1_FailureDomainHosts_To_v1beta2_FailureDomainHosts infrav1.zero_FailureDomainHosts
  always id anything.
Proof. conv_fields; [conv_done|conv_sent]. Qed.

Definition int32_configuration (x : infrav1.NetworkConfiguration) : Prop :=
  (forall o, infrav1.NetworkConfiguration_DHCP4Overrides x = Some o -> int32_overrides o) /\
  (forall o, infrav1.NetworkConfiguration_DHCP6Overrides x = Some o -> int32_overrides o).

#[global] Instance NetworkConfiguration_down_up : RoundTrip
  Convert_v1beta2_NetworkConfiguration_To_v1beta1_NetworkConfiguration infrav1beta1.zero_NetworkConfiguration
  Convert_v1beta1_NetworkConfiguration_To_v1beta2_NetworkConfiguration infrav1.zero_NetworkConfiguration
  int32_configuration id anything.
Proof. conv_fields; [conv_done|conv_sent]. Qed.

(** What [ConvertVSphereFailureDomainHubToV1Beta1] does to the topology it converted. *)
Definition tidy_topology (y : infrav1beta1.Topology) : infrav1beta1.Topology :=
  infrav1beta1.set_Topology_ComputeCluster (nil_if_empty (infrav1beta1.Topology_ComputeCluster y)) y.
Definition int32_topology (x : infrav1.Topology) : Prop := Forall int32_configuration (elems (infrav1.Topology_NetworkConfigurations x)).

#[global] Instance Topology_down_up : RoundTrip
  (λ x out, y ← Convert_v1beta2_Topology_To_v1beta1_Topology x out; Ok (tidy_topology y)) infrav1beta1.zero_Topology
  Convert_v1beta1_Topology_To_v1beta2_Topology infrav1.zero_Topology
  int32_topology id anything.
Proof. 
  intros x Hx. conv_hyps Hx. conv_steps. case_bool_decide as Hh; conv_steps; (conv_split; [conv_steps|exact I]); conv_values;
    rewrite ?option_map_map_id; destruct x as [? ? []]; cbn in *; unfold infrav1.zero_FailureDomainHosts in *; simplify_eq/=; reflexivity.
 Qed.

Definition explicit_module (x : infrav1.ClusterModule) : infrav1.ClusterModule :=
  infrav1.set_ClusterModule_ControlPlane (Some (default false (infrav1.ClusterModule_ControlPlane x))) x.
Definition module_sent (x : infrav1.ClusterModule) (y : infrav1beta1.ClusterModule) : Prop :=
  infrav1beta1.ClusterModule_ControlPlane y = default false (infrav1.ClusterModule_ControlPlane x).

#[global] Instance ClusterModule_down_up : RoundTrip
  Convert_v1beta2_ClusterModule_To_v1beta1_ClusterModule infrav1beta1.zero_ClusterModule
  Convert_v1beta1_ClusterModule_To_v1beta2_ClusterModule infrav1.zero_ClusterModule
  always explicit_module module_sent.
Proof. conv_fields; [conv_done|conv_sent]. Qed.

Definition explicit_cluster (x : infrav1.VSphereClusterSpec) : infrav1.VSphereClusterSpec :=
  infrav1.set_VSphereClusterSpec_DisableClusterModule (Some (default false (infrav1.VSphereClusterSpec_DisableClusterModule x)))
  (infrav1.set_VSphereClusterSpec_ClusterModules (option_map (map explicit_module) (infrav1.VSphereClusterSpec_ClusterModules x)) x).
Definition cluster_sent (x : infrav1.VSphereClusterSpec) (y : infrav1beta1.VSphereClusterSpec) : Prop :=
  infrav1beta1.VSphereClusterSpec_DisableClusterModule y = default false (infrav1.VSphereClusterSpec_DisableClusterModule x) /\
  elementwise module_sent (infrav1.VSphereClusterSpec_ClusterModules x) (infrav1beta1.VSphereClusterSpec_ClusterModules y).

#[global] Instance VSphereClusterSpec_down_up : RoundTrip
  Convert_v1beta2_VSphereClusterSpec_To_v1beta1_VSphereClusterSpec infrav1beta1.zero_VSphereClusterSpec
  Convert_v1beta1_VSphereClusterSpec_To_v1beta2_VSphereClusterSpec infrav1.zero_VSphereClusterSpec
  always explicit_cluster cluster_sent.
Proof. 
  intros x _. conv_steps. case_bool_decide as Hi; conv_steps; (conv_split; [conv_steps|conv_sent]);
    destruct x as [? ? ? []]; cbn in *; unfold infrav1.zero_VSphereIdentityReference in *; simplify_eq/=; reflexivity.
 Qed.

(** The failure domains of a cluster are sorted by their names, which are distinct, and each says
    whether it is for control planes. *)
Definition ordered_domains (l : list FailureDomain) : Prop :=
  StronglySorted (key_le fo_Name) l /\ NoDup (map fo_Name l) /\ Forall (λ fd, fo_ControlPlane fd <> None) l.

Lemma failure_domains_keep l m :
  NoDup (map fo_Name l) -> (forall n, n ∈ map fo_Name l -> m !! n = None) ->
  map_to_list (fold_left (λ m fd, <[fo_Name fd := mkFailureDomainSpec (ptr_deref (fo_ControlPlane fd) false) (fo_Attributes fd)]> m) l m) ≡ₚ
  map (λ fd, (fo_Name fd, mkFailureDomainSpec (ptr_deref (fo_ControlPlane fd) false) (fo_Attributes fd))) l ++ map_to_list m.
Proof.
  revert m. induction l as [|fd l IH]; intros m Hn Hm; [done|]. cbn in *. apply NoDup_cons in Hn as [Hf Hn].
  rewrite IH; [|done|].
  - rewrite map_to_list_insert by (apply Hm; left). by rewrite Permutation_middle.
  - intros n Hin. rewrite lookup_insert_ne; [apply Hm; by right|]. by intros <-.
Qed.

(** The map of v1beta1 keeps the failure domains of a cluster, and their order. *)
Lemma failure_domains_down_up l : ordered_domains l -> failure_domains_of_map (failure_domains_to_map l) = l.
Proof.
  intros (Hs & Hn & Hc). unfold failure_domains_of_map.
  pose proof (failure_domains_keep l ∅ Hn (λ n _, lookup_empty n)) as Hp. rewrite map_to_list_empty, app_nil_r in Hp.
  fold (failure_domains_to_map l) in Hp.
  assert (Hnames : sort_by id (map fst (map_to_list (failure_domains_to_map l))) = map fo_Name l).
  { rewrite <-(sort_by_id id (map fo_Name l)).
    - apply sort_by_unique; [rewrite map_id; apply NoDup_fst_map_to_list|].
      rewrite Hp, map_map. done.
    - clear -Hs. induction Hs as [|x l Hs IH Hx]; cbn; constructor; [done|].
      apply Forall_map. eapply Forall_impl; [exact Hx|]. done. }
  rewrite Hnames.
  assert (Hl : Forall (λ fd, failure_domains_to_map l !! fo_Name fd =
    Some (mkFailureDomainSpec (ptr_deref (fo_ControlPlane fd) false) (fo_Attributes fd))) l).
  { apply Forall_forall. intros fd Hin. apply elem_of_map_to_list. rewrite Hp. apply list_elem_of_fmap. by exists fd. }
  clear Hp Hnames Hs Hn. generalize dependent (failure_domains_to_map l). intros m Hl.
  induction Hl as [|fd l Hfd Hl IH]; [done|]. apply Forall_cons in Hc as [Hfc Hc]. cbn. rewrite Hfd. cbn. rewrite IH by done.
  destruct fd as [n [b|] a]; [done|]. by destruct Hfc.
Qed.

(** A status does not have deprecated fields that say nothing. *)
Definition deprecated_VSphereClusterIdentity (x : infrav1.VSphereClusterIdentityStatus) : Prop :=
  match infrav1.VSphereClusterIdentityStatus_Deprecated x with
  | None => True
  | Some d => exists b, infrav1.VSphereClusterIdentityDeprecatedStatus_V1Beta1 d = Some b /\ b <> infrav1.zero_VSphereClusterIdentityV1Beta1DeprecatedStatus
  end.
Definition explicit_identity_status (x : infrav1.VSphereClusterIdentityStatus) : infrav1.VSphereClusterIdentityStatus :=
  infrav1.set_VSphereClusterIdentityStatus_Ready (Some (default false (infrav1.VSphereClusterIdentityStatus_Ready x))) x.
Definition identity_status_sent (x : infrav1.VSphereClusterIdentityStatus) (y : infrav1beta1.VSphereClusterIdentityStatus) : Prop :=
  infrav1beta1.VSphereClusterIdentityStatus_Ready y = default false (infrav1.VSphereClusterIdentityStatus_Ready x).

#[global] Instance VSphereClusterIdentityStatus_down_up : RoundTrip
  Convert_v1beta2_VSphereClusterIdentityStatus_To_v1beta1_VSphereClusterIdentityStatus infrav1beta1.zero_VSphereClusterIdentityStatus
  Convert_v1beta1_VSphereClusterIdentityStatus_To_v1beta2_VSphereClusterIdentityStatus infrav1.zero_VSphereClusterIdentityStatus
  deprecated_VSphereClusterIdentity explicit_identity_status identity_status_sent.
Proof. 
  intros x Hx. destruct x. match goal with d : option infrav1.VSphereClusterIdentityDeprecatedStatus |- _ => destruct d as [[b]|] end;
    [destruct Hx as (b' & Hb & Hx); cbn in Hb; subst b; destruct b' as [[c|]]|];
    match goal with cs : option (list Condition) |- _ => destruct cs end;
    by_cases; conv_split; by_cases; first [conv_same | conv_sent | by destruct Hx].
 Qed.

(** A status does not have deprecated fields that say nothing. *)
Definition deprecated_VSphereDeploymentZone (x : infrav1.VSphereDeploymentZoneStatus) : Prop :=
  match infrav1.VSphereDeploymentZoneStatus_Deprecated x with
  | None => True
  | Some d => exists b, infrav1.VSphereDeploymentZoneDeprecatedStatus_V1Beta1 d = Some b /\ b <> infrav1.zero_VSphereDeploymentZoneV1Beta1DeprecatedStatus
  end.

#[global] Instance VSphereDeploymentZoneStatus_down_up : RoundTrip
  Convert_v1beta2_VSphereDeploymentZoneStatus_To_v1beta1_VSphereDeploymentZoneStatus infrav1beta1.zero_VSphereDeploymentZoneStatus
  Convert_v1beta1_VSphereDeploymentZoneStatus_To_v1beta2_VSphereDeploymentZoneStatus infrav1.zero_VSphereDeploymentZoneStatus
  deprecated_VSphereDeploymentZone id anything.
Proof. 
  intros x Hx. destruct x. match goal with d : option infrav1.VSphereDeploymentZoneDeprecatedStatus |- _ => destruct d as [[b]|] end;
    [destruct Hx as (b' & Hb & Hx); cbn in Hb; subst b; destruct b' as [[c|]]|];
    match goal with cs : option (list Condition) |- _ => destruct cs end;
    by_cases; conv_split; by_cases; first [conv_same | conv_sent | by destruct Hx].
 Qed.

(** A status does not have deprecated fields that say nothing. *)
Definition deprecated_VSphereCluster (x : infrav1.VSphereClusterStatus) : Prop :=
  match infrav1.VSphereClusterStatus_Deprecated x with
  | None => True
  | Some d => exists b, infrav1.VSphereClusterDeprecatedStatus_V1Beta1 d = Some b /\ b <> infrav1.zero_VSphereClusterV1Beta1DeprecatedStatus
  end.
Definition explicit_cluster_status (x : infrav1.VSphereClusterStatus) : infrav1.VSphereClusterStatus :=
  infrav1.set_VSphereClusterStatus_Initialization infrav1.zero_VSphereClusterInitializationStatus x.
Definition cluster_status_sent (x : infrav1.VSphereClusterStatus) (y : infrav1beta1.VSphereClusterStatus) : Prop :=
  infrav1beta1.VSphereClusterStatus_Ready y =
    default false (infrav1.VSphereClusterInitializationStatus_Provisioned (infrav1.VSphereClusterStatus_Initialization x)).

Definition valid_cluster_status (x : infrav1.VSphereClusterStatus) : Prop :=
  deprecated_VSphereCluster x /\
  (forall l, infrav1.VSphereClusterStatus_FailureDomains x = Some l -> ordered_domains l).

#[global] Instance VSphereClusterStatus_down_up : RoundTrip
  Convert_v1beta2_VSphereClusterStatus_To_v1beta1_VSphereClusterStatus infrav1beta1.zero_VSphereClusterStatus
  Convert_v1beta1_VSphereClusterStatus_To_v1beta2_VSphereClusterStatus infrav1.zero_VSphereClusterStatus
  valid_cluster_status explicit_cluster_status cluster_status_sent.
Proof. 
  intros [cs i fds v d] (Hx & Hfds). destruct d as [[b]|];
    [destruct Hx as (b' & Hb & Hx); cbn in Hb; subst b; destruct b' as [[c|]]|];
    destruct cs; destruct fds; cbn in Hfds; by_cases; conv_split; by_cases;
    rewrite ?failure_domains_down_up by auto; first [conv_same | conv_sent | by destruct Hx].
 Qed.
End round_trips.
