(* ===== verification/HubSpoke.v ===== *)
(** The converters of the govmomi mode ([internal/webhooks/conversion]), which the API server calls
    to store and to serve objects in the version it was asked for: the conversions of [GovmomiConv],
    and what the hub object kept in an annotation tells of the pointers that v1beta1 does not have. *)
From S2P Require Export ConvLib GovmomiTypes GovmomiConv GovmomiRoundTrip.

#[local] Arguments mret : simpl never.
#[local] Arguments mbind : simpl never.

(** * What is restored *)

Section restore.
Context `{ConvLib}.

(** A loop over [dst] and, at the same index, [src]; an element of [restored] is used when there are as many. *)
Definition restored_elems {D R} (dst : list D) (restored : list R) : list (option R) :=
  if Nat.eqb (length dst) (length restored) then map Some restored else map (λ _, None) dst.
Definition restore_list {S D} (f : S -> option D -> D -> D) (src : option (list S)) (restored : option (list D)) (dst : option (list D)) : option (list D) :=
  if Nat.eqb (length (elems src)) (length (elems dst)) then
    option_map (λ l, map (λ '(s, (r, d)), f s r d) (combine (elems src) (combine (restored_elems l (elems restored)) l))) dst
  else dst.

Definition restore_route (ok : bool) (srcRoute : infrav1beta1.NetworkRouteSpec) (restored : option infrav1.NetworkRouteSpec) (dstRoute : infrav1.NetworkRouteSpec) : infrav1.NetworkRouteSpec :=
  let restoredMetric := match restored with Some r => infrav1.NetworkRouteSpec_Metric r | None => None end in
  infrav1.set_NetworkRouteSpec_Metric
    (clusterv1_Convert_int32_To_Pointer_int32 (infrav1beta1.NetworkRouteSpec_Metric srcRoute) ok restoredMetric) dstRoute.

Definition restore_device (ok : bool) (srcDevice : infrav1beta1.NetworkDeviceSpec) (restored : option infrav1.NetworkDeviceSpec) (dstDevice : infrav1.NetworkDeviceSpec) : infrav1.NetworkDeviceSpec :=
  let restoredDeviceDHCP4 := match restored with Some r => infrav1.NetworkDeviceSpec_DHCP4 r | None => None end in
  let restoredDeviceDHCP6 := match restored with Some r => infrav1.NetworkDeviceSpec_DHCP6 r | None => None end in
  let restoredSkipIPAllocation := match restored with Some r => infrav1.NetworkDeviceSpec_SkipIPAllocation r | None => None end in
  let dstDevice := match restored with
    | Some restoredDevice => infrav1.set_NetworkDeviceSpec_Routes
        (restore_list (restore_route ok) (infrav1beta1.NetworkDeviceSpec_Routes srcDevice) (infrav1.NetworkDeviceSpec_Routes restoredDevice)
          (infrav1.NetworkDeviceSpec_Routes dstDevice)) dstDevice
    | None => dstDevice
    end in
  let dstDevice := infrav1.set_NetworkDeviceSpec_DHCP4
    (clusterv1_Convert_bool_To_Pointer_bool (infrav1beta1.NetworkDeviceSpec_DHCP4 srcDevice) ok restoredDeviceDHCP4) dstDevice in
  let dstDevice := infrav1.set_NetworkDeviceSpec_DHCP6
    (clusterv1_Convert_bool_To_Pointer_bool (infrav1beta1.NetworkDeviceSpec_DHCP6 srcDevice) ok restoredDeviceDHCP6) dstDevice in
  infrav1.set_NetworkDeviceSpec_SkipIPAllocation
    (clusterv1_Convert_bool_To_Pointer_bool (infrav1beta1.NetworkDeviceSpec_SkipIPAllocation srcDevice) ok restoredSkipIPAllocation) dstDevice.

Definition restore_clone (ok : bool) (src : infrav1beta1.VirtualMachineCloneSpec) (restored dst : infrav1.VirtualMachineCloneSpec) : infrav1.VirtualMachineCloneSpec :=
  let dst := infrav1.set_VirtualMachineCloneSpec_NumCoresPerSocket
    (clusterv1_Convert_int32_To_Pointer_int32 (infrav1beta1.VirtualMachineCloneSpec_NumCoresPerSocket src) ok
      (infrav1.VirtualMachineCloneSpec_NumCoresPerSocket restored)) dst in
  let srcNetwork := infrav1beta1.VirtualMachineCloneSpec_Network src in
  let restoredNetwork := infrav1.VirtualMachineCloneSpec_Network restored in
  let network := infrav1.VirtualMachineCloneSpec_Network dst in
  let network := infrav1.set_NetworkSpec_Routes (restore_list (restore_route ok) (infrav1beta1.NetworkSpec_Routes srcNetwork)
    (infrav1.NetworkSpec_Routes restoredNetwork) (infrav1.NetworkSpec_Routes network)) network in
  let network := infrav1.set_NetworkSpec_Devices (restore_list (restore_device ok) (infrav1beta1.NetworkSpec_Devices srcNetwork)
    (infrav1.NetworkSpec_Devices restoredNetwork) (infrav1.NetworkSpec_Devices network)) network in
  infrav1.set_VirtualMachineCloneSpec_Network network dst.

Definition restore_interface (ok : bool) (srcNetwork : infrav1beta1.NetworkStatus) (restored : option infrav1.NetworkStatus) (dstNetwork : infrav1.NetworkStatus) : infrav1.NetworkStatus :=
  let restoredConnected := match restored with Some r => infrav1.NetworkStatus_Connected r | None => None end in
  infrav1.set_NetworkStatus_Connected
    (clusterv1_Convert_bool_To_Pointer_bool (infrav1beta1.NetworkStatus_Connected srcNetwork) ok restoredConnected) dstNetwork.

Definition restore_module (ok : bool) (srcClusterModule : infrav1beta1.ClusterModule) (restored : option infrav1.ClusterModule) (dstClusterModule : infrav1.ClusterModule) : infrav1.ClusterModule :=
  let restoredControlPlane := match restored with Some r => infrav1.ClusterModule_ControlPlane r | None => None end in
  infrav1.set_ClusterModule_ControlPlane
    (clusterv1_Convert_bool_To_Pointer_bool (infrav1beta1.ClusterModule_ControlPlane srcClusterModule) ok restoredControlPlane) dstClusterModule.

Definition restore_cluster (ok : bool) (src : infrav1beta1.VSphereClusterSpec) (restored dst : infrav1.VSphereClusterSpec) : infrav1.VSphereClusterSpec :=
  let dst := infrav1.set_VSphereClusterSpec_DisableClusterModule
    (clusterv1_Convert_bool_To_Pointer_bool (infrav1beta1.VSphereClusterSpec_DisableClusterModule src) ok
      (infrav1.VSphereClusterSpec_DisableClusterModule restored)) dst in
  infrav1.set_VSphereClusterSpec_ClusterModules (restore_list (restore_module ok) (infrav1beta1.VSphereClusterSpec_ClusterModules src)
    (infrav1.VSphereClusterSpec_ClusterModules restored) (infrav1.VSphereClusterSpec_ClusterModules dst)) dst.

Definition restore_machine_status (ok : bool) (src : infrav1beta1.VSphereMachineStatus) (restored dst : infrav1.VSphereMachineStatus) : infrav1.VSphereMachineStatus :=
  let initialization := infrav1.mkVSphereMachineInitializationStatus
    (clusterv1_Convert_bool_To_Pointer_bool (infrav1beta1.VSphereMachineStatus_Ready src) ok
      (infrav1.VSphereMachineInitializationStatus_Provisioned (infrav1.VSphereMachineStatus_Initialization restored))) in
  let dst := if bool_decide (initialization = infrav1.zero_VSphereMachineInitializationStatus) then dst
    else infrav1.set_VSphereMachineStatus_Initialization initialization dst in
  infrav1.set_VSphereMachineStatus_Network
    (restore_list (restore_interface ok) (infrav1beta1.VSphereMachineStatus_Network src)
      (infrav1.VSphereMachineStatus_Network restored) (infrav1.VSphereMachineStatus_Network dst)) dst.

Definition restore_vm_status (ok : bool) (src : infrav1beta1.VSphereVMStatus) (restored dst : infrav1.VSphereVMStatus) : infrav1.VSphereVMStatus :=
  let dst := infrav1.set_VSphereVMStatus_Ready
    (clusterv1_Convert_bool_To_Pointer_bool (infrav1beta1.VSphereVMStatus_Ready src) ok (infrav1.VSphereVMStatus_Ready restored)) dst in
  infrav1.set_VSphereVMStatus_Network
    (restore_list (restore_interface ok) (infrav1beta1.VSphereVMStatus_Network src)
      (infrav1.VSphereVMStatus_Network restored) (infrav1.VSphereVMStatus_Network dst)) dst.

Definition restore_cluster_status (ok : bool) (src : infrav1beta1.VSphereClusterStatus) (restored dst : infrav1.VSphereClusterStatus) : infrav1.VSphereClusterStatus :=
  let initialization := infrav1.mkVSphereClusterInitializationStatus
    (clusterv1_Convert_bool_To_Pointer_bool (infrav1beta1.VSphereClusterStatus_Ready src) ok
      (infrav1.VSphereClusterInitializationStatus_Provisioned (infrav1.VSphereClusterStatus_Initialization restored))) in
  if bool_decide (initialization = infrav1.zero_VSphereClusterInitializationStatus) then dst
  else infrav1.set_VSphereClusterStatus_Initialization initialization dst.

(** ** What comes back *)

Lemma restore_bool p q : q = default false p -> clusterv1_Convert_bool_To_Pointer_bool q true p = p.
Proof. intros ->. rewrite cluster_bool_to_ptr. by destruct p as [[]|]. Qed.
Lemma restore_int32 p q : q = default 0 p -> clusterv1_Convert_int32_To_Pointer_int32 q true p = p.
Proof.
  intros ->. rewrite cluster_int32_to_ptr. destruct p as [n|]; [|done]. cbn. destruct (Z.eqb_spec n 0); cbn; [by subst|done].
Qed.

Lemma restore_list_back {S D V} (f : S -> option D -> D -> D) (e : D -> D) (Q : D -> S -> Prop) (view : D -> V) src restored (x : option (list D)) :
  (forall x s r, Q x s -> view r = view x -> f s (Some r) (e x) = x) ->
  elementwise Q x src -> map view (elems restored) = map view (elems x) ->
  restore_list f src restored (option_map (map e) x) = x.
Proof.
  intros Hf HQ Hv. assert (Hl : length (elems restored) = length (elems x)).
  { apply (f_equal length) in Hv. by rewrite !length_map in Hv. }
  unfold restore_list, restored_elems. destruct x as [l|]; [|by destruct (Nat.eqb _ _)]. cbn in *.
  rewrite length_map, Hl, Nat.eqb_refl. unfold elementwise in HQ. cbn in HQ.
  rewrite (Forall2_length _ _ _ HQ), Nat.eqb_refl. f_equal. clear Hl.
  revert HQ Hv. generalize (elems src) (elems restored). intros ss rs HQ. revert rs.
  induction HQ as [|d s l ss Hq _ IH]; intros [|r rs]; cbn; [done..|]. intros [= Hr Hv]. by rewrite Hf, IH.
Qed.

(** What the restorations read of a hub object. *)
Definition device_view (x : infrav1.NetworkDeviceSpec) : option bool * option bool * option bool * list (option Z) :=
  (infrav1.NetworkDeviceSpec_DHCP4 x, infrav1.NetworkDeviceSpec_DHCP6 x, infrav1.NetworkDeviceSpec_SkipIPAllocation x,
   map infrav1.NetworkRouteSpec_Metric (elems (infrav1.NetworkDeviceSpec_Routes x))).
Definition clone_view (x : infrav1.VirtualMachineCloneSpec) :=
  (infrav1.VirtualMachineCloneSpec_NumCoresPerSocket x,
   map infrav1.NetworkRouteSpec_Metric (elems (infrav1.NetworkSpec_Routes (infrav1.VirtualMachineCloneSpec_Network x))),
   map device_view (elems (infrav1.NetworkSpec_Devices (infrav1.VirtualMachineCloneSpec_Network x)))).
Definition cluster_view (x : infrav1.VSphereClusterSpec) :=
  (infrav1.VSphereClusterSpec_DisableClusterModule x,
   map infrav1.ClusterModule_ControlPlane (elems (infrav1.VSphereClusterSpec_ClusterModules x))).

Lemma restore_route_back x s r : route_sent x s ->
  infrav1.NetworkRouteSpec_Metric r = infrav1.NetworkRouteSpec_Metric x -> restore_route true s (Some r) (explicit_route x) = x.
Proof. intros Hs Hr. unfold restore_route. rewrite Hr, restore_int32 by exact Hs. by destruct x. Qed.

Lemma restore_device_back x s r : device_sent x s ->
  device_view r = device_view x -> restore_device true s (Some r) (explicit_device x) = x.
Proof.
  intros (H4 & H6 & Hk & Hr) [= E4 E6 Ek Hv]. unfold restore_device. cbn. rewrite E4, E6, Ek.
  rewrite (restore_list_back _ explicit_route route_sent infrav1.NetworkRouteSpec_Metric) by (done || apply restore_route_back).
  rewrite !restore_bool by done. by destruct x.
Qed.

Lemma restore_clone_back x s r : clone_sent x s -> clone_view r = clone_view x -> restore_clone true s r (explicit_clone x) = x.
Proof.
  intros (Hn & Hd & Hr) [= En Hvr Hvd]. unfold restore_clone. cbn. rewrite En, restore_int32 by done.
  rewrite (restore_list_back _ explicit_route route_sent infrav1.NetworkRouteSpec_Metric) by (done || apply restore_route_back).
  rewrite (restore_list_back _ explicit_device device_sent device_view) by (done || apply restore_device_back).
  destruct x as [? ? ? ? ? ? ? ? ? ? [] ? ?]; reflexivity.
Qed.

Lemma restore_interface_back x s r : interface_sent x s ->
  infrav1.NetworkStatus_Connected r = infrav1.NetworkStatus_Connected x -> restore_interface true s (Some r) (explicit_interface x) = x.
Proof. intros Hs Hr. unfold restore_interface. rewrite Hr, restore_bool by exact Hs. by destruct x. Qed.

Lemma restore_module_back x s r : module_sent x s ->
  infrav1.ClusterModule_ControlPlane r = infrav1.ClusterModule_ControlPlane x -> restore_module true s (Some r) (explicit_module x) = x.
Proof. intros Hs Hr. unfold restore_module. rewrite Hr, restore_bool by exact Hs. by destruct x. Qed.

Lemma restore_cluster_back x s r : cluster_sent x s -> cluster_view r = cluster_view x -> restore_cluster true s r (explicit_cluster x) = x.
Proof.
  intros (Hd & Hm) [= Ed Hv]. unfold restore_cluster. cbn. rewrite Ed, restore_bool by done.
  rewrite (restore_list_back _ explicit_module module_sent infrav1.ClusterModule_ControlPlane) by (done || apply restore_module_back).
  by destruct x.
Qed.

Lemma restore_machine_status_back x s r : machine_status_sent x s ->
  infrav1.VSphereMachineInitializationStatus_Provisioned (infrav1.VSphereMachineStatus_Initialization r) =
    infrav1.VSphereMachineInitializationStatus_Provisioned (infrav1.VSphereMachineStatus_Initialization x) ->
  map infrav1.NetworkStatus_Connected (elems (infrav1.VSphereMachineStatus_Network r)) =
    map infrav1.NetworkStatus_Connected (elems (infrav1.VSphereMachineStatus_Network x)) ->
  restore_machine_status true s r (explicit_machine_status x) = x.
Proof.
  intros [Qr Qn] Hp Hn. unfold restore_machine_status. rewrite Hp, Qr, restore_bool by done. clear Hp Qr.
  destruct x as [? [p] ? ? ?]. cbn in *.
  case_bool_decide as Hi; cbn;
    rewrite (restore_list_back _ explicit_interface interface_sent infrav1.NetworkStatus_Connected) by (done || apply restore_interface_back);
    [injection Hi as ->|]; reflexivity.
Qed.

Lemma restore_vm_status_back x s r : vm_status_sent x s ->
  infrav1.VSphereVMStatus_Ready r = infrav1.VSphereVMStatus_Ready x ->
  map infrav1.NetworkStatus_Connected (elems (infrav1.VSphereVMStatus_Network r)) =
    map infrav1.NetworkStatus_Connected (elems (infrav1.VSphereVMStatus_Network x)) ->
  restore_vm_status true s r (explicit_vm_status x) = x.
Proof.
  intros [Qr Qn] Hp Hn. unfold restore_vm_status. cbn. rewrite Hp, restore_bool by done.
  rewrite (restore_list_back _ explicit_interface interface_sent infrav1.NetworkStatus_Connected) by (done || apply restore_interface_back).
  by destruct x.
Qed.

Lemma restore_cluster_status_back x s r : cluster_status_sent x s ->
  infrav1.VSphereClusterInitializationStatus_Provisioned (infrav1.VSphereClusterStatus_Initialization r) =
    infrav1.VSphereClusterInitializationStatus_Provisioned (infrav1.VSphereClusterStatus_Initialization x) ->
  restore_cluster_status true s r (explicit_cluster_status x) = x.
Proof.
  intros Qr Hp. unfold restore_cluster_status. rewrite Hp, Qr, restore_bool by done. clear Hp Qr.
  destruct x as [? [p] ? ? ?]. cbn in *. case_bool_decide as Hi; [injection Hi as ->|]; reflexivity.
Qed.
End restore.

(** * The converters *)

Section converters.
Context `{ConvLib}.

(** [ObjectMeta] is copied with the map of annotations, so what [UnmarshalData] deletes from the map of
    [src] is deleted from that of [dst]; [MarshalDataUnsafeNoCopy] writes into that of [dst]. *)

Definition machine_view (x : infrav1.VSphereMachine) :=
  (clone_view (infrav1.VSphereMachineSpec_VirtualMachineCloneSpec (infrav1.VSphereMachine_Spec x)),
   infrav1.VSphereMachineInitializationStatus_Provisioned (infrav1.VSphereMachineStatus_Initialization (infrav1.VSphereMachine_Status x)),
   map infrav1.NetworkStatus_Connected (elems (infrav1.VSphereMachineStatus_Network (infrav1.VSphereMachine_Status x)))).

Definition restore_machine (ok : bool) (src : infrav1beta1.VSphereMachine) (restored dst : infrav1.VSphereMachine) : infrav1.VSphereMachine :=
  let spec := infrav1.VSphereMachine_Spec dst in
  let spec := infrav1.set_VSphereMachineSpec_VirtualMachineCloneSpec
    (restore_clone ok (infrav1beta1.VSphereMachineSpec_VirtualMachineCloneSpec (infrav1beta1.VSphereMachine_Spec src))
      (infrav1.VSphereMachineSpec_VirtualMachineCloneSpec (infrav1.VSphereMachine_Spec restored))
      (infrav1.VSphereMachineSpec_VirtualMachineCloneSpec spec)) spec in
  infrav1.set_VSphereMachine_Spec spec (infrav1.set_VSphereMachine_Status
    (restore_machine_status ok (infrav1beta1.VSphereMachine_Status src) (infrav1.VSphereMachine_Status restored)
      (infrav1.VSphereMachine_Status dst)) dst).


Definition ConvertVSphereMachineV1Beta1ToHub `{!HubData infrav1.VSphereMachine _ machine_view infrav1.zero_VSphereMachine}
    (src : infrav1beta1.VSphereMachine) (dst : infrav1.VSphereMachine) : res infrav1.VSphereMachine :=
  dst ← Convert_v1beta1_VSphereMachine_To_v1beta2_VSphereMachine src dst;
  '(ok, restored, meta) ← UnmarshalData infrav1.zero_VSphereMachine (infrav1beta1.VSphereMachine_ObjectMeta src);
  Ok (restore_machine ok src restored (infrav1.set_VSphereMachine_ObjectMeta meta dst)).

Definition ConvertVSphereMachineHubToV1Beta1 `{!HubData infrav1.VSphereMachine _ machine_view infrav1.zero_VSphereMachine}
    (src : infrav1.VSphereMachine) (dst : infrav1beta1.VSphereMachine) : res infrav1beta1.VSphereMachine :=
  dst ← Convert_v1beta2_VSphereMachine_To_v1beta1_VSphereMachine src dst;
  let dst := infrav1beta1.set_VSphereMachine_Spec (tidy_machine (infrav1beta1.VSphereMachine_Spec dst)) dst in
  meta ← MarshalDataUnsafeNoCopy src (infrav1beta1.VSphereMachine_ObjectMeta dst);
  Ok (infrav1beta1.set_VSphereMachine_ObjectMeta meta dst).

(** The specification of the machines of a template, read and assigned. *)
Definition template_machine (x : infrav1.VSphereMachineTemplate) : infrav1.VSphereMachineSpec :=
  infrav1.VSphereMachineTemplateResource_Spec (infrav1.VSphereMachineTemplateSpec_Template (infrav1.VSphereMachineTemplate_Spec x)).
Definition set_template_machine (v : infrav1.VSphereMachineSpec) (x : infrav1.VSphereMachineTemplate) : infrav1.VSphereMachineTemplate :=
  let template := infrav1.VSphereMachineTemplateSpec_Template (infrav1.VSphereMachineTemplate_Spec x) in
  infrav1.set_VSphereMachineTemplate_Spec (infrav1.set_VSphereMachineTemplateSpec_Template
    (infrav1.set_VSphereMachineTemplateResource_Spec v template) (infrav1.VSphereMachineTemplate_Spec x)) x.
Definition v1beta1_template_machine (x : infrav1beta1.VSphereMachineTemplate) : infrav1beta1.VSphereMachineSpec :=
  infrav1beta1.VSphereMachineTemplateResource_Spec (infrav1beta1.VSphereMachineTemplateSpec_Template (infrav1beta1.VSphereMachineTemplate_Spec x)).
Definition v1beta1_set_template_machine (v : infrav1beta1.VSphereMachineSpec) (x : infrav1beta1.VSphereMachineTemplate) : infrav1beta1.VSphereMachineTemplate :=
  let template := infrav1beta1.VSphereMachineTemplateSpec_Template (infrav1beta1.VSphereMachineTemplate_Spec x) in
  infrav1beta1.set_VSphereMachineTemplate_Spec (infrav1beta1.set_VSphereMachineTemplateSpec_Template
    (infrav1beta1.set_VSphereMachineTemplateResource_Spec v template) (infrav1beta1.VSphereMachineTemplate_Spec x)) x.

Definition machine_template_view (x : infrav1.VSphereMachineTemplate) := clone_view (infrav1.VSphereMachineSpec_VirtualMachineCloneSpec (template_machine x)).

Definition restore_machine_template (ok : bool) (src : infrav1beta1.VSphereMachineTemplate) (restored dst : infrav1.VSphereMachineTemplate) : infrav1.VSphereMachineTemplate :=
  let spec := template_machine dst in
  set_template_machine (infrav1.set_VSphereMachineSpec_VirtualMachineCloneSpec
    (restore_clone ok (infrav1beta1.VSphereMachineSpec_VirtualMachineCloneSpec (v1beta1_template_machine src))
      (infrav1.VSphereMachineSpec_VirtualMachineCloneSpec (template_machine restored))
      (infrav1.VSphereMachineSpec_VirtualMachineCloneSpec spec)) spec) dst.


Definition ConvertVSphereMachineTemplateV1Beta1ToHub `{!HubData infrav1.VSphereMachineTemplate _ machine_template_view infrav1.zero_VSphereMachineTemplate}
    (src : infrav1beta1.VSphereMachineTemplate) (dst : infrav1.VSphereMachineTemplate) : res infrav1.VSphereMachineTemplate :=
  dst ← Convert_v1beta1_VSphereMachineTemplate_To_v1beta2_VSphereMachineTemplate src dst;
  '(ok, restored, meta) ← UnmarshalData infrav1.zero_VSphereMachineTemplate (infrav1beta1.VSphereMachineTemplate_ObjectMeta src);
  Ok (restore_machine_template ok src restored (infrav1.set_VSphereMachineTemplate_ObjectMeta meta dst)).

Definition ConvertVSphereMachineTemplateHubToV1Beta1 `{!HubData infrav1.VSphereMachineTemplate _ machine_template_view infrav1.zero_VSphereMachineTemplate}
    (src : infrav1.VSphereMachineTemplate) (dst : infrav1beta1.VSphereMachineTemplate) : res infrav1beta1.VSphereMachineTemplate :=
  dst ← Convert_v1beta2_VSphereMachineTemplate_To_v1beta1_VSphereMachineTemplate src dst;
  let dst := v1beta1_set_template_machine (tidy_machine (v1beta1_template_machine dst)) dst in
  meta ← MarshalDataUnsafeNoCopy src (infrav1beta1.VSphereMachineTemplate_ObjectMeta dst);
  Ok (infrav1beta1.set_VSphereMachineTemplate_ObjectMeta meta dst).

Definition vm_view (x : infrav1.VSphereVM) :=
  (clone_view (infrav1.VSphereVMSpec_VirtualMachineCloneSpec (infrav1.VSphereVM_Spec x)),
   infrav1.VSphereVMStatus_Ready (infrav1.VSphereVM_Status x),
   map infrav1.NetworkStatus_Connected (elems (infrav1.VSphereVMStatus_Network (infrav1.VSphereVM_Status x)))).

Definition restore_vm (ok : bool) (src : infrav1beta1.VSphereVM) (restored dst : infrav1.VSphereVM) : infrav1.VSphereVM :=
  let spec := infrav1.VSphereVM_Spec dst in
  let spec := infrav1.set_VSphereVMSpec_VirtualMachineCloneSpec
    (restore_clone ok (infrav1beta1.VSphereVMSpec_VirtualMachineCloneSpec (infrav1beta1.VSphereVM_Spec src))
      (infrav1.VSphereVMSpec_VirtualMachineCloneSpec (infrav1.VSphereVM_Spec restored))
      (infrav1.VSphereVMSpec_VirtualMachineCloneSpec spec)) spec in
  let spec := match infrav1beta1.VSphereVMSpec_BootstrapRef (infrav1beta1.VSphereVM_Spec src) with
    | Some bootstrapRef => infrav1.set_VSphereVMSpec_BootstrapRef (infrav1.mkVSphereVMBootstrapReference (oj_Name bootstrapRef)) spec
    | None => spec
    end in
  infrav1.set_VSphereVM_Spec spec (infrav1.set_VSphereVM_Status
    (restore_vm_status ok (infrav1beta1.VSphereVM_Status src) (infrav1.VSphereVM_Status restored) (infrav1.VSphereVM_Status dst)) dst).


Definition ConvertVSphereVMV1Beta1ToHub `{!HubData infrav1.VSphereVM _ vm_view infrav1.zero_VSphereVM}
    (src : infrav1beta1.VSphereVM) (dst : infrav1.VSphereVM) : res infrav1.VSphereVM :=
  dst ← Convert_v1beta1_VSphereVM_To_v1beta2_VSphereVM src dst;
  '(ok, restored, meta) ← UnmarshalData infrav1.zero_VSphereVM (infrav1beta1.VSphereVM_ObjectMeta src);
  Ok (restore_vm ok src restored (infrav1.set_VSphereVM_ObjectMeta meta dst)).

Definition ConvertVSphereVMHubToV1Beta1 `{!HubData infrav1.VSphereVM _ vm_view infrav1.zero_VSphereVM}
    (src : infrav1.VSphereVM) (dst : infrav1beta1.VSphereVM) : res infrav1beta1.VSphereVM :=
  dst ← Convert_v1beta2_VSphereVM_To_v1beta1_VSphereVM src dst;
  let name := infrav1.VSphereVMBootstrapReference_Name (infrav1.VSphereVMSpec_BootstrapRef (infrav1.VSphereVM_Spec src)) in
  let bootstrapRef := if String.eqb name "" then None
    else Some (mkObjectReference "Secret" (om_Namespace (mv_Meta (infrav1.VSphereVM_ObjectMeta src))) name "" "v1" "" "") in
  let dst := infrav1beta1.set_VSphereVM_Spec (with_bootstrap bootstrapRef (infrav1beta1.VSphereVM_Spec dst)) dst in
  meta ← MarshalDataUnsafeNoCopy src (infrav1beta1.VSphereVM_ObjectMeta dst);
  Ok (infrav1beta1.set_VSphereVM_ObjectMeta meta dst).

Definition cluster_object_view (x : infrav1.VSphereCluster) :=
  (cluster_view (infrav1.VSphereCluster_Spec x),
   infrav1.VSphereClusterInitializationStatus_Provisioned (infrav1.VSphereClusterStatus_Initialization (infrav1.VSphereCluster_Status x))).

Definition restore_cluster_object (ok : bool) (src : infrav1beta1.VSphereCluster) (restored dst : infrav1.VSphereCluster) : infrav1.VSphereCluster :=
  infrav1.set_VSphereCluster_Spec (restore_cluster ok (infrav1beta1.VSphereCluster_Spec src) (infrav1.VSphereCluster_Spec restored) (infrav1.VSphereCluster_Spec dst))
    (infrav1.set_VSphereCluster_Status (restore_cluster_status ok (infrav1beta1.VSphereCluster_Status src) (infrav1.VSphereCluster_Status restored) (infrav1.VSphereCluster_Status dst)) dst).


Definition ConvertVSphereClusterV1Beta1ToHub `{!HubData infrav1.VSphereCluster _ cluster_object_view infrav1.zero_VSphereCluster}
    (src : infrav1beta1.VSphereCluster) (dst : infrav1.VSphereCluster) : res infrav1.VSphereCluster :=
  dst ← Convert_v1beta1_VSphereCluster_To_v1beta2_VSphereCluster src dst;
  '(ok, restored, meta) ← UnmarshalData infrav1.zero_VSphereCluster (infrav1beta1.VSphereCluster_ObjectMeta src);
  Ok (restore_cluster_object ok src restored (infrav1.set_VSphereCluster_ObjectMeta meta dst)).

Definition ConvertVSphereClusterHubToV1Beta1 `{!HubData infrav1.VSphereCluster _ cluster_object_view infrav1.zero_VSphereCluster}
    (src : infrav1.VSphereCluster) (dst : infrav1beta1.VSphereCluster) : res infrav1beta1.VSphereCluster :=
  dst ← Convert_v1beta2_VSphereCluster_To_v1beta1_VSphereCluster src dst;
  meta ← MarshalDataUnsafeNoCopy src (infrav1beta1.VSphereCluster_ObjectMeta dst);
  Ok (infrav1beta1.set_VSphereCluster_ObjectMeta meta dst).

(** The specification of the cluster of a template. *)
Definition template_cluster (x : infrav1.VSphereClusterTemplate) : infrav1.VSphereClusterSpec :=
  infrav1.VSphereClusterTemplateResource_Spec (infrav1.VSphereClusterTemplateSpec_Template (infrav1.VSphereClusterTemplate_Spec x)).
Definition set_template_cluster (v : infrav1.VSphereClusterSpec) (x : infrav1.VSphereClusterTemplate) : infrav1.VSphereClusterTemplate :=
  let template := infrav1.VSphereClusterTemplateSpec_Template (infrav1.VSphereClusterTemplate_Spec x) in
  infrav1.set_VSphereClusterTemplate_Spec (infrav1.set_VSphereClusterTemplateSpec_Template
    (infrav1.set_VSphereClusterTemplateResource_Spec v template) (infrav1.VSphereClusterTemplate_Spec x)) x.
Definition v1beta1_template_cluster (x : infrav1beta1.VSphereClusterTemplate) : infrav1beta1.VSphereClusterSpec :=
  infrav1beta1.VSphereClusterTemplateResource_Spec (infrav1beta1.VSphereClusterTemplateSpec_Template (infrav1beta1.VSphereClusterTemplate_Spec x)).

Definition cluster_template_view (x : infrav1.VSphereClusterTemplate) := cluster_view (template_cluster x).

Definition restore_cluster_template (ok : bool) (src : infrav1beta1.VSphereClusterTemplate) (restored dst : infrav1.VSphereClusterTemplate) : infrav1.VSphereClusterTemplate :=
  set_template_cluster (restore_cluster ok (v1beta1_template_cluster src) (template_cluster restored) (template_cluster dst)) dst.


Definition ConvertVSphereClusterTemplateV1Beta1ToHub `{!HubData infrav1.VSphereClusterTemplate _ cluster_template_view infrav1.zero_VSphereClusterTemplate}
    (src : infrav1beta1.VSphereClusterTemplate) (dst : infrav1.VSphereClusterTemplate) : res infrav1.VSphereClusterTemplate :=
  dst ← Convert_v1beta1_VSphereClusterTemplate_To_v1beta2_VSphereClusterTemplate src dst;
  '(ok, restored, meta) ← UnmarshalData infrav1.zero_VSphereClusterTemplate (infrav1beta1.VSphereClusterTemplate_ObjectMeta src);
  Ok (restore_cluster_template ok src restored (infrav1.set_VSphereClusterTemplate_ObjectMeta meta dst)).

Definition ConvertVSphereClusterTemplateHubToV1Beta1 `{!HubData infrav1.VSphereClusterTemplate _ cluster_template_view infrav1.zero_VSphereClusterTemplate}
    (src : infrav1.VSphereClusterTemplate) (dst : infrav1beta1.VSphereClusterTemplate) : res infrav1beta1.VSphereClusterTemplate :=
  dst ← Convert_v1beta2_VSphereClusterTemplate_To_v1beta1_VSphereClusterTemplate src dst;
  meta ← MarshalDataUnsafeNoCopy src (infrav1beta1.VSphereClusterTemplate_ObjectMeta dst);
  Ok (infrav1beta1.set_VSphereClusterTemplate_ObjectMeta meta dst).

Definition identity_view (x : infrav1.VSphereClusterIdentity) := infrav1.VSphereClusterIdentityStatus_Ready (infrav1.VSphereClusterIdentity_Status x).

Definition restore_identity (ok : bool) (src : infrav1beta1.VSphereClusterIdentity) (restored dst : infrav1.VSphereClusterIdentity) : infrav1.VSphereClusterIdentity :=
  infrav1.set_VSphereClusterIdentity_Status (infrav1.set_VSphereClusterIdentityStatus_Ready
    (clusterv1_Convert_bool_To_Pointer_bool (infrav1beta1.VSphereClusterIdentityStatus_Ready (infrav1beta1.VSphereClusterIdentity_Status src)) ok
      (infrav1.VSphereClusterIdentityStatus_Ready (infrav1.VSphereClusterIdentity_Status restored))) (infrav1.VSphereClusterIdentity_Status dst)) dst.


Definition ConvertVSphereClusterIdentityV1Beta1ToHub `{!HubData infrav1.VSphereClusterIdentity _ identity_view infrav1.zero_VSphereClusterIdentity}
    (src : infrav1beta1.VSphereClusterIdentity) (dst : infrav1.VSphereClusterIdentity) : res infrav1.VSphereClusterIdentity :=
  dst ← Convert_v1beta1_VSphereClusterIdentity_To_v1beta2_VSphereClusterIdentity src dst;
  '(ok, restored, meta) ← UnmarshalData infrav1.zero_VSphereClusterIdentity (infrav1beta1.VSphereClusterIdentity_ObjectMeta src);
  Ok (restore_identity ok src restored (infrav1.set_VSphereClusterIdentity_ObjectMeta meta dst)).

Definition ConvertVSphereClusterIdentityHubToV1Beta1 `{!HubData infrav1.VSphereClusterIdentity _ identity_view infrav1.zero_VSphereClusterIdentity}
    (src : infrav1.VSphereClusterIdentity) (dst : infrav1beta1.VSphereClusterIdentity) : res infrav1beta1.VSphereClusterIdentity :=
  dst ← Convert_v1beta2_VSphereClusterIdentity_To_v1beta1_VSphereClusterIdentity src dst;
  meta ← MarshalDataUnsafeNoCopy src (infrav1beta1.VSphereClusterIdentity_ObjectMeta dst);
  Ok (infrav1beta1.set_VSphereClusterIdentity_ObjectMeta meta dst).

Definition ConvertVSphereDeploymentZoneV1Beta1ToHub (src : infrav1beta1.VSphereDeploymentZone) (dst : infrav1.VSphereDeploymentZone) : res infrav1.VSphereDeploymentZone :=
  Convert_v1beta1_VSphereDeploymentZone_To_v1beta2_VSphereDeploymentZone src dst.

Definition ConvertVSphereDeploymentZoneHubToV1Beta1 (src : infrav1.VSphereDeploymentZone) (dst : infrav1beta1.VSphereDeploymentZone) : res infrav1beta1.VSphereDeploymentZone :=
  Convert_v1beta2_VSphereDeploymentZone_To_v1beta1_VSphereDeploymentZone src dst.

Definition ConvertVSphereFailureDomainV1Beta1ToHub (src : infrav1beta1.VSphereFailureDomain) (dst : infrav1.VSphereFailureDomain) : res infrav1.VSphereFailureDomain :=
  Convert_v1beta1_VSphereFailureDomain_To_v1beta2_VSphereFailureDomain src dst.

Definition ConvertVSphereFailureDomainHubToV1Beta1 (src : infrav1.VSphereFailureDomain) (dst : infrav1beta1.VSphereFailureDomain) : res infrav1beta1.VSphereFailureDomain :=
  dst ← Convert_v1beta2_VSphereFailureDomain_To_v1beta1_VSphereFailureDomain src dst;
  let spec := infrav1beta1.VSphereFailureDomain_Spec dst in
  let dst := infrav1beta1.set_VSphereFailureDomain_Spec (infrav1beta1.set_VSphereFailureDomainSpec_Topology (tidy_topology (infrav1beta1.VSphereFailureDomainSpec_Topology spec)) spec) dst in
  Ok dst.

End converters.

(** * Round trips *)

(** The metadata of an object that has not been converted, and what is left of its annotations. *)
Definition plain (m : MetaV1) : Prop := default ∅ (mv_Annotations m) !! DataAnnotation = None.
Definition kept (m : MetaV1) : MetaV1 := set_mv_Annotations (Some (default ∅ (mv_Annotations m))) m.

Lemma data_round_trip {A V} {view : A -> V} {zero} `{!HubData A V view zero} x m : plain m ->
  exists m' r, MarshalDataUnsafeNoCopy x m = Ok m' /\ UnmarshalData zero m' = Ok (true, r, kept m) /\ view r = view x.
Proof.
  intros Hm. destruct (marshal_data x m) as (data & Em & Hu). eexists.
  destruct (Hu (set_mv_Annotations (Some (<[DataAnnotation:=data]> (default ∅ (mv_Annotations m)))) m) _ eq_refl) as (r & Er & Hr).
  { apply lookup_insert_eq. }
  exists r. split; [exact Em|]. split; [|exact Hr]. rewrite Er. rewrite delete_insert_id by exact Hm. done.
Qed.

Lemma bind_ok_inv {A B} (r : res A) (k : A -> res B) b : (x ← r; k x) = Ok b -> exists a, r = Ok a /\ k a = Ok b.
Proof. apply res_bind_ok. Qed.

Section round_trips.
Context `{ConvLib}.

Definition valid_machine (x : infrav1.VSphereMachine) : Prop :=
  plain (infrav1.VSphereMachine_ObjectMeta x) /\ int32_machine (infrav1.VSphereMachine_Spec x) /\
  deprecated_VSphereMachine (infrav1.VSphereMachine_Status x).

(** C29: A VSphereMachine that is written as v1beta2 and served as v1beta1 is the same again when it is read back as v1beta2:
    every field of its specification and its status, also the pointers v1beta1 does not have, which the conversion takes from
    the annotation; the annotation itself is gone. The machine carries no such annotation to begin with, its power-off timeout and the
    route metrics of its DHCP overrides have the 32 bits of their type, and the deprecated part of its status, if there is one, says something. *)
Theorem machine_hub_spoke_hub `{!HubData infrav1.VSphereMachine _ machine_view infrav1.zero_VSphereMachine} (x : infrav1.VSphereMachine) (Hx : valid_machine x) :
  exists y, ConvertVSphereMachineHubToV1Beta1 x infrav1beta1.zero_VSphereMachine = Ok y /\
    ConvertVSphereMachineV1Beta1ToHub y infrav1.zero_VSphereMachine = Ok (infrav1.set_VSphereMachine_ObjectMeta (kept (infrav1.VSphereMachine_ObjectMeta x)) x).
Proof.
  destruct Hx as (Hm & Hs & Ht).
  destruct (round_trip (f := λ x out, y ← Convert_v1beta2_VSphereMachineSpec_To_v1beta1_VSphereMachineSpec x out; Ok (tidy_machine y)) _ Hs) as (ys & Es & Es' & Qs).
  apply bind_ok_inv in Es as (ys' & Es & [= <-]).
  destruct (round_trip (f := Convert_v1beta2_VSphereMachineStatus_To_v1beta1_VSphereMachineStatus) _ Ht) as (yt & Et & Et' & Qt).
  destruct (data_round_trip x _ Hm) as (m' & r & Em & Er & Hr).
  apply pair_equal_spec in Hr as [[Hc Hp]%pair_equal_spec Hn].
  unfold ConvertVSphereMachineHubToV1Beta1. conv_steps. eexists. split; [reflexivity|].
  unfold ConvertVSphereMachineV1Beta1ToHub. conv_steps. unfold restore_machine. cbn.
  rewrite restore_clone_back, restore_machine_status_back by (exact Qs || done). by destruct x as [? [] ?].
Qed.

Definition valid_machine_template (x : infrav1.VSphereMachineTemplate) : Prop :=
  plain (infrav1.VSphereMachineTemplate_ObjectMeta x) /\ int32_machine (template_machine x).

Theorem machine_template_hub_spoke_hub `{!HubData infrav1.VSphereMachineTemplate _ machine_template_view infrav1.zero_VSphereMachineTemplate} (x : infrav1.VSphereMachineTemplate) (Hx : valid_machine_template x) :
  exists y, ConvertVSphereMachineTemplateHubToV1Beta1 x infrav1beta1.zero_VSphereMachineTemplate = Ok y /\
    ConvertVSphereMachineTemplateV1Beta1ToHub y infrav1.zero_VSphereMachineTemplate = Ok (infrav1.set_VSphereMachineTemplate_ObjectMeta (kept (infrav1.VSphereMachineTemplate_ObjectMeta x)) x).
Proof.
  destruct Hx as (Hm & Hs). unfold template_machine in Hs.
  destruct (round_trip (f := λ x out, y ← Convert_v1beta2_VSphereMachineSpec_To_v1beta1_VSphereMachineSpec x out; Ok (tidy_machine y)) _ Hs) as (ys & Es & Es' & Qs).
  apply bind_ok_inv in Es as (ys' & Es & [= <-]).
  destruct (round_trip (f := Convert_v1beta2_ObjectMeta_To_v1beta1_ObjectMeta) (infrav1.VSphereMachineTemplateResource_ObjectMeta (infrav1.VSphereMachineTemplateSpec_Template (infrav1.VSphereMachineTemplate_Spec x))) I) as (yt & Et & Et' & Qt).
  destruct (data_round_trip x _ Hm) as (m' & r & Em & Er & Hr).
  unfold ConvertVSphereMachineTemplateHubToV1Beta1. conv_steps. eexists. split; [reflexivity|].
  unfold ConvertVSphereMachineTemplateV1Beta1ToHub. conv_steps. unfold restore_machine_template, template_machine, v1beta1_template_machine. cbn.
  rewrite restore_clone_back by (exact Qs || done). by destruct x as [? [[? []]]].
Qed.

Definition valid_vm (x : infrav1.VSphereVM) : Prop :=
  plain (infrav1.VSphereVM_ObjectMeta x) /\ int32_vm (infrav1.VSphereVM_Spec x) /\
  deprecated_VSphereVM (infrav1.VSphereVM_Status x).

Theorem vm_hub_spoke_hub `{!HubData infrav1.VSphereVM _ vm_view infrav1.zero_VSphereVM} (x : infrav1.VSphereVM) (Hx : valid_vm x) :
  exists y, ConvertVSphereVMHubToV1Beta1 x infrav1beta1.zero_VSphereVM = Ok y /\
    ConvertVSphereVMV1Beta1ToHub y infrav1.zero_VSphereVM = Ok (infrav1.set_VSphereVM_ObjectMeta (kept (infrav1.VSphereVM_ObjectMeta x)) x).
Proof.
  destruct Hx as (Hm & Hs & Ht).
  set (name := infrav1.VSphereVMBootstrapReference_Name (infrav1.VSphereVMSpec_BootstrapRef (infrav1.VSphereVM_Spec x))).
  set (ref := if String.eqb name "" then None
    else Some (mkObjectReference "Secret" (om_Namespace (mv_Meta (infrav1.VSphereVM_ObjectMeta x))) name "" "v1" "" "")).
  destruct (VSphereVMSpec_down_up ref _ Hs) as (ys & Es & Es' & Qs & Qb).
  apply bind_ok_inv in Es as (ys' & Es & [= <-]).
  destruct (round_trip (f := Convert_v1beta2_VSphereVMStatus_To_v1beta1_VSphereVMStatus) _ Ht) as (yt & Et & Et' & Qt).
  destruct (data_round_trip x _ Hm) as (m' & r & Em & Er & Hr).
  apply pair_equal_spec in Hr as [[Hc Hp]%pair_equal_spec Hn].
  unfold ConvertVSphereVMHubToV1Beta1. conv_steps. fold name. fold ref. eexists. split; [reflexivity|].
  unfold ConvertVSphereVMV1Beta1ToHub. conv_steps. unfold restore_vm. cbn.
  rewrite restore_clone_back, restore_vm_status_back by (exact Qs || done). rewrite Qb. unfold ref, name.
  destruct x as [? [? [n] ? ? ?] ?]. cbn. by destruct (String.eqb_spec n ""); subst.
Qed.

Definition valid_cluster (x : infrav1.VSphereCluster) : Prop :=
  plain (infrav1.VSphereCluster_ObjectMeta x) /\ valid_cluster_status (infrav1.VSphereCluster_Status x).

(** A VSphereCluster that is written as v1beta2 and served as v1beta1 is the same again when it is read back as v1beta2,
    with its cluster modules, its failure domains, which are a map in between, and both kinds of conditions. *)
Theorem cluster_hub_spoke_hub `{!HubData infrav1.VSphereCluster _ cluster_object_view infrav1.zero_VSphereCluster} (x : infrav1.VSphereCluster) (Hx : valid_cluster x) :
  exists y, ConvertVSphereClusterHubToV1Beta1 x infrav1beta1.zero_VSphereCluster = Ok y /\
    ConvertVSphereClusterV1Beta1ToHub y infrav1.zero_VSphereCluster = Ok (infrav1.set_VSphereCluster_ObjectMeta (kept (infrav1.VSphereCluster_ObjectMeta x)) x).
Proof.
  destruct Hx as (Hm & Ht).
  destruct (round_trip (f := Convert_v1beta2_VSphereClusterSpec_To_v1beta1_VSphereClusterSpec) (infrav1.VSphereCluster_Spec x) I) as (ys & Es & Es' & Qs).
  destruct (round_trip (f := Convert_v1beta2_VSphereClusterStatus_To_v1beta1_VSphereClusterStatus) _ Ht) as (yt & Et & Et' & Qt).
  destruct (data_round_trip x _ Hm) as (m' & r & Em & Er & Hr).
  apply pair_equal_spec in Hr as [Hc Hp].
  unfold ConvertVSphereClusterHubToV1Beta1. conv_steps. eexists. split; [reflexivity|].
  unfold ConvertVSphereClusterV1Beta1ToHub. conv_steps. unfold restore_cluster_object. cbn.
  rewrite restore_cluster_back, restore_cluster_status_back by done. by destruct x.
Qed.

(** The metadata of a cluster template has no place in v1beta1, and is not restored. *)
Definition without_template_meta (x : infrav1.VSphereClusterTemplate) : infrav1.VSphereClusterTemplate :=
  let template := infrav1.VSphereClusterTemplateSpec_Template (infrav1.VSphereClusterTemplate_Spec x) in
  infrav1.set_VSphereClusterTemplate_Spec (infrav1.set_VSphereClusterTemplateSpec_Template
    (infrav1.set_VSphereClusterTemplateResource_ObjectMeta zero_TemplateMeta template) (infrav1.VSphereClusterTemplate_Spec x)) x.

Theorem cluster_template_hub_spoke_hub `{!HubData infrav1.VSphereClusterTemplate _ cluster_template_view infrav1.zero_VSphereClusterTemplate} (x : infrav1.VSphereClusterTemplate) (Hm : plain (infrav1.VSphereClusterTemplate_ObjectMeta x)) :
  exists y, ConvertVSphereClusterTemplateHubToV1Beta1 x infrav1beta1.zero_VSphereClusterTemplate = Ok y /\
    ConvertVSphereClusterTemplateV1Beta1ToHub y infrav1.zero_VSphereClusterTemplate = Ok (infrav1.set_VSphereClusterTemplate_ObjectMeta (kept (infrav1.VSphereClusterTemplate_ObjectMeta x)) (without_template_meta x)).
Proof.
  destruct (round_trip (f := Convert_v1beta2_VSphereClusterSpec_To_v1beta1_VSphereClusterSpec) (template_cluster x) I) as (ys & Es & Es' & Qs).
  destruct (data_round_trip x _ Hm) as (m' & r & Em & Er & Hr).
  unfold template_cluster in Es, Es'.
  unfold ConvertVSphereClusterTemplateHubToV1Beta1. conv_steps. eexists. split; [reflexivity|].
  unfold ConvertVSphereClusterTemplateV1Beta1ToHub. conv_steps. unfold restore_cluster_template, template_cluster, v1beta1_template_cluster. cbn.
  rewrite restore_cluster_back by done. by destruct x as [? [[]]].
Qed.

Definition valid_identity (x : infrav1.VSphereClusterIdentity) : Prop :=
  plain (infrav1.VSphereClusterIdentity_ObjectMeta x) /\ deprecated_VSphereClusterIdentity (infrav1.VSphereClusterIdentity_Status x).

Theorem identity_hub_spoke_hub `{!HubData infrav1.VSphereClusterIdentity _ identity_view infrav1.zero_VSphereClusterIdentity} (x : infrav1.VSphereClusterIdentity) (Hx : valid_identity x) :
  exists y, ConvertVSphereClusterIdentityHubToV1Beta1 x infrav1beta1.zero_VSphereClusterIdentity = Ok y /\
    ConvertVSphereClusterIdentityV1Beta1ToHub y infrav1.zero_VSphereClusterIdentity = Ok (infrav1.set_VSphereClusterIdentity_ObjectMeta (kept (infrav1.VSphereClusterIdentity_ObjectMeta x)) x).
Proof.
  destruct Hx as (Hm & Ht).
  destruct (round_trip (f := Convert_v1beta2_VSphereClusterIdentitySpec_To_v1beta1_VSphereClusterIdentitySpec) (infrav1.VSphereClusterIdentity_Spec x) I) as (ys & Es & Es' & Qs).
  destruct (round_trip (f := Convert_v1beta2_VSphereClusterIdentityStatus_To_v1beta1_VSphereClusterIdentityStatus) _ Ht) as (yt & Et & Et' & Qt).
  destruct (data_round_trip x _ Hm) as (m' & r & Em & Er & Hr).
  unfold identity_view in Hr.
  unfold ConvertVSphereClusterIdentityHubToV1Beta1. conv_steps. eexists. split; [reflexivity|].
  unfold ConvertVSphereClusterIdentityV1Beta1ToHub. conv_steps. unfold restore_identity. cbn.
  rewrite Hr, restore_bool by exact Qt. by destruct x as [? ? []].
Qed.

Theorem zone_hub_spoke_hub (x : infrav1.VSphereDeploymentZone) (Hx : deprecated_VSphereDeploymentZone (infrav1.VSphereDeploymentZone_Status x)) :
  exists y, ConvertVSphereDeploymentZoneHubToV1Beta1 x infrav1beta1.zero_VSphereDeploymentZone = Ok y /\
    ConvertVSphereDeploymentZoneV1Beta1ToHub y infrav1.zero_VSphereDeploymentZone = Ok (x).
Proof.
  destruct (round_trip (f := Convert_v1beta2_VSphereDeploymentZoneSpec_To_v1beta1_VSphereDeploymentZoneSpec) (infrav1.VSphereDeploymentZone_Spec x) I) as (ys & Es & Es' & Qs).
  destruct (round_trip (f := Convert_v1beta2_VSphereDeploymentZoneStatus_To_v1beta1_VSphereDeploymentZoneStatus) _ Hx) as (yt & Et & Et' & Qt).
  unfold ConvertVSphereDeploymentZoneHubToV1Beta1. conv_steps. eexists. split; [reflexivity|].
  unfold ConvertVSphereDeploymentZoneV1Beta1ToHub. conv_steps. by destruct x.
Qed.

Definition int32_domain (x : infrav1.VSphereFailureDomain) : Prop :=
  int32_topology (infrav1.VSphereFailureDomainSpec_Topology (infrav1.VSphereFailureDomain_Spec x)).

Theorem failure_domain_hub_spoke_hub (x : infrav1.VSphereFailureDomain) (Hx : int32_domain x) :
  exists y, ConvertVSphereFailureDomainHubToV1Beta1 x infrav1beta1.zero_VSphereFailureDomain = Ok y /\
    ConvertVSphereFailureDomainV1Beta1ToHub y infrav1.zero_VSphereFailureDomain = Ok (x).
Proof.
  destruct (round_trip (f := λ x out, y ← Convert_v1beta2_Topology_To_v1beta1_Topology x out; Ok (tidy_topology y)) _ Hx) as (ys & Es & Es' & Qs).
  apply bind_ok_inv in Es as (ys' & Es & [= <-]).
  unfold ConvertVSphereFailureDomainHubToV1Beta1. conv_steps. eexists. split; [reflexivity|].
  unfold ConvertVSphereFailureDomainV1Beta1ToHub. conv_steps. by destruct x as [? []].
Qed.

End round_trips.
