(* ===== verification/HubSpokeUp.v ===== *)
(** Round trips that begin with v1beta1 ([_up_down]): what is sent as v1beta1, kept as the hub
    version and sent again is what it was, whatever the annotation of the object held. [_received] is what the hub
    version says after the conversion; [_unseen] that the conversion to v1beta1 does not tell nil
    from a pointer to a zero value; [_settled] that what is restored differs in nothing else. *)
From S2P Require Export ConvLib GovmomiTypes GovmomiConv GovmomiRoundTrip HubSpoke.

#[local] Arguments mret : simpl never.
#[local] Arguments mbind : simpl never.
#[local] Arguments convert_slice : simpl never.
#[local] Arguments MarshalDataUnsafeNoCopy : simpl never.

Section round_trips.
Context `{ConvLib}.

Lemma settled_bool p ok r : default false (clusterv1_Convert_bool_To_Pointer_bool p ok r) = p.
Proof. rewrite cluster_bool_to_ptr. destruct p; [done|]. by case_match. Qed.
Lemma settled_int32 p ok r : default 0 (clusterv1_Convert_int32_To_Pointer_int32 p ok r) = p.
Proof. rewrite cluster_int32_to_ptr. destruct (Z.eqb_spec p 0); cbn; [|done]. by case_match. Qed.

Lemma settled_list {S D} (f : S -> option D -> D -> D) (e : D -> D) (Q : S -> D -> Prop) src restored dst :
  (forall s r d, Q s d -> e (f s r d) = d) -> elementwise Q src dst ->
  option_map (map e) (restore_list f src restored dst) = dst.
Proof.
  intros Hf HQ. unfold restore_list. unfold elementwise in HQ. destruct dst as [l|]; [|by destruct (Nat.eqb _ _)].
  rewrite (Forall2_length _ _ _ HQ), Nat.eqb_refl. cbn. f_equal. cbn in HQ.
  assert (Hl : length (restored_elems l (elems restored)) = length l).
  { unfold restored_elems. destruct (Nat.eqb_spec (length l) (length (elems restored))); by rewrite length_map. }
  revert HQ Hl. generalize (elems src) (restored_elems l (elems restored)). intros ss rs HQ. revert rs.
  induction HQ as [|s d ss l Hq _ IH]; intros [|r rs]; cbn; [done..|]. intros [= Hl]. by rewrite Hf, IH.
Qed.

(** ** Networks *)

Definition route_received (x : infrav1beta1.NetworkRouteSpec) (y : infrav1.NetworkRouteSpec) : Prop :=
  infrav1.NetworkRouteSpec_Metric y = Some (infrav1beta1.NetworkRouteSpec_Metric x).
#[global] Instance NetworkRouteSpec_up_down : RoundTrip
  Convert_v1beta1_NetworkRouteSpec_To_v1beta2_NetworkRouteSpec infrav1.zero_NetworkRouteSpec
  Convert_v1beta2_NetworkRouteSpec_To_v1beta1_NetworkRouteSpec infrav1beta1.zero_NetworkRouteSpec
  always id route_received.
Proof. conv_fields; [conv_done|conv_sent]. Qed.

Lemma route_unseen (y : infrav1.NetworkRouteSpec) out :
  Convert_v1beta2_NetworkRouteSpec_To_v1beta1_NetworkRouteSpec (explicit_route y) out = Convert_v1beta2_NetworkRouteSpec_To_v1beta1_NetworkRouteSpec y out.
Proof. unfold Convert_v1beta2_NetworkRouteSpec_To_v1beta1_NetworkRouteSpec, autoConvert_v1beta2_NetworkRouteSpec_To_v1beta1_NetworkRouteSpec. by rewrite !ptr_to_int32. Qed.
Lemma route_settled ok s r d : route_received s d -> explicit_route (restore_route ok s r d) = d.
Proof. intros Hd. unfold explicit_route, restore_route. cbn. rewrite settled_int32. destruct d. cbn in *. by rewrite Hd. Qed.

(** The metric of a route is an [int] in v1beta1 and cut to 32 bits. *)
Definition v1beta1_int32_overrides (x : infrav1beta1.DHCPOverrides) : Prop := forall n, infrav1beta1.DHCPOverrides_RouteMetric x = Some n -> is_int32 n.

#[global] Instance DHCPOverrides_up_down : RoundTrip
  Convert_v1beta1_DHCPOverrides_To_v1beta2_DHCPOverrides infrav1.zero_DHCPOverrides
  Convert_v1beta2_DHCPOverrides_To_v1beta1_DHCPOverrides infrav1beta1.zero_DHCPOverrides
  v1beta1_int32_overrides id anything.
Proof. conv_fields; [|exact I]. destruct x as [? []]; cbn in *; [rewrite to_int32_id by auto|]; reflexivity. Qed.

Definition valid_pool (x : TypedLocalObjectReference) : Prop := tl_APIGroup x <> Some "".

#[global] Instance IPPoolReference_up_down : RoundTrip
  Convert_v1_TypedLocalObjectReference_To_v1beta2_IPPoolReference infrav1.zero_IPPoolReference
  Convert_v1beta2_IPPoolReference_To_v1_TypedLocalObjectReference zero_TypedLocalObjectReference
  valid_pool id anything.
Proof. intros x Hx. conv_steps. conv_split; [conv_steps|exact I]. destruct x as [[g|] ? ?]; [|done]. cbn in *. destruct (String.eqb_spec g ""); [by subst|done]. Qed.

Definition valid_device (x : infrav1beta1.NetworkDeviceSpec) : Prop :=
  (forall o, infrav1beta1.NetworkDeviceSpec_DHCP4Overrides x = Some o -> v1beta1_int32_overrides o) /\
  (forall o, infrav1beta1.NetworkDeviceSpec_DHCP6Overrides x = Some o -> v1beta1_int32_overrides o) /\
  Forall valid_pool (elems (infrav1beta1.NetworkDeviceSpec_AddressesFromPools x)).
Definition device_received (x : infrav1beta1.NetworkDeviceSpec) (y : infrav1.NetworkDeviceSpec) : Prop :=
  infrav1.NetworkDeviceSpec_DHCP4 y = Some (infrav1beta1.NetworkDeviceSpec_DHCP4 x) /\
  infrav1.NetworkDeviceSpec_DHCP6 y = Some (infrav1beta1.NetworkDeviceSpec_DHCP6 x) /\
  infrav1.NetworkDeviceSpec_SkipIPAllocation y = Some (infrav1beta1.NetworkDeviceSpec_SkipIPAllocation x) /\
  elementwise route_received (infrav1beta1.NetworkDeviceSpec_Routes x) (infrav1.NetworkDeviceSpec_Routes y).

#[global] Instance NetworkDeviceSpec_up_down : RoundTrip
  Convert_v1beta1_NetworkDeviceSpec_To_v1beta2_NetworkDeviceSpec infrav1.zero_NetworkDeviceSpec
  Convert_v1beta2_NetworkDeviceSpec_To_v1beta1_NetworkDeviceSpec infrav1beta1.zero_NetworkDeviceSpec
  valid_device id device_received.
Proof. conv_fields; [conv_done|conv_sent]. Qed.

Lemma device_unseen (y : infrav1.NetworkDeviceSpec) out :
  Convert_v1beta2_NetworkDeviceSpec_To_v1beta1_NetworkDeviceSpec (explicit_device y) out = Convert_v1beta2_NetworkDeviceSpec_To_v1beta1_NetworkDeviceSpec y out.
Proof. unfold Convert_v1beta2_NetworkDeviceSpec_To_v1beta1_NetworkDeviceSpec, autoConvert_v1beta2_NetworkDeviceSpec_To_v1beta1_NetworkDeviceSpec. rewrite !ptr_to_bool. cbn. by rewrite (convert_slice_explicit _ explicit_route) by (intros; apply route_unseen). Qed.
Lemma routes_received s d : elementwise route_received s d -> option_map (map explicit_route) d = d.
Proof.
  destruct d as [l|]; [|done]. intros HQ. cbn. f_equal. unfold elementwise in HQ. cbn in HQ.
  induction HQ as [|x y xs l Hq _ IH]; [done|]. cbn. rewrite IH. f_equal. destruct y. cbn in *. by rewrite Hq.
Qed.
Lemma device_settled ok s r d : device_received s d -> explicit_device (restore_device ok s r d) = d.
Proof.
  intros (H4 & H6 & Hk & Hr). unfold explicit_device, restore_device. cbn. rewrite !settled_bool, <-H4, <-H6, <-Hk.
  destruct d, r as [r|]; cbn in *.
  - by rewrite (settled_list _ explicit_route route_received) by (done || apply route_settled).
  - by rewrite (routes_received _ _ Hr).
Qed.

(** [PreferredAPIServerCIDR] is not there any more. *)
Definition valid_network (x : infrav1beta1.NetworkSpec) : Prop :=
  infrav1beta1.NetworkSpec_PreferredAPIServerCIDR x = "" /\ Forall valid_device (elems (infrav1beta1.NetworkSpec_Devices x)).
Definition network_received (x : infrav1beta1.NetworkSpec) (y : infrav1.NetworkSpec) : Prop :=
  elementwise device_received (infrav1beta1.NetworkSpec_Devices x) (infrav1.NetworkSpec_Devices y) /\
  elementwise route_received (infrav1beta1.NetworkSpec_Routes x) (infrav1.NetworkSpec_Routes y).

#[global] Instance NetworkSpec_up_down : RoundTrip
  Convert_v1beta1_NetworkSpec_To_v1beta2_NetworkSpec infrav1.zero_NetworkSpec
  Convert_v1beta2_NetworkSpec_To_v1beta1_NetworkSpec infrav1beta1.zero_NetworkSpec
  valid_network id network_received.
Proof. intros x (Hc & Hd). conv_steps. conv_split; [|conv_sent]. conv_steps. destruct x; cbn in *. by rewrite ?option_map_map_id, Hc. Qed.

Lemma network_unseen (y : infrav1.NetworkSpec) out :
  Convert_v1beta2_NetworkSpec_To_v1beta1_NetworkSpec (explicit_network y) out = Convert_v1beta2_NetworkSpec_To_v1beta1_NetworkSpec y out.
Proof. unfold Convert_v1beta2_NetworkSpec_To_v1beta1_NetworkSpec, autoConvert_v1beta2_NetworkSpec_To_v1beta1_NetworkSpec. cbn. by rewrite (convert_slice_explicit _ explicit_route) by (intros; apply route_unseen); rewrite (convert_slice_explicit _ explicit_device) by (intros; apply device_unseen). Qed.

(** ** Specifications of machines *)

#[global] Instance VirtualMachineResourceSpec_up_down : RoundTrip
  Convert_v1beta1_VirtualMachineResourceSpec_To_v1beta2_VirtualMachineResourceSpec infrav1.zero_VirtualMachineResourceSpec
  Convert_v1beta2_VirtualMachineResourceSpec_To_v1beta1_VirtualMachineResourceSpec infrav1beta1.zero_VirtualMachineResourceSpec
  always id anything.
Proof. conv_fields; [conv_done|conv_sent]. Qed.

#[global] Instance VirtualMachineResourceShares_up_down : RoundTrip
  Convert_v1beta1_VirtualMachineResourceShares_To_v1beta2_VirtualMachineResourceShares infrav1.zero_VirtualMachineResourceShares
  Convert_v1beta2_VirtualMachineResourceShares_To_v1beta1_VirtualMachineResourceShares infrav1beta1.zero_VirtualMachineResourceShares
  always id anything.
Proof. conv_fields; [conv_done|conv_sent]. Qed.

#[global] Instance VirtualMachineResources_up_down : RoundTrip
  Convert_v1beta1_VirtualMachineResources_To_v1beta2_VirtualMachineResources infrav1.zero_VirtualMachineResources
  Convert_v1beta2_VirtualMachineResources_To_v1beta1_VirtualMachineResources infrav1beta1.zero_VirtualMachineResources
  always id anything.
Proof. conv_fields; [conv_done|conv_sent]. Qed.

Definition valid_clone (x : infrav1beta1.VirtualMachineCloneSpec) : Prop := valid_network (infrav1beta1.VirtualMachineCloneSpec_Network x).
Definition clone_received (x : infrav1beta1.VirtualMachineCloneSpec) (y : infrav1.VirtualMachineCloneSpec) : Prop :=
  infrav1.VirtualMachineCloneSpec_NumCoresPerSocket y = Some (infrav1beta1.VirtualMachineCloneSpec_NumCoresPerSocket x) /\
  network_received (infrav1beta1.VirtualMachineCloneSpec_Network x) (infrav1.VirtualMachineCloneSpec_Network y).

#[global] Instance VirtualMachineCloneSpec_up_down : RoundTrip
  Convert_v1beta1_VirtualMachineCloneSpec_To_v1beta2_VirtualMachineCloneSpec infrav1.zero_VirtualMachineCloneSpec
  Convert_v1beta2_VirtualMachineCloneSpec_To_v1beta1_VirtualMachineCloneSpec infrav1beta1.zero_VirtualMachineCloneSpec
  valid_clone id clone_received.
Proof. conv_fields; [conv_done|conv_sent]. Qed.

Lemma clone_unseen (y : infrav1.VirtualMachineCloneSpec) out :
  Convert_v1beta2_VirtualMachineCloneSpec_To_v1beta1_VirtualMachineCloneSpec (explicit_clone y) out = Convert_v1beta2_VirtualMachineCloneSpec_To_v1beta1_VirtualMachineCloneSpec y out.
Proof. unfold Convert_v1beta2_VirtualMachineCloneSpec_To_v1beta1_VirtualMachineCloneSpec, autoConvert_v1beta2_VirtualMachineCloneSpec_To_v1beta1_VirtualMachineCloneSpec. cbn. by rewrite !ptr_to_int32, network_unseen. Qed.
Lemma clone_settled ok s r d : clone_received s d -> explicit_clone (restore_clone ok s r d) = d.
Proof.
  intros (Hn & Hd & Hr). unfold explicit_clone, restore_clone, explicit_network. cbn. rewrite settled_int32, <-Hn.
  rewrite (settled_list _ explicit_route route_received) by (done || apply route_settled).
  rewrite (settled_list _ explicit_device device_received) by (done || apply device_settled).
  destruct d as [? ? ? ? ? ? ? ? ? ? [] ? ?]; reflexivity.
Qed.

(** A pointer that is set points to something, a timeout is a number of seconds, and [FailureDomain] is not
    there any more. *)
Definition valid_timeout (t : option Duration) : Prop :=
  forall d, t = Some d -> exists n, d = n * 1000000000 /\ is_int32 n /\ n <> 0.
Definition valid_machine_spec (x : infrav1beta1.VSphereMachineSpec) : Prop :=
  valid_clone (infrav1beta1.VSphereMachineSpec_VirtualMachineCloneSpec x) /\
  valid_timeout (infrav1beta1.VSphereMachineSpec_GuestSoftPowerOffTimeout x) /\
  infrav1beta1.VSphereMachineSpec_ProviderID x <> Some "" /\
  infrav1beta1.VSphereMachineSpec_FailureDomain x = None /\
  (forall n, infrav1beta1.VSphereMachineSpec_NamingStrategy x = Some n ->
    exists t, infrav1beta1.VSphereVMNamingStrategy_Template n = Some t /\ t <> "").

(** A timeout that is kept in seconds. *)
Lemma timeout_up_down t : valid_timeout t ->
  let n := ptr_deref (ConvertToSeconds t) 0 in is_int32 n /\ (if n =? 0 then None else ConvertFromSeconds (Some n)) = t.
Proof.
  intros Ht. destruct t as [d|]; cbn.
  - destruct (Ht d eq_refl) as (n & -> & Hn & H0). rewrite to_seconds by done. cbn. split; [done|].
    destruct (Z.eqb_spec n 0); [done|]. by apply from_seconds.
  - rewrite to_seconds_nil. cbn. unfold is_int32. by split; [lia|].
Qed.
Definition machine_received (x : infrav1beta1.VSphereMachineSpec) (y : infrav1.VSphereMachineSpec) : Prop :=
  clone_received (infrav1beta1.VSphereMachineSpec_VirtualMachineCloneSpec x) (infrav1.VSphereMachineSpec_VirtualMachineCloneSpec y).

(** The specification of a machine in between: with the pointers that were restored. *)
Lemma machine_spec_up_down x ok r : valid_machine_spec x ->
  exists y, Convert_v1beta1_VSphereMachineSpec_To_v1beta2_VSphereMachineSpec x infrav1.zero_VSphereMachineSpec = Ok y /\
  exists y', Convert_v1beta2_VSphereMachineSpec_To_v1beta1_VSphereMachineSpec
    (infrav1.set_VSphereMachineSpec_VirtualMachineCloneSpec
      (restore_clone ok (infrav1beta1.VSphereMachineSpec_VirtualMachineCloneSpec x) r (infrav1.VSphereMachineSpec_VirtualMachineCloneSpec y)) y)
    infrav1beta1.zero_VSphereMachineSpec = Ok y' /\ tidy_machine y' = x.
Proof.
  intros (Hc & Ht & Hp & Hf & Hn). destruct (timeout_up_down _ Ht) as [_ Ht'].
  destruct (round_trip (f := Convert_v1beta1_VirtualMachineCloneSpec_To_v1beta2_VirtualMachineCloneSpec) _ Hc) as (c & E & E' & Q).
  pose proof (clone_settled ok _ r _ Q) as Hs. rewrite <-Hs in E' at 1. rewrite clone_unseen in E'.
  destruct x as [xc p fd m t n]. cbn in *. subst fd.
  assert (Hpe : nil_if_empty p = p) by (destruct p as [p|]; [|done]; cbn; destruct (String.eqb_spec p ""); [by subst|done]).
  assert (Hpd : nil_if_empty (Some (default "" p)) = p) by (destruct p as [p|]; [exact Hpe|done]).
  remember (ptr_deref (ConvertToSeconds t) 0) as k eqn:Hk.
  destruct n as [n|]; [destruct (Hn n eq_refl) as (s & Es & Hs'); destruct n as [n]; cbn in Es; subst n; apply String.eqb_neq in Hs'|];
    conv_steps; (eexists; split; [reflexivity|]); rewrite <-Hk; conv_steps; (case_bool_decide as Hz; [try (by injection Hz as ->)|try by destruct Hz]);
    conv_steps; destruct (k =? 0); conv_steps; (eexists; split; [reflexivity|]);
    unfold tidy_machine; cbn in *; rewrite ?Hpd, ?Hs', <-Ht'; reflexivity.
Qed.

(** A reference to bootstrap data is one to a secret of the namespace of the machine. *)
Definition valid_bootstrap (namespace : string) (r : option ObjectReference) : Prop :=
  forall ref, r = Some ref -> oj_Name ref <> "" /\ ref = mkObjectReference "Secret" namespace (oj_Name ref) "" "v1" "" "".
Definition valid_vm_spec (namespace : string) (x : infrav1beta1.VSphereVMSpec) : Prop :=
  valid_clone (infrav1beta1.VSphereVMSpec_VirtualMachineCloneSpec x) /\
  valid_timeout (infrav1beta1.VSphereVMSpec_GuestSoftPowerOffTimeout x) /\
  valid_bootstrap namespace (infrav1beta1.VSphereVMSpec_BootstrapRef x).

(** What [restore_vm] makes of the specification, and [ConvertVSphereVMHubToV1Beta1] of that. *)
Definition restored_vm_spec ok (x : infrav1beta1.VSphereVMSpec) r (y : infrav1.VSphereVMSpec) : infrav1.VSphereVMSpec :=
  let spec := infrav1.set_VSphereVMSpec_VirtualMachineCloneSpec
    (restore_clone ok (infrav1beta1.VSphereVMSpec_VirtualMachineCloneSpec x) r (infrav1.VSphereVMSpec_VirtualMachineCloneSpec y)) y in
  match infrav1beta1.VSphereVMSpec_BootstrapRef x with
  | Some bootstrapRef => infrav1.set_VSphereVMSpec_BootstrapRef (infrav1.mkVSphereVMBootstrapReference (oj_Name bootstrapRef)) spec
  | None => spec
  end.
Definition sent_bootstrap (namespace : string) (y : infrav1.VSphereVMSpec) : option ObjectReference :=
  let name := infrav1.VSphereVMBootstrapReference_Name (infrav1.VSphereVMSpec_BootstrapRef y) in
  if String.eqb name "" then None else Some (mkObjectReference "Secret" namespace name "" "v1" "" "").

Lemma vm_spec_up_down namespace x ok r : valid_vm_spec namespace x ->
  exists y, Convert_v1beta1_VSphereVMSpec_To_v1beta2_VSphereVMSpec x infrav1.zero_VSphereVMSpec = Ok y /\
  exists y', Convert_v1beta2_VSphereVMSpec_To_v1beta1_VSphereVMSpec (restored_vm_spec ok x r y) infrav1beta1.zero_VSphereVMSpec = Ok y' /\
    with_bootstrap (sent_bootstrap namespace (restored_vm_spec ok x r y)) y' = x.
Proof.
  intros (Hc & Ht & Hb). destruct (timeout_up_down _ Ht) as [_ Ht'].
  destruct (round_trip (f := Convert_v1beta1_VirtualMachineCloneSpec_To_v1beta2_VirtualMachineCloneSpec) _ Hc) as (c & E & E' & Q).
  pose proof (clone_settled ok _ r _ Q) as Hs. rewrite <-Hs in E' at 1. rewrite clone_unseen in E'.
  destruct x as [xc b u m t]. cbn in *. remember (ptr_deref (ConvertToSeconds t) 0) as k eqn:Hk.
  unfold restored_vm_spec, sent_bootstrap.
  destruct b as [ref|]; [destruct (Hb ref eq_refl) as (Hn & Hr); apply String.eqb_neq in Hn|];
    conv_steps; (eexists; split; [reflexivity|]); rewrite <-Hk; conv_steps; destruct (k =? 0); conv_steps;
    (eexists; split; [reflexivity|]); cbn in *; rewrite ?Hn, <-Ht'; [by rewrite Hr..|reflexivity|reflexivity].
Qed.

(** ** Status of machines *)

Definition interface_received (x : infrav1beta1.NetworkStatus) (y : infrav1.NetworkStatus) : Prop :=
  infrav1.NetworkStatus_Connected y = Some (infrav1beta1.NetworkStatus_Connected x).
#[global] Instance NetworkStatus_up_down : RoundTrip
  Convert_v1beta1_NetworkStatus_To_v1beta2_NetworkStatus infrav1.zero_NetworkStatus
  Convert_v1beta2_NetworkStatus_To_v1beta1_NetworkStatus infrav1beta1.zero_NetworkStatus
  always id interface_received.
Proof. conv_fields; [conv_done|conv_sent]. Qed.

Lemma interface_unseen (y : infrav1.NetworkStatus) out :
  Convert_v1beta2_NetworkStatus_To_v1beta1_NetworkStatus (explicit_interface y) out = Convert_v1beta2_NetworkStatus_To_v1beta1_NetworkStatus y out.
Proof. unfold Convert_v1beta2_NetworkStatus_To_v1beta1_NetworkStatus, autoConvert_v1beta2_NetworkStatus_To_v1beta1_NetworkStatus. by rewrite !ptr_to_bool. Qed.
Lemma interface_settled ok s r d : interface_received s d -> explicit_interface (restore_interface ok s r d) = d.
Proof. intros Hd. unfold explicit_interface, restore_interface. cbn. rewrite settled_bool. destruct d. cbn in *. by rewrite Hd. Qed.
Lemma interfaces_unseen ok s r d : elementwise interface_received s d ->
  convert_slice (λ a, Convert_v1beta2_NetworkStatus_To_v1beta1_NetworkStatus a infrav1beta1.zero_NetworkStatus) (restore_list (restore_interface ok) s r d) =
  convert_slice (λ a, Convert_v1beta2_NetworkStatus_To_v1beta1_NetworkStatus a infrav1beta1.zero_NetworkStatus) d.
Proof.
  intros HQ. rewrite <-(convert_slice_explicit _ explicit_interface) by (intros; apply interface_unseen).
  by rewrite (settled_list _ explicit_interface interface_received) by (done || apply interface_settled).
Qed.

#[global] Instance MachineAddress_up_down : RoundTrip
  Convert_v1beta1_MachineAddress_To_v1beta2_MachineAddress zero_MachineAddress
  Convert_v1beta2_MachineAddress_To_v1beta1_MachineAddress zero_MachineAddress
  always id anything.
Proof. intros x _. destruct (address_up_down x) as (y & E & E'). by exists y. Qed.

#[global] Instance ObjectMeta_up_down : RoundTrip
  Convert_v1beta1_ObjectMeta_To_v1beta2_ObjectMeta zero_TemplateMeta
  Convert_v1beta2_ObjectMeta_To_v1beta1_ObjectMeta zero_TemplateMeta
  always id anything.
Proof. intros x _. destruct (template_meta_up_down x) as (y & E & E'). by exists y. Qed.

(** By cases on whether something is known of the initialization. *)
Ltac initialized := match goal with |- context [clusterv1_Convert_bool_To_Pointer_bool ?p ?o ?q] =>
  let Hd := fresh in pose proof (settled_bool p o q) as Hd;
  destruct (clusterv1_Convert_bool_To_Pointer_bool p o q) as [[]|]; cbn in Hd; subst; cbn; case_bool_decide; try done end.

(** A status does not say that there is a new status without conditions. *)
Definition v1beta2_VSphereMachine (x : infrav1beta1.VSphereMachineStatus) : Prop :=
  forall s, infrav1beta1.VSphereMachineStatus_V1Beta2 x = Some s -> infrav1beta1.VSphereMachineV1Beta2Status_Conditions s <> None.
Lemma machine_status_up_down x ok r : v1beta2_VSphereMachine x ->
  exists y, Convert_v1beta1_VSphereMachineStatus_To_v1beta2_VSphereMachineStatus x infrav1.zero_VSphereMachineStatus = Ok y /\
    Convert_v1beta2_VSphereMachineStatus_To_v1beta1_VSphereMachineStatus (restore_machine_status ok x r y) infrav1beta1.zero_VSphereMachineStatus = Ok x.
Proof.
  intros Hx. destruct x. unfold v1beta2_VSphereMachine in Hx. cbn in Hx. destruct VSphereMachineStatus_V1Beta2 as [[[cs|]]|]; [|by destruct (Hx _ eq_refl)|];
    destruct VSphereMachineStatus_Conditions as [c|]; destruct VSphereMachineStatus_FailureReason, VSphereMachineStatus_FailureMessage; by_cases;
    (eexists; split; [reflexivity|]); unfold restore_machine_status; initialized;
    unfold Convert_v1beta2_VSphereMachineStatus_To_v1beta1_VSphereMachineStatus, autoConvert_v1beta2_VSphereMachineStatus_To_v1beta1_VSphereMachineStatus;
    cbn; rewrite interfaces_unseen by assumption; by_cases; conv_same.
Qed.

(** A status does not say that there is a new status without conditions. *)
Definition v1beta2_VSphereVM (x : infrav1beta1.VSphereVMStatus) : Prop :=
  forall s, infrav1beta1.VSphereVMStatus_V1Beta2 x = Some s -> infrav1beta1.VSphereVMV1Beta2Status_Conditions s <> None.
Lemma vm_status_up_down x ok r : v1beta2_VSphereVM x ->
  exists y, Convert_v1beta1_VSphereVMStatus_To_v1beta2_VSphereVMStatus x infrav1.zero_VSphereVMStatus = Ok y /\
    Convert_v1beta2_VSphereVMStatus_To_v1beta1_VSphereVMStatus (restore_vm_status ok x r y) infrav1beta1.zero_VSphereVMStatus = Ok x.
Proof.
  intros Hx. destruct x. unfold v1beta2_VSphereVM in Hx. cbn in Hx. destruct VSphereVMStatus_V1Beta2 as [[[cs|]]|]; [|by destruct (Hx _ eq_refl)|];
    destruct VSphereVMStatus_Conditions as [c|]; destruct VSphereVMStatus_FailureReason, VSphereVMStatus_FailureMessage; by_cases; (eexists; split; [reflexivity|]); unfold restore_vm_status;
    unfold Convert_v1beta2_VSphereVMStatus_To_v1beta1_VSphereVMStatus, autoConvert_v1beta2_VSphereVMStatus_To_v1beta1_VSphereVMStatus; cbn; rewrite interfaces_unseen by assumption; by_cases; rewrite ?settled_bool; conv_same.
Qed.

(** ** Clusters *)

#[global] Instance APIEndpoint_up_down : RoundTrip
  Convert_v1beta1_APIEndpoint_To_v1beta2_APIEndpoint infrav1.zero_APIEndpoint
  Convert_v1beta2_APIEndpoint_To_v1beta1_APIEndpoint infrav1beta1.zero_APIEndpoint
  always id anything.
Proof. conv_fields; [conv_done|conv_sent]. Qed.

#[global] Instance VSphereClusterIdentitySpec_up_down : RoundTrip
  Convert_v1beta1_VSphereClusterIdentitySpec_To_v1beta2_VSphereClusterIdentitySpec infrav1.zero_VSphereClusterIdentitySpec
  Convert_v1beta2_VSphereClusterIdentitySpec_To_v1beta1_VSphereClusterIdentitySpec infrav1beta1.zero_VSphereClusterIdentitySpec
  always id anything.
Proof. conv_fields; [conv_done|conv_sent]. Qed.

#[global] Instance PlacementConstraint_up_down : RoundTrip
  Convert_v1beta1_PlacementConstraint_To_v1beta2_PlacementConstraint infrav1.zero_PlacementConstraint
  Convert_v1beta2_PlacementConstraint_To_v1beta1_PlacementConstraint infrav1beta1.zero_PlacementConstraint
  always id anything.
Proof. conv_fields; [conv_done|conv_sent]. Qed.

#[global] Instance VSphereDeploymentZoneSpec_up_down : RoundTrip
  Convert_v1beta1_VSphereDeploymentZoneSpec_To_v1beta2_VSphereDeploymentZoneSpec infrav1.zero_VSphereDeploymentZoneSpec
  Convert_v1beta2_VSphereDeploymentZoneSpec_To_v1beta1_VSphereDeploymentZoneSpec infrav1beta1.zero_VSphereDeploymentZoneSpec
  always id anything.
Proof. conv_fields; [conv_done|conv_sent]. Qed.


#[global] Instance FailureDomainHosts_up_down : RoundTrip
  autoConvert_v1beta1_FailureDomainHosts_To_v1beta2_FailureDomainHosts infrav1.zero_FailureDomainHosts
  autoConvert_v1beta2_FailureDomainHosts_To_v1beta1_FailureDomainHosts infrav1beta1.zero_FailureDomainHosts
  always id anything.
Proof. conv_fields; [conv_done|conv_sent]. Qed.

Definition module_received (x : infrav1beta1.ClusterModule) (y : infrav1.ClusterModule) : Prop :=
  infrav1.ClusterModule_ControlPlane y = Some (infrav1beta1.ClusterModule_ControlPlane x).
#[global] Instance ClusterModule_up_down : RoundTrip
  Convert_v1beta1_ClusterModule_To_v1beta2_ClusterModule infrav1.zero_ClusterModule
  Convert_v1beta2_ClusterModule_To_v1beta1_ClusterModule infrav1beta1.zero_ClusterModule
  always id module_received.
Proof. conv_fields; [conv_done|conv_sent]. Qed.

Lemma module_unseen (y : infrav1.ClusterModule) out :
  Convert_v1beta2_ClusterModule_To_v1beta1_ClusterModule (explicit_module y) out = Convert_v1beta2_ClusterModule_To_v1beta1_ClusterModule y out.
Proof. unfold Convert_v1beta2_ClusterModule_To_v1beta1_ClusterModule, autoConvert_v1beta2_ClusterModule_To_v1beta1_ClusterModule. by rewrite !ptr_to_bool. Qed.
Lemma module_settled ok s r d : module_received s d -> explicit_module (restore_module ok s r d) = d.
Proof. intros Hd. unfold explicit_module, restore_module. cbn. rewrite settled_bool. destruct d. cbn in *. by rewrite Hd. Qed.
Lemma modules_unseen ok s r d : elementwise module_received s d ->
  convert_slice (λ a, Convert_v1beta2_ClusterModule_To_v1beta1_ClusterModule a infrav1beta1.zero_ClusterModule) (restore_list (restore_module ok) s r d) =
  convert_slice (λ a, Convert_v1beta2_ClusterModule_To_v1beta1_ClusterModule a infrav1beta1.zero_ClusterModule) d.
Proof.
  intros HQ. rewrite <-(convert_slice_explicit _ explicit_module) by (intros; apply module_unseen).
  by rewrite (settled_list _ explicit_module module_received) by (done || apply module_settled).
Qed.

(** A reference to an identity refers to something. *)
Definition valid_cluster_spec (x : infrav1beta1.VSphereClusterSpec) : Prop :=
  infrav1beta1.VSphereClusterSpec_IdentityRef x <> Some infrav1beta1.zero_VSphereIdentityReference.

Lemma cluster_spec_up_down x ok r : valid_cluster_spec x ->
  exists y, Convert_v1beta1_VSphereClusterSpec_To_v1beta2_VSphereClusterSpec x infrav1.zero_VSphereClusterSpec = Ok y /\
    Convert_v1beta2_VSphereClusterSpec_To_v1beta1_VSphereClusterSpec (restore_cluster ok x r y) infrav1beta1.zero_VSphereClusterSpec = Ok x.
Proof.
  intros Hx. destruct x as [? ? ? [[k n]|] ? ? ?]; cbn in *; conv_steps; (eexists; split; [reflexivity|]);
    unfold restore_cluster, Convert_v1beta2_VSphereClusterSpec_To_v1beta1_VSphereClusterSpec, autoConvert_v1beta2_VSphereClusterSpec_To_v1beta1_VSphereClusterSpec;
    cbn; rewrite modules_unseen by assumption; repeat first [progress conv_laws | progress cbn]; (case_bool_decide as Hi; [try (injection Hi as -> ->; by destruct Hx)|try by destruct Hi]);
    unfold autoConvert_v1beta2_VSphereIdentityReference_To_v1beta1_VSphereIdentityReference; rewrite ?bind_ret; cbn; rewrite ?settled_bool; conv_same.
Qed.

Lemma failure_domains_fold (l : list FailureDomain) (m0 m : gmap string FailureDomainSpec) : (forall fd, fd ∈ l -> m !! fo_Name fd = Some (mkFailureDomainSpec (ptr_deref (fo_ControlPlane fd) false) (fo_Attributes fd))) ->
  (forall n, m0 !! n = m !! n \/ n ∈ map fo_Name l) ->
  fold_left (λ m fd, <[fo_Name fd := mkFailureDomainSpec (ptr_deref (fo_ControlPlane fd) false) (fo_Attributes fd)]> m) l m0 = m.
Proof.
  revert m0. induction l as [|fd l IH]; intros m0 Hl Hm; cbn.
  - apply map_eq. intros n. destruct (Hm n) as [?|Hn]; [done|]. by apply not_elem_of_nil in Hn.
  - apply IH; [by intros; apply Hl; right|]. intros n. destruct (decide (n = fo_Name fd)) as [->|Hn].
    + left. rewrite lookup_insert_eq. symmetry. apply Hl. by left.
    + rewrite lookup_insert_ne by done. destruct (Hm n) as [?|Hi]; [by left|]. cbn in Hi. apply elem_of_cons in Hi as [?|?]; [done|by right].
Qed.

(** The map of failure domains is the same again: the names are its keys, and a key has one value. *)
Lemma failure_domains_up_down m : failure_domains_to_map (failure_domains_of_map m) = m.
Proof.
  unfold failure_domains_to_map. apply failure_domains_fold; unfold failure_domains_of_map.
  - intros fd Hin. apply list_elem_of_omap in Hin as (n & _ & Hn).
    destruct (m !! n) as [[? ?]|] eqn:E; [|done]. cbn in Hn. injection Hn as <-. exact E.
  - intros n. destruct (m !! n) as [fd|] eqn:E; [right|by left].
    apply list_elem_of_fmap. exists (mkFailureDomain n (Some (fp_ControlPlane fd)) (fp_Attributes fd)). split; [done|].
    apply list_elem_of_omap. exists n. rewrite E. split; [|done].
    rewrite sort_by_perm. apply list_elem_of_fmap. exists (n, fd). split; [done|]. by apply elem_of_map_to_list.
Qed.
Definition valid_v1beta1_cluster_status (x : infrav1beta1.VSphereClusterStatus) : Prop :=
  forall s, infrav1beta1.VSphereClusterStatus_V1Beta2 x = Some s -> infrav1beta1.VSphereClusterV1Beta2Status_Conditions s <> None.
Lemma cluster_status_up_down x ok r : valid_v1beta1_cluster_status x ->
  exists y, Convert_v1beta1_VSphereClusterStatus_To_v1beta2_VSphereClusterStatus x infrav1.zero_VSphereClusterStatus = Ok y /\
    Convert_v1beta2_VSphereClusterStatus_To_v1beta1_VSphereClusterStatus (restore_cluster_status ok x r y) infrav1beta1.zero_VSphereClusterStatus = Ok x.
Proof.
  intros Hx. destruct x as [? c fds ? v]. unfold valid_v1beta1_cluster_status in Hx. cbn in Hx.
  destruct v as [[[cs|]]|]; [|by destruct (Hx _ eq_refl)|]; destruct c as [c|]; destruct fds as [fds|]; by_cases;
    (eexists; split; [reflexivity|]); unfold restore_cluster_status; initialized;
    unfold Convert_v1beta2_VSphereClusterStatus_To_v1beta1_VSphereClusterStatus, autoConvert_v1beta2_VSphereClusterStatus_To_v1beta1_VSphereClusterStatus;
    cbn; by_cases; rewrite ?failure_domains_up_down; conv_same.
Qed.
End round_trips.

(** * Objects *)

Section objects.
Context `{ConvLib}.

(** What is known of the metadata of an object that went through the hub version, whatever its annotation held. *)
Definition annotated (data : string) (m : MetaV1) : MetaV1 :=
  set_mv_Annotations (Some (<[DataAnnotation := data]> (default ∅ (mv_Annotations m)))) m.
Lemma data_again {A V} {view : A -> V} {zero} `{!HubData A V view zero} m m' ok (r x : A) :
  UnmarshalData zero m = Ok (ok, r, m') -> exists data, MarshalDataUnsafeNoCopy x m' = Ok (annotated data m).
Proof.
  intros Hu. apply unmarshal_keeps in Hu as [Hm Ha]. destruct (marshal_data x m') as (data & E & _). exists data. rewrite E, Ha, insert_delete_eq.
  unfold annotated, set_mv_Annotations. by rewrite Hm.
Qed.

(** The object is stored with the annotation [data]. *)
Tactic Notation "stored" constr(r) hyp(Hu) "as" ident(data) ident(Em) :=
  match goal with |- exists y data, Ok ?h = Ok y /\ _ =>
    destruct (data_again _ _ _ r h Hu) as (data & Em); exists h, data; split; [reflexivity|] end.

Definition valid_v1beta1_machine (x : infrav1beta1.VSphereMachine) : Prop :=
  valid_machine_spec (infrav1beta1.VSphereMachine_Spec x) /\ v1beta2_VSphereMachine (infrav1beta1.VSphereMachine_Status x).
Lemma machine_up_down `{!HubData infrav1.VSphereMachine _ machine_view infrav1.zero_VSphereMachine} (x : infrav1beta1.VSphereMachine) ok r m
    (Hu : UnmarshalData infrav1.zero_VSphereMachine (infrav1beta1.VSphereMachine_ObjectMeta x) = Ok (ok, r, m)) (Hx : valid_v1beta1_machine x) :
  exists y data, ConvertVSphereMachineV1Beta1ToHub x infrav1.zero_VSphereMachine = Ok y /\
    ConvertVSphereMachineHubToV1Beta1 y infrav1beta1.zero_VSphereMachine =
      Ok (infrav1beta1.set_VSphereMachine_ObjectMeta (annotated data (infrav1beta1.VSphereMachine_ObjectMeta x)) x).
Proof.
  destruct Hx as (Hs & Ht).
  destruct (machine_spec_up_down _ ok (infrav1.VSphereMachineSpec_VirtualMachineCloneSpec (infrav1.VSphereMachine_Spec r)) Hs) as (ys & Es & ys' & Es' & Ey).
  destruct (machine_status_up_down _ ok (infrav1.VSphereMachine_Status r) Ht) as (yt & Et & Et').
  unfold ConvertVSphereMachineV1Beta1ToHub. conv_steps. 
  stored r Hu as data Em.
  unfold ConvertVSphereMachineHubToV1Beta1. unfold restore_machine in *. cbn in Em. conv_steps. rewrite Ey. by destruct x.
Qed.

(** A machine without the fields that v1beta2 has not got: [spec.failureDomain] and [spec.network.preferredAPIServerCidr]. *)
Definition without_dropped_clone (x : infrav1beta1.VirtualMachineCloneSpec) : infrav1beta1.VirtualMachineCloneSpec :=
  let network := infrav1beta1.VirtualMachineCloneSpec_Network x in
  {|
    infrav1beta1.VirtualMachineCloneSpec_Template := infrav1beta1.VirtualMachineCloneSpec_Template x;
    infrav1beta1.VirtualMachineCloneSpec_CloneMode := infrav1beta1.VirtualMachineCloneSpec_CloneMode x;
    infrav1beta1.VirtualMachineCloneSpec_Snapshot := infrav1beta1.VirtualMachineCloneSpec_Snapshot x;
    infrav1beta1.VirtualMachineCloneSpec_Server := infrav1beta1.VirtualMachineCloneSpec_Server x;
    infrav1beta1.VirtualMachineCloneSpec_Thumbprint := infrav1beta1.VirtualMachineCloneSpec_Thumbprint x;
    infrav1beta1.VirtualMachineCloneSpec_Datacenter := infrav1beta1.VirtualMachineCloneSpec_Datacenter x;
    infrav1beta1.VirtualMachineCloneSpec_Folder := infrav1beta1.VirtualMachineCloneSpec_Folder x;
    infrav1beta1.VirtualMachineCloneSpec_Datastore := infrav1beta1.VirtualMachineCloneSpec_Datastore x;
    infrav1beta1.VirtualMachineCloneSpec_StoragePolicyName := infrav1beta1.VirtualMachineCloneSpec_StoragePolicyName x;
    infrav1beta1.VirtualMachineCloneSpec_ResourcePool := infrav1beta1.VirtualMachineCloneSpec_ResourcePool x;
    infrav1beta1.VirtualMachineCloneSpec_Network := infrav1beta1.mkNetworkSpec (infrav1beta1.NetworkSpec_Devices network) (infrav1beta1.NetworkSpec_Routes network) "";
    infrav1beta1.VirtualMachineCloneSpec_NumCPUs := infrav1beta1.VirtualMachineCloneSpec_NumCPUs x;
    infrav1beta1.VirtualMachineCloneSpec_NumCoresPerSocket := infrav1beta1.VirtualMachineCloneSpec_NumCoresPerSocket x;
    infrav1beta1.VirtualMachineCloneSpec_Resources := infrav1beta1.VirtualMachineCloneSpec_Resources x;
    infrav1beta1.VirtualMachineCloneSpec_MemoryMiB := infrav1beta1.VirtualMachineCloneSpec_MemoryMiB x;
    infrav1beta1.VirtualMachineCloneSpec_DiskGiB := infrav1beta1.VirtualMachineCloneSpec_DiskGiB x;
    infrav1beta1.VirtualMachineCloneSpec_AdditionalDisksGiB := infrav1beta1.VirtualMachineCloneSpec_AdditionalDisksGiB x;
    infrav1beta1.VirtualMachineCloneSpec_CustomVMXKeys := infrav1beta1.VirtualMachineCloneSpec_CustomVMXKeys x;
    infrav1beta1.VirtualMachineCloneSpec_TagIDs := infrav1beta1.VirtualMachineCloneSpec_TagIDs x;
    infrav1beta1.VirtualMachineCloneSpec_PciDevices := infrav1beta1.VirtualMachineCloneSpec_PciDevices x;
    infrav1beta1.VirtualMachineCloneSpec_OS := infrav1beta1.VirtualMachineCloneSpec_OS x;
    infrav1beta1.VirtualMachineCloneSpec_HardwareVersion := infrav1beta1.VirtualMachineCloneSpec_HardwareVersion x;
    infrav1beta1.VirtualMachineCloneSpec_DataDisks := infrav1beta1.VirtualMachineCloneSpec_DataDisks x;
    infrav1beta1.VirtualMachineCloneSpec_NestedHV := infrav1beta1.VirtualMachineCloneSpec_NestedHV x;
    infrav1beta1.VirtualMachineCloneSpec_FtEncryptionMode := infrav1beta1.VirtualMachineCloneSpec_FtEncryptionMode x;
    infrav1beta1.VirtualMachineCloneSpec_MigrateEncryption := infrav1beta1.VirtualMachineCloneSpec_MigrateEncryption x;
    infrav1beta1.VirtualMachineCloneSpec_CryptoKeyID := infrav1beta1.VirtualMachineCloneSpec_CryptoKeyID x;
    infrav1beta1.VirtualMachineCloneSpec_CryptoProfile := infrav1beta1.VirtualMachineCloneSpec_CryptoProfile x
  |}.
Definition without_dropped (x : infrav1beta1.VSphereMachine) : infrav1beta1.VSphereMachine :=
  let spec := infrav1beta1.VSphereMachine_Spec x in
  infrav1beta1.set_VSphereMachine_Spec
    (infrav1beta1.mkVSphereMachineSpec (without_dropped_clone (infrav1beta1.VSphereMachineSpec_VirtualMachineCloneSpec spec))
       (infrav1beta1.VSphereMachineSpec_ProviderID spec) None (infrav1beta1.VSphereMachineSpec_PowerOffMode spec)
       (infrav1beta1.VSphereMachineSpec_GuestSoftPowerOffTimeout spec) (infrav1beta1.VSphereMachineSpec_NamingStrategy spec)) x.

(** What v1beta1 can say in a way that v1beta2 cannot: a timeout of zero or one that is not in whole seconds; an empty provider ID; a naming
    strategy without a template; a route metric of more than 32 bits; an empty API group of a pool; new conditions that are not there in a
    status for them. A machine says none of these. *)
Definition sayable (x : infrav1beta1.VSphereMachine) : Prop :=
  let spec := infrav1beta1.VSphereMachine_Spec x in
  let network := infrav1beta1.VirtualMachineCloneSpec_Network (infrav1beta1.VSphereMachineSpec_VirtualMachineCloneSpec spec) in
  (forall timeout, infrav1beta1.VSphereMachineSpec_GuestSoftPowerOffTimeout spec = Some timeout ->
     exists seconds, timeout = seconds * 1000000000 /\ - 2 ^ 31 <= seconds < 2 ^ 31 /\ seconds <> 0) /\
  infrav1beta1.VSphereMachineSpec_ProviderID spec <> Some "" /\
  (forall naming, infrav1beta1.VSphereMachineSpec_NamingStrategy spec = Some naming ->
     exists template, infrav1beta1.VSphereVMNamingStrategy_Template naming = Some template /\ template <> "") /\
  (forall device, device ∈ elems (infrav1beta1.NetworkSpec_Devices network) ->
     (forall overrides metric,
        infrav1beta1.NetworkDeviceSpec_DHCP4Overrides device = Some overrides \/ infrav1beta1.NetworkDeviceSpec_DHCP6Overrides device = Some overrides ->
        infrav1beta1.DHCPOverrides_RouteMetric overrides = Some metric -> - 2 ^ 31 <= metric < 2 ^ 31) /\
     (forall pool, pool ∈ elems (infrav1beta1.NetworkDeviceSpec_AddressesFromPools device) -> tl_APIGroup pool <> Some "")) /\
  (forall status, infrav1beta1.VSphereMachineStatus_V1Beta2 (infrav1beta1.VSphereMachine_Status x) = Some status ->
     infrav1beta1.VSphereMachineV1Beta2Status_Conditions status <> None).

Lemma sayable_valid x : sayable x -> valid_v1beta1_machine (without_dropped x).
Proof.
  intros (Ht & Hp & Hn & Hd & Hs). split; [|exact Hs]. split_and!; cbn; try done.
  split; [done|]. cbn. apply Forall_forall. intros device Hin. destruct (Hd device Hin) as (Ho & Hpool).
  split_and!; [intros o E n En; apply (Ho o n); auto..|]. by apply Forall_forall.
Qed.
Lemma up_dropped `{!HubData infrav1.VSphereMachine _ machine_view infrav1.zero_VSphereMachine} x :
  ConvertVSphereMachineV1Beta1ToHub (without_dropped x) infrav1.zero_VSphereMachine = ConvertVSphereMachineV1Beta1ToHub x infrav1.zero_VSphereMachine.
Proof. destruct x as [? [] ?]. reflexivity. Qed.

(** C30: A VSphereMachine that a client writes as v1beta1 is served to it as it was written, whatever the annotation with an
    earlier hub object says, as long as that annotation can be read; only the annotation is new, and the two fields are gone that v1beta2 has
    dropped: [spec.failureDomain] and [spec.network.preferredAPIServerCidr]. The machine has to say nothing that v1beta2 cannot say: its timeout, if any,
    is a number of whole seconds that is not zero and has 32 bits, as have the route metrics of its DHCP overrides; it has no empty provider ID, no
    naming strategy without a template, no pool with an empty API group, and no v1beta2 status without conditions. *)
Theorem machine_spoke_hub_spoke `{!HubData infrav1.VSphereMachine _ machine_view infrav1.zero_VSphereMachine} (x : infrav1beta1.VSphereMachine) ok r m
    (Hu : UnmarshalData infrav1.zero_VSphereMachine (infrav1beta1.VSphereMachine_ObjectMeta x) = Ok (ok, r, m)) (Hx : sayable x) :
  exists y data, ConvertVSphereMachineV1Beta1ToHub x infrav1.zero_VSphereMachine = Ok y /\
    ConvertVSphereMachineHubToV1Beta1 y infrav1beta1.zero_VSphereMachine =
      Ok (infrav1beta1.set_VSphereMachine_ObjectMeta (annotated data (infrav1beta1.VSphereMachine_ObjectMeta x)) (without_dropped x)).
Proof.
  destruct (machine_up_down (without_dropped x) ok r m Hu (sayable_valid x Hx)) as (y & data & Hup & Hdown).
  rewrite up_dropped in Hup. by exists y, data.
Qed.

Definition valid_v1beta1_machine_template (x : infrav1beta1.VSphereMachineTemplate) : Prop := valid_machine_spec (v1beta1_template_machine x).
Theorem machine_template_spoke_hub_spoke `{!HubData infrav1.VSphereMachineTemplate _ machine_template_view infrav1.zero_VSphereMachineTemplate} (x : infrav1beta1.VSphereMachineTemplate) ok r m
    (Hu : UnmarshalData infrav1.zero_VSphereMachineTemplate (infrav1beta1.VSphereMachineTemplate_ObjectMeta x) = Ok (ok, r, m)) (Hx : valid_v1beta1_machine_template x) :
  exists y data, ConvertVSphereMachineTemplateV1Beta1ToHub x infrav1.zero_VSphereMachineTemplate = Ok y /\
    ConvertVSphereMachineTemplateHubToV1Beta1 y infrav1beta1.zero_VSphereMachineTemplate =
      Ok (infrav1beta1.set_VSphereMachineTemplate_ObjectMeta (annotated data (infrav1beta1.VSphereMachineTemplate_ObjectMeta x)) x).
Proof.
  destruct (machine_spec_up_down _ ok (infrav1.VSphereMachineSpec_VirtualMachineCloneSpec (template_machine r)) Hx) as (ys & Es & ys' & Es' & Ey).
  unfold v1beta1_template_machine, template_machine in *.
  destruct (round_trip (f := Convert_v1beta1_ObjectMeta_To_v1beta2_ObjectMeta)
    (infrav1beta1.VSphereMachineTemplateResource_ObjectMeta (infrav1beta1.VSphereMachineTemplateSpec_Template (infrav1beta1.VSphereMachineTemplate_Spec x))) I) as (yt & Et & Et' & _).
  unfold ConvertVSphereMachineTemplateV1Beta1ToHub. conv_steps.
  stored r Hu as data Em.
  unfold ConvertVSphereMachineTemplateHubToV1Beta1. unfold restore_machine_template, set_template_machine, v1beta1_set_template_machine, v1beta1_template_machine, template_machine in *.
  cbn in Em. conv_steps. rewrite Ey. by destruct x as [? [[]]].
Qed.

Definition valid_v1beta1_vm (x : infrav1beta1.VSphereVM) : Prop :=
  valid_vm_spec (om_Namespace (mv_Meta (infrav1beta1.VSphereVM_ObjectMeta x))) (infrav1beta1.VSphereVM_Spec x) /\
  v1beta2_VSphereVM (infrav1beta1.VSphereVM_Status x).
Theorem vm_spoke_hub_spoke `{!HubData infrav1.VSphereVM _ vm_view infrav1.zero_VSphereVM} (x : infrav1beta1.VSphereVM) ok r m
    (Hu : UnmarshalData infrav1.zero_VSphereVM (infrav1beta1.VSphereVM_ObjectMeta x) = Ok (ok, r, m)) (Hx : valid_v1beta1_vm x) :
  exists y data, ConvertVSphereVMV1Beta1ToHub x infrav1.zero_VSphereVM = Ok y /\
    ConvertVSphereVMHubToV1Beta1 y infrav1beta1.zero_VSphereVM =
      Ok (infrav1beta1.set_VSphereVM_ObjectMeta (annotated data (infrav1beta1.VSphereVM_ObjectMeta x)) x).
Proof.
  destruct Hx as (Hs & Ht). pose proof (unmarshal_keeps _ _ _ _ _ Hu) as [Hm _].
  destruct (vm_spec_up_down _ _ ok (infrav1.VSphereVMSpec_VirtualMachineCloneSpec (infrav1.VSphereVM_Spec r)) Hs) as (ys & Es & ys' & Es' & Ey).
  destruct (vm_status_up_down _ ok (infrav1.VSphereVM_Status r) Ht) as (yt & Et & Et').
  unfold ConvertVSphereVMV1Beta1ToHub. conv_steps.
  stored r Hu as data Em.
  unfold ConvertVSphereVMHubToV1Beta1. unfold restore_vm, restored_vm_spec, sent_bootstrap in *.
  cbn in Em. conv_steps. rewrite Hm, Ey. by destruct x.
Qed.

Definition valid_v1beta1_cluster (x : infrav1beta1.VSphereCluster) : Prop :=
  valid_cluster_spec (infrav1beta1.VSphereCluster_Spec x) /\ valid_v1beta1_cluster_status (infrav1beta1.VSphereCluster_Status x).
Theorem cluster_spoke_hub_spoke `{!HubData infrav1.VSphereCluster _ cluster_object_view infrav1.zero_VSphereCluster} (x : infrav1beta1.VSphereCluster) ok r m
    (Hu : UnmarshalData infrav1.zero_VSphereCluster (infrav1beta1.VSphereCluster_ObjectMeta x) = Ok (ok, r, m)) (Hx : valid_v1beta1_cluster x) :
  exists y data, ConvertVSphereClusterV1Beta1ToHub x infrav1.zero_VSphereCluster = Ok y /\
    ConvertVSphereClusterHubToV1Beta1 y infrav1beta1.zero_VSphereCluster =
      Ok (infrav1beta1.set_VSphereCluster_ObjectMeta (annotated data (infrav1beta1.VSphereCluster_ObjectMeta x)) x).
Proof.
  destruct Hx as (Hs & Ht).
  destruct (cluster_spec_up_down _ ok (infrav1.VSphereCluster_Spec r) Hs) as (ys & Es & Es').
  destruct (cluster_status_up_down _ ok (infrav1.VSphereCluster_Status r) Ht) as (yt & Et & Et').
  unfold ConvertVSphereClusterV1Beta1ToHub. conv_steps.
  stored r Hu as data Em.
  unfold ConvertVSphereClusterHubToV1Beta1. unfold restore_cluster_object in *. cbn in Em. conv_steps. by destruct x.
Qed.
End objects.
