(* ===== verification/ConvRef.v ===== *)
(** The functions of other projects that the conversions call, as concrete functions with the laws of
    [ConvLib] and [HubData], and round trips run with them. *)
From Stdlib Require Import Ascii.
From stdpp Require Import countable strings.
From S2P Require Export HubSpoke HubSpokeUp.
#[local] Open Scope Z_scope.

(** * The conversion functions *)

#[global] Program Instance conv_ref : ConvLib := {|
  metav1_Convert_bool_To_Pointer_bool b := Ok (Some b);
  metav1_Convert_Pointer_bool_To_bool p := Ok (default false p);
  metav1_Convert_int32_To_Pointer_int32 n := Ok (Some n);
  metav1_Convert_Pointer_int32_To_int32 p := Ok (default 0 p);
  metav1_Convert_string_To_Pointer_string s := Ok (Some s);
  metav1_Convert_Pointer_string_To_string p := Ok (default "" p);
  clusterv1_Convert_bool_To_Pointer_bool b ok r :=
    if b then Some true else if ok && bool_decide (r = Some false) then Some false else None;
  clusterv1_Convert_int32_To_Pointer_int32 n ok r :=
    if negb (n =? 0) then Some n else if ok && bool_decide (r = Some 0) then Some 0 else None;
  ConvertFromSeconds := option_map (λ n, n * 1000000000);
  ConvertToSeconds := option_map (λ d, to_int32 (Z.quot d 1000000000));
  Convert_v1beta1_Conditions_To_v1beta2_Deprecated_V1Beta1_Conditions l := l;
  Convert_v1beta2_Deprecated_V1Beta1_Conditions_To_v1beta1_Conditions l := l;
  clusterv1beta1_Convert_v1beta1_ObjectMeta_To_v1beta2_ObjectMeta m := Ok m;
  clusterv1beta1_Convert_v1beta2_ObjectMeta_To_v1beta1_ObjectMeta m := Ok m;
  clusterv1beta1_Convert_v1beta1_MachineAddress_To_v1beta2_MachineAddress a := Ok a;
  clusterv1beta1_Convert_v1beta2_MachineAddress_To_v1beta1_MachineAddress a := Ok a
|}.
Solve Obligations with try done; intros; eauto.
Next Obligation. cbn. intros n Hn. rewrite Z.quot_mul by done. by rewrite to_int32_id. Qed.

(** * The annotation *)

(** A number in binary. *)
Fixpoint binary (p : positive) : string :=
  match p with
  | xH => "1"
  | xO p => String "0"%char (binary p)
  | xI p => String "1"%char (binary p)
  end.
Fixpoint of_binary (s : string) : option positive :=
  match s with
  | EmptyString => None
  | String c EmptyString => if Ascii.eqb c "1"%char then Some xH else None
  | String c s => option_map (if Ascii.eqb c "1"%char then xI else xO) (of_binary s)
  end.
Lemma of_binary_binary p : of_binary (binary p) = Some p.
Proof. induction p as [p IH|p IH|]; [| |done]; cbn; rewrite IH; by destruct p. Qed.

Section data.
Context {A V : Type} `{Countable V} (view : A -> V) (zero : A) (build : V -> A) (build_view : forall x, view (build (view x)) = view x).

(** What the conversions use of the object, encoded. *)
Definition decode_data (data : string) : option V := match of_binary data with Some p => decode p | None => None end.
Lemma decode_data_encode v : decode_data (binary (encode v)) = Some v.
Proof. unfold decode_data. rewrite of_binary_binary. apply decode_encode. Qed.

#[program] Definition hub_data : HubData A V view zero := {|
  MarshalDataUnsafeNoCopy x m := Ok (set_mv_Annotations (Some (<[DataAnnotation := binary (encode (view x))]> (default ∅ (mv_Annotations m)))) m);
  UnmarshalData target m :=
    match default ∅ (mv_Annotations m) !! DataAnnotation with
    | None => Ok (false, target, m)
    | Some data =>
        match decode_data data with
        | Some v => Ok (true, build v, set_mv_Annotations (Some (delete DataAnnotation (default ∅ (mv_Annotations m)))) m)
        | None => Err (ENew "invalid data")
        end
    end
|}.
Next Obligation.
  cbn. intros x m. exists (binary (encode (view x))). split; [done|]. intros m' anns E Hd. exists (build (view x)). rewrite E. cbn. rewrite Hd.
  rewrite decode_data_encode. by rewrite build_view.
Qed.
Next Obligation. cbn. intros target m E. by rewrite E. Qed.
Next Obligation.
  cbn. intros target m m' ok x. destruct (default ∅ (mv_Annotations m) !! DataAnnotation) as [data|] eqn:E.
  - destruct (decode_data data); [|done]. by intros [= <- <- <-].
  - intros [= <- <- <-]. by rewrite delete_id.
Qed.
End data.

(** ** Machines and clusters *)

Definition build_net_device (v : option bool * option bool * option bool * list (option Z)) : infrav1.NetworkDeviceSpec :=
  let '(dhcp4, dhcp6, skip, metrics) := v in
  infrav1.mkNetworkDeviceSpec "" "" dhcp4 dhcp6 "" "" None None "" None
    (Some (map (infrav1.mkNetworkRouteSpec "" "") metrics)) None None None None skip.
Definition build_clone (v : option Z * list (option Z) * list (option bool * option bool * option bool * list (option Z))) : infrav1.VirtualMachineCloneSpec :=
  let '(cores, metrics, devices) := v in
  infrav1.set_VirtualMachineCloneSpec_NumCoresPerSocket cores (infrav1.set_VirtualMachineCloneSpec_Network
    (infrav1.mkNetworkSpec (Some (map build_net_device devices)) (Some (map (infrav1.mkNetworkRouteSpec "" "") metrics)))
    infrav1.zero_VirtualMachineCloneSpec).
Definition build_machine v : infrav1.VSphereMachine :=
  let '(clone, provisioned, connected) := v in
  infrav1.mkVSphereMachine zero_MetaV1
    (infrav1.set_VSphereMachineSpec_VirtualMachineCloneSpec (build_clone clone) infrav1.zero_VSphereMachineSpec)
    (infrav1.mkVSphereMachineStatus None (infrav1.mkVSphereMachineInitializationStatus provisioned) None
      (Some (map (λ c, infrav1.mkNetworkStatus c None "" "") connected)) None).
Definition build_cluster v : infrav1.VSphereCluster :=
  let '(disable, modules, provisioned) := v in
  infrav1.mkVSphereCluster zero_MetaV1
    (infrav1.mkVSphereClusterSpec "" "" infrav1.zero_APIEndpoint infrav1.zero_VSphereIdentityReference
      (Some (map (λ c, infrav1.mkClusterModule c "" "") modules)) disable None)
    (infrav1.mkVSphereClusterStatus None (infrav1.mkVSphereClusterInitializationStatus provisioned) None "" None).

Lemma map_view {A V} (view : A -> V) (build : V -> A) l : (forall v, view (build v) = v) -> map view (map build l) = l.
Proof. intros Hb. rewrite map_map. erewrite map_ext by apply Hb. apply map_id. Qed.
Lemma build_net_device_view v : device_view (build_net_device v) = v.
Proof. destruct v as [[[? ?] ?] ?]. unfold device_view. cbn. by rewrite map_view. Qed.
Lemma build_clone_view v : clone_view (build_clone v) = v.
Proof. destruct v as [[? ?] ?]. unfold clone_view. cbn. by rewrite !map_view by (done || apply build_net_device_view). Qed.
Lemma build_machine_view v : machine_view (build_machine v) = v.
Proof. destruct v as [[? ?] ?]. unfold machine_view. cbn. by rewrite build_clone_view, map_view. Qed.
Lemma build_cluster_view v : cluster_object_view (build_cluster v) = v.
Proof. destruct v as [[? ?] ?]. unfold cluster_object_view, cluster_view. cbn. by rewrite map_view. Qed.

#[global] Instance machine_data : HubData infrav1.VSphereMachine _ machine_view infrav1.zero_VSphereMachine := hub_data machine_view infrav1.zero_VSphereMachine build_machine (λ x, build_machine_view _).
#[global] Instance cluster_data : HubData infrav1.VSphereCluster _ cluster_object_view infrav1.zero_VSphereCluster := hub_data cluster_object_view infrav1.zero_VSphereCluster build_cluster (λ x, build_cluster_view _).

(** * Objects *)

Definition sample_meta : MetaV1 := mkMetaV1 (mkObjectMeta "md-0-x7k2p" "default" "8c1f" None [] [] None) (Some {["owner" := "me"]}).
Definition sample_condition : Condition := mkCondition "Ready" "True" 2 None "Ready" "".
Definition sample_deprecated : V1Beta1Condition := mkV1Beta1Condition "Ready" "True" "" None "" "".

(** A machine with pointers that are nil, and pointers to zero values. *)
Definition sample_device : infrav1.NetworkDeviceSpec :=
  infrav1.mkNetworkDeviceSpec "VM Network" "" (Some false) None "10.0.0.1" "" (Some ["10.0.0.9/24"]) (Some 1500) "" None
    (Some [infrav1.mkNetworkRouteSpec "10.1.0.0/16" "10.0.0.2" (Some 0); infrav1.mkNetworkRouteSpec "10.2.0.0/16" "10.0.0.2" None])
    None (Some [infrav1.mkIPPoolReference "pool" "InClusterIPPool" "ipam.cluster.x-k8s.io"]) None None (Some true).
Definition sample_clone : infrav1.VirtualMachineCloneSpec :=
  infrav1.set_VirtualMachineCloneSpec_NumCoresPerSocket (Some 0) (infrav1.set_VirtualMachineCloneSpec_Network
    (infrav1.mkNetworkSpec (Some [sample_device]) None) infrav1.zero_VirtualMachineCloneSpec).
Definition sample_machine : infrav1.VSphereMachine :=
  infrav1.mkVSphereMachine sample_meta
    (infrav1.mkVSphereMachineSpec sample_clone "vsphere://4210" "trySoft" 300 (infrav1.mkVSphereVMNamingSpec "vm-{{ .machine.name }}"))
    (infrav1.mkVSphereMachineStatus (Some [sample_condition]) (infrav1.mkVSphereMachineInitializationStatus (Some false)) None
      (Some [infrav1.mkNetworkStatus (Some false) None "00:50:56:01" "VM Network"; infrav1.mkNetworkStatus None None "00:50:56:02" ""])
      (Some (infrav1.mkVSphereMachineDeprecatedStatus (Some (infrav1.mkVSphereMachineV1Beta1DeprecatedStatus (Some [sample_deprecated]) (Some "CreateError") None))))).

Lemma sample_machine_valid : valid_machine sample_machine.
Proof.
  split; [by vm_compute|]. split; [|by eexists].
  split; [|by vm_compute]. unfold int32_clone, int32_network. cbn. apply Forall_singleton. by split; intros ?.
Qed.

(** Without the annotation the pointers are nil or point to something other than zero. *)
Example machine_without_annotation :
  (y ← ConvertVSphereMachineHubToV1Beta1 sample_machine infrav1beta1.zero_VSphereMachine;
   x ← ConvertVSphereMachineV1Beta1ToHub (infrav1beta1.set_VSphereMachine_ObjectMeta sample_meta y) infrav1.zero_VSphereMachine;
   Ok (machine_view x)) =
  Ok (None, [], [(None, None, Some true, [Some 0; Some 0])], None, [None; None]).
Proof. by vm_compute. Qed.

Lemma machine_hub_spoke_hub_witness :
  valid_machine sample_machine /\
  exists y, ConvertVSphereMachineHubToV1Beta1 sample_machine infrav1beta1.zero_VSphereMachine = Ok y /\
    ConvertVSphereMachineV1Beta1ToHub y infrav1.zero_VSphereMachine = Ok sample_machine.
Proof. split; [apply sample_machine_valid|]. exact (machine_hub_spoke_hub sample_machine sample_machine_valid). Defined.

(** A cluster with a cluster module of which it is not known whether it is for control planes. *)
Definition sample_cluster : infrav1.VSphereCluster :=
  infrav1.mkVSphereCluster sample_meta
    (infrav1.mkVSphereClusterSpec "vcenter" "AA:BB" (infrav1.mkAPIEndpoint "10.0.0.1" 6443) (infrav1.mkVSphereIdentityReference "Secret" "creds")
      (Some [infrav1.mkClusterModule None "md-0" "uuid-1"; infrav1.mkClusterModule (Some true) "kcp" "uuid-2"]) (Some false) None)
    (infrav1.mkVSphereClusterStatus (Some [sample_condition]) (infrav1.mkVSphereClusterInitializationStatus (Some true))
      (Some [mkFailureDomain "zone-a" (Some true) None; mkFailureDomain "zone-b" (Some false) (Some ∅)]) "8.0.2"
      (Some (infrav1.mkVSphereClusterDeprecatedStatus (Some (infrav1.mkVSphereClusterV1Beta1DeprecatedStatus (Some [sample_deprecated])))))).

Lemma sample_cluster_valid : valid_cluster sample_cluster.
Proof.
  split; [by vm_compute|]. split; [by eexists|]. intros l [= <-]. split_and!.
  - repeat constructor; by vm_compute.
  - by apply (bool_decide_unpack (NoDup _)); vm_compute.
  - repeat constructor; done.
Qed.

Lemma cluster_hub_spoke_hub_witness :
  valid_cluster sample_cluster /\
  exists y, ConvertVSphereClusterHubToV1Beta1 sample_cluster infrav1beta1.zero_VSphereCluster = Ok y /\
    ConvertVSphereClusterV1Beta1ToHub y infrav1.zero_VSphereCluster = Ok sample_cluster.
Proof. split; [apply sample_cluster_valid|]. exact (cluster_hub_spoke_hub sample_cluster sample_cluster_valid). Defined.

(** A machine a client of v1beta1 changed after it was read: the annotation tells of what it was. *)
Definition sample_v1beta1_device : infrav1beta1.NetworkDeviceSpec :=
  infrav1beta1.mkNetworkDeviceSpec "VM Network" "" true false "" "" None None "" None
    (Some [infrav1beta1.mkNetworkRouteSpec "10.1.0.0/16" "10.0.0.2" 100]) None None None None false.
Definition stale_meta : MetaV1 :=
  set_mv_Annotations (Some {[DataAnnotation := binary (encode (machine_view sample_machine))]}) sample_meta.
Definition sample_v1beta1_machine : infrav1beta1.VSphereMachine :=
  infrav1beta1.set_VSphereMachine_ObjectMeta stale_meta
  (infrav1beta1.set_VSphereMachine_Spec
    (infrav1beta1.mkVSphereMachineSpec
      (infrav1beta1.mkVirtualMachineCloneSpec "" "" "" "" "" "" "" "" "" "" (infrav1beta1.mkNetworkSpec (Some [sample_v1beta1_device]) None "10.0.0.0/8") 0 0 infrav1beta1.zero_VirtualMachineResources 0 0 None None None None "" "" None None "" "" "" "") None (Some "zone-a") "soft" (Some 60000000000)
      (Some (infrav1beta1.mkVSphereVMNamingStrategy (Some "vm")))) infrav1beta1.zero_VSphereMachine).

Lemma stale_data : UnmarshalData infrav1.zero_VSphereMachine stale_meta =
  Ok (true, build_machine (machine_view sample_machine), set_mv_Annotations (Some ∅) sample_meta).
Proof. by vm_compute. Qed.

Lemma sample_v1beta1_machine_sayable : sayable sample_v1beta1_machine.
Proof.
  split_and!; cbn; [by intros d [= <-]; exists 60|done|by intros n [= <-]; eexists| |done].
  intros device ->%list_elem_of_singleton. split; [by intros o n [|]|]. intros pool Hin. by apply elem_of_nil in Hin.
Qed.

(** It is served without its failure domain and its CIDR. *)
Lemma machine_spoke_hub_spoke_witness :
  sayable sample_v1beta1_machine /\
  exists y data, ConvertVSphereMachineV1Beta1ToHub sample_v1beta1_machine infrav1.zero_VSphereMachine = Ok y /\
    ConvertVSphereMachineHubToV1Beta1 y infrav1beta1.zero_VSphereMachine =
      Ok (infrav1beta1.set_VSphereMachine_ObjectMeta (annotated data stale_meta) (without_dropped sample_v1beta1_machine)).
Proof.
  split; [apply sample_v1beta1_machine_sayable|].
  exact (machine_spoke_hub_spoke sample_v1beta1_machine _ _ _ stale_data sample_v1beta1_machine_sayable).
Defined.
