(* ===== verification/SupervisorTypes.v ===== *)
(** The API objects of the supervisor mode as the conversions between versions see
    them: every field of the structs of [api/supervisor/v1beta2] (module [vmwarehub], the hub) and of
    [api/supervisor/v1beta1] (module [vmwarev1beta1]), a field named by its struct. A slice or a map is an
    [option], because a conversion tells nil from empty. ([VmwareTypes] has the same hub objects as the
    controllers see them.) [TypeMeta] is set by the machinery around a conversion and left out.
    [zero_] is the zero value of a struct and [set_] the assignment of a field. *)
From S2P Require Export ConvLib.

(** [api/supervisor/v1beta2], the hub version *)
Module vmwarehub.

Record ProviderServiceAccountSpec := mkProviderServiceAccountSpec {
  ProviderServiceAccountSpec_Ref : option ObjectReference;
  ProviderServiceAccountSpec_Rules : option (list PolicyRule);
  ProviderServiceAccountSpec_TargetNamespace : string;
  ProviderServiceAccountSpec_TargetSecretName : string
}.

Definition zero_ProviderServiceAccountSpec : ProviderServiceAccountSpec :=
  mkProviderServiceAccountSpec None None "" "".

Record ProviderServiceAccount := mkProviderServiceAccount {
  ProviderServiceAccount_ObjectMeta : MetaV1;
  ProviderServiceAccount_Spec : ProviderServiceAccountSpec
}.

Definition zero_ProviderServiceAccount : ProviderServiceAccount :=
  mkProviderServiceAccount zero_MetaV1 zero_ProviderServiceAccountSpec.

Record ProviderServiceAccountList := mkProviderServiceAccountList {
  ProviderServiceAccountList_ListMeta : ListMeta;
  ProviderServiceAccountList_Items : option (list ProviderServiceAccount)
}.

Definition zero_ProviderServiceAccountList : ProviderServiceAccountList :=
  mkProviderServiceAccountList zero_ListMeta None.

Record VSphereMachineVolume := mkVSphereMachineVolume {
  VSphereMachineVolume_Name : string;
  VSphereMachineVolume_Capacity : option (gmap string Quantity);
  VSphereMachineVolume_StorageClass : string
}.

Definition zero_VSphereMachineVolume : VSphereMachineVolume :=
  mkVSphereMachineVolume "" None "".

Record InterfaceNetworkReference := mkInterfaceNetworkReference {
  InterfaceNetworkReference_Kind : string;
  InterfaceNetworkReference_Name : string;
  InterfaceNetworkReference_APIVersion : string
}.

Definition zero_InterfaceNetworkReference : InterfaceNetworkReference :=
  mkInterfaceNetworkReference "" "" "".

Record RouteSpec := mkRouteSpec {
  RouteSpec_To : string;
  RouteSpec_Via : string
}.

Definition zero_RouteSpec : RouteSpec :=
  mkRouteSpec "" "".

Record InterfaceSpec := mkInterfaceSpec {
  InterfaceSpec_NetworkRef : InterfaceNetworkReference;
  InterfaceSpec_MTU : Z;
  InterfaceSpec_Routes : option (list RouteSpec)
}.

Definition zero_InterfaceSpec : InterfaceSpec :=
  mkInterfaceSpec zero_InterfaceNetworkReference 0 None.

Definition set_InterfaceSpec_NetworkRef (v : InterfaceNetworkReference) (x : InterfaceSpec) : InterfaceSpec := {|
  InterfaceSpec_NetworkRef := v;
  InterfaceSpec_MTU := InterfaceSpec_MTU x;
  InterfaceSpec_Routes := InterfaceSpec_Routes x
|}.

Record SecondaryInterfaceSpec := mkSecondaryInterfaceSpec {
  SecondaryInterfaceSpec_Name : string;
  SecondaryInterfaceSpec_InterfaceSpec : InterfaceSpec
}.

Definition zero_SecondaryInterfaceSpec : SecondaryInterfaceSpec :=
  mkSecondaryInterfaceSpec "" zero_InterfaceSpec.

Record InterfacesSpec := mkInterfacesSpec {
  InterfacesSpec_Primary : InterfaceSpec;
  InterfacesSpec_Secondary : option (list SecondaryInterfaceSpec)
}.

Definition zero_InterfacesSpec : InterfacesSpec :=
  mkInterfacesSpec zero_InterfaceSpec None.

Record VLANSpec := mkVLANSpec {
  VLANSpec_Name : string;
  VLANSpec_ID : option Z;
  VLANSpec_Link : string
}.

Definition zero_VLANSpec : VLANSpec :=
  mkVLANSpec "" None "".

Record VSphereMachineNetworkSpec := mkVSphereMachineNetworkSpec {
  VSphereMachineNetworkSpec_Interfaces : InterfacesSpec;
  VSphereMachineNetworkSpec_VLANs : option (list VLANSpec)
}.

Definition zero_VSphereMachineNetworkSpec : VSphereMachineNetworkSpec :=
  mkVSphereMachineNetworkSpec zero_InterfacesSpec None.

Record VirtualMachineNamingSpec := mkVirtualMachineNamingSpec {
  VirtualMachineNamingSpec_Template : string
}.

Definition zero_VirtualMachineNamingSpec : VirtualMachineNamingSpec :=
  mkVirtualMachineNamingSpec "".

#[global] Instance VirtualMachineNamingSpec_eq_dec : EqDecision VirtualMachineNamingSpec.
Proof. solve_decision. Defined.

Record PolicyRef := mkPolicyRef {
  PolicyRef_Name : string;
  PolicyRef_Kind : string
}.

Definition zero_PolicyRef : PolicyRef :=
  mkPolicyRef "" "".

Record VSphereMachineSpec := mkVSphereMachineSpec {
  VSphereMachineSpec_ProviderID : string;
  VSphereMachineSpec_ImageName : string;
  VSphereMachineSpec_ClassName : string;
  VSphereMachineSpec_StorageClass : string;
  VSphereMachineSpec_Volumes : option (list VSphereMachineVolume);
  VSphereMachineSpec_Network : VSphereMachineNetworkSpec;
  VSphereMachineSpec_PowerOffMode : string;
  VSphereMachineSpec_MinHardwareVersion : string;
  VSphereMachineSpec_Naming : VirtualMachineNamingSpec;
  VSphereMachineSpec_Policies : option (list PolicyRef)
}.

Definition zero_VSphereMachineSpec : VSphereMachineSpec :=
  mkVSphereMachineSpec "" "" "" "" None zero_VSphereMachineNetworkSpec "" "" zero_VirtualMachineNamingSpec None.

Definition set_VSphereMachineSpec_Naming (v : VirtualMachineNamingSpec) (x : VSphereMachineSpec) : VSphereMachineSpec := {|
  VSphereMachineSpec_ProviderID := VSphereMachineSpec_ProviderID x;
  VSphereMachineSpec_ImageName := VSphereMachineSpec_ImageName x;
  VSphereMachineSpec_ClassName := VSphereMachineSpec_ClassName x;
  VSphereMachineSpec_StorageClass := VSphereMachineSpec_StorageClass x;
  VSphereMachineSpec_Volumes := VSphereMachineSpec_Volumes x;
  VSphereMachineSpec_Network := VSphereMachineSpec_Network x;
  VSphereMachineSpec_PowerOffMode := VSphereMachineSpec_PowerOffMode x;
  VSphereMachineSpec_MinHardwareVersion := VSphereMachineSpec_MinHardwareVersion x;
  VSphereMachineSpec_Naming := v;
  VSphereMachineSpec_Policies := VSphereMachineSpec_Policies x
|}.

Record VSphereMachineTemplateResource := mkVSphereMachineTemplateResource {
  VSphereMachineTemplateResource_ObjectMeta : TemplateMeta;
  VSphereMachineTemplateResource_Spec : VSphereMachineSpec
}.

Definition zero_VSphereMachineTemplateResource : VSphereMachineTemplateResource :=
  mkVSphereMachineTemplateResource zero_TemplateMeta zero_VSphereMachineSpec.

Record NSXVPC := mkNSXVPC {
  NSXVPC_CreateSubnetSet : option bool
}.

Definition zero_NSXVPC : NSXVPC :=
  mkNSXVPC None.

Record Network := mkNetwork {
  Network_NSXVPC : NSXVPC;
  Network_Provider : string
}.

Definition zero_Network : Network :=
  mkNetwork zero_NSXVPC "".

Record APIEndpoint := mkAPIEndpoint {
  APIEndpoint_Host : string;
  APIEndpoint_Port : Z
}.

Definition zero_APIEndpoint : APIEndpoint :=
  mkAPIEndpoint "" 0.

Record FailureDomainsControlPlaneSpec := mkFailureDomainsControlPlaneSpec {
  FailureDomainsControlPlaneSpec_Selector : option LabelSelector
}.

Definition zero_FailureDomainsControlPlaneSpec : FailureDomainsControlPlaneSpec :=
  mkFailureDomainsControlPlaneSpec None.

Record FailureDomainsSpec := mkFailureDomainsSpec {
  FailureDomainsSpec_ControlPlane : FailureDomainsControlPlaneSpec
}.

Definition zero_FailureDomainsSpec : FailureDomainsSpec :=
  mkFailureDomainsSpec zero_FailureDomainsControlPlaneSpec.

Record VSphereClusterSpec := mkVSphereClusterSpec {
  VSphereClusterSpec_ControlPlaneEndpoint : APIEndpoint;
  VSphereClusterSpec_Network : Network;
  VSphereClusterSpec_FailureDomains : FailureDomainsSpec
}.

Definition zero_VSphereClusterSpec : VSphereClusterSpec :=
  mkVSphereClusterSpec zero_APIEndpoint zero_Network zero_FailureDomainsSpec.

Record VSphereClusterInitializationStatus := mkVSphereClusterInitializationStatus {
  VSphereClusterInitializationStatus_Provisioned : option bool
}.

Definition zero_VSphereClusterInitializationStatus : VSphereClusterInitializationStatus :=
  mkVSphereClusterInitializationStatus None.

#[global] Instance VSphereClusterInitializationStatus_eq_dec : EqDecision VSphereClusterInitializationStatus.
Proof. solve_decision. Defined.

Record VSphereClusterV1Beta1DeprecatedStatus := mkVSphereClusterV1Beta1DeprecatedStatus {
  VSphereClusterV1Beta1DeprecatedStatus_Conditions : option (list V1Beta1Condition)
}.

Definition zero_VSphereClusterV1Beta1DeprecatedStatus : VSphereClusterV1Beta1DeprecatedStatus :=
  mkVSphereClusterV1Beta1DeprecatedStatus None.

Record VSphereClusterDeprecatedStatus := mkVSphereClusterDeprecatedStatus {
  VSphereClusterDeprecatedStatus_V1Beta1 : option VSphereClusterV1Beta1DeprecatedStatus
}.

Definition zero_VSphereClusterDeprecatedStatus : VSphereClusterDeprecatedStatus :=
  mkVSphereClusterDeprecatedStatus None.

Record VSphereClusterStatus := mkVSphereClusterStatus {
  VSphereClusterStatus_Conditions : option (list Condition);
  VSphereClusterStatus_Initialization : VSphereClusterInitializationStatus;
  VSphereClusterStatus_FailureDomains : option (list FailureDomain);
  VSphereClusterStatus_Deprecated : option VSphereClusterDeprecatedStatus
}.

Definition zero_VSphereClusterStatus : VSphereClusterStatus :=
  mkVSphereClusterStatus None zero_VSphereClusterInitializationStatus None None.

Definition set_VSphereClusterStatus_Conditions (v : option (list Condition)) (x : VSphereClusterStatus) : VSphereClusterStatus := {|
  VSphereClusterStatus_Conditions := v;
  VSphereClusterStatus_Initialization := VSphereClusterStatus_Initialization x;
  VSphereClusterStatus_FailureDomains := VSphereClusterStatus_FailureDomains x;
  VSphereClusterStatus_Deprecated := VSphereClusterStatus_Deprecated x
|}.

Definition set_VSphereClusterStatus_Initialization (v : VSphereClusterInitializationStatus) (x : VSphereClusterStatus) : VSphereClusterStatus := {|
  VSphereClusterStatus_Conditions := VSphereClusterStatus_Conditions x;
  VSphereClusterStatus_Initialization := v;
  VSphereClusterStatus_FailureDomains := VSphereClusterStatus_FailureDomains x;
  VSphereClusterStatus_Deprecated := VSphereClusterStatus_Deprecated x
|}.

Definition set_VSphereClusterStatus_FailureDomains (v : option (list FailureDomain)) (x : VSphereClusterStatus) : VSphereClusterStatus := {|
  VSphereClusterStatus_Conditions := VSphereClusterStatus_Conditions x;
  VSphereClusterStatus_Initialization := VSphereClusterStatus_Initialization x;
  VSphereClusterStatus_FailureDomains := v;
  VSphereClusterStatus_Deprecated := VSphereClusterStatus_Deprecated x
|}.

Definition set_VSphereClusterStatus_Deprecated (v : option VSphereClusterDeprecatedStatus) (x : VSphereClusterStatus) : VSphereClusterStatus := {|
  VSphereClusterStatus_Conditions := VSphereClusterStatus_Conditions x;
  VSphereClusterStatus_Initialization := VSphereClusterStatus_Initialization x;
  VSphereClusterStatus_FailureDomains := VSphereClusterStatus_FailureDomains x;
  VSphereClusterStatus_Deprecated := v
|}.

Record VSphereCluster := mkVSphereCluster {
  VSphereCluster_ObjectMeta : MetaV1;
  VSphereCluster_Spec : VSphereClusterSpec;
  VSphereCluster_Status : VSphereClusterStatus
}.

Definition zero_VSphereCluster : VSphereCluster :=
  mkVSphereCluster zero_MetaV1 zero_VSphereClusterSpec zero_VSphereClusterStatus.

Definition set_VSphereCluster_ObjectMeta (v : MetaV1) (x : VSphereCluster) : VSphereCluster := {|
  VSphereCluster_ObjectMeta := v;
  VSphereCluster_Spec := VSphereCluster_Spec x;
  VSphereCluster_Status := VSphereCluster_Status x
|}.

Definition set_VSphereCluster_Spec (v : VSphereClusterSpec) (x : VSphereCluster) : VSphereCluster := {|
  VSphereCluster_ObjectMeta := VSphereCluster_ObjectMeta x;
  VSphereCluster_Spec := v;
  VSphereCluster_Status := VSphereCluster_Status x
|}.

Definition set_VSphereCluster_Status (v : VSphereClusterStatus) (x : VSphereCluster) : VSphereCluster := {|
  VSphereCluster_ObjectMeta := VSphereCluster_ObjectMeta x;
  VSphereCluster_Spec := VSphereCluster_Spec x;
  VSphereCluster_Status := v
|}.

Record VSphereClusterList := mkVSphereClusterList {
  VSphereClusterList_ListMeta : ListMeta;
  VSphereClusterList_Items : option (list VSphereCluster)
}.

Definition zero_VSphereClusterList : VSphereClusterList :=
  mkVSphereClusterList zero_ListMeta None.

Record VSphereClusterTemplateResource := mkVSphereClusterTemplateResource {
  VSphereClusterTemplateResource_ObjectMeta : TemplateMeta;
  VSphereClusterTemplateResource_Spec : VSphereClusterSpec
}.

Definition zero_VSphereClusterTemplateResource : VSphereClusterTemplateResource :=
  mkVSphereClusterTemplateResource zero_TemplateMeta zero_VSphereClusterSpec.

Record VSphereClusterTemplateSpec := mkVSphereClusterTemplateSpec {
  VSphereClusterTemplateSpec_Template : VSphereClusterTemplateResource
}.

Definition zero_VSphereClusterTemplateSpec : VSphereClusterTemplateSpec :=
  mkVSphereClusterTemplateSpec zero_VSphereClusterTemplateResource.

Record VSphereClusterTemplate := mkVSphereClusterTemplate {
  VSphereClusterTemplate_ObjectMeta : MetaV1;
  VSphereClusterTemplate_Spec : VSphereClusterTemplateSpec
}.

Definition zero_VSphereClusterTemplate : VSphereClusterTemplate :=
  mkVSphereClusterTemplate zero_MetaV1 zero_VSphereClusterTemplateSpec.

Record VSphereClusterTemplateList := mkVSphereClusterTemplateList {
  VSphereClusterTemplateList_ListMeta : ListMeta;
  VSphereClusterTemplateList_Items : option (list VSphereClusterTemplate)
}.

Definition zero_VSphereClusterTemplateList : VSphereClusterTemplateList :=
  mkVSphereClusterTemplateList zero_ListMeta None.

Record VSphereMachineInitializationStatus := mkVSphereMachineInitializationStatus {
  VSphereMachineInitializationStatus_Provisioned : option bool
}.

Definition zero_VSphereMachineInitializationStatus : VSphereMachineInitializationStatus :=
  mkVSphereMachineInitializationStatus None.

#[global] Instance VSphereMachineInitializationStatus_eq_dec : EqDecision VSphereMachineInitializationStatus.
Proof. solve_decision. Defined.

Record KeyValuePair := mkKeyValuePair {
  KeyValuePair_Key : string;
  KeyValuePair_Value : string
}.

Definition zero_KeyValuePair : KeyValuePair :=
  mkKeyValuePair "" "".

Record VSphereMachineNetworkDHCPOptionsStatus := mkVSphereMachineNetworkDHCPOptionsStatus {
  VSphereMachineNetworkDHCPOptionsStatus_Config : option (list KeyValuePair);
  VSphereMachineNetworkDHCPOptionsStatus_Enabled : option bool
}.

Definition zero_VSphereMachineNetworkDHCPOptionsStatus : VSphereMachineNetworkDHCPOptionsStatus :=
  mkVSphereMachineNetworkDHCPOptionsStatus None None.

Record VSphereMachineNetworkDHCPStatus := mkVSphereMachineNetworkDHCPStatus {
  VSphereMachineNetworkDHCPStatus_IP4 : VSphereMachineNetworkDHCPOptionsStatus;
  VSphereMachineNetworkDHCPStatus_IP6 : VSphereMachineNetworkDHCPOptionsStatus
}.

Definition zero_VSphereMachineNetworkDHCPStatus : VSphereMachineNetworkDHCPStatus :=
  mkVSphereMachineNetworkDHCPStatus zero_VSphereMachineNetworkDHCPOptionsStatus zero_VSphereMachineNetworkDHCPOptionsStatus.

Record VSphereMachineNetworkInterfaceIPAddrStatus := mkVSphereMachineNetworkInterfaceIPAddrStatus {
  VSphereMachineNetworkInterfaceIPAddrStatus_Address : string;
  VSphereMachineNetworkInterfaceIPAddrStatus_Lifetime : Time;
  VSphereMachineNetworkInterfaceIPAddrStatus_Origin : string;
  VSphereMachineNetworkInterfaceIPAddrStatus_State : string
}.

Definition zero_VSphereMachineNetworkInterfaceIPAddrStatus : VSphereMachineNetworkInterfaceIPAddrStatus :=
  mkVSphereMachineNetworkInterfaceIPAddrStatus "" None "" "".

Record VSphereMachineNetworkInterfaceIPStatus := mkVSphereMachineNetworkInterfaceIPStatus {
  VSphereMachineNetworkInterfaceIPStatus_AutoConfigurationEnabled : option bool;
  VSphereMachineNetworkInterfaceIPStatus_DHCP : VSphereMachineNetworkDHCPStatus;
  VSphereMachineNetworkInterfaceIPStatus_Addresses : option (list VSphereMachineNetworkInterfaceIPAddrStatus);
  VSphereMachineNetworkInterfaceIPStatus_MACAddr : string
}.

Definition zero_VSphereMachineNetworkInterfaceIPStatus : VSphereMachineNetworkInterfaceIPStatus :=
  mkVSphereMachineNetworkInterfaceIPStatus None zero_VSphereMachineNetworkDHCPStatus None "".

Record VSphereMachineNetworkDNSStatus := mkVSphereMachineNetworkDNSStatus {
  VSphereMachineNetworkDNSStatus_DHCP : option bool;
  VSphereMachineNetworkDNSStatus_DomainName : string;
  VSphereMachineNetworkDNSStatus_HostName : string;
  VSphereMachineNetworkDNSStatus_Nameservers : option (list string);
  VSphereMachineNetworkDNSStatus_SearchDomains : option (list string)
}.

Definition zero_VSphereMachineNetworkDNSStatus : VSphereMachineNetworkDNSStatus :=
  mkVSphereMachineNetworkDNSStatus None "" "" None None.

Record VSphereMachineNetworkInterfaceStatus := mkVSphereMachineNetworkInterfaceStatus {
  VSphereMachineNetworkInterfaceStatus_Name : string;
  VSphereMachineNetworkInterfaceStatus_DeviceKey : Z;
  VSphereMachineNetworkInterfaceStatus_IP : VSphereMachineNetworkInterfaceIPStatus;
  VSphereMachineNetworkInterfaceStatus_DNS : VSphereMachineNetworkDNSStatus
}.

Definition zero_VSphereMachineNetworkInterfaceStatus : VSphereMachineNetworkInterfaceStatus :=
  mkVSphereMachineNetworkInterfaceStatus "" 0 zero_VSphereMachineNetworkInterfaceIPStatus zero_VSphereMachineNetworkDNSStatus.

Record VSphereMachineNetworkStatus := mkVSphereMachineNetworkStatus {
  VSphereMachineNetworkStatus_Interfaces : option (list VSphereMachineNetworkInterfaceStatus)
}.

Definition zero_VSphereMachineNetworkStatus : VSphereMachineNetworkStatus :=
  mkVSphereMachineNetworkStatus None.

Record VSphereMachineV1Beta1DeprecatedStatus := mkVSphereMachineV1Beta1DeprecatedStatus {
  VSphereMachineV1Beta1DeprecatedStatus_Conditions : option (list V1Beta1Condition);
  VSphereMachineV1Beta1DeprecatedStatus_FailureReason : option string;
  VSphereMachineV1Beta1DeprecatedStatus_FailureMessage : option string
}.

Definition zero_VSphereMachineV1Beta1DeprecatedStatus : VSphereMachineV1Beta1DeprecatedStatus :=
  mkVSphereMachineV1Beta1DeprecatedStatus None None None.

Record VSphereMachineDeprecatedStatus := mkVSphereMachineDeprecatedStatus {
  VSphereMachineDeprecatedStatus_V1Beta1 : option VSphereMachineV1Beta1DeprecatedStatus
}.

Definition zero_VSphereMachineDeprecatedStatus : VSphereMachineDeprecatedStatus :=
  mkVSphereMachineDeprecatedStatus None.

Record VSphereMachineStatus := mkVSphereMachineStatus {
  VSphereMachineStatus_Conditions : option (list Condition);
  VSphereMachineStatus_Initialization : VSphereMachineInitializationStatus;
  VSphereMachineStatus_Addresses : option (list MachineAddress);
  VSphereMachineStatus_FailureDomain : string;
  VSphereMachineStatus_BiosUUID : string;
  VSphereMachineStatus_Phase : string;
  VSphereMachineStatus_Network : VSphereMachineNetworkStatus;
  VSphereMachineStatus_Deprecated : option VSphereMachineDeprecatedStatus
}.

Definition zero_VSphereMachineStatus : VSphereMachineStatus :=
  mkVSphereMachineStatus None zero_VSphereMachineInitializationStatus None "" "" "" zero_VSphereMachineNetworkStatus None.

Definition set_VSphereMachineStatus_BiosUUID (v : string) (x : VSphereMachineStatus) : VSphereMachineStatus := {|
  VSphereMachineStatus_Conditions := VSphereMachineStatus_Conditions x;
  VSphereMachineStatus_Initialization := VSphereMachineStatus_Initialization x;
  VSphereMachineStatus_Addresses := VSphereMachineStatus_Addresses x;
  VSphereMachineStatus_FailureDomain := VSphereMachineStatus_FailureDomain x;
  VSphereMachineStatus_BiosUUID := v;
  VSphereMachineStatus_Phase := VSphereMachineStatus_Phase x;
  VSphereMachineStatus_Network := VSphereMachineStatus_Network x;
  VSphereMachineStatus_Deprecated := VSphereMachineStatus_Deprecated x
|}.

Definition set_VSphereMachineStatus_Phase (v : string) (x : VSphereMachineStatus) : VSphereMachineStatus := {|
  VSphereMachineStatus_Conditions := VSphereMachineStatus_Conditions x;
  VSphereMachineStatus_Initialization := VSphereMachineStatus_Initialization x;
  VSphereMachineStatus_Addresses := VSphereMachineStatus_Addresses x;
  VSphereMachineStatus_FailureDomain := VSphereMachineStatus_FailureDomain x;
  VSphereMachineStatus_BiosUUID := VSphereMachineStatus_BiosUUID x;
  VSphereMachineStatus_Phase := v;
  VSphereMachineStatus_Network := VSphereMachineStatus_Network x;
  VSphereMachineStatus_Deprecated := VSphereMachineStatus_Deprecated x
|}.

Definition set_VSphereMachineStatus_Conditions (v : option (list Condition)) (x : VSphereMachineStatus) : VSphereMachineStatus := {|
  VSphereMachineStatus_Conditions := v;
  VSphereMachineStatus_Initialization := VSphereMachineStatus_Initialization x;
  VSphereMachineStatus_Addresses := VSphereMachineStatus_Addresses x;
  VSphereMachineStatus_FailureDomain := VSphereMachineStatus_FailureDomain x;
  VSphereMachineStatus_BiosUUID := VSphereMachineStatus_BiosUUID x;
  VSphereMachineStatus_Phase := VSphereMachineStatus_Phase x;
  VSphereMachineStatus_Network := VSphereMachineStatus_Network x;
  VSphereMachineStatus_Deprecated := VSphereMachineStatus_Deprecated x
|}.

Definition set_VSphereMachineStatus_Initialization (v : VSphereMachineInitializationStatus) (x : VSphereMachineStatus) : VSphereMachineStatus := {|
  VSphereMachineStatus_Conditions := VSphereMachineStatus_Conditions x;
  VSphereMachineStatus_Initialization := v;
  VSphereMachineStatus_Addresses := VSphereMachineStatus_Addresses x;
  VSphereMachineStatus_FailureDomain := VSphereMachineStatus_FailureDomain x;
  VSphereMachineStatus_BiosUUID := VSphereMachineStatus_BiosUUID x;
  VSphereMachineStatus_Phase := VSphereMachineStatus_Phase x;
  VSphereMachineStatus_Network := VSphereMachineStatus_Network x;
  VSphereMachineStatus_Deprecated := VSphereMachineStatus_Deprecated x
|}.

Definition set_VSphereMachineStatus_FailureDomain (v : string) (x : VSphereMachineStatus) : VSphereMachineStatus := {|
  VSphereMachineStatus_Conditions := VSphereMachineStatus_Conditions x;
  VSphereMachineStatus_Initialization := VSphereMachineStatus_Initialization x;
  VSphereMachineStatus_Addresses := VSphereMachineStatus_Addresses x;
  VSphereMachineStatus_FailureDomain := v;
  VSphereMachineStatus_BiosUUID := VSphereMachineStatus_BiosUUID x;
  VSphereMachineStatus_Phase := VSphereMachineStatus_Phase x;
  VSphereMachineStatus_Network := VSphereMachineStatus_Network x;
  VSphereMachineStatus_Deprecated := VSphereMachineStatus_Deprecated x
|}.

Definition set_VSphereMachineStatus_Deprecated (v : option VSphereMachineDeprecatedStatus) (x : VSphereMachineStatus) : VSphereMachineStatus := {|
  VSphereMachineStatus_Conditions := VSphereMachineStatus_Conditions x;
  VSphereMachineStatus_Initialization := VSphereMachineStatus_Initialization x;
  VSphereMachineStatus_Addresses := VSphereMachineStatus_Addresses x;
  VSphereMachineStatus_FailureDomain := VSphereMachineStatus_FailureDomain x;
  VSphereMachineStatus_BiosUUID := VSphereMachineStatus_BiosUUID x;
  VSphereMachineStatus_Phase := VSphereMachineStatus_Phase x;
  VSphereMachineStatus_Network := VSphereMachineStatus_Network x;
  VSphereMachineStatus_Deprecated := v
|}.

Record VSphereMachine := mkVSphereMachine {
  VSphereMachine_ObjectMeta : MetaV1;
  VSphereMachine_Spec : VSphereMachineSpec;
  VSphereMachine_Status : VSphereMachineStatus
}.

Definition zero_VSphereMachine : VSphereMachine :=
  mkVSphereMachine zero_MetaV1 zero_VSphereMachineSpec zero_VSphereMachineStatus.

Definition set_VSphereMachine_ObjectMeta (v : MetaV1) (x : VSphereMachine) : VSphereMachine := {|
  VSphereMachine_ObjectMeta := v;
  VSphereMachine_Spec := VSphereMachine_Spec x;
  VSphereMachine_Status := VSphereMachine_Status x
|}.

Definition set_VSphereMachine_Spec (v : VSphereMachineSpec) (x : VSphereMachine) : VSphereMachine := {|
  VSphereMachine_ObjectMeta := VSphereMachine_ObjectMeta x;
  VSphereMachine_Spec := v;
  VSphereMachine_Status := VSphereMachine_Status x
|}.

Definition set_VSphereMachine_Status (v : VSphereMachineStatus) (x : VSphereMachine) : VSphereMachine := {|
  VSphereMachine_ObjectMeta := VSphereMachine_ObjectMeta x;
  VSphereMachine_Spec := VSphereMachine_Spec x;
  VSphereMachine_Status := v
|}.

Record VSphereMachineList := mkVSphereMachineList {
  VSphereMachineList_ListMeta : ListMeta;
  VSphereMachineList_Items : option (list VSphereMachine)
}.

Definition zero_VSphereMachineList : VSphereMachineList :=
  mkVSphereMachineList zero_ListMeta None.

Record VSphereMachineTemplateSpec := mkVSphereMachineTemplateSpec {
  VSphereMachineTemplateSpec_Template : VSphereMachineTemplateResource
}.

Definition zero_VSphereMachineTemplateSpec : VSphereMachineTemplateSpec :=
  mkVSphereMachineTemplateSpec zero_VSphereMachineTemplateResource.

Record NodeInfo := mkNodeInfo {
  NodeInfo_Architecture : string;
  NodeInfo_OperatingSystem : string
}.

Definition zero_NodeInfo : NodeInfo :=
  mkNodeInfo "" "".

Record VSphereMachineTemplateStatus := mkVSphereMachineTemplateStatus {
  VSphereMachineTemplateStatus_Capacity : option (gmap string Quantity);
  VSphereMachineTemplateStatus_NodeInfo : NodeInfo
}.

Definition zero_VSphereMachineTemplateStatus : VSphereMachineTemplateStatus :=
  mkVSphereMachineTemplateStatus None zero_NodeInfo.

Definition set_VSphereMachineTemplateStatus_NodeInfo (v : NodeInfo) (x : VSphereMachineTemplateStatus) : VSphereMachineTemplateStatus := {|
  VSphereMachineTemplateStatus_Capacity := VSphereMachineTemplateStatus_Capacity x;
  VSphereMachineTemplateStatus_NodeInfo := v
|}.

Record VSphereMachineTemplate := mkVSphereMachineTemplate {
  VSphereMachineTemplate_ObjectMeta : MetaV1;
  VSphereMachineTemplate_Spec : VSphereMachineTemplateSpec;
  VSphereMachineTemplate_Status : VSphereMachineTemplateStatus
}.

Definition zero_VSphereMachineTemplate : VSphereMachineTemplate :=
  mkVSphereMachineTemplate zero_MetaV1 zero_VSphereMachineTemplateSpec zero_VSphereMachineTemplateStatus.

Definition set_VSphereMachineTemplate_ObjectMeta (v : MetaV1) (x : VSphereMachineTemplate) : VSphereMachineTemplate := {|
  VSphereMachineTemplate_ObjectMeta := v;
  VSphereMachineTemplate_Spec := VSphereMachineTemplate_Spec x;
  VSphereMachineTemplate_Status := VSphereMachineTemplate_Status x
|}.

Definition set_VSphereMachineTemplate_Spec (v : VSphereMachineTemplateSpec) (x : VSphereMachineTemplate) : VSphereMachineTemplate := {|
  VSphereMachineTemplate_ObjectMeta := VSphereMachineTemplate_ObjectMeta x;
  VSphereMachineTemplate_Spec := v;
  VSphereMachineTemplate_Status := VSphereMachineTemplate_Status x
|}.

Definition set_VSphereMachineTemplate_Status (v : VSphereMachineTemplateStatus) (x : VSphereMachineTemplate) : VSphereMachineTemplate := {|
  VSphereMachineTemplate_ObjectMeta := VSphereMachineTemplate_ObjectMeta x;
  VSphereMachineTemplate_Spec := VSphereMachineTemplate_Spec x;
  VSphereMachineTemplate_Status := v
|}.

Record VSphereMachineTemplateList := mkVSphereMachineTemplateList {
  VSphereMachineTemplateList_ListMeta : ListMeta;
  VSphereMachineTemplateList_Items : option (list VSphereMachineTemplate)
}.

Definition zero_VSphereMachineTemplateList : VSphereMachineTemplateList :=
  mkVSphereMachineTemplateList zero_ListMeta None.

End vmwarehub.

(** [api/supervisor/v1beta1] *)
Module vmwarev1beta1.

Record ProviderServiceAccountSpec := mkProviderServiceAccountSpec {
  ProviderServiceAccountSpec_Ref : option ObjectReference;
  ProviderServiceAccountSpec_Rules : option (list PolicyRule);
  ProviderServiceAccountSpec_TargetNamespace : string;
  ProviderServiceAccountSpec_TargetSecretName : string
}.

Definition zero_ProviderServiceAccountSpec : ProviderServiceAccountSpec :=
  mkProviderServiceAccountSpec None None "" "".

Record ProviderServiceAccount := mkProviderServiceAccount {
  ProviderServiceAccount_ObjectMeta : MetaV1;
  ProviderServiceAccount_Spec : ProviderServiceAccountSpec
}.

Definition zero_ProviderServiceAccount : ProviderServiceAccount :=
  mkProviderServiceAccount zero_MetaV1 zero_ProviderServiceAccountSpec.

Record ProviderServiceAccountList := mkProviderServiceAccountList {
  ProviderServiceAccountList_ListMeta : ListMeta;
  ProviderServiceAccountList_Items : option (list ProviderServiceAccount)
}.

Definition zero_ProviderServiceAccountList : ProviderServiceAccountList :=
  mkProviderServiceAccountList zero_ListMeta None.

Record VSphereMachineVolume := mkVSphereMachineVolume {
  VSphereMachineVolume_Name : string;
  VSphereMachineVolume_Capacity : option (gmap string Quantity);
  VSphereMachineVolume_StorageClass : string
}.

Definition zero_VSphereMachineVolume : VSphereMachineVolume :=
  mkVSphereMachineVolume "" None "".

Record PolicyRef := mkPolicyRef {
  PolicyRef_Name : string;
  PolicyRef_Kind : string
}.

Definition zero_PolicyRef : PolicyRef :=
  mkPolicyRef "" "".

Record InterfaceNetworkReference := mkInterfaceNetworkReference {
  InterfaceNetworkReference_Kind : string;
  InterfaceNetworkReference_Name : string;
  InterfaceNetworkReference_APIVersion : string
}.

Definition zero_InterfaceNetworkReference : InterfaceNetworkReference :=
  mkInterfaceNetworkReference "" "" "".

Record RouteSpec := mkRouteSpec {
  RouteSpec_To : string;
  RouteSpec_Via : string
}.

Definition zero_RouteSpec : RouteSpec :=
  mkRouteSpec "" "".

Record InterfaceSpec := mkInterfaceSpec {
  InterfaceSpec_Network : InterfaceNetworkReference;
  InterfaceSpec_MTU : Z;
  InterfaceSpec_Routes : option (list RouteSpec)
}.

Definition zero_InterfaceSpec : InterfaceSpec :=
  mkInterfaceSpec zero_InterfaceNetworkReference 0 None.

Definition set_InterfaceSpec_Network (v : InterfaceNetworkReference) (x : InterfaceSpec) : InterfaceSpec := {|
  InterfaceSpec_Network := v;
  InterfaceSpec_MTU := InterfaceSpec_MTU x;
  InterfaceSpec_Routes := InterfaceSpec_Routes x
|}.

Record SecondaryInterfaceSpec := mkSecondaryInterfaceSpec {
  SecondaryInterfaceSpec_Name : string;
  SecondaryInterfaceSpec_InterfaceSpec : InterfaceSpec
}.

Definition zero_SecondaryInterfaceSpec : SecondaryInterfaceSpec :=
  mkSecondaryInterfaceSpec "" zero_InterfaceSpec.

Record InterfacesSpec := mkInterfacesSpec {
  InterfacesSpec_Primary : InterfaceSpec;
  InterfacesSpec_Secondary : option (list SecondaryInterfaceSpec)
}.

Definition zero_InterfacesSpec : InterfacesSpec :=
  mkInterfacesSpec zero_InterfaceSpec None.

Record VLANSpec := mkVLANSpec {
  VLANSpec_Name : string;
  VLANSpec_ID : option Z;
  VLANSpec_Link : string
}.

Definition zero_VLANSpec : VLANSpec :=
  mkVLANSpec "" None "".

Record VSphereMachineNetworkSpec := mkVSphereMachineNetworkSpec {
  VSphereMachineNetworkSpec_Interfaces : InterfacesSpec;
  VSphereMachineNetworkSpec_VLANs : option (list VLANSpec)
}.

Definition zero_VSphereMachineNetworkSpec : VSphereMachineNetworkSpec :=
  mkVSphereMachineNetworkSpec zero_InterfacesSpec None.

Record VirtualMachineNamingStrategy := mkVirtualMachineNamingStrategy {
  VirtualMachineNamingStrategy_Template : option string
}.

Definition zero_VirtualMachineNamingStrategy : VirtualMachineNamingStrategy :=
  mkVirtualMachineNamingStrategy None.

Record VSphereMachineSpec := mkVSphereMachineSpec {
  VSphereMachineSpec_ProviderID : option string;
  VSphereMachineSpec_FailureDomain : option string;
  VSphereMachineSpec_ImageName : string;
  VSphereMachineSpec_ClassName : string;
  VSphereMachineSpec_StorageClass : string;
  VSphereMachineSpec_Volumes : option (list VSphereMachineVolume);
  VSphereMachineSpec_Policies : option (list PolicyRef);
  VSphereMachineSpec_Network : VSphereMachineNetworkSpec;
  VSphereMachineSpec_PowerOffMode : string;
  VSphereMachineSpec_MinHardwareVersion : string;
  VSphereMachineSpec_NamingStrategy : option VirtualMachineNamingStrategy
}.

Definition zero_VSphereMachineSpec : VSphereMachineSpec :=
  mkVSphereMachineSpec None None "" "" "" None None zero_VSphereMachineNetworkSpec "" "" None.

Definition set_VSphereMachineSpec_NamingStrategy (v : option VirtualMachineNamingStrategy) (x : VSphereMachineSpec) : VSphereMachineSpec := {|
  VSphereMachineSpec_ProviderID := VSphereMachineSpec_ProviderID x;
  VSphereMachineSpec_FailureDomain := VSphereMachineSpec_FailureDomain x;
  VSphereMachineSpec_ImageName := VSphereMachineSpec_ImageName x;
  VSphereMachineSpec_ClassName := VSphereMachineSpec_ClassName x;
  VSphereMachineSpec_StorageClass := VSphereMachineSpec_StorageClass x;
  VSphereMachineSpec_Volumes := VSphereMachineSpec_Volumes x;
  VSphereMachineSpec_Policies := VSphereMachineSpec_Policies x;
  VSphereMachineSpec_Network := VSphereMachineSpec_Network x;
  VSphereMachineSpec_PowerOffMode := VSphereMachineSpec_PowerOffMode x;
  VSphereMachineSpec_MinHardwareVersion := VSphereMachineSpec_MinHardwareVersion x;
  VSphereMachineSpec_NamingStrategy := v
|}.

Definition set_VSphereMachineSpec_ProviderID (v : option string) (x : VSphereMachineSpec) : VSphereMachineSpec := {|
  VSphereMachineSpec_ProviderID := v;
  VSphereMachineSpec_FailureDomain := VSphereMachineSpec_FailureDomain x;
  VSphereMachineSpec_ImageName := VSphereMachineSpec_ImageName x;
  VSphereMachineSpec_ClassName := VSphereMachineSpec_ClassName x;
  VSphereMachineSpec_StorageClass := VSphereMachineSpec_StorageClass x;
  VSphereMachineSpec_Volumes := VSphereMachineSpec_Volumes x;
  VSphereMachineSpec_Policies := VSphereMachineSpec_Policies x;
  VSphereMachineSpec_Network := VSphereMachineSpec_Network x;
  VSphereMachineSpec_PowerOffMode := VSphereMachineSpec_PowerOffMode x;
  VSphereMachineSpec_MinHardwareVersion := VSphereMachineSpec_MinHardwareVersion x;
  VSphereMachineSpec_NamingStrategy := VSphereMachineSpec_NamingStrategy x
|}.

Definition set_VSphereMachineSpec_FailureDomain (v : option string) (x : VSphereMachineSpec) : VSphereMachineSpec := {|
  VSphereMachineSpec_ProviderID := VSphereMachineSpec_ProviderID x;
  VSphereMachineSpec_FailureDomain := v;
  VSphereMachineSpec_ImageName := VSphereMachineSpec_ImageName x;
  VSphereMachineSpec_ClassName := VSphereMachineSpec_ClassName x;
  VSphereMachineSpec_StorageClass := VSphereMachineSpec_StorageClass x;
  VSphereMachineSpec_Volumes := VSphereMachineSpec_Volumes x;
  VSphereMachineSpec_Policies := VSphereMachineSpec_Policies x;
  VSphereMachineSpec_Network := VSphereMachineSpec_Network x;
  VSphereMachineSpec_PowerOffMode := VSphereMachineSpec_PowerOffMode x;
  VSphereMachineSpec_MinHardwareVersion := VSphereMachineSpec_MinHardwareVersion x;
  VSphereMachineSpec_NamingStrategy := VSphereMachineSpec_NamingStrategy x
|}.

Record VSphereMachineTemplateResource := mkVSphereMachineTemplateResource {
  VSphereMachineTemplateResource_Spec : VSphereMachineSpec
}.

Definition zero_VSphereMachineTemplateResource : VSphereMachineTemplateResource :=
  mkVSphereMachineTemplateResource zero_VSphereMachineSpec.

Definition set_VSphereMachineTemplateResource_Spec (v : VSphereMachineSpec) (x : VSphereMachineTemplateResource) : VSphereMachineTemplateResource := {|
  VSphereMachineTemplateResource_Spec := v
|}.

Record NSXVPC := mkNSXVPC {
  NSXVPC_CreateSubnetSet : option bool
}.

Definition zero_NSXVPC : NSXVPC :=
  mkNSXVPC None.

Record Network := mkNetwork {
  Network_NSXVPC : NSXVPC;
  Network_Provider : string
}.

Definition zero_Network : Network :=
  mkNetwork zero_NSXVPC "".

Record FailureDomainsControlPlaneSpec := mkFailureDomainsControlPlaneSpec {
  FailureDomainsControlPlaneSpec_Selector : option LabelSelector
}.

Definition zero_FailureDomainsControlPlaneSpec : FailureDomainsControlPlaneSpec :=
  mkFailureDomainsControlPlaneSpec None.

Record FailureDomainsSpec := mkFailureDomainsSpec {
  FailureDomainsSpec_ControlPlane : FailureDomainsControlPlaneSpec
}.

Definition zero_FailureDomainsSpec : FailureDomainsSpec :=
  mkFailureDomainsSpec zero_FailureDomainsControlPlaneSpec.

Record VSphereClusterSpec := mkVSphereClusterSpec {
  VSphereClusterSpec_ControlPlaneEndpoint : APIEndpoint;
  VSphereClusterSpec_Network : Network;
  VSphereClusterSpec_FailureDomains : FailureDomainsSpec
}.

Definition zero_VSphereClusterSpec : VSphereClusterSpec :=
  mkVSphereClusterSpec zero_APIEndpoint zero_Network zero_FailureDomainsSpec.

Record VSphereClusterV1Beta2Status := mkVSphereClusterV1Beta2Status {
  VSphereClusterV1Beta2Status_Conditions : option (list Condition)
}.

Definition zero_VSphereClusterV1Beta2Status : VSphereClusterV1Beta2Status :=
  mkVSphereClusterV1Beta2Status None.

Record VSphereClusterStatus := mkVSphereClusterStatus {
  VSphereClusterStatus_Ready : bool;
  VSphereClusterStatus_ResourcePolicyName : string;
  VSphereClusterStatus_Conditions : option (list V1Beta1Condition);
  VSphereClusterStatus_FailureDomains : option (gmap string FailureDomainSpec);
  VSphereClusterStatus_V1Beta2 : option VSphereClusterV1Beta2Status
}.

Definition zero_VSphereClusterStatus : VSphereClusterStatus :=
  mkVSphereClusterStatus false "" None None None.

Definition set_VSphereClusterStatus_Ready (v : bool) (x : VSphereClusterStatus) : VSphereClusterStatus := {|
  VSphereClusterStatus_Ready := v;
  VSphereClusterStatus_ResourcePolicyName := VSphereClusterStatus_ResourcePolicyName x;
  VSphereClusterStatus_Conditions := VSphereClusterStatus_Conditions x;
  VSphereClusterStatus_FailureDomains := VSphereClusterStatus_FailureDomains x;
  VSphereClusterStatus_V1Beta2 := VSphereClusterStatus_V1Beta2 x
|}.

Definition set_VSphereClusterStatus_Conditions (v : option (list V1Beta1Condition)) (x : VSphereClusterStatus) : VSphereClusterStatus := {|
  VSphereClusterStatus_Ready := VSphereClusterStatus_Ready x;
  VSphereClusterStatus_ResourcePolicyName := VSphereClusterStatus_ResourcePolicyName x;
  VSphereClusterStatus_Conditions := v;
  VSphereClusterStatus_FailureDomains := VSphereClusterStatus_FailureDomains x;
  VSphereClusterStatus_V1Beta2 := VSphereClusterStatus_V1Beta2 x
|}.

Definition set_VSphereClusterStatus_FailureDomains (v : option (gmap string FailureDomainSpec)) (x : VSphereClusterStatus) : VSphereClusterStatus := {|
  VSphereClusterStatus_Ready := VSphereClusterStatus_Ready x;
  VSphereClusterStatus_ResourcePolicyName := VSphereClusterStatus_ResourcePolicyName x;
  VSphereClusterStatus_Conditions := VSphereClusterStatus_Conditions x;
  VSphereClusterStatus_FailureDomains := v;
  VSphereClusterStatus_V1Beta2 := VSphereClusterStatus_V1Beta2 x
|}.

Definition set_VSphereClusterStatus_V1Beta2 (v : option VSphereClusterV1Beta2Status) (x : VSphereClusterStatus) : VSphereClusterStatus := {|
  VSphereClusterStatus_Ready := VSphereClusterStatus_Ready x;
  VSphereClusterStatus_ResourcePolicyName := VSphereClusterStatus_ResourcePolicyName x;
  VSphereClusterStatus_Conditions := VSphereClusterStatus_Conditions x;
  VSphereClusterStatus_FailureDomains := VSphereClusterStatus_FailureDomains x;
  VSphereClusterStatus_V1Beta2 := v
|}.

Record VSphereCluster := mkVSphereCluster {
  VSphereCluster_ObjectMeta : MetaV1;
  VSphereCluster_Spec : VSphereClusterSpec;
  VSphereCluster_Status : VSphereClusterStatus
}.

Definition zero_VSphereCluster : VSphereCluster :=
  mkVSphereCluster zero_MetaV1 zero_VSphereClusterSpec zero_VSphereClusterStatus.

Definition set_VSphereCluster_ObjectMeta (v : MetaV1) (x : VSphereCluster) : VSphereCluster := {|
  VSphereCluster_ObjectMeta := v;
  VSphereCluster_Spec := VSphereCluster_Spec x;
  VSphereCluster_Status := VSphereCluster_Status x
|}.

Definition set_VSphereCluster_Spec (v : VSphereClusterSpec) (x : VSphereCluster) : VSphereCluster := {|
  VSphereCluster_ObjectMeta := VSphereCluster_ObjectMeta x;
  VSphereCluster_Spec := v;
  VSphereCluster_Status := VSphereCluster_Status x
|}.

Definition set_VSphereCluster_Status (v : VSphereClusterStatus) (x : VSphereCluster) : VSphereCluster := {|
  VSphereCluster_ObjectMeta := VSphereCluster_ObjectMeta x;
  VSphereCluster_Spec := VSphereCluster_Spec x;
  VSphereCluster_Status := v
|}.

Record VSphereClusterList := mkVSphereClusterList {
  VSphereClusterList_ListMeta : ListMeta;
  VSphereClusterList_Items : option (list VSphereCluster)
}.

Definition zero_VSphereClusterList : VSphereClusterList :=
  mkVSphereClusterList zero_ListMeta None.

Record VSphereClusterTemplateResource := mkVSphereClusterTemplateResource {
  VSphereClusterTemplateResource_Spec : VSphereClusterSpec
}.

Definition zero_VSphereClusterTemplateResource : VSphereClusterTemplateResource :=
  mkVSphereClusterTemplateResource zero_VSphereClusterSpec.

Record VSphereClusterTemplateSpec := mkVSphereClusterTemplateSpec {
  VSphereClusterTemplateSpec_Template : VSphereClusterTemplateResource
}.

Definition zero_VSphereClusterTemplateSpec : VSphereClusterTemplateSpec :=
  mkVSphereClusterTemplateSpec zero_VSphereClusterTemplateResource.

Record VSphereClusterTemplate := mkVSphereClusterTemplate {
  VSphereClusterTemplate_ObjectMeta : MetaV1;
  VSphereClusterTemplate_Spec : VSphereClusterTemplateSpec
}.

Definition zero_VSphereClusterTemplate : VSphereClusterTemplate :=
  mkVSphereClusterTemplate zero_MetaV1 zero_VSphereClusterTemplateSpec.

Record VSphereClusterTemplateList := mkVSphereClusterTemplateList {
  VSphereClusterTemplateList_ListMeta : ListMeta;
  VSphereClusterTemplateList_Items : option (list VSphereClusterTemplate)
}.

Definition zero_VSphereClusterTemplateList : VSphereClusterTemplateList :=
  mkVSphereClusterTemplateList zero_ListMeta None.

Record VSphereMachineV1Beta2Status := mkVSphereMachineV1Beta2Status {
  VSphereMachineV1Beta2Status_Conditions : option (list Condition)
}.

Definition zero_VSphereMachineV1Beta2Status : VSphereMachineV1Beta2Status :=
  mkVSphereMachineV1Beta2Status None.

Record KeyValuePair := mkKeyValuePair {
  KeyValuePair_Key : string;
  KeyValuePair_Value : string
}.

Definition zero_KeyValuePair : KeyValuePair :=
  mkKeyValuePair "" "".

Record VSphereMachineNetworkDHCPOptionsStatus := mkVSphereMachineNetworkDHCPOptionsStatus {
  VSphereMachineNetworkDHCPOptionsStatus_Config : option (list KeyValuePair);
  VSphereMachineNetworkDHCPOptionsStatus_Enabled : option bool
}.

Definition zero_VSphereMachineNetworkDHCPOptionsStatus : VSphereMachineNetworkDHCPOptionsStatus :=
  mkVSphereMachineNetworkDHCPOptionsStatus None None.

Record VSphereMachineNetworkDHCPStatus := mkVSphereMachineNetworkDHCPStatus {
  VSphereMachineNetworkDHCPStatus_IP4 : VSphereMachineNetworkDHCPOptionsStatus;
  VSphereMachineNetworkDHCPStatus_IP6 : VSphereMachineNetworkDHCPOptionsStatus
}.

Definition zero_VSphereMachineNetworkDHCPStatus : VSphereMachineNetworkDHCPStatus :=
  mkVSphereMachineNetworkDHCPStatus zero_VSphereMachineNetworkDHCPOptionsStatus zero_VSphereMachineNetworkDHCPOptionsStatus.

Record VSphereMachineNetworkInterfaceIPAddrStatus := mkVSphereMachineNetworkInterfaceIPAddrStatus {
  VSphereMachineNetworkInterfaceIPAddrStatus_Address : string;
  VSphereMachineNetworkInterfaceIPAddrStatus_Lifetime : Time;
  VSphereMachineNetworkInterfaceIPAddrStatus_Origin : string;
  VSphereMachineNetworkInterfaceIPAddrStatus_State : string
}.

Definition zero_VSphereMachineNetworkInterfaceIPAddrStatus : VSphereMachineNetworkInterfaceIPAddrStatus :=
  mkVSphereMachineNetworkInterfaceIPAddrStatus "" None "" "".

Record VSphereMachineNetworkInterfaceIPStatus := mkVSphereMachineNetworkInterfaceIPStatus {
  VSphereMachineNetworkInterfaceIPStatus_AutoConfigurationEnabled : option bool;
  VSphereMachineNetworkInterfaceIPStatus_DHCP : VSphereMachineNetworkDHCPStatus;
  VSphereMachineNetworkInterfaceIPStatus_Addresses : option (list VSphereMachineNetworkInterfaceIPAddrStatus);
  VSphereMachineNetworkInterfaceIPStatus_MACAddr : string
}.

Definition zero_VSphereMachineNetworkInterfaceIPStatus : VSphereMachineNetworkInterfaceIPStatus :=
  mkVSphereMachineNetworkInterfaceIPStatus None zero_VSphereMachineNetworkDHCPStatus None "".

Record VSphereMachineNetworkDNSStatus := mkVSphereMachineNetworkDNSStatus {
  VSphereMachineNetworkDNSStatus_DHCP : option bool;
  VSphereMachineNetworkDNSStatus_DomainName : string;
  VSphereMachineNetworkDNSStatus_HostName : string;
  VSphereMachineNetworkDNSStatus_Nameservers : option (list string);
  VSphereMachineNetworkDNSStatus_SearchDomains : option (list string)
}.

Definition zero_VSphereMachineNetworkDNSStatus : VSphereMachineNetworkDNSStatus :=
  mkVSphereMachineNetworkDNSStatus None "" "" None None.

Record VSphereMachineNetworkInterfaceStatus := mkVSphereMachineNetworkInterfaceStatus {
  VSphereMachineNetworkInterfaceStatus_Name : string;
  VSphereMachineNetworkInterfaceStatus_DeviceKey : Z;
  VSphereMachineNetworkInterfaceStatus_IP : VSphereMachineNetworkInterfaceIPStatus;
  VSphereMachineNetworkInterfaceStatus_DNS : VSphereMachineNetworkDNSStatus
}.

Definition zero_VSphereMachineNetworkInterfaceStatus : VSphereMachineNetworkInterfaceStatus :=
  mkVSphereMachineNetworkInterfaceStatus "" 0 zero_VSphereMachineNetworkInterfaceIPStatus zero_VSphereMachineNetworkDNSStatus.

Record VSphereMachineNetworkStatus := mkVSphereMachineNetworkStatus {
  VSphereMachineNetworkStatus_Interfaces : option (list VSphereMachineNetworkInterfaceStatus)
}.

Definition zero_VSphereMachineNetworkStatus : VSphereMachineNetworkStatus :=
  mkVSphereMachineNetworkStatus None.

Record VSphereMachineStatus := mkVSphereMachineStatus {
  VSphereMachineStatus_Ready : bool;
  VSphereMachineStatus_Addresses : option (list MachineAddress);
  VSphereMachineStatus_ID : option string;
  VSphereMachineStatus_IPAddr : string;
  VSphereMachineStatus_FailureReason : option string;
  VSphereMachineStatus_FailureMessage : option string;
  VSphereMachineStatus_VMStatus : string;
  VSphereMachineStatus_Conditions : option (list V1Beta1Condition);
  VSphereMachineStatus_V1Beta2 : option VSphereMachineV1Beta2Status;
  VSphereMachineStatus_Network : VSphereMachineNetworkStatus
}.

Definition zero_VSphereMachineStatus : VSphereMachineStatus :=
  mkVSphereMachineStatus false None None "" None None "" None None zero_VSphereMachineNetworkStatus.

Definition set_VSphereMachineStatus_ID (v : option string) (x : VSphereMachineStatus) : VSphereMachineStatus := {|
  VSphereMachineStatus_Ready := VSphereMachineStatus_Ready x;
  VSphereMachineStatus_Addresses := VSphereMachineStatus_Addresses x;
  VSphereMachineStatus_ID := v;
  VSphereMachineStatus_IPAddr := VSphereMachineStatus_IPAddr x;
  VSphereMachineStatus_FailureReason := VSphereMachineStatus_FailureReason x;
  VSphereMachineStatus_FailureMessage := VSphereMachineStatus_FailureMessage x;
  VSphereMachineStatus_VMStatus := VSphereMachineStatus_VMStatus x;
  VSphereMachineStatus_Conditions := VSphereMachineStatus_Conditions x;
  VSphereMachineStatus_V1Beta2 := VSphereMachineStatus_V1Beta2 x;
  VSphereMachineStatus_Network := VSphereMachineStatus_Network x
|}.

Definition set_VSphereMachineStatus_VMStatus (v : string) (x : VSphereMachineStatus) : VSphereMachineStatus := {|
  VSphereMachineStatus_Ready := VSphereMachineStatus_Ready x;
  VSphereMachineStatus_Addresses := VSphereMachineStatus_Addresses x;
  VSphereMachineStatus_ID := VSphereMachineStatus_ID x;
  VSphereMachineStatus_IPAddr := VSphereMachineStatus_IPAddr x;
  VSphereMachineStatus_FailureReason := VSphereMachineStatus_FailureReason x;
  VSphereMachineStatus_FailureMessage := VSphereMachineStatus_FailureMessage x;
  VSphereMachineStatus_VMStatus := v;
  VSphereMachineStatus_Conditions := VSphereMachineStatus_Conditions x;
  VSphereMachineStatus_V1Beta2 := VSphereMachineStatus_V1Beta2 x;
  VSphereMachineStatus_Network := VSphereMachineStatus_Network x
|}.

Definition set_VSphereMachineStatus_Ready (v : bool) (x : VSphereMachineStatus) : VSphereMachineStatus := {|
  VSphereMachineStatus_Ready := v;
  VSphereMachineStatus_Addresses := VSphereMachineStatus_Addresses x;
  VSphereMachineStatus_ID := VSphereMachineStatus_ID x;
  VSphereMachineStatus_IPAddr := VSphereMachineStatus_IPAddr x;
  VSphereMachineStatus_FailureReason := VSphereMachineStatus_FailureReason x;
  VSphereMachineStatus_FailureMessage := VSphereMachineStatus_FailureMessage x;
  VSphereMachineStatus_VMStatus := VSphereMachineStatus_VMStatus x;
  VSphereMachineStatus_Conditions := VSphereMachineStatus_Conditions x;
  VSphereMachineStatus_V1Beta2 := VSphereMachineStatus_V1Beta2 x;
  VSphereMachineStatus_Network := VSphereMachineStatus_Network x
|}.

Definition set_VSphereMachineStatus_Conditions (v : option (list V1Beta1Condition)) (x : VSphereMachineStatus) : VSphereMachineStatus := {|
  VSphereMachineStatus_Ready := VSphereMachineStatus_Ready x;
  VSphereMachineStatus_Addresses := VSphereMachineStatus_Addresses x;
  VSphereMachineStatus_ID := VSphereMachineStatus_ID x;
  VSphereMachineStatus_IPAddr := VSphereMachineStatus_IPAddr x;
  VSphereMachineStatus_FailureReason := VSphereMachineStatus_FailureReason x;
  VSphereMachineStatus_FailureMessage := VSphereMachineStatus_FailureMessage x;
  VSphereMachineStatus_VMStatus := VSphereMachineStatus_VMStatus x;
  VSphereMachineStatus_Conditions := v;
  VSphereMachineStatus_V1Beta2 := VSphereMachineStatus_V1Beta2 x;
  VSphereMachineStatus_Network := VSphereMachineStatus_Network x
|}.

Definition set_VSphereMachineStatus_FailureReason (v : option string) (x : VSphereMachineStatus) : VSphereMachineStatus := {|
  VSphereMachineStatus_Ready := VSphereMachineStatus_Ready x;
  VSphereMachineStatus_Addresses := VSphereMachineStatus_Addresses x;
  VSphereMachineStatus_ID := VSphereMachineStatus_ID x;
  VSphereMachineStatus_IPAddr := VSphereMachineStatus_IPAddr x;
  VSphereMachineStatus_FailureReason := v;
  VSphereMachineStatus_FailureMessage := VSphereMachineStatus_FailureMessage x;
  VSphereMachineStatus_VMStatus := VSphereMachineStatus_VMStatus x;
  VSphereMachineStatus_Conditions := VSphereMachineStatus_Conditions x;
  VSphereMachineStatus_V1Beta2 := VSphereMachineStatus_V1Beta2 x;
  VSphereMachineStatus_Network := VSphereMachineStatus_Network x
|}.

Definition set_VSphereMachineStatus_FailureMessage (v : option string) (x : VSphereMachineStatus) : VSphereMachineStatus := {|
  VSphereMachineStatus_Ready := VSphereMachineStatus_Ready x;
  VSphereMachineStatus_Addresses := VSphereMachineStatus_Addresses x;
  VSphereMachineStatus_ID := VSphereMachineStatus_ID x;
  VSphereMachineStatus_IPAddr := VSphereMachineStatus_IPAddr x;
  VSphereMachineStatus_FailureReason := VSphereMachineStatus_FailureReason x;
  VSphereMachineStatus_FailureMessage := v;
  VSphereMachineStatus_VMStatus := VSphereMachineStatus_VMStatus x;
  VSphereMachineStatus_Conditions := VSphereMachineStatus_Conditions x;
  VSphereMachineStatus_V1Beta2 := VSphereMachineStatus_V1Beta2 x;
  VSphereMachineStatus_Network := VSphereMachineStatus_Network x
|}.

Definition set_VSphereMachineStatus_V1Beta2 (v : option VSphereMachineV1Beta2Status) (x : VSphereMachineStatus) : VSphereMachineStatus := {|
  VSphereMachineStatus_Ready := VSphereMachineStatus_Ready x;
  VSphereMachineStatus_Addresses := VSphereMachineStatus_Addresses x;
  VSphereMachineStatus_ID := VSphereMachineStatus_ID x;
  VSphereMachineStatus_IPAddr := VSphereMachineStatus_IPAddr x;
  VSphereMachineStatus_FailureReason := VSphereMachineStatus_FailureReason x;
  VSphereMachineStatus_FailureMessage := VSphereMachineStatus_FailureMessage x;
  VSphereMachineStatus_VMStatus := VSphereMachineStatus_VMStatus x;
  VSphereMachineStatus_Conditions := VSphereMachineStatus_Conditions x;
  VSphereMachineStatus_V1Beta2 := v;
  VSphereMachineStatus_Network := VSphereMachineStatus_Network x
|}.

Record VSphereMachine := mkVSphereMachine {
  VSphereMachine_ObjectMeta : MetaV1;
  VSphereMachine_Spec : VSphereMachineSpec;
  VSphereMachine_Status : VSphereMachineStatus
}.

Definition zero_VSphereMachine : VSphereMachine :=
  mkVSphereMachine zero_MetaV1 zero_VSphereMachineSpec zero_VSphereMachineStatus.

Definition set_VSphereMachine_ObjectMeta (v : MetaV1) (x : VSphereMachine) : VSphereMachine := {|
  VSphereMachine_ObjectMeta := v;
  VSphereMachine_Spec := VSphereMachine_Spec x;
  VSphereMachine_Status := VSphereMachine_Status x
|}.

Definition set_VSphereMachine_Spec (v : VSphereMachineSpec) (x : VSphereMachine) : VSphereMachine := {|
  VSphereMachine_ObjectMeta := VSphereMachine_ObjectMeta x;
  VSphereMachine_Spec := v;
  VSphereMachine_Status := VSphereMachine_Status x
|}.

Definition set_VSphereMachine_Status (v : VSphereMachineStatus) (x : VSphereMachine) : VSphereMachine := {|
  VSphereMachine_ObjectMeta := VSphereMachine_ObjectMeta x;
  VSphereMachine_Spec := VSphereMachine_Spec x;
  VSphereMachine_Status := v
|}.

Record VSphereMachineList := mkVSphereMachineList {
  VSphereMachineList_ListMeta : ListMeta;
  VSphereMachineList_Items : option (list VSphereMachine)
}.

Definition zero_VSphereMachineList : VSphereMachineList :=
  mkVSphereMachineList zero_ListMeta None.

Record VSphereMachineTemplateSpec := mkVSphereMachineTemplateSpec {
  VSphereMachineTemplateSpec_Template : VSphereMachineTemplateResource
}.

Definition zero_VSphereMachineTemplateSpec : VSphereMachineTemplateSpec :=
  mkVSphereMachineTemplateSpec zero_VSphereMachineTemplateResource.

Definition set_VSphereMachineTemplateSpec_Template (v : VSphereMachineTemplateResource) (x : VSphereMachineTemplateSpec) : VSphereMachineTemplateSpec := {|
  VSphereMachineTemplateSpec_Template := v
|}.

Record VSphereMachineTemplateStatus := mkVSphereMachineTemplateStatus {
  VSphereMachineTemplateStatus_Capacity : option (gmap string Quantity)
}.

Definition zero_VSphereMachineTemplateStatus : VSphereMachineTemplateStatus :=
  mkVSphereMachineTemplateStatus None.

Record VSphereMachineTemplate := mkVSphereMachineTemplate {
  VSphereMachineTemplate_ObjectMeta : MetaV1;
  VSphereMachineTemplate_Spec : VSphereMachineTemplateSpec;
  VSphereMachineTemplate_Status : VSphereMachineTemplateStatus
}.

Definition zero_VSphereMachineTemplate : VSphereMachineTemplate :=
  mkVSphereMachineTemplate zero_MetaV1 zero_VSphereMachineTemplateSpec zero_VSphereMachineTemplateStatus.

Definition set_VSphereMachineTemplate_ObjectMeta (v : MetaV1) (x : VSphereMachineTemplate) : VSphereMachineTemplate := {|
  VSphereMachineTemplate_ObjectMeta := v;
  VSphereMachineTemplate_Spec := VSphereMachineTemplate_Spec x;
  VSphereMachineTemplate_Status := VSphereMachineTemplate_Status x
|}.

Definition set_VSphereMachineTemplate_Spec (v : VSphereMachineTemplateSpec) (x : VSphereMachineTemplate) : VSphereMachineTemplate := {|
  VSphereMachineTemplate_ObjectMeta := VSphereMachineTemplate_ObjectMeta x;
  VSphereMachineTemplate_Spec := v;
  VSphereMachineTemplate_Status := VSphereMachineTemplate_Status x
|}.

Definition set_VSphereMachineTemplate_Status (v : VSphereMachineTemplateStatus) (x : VSphereMachineTemplate) : VSphereMachineTemplate := {|
  VSphereMachineTemplate_ObjectMeta := VSphereMachineTemplate_ObjectMeta x;
  VSphereMachineTemplate_Spec := VSphereMachineTemplate_Spec x;
  VSphereMachineTemplate_Status := v
|}.

Record VSphereMachineTemplateList := mkVSphereMachineTemplateList {
  VSphereMachineTemplateList_ListMeta : ListMeta;
  VSphereMachineTemplateList_Items : option (list VSphereMachineTemplate)
}.

Definition zero_VSphereMachineTemplateList : VSphereMachineTemplateList :=
  mkVSphereMachineTemplateList zero_ListMeta None.

End vmwarev1beta1.
