(* ===== verification/SupervisorConv.v ===== *)
(** The conversions of [api/supervisor/v1beta1]: those of [zz_generated.conversion.go]
    ([autoConvert_] and the [Convert_] that only call one) and those written by hand in
    [conversion.go]. Each takes the object that is converted and the one that is
    filled in; a field that is not assigned keeps what it had. [cast_] is a cast of an unsafe pointer between structs
    with the same fields. *)
From S2P Require Export ConvLib SupervisorTypes Sorting.

Section conversions.
Context `{ConvLib}.

Definition autoConvert_v1beta1_FailureDomainsControlPlaneSpec_To_v1beta2_FailureDomainsControlPlaneSpec (x : vmwarev1beta1.FailureDomainsControlPlaneSpec) (out : vmwarehub.FailureDomainsControlPlaneSpec) : res vmwarehub.FailureDomainsControlPlaneSpec :=
  mret {|
    vmwarehub.FailureDomainsControlPlaneSpec_Selector := vmwarev1beta1.FailureDomainsControlPlaneSpec_Selector x
  |}.

Definition Convert_v1beta1_FailureDomainsControlPlaneSpec_To_v1beta2_FailureDomainsControlPlaneSpec (x : vmwarev1beta1.FailureDomainsControlPlaneSpec) (out : vmwarehub.FailureDomainsControlPlaneSpec) : res vmwarehub.FailureDomainsControlPlaneSpec :=
  autoConvert_v1beta1_FailureDomainsControlPlaneSpec_To_v1beta2_FailureDomainsControlPlaneSpec x out.

Definition autoConvert_v1beta2_FailureDomainsControlPlaneSpec_To_v1beta1_FailureDomainsControlPlaneSpec (x : vmwarehub.FailureDomainsControlPlaneSpec) (out : vmwarev1beta1.FailureDomainsControlPlaneSpec) : res vmwarev1beta1.FailureDomainsControlPlaneSpec :=
  mret {|
    vmwarev1beta1.FailureDomainsControlPlaneSpec_Selector := vmwarehub.FailureDomainsControlPlaneSpec_Selector x
  |}.

Definition Convert_v1beta2_FailureDomainsControlPlaneSpec_To_v1beta1_FailureDomainsControlPlaneSpec (x : vmwarehub.FailureDomainsControlPlaneSpec) (out : vmwarev1beta1.FailureDomainsControlPlaneSpec) : res vmwarev1beta1.FailureDomainsControlPlaneSpec :=
  autoConvert_v1beta2_FailureDomainsControlPlaneSpec_To_v1beta1_FailureDomainsControlPlaneSpec x out.

Definition autoConvert_v1beta1_FailureDomainsSpec_To_v1beta2_FailureDomainsSpec (x : vmwarev1beta1.FailureDomainsSpec) (out : vmwarehub.FailureDomainsSpec) : res vmwarehub.FailureDomainsSpec :=
  v_ControlPlane ← Convert_v1beta1_FailureDomainsControlPlaneSpec_To_v1beta2_FailureDomainsControlPlaneSpec (vmwarev1beta1.FailureDomainsSpec_ControlPlane x) (vmwarehub.FailureDomainsSpec_ControlPlane out);
  mret {|
    vmwarehub.FailureDomainsSpec_ControlPlane := v_ControlPlane
  |}.

Definition Convert_v1beta1_FailureDomainsSpec_To_v1beta2_FailureDomainsSpec (x : vmwarev1beta1.FailureDomainsSpec) (out : vmwarehub.FailureDomainsSpec) : res vmwarehub.FailureDomainsSpec :=
  autoConvert_v1beta1_FailureDomainsSpec_To_v1beta2_FailureDomainsSpec x out.

Definition autoConvert_v1beta2_FailureDomainsSpec_To_v1beta1_FailureDomainsSpec (x : vmwarehub.FailureDomainsSpec) (out : vmwarev1beta1.FailureDomainsSpec) : res vmwarev1beta1.FailureDomainsSpec :=
  v_ControlPlane ← Convert_v1beta2_FailureDomainsControlPlaneSpec_To_v1beta1_FailureDomainsControlPlaneSpec (vmwarehub.FailureDomainsSpec_ControlPlane x) (vmwarev1beta1.FailureDomainsSpec_ControlPlane out);
  mret {|
    vmwarev1beta1.FailureDomainsSpec_ControlPlane := v_ControlPlane
  |}.

Definition Convert_v1beta2_FailureDomainsSpec_To_v1beta1_FailureDomainsSpec (x : vmwarehub.FailureDomainsSpec) (out : vmwarev1beta1.FailureDomainsSpec) : res vmwarev1beta1.FailureDomainsSpec :=
  autoConvert_v1beta2_FailureDomainsSpec_To_v1beta1_FailureDomainsSpec x out.

Definition autoConvert_v1beta1_InterfaceNetworkReference_To_v1beta2_InterfaceNetworkReference (x : vmwarev1beta1.InterfaceNetworkReference) (out : vmwarehub.InterfaceNetworkReference) : res vmwarehub.InterfaceNetworkReference :=
  mret {|
    vmwarehub.InterfaceNetworkReference_Kind := vmwarev1beta1.InterfaceNetworkReference_Kind x;
    vmwarehub.InterfaceNetworkReference_Name := vmwarev1beta1.InterfaceNetworkReference_Name x;
    vmwarehub.InterfaceNetworkReference_APIVersion := vmwarev1beta1.InterfaceNetworkReference_APIVersion x
  |}.

Definition Convert_v1beta1_InterfaceNetworkReference_To_v1beta2_InterfaceNetworkReference (x : vmwarev1beta1.InterfaceNetworkReference) (out : vmwarehub.InterfaceNetworkReference) : res vmwarehub.InterfaceNetworkReference :=
  autoConvert_v1beta1_InterfaceNetworkReference_To_v1beta2_InterfaceNetworkReference x out.

Definition autoConvert_v1beta2_InterfaceNetworkReference_To_v1beta1_InterfaceNetworkReference (x : vmwarehub.InterfaceNetworkReference) (out : vmwarev1beta1.InterfaceNetworkReference) : res vmwarev1beta1.InterfaceNetworkReference :=
  mret {|
    vmwarev1beta1.InterfaceNetworkReference_Kind := vmwarehub.InterfaceNetworkReference_Kind x;
    vmwarev1beta1.InterfaceNetworkReference_Name := vmwarehub.InterfaceNetworkReference_Name x;
    vmwarev1beta1.InterfaceNetworkReference_APIVersion := vmwarehub.InterfaceNetworkReference_APIVersion x
  |}.

Definition Convert_v1beta2_InterfaceNetworkReference_To_v1beta1_InterfaceNetworkReference (x : vmwarehub.InterfaceNetworkReference) (out : vmwarev1beta1.InterfaceNetworkReference) : res vmwarev1beta1.InterfaceNetworkReference :=
  autoConvert_v1beta2_InterfaceNetworkReference_To_v1beta1_InterfaceNetworkReference x out.

Definition cast_v1beta1_RouteSpec (x : vmwarev1beta1.RouteSpec) : vmwarehub.RouteSpec := {|
  vmwarehub.RouteSpec_To := vmwarev1beta1.RouteSpec_To x;
  vmwarehub.RouteSpec_Via := vmwarev1beta1.RouteSpec_Via x
|}.

Definition autoConvert_v1beta1_InterfaceSpec_To_v1beta2_InterfaceSpec (x : vmwarev1beta1.InterfaceSpec) (out : vmwarehub.InterfaceSpec) : res vmwarehub.InterfaceSpec :=
  mret {|
    vmwarehub.InterfaceSpec_NetworkRef := vmwarehub.InterfaceSpec_NetworkRef out;
    vmwarehub.InterfaceSpec_MTU := vmwarev1beta1.InterfaceSpec_MTU x;
    vmwarehub.InterfaceSpec_Routes := option_map (map cast_v1beta1_RouteSpec) (vmwarev1beta1.InterfaceSpec_Routes x)
  |}.

Definition cast_v1beta2_RouteSpec (x : vmwarehub.RouteSpec) : vmwarev1beta1.RouteSpec := {|
  vmwarev1beta1.RouteSpec_To := vmwarehub.RouteSpec_To x;
  vmwarev1beta1.RouteSpec_Via := vmwarehub.RouteSpec_Via x
|}.

Definition autoConvert_v1beta2_InterfaceSpec_To_v1beta1_InterfaceSpec (x : vmwarehub.InterfaceSpec) (out : vmwarev1beta1.InterfaceSpec) : res vmwarev1beta1.InterfaceSpec :=
  mret {|
    vmwarev1beta1.InterfaceSpec_Network := vmwarev1beta1.InterfaceSpec_Network out;
    vmwarev1beta1.InterfaceSpec_MTU := vmwarehub.InterfaceSpec_MTU x;
    vmwarev1beta1.InterfaceSpec_Routes := option_map (map cast_v1beta2_RouteSpec) (vmwarehub.InterfaceSpec_Routes x)
  |}.

Definition Convert_v1beta1_InterfaceSpec_To_v1beta2_InterfaceSpec (x : vmwarev1beta1.InterfaceSpec) (out : vmwarehub.InterfaceSpec) : res vmwarehub.InterfaceSpec :=
  out ← autoConvert_v1beta1_InterfaceSpec_To_v1beta2_InterfaceSpec x out;
  let network := vmwarev1beta1.InterfaceSpec_Network x in
  Ok (vmwarehub.set_InterfaceSpec_NetworkRef {|
    vmwarehub.InterfaceNetworkReference_Kind := vmwarev1beta1.InterfaceNetworkReference_Kind network;
    vmwarehub.InterfaceNetworkReference_Name := vmwarev1beta1.InterfaceNetworkReference_Name network;
    vmwarehub.InterfaceNetworkReference_APIVersion := vmwarev1beta1.InterfaceNetworkReference_APIVersion network
  |} out).

Definition autoConvert_v1beta1_SecondaryInterfaceSpec_To_v1beta2_SecondaryInterfaceSpec (x : vmwarev1beta1.SecondaryInterfaceSpec) (out : vmwarehub.SecondaryInterfaceSpec) : res vmwarehub.SecondaryInterfaceSpec :=
  v_InterfaceSpec ← Convert_v1beta1_InterfaceSpec_To_v1beta2_InterfaceSpec (vmwarev1beta1.SecondaryInterfaceSpec_InterfaceSpec x) (vmwarehub.SecondaryInterfaceSpec_InterfaceSpec out);
  mret {|
    vmwarehub.SecondaryInterfaceSpec_Name := vmwarev1beta1.SecondaryInterfaceSpec_Name x;
    vmwarehub.SecondaryInterfaceSpec_InterfaceSpec := v_InterfaceSpec
  |}.

Definition Convert_v1beta1_SecondaryInterfaceSpec_To_v1beta2_SecondaryInterfaceSpec (x : vmwarev1beta1.SecondaryInterfaceSpec) (out : vmwarehub.SecondaryInterfaceSpec) : res vmwarehub.SecondaryInterfaceSpec :=
  autoConvert_v1beta1_SecondaryInterfaceSpec_To_v1beta2_SecondaryInterfaceSpec x out.

Definition autoConvert_v1beta1_InterfacesSpec_To_v1beta2_InterfacesSpec (x : vmwarev1beta1.InterfacesSpec) (out : vmwarehub.InterfacesSpec) : res vmwarehub.InterfacesSpec :=
  v_Primary ← Convert_v1beta1_InterfaceSpec_To_v1beta2_InterfaceSpec (vmwarev1beta1.InterfacesSpec_Primary x) (vmwarehub.InterfacesSpec_Primary out);
  v_Secondary ← convert_slice (λ p, Convert_v1beta1_SecondaryInterfaceSpec_To_v1beta2_SecondaryInterfaceSpec p vmwarehub.zero_SecondaryInterfaceSpec) (vmwarev1beta1.InterfacesSpec_Secondary x);
  mret {|
    vmwarehub.InterfacesSpec_Primary := v_Primary;
    vmwarehub.InterfacesSpec_Secondary := v_Secondary
  |}.

Definition Convert_v1beta1_InterfacesSpec_To_v1beta2_InterfacesSpec (x : vmwarev1beta1.InterfacesSpec) (out : vmwarehub.InterfacesSpec) : res vmwarehub.InterfacesSpec :=
  autoConvert_v1beta1_InterfacesSpec_To_v1beta2_InterfacesSpec x out.

Definition Convert_v1beta2_InterfaceSpec_To_v1beta1_InterfaceSpec (x : vmwarehub.InterfaceSpec) (out : vmwarev1beta1.InterfaceSpec) : res vmwarev1beta1.InterfaceSpec :=
  out ← autoConvert_v1beta2_InterfaceSpec_To_v1beta1_InterfaceSpec x out;
  let network := vmwarehub.InterfaceSpec_NetworkRef x in
  Ok (vmwarev1beta1.set_InterfaceSpec_Network {|
    vmwarev1beta1.InterfaceNetworkReference_Kind := vmwarehub.InterfaceNetworkReference_Kind network;
    vmwarev1beta1.InterfaceNetworkReference_Name := vmwarehub.InterfaceNetworkReference_Name network;
    vmwarev1beta1.InterfaceNetworkReference_APIVersion := vmwarehub.InterfaceNetworkReference_APIVersion network
  |} out).

Definition autoConvert_v1beta2_SecondaryInterfaceSpec_To_v1beta1_SecondaryInterfaceSpec (x : vmwarehub.SecondaryInterfaceSpec) (out : vmwarev1beta1.SecondaryInterfaceSpec) : res vmwarev1beta1.SecondaryInterfaceSpec :=
  v_InterfaceSpec ← Convert_v1beta2_InterfaceSpec_To_v1beta1_InterfaceSpec (vmwarehub.SecondaryInterfaceSpec_InterfaceSpec x) (vmwarev1beta1.SecondaryInterfaceSpec_InterfaceSpec out);
  mret {|
    vmwarev1beta1.SecondaryInterfaceSpec_Name := vmwarehub.SecondaryInterfaceSpec_Name x;
    vmwarev1beta1.SecondaryInterfaceSpec_InterfaceSpec := v_InterfaceSpec
  |}.

Definition Convert_v1beta2_SecondaryInterfaceSpec_To_v1beta1_SecondaryInterfaceSpec (x : vmwarehub.SecondaryInterfaceSpec) (out : vmwarev1beta1.SecondaryInterfaceSpec) : res vmwarev1beta1.SecondaryInterfaceSpec :=
  autoConvert_v1beta2_SecondaryInterfaceSpec_To_v1beta1_SecondaryInterfaceSpec x out.

Definition autoConvert_v1beta2_InterfacesSpec_To_v1beta1_InterfacesSpec (x : vmwarehub.InterfacesSpec) (out : vmwarev1beta1.InterfacesSpec) : res vmwarev1beta1.InterfacesSpec :=
  v_Primary ← Convert_v1beta2_InterfaceSpec_To_v1beta1_InterfaceSpec (vmwarehub.InterfacesSpec_Primary x) (vmwarev1beta1.InterfacesSpec_Primary out);
  v_Secondary ← convert_slice (λ p, Convert_v1beta2_SecondaryInterfaceSpec_To_v1beta1_SecondaryInterfaceSpec p vmwarev1beta1.zero_SecondaryInterfaceSpec) (vmwarehub.InterfacesSpec_Secondary x);
  mret {|
    vmwarev1beta1.InterfacesSpec_Primary := v_Primary;
    vmwarev1beta1.InterfacesSpec_Secondary := v_Secondary
  |}.

Definition Convert_v1beta2_InterfacesSpec_To_v1beta1_InterfacesSpec (x : vmwarehub.InterfacesSpec) (out : vmwarev1beta1.InterfacesSpec) : res vmwarev1beta1.InterfacesSpec :=
  autoConvert_v1beta2_InterfacesSpec_To_v1beta1_InterfacesSpec x out.

Definition autoConvert_v1beta1_KeyValuePair_To_v1beta2_KeyValuePair (x : vmwarev1beta1.KeyValuePair) (out : vmwarehub.KeyValuePair) : res vmwarehub.KeyValuePair :=
  mret {|
    vmwarehub.KeyValuePair_Key := vmwarev1beta1.KeyValuePair_Key x;
    vmwarehub.KeyValuePair_Value := vmwarev1beta1.KeyValuePair_Value x
  |}.

Definition Convert_v1beta1_KeyValuePair_To_v1beta2_KeyValuePair (x : vmwarev1beta1.KeyValuePair) (out : vmwarehub.KeyValuePair) : res vmwarehub.KeyValuePair :=
  autoConvert_v1beta1_KeyValuePair_To_v1beta2_KeyValuePair x out.

Definition autoConvert_v1beta2_KeyValuePair_To_v1beta1_KeyValuePair (x : vmwarehub.KeyValuePair) (out : vmwarev1beta1.KeyValuePair) : res vmwarev1beta1.KeyValuePair :=
  mret {|
    vmwarev1beta1.KeyValuePair_Key := vmwarehub.KeyValuePair_Key x;
    vmwarev1beta1.KeyValuePair_Value := vmwarehub.KeyValuePair_Value x
  |}.

Definition Convert_v1beta2_KeyValuePair_To_v1beta1_KeyValuePair (x : vmwarehub.KeyValuePair) (out : vmwarev1beta1.KeyValuePair) : res vmwarev1beta1.KeyValuePair :=
  autoConvert_v1beta2_KeyValuePair_To_v1beta1_KeyValuePair x out.

Definition autoConvert_v1beta1_NSXVPC_To_v1beta2_NSXVPC (x : vmwarev1beta1.NSXVPC) (out : vmwarehub.NSXVPC) : res vmwarehub.NSXVPC :=
  mret {|
    vmwarehub.NSXVPC_CreateSubnetSet := vmwarev1beta1.NSXVPC_CreateSubnetSet x
  |}.

Definition Convert_v1beta1_NSXVPC_To_v1beta2_NSXVPC (x : vmwarev1beta1.NSXVPC) (out : vmwarehub.NSXVPC) : res vmwarehub.NSXVPC :=
  autoConvert_v1beta1_NSXVPC_To_v1beta2_NSXVPC x out.

Definition autoConvert_v1beta2_NSXVPC_To_v1beta1_NSXVPC (x : vmwarehub.NSXVPC) (out : vmwarev1beta1.NSXVPC) : res vmwarev1beta1.NSXVPC :=
  mret {|
    vmwarev1beta1.NSXVPC_CreateSubnetSet := vmwarehub.NSXVPC_CreateSubnetSet x
  |}.

Definition Convert_v1beta2_NSXVPC_To_v1beta1_NSXVPC (x : vmwarehub.NSXVPC) (out : vmwarev1beta1.NSXVPC) : res vmwarev1beta1.NSXVPC :=
  autoConvert_v1beta2_NSXVPC_To_v1beta1_NSXVPC x out.

Definition autoConvert_v1beta1_Network_To_v1beta2_Network (x : vmwarev1beta1.Network) (out : vmwarehub.Network) : res vmwarehub.Network :=
  v_NSXVPC ← Convert_v1beta1_NSXVPC_To_v1beta2_NSXVPC (vmwarev1beta1.Network_NSXVPC x) (vmwarehub.Network_NSXVPC out);
  mret {|
    vmwarehub.Network_NSXVPC := v_NSXVPC;
    vmwarehub.Network_Provider := vmwarev1beta1.Network_Provider x
  |}.

Definition Convert_v1beta1_Network_To_v1beta2_Network (x : vmwarev1beta1.Network) (out : vmwarehub.Network) : res vmwarehub.Network :=
  autoConvert_v1beta1_Network_To_v1beta2_Network x out.

Definition autoConvert_v1beta2_Network_To_v1beta1_Network (x : vmwarehub.Network) (out : vmwarev1beta1.Network) : res vmwarev1beta1.Network :=
  v_NSXVPC ← Convert_v1beta2_NSXVPC_To_v1beta1_NSXVPC (vmwarehub.Network_NSXVPC x) (vmwarev1beta1.Network_NSXVPC out);
  mret {|
    vmwarev1beta1.Network_NSXVPC := v_NSXVPC;
    vmwarev1beta1.Network_Provider := vmwarehub.Network_Provider x
  |}.

Definition Convert_v1beta2_Network_To_v1beta1_Network (x : vmwarehub.Network) (out : vmwarev1beta1.Network) : res vmwarev1beta1.Network :=
  autoConvert_v1beta2_Network_To_v1beta1_Network x out.

Definition autoConvert_v1beta1_PolicyRef_To_v1beta2_PolicyRef (x : vmwarev1beta1.PolicyRef) (out : vmwarehub.PolicyRef) : res vmwarehub.PolicyRef :=
  mret {|
    vmwarehub.PolicyRef_Name := vmwarev1beta1.PolicyRef_Name x;
    vmwarehub.PolicyRef_Kind := vmwarev1beta1.PolicyRef_Kind x
  |}.

Definition Convert_v1beta1_PolicyRef_To_v1beta2_PolicyRef (x : vmwarev1beta1.PolicyRef) (out : vmwarehub.PolicyRef) : res vmwarehub.PolicyRef :=
  autoConvert_v1beta1_PolicyRef_To_v1beta2_PolicyRef x out.

Definition autoConvert_v1beta2_PolicyRef_To_v1beta1_PolicyRef (x : vmwarehub.PolicyRef) (out : vmwarev1beta1.PolicyRef) : res vmwarev1beta1.PolicyRef :=
  mret {|
    vmwarev1beta1.PolicyRef_Name := vmwarehub.PolicyRef_Name x;
    vmwarev1beta1.PolicyRef_Kind := vmwarehub.PolicyRef_Kind x
  |}.

Definition Convert_v1beta2_PolicyRef_To_v1beta1_PolicyRef (x : vmwarehub.PolicyRef) (out : vmwarev1beta1.PolicyRef) : res vmwarev1beta1.PolicyRef :=
  autoConvert_v1beta2_PolicyRef_To_v1beta1_PolicyRef x out.

Definition autoConvert_v1beta1_ProviderServiceAccountSpec_To_v1beta2_ProviderServiceAccountSpec (x : vmwarev1beta1.ProviderServiceAccountSpec) (out : vmwarehub.ProviderServiceAccountSpec) : res vmwarehub.ProviderServiceAccountSpec :=
  mret {|
    vmwarehub.ProviderServiceAccountSpec_Ref := vmwarev1beta1.ProviderServiceAccountSpec_Ref x;
    vmwarehub.ProviderServiceAccountSpec_Rules := vmwarev1beta1.ProviderServiceAccountSpec_Rules x;
    vmwarehub.ProviderServiceAccountSpec_TargetNamespace := vmwarev1beta1.ProviderServiceAccountSpec_TargetNamespace x;
    vmwarehub.ProviderServiceAccountSpec_TargetSecretName := vmwarev1beta1.ProviderServiceAccountSpec_TargetSecretName x
  |}.

Definition Convert_v1beta1_ProviderServiceAccountSpec_To_v1beta2_ProviderServiceAccountSpec (x : vmwarev1beta1.ProviderServiceAccountSpec) (out : vmwarehub.ProviderServiceAccountSpec) : res vmwarehub.ProviderServiceAccountSpec :=
  autoConvert_v1beta1_ProviderServiceAccountSpec_To_v1beta2_ProviderServiceAccountSpec x out.

Definition autoConvert_v1beta1_ProviderServiceAccount_To_v1beta2_ProviderServiceAccount (x : vmwarev1beta1.ProviderServiceAccount) (out : vmwarehub.ProviderServiceAccount) : res vmwarehub.ProviderServiceAccount :=
  v_Spec ← Convert_v1beta1_ProviderServiceAccountSpec_To_v1beta2_ProviderServiceAccountSpec (vmwarev1beta1.ProviderServiceAccount_Spec x) (vmwarehub.ProviderServiceAccount_Spec out);
  mret {|
    vmwarehub.ProviderServiceAccount_ObjectMeta := vmwarev1beta1.ProviderServiceAccount_ObjectMeta x;
    vmwarehub.ProviderServiceAccount_Spec := v_Spec
  |}.

Definition Convert_v1beta1_ProviderServiceAccount_To_v1beta2_ProviderServiceAccount (x : vmwarev1beta1.ProviderServiceAccount) (out : vmwarehub.ProviderServiceAccount) : res vmwarehub.ProviderServiceAccount :=
  autoConvert_v1beta1_ProviderServiceAccount_To_v1beta2_ProviderServiceAccount x out.

Definition autoConvert_v1beta2_ProviderServiceAccountSpec_To_v1beta1_ProviderServiceAccountSpec (x : vmwarehub.ProviderServiceAccountSpec) (out : vmwarev1beta1.ProviderServiceAccountSpec) : res vmwarev1beta1.ProviderServiceAccountSpec :=
  mret {|
    vmwarev1beta1.ProviderServiceAccountSpec_Ref := vmwarehub.ProviderServiceAccountSpec_Ref x;
    vmwarev1beta1.ProviderServiceAccountSpec_Rules := vmwarehub.ProviderServiceAccountSpec_Rules x;
    vmwarev1beta1.ProviderServiceAccountSpec_TargetNamespace := vmwarehub.ProviderServiceAccountSpec_TargetNamespace x;
    vmwarev1beta1.ProviderServiceAccountSpec_TargetSecretName := vmwarehub.ProviderServiceAccountSpec_TargetSecretName x
  |}.

Definition Convert_v1beta2_ProviderServiceAccountSpec_To_v1beta1_ProviderServiceAccountSpec (x : vmwarehub.ProviderServiceAccountSpec) (out : vmwarev1beta1.ProviderServiceAccountSpec) : res vmwarev1beta1.ProviderServiceAccountSpec :=
  autoConvert_v1beta2_ProviderServiceAccountSpec_To_v1beta1_ProviderServiceAccountSpec x out.

Definition autoConvert_v1beta2_ProviderServiceAccount_To_v1beta1_ProviderServiceAccount (x : vmwarehub.ProviderServiceAccount) (out : vmwarev1beta1.ProviderServiceAccount) : res vmwarev1beta1.ProviderServiceAccount :=
  v_Spec ← Convert_v1beta2_ProviderServiceAccountSpec_To_v1beta1_ProviderServiceAccountSpec (vmwarehub.ProviderServiceAccount_Spec x) (vmwarev1beta1.ProviderServiceAccount_Spec out);
  mret {|
    vmwarev1beta1.ProviderServiceAccount_ObjectMeta := vmwarehub.ProviderServiceAccount_ObjectMeta x;
    vmwarev1beta1.ProviderServiceAccount_Spec := v_Spec
  |}.

Definition Convert_v1beta2_ProviderServiceAccount_To_v1beta1_ProviderServiceAccount (x : vmwarehub.ProviderServiceAccount) (out : vmwarev1beta1.ProviderServiceAccount) : res vmwarev1beta1.ProviderServiceAccount :=
  autoConvert_v1beta2_ProviderServiceAccount_To_v1beta1_ProviderServiceAccount x out.

Definition cast_v1beta1_ProviderServiceAccountSpec (x : vmwarev1beta1.ProviderServiceAccountSpec) : vmwarehub.ProviderServiceAccountSpec := {|
  vmwarehub.ProviderServiceAccountSpec_Ref := vmwarev1beta1.ProviderServiceAccountSpec_Ref x;
  vmwarehub.ProviderServiceAccountSpec_Rules := vmwarev1beta1.ProviderServiceAccountSpec_Rules x;
  vmwarehub.ProviderServiceAccountSpec_TargetNamespace := vmwarev1beta1.ProviderServiceAccountSpec_TargetNamespace x;
  vmwarehub.ProviderServiceAccountSpec_TargetSecretName := vmwarev1beta1.ProviderServiceAccountSpec_TargetSecretName x
|}.

Definition cast_v1beta1_ProviderServiceAccount (x : vmwarev1beta1.ProviderServiceAccount) : vmwarehub.ProviderServiceAccount := {|
  vmwarehub.ProviderServiceAccount_ObjectMeta := vmwarev1beta1.ProviderServiceAccount_ObjectMeta x;
  vmwarehub.ProviderServiceAccount_Spec := cast_v1beta1_ProviderServiceAccountSpec (vmwarev1beta1.ProviderServiceAccount_Spec x)
|}.

Definition autoConvert_v1beta1_ProviderServiceAccountList_To_v1beta2_ProviderServiceAccountList (x : vmwarev1beta1.ProviderServiceAccountList) (out : vmwarehub.ProviderServiceAccountList) : res vmwarehub.ProviderServiceAccountList :=
  mret {|
    vmwarehub.ProviderServiceAccountList_ListMeta := vmwarev1beta1.ProviderServiceAccountList_ListMeta x;
    vmwarehub.ProviderServiceAccountList_Items := option_map (map cast_v1beta1_ProviderServiceAccount) (vmwarev1beta1.ProviderServiceAccountList_Items x)
  |}.

Definition Convert_v1beta1_ProviderServiceAccountList_To_v1beta2_ProviderServiceAccountList (x : vmwarev1beta1.ProviderServiceAccountList) (out : vmwarehub.ProviderServiceAccountList) : res vmwarehub.ProviderServiceAccountList :=
  autoConvert_v1beta1_ProviderServiceAccountList_To_v1beta2_ProviderServiceAccountList x out.

Definition cast_v1beta2_ProviderServiceAccountSpec (x : vmwarehub.ProviderServiceAccountSpec) : vmwarev1beta1.ProviderServiceAccountSpec := {|
  vmwarev1beta1.ProviderServiceAccountSpec_Ref := vmwarehub.ProviderServiceAccountSpec_Ref x;
  vmwarev1beta1.ProviderServiceAccountSpec_Rules := vmwarehub.ProviderServiceAccountSpec_Rules x;
  vmwarev1beta1.ProviderServiceAccountSpec_TargetNamespace := vmwarehub.ProviderServiceAccountSpec_TargetNamespace x;
  vmwarev1beta1.ProviderServiceAccountSpec_TargetSecretName := vmwarehub.ProviderServiceAccountSpec_TargetSecretName x
|}.

Definition cast_v1beta2_ProviderServiceAccount (x : vmwarehub.ProviderServiceAccount) : vmwarev1beta1.ProviderServiceAccount := {|
  vmwarev1beta1.ProviderServiceAccount_ObjectMeta := vmwarehub.ProviderServiceAccount_ObjectMeta x;
  vmwarev1beta1.ProviderServiceAccount_Spec := cast_v1beta2_ProviderServiceAccountSpec (vmwarehub.ProviderServiceAccount_Spec x)
|}.

Definition autoConvert_v1beta2_ProviderServiceAccountList_To_v1beta1_ProviderServiceAccountList (x : vmwarehub.ProviderServiceAccountList) (out : vmwarev1beta1.ProviderServiceAccountList) : res vmwarev1beta1.ProviderServiceAccountList :=
  mret {|
    vmwarev1beta1.ProviderServiceAccountList_ListMeta := vmwarehub.ProviderServiceAccountList_ListMeta x;
    vmwarev1beta1.ProviderServiceAccountList_Items := option_map (map cast_v1beta2_ProviderServiceAccount) (vmwarehub.ProviderServiceAccountList_Items x)
  |}.

Definition Convert_v1beta2_ProviderServiceAccountList_To_v1beta1_ProviderServiceAccountList (x : vmwarehub.ProviderServiceAccountList) (out : vmwarev1beta1.ProviderServiceAccountList) : res vmwarev1beta1.ProviderServiceAccountList :=
  autoConvert_v1beta2_ProviderServiceAccountList_To_v1beta1_ProviderServiceAccountList x out.

Definition autoConvert_v1beta1_RouteSpec_To_v1beta2_RouteSpec (x : vmwarev1beta1.RouteSpec) (out : vmwarehub.RouteSpec) : res vmwarehub.RouteSpec :=
  mret {|
    vmwarehub.RouteSpec_To := vmwarev1beta1.RouteSpec_To x;
    vmwarehub.RouteSpec_Via := vmwarev1beta1.RouteSpec_Via x
  |}.

Definition Convert_v1beta1_RouteSpec_To_v1beta2_RouteSpec (x : vmwarev1beta1.RouteSpec) (out : vmwarehub.RouteSpec) : res vmwarehub.RouteSpec :=
  autoConvert_v1beta1_RouteSpec_To_v1beta2_RouteSpec x out.

Definition autoConvert_v1beta2_RouteSpec_To_v1beta1_RouteSpec (x : vmwarehub.RouteSpec) (out : vmwarev1beta1.RouteSpec) : res vmwarev1beta1.RouteSpec :=
  mret {|
    vmwarev1beta1.RouteSpec_To := vmwarehub.RouteSpec_To x;
    vmwarev1beta1.RouteSpec_Via := vmwarehub.RouteSpec_Via x
  |}.

Definition Convert_v1beta2_RouteSpec_To_v1beta1_RouteSpec (x : vmwarehub.RouteSpec) (out : vmwarev1beta1.RouteSpec) : res vmwarev1beta1.RouteSpec :=
  autoConvert_v1beta2_RouteSpec_To_v1beta1_RouteSpec x out.

Definition autoConvert_v1beta1_VLANSpec_To_v1beta2_VLANSpec (x : vmwarev1beta1.VLANSpec) (out : vmwarehub.VLANSpec) : res vmwarehub.VLANSpec :=
  mret {|
    vmwarehub.VLANSpec_Name := vmwarev1beta1.VLANSpec_Name x;
    vmwarehub.VLANSpec_ID := vmwarev1beta1.VLANSpec_ID x;
    vmwarehub.VLANSpec_Link := vmwarev1beta1.VLANSpec_Link x
  |}.

Definition Convert_v1beta1_VLANSpec_To_v1beta2_VLANSpec (x : vmwarev1beta1.VLANSpec) (out : vmwarehub.VLANSpec) : res vmwarehub.VLANSpec :=
  autoConvert_v1beta1_VLANSpec_To_v1beta2_VLANSpec x out.

Definition autoConvert_v1beta2_VLANSpec_To_v1beta1_VLANSpec (x : vmwarehub.VLANSpec) (out : vmwarev1beta1.VLANSpec) : res vmwarev1beta1.VLANSpec :=
  mret {|
    vmwarev1beta1.VLANSpec_Name := vmwarehub.VLANSpec_Name x;
    vmwarev1beta1.VLANSpec_ID := vmwarehub.VLANSpec_ID x;
    vmwarev1beta1.VLANSpec_Link := vmwarehub.VLANSpec_Link x
  |}.

Definition Convert_v1beta2_VLANSpec_To_v1beta1_VLANSpec (x : vmwarehub.VLANSpec) (out : vmwarev1beta1.VLANSpec) : res vmwarev1beta1.VLANSpec :=
  autoConvert_v1beta2_VLANSpec_To_v1beta1_VLANSpec x out.

Definition Convert_v1beta1_APIEndpoint_To_v1beta2_APIEndpoint (x : APIEndpoint) (out : vmwarehub.APIEndpoint) : res vmwarehub.APIEndpoint :=
  mret {|
    vmwarehub.APIEndpoint_Host := ep_Host x;
    vmwarehub.APIEndpoint_Port := ep_Port x
  |}.

Definition autoConvert_v1beta1_VSphereClusterSpec_To_v1beta2_VSphereClusterSpec (x : vmwarev1beta1.VSphereClusterSpec) (out : vmwarehub.VSphereClusterSpec) : res vmwarehub.VSphereClusterSpec :=
  v_ControlPlaneEndpoint ← Convert_v1beta1_APIEndpoint_To_v1beta2_APIEndpoint (vmwarev1beta1.VSphereClusterSpec_ControlPlaneEndpoint x) (vmwarehub.VSphereClusterSpec_ControlPlaneEndpoint out);
  v_Network ← Convert_v1beta1_Network_To_v1beta2_Network (vmwarev1beta1.VSphereClusterSpec_Network x) (vmwarehub.VSphereClusterSpec_Network out);
  v_FailureDomains ← Convert_v1beta1_FailureDomainsSpec_To_v1beta2_FailureDomainsSpec (vmwarev1beta1.VSphereClusterSpec_FailureDomains x) (vmwarehub.VSphereClusterSpec_FailureDomains out);
  mret {|
    vmwarehub.VSphereClusterSpec_ControlPlaneEndpoint := v_ControlPlaneEndpoint;
    vmwarehub.VSphereClusterSpec_Network := v_Network;
    vmwarehub.VSphereClusterSpec_FailureDomains := v_FailureDomains
  |}.

Definition Convert_v1beta1_VSphereClusterSpec_To_v1beta2_VSphereClusterSpec (x : vmwarev1beta1.VSphereClusterSpec) (out : vmwarehub.VSphereClusterSpec) : res vmwarehub.VSphereClusterSpec :=
  autoConvert_v1beta1_VSphereClusterSpec_To_v1beta2_VSphereClusterSpec x out.

Definition Convert_v1beta1_Condition_To_v1_Condition (_ : V1Beta1Condition) (out : Condition) : res Condition := mret out.

Definition autoConvert_v1beta1_VSphereClusterStatus_To_v1beta2_VSphereClusterStatus (x : vmwarev1beta1.VSphereClusterStatus) (out : vmwarehub.VSphereClusterStatus) : res vmwarehub.VSphereClusterStatus :=
  v_Conditions ← convert_slice (λ p, Convert_v1beta1_Condition_To_v1_Condition p zero_Condition) (vmwarev1beta1.VSphereClusterStatus_Conditions x);
  mret {|
    vmwarehub.VSphereClusterStatus_Conditions := v_Conditions;
    vmwarehub.VSphereClusterStatus_Initialization := vmwarehub.VSphereClusterStatus_Initialization out;
    vmwarehub.VSphereClusterStatus_FailureDomains := vmwarehub.VSphereClusterStatus_FailureDomains out;
    vmwarehub.VSphereClusterStatus_Deprecated := vmwarehub.VSphereClusterStatus_Deprecated out
  |}.

(** The loop over the sorted names of that map. *)
Definition failure_domains_of_map (m : gmap string FailureDomainSpec) : list FailureDomain :=
  omap (λ name, fd ← m !! name; Some (mkFailureDomain name (Some (fp_ControlPlane fd)) (fp_Attributes fd)))
    (sort_by id (map fst (map_to_list m))).

Definition Convert_v1beta1_VSphereClusterStatus_To_v1beta2_VSphereClusterStatus (x : vmwarev1beta1.VSphereClusterStatus) (out : vmwarehub.VSphereClusterStatus) : res vmwarehub.VSphereClusterStatus :=
  out ← autoConvert_v1beta1_VSphereClusterStatus_To_v1beta2_VSphereClusterStatus x out;
  let out := vmwarehub.set_VSphereClusterStatus_Conditions None out in
  let out := match vmwarev1beta1.VSphereClusterStatus_V1Beta2 x with
    | Some v1beta2 => vmwarehub.set_VSphereClusterStatus_Conditions (vmwarev1beta1.VSphereClusterV1Beta2Status_Conditions v1beta2) out
    | None => out
    end in
  let out := match vmwarev1beta1.VSphereClusterStatus_FailureDomains x with
    | Some failureDomains => vmwarehub.set_VSphereClusterStatus_FailureDomains (Some (failure_domains_of_map failureDomains)) out
    | None => out
    end in
  match vmwarev1beta1.VSphereClusterStatus_Conditions x with
  | None => Ok out
  | Some conditions =>
      Ok (vmwarehub.set_VSphereClusterStatus_Deprecated (Some (vmwarehub.mkVSphereClusterDeprecatedStatus (Some
        (vmwarehub.mkVSphereClusterV1Beta1DeprecatedStatus
          (Some (Convert_v1beta1_Conditions_To_v1beta2_Deprecated_V1Beta1_Conditions conditions)))))) out)
  end.

Definition autoConvert_v1beta1_VSphereCluster_To_v1beta2_VSphereCluster (x : vmwarev1beta1.VSphereCluster) (out : vmwarehub.VSphereCluster) : res vmwarehub.VSphereCluster :=
  v_Spec ← Convert_v1beta1_VSphereClusterSpec_To_v1beta2_VSphereClusterSpec (vmwarev1beta1.VSphereCluster_Spec x) (vmwarehub.VSphereCluster_Spec out);
  v_Status ← Convert_v1beta1_VSphereClusterStatus_To_v1beta2_VSphereClusterStatus (vmwarev1beta1.VSphereCluster_Status x) (vmwarehub.VSphereCluster_Status out);
  mret {|
    vmwarehub.VSphereCluster_ObjectMeta := vmwarev1beta1.VSphereCluster_ObjectMeta x;
    vmwarehub.VSphereCluster_Spec := v_Spec;
    vmwarehub.VSphereCluster_Status := v_Status
  |}.

Definition Convert_v1beta1_VSphereCluster_To_v1beta2_VSphereCluster (x : vmwarev1beta1.VSphereCluster) (out : vmwarehub.VSphereCluster) : res vmwarehub.VSphereCluster :=
  autoConvert_v1beta1_VSphereCluster_To_v1beta2_VSphereCluster x out.

Definition Convert_v1beta2_APIEndpoint_To_v1beta1_APIEndpoint (x : vmwarehub.APIEndpoint) (out : APIEndpoint) : res APIEndpoint :=
  mret {|
    ep_Host := vmwarehub.APIEndpoint_Host x;
    ep_Port := vmwarehub.APIEndpoint_Port x
  |}.

Definition autoConvert_v1beta2_VSphereClusterSpec_To_v1beta1_VSphereClusterSpec (x : vmwarehub.VSphereClusterSpec) (out : vmwarev1beta1.VSphereClusterSpec) : res vmwarev1beta1.VSphereClusterSpec :=
  v_ControlPlaneEndpoint ← Convert_v1beta2_APIEndpoint_To_v1beta1_APIEndpoint (vmwarehub.VSphereClusterSpec_ControlPlaneEndpoint x) (vmwarev1beta1.VSphereClusterSpec_ControlPlaneEndpoint out);
  v_Network ← Convert_v1beta2_Network_To_v1beta1_Network (vmwarehub.VSphereClusterSpec_Network x) (vmwarev1beta1.VSphereClusterSpec_Network out);
  v_FailureDomains ← Convert_v1beta2_FailureDomainsSpec_To_v1beta1_FailureDomainsSpec (vmwarehub.VSphereClusterSpec_FailureDomains x) (vmwarev1beta1.VSphereClusterSpec_FailureDomains out);
  mret {|
    vmwarev1beta1.VSphereClusterSpec_ControlPlaneEndpoint := v_ControlPlaneEndpoint;
    vmwarev1beta1.VSphereClusterSpec_Network := v_Network;
    vmwarev1beta1.VSphereClusterSpec_FailureDomains := v_FailureDomains
  |}.

Definition Convert_v1beta2_VSphereClusterSpec_To_v1beta1_VSphereClusterSpec (x : vmwarehub.VSphereClusterSpec) (out : vmwarev1beta1.VSphereClusterSpec) : res vmwarev1beta1.VSphereClusterSpec :=
  autoConvert_v1beta2_VSphereClusterSpec_To_v1beta1_VSphereClusterSpec x out.

(** The loop that puts failure domains into the map of v1beta1; of two with a name the later one stays. *)
Definition failure_domains_to_map (failureDomains : list FailureDomain) : gmap string FailureDomainSpec :=
  fold_left (λ m fd, <[fo_Name fd := mkFailureDomainSpec (ptr_deref (fo_ControlPlane fd) false) (fo_Attributes fd)]> m) failureDomains ∅.

Definition Convert_v1_Condition_To_v1beta1_Condition (_ : Condition) (out : V1Beta1Condition) : res V1Beta1Condition := mret out.

Definition autoConvert_v1beta2_VSphereClusterStatus_To_v1beta1_VSphereClusterStatus (x : vmwarehub.VSphereClusterStatus) (out : vmwarev1beta1.VSphereClusterStatus) : res vmwarev1beta1.VSphereClusterStatus :=
  v_Conditions ← convert_slice (λ p, Convert_v1_Condition_To_v1beta1_Condition p zero_V1Beta1Condition) (vmwarehub.VSphereClusterStatus_Conditions x);
  mret {|
    vmwarev1beta1.VSphereClusterStatus_Ready := vmwarev1beta1.VSphereClusterStatus_Ready out;
    vmwarev1beta1.VSphereClusterStatus_ResourcePolicyName := vmwarev1beta1.VSphereClusterStatus_ResourcePolicyName out;
    vmwarev1beta1.VSphereClusterStatus_Conditions := v_Conditions;
    vmwarev1beta1.VSphereClusterStatus_FailureDomains := vmwarev1beta1.VSphereClusterStatus_FailureDomains out;
    vmwarev1beta1.VSphereClusterStatus_V1Beta2 := vmwarev1beta1.VSphereClusterStatus_V1Beta2 out
  |}.

Definition Convert_v1beta2_VSphereClusterStatus_To_v1beta1_VSphereClusterStatus (x : vmwarehub.VSphereClusterStatus) (out : vmwarev1beta1.VSphereClusterStatus) : res vmwarev1beta1.VSphereClusterStatus :=
  out ← autoConvert_v1beta2_VSphereClusterStatus_To_v1beta1_VSphereClusterStatus x out;
  let out := vmwarev1beta1.set_VSphereClusterStatus_Conditions None out in
  let out := match vmwarehub.VSphereClusterStatus_Deprecated x ≫= vmwarehub.VSphereClusterDeprecatedStatus_V1Beta1 with
    | Some deprecated =>
        let out := match vmwarehub.VSphereClusterV1Beta1DeprecatedStatus_Conditions deprecated with
          | Some conditions => vmwarev1beta1.set_VSphereClusterStatus_Conditions (Some (Convert_v1beta2_Deprecated_V1Beta1_Conditions_To_v1beta1_Conditions conditions)) out
          | None => out
          end in
        out
    | None => out
    end in
  let out := vmwarev1beta1.set_VSphereClusterStatus_Ready
    (ptr_deref (vmwarehub.VSphereClusterInitializationStatus_Provisioned (vmwarehub.VSphereClusterStatus_Initialization x)) false) out in
  let out := match vmwarehub.VSphereClusterStatus_FailureDomains x with
    | Some failureDomains => vmwarev1beta1.set_VSphereClusterStatus_FailureDomains (Some (failure_domains_to_map failureDomains)) out
    | None => out
    end in
  match vmwarehub.VSphereClusterStatus_Conditions x with
  | None => Ok out
  | Some conditions => Ok (vmwarev1beta1.set_VSphereClusterStatus_V1Beta2 (Some (vmwarev1beta1.mkVSphereClusterV1Beta2Status (Some conditions))) out)
  end.

Definition autoConvert_v1beta2_VSphereCluster_To_v1beta1_VSphereCluster (x : vmwarehub.VSphereCluster) (out : vmwarev1beta1.VSphereCluster) : res vmwarev1beta1.VSphereCluster :=
  v_Spec ← Convert_v1beta2_VSphereClusterSpec_To_v1beta1_VSphereClusterSpec (vmwarehub.VSphereCluster_Spec x) (vmwarev1beta1.VSphereCluster_Spec out);
  v_Status ← Convert_v1beta2_VSphereClusterStatus_To_v1beta1_VSphereClusterStatus (vmwarehub.VSphereCluster_Status x) (vmwarev1beta1.VSphereCluster_Status out);
  mret {|
    vmwarev1beta1.VSphereCluster_ObjectMeta := vmwarehub.VSphereCluster_ObjectMeta x;
    vmwarev1beta1.VSphereCluster_Spec := v_Spec;
    vmwarev1beta1.VSphereCluster_Status := v_Status
  |}.

Definition Convert_v1beta2_VSphereCluster_To_v1beta1_VSphereCluster (x : vmwarehub.VSphereCluster) (out : vmwarev1beta1.VSphereCluster) : res vmwarev1beta1.VSphereCluster :=
  autoConvert_v1beta2_VSphereCluster_To_v1beta1_VSphereCluster x out.

Definition autoConvert_v1beta1_VSphereClusterList_To_v1beta2_VSphereClusterList (x : vmwarev1beta1.VSphereClusterList) (out : vmwarehub.VSphereClusterList) : res vmwarehub.VSphereClusterList :=
  v_Items ← convert_slice (λ p, Convert_v1beta1_VSphereCluster_To_v1beta2_VSphereCluster p vmwarehub.zero_VSphereCluster) (vmwarev1beta1.VSphereClusterList_Items x);
  mret {|
    vmwarehub.VSphereClusterList_ListMeta := vmwarev1beta1.VSphereClusterList_ListMeta x;
    vmwarehub.VSphereClusterList_Items := v_Items
  |}.

Definition Convert_v1beta1_VSphereClusterList_To_v1beta2_VSphereClusterList (x : vmwarev1beta1.VSphereClusterList) (out : vmwarehub.VSphereClusterList) : res vmwarehub.VSphereClusterList :=
  autoConvert_v1beta1_VSphereClusterList_To_v1beta2_VSphereClusterList x out.

Definition autoConvert_v1beta2_VSphereClusterList_To_v1beta1_VSphereClusterList (x : vmwarehub.VSphereClusterList) (out : vmwarev1beta1.VSphereClusterList) : res vmwarev1beta1.VSphereClusterList :=
  v_Items ← convert_slice (λ p, Convert_v1beta2_VSphereCluster_To_v1beta1_VSphereCluster p vmwarev1beta1.zero_VSphereCluster) (vmwarehub.VSphereClusterList_Items x);
  mret {|
    vmwarev1beta1.VSphereClusterList_ListMeta := vmwarehub.VSphereClusterList_ListMeta x;
    vmwarev1beta1.VSphereClusterList_Items := v_Items
  |}.

Definition Convert_v1beta2_VSphereClusterList_To_v1beta1_VSphereClusterList (x : vmwarehub.VSphereClusterList) (out : vmwarev1beta1.VSphereClusterList) : res vmwarev1beta1.VSphereClusterList :=
  autoConvert_v1beta2_VSphereClusterList_To_v1beta1_VSphereClusterList x out.

Definition autoConvert_v1beta1_VSphereClusterTemplateResource_To_v1beta2_VSphereClusterTemplateResource (x : vmwarev1beta1.VSphereClusterTemplateResource) (out : vmwarehub.VSphereClusterTemplateResource) : res vmwarehub.VSphereClusterTemplateResource :=
  v_Spec ← Convert_v1beta1_VSphereClusterSpec_To_v1beta2_VSphereClusterSpec (vmwarev1beta1.VSphereClusterTemplateResource_Spec x) (vmwarehub.VSphereClusterTemplateResource_Spec out);
  mret {|
    vmwarehub.VSphereClusterTemplateResource_ObjectMeta := vmwarehub.VSphereClusterTemplateResource_ObjectMeta out;
    vmwarehub.VSphereClusterTemplateResource_Spec := v_Spec
  |}.

Definition Convert_v1beta1_VSphereClusterTemplateResource_To_v1beta2_VSphereClusterTemplateResource (x : vmwarev1beta1.VSphereClusterTemplateResource) (out : vmwarehub.VSphereClusterTemplateResource) : res vmwarehub.VSphereClusterTemplateResource :=
  autoConvert_v1beta1_VSphereClusterTemplateResource_To_v1beta2_VSphereClusterTemplateResource x out.

Definition autoConvert_v1beta1_VSphereClusterTemplateSpec_To_v1beta2_VSphereClusterTemplateSpec (x : vmwarev1beta1.VSphereClusterTemplateSpec) (out : vmwarehub.VSphereClusterTemplateSpec) : res vmwarehub.VSphereClusterTemplateSpec :=
  v_Template ← Convert_v1beta1_VSphereClusterTemplateResource_To_v1beta2_VSphereClusterTemplateResource (vmwarev1beta1.VSphereClusterTemplateSpec_Template x) (vmwarehub.VSphereClusterTemplateSpec_Template out);
  mret {|
    vmwarehub.VSphereClusterTemplateSpec_Template := v_Template
  |}.

Definition Convert_v1beta1_VSphereClusterTemplateSpec_To_v1beta2_VSphereClusterTemplateSpec (x : vmwarev1beta1.VSphereClusterTemplateSpec) (out : vmwarehub.VSphereClusterTemplateSpec) : res vmwarehub.VSphereClusterTemplateSpec :=
  autoConvert_v1beta1_VSphereClusterTemplateSpec_To_v1beta2_VSphereClusterTemplateSpec x out.

Definition autoConvert_v1beta1_VSphereClusterTemplate_To_v1beta2_VSphereClusterTemplate (x : vmwarev1beta1.VSphereClusterTemplate) (out : vmwarehub.VSphereClusterTemplate) : res vmwarehub.VSphereClusterTemplate :=
  v_Spec ← Convert_v1beta1_VSphereClusterTemplateSpec_To_v1beta2_VSphereClusterTemplateSpec (vmwarev1beta1.VSphereClusterTemplate_Spec x) (vmwarehub.VSphereClusterTemplate_Spec out);
  mret {|
    vmwarehub.VSphereClusterTemplate_ObjectMeta := vmwarev1beta1.VSphereClusterTemplate_ObjectMeta x;
    vmwarehub.VSphereClusterTemplate_Spec := v_Spec
  |}.

Definition Convert_v1beta1_VSphereClusterTemplate_To_v1beta2_VSphereClusterTemplate (x : vmwarev1beta1.VSphereClusterTemplate) (out : vmwarehub.VSphereClusterTemplate) : res vmwarehub.VSphereClusterTemplate :=
  autoConvert_v1beta1_VSphereClusterTemplate_To_v1beta2_VSphereClusterTemplate x out.

Definition autoConvert_v1beta2_VSphereClusterTemplateResource_To_v1beta1_VSphereClusterTemplateResource (x : vmwarehub.VSphereClusterTemplateResource) (out : vmwarev1beta1.VSphereClusterTemplateResource) : res vmwarev1beta1.VSphereClusterTemplateResource :=
  v_Spec ← Convert_v1beta2_VSphereClusterSpec_To_v1beta1_VSphereClusterSpec (vmwarehub.VSphereClusterTemplateResource_Spec x) (vmwarev1beta1.VSphereClusterTemplateResource_Spec out);
  mret {|
    vmwarev1beta1.VSphereClusterTemplateResource_Spec := v_Spec
  |}.

Definition Convert_v1beta2_VSphereClusterTemplateResource_To_v1beta1_VSphereClusterTemplateResource (x : vmwarehub.VSphereClusterTemplateResource) (out : vmwarev1beta1.VSphereClusterTemplateResource) : res vmwarev1beta1.VSphereClusterTemplateResource :=
  autoConvert_v1beta2_VSphereClusterTemplateResource_To_v1beta1_VSphereClusterTemplateResource x out.

Definition autoConvert_v1beta2_VSphereClusterTemplateSpec_To_v1beta1_VSphereClusterTemplateSpec (x : vmwarehub.VSphereClusterTemplateSpec) (out : vmwarev1beta1.VSphereClusterTemplateSpec) : res vmwarev1beta1.VSphereClusterTemplateSpec :=
  v_Template ← Convert_v1beta2_VSphereClusterTemplateResource_To_v1beta1_VSphereClusterTemplateResource (vmwarehub.VSphereClusterTemplateSpec_Template x) (vmwarev1beta1.VSphereClusterTemplateSpec_Template out);
  mret {|
    vmwarev1beta1.VSphereClusterTemplateSpec_Template := v_Template
  |}.

Definition Convert_v1beta2_VSphereClusterTemplateSpec_To_v1beta1_VSphereClusterTemplateSpec (x : vmwarehub.VSphereClusterTemplateSpec) (out : vmwarev1beta1.VSphereClusterTemplateSpec) : res vmwarev1beta1.VSphereClusterTemplateSpec :=
  autoConvert_v1beta2_VSphereClusterTemplateSpec_To_v1beta1_VSphereClusterTemplateSpec x out.

Definition autoConvert_v1beta2_VSphereClusterTemplate_To_v1beta1_VSphereClusterTemplate (x : vmwarehub.VSphereClusterTemplate) (out : vmwarev1beta1.VSphereClusterTemplate) : res vmwarev1beta1.VSphereClusterTemplate :=
  v_Spec ← Convert_v1beta2_VSphereClusterTemplateSpec_To_v1beta1_VSphereClusterTemplateSpec (vmwarehub.VSphereClusterTemplate_Spec x) (vmwarev1beta1.VSphereClusterTemplate_Spec out);
  mret {|
    vmwarev1beta1.VSphereClusterTemplate_ObjectMeta := vmwarehub.VSphereClusterTemplate_ObjectMeta x;
    vmwarev1beta1.VSphereClusterTemplate_Spec := v_Spec
  |}.

Definition Convert_v1beta2_VSphereClusterTemplate_To_v1beta1_VSphereClusterTemplate (x : vmwarehub.VSphereClusterTemplate) (out : vmwarev1beta1.VSphereClusterTemplate) : res vmwarev1beta1.VSphereClusterTemplate :=
  autoConvert_v1beta2_VSphereClusterTemplate_To_v1beta1_VSphereClusterTemplate x out.

Definition autoConvert_v1beta1_VSphereClusterTemplateList_To_v1beta2_VSphereClusterTemplateList (x : vmwarev1beta1.VSphereClusterTemplateList) (out : vmwarehub.VSphereClusterTemplateList) : res vmwarehub.VSphereClusterTemplateList :=
  v_Items ← convert_slice (λ p, Convert_v1beta1_VSphereClusterTemplate_To_v1beta2_VSphereClusterTemplate p vmwarehub.zero_VSphereClusterTemplate) (vmwarev1beta1.VSphereClusterTemplateList_Items x);
  mret {|
    vmwarehub.VSphereClusterTemplateList_ListMeta := vmwarev1beta1.VSphereClusterTemplateList_ListMeta x;
    vmwarehub.VSphereClusterTemplateList_Items := v_Items
  |}.

Definition Convert_v1beta1_VSphereClusterTemplateList_To_v1beta2_VSphereClusterTemplateList (x : vmwarev1beta1.VSphereClusterTemplateList) (out : vmwarehub.VSphereClusterTemplateList) : res vmwarehub.VSphereClusterTemplateList :=
  autoConvert_v1beta1_VSphereClusterTemplateList_To_v1beta2_VSphereClusterTemplateList x out.

Definition autoConvert_v1beta2_VSphereClusterTemplateList_To_v1beta1_VSphereClusterTemplateList (x : vmwarehub.VSphereClusterTemplateList) (out : vmwarev1beta1.VSphereClusterTemplateList) : res vmwarev1beta1.VSphereClusterTemplateList :=
  v_Items ← convert_slice (λ p, Convert_v1beta2_VSphereClusterTemplate_To_v1beta1_VSphereClusterTemplate p vmwarev1beta1.zero_VSphereClusterTemplate) (vmwarehub.VSphereClusterTemplateList_Items x);
  mret {|
    vmwarev1beta1.VSphereClusterTemplateList_ListMeta := vmwarehub.VSphereClusterTemplateList_ListMeta x;
    vmwarev1beta1.VSphereClusterTemplateList_Items := v_Items
  |}.

Definition Convert_v1beta2_VSphereClusterTemplateList_To_v1beta1_VSphereClusterTemplateList (x : vmwarehub.VSphereClusterTemplateList) (out : vmwarev1beta1.VSphereClusterTemplateList) : res vmwarev1beta1.VSphereClusterTemplateList :=
  autoConvert_v1beta2_VSphereClusterTemplateList_To_v1beta1_VSphereClusterTemplateList x out.

Definition cast_v1beta1_VSphereMachineVolume (x : vmwarev1beta1.VSphereMachineVolume) : vmwarehub.VSphereMachineVolume := {|
  vmwarehub.VSphereMachineVolume_Name := vmwarev1beta1.VSphereMachineVolume_Name x;
  vmwarehub.VSphereMachineVolume_Capacity := vmwarev1beta1.VSphereMachineVolume_Capacity x;
  vmwarehub.VSphereMachineVolume_StorageClass := vmwarev1beta1.VSphereMachineVolume_StorageClass x
|}.

Definition cast_v1beta1_PolicyRef (x : vmwarev1beta1.PolicyRef) : vmwarehub.PolicyRef := {|
  vmwarehub.PolicyRef_Name := vmwarev1beta1.PolicyRef_Name x;
  vmwarehub.PolicyRef_Kind := vmwarev1beta1.PolicyRef_Kind x
|}.

Definition cast_v1beta1_VLANSpec (x : vmwarev1beta1.VLANSpec) : vmwarehub.VLANSpec := {|
  vmwarehub.VLANSpec_Name := vmwarev1beta1.VLANSpec_Name x;
  vmwarehub.VLANSpec_ID := vmwarev1beta1.VLANSpec_ID x;
  vmwarehub.VLANSpec_Link := vmwarev1beta1.VLANSpec_Link x
|}.

Definition autoConvert_v1beta1_VSphereMachineNetworkSpec_To_v1beta2_VSphereMachineNetworkSpec (x : vmwarev1beta1.VSphereMachineNetworkSpec) (out : vmwarehub.VSphereMachineNetworkSpec) : res vmwarehub.VSphereMachineNetworkSpec :=
  v_Interfaces ← Convert_v1beta1_InterfacesSpec_To_v1beta2_InterfacesSpec (vmwarev1beta1.VSphereMachineNetworkSpec_Interfaces x) (vmwarehub.VSphereMachineNetworkSpec_Interfaces out);
  mret {|
    vmwarehub.VSphereMachineNetworkSpec_Interfaces := v_Interfaces;
    vmwarehub.VSphereMachineNetworkSpec_VLANs := option_map (map cast_v1beta1_VLANSpec) (vmwarev1beta1.VSphereMachineNetworkSpec_VLANs x)
  |}.

Definition Convert_v1beta1_VSphereMachineNetworkSpec_To_v1beta2_VSphereMachineNetworkSpec (x : vmwarev1beta1.VSphereMachineNetworkSpec) (out : vmwarehub.VSphereMachineNetworkSpec) : res vmwarehub.VSphereMachineNetworkSpec :=
  autoConvert_v1beta1_VSphereMachineNetworkSpec_To_v1beta2_VSphereMachineNetworkSpec x out.

Definition autoConvert_v1beta1_VSphereMachineSpec_To_v1beta2_VSphereMachineSpec (x : vmwarev1beta1.VSphereMachineSpec) (out : vmwarehub.VSphereMachineSpec) : res vmwarehub.VSphereMachineSpec :=
  v_ProviderID ← metav1_Convert_Pointer_string_To_string (vmwarev1beta1.VSphereMachineSpec_ProviderID x);
  v_Network ← Convert_v1beta1_VSphereMachineNetworkSpec_To_v1beta2_VSphereMachineNetworkSpec (vmwarev1beta1.VSphereMachineSpec_Network x) (vmwarehub.VSphereMachineSpec_Network out);
  mret {|
    vmwarehub.VSphereMachineSpec_ProviderID := v_ProviderID;
    vmwarehub.VSphereMachineSpec_ImageName := vmwarev1beta1.VSphereMachineSpec_ImageName x;
    vmwarehub.VSphereMachineSpec_ClassName := vmwarev1beta1.VSphereMachineSpec_ClassName x;
    vmwarehub.VSphereMachineSpec_StorageClass := vmwarev1beta1.VSphereMachineSpec_StorageClass x;
    vmwarehub.VSphereMachineSpec_Volumes := option_map (map cast_v1beta1_VSphereMachineVolume) (vmwarev1beta1.VSphereMachineSpec_Volumes x);
    vmwarehub.VSphereMachineSpec_Network := v_Network;
    vmwarehub.VSphereMachineSpec_PowerOffMode := vmwarev1beta1.VSphereMachineSpec_PowerOffMode x;
    vmwarehub.VSphereMachineSpec_MinHardwareVersion := vmwarev1beta1.VSphereMachineSpec_MinHardwareVersion x;
    vmwarehub.VSphereMachineSpec_Naming := vmwarehub.VSphereMachineSpec_Naming out;
    vmwarehub.VSphereMachineSpec_Policies := option_map (map cast_v1beta1_PolicyRef) (vmwarev1beta1.VSphereMachineSpec_Policies x)
  |}.

Definition Convert_v1beta1_VSphereMachineSpec_To_v1beta2_VSphereMachineSpec (x : vmwarev1beta1.VSphereMachineSpec) (out : vmwarehub.VSphereMachineSpec) : res vmwarehub.VSphereMachineSpec :=
  out ← autoConvert_v1beta1_VSphereMachineSpec_To_v1beta2_VSphereMachineSpec x out;
  match vmwarev1beta1.VSphereMachineSpec_NamingStrategy x with
  | None => Ok out
  | Some namingStrategy =>
      template ← metav1_Convert_Pointer_string_To_string (vmwarev1beta1.VirtualMachineNamingStrategy_Template namingStrategy);
      Ok (vmwarehub.set_VSphereMachineSpec_Naming (vmwarehub.mkVirtualMachineNamingSpec template) out)
  end.

Definition phase_of_state (state : string) : option string :=
  if String.eqb state "notfound" then Some "NotFound"
  else if String.eqb state "created" then Some "Created"
  else if String.eqb state "poweredon" then Some "PoweredOn"
  else if String.eqb state "pending" then Some "Pending"
  else if String.eqb state "ready" then Some "Ready"
  else if String.eqb state "deleting" then Some "Deleting"
  else if String.eqb state "error" then Some "Error"
  else None.

Definition cast_v1beta1_KeyValuePair (x : vmwarev1beta1.KeyValuePair) : vmwarehub.KeyValuePair := {|
  vmwarehub.KeyValuePair_Key := vmwarev1beta1.KeyValuePair_Key x;
  vmwarehub.KeyValuePair_Value := vmwarev1beta1.KeyValuePair_Value x
|}.

Definition cast_v1beta1_VSphereMachineNetworkDHCPOptionsStatus (x : vmwarev1beta1.VSphereMachineNetworkDHCPOptionsStatus) : vmwarehub.VSphereMachineNetworkDHCPOptionsStatus := {|
  vmwarehub.VSphereMachineNetworkDHCPOptionsStatus_Config := option_map (map cast_v1beta1_KeyValuePair) (vmwarev1beta1.VSphereMachineNetworkDHCPOptionsStatus_Config x);
  vmwarehub.VSphereMachineNetworkDHCPOptionsStatus_Enabled := vmwarev1beta1.VSphereMachineNetworkDHCPOptionsStatus_Enabled x
|}.

Definition cast_v1beta1_VSphereMachineNetworkDHCPStatus (x : vmwarev1beta1.VSphereMachineNetworkDHCPStatus) : vmwarehub.VSphereMachineNetworkDHCPStatus := {|
  vmwarehub.VSphereMachineNetworkDHCPStatus_IP4 := cast_v1beta1_VSphereMachineNetworkDHCPOptionsStatus (vmwarev1beta1.VSphereMachineNetworkDHCPStatus_IP4 x);
  vmwarehub.VSphereMachineNetworkDHCPStatus_IP6 := cast_v1beta1_VSphereMachineNetworkDHCPOptionsStatus (vmwarev1beta1.VSphereMachineNetworkDHCPStatus_IP6 x)
|}.

Definition cast_v1beta1_VSphereMachineNetworkInterfaceIPAddrStatus (x : vmwarev1beta1.VSphereMachineNetworkInterfaceIPAddrStatus) : vmwarehub.VSphereMachineNetworkInterfaceIPAddrStatus := {|
  vmwarehub.VSphereMachineNetworkInterfaceIPAddrStatus_Address := vmwarev1beta1.VSphereMachineNetworkInterfaceIPAddrStatus_Address x;
  vmwarehub.VSphereMachineNetworkInterfaceIPAddrStatus_Lifetime := vmwarev1beta1.VSphereMachineNetworkInterfaceIPAddrStatus_Lifetime x;
  vmwarehub.VSphereMachineNetworkInterfaceIPAddrStatus_Origin := vmwarev1beta1.VSphereMachineNetworkInterfaceIPAddrStatus_Origin x;
  vmwarehub.VSphereMachineNetworkInterfaceIPAddrStatus_State := vmwarev1beta1.VSphereMachineNetworkInterfaceIPAddrStatus_State x
|}.

Definition cast_v1beta1_VSphereMachineNetworkInterfaceIPStatus (x : vmwarev1beta1.VSphereMachineNetworkInterfaceIPStatus) : vmwarehub.VSphereMachineNetworkInterfaceIPStatus := {|
  vmwarehub.VSphereMachineNetworkInterfaceIPStatus_AutoConfigurationEnabled := vmwarev1beta1.VSphereMachineNetworkInterfaceIPStatus_AutoConfigurationEnabled x;
  vmwarehub.VSphereMachineNetworkInterfaceIPStatus_DHCP := cast_v1beta1_VSphereMachineNetworkDHCPStatus (vmwarev1beta1.VSphereMachineNetworkInterfaceIPStatus_DHCP x);
  vmwarehub.VSphereMachineNetworkInterfaceIPStatus_Addresses := option_map (map cast_v1beta1_VSphereMachineNetworkInterfaceIPAddrStatus) (vmwarev1beta1.VSphereMachineNetworkInterfaceIPStatus_Addresses x);
  vmwarehub.VSphereMachineNetworkInterfaceIPStatus_MACAddr := vmwarev1beta1.VSphereMachineNetworkInterfaceIPStatus_MACAddr x
|}.

Definition cast_v1beta1_VSphereMachineNetworkDNSStatus (x : vmwarev1beta1.VSphereMachineNetworkDNSStatus) : vmwarehub.VSphereMachineNetworkDNSStatus := {|
  vmwarehub.VSphereMachineNetworkDNSStatus_DHCP := vmwarev1beta1.VSphereMachineNetworkDNSStatus_DHCP x;
  vmwarehub.VSphereMachineNetworkDNSStatus_DomainName := vmwarev1beta1.VSphereMachineNetworkDNSStatus_DomainName x;
  vmwarehub.VSphereMachineNetworkDNSStatus_HostName := vmwarev1beta1.VSphereMachineNetworkDNSStatus_HostName x;
  vmwarehub.VSphereMachineNetworkDNSStatus_Nameservers := vmwarev1beta1.VSphereMachineNetworkDNSStatus_Nameservers x;
  vmwarehub.VSphereMachineNetworkDNSStatus_SearchDomains := vmwarev1beta1.VSphereMachineNetworkDNSStatus_SearchDomains x
|}.

Definition cast_v1beta1_VSphereMachineNetworkInterfaceStatus (x : vmwarev1beta1.VSphereMachineNetworkInterfaceStatus) : vmwarehub.VSphereMachineNetworkInterfaceStatus := {|
  vmwarehub.VSphereMachineNetworkInterfaceStatus_Name := vmwarev1beta1.VSphereMachineNetworkInterfaceStatus_Name x;
  vmwarehub.VSphereMachineNetworkInterfaceStatus_DeviceKey := vmwarev1beta1.VSphereMachineNetworkInterfaceStatus_DeviceKey x;
  vmwarehub.VSphereMachineNetworkInterfaceStatus_IP := cast_v1beta1_VSphereMachineNetworkInterfaceIPStatus (vmwarev1beta1.VSphereMachineNetworkInterfaceStatus_IP x);
  vmwarehub.VSphereMachineNetworkInterfaceStatus_DNS := cast_v1beta1_VSphereMachineNetworkDNSStatus (vmwarev1beta1.VSphereMachineNetworkInterfaceStatus_DNS x)
|}.

Definition autoConvert_v1beta1_VSphereMachineNetworkStatus_To_v1beta2_VSphereMachineNetworkStatus (x : vmwarev1beta1.VSphereMachineNetworkStatus) (out : vmwarehub.VSphereMachineNetworkStatus) : res vmwarehub.VSphereMachineNetworkStatus :=
  mret {|
    vmwarehub.VSphereMachineNetworkStatus_Interfaces := option_map (map cast_v1beta1_VSphereMachineNetworkInterfaceStatus) (vmwarev1beta1.VSphereMachineNetworkStatus_Interfaces x)
  |}.

Definition Convert_v1beta1_VSphereMachineNetworkStatus_To_v1beta2_VSphereMachineNetworkStatus (x : vmwarev1beta1.VSphereMachineNetworkStatus) (out : vmwarehub.VSphereMachineNetworkStatus) : res vmwarehub.VSphereMachineNetworkStatus :=
  autoConvert_v1beta1_VSphereMachineNetworkStatus_To_v1beta2_VSphereMachineNetworkStatus x out.

Definition autoConvert_v1beta1_VSphereMachineStatus_To_v1beta2_VSphereMachineStatus (x : vmwarev1beta1.VSphereMachineStatus) (out : vmwarehub.VSphereMachineStatus) : res vmwarehub.VSphereMachineStatus :=
  v_Conditions ← convert_slice (λ p, Convert_v1beta1_Condition_To_v1_Condition p zero_Condition) (vmwarev1beta1.VSphereMachineStatus_Conditions x);
  v_Network ← Convert_v1beta1_VSphereMachineNetworkStatus_To_v1beta2_VSphereMachineNetworkStatus (vmwarev1beta1.VSphereMachineStatus_Network x) (vmwarehub.VSphereMachineStatus_Network out);
  mret {|
    vmwarehub.VSphereMachineStatus_Conditions := v_Conditions;
    vmwarehub.VSphereMachineStatus_Initialization := vmwarehub.VSphereMachineStatus_Initialization out;
    vmwarehub.VSphereMachineStatus_Addresses := vmwarev1beta1.VSphereMachineStatus_Addresses x;
    vmwarehub.VSphereMachineStatus_FailureDomain := vmwarehub.VSphereMachineStatus_FailureDomain out;
    vmwarehub.VSphereMachineStatus_BiosUUID := vmwarehub.VSphereMachineStatus_BiosUUID out;
    vmwarehub.VSphereMachineStatus_Phase := vmwarehub.VSphereMachineStatus_Phase out;
    vmwarehub.VSphereMachineStatus_Network := v_Network;
    vmwarehub.VSphereMachineStatus_Deprecated := vmwarehub.VSphereMachineStatus_Deprecated out
  |}.

Definition Convert_v1beta1_VSphereMachineStatus_To_v1beta2_VSphereMachineStatus (x : vmwarev1beta1.VSphereMachineStatus) (out : vmwarehub.VSphereMachineStatus) : res vmwarehub.VSphereMachineStatus :=
  out ← autoConvert_v1beta1_VSphereMachineStatus_To_v1beta2_VSphereMachineStatus x out;
  let out := vmwarehub.set_VSphereMachineStatus_BiosUUID (ptr_deref (vmwarev1beta1.VSphereMachineStatus_ID x) "") out in
  let out := match phase_of_state (vmwarev1beta1.VSphereMachineStatus_VMStatus x) with
    | Some phase => vmwarehub.set_VSphereMachineStatus_Phase phase out
    | None => out
    end in
  let out := vmwarehub.set_VSphereMachineStatus_Conditions None out in
  let out := match vmwarev1beta1.VSphereMachineStatus_V1Beta2 x with
    | Some v1beta2 => vmwarehub.set_VSphereMachineStatus_Conditions (vmwarev1beta1.VSphereMachineV1Beta2Status_Conditions v1beta2) out
    | None => out
    end in
  match vmwarev1beta1.VSphereMachineStatus_FailureReason x, vmwarev1beta1.VSphereMachineStatus_FailureMessage x, vmwarev1beta1.VSphereMachineStatus_Conditions x with
  | None, None, None => Ok out
  | FailureReason, FailureMessage, Conditions =>
      let deprecated := default vmwarehub.zero_VSphereMachineDeprecatedStatus (vmwarehub.VSphereMachineStatus_Deprecated out) in
      let old := default vmwarehub.zero_VSphereMachineV1Beta1DeprecatedStatus (vmwarehub.VSphereMachineDeprecatedStatus_V1Beta1 deprecated) in
      let conditions := match Conditions with
        | Some conditions => Some (Convert_v1beta1_Conditions_To_v1beta2_Deprecated_V1Beta1_Conditions conditions)
        | None => vmwarehub.VSphereMachineV1Beta1DeprecatedStatus_Conditions old
        end in
      Ok (vmwarehub.set_VSphereMachineStatus_Deprecated (Some (vmwarehub.mkVSphereMachineDeprecatedStatus (Some
        (vmwarehub.mkVSphereMachineV1Beta1DeprecatedStatus conditions FailureReason FailureMessage)))) out)
  end.

Definition autoConvert_v1beta1_VSphereMachine_To_v1beta2_VSphereMachine (x : vmwarev1beta1.VSphereMachine) (out : vmwarehub.VSphereMachine) : res vmwarehub.VSphereMachine :=
  v_Spec ← Convert_v1beta1_VSphereMachineSpec_To_v1beta2_VSphereMachineSpec (vmwarev1beta1.VSphereMachine_Spec x) (vmwarehub.VSphereMachine_Spec out);
  v_Status ← Convert_v1beta1_VSphereMachineStatus_To_v1beta2_VSphereMachineStatus (vmwarev1beta1.VSphereMachine_Status x) (vmwarehub.VSphereMachine_Status out);
  mret {|
    vmwarehub.VSphereMachine_ObjectMeta := vmwarev1beta1.VSphereMachine_ObjectMeta x;
    vmwarehub.VSphereMachine_Spec := v_Spec;
    vmwarehub.VSphereMachine_Status := v_Status
  |}.

Definition Convert_v1beta1_VSphereMachine_To_v1beta2_VSphereMachine (x : vmwarev1beta1.VSphereMachine) (out : vmwarehub.VSphereMachine) : res vmwarehub.VSphereMachine :=
  autoConvert_v1beta1_VSphereMachine_To_v1beta2_VSphereMachine x out.

Definition cast_v1beta2_VSphereMachineVolume (x : vmwarehub.VSphereMachineVolume) : vmwarev1beta1.VSphereMachineVolume := {|
  vmwarev1beta1.VSphereMachineVolume_Name := vmwarehub.VSphereMachineVolume_Name x;
  vmwarev1beta1.VSphereMachineVolume_Capacity := vmwarehub.VSphereMachineVolume_Capacity x;
  vmwarev1beta1.VSphereMachineVolume_StorageClass := vmwarehub.VSphereMachineVolume_StorageClass x
|}.

Definition cast_v1beta2_VLANSpec (x : vmwarehub.VLANSpec) : vmwarev1beta1.VLANSpec := {|
  vmwarev1beta1.VLANSpec_Name := vmwarehub.VLANSpec_Name x;
  vmwarev1beta1.VLANSpec_ID := vmwarehub.VLANSpec_ID x;
  vmwarev1beta1.VLANSpec_Link := vmwarehub.VLANSpec_Link x
|}.

Definition autoConvert_v1beta2_VSphereMachineNetworkSpec_To_v1beta1_VSphereMachineNetworkSpec (x : vmwarehub.VSphereMachineNetworkSpec) (out : vmwarev1beta1.VSphereMachineNetworkSpec) : res vmwarev1beta1.VSphereMachineNetworkSpec :=
  v_Interfaces ← Convert_v1beta2_InterfacesSpec_To_v1beta1_InterfacesSpec (vmwarehub.VSphereMachineNetworkSpec_Interfaces x) (vmwarev1beta1.VSphereMachineNetworkSpec_Interfaces out);
  mret {|
    vmwarev1beta1.VSphereMachineNetworkSpec_Interfaces := v_Interfaces;
    vmwarev1beta1.VSphereMachineNetworkSpec_VLANs := option_map (map cast_v1beta2_VLANSpec) (vmwarehub.VSphereMachineNetworkSpec_VLANs x)
  |}.

Definition Convert_v1beta2_VSphereMachineNetworkSpec_To_v1beta1_VSphereMachineNetworkSpec (x : vmwarehub.VSphereMachineNetworkSpec) (out : vmwarev1beta1.VSphereMachineNetworkSpec) : res vmwarev1beta1.VSphereMachineNetworkSpec :=
  autoConvert_v1beta2_VSphereMachineNetworkSpec_To_v1beta1_VSphereMachineNetworkSpec x out.

Definition cast_v1beta2_PolicyRef (x : vmwarehub.PolicyRef) : vmwarev1beta1.PolicyRef := {|
  vmwarev1beta1.PolicyRef_Name := vmwarehub.PolicyRef_Name x;
  vmwarev1beta1.PolicyRef_Kind := vmwarehub.PolicyRef_Kind x
|}.

Definition autoConvert_v1beta2_VSphereMachineSpec_To_v1beta1_VSphereMachineSpec (x : vmwarehub.VSphereMachineSpec) (out : vmwarev1beta1.VSphereMachineSpec) : res vmwarev1beta1.VSphereMachineSpec :=
  v_ProviderID ← metav1_Convert_string_To_Pointer_string (vmwarehub.VSphereMachineSpec_ProviderID x);
  v_Network ← Convert_v1beta2_VSphereMachineNetworkSpec_To_v1beta1_VSphereMachineNetworkSpec (vmwarehub.VSphereMachineSpec_Network x) (vmwarev1beta1.VSphereMachineSpec_Network out);
  mret {|
    vmwarev1beta1.VSphereMachineSpec_ProviderID := v_ProviderID;
    vmwarev1beta1.VSphereMachineSpec_FailureDomain := vmwarev1beta1.VSphereMachineSpec_FailureDomain out;
    vmwarev1beta1.VSphereMachineSpec_ImageName := vmwarehub.VSphereMachineSpec_ImageName x;
    vmwarev1beta1.VSphereMachineSpec_ClassName := vmwarehub.VSphereMachineSpec_ClassName x;
    vmwarev1beta1.VSphereMachineSpec_StorageClass := vmwarehub.VSphereMachineSpec_StorageClass x;
    vmwarev1beta1.VSphereMachineSpec_Volumes := option_map (map cast_v1beta2_VSphereMachineVolume) (vmwarehub.VSphereMachineSpec_Volumes x);
    vmwarev1beta1.VSphereMachineSpec_Policies := option_map (map cast_v1beta2_PolicyRef) (vmwarehub.VSphereMachineSpec_Policies x);
    vmwarev1beta1.VSphereMachineSpec_Network := v_Network;
    vmwarev1beta1.VSphereMachineSpec_PowerOffMode := vmwarehub.VSphereMachineSpec_PowerOffMode x;
    vmwarev1beta1.VSphereMachineSpec_MinHardwareVersion := vmwarehub.VSphereMachineSpec_MinHardwareVersion x;
    vmwarev1beta1.VSphereMachineSpec_NamingStrategy := vmwarev1beta1.VSphereMachineSpec_NamingStrategy out
  |}.

Definition Convert_v1beta2_VSphereMachineSpec_To_v1beta1_VSphereMachineSpec (x : vmwarehub.VSphereMachineSpec) (out : vmwarev1beta1.VSphereMachineSpec) : res vmwarev1beta1.VSphereMachineSpec :=
  out ← autoConvert_v1beta2_VSphereMachineSpec_To_v1beta1_VSphereMachineSpec x out;
  if bool_decide (vmwarehub.VSphereMachineSpec_Naming x = vmwarehub.zero_VirtualMachineNamingSpec) then Ok out
  else
    template ← metav1_Convert_string_To_Pointer_string (vmwarehub.VirtualMachineNamingSpec_Template (vmwarehub.VSphereMachineSpec_Naming x));
    Ok (vmwarev1beta1.set_VSphereMachineSpec_NamingStrategy (Some (vmwarev1beta1.mkVirtualMachineNamingStrategy template)) out).

Definition cast_v1beta2_KeyValuePair (x : vmwarehub.KeyValuePair) : vmwarev1beta1.KeyValuePair := {|
  vmwarev1beta1.KeyValuePair_Key := vmwarehub.KeyValuePair_Key x;
  vmwarev1beta1.KeyValuePair_Value := vmwarehub.KeyValuePair_Value x
|}.

Definition cast_v1beta2_VSphereMachineNetworkDHCPOptionsStatus (x : vmwarehub.VSphereMachineNetworkDHCPOptionsStatus) : vmwarev1beta1.VSphereMachineNetworkDHCPOptionsStatus := {|
  vmwarev1beta1.VSphereMachineNetworkDHCPOptionsStatus_Config := option_map (map cast_v1beta2_KeyValuePair) (vmwarehub.VSphereMachineNetworkDHCPOptionsStatus_Config x);
  vmwarev1beta1.VSphereMachineNetworkDHCPOptionsStatus_Enabled := vmwarehub.VSphereMachineNetworkDHCPOptionsStatus_Enabled x
|}.

Definition cast_v1beta2_VSphereMachineNetworkDHCPStatus (x : vmwarehub.VSphereMachineNetworkDHCPStatus) : vmwarev1beta1.VSphereMachineNetworkDHCPStatus := {|
  vmwarev1beta1.VSphereMachineNetworkDHCPStatus_IP4 := cast_v1beta2_VSphereMachineNetworkDHCPOptionsStatus (vmwarehub.VSphereMachineNetworkDHCPStatus_IP4 x);
  vmwarev1beta1.VSphereMachineNetworkDHCPStatus_IP6 := cast_v1beta2_VSphereMachineNetworkDHCPOptionsStatus (vmwarehub.VSphereMachineNetworkDHCPStatus_IP6 x)
|}.

Definition cast_v1beta2_VSphereMachineNetworkInterfaceIPAddrStatus (x : vmwarehub.VSphereMachineNetworkInterfaceIPAddrStatus) : vmwarev1beta1.VSphereMachineNetworkInterfaceIPAddrStatus := {|
  vmwarev1beta1.VSphereMachineNetworkInterfaceIPAddrStatus_Address := vmwarehub.VSphereMachineNetworkInterfaceIPAddrStatus_Address x;
  vmwarev1beta1.VSphereMachineNetworkInterfaceIPAddrStatus_Lifetime := vmwarehub.VSphereMachineNetworkInterfaceIPAddrStatus_Lifetime x;
  vmwarev1beta1.VSphereMachineNetworkInterfaceIPAddrStatus_Origin := vmwarehub.VSphereMachineNetworkInterfaceIPAddrStatus_Origin x;
  vmwarev1beta1.VSphereMachineNetworkInterfaceIPAddrStatus_State := vmwarehub.VSphereMachineNetworkInterfaceIPAddrStatus_State x
|}.

Definition cast_v1beta2_VSphereMachineNetworkInterfaceIPStatus (x : vmwarehub.VSphereMachineNetworkInterfaceIPStatus) : vmwarev1beta1.VSphereMachineNetworkInterfaceIPStatus := {|
  vmwarev1beta1.VSphereMachineNetworkInterfaceIPStatus_AutoConfigurationEnabled := vmwarehub.VSphereMachineNetworkInterfaceIPStatus_AutoConfigurationEnabled x;
  vmwarev1beta1.VSphereMachineNetworkInterfaceIPStatus_DHCP := cast_v1beta2_VSphereMachineNetworkDHCPStatus (vmwarehub.VSphereMachineNetworkInterfaceIPStatus_DHCP x);
  vmwarev1beta1.VSphereMachineNetworkInterfaceIPStatus_Addresses := option_map (map cast_v1beta2_VSphereMachineNetworkInterfaceIPAddrStatus) (vmwarehub.VSphereMachineNetworkInterfaceIPStatus_Addresses x);
  vmwarev1beta1.VSphereMachineNetworkInterfaceIPStatus_MACAddr := vmwarehub.VSphereMachineNetworkInterfaceIPStatus_MACAddr x
|}.

Definition cast_v1beta2_VSphereMachineNetworkDNSStatus (x : vmwarehub.VSphereMachineNetworkDNSStatus) : vmwarev1beta1.VSphereMachineNetworkDNSStatus := {|
  vmwarev1beta1.VSphereMachineNetworkDNSStatus_DHCP := vmwarehub.VSphereMachineNetworkDNSStatus_DHCP x;
  vmwarev1beta1.VSphereMachineNetworkDNSStatus_DomainName := vmwarehub.VSphereMachineNetworkDNSStatus_DomainName x;
  vmwarev1beta1.VSphereMachineNetworkDNSStatus_HostName := vmwarehub.VSphereMachineNetworkDNSStatus_HostName x;
  vmwarev1beta1.VSphereMachineNetworkDNSStatus_Nameservers := vmwarehub.VSphereMachineNetworkDNSStatus_Nameservers x;
  vmwarev1beta1.VSphereMachineNetworkDNSStatus_SearchDomains := vmwarehub.VSphereMachineNetworkDNSStatus_SearchDomains x
|}.

Definition cast_v1beta2_VSphereMachineNetworkInterfaceStatus (x : vmwarehub.VSphereMachineNetworkInterfaceStatus) : vmwarev1beta1.VSphereMachineNetworkInterfaceStatus := {|
  vmwarev1beta1.VSphereMachineNetworkInterfaceStatus_Name := vmwarehub.VSphereMachineNetworkInterfaceStatus_Name x;
  vmwarev1beta1.VSphereMachineNetworkInterfaceStatus_DeviceKey := vmwarehub.VSphereMachineNetworkInterfaceStatus_DeviceKey x;
  vmwarev1beta1.VSphereMachineNetworkInterfaceStatus_IP := cast_v1beta2_VSphereMachineNetworkInterfaceIPStatus (vmwarehub.VSphereMachineNetworkInterfaceStatus_IP x);
  vmwarev1beta1.VSphereMachineNetworkInterfaceStatus_DNS := cast_v1beta2_VSphereMachineNetworkDNSStatus (vmwarehub.VSphereMachineNetworkInterfaceStatus_DNS x)
|}.

Definition autoConvert_v1beta2_VSphereMachineNetworkStatus_To_v1beta1_VSphereMachineNetworkStatus (x : vmwarehub.VSphereMachineNetworkStatus) (out : vmwarev1beta1.VSphereMachineNetworkStatus) : res vmwarev1beta1.VSphereMachineNetworkStatus :=
  mret {|
    vmwarev1beta1.VSphereMachineNetworkStatus_Interfaces := option_map (map cast_v1beta2_VSphereMachineNetworkInterfaceStatus) (vmwarehub.VSphereMachineNetworkStatus_Interfaces x)
  |}.

Definition Convert_v1beta2_VSphereMachineNetworkStatus_To_v1beta1_VSphereMachineNetworkStatus (x : vmwarehub.VSphereMachineNetworkStatus) (out : vmwarev1beta1.VSphereMachineNetworkStatus) : res vmwarev1beta1.VSphereMachineNetworkStatus :=
  autoConvert_v1beta2_VSphereMachineNetworkStatus_To_v1beta1_VSphereMachineNetworkStatus x out.

Definition autoConvert_v1beta2_VSphereMachineStatus_To_v1beta1_VSphereMachineStatus (x : vmwarehub.VSphereMachineStatus) (out : vmwarev1beta1.VSphereMachineStatus) : res vmwarev1beta1.VSphereMachineStatus :=
  v_Conditions ← convert_slice (λ p, Convert_v1_Condition_To_v1beta1_Condition p zero_V1Beta1Condition) (vmwarehub.VSphereMachineStatus_Conditions x);
  v_Network ← Convert_v1beta2_VSphereMachineNetworkStatus_To_v1beta1_VSphereMachineNetworkStatus (vmwarehub.VSphereMachineStatus_Network x) (vmwarev1beta1.VSphereMachineStatus_Network out);
  mret {|
    vmwarev1beta1.VSphereMachineStatus_Ready := vmwarev1beta1.VSphereMachineStatus_Ready out;
    vmwarev1beta1.VSphereMachineStatus_Addresses := vmwarehub.VSphereMachineStatus_Addresses x;
    vmwarev1beta1.VSphereMachineStatus_ID := vmwarev1beta1.VSphereMachineStatus_ID out;
    vmwarev1beta1.VSphereMachineStatus_IPAddr := vmwarev1beta1.VSphereMachineStatus_IPAddr out;
    vmwarev1beta1.VSphereMachineStatus_FailureReason := vmwarev1beta1.VSphereMachineStatus_FailureReason out;
    vmwarev1beta1.VSphereMachineStatus_FailureMessage := vmwarev1beta1.VSphereMachineStatus_FailureMessage out;
    vmwarev1beta1.VSphereMachineStatus_VMStatus := vmwarev1beta1.VSphereMachineStatus_VMStatus out;
    vmwarev1beta1.VSphereMachineStatus_Conditions := v_Conditions;
    vmwarev1beta1.VSphereMachineStatus_V1Beta2 := vmwarev1beta1.VSphereMachineStatus_V1Beta2 out;
    vmwarev1beta1.VSphereMachineStatus_Network := v_Network
  |}.

(** The states of v1beta1 of the phases; there is none of another text. *)
Definition state_of_phase (phase : string) : option string :=
  if String.eqb phase "NotFound" then Some "notfound"
  else if String.eqb phase "Created" then Some "created"
  else if String.eqb phase "PoweredOn" then Some "poweredon"
  else if String.eqb phase "Pending" then Some "pending"
  else if String.eqb phase "Ready" then Some "ready"
  else if String.eqb phase "Deleting" then Some "deleting"
  else if String.eqb phase "Error" then Some "error"
  else None.

Definition Convert_v1beta2_VSphereMachineStatus_To_v1beta1_VSphereMachineStatus (x : vmwarehub.VSphereMachineStatus) (out : vmwarev1beta1.VSphereMachineStatus) : res vmwarev1beta1.VSphereMachineStatus :=
  out ← autoConvert_v1beta2_VSphereMachineStatus_To_v1beta1_VSphereMachineStatus x out;
  let out := vmwarev1beta1.set_VSphereMachineStatus_ID (Some (vmwarehub.VSphereMachineStatus_BiosUUID x)) out in
  let out := match state_of_phase (vmwarehub.VSphereMachineStatus_Phase x) with
    | Some state => vmwarev1beta1.set_VSphereMachineStatus_VMStatus state out
    | None => out
    end in
  let out := vmwarev1beta1.set_VSphereMachineStatus_Conditions None out in
  let out := match vmwarehub.VSphereMachineStatus_Deprecated x ≫= vmwarehub.VSphereMachineDeprecatedStatus_V1Beta1 with
    | Some deprecated =>
        let out := match vmwarehub.VSphereMachineV1Beta1DeprecatedStatus_Conditions deprecated with
          | Some conditions => vmwarev1beta1.set_VSphereMachineStatus_Conditions (Some (Convert_v1beta2_Deprecated_V1Beta1_Conditions_To_v1beta1_Conditions conditions)) out
          | None => out
          end in
        let out := vmwarev1beta1.set_VSphereMachineStatus_FailureReason (vmwarehub.VSphereMachineV1Beta1DeprecatedStatus_FailureReason deprecated) out in
        vmwarev1beta1.set_VSphereMachineStatus_FailureMessage (vmwarehub.VSphereMachineV1Beta1DeprecatedStatus_FailureMessage deprecated) out
    | None => out
    end in
  let out := vmwarev1beta1.set_VSphereMachineStatus_Ready
    (ptr_deref (vmwarehub.VSphereMachineInitializationStatus_Provisioned (vmwarehub.VSphereMachineStatus_Initialization x)) false) out in
  match vmwarehub.VSphereMachineStatus_Conditions x with
  | None => Ok out
  | Some conditions => Ok (vmwarev1beta1.set_VSphereMachineStatus_V1Beta2 (Some (vmwarev1beta1.mkVSphereMachineV1Beta2Status (Some conditions))) out)
  end.

Definition autoConvert_v1beta2_VSphereMachine_To_v1beta1_VSphereMachine (x : vmwarehub.VSphereMachine) (out : vmwarev1beta1.VSphereMachine) : res vmwarev1beta1.VSphereMachine :=
  v_Spec ← Convert_v1beta2_VSphereMachineSpec_To_v1beta1_VSphereMachineSpec (vmwarehub.VSphereMachine_Spec x) (vmwarev1beta1.VSphereMachine_Spec out);
  v_Status ← Convert_v1beta2_VSphereMachineStatus_To_v1beta1_VSphereMachineStatus (vmwarehub.VSphereMachine_Status x) (vmwarev1beta1.VSphereMachine_Status out);
  mret {|
    vmwarev1beta1.VSphereMachine_ObjectMeta := vmwarehub.VSphereMachine_ObjectMeta x;
    vmwarev1beta1.VSphereMachine_Spec := v_Spec;
    vmwarev1beta1.VSphereMachine_Status := v_Status
  |}.

Definition Convert_v1beta2_VSphereMachine_To_v1beta1_VSphereMachine (x : vmwarehub.VSphereMachine) (out : vmwarev1beta1.VSphereMachine) : res vmwarev1beta1.VSphereMachine :=
  autoConvert_v1beta2_VSphereMachine_To_v1beta1_VSphereMachine x out.

Definition autoConvert_v1beta1_VSphereMachineList_To_v1beta2_VSphereMachineList (x : vmwarev1beta1.VSphereMachineList) (out : vmwarehub.VSphereMachineList) : res vmwarehub.VSphereMachineList :=
  v_Items ← convert_slice (λ p, Convert_v1beta1_VSphereMachine_To_v1beta2_VSphereMachine p vmwarehub.zero_VSphereMachine) (vmwarev1beta1.VSphereMachineList_Items x);
  mret {|
    vmwarehub.VSphereMachineList_ListMeta := vmwarev1beta1.VSphereMachineList_ListMeta x;
    vmwarehub.VSphereMachineList_Items := v_Items
  |}.

Definition Convert_v1beta1_VSphereMachineList_To_v1beta2_VSphereMachineList (x : vmwarev1beta1.VSphereMachineList) (out : vmwarehub.VSphereMachineList) : res vmwarehub.VSphereMachineList :=
  autoConvert_v1beta1_VSphereMachineList_To_v1beta2_VSphereMachineList x out.

Definition autoConvert_v1beta2_VSphereMachineList_To_v1beta1_VSphereMachineList (x : vmwarehub.VSphereMachineList) (out : vmwarev1beta1.VSphereMachineList) : res vmwarev1beta1.VSphereMachineList :=
  v_Items ← convert_slice (λ p, Convert_v1beta2_VSphereMachine_To_v1beta1_VSphereMachine p vmwarev1beta1.zero_VSphereMachine) (vmwarehub.VSphereMachineList_Items x);
  mret {|
    vmwarev1beta1.VSphereMachineList_ListMeta := vmwarehub.VSphereMachineList_ListMeta x;
    vmwarev1beta1.VSphereMachineList_Items := v_Items
  |}.

Definition Convert_v1beta2_VSphereMachineList_To_v1beta1_VSphereMachineList (x : vmwarehub.VSphereMachineList) (out : vmwarev1beta1.VSphereMachineList) : res vmwarev1beta1.VSphereMachineList :=
  autoConvert_v1beta2_VSphereMachineList_To_v1beta1_VSphereMachineList x out.

Definition autoConvert_v1beta1_VSphereMachineNetworkDHCPOptionsStatus_To_v1beta2_VSphereMachineNetworkDHCPOptionsStatus (x : vmwarev1beta1.VSphereMachineNetworkDHCPOptionsStatus) (out : vmwarehub.VSphereMachineNetworkDHCPOptionsStatus) : res vmwarehub.VSphereMachineNetworkDHCPOptionsStatus :=
  mret {|
    vmwarehub.VSphereMachineNetworkDHCPOptionsStatus_Config := option_map (map cast_v1beta1_KeyValuePair) (vmwarev1beta1.VSphereMachineNetworkDHCPOptionsStatus_Config x);
    vmwarehub.VSphereMachineNetworkDHCPOptionsStatus_Enabled := vmwarev1beta1.VSphereMachineNetworkDHCPOptionsStatus_Enabled x
  |}.

Definition Convert_v1beta1_VSphereMachineNetworkDHCPOptionsStatus_To_v1beta2_VSphereMachineNetworkDHCPOptionsStatus (x : vmwarev1beta1.VSphereMachineNetworkDHCPOptionsStatus) (out : vmwarehub.VSphereMachineNetworkDHCPOptionsStatus) : res vmwarehub.VSphereMachineNetworkDHCPOptionsStatus :=
  autoConvert_v1beta1_VSphereMachineNetworkDHCPOptionsStatus_To_v1beta2_VSphereMachineNetworkDHCPOptionsStatus x out.

Definition autoConvert_v1beta2_VSphereMachineNetworkDHCPOptionsStatus_To_v1beta1_VSphereMachineNetworkDHCPOptionsStatus (x : vmwarehub.VSphereMachineNetworkDHCPOptionsStatus) (out : vmwarev1beta1.VSphereMachineNetworkDHCPOptionsStatus) : res vmwarev1beta1.VSphereMachineNetworkDHCPOptionsStatus :=
  mret {|
    vmwarev1beta1.VSphereMachineNetworkDHCPOptionsStatus_Config := option_map (map cast_v1beta2_KeyValuePair) (vmwarehub.VSphereMachineNetworkDHCPOptionsStatus_Config x);
    vmwarev1beta1.VSphereMachineNetworkDHCPOptionsStatus_Enabled := vmwarehub.VSphereMachineNetworkDHCPOptionsStatus_Enabled x
  |}.

Definition Convert_v1beta2_VSphereMachineNetworkDHCPOptionsStatus_To_v1beta1_VSphereMachineNetworkDHCPOptionsStatus (x : vmwarehub.VSphereMachineNetworkDHCPOptionsStatus) (out : vmwarev1beta1.VSphereMachineNetworkDHCPOptionsStatus) : res vmwarev1beta1.VSphereMachineNetworkDHCPOptionsStatus :=
  autoConvert_v1beta2_VSphereMachineNetworkDHCPOptionsStatus_To_v1beta1_VSphereMachineNetworkDHCPOptionsStatus x out.

Definition autoConvert_v1beta1_VSphereMachineNetworkDHCPStatus_To_v1beta2_VSphereMachineNetworkDHCPStatus (x : vmwarev1beta1.VSphereMachineNetworkDHCPStatus) (out : vmwarehub.VSphereMachineNetworkDHCPStatus) : res vmwarehub.VSphereMachineNetworkDHCPStatus :=
  v_IP4 ← Convert_v1beta1_VSphereMachineNetworkDHCPOptionsStatus_To_v1beta2_VSphereMachineNetworkDHCPOptionsStatus (vmwarev1beta1.VSphereMachineNetworkDHCPStatus_IP4 x) (vmwarehub.VSphereMachineNetworkDHCPStatus_IP4 out);
  v_IP6 ← Convert_v1beta1_VSphereMachineNetworkDHCPOptionsStatus_To_v1beta2_VSphereMachineNetworkDHCPOptionsStatus (vmwarev1beta1.VSphereMachineNetworkDHCPStatus_IP6 x) (vmwarehub.VSphereMachineNetworkDHCPStatus_IP6 out);
  mret {|
    vmwarehub.VSphereMachineNetworkDHCPStatus_IP4 := v_IP4;
    vmwarehub.VSphereMachineNetworkDHCPStatus_IP6 := v_IP6
  |}.

Definition Convert_v1beta1_VSphereMachineNetworkDHCPStatus_To_v1beta2_VSphereMachineNetworkDHCPStatus (x : vmwarev1beta1.VSphereMachineNetworkDHCPStatus) (out : vmwarehub.VSphereMachineNetworkDHCPStatus) : res vmwarehub.VSphereMachineNetworkDHCPStatus :=
  autoConvert_v1beta1_VSphereMachineNetworkDHCPStatus_To_v1beta2_VSphereMachineNetworkDHCPStatus x out.

Definition autoConvert_v1beta2_VSphereMachineNetworkDHCPStatus_To_v1beta1_VSphereMachineNetworkDHCPStatus (x : vmwarehub.VSphereMachineNetworkDHCPStatus) (out : vmwarev1beta1.VSphereMachineNetworkDHCPStatus) : res vmwarev1beta1.VSphereMachineNetworkDHCPStatus :=
  v_IP4 ← Convert_v1beta2_VSphereMachineNetworkDHCPOptionsStatus_To_v1beta1_VSphereMachineNetworkDHCPOptionsStatus (vmwarehub.VSphereMachineNetworkDHCPStatus_IP4 x) (vmwarev1beta1.VSphereMachineNetworkDHCPStatus_IP4 out);
  v_IP6 ← Convert_v1beta2_VSphereMachineNetworkDHCPOptionsStatus_To_v1beta1_VSphereMachineNetworkDHCPOptionsStatus (vmwarehub.VSphereMachineNetworkDHCPStatus_IP6 x) (vmwarev1beta1.VSphereMachineNetworkDHCPStatus_IP6 out);
  mret {|
    vmwarev1beta1.VSphereMachineNetworkDHCPStatus_IP4 := v_IP4;
    vmwarev1beta1.VSphereMachineNetworkDHCPStatus_IP6 := v_IP6
  |}.

Definition Convert_v1beta2_VSphereMachineNetworkDHCPStatus_To_v1beta1_VSphereMachineNetworkDHCPStatus (x : vmwarehub.VSphereMachineNetworkDHCPStatus) (out : vmwarev1beta1.VSphereMachineNetworkDHCPStatus) : res vmwarev1beta1.VSphereMachineNetworkDHCPStatus :=
  autoConvert_v1beta2_VSphereMachineNetworkDHCPStatus_To_v1beta1_VSphereMachineNetworkDHCPStatus x out.

Definition autoConvert_v1beta1_VSphereMachineNetworkDNSStatus_To_v1beta2_VSphereMachineNetworkDNSStatus (x : vmwarev1beta1.VSphereMachineNetworkDNSStatus) (out : vmwarehub.VSphereMachineNetworkDNSStatus) : res vmwarehub.VSphereMachineNetworkDNSStatus :=
  mret {|
    vmwarehub.VSphereMachineNetworkDNSStatus_DHCP := vmwarev1beta1.VSphereMachineNetworkDNSStatus_DHCP x;
    vmwarehub.VSphereMachineNetworkDNSStatus_DomainName := vmwarev1beta1.VSphereMachineNetworkDNSStatus_DomainName x;
    vmwarehub.VSphereMachineNetworkDNSStatus_HostName := vmwarev1beta1.VSphereMachineNetworkDNSStatus_HostName x;
    vmwarehub.VSphereMachineNetworkDNSStatus_Nameservers := vmwarev1beta1.VSphereMachineNetworkDNSStatus_Nameservers x;
    vmwarehub.VSphereMachineNetworkDNSStatus_SearchDomains := vmwarev1beta1.VSphereMachineNetworkDNSStatus_SearchDomains x
  |}.

Definition Convert_v1beta1_VSphereMachineNetworkDNSStatus_To_v1beta2_VSphereMachineNetworkDNSStatus (x : vmwarev1beta1.VSphereMachineNetworkDNSStatus) (out : vmwarehub.VSphereMachineNetworkDNSStatus) : res vmwarehub.VSphereMachineNetworkDNSStatus :=
  autoConvert_v1beta1_VSphereMachineNetworkDNSStatus_To_v1beta2_VSphereMachineNetworkDNSStatus x out.

Definition autoConvert_v1beta2_VSphereMachineNetworkDNSStatus_To_v1beta1_VSphereMachineNetworkDNSStatus (x : vmwarehub.VSphereMachineNetworkDNSStatus) (out : vmwarev1beta1.VSphereMachineNetworkDNSStatus) : res vmwarev1beta1.VSphereMachineNetworkDNSStatus :=
  mret {|
    vmwarev1beta1.VSphereMachineNetworkDNSStatus_DHCP := vmwarehub.VSphereMachineNetworkDNSStatus_DHCP x;
    vmwarev1beta1.VSphereMachineNetworkDNSStatus_DomainName := vmwarehub.VSphereMachineNetworkDNSStatus_DomainName x;
    vmwarev1beta1.VSphereMachineNetworkDNSStatus_HostName := vmwarehub.VSphereMachineNetworkDNSStatus_HostName x;
    vmwarev1beta1.VSphereMachineNetworkDNSStatus_Nameservers := vmwarehub.VSphereMachineNetworkDNSStatus_Nameservers x;
    vmwarev1beta1.VSphereMachineNetworkDNSStatus_SearchDomains := vmwarehub.VSphereMachineNetworkDNSStatus_SearchDomains x
  |}.

Definition Convert_v1beta2_VSphereMachineNetworkDNSStatus_To_v1beta1_VSphereMachineNetworkDNSStatus (x : vmwarehub.VSphereMachineNetworkDNSStatus) (out : vmwarev1beta1.VSphereMachineNetworkDNSStatus) : res vmwarev1beta1.VSphereMachineNetworkDNSStatus :=
  autoConvert_v1beta2_VSphereMachineNetworkDNSStatus_To_v1beta1_VSphereMachineNetworkDNSStatus x out.

Definition autoConvert_v1beta1_VSphereMachineNetworkInterfaceIPAddrStatus_To_v1beta2_VSphereMachineNetworkInterfaceIPAddrStatus (x : vmwarev1beta1.VSphereMachineNetworkInterfaceIPAddrStatus) (out : vmwarehub.VSphereMachineNetworkInterfaceIPAddrStatus) : res vmwarehub.VSphereMachineNetworkInterfaceIPAddrStatus :=
  mret {|
    vmwarehub.VSphereMachineNetworkInterfaceIPAddrStatus_Address := vmwarev1beta1.VSphereMachineNetworkInterfaceIPAddrStatus_Address x;
    vmwarehub.VSphereMachineNetworkInterfaceIPAddrStatus_Lifetime := vmwarev1beta1.VSphereMachineNetworkInterfaceIPAddrStatus_Lifetime x;
    vmwarehub.VSphereMachineNetworkInterfaceIPAddrStatus_Origin := vmwarev1beta1.VSphereMachineNetworkInterfaceIPAddrStatus_Origin x;
    vmwarehub.VSphereMachineNetworkInterfaceIPAddrStatus_State := vmwarev1beta1.VSphereMachineNetworkInterfaceIPAddrStatus_State x
  |}.

Definition Convert_v1beta1_VSphereMachineNetworkInterfaceIPAddrStatus_To_v1beta2_VSphereMachineNetworkInterfaceIPAddrStatus (x : vmwarev1beta1.VSphereMachineNetworkInterfaceIPAddrStatus) (out : vmwarehub.VSphereMachineNetworkInterfaceIPAddrStatus) : res vmwarehub.VSphereMachineNetworkInterfaceIPAddrStatus :=
  autoConvert_v1beta1_VSphereMachineNetworkInterfaceIPAddrStatus_To_v1beta2_VSphereMachineNetworkInterfaceIPAddrStatus x out.

Definition autoConvert_v1beta2_VSphereMachineNetworkInterfaceIPAddrStatus_To_v1beta1_VSphereMachineNetworkInterfaceIPAddrStatus (x : vmwarehub.VSphereMachineNetworkInterfaceIPAddrStatus) (out : vmwarev1beta1.VSphereMachineNetworkInterfaceIPAddrStatus) : res vmwarev1beta1.VSphereMachineNetworkInterfaceIPAddrStatus :=
  mret {|
    vmwarev1beta1.VSphereMachineNetworkInterfaceIPAddrStatus_Address := vmwarehub.VSphereMachineNetworkInterfaceIPAddrStatus_Address x;
    vmwarev1beta1.VSphereMachineNetworkInterfaceIPAddrStatus_Lifetime := vmwarehub.VSphereMachineNetworkInterfaceIPAddrStatus_Lifetime x;
    vmwarev1beta1.VSphereMachineNetworkInterfaceIPAddrStatus_Origin := vmwarehub.VSphereMachineNetworkInterfaceIPAddrStatus_Origin x;
    vmwarev1beta1.VSphereMachineNetworkInterfaceIPAddrStatus_State := vmwarehub.VSphereMachineNetworkInterfaceIPAddrStatus_State x
  |}.

Definition Convert_v1beta2_VSphereMachineNetworkInterfaceIPAddrStatus_To_v1beta1_VSphereMachineNetworkInterfaceIPAddrStatus (x : vmwarehub.VSphereMachineNetworkInterfaceIPAddrStatus) (out : vmwarev1beta1.VSphereMachineNetworkInterfaceIPAddrStatus) : res vmwarev1beta1.VSphereMachineNetworkInterfaceIPAddrStatus :=
  autoConvert_v1beta2_VSphereMachineNetworkInterfaceIPAddrStatus_To_v1beta1_VSphereMachineNetworkInterfaceIPAddrStatus x out.

Definition autoConvert_v1beta1_VSphereMachineNetworkInterfaceIPStatus_To_v1beta2_VSphereMachineNetworkInterfaceIPStatus (x : vmwarev1beta1.VSphereMachineNetworkInterfaceIPStatus) (out : vmwarehub.VSphereMachineNetworkInterfaceIPStatus) : res vmwarehub.VSphereMachineNetworkInterfaceIPStatus :=
  v_DHCP ← Convert_v1beta1_VSphereMachineNetworkDHCPStatus_To_v1beta2_VSphereMachineNetworkDHCPStatus (vmwarev1beta1.VSphereMachineNetworkInterfaceIPStatus_DHCP x) (vmwarehub.VSphereMachineNetworkInterfaceIPStatus_DHCP out);
  mret {|
    vmwarehub.VSphereMachineNetworkInterfaceIPStatus_AutoConfigurationEnabled := vmwarev1beta1.VSphereMachineNetworkInterfaceIPStatus_AutoConfigurationEnabled x;
    vmwarehub.VSphereMachineNetworkInterfaceIPStatus_DHCP := v_DHCP;
    vmwarehub.VSphereMachineNetworkInterfaceIPStatus_Addresses := option_map (map cast_v1beta1_VSphereMachineNetworkInterfaceIPAddrStatus) (vmwarev1beta1.VSphereMachineNetworkInterfaceIPStatus_Addresses x);
    vmwarehub.VSphereMachineNetworkInterfaceIPStatus_MACAddr := vmwarev1beta1.VSphereMachineNetworkInterfaceIPStatus_MACAddr x
  |}.

Definition Convert_v1beta1_VSphereMachineNetworkInterfaceIPStatus_To_v1beta2_VSphereMachineNetworkInterfaceIPStatus (x : vmwarev1beta1.VSphereMachineNetworkInterfaceIPStatus) (out : vmwarehub.VSphereMachineNetworkInterfaceIPStatus) : res vmwarehub.VSphereMachineNetworkInterfaceIPStatus :=
  autoConvert_v1beta1_VSphereMachineNetworkInterfaceIPStatus_To_v1beta2_VSphereMachineNetworkInterfaceIPStatus x out.

Definition autoConvert_v1beta2_VSphereMachineNetworkInterfaceIPStatus_To_v1beta1_VSphereMachineNetworkInterfaceIPStatus (x : vmwarehub.VSphereMachineNetworkInterfaceIPStatus) (out : vmwarev1beta1.VSphereMachineNetworkInterfaceIPStatus) : res vmwarev1beta1.VSphereMachineNetworkInterfaceIPStatus :=
  v_DHCP ← Convert_v1beta2_VSphereMachineNetworkDHCPStatus_To_v1beta1_VSphereMachineNetworkDHCPStatus (vmwarehub.VSphereMachineNetworkInterfaceIPStatus_DHCP x) (vmwarev1beta1.VSphereMachineNetworkInterfaceIPStatus_DHCP out);
  mret {|
    vmwarev1beta1.VSphereMachineNetworkInterfaceIPStatus_AutoConfigurationEnabled := vmwarehub.VSphereMachineNetworkInterfaceIPStatus_AutoConfigurationEnabled x;
    vmwarev1beta1.VSphereMachineNetworkInterfaceIPStatus_DHCP := v_DHCP;
    vmwarev1beta1.VSphereMachineNetworkInterfaceIPStatus_Addresses := option_map (map cast_v1beta2_VSphereMachineNetworkInterfaceIPAddrStatus) (vmwarehub.VSphereMachineNetworkInterfaceIPStatus_Addresses x);
    vmwarev1beta1.VSphereMachineNetworkInterfaceIPStatus_MACAddr := vmwarehub.VSphereMachineNetworkInterfaceIPStatus_MACAddr x
  |}.

Definition Convert_v1beta2_VSphereMachineNetworkInterfaceIPStatus_To_v1beta1_VSphereMachineNetworkInterfaceIPStatus (x : vmwarehub.VSphereMachineNetworkInterfaceIPStatus) (out : vmwarev1beta1.VSphereMachineNetworkInterfaceIPStatus) : res vmwarev1beta1.VSphereMachineNetworkInterfaceIPStatus :=
  autoConvert_v1beta2_VSphereMachineNetworkInterfaceIPStatus_To_v1beta1_VSphereMachineNetworkInterfaceIPStatus x out.

Definition autoConvert_v1beta1_VSphereMachineNetworkInterfaceStatus_To_v1beta2_VSphereMachineNetworkInterfaceStatus (x : vmwarev1beta1.VSphereMachineNetworkInterfaceStatus) (out : vmwarehub.VSphereMachineNetworkInterfaceStatus) : res vmwarehub.VSphereMachineNetworkInterfaceStatus :=
  v_IP ← Convert_v1beta1_VSphereMachineNetworkInterfaceIPStatus_To_v1beta2_VSphereMachineNetworkInterfaceIPStatus (vmwarev1beta1.VSphereMachineNetworkInterfaceStatus_IP x) (vmwarehub.VSphereMachineNetworkInterfaceStatus_IP out);
  v_DNS ← Convert_v1beta1_VSphereMachineNetworkDNSStatus_To_v1beta2_VSphereMachineNetworkDNSStatus (vmwarev1beta1.VSphereMachineNetworkInterfaceStatus_DNS x) (vmwarehub.VSphereMachineNetworkInterfaceStatus_DNS out);
  mret {|
    vmwarehub.VSphereMachineNetworkInterfaceStatus_Name := vmwarev1beta1.VSphereMachineNetworkInterfaceStatus_Name x;
    vmwarehub.VSphereMachineNetworkInterfaceStatus_DeviceKey := vmwarev1beta1.VSphereMachineNetworkInterfaceStatus_DeviceKey x;
    vmwarehub.VSphereMachineNetworkInterfaceStatus_IP := v_IP;
    vmwarehub.VSphereMachineNetworkInterfaceStatus_DNS := v_DNS
  |}.

Definition Convert_v1beta1_VSphereMachineNetworkInterfaceStatus_To_v1beta2_VSphereMachineNetworkInterfaceStatus (x : vmwarev1beta1.VSphereMachineNetworkInterfaceStatus) (out : vmwarehub.VSphereMachineNetworkInterfaceStatus) : res vmwarehub.VSphereMachineNetworkInterfaceStatus :=
  autoConvert_v1beta1_VSphereMachineNetworkInterfaceStatus_To_v1beta2_VSphereMachineNetworkInterfaceStatus x out.

Definition autoConvert_v1beta2_VSphereMachineNetworkInterfaceStatus_To_v1beta1_VSphereMachineNetworkInterfaceStatus (x : vmwarehub.VSphereMachineNetworkInterfaceStatus) (out : vmwarev1beta1.VSphereMachineNetworkInterfaceStatus) : res vmwarev1beta1.VSphereMachineNetworkInterfaceStatus :=
  v_IP ← Convert_v1beta2_VSphereMachineNetworkInterfaceIPStatus_To_v1beta1_VSphereMachineNetworkInterfaceIPStatus (vmwarehub.VSphereMachineNetworkInterfaceStatus_IP x) (vmwarev1beta1.VSphereMachineNetworkInterfaceStatus_IP out);
  v_DNS ← Convert_v1beta2_VSphereMachineNetworkDNSStatus_To_v1beta1_VSphereMachineNetworkDNSStatus (vmwarehub.VSphereMachineNetworkInterfaceStatus_DNS x) (vmwarev1beta1.VSphereMachineNetworkInterfaceStatus_DNS out);
  mret {|
    vmwarev1beta1.VSphereMachineNetworkInterfaceStatus_Name := vmwarehub.VSphereMachineNetworkInterfaceStatus_Name x;
    vmwarev1beta1.VSphereMachineNetworkInterfaceStatus_DeviceKey := vmwarehub.VSphereMachineNetworkInterfaceStatus_DeviceKey x;
    vmwarev1beta1.VSphereMachineNetworkInterfaceStatus_IP := v_IP;
    vmwarev1beta1.VSphereMachineNetworkInterfaceStatus_DNS := v_DNS
  |}.

Definition Convert_v1beta2_VSphereMachineNetworkInterfaceStatus_To_v1beta1_VSphereMachineNetworkInterfaceStatus (x : vmwarehub.VSphereMachineNetworkInterfaceStatus) (out : vmwarev1beta1.VSphereMachineNetworkInterfaceStatus) : res vmwarev1beta1.VSphereMachineNetworkInterfaceStatus :=
  autoConvert_v1beta2_VSphereMachineNetworkInterfaceStatus_To_v1beta1_VSphereMachineNetworkInterfaceStatus x out.

Definition autoConvert_v1beta1_VSphereMachineTemplateResource_To_v1beta2_VSphereMachineTemplateResource (x : vmwarev1beta1.VSphereMachineTemplateResource) (out : vmwarehub.VSphereMachineTemplateResource) : res vmwarehub.VSphereMachineTemplateResource :=
  v_Spec ← Convert_v1beta1_VSphereMachineSpec_To_v1beta2_VSphereMachineSpec (vmwarev1beta1.VSphereMachineTemplateResource_Spec x) (vmwarehub.VSphereMachineTemplateResource_Spec out);
  mret {|
    vmwarehub.VSphereMachineTemplateResource_ObjectMeta := vmwarehub.VSphereMachineTemplateResource_ObjectMeta out;
    vmwarehub.VSphereMachineTemplateResource_Spec := v_Spec
  |}.

Definition Convert_v1beta1_VSphereMachineTemplateResource_To_v1beta2_VSphereMachineTemplateResource (x : vmwarev1beta1.VSphereMachineTemplateResource) (out : vmwarehub.VSphereMachineTemplateResource) : res vmwarehub.VSphereMachineTemplateResource :=
  autoConvert_v1beta1_VSphereMachineTemplateResource_To_v1beta2_VSphereMachineTemplateResource x out.

Definition autoConvert_v1beta1_VSphereMachineTemplateSpec_To_v1beta2_VSphereMachineTemplateSpec (x : vmwarev1beta1.VSphereMachineTemplateSpec) (out : vmwarehub.VSphereMachineTemplateSpec) : res vmwarehub.VSphereMachineTemplateSpec :=
  v_Template ← Convert_v1beta1_VSphereMachineTemplateResource_To_v1beta2_VSphereMachineTemplateResource (vmwarev1beta1.VSphereMachineTemplateSpec_Template x) (vmwarehub.VSphereMachineTemplateSpec_Template out);
  mret {|
    vmwarehub.VSphereMachineTemplateSpec_Template := v_Template
  |}.

Definition Convert_v1beta1_VSphereMachineTemplateSpec_To_v1beta2_VSphereMachineTemplateSpec (x : vmwarev1beta1.VSphereMachineTemplateSpec) (out : vmwarehub.VSphereMachineTemplateSpec) : res vmwarehub.VSphereMachineTemplateSpec :=
  autoConvert_v1beta1_VSphereMachineTemplateSpec_To_v1beta2_VSphereMachineTemplateSpec x out.

Definition autoConvert_v1beta1_VSphereMachineTemplateStatus_To_v1beta2_VSphereMachineTemplateStatus (x : vmwarev1beta1.VSphereMachineTemplateStatus) (out : vmwarehub.VSphereMachineTemplateStatus) : res vmwarehub.VSphereMachineTemplateStatus :=
  mret {|
    vmwarehub.VSphereMachineTemplateStatus_Capacity := vmwarev1beta1.VSphereMachineTemplateStatus_Capacity x;
    vmwarehub.VSphereMachineTemplateStatus_NodeInfo := vmwarehub.VSphereMachineTemplateStatus_NodeInfo out
  |}.

Definition Convert_v1beta1_VSphereMachineTemplateStatus_To_v1beta2_VSphereMachineTemplateStatus (x : vmwarev1beta1.VSphereMachineTemplateStatus) (out : vmwarehub.VSphereMachineTemplateStatus) : res vmwarehub.VSphereMachineTemplateStatus :=
  autoConvert_v1beta1_VSphereMachineTemplateStatus_To_v1beta2_VSphereMachineTemplateStatus x out.

Definition autoConvert_v1beta1_VSphereMachineTemplate_To_v1beta2_VSphereMachineTemplate (x : vmwarev1beta1.VSphereMachineTemplate) (out : vmwarehub.VSphereMachineTemplate) : res vmwarehub.VSphereMachineTemplate :=
  v_Spec ← Convert_v1beta1_VSphereMachineTemplateSpec_To_v1beta2_VSphereMachineTemplateSpec (vmwarev1beta1.VSphereMachineTemplate_Spec x) (vmwarehub.VSphereMachineTemplate_Spec out);
  v_Status ← Convert_v1beta1_VSphereMachineTemplateStatus_To_v1beta2_VSphereMachineTemplateStatus (vmwarev1beta1.VSphereMachineTemplate_Status x) (vmwarehub.VSphereMachineTemplate_Status out);
  mret {|
    vmwarehub.VSphereMachineTemplate_ObjectMeta := vmwarev1beta1.VSphereMachineTemplate_ObjectMeta x;
    vmwarehub.VSphereMachineTemplate_Spec := v_Spec;
    vmwarehub.VSphereMachineTemplate_Status := v_Status
  |}.

Definition Convert_v1beta1_VSphereMachineTemplate_To_v1beta2_VSphereMachineTemplate (x : vmwarev1beta1.VSphereMachineTemplate) (out : vmwarehub.VSphereMachineTemplate) : res vmwarehub.VSphereMachineTemplate :=
  autoConvert_v1beta1_VSphereMachineTemplate_To_v1beta2_VSphereMachineTemplate x out.

Definition autoConvert_v1beta2_VSphereMachineTemplateResource_To_v1beta1_VSphereMachineTemplateResource (x : vmwarehub.VSphereMachineTemplateResource) (out : vmwarev1beta1.VSphereMachineTemplateResource) : res vmwarev1beta1.VSphereMachineTemplateResource :=
  v_Spec ← Convert_v1beta2_VSphereMachineSpec_To_v1beta1_VSphereMachineSpec (vmwarehub.VSphereMachineTemplateResource_Spec x) (vmwarev1beta1.VSphereMachineTemplateResource_Spec out);
  mret {|
    vmwarev1beta1.VSphereMachineTemplateResource_Spec := v_Spec
  |}.

Definition Convert_v1beta2_VSphereMachineTemplateResource_To_v1beta1_VSphereMachineTemplateResource (x : vmwarehub.VSphereMachineTemplateResource) (out : vmwarev1beta1.VSphereMachineTemplateResource) : res vmwarev1beta1.VSphereMachineTemplateResource :=
  autoConvert_v1beta2_VSphereMachineTemplateResource_To_v1beta1_VSphereMachineTemplateResource x out.

Definition autoConvert_v1beta2_VSphereMachineTemplateSpec_To_v1beta1_VSphereMachineTemplateSpec (x : vmwarehub.VSphereMachineTemplateSpec) (out : vmwarev1beta1.VSphereMachineTemplateSpec) : res vmwarev1beta1.VSphereMachineTemplateSpec :=
  v_Template ← Convert_v1beta2_VSphereMachineTemplateResource_To_v1beta1_VSphereMachineTemplateResource (vmwarehub.VSphereMachineTemplateSpec_Template x) (vmwarev1beta1.VSphereMachineTemplateSpec_Template out);
  mret {|
    vmwarev1beta1.VSphereMachineTemplateSpec_Template := v_Template
  |}.

Definition Convert_v1beta2_VSphereMachineTemplateSpec_To_v1beta1_VSphereMachineTemplateSpec (x : vmwarehub.VSphereMachineTemplateSpec) (out : vmwarev1beta1.VSphereMachineTemplateSpec) : res vmwarev1beta1.VSphereMachineTemplateSpec :=
  autoConvert_v1beta2_VSphereMachineTemplateSpec_To_v1beta1_VSphereMachineTemplateSpec x out.

Definition autoConvert_v1beta2_VSphereMachineTemplateStatus_To_v1beta1_VSphereMachineTemplateStatus (x : vmwarehub.VSphereMachineTemplateStatus) (out : vmwarev1beta1.VSphereMachineTemplateStatus) : res vmwarev1beta1.VSphereMachineTemplateStatus :=
  mret {|
    vmwarev1beta1.VSphereMachineTemplateStatus_Capacity := vmwarehub.VSphereMachineTemplateStatus_Capacity x
  |}.

Definition Convert_v1beta2_VSphereMachineTemplateStatus_To_v1beta1_VSphereMachineTemplateStatus (x : vmwarehub.VSphereMachineTemplateStatus) (out : vmwarev1beta1.VSphereMachineTemplateStatus) : res vmwarev1beta1.VSphereMachineTemplateStatus :=
  autoConvert_v1beta2_VSphereMachineTemplateStatus_To_v1beta1_VSphereMachineTemplateStatus x out.

Definition autoConvert_v1beta2_VSphereMachineTemplate_To_v1beta1_VSphereMachineTemplate (x : vmwarehub.VSphereMachineTemplate) (out : vmwarev1beta1.VSphereMachineTemplate) : res vmwarev1beta1.VSphereMachineTemplate :=
  v_Spec ← Convert_v1beta2_VSphereMachineTemplateSpec_To_v1beta1_VSphereMachineTemplateSpec (vmwarehub.VSphereMachineTemplate_Spec x) (vmwarev1beta1.VSphereMachineTemplate_Spec out);
  v_Status ← Convert_v1beta2_VSphereMachineTemplateStatus_To_v1beta1_VSphereMachineTemplateStatus (vmwarehub.VSphereMachineTemplate_Status x) (vmwarev1beta1.VSphereMachineTemplate_Status out);
  mret {|
    vmwarev1beta1.VSphereMachineTemplate_ObjectMeta := vmwarehub.VSphereMachineTemplate_ObjectMeta x;
    vmwarev1beta1.VSphereMachineTemplate_Spec := v_Spec;
    vmwarev1beta1.VSphereMachineTemplate_Status := v_Status
  |}.

Definition Convert_v1beta2_VSphereMachineTemplate_To_v1beta1_VSphereMachineTemplate (x : vmwarehub.VSphereMachineTemplate) (out : vmwarev1beta1.VSphereMachineTemplate) : res vmwarev1beta1.VSphereMachineTemplate :=
  autoConvert_v1beta2_VSphereMachineTemplate_To_v1beta1_VSphereMachineTemplate x out.

Definition autoConvert_v1beta1_VSphereMachineTemplateList_To_v1beta2_VSphereMachineTemplateList (x : vmwarev1beta1.VSphereMachineTemplateList) (out : vmwarehub.VSphereMachineTemplateList) : res vmwarehub.VSphereMachineTemplateList :=
  v_Items ← convert_slice (λ p, Convert_v1beta1_VSphereMachineTemplate_To_v1beta2_VSphereMachineTemplate p vmwarehub.zero_VSphereMachineTemplate) (vmwarev1beta1.VSphereMachineTemplateList_Items x);
  mret {|
    vmwarehub.VSphereMachineTemplateList_ListMeta := vmwarev1beta1.VSphereMachineTemplateList_ListMeta x;
    vmwarehub.VSphereMachineTemplateList_Items := v_Items
  |}.

Definition Convert_v1beta1_VSphereMachineTemplateList_To_v1beta2_VSphereMachineTemplateList (x : vmwarev1beta1.VSphereMachineTemplateList) (out : vmwarehub.VSphereMachineTemplateList) : res vmwarehub.VSphereMachineTemplateList :=
  autoConvert_v1beta1_VSphereMachineTemplateList_To_v1beta2_VSphereMachineTemplateList x out.

Definition autoConvert_v1beta2_VSphereMachineTemplateList_To_v1beta1_VSphereMachineTemplateList (x : vmwarehub.VSphereMachineTemplateList) (out : vmwarev1beta1.VSphereMachineTemplateList) : res vmwarev1beta1.VSphereMachineTemplateList :=
  v_Items ← convert_slice (λ p, Convert_v1beta2_VSphereMachineTemplate_To_v1beta1_VSphereMachineTemplate p vmwarev1beta1.zero_VSphereMachineTemplate) (vmwarehub.VSphereMachineTemplateList_Items x);
  mret {|
    vmwarev1beta1.VSphereMachineTemplateList_ListMeta := vmwarehub.VSphereMachineTemplateList_ListMeta x;
    vmwarev1beta1.VSphereMachineTemplateList_Items := v_Items
  |}.

Definition Convert_v1beta2_VSphereMachineTemplateList_To_v1beta1_VSphereMachineTemplateList (x : vmwarehub.VSphereMachineTemplateList) (out : vmwarev1beta1.VSphereMachineTemplateList) : res vmwarev1beta1.VSphereMachineTemplateList :=
  autoConvert_v1beta2_VSphereMachineTemplateList_To_v1beta1_VSphereMachineTemplateList x out.

Definition autoConvert_v1beta1_VSphereMachineVolume_To_v1beta2_VSphereMachineVolume (x : vmwarev1beta1.VSphereMachineVolume) (out : vmwarehub.VSphereMachineVolume) : res vmwarehub.VSphereMachineVolume :=
  mret {|
    vmwarehub.VSphereMachineVolume_Name := vmwarev1beta1.VSphereMachineVolume_Name x;
    vmwarehub.VSphereMachineVolume_Capacity := vmwarev1beta1.VSphereMachineVolume_Capacity x;
    vmwarehub.VSphereMachineVolume_StorageClass := vmwarev1beta1.VSphereMachineVolume_StorageClass x
  |}.

Definition Convert_v1beta1_VSphereMachineVolume_To_v1beta2_VSphereMachineVolume (x : vmwarev1beta1.VSphereMachineVolume) (out : vmwarehub.VSphereMachineVolume) : res vmwarehub.VSphereMachineVolume :=
  autoConvert_v1beta1_VSphereMachineVolume_To_v1beta2_VSphereMachineVolume x out.

Definition autoConvert_v1beta2_VSphereMachineVolume_To_v1beta1_VSphereMachineVolume (x : vmwarehub.VSphereMachineVolume) (out : vmwarev1beta1.VSphereMachineVolume) : res vmwarev1beta1.VSphereMachineVolume :=
  mret {|
    vmwarev1beta1.VSphereMachineVolume_Name := vmwarehub.VSphereMachineVolume_Name x;
    vmwarev1beta1.VSphereMachineVolume_Capacity := vmwarehub.VSphereMachineVolume_Capacity x;
    vmwarev1beta1.VSphereMachineVolume_StorageClass := vmwarehub.VSphereMachineVolume_StorageClass x
  |}.

Definition Convert_v1beta2_VSphereMachineVolume_To_v1beta1_VSphereMachineVolume (x : vmwarehub.VSphereMachineVolume) (out : vmwarev1beta1.VSphereMachineVolume) : res vmwarev1beta1.VSphereMachineVolume :=
  autoConvert_v1beta2_VSphereMachineVolume_To_v1beta1_VSphereMachineVolume x out.

End conversions.
