(* ===== verification/SupervisorHubSpoke.v ===== *)
(** The converters of the supervisor mode ([internal/webhooks/vmware/conversion]): the conversions of
    [SupervisorConv], and what the hub object kept in an annotation tells of what v1beta1 does not
    have; and that what is written as the hub version, sent as v1beta1 and read back is what was written. *)
From S2P Require Export ConvLib HubSpoke SupervisorTypes SupervisorConv.

#[local] Arguments mret : simpl never.
#[local] Arguments mbind : simpl never.
#[local] Arguments convert_slice : simpl never.

(** * The converters *)

Section converters.
Context `{ConvLib}.

Definition tidy_vmware_machine (y : vmwarev1beta1.VSphereMachineSpec) : vmwarev1beta1.VSphereMachineSpec :=
  let y := vmwarev1beta1.set_VSphereMachineSpec_ProviderID (nil_if_empty (vmwarev1beta1.VSphereMachineSpec_ProviderID y)) y in
  vmwarev1beta1.set_VSphereMachineSpec_FailureDomain (nil_if_empty (vmwarev1beta1.VSphereMachineSpec_FailureDomain y)) y.

Definition tidy_vmware_status (y : vmwarev1beta1.VSphereMachineStatus) : vmwarev1beta1.VSphereMachineStatus :=
  vmwarev1beta1.set_VSphereMachineStatus_ID (nil_if_empty (vmwarev1beta1.VSphereMachineStatus_ID y)) y.

(** What the restorations read of a hub object. *)
Definition vmware_machine_view (x : vmwarehub.VSphereMachine) : option bool * string :=
  (vmwarehub.VSphereMachineInitializationStatus_Provisioned (vmwarehub.VSphereMachineStatus_Initialization (vmwarehub.VSphereMachine_Status x)),
   vmwarehub.VSphereMachineStatus_FailureDomain (vmwarehub.VSphereMachine_Status x)).

(** The failure domain is assigned even when nothing was restored, and is then empty. *)
Definition restore_vmware_machine (ok : bool) (src : vmwarev1beta1.VSphereMachine) (restored dst : vmwarehub.VSphereMachine) : vmwarehub.VSphereMachine :=
  let initialization := vmwarehub.mkVSphereMachineInitializationStatus
    (clusterv1_Convert_bool_To_Pointer_bool (vmwarev1beta1.VSphereMachineStatus_Ready (vmwarev1beta1.VSphereMachine_Status src)) ok
      (vmwarehub.VSphereMachineInitializationStatus_Provisioned (vmwarehub.VSphereMachineStatus_Initialization (vmwarehub.VSphereMachine_Status restored)))) in
  let status := vmwarehub.VSphereMachine_Status dst in
  let status := if bool_decide (initialization = vmwarehub.zero_VSphereMachineInitializationStatus) then status
    else vmwarehub.set_VSphereMachineStatus_Initialization initialization status in
  vmwarehub.set_VSphereMachine_Status (vmwarehub.set_VSphereMachineStatus_FailureDomain
    (vmwarehub.VSphereMachineStatus_FailureDomain (vmwarehub.VSphereMachine_Status restored)) status) dst.

Definition ConvertVSphereMachineV1Beta1ToHub `{!HubData vmwarehub.VSphereMachine _ vmware_machine_view vmwarehub.zero_VSphereMachine}
    (src : vmwarev1beta1.VSphereMachine) (dst : vmwarehub.VSphereMachine) : res vmwarehub.VSphereMachine :=
  dst ← Convert_v1beta1_VSphereMachine_To_v1beta2_VSphereMachine src dst;
  '(ok, restored, meta) ← UnmarshalData vmwarehub.zero_VSphereMachine (vmwarev1beta1.VSphereMachine_ObjectMeta src);
  Ok (restore_vmware_machine ok src restored (vmwarehub.set_VSphereMachine_ObjectMeta meta dst)).

Definition ConvertVSphereMachineHubToV1Beta1 `{!HubData vmwarehub.VSphereMachine _ vmware_machine_view vmwarehub.zero_VSphereMachine}
    (src : vmwarehub.VSphereMachine) (dst : vmwarev1beta1.VSphereMachine) : res vmwarev1beta1.VSphereMachine :=
  dst ← Convert_v1beta2_VSphereMachine_To_v1beta1_VSphereMachine src dst;
  let dst := vmwarev1beta1.set_VSphereMachine_Spec (tidy_vmware_machine (vmwarev1beta1.VSphereMachine_Spec dst)) dst in
  let dst := vmwarev1beta1.set_VSphereMachine_Status (tidy_vmware_status (vmwarev1beta1.VSphereMachine_Status dst)) dst in
  meta ← MarshalDataUnsafeNoCopy src (vmwarev1beta1.VSphereMachine_ObjectMeta dst);
  Ok (vmwarev1beta1.set_VSphereMachine_ObjectMeta meta dst).

Definition vmware_machine_template_view (x : vmwarehub.VSphereMachineTemplate) : string * string :=
  let info := vmwarehub.VSphereMachineTemplateStatus_NodeInfo (vmwarehub.VSphereMachineTemplate_Status x) in
  (vmwarehub.NodeInfo_Architecture info, vmwarehub.NodeInfo_OperatingSystem info).

Definition restore_vmware_machine_template (ok : bool) (restored dst : vmwarehub.VSphereMachineTemplate) : vmwarehub.VSphereMachineTemplate :=
  if ok then vmwarehub.set_VSphereMachineTemplate_Status (vmwarehub.set_VSphereMachineTemplateStatus_NodeInfo
    (vmwarehub.VSphereMachineTemplateStatus_NodeInfo (vmwarehub.VSphereMachineTemplate_Status restored)) (vmwarehub.VSphereMachineTemplate_Status dst)) dst
  else dst.

Definition ConvertVSphereMachineTemplateV1Beta1ToHub `{!HubData vmwarehub.VSphereMachineTemplate _ vmware_machine_template_view vmwarehub.zero_VSphereMachineTemplate}
    (src : vmwarev1beta1.VSphereMachineTemplate) (dst : vmwarehub.VSphereMachineTemplate) : res vmwarehub.VSphereMachineTemplate :=
  dst ← Convert_v1beta1_VSphereMachineTemplate_To_v1beta2_VSphereMachineTemplate src dst;
  '(ok, restored, meta) ← UnmarshalData vmwarehub.zero_VSphereMachineTemplate (vmwarev1beta1.VSphereMachineTemplate_ObjectMeta src);
  Ok (restore_vmware_machine_template ok restored (vmwarehub.set_VSphereMachineTemplate_ObjectMeta meta dst)).

Definition ConvertVSphereMachineTemplateHubToV1Beta1 `{!HubData vmwarehub.VSphereMachineTemplate _ vmware_machine_template_view vmwarehub.zero_VSphereMachineTemplate}
    (src : vmwarehub.VSphereMachineTemplate) (dst : vmwarev1beta1.VSphereMachineTemplate) : res vmwarev1beta1.VSphereMachineTemplate :=
  dst ← Convert_v1beta2_VSphereMachineTemplate_To_v1beta1_VSphereMachineTemplate src dst;
  let template := vmwarev1beta1.VSphereMachineTemplateSpec_Template (vmwarev1beta1.VSphereMachineTemplate_Spec dst) in
  let template := vmwarev1beta1.set_VSphereMachineTemplateResource_Spec
    (tidy_vmware_machine (vmwarev1beta1.VSphereMachineTemplateResource_Spec template)) template in
  let dst := vmwarev1beta1.set_VSphereMachineTemplate_Spec
    (vmwarev1beta1.set_VSphereMachineTemplateSpec_Template template (vmwarev1beta1.VSphereMachineTemplate_Spec dst)) dst in
  meta ← MarshalDataUnsafeNoCopy src (vmwarev1beta1.VSphereMachineTemplate_ObjectMeta dst);
  Ok (vmwarev1beta1.set_VSphereMachineTemplate_ObjectMeta meta dst).

Definition vmware_cluster_view (x : vmwarehub.VSphereCluster) : option bool :=
  vmwarehub.VSphereClusterInitializationStatus_Provisioned (vmwarehub.VSphereClusterStatus_Initialization (vmwarehub.VSphereCluster_Status x)).

Definition restore_vmware_cluster (ok : bool) (src : vmwarev1beta1.VSphereCluster) (restored dst : vmwarehub.VSphereCluster) : vmwarehub.VSphereCluster :=
  let initialization := vmwarehub.mkVSphereClusterInitializationStatus
    (clusterv1_Convert_bool_To_Pointer_bool (vmwarev1beta1.VSphereClusterStatus_Ready (vmwarev1beta1.VSphereCluster_Status src)) ok
      (vmware_cluster_view restored)) in
  if bool_decide (initialization = vmwarehub.zero_VSphereClusterInitializationStatus) then dst
  else vmwarehub.set_VSphereCluster_Status (vmwarehub.set_VSphereClusterStatus_Initialization initialization (vmwarehub.VSphereCluster_Status dst)) dst.

Definition ConvertVSphereClusterV1Beta1ToHub `{!HubData vmwarehub.VSphereCluster _ vmware_cluster_view vmwarehub.zero_VSphereCluster}
    (src : vmwarev1beta1.VSphereCluster) (dst : vmwarehub.VSphereCluster) : res vmwarehub.VSphereCluster :=
  dst ← Convert_v1beta1_VSphereCluster_To_v1beta2_VSphereCluster src dst;
  '(ok, restored, meta) ← UnmarshalData vmwarehub.zero_VSphereCluster (vmwarev1beta1.VSphereCluster_ObjectMeta src);
  Ok (restore_vmware_cluster ok src restored (vmwarehub.set_VSphereCluster_ObjectMeta meta dst)).

Definition ConvertVSphereClusterHubToV1Beta1 `{!HubData vmwarehub.VSphereCluster _ vmware_cluster_view vmwarehub.zero_VSphereCluster}
    (src : vmwarehub.VSphereCluster) (dst : vmwarev1beta1.VSphereCluster) : res vmwarev1beta1.VSphereCluster :=
  dst ← Convert_v1beta2_VSphereCluster_To_v1beta1_VSphereCluster src dst;
  meta ← MarshalDataUnsafeNoCopy src (vmwarev1beta1.VSphereCluster_ObjectMeta dst);
  Ok (vmwarev1beta1.set_VSphereCluster_ObjectMeta meta dst).

Definition ConvertVSphereClusterTemplateV1Beta1ToHub (src : vmwarev1beta1.VSphereClusterTemplate) (dst : vmwarehub.VSphereClusterTemplate) : res vmwarehub.VSphereClusterTemplate :=
  Convert_v1beta1_VSphereClusterTemplate_To_v1beta2_VSphereClusterTemplate src dst.

Definition ConvertVSphereClusterTemplateHubToV1Beta1 (src : vmwarehub.VSphereClusterTemplate) (dst : vmwarev1beta1.VSphereClusterTemplate) : res vmwarev1beta1.VSphereClusterTemplate :=
  Convert_v1beta2_VSphereClusterTemplate_To_v1beta1_VSphereClusterTemplate src dst.

Definition ConvertProviderServiceAccountV1Beta1ToHub (src : vmwarev1beta1.ProviderServiceAccount) (dst : vmwarehub.ProviderServiceAccount) : res vmwarehub.ProviderServiceAccount :=
  Convert_v1beta1_ProviderServiceAccount_To_v1beta2_ProviderServiceAccount src dst.

Definition ConvertProviderServiceAccountHubToV1Beta1 (src : vmwarehub.ProviderServiceAccount) (dst : vmwarev1beta1.ProviderServiceAccount) : res vmwarev1beta1.ProviderServiceAccount :=
  Convert_v1beta2_ProviderServiceAccount_To_v1beta1_ProviderServiceAccount src dst.

End converters.

(** * Through v1beta1 *)

Section round_trips.
Context `{ConvLib}.

#[global] Instance vmware_ProviderServiceAccount_down_up : RoundTrip
  Convert_v1beta2_ProviderServiceAccount_To_v1beta1_ProviderServiceAccount vmwarev1beta1.zero_ProviderServiceAccount
  Convert_v1beta1_ProviderServiceAccount_To_v1beta2_ProviderServiceAccount vmwarehub.zero_ProviderServiceAccount
  always id anything.
Proof. intros [? []] _. conv_steps. conv_split; [by conv_steps|exact I]. Qed.

#[global] Instance vmware_InterfaceSpec_down_up : RoundTrip
  Convert_v1beta2_InterfaceSpec_To_v1beta1_InterfaceSpec vmwarev1beta1.zero_InterfaceSpec
  Convert_v1beta1_InterfaceSpec_To_v1beta2_InterfaceSpec vmwarehub.zero_InterfaceSpec
  always id anything.
Proof. conv_fields; [|exact I]. destruct x as [[]]. cbn. by rewrite cast_slice by (by intros []). Qed.

#[global] Instance vmware_SecondaryInterfaceSpec_down_up : RoundTrip
  Convert_v1beta2_SecondaryInterfaceSpec_To_v1beta1_SecondaryInterfaceSpec vmwarev1beta1.zero_SecondaryInterfaceSpec
  Convert_v1beta1_SecondaryInterfaceSpec_To_v1beta2_SecondaryInterfaceSpec vmwarehub.zero_SecondaryInterfaceSpec
  always id anything.
Proof. conv_fields; [conv_done|exact I]. Qed.

#[global] Instance vmware_InterfacesSpec_down_up : RoundTrip
  Convert_v1beta2_InterfacesSpec_To_v1beta1_InterfacesSpec vmwarev1beta1.zero_InterfacesSpec
  Convert_v1beta1_InterfacesSpec_To_v1beta2_InterfacesSpec vmwarehub.zero_InterfacesSpec
  always id anything.
Proof. conv_fields; [conv_done|exact I]. Qed.

#[global] Instance vmware_VSphereMachineSpec_down_up : RoundTrip
  (λ x out, y ← Convert_v1beta2_VSphereMachineSpec_To_v1beta1_VSphereMachineSpec x out; Ok (tidy_vmware_machine y)) vmwarev1beta1.zero_VSphereMachineSpec
  Convert_v1beta1_VSphereMachineSpec_To_v1beta2_VSphereMachineSpec vmwarehub.zero_VSphereMachineSpec
  always id anything.
Proof.
  intros x _. conv_steps. case_bool_decide as Hn; conv_steps; conv_split; conv_steps; try exact I;
    destruct x as [? ? ? ? ? [] ? ? [] ?]; cbn in *; rewrite ?default_if_empty, ?cast_slice by (by intros []); [by injection Hn as ->|done].
Qed.

Lemma cast_dhcp_options x : cast_v1beta1_VSphereMachineNetworkDHCPOptionsStatus (cast_v1beta2_VSphereMachineNetworkDHCPOptionsStatus x) = x.
Proof. destruct x. cbv [cast_v1beta1_VSphereMachineNetworkDHCPOptionsStatus]. cbn. by rewrite cast_slice by (by intros []). Qed.
Lemma cast_interface_status x : cast_v1beta1_VSphereMachineNetworkInterfaceStatus (cast_v1beta2_VSphereMachineNetworkInterfaceStatus x) = x.
Proof.
  destruct x as [? ? [? [] ? ?] []]. cbv [cast_v1beta1_VSphereMachineNetworkInterfaceStatus cast_v1beta1_VSphereMachineNetworkInterfaceIPStatus cast_v1beta1_VSphereMachineNetworkDHCPStatus]. cbn.
  by rewrite !cast_dhcp_options, cast_slice by (by intros []).
Qed.

#[global] Instance vmware_VSphereMachineNetworkStatus_down_up : RoundTrip
  Convert_v1beta2_VSphereMachineNetworkStatus_To_v1beta1_VSphereMachineNetworkStatus vmwarev1beta1.zero_VSphereMachineNetworkStatus
  Convert_v1beta1_VSphereMachineNetworkStatus_To_v1beta2_VSphereMachineNetworkStatus vmwarehub.zero_VSphereMachineNetworkStatus
  always id anything.
Proof. conv_fields; [|exact I]. destruct x. by rewrite cast_slice by apply cast_interface_status. Qed.

(** A phase v1beta1 has a state for, or none. *)
Definition known_phase (phase : string) : Prop := phase = "" \/ state_of_phase phase <> None.

Lemma phase_down_up phase : known_phase phase ->
  match state_of_phase phase with Some state => phase_of_state state = Some phase | None => phase = "" end.
Proof. intros Hp. unfold known_phase, state_of_phase in *. repeat case_match; simplify_eq; try done; [..|by destruct Hp]. all: repeat match goal with E : String.eqb _ _ = true |- _ => apply String.eqb_eq in E; subst end; done. Qed.

(** A status does not have deprecated fields that say nothing. *)
Definition deprecated_vmware_machine (x : vmwarehub.VSphereMachineStatus) : Prop :=
  match vmwarehub.VSphereMachineStatus_Deprecated x with
  | None => True
  | Some d => exists b, vmwarehub.VSphereMachineDeprecatedStatus_V1Beta1 d = Some b /\ b <> vmwarehub.zero_VSphereMachineV1Beta1DeprecatedStatus
  end.
Definition valid_vmware_machine_status (x : vmwarehub.VSphereMachineStatus) : Prop :=
  deprecated_vmware_machine x /\ known_phase (vmwarehub.VSphereMachineStatus_Phase x).
Definition explicit_vmware_machine_status (x : vmwarehub.VSphereMachineStatus) : vmwarehub.VSphereMachineStatus :=
  vmwarehub.set_VSphereMachineStatus_FailureDomain "" (vmwarehub.set_VSphereMachineStatus_Initialization vmwarehub.zero_VSphereMachineInitializationStatus x).
Definition vmware_machine_status_sent (x : vmwarehub.VSphereMachineStatus) (y : vmwarev1beta1.VSphereMachineStatus) : Prop :=
  vmwarev1beta1.VSphereMachineStatus_Ready y =
    default false (vmwarehub.VSphereMachineInitializationStatus_Provisioned (vmwarehub.VSphereMachineStatus_Initialization x)).

#[global] Instance vmware_VSphereMachineStatus_down_up : RoundTrip
  (λ x out, y ← Convert_v1beta2_VSphereMachineStatus_To_v1beta1_VSphereMachineStatus x out; Ok (tidy_vmware_status y)) vmwarev1beta1.zero_VSphereMachineStatus
  Convert_v1beta1_VSphereMachineStatus_To_v1beta2_VSphereMachineStatus vmwarehub.zero_VSphereMachineStatus
  valid_vmware_machine_status explicit_vmware_machine_status vmware_machine_status_sent.
Proof.
  intros [cs i a fd id p n d] [Hd Hp]. apply phase_down_up in Hp. cbn in Hp.
  unfold deprecated_vmware_machine in Hd; cbn in Hd.
  assert (Hid : ptr_deref (if String.eqb id "" then None else Some id) "" = id) by (by destruct (String.eqb_spec id "")).
  assert (Hz : phase_of_state "" = None) by done.
  destruct d as [[b]|]; [destruct Hd as (b' & Hb & Hd); cbn in Hb; subst b; destruct b' as [[c|] [r|] [m|]]|];
    destruct cs as [cs|]; destruct (state_of_phase p) as [state|] eqn:Ep.
  all: conv_steps; rewrite ?Ep; conv_split; [|conv_sent]; conv_steps; rewrite ?Hp, ?Hz, ?Hid; first [conv_same | by destruct Hd].
Qed.

#[global] Instance vmware_VSphereClusterSpec_down_up : RoundTrip
  Convert_v1beta2_VSphereClusterSpec_To_v1beta1_VSphereClusterSpec vmwarev1beta1.zero_VSphereClusterSpec
  Convert_v1beta1_VSphereClusterSpec_To_v1beta2_VSphereClusterSpec vmwarehub.zero_VSphereClusterSpec
  always id anything.
Proof. conv_fields; [|exact I]. by destruct x as [[] [[]] [[]]]. Qed.

Definition deprecated_vmware_cluster (x : vmwarehub.VSphereClusterStatus) : Prop :=
  match vmwarehub.VSphereClusterStatus_Deprecated x with
  | None => True
  | Some d => exists b, vmwarehub.VSphereClusterDeprecatedStatus_V1Beta1 d = Some b /\ b <> vmwarehub.zero_VSphereClusterV1Beta1DeprecatedStatus
  end.
Definition valid_vmware_cluster_status (x : vmwarehub.VSphereClusterStatus) : Prop :=
  deprecated_vmware_cluster x /\
  (forall l, vmwarehub.VSphereClusterStatus_FailureDomains x = Some l -> ordered_domains l).
Definition explicit_vmware_cluster_status (x : vmwarehub.VSphereClusterStatus) : vmwarehub.VSphereClusterStatus :=
  vmwarehub.set_VSphereClusterStatus_Initialization vmwarehub.zero_VSphereClusterInitializationStatus x.
Definition vmware_cluster_status_sent (x : vmwarehub.VSphereClusterStatus) (y : vmwarev1beta1.VSphereClusterStatus) : Prop :=
  vmwarev1beta1.VSphereClusterStatus_Ready y =
    default false (vmwarehub.VSphereClusterInitializationStatus_Provisioned (vmwarehub.VSphereClusterStatus_Initialization x)).

(** The loops are those of the govmomi mode. *)
Lemma vmware_domains_down_up l : ordered_domains l -> failure_domains_of_map (failure_domains_to_map l) = l.
Proof. exact (failure_domains_down_up l). Qed.

#[global] Instance vmware_VSphereClusterStatus_down_up : RoundTrip
  Convert_v1beta2_VSphereClusterStatus_To_v1beta1_VSphereClusterStatus vmwarev1beta1.zero_VSphereClusterStatus
  Convert_v1beta1_VSphereClusterStatus_To_v1beta2_VSphereClusterStatus vmwarehub.zero_VSphereClusterStatus
  valid_vmware_cluster_status explicit_vmware_cluster_status vmware_cluster_status_sent.
Proof.
  intros [cs i fds d] (Hx & Hfds). destruct d as [[b]|];
    [destruct Hx as (b' & Hb & Hx); cbn in Hb; subst b; destruct b' as [[c|]]|];
    destruct cs; destruct fds; cbn in Hfds; by_cases; conv_split; by_cases;
    rewrite ?vmware_domains_down_up by auto; first [conv_same | conv_sent | by destruct Hx].
Qed.

(** ** Objects *)

Definition valid_vmware_machine (x : vmwarehub.VSphereMachine) : Prop :=
  plain (vmwarehub.VSphereMachine_ObjectMeta x) /\ valid_vmware_machine_status (vmwarehub.VSphereMachine_Status x).

(** A VSphereMachine of the supervisor mode that is written as v1beta2 and served as v1beta1 is the same again when it is read back:
    its names, identifiers and phase, whether it is provisioned and the failure domain of its status, which v1beta1 does not
    have; what the conversion put into the annotations is gone. *)
Theorem vmware_machine_hub_spoke_hub `{!HubData vmwarehub.VSphereMachine _ vmware_machine_view vmwarehub.zero_VSphereMachine} (x : vmwarehub.VSphereMachine) (Hx : valid_vmware_machine x) :
  exists y, ConvertVSphereMachineHubToV1Beta1 x vmwarev1beta1.zero_VSphereMachine = Ok y /\
    ConvertVSphereMachineV1Beta1ToHub y vmwarehub.zero_VSphereMachine = Ok (vmwarehub.set_VSphereMachine_ObjectMeta (kept (vmwarehub.VSphereMachine_ObjectMeta x)) x).
Proof.
  destruct Hx as (Hm & Ht).
  destruct (round_trip (f := λ x out, y ← Convert_v1beta2_VSphereMachineSpec_To_v1beta1_VSphereMachineSpec x out; Ok (tidy_vmware_machine y)) (vmwarehub.VSphereMachine_Spec x) I) as (ys & Es & Es' & _).
  apply bind_ok_inv in Es as (ys' & Es & [= <-]).
  destruct (round_trip (f := λ x out, y ← Convert_v1beta2_VSphereMachineStatus_To_v1beta1_VSphereMachineStatus x out; Ok (tidy_vmware_status y)) _ Ht) as (yt & Et & Et' & Qt).
  apply bind_ok_inv in Et as (yt' & Et & [= <-]).
  destruct (data_round_trip x _ Hm) as (m' & r & Em & Er & Hr).
  apply pair_equal_spec in Hr as [Hp Hf].
  unfold ConvertVSphereMachineHubToV1Beta1. conv_steps. eexists. split; [reflexivity|].
  unfold ConvertVSphereMachineV1Beta1ToHub. conv_steps. unfold restore_vmware_machine. cbn.
  rewrite Hp, Hf. unfold vmware_machine_status_sent in Qt. cbn in Qt. rewrite Qt, restore_bool by done.
  destruct x as [? ? [? [p] ? ? ? ? ? ?]]. cbn. case_bool_decide as Hi; [injection Hi as ->|]; reflexivity.
Qed.

(** The metadata of a template has no place in v1beta1, and is not restored. *)
Definition without_machine_template_meta (x : vmwarehub.VSphereMachineTemplate) : vmwarehub.VSphereMachineTemplate :=
  vmwarehub.set_VSphereMachineTemplate_Spec (vmwarehub.mkVSphereMachineTemplateSpec (vmwarehub.mkVSphereMachineTemplateResource zero_TemplateMeta
    (vmwarehub.VSphereMachineTemplateResource_Spec (vmwarehub.VSphereMachineTemplateSpec_Template (vmwarehub.VSphereMachineTemplate_Spec x))))) x.

Theorem vmware_machine_template_hub_spoke_hub `{!HubData vmwarehub.VSphereMachineTemplate _ vmware_machine_template_view vmwarehub.zero_VSphereMachineTemplate} (x : vmwarehub.VSphereMachineTemplate)
    (Hm : plain (vmwarehub.VSphereMachineTemplate_ObjectMeta x)) :
  exists y, ConvertVSphereMachineTemplateHubToV1Beta1 x vmwarev1beta1.zero_VSphereMachineTemplate = Ok y /\
    ConvertVSphereMachineTemplateV1Beta1ToHub y vmwarehub.zero_VSphereMachineTemplate =
      Ok (vmwarehub.set_VSphereMachineTemplate_ObjectMeta (kept (vmwarehub.VSphereMachineTemplate_ObjectMeta x)) (without_machine_template_meta x)).
Proof.
  destruct (round_trip (f := λ x out, y ← Convert_v1beta2_VSphereMachineSpec_To_v1beta1_VSphereMachineSpec x out; Ok (tidy_vmware_machine y))
    (vmwarehub.VSphereMachineTemplateResource_Spec (vmwarehub.VSphereMachineTemplateSpec_Template (vmwarehub.VSphereMachineTemplate_Spec x))) I) as (ys & Es & Es' & _).
  apply bind_ok_inv in Es as (ys' & Es & [= <-]).
  destruct (data_round_trip x _ Hm) as (m' & r & Em & Er & Hr).
  unfold ConvertVSphereMachineTemplateHubToV1Beta1. conv_steps. eexists. split; [reflexivity|].
  unfold ConvertVSphereMachineTemplateV1Beta1ToHub. conv_steps. unfold restore_vmware_machine_template. cbn.
  destruct x as [? [[]] [? []]], (vmwarehub.VSphereMachineTemplateStatus_NodeInfo (vmwarehub.VSphereMachineTemplate_Status r)) as [ra ro] eqn:Ei.
  unfold vmware_machine_template_view in Hr. rewrite Ei in Hr. cbn in Hr. by injection Hr as -> ->.
Qed.

Definition valid_vmware_cluster (x : vmwarehub.VSphereCluster) : Prop :=
  plain (vmwarehub.VSphereCluster_ObjectMeta x) /\ valid_vmware_cluster_status (vmwarehub.VSphereCluster_Status x).

Theorem vmware_cluster_hub_spoke_hub `{!HubData vmwarehub.VSphereCluster _ vmware_cluster_view vmwarehub.zero_VSphereCluster} (x : vmwarehub.VSphereCluster) (Hx : valid_vmware_cluster x) :
  exists y, ConvertVSphereClusterHubToV1Beta1 x vmwarev1beta1.zero_VSphereCluster = Ok y /\
    ConvertVSphereClusterV1Beta1ToHub y vmwarehub.zero_VSphereCluster = Ok (vmwarehub.set_VSphereCluster_ObjectMeta (kept (vmwarehub.VSphereCluster_ObjectMeta x)) x).
Proof.
  destruct Hx as (Hm & Ht).
  destruct (round_trip (f := Convert_v1beta2_VSphereClusterSpec_To_v1beta1_VSphereClusterSpec) (vmwarehub.VSphereCluster_Spec x) I) as (ys & Es & Es' & _).
  destruct (round_trip (f := Convert_v1beta2_VSphereClusterStatus_To_v1beta1_VSphereClusterStatus) _ Ht) as (yt & Et & Et' & Qt).
  destruct (data_round_trip x _ Hm) as (m' & r & Em & Er & Hr).
  unfold ConvertVSphereClusterHubToV1Beta1. conv_steps. eexists. split; [reflexivity|].
  unfold ConvertVSphereClusterV1Beta1ToHub. conv_steps. unfold restore_vmware_cluster. cbn.
  rewrite Hr, Qt. unfold vmware_cluster_view. rewrite restore_bool by done.
  destruct x as [? ? [? [p] ? ?]]. cbn. case_bool_decide as Hi; [injection Hi as ->|]; reflexivity.
Qed.

Definition without_cluster_template_meta (x : vmwarehub.VSphereClusterTemplate) : vmwarehub.VSphereClusterTemplate :=
  vmwarehub.mkVSphereClusterTemplate (vmwarehub.VSphereClusterTemplate_ObjectMeta x)
    (vmwarehub.mkVSphereClusterTemplateSpec (vmwarehub.mkVSphereClusterTemplateResource zero_TemplateMeta
      (vmwarehub.VSphereClusterTemplateResource_Spec (vmwarehub.VSphereClusterTemplateSpec_Template (vmwarehub.VSphereClusterTemplate_Spec x))))).

Theorem vmware_cluster_template_hub_spoke_hub (x : vmwarehub.VSphereClusterTemplate) :
  exists y, ConvertVSphereClusterTemplateHubToV1Beta1 x vmwarev1beta1.zero_VSphereClusterTemplate = Ok y /\
    ConvertVSphereClusterTemplateV1Beta1ToHub y vmwarehub.zero_VSphereClusterTemplate = Ok (without_cluster_template_meta x).
Proof.
  destruct (round_trip (f := Convert_v1beta2_VSphereClusterSpec_To_v1beta1_VSphereClusterSpec)
    (vmwarehub.VSphereClusterTemplateResource_Spec (vmwarehub.VSphereClusterTemplateSpec_Template (vmwarehub.VSphereClusterTemplate_Spec x))) I) as (ys & Es & Es' & _).
  unfold ConvertVSphereClusterTemplateHubToV1Beta1. conv_steps. eexists. split; [reflexivity|].
  unfold ConvertVSphereClusterTemplateV1Beta1ToHub. by conv_steps.
Qed.

Theorem service_account_hub_spoke_hub (x : vmwarehub.ProviderServiceAccount) :
  exists y, ConvertProviderServiceAccountHubToV1Beta1 x vmwarev1beta1.zero_ProviderServiceAccount = Ok y /\
    ConvertProviderServiceAccountV1Beta1ToHub y vmwarehub.zero_ProviderServiceAccount = Ok x.
Proof.
  destruct (round_trip (f := Convert_v1beta2_ProviderServiceAccount_To_v1beta1_ProviderServiceAccount) x I) as (y & E & E' & _).
  by exists y.
Qed.

End round_trips.
