(* ===== verification/SupervisorUp.v ===== *)
(** Round trips of the supervisor mode that begin with v1beta1: a machine or a cluster that a client writes as v1beta1 is
    served to it as it was written; and the conversions run on objects, with the functions of other projects of [ConvRef]. *)
From stdpp Require Import countable strings.
From S2P Require Export HubSpokeUp ConvRef SupervisorTypes SupervisorConv SupervisorHubSpoke.
#[local] Open Scope Z_scope.

#[local] Arguments mret : simpl never.
#[local] Arguments mbind : simpl never.
#[local] Arguments convert_slice : simpl never.
#[local] Arguments MarshalDataUnsafeNoCopy : simpl never.

Section round_trips.
Context `{ConvLib}.

#[global] Instance vmware_InterfaceSpec_up_down : RoundTrip
  Convert_v1beta1_InterfaceSpec_To_v1beta2_InterfaceSpec vmwarehub.zero_InterfaceSpec
  Convert_v1beta2_InterfaceSpec_To_v1beta1_InterfaceSpec vmwarev1beta1.zero_InterfaceSpec
  always id anything.
Proof. conv_fields; [|exact I]. destruct x as [[]]. cbn. by rewrite cast_slice by (by intros []). Qed.

#[global] Instance vmware_SecondaryInterfaceSpec_up_down : RoundTrip
  Convert_v1beta1_SecondaryInterfaceSpec_To_v1beta2_SecondaryInterfaceSpec vmwarehub.zero_SecondaryInterfaceSpec
  Convert_v1beta2_SecondaryInterfaceSpec_To_v1beta1_SecondaryInterfaceSpec vmwarev1beta1.zero_SecondaryInterfaceSpec
  always id anything.
Proof. conv_fields; [conv_done|exact I]. Qed.

#[global] Instance vmware_InterfacesSpec_up_down : RoundTrip
  Convert_v1beta1_InterfacesSpec_To_v1beta2_InterfacesSpec vmwarehub.zero_InterfacesSpec
  Convert_v1beta2_InterfacesSpec_To_v1beta1_InterfacesSpec vmwarev1beta1.zero_InterfacesSpec
  always id anything.
Proof. conv_fields; [conv_done|exact I]. Qed.

(** The failure domain of the specification is not there any more; a provider ID and a template of names are not empty. *)
Definition valid_vmware_spec (x : vmwarev1beta1.VSphereMachineSpec) : Prop :=
  vmwarev1beta1.VSphereMachineSpec_FailureDomain x = None /\ vmwarev1beta1.VSphereMachineSpec_ProviderID x <> Some "" /\
  (forall n, vmwarev1beta1.VSphereMachineSpec_NamingStrategy x = Some n ->
    exists t, vmwarev1beta1.VirtualMachineNamingStrategy_Template n = Some t /\ t <> "").

Lemma vmware_spec_up_down x : valid_vmware_spec x ->
  exists y, Convert_v1beta1_VSphereMachineSpec_To_v1beta2_VSphereMachineSpec x vmwarehub.zero_VSphereMachineSpec = Ok y /\
    exists y', Convert_v1beta2_VSphereMachineSpec_To_v1beta1_VSphereMachineSpec y vmwarev1beta1.zero_VSphereMachineSpec = Ok y' /\
      tidy_vmware_machine y' = x.
Proof.
  intros (Hf & Hp & Hn). destruct x as [p f ? ? ? ? ? [] ? ? [[t]|]]; cbn in Hf, Hp, Hn; subst f;
    [destruct (Hn _ eq_refl) as (s & [= ->] & Hs)|]; conv_steps; (eexists; split; [reflexivity|]); conv_steps;
    [rewrite bool_decide_eq_false_2 by (exact (λ Hz, Hs (f_equal vmwarehub.VirtualMachineNamingSpec_Template Hz)))|rewrite bool_decide_eq_true_2 by done]; conv_steps;
    (eexists; split; [reflexivity|]); unfold tidy_vmware_machine; cbn; rewrite !cast_slice by (by intros []);
    (destruct p as [p|]; cbn; [|done]); by destruct (String.eqb_spec p ""); subst.
Qed.

(** A state of the machine v1beta2 has a phase for, or none. *)
Definition known_state (state : string) : Prop := state = "" \/ phase_of_state state <> None.

Lemma phase_up_down state : known_state state ->
  match phase_of_state state with Some phase => state_of_phase phase = Some state | None => state = "" end.
Proof.
  intros Hp. unfold known_state, phase_of_state in *. repeat case_match; simplify_eq; try done; [..|by destruct Hp].
  all: repeat match goal with E : String.eqb _ _ = true |- _ => apply String.eqb_eq in E; subst end; done.
Qed.

(** The address is not there any more, an identifier is not empty, the state is known, and the status does not say that
    there is a new status without conditions. *)
Definition valid_vmware_v1beta1_status (x : vmwarev1beta1.VSphereMachineStatus) : Prop :=
  vmwarev1beta1.VSphereMachineStatus_IPAddr x = "" /\ vmwarev1beta1.VSphereMachineStatus_ID x <> Some "" /\ known_state (vmwarev1beta1.VSphereMachineStatus_VMStatus x) /\ (forall s, vmwarev1beta1.VSphereMachineStatus_V1Beta2 x = Some s -> vmwarev1beta1.VSphereMachineV1Beta2Status_Conditions s <> None).

#[global] Instance vmware_VSphereMachineNetworkStatus_up_down : RoundTrip
  Convert_v1beta1_VSphereMachineNetworkStatus_To_v1beta2_VSphereMachineNetworkStatus vmwarehub.zero_VSphereMachineNetworkStatus
  Convert_v1beta2_VSphereMachineNetworkStatus_To_v1beta1_VSphereMachineNetworkStatus vmwarev1beta1.zero_VSphereMachineNetworkStatus
  always id anything.
Proof.
  conv_fields; [|exact I]. destruct x. rewrite cast_slice; [done|].
  intros [? ? [? [[] []] ? ?] []]. cbv [cast_v1beta2_VSphereMachineNetworkInterfaceStatus cast_v1beta2_VSphereMachineNetworkInterfaceIPStatus
    cast_v1beta2_VSphereMachineNetworkDHCPStatus cast_v1beta2_VSphereMachineNetworkDHCPOptionsStatus]. cbn.
  by rewrite !cast_slice by (by intros []).
Qed.

(** By what was restored of the initialization. *)
Ltac provisioned := match goal with |- context [clusterv1_Convert_bool_To_Pointer_bool ?p ?o ?q] =>
  let Hd := fresh in pose proof (settled_bool p o q) as Hd;
  destruct (clusterv1_Convert_bool_To_Pointer_bool p o q) as [[]|]; cbn in Hd; subst p; cbn; case_bool_decide; try done end.

(** The status with what was restored. *)
Definition restored_vmware_status ok (x : vmwarev1beta1.VSphereMachineStatus) (r y : vmwarehub.VSphereMachineStatus) : vmwarehub.VSphereMachineStatus :=
  vmwarehub.VSphereMachine_Status (restore_vmware_machine ok (vmwarev1beta1.set_VSphereMachine_Status x vmwarev1beta1.zero_VSphereMachine)
    (vmwarehub.set_VSphereMachine_Status r vmwarehub.zero_VSphereMachine) (vmwarehub.set_VSphereMachine_Status y vmwarehub.zero_VSphereMachine)).

Lemma vmware_status_up_down x ok r : valid_vmware_v1beta1_status x ->
  exists y, Convert_v1beta1_VSphereMachineStatus_To_v1beta2_VSphereMachineStatus x vmwarehub.zero_VSphereMachineStatus = Ok y /\
    exists y', Convert_v1beta2_VSphereMachineStatus_To_v1beta1_VSphereMachineStatus (restored_vmware_status ok x r y) vmwarev1beta1.zero_VSphereMachineStatus = Ok y' /\
      tidy_vmware_status y' = x.
Proof.
  intros (Hip & Hid & Hs & Hv). apply phase_up_down in Hs.
  destruct x as [p a id ip fr fm state c v n]. cbn in Hip, Hid, Hs, Hv. subst ip.
  assert (Hi : (if String.eqb (ptr_deref id "") "" then None else Some (ptr_deref id "")) = id) by (destruct id as [id|]; cbn; [destruct (String.eqb_spec id ""); by subst|done]).
  assert (Hz : state_of_phase "" = None) by done.
  destruct (round_trip (f := Convert_v1beta1_VSphereMachineNetworkStatus_To_v1beta2_VSphereMachineNetworkStatus) n I) as (n' & En & En' & _).
  destruct v as [[[cs|]]|]; [|by destruct (Hv _ eq_refl)|]; destruct c as [c|]; destruct fr as [fr|], fm as [fm|];
    destruct (phase_of_state state) as [phase|] eqn:Ep.
  all: conv_steps; rewrite ?Ep; (eexists; split; [reflexivity|]); unfold restored_vmware_status, restore_vmware_machine; cbn; provisioned.
  all: conv_steps; rewrite ?Hs, ?Hz; cbn; (eexists; split; [reflexivity|]); unfold tidy_vmware_status; cbn; rewrite ?Hi; conv_same.
Qed.

(** The object is stored with the annotation [data]. *)
Tactic Notation "stored" constr(r) hyp(Hu) "as" ident(data) ident(Em) :=
  match goal with |- exists y data, Ok ?h = Ok y /\ _ =>
    destruct (data_again _ _ _ r h Hu) as (data & Em); exists h, data; split; [reflexivity|] end.

Definition valid_vmware_v1beta1_machine (x : vmwarev1beta1.VSphereMachine) : Prop :=
  valid_vmware_spec (vmwarev1beta1.VSphereMachine_Spec x) /\ valid_vmware_v1beta1_status (vmwarev1beta1.VSphereMachine_Status x).

(** A VSphereMachine of the supervisor mode that a client writes as v1beta1 is served to it as it was written, whatever the annotation with
    an earlier hub object says, as long as it can be read. *)
Theorem vmware_machine_spoke_hub_spoke `{!HubData vmwarehub.VSphereMachine _ vmware_machine_view vmwarehub.zero_VSphereMachine} (x : vmwarev1beta1.VSphereMachine) ok r m
    (Hu : UnmarshalData vmwarehub.zero_VSphereMachine (vmwarev1beta1.VSphereMachine_ObjectMeta x) = Ok (ok, r, m)) (Hx : valid_vmware_v1beta1_machine x) :
  exists y data, ConvertVSphereMachineV1Beta1ToHub x vmwarehub.zero_VSphereMachine = Ok y /\
    ConvertVSphereMachineHubToV1Beta1 y vmwarev1beta1.zero_VSphereMachine =
      Ok (vmwarev1beta1.set_VSphereMachine_ObjectMeta (annotated data (vmwarev1beta1.VSphereMachine_ObjectMeta x)) x).
Proof.
  destruct Hx as (Hs & Ht).
  destruct (vmware_spec_up_down _ Hs) as (ys & Es & ys' & Es' & Ey).
  destruct (vmware_status_up_down _ ok (vmwarehub.VSphereMachine_Status r) Ht) as (yt & Et & yt' & Et' & Eyt).
  unfold ConvertVSphereMachineV1Beta1ToHub. conv_steps.
  stored r Hu as data Em.
  unfold ConvertVSphereMachineHubToV1Beta1. unfold restored_vmware_status, restore_vmware_machine in *. cbn in Em, Et'. conv_steps.
  rewrite Ey, Eyt. by destruct x.
Qed.
End round_trips.

(** * Objects *)

Definition build_vmware_machine (v : option bool * string) : vmwarehub.VSphereMachine :=
  vmwarehub.set_VSphereMachine_Status (vmwarehub.set_VSphereMachineStatus_FailureDomain v.2
    (vmwarehub.set_VSphereMachineStatus_Initialization (vmwarehub.mkVSphereMachineInitializationStatus v.1) vmwarehub.zero_VSphereMachineStatus))
    vmwarehub.zero_VSphereMachine.
Lemma build_vmware_machine_view v : vmware_machine_view (build_vmware_machine v) = v.
Proof. by destruct v. Qed.
#[global] Instance vmware_machine_data : HubData vmwarehub.VSphereMachine _ vmware_machine_view vmwarehub.zero_VSphereMachine :=
  hub_data vmware_machine_view vmwarehub.zero_VSphereMachine build_vmware_machine (λ x, build_vmware_machine_view _).

Definition sample_vmware_machine : vmwarehub.VSphereMachine :=
  vmwarehub.mkVSphereMachine sample_meta
    (vmwarehub.mkVSphereMachineSpec "vsphere://4210" "ubuntu" "best-effort-small" "gold" (Some [vmwarehub.mkVSphereMachineVolume "etcd" (Some {["storage" := "4Gi"]}) ""])
      (vmwarehub.mkVSphereMachineNetworkSpec (vmwarehub.mkInterfacesSpec vmwarehub.zero_InterfaceSpec
        (Some [vmwarehub.mkSecondaryInterfaceSpec "eth1" (vmwarehub.mkInterfaceSpec (vmwarehub.mkInterfaceNetworkReference "Network" "storage" "netoperator.vmware.com/v1alpha1")
          9000 (Some [vmwarehub.mkRouteSpec "10.1.0.0/16" "10.0.0.1"]))])) None)
      "trySoft" "" (vmwarehub.mkVirtualMachineNamingSpec "vm-{{ .machine.name }}") None)
    (vmwarehub.mkVSphereMachineStatus (Some [sample_condition]) (vmwarehub.mkVSphereMachineInitializationStatus (Some false)) None "zone-a" "4210" "PoweredOn"
      vmwarehub.zero_VSphereMachineNetworkStatus
      (Some (vmwarehub.mkVSphereMachineDeprecatedStatus (Some (vmwarehub.mkVSphereMachineV1Beta1DeprecatedStatus (Some [sample_deprecated]) None (Some "no host")))))).

Lemma sample_vmware_machine_valid : valid_vmware_machine sample_vmware_machine.
Proof. split; [by vm_compute|]. split; [by eexists|by right]. Qed.

Lemma vmware_machine_hub_spoke_hub_witness :
  valid_vmware_machine sample_vmware_machine /\
  exists y, ConvertVSphereMachineHubToV1Beta1 sample_vmware_machine vmwarev1beta1.zero_VSphereMachine = Ok y /\
    ConvertVSphereMachineV1Beta1ToHub y vmwarehub.zero_VSphereMachine = Ok sample_vmware_machine.
Proof. split; [apply sample_vmware_machine_valid|]. exact (vmware_machine_hub_spoke_hub sample_vmware_machine sample_vmware_machine_valid). Defined.

(** What comes back of a phase that v1beta1 has no state for, and without the annotation. *)
Example vmware_machine_unknown_phase :
  (y ← ConvertVSphereMachineHubToV1Beta1 (vmwarehub.set_VSphereMachine_Status
      (vmwarehub.set_VSphereMachineStatus_Phase "Suspended" (vmwarehub.VSphereMachine_Status sample_vmware_machine)) sample_vmware_machine) vmwarev1beta1.zero_VSphereMachine;
   x ← ConvertVSphereMachineV1Beta1ToHub y vmwarehub.zero_VSphereMachine;
   Ok (vmwarehub.VSphereMachineStatus_Phase (vmwarehub.VSphereMachine_Status x))) = Ok "".
Proof. by vm_compute. Qed.
Example vmware_machine_without_annotation :
  (y ← ConvertVSphereMachineHubToV1Beta1 sample_vmware_machine vmwarev1beta1.zero_VSphereMachine;
   x ← ConvertVSphereMachineV1Beta1ToHub (vmwarev1beta1.set_VSphereMachine_ObjectMeta sample_meta y) vmwarehub.zero_VSphereMachine;
   Ok (vmware_machine_view x)) = Ok (None, "").
Proof. by vm_compute. Qed.

(** A machine of v1beta1 whose annotation tells of what another machine was. *)
Definition stale_vmware_meta : MetaV1 :=
  set_mv_Annotations (Some {[DataAnnotation := binary (encode (vmware_machine_view sample_vmware_machine))]}) sample_meta.
Definition sample_vmware_v1beta1_machine : vmwarev1beta1.VSphereMachine :=
  vmwarev1beta1.mkVSphereMachine stale_vmware_meta
    (vmwarev1beta1.mkVSphereMachineSpec (Some "vsphere://17") None "ubuntu" "small" "gold" None None vmwarev1beta1.zero_VSphereMachineNetworkSpec "hard" ""
      (Some (vmwarev1beta1.mkVirtualMachineNamingStrategy (Some "vm"))))
    (vmwarev1beta1.mkVSphereMachineStatus true None (Some "17") "" None None "ready" None None vmwarev1beta1.zero_VSphereMachineNetworkStatus).

Lemma stale_vmware_data : UnmarshalData vmwarehub.zero_VSphereMachine stale_vmware_meta =
  Ok (true, build_vmware_machine (vmware_machine_view sample_vmware_machine), set_mv_Annotations (Some ∅) sample_meta).
Proof. by vm_compute. Qed.
Lemma sample_vmware_v1beta1_machine_valid : valid_vmware_v1beta1_machine sample_vmware_v1beta1_machine.
Proof. split; split_and!; try done; [|by right]. intros n [= <-]. by eexists. Qed.

Lemma vmware_machine_spoke_hub_spoke_witness :
  valid_vmware_v1beta1_machine sample_vmware_v1beta1_machine /\
  exists y data, ConvertVSphereMachineV1Beta1ToHub sample_vmware_v1beta1_machine vmwarehub.zero_VSphereMachine = Ok y /\
    ConvertVSphereMachineHubToV1Beta1 y vmwarev1beta1.zero_VSphereMachine =
      Ok (vmwarev1beta1.set_VSphereMachine_ObjectMeta (annotated data stale_vmware_meta) sample_vmware_v1beta1_machine).
Proof.
  split; [apply sample_vmware_v1beta1_machine_valid|].
  exact (vmware_machine_spoke_hub_spoke sample_vmware_v1beta1_machine _ _ _ stale_vmware_data sample_vmware_v1beta1_machine_valid).
Defined.
