(* ===== verification/Converter.v ===== *)
(** The converter of the supervisor mode ([pkg/conversion/converter.go], [converter_builder.go]):
    which Go types are hub types, which are versions of them, and the functions that
    convert between them. *)
From stdpp Require Import gmap strings countable.
From S2P Require Export Prelude GoStrings Errors ConvLib.

(** * Objects

    A [runtime.Object] is nil, something that is not a pointer, a pointer to something that is
    not a struct, or a pointer to a struct of a named type. *)
Record GoType := mkGoType { t_PkgPath : string; t_Name : string }.
#[global] Instance GoType_eq_dec : EqDecision GoType.
Proof. solve_decision. Defined.
#[global, program] Instance GoType_countable : Countable GoType :=
  inj_countable' (λ t, (t_PkgPath t, t_Name t)) (λ p, mkGoType p.1 p.2) _.
Next Obligation. by intros []. Qed.

Inductive shape := ONil | ONotPointer (kind : string) | OPointerTo (kind : string) | OStruct (t : GoType).

(** [GetSource] and [SetSource] are those of [conversionmeta.Convertible], which an object of
    a type has or does not have; [SourceTypeMeta] is its only field [APIVersion]. *)
Class Objects (Obj : Type) := {
  shape_of : Obj -> shape;
  Convertible : GoType -> bool;
  GetSource : Obj -> string;
  SetSource : string -> Obj -> Obj;
  get_set_source s o t : shape_of o = OStruct t -> Convertible t = true -> GetSource (SetSource s o) = s;
  shape_set_source s o : shape_of (SetSource s o) = shape_of o
}.

Record GroupVersionKind := mkGroupVersionKind { k_Group : string; k_Version : string; k_Kind : string }.
#[global] Instance GroupVersionKind_eq_dec : EqDecision GroupVersionKind.
Proof. solve_decision. Defined.
#[global, program] Instance GroupVersionKind_countable : Countable GroupVersionKind :=
  inj_countable' (λ g, (k_Group g, k_Version g, k_Kind g)) (λ p, mkGroupVersionKind p.1.1 p.1.2 p.2) _.
Next Obligation. by intros []. Qed.

(** [schema.GroupVersion] and its [String()], and that of [schema.GroupVersionKind]. *)
Record GroupVersion := mkGroupVersion { v_Group : string; v_Version : string }.
#[global] Instance GroupVersion_eq_dec : EqDecision GroupVersion.
Proof. solve_decision. Defined.
Definition GroupVersion_String (gv : GroupVersion) : string :=
  if String.eqb (v_Group gv) "" then v_Version gv else v_Group gv +:+ "/" +:+ v_Version gv.
Definition k_GroupVersion (gvk : GroupVersionKind) : GroupVersion := mkGroupVersion (k_Group gvk) (k_Version gvk).
Definition WithKind (gv : GroupVersion) (kind : string) : GroupVersionKind := mkGroupVersionKind (v_Group gv) (v_Version gv) kind.
Definition gvk_String (gvk : GroupVersionKind) : string :=
  k_Group gvk +:+ "/" +:+ k_Version gvk +:+ ", Kind=" +:+ k_Kind gvk.
Definition gk_String (gvk : GroupVersionKind) : string :=
  if String.eqb (k_Group gvk) "" then k_Kind gvk else k_Kind gvk +:+ "." +:+ k_Group gvk.

Definition is_list (kind : string) : bool := has_suffix kind "List".

Lemma length_app_str (s t : string) : String.length (s +:+ t) = (String.length s + String.length t)%nat.
Proof. induction s as [|c s IH]; [done|]. change (S (String.length (s +:+ t)) = S (String.length s + String.length t)). by rewrite IH. Qed.
Lemma drop_app_str (s t : string) : drop_str (String.length s) (s +:+ t) = t.
Proof. by induction s. Qed.
Lemma is_list_app (s : string) : is_list (s +:+ "List") = true.
Proof.
  unfold is_list, has_suffix. rewrite length_app_str. replace (String.length s + String.length "List" - String.length "List")%nat with (String.length s) by lia.
  rewrite drop_app_str. rewrite String.eqb_refl, andb_true_r. apply Nat.leb_le. lia.
Qed.

(** * The converter *)

Section converter.
Context {Obj : Type} `{Objects Obj}.

(** What a function does that converts [src] into [dst]: it changes [dst], also when it returns an error, but not the type of what
    [dst] points to. It may panic, which the functions that take the types apart do for objects of other types. *)
Record conversion := mkConversion {
  c_run : Obj -> Obj -> Obj * res unit;
  c_shape src dst : shape_of (c_run src dst).1 = shape_of dst
}.

(** A Go function: [==] on functions, which the code does through [reflect.Value], compares the pointers. *)
Record ConvertFunc := mkConvertFunc { f_pointer : Z; f_conversion : conversion }.
Definition f_run (f : ConvertFunc) : Obj -> Obj -> Obj * res unit := c_run (f_conversion f).

Record Converter := mkConverter {
  gvkToType : gmap GroupVersionKind GoType;
  typeToGVK : gmap GoType GroupVersionKind;
  gvkHubTypes : gmap GroupVersionKind bool;
  conversionFuncs : gmap GroupVersionKind (gmap GroupVersionKind ConvertFunc);
  targetVersionSelector : string -> string -> res string
}.

Definition NewConverter (targetVersionSelector : string -> string -> res string) : Converter :=
  mkConverter ∅ ∅ ∅ ∅ targetVersionSelector.

Definition objType (obj : Obj) : res GoType :=
  match shape_of obj with
  | ONil => Err (ENew "all objects must be pointers to structs, got nil")
  | ONotPointer kind => Err (ENew (sprintf "all objects must be pointers to structs, got %s" [AS kind]))
  | OPointerTo kind => Err (ENew (sprintf "all objects must be pointers to structs, got *%s" [AS kind]))
  | OStruct t => Ok t
  end.

Definition GroupVersionKindFor (obj : Obj) (s : Converter) : res GroupVersionKind :=
  t ← objType obj;
  match typeToGVK s !! t with
  | None => Err (ENew (sprintf "no type registered for %s.%s" [AS (t_PkgPath t); AS (t_Name t)]))
  | Some gvk => Ok gvk
  end.

(** [s.gvkHubTypes[gvk]] and [s.conversionFuncs[src][dst]]: reading a map gives the zero value for a key that is not there. *)
Definition hub_type (s : Converter) (gvk : GroupVersionKind) : bool := default false (gvkHubTypes s !! gvk).
Definition conversion_func (s : Converter) (src dst : GroupVersionKind) : option ConvertFunc :=
  default ∅ (conversionFuncs s !! src) !! dst.

(** The three assignments that register a type. *)
Definition set_type (gvk : GroupVersionKind) (t : GoType) (isHub : bool) (s : Converter) : Converter :=
  mkConverter (<[gvk := t]> (gvkToType s)) (<[t := gvk]> (typeToGVK s)) (<[gvk := isHub]> (gvkHubTypes s))
    (conversionFuncs s) (targetVersionSelector s).
Definition set_func (src dst : GroupVersionKind) (f : ConvertFunc) (s : Converter) : Converter :=
  mkConverter (gvkToType s) (typeToGVK s) (gvkHubTypes s)
    (<[src := <[dst := f]> (default ∅ (conversionFuncs s !! src))]> (conversionFuncs s)) (targetVersionSelector s).

(** The checks against what is registered already. *)
Definition other_type (gvk : GroupVersionKind) (t : GoType) (s : Converter) : option error :=
  match gvkToType s !! gvk with
  | Some oldT => if bool_decide (oldT = t) then None
      else Some (ENew (sprintf "double registration of different types for %v: old=%v.%v, new=%v.%v" [AS (gvk_String gvk); AS (t_PkgPath oldT); AS (t_Name oldT); AS (t_PkgPath t); AS (t_Name t)]))
  | None => None
  end.
Definition other_gvk (gvk : GroupVersionKind) (t : GoType) (s : Converter) : option error :=
  match typeToGVK s !! t with
  | Some oldGvk => if bool_decide (oldGvk = gvk) then None
      else Some (ENew (sprintf "double registration of different gvk for %v.%v: old=%s, new=%s" [AS (t_PkgPath t); AS (t_Name t); AS (gvk_String oldGvk); AS (gvk_String gvk)]))
  | None => None
  end.
Definition other_func (src dst : GroupVersionKind) (f : ConvertFunc) (s : Converter) : option error :=
  match conversion_func s src dst with
  | Some oldC => if f_pointer oldC =? f_pointer f then None
      else Some (ENew (sprintf "double registration of conversion function from %v to %v: old function is different from the new function" [AS (gvk_String src); AS (k_Version dst)]))
  | None => None
  end.

(** [if err != nil { return err }], with the converter as it is by then. *)
Definition check (err : option error) (s : Converter) (k : Converter * option error) : Converter * option error :=
  match err with Some e => (s, Some e) | None => k end.

(** One turn of the loop. *)
Definition add_hub_type (gv : GroupVersion) (obj : Obj) (s : Converter) : Converter * option error :=
  match objType obj with
  | Err e => (s, Some e)
  | Stop _ => (s, None)
  | Ok t =>
      check (if negb (is_list (t_Name t)) && negb (Convertible t)
        then Some (ENew (sprintf "all objects must implement sigs.k8s.io/cluster-api-provider-vsphere/pkg/conversion/api/meta.Convertible, %v.%v does not" [AS (t_PkgPath t); AS (t_Name t)]))
        else None) s (
      let gvk := WithKind gv (t_Name t) in
      check (other_type gvk t s) s (
      check (other_gvk gvk t s) s
      (set_type gvk t true s, None)))
  end.

Fixpoint add_hub_types (gv : GroupVersion) (types : list Obj) (s : Converter) : Converter * option error :=
  match types with
  | [] => (s, None)
  | obj :: types =>
      match add_hub_type gv obj s with
      | (s, Some e) => (s, Some e)
      | (s, None) => add_hub_types gv types s
      end
  end.

Definition AddHubTypes (gv : GroupVersion) (types : list Obj) (s : Converter) : Converter * option error :=
  if String.eqb (v_Group gv) "" then (s, Some (ENew "invalid group, group cannot be empty"))
  else if String.eqb (v_Version gv) "" then (s, Some (ENew "invalid version, version cannot be empty"))
  else add_hub_types gv types s.

Definition AllKnownHubTypes (s : Converter) : gmap GroupVersionKind GoType :=
  map_imap (λ gvk isHub, if isHub : bool then gvkToType s !! gvk else None) (gvkHubTypes s).

Definition Recognizes (gvk : GroupVersionKind) (s : Converter) : bool := bool_decide (is_Some (gvkToType s !! gvk)).

(** What is registered once the kinds are known. *)
Definition register (hubGVK spokeGVK : GroupVersionKind) (spokeType : GoType) (hubToSpokeFunc spokeToHubFunc : ConvertFunc) (s : Converter) : Converter * option error :=
  check (other_type spokeGVK spokeType s) s (
  check (other_gvk spokeGVK spokeType s) s (
  let s := set_type spokeGVK spokeType false s in
  check (other_func hubGVK spokeGVK hubToSpokeFunc s) s (
  let s := set_func hubGVK spokeGVK hubToSpokeFunc s in
  check (other_func spokeGVK hubGVK spokeToHubFunc s) s
  (set_func spokeGVK hubGVK spokeToHubFunc s, None)))).

Definition AddConversion (hub : Obj) (spokeVersion : string) (spoke : Obj) (hubToSpokeFunc spokeToHubFunc : ConvertFunc) (s : Converter) : Converter * option error :=
  match GroupVersionKindFor hub s with
  | Err e => (s, Some e)
  | Stop _ => (s, None)
  | Ok hubGVK =>
      if is_list (k_Kind hubGVK) then (s, Some (ENew "invalid source type, source type for a conversion cannot have the List suffix"))
      else match objType spoke with
      | Err e => (s, Some e)
      | Stop _ => (s, None)
      | Ok spokeType =>
          let spokeGVK := mkGroupVersionKind (k_Group hubGVK) spokeVersion (t_Name spokeType) in
          if String.eqb (k_Group spokeGVK) "" then (s, Some (ENew "invalid group, group cannot be empty"))
          else if String.eqb (k_Version spokeGVK) "" then (s, Some (ENew "invalid version, version cannot be empty"))
          else if String.eqb (k_Version spokeGVK) (k_Version hubGVK)
            then (s, Some (ENew "invalid version, spokeVersion for a conversion cannot be the equal to the version registered for the hub object"))
          else if negb (String.eqb (k_Kind hubGVK) (k_Kind spokeGVK))
            then (s, Some (ENew "invalid spoke type, spoke type for a conversion must be of the same kind as the hub object"))
          else register hubGVK spokeGVK spokeType hubToSpokeFunc spokeToHubFunc s
      end
  end.

(** [dst] is changed, also when an error is returned; an object that is a hub type but not [Convertible], which is
    a list, has a nil interface, whose methods panic. *)
Definition source_of (src : Obj) (gvk : GroupVersionKind) (s : Converter) : res string :=
  if hub_type s gvk then
    match objType src with
    | Ok t => if Convertible t then Ok (GetSource src) else Stop Panics
    | _ => Stop Panics
    end
  else Ok "".

Definition Convert (src dst : Obj) (s : Converter) : Obj * res unit :=
  match srcGVK ← GroupVersionKindFor src s; dstGVK ← GroupVersionKindFor dst s; Ok (srcGVK, dstGVK) with
  | Err e => (dst, Err e)
  | Stop w => (dst, Stop w)
  | Ok (srcGVK, dstGVK) =>
      match source_of src srcGVK s with
      | Err e => (dst, Err e)
      | Stop w => (dst, Stop w)
      | Ok source =>
          if negb (String.eqb source "") && negb (String.eqb source (GroupVersion_String (k_GroupVersion dstGVK))) then
            (dst, Err (ENew (sprintf "objects with kind %s and source.APIVersion %s cannot be converted to %s" [AS (k_Kind srcGVK); AS source; AS (k_Version dstGVK)])))
          else
            match conversion_func s srcGVK dstGVK with
            | None => (dst, Err (ENew (sprintf "no conversion registered from %s to %s" [AS (gvk_String srcGVK); AS (gvk_String dstGVK)])))
            | Some conversionFunc =>
                let '(dst, r) := f_run conversionFunc src dst in
                match r with
                | Err err => (dst, Err (EWrap (sprintf "error converting from %s to %s" [AS (gvk_String srcGVK); AS (gvk_String dstGVK)]) err))
                | Stop w => (dst, Stop w)
                | Ok _ =>
                    if hub_type s dstGVK then
                      match objType dst with
                      | Ok t => if Convertible t then (SetSource (GroupVersion_String (k_GroupVersion srcGVK)) dst, Ok tt) else (dst, Stop Panics)
                      | _ => (dst, Stop Panics)
                      end
                    else (dst, Ok tt)
                end
            end
      end
  end.

Definition IsHub (obj : Obj) (s : Converter) : bool :=
  match GroupVersionKindFor obj s with Ok gvk => hub_type s gvk | _ => false end.

Definition SpokeGroupVersionKindFor (obj : Obj) (s : Converter) : res GroupVersionKind :=
  gvk ← GroupVersionKindFor obj s;
  let isList := is_list (k_Kind gvk) in
  let gvk := if isList then mkGroupVersionKind (k_Group gvk) (k_Version gvk) (trim_suffix (k_Kind gvk) "List") else gvk in
  if negb (hub_type s gvk) then Err (ENew (sprintf "no type registered for %s" [AS (gvk_String gvk)]))
  else
    spokeVersion ← res_wrap (sprintf "no target version registered for %s" [AS (gk_String gvk)]) (targetVersionSelector s (k_Group gvk) (k_Kind gvk));
    let spokeGVK := mkGroupVersionKind (k_Group gvk) spokeVersion (k_Kind gvk) in
    match conversion_func s gvk spokeGVK with
    | None => Err (ENew (sprintf "no conversion registered from %s to %s" [AS (gvk_String gvk); AS (k_Version spokeGVK)]))
    | Some _ =>
        Ok (if isList then mkGroupVersionKind (k_Group spokeGVK) (k_Version spokeGVK) (sprintf "%sList" [AS (k_Kind spokeGVK)]) else spokeGVK)
    end.

(** ** Builders *)

(** A function that adds things to a converter. The closures it makes are new ones: they are allocated from the pointer [p] on,
    and the next free pointer is returned. *)
Definition Adder := Z -> Converter -> Z * (Converter * option error).

Record ConverterBuilder := mkConverterBuilder { cb_gv : GroupVersion; cb_funcs : list Adder }.
Definition NewConverterBuilder (gv : GroupVersion) (fs : list Adder) : ConverterBuilder := mkConverterBuilder gv fs.

Fixpoint add_funcs (fs : list Adder) : Adder := λ p s,
  match fs with
  | [] => (p, (s, None))
  | f :: fs =>
      match f p s with
      | (p, (s, Some e)) => (p, (s, Some e))
      | (p, (s, None)) => add_funcs fs p s
      end
  end.
Definition AddToConverter (sb : ConverterBuilder) : Adder := add_funcs (cb_funcs sb).

Definition add_types (gv : GroupVersion) (types : list Obj) : Adder := λ p s, (p, AddHubTypes gv types s).
Definition AddTypes (types : list Obj) (sb : ConverterBuilder) : ConverterBuilder :=
  mkConverterBuilder (cb_gv sb) (cb_funcs sb ++ [add_types (cb_gv sb) types]).

(** [hub] and [spoke] are nil pointers of the two types. *)
Record AddConversionBuilder := mkAddConversionBuilder {
  ab_hub : Obj;
  ab_spoke : Obj;
  ab_hubToSpokeFunc : conversion;
  ab_spokeToHubFunc : conversion
}.
Definition Build (version : string) (c : AddConversionBuilder) : Adder := λ p s,
  (p + 2, AddConversion (ab_hub c) version (ab_spoke c) (mkConvertFunc p (ab_hubToSpokeFunc c)) (mkConvertFunc (p + 1) (ab_spokeToHubFunc c)) s).
Definition builder_AddConversion (builder : AddConversionBuilder) (sb : ConverterBuilder) : ConverterBuilder :=
  mkConverterBuilder (cb_gv sb) (cb_funcs sb ++ [Build (v_Version (cb_gv sb)) builder]).

(** * What a converter knows *)

(** The types and the kinds are in bijection and every kind is the name of its type; whether a kind is a hub is known of the
    registered kinds, and a hub that is not a list can tell what it was converted from; conversions are between different versions of a registered
    kind, and go both ways. *)
Record well_formed (s : Converter) : Prop := {
  wf_types gvk t : gvkToType s !! gvk = Some t <-> typeToGVK s !! t = Some gvk;
  wf_names gvk t : gvkToType s !! gvk = Some t -> k_Kind gvk = t_Name t /\ k_Group gvk <> "" /\ k_Version gvk <> "";
  wf_hubs gvk : is_Some (gvkHubTypes s !! gvk) <-> is_Some (gvkToType s !! gvk);
  wf_convertible gvk t : hub_type s gvk = true -> gvkToType s !! gvk = Some t -> is_list (k_Kind gvk) = false -> Convertible t = true;
  wf_funcs a b f : conversion_func s a b = Some f ->
    k_Group a = k_Group b /\ k_Kind a = k_Kind b /\ k_Version a <> k_Version b /\ is_list (k_Kind a) = false /\
    is_Some (gvkToType s !! a) /\ is_Some (gvkToType s !! b);
  wf_both a b : is_Some (conversion_func s a b) -> is_Some (conversion_func s b a)
}.

Lemma NewConverter_wf sel : well_formed (NewConverter sel).
Proof.
  split; cbn; try done; intros *; rewrite ?lookup_empty; by split.
Qed.

Lemma objType_inv obj t : objType obj = Ok t <-> shape_of obj = OStruct t.
Proof. unfold objType. destruct (shape_of obj); naive_solver. Qed.

Lemma GroupVersionKindFor_inv obj s gvk : GroupVersionKindFor obj s = Ok gvk <->
  exists t, shape_of obj = OStruct t /\ typeToGVK s !! t = Some gvk.
Proof.
  unfold GroupVersionKindFor. split.
  - intros (t & Ht%objType_inv & E)%res_bind_ok. exists t. split; [done|]. destruct (typeToGVK s !! t); by simplify_eq.
  - intros (t & Ht%objType_inv & E). rewrite Ht. cbn. by rewrite E.
Qed.

Lemma conversion_func_set a b f s c d : conversion_func (set_func a b f s) c d =
  if bool_decide ((c, d) = (a, b)) then Some f else conversion_func s c d.
Proof.
  unfold conversion_func, set_func. cbn. destruct (decide (c = a)) as [->|Hc].
  - rewrite lookup_insert_eq. cbn. destruct (decide (d = b)) as [->|Hd].
    + by rewrite lookup_insert_eq, bool_decide_true.
    + rewrite lookup_insert_ne, bool_decide_false by congruence. done.
  - rewrite lookup_insert_ne, bool_decide_false by congruence. done.
Qed.

Lemma set_type_wf gvk t isHub s : well_formed s -> other_type gvk t s = None -> other_gvk gvk t s = None ->
  k_Kind gvk = t_Name t -> k_Group gvk <> "" -> k_Version gvk <> "" -> (isHub = true -> is_list (t_Name t) = false -> Convertible t = true) ->
  well_formed (set_type gvk t isHub s).
Proof.
  intros [Ht Hn Hh Hc Hf Hb] E1 E2 Hk Hg Hv Hi. unfold other_type, other_gvk in *.
  assert (E1' : forall t', gvkToType s !! gvk = Some t' -> t' = t).
  { intros t' E. rewrite E in E1. by case_bool_decide. }
  assert (E2' : forall gvk', typeToGVK s !! t = Some gvk' -> gvk' = gvk).
  { intros g E. rewrite E in E2. by case_bool_decide. }
  split; cbn.
  - intros g t'. rewrite !lookup_insert. destruct (decide (gvk = g)) as [<-|Hg1], (decide (t = t')) as [<-|Ht1].
    + done.
    + split; [congruence|]. intros E%Ht. by apply E1' in E.
    + split; [|congruence]. intros E%Ht. by apply E2' in E.
    + apply Ht.
  - intros g t'. rewrite lookup_insert. case_decide as Hd; [intros [= <-]; by subst|apply Hn].
  - intros g. rewrite !lookup_insert. case_decide; [by split|]. apply Hh.
  - intros g t'. unfold hub_type. cbn. rewrite !lookup_insert. case_decide; [|apply Hc]. cbn. subst. intros -> [= <-]. rewrite Hk. by apply Hi.
  - intros a b f E. destruct (Hf a b f E) as (? & ? & ? & ? & Ha & Hb'). split_and!; [done..| |]; rewrite lookup_insert; by case_decide.
  - exact Hb.
Qed.

Lemma set_funcs_wf a b s s' : well_formed s ->
  (forall c d g, conversion_func s' c d = Some g -> conversion_func s c d = Some g \/ (c, d) = (a, b) \/ (c, d) = (b, a)) ->
  (forall c d, is_Some (conversion_func s c d) -> is_Some (conversion_func s' c d)) ->
  is_Some (conversion_func s' a b) -> is_Some (conversion_func s' b a) ->
  gvkToType s' = gvkToType s -> typeToGVK s' = typeToGVK s -> gvkHubTypes s' = gvkHubTypes s ->
  k_Group a = k_Group b -> k_Kind a = k_Kind b -> k_Version a <> k_Version b -> is_list (k_Kind a) = false ->
  is_Some (gvkToType s !! a) -> is_Some (gvkToType s !! b) ->
  well_formed s'.
Proof.
  intros [Ht Hn Hh Hc Hf Hb] Hold Hnew Hab Hba E1 E2 E3 Hg Hk Hv Hl Ha Hb'. unfold hub_type in *. split; unfold hub_type; rewrite ?E1, ?E2, ?E3; auto.
  - intros c d g [E|[[= -> ->]|[= -> ->]]]%Hold; [by apply (Hf c d g)|done|]. rewrite <-Hk. split_and!; auto.
  - intros c d [g [E|[[= -> ->]|[= -> ->]]]%Hold]; [|done..]. apply Hnew, Hb. by exists g.
Qed.

(** What is checked before the functions are registered. *)
Lemma register_wf hub spoke t f g s : well_formed s -> is_Some (gvkToType s !! hub) -> k_Kind spoke = t_Name t ->
  k_Group hub = k_Group spoke -> k_Kind hub = k_Kind spoke -> k_Version hub <> k_Version spoke -> is_list (k_Kind hub) = false ->
  k_Group spoke <> "" -> k_Version spoke <> "" -> well_formed (register hub spoke t f g s).1.
Proof.
  intros Hs Hhub Hn Hg Hk Hv Hl Hg' Hv'. unfold register, check.
  destruct (other_type spoke t s) eqn:E1; [done|]. destruct (other_gvk spoke t s) eqn:E2; [done|].
  pose proof (set_type_wf spoke t false s Hs E1 E2 Hn Hg' Hv' ltac:(done)) as Hs1.
  assert (Hhub1 : is_Some (gvkToType (set_type spoke t false s) !! hub)).
  { cbn. rewrite lookup_insert. by case_decide. }
  assert (Hspoke1 : is_Some (gvkToType (set_type spoke t false s) !! spoke)) by (cbn; by rewrite lookup_insert_eq).
  generalize dependent (set_type spoke t false s). clear Hs E1 E2 Hhub. intros s1 Hs Hhub Hspoke.
  destruct (other_func hub spoke f s1) eqn:E1; [done|].
  destruct (other_func spoke hub g (set_func hub spoke f s1)) eqn:E2; cbn;
    apply (set_funcs_wf hub spoke s1); try done; intros *; rewrite !conversion_func_set.
  - case_bool_decide; [by auto|by auto].
  - by case_bool_decide.
  - by rewrite bool_decide_true.
  - unfold other_func in E2. rewrite conversion_func_set in E2. case_bool_decide; [done|]. by destruct (conversion_func s1 spoke hub).
  - case_bool_decide; [by auto|]. case_bool_decide; by auto.
  - case_bool_decide; [done|]. by case_bool_decide.
  - case_bool_decide; [done|]. by rewrite bool_decide_true.
  - by rewrite bool_decide_true.
Qed.

Lemma AddConversion_wf hub v spoke f g s : well_formed s -> well_formed (AddConversion hub v spoke f g s).1.
Proof.
  intros Hs. unfold AddConversion. destruct (GroupVersionKindFor hub s) as [gvk| |] eqn:E; [|done..].
  apply GroupVersionKindFor_inv in E as (t & _ & E%(wf_types s Hs)). pose proof (wf_names s Hs _ _ E) as (Hk & Hg & Hv).
  destruct (is_list (k_Kind gvk)) eqn:El; [done|]. destruct (objType spoke) as [ts| |]; [|done..]. cbn zeta. cbn [k_Group k_Version k_Kind].
  destruct (String.eqb_spec (k_Group gvk) ""); [done|]. destruct (String.eqb_spec v ""); [done|].
  destruct (String.eqb_spec v (k_Version gvk)); [done|]. destruct (String.eqb_spec (k_Kind gvk) (t_Name ts)); [|done]. cbn.
  apply register_wf; try done.
Qed.

Lemma add_hub_types_wf gv types s : well_formed s -> v_Group gv <> "" -> v_Version gv <> "" -> well_formed (add_hub_types gv types s).1.
Proof.
  intros Hs Hg Hv. revert s Hs. induction types as [|obj types IH]; intros s Hs; [done|]. cbn.
  assert (Ho : well_formed (add_hub_type gv obj s).1).
  { unfold add_hub_type, check. destruct (objType obj) as [t| |]; [|done..].
    destruct (is_list (t_Name t)) eqn:El, (Convertible t) eqn:Ec; cbn; try done;
      (destruct (other_type _ t s) eqn:E1; [done|]); (destruct (other_gvk _ t s) eqn:E2; [done|]); cbn; apply set_type_wf; try done; congruence. }
  destruct (add_hub_type gv obj s) as [s' [e|]]; [done|]. by apply IH.
Qed.

Lemma AddHubTypes_wf gv types s : well_formed s -> well_formed (AddHubTypes gv types s).1.
Proof.
  intros Hs. unfold AddHubTypes. destruct (String.eqb_spec (v_Group gv) ""); [done|]. destruct (String.eqb_spec (v_Version gv) ""); [done|].
  by apply add_hub_types_wf.
Qed.

(** The converters there are: types and conversions are added to a new one, also when adding some of them failed. *)
Inductive built (sel : string -> string -> res string) : Converter -> Prop :=
| built_new : built sel (NewConverter sel)
| built_types s gv types : built sel s -> built sel (AddHubTypes gv types s).1
| built_conversion s hub v spoke f g : built sel s -> built sel (AddConversion hub v spoke f g s).1.

Lemma built_wf sel s : built sel s -> well_formed s.
Proof.
  induction 1 as [|s gv types _ IH|s hub v spoke f g _ IH]; [apply NewConverter_wf|by apply AddHubTypes_wf|by apply AddConversion_wf].
Qed.

(** C27: Whatever types and conversions are added to a converter, in whatever order and also when adding some of them fails: its
    types and kinds are in bijection, the kinds carry the names of their types, a hub that is not a list can record what it was converted from, and
    conversions are only between different versions of one registered kind, never of lists, and go both ways. *)
Theorem converter_well_formed sel s (Hs : built sel s) : well_formed s.
Proof.
  by apply (built_wf sel).
Qed.

Lemma add_funcs_built sel fs p s : (forall f p s, f ∈ fs -> built sel s -> built sel (f p s).2.1) ->
  built sel s -> built sel (add_funcs fs p s).2.1.
Proof.
  intros Hfs. revert p s. induction fs as [|f fs IH]; intros p s Hs; [done|]. cbn.
  assert (Hf : built sel (f p s).2.1) by (apply Hfs; [by left|done]). destruct (f p s) as [p' [s' [e|]]]; [done|]. apply IH; [|done]. intros. apply Hfs; [by right|done].
Qed.

(** ** Converting *)

(** The check of the source lets pass. *)
Lemma unpinned source v : negb (String.eqb source "") && negb (String.eqb source v) = false -> source = "" \/ source = v.
Proof. destruct (String.eqb_spec source ""); [by left|]. destruct (String.eqb_spec source v); [by right|done]. Qed.

(** [Convert] succeeds on the objects of registered types with a registered conversion, when a hub object was not read from another version. *)
Lemma Convert_ok src dst s dst' : Convert src dst s = (dst', Ok tt) <->
  exists a b f d, GroupVersionKindFor src s = Ok a /\ GroupVersionKindFor dst s = Ok b /\ conversion_func s a b = Some f /\
    (exists source, source_of src a s = Ok source /\ (source = "" \/ source = GroupVersion_String (k_GroupVersion b))) /\
    f_run f src dst = (d, Ok tt) /\
    (if hub_type s b then (exists t, shape_of d = OStruct t /\ Convertible t = true) /\ dst' = SetSource (GroupVersion_String (k_GroupVersion a)) d else dst' = d).
Proof.
  unfold Convert. split.
  - destruct (GroupVersionKindFor src s) as [a| |]; [|done..]. cbn. destruct (GroupVersionKindFor dst s) as [b| |]; [|done..]. cbn.
    destruct (source_of src a s) as [source| |] eqn:Es; [|done..]. destruct (negb _ && negb _) eqn:En; [done|].
    destruct (conversion_func s a b) as [f|] eqn:Ef; [|done]. destruct (f_run f src dst) as [d [[]|e|w]] eqn:Er; [|done..]. intros E.
    exists a, b, f, d. split_and!; try done.
    + exists source. split; [done|]. by apply unpinned.
    + destruct (hub_type s b); [|congruence]. destruct (objType d) as [t| |] eqn:Et; [|done..]. apply objType_inv in Et.
      destruct (Convertible t) eqn:Ec; [|done]. injection E as <-. eauto.
  - intros (a & b & f & d & -> & -> & Hf & (source & Hs & Hv) & Hr & E). cbn. rewrite Hs.
    assert (En : negb (String.eqb source "") && negb (String.eqb source (GroupVersion_String (k_GroupVersion b))) = false).
    { destruct Hv as [->| ->]; [done|]. rewrite String.eqb_refl. apply andb_false_r. }
    rewrite En, Hf, Hr. destruct (hub_type s b); [|by subst]. destruct E as ((t & Ht%objType_inv & Hc) & ->). by rewrite Ht, Hc.
Qed.

Lemma GroupVersion_String_inj g v v' : GroupVersion_String (mkGroupVersion g v) = GroupVersion_String (mkGroupVersion g v') -> v = v'.
Proof.
  unfold GroupVersion_String. cbn. destruct (String.eqb g ""); [done|]. intros E. by apply (inj (String.append g)), (inj (String.append "/")) in E.
Qed.

Lemma GroupVersionKindFor_shape obj obj' s : shape_of obj = shape_of obj' -> GroupVersionKindFor obj s = GroupVersionKindFor obj' s.
Proof. unfold GroupVersionKindFor, objType. by intros ->. Qed.

Lemma GroupVersionKindFor_type obj obj' s gvk : well_formed s -> GroupVersionKindFor obj s = Ok gvk -> GroupVersionKindFor obj' s = Ok gvk ->
  shape_of obj = shape_of obj'.
Proof.
  intros Hs (t & -> & E%(wf_types s Hs))%GroupVersionKindFor_inv (t' & -> & E'%(wf_types s Hs))%GroupVersionKindFor_inv. congruence.
Qed.

(** A hub object that takes part in conversions has a source. *)
Lemma source_of_hub s obj gvk b f : well_formed s -> GroupVersionKindFor obj s = Ok gvk -> conversion_func s gvk b = Some f ->
  source_of obj gvk s = Ok (if hub_type s gvk then GetSource obj else "").
Proof.
  intros Hs (t & Ht & E%(wf_types s Hs))%GroupVersionKindFor_inv Hf. unfold source_of. destruct (hub_type s gvk) eqn:Eh; [|done].
  apply (wf_funcs s Hs) in Hf as (_ & _ & _ & Hl & _). apply objType_inv in Ht. by rewrite Ht, (wf_convertible s Hs gvk t).
Qed.

(** Converting does not panic when the function does not. *)
Lemma Convert_returns s src dst a b f w : well_formed s -> GroupVersionKindFor src s = Ok a -> GroupVersionKindFor dst s = Ok b ->
  conversion_func s a b = Some f -> (Convert src dst s).2 = Stop w -> (f_run f src dst).2 = Stop w.
Proof.
  intros Hs Ea Eb Hf. unfold Convert. rewrite Ea, Eb. cbn. rewrite (source_of_hub s src a b f) by done. case_match; [done|]. rewrite Hf.
  destruct (f_run f src dst) as [d [[]|e|w']] eqn:Er; [|done..]. destruct (hub_type s b) eqn:Eh; [|done].
  apply GroupVersionKindFor_inv in Eb as (t & Ht & E%(wf_types s Hs)).
  assert (Hd : objType d = Ok t) by (apply objType_inv; rewrite <-Ht, <-(c_shape (f_conversion f) src dst); unfold f_run in Er; by rewrite Er).
  apply (wf_funcs s Hs) in Hf as (_ & Hk & _ & Hl & _). rewrite Hd, (wf_convertible s Hs b t) by congruence. done.
Qed.

(** The version a hub object records and its kind tell the type. *)
Lemma pinned s a b c f g : well_formed s -> conversion_func s a b = Some f -> conversion_func s b c = Some g ->
  GroupVersion_String (k_GroupVersion a) = "" \/ GroupVersion_String (k_GroupVersion a) = GroupVersion_String (k_GroupVersion c) -> c = a.
Proof.
  intros Hs (Hg1 & Hk1 & _ & _ & Ha & _)%(wf_funcs s Hs) (Hg2 & Hk2 & _)%(wf_funcs s Hs) Hv.
  destruct a as [ga va ka], b as [gb vb kb], c as [gc vc kc]. cbn in *. subst. f_equal.
  destruct Hv as [Hv|Hv]; [|by apply GroupVersion_String_inj in Hv].
  destruct Ha as [t Ha]. apply (wf_names s Hs) in Ha as (_ & Hga & _). unfold GroupVersion_String in Hv. cbn in *.
  destruct (String.eqb_spec gc ""); [done|]. by destruct gc.
Qed.

(** What is in a hub object after a conversion. *)
Lemma Convert_to_hub s spoke hub hub' : Convert spoke hub s = (hub', Ok tt) -> IsHub hub s = true ->
  exists a b f, GroupVersionKindFor spoke s = Ok a /\ GroupVersionKindFor hub' s = Ok b /\ conversion_func s a b = Some f /\
    hub_type s b = true /\ GetSource hub' = GroupVersion_String (k_GroupVersion a).
Proof.
  intros (a & b & f & d & Ea & Eb & Hf & _ & Er & Ed)%Convert_ok Hhub. unfold IsHub in Hhub. rewrite Eb in Hhub. rewrite Hhub in Ed. destruct Ed as ((t & Ht & Hconv) & ->).
  exists a, b, f. split_and!; try done; [|by apply (get_set_source _ _ t)].
  rewrite <-Eb. apply GroupVersionKindFor_shape. rewrite shape_set_source, <-(c_shape (f_conversion f) spoke hub). unfold f_run in Er. by rewrite Er.
Qed.

Lemma Convert_shape s src dst : shape_of (Convert src dst s).1 = shape_of dst.
Proof.
  unfold Convert. case_match; [|done..]. case_match; subst. case_match; [|done..]. case_match; [done|]. case_match; [|done].
  destruct (f_run c src dst) as [d r] eqn:Er.
  assert (Hd : shape_of d = shape_of dst) by (unfold f_run in Er; by rewrite <-(c_shape (f_conversion c) src dst), Er).
  destruct r; [|done..]. case_match; [|done]. repeat case_match; cbn; rewrite ?shape_set_source; done.
Qed.

(** The target version is one there are conversions to, and the one the selector chose. *)
Lemma SpokeGroupVersionKindFor_ok obj s gvk : SpokeGroupVersionKindFor obj s = Ok gvk ->
  exists g a v, GroupVersionKindFor obj s = Ok g /\ hub_type s a = true /\ targetVersionSelector s (k_Group a) (k_Kind a) = Ok v /\
    is_Some (conversion_func s a (mkGroupVersionKind (k_Group a) v (k_Kind a))) /\ k_Group a = k_Group g /\ k_Version a = k_Version g /\
    k_Group gvk = k_Group a /\ k_Version gvk = v /\
    (is_list (k_Kind g) = false -> a = g /\ gvk = mkGroupVersionKind (k_Group g) v (k_Kind g)).
Proof.
  unfold SpokeGroupVersionKindFor. intros (g & Hg & E)%res_bind_ok.
  set (a := if is_list (k_Kind g) then mkGroupVersionKind (k_Group g) (k_Version g) (trim_suffix (k_Kind g) "List") else g) in *. cbn zeta in E.
  destruct (hub_type s a) eqn:Ha; [|done]. apply res_bind_ok in E as (v & Hv & E). exists g, a, v.
  destruct (targetVersionSelector s (k_Group a) (k_Kind a)) as [v'|e|w] eqn:Et; [|done..]. injection Hv as ->.
  destruct (conversion_func s a _) eqn:Ef; [|done]. injection E as <-. split_and!; try done; unfold a; by destruct (is_list (k_Kind g)).
Qed.

(** What a hub object that was converted can be converted to. *)
Lemma goes_back sel s spoke hub hub' target : built sel s -> Convert spoke hub s = (hub', Ok tt) -> IsHub hub s = true ->
  match Convert hub' target s with
  | (target', Ok _) => shape_of target = shape_of spoke
  | (target', Err _) => shape_of target <> shape_of spoke -> target' = target
  | (_, Stop _) => shape_of target = shape_of spoke
  end.
Proof.
  intros Hs%built_wf Hc Hhub. apply Convert_to_hub in Hc as (a & b & f & Ea & Eb & Hf & Hb & Hsrc); [|done].
  destruct (GroupVersionKindFor target s) as [c|e|w] eqn:Ec; [|unfold Convert; by rewrite Eb, Ec|].
  2:{ exfalso. unfold GroupVersionKindFor, objType in Ec. destruct (shape_of target); cbn in Ec; try done. by destruct (typeToGVK s !! t). }
  destruct (wf_both s Hs a b) as [g Hg]; [by exists f|]. pose proof (source_of_hub s hub' b a g Hs Eb Hg) as Hso. rewrite Hb, Hsrc in Hso.
  destruct (conversion_func s b c) as [g'|] eqn:Hg'.
  - assert (Hpin : GroupVersion_String (k_GroupVersion a) = "" \/ GroupVersion_String (k_GroupVersion a) = GroupVersion_String (k_GroupVersion c) -> shape_of target = shape_of spoke).
    { intros ->%(pinned s a b c f g'); [|done..]. by apply (GroupVersionKindFor_type target spoke s a). }
    destruct (Convert hub' target s) as [target' [[]|e|w]] eqn:E.
    + apply Convert_ok in E as (b' & c' & _ & _ & E1 & E2 & _ & (source & Hs' & Hv) & _). rewrite Eb in E1; rewrite Ec in E2; simplify_eq. rewrite Hso in Hs'. simplify_eq. auto.
    + intros Ht. unfold Convert in E. rewrite Eb, Ec in E. cbn in E. rewrite Hso, Hg' in E. destruct (negb _ && negb _) eqn:Hn; [by simplify_eq|]. destruct Ht. by apply Hpin, unpinned.
    + unfold Convert in E. rewrite Eb, Ec in E. cbn in E. rewrite Hso in E. destruct (negb _ && negb _) eqn:Hn; [by simplify_eq|]. by apply Hpin, unpinned.
  - unfold Convert. rewrite Eb, Ec. cbn. rewrite Hso, Hg'. by destruct (negb _ && negb _).
Qed.

(** An object that was converted to a hub type can only be converted back to an object of the Go type it came from: the hub object
    records the version, and converting it to anything else is an error that leaves the target as it is. *)
Theorem hub_goes_back sel s (Hs : built sel s) spoke hub hub' target
    (Hc : Convert spoke hub s = (hub', Ok tt)) (Hhub : IsHub hub s = true) :
  match Convert hub' target s with
  | (target', Ok _) => shape_of target = shape_of spoke
  | (target', Err _) => shape_of target <> shape_of spoke -> target' = target
  | (_, Stop _) => shape_of target = shape_of spoke
  end.
Proof. by apply (goes_back sel s spoke hub). Qed.
End converter.
