(* ===== verification/VmopTypes.v ===== *)
(** The API objects of VM Operator as the conversions of the supervisor mode see them: the hub version
    ([pkg/conversion/api/vmoperator/hub], module [vmophub]) field by field, and of the versions of the API server
    ([vmoprv1alpha2], [vmoprv1alpha5], [vmoprv1alpha6]), which are not part of this repository, the fields the conversions
    read and write. A slice or a map is an [option], because a conversion tells nil from empty. [TypeMeta] of an
    object is set by the machinery around a conversion and left out. [zero_] is the zero value of a struct.
    ([VmwareTypes] has the hub objects as the controllers see them.) *)
From S2P Require Export ConvLib.

(** [intstr.IntOrString]. *)
Inductive IntOrString := IntVal (n : Z) | StrVal (s : string).
Definition zero_IntOrString : IntOrString := IntVal 0.

(** [metav1.TypeMeta] in a reference, and the fields of [corev1.PersistentVolumeClaimVolumeSource]. *)
Record TypeMeta := mkTypeMeta {
  TypeMeta_Kind : string;
  TypeMeta_APIVersion : string
}.
Definition zero_TypeMeta : TypeMeta := mkTypeMeta "" "".

Record CorePersistentVolumeClaimVolumeSource := mkCorePersistentVolumeClaimVolumeSource {
  CorePersistentVolumeClaimVolumeSource_ClaimName : string;
  CorePersistentVolumeClaimVolumeSource_ReadOnly : bool
}.
Definition zero_CorePersistentVolumeClaimVolumeSource : CorePersistentVolumeClaimVolumeSource := mkCorePersistentVolumeClaimVolumeSource "" false.


(** * The hub version: every field of [pkg/conversion/api/vmoperator/hub] *)
Module vmophub.

Record VMAffinityTerm := mkVMAffinityTerm {
  VMAffinityTerm_LabelSelector : option LabelSelector;
  VMAffinityTerm_TopologyKey : string
}.
Definition zero_VMAffinityTerm : VMAffinityTerm := mkVMAffinityTerm None "".

Record VMAffinitySpec := mkVMAffinitySpec {
  VMAffinitySpec_RequiredDuringSchedulingPreferredDuringExecution : option (list VMAffinityTerm)
}.
Definition zero_VMAffinitySpec : VMAffinitySpec := mkVMAffinitySpec None.

Record VMAntiAffinitySpec := mkVMAntiAffinitySpec {
  VMAntiAffinitySpec_PreferredDuringSchedulingPreferredDuringExecution : option (list VMAffinityTerm)
}.
Definition zero_VMAntiAffinitySpec : VMAntiAffinitySpec := mkVMAntiAffinitySpec None.

Record AffinitySpec := mkAffinitySpec {
  AffinitySpec_VMAffinity : option VMAffinitySpec;
  AffinitySpec_VMAntiAffinity : option VMAntiAffinitySpec
}.
Definition zero_AffinitySpec : AffinitySpec := mkAffinitySpec None None.

Record SecretKeySelector := mkSecretKeySelector {
  SecretKeySelector_Name : string;
  SecretKeySelector_Key : string
}.
Definition zero_SecretKeySelector : SecretKeySelector := mkSecretKeySelector "" "".

Record VirtualMachineBootstrapCloudInitSpec := mkVirtualMachineBootstrapCloudInitSpec {
  VirtualMachineBootstrapCloudInitSpec_RawCloudConfig : option SecretKeySelector
}.
Definition zero_VirtualMachineBootstrapCloudInitSpec : VirtualMachineBootstrapCloudInitSpec := mkVirtualMachineBootstrapCloudInitSpec None.

Record VirtualMachineBootstrapSpec := mkVirtualMachineBootstrapSpec {
  VirtualMachineBootstrapSpec_CloudInit : option VirtualMachineBootstrapCloudInitSpec
}.
Definition zero_VirtualMachineBootstrapSpec : VirtualMachineBootstrapSpec := mkVirtualMachineBootstrapSpec None.

Record PartialObjectRef := mkPartialObjectRef {
  PartialObjectRef_TypeMeta : TypeMeta;
  PartialObjectRef_Name : string
}.
Definition zero_PartialObjectRef : PartialObjectRef := mkPartialObjectRef zero_TypeMeta "".

Record VirtualMachineNetworkRouteSpec := mkVirtualMachineNetworkRouteSpec {
  VirtualMachineNetworkRouteSpec_To : string;
  VirtualMachineNetworkRouteSpec_Via : string;
  VirtualMachineNetworkRouteSpec_Metric : Z
}.
Definition zero_VirtualMachineNetworkRouteSpec : VirtualMachineNetworkRouteSpec := mkVirtualMachineNetworkRouteSpec "" "" 0.

Record VirtualMachineNetworkInterfaceVMXNet3Spec := mkVirtualMachineNetworkInterfaceVMXNet3Spec {
  VirtualMachineNetworkInterfaceVMXNet3Spec_UPTv2Enabled : option bool;
  VirtualMachineNetworkInterfaceVMXNet3Spec_CtxPerDev : option string;
  VirtualMachineNetworkInterfaceVMXNet3Spec_RSSOffloadEnabled : option bool;
  VirtualMachineNetworkInterfaceVMXNet3Spec_UDPRSSEnabled : option bool;
  VirtualMachineNetworkInterfaceVMXNet3Spec_PNICFeatures : option (list string);
  VirtualMachineNetworkInterfaceVMXNet3Spec_CoalescingScheme : option string;
  VirtualMachineNetworkInterfaceVMXNet3Spec_CoalescingParams : option string
}.
Definition zero_VirtualMachineNetworkInterfaceVMXNet3Spec : VirtualMachineNetworkInterfaceVMXNet3Spec := mkVirtualMachineNetworkInterfaceVMXNet3Spec None None None None None None None.

Record KeyValuePair := mkKeyValuePair {
  KeyValuePair_Key : string;
  KeyValuePair_Value : string
}.
Definition zero_KeyValuePair : KeyValuePair := mkKeyValuePair "" "".

Record VirtualMachineNetworkInterfaceSpec := mkVirtualMachineNetworkInterfaceSpec {
  VirtualMachineNetworkInterfaceSpec_Name : string;
  VirtualMachineNetworkInterfaceSpec_Network : option PartialObjectRef;
  VirtualMachineNetworkInterfaceSpec_GuestDeviceName : string;
  VirtualMachineNetworkInterfaceSpec_MACAddr : string;
  VirtualMachineNetworkInterfaceSpec_Addresses : option (list string);
  VirtualMachineNetworkInterfaceSpec_DHCP4 : bool;
  VirtualMachineNetworkInterfaceSpec_DHCP6 : bool;
  VirtualMachineNetworkInterfaceSpec_Gateway4 : string;
  VirtualMachineNetworkInterfaceSpec_Gateway6 : string;
  VirtualMachineNetworkInterfaceSpec_MTU : option Z;
  VirtualMachineNetworkInterfaceSpec_Nameservers : option (list string);
  VirtualMachineNetworkInterfaceSpec_Routes : option (list VirtualMachineNetworkRouteSpec);
  VirtualMachineNetworkInterfaceSpec_SearchDomains : option (list string);
  VirtualMachineNetworkInterfaceSpec_Type : string;
  VirtualMachineNetworkInterfaceSpec_VNUMANodeID : option Z;
  VirtualMachineNetworkInterfaceSpec_VMXNet3 : option VirtualMachineNetworkInterfaceVMXNet3Spec;
  VirtualMachineNetworkInterfaceSpec_AdvancedProperties : option (list KeyValuePair);
  VirtualMachineNetworkInterfaceSpec_IPAMModes : option (list string)
}.
Definition zero_VirtualMachineNetworkInterfaceSpec : VirtualMachineNetworkInterfaceSpec := mkVirtualMachineNetworkInterfaceSpec "" None "" "" None false false "" "" None None None None "" None None None None.

Record VirtualMachineNetworkVLANSpec := mkVirtualMachineNetworkVLANSpec {
  VirtualMachineNetworkVLANSpec_Name : string;
  VirtualMachineNetworkVLANSpec_ID : Z;
  VirtualMachineNetworkVLANSpec_Link : string
}.
Definition zero_VirtualMachineNetworkVLANSpec : VirtualMachineNetworkVLANSpec := mkVirtualMachineNetworkVLANSpec "" 0 "".

Record VirtualMachineNetworkSpec := mkVirtualMachineNetworkSpec {
  VirtualMachineNetworkSpec_Interfaces : option (list VirtualMachineNetworkInterfaceSpec);
  VirtualMachineNetworkSpec_VLANs : option (list VirtualMachineNetworkVLANSpec)
}.
Definition zero_VirtualMachineNetworkSpec : VirtualMachineNetworkSpec := mkVirtualMachineNetworkSpec None None.

Record InstanceVolumeClaimVolumeSource := mkInstanceVolumeClaimVolumeSource {
  InstanceVolumeClaimVolumeSource_StorageClass : string;
  InstanceVolumeClaimVolumeSource_Size : Quantity
}.
Definition zero_InstanceVolumeClaimVolumeSource : InstanceVolumeClaimVolumeSource := mkInstanceVolumeClaimVolumeSource "" zero_Quantity.

Record PersistentVolumeClaimVolumeSource := mkPersistentVolumeClaimVolumeSource {
  PersistentVolumeClaimVolumeSource_PersistentVolumeClaimVolumeSource : CorePersistentVolumeClaimVolumeSource;
  PersistentVolumeClaimVolumeSource_InstanceVolumeClaim : option InstanceVolumeClaimVolumeSource
}.
Definition zero_PersistentVolumeClaimVolumeSource : PersistentVolumeClaimVolumeSource := mkPersistentVolumeClaimVolumeSource zero_CorePersistentVolumeClaimVolumeSource None.

Record VirtualMachineVolumeSource := mkVirtualMachineVolumeSource {
  VirtualMachineVolumeSource_PersistentVolumeClaim : option PersistentVolumeClaimVolumeSource
}.
Definition zero_VirtualMachineVolumeSource : VirtualMachineVolumeSource := mkVirtualMachineVolumeSource None.

Record VirtualMachineVolume := mkVirtualMachineVolume {
  VirtualMachineVolume_Name : string;
  VirtualMachineVolume_VirtualMachineVolumeSource : VirtualMachineVolumeSource;
  VirtualMachineVolume_Removable : option bool;
  VirtualMachineVolume_ApplicationType : string;
  VirtualMachineVolume_ControllerBusNumber : option Z;
  VirtualMachineVolume_ControllerType : string;
  VirtualMachineVolume_DiskMode : string;
  VirtualMachineVolume_SharingMode : string;
  VirtualMachineVolume_UnitNumber : option Z
}.
Definition zero_VirtualMachineVolume : VirtualMachineVolume := mkVirtualMachineVolume "" zero_VirtualMachineVolumeSource None "" None "" "" "" None.

Record TCPSocketAction := mkTCPSocketAction {
  TCPSocketAction_Port : IntOrString;
  TCPSocketAction_Host : string
}.
Definition zero_TCPSocketAction : TCPSocketAction := mkTCPSocketAction zero_IntOrString "".

Record VirtualMachineReadinessProbeSpec := mkVirtualMachineReadinessProbeSpec {
  VirtualMachineReadinessProbeSpec_TCPSocket : option TCPSocketAction
}.
Definition zero_VirtualMachineReadinessProbeSpec : VirtualMachineReadinessProbeSpec := mkVirtualMachineReadinessProbeSpec None.

Record VirtualMachineReservedSpec := mkVirtualMachineReservedSpec {
  VirtualMachineReservedSpec_ResourcePolicyName : string
}.
Definition zero_VirtualMachineReservedSpec : VirtualMachineReservedSpec := mkVirtualMachineReservedSpec "".

Record PolicySpec := mkPolicySpec {
  PolicySpec_APIVersion : string;
  PolicySpec_Kind : string;
  PolicySpec_Name : string
}.
Definition zero_PolicySpec : PolicySpec := mkPolicySpec "" "" "".

Record VirtualMachineSpec := mkVirtualMachineSpec {
  VirtualMachineSpec_ImageName : string;
  VirtualMachineSpec_ClassName : string;
  VirtualMachineSpec_Affinity : option AffinitySpec;
  VirtualMachineSpec_StorageClass : string;
  VirtualMachineSpec_Bootstrap : option VirtualMachineBootstrapSpec;
  VirtualMachineSpec_Network : option VirtualMachineNetworkSpec;
  VirtualMachineSpec_PowerState : string;
  VirtualMachineSpec_PowerOffMode : string;
  VirtualMachineSpec_Volumes : option (list VirtualMachineVolume);
  VirtualMachineSpec_ReadinessProbe : option VirtualMachineReadinessProbeSpec;
  VirtualMachineSpec_Reserved : option VirtualMachineReservedSpec;
  VirtualMachineSpec_MinHardwareVersion : Z;
  VirtualMachineSpec_GroupName : string;
  VirtualMachineSpec_Policies : option (list PolicySpec)
}.
Definition zero_VirtualMachineSpec : VirtualMachineSpec := mkVirtualMachineSpec "" "" None "" None None "" "" None None None 0 "" None.

Record VirtualMachineNetworkDHCPOptionsStatus := mkVirtualMachineNetworkDHCPOptionsStatus {
  VirtualMachineNetworkDHCPOptionsStatus_Config : option (list KeyValuePair);
  VirtualMachineNetworkDHCPOptionsStatus_Enabled : bool
}.
Definition zero_VirtualMachineNetworkDHCPOptionsStatus : VirtualMachineNetworkDHCPOptionsStatus := mkVirtualMachineNetworkDHCPOptionsStatus None false.

Record VirtualMachineNetworkDHCPStatus := mkVirtualMachineNetworkDHCPStatus {
  VirtualMachineNetworkDHCPStatus_IP4 : VirtualMachineNetworkDHCPOptionsStatus;
  VirtualMachineNetworkDHCPStatus_IP6 : VirtualMachineNetworkDHCPOptionsStatus
}.
Definition zero_VirtualMachineNetworkDHCPStatus : VirtualMachineNetworkDHCPStatus := mkVirtualMachineNetworkDHCPStatus zero_VirtualMachineNetworkDHCPOptionsStatus zero_VirtualMachineNetworkDHCPOptionsStatus.

Record VirtualMachineNetworkInterfaceIPAddrStatus := mkVirtualMachineNetworkInterfaceIPAddrStatus {
  VirtualMachineNetworkInterfaceIPAddrStatus_Address : string;
  VirtualMachineNetworkInterfaceIPAddrStatus_Lifetime : Time;
  VirtualMachineNetworkInterfaceIPAddrStatus_Origin : string;
  VirtualMachineNetworkInterfaceIPAddrStatus_State : string
}.
Definition zero_VirtualMachineNetworkInterfaceIPAddrStatus : VirtualMachineNetworkInterfaceIPAddrStatus := mkVirtualMachineNetworkInterfaceIPAddrStatus "" None "" "".

Record VirtualMachineNetworkInterfaceIPStatus := mkVirtualMachineNetworkInterfaceIPStatus {
  VirtualMachineNetworkInterfaceIPStatus_AutoConfigurationEnabled : option bool;
  VirtualMachineNetworkInterfaceIPStatus_DHCP : option VirtualMachineNetworkDHCPStatus;
  VirtualMachineNetworkInterfaceIPStatus_Addresses : option (list VirtualMachineNetworkInterfaceIPAddrStatus);
  VirtualMachineNetworkInterfaceIPStatus_MACAddr : string
}.
Definition zero_VirtualMachineNetworkInterfaceIPStatus : VirtualMachineNetworkInterfaceIPStatus := mkVirtualMachineNetworkInterfaceIPStatus None None None "".

Record VirtualMachineNetworkDNSStatus := mkVirtualMachineNetworkDNSStatus {
  VirtualMachineNetworkDNSStatus_DHCP : bool;
  VirtualMachineNetworkDNSStatus_HostName : string;
  VirtualMachineNetworkDNSStatus_DomainName : string;
  VirtualMachineNetworkDNSStatus_Nameservers : option (list string);
  VirtualMachineNetworkDNSStatus_SearchDomains : option (list string)
}.
Definition zero_VirtualMachineNetworkDNSStatus : VirtualMachineNetworkDNSStatus := mkVirtualMachineNetworkDNSStatus false "" "" None None.

Record VirtualMachineNetworkInterfaceStatus := mkVirtualMachineNetworkInterfaceStatus {
  VirtualMachineNetworkInterfaceStatus_Name : string;
  VirtualMachineNetworkInterfaceStatus_DeviceKey : Z;
  VirtualMachineNetworkInterfaceStatus_IP : option VirtualMachineNetworkInterfaceIPStatus;
  VirtualMachineNetworkInterfaceStatus_DNS : option VirtualMachineNetworkDNSStatus
}.
Definition zero_VirtualMachineNetworkInterfaceStatus : VirtualMachineNetworkInterfaceStatus := mkVirtualMachineNetworkInterfaceStatus "" 0 None None.

Record VirtualMachineNetworkStatus := mkVirtualMachineNetworkStatus {
  VirtualMachineNetworkStatus_HostName : string;
  VirtualMachineNetworkStatus_Interfaces : option (list VirtualMachineNetworkInterfaceStatus);
  VirtualMachineNetworkStatus_PrimaryIP4 : string;
  VirtualMachineNetworkStatus_PrimaryIP6 : string
}.
Definition zero_VirtualMachineNetworkStatus : VirtualMachineNetworkStatus := mkVirtualMachineNetworkStatus "" None "" "".

Record PolicyStatus := mkPolicyStatus {
  PolicyStatus_PolicySpec : PolicySpec;
  PolicyStatus_Generation : Z
}.
Definition zero_PolicyStatus : PolicyStatus := mkPolicyStatus zero_PolicySpec 0.

Record VirtualMachineStatus := mkVirtualMachineStatus {
  VirtualMachineStatus_NodeName : string;
  VirtualMachineStatus_PowerState : string;
  VirtualMachineStatus_Conditions : option (list Condition);
  VirtualMachineStatus_Network : option VirtualMachineNetworkStatus;
  VirtualMachineStatus_BiosUUID : string;
  VirtualMachineStatus_Zone : string;
  VirtualMachineStatus_Policies : option (list PolicyStatus)
}.
Definition zero_VirtualMachineStatus : VirtualMachineStatus := mkVirtualMachineStatus "" "" None None "" "" None.

Record VirtualMachine := mkVirtualMachine {
  VirtualMachine_ObjectMeta : MetaV1;
  VirtualMachine_Spec : VirtualMachineSpec;
  VirtualMachine_Status : VirtualMachineStatus;
  VirtualMachine_Source : string
}.
Definition zero_VirtualMachine : VirtualMachine := mkVirtualMachine zero_MetaV1 zero_VirtualMachineSpec zero_VirtualMachineStatus "".

Record VirtualMachineClassHardware := mkVirtualMachineClassHardware {
  VirtualMachineClassHardware_Cpus : Z;
  VirtualMachineClassHardware_Memory : Quantity
}.
Definition zero_VirtualMachineClassHardware : VirtualMachineClassHardware := mkVirtualMachineClassHardware 0 zero_Quantity.

Record VirtualMachineClassSpec := mkVirtualMachineClassSpec {
  VirtualMachineClassSpec_Hardware : VirtualMachineClassHardware
}.
Definition zero_VirtualMachineClassSpec : VirtualMachineClassSpec := mkVirtualMachineClassSpec zero_VirtualMachineClassHardware.

Record VirtualMachineClassStatus := mkVirtualMachineClassStatus {

}.
Definition zero_VirtualMachineClassStatus : VirtualMachineClassStatus := mkVirtualMachineClassStatus .

Record VirtualMachineClass := mkVirtualMachineClass {
  VirtualMachineClass_ObjectMeta : MetaV1;
  VirtualMachineClass_Spec : VirtualMachineClassSpec;
  VirtualMachineClass_Status : VirtualMachineClassStatus;
  VirtualMachineClass_Source : string
}.
Definition zero_VirtualMachineClass : VirtualMachineClass := mkVirtualMachineClass zero_MetaV1 zero_VirtualMachineClassSpec zero_VirtualMachineClassStatus "".

Record GroupMember := mkGroupMember {
  GroupMember_Name : string;
  GroupMember_Kind : string
}.
Definition zero_GroupMember : GroupMember := mkGroupMember "" "".

Record VirtualMachineGroupBootOrderGroup := mkVirtualMachineGroupBootOrderGroup {
  VirtualMachineGroupBootOrderGroup_Members : option (list GroupMember);
  VirtualMachineGroupBootOrderGroup_PowerOnDelay : option Duration
}.
Definition zero_VirtualMachineGroupBootOrderGroup : VirtualMachineGroupBootOrderGroup := mkVirtualMachineGroupBootOrderGroup None None.

Record VirtualMachineGroupSpec := mkVirtualMachineGroupSpec {
  VirtualMachineGroupSpec_BootOrder : option (list VirtualMachineGroupBootOrderGroup)
}.
Definition zero_VirtualMachineGroupSpec : VirtualMachineGroupSpec := mkVirtualMachineGroupSpec None.

Record VirtualMachineGroupPlacementDatastoreStatus := mkVirtualMachineGroupPlacementDatastoreStatus {
  VirtualMachineGroupPlacementDatastoreStatus_Name : string;
  VirtualMachineGroupPlacementDatastoreStatus_ID : string;
  VirtualMachineGroupPlacementDatastoreStatus_URL : string;
  VirtualMachineGroupPlacementDatastoreStatus_SupportedDiskFormats : option (list string);
  VirtualMachineGroupPlacementDatastoreStatus_DiskKey : option Z;
  VirtualMachineGroupPlacementDatastoreStatus_TopLevelDirectoryCreateSupported : bool
}.
Definition zero_VirtualMachineGroupPlacementDatastoreStatus : VirtualMachineGroupPlacementDatastoreStatus := mkVirtualMachineGroupPlacementDatastoreStatus "" "" "" None None false.

Record VirtualMachinePlacementStatus := mkVirtualMachinePlacementStatus {
  VirtualMachinePlacementStatus_Zone : string;
  VirtualMachinePlacementStatus_Node : string;
  VirtualMachinePlacementStatus_Pool : string;
  VirtualMachinePlacementStatus_Datastores : option (list VirtualMachineGroupPlacementDatastoreStatus)
}.
Definition zero_VirtualMachinePlacementStatus : VirtualMachinePlacementStatus := mkVirtualMachinePlacementStatus "" "" "" None.

Record VirtualMachineGroupMemberStatus := mkVirtualMachineGroupMemberStatus {
  VirtualMachineGroupMemberStatus_Name : string;
  VirtualMachineGroupMemberStatus_Kind : string;
  VirtualMachineGroupMemberStatus_UID : string;
  VirtualMachineGroupMemberStatus_Placement : option VirtualMachinePlacementStatus;
  VirtualMachineGroupMemberStatus_PowerState : option string;
  VirtualMachineGroupMemberStatus_Conditions : option (list Condition)
}.
Definition zero_VirtualMachineGroupMemberStatus : VirtualMachineGroupMemberStatus := mkVirtualMachineGroupMemberStatus "" "" "" None None None.

Record VirtualMachineGroupStatus := mkVirtualMachineGroupStatus {
  VirtualMachineGroupStatus_Members : option (list VirtualMachineGroupMemberStatus)
}.
Definition zero_VirtualMachineGroupStatus : VirtualMachineGroupStatus := mkVirtualMachineGroupStatus None.

Record VirtualMachineGroup := mkVirtualMachineGroup {
  VirtualMachineGroup_ObjectMeta : MetaV1;
  VirtualMachineGroup_Spec : VirtualMachineGroupSpec;
  VirtualMachineGroup_Status : VirtualMachineGroupStatus;
  VirtualMachineGroup_Source : string
}.
Definition zero_VirtualMachineGroup : VirtualMachineGroup := mkVirtualMachineGroup zero_MetaV1 zero_VirtualMachineGroupSpec zero_VirtualMachineGroupStatus "".

Record LocalObjectRef := mkLocalObjectRef {
  LocalObjectRef_APIVersion : string;
  LocalObjectRef_Kind : string;
  LocalObjectRef_Name : string
}.
Definition zero_LocalObjectRef : LocalObjectRef := mkLocalObjectRef "" "" "".

Record VirtualMachineImageSpec := mkVirtualMachineImageSpec {
  VirtualMachineImageSpec_ProviderRef : option LocalObjectRef
}.
Definition zero_VirtualMachineImageSpec : VirtualMachineImageSpec := mkVirtualMachineImageSpec None.

Record VirtualMachineImageOSInfo := mkVirtualMachineImageOSInfo {
  VirtualMachineImageOSInfo_Type : string
}.
Definition zero_VirtualMachineImageOSInfo : VirtualMachineImageOSInfo := mkVirtualMachineImageOSInfo "".

Record VirtualMachineImageProductInfo := mkVirtualMachineImageProductInfo {
  VirtualMachineImageProductInfo_FullVersion : string
}.
Definition zero_VirtualMachineImageProductInfo : VirtualMachineImageProductInfo := mkVirtualMachineImageProductInfo "".

Record VirtualMachineImageStatus := mkVirtualMachineImageStatus {
  VirtualMachineImageStatus_Name : string;
  VirtualMachineImageStatus_OSInfo : VirtualMachineImageOSInfo;
  VirtualMachineImageStatus_VMwareSystemProperties : option (list KeyValuePair);
  VirtualMachineImageStatus_ProductInfo : VirtualMachineImageProductInfo;
  VirtualMachineImageStatus_ProviderItemID : string;
  VirtualMachineImageStatus_Conditions : option (list Condition)
}.
Definition zero_VirtualMachineImageStatus : VirtualMachineImageStatus := mkVirtualMachineImageStatus "" zero_VirtualMachineImageOSInfo None zero_VirtualMachineImageProductInfo "" None.

Record VirtualMachineImage := mkVirtualMachineImage {
  VirtualMachineImage_ObjectMeta : MetaV1;
  VirtualMachineImage_Spec : VirtualMachineImageSpec;
  VirtualMachineImage_Status : VirtualMachineImageStatus;
  VirtualMachineImage_Source : string
}.
Definition zero_VirtualMachineImage : VirtualMachineImage := mkVirtualMachineImage zero_MetaV1 zero_VirtualMachineImageSpec zero_VirtualMachineImageStatus "".

Record ClusterVirtualMachineImage := mkClusterVirtualMachineImage {
  ClusterVirtualMachineImage_ObjectMeta : MetaV1;
  ClusterVirtualMachineImage_Spec : VirtualMachineImageSpec;
  ClusterVirtualMachineImage_Status : VirtualMachineImageStatus;
  ClusterVirtualMachineImage_Source : string
}.
Definition zero_ClusterVirtualMachineImage : ClusterVirtualMachineImage := mkClusterVirtualMachineImage zero_MetaV1 zero_VirtualMachineImageSpec zero_VirtualMachineImageStatus "".

Record VirtualMachineServicePort := mkVirtualMachineServicePort {
  VirtualMachineServicePort_Name : string;
  VirtualMachineServicePort_Protocol : string;
  VirtualMachineServicePort_Port : Z;
  VirtualMachineServicePort_TargetPort : Z
}.
Definition zero_VirtualMachineServicePort : VirtualMachineServicePort := mkVirtualMachineServicePort "" "" 0 0.

Record VirtualMachineServiceSpec := mkVirtualMachineServiceSpec {
  VirtualMachineServiceSpec_Type : string;
  VirtualMachineServiceSpec_Ports : option (list VirtualMachineServicePort);
  VirtualMachineServiceSpec_Selector : option (gmap string string);
  VirtualMachineServiceSpec_IPFamilies : option (list string);
  VirtualMachineServiceSpec_IPFamilyPolicy : option string
}.
Definition zero_VirtualMachineServiceSpec : VirtualMachineServiceSpec := mkVirtualMachineServiceSpec "" None None None None.

Record LoadBalancerIngress := mkLoadBalancerIngress {
  LoadBalancerIngress_IP : string;
  LoadBalancerIngress_Hostname : string
}.
Definition zero_LoadBalancerIngress : LoadBalancerIngress := mkLoadBalancerIngress "" "".

Record LoadBalancerStatus := mkLoadBalancerStatus {
  LoadBalancerStatus_Ingress : option (list LoadBalancerIngress)
}.
Definition zero_LoadBalancerStatus : LoadBalancerStatus := mkLoadBalancerStatus None.

Record VirtualMachineServiceStatus := mkVirtualMachineServiceStatus {
  VirtualMachineServiceStatus_LoadBalancer : LoadBalancerStatus
}.
Definition zero_VirtualMachineServiceStatus : VirtualMachineServiceStatus := mkVirtualMachineServiceStatus zero_LoadBalancerStatus.

Record VirtualMachineService := mkVirtualMachineService {
  VirtualMachineService_ObjectMeta : MetaV1;
  VirtualMachineService_Spec : VirtualMachineServiceSpec;
  VirtualMachineService_Status : VirtualMachineServiceStatus;
  VirtualMachineService_Source : string
}.
Definition zero_VirtualMachineService : VirtualMachineService := mkVirtualMachineService zero_MetaV1 zero_VirtualMachineServiceSpec zero_VirtualMachineServiceStatus "".

Record ResourcePoolSpec := mkResourcePoolSpec {
  ResourcePoolSpec_Name : string
}.
Definition zero_ResourcePoolSpec : ResourcePoolSpec := mkResourcePoolSpec "".

Record VirtualMachineSetResourcePolicySpec := mkVirtualMachineSetResourcePolicySpec {
  VirtualMachineSetResourcePolicySpec_ResourcePool : ResourcePoolSpec;
  VirtualMachineSetResourcePolicySpec_Folder : string;
  VirtualMachineSetResourcePolicySpec_ClusterModuleGroups : option (list string)
}.
Definition zero_VirtualMachineSetResourcePolicySpec : VirtualMachineSetResourcePolicySpec := mkVirtualMachineSetResourcePolicySpec zero_ResourcePoolSpec "" None.

Record VirtualMachineSetResourcePolicyStatus := mkVirtualMachineSetResourcePolicyStatus {

}.
Definition zero_VirtualMachineSetResourcePolicyStatus : VirtualMachineSetResourcePolicyStatus := mkVirtualMachineSetResourcePolicyStatus .

Record VirtualMachineSetResourcePolicy := mkVirtualMachineSetResourcePolicy {
  VirtualMachineSetResourcePolicy_ObjectMeta : MetaV1;
  VirtualMachineSetResourcePolicy_Spec : VirtualMachineSetResourcePolicySpec;
  VirtualMachineSetResourcePolicy_Status : VirtualMachineSetResourcePolicyStatus;
  VirtualMachineSetResourcePolicy_Source : string
}.
Definition zero_VirtualMachineSetResourcePolicy : VirtualMachineSetResourcePolicy := mkVirtualMachineSetResourcePolicy zero_MetaV1 zero_VirtualMachineSetResourcePolicySpec zero_VirtualMachineSetResourcePolicyStatus "".

(** [GetSource] and [SetSource] of [VirtualMachine]. *)
Definition VirtualMachine_GetSource (x : VirtualMachine) : string := VirtualMachine_Source x.
Definition VirtualMachine_SetSource (source : string) (x : VirtualMachine) : VirtualMachine := {|
  VirtualMachine_ObjectMeta := VirtualMachine_ObjectMeta x;
  VirtualMachine_Spec := VirtualMachine_Spec x;
  VirtualMachine_Status := VirtualMachine_Status x;
  VirtualMachine_Source := source
|}.

(** [GetSource] and [SetSource] of [VirtualMachineClass]. *)
Definition VirtualMachineClass_GetSource (x : VirtualMachineClass) : string := VirtualMachineClass_Source x.
Definition VirtualMachineClass_SetSource (source : string) (x : VirtualMachineClass) : VirtualMachineClass := {|
  VirtualMachineClass_ObjectMeta := VirtualMachineClass_ObjectMeta x;
  VirtualMachineClass_Spec := VirtualMachineClass_Spec x;
  VirtualMachineClass_Status := VirtualMachineClass_Status x;
  VirtualMachineClass_Source := source
|}.

(** [GetSource] and [SetSource] of [VirtualMachineGroup]. *)
Definition VirtualMachineGroup_GetSource (x : VirtualMachineGroup) : string := VirtualMachineGroup_Source x.
Definition VirtualMachineGroup_SetSource (source : string) (x : VirtualMachineGroup) : VirtualMachineGroup := {|
  VirtualMachineGroup_ObjectMeta := VirtualMachineGroup_ObjectMeta x;
  VirtualMachineGroup_Spec := VirtualMachineGroup_Spec x;
  VirtualMachineGroup_Status := VirtualMachineGroup_Status x;
  VirtualMachineGroup_Source := source
|}.

(** [GetSource] and [SetSource] of [VirtualMachineImage]. *)
Definition VirtualMachineImage_GetSource (x : VirtualMachineImage) : string := VirtualMachineImage_Source x.
Definition VirtualMachineImage_SetSource (source : string) (x : VirtualMachineImage) : VirtualMachineImage := {|
  VirtualMachineImage_ObjectMeta := VirtualMachineImage_ObjectMeta x;
  VirtualMachineImage_Spec := VirtualMachineImage_Spec x;
  VirtualMachineImage_Status := VirtualMachineImage_Status x;
  VirtualMachineImage_Source := source
|}.

(** [GetSource] and [SetSource] of [ClusterVirtualMachineImage]. *)
Definition ClusterVirtualMachineImage_GetSource (x : ClusterVirtualMachineImage) : string := ClusterVirtualMachineImage_Source x.
Definition ClusterVirtualMachineImage_SetSource (source : string) (x : ClusterVirtualMachineImage) : ClusterVirtualMachineImage := {|
  ClusterVirtualMachineImage_ObjectMeta := ClusterVirtualMachineImage_ObjectMeta x;
  ClusterVirtualMachineImage_Spec := ClusterVirtualMachineImage_Spec x;
  ClusterVirtualMachineImage_Status := ClusterVirtualMachineImage_Status x;
  ClusterVirtualMachineImage_Source := source
|}.

(** [GetSource] and [SetSource] of [VirtualMachineService]. *)
Definition VirtualMachineService_GetSource (x : VirtualMachineService) : string := VirtualMachineService_Source x.
Definition VirtualMachineService_SetSource (source : string) (x : VirtualMachineService) : VirtualMachineService := {|
  VirtualMachineService_ObjectMeta := VirtualMachineService_ObjectMeta x;
  VirtualMachineService_Spec := VirtualMachineService_Spec x;
  VirtualMachineService_Status := VirtualMachineService_Status x;
  VirtualMachineService_Source := source
|}.

(** [GetSource] and [SetSource] of [VirtualMachineSetResourcePolicy]. *)
Definition VirtualMachineSetResourcePolicy_GetSource (x : VirtualMachineSetResourcePolicy) : string := VirtualMachineSetResourcePolicy_Source x.
Definition VirtualMachineSetResourcePolicy_SetSource (source : string) (x : VirtualMachineSetResourcePolicy) : VirtualMachineSetResourcePolicy := {|
  VirtualMachineSetResourcePolicy_ObjectMeta := VirtualMachineSetResourcePolicy_ObjectMeta x;
  VirtualMachineSetResourcePolicy_Spec := VirtualMachineSetResourcePolicy_Spec x;
  VirtualMachineSetResourcePolicy_Status := VirtualMachineSetResourcePolicy_Status x;
  VirtualMachineSetResourcePolicy_Source := source
|}.

End vmophub.

(** * v1alpha2: what the conversions use of it *)
Module vmoprv1alpha2.

Record VMAffinityTerm := mkVMAffinityTerm {
  VMAffinityTerm_LabelSelector : option LabelSelector;
  VMAffinityTerm_TopologyKey : string
}.
Definition zero_VMAffinityTerm : VMAffinityTerm := mkVMAffinityTerm None "".

Record VMAffinitySpec := mkVMAffinitySpec {
  VMAffinitySpec_RequiredDuringSchedulingPreferredDuringExecution : option (list VMAffinityTerm)
}.
Definition zero_VMAffinitySpec : VMAffinitySpec := mkVMAffinitySpec None.

Record VMAntiAffinitySpec := mkVMAntiAffinitySpec {
  VMAntiAffinitySpec_PreferredDuringSchedulingPreferredDuringExecution : option (list VMAffinityTerm)
}.
Definition zero_VMAntiAffinitySpec : VMAntiAffinitySpec := mkVMAntiAffinitySpec None.

Record AffinitySpec := mkAffinitySpec {
  AffinitySpec_VMAffinity : option VMAffinitySpec;
  AffinitySpec_VMAntiAffinity : option VMAntiAffinitySpec
}.
Definition zero_AffinitySpec : AffinitySpec := mkAffinitySpec None None.

Record SecretKeySelector := mkSecretKeySelector {
  SecretKeySelector_Name : string;
  SecretKeySelector_Key : string
}.
Definition zero_SecretKeySelector : SecretKeySelector := mkSecretKeySelector "" "".

Record VirtualMachineBootstrapCloudInitSpec := mkVirtualMachineBootstrapCloudInitSpec {
  VirtualMachineBootstrapCloudInitSpec_RawCloudConfig : option SecretKeySelector
}.
Definition zero_VirtualMachineBootstrapCloudInitSpec : VirtualMachineBootstrapCloudInitSpec := mkVirtualMachineBootstrapCloudInitSpec None.

Record VirtualMachineBootstrapSpec := mkVirtualMachineBootstrapSpec {
  VirtualMachineBootstrapSpec_CloudInit : option VirtualMachineBootstrapCloudInitSpec
}.
Definition zero_VirtualMachineBootstrapSpec : VirtualMachineBootstrapSpec := mkVirtualMachineBootstrapSpec None.

Record PartialObjectRef := mkPartialObjectRef {
  PartialObjectRef_TypeMeta : TypeMeta;
  PartialObjectRef_Name : string
}.
Definition zero_PartialObjectRef : PartialObjectRef := mkPartialObjectRef zero_TypeMeta "".

Record VirtualMachineNetworkRouteSpec := mkVirtualMachineNetworkRouteSpec {
  VirtualMachineNetworkRouteSpec_To : string;
  VirtualMachineNetworkRouteSpec_Via : string;
  VirtualMachineNetworkRouteSpec_Metric : Z
}.
Definition zero_VirtualMachineNetworkRouteSpec : VirtualMachineNetworkRouteSpec := mkVirtualMachineNetworkRouteSpec "" "" 0.

Record VirtualMachineNetworkInterfaceSpec := mkVirtualMachineNetworkInterfaceSpec {
  VirtualMachineNetworkInterfaceSpec_Name : string;
  VirtualMachineNetworkInterfaceSpec_Network : option PartialObjectRef;
  VirtualMachineNetworkInterfaceSpec_GuestDeviceName : string;
  VirtualMachineNetworkInterfaceSpec_MACAddr : string;
  VirtualMachineNetworkInterfaceSpec_Addresses : option (list string);
  VirtualMachineNetworkInterfaceSpec_DHCP4 : bool;
  VirtualMachineNetworkInterfaceSpec_DHCP6 : bool;
  VirtualMachineNetworkInterfaceSpec_Gateway4 : string;
  VirtualMachineNetworkInterfaceSpec_Gateway6 : string;
  VirtualMachineNetworkInterfaceSpec_MTU : option Z;
  VirtualMachineNetworkInterfaceSpec_Nameservers : option (list string);
  VirtualMachineNetworkInterfaceSpec_Routes : option (list VirtualMachineNetworkRouteSpec);
  VirtualMachineNetworkInterfaceSpec_SearchDomains : option (list string)
}.
Definition zero_VirtualMachineNetworkInterfaceSpec : VirtualMachineNetworkInterfaceSpec := mkVirtualMachineNetworkInterfaceSpec "" None "" "" None false false "" "" None None None None.

Record VirtualMachineNetworkSpec := mkVirtualMachineNetworkSpec {
  VirtualMachineNetworkSpec_Interfaces : option (list VirtualMachineNetworkInterfaceSpec)
}.
Definition zero_VirtualMachineNetworkSpec : VirtualMachineNetworkSpec := mkVirtualMachineNetworkSpec None.

Record InstanceVolumeClaimVolumeSource := mkInstanceVolumeClaimVolumeSource {
  InstanceVolumeClaimVolumeSource_StorageClass : string;
  InstanceVolumeClaimVolumeSource_Size : Quantity
}.
Definition zero_InstanceVolumeClaimVolumeSource : InstanceVolumeClaimVolumeSource := mkInstanceVolumeClaimVolumeSource "" zero_Quantity.

Record PersistentVolumeClaimVolumeSource := mkPersistentVolumeClaimVolumeSource {
  PersistentVolumeClaimVolumeSource_PersistentVolumeClaimVolumeSource : CorePersistentVolumeClaimVolumeSource;
  PersistentVolumeClaimVolumeSource_InstanceVolumeClaim : option InstanceVolumeClaimVolumeSource
}.
Definition zero_PersistentVolumeClaimVolumeSource : PersistentVolumeClaimVolumeSource := mkPersistentVolumeClaimVolumeSource zero_CorePersistentVolumeClaimVolumeSource None.

Record VirtualMachineVolumeSource := mkVirtualMachineVolumeSource {
  VirtualMachineVolumeSource_PersistentVolumeClaim : option PersistentVolumeClaimVolumeSource
}.
Definition zero_VirtualMachineVolumeSource : VirtualMachineVolumeSource := mkVirtualMachineVolumeSource None.

Record VirtualMachineVolume := mkVirtualMachineVolume {
  VirtualMachineVolume_Name : string;
  VirtualMachineVolume_VirtualMachineVolumeSource : VirtualMachineVolumeSource
}.
Definition zero_VirtualMachineVolume : VirtualMachineVolume := mkVirtualMachineVolume "" zero_VirtualMachineVolumeSource.

Record TCPSocketAction := mkTCPSocketAction {
  TCPSocketAction_Port : IntOrString;
  TCPSocketAction_Host : string
}.
Definition zero_TCPSocketAction : TCPSocketAction := mkTCPSocketAction zero_IntOrString "".

Record VirtualMachineReadinessProbeSpec := mkVirtualMachineReadinessProbeSpec {
  VirtualMachineReadinessProbeSpec_TCPSocket : option TCPSocketAction
}.
Definition zero_VirtualMachineReadinessProbeSpec : VirtualMachineReadinessProbeSpec := mkVirtualMachineReadinessProbeSpec None.

Record VirtualMachineReservedSpec := mkVirtualMachineReservedSpec {
  VirtualMachineReservedSpec_ResourcePolicyName : string
}.
Definition zero_VirtualMachineReservedSpec : VirtualMachineReservedSpec := mkVirtualMachineReservedSpec "".

Record VirtualMachineSpec := mkVirtualMachineSpec {
  VirtualMachineSpec_ImageName : string;
  VirtualMachineSpec_ClassName : string;
  VirtualMachineSpec_Affinity : option AffinitySpec;
  VirtualMachineSpec_StorageClass : string;
  VirtualMachineSpec_Bootstrap : option VirtualMachineBootstrapSpec;
  VirtualMachineSpec_Network : option VirtualMachineNetworkSpec;
  VirtualMachineSpec_PowerState : string;
  VirtualMachineSpec_PowerOffMode : string;
  VirtualMachineSpec_Volumes : option (list VirtualMachineVolume);
  VirtualMachineSpec_ReadinessProbe : option VirtualMachineReadinessProbeSpec;
  VirtualMachineSpec_Reserved : option VirtualMachineReservedSpec;
  VirtualMachineSpec_MinHardwareVersion : Z;
  VirtualMachineSpec_GroupName : string
}.
Definition zero_VirtualMachineSpec : VirtualMachineSpec := mkVirtualMachineSpec "" "" None "" None None "" "" None None None 0 "".

Record KeyValuePair := mkKeyValuePair {
  KeyValuePair_Key : string;
  KeyValuePair_Value : string
}.
Definition zero_KeyValuePair : KeyValuePair := mkKeyValuePair "" "".

Record VirtualMachineNetworkDHCPOptionsStatus := mkVirtualMachineNetworkDHCPOptionsStatus {
  VirtualMachineNetworkDHCPOptionsStatus_Config : option (list KeyValuePair);
  VirtualMachineNetworkDHCPOptionsStatus_Enabled : bool
}.
Definition zero_VirtualMachineNetworkDHCPOptionsStatus : VirtualMachineNetworkDHCPOptionsStatus := mkVirtualMachineNetworkDHCPOptionsStatus None false.

Record VirtualMachineNetworkDHCPStatus := mkVirtualMachineNetworkDHCPStatus {
  VirtualMachineNetworkDHCPStatus_IP4 : VirtualMachineNetworkDHCPOptionsStatus;
  VirtualMachineNetworkDHCPStatus_IP6 : VirtualMachineNetworkDHCPOptionsStatus
}.
Definition zero_VirtualMachineNetworkDHCPStatus : VirtualMachineNetworkDHCPStatus := mkVirtualMachineNetworkDHCPStatus zero_VirtualMachineNetworkDHCPOptionsStatus zero_VirtualMachineNetworkDHCPOptionsStatus.

Record VirtualMachineNetworkInterfaceIPAddrStatus := mkVirtualMachineNetworkInterfaceIPAddrStatus {
  VirtualMachineNetworkInterfaceIPAddrStatus_Address : string;
  VirtualMachineNetworkInterfaceIPAddrStatus_Lifetime : Time;
  VirtualMachineNetworkInterfaceIPAddrStatus_Origin : string;
  VirtualMachineNetworkInterfaceIPAddrStatus_State : string
}.
Definition zero_VirtualMachineNetworkInterfaceIPAddrStatus : VirtualMachineNetworkInterfaceIPAddrStatus := mkVirtualMachineNetworkInterfaceIPAddrStatus "" None "" "".

Record VirtualMachineNetworkInterfaceIPStatus := mkVirtualMachineNetworkInterfaceIPStatus {
  VirtualMachineNetworkInterfaceIPStatus_AutoConfigurationEnabled : option bool;
  VirtualMachineNetworkInterfaceIPStatus_DHCP : option VirtualMachineNetworkDHCPStatus;
  VirtualMachineNetworkInterfaceIPStatus_Addresses : option (list VirtualMachineNetworkInterfaceIPAddrStatus);
  VirtualMachineNetworkInterfaceIPStatus_MACAddr : string
}.
Definition zero_VirtualMachineNetworkInterfaceIPStatus : VirtualMachineNetworkInterfaceIPStatus := mkVirtualMachineNetworkInterfaceIPStatus None None None "".

Record VirtualMachineNetworkDNSStatus := mkVirtualMachineNetworkDNSStatus {
  VirtualMachineNetworkDNSStatus_DHCP : bool;
  VirtualMachineNetworkDNSStatus_HostName : string;
  VirtualMachineNetworkDNSStatus_DomainName : string;
  VirtualMachineNetworkDNSStatus_Nameservers : option (list string);
  VirtualMachineNetworkDNSStatus_SearchDomains : option (list string)
}.
Definition zero_VirtualMachineNetworkDNSStatus : VirtualMachineNetworkDNSStatus := mkVirtualMachineNetworkDNSStatus false "" "" None None.

Record VirtualMachineNetworkInterfaceStatus := mkVirtualMachineNetworkInterfaceStatus {
  VirtualMachineNetworkInterfaceStatus_Name : string;
  VirtualMachineNetworkInterfaceStatus_DeviceKey : Z;
  VirtualMachineNetworkInterfaceStatus_IP : option VirtualMachineNetworkInterfaceIPStatus;
  VirtualMachineNetworkInterfaceStatus_DNS : option VirtualMachineNetworkDNSStatus
}.
Definition zero_VirtualMachineNetworkInterfaceStatus : VirtualMachineNetworkInterfaceStatus := mkVirtualMachineNetworkInterfaceStatus "" 0 None None.

Record VirtualMachineNetworkStatus := mkVirtualMachineNetworkStatus {
  VirtualMachineNetworkStatus_HostName : string;
  VirtualMachineNetworkStatus_Interfaces : option (list VirtualMachineNetworkInterfaceStatus);
  VirtualMachineNetworkStatus_PrimaryIP4 : string;
  VirtualMachineNetworkStatus_PrimaryIP6 : string
}.
Definition zero_VirtualMachineNetworkStatus : VirtualMachineNetworkStatus := mkVirtualMachineNetworkStatus "" None "" "".

Record VirtualMachineStatus := mkVirtualMachineStatus {
  VirtualMachineStatus_Host : string;
  VirtualMachineStatus_PowerState : string;
  VirtualMachineStatus_Conditions : option (list Condition);
  VirtualMachineStatus_Network : option VirtualMachineNetworkStatus;
  VirtualMachineStatus_BiosUUID : string;
  VirtualMachineStatus_Zone : string
}.
Definition zero_VirtualMachineStatus : VirtualMachineStatus := mkVirtualMachineStatus "" "" None None "" "".

Record VirtualMachine := mkVirtualMachine {
  VirtualMachine_ObjectMeta : MetaV1;
  VirtualMachine_Spec : VirtualMachineSpec;
  VirtualMachine_Status : VirtualMachineStatus
}.
Definition zero_VirtualMachine : VirtualMachine := mkVirtualMachine zero_MetaV1 zero_VirtualMachineSpec zero_VirtualMachineStatus.

Record VirtualMachineClassHardware := mkVirtualMachineClassHardware {
  VirtualMachineClassHardware_Cpus : Z;
  VirtualMachineClassHardware_Memory : Quantity
}.
Definition zero_VirtualMachineClassHardware : VirtualMachineClassHardware := mkVirtualMachineClassHardware 0 zero_Quantity.

Record VirtualMachineClassSpec := mkVirtualMachineClassSpec {
  VirtualMachineClassSpec_Hardware : VirtualMachineClassHardware
}.
Definition zero_VirtualMachineClassSpec : VirtualMachineClassSpec := mkVirtualMachineClassSpec zero_VirtualMachineClassHardware.

Record VirtualMachineClass := mkVirtualMachineClass {
  VirtualMachineClass_ObjectMeta : MetaV1;
  VirtualMachineClass_Spec : VirtualMachineClassSpec
}.
Definition zero_VirtualMachineClass : VirtualMachineClass := mkVirtualMachineClass zero_MetaV1 zero_VirtualMachineClassSpec.

Record GroupMember := mkGroupMember {
  GroupMember_Name : string;
  GroupMember_Kind : string
}.
Definition zero_GroupMember : GroupMember := mkGroupMember "" "".

Record VirtualMachineGroupBootOrderGroup := mkVirtualMachineGroupBootOrderGroup {
  VirtualMachineGroupBootOrderGroup_Members : option (list GroupMember);
  VirtualMachineGroupBootOrderGroup_PowerOnDelay : option Duration
}.
Definition zero_VirtualMachineGroupBootOrderGroup : VirtualMachineGroupBootOrderGroup := mkVirtualMachineGroupBootOrderGroup None None.

Record VirtualMachineGroupSpec := mkVirtualMachineGroupSpec {
  VirtualMachineGroupSpec_BootOrder : option (list VirtualMachineGroupBootOrderGroup)
}.
Definition zero_VirtualMachineGroupSpec : VirtualMachineGroupSpec := mkVirtualMachineGroupSpec None.

Record VirtualMachineGroupPlacementDatastoreStatus := mkVirtualMachineGroupPlacementDatastoreStatus {
  VirtualMachineGroupPlacementDatastoreStatus_Name : string;
  VirtualMachineGroupPlacementDatastoreStatus_ID : string;
  VirtualMachineGroupPlacementDatastoreStatus_URL : string;
  VirtualMachineGroupPlacementDatastoreStatus_SupportedDiskFormats : option (list string);
  VirtualMachineGroupPlacementDatastoreStatus_DiskKey : option Z
}.
Definition zero_VirtualMachineGroupPlacementDatastoreStatus : VirtualMachineGroupPlacementDatastoreStatus := mkVirtualMachineGroupPlacementDatastoreStatus "" "" "" None None.

Record VirtualMachinePlacementStatus := mkVirtualMachinePlacementStatus {
  VirtualMachinePlacementStatus_Zone : string;
  VirtualMachinePlacementStatus_Node : string;
  VirtualMachinePlacementStatus_Pool : string;
  VirtualMachinePlacementStatus_Datastores : option (list VirtualMachineGroupPlacementDatastoreStatus)
}.
Definition zero_VirtualMachinePlacementStatus : VirtualMachinePlacementStatus := mkVirtualMachinePlacementStatus "" "" "" None.

Record VirtualMachineGroupMemberStatus := mkVirtualMachineGroupMemberStatus {
  VirtualMachineGroupMemberStatus_Name : string;
  VirtualMachineGroupMemberStatus_Kind : string;
  VirtualMachineGroupMemberStatus_UID : string;
  VirtualMachineGroupMemberStatus_Placement : option VirtualMachinePlacementStatus;
  VirtualMachineGroupMemberStatus_PowerState : option string;
  VirtualMachineGroupMemberStatus_Conditions : option (list Condition)
}.
Definition zero_VirtualMachineGroupMemberStatus : VirtualMachineGroupMemberStatus := mkVirtualMachineGroupMemberStatus "" "" "" None None None.

Record VirtualMachineGroupStatus := mkVirtualMachineGroupStatus {
  VirtualMachineGroupStatus_Members : option (list VirtualMachineGroupMemberStatus)
}.
Definition zero_VirtualMachineGroupStatus : VirtualMachineGroupStatus := mkVirtualMachineGroupStatus None.

Record VirtualMachineGroup := mkVirtualMachineGroup {
  VirtualMachineGroup_ObjectMeta : MetaV1;
  VirtualMachineGroup_Spec : VirtualMachineGroupSpec;
  VirtualMachineGroup_Status : VirtualMachineGroupStatus
}.
Definition zero_VirtualMachineGroup : VirtualMachineGroup := mkVirtualMachineGroup zero_MetaV1 zero_VirtualMachineGroupSpec zero_VirtualMachineGroupStatus.

Record LocalObjectRef := mkLocalObjectRef {
  LocalObjectRef_APIVersion : string;
  LocalObjectRef_Kind : string;
  LocalObjectRef_Name : string
}.
Definition zero_LocalObjectRef : LocalObjectRef := mkLocalObjectRef "" "" "".

Record VirtualMachineImageSpec := mkVirtualMachineImageSpec {
  VirtualMachineImageSpec_ProviderRef : option LocalObjectRef
}.
Definition zero_VirtualMachineImageSpec : VirtualMachineImageSpec := mkVirtualMachineImageSpec None.

Record VirtualMachineImageOSInfo := mkVirtualMachineImageOSInfo {
  VirtualMachineImageOSInfo_Type : string
}.
Definition zero_VirtualMachineImageOSInfo : VirtualMachineImageOSInfo := mkVirtualMachineImageOSInfo "".

Record VirtualMachineImageProductInfo := mkVirtualMachineImageProductInfo {
  VirtualMachineImageProductInfo_FullVersion : string
}.
Definition zero_VirtualMachineImageProductInfo : VirtualMachineImageProductInfo := mkVirtualMachineImageProductInfo "".

Record VirtualMachineImageStatus := mkVirtualMachineImageStatus {
  VirtualMachineImageStatus_Name : string;
  VirtualMachineImageStatus_OSInfo : VirtualMachineImageOSInfo;
  VirtualMachineImageStatus_VMwareSystemProperties : option (list KeyValuePair);
  VirtualMachineImageStatus_ProductInfo : VirtualMachineImageProductInfo;
  VirtualMachineImageStatus_ProviderItemID : string;
  VirtualMachineImageStatus_Conditions : option (list Condition)
}.
Definition zero_VirtualMachineImageStatus : VirtualMachineImageStatus := mkVirtualMachineImageStatus "" zero_VirtualMachineImageOSInfo None zero_VirtualMachineImageProductInfo "" None.

Record VirtualMachineImage := mkVirtualMachineImage {
  VirtualMachineImage_ObjectMeta : MetaV1;
  VirtualMachineImage_Spec : VirtualMachineImageSpec;
  VirtualMachineImage_Status : VirtualMachineImageStatus
}.
Definition zero_VirtualMachineImage : VirtualMachineImage := mkVirtualMachineImage zero_MetaV1 zero_VirtualMachineImageSpec zero_VirtualMachineImageStatus.

Record ClusterVirtualMachineImage := mkClusterVirtualMachineImage {
  ClusterVirtualMachineImage_ObjectMeta : MetaV1;
  ClusterVirtualMachineImage_Spec : VirtualMachineImageSpec;
  ClusterVirtualMachineImage_Status : VirtualMachineImageStatus
}.
Definition zero_ClusterVirtualMachineImage : ClusterVirtualMachineImage := mkClusterVirtualMachineImage zero_MetaV1 zero_VirtualMachineImageSpec zero_VirtualMachineImageStatus.

Record VirtualMachineServicePort := mkVirtualMachineServicePort {
  VirtualMachineServicePort_Name : string;
  VirtualMachineServicePort_Protocol : string;
  VirtualMachineServicePort_Port : Z;
  VirtualMachineServicePort_TargetPort : Z
}.
Definition zero_VirtualMachineServicePort : VirtualMachineServicePort := mkVirtualMachineServicePort "" "" 0 0.

Record VirtualMachineServiceSpec := mkVirtualMachineServiceSpec {
  VirtualMachineServiceSpec_Type : string;
  VirtualMachineServiceSpec_Ports : option (list VirtualMachineServicePort);
  VirtualMachineServiceSpec_Selector : option (gmap string string)
}.
Definition zero_VirtualMachineServiceSpec : VirtualMachineServiceSpec := mkVirtualMachineServiceSpec "" None None.

Record LoadBalancerIngress := mkLoadBalancerIngress {
  LoadBalancerIngress_IP : string;
  LoadBalancerIngress_Hostname : string
}.
Definition zero_LoadBalancerIngress : LoadBalancerIngress := mkLoadBalancerIngress "" "".

Record LoadBalancerStatus := mkLoadBalancerStatus {
  LoadBalancerStatus_Ingress : option (list LoadBalancerIngress)
}.
Definition zero_LoadBalancerStatus : LoadBalancerStatus := mkLoadBalancerStatus None.

Record VirtualMachineServiceStatus := mkVirtualMachineServiceStatus {
  VirtualMachineServiceStatus_LoadBalancer : LoadBalancerStatus
}.
Definition zero_VirtualMachineServiceStatus : VirtualMachineServiceStatus := mkVirtualMachineServiceStatus zero_LoadBalancerStatus.

Record VirtualMachineService := mkVirtualMachineService {
  VirtualMachineService_ObjectMeta : MetaV1;
  VirtualMachineService_Spec : VirtualMachineServiceSpec;
  VirtualMachineService_Status : VirtualMachineServiceStatus
}.
Definition zero_VirtualMachineService : VirtualMachineService := mkVirtualMachineService zero_MetaV1 zero_VirtualMachineServiceSpec zero_VirtualMachineServiceStatus.

Record ResourcePoolSpec := mkResourcePoolSpec {
  ResourcePoolSpec_Name : string
}.
Definition zero_ResourcePoolSpec : ResourcePoolSpec := mkResourcePoolSpec "".

Record VirtualMachineSetResourcePolicySpec := mkVirtualMachineSetResourcePolicySpec {
  VirtualMachineSetResourcePolicySpec_ResourcePool : ResourcePoolSpec;
  VirtualMachineSetResourcePolicySpec_Folder : string;
  VirtualMachineSetResourcePolicySpec_ClusterModuleGroups : option (list string)
}.
Definition zero_VirtualMachineSetResourcePolicySpec : VirtualMachineSetResourcePolicySpec := mkVirtualMachineSetResourcePolicySpec zero_ResourcePoolSpec "" None.

Record VirtualMachineSetResourcePolicy := mkVirtualMachineSetResourcePolicy {
  VirtualMachineSetResourcePolicy_ObjectMeta : MetaV1;
  VirtualMachineSetResourcePolicy_Spec : VirtualMachineSetResourcePolicySpec
}.
Definition zero_VirtualMachineSetResourcePolicy : VirtualMachineSetResourcePolicy := mkVirtualMachineSetResourcePolicy zero_MetaV1 zero_VirtualMachineSetResourcePolicySpec.

End vmoprv1alpha2.

(** * v1alpha5: what the conversions use of it *)
Module vmoprv1alpha5.

Record VMAffinityTerm := mkVMAffinityTerm {
  VMAffinityTerm_LabelSelector : option LabelSelector;
  VMAffinityTerm_TopologyKey : string
}.
Definition zero_VMAffinityTerm : VMAffinityTerm := mkVMAffinityTerm None "".

Record VMAffinitySpec := mkVMAffinitySpec {
  VMAffinitySpec_RequiredDuringSchedulingPreferredDuringExecution : option (list VMAffinityTerm)
}.
Definition zero_VMAffinitySpec : VMAffinitySpec := mkVMAffinitySpec None.

Record VMAntiAffinitySpec := mkVMAntiAffinitySpec {
  VMAntiAffinitySpec_PreferredDuringSchedulingPreferredDuringExecution : option (list VMAffinityTerm)
}.
Definition zero_VMAntiAffinitySpec : VMAntiAffinitySpec := mkVMAntiAffinitySpec None.

Record AffinitySpec := mkAffinitySpec {
  AffinitySpec_VMAffinity : option VMAffinitySpec;
  AffinitySpec_VMAntiAffinity : option VMAntiAffinitySpec
}.
Definition zero_AffinitySpec : AffinitySpec := mkAffinitySpec None None.

Record SecretKeySelector := mkSecretKeySelector {
  SecretKeySelector_Name : string;
  SecretKeySelector_Key : string
}.
Definition zero_SecretKeySelector : SecretKeySelector := mkSecretKeySelector "" "".

Record VirtualMachineBootstrapCloudInitSpec := mkVirtualMachineBootstrapCloudInitSpec {
  VirtualMachineBootstrapCloudInitSpec_RawCloudConfig : option SecretKeySelector
}.
Definition zero_VirtualMachineBootstrapCloudInitSpec : VirtualMachineBootstrapCloudInitSpec := mkVirtualMachineBootstrapCloudInitSpec None.

Record VirtualMachineBootstrapSpec := mkVirtualMachineBootstrapSpec {
  VirtualMachineBootstrapSpec_CloudInit : option VirtualMachineBootstrapCloudInitSpec
}.
Definition zero_VirtualMachineBootstrapSpec : VirtualMachineBootstrapSpec := mkVirtualMachineBootstrapSpec None.

Record PartialObjectRef := mkPartialObjectRef {
  PartialObjectRef_TypeMeta : TypeMeta;
  PartialObjectRef_Name : string
}.
Definition zero_PartialObjectRef : PartialObjectRef := mkPartialObjectRef zero_TypeMeta "".

Record VirtualMachineNetworkRouteSpec := mkVirtualMachineNetworkRouteSpec {
  VirtualMachineNetworkRouteSpec_To : string;
  VirtualMachineNetworkRouteSpec_Via : string;
  VirtualMachineNetworkRouteSpec_Metric : Z
}.
Definition zero_VirtualMachineNetworkRouteSpec : VirtualMachineNetworkRouteSpec := mkVirtualMachineNetworkRouteSpec "" "" 0.

Record VirtualMachineNetworkInterfaceSpec := mkVirtualMachineNetworkInterfaceSpec {
  VirtualMachineNetworkInterfaceSpec_Name : string;
  VirtualMachineNetworkInterfaceSpec_Network : option PartialObjectRef;
  VirtualMachineNetworkInterfaceSpec_GuestDeviceName : string;
  VirtualMachineNetworkInterfaceSpec_MACAddr : string;
  VirtualMachineNetworkInterfaceSpec_Addresses : option (list string);
  VirtualMachineNetworkInterfaceSpec_DHCP4 : bool;
  VirtualMachineNetworkInterfaceSpec_DHCP6 : bool;
  VirtualMachineNetworkInterfaceSpec_Gateway4 : string;
  VirtualMachineNetworkInterfaceSpec_Gateway6 : string;
  VirtualMachineNetworkInterfaceSpec_MTU : option Z;
  VirtualMachineNetworkInterfaceSpec_Nameservers : option (list string);
  VirtualMachineNetworkInterfaceSpec_Routes : option (list VirtualMachineNetworkRouteSpec);
  VirtualMachineNetworkInterfaceSpec_SearchDomains : option (list string)
}.
Definition zero_VirtualMachineNetworkInterfaceSpec : VirtualMachineNetworkInterfaceSpec := mkVirtualMachineNetworkInterfaceSpec "" None "" "" None false false "" "" None None None None.

Record VirtualMachineNetworkSpec := mkVirtualMachineNetworkSpec {
  VirtualMachineNetworkSpec_Interfaces : option (list VirtualMachineNetworkInterfaceSpec)
}.
Definition zero_VirtualMachineNetworkSpec : VirtualMachineNetworkSpec := mkVirtualMachineNetworkSpec None.

Record InstanceVolumeClaimVolumeSource := mkInstanceVolumeClaimVolumeSource {
  InstanceVolumeClaimVolumeSource_StorageClass : string;
  InstanceVolumeClaimVolumeSource_Size : Quantity
}.
Definition zero_InstanceVolumeClaimVolumeSource : InstanceVolumeClaimVolumeSource := mkInstanceVolumeClaimVolumeSource "" zero_Quantity.

Record PersistentVolumeClaimVolumeSource := mkPersistentVolumeClaimVolumeSource {
  PersistentVolumeClaimVolumeSource_PersistentVolumeClaimVolumeSource : CorePersistentVolumeClaimVolumeSource;
  PersistentVolumeClaimVolumeSource_InstanceVolumeClaim : option InstanceVolumeClaimVolumeSource
}.
Definition zero_PersistentVolumeClaimVolumeSource : PersistentVolumeClaimVolumeSource := mkPersistentVolumeClaimVolumeSource zero_CorePersistentVolumeClaimVolumeSource None.

Record VirtualMachineVolumeSource := mkVirtualMachineVolumeSource {
  VirtualMachineVolumeSource_PersistentVolumeClaim : option PersistentVolumeClaimVolumeSource
}.
Definition zero_VirtualMachineVolumeSource : VirtualMachineVolumeSource := mkVirtualMachineVolumeSource None.

Record VirtualMachineVolume := mkVirtualMachineVolume {
  VirtualMachineVolume_Name : string;
  VirtualMachineVolume_VirtualMachineVolumeSource : VirtualMachineVolumeSource;
  VirtualMachineVolume_Removable : option bool;
  VirtualMachineVolume_ApplicationType : string;
  VirtualMachineVolume_ControllerBusNumber : option Z;
  VirtualMachineVolume_ControllerType : string;
  VirtualMachineVolume_DiskMode : string;
  VirtualMachineVolume_SharingMode : string;
  VirtualMachineVolume_UnitNumber : option Z
}.
Definition zero_VirtualMachineVolume : VirtualMachineVolume := mkVirtualMachineVolume "" zero_VirtualMachineVolumeSource None "" None "" "" "" None.

Record TCPSocketAction := mkTCPSocketAction {
  TCPSocketAction_Port : IntOrString;
  TCPSocketAction_Host : string
}.
Definition zero_TCPSocketAction : TCPSocketAction := mkTCPSocketAction zero_IntOrString "".

Record VirtualMachineReadinessProbeSpec := mkVirtualMachineReadinessProbeSpec {
  VirtualMachineReadinessProbeSpec_TCPSocket : option TCPSocketAction
}.
Definition zero_VirtualMachineReadinessProbeSpec : VirtualMachineReadinessProbeSpec := mkVirtualMachineReadinessProbeSpec None.

Record VirtualMachineReservedSpec := mkVirtualMachineReservedSpec {
  VirtualMachineReservedSpec_ResourcePolicyName : string
}.
Definition zero_VirtualMachineReservedSpec : VirtualMachineReservedSpec := mkVirtualMachineReservedSpec "".

Record PolicySpec := mkPolicySpec {
  PolicySpec_APIVersion : string;
  PolicySpec_Kind : string;
  PolicySpec_Name : string
}.
Definition zero_PolicySpec : PolicySpec := mkPolicySpec "" "" "".

Record VirtualMachineSpec := mkVirtualMachineSpec {
  VirtualMachineSpec_ImageName : string;
  VirtualMachineSpec_ClassName : string;
  VirtualMachineSpec_Affinity : option AffinitySpec;
  VirtualMachineSpec_StorageClass : string;
  VirtualMachineSpec_Bootstrap : option VirtualMachineBootstrapSpec;
  VirtualMachineSpec_Network : option VirtualMachineNetworkSpec;
  VirtualMachineSpec_PowerState : string;
  VirtualMachineSpec_PowerOffMode : string;
  VirtualMachineSpec_Volumes : option (list VirtualMachineVolume);
  VirtualMachineSpec_ReadinessProbe : option VirtualMachineReadinessProbeSpec;
  VirtualMachineSpec_Reserved : option VirtualMachineReservedSpec;
  VirtualMachineSpec_MinHardwareVersion : Z;
  VirtualMachineSpec_GroupName : string;
  VirtualMachineSpec_Policies : option (list PolicySpec)
}.
Definition zero_VirtualMachineSpec : VirtualMachineSpec := mkVirtualMachineSpec "" "" None "" None None "" "" None None None 0 "" None.

Record KeyValuePair := mkKeyValuePair {
  KeyValuePair_Key : string;
  KeyValuePair_Value : string
}.
Definition zero_KeyValuePair : KeyValuePair := mkKeyValuePair "" "".

Record VirtualMachineNetworkDHCPOptionsStatus := mkVirtualMachineNetworkDHCPOptionsStatus {
  VirtualMachineNetworkDHCPOptionsStatus_Config : option (list KeyValuePair);
  VirtualMachineNetworkDHCPOptionsStatus_Enabled : bool
}.
Definition zero_VirtualMachineNetworkDHCPOptionsStatus : VirtualMachineNetworkDHCPOptionsStatus := mkVirtualMachineNetworkDHCPOptionsStatus None false.

Record VirtualMachineNetworkDHCPStatus := mkVirtualMachineNetworkDHCPStatus {
  VirtualMachineNetworkDHCPStatus_IP4 : VirtualMachineNetworkDHCPOptionsStatus;
  VirtualMachineNetworkDHCPStatus_IP6 : VirtualMachineNetworkDHCPOptionsStatus
}.
Definition zero_VirtualMachineNetworkDHCPStatus : VirtualMachineNetworkDHCPStatus := mkVirtualMachineNetworkDHCPStatus zero_VirtualMachineNetworkDHCPOptionsStatus zero_VirtualMachineNetworkDHCPOptionsStatus.

Record VirtualMachineNetworkInterfaceIPAddrStatus := mkVirtualMachineNetworkInterfaceIPAddrStatus {
  VirtualMachineNetworkInterfaceIPAddrStatus_Address : string;
  VirtualMachineNetworkInterfaceIPAddrStatus_Lifetime : Time;
  VirtualMachineNetworkInterfaceIPAddrStatus_Origin : string;
  VirtualMachineNetworkInterfaceIPAddrStatus_State : string
}.
Definition zero_VirtualMachineNetworkInterfaceIPAddrStatus : VirtualMachineNetworkInterfaceIPAddrStatus := mkVirtualMachineNetworkInterfaceIPAddrStatus "" None "" "".

Record VirtualMachineNetworkInterfaceIPStatus := mkVirtualMachineNetworkInterfaceIPStatus {
  VirtualMachineNetworkInterfaceIPStatus_AutoConfigurationEnabled : option bool;
  VirtualMachineNetworkInterfaceIPStatus_DHCP : option VirtualMachineNetworkDHCPStatus;
  VirtualMachineNetworkInterfaceIPStatus_Addresses : option (list VirtualMachineNetworkInterfaceIPAddrStatus);
  VirtualMachineNetworkInterfaceIPStatus_MACAddr : string
}.
Definition zero_VirtualMachineNetworkInterfaceIPStatus : VirtualMachineNetworkInterfaceIPStatus := mkVirtualMachineNetworkInterfaceIPStatus None None None "".

Record VirtualMachineNetworkDNSStatus := mkVirtualMachineNetworkDNSStatus {
  VirtualMachineNetworkDNSStatus_DHCP : bool;
  VirtualMachineNetworkDNSStatus_HostName : string;
  VirtualMachineNetworkDNSStatus_DomainName : string;
  VirtualMachineNetworkDNSStatus_Nameservers : option (list string);
  VirtualMachineNetworkDNSStatus_SearchDomains : option (list string)
}.
Definition zero_VirtualMachineNetworkDNSStatus : VirtualMachineNetworkDNSStatus := mkVirtualMachineNetworkDNSStatus false "" "" None None.

Record VirtualMachineNetworkInterfaceStatus := mkVirtualMachineNetworkInterfaceStatus {
  VirtualMachineNetworkInterfaceStatus_Name : string;
  VirtualMachineNetworkInterfaceStatus_DeviceKey : Z;
  VirtualMachineNetworkInterfaceStatus_IP : option VirtualMachineNetworkInterfaceIPStatus;
  VirtualMachineNetworkInterfaceStatus_DNS : option VirtualMachineNetworkDNSStatus
}.
Definition zero_VirtualMachineNetworkInterfaceStatus : VirtualMachineNetworkInterfaceStatus := mkVirtualMachineNetworkInterfaceStatus "" 0 None None.

Record VirtualMachineNetworkStatus := mkVirtualMachineNetworkStatus {
  VirtualMachineNetworkStatus_HostName : string;
  VirtualMachineNetworkStatus_Interfaces : option (list VirtualMachineNetworkInterfaceStatus);
  VirtualMachineNetworkStatus_PrimaryIP4 : string;
  VirtualMachineNetworkStatus_PrimaryIP6 : string
}.
Definition zero_VirtualMachineNetworkStatus : VirtualMachineNetworkStatus := mkVirtualMachineNetworkStatus "" None "" "".

Record PolicyStatus := mkPolicyStatus {
  PolicyStatus_PolicySpec : PolicySpec;
  PolicyStatus_Generation : Z
}.
Definition zero_PolicyStatus : PolicyStatus := mkPolicyStatus zero_PolicySpec 0.

Record VirtualMachineStatus := mkVirtualMachineStatus {
  VirtualMachineStatus_NodeName : string;
  VirtualMachineStatus_PowerState : string;
  VirtualMachineStatus_Conditions : option (list Condition);
  VirtualMachineStatus_Network : option VirtualMachineNetworkStatus;
  VirtualMachineStatus_BiosUUID : string;
  VirtualMachineStatus_Zone : string;
  VirtualMachineStatus_Policies : option (list PolicyStatus)
}.
Definition zero_VirtualMachineStatus : VirtualMachineStatus := mkVirtualMachineStatus "" "" None None "" "" None.

Record VirtualMachine := mkVirtualMachine {
  VirtualMachine_ObjectMeta : MetaV1;
  VirtualMachine_Spec : VirtualMachineSpec;
  VirtualMachine_Status : VirtualMachineStatus
}.
Definition zero_VirtualMachine : VirtualMachine := mkVirtualMachine zero_MetaV1 zero_VirtualMachineSpec zero_VirtualMachineStatus.

Record VirtualMachineClassHardware := mkVirtualMachineClassHardware {
  VirtualMachineClassHardware_Cpus : Z;
  VirtualMachineClassHardware_Memory : Quantity
}.
Definition zero_VirtualMachineClassHardware : VirtualMachineClassHardware := mkVirtualMachineClassHardware 0 zero_Quantity.

Record VirtualMachineClassSpec := mkVirtualMachineClassSpec {
  VirtualMachineClassSpec_Hardware : VirtualMachineClassHardware
}.
Definition zero_VirtualMachineClassSpec : VirtualMachineClassSpec := mkVirtualMachineClassSpec zero_VirtualMachineClassHardware.

Record VirtualMachineClass := mkVirtualMachineClass {
  VirtualMachineClass_ObjectMeta : MetaV1;
  VirtualMachineClass_Spec : VirtualMachineClassSpec
}.
Definition zero_VirtualMachineClass : VirtualMachineClass := mkVirtualMachineClass zero_MetaV1 zero_VirtualMachineClassSpec.

Record GroupMember := mkGroupMember {
  GroupMember_Name : string;
  GroupMember_Kind : string
}.
Definition zero_GroupMember : GroupMember := mkGroupMember "" "".

Record VirtualMachineGroupBootOrderGroup := mkVirtualMachineGroupBootOrderGroup {
  VirtualMachineGroupBootOrderGroup_Members : option (list GroupMember);
  VirtualMachineGroupBootOrderGroup_PowerOnDelay : option Duration
}.
Definition zero_VirtualMachineGroupBootOrderGroup : VirtualMachineGroupBootOrderGroup := mkVirtualMachineGroupBootOrderGroup None None.

Record VirtualMachineGroupSpec := mkVirtualMachineGroupSpec {
  VirtualMachineGroupSpec_BootOrder : option (list VirtualMachineGroupBootOrderGroup)
}.
Definition zero_VirtualMachineGroupSpec : VirtualMachineGroupSpec := mkVirtualMachineGroupSpec None.

Record VirtualMachineGroupPlacementDatastoreStatus := mkVirtualMachineGroupPlacementDatastoreStatus {
  VirtualMachineGroupPlacementDatastoreStatus_Name : string;
  VirtualMachineGroupPlacementDatastoreStatus_ID : string;
  VirtualMachineGroupPlacementDatastoreStatus_URL : string;
  VirtualMachineGroupPlacementDatastoreStatus_SupportedDiskFormats : option (list string);
  VirtualMachineGroupPlacementDatastoreStatus_DiskKey : option Z;
  VirtualMachineGroupPlacementDatastoreStatus_TopLevelDirectoryCreateSupported : bool
}.
Definition zero_VirtualMachineGroupPlacementDatastoreStatus : VirtualMachineGroupPlacementDatastoreStatus := mkVirtualMachineGroupPlacementDatastoreStatus "" "" "" None None false.

Record VirtualMachinePlacementStatus := mkVirtualMachinePlacementStatus {
  VirtualMachinePlacementStatus_Zone : string;
  VirtualMachinePlacementStatus_Node : string;
  VirtualMachinePlacementStatus_Pool : string;
  VirtualMachinePlacementStatus_Datastores : option (list VirtualMachineGroupPlacementDatastoreStatus)
}.
Definition zero_VirtualMachinePlacementStatus : VirtualMachinePlacementStatus := mkVirtualMachinePlacementStatus "" "" "" None.

Record VirtualMachineGroupMemberStatus := mkVirtualMachineGroupMemberStatus {
  VirtualMachineGroupMemberStatus_Name : string;
  VirtualMachineGroupMemberStatus_Kind : string;
  VirtualMachineGroupMemberStatus_UID : string;
  VirtualMachineGroupMemberStatus_Placement : option VirtualMachinePlacementStatus;
  VirtualMachineGroupMemberStatus_PowerState : option string;
  VirtualMachineGroupMemberStatus_Conditions : option (list Condition)
}.
Definition zero_VirtualMachineGroupMemberStatus : VirtualMachineGroupMemberStatus := mkVirtualMachineGroupMemberStatus "" "" "" None None None.

Record VirtualMachineGroupStatus := mkVirtualMachineGroupStatus {
  VirtualMachineGroupStatus_Members : option (list VirtualMachineGroupMemberStatus)
}.
Definition zero_VirtualMachineGroupStatus : VirtualMachineGroupStatus := mkVirtualMachineGroupStatus None.

Record VirtualMachineGroup := mkVirtualMachineGroup {
  VirtualMachineGroup_ObjectMeta : MetaV1;
  VirtualMachineGroup_Spec : VirtualMachineGroupSpec;
  VirtualMachineGroup_Status : VirtualMachineGroupStatus
}.
Definition zero_VirtualMachineGroup : VirtualMachineGroup := mkVirtualMachineGroup zero_MetaV1 zero_VirtualMachineGroupSpec zero_VirtualMachineGroupStatus.

Record LocalObjectRef := mkLocalObjectRef {
  LocalObjectRef_APIVersion : string;
  LocalObjectRef_Kind : string;
  LocalObjectRef_Name : string
}.
Definition zero_LocalObjectRef : LocalObjectRef := mkLocalObjectRef "" "" "".

Record VirtualMachineImageSpec := mkVirtualMachineImageSpec {
  VirtualMachineImageSpec_ProviderRef : option LocalObjectRef
}.
Definition zero_VirtualMachineImageSpec : VirtualMachineImageSpec := mkVirtualMachineImageSpec None.

Record VirtualMachineImageOSInfo := mkVirtualMachineImageOSInfo {
  VirtualMachineImageOSInfo_Type : string
}.
Definition zero_VirtualMachineImageOSInfo : VirtualMachineImageOSInfo := mkVirtualMachineImageOSInfo "".

Record VirtualMachineImageProductInfo := mkVirtualMachineImageProductInfo {
  VirtualMachineImageProductInfo_FullVersion : string
}.
Definition zero_VirtualMachineImageProductInfo : VirtualMachineImageProductInfo := mkVirtualMachineImageProductInfo "".

Record VirtualMachineImageStatus := mkVirtualMachineImageStatus {
  VirtualMachineImageStatus_Name : string;
  VirtualMachineImageStatus_OSInfo : VirtualMachineImageOSInfo;
  VirtualMachineImageStatus_VMwareSystemProperties : option (list KeyValuePair);
  VirtualMachineImageStatus_ProductInfo : VirtualMachineImageProductInfo;
  VirtualMachineImageStatus_ProviderItemID : string;
  VirtualMachineImageStatus_Conditions : option (list Condition)
}.
Definition zero_VirtualMachineImageStatus : VirtualMachineImageStatus := mkVirtualMachineImageStatus "" zero_VirtualMachineImageOSInfo None zero_VirtualMachineImageProductInfo "" None.

Record VirtualMachineImage := mkVirtualMachineImage {
  VirtualMachineImage_ObjectMeta : MetaV1;
  VirtualMachineImage_Spec : VirtualMachineImageSpec;
  VirtualMachineImage_Status : VirtualMachineImageStatus
}.
Definition zero_VirtualMachineImage : VirtualMachineImage := mkVirtualMachineImage zero_MetaV1 zero_VirtualMachineImageSpec zero_VirtualMachineImageStatus.

Record ClusterVirtualMachineImage := mkClusterVirtualMachineImage {
  ClusterVirtualMachineImage_ObjectMeta : MetaV1;
  ClusterVirtualMachineImage_Spec : VirtualMachineImageSpec;
  ClusterVirtualMachineImage_Status : VirtualMachineImageStatus
}.
Definition zero_ClusterVirtualMachineImage : ClusterVirtualMachineImage := mkClusterVirtualMachineImage zero_MetaV1 zero_VirtualMachineImageSpec zero_VirtualMachineImageStatus.

Record VirtualMachineServicePort := mkVirtualMachineServicePort {
  VirtualMachineServicePort_Name : string;
  VirtualMachineServicePort_Protocol : string;
  VirtualMachineServicePort_Port : Z;
  VirtualMachineServicePort_TargetPort : Z
}.
Definition zero_VirtualMachineServicePort : VirtualMachineServicePort := mkVirtualMachineServicePort "" "" 0 0.

Record VirtualMachineServiceSpec := mkVirtualMachineServiceSpec {
  VirtualMachineServiceSpec_Type : string;
  VirtualMachineServiceSpec_Ports : option (list VirtualMachineServicePort);
  VirtualMachineServiceSpec_Selector : option (gmap string string)
}.
Definition zero_VirtualMachineServiceSpec : VirtualMachineServiceSpec := mkVirtualMachineServiceSpec "" None None.

Record LoadBalancerIngress := mkLoadBalancerIngress {
  LoadBalancerIngress_IP : string;
  LoadBalancerIngress_Hostname : string
}.
Definition zero_LoadBalancerIngress : LoadBalancerIngress := mkLoadBalancerIngress "" "".

Record LoadBalancerStatus := mkLoadBalancerStatus {
  LoadBalancerStatus_Ingress : option (list LoadBalancerIngress)
}.
Definition zero_LoadBalancerStatus : LoadBalancerStatus := mkLoadBalancerStatus None.

Record VirtualMachineServiceStatus := mkVirtualMachineServiceStatus {
  VirtualMachineServiceStatus_LoadBalancer : LoadBalancerStatus
}.
Definition zero_VirtualMachineServiceStatus : VirtualMachineServiceStatus := mkVirtualMachineServiceStatus zero_LoadBalancerStatus.

Record VirtualMachineService := mkVirtualMachineService {
  VirtualMachineService_ObjectMeta : MetaV1;
  VirtualMachineService_Spec : VirtualMachineServiceSpec;
  VirtualMachineService_Status : VirtualMachineServiceStatus
}.
Definition zero_VirtualMachineService : VirtualMachineService := mkVirtualMachineService zero_MetaV1 zero_VirtualMachineServiceSpec zero_VirtualMachineServiceStatus.

Record ResourcePoolSpec := mkResourcePoolSpec {
  ResourcePoolSpec_Name : string
}.
Definition zero_ResourcePoolSpec : ResourcePoolSpec := mkResourcePoolSpec "".

Record VirtualMachineSetResourcePolicySpec := mkVirtualMachineSetResourcePolicySpec {
  VirtualMachineSetResourcePolicySpec_ResourcePool : ResourcePoolSpec;
  VirtualMachineSetResourcePolicySpec_Folder : string;
  VirtualMachineSetResourcePolicySpec_ClusterModuleGroups : option (list string)
}.
Definition zero_VirtualMachineSetResourcePolicySpec : VirtualMachineSetResourcePolicySpec := mkVirtualMachineSetResourcePolicySpec zero_ResourcePoolSpec "" None.

Record VirtualMachineSetResourcePolicy := mkVirtualMachineSetResourcePolicy {
  VirtualMachineSetResourcePolicy_ObjectMeta : MetaV1;
  VirtualMachineSetResourcePolicy_Spec : VirtualMachineSetResourcePolicySpec
}.
Definition zero_VirtualMachineSetResourcePolicy : VirtualMachineSetResourcePolicy := mkVirtualMachineSetResourcePolicy zero_MetaV1 zero_VirtualMachineSetResourcePolicySpec.

End vmoprv1alpha5.

(** * v1alpha6: what the conversions use of it *)
Module vmoprv1alpha6.

Record VMAffinityTerm := mkVMAffinityTerm {
  VMAffinityTerm_LabelSelector : option LabelSelector;
  VMAffinityTerm_TopologyKey : string
}.
Definition zero_VMAffinityTerm : VMAffinityTerm := mkVMAffinityTerm None "".

Record VMAffinitySpec := mkVMAffinitySpec {
  VMAffinitySpec_RequiredDuringSchedulingPreferredDuringExecution : option (list VMAffinityTerm)
}.
Definition zero_VMAffinitySpec : VMAffinitySpec := mkVMAffinitySpec None.

Record VMAntiAffinitySpec := mkVMAntiAffinitySpec {
  VMAntiAffinitySpec_PreferredDuringSchedulingPreferredDuringExecution : option (list VMAffinityTerm)
}.
Definition zero_VMAntiAffinitySpec : VMAntiAffinitySpec := mkVMAntiAffinitySpec None.

Record AffinitySpec := mkAffinitySpec {
  AffinitySpec_VMAffinity : option VMAffinitySpec;
  AffinitySpec_VMAntiAffinity : option VMAntiAffinitySpec
}.
Definition zero_AffinitySpec : AffinitySpec := mkAffinitySpec None None.

Record SecretKeySelector := mkSecretKeySelector {
  SecretKeySelector_Name : string;
  SecretKeySelector_Key : string
}.
Definition zero_SecretKeySelector : SecretKeySelector := mkSecretKeySelector "" "".

Record VirtualMachineBootstrapCloudInitSpec := mkVirtualMachineBootstrapCloudInitSpec {
  VirtualMachineBootstrapCloudInitSpec_RawCloudConfig : option SecretKeySelector
}.
Definition zero_VirtualMachineBootstrapCloudInitSpec : VirtualMachineBootstrapCloudInitSpec := mkVirtualMachineBootstrapCloudInitSpec None.

Record VirtualMachineBootstrapSpec := mkVirtualMachineBootstrapSpec {
  VirtualMachineBootstrapSpec_CloudInit : option VirtualMachineBootstrapCloudInitSpec
}.
Definition zero_VirtualMachineBootstrapSpec : VirtualMachineBootstrapSpec := mkVirtualMachineBootstrapSpec None.

Record PartialObjectRef := mkPartialObjectRef {
  PartialObjectRef_TypeMeta : TypeMeta;
  PartialObjectRef_Name : string
}.
Definition zero_PartialObjectRef : PartialObjectRef := mkPartialObjectRef zero_TypeMeta "".

Record VirtualMachineNetworkRouteSpec := mkVirtualMachineNetworkRouteSpec {
  VirtualMachineNetworkRouteSpec_To : string;
  VirtualMachineNetworkRouteSpec_Via : string;
  VirtualMachineNetworkRouteSpec_Metric : Z
}.
Definition zero_VirtualMachineNetworkRouteSpec : VirtualMachineNetworkRouteSpec := mkVirtualMachineNetworkRouteSpec "" "" 0.

Record VirtualMachineNetworkInterfaceVMXNet3Spec := mkVirtualMachineNetworkInterfaceVMXNet3Spec {
  VirtualMachineNetworkInterfaceVMXNet3Spec_UPTv2Enabled : option bool;
  VirtualMachineNetworkInterfaceVMXNet3Spec_CtxPerDev : option string;
  VirtualMachineNetworkInterfaceVMXNet3Spec_RSSOffloadEnabled : option bool;
  VirtualMachineNetworkInterfaceVMXNet3Spec_UDPRSSEnabled : option bool;
  VirtualMachineNetworkInterfaceVMXNet3Spec_PNICFeatures : option (list string);
  VirtualMachineNetworkInterfaceVMXNet3Spec_CoalescingScheme : option string;
  VirtualMachineNetworkInterfaceVMXNet3Spec_CoalescingParams : option string
}.
Definition zero_VirtualMachineNetworkInterfaceVMXNet3Spec : VirtualMachineNetworkInterfaceVMXNet3Spec := mkVirtualMachineNetworkInterfaceVMXNet3Spec None None None None None None None.

Record KeyValuePair := mkKeyValuePair {
  KeyValuePair_Key : string;
  KeyValuePair_Value : string
}.
Definition zero_KeyValuePair : KeyValuePair := mkKeyValuePair "" "".

Record VirtualMachineNetworkInterfaceSpec := mkVirtualMachineNetworkInterfaceSpec {
  VirtualMachineNetworkInterfaceSpec_Name : string;
  VirtualMachineNetworkInterfaceSpec_Network : option PartialObjectRef;
  VirtualMachineNetworkInterfaceSpec_GuestDeviceName : string;
  VirtualMachineNetworkInterfaceSpec_MACAddr : string;
  VirtualMachineNetworkInterfaceSpec_Addresses : option (list string);
  VirtualMachineNetworkInterfaceSpec_DHCP4 : bool;
  VirtualMachineNetworkInterfaceSpec_DHCP6 : bool;
  VirtualMachineNetworkInterfaceSpec_Gateway4 : string;
  VirtualMachineNetworkInterfaceSpec_Gateway6 : string;
  VirtualMachineNetworkInterfaceSpec_MTU : option Z;
  VirtualMachineNetworkInterfaceSpec_Nameservers : option (list string);
  VirtualMachineNetworkInterfaceSpec_Routes : option (list VirtualMachineNetworkRouteSpec);
  VirtualMachineNetworkInterfaceSpec_SearchDomains : option (list string);
  VirtualMachineNetworkInterfaceSpec_Type : string;
  VirtualMachineNetworkInterfaceSpec_VNUMANodeID : option Z;
  VirtualMachineNetworkInterfaceSpec_VMXNet3 : option VirtualMachineNetworkInterfaceVMXNet3Spec;
  VirtualMachineNetworkInterfaceSpec_AdvancedProperties : option (list KeyValuePair);
  VirtualMachineNetworkInterfaceSpec_IPAMModes : option (list string)
}.
Definition zero_VirtualMachineNetworkInterfaceSpec : VirtualMachineNetworkInterfaceSpec := mkVirtualMachineNetworkInterfaceSpec "" None "" "" None false false "" "" None None None None "" None None None None.

Record VirtualMachineNetworkVLANSpec := mkVirtualMachineNetworkVLANSpec {
  VirtualMachineNetworkVLANSpec_Name : string;
  VirtualMachineNetworkVLANSpec_ID : Z;
  VirtualMachineNetworkVLANSpec_Link : string
}.
Definition zero_VirtualMachineNetworkVLANSpec : VirtualMachineNetworkVLANSpec := mkVirtualMachineNetworkVLANSpec "" 0 "".

Record VirtualMachineNetworkSpec := mkVirtualMachineNetworkSpec {
  VirtualMachineNetworkSpec_Interfaces : option (list VirtualMachineNetworkInterfaceSpec);
  VirtualMachineNetworkSpec_VLANs : option (list VirtualMachineNetworkVLANSpec)
}.
Definition zero_VirtualMachineNetworkSpec : VirtualMachineNetworkSpec := mkVirtualMachineNetworkSpec None None.

Record InstanceVolumeClaimVolumeSource := mkInstanceVolumeClaimVolumeSource {
  InstanceVolumeClaimVolumeSource_StorageClass : string;
  InstanceVolumeClaimVolumeSource_Size : Quantity
}.
Definition zero_InstanceVolumeClaimVolumeSource : InstanceVolumeClaimVolumeSource := mkInstanceVolumeClaimVolumeSource "" zero_Quantity.

Record PersistentVolumeClaimVolumeSource := mkPersistentVolumeClaimVolumeSource {
  PersistentVolumeClaimVolumeSource_PersistentVolumeClaimVolumeSource : CorePersistentVolumeClaimVolumeSource;
  PersistentVolumeClaimVolumeSource_InstanceVolumeClaim : option InstanceVolumeClaimVolumeSource
}.
Definition zero_PersistentVolumeClaimVolumeSource : PersistentVolumeClaimVolumeSource := mkPersistentVolumeClaimVolumeSource zero_CorePersistentVolumeClaimVolumeSource None.

Record VirtualMachineVolumeSource := mkVirtualMachineVolumeSource {
  VirtualMachineVolumeSource_PersistentVolumeClaim : option PersistentVolumeClaimVolumeSource
}.
Definition zero_VirtualMachineVolumeSource : VirtualMachineVolumeSource := mkVirtualMachineVolumeSource None.

Record VirtualMachineVolume := mkVirtualMachineVolume {
  VirtualMachineVolume_Name : string;
  VirtualMachineVolume_VirtualMachineVolumeSource : VirtualMachineVolumeSource;
  VirtualMachineVolume_Removable : option bool;
  VirtualMachineVolume_ApplicationType : string;
  VirtualMachineVolume_ControllerBusNumber : option Z;
  VirtualMachineVolume_ControllerType : string;
  VirtualMachineVolume_DiskMode : string;
  VirtualMachineVolume_SharingMode : string;
  VirtualMachineVolume_UnitNumber : option Z
}.
Definition zero_VirtualMachineVolume : VirtualMachineVolume := mkVirtualMachineVolume "" zero_VirtualMachineVolumeSource None "" None "" "" "" None.

Record TCPSocketAction := mkTCPSocketAction {
  TCPSocketAction_Port : IntOrString;
  TCPSocketAction_Host : string
}.
Definition zero_TCPSocketAction : TCPSocketAction := mkTCPSocketAction zero_IntOrString "".

Record VirtualMachineReadinessProbeSpec := mkVirtualMachineReadinessProbeSpec {
  VirtualMachineReadinessProbeSpec_TCPSocket : option TCPSocketAction
}.
Definition zero_VirtualMachineReadinessProbeSpec : VirtualMachineReadinessProbeSpec := mkVirtualMachineReadinessProbeSpec None.

Record VirtualMachineReservedSpec := mkVirtualMachineReservedSpec {
  VirtualMachineReservedSpec_ResourcePolicyName : string
}.
Definition zero_VirtualMachineReservedSpec : VirtualMachineReservedSpec := mkVirtualMachineReservedSpec "".

Record PolicySpec := mkPolicySpec {
  PolicySpec_APIVersion : string;
  PolicySpec_Kind : string;
  PolicySpec_Name : string
}.
Definition zero_PolicySpec : PolicySpec := mkPolicySpec "" "" "".

Record VirtualMachineSpec := mkVirtualMachineSpec {
  VirtualMachineSpec_ImageName : string;
  VirtualMachineSpec_ClassName : string;
  VirtualMachineSpec_Affinity : option AffinitySpec;
  VirtualMachineSpec_StorageClass : string;
  VirtualMachineSpec_Bootstrap : option VirtualMachineBootstrapSpec;
  VirtualMachineSpec_Network : option VirtualMachineNetworkSpec;
  VirtualMachineSpec_PowerState : string;
  VirtualMachineSpec_PowerOffMode : string;
  VirtualMachineSpec_Volumes : option (list VirtualMachineVolume);
  VirtualMachineSpec_ReadinessProbe : option VirtualMachineReadinessProbeSpec;
  VirtualMachineSpec_Reserved : option VirtualMachineReservedSpec;
  VirtualMachineSpec_MinHardwareVersion : Z;
  VirtualMachineSpec_GroupName : string;
  VirtualMachineSpec_Policies : option (list PolicySpec)
}.
Definition zero_VirtualMachineSpec : VirtualMachineSpec := mkVirtualMachineSpec "" "" None "" None None "" "" None None None 0 "" None.

Record VirtualMachineNetworkDHCPOptionsStatus := mkVirtualMachineNetworkDHCPOptionsStatus {
  VirtualMachineNetworkDHCPOptionsStatus_Config : option (list KeyValuePair);
  VirtualMachineNetworkDHCPOptionsStatus_Enabled : bool
}.
Definition zero_VirtualMachineNetworkDHCPOptionsStatus : VirtualMachineNetworkDHCPOptionsStatus := mkVirtualMachineNetworkDHCPOptionsStatus None false.

Record VirtualMachineNetworkDHCPStatus := mkVirtualMachineNetworkDHCPStatus {
  VirtualMachineNetworkDHCPStatus_IP4 : VirtualMachineNetworkDHCPOptionsStatus;
  VirtualMachineNetworkDHCPStatus_IP6 : VirtualMachineNetworkDHCPOptionsStatus
}.
Definition zero_VirtualMachineNetworkDHCPStatus : VirtualMachineNetworkDHCPStatus := mkVirtualMachineNetworkDHCPStatus zero_VirtualMachineNetworkDHCPOptionsStatus zero_VirtualMachineNetworkDHCPOptionsStatus.

Record VirtualMachineNetworkInterfaceIPAddrStatus := mkVirtualMachineNetworkInterfaceIPAddrStatus {
  VirtualMachineNetworkInterfaceIPAddrStatus_Address : string;
  VirtualMachineNetworkInterfaceIPAddrStatus_Lifetime : Time;
  VirtualMachineNetworkInterfaceIPAddrStatus_Origin : string;
  VirtualMachineNetworkInterfaceIPAddrStatus_State : string
}.
Definition zero_VirtualMachineNetworkInterfaceIPAddrStatus : VirtualMachineNetworkInterfaceIPAddrStatus := mkVirtualMachineNetworkInterfaceIPAddrStatus "" None "" "".

Record VirtualMachineNetworkInterfaceIPStatus := mkVirtualMachineNetworkInterfaceIPStatus {
  VirtualMachineNetworkInterfaceIPStatus_AutoConfigurationEnabled : option bool;
  VirtualMachineNetworkInterfaceIPStatus_DHCP : option VirtualMachineNetworkDHCPStatus;
  VirtualMachineNetworkInterfaceIPStatus_Addresses : option (list VirtualMachineNetworkInterfaceIPAddrStatus);
  VirtualMachineNetworkInterfaceIPStatus_MACAddr : string
}.
Definition zero_VirtualMachineNetworkInterfaceIPStatus : VirtualMachineNetworkInterfaceIPStatus := mkVirtualMachineNetworkInterfaceIPStatus None None None "".

Record VirtualMachineNetworkDNSStatus := mkVirtualMachineNetworkDNSStatus {
  VirtualMachineNetworkDNSStatus_DHCP : bool;
  VirtualMachineNetworkDNSStatus_HostName : string;
  VirtualMachineNetworkDNSStatus_DomainName : string;
  VirtualMachineNetworkDNSStatus_Nameservers : option (list string);
  VirtualMachineNetworkDNSStatus_SearchDomains : option (list string)
}.
Definition zero_VirtualMachineNetworkDNSStatus : VirtualMachineNetworkDNSStatus := mkVirtualMachineNetworkDNSStatus false "" "" None None.

Record VirtualMachineNetworkInterfaceStatus := mkVirtualMachineNetworkInterfaceStatus {
  VirtualMachineNetworkInterfaceStatus_Name : string;
  VirtualMachineNetworkInterfaceStatus_DeviceKey : Z;
  VirtualMachineNetworkInterfaceStatus_IP : option VirtualMachineNetworkInterfaceIPStatus;
  VirtualMachineNetworkInterfaceStatus_DNS : option VirtualMachineNetworkDNSStatus
}.
Definition zero_VirtualMachineNetworkInterfaceStatus : VirtualMachineNetworkInterfaceStatus := mkVirtualMachineNetworkInterfaceStatus "" 0 None None.

Record VirtualMachineNetworkStatus := mkVirtualMachineNetworkStatus {
  VirtualMachineNetworkStatus_HostName : string;
  VirtualMachineNetworkStatus_Interfaces : option (list VirtualMachineNetworkInterfaceStatus);
  VirtualMachineNetworkStatus_PrimaryIP4 : string;
  VirtualMachineNetworkStatus_PrimaryIP6 : string
}.
Definition zero_VirtualMachineNetworkStatus : VirtualMachineNetworkStatus := mkVirtualMachineNetworkStatus "" None "" "".

Record PolicyStatus := mkPolicyStatus {
  PolicyStatus_PolicySpec : PolicySpec;
  PolicyStatus_Generation : Z
}.
Definition zero_PolicyStatus : PolicyStatus := mkPolicyStatus zero_PolicySpec 0.

Record VirtualMachineStatus := mkVirtualMachineStatus {
  VirtualMachineStatus_NodeName : string;
  VirtualMachineStatus_PowerState : string;
  VirtualMachineStatus_Conditions : option (list Condition);
  VirtualMachineStatus_Network : option VirtualMachineNetworkStatus;
  VirtualMachineStatus_BiosUUID : string;
  VirtualMachineStatus_Zone : string;
  VirtualMachineStatus_Policies : option (list PolicyStatus)
}.
Definition zero_VirtualMachineStatus : VirtualMachineStatus := mkVirtualMachineStatus "" "" None None "" "" None.

Record VirtualMachine := mkVirtualMachine {
  VirtualMachine_ObjectMeta : MetaV1;
  VirtualMachine_Spec : VirtualMachineSpec;
  VirtualMachine_Status : VirtualMachineStatus
}.
Definition zero_VirtualMachine : VirtualMachine := mkVirtualMachine zero_MetaV1 zero_VirtualMachineSpec zero_VirtualMachineStatus.

Record VirtualMachineClassHardware := mkVirtualMachineClassHardware {
  VirtualMachineClassHardware_Cpus : Z;
  VirtualMachineClassHardware_Memory : Quantity
}.
Definition zero_VirtualMachineClassHardware : VirtualMachineClassHardware := mkVirtualMachineClassHardware 0 zero_Quantity.

Record VirtualMachineClassSpec := mkVirtualMachineClassSpec {
  VirtualMachineClassSpec_Hardware : VirtualMachineClassHardware
}.
Definition zero_VirtualMachineClassSpec : VirtualMachineClassSpec := mkVirtualMachineClassSpec zero_VirtualMachineClassHardware.

Record VirtualMachineClass := mkVirtualMachineClass {
  VirtualMachineClass_ObjectMeta : MetaV1;
  VirtualMachineClass_Spec : VirtualMachineClassSpec
}.
Definition zero_VirtualMachineClass : VirtualMachineClass := mkVirtualMachineClass zero_MetaV1 zero_VirtualMachineClassSpec.

Record GroupMember := mkGroupMember {
  GroupMember_Name : string;
  GroupMember_Kind : string
}.
Definition zero_GroupMember : GroupMember := mkGroupMember "" "".

Record VirtualMachineGroupBootOrderGroup := mkVirtualMachineGroupBootOrderGroup {
  VirtualMachineGroupBootOrderGroup_Members : option (list GroupMember);
  VirtualMachineGroupBootOrderGroup_PowerOnDelay : option Duration
}.
Definition zero_VirtualMachineGroupBootOrderGroup : VirtualMachineGroupBootOrderGroup := mkVirtualMachineGroupBootOrderGroup None None.

Record VirtualMachineGroupSpec := mkVirtualMachineGroupSpec {
  VirtualMachineGroupSpec_BootOrder : option (list VirtualMachineGroupBootOrderGroup)
}.
Definition zero_VirtualMachineGroupSpec : VirtualMachineGroupSpec := mkVirtualMachineGroupSpec None.

Record VirtualMachineGroupPlacementDatastoreStatus := mkVirtualMachineGroupPlacementDatastoreStatus {
  VirtualMachineGroupPlacementDatastoreStatus_Name : string;
  VirtualMachineGroupPlacementDatastoreStatus_ID : string;
  VirtualMachineGroupPlacementDatastoreStatus_URL : string;
  VirtualMachineGroupPlacementDatastoreStatus_SupportedDiskFormats : option (list string);
  VirtualMachineGroupPlacementDatastoreStatus_DiskKey : option Z;
  VirtualMachineGroupPlacementDatastoreStatus_TopLevelDirectoryCreateSupported : bool
}.
Definition zero_VirtualMachineGroupPlacementDatastoreStatus : VirtualMachineGroupPlacementDatastoreStatus := mkVirtualMachineGroupPlacementDatastoreStatus "" "" "" None None false.

Record VirtualMachinePlacementStatus := mkVirtualMachinePlacementStatus {
  VirtualMachinePlacementStatus_Zone : string;
  VirtualMachinePlacementStatus_Node : string;
  VirtualMachinePlacementStatus_Pool : string;
  VirtualMachinePlacementStatus_Datastores : option (list VirtualMachineGroupPlacementDatastoreStatus)
}.
Definition zero_VirtualMachinePlacementStatus : VirtualMachinePlacementStatus := mkVirtualMachinePlacementStatus "" "" "" None.

Record VirtualMachineGroupMemberStatus := mkVirtualMachineGroupMemberStatus {
  VirtualMachineGroupMemberStatus_Name : string;
  VirtualMachineGroupMemberStatus_Kind : string;
  VirtualMachineGroupMemberStatus_UID : string;
  VirtualMachineGroupMemberStatus_Placement : option VirtualMachinePlacementStatus;
  VirtualMachineGroupMemberStatus_PowerState : option string;
  VirtualMachineGroupMemberStatus_Conditions : option (list Condition)
}.
Definition zero_VirtualMachineGroupMemberStatus : VirtualMachineGroupMemberStatus := mkVirtualMachineGroupMemberStatus "" "" "" None None None.

Record VirtualMachineGroupStatus := mkVirtualMachineGroupStatus {
  VirtualMachineGroupStatus_Members : option (list VirtualMachineGroupMemberStatus)
}.
Definition zero_VirtualMachineGroupStatus : VirtualMachineGroupStatus := mkVirtualMachineGroupStatus None.

Record VirtualMachineGroup := mkVirtualMachineGroup {
  VirtualMachineGroup_ObjectMeta : MetaV1;
  VirtualMachineGroup_Spec : VirtualMachineGroupSpec;
  VirtualMachineGroup_Status : VirtualMachineGroupStatus
}.
Definition zero_VirtualMachineGroup : VirtualMachineGroup := mkVirtualMachineGroup zero_MetaV1 zero_VirtualMachineGroupSpec zero_VirtualMachineGroupStatus.

Record LocalObjectRef := mkLocalObjectRef {
  LocalObjectRef_APIVersion : string;
  LocalObjectRef_Kind : string;
  LocalObjectRef_Name : string
}.
Definition zero_LocalObjectRef : LocalObjectRef := mkLocalObjectRef "" "" "".

Record VirtualMachineImageSpec := mkVirtualMachineImageSpec {
  VirtualMachineImageSpec_ProviderRef : option LocalObjectRef
}.
Definition zero_VirtualMachineImageSpec : VirtualMachineImageSpec := mkVirtualMachineImageSpec None.

Record VirtualMachineImageOSInfo := mkVirtualMachineImageOSInfo {
  VirtualMachineImageOSInfo_Type : string
}.
Definition zero_VirtualMachineImageOSInfo : VirtualMachineImageOSInfo := mkVirtualMachineImageOSInfo "".

Record VirtualMachineImageProductInfo := mkVirtualMachineImageProductInfo {
  VirtualMachineImageProductInfo_FullVersion : string
}.
Definition zero_VirtualMachineImageProductInfo : VirtualMachineImageProductInfo := mkVirtualMachineImageProductInfo "".

Record VirtualMachineImageStatus := mkVirtualMachineImageStatus {
  VirtualMachineImageStatus_Name : string;
  VirtualMachineImageStatus_OSInfo : VirtualMachineImageOSInfo;
  VirtualMachineImageStatus_VMwareSystemProperties : option (list KeyValuePair);
  VirtualMachineImageStatus_ProductInfo : VirtualMachineImageProductInfo;
  VirtualMachineImageStatus_ProviderItemID : string;
  VirtualMachineImageStatus_Conditions : option (list Condition)
}.
Definition zero_VirtualMachineImageStatus : VirtualMachineImageStatus := mkVirtualMachineImageStatus "" zero_VirtualMachineImageOSInfo None zero_VirtualMachineImageProductInfo "" None.

Record VirtualMachineImage := mkVirtualMachineImage {
  VirtualMachineImage_ObjectMeta : MetaV1;
  VirtualMachineImage_Spec : VirtualMachineImageSpec;
  VirtualMachineImage_Status : VirtualMachineImageStatus
}.
Definition zero_VirtualMachineImage : VirtualMachineImage := mkVirtualMachineImage zero_MetaV1 zero_VirtualMachineImageSpec zero_VirtualMachineImageStatus.

Record ClusterVirtualMachineImage := mkClusterVirtualMachineImage {
  ClusterVirtualMachineImage_ObjectMeta : MetaV1;
  ClusterVirtualMachineImage_Spec : VirtualMachineImageSpec;
  ClusterVirtualMachineImage_Status : VirtualMachineImageStatus
}.
Definition zero_ClusterVirtualMachineImage : ClusterVirtualMachineImage := mkClusterVirtualMachineImage zero_MetaV1 zero_VirtualMachineImageSpec zero_VirtualMachineImageStatus.

Record VirtualMachineServicePort := mkVirtualMachineServicePort {
  VirtualMachineServicePort_Name : string;
  VirtualMachineServicePort_Protocol : string;
  VirtualMachineServicePort_Port : Z;
  VirtualMachineServicePort_TargetPort : Z
}.
Definition zero_VirtualMachineServicePort : VirtualMachineServicePort := mkVirtualMachineServicePort "" "" 0 0.

Record VirtualMachineServiceSpec := mkVirtualMachineServiceSpec {
  VirtualMachineServiceSpec_Type : string;
  VirtualMachineServiceSpec_Ports : option (list VirtualMachineServicePort);
  VirtualMachineServiceSpec_Selector : option (gmap string string);
  VirtualMachineServiceSpec_IPFamilies : option (list string);
  VirtualMachineServiceSpec_IPFamilyPolicy : option string
}.
Definition zero_VirtualMachineServiceSpec : VirtualMachineServiceSpec := mkVirtualMachineServiceSpec "" None None None None.

Record LoadBalancerIngress := mkLoadBalancerIngress {
  LoadBalancerIngress_IP : string;
  LoadBalancerIngress_Hostname : string
}.
Definition zero_LoadBalancerIngress : LoadBalancerIngress := mkLoadBalancerIngress "" "".

Record LoadBalancerStatus := mkLoadBalancerStatus {
  LoadBalancerStatus_Ingress : option (list LoadBalancerIngress)
}.
Definition zero_LoadBalancerStatus : LoadBalancerStatus := mkLoadBalancerStatus None.

Record VirtualMachineServiceStatus := mkVirtualMachineServiceStatus {
  VirtualMachineServiceStatus_LoadBalancer : LoadBalancerStatus
}.
Definition zero_VirtualMachineServiceStatus : VirtualMachineServiceStatus := mkVirtualMachineServiceStatus zero_LoadBalancerStatus.

Record VirtualMachineService := mkVirtualMachineService {
  VirtualMachineService_ObjectMeta : MetaV1;
  VirtualMachineService_Spec : VirtualMachineServiceSpec;
  VirtualMachineService_Status : VirtualMachineServiceStatus
}.
Definition zero_VirtualMachineService : VirtualMachineService := mkVirtualMachineService zero_MetaV1 zero_VirtualMachineServiceSpec zero_VirtualMachineServiceStatus.

Record ResourcePoolSpec := mkResourcePoolSpec {
  ResourcePoolSpec_Name : string
}.
Definition zero_ResourcePoolSpec : ResourcePoolSpec := mkResourcePoolSpec "".

Record VirtualMachineSetResourcePolicySpec := mkVirtualMachineSetResourcePolicySpec {
  VirtualMachineSetResourcePolicySpec_ResourcePool : ResourcePoolSpec;
  VirtualMachineSetResourcePolicySpec_Folder : string;
  VirtualMachineSetResourcePolicySpec_ClusterModuleGroups : option (list string)
}.
Definition zero_VirtualMachineSetResourcePolicySpec : VirtualMachineSetResourcePolicySpec := mkVirtualMachineSetResourcePolicySpec zero_ResourcePoolSpec "" None.

Record VirtualMachineSetResourcePolicy := mkVirtualMachineSetResourcePolicy {
  VirtualMachineSetResourcePolicy_ObjectMeta : MetaV1;
  VirtualMachineSetResourcePolicy_Spec : VirtualMachineSetResourcePolicySpec
}.
Definition zero_VirtualMachineSetResourcePolicy : VirtualMachineSetResourcePolicy := mkVirtualMachineSetResourcePolicy zero_MetaV1 zero_VirtualMachineSetResourcePolicySpec.

End vmoprv1alpha6.
