(* ===== verification/VmopConv.v ===== *)
(** The conversions of the VM Operator objects between the hub version and the versions of the API server
    ([pkg/conversion/api/vmoperator/v1alpha2], [v1alpha5], [v1alpha6]). They are written by hand, in one function for each
    kind and direction; here a struct they convert, a part of such a function, has a definition of its
    own, [<struct>_<version>_To_<version>]. Each function takes the object that is converted and the one that is filled in: a field
    that is not assigned keeps what it had, which is what happens to a pointer or a slice that is nil in the source. *)
From S2P Require Export VmopTypes.

(** A loop that appends to a nil slice: without elements it stays nil. *)
Definition append_each {A B} (f : A -> B) (s : option (list A)) : option (list B) :=
  match elems s with [] => None | l => Some (map f l) end.

(** * v1alpha2 *)

(** ** [convert_v1alpha2_VirtualMachine_To_hub_VirtualMachine] *)
Definition VMAffinityTerm_v1alpha2_To_hub (term : vmoprv1alpha2.VMAffinityTerm) : vmophub.VMAffinityTerm :=
  {|
    vmophub.VMAffinityTerm_LabelSelector := vmoprv1alpha2.VMAffinityTerm_LabelSelector term;
    vmophub.VMAffinityTerm_TopologyKey := vmoprv1alpha2.VMAffinityTerm_TopologyKey term
  |}.

Definition VMAffinitySpec_v1alpha2_To_hub (vMAffinity : vmoprv1alpha2.VMAffinitySpec) : vmophub.VMAffinitySpec :=
  {|
    vmophub.VMAffinitySpec_RequiredDuringSchedulingPreferredDuringExecution := option_map (map VMAffinityTerm_v1alpha2_To_hub) (vmoprv1alpha2.VMAffinitySpec_RequiredDuringSchedulingPreferredDuringExecution vMAffinity)
  |}.

Definition VMAntiAffinitySpec_v1alpha2_To_hub (vMAntiAffinity : vmoprv1alpha2.VMAntiAffinitySpec) : vmophub.VMAntiAffinitySpec :=
  {|
    vmophub.VMAntiAffinitySpec_PreferredDuringSchedulingPreferredDuringExecution := option_map (map VMAffinityTerm_v1alpha2_To_hub) (vmoprv1alpha2.VMAntiAffinitySpec_PreferredDuringSchedulingPreferredDuringExecution vMAntiAffinity)
  |}.

Definition AffinitySpec_v1alpha2_To_hub (affinity : vmoprv1alpha2.AffinitySpec) : vmophub.AffinitySpec :=
  {|
    vmophub.AffinitySpec_VMAffinity := option_map VMAffinitySpec_v1alpha2_To_hub (vmoprv1alpha2.AffinitySpec_VMAffinity affinity);
    vmophub.AffinitySpec_VMAntiAffinity := option_map VMAntiAffinitySpec_v1alpha2_To_hub (vmoprv1alpha2.AffinitySpec_VMAntiAffinity affinity)
  |}.

Definition SecretKeySelector_v1alpha2_To_hub (rawCloudConfig : vmoprv1alpha2.SecretKeySelector) : vmophub.SecretKeySelector :=
  {|
    vmophub.SecretKeySelector_Name := vmoprv1alpha2.SecretKeySelector_Name rawCloudConfig;
    vmophub.SecretKeySelector_Key := vmoprv1alpha2.SecretKeySelector_Key rawCloudConfig
  |}.

Definition VirtualMachineBootstrapCloudInitSpec_v1alpha2_To_hub (cloudInit : vmoprv1alpha2.VirtualMachineBootstrapCloudInitSpec) : vmophub.VirtualMachineBootstrapCloudInitSpec :=
  {|
    vmophub.VirtualMachineBootstrapCloudInitSpec_RawCloudConfig := option_map SecretKeySelector_v1alpha2_To_hub (vmoprv1alpha2.VirtualMachineBootstrapCloudInitSpec_RawCloudConfig cloudInit)
  |}.

Definition VirtualMachineBootstrapSpec_v1alpha2_To_hub (bootstrap : vmoprv1alpha2.VirtualMachineBootstrapSpec) : vmophub.VirtualMachineBootstrapSpec :=
  {|
    vmophub.VirtualMachineBootstrapSpec_CloudInit := option_map VirtualMachineBootstrapCloudInitSpec_v1alpha2_To_hub (vmoprv1alpha2.VirtualMachineBootstrapSpec_CloudInit bootstrap)
  |}.

Definition PartialObjectRef_v1alpha2_To_hub (network1 : vmoprv1alpha2.PartialObjectRef) : vmophub.PartialObjectRef :=
  {|
    vmophub.PartialObjectRef_TypeMeta := {|
        TypeMeta_Kind := TypeMeta_Kind (vmoprv1alpha2.PartialObjectRef_TypeMeta network1);
        TypeMeta_APIVersion := TypeMeta_APIVersion (vmoprv1alpha2.PartialObjectRef_TypeMeta network1)
      |};
    vmophub.PartialObjectRef_Name := vmoprv1alpha2.PartialObjectRef_Name network1
  |}.

Definition VirtualMachineNetworkRouteSpec_v1alpha2_To_hub (route : vmoprv1alpha2.VirtualMachineNetworkRouteSpec) : vmophub.VirtualMachineNetworkRouteSpec :=
  {|
    vmophub.VirtualMachineNetworkRouteSpec_To := vmoprv1alpha2.VirtualMachineNetworkRouteSpec_To route;
    vmophub.VirtualMachineNetworkRouteSpec_Via := vmoprv1alpha2.VirtualMachineNetworkRouteSpec_Via route;
    vmophub.VirtualMachineNetworkRouteSpec_Metric := vmoprv1alpha2.VirtualMachineNetworkRouteSpec_Metric route
  |}.

Definition VirtualMachineNetworkInterfaceSpec_v1alpha2_To_hub (iface : vmoprv1alpha2.VirtualMachineNetworkInterfaceSpec) : vmophub.VirtualMachineNetworkInterfaceSpec :=
  {|
    vmophub.VirtualMachineNetworkInterfaceSpec_Name := vmoprv1alpha2.VirtualMachineNetworkInterfaceSpec_Name iface;
    vmophub.VirtualMachineNetworkInterfaceSpec_Network := option_map PartialObjectRef_v1alpha2_To_hub (vmoprv1alpha2.VirtualMachineNetworkInterfaceSpec_Network iface);
    vmophub.VirtualMachineNetworkInterfaceSpec_GuestDeviceName := vmoprv1alpha2.VirtualMachineNetworkInterfaceSpec_GuestDeviceName iface;
    vmophub.VirtualMachineNetworkInterfaceSpec_MACAddr := vmoprv1alpha2.VirtualMachineNetworkInterfaceSpec_MACAddr iface;
    vmophub.VirtualMachineNetworkInterfaceSpec_Addresses := vmoprv1alpha2.VirtualMachineNetworkInterfaceSpec_Addresses iface;
    vmophub.VirtualMachineNetworkInterfaceSpec_DHCP4 := vmoprv1alpha2.VirtualMachineNetworkInterfaceSpec_DHCP4 iface;
    vmophub.VirtualMachineNetworkInterfaceSpec_DHCP6 := vmoprv1alpha2.VirtualMachineNetworkInterfaceSpec_DHCP6 iface;
    vmophub.VirtualMachineNetworkInterfaceSpec_Gateway4 := vmoprv1alpha2.VirtualMachineNetworkInterfaceSpec_Gateway4 iface;
    vmophub.VirtualMachineNetworkInterfaceSpec_Gateway6 := vmoprv1alpha2.VirtualMachineNetworkInterfaceSpec_Gateway6 iface;
    vmophub.VirtualMachineNetworkInterfaceSpec_MTU := vmoprv1alpha2.VirtualMachineNetworkInterfaceSpec_MTU iface;
    vmophub.VirtualMachineNetworkInterfaceSpec_Nameservers := vmoprv1alpha2.VirtualMachineNetworkInterfaceSpec_Nameservers iface;
    vmophub.VirtualMachineNetworkInterfaceSpec_Routes := option_map (map VirtualMachineNetworkRouteSpec_v1alpha2_To_hub) (vmoprv1alpha2.VirtualMachineNetworkInterfaceSpec_Routes iface);
    vmophub.VirtualMachineNetworkInterfaceSpec_SearchDomains := vmoprv1alpha2.VirtualMachineNetworkInterfaceSpec_SearchDomains iface;
    vmophub.VirtualMachineNetworkInterfaceSpec_Type := "";
    vmophub.VirtualMachineNetworkInterfaceSpec_VNUMANodeID := None;
    vmophub.VirtualMachineNetworkInterfaceSpec_VMXNet3 := None;
    vmophub.VirtualMachineNetworkInterfaceSpec_AdvancedProperties := None;
    vmophub.VirtualMachineNetworkInterfaceSpec_IPAMModes := None
  |}.

Definition VirtualMachineNetworkSpec_v1alpha2_To_hub (network : vmoprv1alpha2.VirtualMachineNetworkSpec) : vmophub.VirtualMachineNetworkSpec :=
  {|
    vmophub.VirtualMachineNetworkSpec_Interfaces := option_map (map VirtualMachineNetworkInterfaceSpec_v1alpha2_To_hub) (vmoprv1alpha2.VirtualMachineNetworkSpec_Interfaces network);
    vmophub.VirtualMachineNetworkSpec_VLANs := None
  |}.

Definition InstanceVolumeClaimVolumeSource_v1alpha2_To_hub (instanceVolumeClaim : vmoprv1alpha2.InstanceVolumeClaimVolumeSource) : vmophub.InstanceVolumeClaimVolumeSource :=
  {|
    vmophub.InstanceVolumeClaimVolumeSource_StorageClass := vmoprv1alpha2.InstanceVolumeClaimVolumeSource_StorageClass instanceVolumeClaim;
    vmophub.InstanceVolumeClaimVolumeSource_Size := vmoprv1alpha2.InstanceVolumeClaimVolumeSource_Size instanceVolumeClaim
  |}.

Definition PersistentVolumeClaimVolumeSource_v1alpha2_To_hub (persistentVolumeClaim : vmoprv1alpha2.PersistentVolumeClaimVolumeSource) : vmophub.PersistentVolumeClaimVolumeSource :=
  {|
    vmophub.PersistentVolumeClaimVolumeSource_PersistentVolumeClaimVolumeSource := {|
        CorePersistentVolumeClaimVolumeSource_ClaimName := CorePersistentVolumeClaimVolumeSource_ClaimName (vmoprv1alpha2.PersistentVolumeClaimVolumeSource_PersistentVolumeClaimVolumeSource persistentVolumeClaim);
        CorePersistentVolumeClaimVolumeSource_ReadOnly := CorePersistentVolumeClaimVolumeSource_ReadOnly (vmoprv1alpha2.PersistentVolumeClaimVolumeSource_PersistentVolumeClaimVolumeSource persistentVolumeClaim)
      |};
    vmophub.PersistentVolumeClaimVolumeSource_InstanceVolumeClaim := option_map InstanceVolumeClaimVolumeSource_v1alpha2_To_hub (vmoprv1alpha2.PersistentVolumeClaimVolumeSource_InstanceVolumeClaim persistentVolumeClaim)
  |}.

Definition VirtualMachineVolume_v1alpha2_To_hub (volume : vmoprv1alpha2.VirtualMachineVolume) : vmophub.VirtualMachineVolume :=
  {|
    vmophub.VirtualMachineVolume_Name := vmoprv1alpha2.VirtualMachineVolume_Name volume;
    vmophub.VirtualMachineVolume_VirtualMachineVolumeSource := {|
        vmophub.VirtualMachineVolumeSource_PersistentVolumeClaim := option_map PersistentVolumeClaimVolumeSource_v1alpha2_To_hub (vmoprv1alpha2.VirtualMachineVolumeSource_PersistentVolumeClaim (vmoprv1alpha2.VirtualMachineVolume_VirtualMachineVolumeSource volume))
      |};
    vmophub.VirtualMachineVolume_Removable := None;
    vmophub.VirtualMachineVolume_ApplicationType := "";
    vmophub.VirtualMachineVolume_ControllerBusNumber := None;
    vmophub.VirtualMachineVolume_ControllerType := "";
    vmophub.VirtualMachineVolume_DiskMode := "";
    vmophub.VirtualMachineVolume_SharingMode := "";
    vmophub.VirtualMachineVolume_UnitNumber := None
  |}.

Definition TCPSocketAction_v1alpha2_To_hub (tCPSocket : vmoprv1alpha2.TCPSocketAction) : vmophub.TCPSocketAction :=
  {|
    vmophub.TCPSocketAction_Port := vmoprv1alpha2.TCPSocketAction_Port tCPSocket;
    vmophub.TCPSocketAction_Host := vmoprv1alpha2.TCPSocketAction_Host tCPSocket
  |}.

Definition VirtualMachineReadinessProbeSpec_v1alpha2_To_hub (readinessProbe : vmoprv1alpha2.VirtualMachineReadinessProbeSpec) : vmophub.VirtualMachineReadinessProbeSpec :=
  {|
    vmophub.VirtualMachineReadinessProbeSpec_TCPSocket := option_map TCPSocketAction_v1alpha2_To_hub (vmoprv1alpha2.VirtualMachineReadinessProbeSpec_TCPSocket readinessProbe)
  |}.

Definition VirtualMachineReservedSpec_v1alpha2_To_hub (reserved : vmoprv1alpha2.VirtualMachineReservedSpec) : vmophub.VirtualMachineReservedSpec :=
  {|
    vmophub.VirtualMachineReservedSpec_ResourcePolicyName := vmoprv1alpha2.VirtualMachineReservedSpec_ResourcePolicyName reserved
  |}.

Definition KeyValuePair_v1alpha2_To_hub (pair : vmoprv1alpha2.KeyValuePair) : vmophub.KeyValuePair :=
  {|
    vmophub.KeyValuePair_Key := vmoprv1alpha2.KeyValuePair_Key pair;
    vmophub.KeyValuePair_Value := vmoprv1alpha2.KeyValuePair_Value pair
  |}.

Definition VirtualMachineNetworkDHCPStatus_v1alpha2_To_hub (dhcp : vmoprv1alpha2.VirtualMachineNetworkDHCPStatus) : vmophub.VirtualMachineNetworkDHCPStatus :=
  {|
    vmophub.VirtualMachineNetworkDHCPStatus_IP4 := {|
        vmophub.VirtualMachineNetworkDHCPOptionsStatus_Config := option_map (map KeyValuePair_v1alpha2_To_hub) (vmoprv1alpha2.VirtualMachineNetworkDHCPOptionsStatus_Config (vmoprv1alpha2.VirtualMachineNetworkDHCPStatus_IP4 dhcp));
        vmophub.VirtualMachineNetworkDHCPOptionsStatus_Enabled := vmoprv1alpha2.VirtualMachineNetworkDHCPOptionsStatus_Enabled (vmoprv1alpha2.VirtualMachineNetworkDHCPStatus_IP4 dhcp)
      |};
    vmophub.VirtualMachineNetworkDHCPStatus_IP6 := {|
        vmophub.VirtualMachineNetworkDHCPOptionsStatus_Config := option_map (map KeyValuePair_v1alpha2_To_hub) (vmoprv1alpha2.VirtualMachineNetworkDHCPOptionsStatus_Config (vmoprv1alpha2.VirtualMachineNetworkDHCPStatus_IP6 dhcp));
        vmophub.VirtualMachineNetworkDHCPOptionsStatus_Enabled := vmoprv1alpha2.VirtualMachineNetworkDHCPOptionsStatus_Enabled (vmoprv1alpha2.VirtualMachineNetworkDHCPStatus_IP6 dhcp)
      |}
  |}.

Definition VirtualMachineNetworkInterfaceIPAddrStatus_v1alpha2_To_hub (addr : vmoprv1alpha2.VirtualMachineNetworkInterfaceIPAddrStatus) : vmophub.VirtualMachineNetworkInterfaceIPAddrStatus :=
  {|
    vmophub.VirtualMachineNetworkInterfaceIPAddrStatus_Address := vmoprv1alpha2.VirtualMachineNetworkInterfaceIPAddrStatus_Address addr;
    vmophub.VirtualMachineNetworkInterfaceIPAddrStatus_Lifetime := vmoprv1alpha2.VirtualMachineNetworkInterfaceIPAddrStatus_Lifetime addr;
    vmophub.VirtualMachineNetworkInterfaceIPAddrStatus_Origin := vmoprv1alpha2.VirtualMachineNetworkInterfaceIPAddrStatus_Origin addr;
    vmophub.VirtualMachineNetworkInterfaceIPAddrStatus_State := vmoprv1alpha2.VirtualMachineNetworkInterfaceIPAddrStatus_State addr
  |}.

Definition VirtualMachineNetworkInterfaceIPStatus_v1alpha2_To_hub (ip : vmoprv1alpha2.VirtualMachineNetworkInterfaceIPStatus) : vmophub.VirtualMachineNetworkInterfaceIPStatus :=
  {|
    vmophub.VirtualMachineNetworkInterfaceIPStatus_AutoConfigurationEnabled := vmoprv1alpha2.VirtualMachineNetworkInterfaceIPStatus_AutoConfigurationEnabled ip;
    vmophub.VirtualMachineNetworkInterfaceIPStatus_DHCP := option_map VirtualMachineNetworkDHCPStatus_v1alpha2_To_hub (vmoprv1alpha2.VirtualMachineNetworkInterfaceIPStatus_DHCP ip);
    vmophub.VirtualMachineNetworkInterfaceIPStatus_Addresses := option_map (map VirtualMachineNetworkInterfaceIPAddrStatus_v1alpha2_To_hub) (vmoprv1alpha2.VirtualMachineNetworkInterfaceIPStatus_Addresses ip);
    vmophub.VirtualMachineNetworkInterfaceIPStatus_MACAddr := vmoprv1alpha2.VirtualMachineNetworkInterfaceIPStatus_MACAddr ip
  |}.

Definition VirtualMachineNetworkDNSStatus_v1alpha2_To_hub (dns : vmoprv1alpha2.VirtualMachineNetworkDNSStatus) : vmophub.VirtualMachineNetworkDNSStatus :=
  {|
    vmophub.VirtualMachineNetworkDNSStatus_DHCP := vmoprv1alpha2.VirtualMachineNetworkDNSStatus_DHCP dns;
    vmophub.VirtualMachineNetworkDNSStatus_HostName := vmoprv1alpha2.VirtualMachineNetworkDNSStatus_HostName dns;
    vmophub.VirtualMachineNetworkDNSStatus_DomainName := vmoprv1alpha2.VirtualMachineNetworkDNSStatus_DomainName dns;
    vmophub.VirtualMachineNetworkDNSStatus_Nameservers := vmoprv1alpha2.VirtualMachineNetworkDNSStatus_Nameservers dns;
    vmophub.VirtualMachineNetworkDNSStatus_SearchDomains := vmoprv1alpha2.VirtualMachineNetworkDNSStatus_SearchDomains dns
  |}.

Definition VirtualMachineNetworkInterfaceStatus_v1alpha2_To_hub (iface : vmoprv1alpha2.VirtualMachineNetworkInterfaceStatus) : vmophub.VirtualMachineNetworkInterfaceStatus :=
  {|
    vmophub.VirtualMachineNetworkInterfaceStatus_Name := vmoprv1alpha2.VirtualMachineNetworkInterfaceStatus_Name iface;
    vmophub.VirtualMachineNetworkInterfaceStatus_DeviceKey := vmoprv1alpha2.VirtualMachineNetworkInterfaceStatus_DeviceKey iface;
    vmophub.VirtualMachineNetworkInterfaceStatus_IP := option_map VirtualMachineNetworkInterfaceIPStatus_v1alpha2_To_hub (vmoprv1alpha2.VirtualMachineNetworkInterfaceStatus_IP iface);
    vmophub.VirtualMachineNetworkInterfaceStatus_DNS := option_map VirtualMachineNetworkDNSStatus_v1alpha2_To_hub (vmoprv1alpha2.VirtualMachineNetworkInterfaceStatus_DNS iface)
  |}.

Definition VirtualMachineNetworkStatus_v1alpha2_To_hub (network1 : vmoprv1alpha2.VirtualMachineNetworkStatus) : vmophub.VirtualMachineNetworkStatus :=
  {|
    vmophub.VirtualMachineNetworkStatus_HostName := vmoprv1alpha2.VirtualMachineNetworkStatus_HostName network1;
    vmophub.VirtualMachineNetworkStatus_Interfaces := option_map (map VirtualMachineNetworkInterfaceStatus_v1alpha2_To_hub) (vmoprv1alpha2.VirtualMachineNetworkStatus_Interfaces network1);
    vmophub.VirtualMachineNetworkStatus_PrimaryIP4 := vmoprv1alpha2.VirtualMachineNetworkStatus_PrimaryIP4 network1;
    vmophub.VirtualMachineNetworkStatus_PrimaryIP6 := vmoprv1alpha2.VirtualMachineNetworkStatus_PrimaryIP6 network1
  |}.

Definition VirtualMachineSpec_v1alpha2_To_hub (src : vmoprv1alpha2.VirtualMachineSpec) (dst : vmophub.VirtualMachineSpec) : vmophub.VirtualMachineSpec :=
  {|
    vmophub.VirtualMachineSpec_ImageName := vmoprv1alpha2.VirtualMachineSpec_ImageName src;
    vmophub.VirtualMachineSpec_ClassName := vmoprv1alpha2.VirtualMachineSpec_ClassName src;
    vmophub.VirtualMachineSpec_Affinity := match vmoprv1alpha2.VirtualMachineSpec_Affinity src with Some affinity => Some (AffinitySpec_v1alpha2_To_hub affinity) | None => vmophub.VirtualMachineSpec_Affinity dst end;
    vmophub.VirtualMachineSpec_StorageClass := vmoprv1alpha2.VirtualMachineSpec_StorageClass src;
    vmophub.VirtualMachineSpec_Bootstrap := match vmoprv1alpha2.VirtualMachineSpec_Bootstrap src with Some bootstrap => Some (VirtualMachineBootstrapSpec_v1alpha2_To_hub bootstrap) | None => vmophub.VirtualMachineSpec_Bootstrap dst end;
    vmophub.VirtualMachineSpec_Network := match vmoprv1alpha2.VirtualMachineSpec_Network src with Some network => Some (VirtualMachineNetworkSpec_v1alpha2_To_hub network) | None => vmophub.VirtualMachineSpec_Network dst end;
    vmophub.VirtualMachineSpec_PowerState := vmoprv1alpha2.VirtualMachineSpec_PowerState src;
    vmophub.VirtualMachineSpec_PowerOffMode := vmoprv1alpha2.VirtualMachineSpec_PowerOffMode src;
    vmophub.VirtualMachineSpec_Volumes := match vmoprv1alpha2.VirtualMachineSpec_Volumes src with
      | Some volumes => Some (map VirtualMachineVolume_v1alpha2_To_hub volumes)
      | None => vmophub.VirtualMachineSpec_Volumes dst
      end;
    vmophub.VirtualMachineSpec_ReadinessProbe := match vmoprv1alpha2.VirtualMachineSpec_ReadinessProbe src with Some readinessProbe => Some (VirtualMachineReadinessProbeSpec_v1alpha2_To_hub readinessProbe) | None => vmophub.VirtualMachineSpec_ReadinessProbe dst end;
    vmophub.VirtualMachineSpec_Reserved := match vmoprv1alpha2.VirtualMachineSpec_Reserved src with Some reserved => Some (VirtualMachineReservedSpec_v1alpha2_To_hub reserved) | None => vmophub.VirtualMachineSpec_Reserved dst end;
    vmophub.VirtualMachineSpec_MinHardwareVersion := vmoprv1alpha2.VirtualMachineSpec_MinHardwareVersion src;
    vmophub.VirtualMachineSpec_GroupName := vmoprv1alpha2.VirtualMachineSpec_GroupName src;
    vmophub.VirtualMachineSpec_Policies := vmophub.VirtualMachineSpec_Policies dst
  |}.

Definition VirtualMachineStatus_v1alpha2_To_hub (src : vmoprv1alpha2.VirtualMachineStatus) (dst : vmophub.VirtualMachineStatus) : vmophub.VirtualMachineStatus :=
  {|
    vmophub.VirtualMachineStatus_NodeName := vmoprv1alpha2.VirtualMachineStatus_Host src;
    vmophub.VirtualMachineStatus_PowerState := vmoprv1alpha2.VirtualMachineStatus_PowerState src;
    vmophub.VirtualMachineStatus_Conditions := match vmoprv1alpha2.VirtualMachineStatus_Conditions src with
      | Some conditions => Some conditions
      | None => vmophub.VirtualMachineStatus_Conditions dst
      end;
    vmophub.VirtualMachineStatus_Network := match vmoprv1alpha2.VirtualMachineStatus_Network src with Some network1 => Some (VirtualMachineNetworkStatus_v1alpha2_To_hub network1) | None => vmophub.VirtualMachineStatus_Network dst end;
    vmophub.VirtualMachineStatus_BiosUUID := vmoprv1alpha2.VirtualMachineStatus_BiosUUID src;
    vmophub.VirtualMachineStatus_Zone := vmoprv1alpha2.VirtualMachineStatus_Zone src;
    vmophub.VirtualMachineStatus_Policies := vmophub.VirtualMachineStatus_Policies dst
  |}.

Definition convert_v1alpha2_VirtualMachine_To_hub_VirtualMachine (src : vmoprv1alpha2.VirtualMachine) (dst : vmophub.VirtualMachine) : res vmophub.VirtualMachine :=
  Ok {|
    vmophub.VirtualMachine_ObjectMeta := vmoprv1alpha2.VirtualMachine_ObjectMeta src;
    vmophub.VirtualMachine_Spec := VirtualMachineSpec_v1alpha2_To_hub (vmoprv1alpha2.VirtualMachine_Spec src) (vmophub.VirtualMachine_Spec dst);
    vmophub.VirtualMachine_Status := VirtualMachineStatus_v1alpha2_To_hub (vmoprv1alpha2.VirtualMachine_Status src) (vmophub.VirtualMachine_Status dst);
    vmophub.VirtualMachine_Source := vmophub.VirtualMachine_Source dst
  |}.

(** ** [convert_hub_VirtualMachine_To_v1alpha2_VirtualMachine] *)
Definition VMAffinityTerm_hub_To_v1alpha2 (term : vmophub.VMAffinityTerm) : vmoprv1alpha2.VMAffinityTerm :=
  {|
    vmoprv1alpha2.VMAffinityTerm_LabelSelector := vmophub.VMAffinityTerm_LabelSelector term;
    vmoprv1alpha2.VMAffinityTerm_TopologyKey := vmophub.VMAffinityTerm_TopologyKey term
  |}.

Definition VMAffinitySpec_hub_To_v1alpha2 (vMAffinity : vmophub.VMAffinitySpec) : vmoprv1alpha2.VMAffinitySpec :=
  {|
    vmoprv1alpha2.VMAffinitySpec_RequiredDuringSchedulingPreferredDuringExecution := option_map (map VMAffinityTerm_hub_To_v1alpha2) (vmophub.VMAffinitySpec_RequiredDuringSchedulingPreferredDuringExecution vMAffinity)
  |}.

Definition VMAntiAffinitySpec_hub_To_v1alpha2 (vMAntiAffinity : vmophub.VMAntiAffinitySpec) : vmoprv1alpha2.VMAntiAffinitySpec :=
  {|
    vmoprv1alpha2.VMAntiAffinitySpec_PreferredDuringSchedulingPreferredDuringExecution := option_map (map VMAffinityTerm_hub_To_v1alpha2) (vmophub.VMAntiAffinitySpec_PreferredDuringSchedulingPreferredDuringExecution vMAntiAffinity)
  |}.

Definition AffinitySpec_hub_To_v1alpha2 (affinity : vmophub.AffinitySpec) : vmoprv1alpha2.AffinitySpec :=
  {|
    vmoprv1alpha2.AffinitySpec_VMAffinity := option_map VMAffinitySpec_hub_To_v1alpha2 (vmophub.AffinitySpec_VMAffinity affinity);
    vmoprv1alpha2.AffinitySpec_VMAntiAffinity := option_map VMAntiAffinitySpec_hub_To_v1alpha2 (vmophub.AffinitySpec_VMAntiAffinity affinity)
  |}.

Definition SecretKeySelector_hub_To_v1alpha2 (rawCloudConfig : vmophub.SecretKeySelector) : vmoprv1alpha2.SecretKeySelector :=
  {|
    vmoprv1alpha2.SecretKeySelector_Name := vmophub.SecretKeySelector_Name rawCloudConfig;
    vmoprv1alpha2.SecretKeySelector_Key := vmophub.SecretKeySelector_Key rawCloudConfig
  |}.

Definition VirtualMachineBootstrapCloudInitSpec_hub_To_v1alpha2 (cloudInit : vmophub.VirtualMachineBootstrapCloudInitSpec) : vmoprv1alpha2.VirtualMachineBootstrapCloudInitSpec :=
  {|
    vmoprv1alpha2.VirtualMachineBootstrapCloudInitSpec_RawCloudConfig := option_map SecretKeySelector_hub_To_v1alpha2 (vmophub.VirtualMachineBootstrapCloudInitSpec_RawCloudConfig cloudInit)
  |}.

Definition VirtualMachineBootstrapSpec_hub_To_v1alpha2 (bootstrap : vmophub.VirtualMachineBootstrapSpec) : vmoprv1alpha2.VirtualMachineBootstrapSpec :=
  {|
    vmoprv1alpha2.VirtualMachineBootstrapSpec_CloudInit := option_map VirtualMachineBootstrapCloudInitSpec_hub_To_v1alpha2 (vmophub.VirtualMachineBootstrapSpec_CloudInit bootstrap)
  |}.

Definition PartialObjectRef_hub_To_v1alpha2 (network1 : vmophub.PartialObjectRef) : vmoprv1alpha2.PartialObjectRef :=
  {|
    vmoprv1alpha2.PartialObjectRef_TypeMeta := {|
        TypeMeta_Kind := TypeMeta_Kind (vmophub.PartialObjectRef_TypeMeta network1);
        TypeMeta_APIVersion := TypeMeta_APIVersion (vmophub.PartialObjectRef_TypeMeta network1)
      |};
    vmoprv1alpha2.PartialObjectRef_Name := vmophub.PartialObjectRef_Name network1
  |}.

Definition VirtualMachineNetworkRouteSpec_hub_To_v1alpha2 (route : vmophub.VirtualMachineNetworkRouteSpec) : vmoprv1alpha2.VirtualMachineNetworkRouteSpec :=
  {|
    vmoprv1alpha2.VirtualMachineNetworkRouteSpec_To := vmophub.VirtualMachineNetworkRouteSpec_To route;
    vmoprv1alpha2.VirtualMachineNetworkRouteSpec_Via := vmophub.VirtualMachineNetworkRouteSpec_Via route;
    vmoprv1alpha2.VirtualMachineNetworkRouteSpec_Metric := vmophub.VirtualMachineNetworkRouteSpec_Metric route
  |}.

Definition VirtualMachineNetworkInterfaceSpec_hub_To_v1alpha2 (iface : vmophub.VirtualMachineNetworkInterfaceSpec) : vmoprv1alpha2.VirtualMachineNetworkInterfaceSpec :=
  {|
    vmoprv1alpha2.VirtualMachineNetworkInterfaceSpec_Name := vmophub.VirtualMachineNetworkInterfaceSpec_Name iface;
    vmoprv1alpha2.VirtualMachineNetworkInterfaceSpec_Network := option_map PartialObjectRef_hub_To_v1alpha2 (vmophub.VirtualMachineNetworkInterfaceSpec_Network iface);
    vmoprv1alpha2.VirtualMachineNetworkInterfaceSpec_GuestDeviceName := vmophub.VirtualMachineNetworkInterfaceSpec_GuestDeviceName iface;
    vmoprv1alpha2.VirtualMachineNetworkInterfaceSpec_MACAddr := vmophub.VirtualMachineNetworkInterfaceSpec_MACAddr iface;
    vmoprv1alpha2.VirtualMachineNetworkInterfaceSpec_Addresses := vmophub.VirtualMachineNetworkInterfaceSpec_Addresses iface;
    vmoprv1alpha2.VirtualMachineNetworkInterfaceSpec_DHCP4 := vmophub.VirtualMachineNetworkInterfaceSpec_DHCP4 iface;
    vmoprv1alpha2.VirtualMachineNetworkInterfaceSpec_DHCP6 := vmophub.VirtualMachineNetworkInterfaceSpec_DHCP6 iface;
    vmoprv1alpha2.VirtualMachineNetworkInterfaceSpec_Gateway4 := vmophub.VirtualMachineNetworkInterfaceSpec_Gateway4 iface;
    vmoprv1alpha2.VirtualMachineNetworkInterfaceSpec_Gateway6 := vmophub.VirtualMachineNetworkInterfaceSpec_Gateway6 iface;
    vmoprv1alpha2.VirtualMachineNetworkInterfaceSpec_MTU := vmophub.VirtualMachineNetworkInterfaceSpec_MTU iface;
    vmoprv1alpha2.VirtualMachineNetworkInterfaceSpec_Nameservers := vmophub.VirtualMachineNetworkInterfaceSpec_Nameservers iface;
    vmoprv1alpha2.VirtualMachineNetworkInterfaceSpec_Routes := option_map (map VirtualMachineNetworkRouteSpec_hub_To_v1alpha2) (vmophub.VirtualMachineNetworkInterfaceSpec_Routes iface);
    vmoprv1alpha2.VirtualMachineNetworkInterfaceSpec_SearchDomains := vmophub.VirtualMachineNetworkInterfaceSpec_SearchDomains iface
  |}.

Definition VirtualMachineNetworkSpec_hub_To_v1alpha2 (network : vmophub.VirtualMachineNetworkSpec) : vmoprv1alpha2.VirtualMachineNetworkSpec :=
  {|
    vmoprv1alpha2.VirtualMachineNetworkSpec_Interfaces := option_map (map VirtualMachineNetworkInterfaceSpec_hub_To_v1alpha2) (vmophub.VirtualMachineNetworkSpec_Interfaces network)
  |}.

Definition InstanceVolumeClaimVolumeSource_hub_To_v1alpha2 (instanceVolumeClaim : vmophub.InstanceVolumeClaimVolumeSource) : vmoprv1alpha2.InstanceVolumeClaimVolumeSource :=
  {|
    vmoprv1alpha2.InstanceVolumeClaimVolumeSource_StorageClass := vmophub.InstanceVolumeClaimVolumeSource_StorageClass instanceVolumeClaim;
    vmoprv1alpha2.InstanceVolumeClaimVolumeSource_Size := vmophub.InstanceVolumeClaimVolumeSource_Size instanceVolumeClaim
  |}.

Definition PersistentVolumeClaimVolumeSource_hub_To_v1alpha2 (persistentVolumeClaim : vmophub.PersistentVolumeClaimVolumeSource) : vmoprv1alpha2.PersistentVolumeClaimVolumeSource :=
  {|
    vmoprv1alpha2.PersistentVolumeClaimVolumeSource_PersistentVolumeClaimVolumeSource := {|
        CorePersistentVolumeClaimVolumeSource_ClaimName := CorePersistentVolumeClaimVolumeSource_ClaimName (vmophub.PersistentVolumeClaimVolumeSource_PersistentVolumeClaimVolumeSource persistentVolumeClaim);
        CorePersistentVolumeClaimVolumeSource_ReadOnly := CorePersistentVolumeClaimVolumeSource_ReadOnly (vmophub.PersistentVolumeClaimVolumeSource_PersistentVolumeClaimVolumeSource persistentVolumeClaim)
      |};
    vmoprv1alpha2.PersistentVolumeClaimVolumeSource_InstanceVolumeClaim := option_map InstanceVolumeClaimVolumeSource_hub_To_v1alpha2 (vmophub.PersistentVolumeClaimVolumeSource_InstanceVolumeClaim persistentVolumeClaim)
  |}.

Definition VirtualMachineVolume_hub_To_v1alpha2 (volume : vmophub.VirtualMachineVolume) : vmoprv1alpha2.VirtualMachineVolume :=
  {|
    vmoprv1alpha2.VirtualMachineVolume_Name := vmophub.VirtualMachineVolume_Name volume;
    vmoprv1alpha2.VirtualMachineVolume_VirtualMachineVolumeSource := {|
        vmoprv1alpha2.VirtualMachineVolumeSource_PersistentVolumeClaim := option_map PersistentVolumeClaimVolumeSource_hub_To_v1alpha2 (vmophub.VirtualMachineVolumeSource_PersistentVolumeClaim (vmophub.VirtualMachineVolume_VirtualMachineVolumeSource volume))
      |}
  |}.

Definition TCPSocketAction_hub_To_v1alpha2 (tCPSocket : vmophub.TCPSocketAction) : vmoprv1alpha2.TCPSocketAction :=
  {|
    vmoprv1alpha2.TCPSocketAction_Port := vmophub.TCPSocketAction_Port tCPSocket;
    vmoprv1alpha2.TCPSocketAction_Host := vmophub.TCPSocketAction_Host tCPSocket
  |}.

Definition VirtualMachineReadinessProbeSpec_hub_To_v1alpha2 (readinessProbe : vmophub.VirtualMachineReadinessProbeSpec) : vmoprv1alpha2.VirtualMachineReadinessProbeSpec :=
  {|
    vmoprv1alpha2.VirtualMachineReadinessProbeSpec_TCPSocket := option_map TCPSocketAction_hub_To_v1alpha2 (vmophub.VirtualMachineReadinessProbeSpec_TCPSocket readinessProbe)
  |}.

Definition VirtualMachineReservedSpec_hub_To_v1alpha2 (reserved : vmophub.VirtualMachineReservedSpec) : vmoprv1alpha2.VirtualMachineReservedSpec :=
  {|
    vmoprv1alpha2.VirtualMachineReservedSpec_ResourcePolicyName := vmophub.VirtualMachineReservedSpec_ResourcePolicyName reserved
  |}.

Definition KeyValuePair_hub_To_v1alpha2 (pair : vmophub.KeyValuePair) : vmoprv1alpha2.KeyValuePair :=
  {|
    vmoprv1alpha2.KeyValuePair_Key := vmophub.KeyValuePair_Key pair;
    vmoprv1alpha2.KeyValuePair_Value := vmophub.KeyValuePair_Value pair
  |}.

Definition VirtualMachineNetworkDHCPStatus_hub_To_v1alpha2 (dhcp : vmophub.VirtualMachineNetworkDHCPStatus) : vmoprv1alpha2.VirtualMachineNetworkDHCPStatus :=
  {|
    vmoprv1alpha2.VirtualMachineNetworkDHCPStatus_IP4 := {|
        vmoprv1alpha2.VirtualMachineNetworkDHCPOptionsStatus_Config := option_map (map KeyValuePair_hub_To_v1alpha2) (vmophub.VirtualMachineNetworkDHCPOptionsStatus_Config (vmophub.VirtualMachineNetworkDHCPStatus_IP4 dhcp));
        vmoprv1alpha2.VirtualMachineNetworkDHCPOptionsStatus_Enabled := vmophub.VirtualMachineNetworkDHCPOptionsStatus_Enabled (vmophub.VirtualMachineNetworkDHCPStatus_IP4 dhcp)
      |};
    vmoprv1alpha2.VirtualMachineNetworkDHCPStatus_IP6 := {|
        vmoprv1alpha2.VirtualMachineNetworkDHCPOptionsStatus_Config := option_map (map KeyValuePair_hub_To_v1alpha2) (vmophub.VirtualMachineNetworkDHCPOptionsStatus_Config (vmophub.VirtualMachineNetworkDHCPStatus_IP6 dhcp));
        vmoprv1alpha2.VirtualMachineNetworkDHCPOptionsStatus_Enabled := vmophub.VirtualMachineNetworkDHCPOptionsStatus_Enabled (vmophub.VirtualMachineNetworkDHCPStatus_IP6 dhcp)
      |}
  |}.

Definition VirtualMachineNetworkInterfaceIPAddrStatus_hub_To_v1alpha2 (addr : vmophub.VirtualMachineNetworkInterfaceIPAddrStatus) : vmoprv1alpha2.VirtualMachineNetworkInterfaceIPAddrStatus :=
  {|
    vmoprv1alpha2.VirtualMachineNetworkInterfaceIPAddrStatus_Address := vmophub.VirtualMachineNetworkInterfaceIPAddrStatus_Address addr;
    vmoprv1alpha2.VirtualMachineNetworkInterfaceIPAddrStatus_Lifetime := vmophub.VirtualMachineNetworkInterfaceIPAddrStatus_Lifetime addr;
    vmoprv1alpha2.VirtualMachineNetworkInterfaceIPAddrStatus_Origin := vmophub.VirtualMachineNetworkInterfaceIPAddrStatus_Origin addr;
    vmoprv1alpha2.VirtualMachineNetworkInterfaceIPAddrStatus_State := vmophub.VirtualMachineNetworkInterfaceIPAddrStatus_State addr
  |}.

Definition VirtualMachineNetworkInterfaceIPStatus_hub_To_v1alpha2 (ip : vmophub.VirtualMachineNetworkInterfaceIPStatus) : vmoprv1alpha2.VirtualMachineNetworkInterfaceIPStatus :=
  {|
    vmoprv1alpha2.VirtualMachineNetworkInterfaceIPStatus_AutoConfigurationEnabled := vmophub.VirtualMachineNetworkInterfaceIPStatus_AutoConfigurationEnabled ip;
    vmoprv1alpha2.VirtualMachineNetworkInterfaceIPStatus_DHCP := option_map VirtualMachineNetworkDHCPStatus_hub_To_v1alpha2 (vmophub.VirtualMachineNetworkInterfaceIPStatus_DHCP ip);
    vmoprv1alpha2.VirtualMachineNetworkInterfaceIPStatus_Addresses := option_map (map VirtualMachineNetworkInterfaceIPAddrStatus_hub_To_v1alpha2) (vmophub.VirtualMachineNetworkInterfaceIPStatus_Addresses ip);
    vmoprv1alpha2.VirtualMachineNetworkInterfaceIPStatus_MACAddr := vmophub.VirtualMachineNetworkInterfaceIPStatus_MACAddr ip
  |}.

Definition VirtualMachineNetworkDNSStatus_hub_To_v1alpha2 (dns : vmophub.VirtualMachineNetworkDNSStatus) : vmoprv1alpha2.VirtualMachineNetworkDNSStatus :=
  {|
    vmoprv1alpha2.VirtualMachineNetworkDNSStatus_DHCP := vmophub.VirtualMachineNetworkDNSStatus_DHCP dns;
    vmoprv1alpha2.VirtualMachineNetworkDNSStatus_HostName := vmophub.VirtualMachineNetworkDNSStatus_HostName dns;
    vmoprv1alpha2.VirtualMachineNetworkDNSStatus_DomainName := vmophub.VirtualMachineNetworkDNSStatus_DomainName dns;
    vmoprv1alpha2.VirtualMachineNetworkDNSStatus_Nameservers := vmophub.VirtualMachineNetworkDNSStatus_Nameservers dns;
    vmoprv1alpha2.VirtualMachineNetworkDNSStatus_SearchDomains := vmophub.VirtualMachineNetworkDNSStatus_SearchDomains dns
  |}.

Definition VirtualMachineNetworkInterfaceStatus_hub_To_v1alpha2 (iface : vmophub.VirtualMachineNetworkInterfaceStatus) : vmoprv1alpha2.VirtualMachineNetworkInterfaceStatus :=
  {|
    vmoprv1alpha2.VirtualMachineNetworkInterfaceStatus_Name := vmophub.VirtualMachineNetworkInterfaceStatus_Name iface;
    vmoprv1alpha2.VirtualMachineNetworkInterfaceStatus_DeviceKey := vmophub.VirtualMachineNetworkInterfaceStatus_DeviceKey iface;
    vmoprv1alpha2.VirtualMachineNetworkInterfaceStatus_IP := option_map VirtualMachineNetworkInterfaceIPStatus_hub_To_v1alpha2 (vmophub.VirtualMachineNetworkInterfaceStatus_IP iface);
    vmoprv1alpha2.VirtualMachineNetworkInterfaceStatus_DNS := option_map VirtualMachineNetworkDNSStatus_hub_To_v1alpha2 (vmophub.VirtualMachineNetworkInterfaceStatus_DNS iface)
  |}.

Definition VirtualMachineNetworkStatus_hub_To_v1alpha2 (network1 : vmophub.VirtualMachineNetworkStatus) : vmoprv1alpha2.VirtualMachineNetworkStatus :=
  {|
    vmoprv1alpha2.VirtualMachineNetworkStatus_HostName := vmophub.VirtualMachineNetworkStatus_HostName network1;
    vmoprv1alpha2.VirtualMachineNetworkStatus_Interfaces := option_map (map VirtualMachineNetworkInterfaceStatus_hub_To_v1alpha2) (vmophub.VirtualMachineNetworkStatus_Interfaces network1);
    vmoprv1alpha2.VirtualMachineNetworkStatus_PrimaryIP4 := vmophub.VirtualMachineNetworkStatus_PrimaryIP4 network1;
    vmoprv1alpha2.VirtualMachineNetworkStatus_PrimaryIP6 := vmophub.VirtualMachineNetworkStatus_PrimaryIP6 network1
  |}.

Definition VirtualMachineSpec_hub_To_v1alpha2 (src : vmophub.VirtualMachineSpec) (dst : vmoprv1alpha2.VirtualMachineSpec) : vmoprv1alpha2.VirtualMachineSpec :=
  {|
    vmoprv1alpha2.VirtualMachineSpec_ImageName := vmophub.VirtualMachineSpec_ImageName src;
    vmoprv1alpha2.VirtualMachineSpec_ClassName := vmophub.VirtualMachineSpec_ClassName src;
    vmoprv1alpha2.VirtualMachineSpec_Affinity := match vmophub.VirtualMachineSpec_Affinity src with Some affinity => Some (AffinitySpec_hub_To_v1alpha2 affinity) | None => vmoprv1alpha2.VirtualMachineSpec_Affinity dst end;
    vmoprv1alpha2.VirtualMachineSpec_StorageClass := vmophub.VirtualMachineSpec_StorageClass src;
    vmoprv1alpha2.VirtualMachineSpec_Bootstrap := match vmophub.VirtualMachineSpec_Bootstrap src with Some bootstrap => Some (VirtualMachineBootstrapSpec_hub_To_v1alpha2 bootstrap) | None => vmoprv1alpha2.VirtualMachineSpec_Bootstrap dst end;
    vmoprv1alpha2.VirtualMachineSpec_Network := match vmophub.VirtualMachineSpec_Network src with Some network => Some (VirtualMachineNetworkSpec_hub_To_v1alpha2 network) | None => vmoprv1alpha2.VirtualMachineSpec_Network dst end;
    vmoprv1alpha2.VirtualMachineSpec_PowerState := vmophub.VirtualMachineSpec_PowerState src;
    vmoprv1alpha2.VirtualMachineSpec_PowerOffMode := vmophub.VirtualMachineSpec_PowerOffMode src;
    vmoprv1alpha2.VirtualMachineSpec_Volumes := match vmophub.VirtualMachineSpec_Volumes src with
      | Some volumes => Some (map VirtualMachineVolume_hub_To_v1alpha2 volumes)
      | None => vmoprv1alpha2.VirtualMachineSpec_Volumes dst
      end;
    vmoprv1alpha2.VirtualMachineSpec_ReadinessProbe := match vmophub.VirtualMachineSpec_ReadinessProbe src with Some readinessProbe => Some (VirtualMachineReadinessProbeSpec_hub_To_v1alpha2 readinessProbe) | None => vmoprv1alpha2.VirtualMachineSpec_ReadinessProbe dst end;
    vmoprv1alpha2.VirtualMachineSpec_Reserved := match vmophub.VirtualMachineSpec_Reserved src with Some reserved => Some (VirtualMachineReservedSpec_hub_To_v1alpha2 reserved) | None => vmoprv1alpha2.VirtualMachineSpec_Reserved dst end;
    vmoprv1alpha2.VirtualMachineSpec_MinHardwareVersion := vmophub.VirtualMachineSpec_MinHardwareVersion src;
    vmoprv1alpha2.VirtualMachineSpec_GroupName := vmophub.VirtualMachineSpec_GroupName src
  |}.

Definition VirtualMachineStatus_hub_To_v1alpha2 (src : vmophub.VirtualMachineStatus) (dst : vmoprv1alpha2.VirtualMachineStatus) : vmoprv1alpha2.VirtualMachineStatus :=
  {|
    vmoprv1alpha2.VirtualMachineStatus_Host := vmophub.VirtualMachineStatus_NodeName src;
    vmoprv1alpha2.VirtualMachineStatus_PowerState := vmophub.VirtualMachineStatus_PowerState src;
    vmoprv1alpha2.VirtualMachineStatus_Conditions := match vmophub.VirtualMachineStatus_Conditions src with
      | Some conditions => Some conditions
      | None => vmoprv1alpha2.VirtualMachineStatus_Conditions dst
      end;
    vmoprv1alpha2.VirtualMachineStatus_Network := match vmophub.VirtualMachineStatus_Network src with Some network1 => Some (VirtualMachineNetworkStatus_hub_To_v1alpha2 network1) | None => vmoprv1alpha2.VirtualMachineStatus_Network dst end;
    vmoprv1alpha2.VirtualMachineStatus_BiosUUID := vmophub.VirtualMachineStatus_BiosUUID src;
    vmoprv1alpha2.VirtualMachineStatus_Zone := vmophub.VirtualMachineStatus_Zone src
  |}.

Definition convert_hub_VirtualMachine_To_v1alpha2_VirtualMachine (src : vmophub.VirtualMachine) (dst : vmoprv1alpha2.VirtualMachine) : res vmoprv1alpha2.VirtualMachine :=
  Ok {|
    vmoprv1alpha2.VirtualMachine_ObjectMeta := vmophub.VirtualMachine_ObjectMeta src;
    vmoprv1alpha2.VirtualMachine_Spec := VirtualMachineSpec_hub_To_v1alpha2 (vmophub.VirtualMachine_Spec src) (vmoprv1alpha2.VirtualMachine_Spec dst);
    vmoprv1alpha2.VirtualMachine_Status := VirtualMachineStatus_hub_To_v1alpha2 (vmophub.VirtualMachine_Status src) (vmoprv1alpha2.VirtualMachine_Status dst)
  |}.

(** ** [convert_v1alpha2_VirtualMachineClass_To_hub_VirtualMachineClass] *)
Definition convert_v1alpha2_VirtualMachineClass_To_hub_VirtualMachineClass (src : vmoprv1alpha2.VirtualMachineClass) (dst : vmophub.VirtualMachineClass) : res vmophub.VirtualMachineClass :=
  Ok {|
    vmophub.VirtualMachineClass_ObjectMeta := vmoprv1alpha2.VirtualMachineClass_ObjectMeta src;
    vmophub.VirtualMachineClass_Spec := {|
        vmophub.VirtualMachineClassSpec_Hardware := {|
            vmophub.VirtualMachineClassHardware_Cpus := vmoprv1alpha2.VirtualMachineClassHardware_Cpus (vmoprv1alpha2.VirtualMachineClassSpec_Hardware (vmoprv1alpha2.VirtualMachineClass_Spec src));
            vmophub.VirtualMachineClassHardware_Memory := vmoprv1alpha2.VirtualMachineClassHardware_Memory (vmoprv1alpha2.VirtualMachineClassSpec_Hardware (vmoprv1alpha2.VirtualMachineClass_Spec src))
          |}
      |};
    vmophub.VirtualMachineClass_Status := vmophub.VirtualMachineClass_Status dst;
    vmophub.VirtualMachineClass_Source := vmophub.VirtualMachineClass_Source dst
  |}.

(** ** [convert_hub_VirtualMachineClass_To_v1alpha2_VirtualMachineClass] *)
Definition convert_hub_VirtualMachineClass_To_v1alpha2_VirtualMachineClass (src : vmophub.VirtualMachineClass) (dst : vmoprv1alpha2.VirtualMachineClass) : res vmoprv1alpha2.VirtualMachineClass :=
  Ok {|
    vmoprv1alpha2.VirtualMachineClass_ObjectMeta := vmophub.VirtualMachineClass_ObjectMeta src;
    vmoprv1alpha2.VirtualMachineClass_Spec := {|
        vmoprv1alpha2.VirtualMachineClassSpec_Hardware := {|
            vmoprv1alpha2.VirtualMachineClassHardware_Cpus := vmophub.VirtualMachineClassHardware_Cpus (vmophub.VirtualMachineClassSpec_Hardware (vmophub.VirtualMachineClass_Spec src));
            vmoprv1alpha2.VirtualMachineClassHardware_Memory := vmophub.VirtualMachineClassHardware_Memory (vmophub.VirtualMachineClassSpec_Hardware (vmophub.VirtualMachineClass_Spec src))
          |}
      |}
  |}.

(** ** [convert_v1alpha2_VirtualMachineGroup_To_hub_VirtualMachineGroup] *)
Definition GroupMember_v1alpha2_To_hub (member : vmoprv1alpha2.GroupMember) : vmophub.GroupMember :=
  {|
    vmophub.GroupMember_Name := vmoprv1alpha2.GroupMember_Name member;
    vmophub.GroupMember_Kind := vmoprv1alpha2.GroupMember_Kind member
  |}.

Definition VirtualMachineGroupBootOrderGroup_v1alpha2_To_hub (bootOrderGroup : vmoprv1alpha2.VirtualMachineGroupBootOrderGroup) : vmophub.VirtualMachineGroupBootOrderGroup :=
  {|
    vmophub.VirtualMachineGroupBootOrderGroup_Members := option_map (map GroupMember_v1alpha2_To_hub) (vmoprv1alpha2.VirtualMachineGroupBootOrderGroup_Members bootOrderGroup);
    vmophub.VirtualMachineGroupBootOrderGroup_PowerOnDelay := vmoprv1alpha2.VirtualMachineGroupBootOrderGroup_PowerOnDelay bootOrderGroup
  |}.

Definition VirtualMachineGroupPlacementDatastoreStatus_v1alpha2_To_hub (datastore : vmoprv1alpha2.VirtualMachineGroupPlacementDatastoreStatus) : vmophub.VirtualMachineGroupPlacementDatastoreStatus :=
  {|
    vmophub.VirtualMachineGroupPlacementDatastoreStatus_Name := vmoprv1alpha2.VirtualMachineGroupPlacementDatastoreStatus_Name datastore;
    vmophub.VirtualMachineGroupPlacementDatastoreStatus_ID := vmoprv1alpha2.VirtualMachineGroupPlacementDatastoreStatus_ID datastore;
    vmophub.VirtualMachineGroupPlacementDatastoreStatus_URL := vmoprv1alpha2.VirtualMachineGroupPlacementDatastoreStatus_URL datastore;
    vmophub.VirtualMachineGroupPlacementDatastoreStatus_SupportedDiskFormats := vmoprv1alpha2.VirtualMachineGroupPlacementDatastoreStatus_SupportedDiskFormats datastore;
    vmophub.VirtualMachineGroupPlacementDatastoreStatus_DiskKey := vmoprv1alpha2.VirtualMachineGroupPlacementDatastoreStatus_DiskKey datastore;
    vmophub.VirtualMachineGroupPlacementDatastoreStatus_TopLevelDirectoryCreateSupported := false
  |}.

Definition VirtualMachinePlacementStatus_v1alpha2_To_hub (placement : vmoprv1alpha2.VirtualMachinePlacementStatus) : vmophub.VirtualMachinePlacementStatus :=
  {|
    vmophub.VirtualMachinePlacementStatus_Zone := vmoprv1alpha2.VirtualMachinePlacementStatus_Zone placement;
    vmophub.VirtualMachinePlacementStatus_Node := vmoprv1alpha2.VirtualMachinePlacementStatus_Node placement;
    vmophub.VirtualMachinePlacementStatus_Pool := vmoprv1alpha2.VirtualMachinePlacementStatus_Pool placement;
    vmophub.VirtualMachinePlacementStatus_Datastores := option_map (map VirtualMachineGroupPlacementDatastoreStatus_v1alpha2_To_hub) (vmoprv1alpha2.VirtualMachinePlacementStatus_Datastores placement)
  |}.

Definition VirtualMachineGroupMemberStatus_v1alpha2_To_hub (member : vmoprv1alpha2.VirtualMachineGroupMemberStatus) : vmophub.VirtualMachineGroupMemberStatus :=
  {|
    vmophub.VirtualMachineGroupMemberStatus_Name := vmoprv1alpha2.VirtualMachineGroupMemberStatus_Name member;
    vmophub.VirtualMachineGroupMemberStatus_Kind := vmoprv1alpha2.VirtualMachineGroupMemberStatus_Kind member;
    vmophub.VirtualMachineGroupMemberStatus_UID := vmoprv1alpha2.VirtualMachineGroupMemberStatus_UID member;
    vmophub.VirtualMachineGroupMemberStatus_Placement := option_map VirtualMachinePlacementStatus_v1alpha2_To_hub (vmoprv1alpha2.VirtualMachineGroupMemberStatus_Placement member);
    vmophub.VirtualMachineGroupMemberStatus_PowerState := vmoprv1alpha2.VirtualMachineGroupMemberStatus_PowerState member;
    vmophub.VirtualMachineGroupMemberStatus_Conditions := vmoprv1alpha2.VirtualMachineGroupMemberStatus_Conditions member
  |}.

Definition convert_v1alpha2_VirtualMachineGroup_To_hub_VirtualMachineGroup (src : vmoprv1alpha2.VirtualMachineGroup) (dst : vmophub.VirtualMachineGroup) : res vmophub.VirtualMachineGroup :=
  Ok {|
    vmophub.VirtualMachineGroup_ObjectMeta := vmoprv1alpha2.VirtualMachineGroup_ObjectMeta src;
    vmophub.VirtualMachineGroup_Spec := {|
        vmophub.VirtualMachineGroupSpec_BootOrder := match vmoprv1alpha2.VirtualMachineGroupSpec_BootOrder (vmoprv1alpha2.VirtualMachineGroup_Spec src) with
          | Some bootOrder => Some (map VirtualMachineGroupBootOrderGroup_v1alpha2_To_hub bootOrder)
          | None => vmophub.VirtualMachineGroupSpec_BootOrder (vmophub.VirtualMachineGroup_Spec dst)
          end
      |};
    vmophub.VirtualMachineGroup_Status := {|
        vmophub.VirtualMachineGroupStatus_Members := match vmoprv1alpha2.VirtualMachineGroupStatus_Members (vmoprv1alpha2.VirtualMachineGroup_Status src) with
          | Some members => Some (map VirtualMachineGroupMemberStatus_v1alpha2_To_hub members)
          | None => vmophub.VirtualMachineGroupStatus_Members (vmophub.VirtualMachineGroup_Status dst)
          end
      |};
    vmophub.VirtualMachineGroup_Source := vmophub.VirtualMachineGroup_Source dst
  |}.

(** ** [convert_hub_VirtualMachineGroup_To_v1alpha2_VirtualMachineGroup] *)
Definition GroupMember_hub_To_v1alpha2 (member : vmophub.GroupMember) : vmoprv1alpha2.GroupMember :=
  {|
    vmoprv1alpha2.GroupMember_Name := vmophub.GroupMember_Name member;
    vmoprv1alpha2.GroupMember_Kind := vmophub.GroupMember_Kind member
  |}.

Definition VirtualMachineGroupBootOrderGroup_hub_To_v1alpha2 (bootOrderGroup : vmophub.VirtualMachineGroupBootOrderGroup) : vmoprv1alpha2.VirtualMachineGroupBootOrderGroup :=
  {|
    vmoprv1alpha2.VirtualMachineGroupBootOrderGroup_Members := option_map (map GroupMember_hub_To_v1alpha2) (vmophub.VirtualMachineGroupBootOrderGroup_Members bootOrderGroup);
    vmoprv1alpha2.VirtualMachineGroupBootOrderGroup_PowerOnDelay := vmophub.VirtualMachineGroupBootOrderGroup_PowerOnDelay bootOrderGroup
  |}.

Definition VirtualMachineGroupPlacementDatastoreStatus_hub_To_v1alpha2 (datastore : vmophub.VirtualMachineGroupPlacementDatastoreStatus) : vmoprv1alpha2.VirtualMachineGroupPlacementDatastoreStatus :=
  {|
    vmoprv1alpha2.VirtualMachineGroupPlacementDatastoreStatus_Name := vmophub.VirtualMachineGroupPlacementDatastoreStatus_Name datastore;
    vmoprv1alpha2.VirtualMachineGroupPlacementDatastoreStatus_ID := vmophub.VirtualMachineGroupPlacementDatastoreStatus_ID datastore;
    vmoprv1alpha2.VirtualMachineGroupPlacementDatastoreStatus_URL := vmophub.VirtualMachineGroupPlacementDatastoreStatus_URL datastore;
    vmoprv1alpha2.VirtualMachineGroupPlacementDatastoreStatus_SupportedDiskFormats := vmophub.VirtualMachineGroupPlacementDatastoreStatus_SupportedDiskFormats datastore;
    vmoprv1alpha2.VirtualMachineGroupPlacementDatastoreStatus_DiskKey := vmophub.VirtualMachineGroupPlacementDatastoreStatus_DiskKey datastore
  |}.

Definition VirtualMachinePlacementStatus_hub_To_v1alpha2 (placement : vmophub.VirtualMachinePlacementStatus) : vmoprv1alpha2.VirtualMachinePlacementStatus :=
  {|
    vmoprv1alpha2.VirtualMachinePlacementStatus_Zone := vmophub.VirtualMachinePlacementStatus_Zone placement;
    vmoprv1alpha2.VirtualMachinePlacementStatus_Node := vmophub.VirtualMachinePlacementStatus_Node placement;
    vmoprv1alpha2.VirtualMachinePlacementStatus_Pool := vmophub.VirtualMachinePlacementStatus_Pool placement;
    vmoprv1alpha2.VirtualMachinePlacementStatus_Datastores := option_map (map VirtualMachineGroupPlacementDatastoreStatus_hub_To_v1alpha2) (vmophub.VirtualMachinePlacementStatus_Datastores placement)
  |}.

Definition VirtualMachineGroupMemberStatus_hub_To_v1alpha2 (member : vmophub.VirtualMachineGroupMemberStatus) : vmoprv1alpha2.VirtualMachineGroupMemberStatus :=
  {|
    vmoprv1alpha2.VirtualMachineGroupMemberStatus_Name := vmophub.VirtualMachineGroupMemberStatus_Name member;
    vmoprv1alpha2.VirtualMachineGroupMemberStatus_Kind := vmophub.VirtualMachineGroupMemberStatus_Kind member;
    vmoprv1alpha2.VirtualMachineGroupMemberStatus_UID := vmophub.VirtualMachineGroupMemberStatus_UID member;
    vmoprv1alpha2.VirtualMachineGroupMemberStatus_Placement := option_map VirtualMachinePlacementStatus_hub_To_v1alpha2 (vmophub.VirtualMachineGroupMemberStatus_Placement member);
    vmoprv1alpha2.VirtualMachineGroupMemberStatus_PowerState := vmophub.VirtualMachineGroupMemberStatus_PowerState member;
    vmoprv1alpha2.VirtualMachineGroupMemberStatus_Conditions := vmophub.VirtualMachineGroupMemberStatus_Conditions member
  |}.

Definition convert_hub_VirtualMachineGroup_To_v1alpha2_VirtualMachineGroup (src : vmophub.VirtualMachineGroup) (dst : vmoprv1alpha2.VirtualMachineGroup) : res vmoprv1alpha2.VirtualMachineGroup :=
  Ok {|
    vmoprv1alpha2.VirtualMachineGroup_ObjectMeta := vmophub.VirtualMachineGroup_ObjectMeta src;
    vmoprv1alpha2.VirtualMachineGroup_Spec := {|
        vmoprv1alpha2.VirtualMachineGroupSpec_BootOrder := match vmophub.VirtualMachineGroupSpec_BootOrder (vmophub.VirtualMachineGroup_Spec src) with
          | Some bootOrder => Some (map VirtualMachineGroupBootOrderGroup_hub_To_v1alpha2 bootOrder)
          | None => vmoprv1alpha2.VirtualMachineGroupSpec_BootOrder (vmoprv1alpha2.VirtualMachineGroup_Spec dst)
          end
      |};
    vmoprv1alpha2.VirtualMachineGroup_Status := {|
        vmoprv1alpha2.VirtualMachineGroupStatus_Members := match vmophub.VirtualMachineGroupStatus_Members (vmophub.VirtualMachineGroup_Status src) with
          | Some members => Some (map VirtualMachineGroupMemberStatus_hub_To_v1alpha2 members)
          | None => vmoprv1alpha2.VirtualMachineGroupStatus_Members (vmoprv1alpha2.VirtualMachineGroup_Status dst)
          end
      |}
  |}.

(** ** [convert_v1alpha2_VirtualMachineImage_To_hub_VirtualMachineImage] *)
Definition LocalObjectRef_v1alpha2_To_hub (providerRef : vmoprv1alpha2.LocalObjectRef) : vmophub.LocalObjectRef :=
  {|
    vmophub.LocalObjectRef_APIVersion := vmoprv1alpha2.LocalObjectRef_APIVersion providerRef;
    vmophub.LocalObjectRef_Kind := vmoprv1alpha2.LocalObjectRef_Kind providerRef;
    vmophub.LocalObjectRef_Name := vmoprv1alpha2.LocalObjectRef_Name providerRef
  |}.

Definition VirtualMachineImageStatus_v1alpha2_To_hub (src : vmoprv1alpha2.VirtualMachineImageStatus) (dst : vmophub.VirtualMachineImageStatus) : vmophub.VirtualMachineImageStatus :=
  {|
    vmophub.VirtualMachineImageStatus_Name := vmoprv1alpha2.VirtualMachineImageStatus_Name src;
    vmophub.VirtualMachineImageStatus_OSInfo := {|
        vmophub.VirtualMachineImageOSInfo_Type := vmoprv1alpha2.VirtualMachineImageOSInfo_Type (vmoprv1alpha2.VirtualMachineImageStatus_OSInfo src)
      |};
    vmophub.VirtualMachineImageStatus_VMwareSystemProperties := match vmoprv1alpha2.VirtualMachineImageStatus_VMwareSystemProperties src with
      | Some vMwareSystemProperties => Some (map KeyValuePair_v1alpha2_To_hub vMwareSystemProperties)
      | None => vmophub.VirtualMachineImageStatus_VMwareSystemProperties dst
      end;
    vmophub.VirtualMachineImageStatus_ProductInfo := {|
        vmophub.VirtualMachineImageProductInfo_FullVersion := vmoprv1alpha2.VirtualMachineImageProductInfo_FullVersion (vmoprv1alpha2.VirtualMachineImageStatus_ProductInfo src)
      |};
    vmophub.VirtualMachineImageStatus_ProviderItemID := vmoprv1alpha2.VirtualMachineImageStatus_ProviderItemID src;
    vmophub.VirtualMachineImageStatus_Conditions := match vmoprv1alpha2.VirtualMachineImageStatus_Conditions src with
      | Some conditions => Some conditions
      | None => vmophub.VirtualMachineImageStatus_Conditions dst
      end
  |}.

Definition convert_v1alpha2_VirtualMachineImage_To_hub_VirtualMachineImage (src : vmoprv1alpha2.VirtualMachineImage) (dst : vmophub.VirtualMachineImage) : res vmophub.VirtualMachineImage :=
  Ok {|
    vmophub.VirtualMachineImage_ObjectMeta := vmoprv1alpha2.VirtualMachineImage_ObjectMeta src;
    vmophub.VirtualMachineImage_Spec := {|
        vmophub.VirtualMachineImageSpec_ProviderRef := match vmoprv1alpha2.VirtualMachineImageSpec_ProviderRef (vmoprv1alpha2.VirtualMachineImage_Spec src) with Some providerRef => Some (LocalObjectRef_v1alpha2_To_hub providerRef) | None => vmophub.VirtualMachineImageSpec_ProviderRef (vmophub.VirtualMachineImage_Spec dst) end
      |};
    vmophub.VirtualMachineImage_Status := VirtualMachineImageStatus_v1alpha2_To_hub (vmoprv1alpha2.VirtualMachineImage_Status src) (vmophub.VirtualMachineImage_Status dst);
    vmophub.VirtualMachineImage_Source := vmophub.VirtualMachineImage_Source dst
  |}.

(** ** [convert_hub_VirtualMachineImage_To_v1alpha2_VirtualMachineImage] *)
Definition LocalObjectRef_hub_To_v1alpha2 (providerRef : vmophub.LocalObjectRef) : vmoprv1alpha2.LocalObjectRef :=
  {|
    vmoprv1alpha2.LocalObjectRef_APIVersion := vmophub.LocalObjectRef_APIVersion providerRef;
    vmoprv1alpha2.LocalObjectRef_Kind := vmophub.LocalObjectRef_Kind providerRef;
    vmoprv1alpha2.LocalObjectRef_Name := vmophub.LocalObjectRef_Name providerRef
  |}.

Definition VirtualMachineImageStatus_hub_To_v1alpha2 (src : vmophub.VirtualMachineImageStatus) (dst : vmoprv1alpha2.VirtualMachineImageStatus) : vmoprv1alpha2.VirtualMachineImageStatus :=
  {|
    vmoprv1alpha2.VirtualMachineImageStatus_Name := vmophub.VirtualMachineImageStatus_Name src;
    vmoprv1alpha2.VirtualMachineImageStatus_OSInfo := {|
        vmoprv1alpha2.VirtualMachineImageOSInfo_Type := vmophub.VirtualMachineImageOSInfo_Type (vmophub.VirtualMachineImageStatus_OSInfo src)
      |};
    vmoprv1alpha2.VirtualMachineImageStatus_VMwareSystemProperties := match vmophub.VirtualMachineImageStatus_VMwareSystemProperties src with
      | Some vMwareSystemProperties => Some (map KeyValuePair_hub_To_v1alpha2 vMwareSystemProperties)
      | None => vmoprv1alpha2.VirtualMachineImageStatus_VMwareSystemProperties dst
      end;
    vmoprv1alpha2.VirtualMachineImageStatus_ProductInfo := {|
        vmoprv1alpha2.VirtualMachineImageProductInfo_FullVersion := vmophub.VirtualMachineImageProductInfo_FullVersion (vmophub.VirtualMachineImageStatus_ProductInfo src)
      |};
    vmoprv1alpha2.VirtualMachineImageStatus_ProviderItemID := vmophub.VirtualMachineImageStatus_ProviderItemID src;
    vmoprv1alpha2.VirtualMachineImageStatus_Conditions := match vmophub.VirtualMachineImageStatus_Conditions src with
      | Some conditions => Some conditions
      | None => vmoprv1alpha2.VirtualMachineImageStatus_Conditions dst
      end
  |}.

Definition convert_hub_VirtualMachineImage_To_v1alpha2_VirtualMachineImage (src : vmophub.VirtualMachineImage) (dst : vmoprv1alpha2.VirtualMachineImage) : res vmoprv1alpha2.VirtualMachineImage :=
  Ok {|
    vmoprv1alpha2.VirtualMachineImage_ObjectMeta := vmophub.VirtualMachineImage_ObjectMeta src;
    vmoprv1alpha2.VirtualMachineImage_Spec := {|
        vmoprv1alpha2.VirtualMachineImageSpec_ProviderRef := match vmophub.VirtualMachineImageSpec_ProviderRef (vmophub.VirtualMachineImage_Spec src) with Some providerRef => Some (LocalObjectRef_hub_To_v1alpha2 providerRef) | None => vmoprv1alpha2.VirtualMachineImageSpec_ProviderRef (vmoprv1alpha2.VirtualMachineImage_Spec dst) end
      |};
    vmoprv1alpha2.VirtualMachineImage_Status := VirtualMachineImageStatus_hub_To_v1alpha2 (vmophub.VirtualMachineImage_Status src) (vmoprv1alpha2.VirtualMachineImage_Status dst)
  |}.

(** ** [convert_v1alpha2_ClusterVirtualMachineImage_To_hub_ClusterVirtualMachineImage] *)
Definition ClusterVirtualMachineImage_Status_v1alpha2_To_hub (src : vmoprv1alpha2.VirtualMachineImageStatus) (dst : vmophub.VirtualMachineImageStatus) : vmophub.VirtualMachineImageStatus :=
  {|
    vmophub.VirtualMachineImageStatus_Name := vmoprv1alpha2.VirtualMachineImageStatus_Name src;
    vmophub.VirtualMachineImageStatus_OSInfo := {|
        vmophub.VirtualMachineImageOSInfo_Type := vmoprv1alpha2.VirtualMachineImageOSInfo_Type (vmoprv1alpha2.VirtualMachineImageStatus_OSInfo src)
      |};
    vmophub.VirtualMachineImageStatus_VMwareSystemProperties := match vmoprv1alpha2.VirtualMachineImageStatus_VMwareSystemProperties src with
      | Some vMwareSystemProperties => Some (map KeyValuePair_v1alpha2_To_hub vMwareSystemProperties)
      | None => vmophub.VirtualMachineImageStatus_VMwareSystemProperties dst
      end;
    vmophub.VirtualMachineImageStatus_ProductInfo := {|
        vmophub.VirtualMachineImageProductInfo_FullVersion := vmoprv1alpha2.VirtualMachineImageProductInfo_FullVersion (vmoprv1alpha2.VirtualMachineImageStatus_ProductInfo src)
      |};
    vmophub.VirtualMachineImageStatus_ProviderItemID := vmoprv1alpha2.VirtualMachineImageStatus_ProviderItemID src;
    vmophub.VirtualMachineImageStatus_Conditions := match vmoprv1alpha2.VirtualMachineImageStatus_Conditions src with
      | Some conditions => Some conditions
      | None => vmophub.VirtualMachineImageStatus_Conditions dst
      end
  |}.

Definition convert_v1alpha2_ClusterVirtualMachineImage_To_hub_ClusterVirtualMachineImage (src : vmoprv1alpha2.ClusterVirtualMachineImage) (dst : vmophub.ClusterVirtualMachineImage) : res vmophub.ClusterVirtualMachineImage :=
  Ok {|
    vmophub.ClusterVirtualMachineImage_ObjectMeta := vmoprv1alpha2.ClusterVirtualMachineImage_ObjectMeta src;
    vmophub.ClusterVirtualMachineImage_Spec := {|
        vmophub.VirtualMachineImageSpec_ProviderRef := match vmoprv1alpha2.VirtualMachineImageSpec_ProviderRef (vmoprv1alpha2.ClusterVirtualMachineImage_Spec src) with Some providerRef => Some (LocalObjectRef_v1alpha2_To_hub providerRef) | None => vmophub.VirtualMachineImageSpec_ProviderRef (vmophub.ClusterVirtualMachineImage_Spec dst) end
      |};
    vmophub.ClusterVirtualMachineImage_Status := ClusterVirtualMachineImage_Status_v1alpha2_To_hub (vmoprv1alpha2.ClusterVirtualMachineImage_Status src) (vmophub.ClusterVirtualMachineImage_Status dst);
    vmophub.ClusterVirtualMachineImage_Source := vmophub.ClusterVirtualMachineImage_Source dst
  |}.

(** ** [convert_hub_ClusterVirtualMachineImage_To_v1alpha2_ClusterVirtualMachineImage] *)
Definition ClusterVirtualMachineImage_Status_hub_To_v1alpha2 (src : vmophub.VirtualMachineImageStatus) (dst : vmoprv1alpha2.VirtualMachineImageStatus) : vmoprv1alpha2.VirtualMachineImageStatus :=
  {|
    vmoprv1alpha2.VirtualMachineImageStatus_Name := vmophub.VirtualMachineImageStatus_Name src;
    vmoprv1alpha2.VirtualMachineImageStatus_OSInfo := {|
        vmoprv1alpha2.VirtualMachineImageOSInfo_Type := vmophub.VirtualMachineImageOSInfo_Type (vmophub.VirtualMachineImageStatus_OSInfo src)
      |};
    vmoprv1alpha2.VirtualMachineImageStatus_VMwareSystemProperties := match vmophub.VirtualMachineImageStatus_VMwareSystemProperties src with
      | Some vMwareSystemProperties => Some (map KeyValuePair_hub_To_v1alpha2 vMwareSystemProperties)
      | None => vmoprv1alpha2.VirtualMachineImageStatus_VMwareSystemProperties dst
      end;
    vmoprv1alpha2.VirtualMachineImageStatus_ProductInfo := {|
        vmoprv1alpha2.VirtualMachineImageProductInfo_FullVersion := vmophub.VirtualMachineImageProductInfo_FullVersion (vmophub.VirtualMachineImageStatus_ProductInfo src)
      |};
    vmoprv1alpha2.VirtualMachineImageStatus_ProviderItemID := vmophub.VirtualMachineImageStatus_ProviderItemID src;
    vmoprv1alpha2.VirtualMachineImageStatus_Conditions := match vmophub.VirtualMachineImageStatus_Conditions src with
      | Some conditions => Some conditions
      | None => vmoprv1alpha2.VirtualMachineImageStatus_Conditions dst
      end
  |}.

Definition convert_hub_ClusterVirtualMachineImage_To_v1alpha2_ClusterVirtualMachineImage (src : vmophub.ClusterVirtualMachineImage) (dst : vmoprv1alpha2.ClusterVirtualMachineImage) : res vmoprv1alpha2.ClusterVirtualMachineImage :=
  Ok {|
    vmoprv1alpha2.ClusterVirtualMachineImage_ObjectMeta := vmophub.ClusterVirtualMachineImage_ObjectMeta src;
    vmoprv1alpha2.ClusterVirtualMachineImage_Spec := {|
        vmoprv1alpha2.VirtualMachineImageSpec_ProviderRef := match vmophub.VirtualMachineImageSpec_ProviderRef (vmophub.ClusterVirtualMachineImage_Spec src) with Some providerRef => Some (LocalObjectRef_hub_To_v1alpha2 providerRef) | None => vmoprv1alpha2.VirtualMachineImageSpec_ProviderRef (vmoprv1alpha2.ClusterVirtualMachineImage_Spec dst) end
      |};
    vmoprv1alpha2.ClusterVirtualMachineImage_Status := ClusterVirtualMachineImage_Status_hub_To_v1alpha2 (vmophub.ClusterVirtualMachineImage_Status src) (vmoprv1alpha2.ClusterVirtualMachineImage_Status dst)
  |}.

(** ** [convert_v1alpha2_VirtualMachineService_To_hub_VirtualMachineService] *)
Definition VirtualMachineServicePort_v1alpha2_To_hub (port : vmoprv1alpha2.VirtualMachineServicePort) : vmophub.VirtualMachineServicePort :=
  {|
    vmophub.VirtualMachineServicePort_Name := vmoprv1alpha2.VirtualMachineServicePort_Name port;
    vmophub.VirtualMachineServicePort_Protocol := vmoprv1alpha2.VirtualMachineServicePort_Protocol port;
    vmophub.VirtualMachineServicePort_Port := vmoprv1alpha2.VirtualMachineServicePort_Port port;
    vmophub.VirtualMachineServicePort_TargetPort := vmoprv1alpha2.VirtualMachineServicePort_TargetPort port
  |}.

Definition LoadBalancerIngress_v1alpha2_To_hub (ingress1 : vmoprv1alpha2.LoadBalancerIngress) : vmophub.LoadBalancerIngress :=
  {|
    vmophub.LoadBalancerIngress_IP := vmoprv1alpha2.LoadBalancerIngress_IP ingress1;
    vmophub.LoadBalancerIngress_Hostname := vmoprv1alpha2.LoadBalancerIngress_Hostname ingress1
  |}.

Definition convert_v1alpha2_VirtualMachineService_To_hub_VirtualMachineService (src : vmoprv1alpha2.VirtualMachineService) (dst : vmophub.VirtualMachineService) : res vmophub.VirtualMachineService :=
  Ok {|
    vmophub.VirtualMachineService_ObjectMeta := vmoprv1alpha2.VirtualMachineService_ObjectMeta src;
    vmophub.VirtualMachineService_Spec := {|
        vmophub.VirtualMachineServiceSpec_Type := vmoprv1alpha2.VirtualMachineServiceSpec_Type (vmoprv1alpha2.VirtualMachineService_Spec src);
        vmophub.VirtualMachineServiceSpec_Ports := match vmoprv1alpha2.VirtualMachineServiceSpec_Ports (vmoprv1alpha2.VirtualMachineService_Spec src) with
          | Some ports => Some (map VirtualMachineServicePort_v1alpha2_To_hub ports)
          | None => vmophub.VirtualMachineServiceSpec_Ports (vmophub.VirtualMachineService_Spec dst)
          end;
        vmophub.VirtualMachineServiceSpec_Selector := vmoprv1alpha2.VirtualMachineServiceSpec_Selector (vmoprv1alpha2.VirtualMachineService_Spec src);
        vmophub.VirtualMachineServiceSpec_IPFamilies := vmophub.VirtualMachineServiceSpec_IPFamilies (vmophub.VirtualMachineService_Spec dst);
        vmophub.VirtualMachineServiceSpec_IPFamilyPolicy := vmophub.VirtualMachineServiceSpec_IPFamilyPolicy (vmophub.VirtualMachineService_Spec dst)
      |};
    vmophub.VirtualMachineService_Status := {|
        vmophub.VirtualMachineServiceStatus_LoadBalancer := {|
            vmophub.LoadBalancerStatus_Ingress := match vmoprv1alpha2.LoadBalancerStatus_Ingress (vmoprv1alpha2.VirtualMachineServiceStatus_LoadBalancer (vmoprv1alpha2.VirtualMachineService_Status src)) with
              | Some ingress => Some (map LoadBalancerIngress_v1alpha2_To_hub ingress)
              | None => vmophub.LoadBalancerStatus_Ingress (vmophub.VirtualMachineServiceStatus_LoadBalancer (vmophub.VirtualMachineService_Status dst))
              end
          |}
      |};
    vmophub.VirtualMachineService_Source := vmophub.VirtualMachineService_Source dst
  |}.

(** ** [convert_hub_VirtualMachineService_To_v1alpha2_VirtualMachineService] *)
Definition VirtualMachineServicePort_hub_To_v1alpha2 (port : vmophub.VirtualMachineServicePort) : vmoprv1alpha2.VirtualMachineServicePort :=
  {|
    vmoprv1alpha2.VirtualMachineServicePort_Name := vmophub.VirtualMachineServicePort_Name port;
    vmoprv1alpha2.VirtualMachineServicePort_Protocol := vmophub.VirtualMachineServicePort_Protocol port;
    vmoprv1alpha2.VirtualMachineServicePort_Port := vmophub.VirtualMachineServicePort_Port port;
    vmoprv1alpha2.VirtualMachineServicePort_TargetPort := vmophub.VirtualMachineServicePort_TargetPort port
  |}.

Definition LoadBalancerIngress_hub_To_v1alpha2 (ingress1 : vmophub.LoadBalancerIngress) : vmoprv1alpha2.LoadBalancerIngress :=
  {|
    vmoprv1alpha2.LoadBalancerIngress_IP := vmophub.LoadBalancerIngress_IP ingress1;
    vmoprv1alpha2.LoadBalancerIngress_Hostname := vmophub.LoadBalancerIngress_Hostname ingress1
  |}.

Definition convert_hub_VirtualMachineService_To_v1alpha2_VirtualMachineService (src : vmophub.VirtualMachineService) (dst : vmoprv1alpha2.VirtualMachineService) : res vmoprv1alpha2.VirtualMachineService :=
  Ok {|
    vmoprv1alpha2.VirtualMachineService_ObjectMeta := vmophub.VirtualMachineService_ObjectMeta src;
    vmoprv1alpha2.VirtualMachineService_Spec := {|
        vmoprv1alpha2.VirtualMachineServiceSpec_Type := vmophub.VirtualMachineServiceSpec_Type (vmophub.VirtualMachineService_Spec src);
        vmoprv1alpha2.VirtualMachineServiceSpec_Ports := match vmophub.VirtualMachineServiceSpec_Ports (vmophub.VirtualMachineService_Spec src) with
          | Some ports => Some (map VirtualMachineServicePort_hub_To_v1alpha2 ports)
          | None => vmoprv1alpha2.VirtualMachineServiceSpec_Ports (vmoprv1alpha2.VirtualMachineService_Spec dst)
          end;
        vmoprv1alpha2.VirtualMachineServiceSpec_Selector := vmophub.VirtualMachineServiceSpec_Selector (vmophub.VirtualMachineService_Spec src)
      |};
    vmoprv1alpha2.VirtualMachineService_Status := {|
        vmoprv1alpha2.VirtualMachineServiceStatus_LoadBalancer := {|
            vmoprv1alpha2.LoadBalancerStatus_Ingress := match vmophub.LoadBalancerStatus_Ingress (vmophub.VirtualMachineServiceStatus_LoadBalancer (vmophub.VirtualMachineService_Status src)) with
              | Some ingress => Some (map LoadBalancerIngress_hub_To_v1alpha2 ingress)
              | None => vmoprv1alpha2.LoadBalancerStatus_Ingress (vmoprv1alpha2.VirtualMachineServiceStatus_LoadBalancer (vmoprv1alpha2.VirtualMachineService_Status dst))
              end
          |}
      |}
  |}.

(** ** [convert_v1alpha2_VirtualMachineSetResourcePolicy_To_hub_VirtualMachineSetResourcePolicy] *)
Definition convert_v1alpha2_VirtualMachineSetResourcePolicy_To_hub_VirtualMachineSetResourcePolicy (src : vmoprv1alpha2.VirtualMachineSetResourcePolicy) (dst : vmophub.VirtualMachineSetResourcePolicy) : res vmophub.VirtualMachineSetResourcePolicy :=
  Ok {|
    vmophub.VirtualMachineSetResourcePolicy_ObjectMeta := vmoprv1alpha2.VirtualMachineSetResourcePolicy_ObjectMeta src;
    vmophub.VirtualMachineSetResourcePolicy_Spec := {|
        vmophub.VirtualMachineSetResourcePolicySpec_ResourcePool := {|
            vmophub.ResourcePoolSpec_Name := vmoprv1alpha2.ResourcePoolSpec_Name (vmoprv1alpha2.VirtualMachineSetResourcePolicySpec_ResourcePool (vmoprv1alpha2.VirtualMachineSetResourcePolicy_Spec src))
          |};
        vmophub.VirtualMachineSetResourcePolicySpec_Folder := vmoprv1alpha2.VirtualMachineSetResourcePolicySpec_Folder (vmoprv1alpha2.VirtualMachineSetResourcePolicy_Spec src);
        vmophub.VirtualMachineSetResourcePolicySpec_ClusterModuleGroups := vmoprv1alpha2.VirtualMachineSetResourcePolicySpec_ClusterModuleGroups (vmoprv1alpha2.VirtualMachineSetResourcePolicy_Spec src)
      |};
    vmophub.VirtualMachineSetResourcePolicy_Status := vmophub.VirtualMachineSetResourcePolicy_Status dst;
    vmophub.VirtualMachineSetResourcePolicy_Source := vmophub.VirtualMachineSetResourcePolicy_Source dst
  |}.

(** ** [convert_hub_VirtualMachineSetResourcePolicy_To_v1alpha2_VirtualMachineSetResourcePolicy] *)
Definition convert_hub_VirtualMachineSetResourcePolicy_To_v1alpha2_VirtualMachineSetResourcePolicy (src : vmophub.VirtualMachineSetResourcePolicy) (dst : vmoprv1alpha2.VirtualMachineSetResourcePolicy) : res vmoprv1alpha2.VirtualMachineSetResourcePolicy :=
  Ok {|
    vmoprv1alpha2.VirtualMachineSetResourcePolicy_ObjectMeta := vmophub.VirtualMachineSetResourcePolicy_ObjectMeta src;
    vmoprv1alpha2.VirtualMachineSetResourcePolicy_Spec := {|
        vmoprv1alpha2.VirtualMachineSetResourcePolicySpec_ResourcePool := {|
            vmoprv1alpha2.ResourcePoolSpec_Name := vmophub.ResourcePoolSpec_Name (vmophub.VirtualMachineSetResourcePolicySpec_ResourcePool (vmophub.VirtualMachineSetResourcePolicy_Spec src))
          |};
        vmoprv1alpha2.VirtualMachineSetResourcePolicySpec_Folder := vmophub.VirtualMachineSetResourcePolicySpec_Folder (vmophub.VirtualMachineSetResourcePolicy_Spec src);
        vmoprv1alpha2.VirtualMachineSetResourcePolicySpec_ClusterModuleGroups := vmophub.VirtualMachineSetResourcePolicySpec_ClusterModuleGroups (vmophub.VirtualMachineSetResourcePolicy_Spec src)
      |}
  |}.

(** * v1alpha5 *)

(** ** [convert_v1alpha5_VirtualMachine_To_hub_VirtualMachine] *)
Definition VMAffinityTerm_v1alpha5_To_hub (term : vmoprv1alpha5.VMAffinityTerm) : vmophub.VMAffinityTerm :=
  {|
    vmophub.VMAffinityTerm_LabelSelector := vmoprv1alpha5.VMAffinityTerm_LabelSelector term;
    vmophub.VMAffinityTerm_TopologyKey := vmoprv1alpha5.VMAffinityTerm_TopologyKey term
  |}.

Definition VMAffinitySpec_v1alpha5_To_hub (vMAffinity : vmoprv1alpha5.VMAffinitySpec) : vmophub.VMAffinitySpec :=
  {|
    vmophub.VMAffinitySpec_RequiredDuringSchedulingPreferredDuringExecution := option_map (map VMAffinityTerm_v1alpha5_To_hub) (vmoprv1alpha5.VMAffinitySpec_RequiredDuringSchedulingPreferredDuringExecution vMAffinity)
  |}.

Definition VMAntiAffinitySpec_v1alpha5_To_hub (vMAntiAffinity : vmoprv1alpha5.VMAntiAffinitySpec) : vmophub.VMAntiAffinitySpec :=
  {|
    vmophub.VMAntiAffinitySpec_PreferredDuringSchedulingPreferredDuringExecution := option_map (map VMAffinityTerm_v1alpha5_To_hub) (vmoprv1alpha5.VMAntiAffinitySpec_PreferredDuringSchedulingPreferredDuringExecution vMAntiAffinity)
  |}.

Definition AffinitySpec_v1alpha5_To_hub (affinity : vmoprv1alpha5.AffinitySpec) : vmophub.AffinitySpec :=
  {|
    vmophub.AffinitySpec_VMAffinity := option_map VMAffinitySpec_v1alpha5_To_hub (vmoprv1alpha5.AffinitySpec_VMAffinity affinity);
    vmophub.AffinitySpec_VMAntiAffinity := option_map VMAntiAffinitySpec_v1alpha5_To_hub (vmoprv1alpha5.AffinitySpec_VMAntiAffinity affinity)
  |}.

Definition SecretKeySelector_v1alpha5_To_hub (rawCloudConfig : vmoprv1alpha5.SecretKeySelector) : vmophub.SecretKeySelector :=
  {|
    vmophub.SecretKeySelector_Name := vmoprv1alpha5.SecretKeySelector_Name rawCloudConfig;
    vmophub.SecretKeySelector_Key := vmoprv1alpha5.SecretKeySelector_Key rawCloudConfig
  |}.

Definition VirtualMachineBootstrapCloudInitSpec_v1alpha5_To_hub (cloudInit : vmoprv1alpha5.VirtualMachineBootstrapCloudInitSpec) : vmophub.VirtualMachineBootstrapCloudInitSpec :=
  {|
    vmophub.VirtualMachineBootstrapCloudInitSpec_RawCloudConfig := option_map SecretKeySelector_v1alpha5_To_hub (vmoprv1alpha5.VirtualMachineBootstrapCloudInitSpec_RawCloudConfig cloudInit)
  |}.

Definition VirtualMachineBootstrapSpec_v1alpha5_To_hub (bootstrap : vmoprv1alpha5.VirtualMachineBootstrapSpec) : vmophub.VirtualMachineBootstrapSpec :=
  {|
    vmophub.VirtualMachineBootstrapSpec_CloudInit := option_map VirtualMachineBootstrapCloudInitSpec_v1alpha5_To_hub (vmoprv1alpha5.VirtualMachineBootstrapSpec_CloudInit bootstrap)
  |}.

Definition PartialObjectRef_v1alpha5_To_hub (network1 : vmoprv1alpha5.PartialObjectRef) : vmophub.PartialObjectRef :=
  {|
    vmophub.PartialObjectRef_TypeMeta := {|
        TypeMeta_Kind := TypeMeta_Kind (vmoprv1alpha5.PartialObjectRef_TypeMeta network1);
        TypeMeta_APIVersion := TypeMeta_APIVersion (vmoprv1alpha5.PartialObjectRef_TypeMeta network1)
      |};
    vmophub.PartialObjectRef_Name := vmoprv1alpha5.PartialObjectRef_Name network1
  |}.

Definition VirtualMachineNetworkRouteSpec_v1alpha5_To_hub (route : vmoprv1alpha5.VirtualMachineNetworkRouteSpec) : vmophub.VirtualMachineNetworkRouteSpec :=
  {|
    vmophub.VirtualMachineNetworkRouteSpec_To := vmoprv1alpha5.VirtualMachineNetworkRouteSpec_To route;
    vmophub.VirtualMachineNetworkRouteSpec_Via := vmoprv1alpha5.VirtualMachineNetworkRouteSpec_Via route;
    vmophub.VirtualMachineNetworkRouteSpec_Metric := vmoprv1alpha5.VirtualMachineNetworkRouteSpec_Metric route
  |}.

Definition VirtualMachineNetworkInterfaceSpec_v1alpha5_To_hub (iface : vmoprv1alpha5.VirtualMachineNetworkInterfaceSpec) : vmophub.VirtualMachineNetworkInterfaceSpec :=
  {|
    vmophub.VirtualMachineNetworkInterfaceSpec_Name := vmoprv1alpha5.VirtualMachineNetworkInterfaceSpec_Name iface;
    vmophub.VirtualMachineNetworkInterfaceSpec_Network := option_map PartialObjectRef_v1alpha5_To_hub (vmoprv1alpha5.VirtualMachineNetworkInterfaceSpec_Network iface);
    vmophub.VirtualMachineNetworkInterfaceSpec_GuestDeviceName := vmoprv1alpha5.VirtualMachineNetworkInterfaceSpec_GuestDeviceName iface;
    vmophub.VirtualMachineNetworkInterfaceSpec_MACAddr := vmoprv1alpha5.VirtualMachineNetworkInterfaceSpec_MACAddr iface;
    vmophub.VirtualMachineNetworkInterfaceSpec_Addresses := vmoprv1alpha5.VirtualMachineNetworkInterfaceSpec_Addresses iface;
    vmophub.VirtualMachineNetworkInterfaceSpec_DHCP4 := vmoprv1alpha5.VirtualMachineNetworkInterfaceSpec_DHCP4 iface;
    vmophub.VirtualMachineNetworkInterfaceSpec_DHCP6 := vmoprv1alpha5.VirtualMachineNetworkInterfaceSpec_DHCP6 iface;
    vmophub.VirtualMachineNetworkInterfaceSpec_Gateway4 := vmoprv1alpha5.VirtualMachineNetworkInterfaceSpec_Gateway4 iface;
    vmophub.VirtualMachineNetworkInterfaceSpec_Gateway6 := vmoprv1alpha5.VirtualMachineNetworkInterfaceSpec_Gateway6 iface;
    vmophub.VirtualMachineNetworkInterfaceSpec_MTU := vmoprv1alpha5.VirtualMachineNetworkInterfaceSpec_MTU iface;
    vmophub.VirtualMachineNetworkInterfaceSpec_Nameservers := vmoprv1alpha5.VirtualMachineNetworkInterfaceSpec_Nameservers iface;
    vmophub.VirtualMachineNetworkInterfaceSpec_Routes := option_map (map VirtualMachineNetworkRouteSpec_v1alpha5_To_hub) (vmoprv1alpha5.VirtualMachineNetworkInterfaceSpec_Routes iface);
    vmophub.VirtualMachineNetworkInterfaceSpec_SearchDomains := vmoprv1alpha5.VirtualMachineNetworkInterfaceSpec_SearchDomains iface;
    vmophub.VirtualMachineNetworkInterfaceSpec_Type := "";
    vmophub.VirtualMachineNetworkInterfaceSpec_VNUMANodeID := None;
    vmophub.VirtualMachineNetworkInterfaceSpec_VMXNet3 := None;
    vmophub.VirtualMachineNetworkInterfaceSpec_AdvancedProperties := None;
    vmophub.VirtualMachineNetworkInterfaceSpec_IPAMModes := None
  |}.

Definition VirtualMachineNetworkSpec_v1alpha5_To_hub (network : vmoprv1alpha5.VirtualMachineNetworkSpec) : vmophub.VirtualMachineNetworkSpec :=
  {|
    vmophub.VirtualMachineNetworkSpec_Interfaces := option_map (map VirtualMachineNetworkInterfaceSpec_v1alpha5_To_hub) (vmoprv1alpha5.VirtualMachineNetworkSpec_Interfaces network);
    vmophub.VirtualMachineNetworkSpec_VLANs := None
  |}.

Definition InstanceVolumeClaimVolumeSource_v1alpha5_To_hub (instanceVolumeClaim : vmoprv1alpha5.InstanceVolumeClaimVolumeSource) : vmophub.InstanceVolumeClaimVolumeSource :=
  {|
    vmophub.InstanceVolumeClaimVolumeSource_StorageClass := vmoprv1alpha5.InstanceVolumeClaimVolumeSource_StorageClass instanceVolumeClaim;
    vmophub.InstanceVolumeClaimVolumeSource_Size := vmoprv1alpha5.InstanceVolumeClaimVolumeSource_Size instanceVolumeClaim
  |}.

Definition PersistentVolumeClaimVolumeSource_v1alpha5_To_hub (persistentVolumeClaim : vmoprv1alpha5.PersistentVolumeClaimVolumeSource) : vmophub.PersistentVolumeClaimVolumeSource :=
  {|
    vmophub.PersistentVolumeClaimVolumeSource_PersistentVolumeClaimVolumeSource := {|
        CorePersistentVolumeClaimVolumeSource_ClaimName := CorePersistentVolumeClaimVolumeSource_ClaimName (vmoprv1alpha5.PersistentVolumeClaimVolumeSource_PersistentVolumeClaimVolumeSource persistentVolumeClaim);
        CorePersistentVolumeClaimVolumeSource_ReadOnly := CorePersistentVolumeClaimVolumeSource_ReadOnly (vmoprv1alpha5.PersistentVolumeClaimVolumeSource_PersistentVolumeClaimVolumeSource persistentVolumeClaim)
      |};
    vmophub.PersistentVolumeClaimVolumeSource_InstanceVolumeClaim := option_map InstanceVolumeClaimVolumeSource_v1alpha5_To_hub (vmoprv1alpha5.PersistentVolumeClaimVolumeSource_InstanceVolumeClaim persistentVolumeClaim)
  |}.

Definition VirtualMachineVolume_v1alpha5_To_hub (volume : vmoprv1alpha5.VirtualMachineVolume) : vmophub.VirtualMachineVolume :=
  {|
    vmophub.VirtualMachineVolume_Name := vmoprv1alpha5.VirtualMachineVolume_Name volume;
    vmophub.VirtualMachineVolume_VirtualMachineVolumeSource := {|
        vmophub.VirtualMachineVolumeSource_PersistentVolumeClaim := option_map PersistentVolumeClaimVolumeSource_v1alpha5_To_hub (vmoprv1alpha5.VirtualMachineVolumeSource_PersistentVolumeClaim (vmoprv1alpha5.VirtualMachineVolume_VirtualMachineVolumeSource volume))
      |};
    vmophub.VirtualMachineVolume_Removable := vmoprv1alpha5.VirtualMachineVolume_Removable volume;
    vmophub.VirtualMachineVolume_ApplicationType := vmoprv1alpha5.VirtualMachineVolume_ApplicationType volume;
    vmophub.VirtualMachineVolume_ControllerBusNumber := vmoprv1alpha5.VirtualMachineVolume_ControllerBusNumber volume;
    vmophub.VirtualMachineVolume_ControllerType := vmoprv1alpha5.VirtualMachineVolume_ControllerType volume;
    vmophub.VirtualMachineVolume_DiskMode := vmoprv1alpha5.VirtualMachineVolume_DiskMode volume;
    vmophub.VirtualMachineVolume_SharingMode := vmoprv1alpha5.VirtualMachineVolume_SharingMode volume;
    vmophub.VirtualMachineVolume_UnitNumber := vmoprv1alpha5.VirtualMachineVolume_UnitNumber volume
  |}.

Definition TCPSocketAction_v1alpha5_To_hub (tCPSocket : vmoprv1alpha5.TCPSocketAction) : vmophub.TCPSocketAction :=
  {|
    vmophub.TCPSocketAction_Port := vmoprv1alpha5.TCPSocketAction_Port tCPSocket;
    vmophub.TCPSocketAction_Host := vmoprv1alpha5.TCPSocketAction_Host tCPSocket
  |}.

Definition VirtualMachineReadinessProbeSpec_v1alpha5_To_hub (readinessProbe : vmoprv1alpha5.VirtualMachineReadinessProbeSpec) : vmophub.VirtualMachineReadinessProbeSpec :=
  {|
    vmophub.VirtualMachineReadinessProbeSpec_TCPSocket := option_map TCPSocketAction_v1alpha5_To_hub (vmoprv1alpha5.VirtualMachineReadinessProbeSpec_TCPSocket readinessProbe)
  |}.

Definition VirtualMachineReservedSpec_v1alpha5_To_hub (reserved : vmoprv1alpha5.VirtualMachineReservedSpec) : vmophub.VirtualMachineReservedSpec :=
  {|
    vmophub.VirtualMachineReservedSpec_ResourcePolicyName := vmoprv1alpha5.VirtualMachineReservedSpec_ResourcePolicyName reserved
  |}.

Definition PolicySpec_v1alpha5_To_hub (p : vmoprv1alpha5.PolicySpec) : vmophub.PolicySpec :=
  {|
    vmophub.PolicySpec_APIVersion := vmoprv1alpha5.PolicySpec_APIVersion p;
    vmophub.PolicySpec_Kind := vmoprv1alpha5.PolicySpec_Kind p;
    vmophub.PolicySpec_Name := vmoprv1alpha5.PolicySpec_Name p
  |}.

Definition KeyValuePair_v1alpha5_To_hub (pair : vmoprv1alpha5.KeyValuePair) : vmophub.KeyValuePair :=
  {|
    vmophub.KeyValuePair_Key := vmoprv1alpha5.KeyValuePair_Key pair;
    vmophub.KeyValuePair_Value := vmoprv1alpha5.KeyValuePair_Value pair
  |}.

Definition VirtualMachineNetworkDHCPStatus_v1alpha5_To_hub (dhcp : vmoprv1alpha5.VirtualMachineNetworkDHCPStatus) : vmophub.VirtualMachineNetworkDHCPStatus :=
  {|
    vmophub.VirtualMachineNetworkDHCPStatus_IP4 := {|
        vmophub.VirtualMachineNetworkDHCPOptionsStatus_Config := option_map (map KeyValuePair_v1alpha5_To_hub) (vmoprv1alpha5.VirtualMachineNetworkDHCPOptionsStatus_Config (vmoprv1alpha5.VirtualMachineNetworkDHCPStatus_IP4 dhcp));
        vmophub.VirtualMachineNetworkDHCPOptionsStatus_Enabled := vmoprv1alpha5.VirtualMachineNetworkDHCPOptionsStatus_Enabled (vmoprv1alpha5.VirtualMachineNetworkDHCPStatus_IP4 dhcp)
      |};
    vmophub.VirtualMachineNetworkDHCPStatus_IP6 := {|
        vmophub.VirtualMachineNetworkDHCPOptionsStatus_Config := option_map (map KeyValuePair_v1alpha5_To_hub) (vmoprv1alpha5.VirtualMachineNetworkDHCPOptionsStatus_Config (vmoprv1alpha5.VirtualMachineNetworkDHCPStatus_IP6 dhcp));
        vmophub.VirtualMachineNetworkDHCPOptionsStatus_Enabled := vmoprv1alpha5.VirtualMachineNetworkDHCPOptionsStatus_Enabled (vmoprv1alpha5.VirtualMachineNetworkDHCPStatus_IP6 dhcp)
      |}
  |}.

Definition VirtualMachineNetworkInterfaceIPAddrStatus_v1alpha5_To_hub (addr : vmoprv1alpha5.VirtualMachineNetworkInterfaceIPAddrStatus) : vmophub.VirtualMachineNetworkInterfaceIPAddrStatus :=
  {|
    vmophub.VirtualMachineNetworkInterfaceIPAddrStatus_Address := vmoprv1alpha5.VirtualMachineNetworkInterfaceIPAddrStatus_Address addr;
    vmophub.VirtualMachineNetworkInterfaceIPAddrStatus_Lifetime := vmoprv1alpha5.VirtualMachineNetworkInterfaceIPAddrStatus_Lifetime addr;
    vmophub.VirtualMachineNetworkInterfaceIPAddrStatus_Origin := vmoprv1alpha5.VirtualMachineNetworkInterfaceIPAddrStatus_Origin addr;
    vmophub.VirtualMachineNetworkInterfaceIPAddrStatus_State := vmoprv1alpha5.VirtualMachineNetworkInterfaceIPAddrStatus_State addr
  |}.

Definition VirtualMachineNetworkInterfaceIPStatus_v1alpha5_To_hub (ip : vmoprv1alpha5.VirtualMachineNetworkInterfaceIPStatus) : vmophub.VirtualMachineNetworkInterfaceIPStatus :=
  {|
    vmophub.VirtualMachineNetworkInterfaceIPStatus_AutoConfigurationEnabled := vmoprv1alpha5.VirtualMachineNetworkInterfaceIPStatus_AutoConfigurationEnabled ip;
    vmophub.VirtualMachineNetworkInterfaceIPStatus_DHCP := option_map VirtualMachineNetworkDHCPStatus_v1alpha5_To_hub (vmoprv1alpha5.VirtualMachineNetworkInterfaceIPStatus_DHCP ip);
    vmophub.VirtualMachineNetworkInterfaceIPStatus_Addresses := option_map (map VirtualMachineNetworkInterfaceIPAddrStatus_v1alpha5_To_hub) (vmoprv1alpha5.VirtualMachineNetworkInterfaceIPStatus_Addresses ip);
    vmophub.VirtualMachineNetworkInterfaceIPStatus_MACAddr := vmoprv1alpha5.VirtualMachineNetworkInterfaceIPStatus_MACAddr ip
  |}.

Definition VirtualMachineNetworkDNSStatus_v1alpha5_To_hub (dns : vmoprv1alpha5.VirtualMachineNetworkDNSStatus) : vmophub.VirtualMachineNetworkDNSStatus :=
  {|
    vmophub.VirtualMachineNetworkDNSStatus_DHCP := vmoprv1alpha5.VirtualMachineNetworkDNSStatus_DHCP dns;
    vmophub.VirtualMachineNetworkDNSStatus_HostName := vmoprv1alpha5.VirtualMachineNetworkDNSStatus_HostName dns;
    vmophub.VirtualMachineNetworkDNSStatus_DomainName := vmoprv1alpha5.VirtualMachineNetworkDNSStatus_DomainName dns;
    vmophub.VirtualMachineNetworkDNSStatus_Nameservers := vmoprv1alpha5.VirtualMachineNetworkDNSStatus_Nameservers dns;
    vmophub.VirtualMachineNetworkDNSStatus_SearchDomains := vmoprv1alpha5.VirtualMachineNetworkDNSStatus_SearchDomains dns
  |}.

Definition VirtualMachineNetworkInterfaceStatus_v1alpha5_To_hub (iface : vmoprv1alpha5.VirtualMachineNetworkInterfaceStatus) : vmophub.VirtualMachineNetworkInterfaceStatus :=
  {|
    vmophub.VirtualMachineNetworkInterfaceStatus_Name := vmoprv1alpha5.VirtualMachineNetworkInterfaceStatus_Name iface;
    vmophub.VirtualMachineNetworkInterfaceStatus_DeviceKey := vmoprv1alpha5.VirtualMachineNetworkInterfaceStatus_DeviceKey iface;
    vmophub.VirtualMachineNetworkInterfaceStatus_IP := option_map VirtualMachineNetworkInterfaceIPStatus_v1alpha5_To_hub (vmoprv1alpha5.VirtualMachineNetworkInterfaceStatus_IP iface);
    vmophub.VirtualMachineNetworkInterfaceStatus_DNS := option_map VirtualMachineNetworkDNSStatus_v1alpha5_To_hub (vmoprv1alpha5.VirtualMachineNetworkInterfaceStatus_DNS iface)
  |}.

Definition VirtualMachineNetworkStatus_v1alpha5_To_hub (network1 : vmoprv1alpha5.VirtualMachineNetworkStatus) : vmophub.VirtualMachineNetworkStatus :=
  {|
    vmophub.VirtualMachineNetworkStatus_HostName := vmoprv1alpha5.VirtualMachineNetworkStatus_HostName network1;
    vmophub.VirtualMachineNetworkStatus_Interfaces := option_map (map VirtualMachineNetworkInterfaceStatus_v1alpha5_To_hub) (vmoprv1alpha5.VirtualMachineNetworkStatus_Interfaces network1);
    vmophub.VirtualMachineNetworkStatus_PrimaryIP4 := vmoprv1alpha5.VirtualMachineNetworkStatus_PrimaryIP4 network1;
    vmophub.VirtualMachineNetworkStatus_PrimaryIP6 := vmoprv1alpha5.VirtualMachineNetworkStatus_PrimaryIP6 network1
  |}.

Definition PolicyStatus_v1alpha5_To_hub (p : vmoprv1alpha5.PolicyStatus) : vmophub.PolicyStatus :=
  {|
    vmophub.PolicyStatus_PolicySpec := {|
        vmophub.PolicySpec_APIVersion := vmoprv1alpha5.PolicySpec_APIVersion (vmoprv1alpha5.PolicyStatus_PolicySpec p);
        vmophub.PolicySpec_Kind := vmoprv1alpha5.PolicySpec_Kind (vmoprv1alpha5.PolicyStatus_PolicySpec p);
        vmophub.PolicySpec_Name := vmoprv1alpha5.PolicySpec_Name (vmoprv1alpha5.PolicyStatus_PolicySpec p)
      |};
    vmophub.PolicyStatus_Generation := vmoprv1alpha5.PolicyStatus_Generation p
  |}.

Definition VirtualMachineSpec_v1alpha5_To_hub (src : vmoprv1alpha5.VirtualMachineSpec) (dst : vmophub.VirtualMachineSpec) : vmophub.VirtualMachineSpec :=
  {|
    vmophub.VirtualMachineSpec_ImageName := vmoprv1alpha5.VirtualMachineSpec_ImageName src;
    vmophub.VirtualMachineSpec_ClassName := vmoprv1alpha5.VirtualMachineSpec_ClassName src;
    vmophub.VirtualMachineSpec_Affinity := match vmoprv1alpha5.VirtualMachineSpec_Affinity src with Some affinity => Some (AffinitySpec_v1alpha5_To_hub affinity) | None => vmophub.VirtualMachineSpec_Affinity dst end;
    vmophub.VirtualMachineSpec_StorageClass := vmoprv1alpha5.VirtualMachineSpec_StorageClass src;
    vmophub.VirtualMachineSpec_Bootstrap := match vmoprv1alpha5.VirtualMachineSpec_Bootstrap src with Some bootstrap => Some (VirtualMachineBootstrapSpec_v1alpha5_To_hub bootstrap) | None => vmophub.VirtualMachineSpec_Bootstrap dst end;
    vmophub.VirtualMachineSpec_Network := match vmoprv1alpha5.VirtualMachineSpec_Network src with Some network => Some (VirtualMachineNetworkSpec_v1alpha5_To_hub network) | None => vmophub.VirtualMachineSpec_Network dst end;
    vmophub.VirtualMachineSpec_PowerState := vmoprv1alpha5.VirtualMachineSpec_PowerState src;
    vmophub.VirtualMachineSpec_PowerOffMode := vmoprv1alpha5.VirtualMachineSpec_PowerOffMode src;
    vmophub.VirtualMachineSpec_Volumes := match vmoprv1alpha5.VirtualMachineSpec_Volumes src with
      | Some volumes => Some (map VirtualMachineVolume_v1alpha5_To_hub volumes)
      | None => vmophub.VirtualMachineSpec_Volumes dst
      end;
    vmophub.VirtualMachineSpec_ReadinessProbe := match vmoprv1alpha5.VirtualMachineSpec_ReadinessProbe src with Some readinessProbe => Some (VirtualMachineReadinessProbeSpec_v1alpha5_To_hub readinessProbe) | None => vmophub.VirtualMachineSpec_ReadinessProbe dst end;
    vmophub.VirtualMachineSpec_Reserved := match vmoprv1alpha5.VirtualMachineSpec_Reserved src with Some reserved => Some (VirtualMachineReservedSpec_v1alpha5_To_hub reserved) | None => vmophub.VirtualMachineSpec_Reserved dst end;
    vmophub.VirtualMachineSpec_MinHardwareVersion := vmoprv1alpha5.VirtualMachineSpec_MinHardwareVersion src;
    vmophub.VirtualMachineSpec_GroupName := vmoprv1alpha5.VirtualMachineSpec_GroupName src;
    vmophub.VirtualMachineSpec_Policies := match vmoprv1alpha5.VirtualMachineSpec_Policies src with
      | Some policies => Some (map PolicySpec_v1alpha5_To_hub policies)
      | None => vmophub.VirtualMachineSpec_Policies dst
      end
  |}.

Definition VirtualMachineStatus_v1alpha5_To_hub (src : vmoprv1alpha5.VirtualMachineStatus) (dst : vmophub.VirtualMachineStatus) : vmophub.VirtualMachineStatus :=
  {|
    vmophub.VirtualMachineStatus_NodeName := vmoprv1alpha5.VirtualMachineStatus_NodeName src;
    vmophub.VirtualMachineStatus_PowerState := vmoprv1alpha5.VirtualMachineStatus_PowerState src;
    vmophub.VirtualMachineStatus_Conditions := match vmoprv1alpha5.VirtualMachineStatus_Conditions src with
      | Some conditions => Some conditions
      | None => vmophub.VirtualMachineStatus_Conditions dst
      end;
    vmophub.VirtualMachineStatus_Network := match vmoprv1alpha5.VirtualMachineStatus_Network src with Some network1 => Some (VirtualMachineNetworkStatus_v1alpha5_To_hub network1) | None => vmophub.VirtualMachineStatus_Network dst end;
    vmophub.VirtualMachineStatus_BiosUUID := vmoprv1alpha5.VirtualMachineStatus_BiosUUID src;
    vmophub.VirtualMachineStatus_Zone := vmoprv1alpha5.VirtualMachineStatus_Zone src;
    vmophub.VirtualMachineStatus_Policies := match vmoprv1alpha5.VirtualMachineStatus_Policies src with
      | Some policies1 => Some (map PolicyStatus_v1alpha5_To_hub policies1)
      | None => vmophub.VirtualMachineStatus_Policies dst
      end
  |}.

Definition convert_v1alpha5_VirtualMachine_To_hub_VirtualMachine (src : vmoprv1alpha5.VirtualMachine) (dst : vmophub.VirtualMachine) : res vmophub.VirtualMachine :=
  Ok {|
    vmophub.VirtualMachine_ObjectMeta := vmoprv1alpha5.VirtualMachine_ObjectMeta src;
    vmophub.VirtualMachine_Spec := VirtualMachineSpec_v1alpha5_To_hub (vmoprv1alpha5.VirtualMachine_Spec src) (vmophub.VirtualMachine_Spec dst);
    vmophub.VirtualMachine_Status := VirtualMachineStatus_v1alpha5_To_hub (vmoprv1alpha5.VirtualMachine_Status src) (vmophub.VirtualMachine_Status dst);
    vmophub.VirtualMachine_Source := vmophub.VirtualMachine_Source dst
  |}.

(** ** [convert_hub_VirtualMachine_To_v1alpha5_VirtualMachine] *)
Definition VMAffinityTerm_hub_To_v1alpha5 (term : vmophub.VMAffinityTerm) : vmoprv1alpha5.VMAffinityTerm :=
  {|
    vmoprv1alpha5.VMAffinityTerm_LabelSelector := vmophub.VMAffinityTerm_LabelSelector term;
    vmoprv1alpha5.VMAffinityTerm_TopologyKey := vmophub.VMAffinityTerm_TopologyKey term
  |}.

Definition VMAffinitySpec_hub_To_v1alpha5 (vMAffinity : vmophub.VMAffinitySpec) : vmoprv1alpha5.VMAffinitySpec :=
  {|
    vmoprv1alpha5.VMAffinitySpec_RequiredDuringSchedulingPreferredDuringExecution := option_map (map VMAffinityTerm_hub_To_v1alpha5) (vmophub.VMAffinitySpec_RequiredDuringSchedulingPreferredDuringExecution vMAffinity)
  |}.

Definition VMAntiAffinitySpec_hub_To_v1alpha5 (vMAntiAffinity : vmophub.VMAntiAffinitySpec) : vmoprv1alpha5.VMAntiAffinitySpec :=
  {|
    vmoprv1alpha5.VMAntiAffinitySpec_PreferredDuringSchedulingPreferredDuringExecution := option_map (map VMAffinityTerm_hub_To_v1alpha5) (vmophub.VMAntiAffinitySpec_PreferredDuringSchedulingPreferredDuringExecution vMAntiAffinity)
  |}.

Definition AffinitySpec_hub_To_v1alpha5 (affinity : vmophub.AffinitySpec) : vmoprv1alpha5.AffinitySpec :=
  {|
    vmoprv1alpha5.AffinitySpec_VMAffinity := option_map VMAffinitySpec_hub_To_v1alpha5 (vmophub.AffinitySpec_VMAffinity affinity);
    vmoprv1alpha5.AffinitySpec_VMAntiAffinity := option_map VMAntiAffinitySpec_hub_To_v1alpha5 (vmophub.AffinitySpec_VMAntiAffinity affinity)
  |}.

Definition SecretKeySelector_hub_To_v1alpha5 (rawCloudConfig : vmophub.SecretKeySelector) : vmoprv1alpha5.SecretKeySelector :=
  {|
    vmoprv1alpha5.SecretKeySelector_Name := vmophub.SecretKeySelector_Name rawCloudConfig;
    vmoprv1alpha5.SecretKeySelector_Key := vmophub.SecretKeySelector_Key rawCloudConfig
  |}.

Definition VirtualMachineBootstrapCloudInitSpec_hub_To_v1alpha5 (cloudInit : vmophub.VirtualMachineBootstrapCloudInitSpec) : vmoprv1alpha5.VirtualMachineBootstrapCloudInitSpec :=
  {|
    vmoprv1alpha5.VirtualMachineBootstrapCloudInitSpec_RawCloudConfig := option_map SecretKeySelector_hub_To_v1alpha5 (vmophub.VirtualMachineBootstrapCloudInitSpec_RawCloudConfig cloudInit)
  |}.

Definition VirtualMachineBootstrapSpec_hub_To_v1alpha5 (bootstrap : vmophub.VirtualMachineBootstrapSpec) : vmoprv1alpha5.VirtualMachineBootstrapSpec :=
  {|
    vmoprv1alpha5.VirtualMachineBootstrapSpec_CloudInit := option_map VirtualMachineBootstrapCloudInitSpec_hub_To_v1alpha5 (vmophub.VirtualMachineBootstrapSpec_CloudInit bootstrap)
  |}.

Definition PartialObjectRef_hub_To_v1alpha5 (network1 : vmophub.PartialObjectRef) : vmoprv1alpha5.PartialObjectRef :=
  {|
    vmoprv1alpha5.PartialObjectRef_TypeMeta := {|
        TypeMeta_Kind := TypeMeta_Kind (vmophub.PartialObjectRef_TypeMeta network1);
        TypeMeta_APIVersion := TypeMeta_APIVersion (vmophub.PartialObjectRef_TypeMeta network1)
      |};
    vmoprv1alpha5.PartialObjectRef_Name := vmophub.PartialObjectRef_Name network1
  |}.

Definition VirtualMachineNetworkRouteSpec_hub_To_v1alpha5 (route : vmophub.VirtualMachineNetworkRouteSpec) : vmoprv1alpha5.VirtualMachineNetworkRouteSpec :=
  {|
    vmoprv1alpha5.VirtualMachineNetworkRouteSpec_To := vmophub.VirtualMachineNetworkRouteSpec_To route;
    vmoprv1alpha5.VirtualMachineNetworkRouteSpec_Via := vmophub.VirtualMachineNetworkRouteSpec_Via route;
    vmoprv1alpha5.VirtualMachineNetworkRouteSpec_Metric := vmophub.VirtualMachineNetworkRouteSpec_Metric route
  |}.

Definition VirtualMachineNetworkInterfaceSpec_hub_To_v1alpha5 (iface : vmophub.VirtualMachineNetworkInterfaceSpec) : vmoprv1alpha5.VirtualMachineNetworkInterfaceSpec :=
  {|
    vmoprv1alpha5.VirtualMachineNetworkInterfaceSpec_Name := vmophub.VirtualMachineNetworkInterfaceSpec_Name iface;
    vmoprv1alpha5.VirtualMachineNetworkInterfaceSpec_Network := option_map PartialObjectRef_hub_To_v1alpha5 (vmophub.VirtualMachineNetworkInterfaceSpec_Network iface);
    vmoprv1alpha5.VirtualMachineNetworkInterfaceSpec_GuestDeviceName := vmophub.VirtualMachineNetworkInterfaceSpec_GuestDeviceName iface;
    vmoprv1alpha5.VirtualMachineNetworkInterfaceSpec_MACAddr := vmophub.VirtualMachineNetworkInterfaceSpec_MACAddr iface;
    vmoprv1alpha5.VirtualMachineNetworkInterfaceSpec_Addresses := vmophub.VirtualMachineNetworkInterfaceSpec_Addresses iface;
    vmoprv1alpha5.VirtualMachineNetworkInterfaceSpec_DHCP4 := vmophub.VirtualMachineNetworkInterfaceSpec_DHCP4 iface;
    vmoprv1alpha5.VirtualMachineNetworkInterfaceSpec_DHCP6 := vmophub.VirtualMachineNetworkInterfaceSpec_DHCP6 iface;
    vmoprv1alpha5.VirtualMachineNetworkInterfaceSpec_Gateway4 := vmophub.VirtualMachineNetworkInterfaceSpec_Gateway4 iface;
    vmoprv1alpha5.VirtualMachineNetworkInterfaceSpec_Gateway6 := vmophub.VirtualMachineNetworkInterfaceSpec_Gateway6 iface;
    vmoprv1alpha5.VirtualMachineNetworkInterfaceSpec_MTU := vmophub.VirtualMachineNetworkInterfaceSpec_MTU iface;
    vmoprv1alpha5.VirtualMachineNetworkInterfaceSpec_Nameservers := vmophub.VirtualMachineNetworkInterfaceSpec_Nameservers iface;
    vmoprv1alpha5.VirtualMachineNetworkInterfaceSpec_Routes := option_map (map VirtualMachineNetworkRouteSpec_hub_To_v1alpha5) (vmophub.VirtualMachineNetworkInterfaceSpec_Routes iface);
    vmoprv1alpha5.VirtualMachineNetworkInterfaceSpec_SearchDomains := vmophub.VirtualMachineNetworkInterfaceSpec_SearchDomains iface
  |}.

Definition VirtualMachineNetworkSpec_hub_To_v1alpha5 (network : vmophub.VirtualMachineNetworkSpec) : vmoprv1alpha5.VirtualMachineNetworkSpec :=
  {|
    vmoprv1alpha5.VirtualMachineNetworkSpec_Interfaces := option_map (map VirtualMachineNetworkInterfaceSpec_hub_To_v1alpha5) (vmophub.VirtualMachineNetworkSpec_Interfaces network)
  |}.

Definition InstanceVolumeClaimVolumeSource_hub_To_v1alpha5 (instanceVolumeClaim : vmophub.InstanceVolumeClaimVolumeSource) : vmoprv1alpha5.InstanceVolumeClaimVolumeSource :=
  {|
    vmoprv1alpha5.InstanceVolumeClaimVolumeSource_StorageClass := vmophub.InstanceVolumeClaimVolumeSource_StorageClass instanceVolumeClaim;
    vmoprv1alpha5.InstanceVolumeClaimVolumeSource_Size := vmophub.InstanceVolumeClaimVolumeSource_Size instanceVolumeClaim
  |}.

Definition PersistentVolumeClaimVolumeSource_hub_To_v1alpha5 (persistentVolumeClaim : vmophub.PersistentVolumeClaimVolumeSource) : vmoprv1alpha5.PersistentVolumeClaimVolumeSource :=
  {|
    vmoprv1alpha5.PersistentVolumeClaimVolumeSource_PersistentVolumeClaimVolumeSource := {|
        CorePersistentVolumeClaimVolumeSource_ClaimName := CorePersistentVolumeClaimVolumeSource_ClaimName (vmophub.PersistentVolumeClaimVolumeSource_PersistentVolumeClaimVolumeSource persistentVolumeClaim);
        CorePersistentVolumeClaimVolumeSource_ReadOnly := CorePersistentVolumeClaimVolumeSource_ReadOnly (vmophub.PersistentVolumeClaimVolumeSource_PersistentVolumeClaimVolumeSource persistentVolumeClaim)
      |};
    vmoprv1alpha5.PersistentVolumeClaimVolumeSource_InstanceVolumeClaim := option_map InstanceVolumeClaimVolumeSource_hub_To_v1alpha5 (vmophub.PersistentVolumeClaimVolumeSource_InstanceVolumeClaim persistentVolumeClaim)
  |}.

Definition VirtualMachineVolume_hub_To_v1alpha5 (volume : vmophub.VirtualMachineVolume) : vmoprv1alpha5.VirtualMachineVolume :=
  {|
    vmoprv1alpha5.VirtualMachineVolume_Name := vmophub.VirtualMachineVolume_Name volume;
    vmoprv1alpha5.VirtualMachineVolume_VirtualMachineVolumeSource := {|
        vmoprv1alpha5.VirtualMachineVolumeSource_PersistentVolumeClaim := option_map PersistentVolumeClaimVolumeSource_hub_To_v1alpha5 (vmophub.VirtualMachineVolumeSource_PersistentVolumeClaim (vmophub.VirtualMachineVolume_VirtualMachineVolumeSource volume))
      |};
    vmoprv1alpha5.VirtualMachineVolume_Removable := vmophub.VirtualMachineVolume_Removable volume;
    vmoprv1alpha5.VirtualMachineVolume_ApplicationType := vmophub.VirtualMachineVolume_ApplicationType volume;
    vmoprv1alpha5.VirtualMachineVolume_ControllerBusNumber := vmophub.VirtualMachineVolume_ControllerBusNumber volume;
    vmoprv1alpha5.VirtualMachineVolume_ControllerType := vmophub.VirtualMachineVolume_ControllerType volume;
    vmoprv1alpha5.VirtualMachineVolume_DiskMode := vmophub.VirtualMachineVolume_DiskMode volume;
    vmoprv1alpha5.VirtualMachineVolume_SharingMode := vmophub.VirtualMachineVolume_SharingMode volume;
    vmoprv1alpha5.VirtualMachineVolume_UnitNumber := vmophub.VirtualMachineVolume_UnitNumber volume
  |}.

Definition TCPSocketAction_hub_To_v1alpha5 (tCPSocket : vmophub.TCPSocketAction) : vmoprv1alpha5.TCPSocketAction :=
  {|
    vmoprv1alpha5.TCPSocketAction_Port := vmophub.TCPSocketAction_Port tCPSocket;
    vmoprv1alpha5.TCPSocketAction_Host := vmophub.TCPSocketAction_Host tCPSocket
  |}.

Definition VirtualMachineReadinessProbeSpec_hub_To_v1alpha5 (readinessProbe : vmophub.VirtualMachineReadinessProbeSpec) : vmoprv1alpha5.VirtualMachineReadinessProbeSpec :=
  {|
    vmoprv1alpha5.VirtualMachineReadinessProbeSpec_TCPSocket := option_map TCPSocketAction_hub_To_v1alpha5 (vmophub.VirtualMachineReadinessProbeSpec_TCPSocket readinessProbe)
  |}.

Definition VirtualMachineReservedSpec_hub_To_v1alpha5 (reserved : vmophub.VirtualMachineReservedSpec) : vmoprv1alpha5.VirtualMachineReservedSpec :=
  {|
    vmoprv1alpha5.VirtualMachineReservedSpec_ResourcePolicyName := vmophub.VirtualMachineReservedSpec_ResourcePolicyName reserved
  |}.

Definition PolicySpec_hub_To_v1alpha5 (p : vmophub.PolicySpec) : vmoprv1alpha5.PolicySpec :=
  {|
    vmoprv1alpha5.PolicySpec_APIVersion := vmophub.PolicySpec_APIVersion p;
    vmoprv1alpha5.PolicySpec_Kind := vmophub.PolicySpec_Kind p;
    vmoprv1alpha5.PolicySpec_Name := vmophub.PolicySpec_Name p
  |}.

Definition KeyValuePair_hub_To_v1alpha5 (pair : vmophub.KeyValuePair) : vmoprv1alpha5.KeyValuePair :=
  {|
    vmoprv1alpha5.KeyValuePair_Key := vmophub.KeyValuePair_Key pair;
    vmoprv1alpha5.KeyValuePair_Value := vmophub.KeyValuePair_Value pair
  |}.

Definition VirtualMachineNetworkDHCPStatus_hub_To_v1alpha5 (dhcp : vmophub.VirtualMachineNetworkDHCPStatus) : vmoprv1alpha5.VirtualMachineNetworkDHCPStatus :=
  {|
    vmoprv1alpha5.VirtualMachineNetworkDHCPStatus_IP4 := {|
        vmoprv1alpha5.VirtualMachineNetworkDHCPOptionsStatus_Config := option_map (map KeyValuePair_hub_To_v1alpha5) (vmophub.VirtualMachineNetworkDHCPOptionsStatus_Config (vmophub.VirtualMachineNetworkDHCPStatus_IP4 dhcp));
        vmoprv1alpha5.VirtualMachineNetworkDHCPOptionsStatus_Enabled := vmophub.VirtualMachineNetworkDHCPOptionsStatus_Enabled (vmophub.VirtualMachineNetworkDHCPStatus_IP4 dhcp)
      |};
    vmoprv1alpha5.VirtualMachineNetworkDHCPStatus_IP6 := {|
        vmoprv1alpha5.VirtualMachineNetworkDHCPOptionsStatus_Config := option_map (map KeyValuePair_hub_To_v1alpha5) (vmophub.VirtualMachineNetworkDHCPOptionsStatus_Config (vmophub.VirtualMachineNetworkDHCPStatus_IP6 dhcp));
        vmoprv1alpha5.VirtualMachineNetworkDHCPOptionsStatus_Enabled := vmophub.VirtualMachineNetworkDHCPOptionsStatus_Enabled (vmophub.VirtualMachineNetworkDHCPStatus_IP6 dhcp)
      |}
  |}.

Definition VirtualMachineNetworkInterfaceIPAddrStatus_hub_To_v1alpha5 (addr : vmophub.VirtualMachineNetworkInterfaceIPAddrStatus) : vmoprv1alpha5.VirtualMachineNetworkInterfaceIPAddrStatus :=
  {|
    vmoprv1alpha5.VirtualMachineNetworkInterfaceIPAddrStatus_Address := vmophub.VirtualMachineNetworkInterfaceIPAddrStatus_Address addr;
    vmoprv1alpha5.VirtualMachineNetworkInterfaceIPAddrStatus_Lifetime := vmophub.VirtualMachineNetworkInterfaceIPAddrStatus_Lifetime addr;
    vmoprv1alpha5.VirtualMachineNetworkInterfaceIPAddrStatus_Origin := vmophub.VirtualMachineNetworkInterfaceIPAddrStatus_Origin addr;
    vmoprv1alpha5.VirtualMachineNetworkInterfaceIPAddrStatus_State := vmophub.VirtualMachineNetworkInterfaceIPAddrStatus_State addr
  |}.

Definition VirtualMachineNetworkInterfaceIPStatus_hub_To_v1alpha5 (ip : vmophub.VirtualMachineNetworkInterfaceIPStatus) : vmoprv1alpha5.VirtualMachineNetworkInterfaceIPStatus :=
  {|
    vmoprv1alpha5.VirtualMachineNetworkInterfaceIPStatus_AutoConfigurationEnabled := vmophub.VirtualMachineNetworkInterfaceIPStatus_AutoConfigurationEnabled ip;
    vmoprv1alpha5.VirtualMachineNetworkInterfaceIPStatus_DHCP := option_map VirtualMachineNetworkDHCPStatus_hub_To_v1alpha5 (vmophub.VirtualMachineNetworkInterfaceIPStatus_DHCP ip);
    vmoprv1alpha5.VirtualMachineNetworkInterfaceIPStatus_Addresses := option_map (map VirtualMachineNetworkInterfaceIPAddrStatus_hub_To_v1alpha5) (vmophub.VirtualMachineNetworkInterfaceIPStatus_Addresses ip);
    vmoprv1alpha5.VirtualMachineNetworkInterfaceIPStatus_MACAddr := vmophub.VirtualMachineNetworkInterfaceIPStatus_MACAddr ip
  |}.

Definition VirtualMachineNetworkDNSStatus_hub_To_v1alpha5 (dns : vmophub.VirtualMachineNetworkDNSStatus) : vmoprv1alpha5.VirtualMachineNetworkDNSStatus :=
  {|
    vmoprv1alpha5.VirtualMachineNetworkDNSStatus_DHCP := vmophub.VirtualMachineNetworkDNSStatus_DHCP dns;
    vmoprv1alpha5.VirtualMachineNetworkDNSStatus_HostName := vmophub.VirtualMachineNetworkDNSStatus_HostName dns;
    vmoprv1alpha5.VirtualMachineNetworkDNSStatus_DomainName := vmophub.VirtualMachineNetworkDNSStatus_DomainName dns;
    vmoprv1alpha5.VirtualMachineNetworkDNSStatus_Nameservers := vmophub.VirtualMachineNetworkDNSStatus_Nameservers dns;
    vmoprv1alpha5.VirtualMachineNetworkDNSStatus_SearchDomains := vmophub.VirtualMachineNetworkDNSStatus_SearchDomains dns
  |}.

Definition VirtualMachineNetworkInterfaceStatus_hub_To_v1alpha5 (iface : vmophub.VirtualMachineNetworkInterfaceStatus) : vmoprv1alpha5.VirtualMachineNetworkInterfaceStatus :=
  {|
    vmoprv1alpha5.VirtualMachineNetworkInterfaceStatus_Name := vmophub.VirtualMachineNetworkInterfaceStatus_Name iface;
    vmoprv1alpha5.VirtualMachineNetworkInterfaceStatus_DeviceKey := vmophub.VirtualMachineNetworkInterfaceStatus_DeviceKey iface;
    vmoprv1alpha5.VirtualMachineNetworkInterfaceStatus_IP := option_map VirtualMachineNetworkInterfaceIPStatus_hub_To_v1alpha5 (vmophub.VirtualMachineNetworkInterfaceStatus_IP iface);
    vmoprv1alpha5.VirtualMachineNetworkInterfaceStatus_DNS := option_map VirtualMachineNetworkDNSStatus_hub_To_v1alpha5 (vmophub.VirtualMachineNetworkInterfaceStatus_DNS iface)
  |}.

Definition VirtualMachineNetworkStatus_hub_To_v1alpha5 (network1 : vmophub.VirtualMachineNetworkStatus) : vmoprv1alpha5.VirtualMachineNetworkStatus :=
  {|
    vmoprv1alpha5.VirtualMachineNetworkStatus_HostName := vmophub.VirtualMachineNetworkStatus_HostName network1;
    vmoprv1alpha5.VirtualMachineNetworkStatus_Interfaces := option_map (map VirtualMachineNetworkInterfaceStatus_hub_To_v1alpha5) (vmophub.VirtualMachineNetworkStatus_Interfaces network1);
    vmoprv1alpha5.VirtualMachineNetworkStatus_PrimaryIP4 := vmophub.VirtualMachineNetworkStatus_PrimaryIP4 network1;
    vmoprv1alpha5.VirtualMachineNetworkStatus_PrimaryIP6 := vmophub.VirtualMachineNetworkStatus_PrimaryIP6 network1
  |}.

Definition PolicyStatus_hub_To_v1alpha5 (p : vmophub.PolicyStatus) : vmoprv1alpha5.PolicyStatus :=
  {|
    vmoprv1alpha5.PolicyStatus_PolicySpec := {|
        vmoprv1alpha5.PolicySpec_APIVersion := vmophub.PolicySpec_APIVersion (vmophub.PolicyStatus_PolicySpec p);
        vmoprv1alpha5.PolicySpec_Kind := vmophub.PolicySpec_Kind (vmophub.PolicyStatus_PolicySpec p);
        vmoprv1alpha5.PolicySpec_Name := vmophub.PolicySpec_Name (vmophub.PolicyStatus_PolicySpec p)
      |};
    vmoprv1alpha5.PolicyStatus_Generation := vmophub.PolicyStatus_Generation p
  |}.

Definition VirtualMachineSpec_hub_To_v1alpha5 (src : vmophub.VirtualMachineSpec) (dst : vmoprv1alpha5.VirtualMachineSpec) : vmoprv1alpha5.VirtualMachineSpec :=
  {|
    vmoprv1alpha5.VirtualMachineSpec_ImageName := vmophub.VirtualMachineSpec_ImageName src;
    vmoprv1alpha5.VirtualMachineSpec_ClassName := vmophub.VirtualMachineSpec_ClassName src;
    vmoprv1alpha5.VirtualMachineSpec_Affinity := match vmophub.VirtualMachineSpec_Affinity src with Some affinity => Some (AffinitySpec_hub_To_v1alpha5 affinity) | None => vmoprv1alpha5.VirtualMachineSpec_Affinity dst end;
    vmoprv1alpha5.VirtualMachineSpec_StorageClass := vmophub.VirtualMachineSpec_StorageClass src;
    vmoprv1alpha5.VirtualMachineSpec_Bootstrap := match vmophub.VirtualMachineSpec_Bootstrap src with Some bootstrap => Some (VirtualMachineBootstrapSpec_hub_To_v1alpha5 bootstrap) | None => vmoprv1alpha5.VirtualMachineSpec_Bootstrap dst end;
    vmoprv1alpha5.VirtualMachineSpec_Network := match vmophub.VirtualMachineSpec_Network src with Some network => Some (VirtualMachineNetworkSpec_hub_To_v1alpha5 network) | None => vmoprv1alpha5.VirtualMachineSpec_Network dst end;
    vmoprv1alpha5.VirtualMachineSpec_PowerState := vmophub.VirtualMachineSpec_PowerState src;
    vmoprv1alpha5.VirtualMachineSpec_PowerOffMode := vmophub.VirtualMachineSpec_PowerOffMode src;
    vmoprv1alpha5.VirtualMachineSpec_Volumes := match vmophub.VirtualMachineSpec_Volumes src with
      | Some volumes => Some (map VirtualMachineVolume_hub_To_v1alpha5 volumes)
      | None => vmoprv1alpha5.VirtualMachineSpec_Volumes dst
      end;
    vmoprv1alpha5.VirtualMachineSpec_ReadinessProbe := match vmophub.VirtualMachineSpec_ReadinessProbe src with Some readinessProbe => Some (VirtualMachineReadinessProbeSpec_hub_To_v1alpha5 readinessProbe) | None => vmoprv1alpha5.VirtualMachineSpec_ReadinessProbe dst end;
    vmoprv1alpha5.VirtualMachineSpec_Reserved := match vmophub.VirtualMachineSpec_Reserved src with Some reserved => Some (VirtualMachineReservedSpec_hub_To_v1alpha5 reserved) | None => vmoprv1alpha5.VirtualMachineSpec_Reserved dst end;
    vmoprv1alpha5.VirtualMachineSpec_MinHardwareVersion := vmophub.VirtualMachineSpec_MinHardwareVersion src;
    vmoprv1alpha5.VirtualMachineSpec_GroupName := vmophub.VirtualMachineSpec_GroupName src;
    vmoprv1alpha5.VirtualMachineSpec_Policies := match vmophub.VirtualMachineSpec_Policies src with
      | Some policies => Some (map PolicySpec_hub_To_v1alpha5 policies)
      | None => vmoprv1alpha5.VirtualMachineSpec_Policies dst
      end
  |}.

Definition VirtualMachineStatus_hub_To_v1alpha5 (src : vmophub.VirtualMachineStatus) (dst : vmoprv1alpha5.VirtualMachineStatus) : vmoprv1alpha5.VirtualMachineStatus :=
  {|
    vmoprv1alpha5.VirtualMachineStatus_NodeName := vmophub.VirtualMachineStatus_NodeName src;
    vmoprv1alpha5.VirtualMachineStatus_PowerState := vmophub.VirtualMachineStatus_PowerState src;
    vmoprv1alpha5.VirtualMachineStatus_Conditions := match vmophub.VirtualMachineStatus_Conditions src with
      | Some conditions => Some conditions
      | None => vmoprv1alpha5.VirtualMachineStatus_Conditions dst
      end;
    vmoprv1alpha5.VirtualMachineStatus_Network := match vmophub.VirtualMachineStatus_Network src with Some network1 => Some (VirtualMachineNetworkStatus_hub_To_v1alpha5 network1) | None => vmoprv1alpha5.VirtualMachineStatus_Network dst end;
    vmoprv1alpha5.VirtualMachineStatus_BiosUUID := vmophub.VirtualMachineStatus_BiosUUID src;
    vmoprv1alpha5.VirtualMachineStatus_Zone := vmophub.VirtualMachineStatus_Zone src;
    vmoprv1alpha5.VirtualMachineStatus_Policies := match vmophub.VirtualMachineStatus_Policies src with
      | Some policies1 => Some (map PolicyStatus_hub_To_v1alpha5 policies1)
      | None => vmoprv1alpha5.VirtualMachineStatus_Policies dst
      end
  |}.

Definition convert_hub_VirtualMachine_To_v1alpha5_VirtualMachine (src : vmophub.VirtualMachine) (dst : vmoprv1alpha5.VirtualMachine) : res vmoprv1alpha5.VirtualMachine :=
  Ok {|
    vmoprv1alpha5.VirtualMachine_ObjectMeta := vmophub.VirtualMachine_ObjectMeta src;
    vmoprv1alpha5.VirtualMachine_Spec := VirtualMachineSpec_hub_To_v1alpha5 (vmophub.VirtualMachine_Spec src) (vmoprv1alpha5.VirtualMachine_Spec dst);
    vmoprv1alpha5.VirtualMachine_Status := VirtualMachineStatus_hub_To_v1alpha5 (vmophub.VirtualMachine_Status src) (vmoprv1alpha5.VirtualMachine_Status dst)
  |}.

(** ** [convert_v1alpha5_VirtualMachineClass_To_hub_VirtualMachineClass] *)
Definition convert_v1alpha5_VirtualMachineClass_To_hub_VirtualMachineClass (src : vmoprv1alpha5.VirtualMachineClass) (dst : vmophub.VirtualMachineClass) : res vmophub.VirtualMachineClass :=
  Ok {|
    vmophub.VirtualMachineClass_ObjectMeta := vmoprv1alpha5.VirtualMachineClass_ObjectMeta src;
    vmophub.VirtualMachineClass_Spec := {|
        vmophub.VirtualMachineClassSpec_Hardware := {|
            vmophub.VirtualMachineClassHardware_Cpus := vmoprv1alpha5.VirtualMachineClassHardware_Cpus (vmoprv1alpha5.VirtualMachineClassSpec_Hardware (vmoprv1alpha5.VirtualMachineClass_Spec src));
            vmophub.VirtualMachineClassHardware_Memory := vmoprv1alpha5.VirtualMachineClassHardware_Memory (vmoprv1alpha5.VirtualMachineClassSpec_Hardware (vmoprv1alpha5.VirtualMachineClass_Spec src))
          |}
      |};
    vmophub.VirtualMachineClass_Status := vmophub.VirtualMachineClass_Status dst;
    vmophub.VirtualMachineClass_Source := vmophub.VirtualMachineClass_Source dst
  |}.

(** ** [convert_hub_VirtualMachineClass_To_v1alpha5_VirtualMachineClass] *)
Definition convert_hub_VirtualMachineClass_To_v1alpha5_VirtualMachineClass (src : vmophub.VirtualMachineClass) (dst : vmoprv1alpha5.VirtualMachineClass) : res vmoprv1alpha5.VirtualMachineClass :=
  Ok {|
    vmoprv1alpha5.VirtualMachineClass_ObjectMeta := vmophub.VirtualMachineClass_ObjectMeta src;
    vmoprv1alpha5.VirtualMachineClass_Spec := {|
        vmoprv1alpha5.VirtualMachineClassSpec_Hardware := {|
            vmoprv1alpha5.VirtualMachineClassHardware_Cpus := vmophub.VirtualMachineClassHardware_Cpus (vmophub.VirtualMachineClassSpec_Hardware (vmophub.VirtualMachineClass_Spec src));
            vmoprv1alpha5.VirtualMachineClassHardware_Memory := vmophub.VirtualMachineClassHardware_Memory (vmophub.VirtualMachineClassSpec_Hardware (vmophub.VirtualMachineClass_Spec src))
          |}
      |}
  |}.

(** ** [convert_v1alpha5_VirtualMachineGroup_To_hub_VirtualMachineGroup] *)
Definition GroupMember_v1alpha5_To_hub (member : vmoprv1alpha5.GroupMember) : vmophub.GroupMember :=
  {|
    vmophub.GroupMember_Name := vmoprv1alpha5.GroupMember_Name member;
    vmophub.GroupMember_Kind := vmoprv1alpha5.GroupMember_Kind member
  |}.

Definition VirtualMachineGroupBootOrderGroup_v1alpha5_To_hub (bootOrderGroup : vmoprv1alpha5.VirtualMachineGroupBootOrderGroup) : vmophub.VirtualMachineGroupBootOrderGroup :=
  {|
    vmophub.VirtualMachineGroupBootOrderGroup_Members := option_map (map GroupMember_v1alpha5_To_hub) (vmoprv1alpha5.VirtualMachineGroupBootOrderGroup_Members bootOrderGroup);
    vmophub.VirtualMachineGroupBootOrderGroup_PowerOnDelay := vmoprv1alpha5.VirtualMachineGroupBootOrderGroup_PowerOnDelay bootOrderGroup
  |}.

Definition VirtualMachineGroupPlacementDatastoreStatus_v1alpha5_To_hub (datastore : vmoprv1alpha5.VirtualMachineGroupPlacementDatastoreStatus) : vmophub.VirtualMachineGroupPlacementDatastoreStatus :=
  {|
    vmophub.VirtualMachineGroupPlacementDatastoreStatus_Name := vmoprv1alpha5.VirtualMachineGroupPlacementDatastoreStatus_Name datastore;
    vmophub.VirtualMachineGroupPlacementDatastoreStatus_ID := vmoprv1alpha5.VirtualMachineGroupPlacementDatastoreStatus_ID datastore;
    vmophub.VirtualMachineGroupPlacementDatastoreStatus_URL := vmoprv1alpha5.VirtualMachineGroupPlacementDatastoreStatus_URL datastore;
    vmophub.VirtualMachineGroupPlacementDatastoreStatus_SupportedDiskFormats := vmoprv1alpha5.VirtualMachineGroupPlacementDatastoreStatus_SupportedDiskFormats datastore;
    vmophub.VirtualMachineGroupPlacementDatastoreStatus_DiskKey := vmoprv1alpha5.VirtualMachineGroupPlacementDatastoreStatus_DiskKey datastore;
    vmophub.VirtualMachineGroupPlacementDatastoreStatus_TopLevelDirectoryCreateSupported := vmoprv1alpha5.VirtualMachineGroupPlacementDatastoreStatus_TopLevelDirectoryCreateSupported datastore
  |}.

Definition VirtualMachinePlacementStatus_v1alpha5_To_hub (placement : vmoprv1alpha5.VirtualMachinePlacementStatus) : vmophub.VirtualMachinePlacementStatus :=
  {|
    vmophub.VirtualMachinePlacementStatus_Zone := vmoprv1alpha5.VirtualMachinePlacementStatus_Zone placement;
    vmophub.VirtualMachinePlacementStatus_Node := vmoprv1alpha5.VirtualMachinePlacementStatus_Node placement;
    vmophub.VirtualMachinePlacementStatus_Pool := vmoprv1alpha5.VirtualMachinePlacementStatus_Pool placement;
    vmophub.VirtualMachinePlacementStatus_Datastores := option_map (map VirtualMachineGroupPlacementDatastoreStatus_v1alpha5_To_hub) (vmoprv1alpha5.VirtualMachinePlacementStatus_Datastores placement)
  |}.

Definition VirtualMachineGroupMemberStatus_v1alpha5_To_hub (member : vmoprv1alpha5.VirtualMachineGroupMemberStatus) : vmophub.VirtualMachineGroupMemberStatus :=
  {|
    vmophub.VirtualMachineGroupMemberStatus_Name := vmoprv1alpha5.VirtualMachineGroupMemberStatus_Name member;
    vmophub.VirtualMachineGroupMemberStatus_Kind := vmoprv1alpha5.VirtualMachineGroupMemberStatus_Kind member;
    vmophub.VirtualMachineGroupMemberStatus_UID := vmoprv1alpha5.VirtualMachineGroupMemberStatus_UID member;
    vmophub.VirtualMachineGroupMemberStatus_Placement := option_map VirtualMachinePlacementStatus_v1alpha5_To_hub (vmoprv1alpha5.VirtualMachineGroupMemberStatus_Placement member);
    vmophub.VirtualMachineGroupMemberStatus_PowerState := vmoprv1alpha5.VirtualMachineGroupMemberStatus_PowerState member;
    vmophub.VirtualMachineGroupMemberStatus_Conditions := vmoprv1alpha5.VirtualMachineGroupMemberStatus_Conditions member
  |}.

Definition convert_v1alpha5_VirtualMachineGroup_To_hub_VirtualMachineGroup (src : vmoprv1alpha5.VirtualMachineGroup) (dst : vmophub.VirtualMachineGroup) : res vmophub.VirtualMachineGroup :=
  Ok {|
    vmophub.VirtualMachineGroup_ObjectMeta := vmoprv1alpha5.VirtualMachineGroup_ObjectMeta src;
    vmophub.VirtualMachineGroup_Spec := {|
        vmophub.VirtualMachineGroupSpec_BootOrder := match vmoprv1alpha5.VirtualMachineGroupSpec_BootOrder (vmoprv1alpha5.VirtualMachineGroup_Spec src) with
          | Some bootOrder => Some (map VirtualMachineGroupBootOrderGroup_v1alpha5_To_hub bootOrder)
          | None => vmophub.VirtualMachineGroupSpec_BootOrder (vmophub.VirtualMachineGroup_Spec dst)
          end
      |};
    vmophub.VirtualMachineGroup_Status := {|
        vmophub.VirtualMachineGroupStatus_Members := match vmoprv1alpha5.VirtualMachineGroupStatus_Members (vmoprv1alpha5.VirtualMachineGroup_Status src) with
          | Some members => Some (map VirtualMachineGroupMemberStatus_v1alpha5_To_hub members)
          | None => vmophub.VirtualMachineGroupStatus_Members (vmophub.VirtualMachineGroup_Status dst)
          end
      |};
    vmophub.VirtualMachineGroup_Source := vmophub.VirtualMachineGroup_Source dst
  |}.

(** ** [convert_hub_VirtualMachineGroup_To_v1alpha5_VirtualMachineGroup] *)
Definition GroupMember_hub_To_v1alpha5 (member : vmophub.GroupMember) : vmoprv1alpha5.GroupMember :=
  {|
    vmoprv1alpha5.GroupMember_Name := vmophub.GroupMember_Name member;
    vmoprv1alpha5.GroupMember_Kind := vmophub.GroupMember_Kind member
  |}.

Definition VirtualMachineGroupBootOrderGroup_hub_To_v1alpha5 (bootOrderGroup : vmophub.VirtualMachineGroupBootOrderGroup) : vmoprv1alpha5.VirtualMachineGroupBootOrderGroup :=
  {|
    vmoprv1alpha5.VirtualMachineGroupBootOrderGroup_Members := option_map (map GroupMember_hub_To_v1alpha5) (vmophub.VirtualMachineGroupBootOrderGroup_Members bootOrderGroup);
    vmoprv1alpha5.VirtualMachineGroupBootOrderGroup_PowerOnDelay := vmophub.VirtualMachineGroupBootOrderGroup_PowerOnDelay bootOrderGroup
  |}.

Definition VirtualMachineGroupPlacementDatastoreStatus_hub_To_v1alpha5 (datastore : vmophub.VirtualMachineGroupPlacementDatastoreStatus) : vmoprv1alpha5.VirtualMachineGroupPlacementDatastoreStatus :=
  {|
    vmoprv1alpha5.VirtualMachineGroupPlacementDatastoreStatus_Name := vmophub.VirtualMachineGroupPlacementDatastoreStatus_Name datastore;
    vmoprv1alpha5.VirtualMachineGroupPlacementDatastoreStatus_ID := vmophub.VirtualMachineGroupPlacementDatastoreStatus_ID datastore;
    vmoprv1alpha5.VirtualMachineGroupPlacementDatastoreStatus_URL := vmophub.VirtualMachineGroupPlacementDatastoreStatus_URL datastore;
    vmoprv1alpha5.VirtualMachineGroupPlacementDatastoreStatus_SupportedDiskFormats := vmophub.VirtualMachineGroupPlacementDatastoreStatus_SupportedDiskFormats datastore;
    vmoprv1alpha5.VirtualMachineGroupPlacementDatastoreStatus_DiskKey := vmophub.VirtualMachineGroupPlacementDatastoreStatus_DiskKey datastore;
    vmoprv1alpha5.VirtualMachineGroupPlacementDatastoreStatus_TopLevelDirectoryCreateSupported := vmophub.VirtualMachineGroupPlacementDatastoreStatus_TopLevelDirectoryCreateSupported datastore
  |}.

Definition VirtualMachinePlacementStatus_hub_To_v1alpha5 (placement : vmophub.VirtualMachinePlacementStatus) : vmoprv1alpha5.VirtualMachinePlacementStatus :=
  {|
    vmoprv1alpha5.VirtualMachinePlacementStatus_Zone := vmophub.VirtualMachinePlacementStatus_Zone placement;
    vmoprv1alpha5.VirtualMachinePlacementStatus_Node := vmophub.VirtualMachinePlacementStatus_Node placement;
    vmoprv1alpha5.VirtualMachinePlacementStatus_Pool := vmophub.VirtualMachinePlacementStatus_Pool placement;
    vmoprv1alpha5.VirtualMachinePlacementStatus_Datastores := option_map (map VirtualMachineGroupPlacementDatastoreStatus_hub_To_v1alpha5) (vmophub.VirtualMachinePlacementStatus_Datastores placement)
  |}.

Definition VirtualMachineGroupMemberStatus_hub_To_v1alpha5 (member : vmophub.VirtualMachineGroupMemberStatus) : vmoprv1alpha5.VirtualMachineGroupMemberStatus :=
  {|
    vmoprv1alpha5.VirtualMachineGroupMemberStatus_Name := vmophub.VirtualMachineGroupMemberStatus_Name member;
    vmoprv1alpha5.VirtualMachineGroupMemberStatus_Kind := vmophub.VirtualMachineGroupMemberStatus_Kind member;
    vmoprv1alpha5.VirtualMachineGroupMemberStatus_UID := vmophub.VirtualMachineGroupMemberStatus_UID member;
    vmoprv1alpha5.VirtualMachineGroupMemberStatus_Placement := option_map VirtualMachinePlacementStatus_hub_To_v1alpha5 (vmophub.VirtualMachineGroupMemberStatus_Placement member);
    vmoprv1alpha5.VirtualMachineGroupMemberStatus_PowerState := vmophub.VirtualMachineGroupMemberStatus_PowerState member;
    vmoprv1alpha5.VirtualMachineGroupMemberStatus_Conditions := vmophub.VirtualMachineGroupMemberStatus_Conditions member
  |}.

Definition convert_hub_VirtualMachineGroup_To_v1alpha5_VirtualMachineGroup (src : vmophub.VirtualMachineGroup) (dst : vmoprv1alpha5.VirtualMachineGroup) : res vmoprv1alpha5.VirtualMachineGroup :=
  Ok {|
    vmoprv1alpha5.VirtualMachineGroup_ObjectMeta := vmophub.VirtualMachineGroup_ObjectMeta src;
    vmoprv1alpha5.VirtualMachineGroup_Spec := {|
        vmoprv1alpha5.VirtualMachineGroupSpec_BootOrder := match vmophub.VirtualMachineGroupSpec_BootOrder (vmophub.VirtualMachineGroup_Spec src) with
          | Some bootOrder => Some (map VirtualMachineGroupBootOrderGroup_hub_To_v1alpha5 bootOrder)
          | None => vmoprv1alpha5.VirtualMachineGroupSpec_BootOrder (vmoprv1alpha5.VirtualMachineGroup_Spec dst)
          end
      |};
    vmoprv1alpha5.VirtualMachineGroup_Status := {|
        vmoprv1alpha5.VirtualMachineGroupStatus_Members := match vmophub.VirtualMachineGroupStatus_Members (vmophub.VirtualMachineGroup_Status src) with
          | Some members => Some (map VirtualMachineGroupMemberStatus_hub_To_v1alpha5 members)
          | None => vmoprv1alpha5.VirtualMachineGroupStatus_Members (vmoprv1alpha5.VirtualMachineGroup_Status dst)
          end
      |}
  |}.

(** ** [convert_v1alpha5_VirtualMachineImage_To_hub_VirtualMachineImage] *)
Definition LocalObjectRef_v1alpha5_To_hub (providerRef : vmoprv1alpha5.LocalObjectRef) : vmophub.LocalObjectRef :=
  {|
    vmophub.LocalObjectRef_APIVersion := vmoprv1alpha5.LocalObjectRef_APIVersion providerRef;
    vmophub.LocalObjectRef_Kind := vmoprv1alpha5.LocalObjectRef_Kind providerRef;
    vmophub.LocalObjectRef_Name := vmoprv1alpha5.LocalObjectRef_Name providerRef
  |}.

Definition VirtualMachineImageStatus_v1alpha5_To_hub (src : vmoprv1alpha5.VirtualMachineImageStatus) (dst : vmophub.VirtualMachineImageStatus) : vmophub.VirtualMachineImageStatus :=
  {|
    vmophub.VirtualMachineImageStatus_Name := vmoprv1alpha5.VirtualMachineImageStatus_Name src;
    vmophub.VirtualMachineImageStatus_OSInfo := {|
        vmophub.VirtualMachineImageOSInfo_Type := vmoprv1alpha5.VirtualMachineImageOSInfo_Type (vmoprv1alpha5.VirtualMachineImageStatus_OSInfo src)
      |};
    vmophub.VirtualMachineImageStatus_VMwareSystemProperties := match vmoprv1alpha5.VirtualMachineImageStatus_VMwareSystemProperties src with
      | Some vMwareSystemProperties => Some (map KeyValuePair_v1alpha5_To_hub vMwareSystemProperties)
      | None => vmophub.VirtualMachineImageStatus_VMwareSystemProperties dst
      end;
    vmophub.VirtualMachineImageStatus_ProductInfo := {|
        vmophub.VirtualMachineImageProductInfo_FullVersion := vmoprv1alpha5.VirtualMachineImageProductInfo_FullVersion (vmoprv1alpha5.VirtualMachineImageStatus_ProductInfo src)
      |};
    vmophub.VirtualMachineImageStatus_ProviderItemID := vmoprv1alpha5.VirtualMachineImageStatus_ProviderItemID src;
    vmophub.VirtualMachineImageStatus_Conditions := match vmoprv1alpha5.VirtualMachineImageStatus_Conditions src with
      | Some conditions => Some conditions
      | None => vmophub.VirtualMachineImageStatus_Conditions dst
      end
  |}.

Definition convert_v1alpha5_VirtualMachineImage_To_hub_VirtualMachineImage (src : vmoprv1alpha5.VirtualMachineImage) (dst : vmophub.VirtualMachineImage) : res vmophub.VirtualMachineImage :=
  Ok {|
    vmophub.VirtualMachineImage_ObjectMeta := vmoprv1alpha5.VirtualMachineImage_ObjectMeta src;
    vmophub.VirtualMachineImage_Spec := {|
        vmophub.VirtualMachineImageSpec_ProviderRef := match vmoprv1alpha5.VirtualMachineImageSpec_ProviderRef (vmoprv1alpha5.VirtualMachineImage_Spec src) with Some providerRef => Some (LocalObjectRef_v1alpha5_To_hub providerRef) | None => vmophub.VirtualMachineImageSpec_ProviderRef (vmophub.VirtualMachineImage_Spec dst) end
      |};
    vmophub.VirtualMachineImage_Status := VirtualMachineImageStatus_v1alpha5_To_hub (vmoprv1alpha5.VirtualMachineImage_Status src) (vmophub.VirtualMachineImage_Status dst);
    vmophub.VirtualMachineImage_Source := vmophub.VirtualMachineImage_Source dst
  |}.

(** ** [convert_hub_VirtualMachineImage_To_v1alpha5_VirtualMachineImage] *)
Definition LocalObjectRef_hub_To_v1alpha5 (providerRef : vmophub.LocalObjectRef) : vmoprv1alpha5.LocalObjectRef :=
  {|
    vmoprv1alpha5.LocalObjectRef_APIVersion := vmophub.LocalObjectRef_APIVersion providerRef;
    vmoprv1alpha5.LocalObjectRef_Kind := vmophub.LocalObjectRef_Kind providerRef;
    vmoprv1alpha5.LocalObjectRef_Name := vmophub.LocalObjectRef_Name providerRef
  |}.

Definition VirtualMachineImageStatus_hub_To_v1alpha5 (src : vmophub.VirtualMachineImageStatus) (dst : vmoprv1alpha5.VirtualMachineImageStatus) : vmoprv1alpha5.VirtualMachineImageStatus :=
  {|
    vmoprv1alpha5.VirtualMachineImageStatus_Name := vmophub.VirtualMachineImageStatus_Name src;
    vmoprv1alpha5.VirtualMachineImageStatus_OSInfo := {|
        vmoprv1alpha5.VirtualMachineImageOSInfo_Type := vmophub.VirtualMachineImageOSInfo_Type (vmophub.VirtualMachineImageStatus_OSInfo src)
      |};
    vmoprv1alpha5.VirtualMachineImageStatus_VMwareSystemProperties := match vmophub.VirtualMachineImageStatus_VMwareSystemProperties src with
      | Some vMwareSystemProperties => Some (map KeyValuePair_hub_To_v1alpha5 vMwareSystemProperties)
      | None => vmoprv1alpha5.VirtualMachineImageStatus_VMwareSystemProperties dst
      end;
    vmoprv1alpha5.VirtualMachineImageStatus_ProductInfo := {|
        vmoprv1alpha5.VirtualMachineImageProductInfo_FullVersion := vmophub.VirtualMachineImageProductInfo_FullVersion (vmophub.VirtualMachineImageStatus_ProductInfo src)
      |};
    vmoprv1alpha5.VirtualMachineImageStatus_ProviderItemID := vmophub.VirtualMachineImageStatus_ProviderItemID src;
    vmoprv1alpha5.VirtualMachineImageStatus_Conditions := match vmophub.VirtualMachineImageStatus_Conditions src with
      | Some conditions => Some conditions
      | None => vmoprv1alpha5.VirtualMachineImageStatus_Conditions dst
      end
  |}.

Definition convert_hub_VirtualMachineImage_To_v1alpha5_VirtualMachineImage (src : vmophub.VirtualMachineImage) (dst : vmoprv1alpha5.VirtualMachineImage) : res vmoprv1alpha5.VirtualMachineImage :=
  Ok {|
    vmoprv1alpha5.VirtualMachineImage_ObjectMeta := vmophub.VirtualMachineImage_ObjectMeta src;
    vmoprv1alpha5.VirtualMachineImage_Spec := {|
        vmoprv1alpha5.VirtualMachineImageSpec_ProviderRef := match vmophub.VirtualMachineImageSpec_ProviderRef (vmophub.VirtualMachineImage_Spec src) with Some providerRef => Some (LocalObjectRef_hub_To_v1alpha5 providerRef) | None => vmoprv1alpha5.VirtualMachineImageSpec_ProviderRef (vmoprv1alpha5.VirtualMachineImage_Spec dst) end
      |};
    vmoprv1alpha5.VirtualMachineImage_Status := VirtualMachineImageStatus_hub_To_v1alpha5 (vmophub.VirtualMachineImage_Status src) (vmoprv1alpha5.VirtualMachineImage_Status dst)
  |}.

(** ** [convert_v1alpha5_ClusterVirtualMachineImage_To_hub_ClusterVirtualMachineImage] *)
Definition ClusterVirtualMachineImage_Status_v1alpha5_To_hub (src : vmoprv1alpha5.VirtualMachineImageStatus) (dst : vmophub.VirtualMachineImageStatus) : vmophub.VirtualMachineImageStatus :=
  {|
    vmophub.VirtualMachineImageStatus_Name := vmoprv1alpha5.VirtualMachineImageStatus_Name src;
    vmophub.VirtualMachineImageStatus_OSInfo := {|
        vmophub.VirtualMachineImageOSInfo_Type := vmoprv1alpha5.VirtualMachineImageOSInfo_Type (vmoprv1alpha5.VirtualMachineImageStatus_OSInfo src)
      |};
    vmophub.VirtualMachineImageStatus_VMwareSystemProperties := match vmoprv1alpha5.VirtualMachineImageStatus_VMwareSystemProperties src with
      | Some vMwareSystemProperties => Some (map KeyValuePair_v1alpha5_To_hub vMwareSystemProperties)
      | None => vmophub.VirtualMachineImageStatus_VMwareSystemProperties dst
      end;
    vmophub.VirtualMachineImageStatus_ProductInfo := {|
        vmophub.VirtualMachineImageProductInfo_FullVersion := vmoprv1alpha5.VirtualMachineImageProductInfo_FullVersion (vmoprv1alpha5.VirtualMachineImageStatus_ProductInfo src)
      |};
    vmophub.VirtualMachineImageStatus_ProviderItemID := vmoprv1alpha5.VirtualMachineImageStatus_ProviderItemID src;
    vmophub.VirtualMachineImageStatus_Conditions := match vmoprv1alpha5.VirtualMachineImageStatus_Conditions src with
      | Some conditions => Some conditions
      | None => vmophub.VirtualMachineImageStatus_Conditions dst
      end
  |}.

Definition convert_v1alpha5_ClusterVirtualMachineImage_To_hub_ClusterVirtualMachineImage (src : vmoprv1alpha5.ClusterVirtualMachineImage) (dst : vmophub.ClusterVirtualMachineImage) : res vmophub.ClusterVirtualMachineImage :=
  Ok {|
    vmophub.ClusterVirtualMachineImage_ObjectMeta := vmoprv1alpha5.ClusterVirtualMachineImage_ObjectMeta src;
    vmophub.ClusterVirtualMachineImage_Spec := {|
        vmophub.VirtualMachineImageSpec_ProviderRef := match vmoprv1alpha5.VirtualMachineImageSpec_ProviderRef (vmoprv1alpha5.ClusterVirtualMachineImage_Spec src) with Some providerRef => Some (LocalObjectRef_v1alpha5_To_hub providerRef) | None => vmophub.VirtualMachineImageSpec_ProviderRef (vmophub.ClusterVirtualMachineImage_Spec dst) end
      |};
    vmophub.ClusterVirtualMachineImage_Status := ClusterVirtualMachineImage_Status_v1alpha5_To_hub (vmoprv1alpha5.ClusterVirtualMachineImage_Status src) (vmophub.ClusterVirtualMachineImage_Status dst);
    vmophub.ClusterVirtualMachineImage_Source := vmophub.ClusterVirtualMachineImage_Source dst
  |}.

(** ** [convert_hub_ClusterVirtualMachineImage_To_v1alpha5_ClusterVirtualMachineImage] *)
Definition ClusterVirtualMachineImage_Status_hub_To_v1alpha5 (src : vmophub.VirtualMachineImageStatus) (dst : vmoprv1alpha5.VirtualMachineImageStatus) : vmoprv1alpha5.VirtualMachineImageStatus :=
  {|
    vmoprv1alpha5.VirtualMachineImageStatus_Name := vmophub.VirtualMachineImageStatus_Name src;
    vmoprv1alpha5.VirtualMachineImageStatus_OSInfo := {|
        vmoprv1alpha5.VirtualMachineImageOSInfo_Type := vmophub.VirtualMachineImageOSInfo_Type (vmophub.VirtualMachineImageStatus_OSInfo src)
      |};
    vmoprv1alpha5.VirtualMachineImageStatus_VMwareSystemProperties := match vmophub.VirtualMachineImageStatus_VMwareSystemProperties src with
      | Some vMwareSystemProperties => Some (map KeyValuePair_hub_To_v1alpha5 vMwareSystemProperties)
      | None => vmoprv1alpha5.VirtualMachineImageStatus_VMwareSystemProperties dst
      end;
    vmoprv1alpha5.VirtualMachineImageStatus_ProductInfo := {|
        vmoprv1alpha5.VirtualMachineImageProductInfo_FullVersion := vmophub.VirtualMachineImageProductInfo_FullVersion (vmophub.VirtualMachineImageStatus_ProductInfo src)
      |};
    vmoprv1alpha5.VirtualMachineImageStatus_ProviderItemID := vmophub.VirtualMachineImageStatus_ProviderItemID src;
    vmoprv1alpha5.VirtualMachineImageStatus_Conditions := match vmophub.VirtualMachineImageStatus_Conditions src with
      | Some conditions => Some conditions
      | None => vmoprv1alpha5.VirtualMachineImageStatus_Conditions dst
      end
  |}.

Definition convert_hub_ClusterVirtualMachineImage_To_v1alpha5_ClusterVirtualMachineImage (src : vmophub.ClusterVirtualMachineImage) (dst : vmoprv1alpha5.ClusterVirtualMachineImage) : res vmoprv1alpha5.ClusterVirtualMachineImage :=
  Ok {|
    vmoprv1alpha5.ClusterVirtualMachineImage_ObjectMeta := vmophub.ClusterVirtualMachineImage_ObjectMeta src;
    vmoprv1alpha5.ClusterVirtualMachineImage_Spec := {|
        vmoprv1alpha5.VirtualMachineImageSpec_ProviderRef := match vmophub.VirtualMachineImageSpec_ProviderRef (vmophub.ClusterVirtualMachineImage_Spec src) with Some providerRef => Some (LocalObjectRef_hub_To_v1alpha5 providerRef) | None => vmoprv1alpha5.VirtualMachineImageSpec_ProviderRef (vmoprv1alpha5.ClusterVirtualMachineImage_Spec dst) end
      |};
    vmoprv1alpha5.ClusterVirtualMachineImage_Status := ClusterVirtualMachineImage_Status_hub_To_v1alpha5 (vmophub.ClusterVirtualMachineImage_Status src) (vmoprv1alpha5.ClusterVirtualMachineImage_Status dst)
  |}.

(** ** [convert_v1alpha5_VirtualMachineService_To_hub_VirtualMachineService] *)
Definition VirtualMachineServicePort_v1alpha5_To_hub (port : vmoprv1alpha5.VirtualMachineServicePort) : vmophub.VirtualMachineServicePort :=
  {|
    vmophub.VirtualMachineServicePort_Name := vmoprv1alpha5.VirtualMachineServicePort_Name port;
    vmophub.VirtualMachineServicePort_Protocol := vmoprv1alpha5.VirtualMachineServicePort_Protocol port;
    vmophub.VirtualMachineServicePort_Port := vmoprv1alpha5.VirtualMachineServicePort_Port port;
    vmophub.VirtualMachineServicePort_TargetPort := vmoprv1alpha5.VirtualMachineServicePort_TargetPort port
  |}.

Definition LoadBalancerIngress_v1alpha5_To_hub (ingress1 : vmoprv1alpha5.LoadBalancerIngress) : vmophub.LoadBalancerIngress :=
  {|
    vmophub.LoadBalancerIngress_IP := vmoprv1alpha5.LoadBalancerIngress_IP ingress1;
    vmophub.LoadBalancerIngress_Hostname := vmoprv1alpha5.LoadBalancerIngress_Hostname ingress1
  |}.

Definition convert_v1alpha5_VirtualMachineService_To_hub_VirtualMachineService (src : vmoprv1alpha5.VirtualMachineService) (dst : vmophub.VirtualMachineService) : res vmophub.VirtualMachineService :=
  Ok {|
    vmophub.VirtualMachineService_ObjectMeta := vmoprv1alpha5.VirtualMachineService_ObjectMeta src;
    vmophub.VirtualMachineService_Spec := {|
        vmophub.VirtualMachineServiceSpec_Type := vmoprv1alpha5.VirtualMachineServiceSpec_Type (vmoprv1alpha5.VirtualMachineService_Spec src);
        vmophub.VirtualMachineServiceSpec_Ports := match vmoprv1alpha5.VirtualMachineServiceSpec_Ports (vmoprv1alpha5.VirtualMachineService_Spec src) with
          | Some ports => Some (map VirtualMachineServicePort_v1alpha5_To_hub ports)
          | None => vmophub.VirtualMachineServiceSpec_Ports (vmophub.VirtualMachineService_Spec dst)
          end;
        vmophub.VirtualMachineServiceSpec_Selector := vmoprv1alpha5.VirtualMachineServiceSpec_Selector (vmoprv1alpha5.VirtualMachineService_Spec src);
        vmophub.VirtualMachineServiceSpec_IPFamilies := vmophub.VirtualMachineServiceSpec_IPFamilies (vmophub.VirtualMachineService_Spec dst);
        vmophub.VirtualMachineServiceSpec_IPFamilyPolicy := vmophub.VirtualMachineServiceSpec_IPFamilyPolicy (vmophub.VirtualMachineService_Spec dst)
      |};
    vmophub.VirtualMachineService_Status := {|
        vmophub.VirtualMachineServiceStatus_LoadBalancer := {|
            vmophub.LoadBalancerStatus_Ingress := match vmoprv1alpha5.LoadBalancerStatus_Ingress (vmoprv1alpha5.VirtualMachineServiceStatus_LoadBalancer (vmoprv1alpha5.VirtualMachineService_Status src)) with
              | Some ingress => Some (map LoadBalancerIngress_v1alpha5_To_hub ingress)
              | None => vmophub.LoadBalancerStatus_Ingress (vmophub.VirtualMachineServiceStatus_LoadBalancer (vmophub.VirtualMachineService_Status dst))
              end
          |}
      |};
    vmophub.VirtualMachineService_Source := vmophub.VirtualMachineService_Source dst
  |}.

(** ** [convert_hub_VirtualMachineService_To_v1alpha5_VirtualMachineService] *)
Definition VirtualMachineServicePort_hub_To_v1alpha5 (port : vmophub.VirtualMachineServicePort) : vmoprv1alpha5.VirtualMachineServicePort :=
  {|
    vmoprv1alpha5.VirtualMachineServicePort_Name := vmophub.VirtualMachineServicePort_Name port;
    vmoprv1alpha5.VirtualMachineServicePort_Protocol := vmophub.VirtualMachineServicePort_Protocol port;
    vmoprv1alpha5.VirtualMachineServicePort_Port := vmophub.VirtualMachineServicePort_Port port;
    vmoprv1alpha5.VirtualMachineServicePort_TargetPort := vmophub.VirtualMachineServicePort_TargetPort port
  |}.

Definition LoadBalancerIngress_hub_To_v1alpha5 (ingress1 : vmophub.LoadBalancerIngress) : vmoprv1alpha5.LoadBalancerIngress :=
  {|
    vmoprv1alpha5.LoadBalancerIngress_IP := vmophub.LoadBalancerIngress_IP ingress1;
    vmoprv1alpha5.LoadBalancerIngress_Hostname := vmophub.LoadBalancerIngress_Hostname ingress1
  |}.

Definition convert_hub_VirtualMachineService_To_v1alpha5_VirtualMachineService (src : vmophub.VirtualMachineService) (dst : vmoprv1alpha5.VirtualMachineService) : res vmoprv1alpha5.VirtualMachineService :=
  Ok {|
    vmoprv1alpha5.VirtualMachineService_ObjectMeta := vmophub.VirtualMachineService_ObjectMeta src;
    vmoprv1alpha5.VirtualMachineService_Spec := {|
        vmoprv1alpha5.VirtualMachineServiceSpec_Type := vmophub.VirtualMachineServiceSpec_Type (vmophub.VirtualMachineService_Spec src);
        vmoprv1alpha5.VirtualMachineServiceSpec_Ports := match vmophub.VirtualMachineServiceSpec_Ports (vmophub.VirtualMachineService_Spec src) with
          | Some ports => Some (map VirtualMachineServicePort_hub_To_v1alpha5 ports)
          | None => vmoprv1alpha5.VirtualMachineServiceSpec_Ports (vmoprv1alpha5.VirtualMachineService_Spec dst)
          end;
        vmoprv1alpha5.VirtualMachineServiceSpec_Selector := vmophub.VirtualMachineServiceSpec_Selector (vmophub.VirtualMachineService_Spec src)
      |};
    vmoprv1alpha5.VirtualMachineService_Status := {|
        vmoprv1alpha5.VirtualMachineServiceStatus_LoadBalancer := {|
            vmoprv1alpha5.LoadBalancerStatus_Ingress := match vmophub.LoadBalancerStatus_Ingress (vmophub.VirtualMachineServiceStatus_LoadBalancer (vmophub.VirtualMachineService_Status src)) with
              | Some ingress => Some (map LoadBalancerIngress_hub_To_v1alpha5 ingress)
              | None => vmoprv1alpha5.LoadBalancerStatus_Ingress (vmoprv1alpha5.VirtualMachineServiceStatus_LoadBalancer (vmoprv1alpha5.VirtualMachineService_Status dst))
              end
          |}
      |}
  |}.

(** ** [convert_v1alpha5_VirtualMachineSetResourcePolicy_To_hub_VirtualMachineSetResourcePolicy] *)
Definition convert_v1alpha5_VirtualMachineSetResourcePolicy_To_hub_VirtualMachineSetResourcePolicy (src : vmoprv1alpha5.VirtualMachineSetResourcePolicy) (dst : vmophub.VirtualMachineSetResourcePolicy) : res vmophub.VirtualMachineSetResourcePolicy :=
  Ok {|
    vmophub.VirtualMachineSetResourcePolicy_ObjectMeta := vmoprv1alpha5.VirtualMachineSetResourcePolicy_ObjectMeta src;
    vmophub.VirtualMachineSetResourcePolicy_Spec := {|
        vmophub.VirtualMachineSetResourcePolicySpec_ResourcePool := {|
            vmophub.ResourcePoolSpec_Name := vmoprv1alpha5.ResourcePoolSpec_Name (vmoprv1alpha5.VirtualMachineSetResourcePolicySpec_ResourcePool (vmoprv1alpha5.VirtualMachineSetResourcePolicy_Spec src))
          |};
        vmophub.VirtualMachineSetResourcePolicySpec_Folder := vmoprv1alpha5.VirtualMachineSetResourcePolicySpec_Folder (vmoprv1alpha5.VirtualMachineSetResourcePolicy_Spec src);
        vmophub.VirtualMachineSetResourcePolicySpec_ClusterModuleGroups := vmoprv1alpha5.VirtualMachineSetResourcePolicySpec_ClusterModuleGroups (vmoprv1alpha5.VirtualMachineSetResourcePolicy_Spec src)
      |};
    vmophub.VirtualMachineSetResourcePolicy_Status := vmophub.VirtualMachineSetResourcePolicy_Status dst;
    vmophub.VirtualMachineSetResourcePolicy_Source := vmophub.VirtualMachineSetResourcePolicy_Source dst
  |}.

(** ** [convert_hub_VirtualMachineSetResourcePolicy_To_v1alpha5_VirtualMachineSetResourcePolicy] *)
Definition convert_hub_VirtualMachineSetResourcePolicy_To_v1alpha5_VirtualMachineSetResourcePolicy (src : vmophub.VirtualMachineSetResourcePolicy) (dst : vmoprv1alpha5.VirtualMachineSetResourcePolicy) : res vmoprv1alpha5.VirtualMachineSetResourcePolicy :=
  Ok {|
    vmoprv1alpha5.VirtualMachineSetResourcePolicy_ObjectMeta := vmophub.VirtualMachineSetResourcePolicy_ObjectMeta src;
    vmoprv1alpha5.VirtualMachineSetResourcePolicy_Spec := {|
        vmoprv1alpha5.VirtualMachineSetResourcePolicySpec_ResourcePool := {|
            vmoprv1alpha5.ResourcePoolSpec_Name := vmophub.ResourcePoolSpec_Name (vmophub.VirtualMachineSetResourcePolicySpec_ResourcePool (vmophub.VirtualMachineSetResourcePolicy_Spec src))
          |};
        vmoprv1alpha5.VirtualMachineSetResourcePolicySpec_Folder := vmophub.VirtualMachineSetResourcePolicySpec_Folder (vmophub.VirtualMachineSetResourcePolicy_Spec src);
        vmoprv1alpha5.VirtualMachineSetResourcePolicySpec_ClusterModuleGroups := vmophub.VirtualMachineSetResourcePolicySpec_ClusterModuleGroups (vmophub.VirtualMachineSetResourcePolicy_Spec src)
      |}
  |}.

(** * v1alpha6 *)

(** ** [convert_v1alpha6_VirtualMachine_To_hub_VirtualMachine] *)
Definition VMAffinityTerm_v1alpha6_To_hub (term : vmoprv1alpha6.VMAffinityTerm) : vmophub.VMAffinityTerm :=
  {|
    vmophub.VMAffinityTerm_LabelSelector := vmoprv1alpha6.VMAffinityTerm_LabelSelector term;
    vmophub.VMAffinityTerm_TopologyKey := vmoprv1alpha6.VMAffinityTerm_TopologyKey term
  |}.

Definition VMAffinitySpec_v1alpha6_To_hub (vMAffinity : vmoprv1alpha6.VMAffinitySpec) : vmophub.VMAffinitySpec :=
  {|
    vmophub.VMAffinitySpec_RequiredDuringSchedulingPreferredDuringExecution := option_map (map VMAffinityTerm_v1alpha6_To_hub) (vmoprv1alpha6.VMAffinitySpec_RequiredDuringSchedulingPreferredDuringExecution vMAffinity)
  |}.

Definition VMAntiAffinitySpec_v1alpha6_To_hub (vMAntiAffinity : vmoprv1alpha6.VMAntiAffinitySpec) : vmophub.VMAntiAffinitySpec :=
  {|
    vmophub.VMAntiAffinitySpec_PreferredDuringSchedulingPreferredDuringExecution := option_map (map VMAffinityTerm_v1alpha6_To_hub) (vmoprv1alpha6.VMAntiAffinitySpec_PreferredDuringSchedulingPreferredDuringExecution vMAntiAffinity)
  |}.

Definition AffinitySpec_v1alpha6_To_hub (affinity : vmoprv1alpha6.AffinitySpec) : vmophub.AffinitySpec :=
  {|
    vmophub.AffinitySpec_VMAffinity := option_map VMAffinitySpec_v1alpha6_To_hub (vmoprv1alpha6.AffinitySpec_VMAffinity affinity);
    vmophub.AffinitySpec_VMAntiAffinity := option_map VMAntiAffinitySpec_v1alpha6_To_hub (vmoprv1alpha6.AffinitySpec_VMAntiAffinity affinity)
  |}.

Definition SecretKeySelector_v1alpha6_To_hub (rawCloudConfig : vmoprv1alpha6.SecretKeySelector) : vmophub.SecretKeySelector :=
  {|
    vmophub.SecretKeySelector_Name := vmoprv1alpha6.SecretKeySelector_Name rawCloudConfig;
    vmophub.SecretKeySelector_Key := vmoprv1alpha6.SecretKeySelector_Key rawCloudConfig
  |}.

Definition VirtualMachineBootstrapCloudInitSpec_v1alpha6_To_hub (cloudInit : vmoprv1alpha6.VirtualMachineBootstrapCloudInitSpec) : vmophub.VirtualMachineBootstrapCloudInitSpec :=
  {|
    vmophub.VirtualMachineBootstrapCloudInitSpec_RawCloudConfig := option_map SecretKeySelector_v1alpha6_To_hub (vmoprv1alpha6.VirtualMachineBootstrapCloudInitSpec_RawCloudConfig cloudInit)
  |}.

Definition VirtualMachineBootstrapSpec_v1alpha6_To_hub (bootstrap : vmoprv1alpha6.VirtualMachineBootstrapSpec) : vmophub.VirtualMachineBootstrapSpec :=
  {|
    vmophub.VirtualMachineBootstrapSpec_CloudInit := option_map VirtualMachineBootstrapCloudInitSpec_v1alpha6_To_hub (vmoprv1alpha6.VirtualMachineBootstrapSpec_CloudInit bootstrap)
  |}.

Definition PartialObjectRef_v1alpha6_To_hub (network1 : vmoprv1alpha6.PartialObjectRef) : vmophub.PartialObjectRef :=
  {|
    vmophub.PartialObjectRef_TypeMeta := {|
        TypeMeta_Kind := TypeMeta_Kind (vmoprv1alpha6.PartialObjectRef_TypeMeta network1);
        TypeMeta_APIVersion := TypeMeta_APIVersion (vmoprv1alpha6.PartialObjectRef_TypeMeta network1)
      |};
    vmophub.PartialObjectRef_Name := vmoprv1alpha6.PartialObjectRef_Name network1
  |}.

Definition VirtualMachineNetworkRouteSpec_v1alpha6_To_hub (route : vmoprv1alpha6.VirtualMachineNetworkRouteSpec) : vmophub.VirtualMachineNetworkRouteSpec :=
  {|
    vmophub.VirtualMachineNetworkRouteSpec_To := vmoprv1alpha6.VirtualMachineNetworkRouteSpec_To route;
    vmophub.VirtualMachineNetworkRouteSpec_Via := vmoprv1alpha6.VirtualMachineNetworkRouteSpec_Via route;
    vmophub.VirtualMachineNetworkRouteSpec_Metric := vmoprv1alpha6.VirtualMachineNetworkRouteSpec_Metric route
  |}.

Definition VirtualMachineNetworkInterfaceVMXNet3Spec_v1alpha6_To_hub (vMXNet3 : vmoprv1alpha6.VirtualMachineNetworkInterfaceVMXNet3Spec) : vmophub.VirtualMachineNetworkInterfaceVMXNet3Spec :=
  {|
    vmophub.VirtualMachineNetworkInterfaceVMXNet3Spec_UPTv2Enabled := vmoprv1alpha6.VirtualMachineNetworkInterfaceVMXNet3Spec_UPTv2Enabled vMXNet3;
    vmophub.VirtualMachineNetworkInterfaceVMXNet3Spec_CtxPerDev := vmoprv1alpha6.VirtualMachineNetworkInterfaceVMXNet3Spec_CtxPerDev vMXNet3;
    vmophub.VirtualMachineNetworkInterfaceVMXNet3Spec_RSSOffloadEnabled := vmoprv1alpha6.VirtualMachineNetworkInterfaceVMXNet3Spec_RSSOffloadEnabled vMXNet3;
    vmophub.VirtualMachineNetworkInterfaceVMXNet3Spec_UDPRSSEnabled := vmoprv1alpha6.VirtualMachineNetworkInterfaceVMXNet3Spec_UDPRSSEnabled vMXNet3;
    vmophub.VirtualMachineNetworkInterfaceVMXNet3Spec_PNICFeatures := append_each id (vmoprv1alpha6.VirtualMachineNetworkInterfaceVMXNet3Spec_PNICFeatures vMXNet3);
    vmophub.VirtualMachineNetworkInterfaceVMXNet3Spec_CoalescingScheme := vmoprv1alpha6.VirtualMachineNetworkInterfaceVMXNet3Spec_CoalescingScheme vMXNet3;
    vmophub.VirtualMachineNetworkInterfaceVMXNet3Spec_CoalescingParams := vmoprv1alpha6.VirtualMachineNetworkInterfaceVMXNet3Spec_CoalescingParams vMXNet3
  |}.

Definition KeyValuePair_v1alpha6_To_hub (ap : vmoprv1alpha6.KeyValuePair) : vmophub.KeyValuePair :=
  {|
    vmophub.KeyValuePair_Key := vmoprv1alpha6.KeyValuePair_Key ap;
    vmophub.KeyValuePair_Value := vmoprv1alpha6.KeyValuePair_Value ap
  |}.

Definition VirtualMachineNetworkInterfaceSpec_v1alpha6_To_hub (iface : vmoprv1alpha6.VirtualMachineNetworkInterfaceSpec) : vmophub.VirtualMachineNetworkInterfaceSpec :=
  {|
    vmophub.VirtualMachineNetworkInterfaceSpec_Name := vmoprv1alpha6.VirtualMachineNetworkInterfaceSpec_Name iface;
    vmophub.VirtualMachineNetworkInterfaceSpec_Network := option_map PartialObjectRef_v1alpha6_To_hub (vmoprv1alpha6.VirtualMachineNetworkInterfaceSpec_Network iface);
    vmophub.VirtualMachineNetworkInterfaceSpec_GuestDeviceName := vmoprv1alpha6.VirtualMachineNetworkInterfaceSpec_GuestDeviceName iface;
    vmophub.VirtualMachineNetworkInterfaceSpec_MACAddr := vmoprv1alpha6.VirtualMachineNetworkInterfaceSpec_MACAddr iface;
    vmophub.VirtualMachineNetworkInterfaceSpec_Addresses := vmoprv1alpha6.VirtualMachineNetworkInterfaceSpec_Addresses iface;
    vmophub.VirtualMachineNetworkInterfaceSpec_DHCP4 := vmoprv1alpha6.VirtualMachineNetworkInterfaceSpec_DHCP4 iface;
    vmophub.VirtualMachineNetworkInterfaceSpec_DHCP6 := vmoprv1alpha6.VirtualMachineNetworkInterfaceSpec_DHCP6 iface;
    vmophub.VirtualMachineNetworkInterfaceSpec_Gateway4 := vmoprv1alpha6.VirtualMachineNetworkInterfaceSpec_Gateway4 iface;
    vmophub.VirtualMachineNetworkInterfaceSpec_Gateway6 := vmoprv1alpha6.VirtualMachineNetworkInterfaceSpec_Gateway6 iface;
    vmophub.VirtualMachineNetworkInterfaceSpec_MTU := vmoprv1alpha6.VirtualMachineNetworkInterfaceSpec_MTU iface;
    vmophub.VirtualMachineNetworkInterfaceSpec_Nameservers := vmoprv1alpha6.VirtualMachineNetworkInterfaceSpec_Nameservers iface;
    vmophub.VirtualMachineNetworkInterfaceSpec_Routes := option_map (map VirtualMachineNetworkRouteSpec_v1alpha6_To_hub) (vmoprv1alpha6.VirtualMachineNetworkInterfaceSpec_Routes iface);
    vmophub.VirtualMachineNetworkInterfaceSpec_SearchDomains := vmoprv1alpha6.VirtualMachineNetworkInterfaceSpec_SearchDomains iface;
    vmophub.VirtualMachineNetworkInterfaceSpec_Type := vmoprv1alpha6.VirtualMachineNetworkInterfaceSpec_Type iface;
    vmophub.VirtualMachineNetworkInterfaceSpec_VNUMANodeID := vmoprv1alpha6.VirtualMachineNetworkInterfaceSpec_VNUMANodeID iface;
    vmophub.VirtualMachineNetworkInterfaceSpec_VMXNet3 := option_map VirtualMachineNetworkInterfaceVMXNet3Spec_v1alpha6_To_hub (vmoprv1alpha6.VirtualMachineNetworkInterfaceSpec_VMXNet3 iface);
    vmophub.VirtualMachineNetworkInterfaceSpec_AdvancedProperties := append_each KeyValuePair_v1alpha6_To_hub (vmoprv1alpha6.VirtualMachineNetworkInterfaceSpec_AdvancedProperties iface);
    vmophub.VirtualMachineNetworkInterfaceSpec_IPAMModes := vmoprv1alpha6.VirtualMachineNetworkInterfaceSpec_IPAMModes iface
  |}.

Definition VirtualMachineNetworkVLANSpec_v1alpha6_To_hub (vlan : vmoprv1alpha6.VirtualMachineNetworkVLANSpec) : vmophub.VirtualMachineNetworkVLANSpec :=
  {|
    vmophub.VirtualMachineNetworkVLANSpec_Name := vmoprv1alpha6.VirtualMachineNetworkVLANSpec_Name vlan;
    vmophub.VirtualMachineNetworkVLANSpec_ID := vmoprv1alpha6.VirtualMachineNetworkVLANSpec_ID vlan;
    vmophub.VirtualMachineNetworkVLANSpec_Link := vmoprv1alpha6.VirtualMachineNetworkVLANSpec_Link vlan
  |}.

Definition VirtualMachineNetworkSpec_v1alpha6_To_hub (network : vmoprv1alpha6.VirtualMachineNetworkSpec) : vmophub.VirtualMachineNetworkSpec :=
  {|
    vmophub.VirtualMachineNetworkSpec_Interfaces := option_map (map VirtualMachineNetworkInterfaceSpec_v1alpha6_To_hub) (vmoprv1alpha6.VirtualMachineNetworkSpec_Interfaces network);
    vmophub.VirtualMachineNetworkSpec_VLANs := option_map (map VirtualMachineNetworkVLANSpec_v1alpha6_To_hub) (vmoprv1alpha6.VirtualMachineNetworkSpec_VLANs network)
  |}.

Definition InstanceVolumeClaimVolumeSource_v1alpha6_To_hub (instanceVolumeClaim : vmoprv1alpha6.InstanceVolumeClaimVolumeSource) : vmophub.InstanceVolumeClaimVolumeSource :=
  {|
    vmophub.InstanceVolumeClaimVolumeSource_StorageClass := vmoprv1alpha6.InstanceVolumeClaimVolumeSource_StorageClass instanceVolumeClaim;
    vmophub.InstanceVolumeClaimVolumeSource_Size := vmoprv1alpha6.InstanceVolumeClaimVolumeSource_Size instanceVolumeClaim
  |}.

Definition PersistentVolumeClaimVolumeSource_v1alpha6_To_hub (persistentVolumeClaim : vmoprv1alpha6.PersistentVolumeClaimVolumeSource) : vmophub.PersistentVolumeClaimVolumeSource :=
  {|
    vmophub.PersistentVolumeClaimVolumeSource_PersistentVolumeClaimVolumeSource := {|
        CorePersistentVolumeClaimVolumeSource_ClaimName := CorePersistentVolumeClaimVolumeSource_ClaimName (vmoprv1alpha6.PersistentVolumeClaimVolumeSource_PersistentVolumeClaimVolumeSource persistentVolumeClaim);
        CorePersistentVolumeClaimVolumeSource_ReadOnly := CorePersistentVolumeClaimVolumeSource_ReadOnly (vmoprv1alpha6.PersistentVolumeClaimVolumeSource_PersistentVolumeClaimVolumeSource persistentVolumeClaim)
      |};
    vmophub.PersistentVolumeClaimVolumeSource_InstanceVolumeClaim := option_map InstanceVolumeClaimVolumeSource_v1alpha6_To_hub (vmoprv1alpha6.PersistentVolumeClaimVolumeSource_InstanceVolumeClaim persistentVolumeClaim)
  |}.

Definition VirtualMachineVolume_v1alpha6_To_hub (volume : vmoprv1alpha6.VirtualMachineVolume) : vmophub.VirtualMachineVolume :=
  {|
    vmophub.VirtualMachineVolume_Name := vmoprv1alpha6.VirtualMachineVolume_Name volume;
    vmophub.VirtualMachineVolume_VirtualMachineVolumeSource := {|
        vmophub.VirtualMachineVolumeSource_PersistentVolumeClaim := option_map PersistentVolumeClaimVolumeSource_v1alpha6_To_hub (vmoprv1alpha6.VirtualMachineVolumeSource_PersistentVolumeClaim (vmoprv1alpha6.VirtualMachineVolume_VirtualMachineVolumeSource volume))
      |};
    vmophub.VirtualMachineVolume_Removable := vmoprv1alpha6.VirtualMachineVolume_Removable volume;
    vmophub.VirtualMachineVolume_ApplicationType := vmoprv1alpha6.VirtualMachineVolume_ApplicationType volume;
    vmophub.VirtualMachineVolume_ControllerBusNumber := vmoprv1alpha6.VirtualMachineVolume_ControllerBusNumber volume;
    vmophub.VirtualMachineVolume_ControllerType := vmoprv1alpha6.VirtualMachineVolume_ControllerType volume;
    vmophub.VirtualMachineVolume_DiskMode := vmoprv1alpha6.VirtualMachineVolume_DiskMode volume;
    vmophub.VirtualMachineVolume_SharingMode := vmoprv1alpha6.VirtualMachineVolume_SharingMode volume;
    vmophub.VirtualMachineVolume_UnitNumber := vmoprv1alpha6.VirtualMachineVolume_UnitNumber volume
  |}.

Definition TCPSocketAction_v1alpha6_To_hub (tCPSocket : vmoprv1alpha6.TCPSocketAction) : vmophub.TCPSocketAction :=
  {|
    vmophub.TCPSocketAction_Port := vmoprv1alpha6.TCPSocketAction_Port tCPSocket;
    vmophub.TCPSocketAction_Host := vmoprv1alpha6.TCPSocketAction_Host tCPSocket
  |}.

Definition VirtualMachineReadinessProbeSpec_v1alpha6_To_hub (readinessProbe : vmoprv1alpha6.VirtualMachineReadinessProbeSpec) : vmophub.VirtualMachineReadinessProbeSpec :=
  {|
    vmophub.VirtualMachineReadinessProbeSpec_TCPSocket := option_map TCPSocketAction_v1alpha6_To_hub (vmoprv1alpha6.VirtualMachineReadinessProbeSpec_TCPSocket readinessProbe)
  |}.

Definition VirtualMachineReservedSpec_v1alpha6_To_hub (reserved : vmoprv1alpha6.VirtualMachineReservedSpec) : vmophub.VirtualMachineReservedSpec :=
  {|
    vmophub.VirtualMachineReservedSpec_ResourcePolicyName := vmoprv1alpha6.VirtualMachineReservedSpec_ResourcePolicyName reserved
  |}.

Definition PolicySpec_v1alpha6_To_hub (p : vmoprv1alpha6.PolicySpec) : vmophub.PolicySpec :=
  {|
    vmophub.PolicySpec_APIVersion := vmoprv1alpha6.PolicySpec_APIVersion p;
    vmophub.PolicySpec_Kind := vmoprv1alpha6.PolicySpec_Kind p;
    vmophub.PolicySpec_Name := vmoprv1alpha6.PolicySpec_Name p
  |}.

Definition VirtualMachineNetworkDHCPStatus_v1alpha6_To_hub (dhcp : vmoprv1alpha6.VirtualMachineNetworkDHCPStatus) : vmophub.VirtualMachineNetworkDHCPStatus :=
  {|
    vmophub.VirtualMachineNetworkDHCPStatus_IP4 := {|
        vmophub.VirtualMachineNetworkDHCPOptionsStatus_Config := option_map (map KeyValuePair_v1alpha6_To_hub) (vmoprv1alpha6.VirtualMachineNetworkDHCPOptionsStatus_Config (vmoprv1alpha6.VirtualMachineNetworkDHCPStatus_IP4 dhcp));
        vmophub.VirtualMachineNetworkDHCPOptionsStatus_Enabled := vmoprv1alpha6.VirtualMachineNetworkDHCPOptionsStatus_Enabled (vmoprv1alpha6.VirtualMachineNetworkDHCPStatus_IP4 dhcp)
      |};
    vmophub.VirtualMachineNetworkDHCPStatus_IP6 := {|
        vmophub.VirtualMachineNetworkDHCPOptionsStatus_Config := option_map (map KeyValuePair_v1alpha6_To_hub) (vmoprv1alpha6.VirtualMachineNetworkDHCPOptionsStatus_Config (vmoprv1alpha6.VirtualMachineNetworkDHCPStatus_IP6 dhcp));
        vmophub.VirtualMachineNetworkDHCPOptionsStatus_Enabled := vmoprv1alpha6.VirtualMachineNetworkDHCPOptionsStatus_Enabled (vmoprv1alpha6.VirtualMachineNetworkDHCPStatus_IP6 dhcp)
      |}
  |}.

Definition VirtualMachineNetworkInterfaceIPAddrStatus_v1alpha6_To_hub (addr : vmoprv1alpha6.VirtualMachineNetworkInterfaceIPAddrStatus) : vmophub.VirtualMachineNetworkInterfaceIPAddrStatus :=
  {|
    vmophub.VirtualMachineNetworkInterfaceIPAddrStatus_Address := vmoprv1alpha6.VirtualMachineNetworkInterfaceIPAddrStatus_Address addr;
    vmophub.VirtualMachineNetworkInterfaceIPAddrStatus_Lifetime := vmoprv1alpha6.VirtualMachineNetworkInterfaceIPAddrStatus_Lifetime addr;
    vmophub.VirtualMachineNetworkInterfaceIPAddrStatus_Origin := vmoprv1alpha6.VirtualMachineNetworkInterfaceIPAddrStatus_Origin addr;
    vmophub.VirtualMachineNetworkInterfaceIPAddrStatus_State := vmoprv1alpha6.VirtualMachineNetworkInterfaceIPAddrStatus_State addr
  |}.

Definition VirtualMachineNetworkInterfaceIPStatus_v1alpha6_To_hub (ip : vmoprv1alpha6.VirtualMachineNetworkInterfaceIPStatus) : vmophub.VirtualMachineNetworkInterfaceIPStatus :=
  {|
    vmophub.VirtualMachineNetworkInterfaceIPStatus_AutoConfigurationEnabled := vmoprv1alpha6.VirtualMachineNetworkInterfaceIPStatus_AutoConfigurationEnabled ip;
    vmophub.VirtualMachineNetworkInterfaceIPStatus_DHCP := option_map VirtualMachineNetworkDHCPStatus_v1alpha6_To_hub (vmoprv1alpha6.VirtualMachineNetworkInterfaceIPStatus_DHCP ip);
    vmophub.VirtualMachineNetworkInterfaceIPStatus_Addresses := option_map (map VirtualMachineNetworkInterfaceIPAddrStatus_v1alpha6_To_hub) (vmoprv1alpha6.VirtualMachineNetworkInterfaceIPStatus_Addresses ip);
    vmophub.VirtualMachineNetworkInterfaceIPStatus_MACAddr := vmoprv1alpha6.VirtualMachineNetworkInterfaceIPStatus_MACAddr ip
  |}.

Definition VirtualMachineNetworkDNSStatus_v1alpha6_To_hub (dns : vmoprv1alpha6.VirtualMachineNetworkDNSStatus) : vmophub.VirtualMachineNetworkDNSStatus :=
  {|
    vmophub.VirtualMachineNetworkDNSStatus_DHCP := vmoprv1alpha6.VirtualMachineNetworkDNSStatus_DHCP dns;
    vmophub.VirtualMachineNetworkDNSStatus_HostName := vmoprv1alpha6.VirtualMachineNetworkDNSStatus_HostName dns;
    vmophub.VirtualMachineNetworkDNSStatus_DomainName := vmoprv1alpha6.VirtualMachineNetworkDNSStatus_DomainName dns;
    vmophub.VirtualMachineNetworkDNSStatus_Nameservers := vmoprv1alpha6.VirtualMachineNetworkDNSStatus_Nameservers dns;
    vmophub.VirtualMachineNetworkDNSStatus_SearchDomains := vmoprv1alpha6.VirtualMachineNetworkDNSStatus_SearchDomains dns
  |}.

Definition VirtualMachineNetworkInterfaceStatus_v1alpha6_To_hub (iface : vmoprv1alpha6.VirtualMachineNetworkInterfaceStatus) : vmophub.VirtualMachineNetworkInterfaceStatus :=
  {|
    vmophub.VirtualMachineNetworkInterfaceStatus_Name := vmoprv1alpha6.VirtualMachineNetworkInterfaceStatus_Name iface;
    vmophub.VirtualMachineNetworkInterfaceStatus_DeviceKey := vmoprv1alpha6.VirtualMachineNetworkInterfaceStatus_DeviceKey iface;
    vmophub.VirtualMachineNetworkInterfaceStatus_IP := option_map VirtualMachineNetworkInterfaceIPStatus_v1alpha6_To_hub (vmoprv1alpha6.VirtualMachineNetworkInterfaceStatus_IP iface);
    vmophub.VirtualMachineNetworkInterfaceStatus_DNS := option_map VirtualMachineNetworkDNSStatus_v1alpha6_To_hub (vmoprv1alpha6.VirtualMachineNetworkInterfaceStatus_DNS iface)
  |}.

Definition VirtualMachineNetworkStatus_v1alpha6_To_hub (network1 : vmoprv1alpha6.VirtualMachineNetworkStatus) : vmophub.VirtualMachineNetworkStatus :=
  {|
    vmophub.VirtualMachineNetworkStatus_HostName := vmoprv1alpha6.VirtualMachineNetworkStatus_HostName network1;
    vmophub.VirtualMachineNetworkStatus_Interfaces := option_map (map VirtualMachineNetworkInterfaceStatus_v1alpha6_To_hub) (vmoprv1alpha6.VirtualMachineNetworkStatus_Interfaces network1);
    vmophub.VirtualMachineNetworkStatus_PrimaryIP4 := vmoprv1alpha6.VirtualMachineNetworkStatus_PrimaryIP4 network1;
    vmophub.VirtualMachineNetworkStatus_PrimaryIP6 := vmoprv1alpha6.VirtualMachineNetworkStatus_PrimaryIP6 network1
  |}.

Definition PolicyStatus_v1alpha6_To_hub (p : vmoprv1alpha6.PolicyStatus) : vmophub.PolicyStatus :=
  {|
    vmophub.PolicyStatus_PolicySpec := {|
        vmophub.PolicySpec_APIVersion := vmoprv1alpha6.PolicySpec_APIVersion (vmoprv1alpha6.PolicyStatus_PolicySpec p);
        vmophub.PolicySpec_Kind := vmoprv1alpha6.PolicySpec_Kind (vmoprv1alpha6.PolicyStatus_PolicySpec p);
        vmophub.PolicySpec_Name := vmoprv1alpha6.PolicySpec_Name (vmoprv1alpha6.PolicyStatus_PolicySpec p)
      |};
    vmophub.PolicyStatus_Generation := vmoprv1alpha6.PolicyStatus_Generation p
  |}.

Definition VirtualMachineSpec_v1alpha6_To_hub (src : vmoprv1alpha6.VirtualMachineSpec) (dst : vmophub.VirtualMachineSpec) : vmophub.VirtualMachineSpec :=
  {|
    vmophub.VirtualMachineSpec_ImageName := vmoprv1alpha6.VirtualMachineSpec_ImageName src;
    vmophub.VirtualMachineSpec_ClassName := vmoprv1alpha6.VirtualMachineSpec_ClassName src;
    vmophub.VirtualMachineSpec_Affinity := match vmoprv1alpha6.VirtualMachineSpec_Affinity src with Some affinity => Some (AffinitySpec_v1alpha6_To_hub affinity) | None => vmophub.VirtualMachineSpec_Affinity dst end;
    vmophub.VirtualMachineSpec_StorageClass := vmoprv1alpha6.VirtualMachineSpec_StorageClass src;
    vmophub.VirtualMachineSpec_Bootstrap := match vmoprv1alpha6.VirtualMachineSpec_Bootstrap src with Some bootstrap => Some (VirtualMachineBootstrapSpec_v1alpha6_To_hub bootstrap) | None => vmophub.VirtualMachineSpec_Bootstrap dst end;
    vmophub.VirtualMachineSpec_Network := match vmoprv1alpha6.VirtualMachineSpec_Network src with Some network => Some (VirtualMachineNetworkSpec_v1alpha6_To_hub network) | None => vmophub.VirtualMachineSpec_Network dst end;
    vmophub.VirtualMachineSpec_PowerState := vmoprv1alpha6.VirtualMachineSpec_PowerState src;
    vmophub.VirtualMachineSpec_PowerOffMode := vmoprv1alpha6.VirtualMachineSpec_PowerOffMode src;
    vmophub.VirtualMachineSpec_Volumes := match vmoprv1alpha6.VirtualMachineSpec_Volumes src with
      | Some volumes => Some (map VirtualMachineVolume_v1alpha6_To_hub volumes)
      | None => vmophub.VirtualMachineSpec_Volumes dst
      end;
    vmophub.VirtualMachineSpec_ReadinessProbe := match vmoprv1alpha6.VirtualMachineSpec_ReadinessProbe src with Some readinessProbe => Some (VirtualMachineReadinessProbeSpec_v1alpha6_To_hub readinessProbe) | None => vmophub.VirtualMachineSpec_ReadinessProbe dst end;
    vmophub.VirtualMachineSpec_Reserved := match vmoprv1alpha6.VirtualMachineSpec_Reserved src with Some reserved => Some (VirtualMachineReservedSpec_v1alpha6_To_hub reserved) | None => vmophub.VirtualMachineSpec_Reserved dst end;
    vmophub.VirtualMachineSpec_MinHardwareVersion := vmoprv1alpha6.VirtualMachineSpec_MinHardwareVersion src;
    vmophub.VirtualMachineSpec_GroupName := vmoprv1alpha6.VirtualMachineSpec_GroupName src;
    vmophub.VirtualMachineSpec_Policies := match vmoprv1alpha6.VirtualMachineSpec_Policies src with
      | Some policies => Some (map PolicySpec_v1alpha6_To_hub policies)
      | None => vmophub.VirtualMachineSpec_Policies dst
      end
  |}.

Definition VirtualMachineStatus_v1alpha6_To_hub (src : vmoprv1alpha6.VirtualMachineStatus) (dst : vmophub.VirtualMachineStatus) : vmophub.VirtualMachineStatus :=
  {|
    vmophub.VirtualMachineStatus_NodeName := vmoprv1alpha6.VirtualMachineStatus_NodeName src;
    vmophub.VirtualMachineStatus_PowerState := vmoprv1alpha6.VirtualMachineStatus_PowerState src;
    vmophub.VirtualMachineStatus_Conditions := match vmoprv1alpha6.VirtualMachineStatus_Conditions src with
      | Some conditions => Some conditions
      | None => vmophub.VirtualMachineStatus_Conditions dst
      end;
    vmophub.VirtualMachineStatus_Network := match vmoprv1alpha6.VirtualMachineStatus_Network src with Some network1 => Some (VirtualMachineNetworkStatus_v1alpha6_To_hub network1) | None => vmophub.VirtualMachineStatus_Network dst end;
    vmophub.VirtualMachineStatus_BiosUUID := vmoprv1alpha6.VirtualMachineStatus_BiosUUID src;
    vmophub.VirtualMachineStatus_Zone := vmoprv1alpha6.VirtualMachineStatus_Zone src;
    vmophub.VirtualMachineStatus_Policies := match vmoprv1alpha6.VirtualMachineStatus_Policies src with
      | Some policies1 => Some (map PolicyStatus_v1alpha6_To_hub policies1)
      | None => vmophub.VirtualMachineStatus_Policies dst
      end
  |}.

Definition convert_v1alpha6_VirtualMachine_To_hub_VirtualMachine (src : vmoprv1alpha6.VirtualMachine) (dst : vmophub.VirtualMachine) : res vmophub.VirtualMachine :=
  Ok {|
    vmophub.VirtualMachine_ObjectMeta := vmoprv1alpha6.VirtualMachine_ObjectMeta src;
    vmophub.VirtualMachine_Spec := VirtualMachineSpec_v1alpha6_To_hub (vmoprv1alpha6.VirtualMachine_Spec src) (vmophub.VirtualMachine_Spec dst);
    vmophub.VirtualMachine_Status := VirtualMachineStatus_v1alpha6_To_hub (vmoprv1alpha6.VirtualMachine_Status src) (vmophub.VirtualMachine_Status dst);
    vmophub.VirtualMachine_Source := vmophub.VirtualMachine_Source dst
  |}.

(** ** [convert_hub_VirtualMachine_To_v1alpha6_VirtualMachine] *)
Definition VMAffinityTerm_hub_To_v1alpha6 (term : vmophub.VMAffinityTerm) : vmoprv1alpha6.VMAffinityTerm :=
  {|
    vmoprv1alpha6.VMAffinityTerm_LabelSelector := vmophub.VMAffinityTerm_LabelSelector term;
    vmoprv1alpha6.VMAffinityTerm_TopologyKey := vmophub.VMAffinityTerm_TopologyKey term
  |}.

Definition VMAffinitySpec_hub_To_v1alpha6 (vMAffinity : vmophub.VMAffinitySpec) : vmoprv1alpha6.VMAffinitySpec :=
  {|
    vmoprv1alpha6.VMAffinitySpec_RequiredDuringSchedulingPreferredDuringExecution := option_map (map VMAffinityTerm_hub_To_v1alpha6) (vmophub.VMAffinitySpec_RequiredDuringSchedulingPreferredDuringExecution vMAffinity)
  |}.

Definition VMAntiAffinitySpec_hub_To_v1alpha6 (vMAntiAffinity : vmophub.VMAntiAffinitySpec) : vmoprv1alpha6.VMAntiAffinitySpec :=
  {|
    vmoprv1alpha6.VMAntiAffinitySpec_PreferredDuringSchedulingPreferredDuringExecution := option_map (map VMAffinityTerm_hub_To_v1alpha6) (vmophub.VMAntiAffinitySpec_PreferredDuringSchedulingPreferredDuringExecution vMAntiAffinity)
  |}.

Definition AffinitySpec_hub_To_v1alpha6 (affinity : vmophub.AffinitySpec) : vmoprv1alpha6.AffinitySpec :=
  {|
    vmoprv1alpha6.AffinitySpec_VMAffinity := option_map VMAffinitySpec_hub_To_v1alpha6 (vmophub.AffinitySpec_VMAffinity affinity);
    vmoprv1alpha6.AffinitySpec_VMAntiAffinity := option_map VMAntiAffinitySpec_hub_To_v1alpha6 (vmophub.AffinitySpec_VMAntiAffinity affinity)
  |}.

Definition SecretKeySelector_hub_To_v1alpha6 (rawCloudConfig : vmophub.SecretKeySelector) : vmoprv1alpha6.SecretKeySelector :=
  {|
    vmoprv1alpha6.SecretKeySelector_Name := vmophub.SecretKeySelector_Name rawCloudConfig;
    vmoprv1alpha6.SecretKeySelector_Key := vmophub.SecretKeySelector_Key rawCloudConfig
  |}.

Definition VirtualMachineBootstrapCloudInitSpec_hub_To_v1alpha6 (cloudInit : vmophub.VirtualMachineBootstrapCloudInitSpec) : vmoprv1alpha6.VirtualMachineBootstrapCloudInitSpec :=
  {|
    vmoprv1alpha6.VirtualMachineBootstrapCloudInitSpec_RawCloudConfig := option_map SecretKeySelector_hub_To_v1alpha6 (vmophub.VirtualMachineBootstrapCloudInitSpec_RawCloudConfig cloudInit)
  |}.

Definition VirtualMachineBootstrapSpec_hub_To_v1alpha6 (bootstrap : vmophub.VirtualMachineBootstrapSpec) : vmoprv1alpha6.VirtualMachineBootstrapSpec :=
  {|
    vmoprv1alpha6.VirtualMachineBootstrapSpec_CloudInit := option_map VirtualMachineBootstrapCloudInitSpec_hub_To_v1alpha6 (vmophub.VirtualMachineBootstrapSpec_CloudInit bootstrap)
  |}.

Definition PartialObjectRef_hub_To_v1alpha6 (network1 : vmophub.PartialObjectRef) : vmoprv1alpha6.PartialObjectRef :=
  {|
    vmoprv1alpha6.PartialObjectRef_TypeMeta := {|
        TypeMeta_Kind := TypeMeta_Kind (vmophub.PartialObjectRef_TypeMeta network1);
        TypeMeta_APIVersion := TypeMeta_APIVersion (vmophub.PartialObjectRef_TypeMeta network1)
      |};
    vmoprv1alpha6.PartialObjectRef_Name := vmophub.PartialObjectRef_Name network1
  |}.

Definition VirtualMachineNetworkRouteSpec_hub_To_v1alpha6 (route : vmophub.VirtualMachineNetworkRouteSpec) : vmoprv1alpha6.VirtualMachineNetworkRouteSpec :=
  {|
    vmoprv1alpha6.VirtualMachineNetworkRouteSpec_To := vmophub.VirtualMachineNetworkRouteSpec_To route;
    vmoprv1alpha6.VirtualMachineNetworkRouteSpec_Via := vmophub.VirtualMachineNetworkRouteSpec_Via route;
    vmoprv1alpha6.VirtualMachineNetworkRouteSpec_Metric := vmophub.VirtualMachineNetworkRouteSpec_Metric route
  |}.

Definition VirtualMachineNetworkInterfaceVMXNet3Spec_hub_To_v1alpha6 (vMXNet3 : vmophub.VirtualMachineNetworkInterfaceVMXNet3Spec) : vmoprv1alpha6.VirtualMachineNetworkInterfaceVMXNet3Spec :=
  {|
    vmoprv1alpha6.VirtualMachineNetworkInterfaceVMXNet3Spec_UPTv2Enabled := vmophub.VirtualMachineNetworkInterfaceVMXNet3Spec_UPTv2Enabled vMXNet3;
    vmoprv1alpha6.VirtualMachineNetworkInterfaceVMXNet3Spec_CtxPerDev := vmophub.VirtualMachineNetworkInterfaceVMXNet3Spec_CtxPerDev vMXNet3;
    vmoprv1alpha6.VirtualMachineNetworkInterfaceVMXNet3Spec_RSSOffloadEnabled := vmophub.VirtualMachineNetworkInterfaceVMXNet3Spec_RSSOffloadEnabled vMXNet3;
    vmoprv1alpha6.VirtualMachineNetworkInterfaceVMXNet3Spec_UDPRSSEnabled := vmophub.VirtualMachineNetworkInterfaceVMXNet3Spec_UDPRSSEnabled vMXNet3;
    vmoprv1alpha6.VirtualMachineNetworkInterfaceVMXNet3Spec_PNICFeatures := append_each id (vmophub.VirtualMachineNetworkInterfaceVMXNet3Spec_PNICFeatures vMXNet3);
    vmoprv1alpha6.VirtualMachineNetworkInterfaceVMXNet3Spec_CoalescingScheme := vmophub.VirtualMachineNetworkInterfaceVMXNet3Spec_CoalescingScheme vMXNet3;
    vmoprv1alpha6.VirtualMachineNetworkInterfaceVMXNet3Spec_CoalescingParams := vmophub.VirtualMachineNetworkInterfaceVMXNet3Spec_CoalescingParams vMXNet3
  |}.

Definition KeyValuePair_hub_To_v1alpha6 (ap : vmophub.KeyValuePair) : vmoprv1alpha6.KeyValuePair :=
  {|
    vmoprv1alpha6.KeyValuePair_Key := vmophub.KeyValuePair_Key ap;
    vmoprv1alpha6.KeyValuePair_Value := vmophub.KeyValuePair_Value ap
  |}.

Definition VirtualMachineNetworkInterfaceSpec_hub_To_v1alpha6 (iface : vmophub.VirtualMachineNetworkInterfaceSpec) : vmoprv1alpha6.VirtualMachineNetworkInterfaceSpec :=
  {|
    vmoprv1alpha6.VirtualMachineNetworkInterfaceSpec_Name := vmophub.VirtualMachineNetworkInterfaceSpec_Name iface;
    vmoprv1alpha6.VirtualMachineNetworkInterfaceSpec_Network := option_map PartialObjectRef_hub_To_v1alpha6 (vmophub.VirtualMachineNetworkInterfaceSpec_Network iface);
    vmoprv1alpha6.VirtualMachineNetworkInterfaceSpec_GuestDeviceName := vmophub.VirtualMachineNetworkInterfaceSpec_GuestDeviceName iface;
    vmoprv1alpha6.VirtualMachineNetworkInterfaceSpec_MACAddr := vmophub.VirtualMachineNetworkInterfaceSpec_MACAddr iface;
    vmoprv1alpha6.VirtualMachineNetworkInterfaceSpec_Addresses := vmophub.VirtualMachineNetworkInterfaceSpec_Addresses iface;
    vmoprv1alpha6.VirtualMachineNetworkInterfaceSpec_DHCP4 := vmophub.VirtualMachineNetworkInterfaceSpec_DHCP4 iface;
    vmoprv1alpha6.VirtualMachineNetworkInterfaceSpec_DHCP6 := vmophub.VirtualMachineNetworkInterfaceSpec_DHCP6 iface;
    vmoprv1alpha6.VirtualMachineNetworkInterfaceSpec_Gateway4 := vmophub.VirtualMachineNetworkInterfaceSpec_Gateway4 iface;
    vmoprv1alpha6.VirtualMachineNetworkInterfaceSpec_Gateway6 := vmophub.VirtualMachineNetworkInterfaceSpec_Gateway6 iface;
    vmoprv1alpha6.VirtualMachineNetworkInterfaceSpec_MTU := vmophub.VirtualMachineNetworkInterfaceSpec_MTU iface;
    vmoprv1alpha6.VirtualMachineNetworkInterfaceSpec_Nameservers := vmophub.VirtualMachineNetworkInterfaceSpec_Nameservers iface;
    vmoprv1alpha6.VirtualMachineNetworkInterfaceSpec_Routes := option_map (map VirtualMachineNetworkRouteSpec_hub_To_v1alpha6) (vmophub.VirtualMachineNetworkInterfaceSpec_Routes iface);
    vmoprv1alpha6.VirtualMachineNetworkInterfaceSpec_SearchDomains := vmophub.VirtualMachineNetworkInterfaceSpec_SearchDomains iface;
    vmoprv1alpha6.VirtualMachineNetworkInterfaceSpec_Type := vmophub.VirtualMachineNetworkInterfaceSpec_Type iface;
    vmoprv1alpha6.VirtualMachineNetworkInterfaceSpec_VNUMANodeID := vmophub.VirtualMachineNetworkInterfaceSpec_VNUMANodeID iface;
    vmoprv1alpha6.VirtualMachineNetworkInterfaceSpec_VMXNet3 := option_map VirtualMachineNetworkInterfaceVMXNet3Spec_hub_To_v1alpha6 (vmophub.VirtualMachineNetworkInterfaceSpec_VMXNet3 iface);
    vmoprv1alpha6.VirtualMachineNetworkInterfaceSpec_AdvancedProperties := append_each KeyValuePair_hub_To_v1alpha6 (vmophub.VirtualMachineNetworkInterfaceSpec_AdvancedProperties iface);
    vmoprv1alpha6.VirtualMachineNetworkInterfaceSpec_IPAMModes := vmophub.VirtualMachineNetworkInterfaceSpec_IPAMModes iface
  |}.

Definition VirtualMachineNetworkVLANSpec_hub_To_v1alpha6 (vlan : vmophub.VirtualMachineNetworkVLANSpec) : vmoprv1alpha6.VirtualMachineNetworkVLANSpec :=
  {|
    vmoprv1alpha6.VirtualMachineNetworkVLANSpec_Name := vmophub.VirtualMachineNetworkVLANSpec_Name vlan;
    vmoprv1alpha6.VirtualMachineNetworkVLANSpec_ID := vmophub.VirtualMachineNetworkVLANSpec_ID vlan;
    vmoprv1alpha6.VirtualMachineNetworkVLANSpec_Link := vmophub.VirtualMachineNetworkVLANSpec_Link vlan
  |}.

Definition VirtualMachineNetworkSpec_hub_To_v1alpha6 (network : vmophub.VirtualMachineNetworkSpec) : vmoprv1alpha6.VirtualMachineNetworkSpec :=
  {|
    vmoprv1alpha6.VirtualMachineNetworkSpec_Interfaces := option_map (map VirtualMachineNetworkInterfaceSpec_hub_To_v1alpha6) (vmophub.VirtualMachineNetworkSpec_Interfaces network);
    vmoprv1alpha6.VirtualMachineNetworkSpec_VLANs := option_map (map VirtualMachineNetworkVLANSpec_hub_To_v1alpha6) (vmophub.VirtualMachineNetworkSpec_VLANs network)
  |}.

Definition InstanceVolumeClaimVolumeSource_hub_To_v1alpha6 (instanceVolumeClaim : vmophub.InstanceVolumeClaimVolumeSource) : vmoprv1alpha6.InstanceVolumeClaimVolumeSource :=
  {|
    vmoprv1alpha6.InstanceVolumeClaimVolumeSource_StorageClass := vmophub.InstanceVolumeClaimVolumeSource_StorageClass instanceVolumeClaim;
    vmoprv1alpha6.InstanceVolumeClaimVolumeSource_Size := vmophub.InstanceVolumeClaimVolumeSource_Size instanceVolumeClaim
  |}.

Definition PersistentVolumeClaimVolumeSource_hub_To_v1alpha6 (persistentVolumeClaim : vmophub.PersistentVolumeClaimVolumeSource) : vmoprv1alpha6.PersistentVolumeClaimVolumeSource :=
  {|
    vmoprv1alpha6.PersistentVolumeClaimVolumeSource_PersistentVolumeClaimVolumeSource := {|
        CorePersistentVolumeClaimVolumeSource_ClaimName := CorePersistentVolumeClaimVolumeSource_ClaimName (vmophub.PersistentVolumeClaimVolumeSource_PersistentVolumeClaimVolumeSource persistentVolumeClaim);
        CorePersistentVolumeClaimVolumeSource_ReadOnly := CorePersistentVolumeClaimVolumeSource_ReadOnly (vmophub.PersistentVolumeClaimVolumeSource_PersistentVolumeClaimVolumeSource persistentVolumeClaim)
      |};
    vmoprv1alpha6.PersistentVolumeClaimVolumeSource_InstanceVolumeClaim := option_map InstanceVolumeClaimVolumeSource_hub_To_v1alpha6 (vmophub.PersistentVolumeClaimVolumeSource_InstanceVolumeClaim persistentVolumeClaim)
  |}.

Definition VirtualMachineVolume_hub_To_v1alpha6 (volume : vmophub.VirtualMachineVolume) : vmoprv1alpha6.VirtualMachineVolume :=
  {|
    vmoprv1alpha6.VirtualMachineVolume_Name := vmophub.VirtualMachineVolume_Name volume;
    vmoprv1alpha6.VirtualMachineVolume_VirtualMachineVolumeSource := {|
        vmoprv1alpha6.VirtualMachineVolumeSource_PersistentVolumeClaim := option_map PersistentVolumeClaimVolumeSource_hub_To_v1alpha6 (vmophub.VirtualMachineVolumeSource_PersistentVolumeClaim (vmophub.VirtualMachineVolume_VirtualMachineVolumeSource volume))
      |};
    vmoprv1alpha6.VirtualMachineVolume_Removable := vmophub.VirtualMachineVolume_Removable volume;
    vmoprv1alpha6.VirtualMachineVolume_ApplicationType := vmophub.VirtualMachineVolume_ApplicationType volume;
    vmoprv1alpha6.VirtualMachineVolume_ControllerBusNumber := vmophub.VirtualMachineVolume_ControllerBusNumber volume;
    vmoprv1alpha6.VirtualMachineVolume_ControllerType := vmophub.VirtualMachineVolume_ControllerType volume;
    vmoprv1alpha6.VirtualMachineVolume_DiskMode := vmophub.VirtualMachineVolume_DiskMode volume;
    vmoprv1alpha6.VirtualMachineVolume_SharingMode := vmophub.VirtualMachineVolume_SharingMode volume;
    vmoprv1alpha6.VirtualMachineVolume_UnitNumber := vmophub.VirtualMachineVolume_UnitNumber volume
  |}.

Definition TCPSocketAction_hub_To_v1alpha6 (tCPSocket : vmophub.TCPSocketAction) : vmoprv1alpha6.TCPSocketAction :=
  {|
    vmoprv1alpha6.TCPSocketAction_Port := vmophub.TCPSocketAction_Port tCPSocket;
    vmoprv1alpha6.TCPSocketAction_Host := vmophub.TCPSocketAction_Host tCPSocket
  |}.

Definition VirtualMachineReadinessProbeSpec_hub_To_v1alpha6 (readinessProbe : vmophub.VirtualMachineReadinessProbeSpec) : vmoprv1alpha6.VirtualMachineReadinessProbeSpec :=
  {|
    vmoprv1alpha6.VirtualMachineReadinessProbeSpec_TCPSocket := option_map TCPSocketAction_hub_To_v1alpha6 (vmophub.VirtualMachineReadinessProbeSpec_TCPSocket readinessProbe)
  |}.

Definition VirtualMachineReservedSpec_hub_To_v1alpha6 (reserved : vmophub.VirtualMachineReservedSpec) : vmoprv1alpha6.VirtualMachineReservedSpec :=
  {|
    vmoprv1alpha6.VirtualMachineReservedSpec_ResourcePolicyName := vmophub.VirtualMachineReservedSpec_ResourcePolicyName reserved
  |}.

Definition PolicySpec_hub_To_v1alpha6 (p : vmophub.PolicySpec) : vmoprv1alpha6.PolicySpec :=
  {|
    vmoprv1alpha6.PolicySpec_APIVersion := vmophub.PolicySpec_APIVersion p;
    vmoprv1alpha6.PolicySpec_Kind := vmophub.PolicySpec_Kind p;
    vmoprv1alpha6.PolicySpec_Name := vmophub.PolicySpec_Name p
  |}.

Definition VirtualMachineNetworkDHCPStatus_hub_To_v1alpha6 (dhcp : vmophub.VirtualMachineNetworkDHCPStatus) : vmoprv1alpha6.VirtualMachineNetworkDHCPStatus :=
  {|
    vmoprv1alpha6.VirtualMachineNetworkDHCPStatus_IP4 := {|
        vmoprv1alpha6.VirtualMachineNetworkDHCPOptionsStatus_Config := option_map (map KeyValuePair_hub_To_v1alpha6) (vmophub.VirtualMachineNetworkDHCPOptionsStatus_Config (vmophub.VirtualMachineNetworkDHCPStatus_IP4 dhcp));
        vmoprv1alpha6.VirtualMachineNetworkDHCPOptionsStatus_Enabled := vmophub.VirtualMachineNetworkDHCPOptionsStatus_Enabled (vmophub.VirtualMachineNetworkDHCPStatus_IP4 dhcp)
      |};
    vmoprv1alpha6.VirtualMachineNetworkDHCPStatus_IP6 := {|
        vmoprv1alpha6.VirtualMachineNetworkDHCPOptionsStatus_Config := option_map (map KeyValuePair_hub_To_v1alpha6) (vmophub.VirtualMachineNetworkDHCPOptionsStatus_Config (vmophub.VirtualMachineNetworkDHCPStatus_IP6 dhcp));
        vmoprv1alpha6.VirtualMachineNetworkDHCPOptionsStatus_Enabled := vmophub.VirtualMachineNetworkDHCPOptionsStatus_Enabled (vmophub.VirtualMachineNetworkDHCPStatus_IP6 dhcp)
      |}
  |}.

Definition VirtualMachineNetworkInterfaceIPAddrStatus_hub_To_v1alpha6 (addr : vmophub.VirtualMachineNetworkInterfaceIPAddrStatus) : vmoprv1alpha6.VirtualMachineNetworkInterfaceIPAddrStatus :=
  {|
    vmoprv1alpha6.VirtualMachineNetworkInterfaceIPAddrStatus_Address := vmophub.VirtualMachineNetworkInterfaceIPAddrStatus_Address addr;
    vmoprv1alpha6.VirtualMachineNetworkInterfaceIPAddrStatus_Lifetime := vmophub.VirtualMachineNetworkInterfaceIPAddrStatus_Lifetime addr;
    vmoprv1alpha6.VirtualMachineNetworkInterfaceIPAddrStatus_Origin := vmophub.VirtualMachineNetworkInterfaceIPAddrStatus_Origin addr;
    vmoprv1alpha6.VirtualMachineNetworkInterfaceIPAddrStatus_State := vmophub.VirtualMachineNetworkInterfaceIPAddrStatus_State addr
  |}.

Definition VirtualMachineNetworkInterfaceIPStatus_hub_To_v1alpha6 (ip : vmophub.VirtualMachineNetworkInterfaceIPStatus) : vmoprv1alpha6.VirtualMachineNetworkInterfaceIPStatus :=
  {|
    vmoprv1alpha6.VirtualMachineNetworkInterfaceIPStatus_AutoConfigurationEnabled := vmophub.VirtualMachineNetworkInterfaceIPStatus_AutoConfigurationEnabled ip;
    vmoprv1alpha6.VirtualMachineNetworkInterfaceIPStatus_DHCP := option_map VirtualMachineNetworkDHCPStatus_hub_To_v1alpha6 (vmophub.VirtualMachineNetworkInterfaceIPStatus_DHCP ip);
    vmoprv1alpha6.VirtualMachineNetworkInterfaceIPStatus_Addresses := option_map (map VirtualMachineNetworkInterfaceIPAddrStatus_hub_To_v1alpha6) (vmophub.VirtualMachineNetworkInterfaceIPStatus_Addresses ip);
    vmoprv1alpha6.VirtualMachineNetworkInterfaceIPStatus_MACAddr := vmophub.VirtualMachineNetworkInterfaceIPStatus_MACAddr ip
  |}.

Definition VirtualMachineNetworkDNSStatus_hub_To_v1alpha6 (dns : vmophub.VirtualMachineNetworkDNSStatus) : vmoprv1alpha6.VirtualMachineNetworkDNSStatus :=
  {|
    vmoprv1alpha6.VirtualMachineNetworkDNSStatus_DHCP := vmophub.VirtualMachineNetworkDNSStatus_DHCP dns;
    vmoprv1alpha6.VirtualMachineNetworkDNSStatus_HostName := vmophub.VirtualMachineNetworkDNSStatus_HostName dns;
    vmoprv1alpha6.VirtualMachineNetworkDNSStatus_DomainName := vmophub.VirtualMachineNetworkDNSStatus_DomainName dns;
    vmoprv1alpha6.VirtualMachineNetworkDNSStatus_Nameservers := vmophub.VirtualMachineNetworkDNSStatus_Nameservers dns;
    vmoprv1alpha6.VirtualMachineNetworkDNSStatus_SearchDomains := vmophub.VirtualMachineNetworkDNSStatus_SearchDomains dns
  |}.

Definition VirtualMachineNetworkInterfaceStatus_hub_To_v1alpha6 (iface : vmophub.VirtualMachineNetworkInterfaceStatus) : vmoprv1alpha6.VirtualMachineNetworkInterfaceStatus :=
  {|
    vmoprv1alpha6.VirtualMachineNetworkInterfaceStatus_Name := vmophub.VirtualMachineNetworkInterfaceStatus_Name iface;
    vmoprv1alpha6.VirtualMachineNetworkInterfaceStatus_DeviceKey := vmophub.VirtualMachineNetworkInterfaceStatus_DeviceKey iface;
    vmoprv1alpha6.VirtualMachineNetworkInterfaceStatus_IP := option_map VirtualMachineNetworkInterfaceIPStatus_hub_To_v1alpha6 (vmophub.VirtualMachineNetworkInterfaceStatus_IP iface);
    vmoprv1alpha6.VirtualMachineNetworkInterfaceStatus_DNS := option_map VirtualMachineNetworkDNSStatus_hub_To_v1alpha6 (vmophub.VirtualMachineNetworkInterfaceStatus_DNS iface)
  |}.

Definition VirtualMachineNetworkStatus_hub_To_v1alpha6 (network1 : vmophub.VirtualMachineNetworkStatus) : vmoprv1alpha6.VirtualMachineNetworkStatus :=
  {|
    vmoprv1alpha6.VirtualMachineNetworkStatus_HostName := vmophub.VirtualMachineNetworkStatus_HostName network1;
    vmoprv1alpha6.VirtualMachineNetworkStatus_Interfaces := option_map (map VirtualMachineNetworkInterfaceStatus_hub_To_v1alpha6) (vmophub.VirtualMachineNetworkStatus_Interfaces network1);
    vmoprv1alpha6.VirtualMachineNetworkStatus_PrimaryIP4 := vmophub.VirtualMachineNetworkStatus_PrimaryIP4 network1;
    vmoprv1alpha6.VirtualMachineNetworkStatus_PrimaryIP6 := vmophub.VirtualMachineNetworkStatus_PrimaryIP6 network1
  |}.

Definition PolicyStatus_hub_To_v1alpha6 (p : vmophub.PolicyStatus) : vmoprv1alpha6.PolicyStatus :=
  {|
    vmoprv1alpha6.PolicyStatus_PolicySpec := {|
        vmoprv1alpha6.PolicySpec_APIVersion := vmophub.PolicySpec_APIVersion (vmophub.PolicyStatus_PolicySpec p);
        vmoprv1alpha6.PolicySpec_Kind := vmophub.PolicySpec_Kind (vmophub.PolicyStatus_PolicySpec p);
        vmoprv1alpha6.PolicySpec_Name := vmophub.PolicySpec_Name (vmophub.PolicyStatus_PolicySpec p)
      |};
    vmoprv1alpha6.PolicyStatus_Generation := vmophub.PolicyStatus_Generation p
  |}.

Definition VirtualMachineSpec_hub_To_v1alpha6 (src : vmophub.VirtualMachineSpec) (dst : vmoprv1alpha6.VirtualMachineSpec) : vmoprv1alpha6.VirtualMachineSpec :=
  {|
    vmoprv1alpha6.VirtualMachineSpec_ImageName := vmophub.VirtualMachineSpec_ImageName src;
    vmoprv1alpha6.VirtualMachineSpec_ClassName := vmophub.VirtualMachineSpec_ClassName src;
    vmoprv1alpha6.VirtualMachineSpec_Affinity := match vmophub.VirtualMachineSpec_Affinity src with Some affinity => Some (AffinitySpec_hub_To_v1alpha6 affinity) | None => vmoprv1alpha6.VirtualMachineSpec_Affinity dst end;
    vmoprv1alpha6.VirtualMachineSpec_StorageClass := vmophub.VirtualMachineSpec_StorageClass src;
    vmoprv1alpha6.VirtualMachineSpec_Bootstrap := match vmophub.VirtualMachineSpec_Bootstrap src with Some bootstrap => Some (VirtualMachineBootstrapSpec_hub_To_v1alpha6 bootstrap) | None => vmoprv1alpha6.VirtualMachineSpec_Bootstrap dst end;
    vmoprv1alpha6.VirtualMachineSpec_Network := match vmophub.VirtualMachineSpec_Network src with Some network => Some (VirtualMachineNetworkSpec_hub_To_v1alpha6 network) | None => vmoprv1alpha6.VirtualMachineSpec_Network dst end;
    vmoprv1alpha6.VirtualMachineSpec_PowerState := vmophub.VirtualMachineSpec_PowerState src;
    vmoprv1alpha6.VirtualMachineSpec_PowerOffMode := vmophub.VirtualMachineSpec_PowerOffMode src;
    vmoprv1alpha6.VirtualMachineSpec_Volumes := match vmophub.VirtualMachineSpec_Volumes src with
      | Some volumes => Some (map VirtualMachineVolume_hub_To_v1alpha6 volumes)
      | None => vmoprv1alpha6.VirtualMachineSpec_Volumes dst
      end;
    vmoprv1alpha6.VirtualMachineSpec_ReadinessProbe := match vmophub.VirtualMachineSpec_ReadinessProbe src with Some readinessProbe => Some (VirtualMachineReadinessProbeSpec_hub_To_v1alpha6 readinessProbe) | None => vmoprv1alpha6.VirtualMachineSpec_ReadinessProbe dst end;
    vmoprv1alpha6.VirtualMachineSpec_Reserved := match vmophub.VirtualMachineSpec_Reserved src with Some reserved => Some (VirtualMachineReservedSpec_hub_To_v1alpha6 reserved) | None => vmoprv1alpha6.VirtualMachineSpec_Reserved dst end;
    vmoprv1alpha6.VirtualMachineSpec_MinHardwareVersion := vmophub.VirtualMachineSpec_MinHardwareVersion src;
    vmoprv1alpha6.VirtualMachineSpec_GroupName := vmophub.VirtualMachineSpec_GroupName src;
    vmoprv1alpha6.VirtualMachineSpec_Policies := match vmophub.VirtualMachineSpec_Policies src with
      | Some policies => Some (map PolicySpec_hub_To_v1alpha6 policies)
      | None => vmoprv1alpha6.VirtualMachineSpec_Policies dst
      end
  |}.

Definition VirtualMachineStatus_hub_To_v1alpha6 (src : vmophub.VirtualMachineStatus) (dst : vmoprv1alpha6.VirtualMachineStatus) : vmoprv1alpha6.VirtualMachineStatus :=
  {|
    vmoprv1alpha6.VirtualMachineStatus_NodeName := vmophub.VirtualMachineStatus_NodeName src;
    vmoprv1alpha6.VirtualMachineStatus_PowerState := vmophub.VirtualMachineStatus_PowerState src;
    vmoprv1alpha6.VirtualMachineStatus_Conditions := match vmophub.VirtualMachineStatus_Conditions src with
      | Some conditions => Some conditions
      | None => vmoprv1alpha6.VirtualMachineStatus_Conditions dst
      end;
    vmoprv1alpha6.VirtualMachineStatus_Network := match vmophub.VirtualMachineStatus_Network src with Some network1 => Some (VirtualMachineNetworkStatus_hub_To_v1alpha6 network1) | None => vmoprv1alpha6.VirtualMachineStatus_Network dst end;
    vmoprv1alpha6.VirtualMachineStatus_BiosUUID := vmophub.VirtualMachineStatus_BiosUUID src;
    vmoprv1alpha6.VirtualMachineStatus_Zone := vmophub.VirtualMachineStatus_Zone src;
    vmoprv1alpha6.VirtualMachineStatus_Policies := match vmophub.VirtualMachineStatus_Policies src with
      | Some policies1 => Some (map PolicyStatus_hub_To_v1alpha6 policies1)
      | None => vmoprv1alpha6.VirtualMachineStatus_Policies dst
      end
  |}.

Definition convert_hub_VirtualMachine_To_v1alpha6_VirtualMachine (src : vmophub.VirtualMachine) (dst : vmoprv1alpha6.VirtualMachine) : res vmoprv1alpha6.VirtualMachine :=
  Ok {|
    vmoprv1alpha6.VirtualMachine_ObjectMeta := vmophub.VirtualMachine_ObjectMeta src;
    vmoprv1alpha6.VirtualMachine_Spec := VirtualMachineSpec_hub_To_v1alpha6 (vmophub.VirtualMachine_Spec src) (vmoprv1alpha6.VirtualMachine_Spec dst);
    vmoprv1alpha6.VirtualMachine_Status := VirtualMachineStatus_hub_To_v1alpha6 (vmophub.VirtualMachine_Status src) (vmoprv1alpha6.VirtualMachine_Status dst)
  |}.

(** ** [convert_v1alpha6_VirtualMachineClass_To_hub_VirtualMachineClass] *)
Definition convert_v1alpha6_VirtualMachineClass_To_hub_VirtualMachineClass (src : vmoprv1alpha6.VirtualMachineClass) (dst : vmophub.VirtualMachineClass) : res vmophub.VirtualMachineClass :=
  Ok {|
    vmophub.VirtualMachineClass_ObjectMeta := vmoprv1alpha6.VirtualMachineClass_ObjectMeta src;
    vmophub.VirtualMachineClass_Spec := {|
        vmophub.VirtualMachineClassSpec_Hardware := {|
            vmophub.VirtualMachineClassHardware_Cpus := vmoprv1alpha6.VirtualMachineClassHardware_Cpus (vmoprv1alpha6.VirtualMachineClassSpec_Hardware (vmoprv1alpha6.VirtualMachineClass_Spec src));
            vmophub.VirtualMachineClassHardware_Memory := vmoprv1alpha6.VirtualMachineClassHardware_Memory (vmoprv1alpha6.VirtualMachineClassSpec_Hardware (vmoprv1alpha6.VirtualMachineClass_Spec src))
          |}
      |};
    vmophub.VirtualMachineClass_Status := vmophub.VirtualMachineClass_Status dst;
    vmophub.VirtualMachineClass_Source := vmophub.VirtualMachineClass_Source dst
  |}.

(** ** [convert_hub_VirtualMachineClass_To_v1alpha6_VirtualMachineClass] *)
Definition convert_hub_VirtualMachineClass_To_v1alpha6_VirtualMachineClass (src : vmophub.VirtualMachineClass) (dst : vmoprv1alpha6.VirtualMachineClass) : res vmoprv1alpha6.VirtualMachineClass :=
  Ok {|
    vmoprv1alpha6.VirtualMachineClass_ObjectMeta := vmophub.VirtualMachineClass_ObjectMeta src;
    vmoprv1alpha6.VirtualMachineClass_Spec := {|
        vmoprv1alpha6.VirtualMachineClassSpec_Hardware := {|
            vmoprv1alpha6.VirtualMachineClassHardware_Cpus := vmophub.VirtualMachineClassHardware_Cpus (vmophub.VirtualMachineClassSpec_Hardware (vmophub.VirtualMachineClass_Spec src));
            vmoprv1alpha6.VirtualMachineClassHardware_Memory := vmophub.VirtualMachineClassHardware_Memory (vmophub.VirtualMachineClassSpec_Hardware (vmophub.VirtualMachineClass_Spec src))
          |}
      |}
  |}.

(** ** [convert_v1alpha6_VirtualMachineGroup_To_hub_VirtualMachineGroup] *)
Definition GroupMember_v1alpha6_To_hub (member : vmoprv1alpha6.GroupMember) : vmophub.GroupMember :=
  {|
    vmophub.GroupMember_Name := vmoprv1alpha6.GroupMember_Name member;
    vmophub.GroupMember_Kind := vmoprv1alpha6.GroupMember_Kind member
  |}.

Definition VirtualMachineGroupBootOrderGroup_v1alpha6_To_hub (bootOrderGroup : vmoprv1alpha6.VirtualMachineGroupBootOrderGroup) : vmophub.VirtualMachineGroupBootOrderGroup :=
  {|
    vmophub.VirtualMachineGroupBootOrderGroup_Members := option_map (map GroupMember_v1alpha6_To_hub) (vmoprv1alpha6.VirtualMachineGroupBootOrderGroup_Members bootOrderGroup);
    vmophub.VirtualMachineGroupBootOrderGroup_PowerOnDelay := vmoprv1alpha6.VirtualMachineGroupBootOrderGroup_PowerOnDelay bootOrderGroup
  |}.

Definition VirtualMachineGroupPlacementDatastoreStatus_v1alpha6_To_hub (datastore : vmoprv1alpha6.VirtualMachineGroupPlacementDatastoreStatus) : vmophub.VirtualMachineGroupPlacementDatastoreStatus :=
  {|
    vmophub.VirtualMachineGroupPlacementDatastoreStatus_Name := vmoprv1alpha6.VirtualMachineGroupPlacementDatastoreStatus_Name datastore;
    vmophub.VirtualMachineGroupPlacementDatastoreStatus_ID := vmoprv1alpha6.VirtualMachineGroupPlacementDatastoreStatus_ID datastore;
    vmophub.VirtualMachineGroupPlacementDatastoreStatus_URL := vmoprv1alpha6.VirtualMachineGroupPlacementDatastoreStatus_URL datastore;
    vmophub.VirtualMachineGroupPlacementDatastoreStatus_SupportedDiskFormats := vmoprv1alpha6.VirtualMachineGroupPlacementDatastoreStatus_SupportedDiskFormats datastore;
    vmophub.VirtualMachineGroupPlacementDatastoreStatus_DiskKey := vmoprv1alpha6.VirtualMachineGroupPlacementDatastoreStatus_DiskKey datastore;
    vmophub.VirtualMachineGroupPlacementDatastoreStatus_TopLevelDirectoryCreateSupported := vmoprv1alpha6.VirtualMachineGroupPlacementDatastoreStatus_TopLevelDirectoryCreateSupported datastore
  |}.

Definition VirtualMachinePlacementStatus_v1alpha6_To_hub (placement : vmoprv1alpha6.VirtualMachinePlacementStatus) : vmophub.VirtualMachinePlacementStatus :=
  {|
    vmophub.VirtualMachinePlacementStatus_Zone := vmoprv1alpha6.VirtualMachinePlacementStatus_Zone placement;
    vmophub.VirtualMachinePlacementStatus_Node := vmoprv1alpha6.VirtualMachinePlacementStatus_Node placement;
    vmophub.VirtualMachinePlacementStatus_Pool := vmoprv1alpha6.VirtualMachinePlacementStatus_Pool placement;
    vmophub.VirtualMachinePlacementStatus_Datastores := option_map (map VirtualMachineGroupPlacementDatastoreStatus_v1alpha6_To_hub) (vmoprv1alpha6.VirtualMachinePlacementStatus_Datastores placement)
  |}.

Definition VirtualMachineGroupMemberStatus_v1alpha6_To_hub (member : vmoprv1alpha6.VirtualMachineGroupMemberStatus) : vmophub.VirtualMachineGroupMemberStatus :=
  {|
    vmophub.VirtualMachineGroupMemberStatus_Name := vmoprv1alpha6.VirtualMachineGroupMemberStatus_Name member;
    vmophub.VirtualMachineGroupMemberStatus_Kind := vmoprv1alpha6.VirtualMachineGroupMemberStatus_Kind member;
    vmophub.VirtualMachineGroupMemberStatus_UID := vmoprv1alpha6.VirtualMachineGroupMemberStatus_UID member;
    vmophub.VirtualMachineGroupMemberStatus_Placement := option_map VirtualMachinePlacementStatus_v1alpha6_To_hub (vmoprv1alpha6.VirtualMachineGroupMemberStatus_Placement member);
    vmophub.VirtualMachineGroupMemberStatus_PowerState := vmoprv1alpha6.VirtualMachineGroupMemberStatus_PowerState member;
    vmophub.VirtualMachineGroupMemberStatus_Conditions := vmoprv1alpha6.VirtualMachineGroupMemberStatus_Conditions member
  |}.

Definition convert_v1alpha6_VirtualMachineGroup_To_hub_VirtualMachineGroup (src : vmoprv1alpha6.VirtualMachineGroup) (dst : vmophub.VirtualMachineGroup) : res vmophub.VirtualMachineGroup :=
  Ok {|
    vmophub.VirtualMachineGroup_ObjectMeta := vmoprv1alpha6.VirtualMachineGroup_ObjectMeta src;
    vmophub.VirtualMachineGroup_Spec := {|
        vmophub.VirtualMachineGroupSpec_BootOrder := match vmoprv1alpha6.VirtualMachineGroupSpec_BootOrder (vmoprv1alpha6.VirtualMachineGroup_Spec src) with
          | Some bootOrder => Some (map VirtualMachineGroupBootOrderGroup_v1alpha6_To_hub bootOrder)
          | None => vmophub.VirtualMachineGroupSpec_BootOrder (vmophub.VirtualMachineGroup_Spec dst)
          end
      |};
    vmophub.VirtualMachineGroup_Status := {|
        vmophub.VirtualMachineGroupStatus_Members := match vmoprv1alpha6.VirtualMachineGroupStatus_Members (vmoprv1alpha6.VirtualMachineGroup_Status src) with
          | Some members => Some (map VirtualMachineGroupMemberStatus_v1alpha6_To_hub members)
          | None => vmophub.VirtualMachineGroupStatus_Members (vmophub.VirtualMachineGroup_Status dst)
          end
      |};
    vmophub.VirtualMachineGroup_Source := vmophub.VirtualMachineGroup_Source dst
  |}.

(** ** [convert_hub_VirtualMachineGroup_To_v1alpha6_VirtualMachineGroup] *)
Definition GroupMember_hub_To_v1alpha6 (member : vmophub.GroupMember) : vmoprv1alpha6.GroupMember :=
  {|
    vmoprv1alpha6.GroupMember_Name := vmophub.GroupMember_Name member;
    vmoprv1alpha6.GroupMember_Kind := vmophub.GroupMember_Kind member
  |}.

Definition VirtualMachineGroupBootOrderGroup_hub_To_v1alpha6 (bootOrderGroup : vmophub.VirtualMachineGroupBootOrderGroup) : vmoprv1alpha6.VirtualMachineGroupBootOrderGroup :=
  {|
    vmoprv1alpha6.VirtualMachineGroupBootOrderGroup_Members := option_map (map GroupMember_hub_To_v1alpha6) (vmophub.VirtualMachineGroupBootOrderGroup_Members bootOrderGroup);
    vmoprv1alpha6.VirtualMachineGroupBootOrderGroup_PowerOnDelay := vmophub.VirtualMachineGroupBootOrderGroup_PowerOnDelay bootOrderGroup
  |}.

Definition VirtualMachineGroupPlacementDatastoreStatus_hub_To_v1alpha6 (datastore : vmophub.VirtualMachineGroupPlacementDatastoreStatus) : vmoprv1alpha6.VirtualMachineGroupPlacementDatastoreStatus :=
  {|
    vmoprv1alpha6.VirtualMachineGroupPlacementDatastoreStatus_Name := vmophub.VirtualMachineGroupPlacementDatastoreStatus_Name datastore;
    vmoprv1alpha6.VirtualMachineGroupPlacementDatastoreStatus_ID := vmophub.VirtualMachineGroupPlacementDatastoreStatus_ID datastore;
    vmoprv1alpha6.VirtualMachineGroupPlacementDatastoreStatus_URL := vmophub.VirtualMachineGroupPlacementDatastoreStatus_URL datastore;
    vmoprv1alpha6.VirtualMachineGroupPlacementDatastoreStatus_SupportedDiskFormats := vmophub.VirtualMachineGroupPlacementDatastoreStatus_SupportedDiskFormats datastore;
    vmoprv1alpha6.VirtualMachineGroupPlacementDatastoreStatus_DiskKey := vmophub.VirtualMachineGroupPlacementDatastoreStatus_DiskKey datastore;
    vmoprv1alpha6.VirtualMachineGroupPlacementDatastoreStatus_TopLevelDirectoryCreateSupported := vmophub.VirtualMachineGroupPlacementDatastoreStatus_TopLevelDirectoryCreateSupported datastore
  |}.

Definition VirtualMachinePlacementStatus_hub_To_v1alpha6 (placement : vmophub.VirtualMachinePlacementStatus) : vmoprv1alpha6.VirtualMachinePlacementStatus :=
  {|
    vmoprv1alpha6.VirtualMachinePlacementStatus_Zone := vmophub.VirtualMachinePlacementStatus_Zone placement;
    vmoprv1alpha6.VirtualMachinePlacementStatus_Node := vmophub.VirtualMachinePlacementStatus_Node placement;
    vmoprv1alpha6.VirtualMachinePlacementStatus_Pool := vmophub.VirtualMachinePlacementStatus_Pool placement;
    vmoprv1alpha6.VirtualMachinePlacementStatus_Datastores := option_map (map VirtualMachineGroupPlacementDatastoreStatus_hub_To_v1alpha6) (vmophub.VirtualMachinePlacementStatus_Datastores placement)
  |}.

Definition VirtualMachineGroupMemberStatus_hub_To_v1alpha6 (member : vmophub.VirtualMachineGroupMemberStatus) : vmoprv1alpha6.VirtualMachineGroupMemberStatus :=
  {|
    vmoprv1alpha6.VirtualMachineGroupMemberStatus_Name := vmophub.VirtualMachineGroupMemberStatus_Name member;
    vmoprv1alpha6.VirtualMachineGroupMemberStatus_Kind := vmophub.VirtualMachineGroupMemberStatus_Kind member;
    vmoprv1alpha6.VirtualMachineGroupMemberStatus_UID := vmophub.VirtualMachineGroupMemberStatus_UID member;
    vmoprv1alpha6.VirtualMachineGroupMemberStatus_Placement := option_map VirtualMachinePlacementStatus_hub_To_v1alpha6 (vmophub.VirtualMachineGroupMemberStatus_Placement member);
    vmoprv1alpha6.VirtualMachineGroupMemberStatus_PowerState := vmophub.VirtualMachineGroupMemberStatus_PowerState member;
    vmoprv1alpha6.VirtualMachineGroupMemberStatus_Conditions := vmophub.VirtualMachineGroupMemberStatus_Conditions member
  |}.

Definition convert_hub_VirtualMachineGroup_To_v1alpha6_VirtualMachineGroup (src : vmophub.VirtualMachineGroup) (dst : vmoprv1alpha6.VirtualMachineGroup) : res vmoprv1alpha6.VirtualMachineGroup :=
  Ok {|
    vmoprv1alpha6.VirtualMachineGroup_ObjectMeta := vmophub.VirtualMachineGroup_ObjectMeta src;
    vmoprv1alpha6.VirtualMachineGroup_Spec := {|
        vmoprv1alpha6.VirtualMachineGroupSpec_BootOrder := match vmophub.VirtualMachineGroupSpec_BootOrder (vmophub.VirtualMachineGroup_Spec src) with
          | Some bootOrder => Some (map VirtualMachineGroupBootOrderGroup_hub_To_v1alpha6 bootOrder)
          | None => vmoprv1alpha6.VirtualMachineGroupSpec_BootOrder (vmoprv1alpha6.VirtualMachineGroup_Spec dst)
          end
      |};
    vmoprv1alpha6.VirtualMachineGroup_Status := {|
        vmoprv1alpha6.VirtualMachineGroupStatus_Members := match vmophub.VirtualMachineGroupStatus_Members (vmophub.VirtualMachineGroup_Status src) with
          | Some members => Some (map VirtualMachineGroupMemberStatus_hub_To_v1alpha6 members)
          | None => vmoprv1alpha6.VirtualMachineGroupStatus_Members (vmoprv1alpha6.VirtualMachineGroup_Status dst)
          end
      |}
  |}.

(** ** [convert_v1alpha6_VirtualMachineImage_To_hub_VirtualMachineImage] *)
Definition LocalObjectRef_v1alpha6_To_hub (providerRef : vmoprv1alpha6.LocalObjectRef) : vmophub.LocalObjectRef :=
  {|
    vmophub.LocalObjectRef_APIVersion := vmoprv1alpha6.LocalObjectRef_APIVersion providerRef;
    vmophub.LocalObjectRef_Kind := vmoprv1alpha6.LocalObjectRef_Kind providerRef;
    vmophub.LocalObjectRef_Name := vmoprv1alpha6.LocalObjectRef_Name providerRef
  |}.

Definition VirtualMachineImageStatus_v1alpha6_To_hub (src : vmoprv1alpha6.VirtualMachineImageStatus) (dst : vmophub.VirtualMachineImageStatus) : vmophub.VirtualMachineImageStatus :=
  {|
    vmophub.VirtualMachineImageStatus_Name := vmoprv1alpha6.VirtualMachineImageStatus_Name src;
    vmophub.VirtualMachineImageStatus_OSInfo := {|
        vmophub.VirtualMachineImageOSInfo_Type := vmoprv1alpha6.VirtualMachineImageOSInfo_Type (vmoprv1alpha6.VirtualMachineImageStatus_OSInfo src)
      |};
    vmophub.VirtualMachineImageStatus_VMwareSystemProperties := match vmoprv1alpha6.VirtualMachineImageStatus_VMwareSystemProperties src with
      | Some vMwareSystemProperties => Some (map KeyValuePair_v1alpha6_To_hub vMwareSystemProperties)
      | None => vmophub.VirtualMachineImageStatus_VMwareSystemProperties dst
      end;
    vmophub.VirtualMachineImageStatus_ProductInfo := {|
        vmophub.VirtualMachineImageProductInfo_FullVersion := vmoprv1alpha6.VirtualMachineImageProductInfo_FullVersion (vmoprv1alpha6.VirtualMachineImageStatus_ProductInfo src)
      |};
    vmophub.VirtualMachineImageStatus_ProviderItemID := vmoprv1alpha6.VirtualMachineImageStatus_ProviderItemID src;
    vmophub.VirtualMachineImageStatus_Conditions := match vmoprv1alpha6.VirtualMachineImageStatus_Conditions src with
      | Some conditions => Some conditions
      | None => vmophub.VirtualMachineImageStatus_Conditions dst
      end
  |}.

Definition convert_v1alpha6_VirtualMachineImage_To_hub_VirtualMachineImage (src : vmoprv1alpha6.VirtualMachineImage) (dst : vmophub.VirtualMachineImage) : res vmophub.VirtualMachineImage :=
  Ok {|
    vmophub.VirtualMachineImage_ObjectMeta := vmoprv1alpha6.VirtualMachineImage_ObjectMeta src;
    vmophub.VirtualMachineImage_Spec := {|
        vmophub.VirtualMachineImageSpec_ProviderRef := match vmoprv1alpha6.VirtualMachineImageSpec_ProviderRef (vmoprv1alpha6.VirtualMachineImage_Spec src) with Some providerRef => Some (LocalObjectRef_v1alpha6_To_hub providerRef) | None => vmophub.VirtualMachineImageSpec_ProviderRef (vmophub.VirtualMachineImage_Spec dst) end
      |};
    vmophub.VirtualMachineImage_Status := VirtualMachineImageStatus_v1alpha6_To_hub (vmoprv1alpha6.VirtualMachineImage_Status src) (vmophub.VirtualMachineImage_Status dst);
    vmophub.VirtualMachineImage_Source := vmophub.VirtualMachineImage_Source dst
  |}.

(** ** [convert_hub_VirtualMachineImage_To_v1alpha6_VirtualMachineImage] *)
Definition LocalObjectRef_hub_To_v1alpha6 (providerRef : vmophub.LocalObjectRef) : vmoprv1alpha6.LocalObjectRef :=
  {|
    vmoprv1alpha6.LocalObjectRef_APIVersion := vmophub.LocalObjectRef_APIVersion providerRef;
    vmoprv1alpha6.LocalObjectRef_Kind := vmophub.LocalObjectRef_Kind providerRef;
    vmoprv1alpha6.LocalObjectRef_Name := vmophub.LocalObjectRef_Name providerRef
  |}.

Definition VirtualMachineImageStatus_hub_To_v1alpha6 (src : vmophub.VirtualMachineImageStatus) (dst : vmoprv1alpha6.VirtualMachineImageStatus) : vmoprv1alpha6.VirtualMachineImageStatus :=
  {|
    vmoprv1alpha6.VirtualMachineImageStatus_Name := vmophub.VirtualMachineImageStatus_Name src;
    vmoprv1alpha6.VirtualMachineImageStatus_OSInfo := {|
        vmoprv1alpha6.VirtualMachineImageOSInfo_Type := vmophub.VirtualMachineImageOSInfo_Type (vmophub.VirtualMachineImageStatus_OSInfo src)
      |};
    vmoprv1alpha6.VirtualMachineImageStatus_VMwareSystemProperties := match vmophub.VirtualMachineImageStatus_VMwareSystemProperties src with
      | Some vMwareSystemProperties => Some (map KeyValuePair_hub_To_v1alpha6 vMwareSystemProperties)
      | None => vmoprv1alpha6.VirtualMachineImageStatus_VMwareSystemProperties dst
      end;
    vmoprv1alpha6.VirtualMachineImageStatus_ProductInfo := {|
        vmoprv1alpha6.VirtualMachineImageProductInfo_FullVersion := vmophub.VirtualMachineImageProductInfo_FullVersion (vmophub.VirtualMachineImageStatus_ProductInfo src)
      |};
    vmoprv1alpha6.VirtualMachineImageStatus_ProviderItemID := vmophub.VirtualMachineImageStatus_ProviderItemID src;
    vmoprv1alpha6.VirtualMachineImageStatus_Conditions := match vmophub.VirtualMachineImageStatus_Conditions src with
      | Some conditions => Some conditions
      | None => vmoprv1alpha6.VirtualMachineImageStatus_Conditions dst
      end
  |}.

Definition convert_hub_VirtualMachineImage_To_v1alpha6_VirtualMachineImage (src : vmophub.VirtualMachineImage) (dst : vmoprv1alpha6.VirtualMachineImage) : res vmoprv1alpha6.VirtualMachineImage :=
  Ok {|
    vmoprv1alpha6.VirtualMachineImage_ObjectMeta := vmophub.VirtualMachineImage_ObjectMeta src;
    vmoprv1alpha6.VirtualMachineImage_Spec := {|
        vmoprv1alpha6.VirtualMachineImageSpec_ProviderRef := match vmophub.VirtualMachineImageSpec_ProviderRef (vmophub.VirtualMachineImage_Spec src) with Some providerRef => Some (LocalObjectRef_hub_To_v1alpha6 providerRef) | None => vmoprv1alpha6.VirtualMachineImageSpec_ProviderRef (vmoprv1alpha6.VirtualMachineImage_Spec dst) end
      |};
    vmoprv1alpha6.VirtualMachineImage_Status := VirtualMachineImageStatus_hub_To_v1alpha6 (vmophub.VirtualMachineImage_Status src) (vmoprv1alpha6.VirtualMachineImage_Status dst)
  |}.

(** ** [convert_v1alpha6_ClusterVirtualMachineImage_To_hub_ClusterVirtualMachineImage] *)
Definition ClusterVirtualMachineImage_Status_v1alpha6_To_hub (src : vmoprv1alpha6.VirtualMachineImageStatus) (dst : vmophub.VirtualMachineImageStatus) : vmophub.VirtualMachineImageStatus :=
  {|
    vmophub.VirtualMachineImageStatus_Name := vmoprv1alpha6.VirtualMachineImageStatus_Name src;
    vmophub.VirtualMachineImageStatus_OSInfo := {|
        vmophub.VirtualMachineImageOSInfo_Type := vmoprv1alpha6.VirtualMachineImageOSInfo_Type (vmoprv1alpha6.VirtualMachineImageStatus_OSInfo src)
      |};
    vmophub.VirtualMachineImageStatus_VMwareSystemProperties := match vmoprv1alpha6.VirtualMachineImageStatus_VMwareSystemProperties src with
      | Some vMwareSystemProperties => Some (map KeyValuePair_v1alpha6_To_hub vMwareSystemProperties)
      | None => vmophub.VirtualMachineImageStatus_VMwareSystemProperties dst
      end;
    vmophub.VirtualMachineImageStatus_ProductInfo := {|
        vmophub.VirtualMachineImageProductInfo_FullVersion := vmoprv1alpha6.VirtualMachineImageProductInfo_FullVersion (vmoprv1alpha6.VirtualMachineImageStatus_ProductInfo src)
      |};
    vmophub.VirtualMachineImageStatus_ProviderItemID := vmoprv1alpha6.VirtualMachineImageStatus_ProviderItemID src;
    vmophub.VirtualMachineImageStatus_Conditions := match vmoprv1alpha6.VirtualMachineImageStatus_Conditions src with
      | Some conditions => Some conditions
      | None => vmophub.VirtualMachineImageStatus_Conditions dst
      end
  |}.

Definition convert_v1alpha6_ClusterVirtualMachineImage_To_hub_ClusterVirtualMachineImage (src : vmoprv1alpha6.ClusterVirtualMachineImage) (dst : vmophub.ClusterVirtualMachineImage) : res vmophub.ClusterVirtualMachineImage :=
  Ok {|
    vmophub.ClusterVirtualMachineImage_ObjectMeta := vmoprv1alpha6.ClusterVirtualMachineImage_ObjectMeta src;
    vmophub.ClusterVirtualMachineImage_Spec := {|
        vmophub.VirtualMachineImageSpec_ProviderRef := match vmoprv1alpha6.VirtualMachineImageSpec_ProviderRef (vmoprv1alpha6.ClusterVirtualMachineImage_Spec src) with Some providerRef => Some (LocalObjectRef_v1alpha6_To_hub providerRef) | None => vmophub.VirtualMachineImageSpec_ProviderRef (vmophub.ClusterVirtualMachineImage_Spec dst) end
      |};
    vmophub.ClusterVirtualMachineImage_Status := ClusterVirtualMachineImage_Status_v1alpha6_To_hub (vmoprv1alpha6.ClusterVirtualMachineImage_Status src) (vmophub.ClusterVirtualMachineImage_Status dst);
    vmophub.ClusterVirtualMachineImage_Source := vmophub.ClusterVirtualMachineImage_Source dst
  |}.

(** ** [convert_hub_ClusterVirtualMachineImage_To_v1alpha6_ClusterVirtualMachineImage] *)
Definition ClusterVirtualMachineImage_Status_hub_To_v1alpha6 (src : vmophub.VirtualMachineImageStatus) (dst : vmoprv1alpha6.VirtualMachineImageStatus) : vmoprv1alpha6.VirtualMachineImageStatus :=
  {|
    vmoprv1alpha6.VirtualMachineImageStatus_Name := vmophub.VirtualMachineImageStatus_Name src;
    vmoprv1alpha6.VirtualMachineImageStatus_OSInfo := {|
        vmoprv1alpha6.VirtualMachineImageOSInfo_Type := vmophub.VirtualMachineImageOSInfo_Type (vmophub.VirtualMachineImageStatus_OSInfo src)
      |};
    vmoprv1alpha6.VirtualMachineImageStatus_VMwareSystemProperties := match vmophub.VirtualMachineImageStatus_VMwareSystemProperties src with
      | Some vMwareSystemProperties => Some (map KeyValuePair_hub_To_v1alpha6 vMwareSystemProperties)
      | None => vmoprv1alpha6.VirtualMachineImageStatus_VMwareSystemProperties dst
      end;
    vmoprv1alpha6.VirtualMachineImageStatus_ProductInfo := {|
        vmoprv1alpha6.VirtualMachineImageProductInfo_FullVersion := vmophub.VirtualMachineImageProductInfo_FullVersion (vmophub.VirtualMachineImageStatus_ProductInfo src)
      |};
    vmoprv1alpha6.VirtualMachineImageStatus_ProviderItemID := vmophub.VirtualMachineImageStatus_ProviderItemID src;
    vmoprv1alpha6.VirtualMachineImageStatus_Conditions := match vmophub.VirtualMachineImageStatus_Conditions src with
      | Some conditions => Some conditions
      | None => vmoprv1alpha6.VirtualMachineImageStatus_Conditions dst
      end
  |}.

Definition convert_hub_ClusterVirtualMachineImage_To_v1alpha6_ClusterVirtualMachineImage (src : vmophub.ClusterVirtualMachineImage) (dst : vmoprv1alpha6.ClusterVirtualMachineImage) : res vmoprv1alpha6.ClusterVirtualMachineImage :=
  Ok {|
    vmoprv1alpha6.ClusterVirtualMachineImage_ObjectMeta := vmophub.ClusterVirtualMachineImage_ObjectMeta src;
    vmoprv1alpha6.ClusterVirtualMachineImage_Spec := {|
        vmoprv1alpha6.VirtualMachineImageSpec_ProviderRef := match vmophub.VirtualMachineImageSpec_ProviderRef (vmophub.ClusterVirtualMachineImage_Spec src) with Some providerRef => Some (LocalObjectRef_hub_To_v1alpha6 providerRef) | None => vmoprv1alpha6.VirtualMachineImageSpec_ProviderRef (vmoprv1alpha6.ClusterVirtualMachineImage_Spec dst) end
      |};
    vmoprv1alpha6.ClusterVirtualMachineImage_Status := ClusterVirtualMachineImage_Status_hub_To_v1alpha6 (vmophub.ClusterVirtualMachineImage_Status src) (vmoprv1alpha6.ClusterVirtualMachineImage_Status dst)
  |}.

(** ** [convert_v1alpha6_VirtualMachineService_To_hub_VirtualMachineService] *)
Definition VirtualMachineServicePort_v1alpha6_To_hub (port : vmoprv1alpha6.VirtualMachineServicePort) : vmophub.VirtualMachineServicePort :=
  {|
    vmophub.VirtualMachineServicePort_Name := vmoprv1alpha6.VirtualMachineServicePort_Name port;
    vmophub.VirtualMachineServicePort_Protocol := vmoprv1alpha6.VirtualMachineServicePort_Protocol port;
    vmophub.VirtualMachineServicePort_Port := vmoprv1alpha6.VirtualMachineServicePort_Port port;
    vmophub.VirtualMachineServicePort_TargetPort := vmoprv1alpha6.VirtualMachineServicePort_TargetPort port
  |}.

Definition LoadBalancerIngress_v1alpha6_To_hub (ingress1 : vmoprv1alpha6.LoadBalancerIngress) : vmophub.LoadBalancerIngress :=
  {|
    vmophub.LoadBalancerIngress_IP := vmoprv1alpha6.LoadBalancerIngress_IP ingress1;
    vmophub.LoadBalancerIngress_Hostname := vmoprv1alpha6.LoadBalancerIngress_Hostname ingress1
  |}.

Definition VirtualMachineServiceSpec_v1alpha6_To_hub (src : vmoprv1alpha6.VirtualMachineServiceSpec) (dst : vmophub.VirtualMachineServiceSpec) : vmophub.VirtualMachineServiceSpec :=
  {|
    vmophub.VirtualMachineServiceSpec_Type := vmoprv1alpha6.VirtualMachineServiceSpec_Type src;
    vmophub.VirtualMachineServiceSpec_Ports := match vmoprv1alpha6.VirtualMachineServiceSpec_Ports src with
      | Some ports => Some (map VirtualMachineServicePort_v1alpha6_To_hub ports)
      | None => vmophub.VirtualMachineServiceSpec_Ports dst
      end;
    vmophub.VirtualMachineServiceSpec_Selector := vmoprv1alpha6.VirtualMachineServiceSpec_Selector src;
    vmophub.VirtualMachineServiceSpec_IPFamilies := vmoprv1alpha6.VirtualMachineServiceSpec_IPFamilies src;
    vmophub.VirtualMachineServiceSpec_IPFamilyPolicy := match vmoprv1alpha6.VirtualMachineServiceSpec_IPFamilyPolicy src with
      | Some iPFamilyPolicy => Some iPFamilyPolicy
      | None => vmophub.VirtualMachineServiceSpec_IPFamilyPolicy dst
      end
  |}.

Definition convert_v1alpha6_VirtualMachineService_To_hub_VirtualMachineService (src : vmoprv1alpha6.VirtualMachineService) (dst : vmophub.VirtualMachineService) : res vmophub.VirtualMachineService :=
  Ok {|
    vmophub.VirtualMachineService_ObjectMeta := vmoprv1alpha6.VirtualMachineService_ObjectMeta src;
    vmophub.VirtualMachineService_Spec := VirtualMachineServiceSpec_v1alpha6_To_hub (vmoprv1alpha6.VirtualMachineService_Spec src) (vmophub.VirtualMachineService_Spec dst);
    vmophub.VirtualMachineService_Status := {|
        vmophub.VirtualMachineServiceStatus_LoadBalancer := {|
            vmophub.LoadBalancerStatus_Ingress := match vmoprv1alpha6.LoadBalancerStatus_Ingress (vmoprv1alpha6.VirtualMachineServiceStatus_LoadBalancer (vmoprv1alpha6.VirtualMachineService_Status src)) with
              | Some ingress => Some (map LoadBalancerIngress_v1alpha6_To_hub ingress)
              | None => vmophub.LoadBalancerStatus_Ingress (vmophub.VirtualMachineServiceStatus_LoadBalancer (vmophub.VirtualMachineService_Status dst))
              end
          |}
      |};
    vmophub.VirtualMachineService_Source := vmophub.VirtualMachineService_Source dst
  |}.

(** ** [convert_hub_VirtualMachineService_To_v1alpha6_VirtualMachineService] *)
Definition VirtualMachineServicePort_hub_To_v1alpha6 (port : vmophub.VirtualMachineServicePort) : vmoprv1alpha6.VirtualMachineServicePort :=
  {|
    vmoprv1alpha6.VirtualMachineServicePort_Name := vmophub.VirtualMachineServicePort_Name port;
    vmoprv1alpha6.VirtualMachineServicePort_Protocol := vmophub.VirtualMachineServicePort_Protocol port;
    vmoprv1alpha6.VirtualMachineServicePort_Port := vmophub.VirtualMachineServicePort_Port port;
    vmoprv1alpha6.VirtualMachineServicePort_TargetPort := vmophub.VirtualMachineServicePort_TargetPort port
  |}.

Definition LoadBalancerIngress_hub_To_v1alpha6 (ingress1 : vmophub.LoadBalancerIngress) : vmoprv1alpha6.LoadBalancerIngress :=
  {|
    vmoprv1alpha6.LoadBalancerIngress_IP := vmophub.LoadBalancerIngress_IP ingress1;
    vmoprv1alpha6.LoadBalancerIngress_Hostname := vmophub.LoadBalancerIngress_Hostname ingress1
  |}.

Definition VirtualMachineServiceSpec_hub_To_v1alpha6 (src : vmophub.VirtualMachineServiceSpec) (dst : vmoprv1alpha6.VirtualMachineServiceSpec) : vmoprv1alpha6.VirtualMachineServiceSpec :=
  {|
    vmoprv1alpha6.VirtualMachineServiceSpec_Type := vmophub.VirtualMachineServiceSpec_Type src;
    vmoprv1alpha6.VirtualMachineServiceSpec_Ports := match vmophub.VirtualMachineServiceSpec_Ports src with
      | Some ports => Some (map VirtualMachineServicePort_hub_To_v1alpha6 ports)
      | None => vmoprv1alpha6.VirtualMachineServiceSpec_Ports dst
      end;
    vmoprv1alpha6.VirtualMachineServiceSpec_Selector := vmophub.VirtualMachineServiceSpec_Selector src;
    vmoprv1alpha6.VirtualMachineServiceSpec_IPFamilies := vmophub.VirtualMachineServiceSpec_IPFamilies src;
    vmoprv1alpha6.VirtualMachineServiceSpec_IPFamilyPolicy := match vmophub.VirtualMachineServiceSpec_IPFamilyPolicy src with
      | Some iPFamilyPolicy => Some iPFamilyPolicy
      | None => vmoprv1alpha6.VirtualMachineServiceSpec_IPFamilyPolicy dst
      end
  |}.

Definition convert_hub_VirtualMachineService_To_v1alpha6_VirtualMachineService (src : vmophub.VirtualMachineService) (dst : vmoprv1alpha6.VirtualMachineService) : res vmoprv1alpha6.VirtualMachineService :=
  Ok {|
    vmoprv1alpha6.VirtualMachineService_ObjectMeta := vmophub.VirtualMachineService_ObjectMeta src;
    vmoprv1alpha6.VirtualMachineService_Spec := VirtualMachineServiceSpec_hub_To_v1alpha6 (vmophub.VirtualMachineService_Spec src) (vmoprv1alpha6.VirtualMachineService_Spec dst);
    vmoprv1alpha6.VirtualMachineService_Status := {|
        vmoprv1alpha6.VirtualMachineServiceStatus_LoadBalancer := {|
            vmoprv1alpha6.LoadBalancerStatus_Ingress := match vmophub.LoadBalancerStatus_Ingress (vmophub.VirtualMachineServiceStatus_LoadBalancer (vmophub.VirtualMachineService_Status src)) with
              | Some ingress => Some (map LoadBalancerIngress_hub_To_v1alpha6 ingress)
              | None => vmoprv1alpha6.LoadBalancerStatus_Ingress (vmoprv1alpha6.VirtualMachineServiceStatus_LoadBalancer (vmoprv1alpha6.VirtualMachineService_Status dst))
              end
          |}
      |}
  |}.

(** ** [convert_v1alpha6_VirtualMachineSetResourcePolicy_To_hub_VirtualMachineSetResourcePolicy] *)
Definition convert_v1alpha6_VirtualMachineSetResourcePolicy_To_hub_VirtualMachineSetResourcePolicy (src : vmoprv1alpha6.VirtualMachineSetResourcePolicy) (dst : vmophub.VirtualMachineSetResourcePolicy) : res vmophub.VirtualMachineSetResourcePolicy :=
  Ok {|
    vmophub.VirtualMachineSetResourcePolicy_ObjectMeta := vmoprv1alpha6.VirtualMachineSetResourcePolicy_ObjectMeta src;
    vmophub.VirtualMachineSetResourcePolicy_Spec := {|
        vmophub.VirtualMachineSetResourcePolicySpec_ResourcePool := {|
            vmophub.ResourcePoolSpec_Name := vmoprv1alpha6.ResourcePoolSpec_Name (vmoprv1alpha6.VirtualMachineSetResourcePolicySpec_ResourcePool (vmoprv1alpha6.VirtualMachineSetResourcePolicy_Spec src))
          |};
        vmophub.VirtualMachineSetResourcePolicySpec_Folder := vmoprv1alpha6.VirtualMachineSetResourcePolicySpec_Folder (vmoprv1alpha6.VirtualMachineSetResourcePolicy_Spec src);
        vmophub.VirtualMachineSetResourcePolicySpec_ClusterModuleGroups := vmoprv1alpha6.VirtualMachineSetResourcePolicySpec_ClusterModuleGroups (vmoprv1alpha6.VirtualMachineSetResourcePolicy_Spec src)
      |};
    vmophub.VirtualMachineSetResourcePolicy_Status := vmophub.VirtualMachineSetResourcePolicy_Status dst;
    vmophub.VirtualMachineSetResourcePolicy_Source := vmophub.VirtualMachineSetResourcePolicy_Source dst
  |}.

(** ** [convert_hub_VirtualMachineSetResourcePolicy_To_v1alpha6_VirtualMachineSetResourcePolicy] *)
Definition convert_hub_VirtualMachineSetResourcePolicy_To_v1alpha6_VirtualMachineSetResourcePolicy (src : vmophub.VirtualMachineSetResourcePolicy) (dst : vmoprv1alpha6.VirtualMachineSetResourcePolicy) : res vmoprv1alpha6.VirtualMachineSetResourcePolicy :=
  Ok {|
    vmoprv1alpha6.VirtualMachineSetResourcePolicy_ObjectMeta := vmophub.VirtualMachineSetResourcePolicy_ObjectMeta src;
    vmoprv1alpha6.VirtualMachineSetResourcePolicy_Spec := {|
        vmoprv1alpha6.VirtualMachineSetResourcePolicySpec_ResourcePool := {|
            vmoprv1alpha6.ResourcePoolSpec_Name := vmophub.ResourcePoolSpec_Name (vmophub.VirtualMachineSetResourcePolicySpec_ResourcePool (vmophub.VirtualMachineSetResourcePolicy_Spec src))
          |};
        vmoprv1alpha6.VirtualMachineSetResourcePolicySpec_Folder := vmophub.VirtualMachineSetResourcePolicySpec_Folder (vmophub.VirtualMachineSetResourcePolicy_Spec src);
        vmoprv1alpha6.VirtualMachineSetResourcePolicySpec_ClusterModuleGroups := vmophub.VirtualMachineSetResourcePolicySpec_ClusterModuleGroups (vmophub.VirtualMachineSetResourcePolicy_Spec src)
      |}
  |}.
