(* ===== verification/VmopRoundTrip.v ===== *)
(** Round trips of the conversions of the VM Operator objects: an object of a version of the API server
    that is converted to the hub version and back is what it was; and the hub version and the newest version of
    the API server have the same fields. *)
From S2P Require Export VmopConv.

(** [g] takes back what [f] does. *)
Class GoesBack {A B} (f : A -> B) (g : B -> A) := goes_back_id x : g (f x) = x.

#[export] Instance goes_back_option {A B} (f : A -> B) (g : B -> A) : GoesBack f g -> GoesBack (option_map f) (option_map g).
Proof. intros E [x|]; cbn; [by rewrite E|done]. Qed.
#[export] Instance goes_back_map {A B} (f : A -> B) (g : B -> A) : GoesBack f g -> GoesBack (map f) (map g).
Proof. intros E l. induction l as [|x l IH]; [done|]. cbn. by rewrite E, IH. Qed.

(** [g] takes [f] back up to [n]. *)
Lemma back_option {A B} (f : A -> B) (g : B -> A) n s : (forall x, g (f x) = n x) -> option_map g (option_map f s) = option_map n s.
Proof. intros E. destruct s; cbn; [by rewrite E|done]. Qed.
Lemma back_slice {A B} (f : A -> B) (g : B -> A) n s : (forall x, g (f x) = n x) -> option_map (map g) (option_map (map f) s) = option_map (map n) s.
Proof. intros E. apply back_option. intros l. rewrite map_map. by apply map_ext. Qed.

(** What is left of a slice whose elements are appended to a nil slice. *)
Definition nil_if_empty {A} (s : option (list A)) : option (list A) := match elems s with [] => None | l => Some l end.
Lemma append_each_back {A B} (f : A -> B) (g : B -> A) s : (forall x, g (f x) = x) -> append_each g (append_each f s) = nil_if_empty s.
Proof.
  intros E. destruct s as [[|x l]|]; [done| |done]. cbn. rewrite E. do 2 f_equal. rewrite map_map. rewrite <-(map_id l) at 2. by apply map_ext.
Qed.

(** Records field by field: a field goes through unchanged, or by conversions that take each other back. *)
Ltac back := lazymatch goal with |- ?l = ?x => first
  [ reflexivity
  | apply goes_back_id
  | apply goes_back_option, _
  | is_var x; destruct x; cbn; f_equal; back ] end.
Ltac takes_back f g := intros x; unfold f, g; back.
(** A nil slice or pointer in a fresh object. *)
Ltac fresh_slice := repeat match goal with |- context [match ?s with Some _ => _ | None => _ end] => destruct s end.

(** * v1alpha2 *)

#[export] Instance VMAffinityTerm_v1alpha2_To_hub_back : GoesBack VMAffinityTerm_v1alpha2_To_hub VMAffinityTerm_hub_To_v1alpha2.
Proof. takes_back VMAffinityTerm_v1alpha2_To_hub VMAffinityTerm_hub_To_v1alpha2. Qed.
#[export] Instance VMAffinitySpec_v1alpha2_To_hub_back : GoesBack VMAffinitySpec_v1alpha2_To_hub VMAffinitySpec_hub_To_v1alpha2.
Proof. takes_back VMAffinitySpec_v1alpha2_To_hub VMAffinitySpec_hub_To_v1alpha2. Qed.
#[export] Instance VMAntiAffinitySpec_v1alpha2_To_hub_back : GoesBack VMAntiAffinitySpec_v1alpha2_To_hub VMAntiAffinitySpec_hub_To_v1alpha2.
Proof. takes_back VMAntiAffinitySpec_v1alpha2_To_hub VMAntiAffinitySpec_hub_To_v1alpha2. Qed.
#[export] Instance AffinitySpec_v1alpha2_To_hub_back : GoesBack AffinitySpec_v1alpha2_To_hub AffinitySpec_hub_To_v1alpha2.
Proof. takes_back AffinitySpec_v1alpha2_To_hub AffinitySpec_hub_To_v1alpha2. Qed.
#[export] Instance SecretKeySelector_v1alpha2_To_hub_back : GoesBack SecretKeySelector_v1alpha2_To_hub SecretKeySelector_hub_To_v1alpha2.
Proof. takes_back SecretKeySelector_v1alpha2_To_hub SecretKeySelector_hub_To_v1alpha2. Qed.
#[export] Instance VirtualMachineBootstrapCloudInitSpec_v1alpha2_To_hub_back : GoesBack VirtualMachineBootstrapCloudInitSpec_v1alpha2_To_hub VirtualMachineBootstrapCloudInitSpec_hub_To_v1alpha2.
Proof. takes_back VirtualMachineBootstrapCloudInitSpec_v1alpha2_To_hub VirtualMachineBootstrapCloudInitSpec_hub_To_v1alpha2. Qed.
#[export] Instance VirtualMachineBootstrapSpec_v1alpha2_To_hub_back : GoesBack VirtualMachineBootstrapSpec_v1alpha2_To_hub VirtualMachineBootstrapSpec_hub_To_v1alpha2.
Proof. takes_back VirtualMachineBootstrapSpec_v1alpha2_To_hub VirtualMachineBootstrapSpec_hub_To_v1alpha2. Qed.
#[export] Instance PartialObjectRef_v1alpha2_To_hub_back : GoesBack PartialObjectRef_v1alpha2_To_hub PartialObjectRef_hub_To_v1alpha2.
Proof. takes_back PartialObjectRef_v1alpha2_To_hub PartialObjectRef_hub_To_v1alpha2. Qed.
#[export] Instance VirtualMachineNetworkRouteSpec_v1alpha2_To_hub_back : GoesBack VirtualMachineNetworkRouteSpec_v1alpha2_To_hub VirtualMachineNetworkRouteSpec_hub_To_v1alpha2.
Proof. takes_back VirtualMachineNetworkRouteSpec_v1alpha2_To_hub VirtualMachineNetworkRouteSpec_hub_To_v1alpha2. Qed.
#[export] Instance VirtualMachineNetworkInterfaceSpec_v1alpha2_To_hub_back : GoesBack VirtualMachineNetworkInterfaceSpec_v1alpha2_To_hub VirtualMachineNetworkInterfaceSpec_hub_To_v1alpha2.
Proof. takes_back VirtualMachineNetworkInterfaceSpec_v1alpha2_To_hub VirtualMachineNetworkInterfaceSpec_hub_To_v1alpha2. Qed.
#[export] Instance VirtualMachineNetworkSpec_v1alpha2_To_hub_back : GoesBack VirtualMachineNetworkSpec_v1alpha2_To_hub VirtualMachineNetworkSpec_hub_To_v1alpha2.
Proof. takes_back VirtualMachineNetworkSpec_v1alpha2_To_hub VirtualMachineNetworkSpec_hub_To_v1alpha2. Qed.
#[export] Instance InstanceVolumeClaimVolumeSource_v1alpha2_To_hub_back : GoesBack InstanceVolumeClaimVolumeSource_v1alpha2_To_hub InstanceVolumeClaimVolumeSource_hub_To_v1alpha2.
Proof. takes_back InstanceVolumeClaimVolumeSource_v1alpha2_To_hub InstanceVolumeClaimVolumeSource_hub_To_v1alpha2. Qed.
#[export] Instance PersistentVolumeClaimVolumeSource_v1alpha2_To_hub_back : GoesBack PersistentVolumeClaimVolumeSource_v1alpha2_To_hub PersistentVolumeClaimVolumeSource_hub_To_v1alpha2.
Proof. takes_back PersistentVolumeClaimVolumeSource_v1alpha2_To_hub PersistentVolumeClaimVolumeSource_hub_To_v1alpha2. Qed.
#[export] Instance VirtualMachineVolume_v1alpha2_To_hub_back : GoesBack VirtualMachineVolume_v1alpha2_To_hub VirtualMachineVolume_hub_To_v1alpha2.
Proof. takes_back VirtualMachineVolume_v1alpha2_To_hub VirtualMachineVolume_hub_To_v1alpha2. Qed.
#[export] Instance TCPSocketAction_v1alpha2_To_hub_back : GoesBack TCPSocketAction_v1alpha2_To_hub TCPSocketAction_hub_To_v1alpha2.
Proof. takes_back TCPSocketAction_v1alpha2_To_hub TCPSocketAction_hub_To_v1alpha2. Qed.
#[export] Instance VirtualMachineReadinessProbeSpec_v1alpha2_To_hub_back : GoesBack VirtualMachineReadinessProbeSpec_v1alpha2_To_hub VirtualMachineReadinessProbeSpec_hub_To_v1alpha2.
Proof. takes_back VirtualMachineReadinessProbeSpec_v1alpha2_To_hub VirtualMachineReadinessProbeSpec_hub_To_v1alpha2. Qed.
#[export] Instance VirtualMachineReservedSpec_v1alpha2_To_hub_back : GoesBack VirtualMachineReservedSpec_v1alpha2_To_hub VirtualMachineReservedSpec_hub_To_v1alpha2.
Proof. takes_back VirtualMachineReservedSpec_v1alpha2_To_hub VirtualMachineReservedSpec_hub_To_v1alpha2. Qed.
#[export] Instance KeyValuePair_v1alpha2_To_hub_back : GoesBack KeyValuePair_v1alpha2_To_hub KeyValuePair_hub_To_v1alpha2.
Proof. takes_back KeyValuePair_v1alpha2_To_hub KeyValuePair_hub_To_v1alpha2. Qed.
#[export] Instance VirtualMachineNetworkDHCPStatus_v1alpha2_To_hub_back : GoesBack VirtualMachineNetworkDHCPStatus_v1alpha2_To_hub VirtualMachineNetworkDHCPStatus_hub_To_v1alpha2.
Proof. takes_back VirtualMachineNetworkDHCPStatus_v1alpha2_To_hub VirtualMachineNetworkDHCPStatus_hub_To_v1alpha2. Qed.
#[export] Instance VirtualMachineNetworkInterfaceIPAddrStatus_v1alpha2_To_hub_back : GoesBack VirtualMachineNetworkInterfaceIPAddrStatus_v1alpha2_To_hub VirtualMachineNetworkInterfaceIPAddrStatus_hub_To_v1alpha2.
Proof. takes_back VirtualMachineNetworkInterfaceIPAddrStatus_v1alpha2_To_hub VirtualMachineNetworkInterfaceIPAddrStatus_hub_To_v1alpha2. Qed.
#[export] Instance VirtualMachineNetworkInterfaceIPStatus_v1alpha2_To_hub_back : GoesBack VirtualMachineNetworkInterfaceIPStatus_v1alpha2_To_hub VirtualMachineNetworkInterfaceIPStatus_hub_To_v1alpha2.
Proof. takes_back VirtualMachineNetworkInterfaceIPStatus_v1alpha2_To_hub VirtualMachineNetworkInterfaceIPStatus_hub_To_v1alpha2. Qed.
#[export] Instance VirtualMachineNetworkDNSStatus_v1alpha2_To_hub_back : GoesBack VirtualMachineNetworkDNSStatus_v1alpha2_To_hub VirtualMachineNetworkDNSStatus_hub_To_v1alpha2.
Proof. takes_back VirtualMachineNetworkDNSStatus_v1alpha2_To_hub VirtualMachineNetworkDNSStatus_hub_To_v1alpha2. Qed.
#[export] Instance VirtualMachineNetworkInterfaceStatus_v1alpha2_To_hub_back : GoesBack VirtualMachineNetworkInterfaceStatus_v1alpha2_To_hub VirtualMachineNetworkInterfaceStatus_hub_To_v1alpha2.
Proof. takes_back VirtualMachineNetworkInterfaceStatus_v1alpha2_To_hub VirtualMachineNetworkInterfaceStatus_hub_To_v1alpha2. Qed.
#[export] Instance VirtualMachineNetworkStatus_v1alpha2_To_hub_back : GoesBack VirtualMachineNetworkStatus_v1alpha2_To_hub VirtualMachineNetworkStatus_hub_To_v1alpha2.
Proof. takes_back VirtualMachineNetworkStatus_v1alpha2_To_hub VirtualMachineNetworkStatus_hub_To_v1alpha2. Qed.
#[export] Instance GroupMember_v1alpha2_To_hub_back : GoesBack GroupMember_v1alpha2_To_hub GroupMember_hub_To_v1alpha2.
Proof. takes_back GroupMember_v1alpha2_To_hub GroupMember_hub_To_v1alpha2. Qed.
#[export] Instance VirtualMachineGroupBootOrderGroup_v1alpha2_To_hub_back : GoesBack VirtualMachineGroupBootOrderGroup_v1alpha2_To_hub VirtualMachineGroupBootOrderGroup_hub_To_v1alpha2.
Proof. takes_back VirtualMachineGroupBootOrderGroup_v1alpha2_To_hub VirtualMachineGroupBootOrderGroup_hub_To_v1alpha2. Qed.
#[export] Instance VirtualMachineGroupPlacementDatastoreStatus_v1alpha2_To_hub_back : GoesBack VirtualMachineGroupPlacementDatastoreStatus_v1alpha2_To_hub VirtualMachineGroupPlacementDatastoreStatus_hub_To_v1alpha2.
Proof. takes_back VirtualMachineGroupPlacementDatastoreStatus_v1alpha2_To_hub VirtualMachineGroupPlacementDatastoreStatus_hub_To_v1alpha2. Qed.
#[export] Instance VirtualMachinePlacementStatus_v1alpha2_To_hub_back : GoesBack VirtualMachinePlacementStatus_v1alpha2_To_hub VirtualMachinePlacementStatus_hub_To_v1alpha2.
Proof. takes_back VirtualMachinePlacementStatus_v1alpha2_To_hub VirtualMachinePlacementStatus_hub_To_v1alpha2. Qed.
#[export] Instance VirtualMachineGroupMemberStatus_v1alpha2_To_hub_back : GoesBack VirtualMachineGroupMemberStatus_v1alpha2_To_hub VirtualMachineGroupMemberStatus_hub_To_v1alpha2.
Proof. takes_back VirtualMachineGroupMemberStatus_v1alpha2_To_hub VirtualMachineGroupMemberStatus_hub_To_v1alpha2. Qed.
#[export] Instance LocalObjectRef_v1alpha2_To_hub_back : GoesBack LocalObjectRef_v1alpha2_To_hub LocalObjectRef_hub_To_v1alpha2.
Proof. takes_back LocalObjectRef_v1alpha2_To_hub LocalObjectRef_hub_To_v1alpha2. Qed.
#[export] Instance VirtualMachineServicePort_v1alpha2_To_hub_back : GoesBack VirtualMachineServicePort_v1alpha2_To_hub VirtualMachineServicePort_hub_To_v1alpha2.
Proof. takes_back VirtualMachineServicePort_v1alpha2_To_hub VirtualMachineServicePort_hub_To_v1alpha2. Qed.
#[export] Instance LoadBalancerIngress_v1alpha2_To_hub_back : GoesBack LoadBalancerIngress_v1alpha2_To_hub LoadBalancerIngress_hub_To_v1alpha2.
Proof. takes_back LoadBalancerIngress_v1alpha2_To_hub LoadBalancerIngress_hub_To_v1alpha2. Qed.

(** * v1alpha5 *)

#[export] Instance VMAffinityTerm_v1alpha5_To_hub_back : GoesBack VMAffinityTerm_v1alpha5_To_hub VMAffinityTerm_hub_To_v1alpha5.
Proof. takes_back VMAffinityTerm_v1alpha5_To_hub VMAffinityTerm_hub_To_v1alpha5. Qed.
#[export] Instance VMAffinitySpec_v1alpha5_To_hub_back : GoesBack VMAffinitySpec_v1alpha5_To_hub VMAffinitySpec_hub_To_v1alpha5.
Proof. takes_back VMAffinitySpec_v1alpha5_To_hub VMAffinitySpec_hub_To_v1alpha5. Qed.
#[export] Instance VMAntiAffinitySpec_v1alpha5_To_hub_back : GoesBack VMAntiAffinitySpec_v1alpha5_To_hub VMAntiAffinitySpec_hub_To_v1alpha5.
Proof. takes_back VMAntiAffinitySpec_v1alpha5_To_hub VMAntiAffinitySpec_hub_To_v1alpha5. Qed.
#[export] Instance AffinitySpec_v1alpha5_To_hub_back : GoesBack AffinitySpec_v1alpha5_To_hub AffinitySpec_hub_To_v1alpha5.
Proof. takes_back AffinitySpec_v1alpha5_To_hub AffinitySpec_hub_To_v1alpha5. Qed.
#[export] Instance SecretKeySelector_v1alpha5_To_hub_back : GoesBack SecretKeySelector_v1alpha5_To_hub SecretKeySelector_hub_To_v1alpha5.
Proof. takes_back SecretKeySelector_v1alpha5_To_hub SecretKeySelector_hub_To_v1alpha5. Qed.
#[export] Instance VirtualMachineBootstrapCloudInitSpec_v1alpha5_To_hub_back : GoesBack VirtualMachineBootstrapCloudInitSpec_v1alpha5_To_hub VirtualMachineBootstrapCloudInitSpec_hub_To_v1alpha5.
Proof. takes_back VirtualMachineBootstrapCloudInitSpec_v1alpha5_To_hub VirtualMachineBootstrapCloudInitSpec_hub_To_v1alpha5. Qed.
#[export] Instance VirtualMachineBootstrapSpec_v1alpha5_To_hub_back : GoesBack VirtualMachineBootstrapSpec_v1alpha5_To_hub VirtualMachineBootstrapSpec_hub_To_v1alpha5.
Proof. takes_back VirtualMachineBootstrapSpec_v1alpha5_To_hub VirtualMachineBootstrapSpec_hub_To_v1alpha5. Qed.
#[export] Instance PartialObjectRef_v1alpha5_To_hub_back : GoesBack PartialObjectRef_v1alpha5_To_hub PartialObjectRef_hub_To_v1alpha5.
Proof. takes_back PartialObjectRef_v1alpha5_To_hub PartialObjectRef_hub_To_v1alpha5. Qed.
#[export] Instance VirtualMachineNetworkRouteSpec_v1alpha5_To_hub_back : GoesBack VirtualMachineNetworkRouteSpec_v1alpha5_To_hub VirtualMachineNetworkRouteSpec_hub_To_v1alpha5.
Proof. takes_back VirtualMachineNetworkRouteSpec_v1alpha5_To_hub VirtualMachineNetworkRouteSpec_hub_To_v1alpha5. Qed.
#[export] Instance VirtualMachineNetworkInterfaceSpec_v1alpha5_To_hub_back : GoesBack VirtualMachineNetworkInterfaceSpec_v1alpha5_To_hub VirtualMachineNetworkInterfaceSpec_hub_To_v1alpha5.
Proof. takes_back VirtualMachineNetworkInterfaceSpec_v1alpha5_To_hub VirtualMachineNetworkInterfaceSpec_hub_To_v1alpha5. Qed.
#[export] Instance VirtualMachineNetworkSpec_v1alpha5_To_hub_back : GoesBack VirtualMachineNetworkSpec_v1alpha5_To_hub VirtualMachineNetworkSpec_hub_To_v1alpha5.
Proof. takes_back VirtualMachineNetworkSpec_v1alpha5_To_hub VirtualMachineNetworkSpec_hub_To_v1alpha5. Qed.
#[export] Instance InstanceVolumeClaimVolumeSource_v1alpha5_To_hub_back : GoesBack InstanceVolumeClaimVolumeSource_v1alpha5_To_hub InstanceVolumeClaimVolumeSource_hub_To_v1alpha5.
Proof. takes_back InstanceVolumeClaimVolumeSource_v1alpha5_To_hub InstanceVolumeClaimVolumeSource_hub_To_v1alpha5. Qed.
#[export] Instance PersistentVolumeClaimVolumeSource_v1alpha5_To_hub_back : GoesBack PersistentVolumeClaimVolumeSource_v1alpha5_To_hub PersistentVolumeClaimVolumeSource_hub_To_v1alpha5.
Proof. takes_back PersistentVolumeClaimVolumeSource_v1alpha5_To_hub PersistentVolumeClaimVolumeSource_hub_To_v1alpha5. Qed.
#[export] Instance VirtualMachineVolume_v1alpha5_To_hub_back : GoesBack VirtualMachineVolume_v1alpha5_To_hub VirtualMachineVolume_hub_To_v1alpha5.
Proof. takes_back VirtualMachineVolume_v1alpha5_To_hub VirtualMachineVolume_hub_To_v1alpha5. Qed.
#[export] Instance TCPSocketAction_v1alpha5_To_hub_back : GoesBack TCPSocketAction_v1alpha5_To_hub TCPSocketAction_hub_To_v1alpha5.
Proof. takes_back TCPSocketAction_v1alpha5_To_hub TCPSocketAction_hub_To_v1alpha5. Qed.
#[export] Instance VirtualMachineReadinessProbeSpec_v1alpha5_To_hub_back : GoesBack VirtualMachineReadinessProbeSpec_v1alpha5_To_hub VirtualMachineReadinessProbeSpec_hub_To_v1alpha5.
Proof. takes_back VirtualMachineReadinessProbeSpec_v1alpha5_To_hub VirtualMachineReadinessProbeSpec_hub_To_v1alpha5. Qed.
#[export] Instance VirtualMachineReservedSpec_v1alpha5_To_hub_back : GoesBack VirtualMachineReservedSpec_v1alpha5_To_hub VirtualMachineReservedSpec_hub_To_v1alpha5.
Proof. takes_back VirtualMachineReservedSpec_v1alpha5_To_hub VirtualMachineReservedSpec_hub_To_v1alpha5. Qed.
#[export] Instance PolicySpec_v1alpha5_To_hub_back : GoesBack PolicySpec_v1alpha5_To_hub PolicySpec_hub_To_v1alpha5.
Proof. takes_back PolicySpec_v1alpha5_To_hub PolicySpec_hub_To_v1alpha5. Qed.
#[export] Instance KeyValuePair_v1alpha5_To_hub_back : GoesBack KeyValuePair_v1alpha5_To_hub KeyValuePair_hub_To_v1alpha5.
Proof. takes_back KeyValuePair_v1alpha5_To_hub KeyValuePair_hub_To_v1alpha5. Qed.
#[export] Instance VirtualMachineNetworkDHCPStatus_v1alpha5_To_hub_back : GoesBack VirtualMachineNetworkDHCPStatus_v1alpha5_To_hub VirtualMachineNetworkDHCPStatus_hub_To_v1alpha5.
Proof. takes_back VirtualMachineNetworkDHCPStatus_v1alpha5_To_hub VirtualMachineNetworkDHCPStatus_hub_To_v1alpha5. Qed.
#[export] Instance VirtualMachineNetworkInterfaceIPAddrStatus_v1alpha5_To_hub_back : GoesBack VirtualMachineNetworkInterfaceIPAddrStatus_v1alpha5_To_hub VirtualMachineNetworkInterfaceIPAddrStatus_hub_To_v1alpha5.
Proof. takes_back VirtualMachineNetworkInterfaceIPAddrStatus_v1alpha5_To_hub VirtualMachineNetworkInterfaceIPAddrStatus_hub_To_v1alpha5. Qed.
#[export] Instance VirtualMachineNetworkInterfaceIPStatus_v1alpha5_To_hub_back : GoesBack VirtualMachineNetworkInterfaceIPStatus_v1alpha5_To_hub VirtualMachineNetworkInterfaceIPStatus_hub_To_v1alpha5.
Proof. takes_back VirtualMachineNetworkInterfaceIPStatus_v1alpha5_To_hub VirtualMachineNetworkInterfaceIPStatus_hub_To_v1alpha5. Qed.
#[export] Instance VirtualMachineNetworkDNSStatus_v1alpha5_To_hub_back : GoesBack VirtualMachineNetworkDNSStatus_v1alpha5_To_hub VirtualMachineNetworkDNSStatus_hub_To_v1alpha5.
Proof. takes_back VirtualMachineNetworkDNSStatus_v1alpha5_To_hub VirtualMachineNetworkDNSStatus_hub_To_v1alpha5. Qed.
#[export] Instance VirtualMachineNetworkInterfaceStatus_v1alpha5_To_hub_back : GoesBack VirtualMachineNetworkInterfaceStatus_v1alpha5_To_hub VirtualMachineNetworkInterfaceStatus_hub_To_v1alpha5.
Proof. takes_back VirtualMachineNetworkInterfaceStatus_v1alpha5_To_hub VirtualMachineNetworkInterfaceStatus_hub_To_v1alpha5. Qed.
#[export] Instance VirtualMachineNetworkStatus_v1alpha5_To_hub_back : GoesBack VirtualMachineNetworkStatus_v1alpha5_To_hub VirtualMachineNetworkStatus_hub_To_v1alpha5.
Proof. takes_back VirtualMachineNetworkStatus_v1alpha5_To_hub VirtualMachineNetworkStatus_hub_To_v1alpha5. Qed.
#[export] Instance PolicyStatus_v1alpha5_To_hub_back : GoesBack PolicyStatus_v1alpha5_To_hub PolicyStatus_hub_To_v1alpha5.
Proof. takes_back PolicyStatus_v1alpha5_To_hub PolicyStatus_hub_To_v1alpha5. Qed.
#[export] Instance GroupMember_v1alpha5_To_hub_back : GoesBack GroupMember_v1alpha5_To_hub GroupMember_hub_To_v1alpha5.
Proof. takes_back GroupMember_v1alpha5_To_hub GroupMember_hub_To_v1alpha5. Qed.
#[export] Instance VirtualMachineGroupBootOrderGroup_v1alpha5_To_hub_back : GoesBack VirtualMachineGroupBootOrderGroup_v1alpha5_To_hub VirtualMachineGroupBootOrderGroup_hub_To_v1alpha5.
Proof. takes_back VirtualMachineGroupBootOrderGroup_v1alpha5_To_hub VirtualMachineGroupBootOrderGroup_hub_To_v1alpha5. Qed.
#[export] Instance VirtualMachineGroupPlacementDatastoreStatus_v1alpha5_To_hub_back : GoesBack VirtualMachineGroupPlacementDatastoreStatus_v1alpha5_To_hub VirtualMachineGroupPlacementDatastoreStatus_hub_To_v1alpha5.
Proof. takes_back VirtualMachineGroupPlacementDatastoreStatus_v1alpha5_To_hub VirtualMachineGroupPlacementDatastoreStatus_hub_To_v1alpha5. Qed.
#[export] Instance VirtualMachinePlacementStatus_v1alpha5_To_hub_back : GoesBack VirtualMachinePlacementStatus_v1alpha5_To_hub VirtualMachinePlacementStatus_hub_To_v1alpha5.
Proof. takes_back VirtualMachinePlacementStatus_v1alpha5_To_hub VirtualMachinePlacementStatus_hub_To_v1alpha5. Qed.
#[export] Instance VirtualMachineGroupMemberStatus_v1alpha5_To_hub_back : GoesBack VirtualMachineGroupMemberStatus_v1alpha5_To_hub VirtualMachineGroupMemberStatus_hub_To_v1alpha5.
Proof. takes_back VirtualMachineGroupMemberStatus_v1alpha5_To_hub VirtualMachineGroupMemberStatus_hub_To_v1alpha5. Qed.
#[export] Instance LocalObjectRef_v1alpha5_To_hub_back : GoesBack LocalObjectRef_v1alpha5_To_hub LocalObjectRef_hub_To_v1alpha5.
Proof. takes_back LocalObjectRef_v1alpha5_To_hub LocalObjectRef_hub_To_v1alpha5. Qed.
#[export] Instance VirtualMachineServicePort_v1alpha5_To_hub_back : GoesBack VirtualMachineServicePort_v1alpha5_To_hub VirtualMachineServicePort_hub_To_v1alpha5.
Proof. takes_back VirtualMachineServicePort_v1alpha5_To_hub VirtualMachineServicePort_hub_To_v1alpha5. Qed.
#[export] Instance LoadBalancerIngress_v1alpha5_To_hub_back : GoesBack LoadBalancerIngress_v1alpha5_To_hub LoadBalancerIngress_hub_To_v1alpha5.
Proof. takes_back LoadBalancerIngress_v1alpha5_To_hub LoadBalancerIngress_hub_To_v1alpha5. Qed.

(** * v1alpha6 *)

(** A loop that appends makes an empty slice nil. *)
Definition tidy_v1alpha6_VirtualMachineNetworkInterfaceVMXNet3Spec (x : vmoprv1alpha6.VirtualMachineNetworkInterfaceVMXNet3Spec) : vmoprv1alpha6.VirtualMachineNetworkInterfaceVMXNet3Spec := {|
  vmoprv1alpha6.VirtualMachineNetworkInterfaceVMXNet3Spec_UPTv2Enabled := vmoprv1alpha6.VirtualMachineNetworkInterfaceVMXNet3Spec_UPTv2Enabled x;
  vmoprv1alpha6.VirtualMachineNetworkInterfaceVMXNet3Spec_CtxPerDev := vmoprv1alpha6.VirtualMachineNetworkInterfaceVMXNet3Spec_CtxPerDev x;
  vmoprv1alpha6.VirtualMachineNetworkInterfaceVMXNet3Spec_RSSOffloadEnabled := vmoprv1alpha6.VirtualMachineNetworkInterfaceVMXNet3Spec_RSSOffloadEnabled x;
  vmoprv1alpha6.VirtualMachineNetworkInterfaceVMXNet3Spec_UDPRSSEnabled := vmoprv1alpha6.VirtualMachineNetworkInterfaceVMXNet3Spec_UDPRSSEnabled x;
  vmoprv1alpha6.VirtualMachineNetworkInterfaceVMXNet3Spec_PNICFeatures := nil_if_empty (vmoprv1alpha6.VirtualMachineNetworkInterfaceVMXNet3Spec_PNICFeatures x);
  vmoprv1alpha6.VirtualMachineNetworkInterfaceVMXNet3Spec_CoalescingScheme := vmoprv1alpha6.VirtualMachineNetworkInterfaceVMXNet3Spec_CoalescingScheme x;
  vmoprv1alpha6.VirtualMachineNetworkInterfaceVMXNet3Spec_CoalescingParams := vmoprv1alpha6.VirtualMachineNetworkInterfaceVMXNet3Spec_CoalescingParams x
|}.
Definition tidy_v1alpha6_VirtualMachineNetworkInterfaceSpec (x : vmoprv1alpha6.VirtualMachineNetworkInterfaceSpec) : vmoprv1alpha6.VirtualMachineNetworkInterfaceSpec := {|
  vmoprv1alpha6.VirtualMachineNetworkInterfaceSpec_Name := vmoprv1alpha6.VirtualMachineNetworkInterfaceSpec_Name x;
  vmoprv1alpha6.VirtualMachineNetworkInterfaceSpec_Network := vmoprv1alpha6.VirtualMachineNetworkInterfaceSpec_Network x;
  vmoprv1alpha6.VirtualMachineNetworkInterfaceSpec_GuestDeviceName := vmoprv1alpha6.VirtualMachineNetworkInterfaceSpec_GuestDeviceName x;
  vmoprv1alpha6.VirtualMachineNetworkInterfaceSpec_MACAddr := vmoprv1alpha6.VirtualMachineNetworkInterfaceSpec_MACAddr x;
  vmoprv1alpha6.VirtualMachineNetworkInterfaceSpec_Addresses := vmoprv1alpha6.VirtualMachineNetworkInterfaceSpec_Addresses x;
  vmoprv1alpha6.VirtualMachineNetworkInterfaceSpec_DHCP4 := vmoprv1alpha6.VirtualMachineNetworkInterfaceSpec_DHCP4 x;
  vmoprv1alpha6.VirtualMachineNetworkInterfaceSpec_DHCP6 := vmoprv1alpha6.VirtualMachineNetworkInterfaceSpec_DHCP6 x;
  vmoprv1alpha6.VirtualMachineNetworkInterfaceSpec_Gateway4 := vmoprv1alpha6.VirtualMachineNetworkInterfaceSpec_Gateway4 x;
  vmoprv1alpha6.VirtualMachineNetworkInterfaceSpec_Gateway6 := vmoprv1alpha6.VirtualMachineNetworkInterfaceSpec_Gateway6 x;
  vmoprv1alpha6.VirtualMachineNetworkInterfaceSpec_MTU := vmoprv1alpha6.VirtualMachineNetworkInterfaceSpec_MTU x;
  vmoprv1alpha6.VirtualMachineNetworkInterfaceSpec_Nameservers := vmoprv1alpha6.VirtualMachineNetworkInterfaceSpec_Nameservers x;
  vmoprv1alpha6.VirtualMachineNetworkInterfaceSpec_Routes := vmoprv1alpha6.VirtualMachineNetworkInterfaceSpec_Routes x;
  vmoprv1alpha6.VirtualMachineNetworkInterfaceSpec_SearchDomains := vmoprv1alpha6.VirtualMachineNetworkInterfaceSpec_SearchDomains x;
  vmoprv1alpha6.VirtualMachineNetworkInterfaceSpec_Type := vmoprv1alpha6.VirtualMachineNetworkInterfaceSpec_Type x;
  vmoprv1alpha6.VirtualMachineNetworkInterfaceSpec_VNUMANodeID := vmoprv1alpha6.VirtualMachineNetworkInterfaceSpec_VNUMANodeID x;
  vmoprv1alpha6.VirtualMachineNetworkInterfaceSpec_VMXNet3 := option_map tidy_v1alpha6_VirtualMachineNetworkInterfaceVMXNet3Spec (vmoprv1alpha6.VirtualMachineNetworkInterfaceSpec_VMXNet3 x);
  vmoprv1alpha6.VirtualMachineNetworkInterfaceSpec_AdvancedProperties := nil_if_empty (vmoprv1alpha6.VirtualMachineNetworkInterfaceSpec_AdvancedProperties x);
  vmoprv1alpha6.VirtualMachineNetworkInterfaceSpec_IPAMModes := vmoprv1alpha6.VirtualMachineNetworkInterfaceSpec_IPAMModes x
|}.
Definition tidy_v1alpha6_VirtualMachineNetworkSpec (x : vmoprv1alpha6.VirtualMachineNetworkSpec) : vmoprv1alpha6.VirtualMachineNetworkSpec := {|
  vmoprv1alpha6.VirtualMachineNetworkSpec_Interfaces := option_map (map tidy_v1alpha6_VirtualMachineNetworkInterfaceSpec) (vmoprv1alpha6.VirtualMachineNetworkSpec_Interfaces x);
  vmoprv1alpha6.VirtualMachineNetworkSpec_VLANs := vmoprv1alpha6.VirtualMachineNetworkSpec_VLANs x
|}.
Definition tidy_v1alpha6_VirtualMachineSpec (x : vmoprv1alpha6.VirtualMachineSpec) : vmoprv1alpha6.VirtualMachineSpec := {|
  vmoprv1alpha6.VirtualMachineSpec_ImageName := vmoprv1alpha6.VirtualMachineSpec_ImageName x;
  vmoprv1alpha6.VirtualMachineSpec_ClassName := vmoprv1alpha6.VirtualMachineSpec_ClassName x;
  vmoprv1alpha6.VirtualMachineSpec_Affinity := vmoprv1alpha6.VirtualMachineSpec_Affinity x;
  vmoprv1alpha6.VirtualMachineSpec_StorageClass := vmoprv1alpha6.VirtualMachineSpec_StorageClass x;
  vmoprv1alpha6.VirtualMachineSpec_Bootstrap := vmoprv1alpha6.VirtualMachineSpec_Bootstrap x;
  vmoprv1alpha6.VirtualMachineSpec_Network := option_map tidy_v1alpha6_VirtualMachineNetworkSpec (vmoprv1alpha6.VirtualMachineSpec_Network x);
  vmoprv1alpha6.VirtualMachineSpec_PowerState := vmoprv1alpha6.VirtualMachineSpec_PowerState x;
  vmoprv1alpha6.VirtualMachineSpec_PowerOffMode := vmoprv1alpha6.VirtualMachineSpec_PowerOffMode x;
  vmoprv1alpha6.VirtualMachineSpec_Volumes := vmoprv1alpha6.VirtualMachineSpec_Volumes x;
  vmoprv1alpha6.VirtualMachineSpec_ReadinessProbe := vmoprv1alpha6.VirtualMachineSpec_ReadinessProbe x;
  vmoprv1alpha6.VirtualMachineSpec_Reserved := vmoprv1alpha6.VirtualMachineSpec_Reserved x;
  vmoprv1alpha6.VirtualMachineSpec_MinHardwareVersion := vmoprv1alpha6.VirtualMachineSpec_MinHardwareVersion x;
  vmoprv1alpha6.VirtualMachineSpec_GroupName := vmoprv1alpha6.VirtualMachineSpec_GroupName x;
  vmoprv1alpha6.VirtualMachineSpec_Policies := vmoprv1alpha6.VirtualMachineSpec_Policies x
|}.
Definition tidy_v1alpha6_VirtualMachine (x : vmoprv1alpha6.VirtualMachine) : vmoprv1alpha6.VirtualMachine := {|
  vmoprv1alpha6.VirtualMachine_ObjectMeta := vmoprv1alpha6.VirtualMachine_ObjectMeta x;
  vmoprv1alpha6.VirtualMachine_Spec := tidy_v1alpha6_VirtualMachineSpec (vmoprv1alpha6.VirtualMachine_Spec x);
  vmoprv1alpha6.VirtualMachine_Status := vmoprv1alpha6.VirtualMachine_Status x
|}.
Definition tidy_hub_VirtualMachineNetworkInterfaceVMXNet3Spec (x : vmophub.VirtualMachineNetworkInterfaceVMXNet3Spec) : vmophub.VirtualMachineNetworkInterfaceVMXNet3Spec := {|
  vmophub.VirtualMachineNetworkInterfaceVMXNet3Spec_UPTv2Enabled := vmophub.VirtualMachineNetworkInterfaceVMXNet3Spec_UPTv2Enabled x;
  vmophub.VirtualMachineNetworkInterfaceVMXNet3Spec_CtxPerDev := vmophub.VirtualMachineNetworkInterfaceVMXNet3Spec_CtxPerDev x;
  vmophub.VirtualMachineNetworkInterfaceVMXNet3Spec_RSSOffloadEnabled := vmophub.VirtualMachineNetworkInterfaceVMXNet3Spec_RSSOffloadEnabled x;
  vmophub.VirtualMachineNetworkInterfaceVMXNet3Spec_UDPRSSEnabled := vmophub.VirtualMachineNetworkInterfaceVMXNet3Spec_UDPRSSEnabled x;
  vmophub.VirtualMachineNetworkInterfaceVMXNet3Spec_PNICFeatures := nil_if_empty (vmophub.VirtualMachineNetworkInterfaceVMXNet3Spec_PNICFeatures x);
  vmophub.VirtualMachineNetworkInterfaceVMXNet3Spec_CoalescingScheme := vmophub.VirtualMachineNetworkInterfaceVMXNet3Spec_CoalescingScheme x;
  vmophub.VirtualMachineNetworkInterfaceVMXNet3Spec_CoalescingParams := vmophub.VirtualMachineNetworkInterfaceVMXNet3Spec_CoalescingParams x
|}.
Definition tidy_hub_VirtualMachineNetworkInterfaceSpec (x : vmophub.VirtualMachineNetworkInterfaceSpec) : vmophub.VirtualMachineNetworkInterfaceSpec := {|
  vmophub.VirtualMachineNetworkInterfaceSpec_Name := vmophub.VirtualMachineNetworkInterfaceSpec_Name x;
  vmophub.VirtualMachineNetworkInterfaceSpec_Network := vmophub.VirtualMachineNetworkInterfaceSpec_Network x;
  vmophub.VirtualMachineNetworkInterfaceSpec_GuestDeviceName := vmophub.VirtualMachineNetworkInterfaceSpec_GuestDeviceName x;
  vmophub.VirtualMachineNetworkInterfaceSpec_MACAddr := vmophub.VirtualMachineNetworkInterfaceSpec_MACAddr x;
  vmophub.VirtualMachineNetworkInterfaceSpec_Addresses := vmophub.VirtualMachineNetworkInterfaceSpec_Addresses x;
  vmophub.VirtualMachineNetworkInterfaceSpec_DHCP4 := vmophub.VirtualMachineNetworkInterfaceSpec_DHCP4 x;
  vmophub.VirtualMachineNetworkInterfaceSpec_DHCP6 := vmophub.VirtualMachineNetworkInterfaceSpec_DHCP6 x;
  vmophub.VirtualMachineNetworkInterfaceSpec_Gateway4 := vmophub.VirtualMachineNetworkInterfaceSpec_Gateway4 x;
  vmophub.VirtualMachineNetworkInterfaceSpec_Gateway6 := vmophub.VirtualMachineNetworkInterfaceSpec_Gateway6 x;
  vmophub.VirtualMachineNetworkInterfaceSpec_MTU := vmophub.VirtualMachineNetworkInterfaceSpec_MTU x;
  vmophub.VirtualMachineNetworkInterfaceSpec_Nameservers := vmophub.VirtualMachineNetworkInterfaceSpec_Nameservers x;
  vmophub.VirtualMachineNetworkInterfaceSpec_Routes := vmophub.VirtualMachineNetworkInterfaceSpec_Routes x;
  vmophub.VirtualMachineNetworkInterfaceSpec_SearchDomains := vmophub.VirtualMachineNetworkInterfaceSpec_SearchDomains x;
  vmophub.VirtualMachineNetworkInterfaceSpec_Type := vmophub.VirtualMachineNetworkInterfaceSpec_Type x;
  vmophub.VirtualMachineNetworkInterfaceSpec_VNUMANodeID := vmophub.VirtualMachineNetworkInterfaceSpec_VNUMANodeID x;
  vmophub.VirtualMachineNetworkInterfaceSpec_VMXNet3 := option_map tidy_hub_VirtualMachineNetworkInterfaceVMXNet3Spec (vmophub.VirtualMachineNetworkInterfaceSpec_VMXNet3 x);
  vmophub.VirtualMachineNetworkInterfaceSpec_AdvancedProperties := nil_if_empty (vmophub.VirtualMachineNetworkInterfaceSpec_AdvancedProperties x);
  vmophub.VirtualMachineNetworkInterfaceSpec_IPAMModes := vmophub.VirtualMachineNetworkInterfaceSpec_IPAMModes x
|}.
Definition tidy_hub_VirtualMachineNetworkSpec (x : vmophub.VirtualMachineNetworkSpec) : vmophub.VirtualMachineNetworkSpec := {|
  vmophub.VirtualMachineNetworkSpec_Interfaces := option_map (map tidy_hub_VirtualMachineNetworkInterfaceSpec) (vmophub.VirtualMachineNetworkSpec_Interfaces x);
  vmophub.VirtualMachineNetworkSpec_VLANs := vmophub.VirtualMachineNetworkSpec_VLANs x
|}.
Definition tidy_hub_VirtualMachineSpec (x : vmophub.VirtualMachineSpec) : vmophub.VirtualMachineSpec := {|
  vmophub.VirtualMachineSpec_ImageName := vmophub.VirtualMachineSpec_ImageName x;
  vmophub.VirtualMachineSpec_ClassName := vmophub.VirtualMachineSpec_ClassName x;
  vmophub.VirtualMachineSpec_Affinity := vmophub.VirtualMachineSpec_Affinity x;
  vmophub.VirtualMachineSpec_StorageClass := vmophub.VirtualMachineSpec_StorageClass x;
  vmophub.VirtualMachineSpec_Bootstrap := vmophub.VirtualMachineSpec_Bootstrap x;
  vmophub.VirtualMachineSpec_Network := option_map tidy_hub_VirtualMachineNetworkSpec (vmophub.VirtualMachineSpec_Network x);
  vmophub.VirtualMachineSpec_PowerState := vmophub.VirtualMachineSpec_PowerState x;
  vmophub.VirtualMachineSpec_PowerOffMode := vmophub.VirtualMachineSpec_PowerOffMode x;
  vmophub.VirtualMachineSpec_Volumes := vmophub.VirtualMachineSpec_Volumes x;
  vmophub.VirtualMachineSpec_ReadinessProbe := vmophub.VirtualMachineSpec_ReadinessProbe x;
  vmophub.VirtualMachineSpec_Reserved := vmophub.VirtualMachineSpec_Reserved x;
  vmophub.VirtualMachineSpec_MinHardwareVersion := vmophub.VirtualMachineSpec_MinHardwareVersion x;
  vmophub.VirtualMachineSpec_GroupName := vmophub.VirtualMachineSpec_GroupName x;
  vmophub.VirtualMachineSpec_Policies := vmophub.VirtualMachineSpec_Policies x
|}.
Definition tidy_hub_VirtualMachine (x : vmophub.VirtualMachine) : vmophub.VirtualMachine := {|
  vmophub.VirtualMachine_ObjectMeta := vmophub.VirtualMachine_ObjectMeta x;
  vmophub.VirtualMachine_Spec := tidy_hub_VirtualMachineSpec (vmophub.VirtualMachine_Spec x);
  vmophub.VirtualMachine_Status := vmophub.VirtualMachine_Status x;
  vmophub.VirtualMachine_Source := vmophub.VirtualMachine_Source x
|}.

#[export] Instance VMAffinityTerm_v1alpha6_To_hub_back : GoesBack VMAffinityTerm_v1alpha6_To_hub VMAffinityTerm_hub_To_v1alpha6.
Proof. takes_back VMAffinityTerm_v1alpha6_To_hub VMAffinityTerm_hub_To_v1alpha6. Qed.
#[export] Instance VMAffinitySpec_v1alpha6_To_hub_back : GoesBack VMAffinitySpec_v1alpha6_To_hub VMAffinitySpec_hub_To_v1alpha6.
Proof. takes_back VMAffinitySpec_v1alpha6_To_hub VMAffinitySpec_hub_To_v1alpha6. Qed.
#[export] Instance VMAntiAffinitySpec_v1alpha6_To_hub_back : GoesBack VMAntiAffinitySpec_v1alpha6_To_hub VMAntiAffinitySpec_hub_To_v1alpha6.
Proof. takes_back VMAntiAffinitySpec_v1alpha6_To_hub VMAntiAffinitySpec_hub_To_v1alpha6. Qed.
#[export] Instance AffinitySpec_v1alpha6_To_hub_back : GoesBack AffinitySpec_v1alpha6_To_hub AffinitySpec_hub_To_v1alpha6.
Proof. takes_back AffinitySpec_v1alpha6_To_hub AffinitySpec_hub_To_v1alpha6. Qed.
#[export] Instance SecretKeySelector_v1alpha6_To_hub_back : GoesBack SecretKeySelector_v1alpha6_To_hub SecretKeySelector_hub_To_v1alpha6.
Proof. takes_back SecretKeySelector_v1alpha6_To_hub SecretKeySelector_hub_To_v1alpha6. Qed.
#[export] Instance VirtualMachineBootstrapCloudInitSpec_v1alpha6_To_hub_back : GoesBack VirtualMachineBootstrapCloudInitSpec_v1alpha6_To_hub VirtualMachineBootstrapCloudInitSpec_hub_To_v1alpha6.
Proof. takes_back VirtualMachineBootstrapCloudInitSpec_v1alpha6_To_hub VirtualMachineBootstrapCloudInitSpec_hub_To_v1alpha6. Qed.
#[export] Instance VirtualMachineBootstrapSpec_v1alpha6_To_hub_back : GoesBack VirtualMachineBootstrapSpec_v1alpha6_To_hub VirtualMachineBootstrapSpec_hub_To_v1alpha6.
Proof. takes_back VirtualMachineBootstrapSpec_v1alpha6_To_hub VirtualMachineBootstrapSpec_hub_To_v1alpha6. Qed.
#[export] Instance PartialObjectRef_v1alpha6_To_hub_back : GoesBack PartialObjectRef_v1alpha6_To_hub PartialObjectRef_hub_To_v1alpha6.
Proof. takes_back PartialObjectRef_v1alpha6_To_hub PartialObjectRef_hub_To_v1alpha6. Qed.
#[export] Instance VirtualMachineNetworkRouteSpec_v1alpha6_To_hub_back : GoesBack VirtualMachineNetworkRouteSpec_v1alpha6_To_hub VirtualMachineNetworkRouteSpec_hub_To_v1alpha6.
Proof. takes_back VirtualMachineNetworkRouteSpec_v1alpha6_To_hub VirtualMachineNetworkRouteSpec_hub_To_v1alpha6. Qed.
Lemma VirtualMachineNetworkInterfaceVMXNet3Spec_v1alpha6_To_hub_back x : VirtualMachineNetworkInterfaceVMXNet3Spec_hub_To_v1alpha6 (VirtualMachineNetworkInterfaceVMXNet3Spec_v1alpha6_To_hub x) = tidy_v1alpha6_VirtualMachineNetworkInterfaceVMXNet3Spec x.
Proof.
  unfold VirtualMachineNetworkInterfaceVMXNet3Spec_hub_To_v1alpha6, VirtualMachineNetworkInterfaceVMXNet3Spec_v1alpha6_To_hub, tidy_v1alpha6_VirtualMachineNetworkInterfaceVMXNet3Spec. cbn. by rewrite append_each_back.
Qed.
#[export] Instance KeyValuePair_v1alpha6_To_hub_back : GoesBack KeyValuePair_v1alpha6_To_hub KeyValuePair_hub_To_v1alpha6.
Proof. takes_back KeyValuePair_v1alpha6_To_hub KeyValuePair_hub_To_v1alpha6. Qed.
Lemma VirtualMachineNetworkInterfaceSpec_v1alpha6_To_hub_back x : VirtualMachineNetworkInterfaceSpec_hub_To_v1alpha6 (VirtualMachineNetworkInterfaceSpec_v1alpha6_To_hub x) = tidy_v1alpha6_VirtualMachineNetworkInterfaceSpec x.
Proof.
  unfold VirtualMachineNetworkInterfaceSpec_hub_To_v1alpha6, VirtualMachineNetworkInterfaceSpec_v1alpha6_To_hub, tidy_v1alpha6_VirtualMachineNetworkInterfaceSpec. cbn. rewrite append_each_back by apply goes_back_id.
  rewrite (back_option _ _ _ _ VirtualMachineNetworkInterfaceVMXNet3Spec_v1alpha6_To_hub_back). f_equal; apply goes_back_id.
Qed.
#[export] Instance VirtualMachineNetworkVLANSpec_v1alpha6_To_hub_back : GoesBack VirtualMachineNetworkVLANSpec_v1alpha6_To_hub VirtualMachineNetworkVLANSpec_hub_To_v1alpha6.
Proof. takes_back VirtualMachineNetworkVLANSpec_v1alpha6_To_hub VirtualMachineNetworkVLANSpec_hub_To_v1alpha6. Qed.
Lemma VirtualMachineNetworkSpec_v1alpha6_To_hub_back x : VirtualMachineNetworkSpec_hub_To_v1alpha6 (VirtualMachineNetworkSpec_v1alpha6_To_hub x) = tidy_v1alpha6_VirtualMachineNetworkSpec x.
Proof.
  unfold VirtualMachineNetworkSpec_hub_To_v1alpha6, VirtualMachineNetworkSpec_v1alpha6_To_hub, tidy_v1alpha6_VirtualMachineNetworkSpec. cbn. rewrite (back_slice _ _ _ _ VirtualMachineNetworkInterfaceSpec_v1alpha6_To_hub_back). f_equal; apply goes_back_id.
Qed.
#[export] Instance InstanceVolumeClaimVolumeSource_v1alpha6_To_hub_back : GoesBack InstanceVolumeClaimVolumeSource_v1alpha6_To_hub InstanceVolumeClaimVolumeSource_hub_To_v1alpha6.
Proof. takes_back InstanceVolumeClaimVolumeSource_v1alpha6_To_hub InstanceVolumeClaimVolumeSource_hub_To_v1alpha6. Qed.
#[export] Instance PersistentVolumeClaimVolumeSource_v1alpha6_To_hub_back : GoesBack PersistentVolumeClaimVolumeSource_v1alpha6_To_hub PersistentVolumeClaimVolumeSource_hub_To_v1alpha6.
Proof. takes_back PersistentVolumeClaimVolumeSource_v1alpha6_To_hub PersistentVolumeClaimVolumeSource_hub_To_v1alpha6. Qed.
#[export] Instance VirtualMachineVolume_v1alpha6_To_hub_back : GoesBack VirtualMachineVolume_v1alpha6_To_hub VirtualMachineVolume_hub_To_v1alpha6.
Proof. takes_back VirtualMachineVolume_v1alpha6_To_hub VirtualMachineVolume_hub_To_v1alpha6. Qed.
#[export] Instance TCPSocketAction_v1alpha6_To_hub_back : GoesBack TCPSocketAction_v1alpha6_To_hub TCPSocketAction_hub_To_v1alpha6.
Proof. takes_back TCPSocketAction_v1alpha6_To_hub TCPSocketAction_hub_To_v1alpha6. Qed.
#[export] Instance VirtualMachineReadinessProbeSpec_v1alpha6_To_hub_back : GoesBack VirtualMachineReadinessProbeSpec_v1alpha6_To_hub VirtualMachineReadinessProbeSpec_hub_To_v1alpha6.
Proof. takes_back VirtualMachineReadinessProbeSpec_v1alpha6_To_hub VirtualMachineReadinessProbeSpec_hub_To_v1alpha6. Qed.
#[export] Instance VirtualMachineReservedSpec_v1alpha6_To_hub_back : GoesBack VirtualMachineReservedSpec_v1alpha6_To_hub VirtualMachineReservedSpec_hub_To_v1alpha6.
Proof. takes_back VirtualMachineReservedSpec_v1alpha6_To_hub VirtualMachineReservedSpec_hub_To_v1alpha6. Qed.
#[export] Instance PolicySpec_v1alpha6_To_hub_back : GoesBack PolicySpec_v1alpha6_To_hub PolicySpec_hub_To_v1alpha6.
Proof. takes_back PolicySpec_v1alpha6_To_hub PolicySpec_hub_To_v1alpha6. Qed.
#[export] Instance VirtualMachineNetworkDHCPStatus_v1alpha6_To_hub_back : GoesBack VirtualMachineNetworkDHCPStatus_v1alpha6_To_hub VirtualMachineNetworkDHCPStatus_hub_To_v1alpha6.
Proof. takes_back VirtualMachineNetworkDHCPStatus_v1alpha6_To_hub VirtualMachineNetworkDHCPStatus_hub_To_v1alpha6. Qed.
#[export] Instance VirtualMachineNetworkInterfaceIPAddrStatus_v1alpha6_To_hub_back : GoesBack VirtualMachineNetworkInterfaceIPAddrStatus_v1alpha6_To_hub VirtualMachineNetworkInterfaceIPAddrStatus_hub_To_v1alpha6.
Proof. takes_back VirtualMachineNetworkInterfaceIPAddrStatus_v1alpha6_To_hub VirtualMachineNetworkInterfaceIPAddrStatus_hub_To_v1alpha6. Qed.
#[export] Instance VirtualMachineNetworkInterfaceIPStatus_v1alpha6_To_hub_back : GoesBack VirtualMachineNetworkInterfaceIPStatus_v1alpha6_To_hub VirtualMachineNetworkInterfaceIPStatus_hub_To_v1alpha6.
Proof. takes_back VirtualMachineNetworkInterfaceIPStatus_v1alpha6_To_hub VirtualMachineNetworkInterfaceIPStatus_hub_To_v1alpha6. Qed.
#[export] Instance VirtualMachineNetworkDNSStatus_v1alpha6_To_hub_back : GoesBack VirtualMachineNetworkDNSStatus_v1alpha6_To_hub VirtualMachineNetworkDNSStatus_hub_To_v1alpha6.
Proof. takes_back VirtualMachineNetworkDNSStatus_v1alpha6_To_hub VirtualMachineNetworkDNSStatus_hub_To_v1alpha6. Qed.
#[export] Instance VirtualMachineNetworkInterfaceStatus_v1alpha6_To_hub_back : GoesBack VirtualMachineNetworkInterfaceStatus_v1alpha6_To_hub VirtualMachineNetworkInterfaceStatus_hub_To_v1alpha6.
Proof. takes_back VirtualMachineNetworkInterfaceStatus_v1alpha6_To_hub VirtualMachineNetworkInterfaceStatus_hub_To_v1alpha6. Qed.
#[export] Instance VirtualMachineNetworkStatus_v1alpha6_To_hub_back : GoesBack VirtualMachineNetworkStatus_v1alpha6_To_hub VirtualMachineNetworkStatus_hub_To_v1alpha6.
Proof. takes_back VirtualMachineNetworkStatus_v1alpha6_To_hub VirtualMachineNetworkStatus_hub_To_v1alpha6. Qed.
#[export] Instance PolicyStatus_v1alpha6_To_hub_back : GoesBack PolicyStatus_v1alpha6_To_hub PolicyStatus_hub_To_v1alpha6.
Proof. takes_back PolicyStatus_v1alpha6_To_hub PolicyStatus_hub_To_v1alpha6. Qed.
#[export] Instance GroupMember_v1alpha6_To_hub_back : GoesBack GroupMember_v1alpha6_To_hub GroupMember_hub_To_v1alpha6.
Proof. takes_back GroupMember_v1alpha6_To_hub GroupMember_hub_To_v1alpha6. Qed.
#[export] Instance VirtualMachineGroupBootOrderGroup_v1alpha6_To_hub_back : GoesBack VirtualMachineGroupBootOrderGroup_v1alpha6_To_hub VirtualMachineGroupBootOrderGroup_hub_To_v1alpha6.
Proof. takes_back VirtualMachineGroupBootOrderGroup_v1alpha6_To_hub VirtualMachineGroupBootOrderGroup_hub_To_v1alpha6. Qed.
#[export] Instance VirtualMachineGroupPlacementDatastoreStatus_v1alpha6_To_hub_back : GoesBack VirtualMachineGroupPlacementDatastoreStatus_v1alpha6_To_hub VirtualMachineGroupPlacementDatastoreStatus_hub_To_v1alpha6.
Proof. takes_back VirtualMachineGroupPlacementDatastoreStatus_v1alpha6_To_hub VirtualMachineGroupPlacementDatastoreStatus_hub_To_v1alpha6. Qed.
#[export] Instance VirtualMachinePlacementStatus_v1alpha6_To_hub_back : GoesBack VirtualMachinePlacementStatus_v1alpha6_To_hub VirtualMachinePlacementStatus_hub_To_v1alpha6.
Proof. takes_back VirtualMachinePlacementStatus_v1alpha6_To_hub VirtualMachinePlacementStatus_hub_To_v1alpha6. Qed.
#[export] Instance VirtualMachineGroupMemberStatus_v1alpha6_To_hub_back : GoesBack VirtualMachineGroupMemberStatus_v1alpha6_To_hub VirtualMachineGroupMemberStatus_hub_To_v1alpha6.
Proof. takes_back VirtualMachineGroupMemberStatus_v1alpha6_To_hub VirtualMachineGroupMemberStatus_hub_To_v1alpha6. Qed.
#[export] Instance LocalObjectRef_v1alpha6_To_hub_back : GoesBack LocalObjectRef_v1alpha6_To_hub LocalObjectRef_hub_To_v1alpha6.
Proof. takes_back LocalObjectRef_v1alpha6_To_hub LocalObjectRef_hub_To_v1alpha6. Qed.
#[export] Instance VirtualMachineServicePort_v1alpha6_To_hub_back : GoesBack VirtualMachineServicePort_v1alpha6_To_hub VirtualMachineServicePort_hub_To_v1alpha6.
Proof. takes_back VirtualMachineServicePort_v1alpha6_To_hub VirtualMachineServicePort_hub_To_v1alpha6. Qed.
#[export] Instance LoadBalancerIngress_v1alpha6_To_hub_back : GoesBack LoadBalancerIngress_v1alpha6_To_hub LoadBalancerIngress_hub_To_v1alpha6.
Proof. takes_back LoadBalancerIngress_v1alpha6_To_hub LoadBalancerIngress_hub_To_v1alpha6. Qed.
#[export] Instance VMAffinityTerm_hub_To_v1alpha6_back : GoesBack VMAffinityTerm_hub_To_v1alpha6 VMAffinityTerm_v1alpha6_To_hub.
Proof. takes_back VMAffinityTerm_hub_To_v1alpha6 VMAffinityTerm_v1alpha6_To_hub. Qed.
#[export] Instance VMAffinitySpec_hub_To_v1alpha6_back : GoesBack VMAffinitySpec_hub_To_v1alpha6 VMAffinitySpec_v1alpha6_To_hub.
Proof. takes_back VMAffinitySpec_hub_To_v1alpha6 VMAffinitySpec_v1alpha6_To_hub. Qed.
#[export] Instance VMAntiAffinitySpec_hub_To_v1alpha6_back : GoesBack VMAntiAffinitySpec_hub_To_v1alpha6 VMAntiAffinitySpec_v1alpha6_To_hub.
Proof. takes_back VMAntiAffinitySpec_hub_To_v1alpha6 VMAntiAffinitySpec_v1alpha6_To_hub. Qed.
#[export] Instance AffinitySpec_hub_To_v1alpha6_back : GoesBack AffinitySpec_hub_To_v1alpha6 AffinitySpec_v1alpha6_To_hub.
Proof. takes_back AffinitySpec_hub_To_v1alpha6 AffinitySpec_v1alpha6_To_hub. Qed.
#[export] Instance SecretKeySelector_hub_To_v1alpha6_back : GoesBack SecretKeySelector_hub_To_v1alpha6 SecretKeySelector_v1alpha6_To_hub.
Proof. takes_back SecretKeySelector_hub_To_v1alpha6 SecretKeySelector_v1alpha6_To_hub. Qed.
#[export] Instance VirtualMachineBootstrapCloudInitSpec_hub_To_v1alpha6_back : GoesBack VirtualMachineBootstrapCloudInitSpec_hub_To_v1alpha6 VirtualMachineBootstrapCloudInitSpec_v1alpha6_To_hub.
Proof. takes_back VirtualMachineBootstrapCloudInitSpec_hub_To_v1alpha6 VirtualMachineBootstrapCloudInitSpec_v1alpha6_To_hub. Qed.
#[export] Instance VirtualMachineBootstrapSpec_hub_To_v1alpha6_back : GoesBack VirtualMachineBootstrapSpec_hub_To_v1alpha6 VirtualMachineBootstrapSpec_v1alpha6_To_hub.
Proof. takes_back VirtualMachineBootstrapSpec_hub_To_v1alpha6 VirtualMachineBootstrapSpec_v1alpha6_To_hub. Qed.
#[export] Instance PartialObjectRef_hub_To_v1alpha6_back : GoesBack PartialObjectRef_hub_To_v1alpha6 PartialObjectRef_v1alpha6_To_hub.
Proof. takes_back PartialObjectRef_hub_To_v1alpha6 PartialObjectRef_v1alpha6_To_hub. Qed.
#[export] Instance VirtualMachineNetworkRouteSpec_hub_To_v1alpha6_back : GoesBack VirtualMachineNetworkRouteSpec_hub_To_v1alpha6 VirtualMachineNetworkRouteSpec_v1alpha6_To_hub.
Proof. takes_back VirtualMachineNetworkRouteSpec_hub_To_v1alpha6 VirtualMachineNetworkRouteSpec_v1alpha6_To_hub. Qed.
Lemma VirtualMachineNetworkInterfaceVMXNet3Spec_hub_To_v1alpha6_back x : VirtualMachineNetworkInterfaceVMXNet3Spec_v1alpha6_To_hub (VirtualMachineNetworkInterfaceVMXNet3Spec_hub_To_v1alpha6 x) = tidy_hub_VirtualMachineNetworkInterfaceVMXNet3Spec x.
Proof.
  unfold VirtualMachineNetworkInterfaceVMXNet3Spec_v1alpha6_To_hub, VirtualMachineNetworkInterfaceVMXNet3Spec_hub_To_v1alpha6, tidy_hub_VirtualMachineNetworkInterfaceVMXNet3Spec. cbn. by rewrite append_each_back.
Qed.
#[export] Instance KeyValuePair_hub_To_v1alpha6_back : GoesBack KeyValuePair_hub_To_v1alpha6 KeyValuePair_v1alpha6_To_hub.
Proof. takes_back KeyValuePair_hub_To_v1alpha6 KeyValuePair_v1alpha6_To_hub. Qed.
Lemma VirtualMachineNetworkInterfaceSpec_hub_To_v1alpha6_back x : VirtualMachineNetworkInterfaceSpec_v1alpha6_To_hub (VirtualMachineNetworkInterfaceSpec_hub_To_v1alpha6 x) = tidy_hub_VirtualMachineNetworkInterfaceSpec x.
Proof.
  unfold VirtualMachineNetworkInterfaceSpec_v1alpha6_To_hub, VirtualMachineNetworkInterfaceSpec_hub_To_v1alpha6, tidy_hub_VirtualMachineNetworkInterfaceSpec. cbn. rewrite append_each_back by apply goes_back_id.
  rewrite (back_option _ _ _ _ VirtualMachineNetworkInterfaceVMXNet3Spec_hub_To_v1alpha6_back). f_equal; apply goes_back_id.
Qed.
#[export] Instance VirtualMachineNetworkVLANSpec_hub_To_v1alpha6_back : GoesBack VirtualMachineNetworkVLANSpec_hub_To_v1alpha6 VirtualMachineNetworkVLANSpec_v1alpha6_To_hub.
Proof. takes_back VirtualMachineNetworkVLANSpec_hub_To_v1alpha6 VirtualMachineNetworkVLANSpec_v1alpha6_To_hub. Qed.
Lemma VirtualMachineNetworkSpec_hub_To_v1alpha6_back x : VirtualMachineNetworkSpec_v1alpha6_To_hub (VirtualMachineNetworkSpec_hub_To_v1alpha6 x) = tidy_hub_VirtualMachineNetworkSpec x.
Proof.
  unfold VirtualMachineNetworkSpec_v1alpha6_To_hub, VirtualMachineNetworkSpec_hub_To_v1alpha6, tidy_hub_VirtualMachineNetworkSpec. cbn. rewrite (back_slice _ _ _ _ VirtualMachineNetworkInterfaceSpec_hub_To_v1alpha6_back). f_equal; apply goes_back_id.
Qed.
#[export] Instance InstanceVolumeClaimVolumeSource_hub_To_v1alpha6_back : GoesBack InstanceVolumeClaimVolumeSource_hub_To_v1alpha6 InstanceVolumeClaimVolumeSource_v1alpha6_To_hub.
Proof. takes_back InstanceVolumeClaimVolumeSource_hub_To_v1alpha6 InstanceVolumeClaimVolumeSource_v1alpha6_To_hub. Qed.
#[export] Instance PersistentVolumeClaimVolumeSource_hub_To_v1alpha6_back : GoesBack PersistentVolumeClaimVolumeSource_hub_To_v1alpha6 PersistentVolumeClaimVolumeSource_v1alpha6_To_hub.
Proof. takes_back PersistentVolumeClaimVolumeSource_hub_To_v1alpha6 PersistentVolumeClaimVolumeSource_v1alpha6_To_hub. Qed.
#[export] Instance VirtualMachineVolume_hub_To_v1alpha6_back : GoesBack VirtualMachineVolume_hub_To_v1alpha6 VirtualMachineVolume_v1alpha6_To_hub.
Proof. takes_back VirtualMachineVolume_hub_To_v1alpha6 VirtualMachineVolume_v1alpha6_To_hub. Qed.
#[export] Instance TCPSocketAction_hub_To_v1alpha6_back : GoesBack TCPSocketAction_hub_To_v1alpha6 TCPSocketAction_v1alpha6_To_hub.
Proof. takes_back TCPSocketAction_hub_To_v1alpha6 TCPSocketAction_v1alpha6_To_hub. Qed.
#[export] Instance VirtualMachineReadinessProbeSpec_hub_To_v1alpha6_back : GoesBack VirtualMachineReadinessProbeSpec_hub_To_v1alpha6 VirtualMachineReadinessProbeSpec_v1alpha6_To_hub.
Proof. takes_back VirtualMachineReadinessProbeSpec_hub_To_v1alpha6 VirtualMachineReadinessProbeSpec_v1alpha6_To_hub. Qed.
#[export] Instance VirtualMachineReservedSpec_hub_To_v1alpha6_back : GoesBack VirtualMachineReservedSpec_hub_To_v1alpha6 VirtualMachineReservedSpec_v1alpha6_To_hub.
Proof. takes_back VirtualMachineReservedSpec_hub_To_v1alpha6 VirtualMachineReservedSpec_v1alpha6_To_hub. Qed.
#[export] Instance PolicySpec_hub_To_v1alpha6_back : GoesBack PolicySpec_hub_To_v1alpha6 PolicySpec_v1alpha6_To_hub.
Proof. takes_back PolicySpec_hub_To_v1alpha6 PolicySpec_v1alpha6_To_hub. Qed.
#[export] Instance VirtualMachineNetworkDHCPStatus_hub_To_v1alpha6_back : GoesBack VirtualMachineNetworkDHCPStatus_hub_To_v1alpha6 VirtualMachineNetworkDHCPStatus_v1alpha6_To_hub.
Proof. takes_back VirtualMachineNetworkDHCPStatus_hub_To_v1alpha6 VirtualMachineNetworkDHCPStatus_v1alpha6_To_hub. Qed.
#[export] Instance VirtualMachineNetworkInterfaceIPAddrStatus_hub_To_v1alpha6_back : GoesBack VirtualMachineNetworkInterfaceIPAddrStatus_hub_To_v1alpha6 VirtualMachineNetworkInterfaceIPAddrStatus_v1alpha6_To_hub.
Proof. takes_back VirtualMachineNetworkInterfaceIPAddrStatus_hub_To_v1alpha6 VirtualMachineNetworkInterfaceIPAddrStatus_v1alpha6_To_hub. Qed.
#[export] Instance VirtualMachineNetworkInterfaceIPStatus_hub_To_v1alpha6_back : GoesBack VirtualMachineNetworkInterfaceIPStatus_hub_To_v1alpha6 VirtualMachineNetworkInterfaceIPStatus_v1alpha6_To_hub.
Proof. takes_back VirtualMachineNetworkInterfaceIPStatus_hub_To_v1alpha6 VirtualMachineNetworkInterfaceIPStatus_v1alpha6_To_hub. Qed.
#[export] Instance VirtualMachineNetworkDNSStatus_hub_To_v1alpha6_back : GoesBack VirtualMachineNetworkDNSStatus_hub_To_v1alpha6 VirtualMachineNetworkDNSStatus_v1alpha6_To_hub.
Proof. takes_back VirtualMachineNetworkDNSStatus_hub_To_v1alpha6 VirtualMachineNetworkDNSStatus_v1alpha6_To_hub. Qed.
#[export] Instance VirtualMachineNetworkInterfaceStatus_hub_To_v1alpha6_back : GoesBack VirtualMachineNetworkInterfaceStatus_hub_To_v1alpha6 VirtualMachineNetworkInterfaceStatus_v1alpha6_To_hub.
Proof. takes_back VirtualMachineNetworkInterfaceStatus_hub_To_v1alpha6 VirtualMachineNetworkInterfaceStatus_v1alpha6_To_hub. Qed.
#[export] Instance VirtualMachineNetworkStatus_hub_To_v1alpha6_back : GoesBack VirtualMachineNetworkStatus_hub_To_v1alpha6 VirtualMachineNetworkStatus_v1alpha6_To_hub.
Proof. takes_back VirtualMachineNetworkStatus_hub_To_v1alpha6 VirtualMachineNetworkStatus_v1alpha6_To_hub. Qed.
#[export] Instance PolicyStatus_hub_To_v1alpha6_back : GoesBack PolicyStatus_hub_To_v1alpha6 PolicyStatus_v1alpha6_To_hub.
Proof. takes_back PolicyStatus_hub_To_v1alpha6 PolicyStatus_v1alpha6_To_hub. Qed.
#[export] Instance GroupMember_hub_To_v1alpha6_back : GoesBack GroupMember_hub_To_v1alpha6 GroupMember_v1alpha6_To_hub.
Proof. takes_back GroupMember_hub_To_v1alpha6 GroupMember_v1alpha6_To_hub. Qed.
#[export] Instance VirtualMachineGroupBootOrderGroup_hub_To_v1alpha6_back : GoesBack VirtualMachineGroupBootOrderGroup_hub_To_v1alpha6 VirtualMachineGroupBootOrderGroup_v1alpha6_To_hub.
Proof. takes_back VirtualMachineGroupBootOrderGroup_hub_To_v1alpha6 VirtualMachineGroupBootOrderGroup_v1alpha6_To_hub. Qed.
#[export] Instance VirtualMachineGroupPlacementDatastoreStatus_hub_To_v1alpha6_back : GoesBack VirtualMachineGroupPlacementDatastoreStatus_hub_To_v1alpha6 VirtualMachineGroupPlacementDatastoreStatus_v1alpha6_To_hub.
Proof. takes_back VirtualMachineGroupPlacementDatastoreStatus_hub_To_v1alpha6 VirtualMachineGroupPlacementDatastoreStatus_v1alpha6_To_hub. Qed.
#[export] Instance VirtualMachinePlacementStatus_hub_To_v1alpha6_back : GoesBack VirtualMachinePlacementStatus_hub_To_v1alpha6 VirtualMachinePlacementStatus_v1alpha6_To_hub.
Proof. takes_back VirtualMachinePlacementStatus_hub_To_v1alpha6 VirtualMachinePlacementStatus_v1alpha6_To_hub. Qed.
#[export] Instance VirtualMachineGroupMemberStatus_hub_To_v1alpha6_back : GoesBack VirtualMachineGroupMemberStatus_hub_To_v1alpha6 VirtualMachineGroupMemberStatus_v1alpha6_To_hub.
Proof. takes_back VirtualMachineGroupMemberStatus_hub_To_v1alpha6 VirtualMachineGroupMemberStatus_v1alpha6_To_hub. Qed.
#[export] Instance LocalObjectRef_hub_To_v1alpha6_back : GoesBack LocalObjectRef_hub_To_v1alpha6 LocalObjectRef_v1alpha6_To_hub.
Proof. takes_back LocalObjectRef_hub_To_v1alpha6 LocalObjectRef_v1alpha6_To_hub. Qed.
#[export] Instance VirtualMachineServicePort_hub_To_v1alpha6_back : GoesBack VirtualMachineServicePort_hub_To_v1alpha6 VirtualMachineServicePort_v1alpha6_To_hub.
Proof. takes_back VirtualMachineServicePort_hub_To_v1alpha6 VirtualMachineServicePort_v1alpha6_To_hub. Qed.
#[export] Instance LoadBalancerIngress_hub_To_v1alpha6_back : GoesBack LoadBalancerIngress_hub_To_v1alpha6 LoadBalancerIngress_v1alpha6_To_hub.
Proof. takes_back LoadBalancerIngress_hub_To_v1alpha6 LoadBalancerIngress_v1alpha6_To_hub. Qed.

(** * Whole objects *)

(** A pointer or a slice that is converted when it is there, in a fresh object. *)
Ltac back_there := lazymatch goal with
  | |- match match ?a with Some _ => _ | None => _ end with Some _ => _ | None => _ end = _ => destruct a; cbn; [f_equal; first [reflexivity | apply goes_back_id]|reflexivity]
  | _ => back end.
Ltac object_back f g := intros x; unfold f, g; destruct x; cbn; f_equal; back_there.
Ltac object_goes f g := intros x source; eexists; split; [reflexivity|]; unfold f, g; cbn.
Ltac back_parts := repeat match goal with
  | |- match match ?a with Some _ => _ | None => _ end with Some _ => _ | None => _ end = _ => back_there
  | |- ?l = ?x => first [reflexivity | is_var x; destruct x; cbn; f_equal | progress f_equal] end.

(** ** v1alpha2, hub and back *)

Lemma VirtualMachineSpec_v1alpha2_To_hub_back : forall x, VirtualMachineSpec_hub_To_v1alpha2 (VirtualMachineSpec_v1alpha2_To_hub x vmophub.zero_VirtualMachineSpec) vmoprv1alpha2.zero_VirtualMachineSpec = x.
Proof. object_back VirtualMachineSpec_v1alpha2_To_hub VirtualMachineSpec_hub_To_v1alpha2. Qed.
Lemma VirtualMachineStatus_v1alpha2_To_hub_back : forall x, VirtualMachineStatus_hub_To_v1alpha2 (VirtualMachineStatus_v1alpha2_To_hub x vmophub.zero_VirtualMachineStatus) vmoprv1alpha2.zero_VirtualMachineStatus = x.
Proof. object_back VirtualMachineStatus_v1alpha2_To_hub VirtualMachineStatus_hub_To_v1alpha2. Qed.
Lemma VirtualMachineImageStatus_v1alpha2_To_hub_back : forall x, VirtualMachineImageStatus_hub_To_v1alpha2 (VirtualMachineImageStatus_v1alpha2_To_hub x vmophub.zero_VirtualMachineImageStatus) vmoprv1alpha2.zero_VirtualMachineImageStatus = x.
Proof. object_back VirtualMachineImageStatus_v1alpha2_To_hub VirtualMachineImageStatus_hub_To_v1alpha2. Qed.
Lemma ClusterVirtualMachineImage_Status_v1alpha2_To_hub_back : forall x, ClusterVirtualMachineImage_Status_hub_To_v1alpha2 (ClusterVirtualMachineImage_Status_v1alpha2_To_hub x vmophub.zero_VirtualMachineImageStatus) vmoprv1alpha2.zero_VirtualMachineImageStatus = x.
Proof. object_back ClusterVirtualMachineImage_Status_v1alpha2_To_hub ClusterVirtualMachineImage_Status_hub_To_v1alpha2. Qed.
Lemma VirtualMachine_v1alpha2_hub_back : forall x source, exists y, convert_v1alpha2_VirtualMachine_To_hub_VirtualMachine x vmophub.zero_VirtualMachine = Ok y /\
  convert_hub_VirtualMachine_To_v1alpha2_VirtualMachine (vmophub.VirtualMachine_SetSource source y) vmoprv1alpha2.zero_VirtualMachine = Ok x.
Proof.
  intros x source. eexists. split; [reflexivity|]. unfold convert_hub_VirtualMachine_To_v1alpha2_VirtualMachine, convert_v1alpha2_VirtualMachine_To_hub_VirtualMachine. cbn. rewrite VirtualMachineSpec_v1alpha2_To_hub_back. rewrite VirtualMachineStatus_v1alpha2_To_hub_back. apply (f_equal Ok). destruct x; cbn. back_parts.
Qed.
Lemma VirtualMachineClass_v1alpha2_hub_back : forall x source, exists y, convert_v1alpha2_VirtualMachineClass_To_hub_VirtualMachineClass x vmophub.zero_VirtualMachineClass = Ok y /\
  convert_hub_VirtualMachineClass_To_v1alpha2_VirtualMachineClass (vmophub.VirtualMachineClass_SetSource source y) vmoprv1alpha2.zero_VirtualMachineClass = Ok x.
Proof.
  intros x source. eexists. split; [reflexivity|]. unfold convert_hub_VirtualMachineClass_To_v1alpha2_VirtualMachineClass, convert_v1alpha2_VirtualMachineClass_To_hub_VirtualMachineClass. cbn. apply (f_equal Ok). destruct x; cbn. back_parts.
Qed.
Lemma VirtualMachineGroup_v1alpha2_hub_back : forall x source, exists y, convert_v1alpha2_VirtualMachineGroup_To_hub_VirtualMachineGroup x vmophub.zero_VirtualMachineGroup = Ok y /\
  convert_hub_VirtualMachineGroup_To_v1alpha2_VirtualMachineGroup (vmophub.VirtualMachineGroup_SetSource source y) vmoprv1alpha2.zero_VirtualMachineGroup = Ok x.
Proof.
  intros x source. eexists. split; [reflexivity|]. unfold convert_hub_VirtualMachineGroup_To_v1alpha2_VirtualMachineGroup, convert_v1alpha2_VirtualMachineGroup_To_hub_VirtualMachineGroup. cbn. apply (f_equal Ok). destruct x; cbn. back_parts.
Qed.
Lemma VirtualMachineImage_v1alpha2_hub_back : forall x source, exists y, convert_v1alpha2_VirtualMachineImage_To_hub_VirtualMachineImage x vmophub.zero_VirtualMachineImage = Ok y /\
  convert_hub_VirtualMachineImage_To_v1alpha2_VirtualMachineImage (vmophub.VirtualMachineImage_SetSource source y) vmoprv1alpha2.zero_VirtualMachineImage = Ok x.
Proof.
  intros x source. eexists. split; [reflexivity|]. unfold convert_hub_VirtualMachineImage_To_v1alpha2_VirtualMachineImage, convert_v1alpha2_VirtualMachineImage_To_hub_VirtualMachineImage. cbn. rewrite VirtualMachineImageStatus_v1alpha2_To_hub_back. apply (f_equal Ok). destruct x; cbn. back_parts.
Qed.
Lemma ClusterVirtualMachineImage_v1alpha2_hub_back : forall x source, exists y, convert_v1alpha2_ClusterVirtualMachineImage_To_hub_ClusterVirtualMachineImage x vmophub.zero_ClusterVirtualMachineImage = Ok y /\
  convert_hub_ClusterVirtualMachineImage_To_v1alpha2_ClusterVirtualMachineImage (vmophub.ClusterVirtualMachineImage_SetSource source y) vmoprv1alpha2.zero_ClusterVirtualMachineImage = Ok x.
Proof.
  intros x source. eexists. split; [reflexivity|]. unfold convert_hub_ClusterVirtualMachineImage_To_v1alpha2_ClusterVirtualMachineImage, convert_v1alpha2_ClusterVirtualMachineImage_To_hub_ClusterVirtualMachineImage. cbn. rewrite ClusterVirtualMachineImage_Status_v1alpha2_To_hub_back. apply (f_equal Ok). destruct x; cbn. back_parts.
Qed.
Lemma VirtualMachineService_v1alpha2_hub_back : forall x source, exists y, convert_v1alpha2_VirtualMachineService_To_hub_VirtualMachineService x vmophub.zero_VirtualMachineService = Ok y /\
  convert_hub_VirtualMachineService_To_v1alpha2_VirtualMachineService (vmophub.VirtualMachineService_SetSource source y) vmoprv1alpha2.zero_VirtualMachineService = Ok x.
Proof.
  intros x source. eexists. split; [reflexivity|]. unfold convert_hub_VirtualMachineService_To_v1alpha2_VirtualMachineService, convert_v1alpha2_VirtualMachineService_To_hub_VirtualMachineService. cbn. apply (f_equal Ok). destruct x; cbn. back_parts.
Qed.
Lemma VirtualMachineSetResourcePolicy_v1alpha2_hub_back : forall x source, exists y, convert_v1alpha2_VirtualMachineSetResourcePolicy_To_hub_VirtualMachineSetResourcePolicy x vmophub.zero_VirtualMachineSetResourcePolicy = Ok y /\
  convert_hub_VirtualMachineSetResourcePolicy_To_v1alpha2_VirtualMachineSetResourcePolicy (vmophub.VirtualMachineSetResourcePolicy_SetSource source y) vmoprv1alpha2.zero_VirtualMachineSetResourcePolicy = Ok x.
Proof.
  intros x source. eexists. split; [reflexivity|]. unfold convert_hub_VirtualMachineSetResourcePolicy_To_v1alpha2_VirtualMachineSetResourcePolicy, convert_v1alpha2_VirtualMachineSetResourcePolicy_To_hub_VirtualMachineSetResourcePolicy. cbn. apply (f_equal Ok). destruct x; cbn. back_parts.
Qed.

(** ** v1alpha5, hub and back *)

Lemma VirtualMachineSpec_v1alpha5_To_hub_back : forall x, VirtualMachineSpec_hub_To_v1alpha5 (VirtualMachineSpec_v1alpha5_To_hub x vmophub.zero_VirtualMachineSpec) vmoprv1alpha5.zero_VirtualMachineSpec = x.
Proof. object_back VirtualMachineSpec_v1alpha5_To_hub VirtualMachineSpec_hub_To_v1alpha5. Qed.
Lemma VirtualMachineStatus_v1alpha5_To_hub_back : forall x, VirtualMachineStatus_hub_To_v1alpha5 (VirtualMachineStatus_v1alpha5_To_hub x vmophub.zero_VirtualMachineStatus) vmoprv1alpha5.zero_VirtualMachineStatus = x.
Proof. object_back VirtualMachineStatus_v1alpha5_To_hub VirtualMachineStatus_hub_To_v1alpha5. Qed.
Lemma VirtualMachineImageStatus_v1alpha5_To_hub_back : forall x, VirtualMachineImageStatus_hub_To_v1alpha5 (VirtualMachineImageStatus_v1alpha5_To_hub x vmophub.zero_VirtualMachineImageStatus) vmoprv1alpha5.zero_VirtualMachineImageStatus = x.
Proof. object_back VirtualMachineImageStatus_v1alpha5_To_hub VirtualMachineImageStatus_hub_To_v1alpha5. Qed.
Lemma ClusterVirtualMachineImage_Status_v1alpha5_To_hub_back : forall x, ClusterVirtualMachineImage_Status_hub_To_v1alpha5 (ClusterVirtualMachineImage_Status_v1alpha5_To_hub x vmophub.zero_VirtualMachineImageStatus) vmoprv1alpha5.zero_VirtualMachineImageStatus = x.
Proof. object_back ClusterVirtualMachineImage_Status_v1alpha5_To_hub ClusterVirtualMachineImage_Status_hub_To_v1alpha5. Qed.
Lemma VirtualMachine_v1alpha5_hub_back : forall x source, exists y, convert_v1alpha5_VirtualMachine_To_hub_VirtualMachine x vmophub.zero_VirtualMachine = Ok y /\
  convert_hub_VirtualMachine_To_v1alpha5_VirtualMachine (vmophub.VirtualMachine_SetSource source y) vmoprv1alpha5.zero_VirtualMachine = Ok x.
Proof.
  intros x source. eexists. split; [reflexivity|]. unfold convert_hub_VirtualMachine_To_v1alpha5_VirtualMachine, convert_v1alpha5_VirtualMachine_To_hub_VirtualMachine. cbn. rewrite VirtualMachineSpec_v1alpha5_To_hub_back. rewrite VirtualMachineStatus_v1alpha5_To_hub_back. apply (f_equal Ok). destruct x; cbn. back_parts.
Qed.
Lemma VirtualMachineClass_v1alpha5_hub_back : forall x source, exists y, convert_v1alpha5_VirtualMachineClass_To_hub_VirtualMachineClass x vmophub.zero_VirtualMachineClass = Ok y /\
  convert_hub_VirtualMachineClass_To_v1alpha5_VirtualMachineClass (vmophub.VirtualMachineClass_SetSource source y) vmoprv1alpha5.zero_VirtualMachineClass = Ok x.
Proof.
  intros x source. eexists. split; [reflexivity|]. unfold convert_hub_VirtualMachineClass_To_v1alpha5_VirtualMachineClass, convert_v1alpha5_VirtualMachineClass_To_hub_VirtualMachineClass. cbn. apply (f_equal Ok). destruct x; cbn. back_parts.
Qed.
Lemma VirtualMachineGroup_v1alpha5_hub_back : forall x source, exists y, convert_v1alpha5_VirtualMachineGroup_To_hub_VirtualMachineGroup x vmophub.zero_VirtualMachineGroup = Ok y /\
  convert_hub_VirtualMachineGroup_To_v1alpha5_VirtualMachineGroup (vmophub.VirtualMachineGroup_SetSource source y) vmoprv1alpha5.zero_VirtualMachineGroup = Ok x.
Proof.
  intros x source. eexists. split; [reflexivity|]. unfold convert_hub_VirtualMachineGroup_To_v1alpha5_VirtualMachineGroup, convert_v1alpha5_VirtualMachineGroup_To_hub_VirtualMachineGroup. cbn. apply (f_equal Ok). destruct x; cbn. back_parts.
Qed.
Lemma VirtualMachineImage_v1alpha5_hub_back : forall x source, exists y, convert_v1alpha5_VirtualMachineImage_To_hub_VirtualMachineImage x vmophub.zero_VirtualMachineImage = Ok y /\
  convert_hub_VirtualMachineImage_To_v1alpha5_VirtualMachineImage (vmophub.VirtualMachineImage_SetSource source y) vmoprv1alpha5.zero_VirtualMachineImage = Ok x.
Proof.
  intros x source. eexists. split; [reflexivity|]. unfold convert_hub_VirtualMachineImage_To_v1alpha5_VirtualMachineImage, convert_v1alpha5_VirtualMachineImage_To_hub_VirtualMachineImage. cbn. rewrite VirtualMachineImageStatus_v1alpha5_To_hub_back. apply (f_equal Ok). destruct x; cbn. back_parts.
Qed.
Lemma ClusterVirtualMachineImage_v1alpha5_hub_back : forall x source, exists y, convert_v1alpha5_ClusterVirtualMachineImage_To_hub_ClusterVirtualMachineImage x vmophub.zero_ClusterVirtualMachineImage = Ok y /\
  convert_hub_ClusterVirtualMachineImage_To_v1alpha5_ClusterVirtualMachineImage (vmophub.ClusterVirtualMachineImage_SetSource source y) vmoprv1alpha5.zero_ClusterVirtualMachineImage = Ok x.
Proof.
  intros x source. eexists. split; [reflexivity|]. unfold convert_hub_ClusterVirtualMachineImage_To_v1alpha5_ClusterVirtualMachineImage, convert_v1alpha5_ClusterVirtualMachineImage_To_hub_ClusterVirtualMachineImage. cbn. rewrite ClusterVirtualMachineImage_Status_v1alpha5_To_hub_back. apply (f_equal Ok). destruct x; cbn. back_parts.
Qed.
Lemma VirtualMachineService_v1alpha5_hub_back : forall x source, exists y, convert_v1alpha5_VirtualMachineService_To_hub_VirtualMachineService x vmophub.zero_VirtualMachineService = Ok y /\
  convert_hub_VirtualMachineService_To_v1alpha5_VirtualMachineService (vmophub.VirtualMachineService_SetSource source y) vmoprv1alpha5.zero_VirtualMachineService = Ok x.
Proof.
  intros x source. eexists. split; [reflexivity|]. unfold convert_hub_VirtualMachineService_To_v1alpha5_VirtualMachineService, convert_v1alpha5_VirtualMachineService_To_hub_VirtualMachineService. cbn. apply (f_equal Ok). destruct x; cbn. back_parts.
Qed.
Lemma VirtualMachineSetResourcePolicy_v1alpha5_hub_back : forall x source, exists y, convert_v1alpha5_VirtualMachineSetResourcePolicy_To_hub_VirtualMachineSetResourcePolicy x vmophub.zero_VirtualMachineSetResourcePolicy = Ok y /\
  convert_hub_VirtualMachineSetResourcePolicy_To_v1alpha5_VirtualMachineSetResourcePolicy (vmophub.VirtualMachineSetResourcePolicy_SetSource source y) vmoprv1alpha5.zero_VirtualMachineSetResourcePolicy = Ok x.
Proof.
  intros x source. eexists. split; [reflexivity|]. unfold convert_hub_VirtualMachineSetResourcePolicy_To_v1alpha5_VirtualMachineSetResourcePolicy, convert_v1alpha5_VirtualMachineSetResourcePolicy_To_hub_VirtualMachineSetResourcePolicy. cbn. apply (f_equal Ok). destruct x; cbn. back_parts.
Qed.

(** ** v1alpha6, hub and back *)

Lemma VirtualMachineSpec_v1alpha6_To_hub_back x : VirtualMachineSpec_hub_To_v1alpha6 (VirtualMachineSpec_v1alpha6_To_hub x vmophub.zero_VirtualMachineSpec) vmoprv1alpha6.zero_VirtualMachineSpec = tidy_v1alpha6_VirtualMachineSpec x.
Proof.
  unfold VirtualMachineSpec_v1alpha6_To_hub, VirtualMachineSpec_hub_To_v1alpha6, tidy_v1alpha6_VirtualMachineSpec. destruct x; cbn; f_equal; try back_there.
  match goal with |- context [match ?s with Some _ => _ | None => _ end] => destruct s; cbn; [|done] end. by rewrite VirtualMachineNetworkSpec_v1alpha6_To_hub_back.
Qed.
Lemma VirtualMachineStatus_v1alpha6_To_hub_back : forall x, VirtualMachineStatus_hub_To_v1alpha6 (VirtualMachineStatus_v1alpha6_To_hub x vmophub.zero_VirtualMachineStatus) vmoprv1alpha6.zero_VirtualMachineStatus = x.
Proof. object_back VirtualMachineStatus_v1alpha6_To_hub VirtualMachineStatus_hub_To_v1alpha6. Qed.
Lemma VirtualMachineImageStatus_v1alpha6_To_hub_back : forall x, VirtualMachineImageStatus_hub_To_v1alpha6 (VirtualMachineImageStatus_v1alpha6_To_hub x vmophub.zero_VirtualMachineImageStatus) vmoprv1alpha6.zero_VirtualMachineImageStatus = x.
Proof. object_back VirtualMachineImageStatus_v1alpha6_To_hub VirtualMachineImageStatus_hub_To_v1alpha6. Qed.
Lemma ClusterVirtualMachineImage_Status_v1alpha6_To_hub_back : forall x, ClusterVirtualMachineImage_Status_hub_To_v1alpha6 (ClusterVirtualMachineImage_Status_v1alpha6_To_hub x vmophub.zero_VirtualMachineImageStatus) vmoprv1alpha6.zero_VirtualMachineImageStatus = x.
Proof. object_back ClusterVirtualMachineImage_Status_v1alpha6_To_hub ClusterVirtualMachineImage_Status_hub_To_v1alpha6. Qed.
Lemma VirtualMachineServiceSpec_v1alpha6_To_hub_back : forall x, VirtualMachineServiceSpec_hub_To_v1alpha6 (VirtualMachineServiceSpec_v1alpha6_To_hub x vmophub.zero_VirtualMachineServiceSpec) vmoprv1alpha6.zero_VirtualMachineServiceSpec = x.
Proof. object_back VirtualMachineServiceSpec_v1alpha6_To_hub VirtualMachineServiceSpec_hub_To_v1alpha6. Qed.
Lemma VirtualMachine_v1alpha6_hub_back : forall x source, exists y, convert_v1alpha6_VirtualMachine_To_hub_VirtualMachine x vmophub.zero_VirtualMachine = Ok y /\
  convert_hub_VirtualMachine_To_v1alpha6_VirtualMachine (vmophub.VirtualMachine_SetSource source y) vmoprv1alpha6.zero_VirtualMachine = Ok (tidy_v1alpha6_VirtualMachine x).
Proof.
  intros x source. eexists. split; [reflexivity|]. unfold convert_hub_VirtualMachine_To_v1alpha6_VirtualMachine, convert_v1alpha6_VirtualMachine_To_hub_VirtualMachine, tidy_v1alpha6_VirtualMachine. cbn. rewrite VirtualMachineSpec_v1alpha6_To_hub_back. rewrite VirtualMachineStatus_v1alpha6_To_hub_back. apply (f_equal Ok). destruct x; cbn. back_parts.
Qed.
Lemma VirtualMachineClass_v1alpha6_hub_back : forall x source, exists y, convert_v1alpha6_VirtualMachineClass_To_hub_VirtualMachineClass x vmophub.zero_VirtualMachineClass = Ok y /\
  convert_hub_VirtualMachineClass_To_v1alpha6_VirtualMachineClass (vmophub.VirtualMachineClass_SetSource source y) vmoprv1alpha6.zero_VirtualMachineClass = Ok x.
Proof.
  intros x source. eexists. split; [reflexivity|]. unfold convert_hub_VirtualMachineClass_To_v1alpha6_VirtualMachineClass, convert_v1alpha6_VirtualMachineClass_To_hub_VirtualMachineClass. cbn. apply (f_equal Ok). destruct x; cbn. back_parts.
Qed.
Lemma VirtualMachineGroup_v1alpha6_hub_back : forall x source, exists y, convert_v1alpha6_VirtualMachineGroup_To_hub_VirtualMachineGroup x vmophub.zero_VirtualMachineGroup = Ok y /\
  convert_hub_VirtualMachineGroup_To_v1alpha6_VirtualMachineGroup (vmophub.VirtualMachineGroup_SetSource source y) vmoprv1alpha6.zero_VirtualMachineGroup = Ok x.
Proof.
  intros x source. eexists. split; [reflexivity|]. unfold convert_hub_VirtualMachineGroup_To_v1alpha6_VirtualMachineGroup, convert_v1alpha6_VirtualMachineGroup_To_hub_VirtualMachineGroup. cbn. apply (f_equal Ok). destruct x; cbn. back_parts.
Qed.
Lemma VirtualMachineImage_v1alpha6_hub_back : forall x source, exists y, convert_v1alpha6_VirtualMachineImage_To_hub_VirtualMachineImage x vmophub.zero_VirtualMachineImage = Ok y /\
  convert_hub_VirtualMachineImage_To_v1alpha6_VirtualMachineImage (vmophub.VirtualMachineImage_SetSource source y) vmoprv1alpha6.zero_VirtualMachineImage = Ok x.
Proof.
  intros x source. eexists. split; [reflexivity|]. unfold convert_hub_VirtualMachineImage_To_v1alpha6_VirtualMachineImage, convert_v1alpha6_VirtualMachineImage_To_hub_VirtualMachineImage. cbn. rewrite VirtualMachineImageStatus_v1alpha6_To_hub_back. apply (f_equal Ok). destruct x; cbn. back_parts.
Qed.
Lemma ClusterVirtualMachineImage_v1alpha6_hub_back : forall x source, exists y, convert_v1alpha6_ClusterVirtualMachineImage_To_hub_ClusterVirtualMachineImage x vmophub.zero_ClusterVirtualMachineImage = Ok y /\
  convert_hub_ClusterVirtualMachineImage_To_v1alpha6_ClusterVirtualMachineImage (vmophub.ClusterVirtualMachineImage_SetSource source y) vmoprv1alpha6.zero_ClusterVirtualMachineImage = Ok x.
Proof.
  intros x source. eexists. split; [reflexivity|]. unfold convert_hub_ClusterVirtualMachineImage_To_v1alpha6_ClusterVirtualMachineImage, convert_v1alpha6_ClusterVirtualMachineImage_To_hub_ClusterVirtualMachineImage. cbn. rewrite ClusterVirtualMachineImage_Status_v1alpha6_To_hub_back. apply (f_equal Ok). destruct x; cbn. back_parts.
Qed.
Lemma VirtualMachineService_v1alpha6_hub_back : forall x source, exists y, convert_v1alpha6_VirtualMachineService_To_hub_VirtualMachineService x vmophub.zero_VirtualMachineService = Ok y /\
  convert_hub_VirtualMachineService_To_v1alpha6_VirtualMachineService (vmophub.VirtualMachineService_SetSource source y) vmoprv1alpha6.zero_VirtualMachineService = Ok x.
Proof.
  intros x source. eexists. split; [reflexivity|]. unfold convert_hub_VirtualMachineService_To_v1alpha6_VirtualMachineService, convert_v1alpha6_VirtualMachineService_To_hub_VirtualMachineService. cbn. rewrite VirtualMachineServiceSpec_v1alpha6_To_hub_back. apply (f_equal Ok). destruct x; cbn. back_parts.
Qed.
Lemma VirtualMachineSetResourcePolicy_v1alpha6_hub_back : forall x source, exists y, convert_v1alpha6_VirtualMachineSetResourcePolicy_To_hub_VirtualMachineSetResourcePolicy x vmophub.zero_VirtualMachineSetResourcePolicy = Ok y /\
  convert_hub_VirtualMachineSetResourcePolicy_To_v1alpha6_VirtualMachineSetResourcePolicy (vmophub.VirtualMachineSetResourcePolicy_SetSource source y) vmoprv1alpha6.zero_VirtualMachineSetResourcePolicy = Ok x.
Proof.
  intros x source. eexists. split; [reflexivity|]. unfold convert_hub_VirtualMachineSetResourcePolicy_To_v1alpha6_VirtualMachineSetResourcePolicy, convert_v1alpha6_VirtualMachineSetResourcePolicy_To_hub_VirtualMachineSetResourcePolicy. cbn. apply (f_equal Ok). destruct x; cbn. back_parts.
Qed.

(** ** hub, v1alpha6 and back *)

Lemma VirtualMachineSpec_hub_To_v1alpha6_back x : VirtualMachineSpec_v1alpha6_To_hub (VirtualMachineSpec_hub_To_v1alpha6 x vmoprv1alpha6.zero_VirtualMachineSpec) vmophub.zero_VirtualMachineSpec = tidy_hub_VirtualMachineSpec x.
Proof.
  unfold VirtualMachineSpec_hub_To_v1alpha6, VirtualMachineSpec_v1alpha6_To_hub, tidy_hub_VirtualMachineSpec. destruct x; cbn; f_equal; try back_there.
  match goal with |- context [match ?s with Some _ => _ | None => _ end] => destruct s; cbn; [|done] end. by rewrite VirtualMachineNetworkSpec_hub_To_v1alpha6_back.
Qed.
Lemma VirtualMachineStatus_hub_To_v1alpha6_back : forall x, VirtualMachineStatus_v1alpha6_To_hub (VirtualMachineStatus_hub_To_v1alpha6 x vmoprv1alpha6.zero_VirtualMachineStatus) vmophub.zero_VirtualMachineStatus = x.
Proof. object_back VirtualMachineStatus_hub_To_v1alpha6 VirtualMachineStatus_v1alpha6_To_hub. Qed.
Lemma VirtualMachineImageStatus_hub_To_v1alpha6_back : forall x, VirtualMachineImageStatus_v1alpha6_To_hub (VirtualMachineImageStatus_hub_To_v1alpha6 x vmoprv1alpha6.zero_VirtualMachineImageStatus) vmophub.zero_VirtualMachineImageStatus = x.
Proof. object_back VirtualMachineImageStatus_hub_To_v1alpha6 VirtualMachineImageStatus_v1alpha6_To_hub. Qed.
Lemma ClusterVirtualMachineImage_Status_hub_To_v1alpha6_back : forall x, ClusterVirtualMachineImage_Status_v1alpha6_To_hub (ClusterVirtualMachineImage_Status_hub_To_v1alpha6 x vmoprv1alpha6.zero_VirtualMachineImageStatus) vmophub.zero_VirtualMachineImageStatus = x.
Proof. object_back ClusterVirtualMachineImage_Status_hub_To_v1alpha6 ClusterVirtualMachineImage_Status_v1alpha6_To_hub. Qed.
Lemma VirtualMachineServiceSpec_hub_To_v1alpha6_back : forall x, VirtualMachineServiceSpec_v1alpha6_To_hub (VirtualMachineServiceSpec_hub_To_v1alpha6 x vmoprv1alpha6.zero_VirtualMachineServiceSpec) vmophub.zero_VirtualMachineServiceSpec = x.
Proof. object_back VirtualMachineServiceSpec_hub_To_v1alpha6 VirtualMachineServiceSpec_v1alpha6_To_hub. Qed.
Lemma VirtualMachine_hub_v1alpha6_back : forall x, exists y, convert_hub_VirtualMachine_To_v1alpha6_VirtualMachine x vmoprv1alpha6.zero_VirtualMachine = Ok y /\
  convert_v1alpha6_VirtualMachine_To_hub_VirtualMachine y vmophub.zero_VirtualMachine = Ok (vmophub.VirtualMachine_SetSource "" (tidy_hub_VirtualMachine x)).
Proof.
  intros x. eexists. split; [reflexivity|]. unfold convert_v1alpha6_VirtualMachine_To_hub_VirtualMachine, convert_hub_VirtualMachine_To_v1alpha6_VirtualMachine, vmophub.VirtualMachine_SetSource, tidy_hub_VirtualMachine. cbn. rewrite VirtualMachineSpec_hub_To_v1alpha6_back. rewrite VirtualMachineStatus_hub_To_v1alpha6_back. apply (f_equal Ok). destruct x; cbn. back_parts.
Qed.
Lemma VirtualMachineClass_hub_v1alpha6_back : forall x, exists y, convert_hub_VirtualMachineClass_To_v1alpha6_VirtualMachineClass x vmoprv1alpha6.zero_VirtualMachineClass = Ok y /\
  convert_v1alpha6_VirtualMachineClass_To_hub_VirtualMachineClass y vmophub.zero_VirtualMachineClass = Ok {|
    vmophub.VirtualMachineClass_ObjectMeta := vmophub.VirtualMachineClass_ObjectMeta x;
    vmophub.VirtualMachineClass_Spec := vmophub.VirtualMachineClass_Spec x;
    vmophub.VirtualMachineClass_Status := vmophub.zero_VirtualMachineClassStatus;
    vmophub.VirtualMachineClass_Source := ""
  |}.
Proof.
  intros x. eexists. split; [reflexivity|]. unfold convert_v1alpha6_VirtualMachineClass_To_hub_VirtualMachineClass, convert_hub_VirtualMachineClass_To_v1alpha6_VirtualMachineClass, vmophub.VirtualMachineClass_SetSource. cbn. apply (f_equal Ok). destruct x; cbn. back_parts.
Qed.
Lemma VirtualMachineGroup_hub_v1alpha6_back : forall x, exists y, convert_hub_VirtualMachineGroup_To_v1alpha6_VirtualMachineGroup x vmoprv1alpha6.zero_VirtualMachineGroup = Ok y /\
  convert_v1alpha6_VirtualMachineGroup_To_hub_VirtualMachineGroup y vmophub.zero_VirtualMachineGroup = Ok (vmophub.VirtualMachineGroup_SetSource "" x).
Proof.
  intros x. eexists. split; [reflexivity|]. unfold convert_v1alpha6_VirtualMachineGroup_To_hub_VirtualMachineGroup, convert_hub_VirtualMachineGroup_To_v1alpha6_VirtualMachineGroup, vmophub.VirtualMachineGroup_SetSource. cbn. apply (f_equal Ok). destruct x; cbn. back_parts.
Qed.
Lemma VirtualMachineImage_hub_v1alpha6_back : forall x, exists y, convert_hub_VirtualMachineImage_To_v1alpha6_VirtualMachineImage x vmoprv1alpha6.zero_VirtualMachineImage = Ok y /\
  convert_v1alpha6_VirtualMachineImage_To_hub_VirtualMachineImage y vmophub.zero_VirtualMachineImage = Ok (vmophub.VirtualMachineImage_SetSource "" x).
Proof.
  intros x. eexists. split; [reflexivity|]. unfold convert_v1alpha6_VirtualMachineImage_To_hub_VirtualMachineImage, convert_hub_VirtualMachineImage_To_v1alpha6_VirtualMachineImage, vmophub.VirtualMachineImage_SetSource. cbn. rewrite VirtualMachineImageStatus_hub_To_v1alpha6_back. apply (f_equal Ok). destruct x; cbn. back_parts.
Qed.
Lemma ClusterVirtualMachineImage_hub_v1alpha6_back : forall x, exists y, convert_hub_ClusterVirtualMachineImage_To_v1alpha6_ClusterVirtualMachineImage x vmoprv1alpha6.zero_ClusterVirtualMachineImage = Ok y /\
  convert_v1alpha6_ClusterVirtualMachineImage_To_hub_ClusterVirtualMachineImage y vmophub.zero_ClusterVirtualMachineImage = Ok (vmophub.ClusterVirtualMachineImage_SetSource "" x).
Proof.
  intros x. eexists. split; [reflexivity|]. unfold convert_v1alpha6_ClusterVirtualMachineImage_To_hub_ClusterVirtualMachineImage, convert_hub_ClusterVirtualMachineImage_To_v1alpha6_ClusterVirtualMachineImage, vmophub.ClusterVirtualMachineImage_SetSource. cbn. rewrite ClusterVirtualMachineImage_Status_hub_To_v1alpha6_back. apply (f_equal Ok). destruct x; cbn. back_parts.
Qed.
Lemma VirtualMachineService_hub_v1alpha6_back : forall x, exists y, convert_hub_VirtualMachineService_To_v1alpha6_VirtualMachineService x vmoprv1alpha6.zero_VirtualMachineService = Ok y /\
  convert_v1alpha6_VirtualMachineService_To_hub_VirtualMachineService y vmophub.zero_VirtualMachineService = Ok (vmophub.VirtualMachineService_SetSource "" x).
Proof.
  intros x. eexists. split; [reflexivity|]. unfold convert_v1alpha6_VirtualMachineService_To_hub_VirtualMachineService, convert_hub_VirtualMachineService_To_v1alpha6_VirtualMachineService, vmophub.VirtualMachineService_SetSource. cbn. rewrite VirtualMachineServiceSpec_hub_To_v1alpha6_back. apply (f_equal Ok). destruct x; cbn. back_parts.
Qed.
Lemma VirtualMachineSetResourcePolicy_hub_v1alpha6_back : forall x, exists y, convert_hub_VirtualMachineSetResourcePolicy_To_v1alpha6_VirtualMachineSetResourcePolicy x vmoprv1alpha6.zero_VirtualMachineSetResourcePolicy = Ok y /\
  convert_v1alpha6_VirtualMachineSetResourcePolicy_To_hub_VirtualMachineSetResourcePolicy y vmophub.zero_VirtualMachineSetResourcePolicy = Ok {|
    vmophub.VirtualMachineSetResourcePolicy_ObjectMeta := vmophub.VirtualMachineSetResourcePolicy_ObjectMeta x;
    vmophub.VirtualMachineSetResourcePolicy_Spec := vmophub.VirtualMachineSetResourcePolicy_Spec x;
    vmophub.VirtualMachineSetResourcePolicy_Status := vmophub.zero_VirtualMachineSetResourcePolicyStatus;
    vmophub.VirtualMachineSetResourcePolicy_Source := ""
  |}.
Proof.
  intros x. eexists. split; [reflexivity|]. unfold convert_v1alpha6_VirtualMachineSetResourcePolicy_To_hub_VirtualMachineSetResourcePolicy, convert_hub_VirtualMachineSetResourcePolicy_To_v1alpha6_VirtualMachineSetResourcePolicy, vmophub.VirtualMachineSetResourcePolicy_SetSource. cbn. apply (f_equal Ok). destruct x; cbn. back_parts.
Qed.
