(* ===== verification/VmopConverter.v ===== *)
(** The converter of the supervisor mode with the objects of VM Operator ([pkg/conversion/api/converter.go], the
    [groupversion_info.go] of the packages under [pkg/conversion/api/vmoperator] and what their [init] functions
    register): what it converts and that it loses nothing. *)
From stdpp Require Import gmap strings.
From S2P Require Export Converter VmopRoundTrip.
#[local] Open Scope Z_scope.

(** * The objects *)

Definition hub_path : string := "sigs.k8s.io/cluster-api-provider-vsphere/pkg/conversion/api/vmoperator/hub".
Definition version_path (version : string) : string := "github.com/vmware-tanzu/vm-operator/api/" +:+ version.

(** A pointer to an object of the hub version or of a version of the API server, or to a list of such objects. *)
Inductive Obj :=
| hub_VirtualMachine (o : vmophub.VirtualMachine)
| hub_VirtualMachineClass (o : vmophub.VirtualMachineClass)
| hub_VirtualMachineGroup (o : vmophub.VirtualMachineGroup)
| hub_VirtualMachineImage (o : vmophub.VirtualMachineImage)
| hub_ClusterVirtualMachineImage (o : vmophub.ClusterVirtualMachineImage)
| hub_VirtualMachineService (o : vmophub.VirtualMachineService)
| hub_VirtualMachineSetResourcePolicy (o : vmophub.VirtualMachineSetResourcePolicy)
| v1alpha2_VirtualMachine (o : vmoprv1alpha2.VirtualMachine)
| v1alpha2_VirtualMachineClass (o : vmoprv1alpha2.VirtualMachineClass)
| v1alpha2_VirtualMachineGroup (o : vmoprv1alpha2.VirtualMachineGroup)
| v1alpha2_VirtualMachineImage (o : vmoprv1alpha2.VirtualMachineImage)
| v1alpha2_ClusterVirtualMachineImage (o : vmoprv1alpha2.ClusterVirtualMachineImage)
| v1alpha2_VirtualMachineService (o : vmoprv1alpha2.VirtualMachineService)
| v1alpha2_VirtualMachineSetResourcePolicy (o : vmoprv1alpha2.VirtualMachineSetResourcePolicy)
| v1alpha5_VirtualMachine (o : vmoprv1alpha5.VirtualMachine)
| v1alpha5_VirtualMachineClass (o : vmoprv1alpha5.VirtualMachineClass)
| v1alpha5_VirtualMachineGroup (o : vmoprv1alpha5.VirtualMachineGroup)
| v1alpha5_VirtualMachineImage (o : vmoprv1alpha5.VirtualMachineImage)
| v1alpha5_ClusterVirtualMachineImage (o : vmoprv1alpha5.ClusterVirtualMachineImage)
| v1alpha5_VirtualMachineService (o : vmoprv1alpha5.VirtualMachineService)
| v1alpha5_VirtualMachineSetResourcePolicy (o : vmoprv1alpha5.VirtualMachineSetResourcePolicy)
| v1alpha6_VirtualMachine (o : vmoprv1alpha6.VirtualMachine)
| v1alpha6_VirtualMachineClass (o : vmoprv1alpha6.VirtualMachineClass)
| v1alpha6_VirtualMachineGroup (o : vmoprv1alpha6.VirtualMachineGroup)
| v1alpha6_VirtualMachineImage (o : vmoprv1alpha6.VirtualMachineImage)
| v1alpha6_ClusterVirtualMachineImage (o : vmoprv1alpha6.ClusterVirtualMachineImage)
| v1alpha6_VirtualMachineService (o : vmoprv1alpha6.VirtualMachineService)
| v1alpha6_VirtualMachineSetResourcePolicy (o : vmoprv1alpha6.VirtualMachineSetResourcePolicy)
| ListOf (path kind : string) (items : list Obj).

Definition type_of (o : Obj) : GoType :=
  match o with
  | hub_VirtualMachine _ => mkGoType hub_path "VirtualMachine"
  | hub_VirtualMachineClass _ => mkGoType hub_path "VirtualMachineClass"
  | hub_VirtualMachineGroup _ => mkGoType hub_path "VirtualMachineGroup"
  | hub_VirtualMachineImage _ => mkGoType hub_path "VirtualMachineImage"
  | hub_ClusterVirtualMachineImage _ => mkGoType hub_path "ClusterVirtualMachineImage"
  | hub_VirtualMachineService _ => mkGoType hub_path "VirtualMachineService"
  | hub_VirtualMachineSetResourcePolicy _ => mkGoType hub_path "VirtualMachineSetResourcePolicy"
  | v1alpha2_VirtualMachine _ => mkGoType (version_path "v1alpha2") "VirtualMachine"
  | v1alpha2_VirtualMachineClass _ => mkGoType (version_path "v1alpha2") "VirtualMachineClass"
  | v1alpha2_VirtualMachineGroup _ => mkGoType (version_path "v1alpha2") "VirtualMachineGroup"
  | v1alpha2_VirtualMachineImage _ => mkGoType (version_path "v1alpha2") "VirtualMachineImage"
  | v1alpha2_ClusterVirtualMachineImage _ => mkGoType (version_path "v1alpha2") "ClusterVirtualMachineImage"
  | v1alpha2_VirtualMachineService _ => mkGoType (version_path "v1alpha2") "VirtualMachineService"
  | v1alpha2_VirtualMachineSetResourcePolicy _ => mkGoType (version_path "v1alpha2") "VirtualMachineSetResourcePolicy"
  | v1alpha5_VirtualMachine _ => mkGoType (version_path "v1alpha5") "VirtualMachine"
  | v1alpha5_VirtualMachineClass _ => mkGoType (version_path "v1alpha5") "VirtualMachineClass"
  | v1alpha5_VirtualMachineGroup _ => mkGoType (version_path "v1alpha5") "VirtualMachineGroup"
  | v1alpha5_VirtualMachineImage _ => mkGoType (version_path "v1alpha5") "VirtualMachineImage"
  | v1alpha5_ClusterVirtualMachineImage _ => mkGoType (version_path "v1alpha5") "ClusterVirtualMachineImage"
  | v1alpha5_VirtualMachineService _ => mkGoType (version_path "v1alpha5") "VirtualMachineService"
  | v1alpha5_VirtualMachineSetResourcePolicy _ => mkGoType (version_path "v1alpha5") "VirtualMachineSetResourcePolicy"
  | v1alpha6_VirtualMachine _ => mkGoType (version_path "v1alpha6") "VirtualMachine"
  | v1alpha6_VirtualMachineClass _ => mkGoType (version_path "v1alpha6") "VirtualMachineClass"
  | v1alpha6_VirtualMachineGroup _ => mkGoType (version_path "v1alpha6") "VirtualMachineGroup"
  | v1alpha6_VirtualMachineImage _ => mkGoType (version_path "v1alpha6") "VirtualMachineImage"
  | v1alpha6_ClusterVirtualMachineImage _ => mkGoType (version_path "v1alpha6") "ClusterVirtualMachineImage"
  | v1alpha6_VirtualMachineService _ => mkGoType (version_path "v1alpha6") "VirtualMachineService"
  | v1alpha6_VirtualMachineSetResourcePolicy _ => mkGoType (version_path "v1alpha6") "VirtualMachineSetResourcePolicy"
  | ListOf path kind _ => mkGoType path (kind +:+ "List")
  end.

(** The kinds of objects; [GetSource] and [SetSource] are methods of the hub version of each. *)
Definition kinds : list string := ["VirtualMachine"; "VirtualMachineClass"; "VirtualMachineGroup"; "VirtualMachineImage"; "ClusterVirtualMachineImage"; "VirtualMachineService"; "VirtualMachineSetResourcePolicy"].
Definition is_Convertible (t : GoType) : bool := bool_decide (t_PkgPath t = hub_path /\ t_Name t ∈ kinds).
Definition Obj_GetSource (o : Obj) : string :=
  match o with
  | hub_VirtualMachine o => vmophub.VirtualMachine_GetSource o
  | hub_VirtualMachineClass o => vmophub.VirtualMachineClass_GetSource o
  | hub_VirtualMachineGroup o => vmophub.VirtualMachineGroup_GetSource o
  | hub_VirtualMachineImage o => vmophub.VirtualMachineImage_GetSource o
  | hub_ClusterVirtualMachineImage o => vmophub.ClusterVirtualMachineImage_GetSource o
  | hub_VirtualMachineService o => vmophub.VirtualMachineService_GetSource o
  | hub_VirtualMachineSetResourcePolicy o => vmophub.VirtualMachineSetResourcePolicy_GetSource o
  | _ => ""
  end.
Definition Obj_SetSource (source : string) (o : Obj) : Obj :=
  match o with
  | hub_VirtualMachine o => hub_VirtualMachine (vmophub.VirtualMachine_SetSource source o)
  | hub_VirtualMachineClass o => hub_VirtualMachineClass (vmophub.VirtualMachineClass_SetSource source o)
  | hub_VirtualMachineGroup o => hub_VirtualMachineGroup (vmophub.VirtualMachineGroup_SetSource source o)
  | hub_VirtualMachineImage o => hub_VirtualMachineImage (vmophub.VirtualMachineImage_SetSource source o)
  | hub_ClusterVirtualMachineImage o => hub_ClusterVirtualMachineImage (vmophub.ClusterVirtualMachineImage_SetSource source o)
  | hub_VirtualMachineService o => hub_VirtualMachineService (vmophub.VirtualMachineService_SetSource source o)
  | hub_VirtualMachineSetResourcePolicy o => hub_VirtualMachineSetResourcePolicy (vmophub.VirtualMachineSetResourcePolicy_SetSource source o)
  | o => o
  end.

Definition shape_of_Obj (o : Obj) : shape := OStruct (type_of o).

#[export, program] Instance Objects_Obj : Objects Obj := {
  shape_of := shape_of_Obj;
  Convertible := is_Convertible;
  GetSource := Obj_GetSource;
  SetSource := Obj_SetSource
}.
Next Obligation.
  intros s o t [= <-] (Hp & Hk)%bool_decide_eq_true_1. destruct o; try reflexivity; try done.
  exfalso. cbn in Hk. assert (Hl : forallb (λ k, negb (is_list k)) kinds = true) by reflexivity.
  rewrite forallb_forall in Hl. apply list_elem_of_In, Hl in Hk. by rewrite is_list_app in Hk.
Qed.
Next Obligation. by intros s []. Qed.

(** ** Typed objects *)

(** The objects of a Go type, which a type assertion takes out of an interface, and its zero value. *)
Class IsObj (T : Type) := {
  inj_obj : T -> Obj;
  as_type : Obj -> option T;
  go_type : GoType;
  zero_value : T;
  as_type_inj x : as_type (inj_obj x) = Some x;
  as_type_some o x : as_type o = Some x -> o = inj_obj x;
  shape_inj x : shape_of_Obj (inj_obj x) = OStruct go_type
}.
Ltac typed_obj := first [done | by intros [] ? [= <-]].
#[export, refine] Instance IsObj_hub_VirtualMachine : IsObj vmophub.VirtualMachine := {
  inj_obj := hub_VirtualMachine;
  as_type o := match o with hub_VirtualMachine o => Some o | _ => None end;
  go_type := mkGoType hub_path "VirtualMachine";
  zero_value := vmophub.zero_VirtualMachine
}.
Proof. all: typed_obj. Defined.
#[export, refine] Instance IsObj_hub_VirtualMachineClass : IsObj vmophub.VirtualMachineClass := {
  inj_obj := hub_VirtualMachineClass;
  as_type o := match o with hub_VirtualMachineClass o => Some o | _ => None end;
  go_type := mkGoType hub_path "VirtualMachineClass";
  zero_value := vmophub.zero_VirtualMachineClass
}.
Proof. all: typed_obj. Defined.
#[export, refine] Instance IsObj_hub_VirtualMachineGroup : IsObj vmophub.VirtualMachineGroup := {
  inj_obj := hub_VirtualMachineGroup;
  as_type o := match o with hub_VirtualMachineGroup o => Some o | _ => None end;
  go_type := mkGoType hub_path "VirtualMachineGroup";
  zero_value := vmophub.zero_VirtualMachineGroup
}.
Proof. all: typed_obj. Defined.
#[export, refine] Instance IsObj_hub_VirtualMachineImage : IsObj vmophub.VirtualMachineImage := {
  inj_obj := hub_VirtualMachineImage;
  as_type o := match o with hub_VirtualMachineImage o => Some o | _ => None end;
  go_type := mkGoType hub_path "VirtualMachineImage";
  zero_value := vmophub.zero_VirtualMachineImage
}.
Proof. all: typed_obj. Defined.
#[export, refine] Instance IsObj_hub_ClusterVirtualMachineImage : IsObj vmophub.ClusterVirtualMachineImage := {
  inj_obj := hub_ClusterVirtualMachineImage;
  as_type o := match o with hub_ClusterVirtualMachineImage o => Some o | _ => None end;
  go_type := mkGoType hub_path "ClusterVirtualMachineImage";
  zero_value := vmophub.zero_ClusterVirtualMachineImage
}.
Proof. all: typed_obj. Defined.
#[export, refine] Instance IsObj_hub_VirtualMachineService : IsObj vmophub.VirtualMachineService := {
  inj_obj := hub_VirtualMachineService;
  as_type o := match o with hub_VirtualMachineService o => Some o | _ => None end;
  go_type := mkGoType hub_path "VirtualMachineService";
  zero_value := vmophub.zero_VirtualMachineService
}.
Proof. all: typed_obj. Defined.
#[export, refine] Instance IsObj_hub_VirtualMachineSetResourcePolicy : IsObj vmophub.VirtualMachineSetResourcePolicy := {
  inj_obj := hub_VirtualMachineSetResourcePolicy;
  as_type o := match o with hub_VirtualMachineSetResourcePolicy o => Some o | _ => None end;
  go_type := mkGoType hub_path "VirtualMachineSetResourcePolicy";
  zero_value := vmophub.zero_VirtualMachineSetResourcePolicy
}.
Proof. all: typed_obj. Defined.
#[export, refine] Instance IsObj_v1alpha2_VirtualMachine : IsObj vmoprv1alpha2.VirtualMachine := {
  inj_obj := v1alpha2_VirtualMachine;
  as_type o := match o with v1alpha2_VirtualMachine o => Some o | _ => None end;
  go_type := mkGoType (version_path "v1alpha2") "VirtualMachine";
  zero_value := vmoprv1alpha2.zero_VirtualMachine
}.
Proof. all: typed_obj. Defined.
#[export, refine] Instance IsObj_v1alpha2_VirtualMachineClass : IsObj vmoprv1alpha2.VirtualMachineClass := {
  inj_obj := v1alpha2_VirtualMachineClass;
  as_type o := match o with v1alpha2_VirtualMachineClass o => Some o | _ => None end;
  go_type := mkGoType (version_path "v1alpha2") "VirtualMachineClass";
  zero_value := vmoprv1alpha2.zero_VirtualMachineClass
}.
Proof. all: typed_obj. Defined.
#[export, refine] Instance IsObj_v1alpha2_VirtualMachineGroup : IsObj vmoprv1alpha2.VirtualMachineGroup := {
  inj_obj := v1alpha2_VirtualMachineGroup;
  as_type o := match o with v1alpha2_VirtualMachineGroup o => Some o | _ => None end;
  go_type := mkGoType (version_path "v1alpha2") "VirtualMachineGroup";
  zero_value := vmoprv1alpha2.zero_VirtualMachineGroup
}.
Proof. all: typed_obj. Defined.
#[export, refine] Instance IsObj_v1alpha2_VirtualMachineImage : IsObj vmoprv1alpha2.VirtualMachineImage := {
  inj_obj := v1alpha2_VirtualMachineImage;
  as_type o := match o with v1alpha2_VirtualMachineImage o => Some o | _ => None end;
  go_type := mkGoType (version_path "v1alpha2") "VirtualMachineImage";
  zero_value := vmoprv1alpha2.zero_VirtualMachineImage
}.
Proof. all: typed_obj. Defined.
#[export, refine] Instance IsObj_v1alpha2_ClusterVirtualMachineImage : IsObj vmoprv1alpha2.ClusterVirtualMachineImage := {
  inj_obj := v1alpha2_ClusterVirtualMachineImage;
  as_type o := match o with v1alpha2_ClusterVirtualMachineImage o => Some o | _ => None end;
  go_type := mkGoType (version_path "v1alpha2") "ClusterVirtualMachineImage";
  zero_value := vmoprv1alpha2.zero_ClusterVirtualMachineImage
}.
Proof. all: typed_obj. Defined.
#[export, refine] Instance IsObj_v1alpha2_VirtualMachineService : IsObj vmoprv1alpha2.VirtualMachineService := {
  inj_obj := v1alpha2_VirtualMachineService;
  as_type o := match o with v1alpha2_VirtualMachineService o => Some o | _ => None end;
  go_type := mkGoType (version_path "v1alpha2") "VirtualMachineService";
  zero_value := vmoprv1alpha2.zero_VirtualMachineService
}.
Proof. all: typed_obj. Defined.
#[export, refine] Instance IsObj_v1alpha2_VirtualMachineSetResourcePolicy : IsObj vmoprv1alpha2.VirtualMachineSetResourcePolicy := {
  inj_obj := v1alpha2_VirtualMachineSetResourcePolicy;
  as_type o := match o with v1alpha2_VirtualMachineSetResourcePolicy o => Some o | _ => None end;
  go_type := mkGoType (version_path "v1alpha2") "VirtualMachineSetResourcePolicy";
  zero_value := vmoprv1alpha2.zero_VirtualMachineSetResourcePolicy
}.
Proof. all: typed_obj. Defined.
#[export, refine] Instance IsObj_v1alpha5_VirtualMachine : IsObj vmoprv1alpha5.VirtualMachine := {
  inj_obj := v1alpha5_VirtualMachine;
  as_type o := match o with v1alpha5_VirtualMachine o => Some o | _ => None end;
  go_type := mkGoType (version_path "v1alpha5") "VirtualMachine";
  zero_value := vmoprv1alpha5.zero_VirtualMachine
}.
Proof. all: typed_obj. Defined.
#[export, refine] Instance IsObj_v1alpha5_VirtualMachineClass : IsObj vmoprv1alpha5.VirtualMachineClass := {
  inj_obj := v1alpha5_VirtualMachineClass;
  as_type o := match o with v1alpha5_VirtualMachineClass o => Some o | _ => None end;
  go_type := mkGoType (version_path "v1alpha5") "VirtualMachineClass";
  zero_value := vmoprv1alpha5.zero_VirtualMachineClass
}.
Proof. all: typed_obj. Defined.
#[export, refine] Instance IsObj_v1alpha5_VirtualMachineGroup : IsObj vmoprv1alpha5.VirtualMachineGroup := {
  inj_obj := v1alpha5_VirtualMachineGroup;
  as_type o := match o with v1alpha5_VirtualMachineGroup o => Some o | _ => None end;
  go_type := mkGoType (version_path "v1alpha5") "VirtualMachineGroup";
  zero_value := vmoprv1alpha5.zero_VirtualMachineGroup
}.
Proof. all: typed_obj. Defined.
#[export, refine] Instance IsObj_v1alpha5_VirtualMachineImage : IsObj vmoprv1alpha5.VirtualMachineImage := {
  inj_obj := v1alpha5_VirtualMachineImage;
  as_type o := match o with v1alpha5_VirtualMachineImage o => Some o | _ => None end;
  go_type := mkGoType (version_path "v1alpha5") "VirtualMachineImage";
  zero_value := vmoprv1alpha5.zero_VirtualMachineImage
}.
Proof. all: typed_obj. Defined.
#[export, refine] Instance IsObj_v1alpha5_ClusterVirtualMachineImage : IsObj vmoprv1alpha5.ClusterVirtualMachineImage := {
  inj_obj := v1alpha5_ClusterVirtualMachineImage;
  as_type o := match o with v1alpha5_ClusterVirtualMachineImage o => Some o | _ => None end;
  go_type := mkGoType (version_path "v1alpha5") "ClusterVirtualMachineImage";
  zero_value := vmoprv1alpha5.zero_ClusterVirtualMachineImage
}.
Proof. all: typed_obj. Defined.
#[export, refine] Instance IsObj_v1alpha5_VirtualMachineService : IsObj vmoprv1alpha5.VirtualMachineService := {
  inj_obj := v1alpha5_VirtualMachineService;
  as_type o := match o with v1alpha5_VirtualMachineService o => Some o | _ => None end;
  go_type := mkGoType (version_path "v1alpha5") "VirtualMachineService";
  zero_value := vmoprv1alpha5.zero_VirtualMachineService
}.
Proof. all: typed_obj. Defined.
#[export, refine] Instance IsObj_v1alpha5_VirtualMachineSetResourcePolicy : IsObj vmoprv1alpha5.VirtualMachineSetResourcePolicy := {
  inj_obj := v1alpha5_VirtualMachineSetResourcePolicy;
  as_type o := match o with v1alpha5_VirtualMachineSetResourcePolicy o => Some o | _ => None end;
  go_type := mkGoType (version_path "v1alpha5") "VirtualMachineSetResourcePolicy";
  zero_value := vmoprv1alpha5.zero_VirtualMachineSetResourcePolicy
}.
Proof. all: typed_obj. Defined.
#[export, refine] Instance IsObj_v1alpha6_VirtualMachine : IsObj vmoprv1alpha6.VirtualMachine := {
  inj_obj := v1alpha6_VirtualMachine;
  as_type o := match o with v1alpha6_VirtualMachine o => Some o | _ => None end;
  go_type := mkGoType (version_path "v1alpha6") "VirtualMachine";
  zero_value := vmoprv1alpha6.zero_VirtualMachine
}.
Proof. all: typed_obj. Defined.
#[export, refine] Instance IsObj_v1alpha6_VirtualMachineClass : IsObj vmoprv1alpha6.VirtualMachineClass := {
  inj_obj := v1alpha6_VirtualMachineClass;
  as_type o := match o with v1alpha6_VirtualMachineClass o => Some o | _ => None end;
  go_type := mkGoType (version_path "v1alpha6") "VirtualMachineClass";
  zero_value := vmoprv1alpha6.zero_VirtualMachineClass
}.
Proof. all: typed_obj. Defined.
#[export, refine] Instance IsObj_v1alpha6_VirtualMachineGroup : IsObj vmoprv1alpha6.VirtualMachineGroup := {
  inj_obj := v1alpha6_VirtualMachineGroup;
  as_type o := match o with v1alpha6_VirtualMachineGroup o => Some o | _ => None end;
  go_type := mkGoType (version_path "v1alpha6") "VirtualMachineGroup";
  zero_value := vmoprv1alpha6.zero_VirtualMachineGroup
}.
Proof. all: typed_obj. Defined.
#[export, refine] Instance IsObj_v1alpha6_VirtualMachineImage : IsObj vmoprv1alpha6.VirtualMachineImage := {
  inj_obj := v1alpha6_VirtualMachineImage;
  as_type o := match o with v1alpha6_VirtualMachineImage o => Some o | _ => None end;
  go_type := mkGoType (version_path "v1alpha6") "VirtualMachineImage";
  zero_value := vmoprv1alpha6.zero_VirtualMachineImage
}.
Proof. all: typed_obj. Defined.
#[export, refine] Instance IsObj_v1alpha6_ClusterVirtualMachineImage : IsObj vmoprv1alpha6.ClusterVirtualMachineImage := {
  inj_obj := v1alpha6_ClusterVirtualMachineImage;
  as_type o := match o with v1alpha6_ClusterVirtualMachineImage o => Some o | _ => None end;
  go_type := mkGoType (version_path "v1alpha6") "ClusterVirtualMachineImage";
  zero_value := vmoprv1alpha6.zero_ClusterVirtualMachineImage
}.
Proof. all: typed_obj. Defined.
#[export, refine] Instance IsObj_v1alpha6_VirtualMachineService : IsObj vmoprv1alpha6.VirtualMachineService := {
  inj_obj := v1alpha6_VirtualMachineService;
  as_type o := match o with v1alpha6_VirtualMachineService o => Some o | _ => None end;
  go_type := mkGoType (version_path "v1alpha6") "VirtualMachineService";
  zero_value := vmoprv1alpha6.zero_VirtualMachineService
}.
Proof. all: typed_obj. Defined.
#[export, refine] Instance IsObj_v1alpha6_VirtualMachineSetResourcePolicy : IsObj vmoprv1alpha6.VirtualMachineSetResourcePolicy := {
  inj_obj := v1alpha6_VirtualMachineSetResourcePolicy;
  as_type o := match o with v1alpha6_VirtualMachineSetResourcePolicy o => Some o | _ => None end;
  go_type := mkGoType (version_path "v1alpha6") "VirtualMachineSetResourcePolicy";
  zero_value := vmoprv1alpha6.zero_VirtualMachineSetResourcePolicy
}.
Proof. all: typed_obj. Defined.

(** The closure [Build] makes of a typed function. *)
Section typed.
Context {H S : Type} `{!IsObj H, !IsObj S}.

Definition run_typed (f : H -> S -> res S) (src dst : Obj) : Obj * res unit :=
  match as_type (T := H) src, as_type (T := S) dst with
  | Some h, Some s => match f h s with Ok s => (inj_obj s, Ok tt) | Err e => (dst, Err e) | Stop w => (dst, Stop w) end
  | _, _ => (dst, Stop Panics)
  end.
End typed.


(** [NewAddConversionBuilder]: the functions [Build] registers take the objects out of their interfaces. *)
#[program] Definition typed_conversion {H S} `{!IsObj H, !IsObj S} (f : H -> S -> res S) : conversion := {|
  c_run := run_typed f
|}.
Next Obligation.
  intros H S ? ? f src dst. unfold run_typed. destruct (as_type src); [|done]. destruct (as_type dst) as [s|] eqn:Es; [|done].
  apply as_type_some in Es as ->. destruct (f _ _); cbn -[shape_of_Obj]; [by rewrite !shape_inj|done..].
Qed.
Definition NewAddConversionBuilder {H S} `{!IsObj H, !IsObj S} (hubToSpokeFunc : H -> S -> res S) (spokeToHubFunc : S -> H -> res H) : AddConversionBuilder :=
  mkAddConversionBuilder (inj_obj (zero_value (T := H))) (inj_obj (zero_value (T := S))) (typed_conversion hubToSpokeFunc) (typed_conversion spokeToHubFunc).

(** * What is registered *)

Definition GroupName : string := "vmoperator.vmware.com".
Definition hub_GroupVersion : GroupVersion := mkGroupVersion GroupName "hub".
(** The group and version of a package of VM Operator. *)
Definition version_GroupVersion (version : string) : GroupVersion := mkGroupVersion GroupName version.

(** [objectTypes], to which every file appends its types. *)
Definition hub_list (kind : string) : Obj := ListOf hub_path kind [].
Definition objectTypes : list Obj := [
  hub_VirtualMachine vmophub.zero_VirtualMachine; hub_list "VirtualMachine";
  hub_VirtualMachineClass vmophub.zero_VirtualMachineClass; hub_list "VirtualMachineClass";
  hub_VirtualMachineGroup vmophub.zero_VirtualMachineGroup; hub_list "VirtualMachineGroup";
  hub_VirtualMachineImage vmophub.zero_VirtualMachineImage; hub_list "VirtualMachineImage";
  hub_ClusterVirtualMachineImage vmophub.zero_ClusterVirtualMachineImage; hub_list "ClusterVirtualMachineImage";
  hub_VirtualMachineService vmophub.zero_VirtualMachineService; hub_list "VirtualMachineService";
  hub_VirtualMachineSetResourcePolicy vmophub.zero_VirtualMachineSetResourcePolicy; hub_list "VirtualMachineSetResourcePolicy"
].
Definition addConvertibleTypes : Adder := λ p s, (p, AddHubTypes hub_GroupVersion objectTypes s).
Definition hub_converterBuilder : ConverterBuilder := NewConverterBuilder hub_GroupVersion [addConvertibleTypes].

(** The package [v1alpha2]: every [init] function appends to the builder. *)
Definition v1alpha2_converterBuilder : ConverterBuilder :=
  builder_AddConversion (NewAddConversionBuilder convert_hub_VirtualMachineSetResourcePolicy_To_v1alpha2_VirtualMachineSetResourcePolicy convert_v1alpha2_VirtualMachineSetResourcePolicy_To_hub_VirtualMachineSetResourcePolicy) (
  builder_AddConversion (NewAddConversionBuilder convert_hub_VirtualMachineService_To_v1alpha2_VirtualMachineService convert_v1alpha2_VirtualMachineService_To_hub_VirtualMachineService) (
  builder_AddConversion (NewAddConversionBuilder convert_hub_ClusterVirtualMachineImage_To_v1alpha2_ClusterVirtualMachineImage convert_v1alpha2_ClusterVirtualMachineImage_To_hub_ClusterVirtualMachineImage) (
  builder_AddConversion (NewAddConversionBuilder convert_hub_VirtualMachineImage_To_v1alpha2_VirtualMachineImage convert_v1alpha2_VirtualMachineImage_To_hub_VirtualMachineImage) (
  builder_AddConversion (NewAddConversionBuilder convert_hub_VirtualMachineGroup_To_v1alpha2_VirtualMachineGroup convert_v1alpha2_VirtualMachineGroup_To_hub_VirtualMachineGroup) (
  builder_AddConversion (NewAddConversionBuilder convert_hub_VirtualMachineClass_To_v1alpha2_VirtualMachineClass convert_v1alpha2_VirtualMachineClass_To_hub_VirtualMachineClass) (
  builder_AddConversion (NewAddConversionBuilder convert_hub_VirtualMachine_To_v1alpha2_VirtualMachine convert_v1alpha2_VirtualMachine_To_hub_VirtualMachine) (
  NewConverterBuilder (version_GroupVersion "v1alpha2") []))))))).

(** The package [v1alpha5]: every [init] function appends to the builder. *)
Definition v1alpha5_converterBuilder : ConverterBuilder :=
  builder_AddConversion (NewAddConversionBuilder convert_hub_VirtualMachineSetResourcePolicy_To_v1alpha5_VirtualMachineSetResourcePolicy convert_v1alpha5_VirtualMachineSetResourcePolicy_To_hub_VirtualMachineSetResourcePolicy) (
  builder_AddConversion (NewAddConversionBuilder convert_hub_VirtualMachineService_To_v1alpha5_VirtualMachineService convert_v1alpha5_VirtualMachineService_To_hub_VirtualMachineService) (
  builder_AddConversion (NewAddConversionBuilder convert_hub_ClusterVirtualMachineImage_To_v1alpha5_ClusterVirtualMachineImage convert_v1alpha5_ClusterVirtualMachineImage_To_hub_ClusterVirtualMachineImage) (
  builder_AddConversion (NewAddConversionBuilder convert_hub_VirtualMachineImage_To_v1alpha5_VirtualMachineImage convert_v1alpha5_VirtualMachineImage_To_hub_VirtualMachineImage) (
  builder_AddConversion (NewAddConversionBuilder convert_hub_VirtualMachineGroup_To_v1alpha5_VirtualMachineGroup convert_v1alpha5_VirtualMachineGroup_To_hub_VirtualMachineGroup) (
  builder_AddConversion (NewAddConversionBuilder convert_hub_VirtualMachineClass_To_v1alpha5_VirtualMachineClass convert_v1alpha5_VirtualMachineClass_To_hub_VirtualMachineClass) (
  builder_AddConversion (NewAddConversionBuilder convert_hub_VirtualMachine_To_v1alpha5_VirtualMachine convert_v1alpha5_VirtualMachine_To_hub_VirtualMachine) (
  NewConverterBuilder (version_GroupVersion "v1alpha5") []))))))).

(** The package [v1alpha6]: every [init] function appends to the builder. *)
Definition v1alpha6_converterBuilder : ConverterBuilder :=
  builder_AddConversion (NewAddConversionBuilder convert_hub_VirtualMachineSetResourcePolicy_To_v1alpha6_VirtualMachineSetResourcePolicy convert_v1alpha6_VirtualMachineSetResourcePolicy_To_hub_VirtualMachineSetResourcePolicy) (
  builder_AddConversion (NewAddConversionBuilder convert_hub_VirtualMachineService_To_v1alpha6_VirtualMachineService convert_v1alpha6_VirtualMachineService_To_hub_VirtualMachineService) (
  builder_AddConversion (NewAddConversionBuilder convert_hub_ClusterVirtualMachineImage_To_v1alpha6_ClusterVirtualMachineImage convert_v1alpha6_ClusterVirtualMachineImage_To_hub_ClusterVirtualMachineImage) (
  builder_AddConversion (NewAddConversionBuilder convert_hub_VirtualMachineImage_To_v1alpha6_VirtualMachineImage convert_v1alpha6_VirtualMachineImage_To_hub_VirtualMachineImage) (
  builder_AddConversion (NewAddConversionBuilder convert_hub_VirtualMachineGroup_To_v1alpha6_VirtualMachineGroup convert_v1alpha6_VirtualMachineGroup_To_hub_VirtualMachineGroup) (
  builder_AddConversion (NewAddConversionBuilder convert_hub_VirtualMachineClass_To_v1alpha6_VirtualMachineClass convert_v1alpha6_VirtualMachineClass_To_hub_VirtualMachineClass) (
  builder_AddConversion (NewAddConversionBuilder convert_hub_VirtualMachine_To_v1alpha6_VirtualMachine convert_v1alpha6_VirtualMachine_To_hub_VirtualMachine) (
  NewConverterBuilder (version_GroupVersion "v1alpha6") []))))))).

(** * The default converter *)

(** The first target version of the group. *)
Fixpoint target_version (targetVersions : list GroupVersion) (group : string) : res string :=
  match targetVersions with
  | [] => Err (ENew (sprintf "target version for %s is not configured" [AS group]))
  | gv :: targetVersions => if String.eqb (v_Group gv) group then Ok (v_Version gv) else target_version targetVersions group
  end.

(** [utilruntime.Must] panics. *)
Definition Must (f : Adder) (p : Z) (s : Converter) : res (Z * Converter) :=
  match f p s with
  | (p, (s, None)) => Ok (p, s)
  | (_, (_, Some _)) => Stop Panics
  end.

Definition DefaultConverterFor (targetVersions : list GroupVersion) : res Converter :=
  let converter := NewConverter (λ group _, target_version targetVersions group) in
  '(p, converter) ← Must (AddToConverter hub_converterBuilder) 0 converter;
  '(p, converter) ← Must (AddToConverter v1alpha2_converterBuilder) p converter;
  '(p, converter) ← Must (AddToConverter v1alpha5_converterBuilder) p converter;
  '(_, converter) ← Must (AddToConverter v1alpha6_converterBuilder) p converter;
  Ok converter.

(** * What it knows

    The tables do not depend on the target versions. *)
Definition default_tables : Converter :=
  match DefaultConverterFor [] with Ok s => s | _ => NewConverter (λ group _, target_version [] group) end.
Definition default_converter (targetVersions : list GroupVersion) : Converter :=
  mkConverter (gvkToType default_tables) (typeToGVK default_tables) (gvkHubTypes default_tables) (conversionFuncs default_tables)
    (λ group _, target_version targetVersions group).

(** Adding things does not look at the target versions. *)
Definition with_selector (sel : string -> string -> res string) (s : Converter) : Converter :=
  mkConverter (gvkToType s) (typeToGVK s) (gvkHubTypes s) (conversionFuncs s) sel.
Definition on_converter (sel : string -> string -> res string) (r : Converter * option error) : Converter * option error :=
  (with_selector sel r.1, r.2).

Lemma on_check sel err s k k' : k' = on_converter sel k -> check err (with_selector sel s) k' = on_converter sel (check err s k).
Proof. intros ->. by destruct err. Qed.

Lemma on_add_hub_types sel gv types s : add_hub_types gv types (with_selector sel s) = on_converter sel (add_hub_types gv types s).
Proof.
  revert s. induction types as [|o types IH]; intros s; [done|]. cbn [add_hub_types].
  replace (add_hub_type gv o (with_selector sel s)) with (on_converter sel (add_hub_type gv o s)).
  - destruct (add_hub_type gv o s) as [s' [e|]]; [done|apply IH].
  - unfold add_hub_type. destruct (objType o); [|done..]. symmetry. do 3 (apply on_check). done.
Qed.
Lemma on_AddHubTypes sel gv types s : AddHubTypes gv types (with_selector sel s) = on_converter sel (AddHubTypes gv types s).
Proof. unfold AddHubTypes. repeat case_match; try done. apply on_add_hub_types. Qed.

Lemma on_AddConversion sel hub v spoke f g s : AddConversion hub v spoke f g (with_selector sel s) = on_converter sel (AddConversion hub v spoke f g s).
Proof.
  unfold AddConversion. change (GroupVersionKindFor hub (with_selector sel s)) with (GroupVersionKindFor hub s).
  destruct (GroupVersionKindFor hub s); [|done..]. case_match; [done|]. destruct (objType spoke); [|done..]. cbn zeta.
  do 4 (case_match; [done|]). 
  destruct s as [a1 a2 a3 a4 a5]. unfold register, check, other_type, other_gvk, other_func, conversion_func, set_type, set_func, with_selector, on_converter.
  cbn [gvkToType typeToGVK gvkHubTypes conversionFuncs targetVersionSelector fst snd]. repeat (case_match; try done).
Qed.

(** A function that adds things. *)
Definition blind (f : Adder) : Prop := forall sel p s, f p (with_selector sel s) = ((f p s).1, on_converter sel (f p s).2).

Lemma blind_add_funcs fs : Forall blind fs -> blind (add_funcs fs).
Proof.
  induction 1 as [|f fs Hf _ IH]; intros sel p s; [done|]. cbn [add_funcs]. rewrite Hf. destruct (f p s) as [p' [s' [e|]]]; [done|apply IH].
Qed.
Lemma blind_types gv types : blind (λ p s, (p, AddHubTypes gv types s)).
Proof. intros sel p s. cbn. by rewrite on_AddHubTypes. Qed.
Lemma blind_Build v c : blind (Build v c).
Proof. intros sel p s. unfold Build. by rewrite on_AddConversion. Qed.
Lemma blind_Must f sel p s : blind f -> Must f p (with_selector sel s) = '(p, s) ← Must f p s; Ok (p, with_selector sel s).
Proof. intros Hf. unfold Must. rewrite Hf. destruct (f p s) as [p' [s' [e|]]]; done. Qed.

Ltac blind_builder := apply blind_add_funcs; repeat constructor; first [apply blind_Build|apply blind_types].
Lemma blind_hub : blind (AddToConverter hub_converterBuilder).
Proof. blind_builder. Qed.
Lemma blind_v1alpha2 : blind (AddToConverter v1alpha2_converterBuilder).
Proof. blind_builder. Qed.
Lemma blind_v1alpha5 : blind (AddToConverter v1alpha5_converterBuilder).
Proof. blind_builder. Qed.
Lemma blind_v1alpha6 : blind (AddToConverter v1alpha6_converterBuilder).
Proof. blind_builder. Qed.

(** There is always a default converter. *)
Lemma default_tables_ok : match DefaultConverterFor [] with Ok _ => True | _ => False end.
Proof. by vm_compute. Qed.
Lemma DefaultConverterFor_eq tv : DefaultConverterFor tv = Ok (default_converter tv).
Proof.
  pose proof default_tables_ok as Hok. unfold default_converter, default_tables. unfold DefaultConverterFor in *.
  change (NewConverter (λ group _, target_version tv group)) with (with_selector (λ group _, target_version tv group) (NewConverter (λ group _, target_version [] group))).
  rewrite blind_Must by apply blind_hub. destruct (Must (AddToConverter hub_converterBuilder) _ _) as [[p1 s1]| |]; [|done..]. cbn [mbind res_mbind res_bind] in *.
  rewrite blind_Must by apply blind_v1alpha2. destruct (Must (AddToConverter v1alpha2_converterBuilder) _ _) as [[p2 s2]| |]; [|done..]. cbn [mbind res_mbind res_bind] in *.
  rewrite blind_Must by apply blind_v1alpha5. destruct (Must (AddToConverter v1alpha5_converterBuilder) _ _) as [[p3 s3]| |]; [|done..]. cbn [mbind res_mbind res_bind] in *.
  rewrite blind_Must by apply blind_v1alpha6. by destruct (Must (AddToConverter v1alpha6_converterBuilder) _ _) as [[p4 s4]| |].
Qed.

(** ** Conversions of its objects *)

Definition gvk_of (version kind : string) : GroupVersionKind := mkGroupVersionKind GroupName version kind.

(** Functions that add things build converters. *)
Definition builds (sel : string -> string -> res string) (f : Adder) : Prop := forall p s, built sel s -> built sel (f p s).2.1.
Lemma builds_add_funcs sel fs : Forall (builds sel) fs -> builds sel (add_funcs fs).
Proof. intros Hfs p s Hs. apply add_funcs_built; [|done]. intros f p' s' Hf. by apply (proj1 (Forall_forall _ _) Hfs f Hf). Qed.
Lemma builds_types sel gv types : builds sel (λ p s, (p, AddHubTypes gv types s)).
Proof. intros p s. apply built_types. Qed.
Lemma builds_Build sel v c : builds sel (Build v c).
Proof. intros p s. apply built_conversion. Qed.
Lemma Must_builds {A} sel f p s (k : Z * Converter -> res A) c : builds sel f -> built sel s -> (x ← Must f p s; k x) = Ok c ->
  exists p' s', built sel s' /\ k (p', s') = Ok c.
Proof.
  intros Hf Hs. specialize (Hf p s Hs). unfold Must. destruct (f p s) as [p1 [s1 [e|]]]; [done|]. cbn. eauto.
Qed.
Ltac builds_builder := apply builds_add_funcs; repeat apply Forall_cons_2; [first [apply builds_Build|apply builds_types]..|apply Forall_nil_2].
Lemma builds_hub sel : builds sel (AddToConverter hub_converterBuilder).
Proof. builds_builder. Qed.
Lemma builds_v1alpha2 sel : builds sel (AddToConverter v1alpha2_converterBuilder).
Proof. builds_builder. Qed.
Lemma builds_v1alpha5 sel : builds sel (AddToConverter v1alpha5_converterBuilder).
Proof. builds_builder. Qed.
Lemma builds_v1alpha6 sel : builds sel (AddToConverter v1alpha6_converterBuilder).
Proof. builds_builder. Qed.

Lemma default_built tv s : DefaultConverterFor tv = Ok s -> built (λ group _, target_version tv group) s.
Proof.
  intros E. unfold DefaultConverterFor in E. cbv zeta in E.
  apply Must_builds with (1 := builds_hub _) (2 := built_new _) in E as (p1 & s1 & H1 & E).
  apply Must_builds with (1 := builds_v1alpha2 _) (2 := H1) in E as (p2 & s2 & H2 & E).
  apply Must_builds with (1 := builds_v1alpha5 _) (2 := H2) in E as (p3 & s3 & H3 & E).
  apply Must_builds with (1 := builds_v1alpha6 _) (2 := H3) in E as (p4 & s4 & H4 & E). by injection E as <-.
Qed.

(** The functions of a kind and a version are registered both ways. *)
Definition registered {H S} `{!IsObj H, !IsObj S} (kind version : string) (f : H -> S -> res S) (g : S -> H -> res H) : Prop :=
  typeToGVK default_tables !! go_type (T := H) = Some (gvk_of "hub" kind) /\
  typeToGVK default_tables !! go_type (T := S) = Some (gvk_of version kind) /\
  hub_type default_tables (gvk_of "hub" kind) = true /\ hub_type default_tables (gvk_of version kind) = false /\
  is_Convertible (go_type (T := H)) = true /\
  (exists p, conversion_func default_tables (gvk_of "hub" kind) (gvk_of version kind) = Some (mkConvertFunc p (typed_conversion f))) /\
  (exists p, conversion_func default_tables (gvk_of version kind) (gvk_of "hub" kind) = Some (mkConvertFunc p (typed_conversion g))).
Ltac is_registered p q := split_and!; [vm_compute; reflexivity..| |];
  [exists p; match goal with |- _ = ?r => vm_cast_no_check (eq_refl r) end|exists q; match goal with |- _ = ?r => vm_cast_no_check (eq_refl r) end].
Lemma registered_v1alpha2_VirtualMachine : registered "VirtualMachine" "v1alpha2" convert_hub_VirtualMachine_To_v1alpha2_VirtualMachine convert_v1alpha2_VirtualMachine_To_hub_VirtualMachine.
Proof. is_registered 0 1. Qed.
Lemma registered_v1alpha2_VirtualMachineClass : registered "VirtualMachineClass" "v1alpha2" convert_hub_VirtualMachineClass_To_v1alpha2_VirtualMachineClass convert_v1alpha2_VirtualMachineClass_To_hub_VirtualMachineClass.
Proof. is_registered 2 3. Qed.
Lemma registered_v1alpha2_VirtualMachineGroup : registered "VirtualMachineGroup" "v1alpha2" convert_hub_VirtualMachineGroup_To_v1alpha2_VirtualMachineGroup convert_v1alpha2_VirtualMachineGroup_To_hub_VirtualMachineGroup.
Proof. is_registered 4 5. Qed.
Lemma registered_v1alpha2_VirtualMachineImage : registered "VirtualMachineImage" "v1alpha2" convert_hub_VirtualMachineImage_To_v1alpha2_VirtualMachineImage convert_v1alpha2_VirtualMachineImage_To_hub_VirtualMachineImage.
Proof. is_registered 6 7. Qed.
Lemma registered_v1alpha2_ClusterVirtualMachineImage : registered "ClusterVirtualMachineImage" "v1alpha2" convert_hub_ClusterVirtualMachineImage_To_v1alpha2_ClusterVirtualMachineImage convert_v1alpha2_ClusterVirtualMachineImage_To_hub_ClusterVirtualMachineImage.
Proof. is_registered 8 9. Qed.
Lemma registered_v1alpha2_VirtualMachineService : registered "VirtualMachineService" "v1alpha2" convert_hub_VirtualMachineService_To_v1alpha2_VirtualMachineService convert_v1alpha2_VirtualMachineService_To_hub_VirtualMachineService.
Proof. is_registered 10 11. Qed.
Lemma registered_v1alpha2_VirtualMachineSetResourcePolicy : registered "VirtualMachineSetResourcePolicy" "v1alpha2" convert_hub_VirtualMachineSetResourcePolicy_To_v1alpha2_VirtualMachineSetResourcePolicy convert_v1alpha2_VirtualMachineSetResourcePolicy_To_hub_VirtualMachineSetResourcePolicy.
Proof. is_registered 12 13. Qed.
Lemma registered_v1alpha5_VirtualMachine : registered "VirtualMachine" "v1alpha5" convert_hub_VirtualMachine_To_v1alpha5_VirtualMachine convert_v1alpha5_VirtualMachine_To_hub_VirtualMachine.
Proof. is_registered 14 15. Qed.
Lemma registered_v1alpha5_VirtualMachineClass : registered "VirtualMachineClass" "v1alpha5" convert_hub_VirtualMachineClass_To_v1alpha5_VirtualMachineClass convert_v1alpha5_VirtualMachineClass_To_hub_VirtualMachineClass.
Proof. is_registered 16 17. Qed.
Lemma registered_v1alpha5_VirtualMachineGroup : registered "VirtualMachineGroup" "v1alpha5" convert_hub_VirtualMachineGroup_To_v1alpha5_VirtualMachineGroup convert_v1alpha5_VirtualMachineGroup_To_hub_VirtualMachineGroup.
Proof. is_registered 18 19. Qed.
Lemma registered_v1alpha5_VirtualMachineImage : registered "VirtualMachineImage" "v1alpha5" convert_hub_VirtualMachineImage_To_v1alpha5_VirtualMachineImage convert_v1alpha5_VirtualMachineImage_To_hub_VirtualMachineImage.
Proof. is_registered 20 21. Qed.
Lemma registered_v1alpha5_ClusterVirtualMachineImage : registered "ClusterVirtualMachineImage" "v1alpha5" convert_hub_ClusterVirtualMachineImage_To_v1alpha5_ClusterVirtualMachineImage convert_v1alpha5_ClusterVirtualMachineImage_To_hub_ClusterVirtualMachineImage.
Proof. is_registered 22 23. Qed.
Lemma registered_v1alpha5_VirtualMachineService : registered "VirtualMachineService" "v1alpha5" convert_hub_VirtualMachineService_To_v1alpha5_VirtualMachineService convert_v1alpha5_VirtualMachineService_To_hub_VirtualMachineService.
Proof. is_registered 24 25. Qed.
Lemma registered_v1alpha5_VirtualMachineSetResourcePolicy : registered "VirtualMachineSetResourcePolicy" "v1alpha5" convert_hub_VirtualMachineSetResourcePolicy_To_v1alpha5_VirtualMachineSetResourcePolicy convert_v1alpha5_VirtualMachineSetResourcePolicy_To_hub_VirtualMachineSetResourcePolicy.
Proof. is_registered 26 27. Qed.
Lemma registered_v1alpha6_VirtualMachine : registered "VirtualMachine" "v1alpha6" convert_hub_VirtualMachine_To_v1alpha6_VirtualMachine convert_v1alpha6_VirtualMachine_To_hub_VirtualMachine.
Proof. is_registered 28 29. Qed.
Lemma registered_v1alpha6_VirtualMachineClass : registered "VirtualMachineClass" "v1alpha6" convert_hub_VirtualMachineClass_To_v1alpha6_VirtualMachineClass convert_v1alpha6_VirtualMachineClass_To_hub_VirtualMachineClass.
Proof. is_registered 30 31. Qed.
Lemma registered_v1alpha6_VirtualMachineGroup : registered "VirtualMachineGroup" "v1alpha6" convert_hub_VirtualMachineGroup_To_v1alpha6_VirtualMachineGroup convert_v1alpha6_VirtualMachineGroup_To_hub_VirtualMachineGroup.
Proof. is_registered 32 33. Qed.
Lemma registered_v1alpha6_VirtualMachineImage : registered "VirtualMachineImage" "v1alpha6" convert_hub_VirtualMachineImage_To_v1alpha6_VirtualMachineImage convert_v1alpha6_VirtualMachineImage_To_hub_VirtualMachineImage.
Proof. is_registered 34 35. Qed.
Lemma registered_v1alpha6_ClusterVirtualMachineImage : registered "ClusterVirtualMachineImage" "v1alpha6" convert_hub_ClusterVirtualMachineImage_To_v1alpha6_ClusterVirtualMachineImage convert_v1alpha6_ClusterVirtualMachineImage_To_hub_ClusterVirtualMachineImage.
Proof. is_registered 36 37. Qed.
Lemma registered_v1alpha6_VirtualMachineService : registered "VirtualMachineService" "v1alpha6" convert_hub_VirtualMachineService_To_v1alpha6_VirtualMachineService convert_v1alpha6_VirtualMachineService_To_hub_VirtualMachineService.
Proof. is_registered 38 39. Qed.
Lemma registered_v1alpha6_VirtualMachineSetResourcePolicy : registered "VirtualMachineSetResourcePolicy" "v1alpha6" convert_hub_VirtualMachineSetResourcePolicy_To_v1alpha6_VirtualMachineSetResourcePolicy convert_v1alpha6_VirtualMachineSetResourcePolicy_To_hub_VirtualMachineSetResourcePolicy.
Proof. is_registered 40 41. Qed.

Lemma registered_lists kind : kind ∈ kinds -> typeToGVK default_tables !! mkGoType hub_path (kind +:+ "List") = Some (gvk_of "hub" (kind +:+ "List")).
Proof.
  intros Hk%list_elem_of_In. unfold kinds in Hk. cbn [In] in Hk. destruct_or!; try contradiction; subst; vm_compute; reflexivity.
Qed.
(** The tables of a default converter. *)
Lemma hub_type_default tv gvk : hub_type (default_converter tv) gvk = hub_type default_tables gvk.
Proof. unfold hub_type, default_converter. cbn [gvkHubTypes]. reflexivity. Qed.
Lemma conversion_func_default tv a b : conversion_func (default_converter tv) a b = conversion_func default_tables a b.
Proof. unfold conversion_func, default_converter. cbn [conversionFuncs]. reflexivity. Qed.
Lemma source_of_default tv (o : Obj) gvk : source_of o gvk (default_converter tv) = source_of o gvk default_tables.
Proof. unfold source_of. by rewrite hub_type_default. Qed.
#[global] Opaque default_tables.

Lemma typed_gvk {T} `{!IsObj T} tv (x : T) gvk : typeToGVK default_tables !! go_type (T := T) = Some gvk -> GroupVersionKindFor (inj_obj x) (default_converter tv) = Ok gvk.
Proof. intros E. apply GroupVersionKindFor_inv. exists go_type. split; [apply shape_inj|done]. Qed.
Lemma run_typed_ok {A B} `{!IsObj A, !IsObj B} (f : A -> B -> res B) x y y' : f x y = Ok y' -> run_typed f (inj_obj x) (inj_obj y) = (inj_obj y', Ok tt).
Proof. intros E. unfold run_typed. by rewrite !as_type_inj, E. Qed.

Section kind.
Context {H S : Type} `{!IsObj H, !IsObj S} (kind version : string) (f : H -> S -> res S) (g : S -> H -> res H).
Context (R : registered kind version f g) (tv : list GroupVersion).

(** An object of the version is converted into a hub object, which then has its version. *)
Lemma to_hub x h0 h : g x h0 = Ok h ->
  Convert (inj_obj x) (inj_obj h0) (default_converter tv) = (SetSource (GroupVersion_String (version_GroupVersion version)) (inj_obj h), Ok tt).
Proof.
  destruct R as (Eh & Es & Hh & Hs & Hc & _ & p & Hp). intros E. apply Convert_ok.
  exists (gvk_of version kind), (gvk_of "hub" kind), (mkConvertFunc p (typed_conversion g)), (inj_obj h).
  split_and!; [by apply typed_gvk|by apply typed_gvk|by rewrite conversion_func_default| |by apply run_typed_ok|].
  - exists "". split; [|by left]. rewrite source_of_default. unfold source_of. by rewrite Hs.
  - rewrite hub_type_default. rewrite Hh. split; [|done]. exists (go_type (T := H)). split; [apply shape_inj|done].
Qed.

(** And a hub object of that version, or of none, is converted to the version. *)
Lemma from_hub h s0 s : f h s0 = Ok s -> GetSource (inj_obj h) = "" \/ GetSource (inj_obj h) = GroupVersion_String (version_GroupVersion version) ->
  Convert (inj_obj h) (inj_obj s0) (default_converter tv) = (inj_obj s, Ok tt).
Proof.
  destruct R as (Eh & Es & Hh & Hs & Hc & (p & Hp) & _). intros E Hsrc. apply Convert_ok.
  exists (gvk_of "hub" kind), (gvk_of version kind), (mkConvertFunc p (typed_conversion f)), (inj_obj s).
  split_and!; [by apply typed_gvk|by apply typed_gvk|by rewrite conversion_func_default| |by apply run_typed_ok|].
  - exists (GetSource (inj_obj h)). split; [|done]. rewrite source_of_default. unfold source_of. rewrite Hh.
    assert (Hh' : objType (inj_obj h) = Ok (go_type (T := H))) by (apply objType_inv, shape_inj). rewrite Hh'. cbn [Convertible Objects_Obj]. by rewrite Hc.
  - rewrite hub_type_default. by rewrite Hs.
Qed.

Lemma typed_IsHub (h : H) : IsHub (inj_obj h) (default_converter tv) = true.
Proof.
  destruct R as (Eh & _ & Hh & _). unfold IsHub. rewrite (typed_gvk (T := H) tv h _ Eh), hub_type_default. exact Hh.
Qed.

Lemma there_and_back (set : string -> H -> H) h0 s0 x x' :
  (forall source h, SetSource source (inj_obj h) = inj_obj (set source h)) ->
  (forall source h, GetSource (inj_obj (set source h)) = source) ->
  (forall source, exists h, g x h0 = Ok h /\ f (set source h) s0 = Ok x') ->
  exists hub, Convert (inj_obj x) (inj_obj h0) (default_converter tv) = (hub, Ok tt) /\ IsHub hub (default_converter tv) = true /\
    Convert hub (inj_obj s0) (default_converter tv) = (inj_obj x', Ok tt).
Proof.
  intros Hset Hget Hx. destruct (Hx (GroupVersion_String (version_GroupVersion version))) as (h & E1 & E2).
  eexists. split; [by apply to_hub|]. rewrite Hset. split; [apply typed_IsHub|]. apply from_hub; [done|]. right. apply Hget.
Qed.

Lemma hub_and_back h0 s0 x y x' : f x s0 = Ok y -> g y h0 = Ok x' -> GetSource (inj_obj x) = "" ->
  exists spoke, Convert (inj_obj x) (inj_obj s0) (default_converter tv) = (spoke, Ok tt) /\ IsHub spoke (default_converter tv) = false /\
    Convert spoke (inj_obj h0) (default_converter tv) = (SetSource (GroupVersion_String (version_GroupVersion version)) (inj_obj x'), Ok tt).
Proof.
  intros E1 E2 Hs. eexists. split; [apply from_hub; [exact E1|by left]|]. split; [|by apply to_hub].
  destruct R as (_ & Es & _ & Hh & _). unfold IsHub. rewrite (typed_gvk (T := S) tv y _ Es), hub_type_default. exact Hh.
Qed.
End kind.

(** ** Whole objects *)

(** A new hub object of the kind, and a new object of the same type. *)
Definition new_hub (o : Obj) : Obj :=
  match o with
  | v1alpha2_VirtualMachine _ => hub_VirtualMachine vmophub.zero_VirtualMachine
  | v1alpha2_VirtualMachineClass _ => hub_VirtualMachineClass vmophub.zero_VirtualMachineClass
  | v1alpha2_VirtualMachineGroup _ => hub_VirtualMachineGroup vmophub.zero_VirtualMachineGroup
  | v1alpha2_VirtualMachineImage _ => hub_VirtualMachineImage vmophub.zero_VirtualMachineImage
  | v1alpha2_ClusterVirtualMachineImage _ => hub_ClusterVirtualMachineImage vmophub.zero_ClusterVirtualMachineImage
  | v1alpha2_VirtualMachineService _ => hub_VirtualMachineService vmophub.zero_VirtualMachineService
  | v1alpha2_VirtualMachineSetResourcePolicy _ => hub_VirtualMachineSetResourcePolicy vmophub.zero_VirtualMachineSetResourcePolicy
  | v1alpha5_VirtualMachine _ => hub_VirtualMachine vmophub.zero_VirtualMachine
  | v1alpha5_VirtualMachineClass _ => hub_VirtualMachineClass vmophub.zero_VirtualMachineClass
  | v1alpha5_VirtualMachineGroup _ => hub_VirtualMachineGroup vmophub.zero_VirtualMachineGroup
  | v1alpha5_VirtualMachineImage _ => hub_VirtualMachineImage vmophub.zero_VirtualMachineImage
  | v1alpha5_ClusterVirtualMachineImage _ => hub_ClusterVirtualMachineImage vmophub.zero_ClusterVirtualMachineImage
  | v1alpha5_VirtualMachineService _ => hub_VirtualMachineService vmophub.zero_VirtualMachineService
  | v1alpha5_VirtualMachineSetResourcePolicy _ => hub_VirtualMachineSetResourcePolicy vmophub.zero_VirtualMachineSetResourcePolicy
  | v1alpha6_VirtualMachine _ => hub_VirtualMachine vmophub.zero_VirtualMachine
  | v1alpha6_VirtualMachineClass _ => hub_VirtualMachineClass vmophub.zero_VirtualMachineClass
  | v1alpha6_VirtualMachineGroup _ => hub_VirtualMachineGroup vmophub.zero_VirtualMachineGroup
  | v1alpha6_VirtualMachineImage _ => hub_VirtualMachineImage vmophub.zero_VirtualMachineImage
  | v1alpha6_ClusterVirtualMachineImage _ => hub_ClusterVirtualMachineImage vmophub.zero_ClusterVirtualMachineImage
  | v1alpha6_VirtualMachineService _ => hub_VirtualMachineService vmophub.zero_VirtualMachineService
  | v1alpha6_VirtualMachineSetResourcePolicy _ => hub_VirtualMachineSetResourcePolicy vmophub.zero_VirtualMachineSetResourcePolicy
  | o => o
  end.
Definition new_same (o : Obj) : Obj :=
  match o with
  | hub_VirtualMachine _ => hub_VirtualMachine vmophub.zero_VirtualMachine
  | hub_VirtualMachineClass _ => hub_VirtualMachineClass vmophub.zero_VirtualMachineClass
  | hub_VirtualMachineGroup _ => hub_VirtualMachineGroup vmophub.zero_VirtualMachineGroup
  | hub_VirtualMachineImage _ => hub_VirtualMachineImage vmophub.zero_VirtualMachineImage
  | hub_ClusterVirtualMachineImage _ => hub_ClusterVirtualMachineImage vmophub.zero_ClusterVirtualMachineImage
  | hub_VirtualMachineService _ => hub_VirtualMachineService vmophub.zero_VirtualMachineService
  | hub_VirtualMachineSetResourcePolicy _ => hub_VirtualMachineSetResourcePolicy vmophub.zero_VirtualMachineSetResourcePolicy
  | v1alpha2_VirtualMachine _ => v1alpha2_VirtualMachine vmoprv1alpha2.zero_VirtualMachine
  | v1alpha2_VirtualMachineClass _ => v1alpha2_VirtualMachineClass vmoprv1alpha2.zero_VirtualMachineClass
  | v1alpha2_VirtualMachineGroup _ => v1alpha2_VirtualMachineGroup vmoprv1alpha2.zero_VirtualMachineGroup
  | v1alpha2_VirtualMachineImage _ => v1alpha2_VirtualMachineImage vmoprv1alpha2.zero_VirtualMachineImage
  | v1alpha2_ClusterVirtualMachineImage _ => v1alpha2_ClusterVirtualMachineImage vmoprv1alpha2.zero_ClusterVirtualMachineImage
  | v1alpha2_VirtualMachineService _ => v1alpha2_VirtualMachineService vmoprv1alpha2.zero_VirtualMachineService
  | v1alpha2_VirtualMachineSetResourcePolicy _ => v1alpha2_VirtualMachineSetResourcePolicy vmoprv1alpha2.zero_VirtualMachineSetResourcePolicy
  | v1alpha5_VirtualMachine _ => v1alpha5_VirtualMachine vmoprv1alpha5.zero_VirtualMachine
  | v1alpha5_VirtualMachineClass _ => v1alpha5_VirtualMachineClass vmoprv1alpha5.zero_VirtualMachineClass
  | v1alpha5_VirtualMachineGroup _ => v1alpha5_VirtualMachineGroup vmoprv1alpha5.zero_VirtualMachineGroup
  | v1alpha5_VirtualMachineImage _ => v1alpha5_VirtualMachineImage vmoprv1alpha5.zero_VirtualMachineImage
  | v1alpha5_ClusterVirtualMachineImage _ => v1alpha5_ClusterVirtualMachineImage vmoprv1alpha5.zero_ClusterVirtualMachineImage
  | v1alpha5_VirtualMachineService _ => v1alpha5_VirtualMachineService vmoprv1alpha5.zero_VirtualMachineService
  | v1alpha5_VirtualMachineSetResourcePolicy _ => v1alpha5_VirtualMachineSetResourcePolicy vmoprv1alpha5.zero_VirtualMachineSetResourcePolicy
  | v1alpha6_VirtualMachine _ => v1alpha6_VirtualMachine vmoprv1alpha6.zero_VirtualMachine
  | v1alpha6_VirtualMachineClass _ => v1alpha6_VirtualMachineClass vmoprv1alpha6.zero_VirtualMachineClass
  | v1alpha6_VirtualMachineGroup _ => v1alpha6_VirtualMachineGroup vmoprv1alpha6.zero_VirtualMachineGroup
  | v1alpha6_VirtualMachineImage _ => v1alpha6_VirtualMachineImage vmoprv1alpha6.zero_VirtualMachineImage
  | v1alpha6_ClusterVirtualMachineImage _ => v1alpha6_ClusterVirtualMachineImage vmoprv1alpha6.zero_ClusterVirtualMachineImage
  | v1alpha6_VirtualMachineService _ => v1alpha6_VirtualMachineService vmoprv1alpha6.zero_VirtualMachineService
  | v1alpha6_VirtualMachineSetResourcePolicy _ => v1alpha6_VirtualMachineSetResourcePolicy vmoprv1alpha6.zero_VirtualMachineSetResourcePolicy
  | o => o
  end.
(** The objects of the versions of the API server. *)
Definition of_version (o : Obj) : bool :=
  match o with
  | hub_VirtualMachine _
  | hub_VirtualMachineClass _
  | hub_VirtualMachineGroup _
  | hub_VirtualMachineImage _
  | hub_ClusterVirtualMachineImage _
  | hub_VirtualMachineService _
  | hub_VirtualMachineSetResourcePolicy _
  | ListOf _ _ _ => false
  | _ => true
  end.
(** Slices that are appended to: an empty one becomes nil. *)
Definition tidy (o : Obj) : Obj :=
  match o with
  | v1alpha6_VirtualMachine x => v1alpha6_VirtualMachine (tidy_v1alpha6_VirtualMachine x)
  | hub_VirtualMachine x => hub_VirtualMachine (tidy_hub_VirtualMachine x)
  | o => o
  end.

(** An object goes to the hub version and back. *)
Definition hub_and_back_ok (c : Converter) (o : Obj) : Prop :=
  exists hub, Convert o (new_hub o) c = (hub, Ok tt) /\ IsHub hub c = true /\ Convert hub (new_same o) c = (tidy o, Ok tt).

Lemma version_and_back tv o : of_version o = true -> hub_and_back_ok (default_converter tv) o.
Proof.
  case o; [intros x Ho..|intros path kind items Ho]; try discriminate Ho; clear Ho; unfold hub_and_back_ok; cbn [new_hub new_same tidy].
  - apply (there_and_back "VirtualMachine" "v1alpha2" _ _ registered_v1alpha2_VirtualMachine tv vmophub.VirtualMachine_SetSource); [done|done|intros s; apply VirtualMachine_v1alpha2_hub_back].
  - apply (there_and_back "VirtualMachineClass" "v1alpha2" _ _ registered_v1alpha2_VirtualMachineClass tv vmophub.VirtualMachineClass_SetSource); [done|done|intros s; apply VirtualMachineClass_v1alpha2_hub_back].
  - apply (there_and_back "VirtualMachineGroup" "v1alpha2" _ _ registered_v1alpha2_VirtualMachineGroup tv vmophub.VirtualMachineGroup_SetSource); [done|done|intros s; apply VirtualMachineGroup_v1alpha2_hub_back].
  - apply (there_and_back "VirtualMachineImage" "v1alpha2" _ _ registered_v1alpha2_VirtualMachineImage tv vmophub.VirtualMachineImage_SetSource); [done|done|intros s; apply VirtualMachineImage_v1alpha2_hub_back].
  - apply (there_and_back "ClusterVirtualMachineImage" "v1alpha2" _ _ registered_v1alpha2_ClusterVirtualMachineImage tv vmophub.ClusterVirtualMachineImage_SetSource); [done|done|intros s; apply ClusterVirtualMachineImage_v1alpha2_hub_back].
  - apply (there_and_back "VirtualMachineService" "v1alpha2" _ _ registered_v1alpha2_VirtualMachineService tv vmophub.VirtualMachineService_SetSource); [done|done|intros s; apply VirtualMachineService_v1alpha2_hub_back].
  - apply (there_and_back "VirtualMachineSetResourcePolicy" "v1alpha2" _ _ registered_v1alpha2_VirtualMachineSetResourcePolicy tv vmophub.VirtualMachineSetResourcePolicy_SetSource); [done|done|intros s; apply VirtualMachineSetResourcePolicy_v1alpha2_hub_back].
  - apply (there_and_back "VirtualMachine" "v1alpha5" _ _ registered_v1alpha5_VirtualMachine tv vmophub.VirtualMachine_SetSource); [done|done|intros s; apply VirtualMachine_v1alpha5_hub_back].
  - apply (there_and_back "VirtualMachineClass" "v1alpha5" _ _ registered_v1alpha5_VirtualMachineClass tv vmophub.VirtualMachineClass_SetSource); [done|done|intros s; apply VirtualMachineClass_v1alpha5_hub_back].
  - apply (there_and_back "VirtualMachineGroup" "v1alpha5" _ _ registered_v1alpha5_VirtualMachineGroup tv vmophub.VirtualMachineGroup_SetSource); [done|done|intros s; apply VirtualMachineGroup_v1alpha5_hub_back].
  - apply (there_and_back "VirtualMachineImage" "v1alpha5" _ _ registered_v1alpha5_VirtualMachineImage tv vmophub.VirtualMachineImage_SetSource); [done|done|intros s; apply VirtualMachineImage_v1alpha5_hub_back].
  - apply (there_and_back "ClusterVirtualMachineImage" "v1alpha5" _ _ registered_v1alpha5_ClusterVirtualMachineImage tv vmophub.ClusterVirtualMachineImage_SetSource); [done|done|intros s; apply ClusterVirtualMachineImage_v1alpha5_hub_back].
  - apply (there_and_back "VirtualMachineService" "v1alpha5" _ _ registered_v1alpha5_VirtualMachineService tv vmophub.VirtualMachineService_SetSource); [done|done|intros s; apply VirtualMachineService_v1alpha5_hub_back].
  - apply (there_and_back "VirtualMachineSetResourcePolicy" "v1alpha5" _ _ registered_v1alpha5_VirtualMachineSetResourcePolicy tv vmophub.VirtualMachineSetResourcePolicy_SetSource); [done|done|intros s; apply VirtualMachineSetResourcePolicy_v1alpha5_hub_back].
  - apply (there_and_back "VirtualMachine" "v1alpha6" _ _ registered_v1alpha6_VirtualMachine tv vmophub.VirtualMachine_SetSource); [done|done|intros s; apply VirtualMachine_v1alpha6_hub_back].
  - apply (there_and_back "VirtualMachineClass" "v1alpha6" _ _ registered_v1alpha6_VirtualMachineClass tv vmophub.VirtualMachineClass_SetSource); [done|done|intros s; apply VirtualMachineClass_v1alpha6_hub_back].
  - apply (there_and_back "VirtualMachineGroup" "v1alpha6" _ _ registered_v1alpha6_VirtualMachineGroup tv vmophub.VirtualMachineGroup_SetSource); [done|done|intros s; apply VirtualMachineGroup_v1alpha6_hub_back].
  - apply (there_and_back "VirtualMachineImage" "v1alpha6" _ _ registered_v1alpha6_VirtualMachineImage tv vmophub.VirtualMachineImage_SetSource); [done|done|intros s; apply VirtualMachineImage_v1alpha6_hub_back].
  - apply (there_and_back "ClusterVirtualMachineImage" "v1alpha6" _ _ registered_v1alpha6_ClusterVirtualMachineImage tv vmophub.ClusterVirtualMachineImage_SetSource); [done|done|intros s; apply ClusterVirtualMachineImage_v1alpha6_hub_back].
  - apply (there_and_back "VirtualMachineService" "v1alpha6" _ _ registered_v1alpha6_VirtualMachineService tv vmophub.VirtualMachineService_SetSource); [done|done|intros s; apply VirtualMachineService_v1alpha6_hub_back].
  - apply (there_and_back "VirtualMachineSetResourcePolicy" "v1alpha6" _ _ registered_v1alpha6_VirtualMachineSetResourcePolicy tv vmophub.VirtualMachineSetResourcePolicy_SetSource); [done|done|intros s; apply VirtualMachineSetResourcePolicy_v1alpha6_hub_back].
Qed.

(** An object that is read in any version VM Operator serves, converted to the hub version and converted back without a change is what was read, except
    that two slices of a v1alpha6 machine that were empty become nil; nothing the conversions know of a version is lost. *)
Theorem nothing_is_lost tv c (Hc : DefaultConverterFor tv = Ok c) o (Ho : of_version o = true) : hub_and_back_ok c o.
Proof. rewrite DefaultConverterFor_eq in Hc. injection Hc as <-. by apply version_and_back. Qed.

(** ** Kinds and target versions *)

(** The version and the kind of an object that is not a list. *)
Definition version_of (o : Obj) : string :=
  match o with
  | hub_VirtualMachine _
  | hub_VirtualMachineClass _
  | hub_VirtualMachineGroup _
  | hub_VirtualMachineImage _
  | hub_ClusterVirtualMachineImage _
  | hub_VirtualMachineService _
  | hub_VirtualMachineSetResourcePolicy _ => "hub"
  | v1alpha2_VirtualMachine _
  | v1alpha2_VirtualMachineClass _
  | v1alpha2_VirtualMachineGroup _
  | v1alpha2_VirtualMachineImage _
  | v1alpha2_ClusterVirtualMachineImage _
  | v1alpha2_VirtualMachineService _
  | v1alpha2_VirtualMachineSetResourcePolicy _ => "v1alpha2"
  | v1alpha5_VirtualMachine _
  | v1alpha5_VirtualMachineClass _
  | v1alpha5_VirtualMachineGroup _
  | v1alpha5_VirtualMachineImage _
  | v1alpha5_ClusterVirtualMachineImage _
  | v1alpha5_VirtualMachineService _
  | v1alpha5_VirtualMachineSetResourcePolicy _ => "v1alpha5"
  | v1alpha6_VirtualMachine _
  | v1alpha6_VirtualMachineClass _
  | v1alpha6_VirtualMachineGroup _
  | v1alpha6_VirtualMachineImage _
  | v1alpha6_ClusterVirtualMachineImage _
  | v1alpha6_VirtualMachineService _
  | v1alpha6_VirtualMachineSetResourcePolicy _ => "v1alpha6"
  | ListOf _ _ _ => ""
  end.
Definition kind_of (o : Obj) : string :=
  match o with
  | hub_VirtualMachine _ | v1alpha2_VirtualMachine _ | v1alpha5_VirtualMachine _ | v1alpha6_VirtualMachine _ => "VirtualMachine"
  | hub_VirtualMachineClass _ | v1alpha2_VirtualMachineClass _ | v1alpha5_VirtualMachineClass _ | v1alpha6_VirtualMachineClass _ => "VirtualMachineClass"
  | hub_VirtualMachineGroup _ | v1alpha2_VirtualMachineGroup _ | v1alpha5_VirtualMachineGroup _ | v1alpha6_VirtualMachineGroup _ => "VirtualMachineGroup"
  | hub_VirtualMachineImage _ | v1alpha2_VirtualMachineImage _ | v1alpha5_VirtualMachineImage _ | v1alpha6_VirtualMachineImage _ => "VirtualMachineImage"
  | hub_ClusterVirtualMachineImage _ | v1alpha2_ClusterVirtualMachineImage _ | v1alpha5_ClusterVirtualMachineImage _ | v1alpha6_ClusterVirtualMachineImage _ => "ClusterVirtualMachineImage"
  | hub_VirtualMachineService _ | v1alpha2_VirtualMachineService _ | v1alpha5_VirtualMachineService _ | v1alpha6_VirtualMachineService _ => "VirtualMachineService"
  | hub_VirtualMachineSetResourcePolicy _ | v1alpha2_VirtualMachineSetResourcePolicy _ | v1alpha5_VirtualMachineSetResourcePolicy _ | v1alpha6_VirtualMachineSetResourcePolicy _ => "VirtualMachineSetResourcePolicy"
  | ListOf _ kind _ => kind +:+ "List"
  end.
Definition list_object (o : Obj) : bool := match o with ListOf _ _ _ => true | _ => false end.

Lemma registered_gvk tv o : list_object o = false -> GroupVersionKindFor o (default_converter tv) = Ok (gvk_of (version_of o) (kind_of o)).
Proof.
  case o; [intros x _; cbn [version_of kind_of]..|discriminate].
  - exact (typed_gvk (T := vmophub.VirtualMachine) tv x _ (proj1 registered_v1alpha6_VirtualMachine)).
  - exact (typed_gvk (T := vmophub.VirtualMachineClass) tv x _ (proj1 registered_v1alpha6_VirtualMachineClass)).
  - exact (typed_gvk (T := vmophub.VirtualMachineGroup) tv x _ (proj1 registered_v1alpha6_VirtualMachineGroup)).
  - exact (typed_gvk (T := vmophub.VirtualMachineImage) tv x _ (proj1 registered_v1alpha6_VirtualMachineImage)).
  - exact (typed_gvk (T := vmophub.ClusterVirtualMachineImage) tv x _ (proj1 registered_v1alpha6_ClusterVirtualMachineImage)).
  - exact (typed_gvk (T := vmophub.VirtualMachineService) tv x _ (proj1 registered_v1alpha6_VirtualMachineService)).
  - exact (typed_gvk (T := vmophub.VirtualMachineSetResourcePolicy) tv x _ (proj1 registered_v1alpha6_VirtualMachineSetResourcePolicy)).
  - exact (typed_gvk (T := vmoprv1alpha2.VirtualMachine) tv x _ (proj1 (proj2 registered_v1alpha2_VirtualMachine))).
  - exact (typed_gvk (T := vmoprv1alpha2.VirtualMachineClass) tv x _ (proj1 (proj2 registered_v1alpha2_VirtualMachineClass))).
  - exact (typed_gvk (T := vmoprv1alpha2.VirtualMachineGroup) tv x _ (proj1 (proj2 registered_v1alpha2_VirtualMachineGroup))).
  - exact (typed_gvk (T := vmoprv1alpha2.VirtualMachineImage) tv x _ (proj1 (proj2 registered_v1alpha2_VirtualMachineImage))).
  - exact (typed_gvk (T := vmoprv1alpha2.ClusterVirtualMachineImage) tv x _ (proj1 (proj2 registered_v1alpha2_ClusterVirtualMachineImage))).
  - exact (typed_gvk (T := vmoprv1alpha2.VirtualMachineService) tv x _ (proj1 (proj2 registered_v1alpha2_VirtualMachineService))).
  - exact (typed_gvk (T := vmoprv1alpha2.VirtualMachineSetResourcePolicy) tv x _ (proj1 (proj2 registered_v1alpha2_VirtualMachineSetResourcePolicy))).
  - exact (typed_gvk (T := vmoprv1alpha5.VirtualMachine) tv x _ (proj1 (proj2 registered_v1alpha5_VirtualMachine))).
  - exact (typed_gvk (T := vmoprv1alpha5.VirtualMachineClass) tv x _ (proj1 (proj2 registered_v1alpha5_VirtualMachineClass))).
  - exact (typed_gvk (T := vmoprv1alpha5.VirtualMachineGroup) tv x _ (proj1 (proj2 registered_v1alpha5_VirtualMachineGroup))).
  - exact (typed_gvk (T := vmoprv1alpha5.VirtualMachineImage) tv x _ (proj1 (proj2 registered_v1alpha5_VirtualMachineImage))).
  - exact (typed_gvk (T := vmoprv1alpha5.ClusterVirtualMachineImage) tv x _ (proj1 (proj2 registered_v1alpha5_ClusterVirtualMachineImage))).
  - exact (typed_gvk (T := vmoprv1alpha5.VirtualMachineService) tv x _ (proj1 (proj2 registered_v1alpha5_VirtualMachineService))).
  - exact (typed_gvk (T := vmoprv1alpha5.VirtualMachineSetResourcePolicy) tv x _ (proj1 (proj2 registered_v1alpha5_VirtualMachineSetResourcePolicy))).
  - exact (typed_gvk (T := vmoprv1alpha6.VirtualMachine) tv x _ (proj1 (proj2 registered_v1alpha6_VirtualMachine))).
  - exact (typed_gvk (T := vmoprv1alpha6.VirtualMachineClass) tv x _ (proj1 (proj2 registered_v1alpha6_VirtualMachineClass))).
  - exact (typed_gvk (T := vmoprv1alpha6.VirtualMachineGroup) tv x _ (proj1 (proj2 registered_v1alpha6_VirtualMachineGroup))).
  - exact (typed_gvk (T := vmoprv1alpha6.VirtualMachineImage) tv x _ (proj1 (proj2 registered_v1alpha6_VirtualMachineImage))).
  - exact (typed_gvk (T := vmoprv1alpha6.ClusterVirtualMachineImage) tv x _ (proj1 (proj2 registered_v1alpha6_ClusterVirtualMachineImage))).
  - exact (typed_gvk (T := vmoprv1alpha6.VirtualMachineService) tv x _ (proj1 (proj2 registered_v1alpha6_VirtualMachineService))).
  - exact (typed_gvk (T := vmoprv1alpha6.VirtualMachineSetResourcePolicy) tv x _ (proj1 (proj2 registered_v1alpha6_VirtualMachineSetResourcePolicy))).
Qed.

Lemma registered_hub tv o : list_object o = false -> hub_type (default_converter tv) (gvk_of (version_of o) (kind_of o)) = negb (of_version o).
Proof.
  rewrite hub_type_default. case o; [intros x _; cbn [version_of kind_of of_version negb]..|discriminate].
  - exact (proj1 (proj2 (proj2 registered_v1alpha6_VirtualMachine))).
  - exact (proj1 (proj2 (proj2 registered_v1alpha6_VirtualMachineClass))).
  - exact (proj1 (proj2 (proj2 registered_v1alpha6_VirtualMachineGroup))).
  - exact (proj1 (proj2 (proj2 registered_v1alpha6_VirtualMachineImage))).
  - exact (proj1 (proj2 (proj2 registered_v1alpha6_ClusterVirtualMachineImage))).
  - exact (proj1 (proj2 (proj2 registered_v1alpha6_VirtualMachineService))).
  - exact (proj1 (proj2 (proj2 registered_v1alpha6_VirtualMachineSetResourcePolicy))).
  - exact (proj1 (proj2 (proj2 (proj2 registered_v1alpha2_VirtualMachine)))).
  - exact (proj1 (proj2 (proj2 (proj2 registered_v1alpha2_VirtualMachineClass)))).
  - exact (proj1 (proj2 (proj2 (proj2 registered_v1alpha2_VirtualMachineGroup)))).
  - exact (proj1 (proj2 (proj2 (proj2 registered_v1alpha2_VirtualMachineImage)))).
  - exact (proj1 (proj2 (proj2 (proj2 registered_v1alpha2_ClusterVirtualMachineImage)))).
  - exact (proj1 (proj2 (proj2 (proj2 registered_v1alpha2_VirtualMachineService)))).
  - exact (proj1 (proj2 (proj2 (proj2 registered_v1alpha2_VirtualMachineSetResourcePolicy)))).
  - exact (proj1 (proj2 (proj2 (proj2 registered_v1alpha5_VirtualMachine)))).
  - exact (proj1 (proj2 (proj2 (proj2 registered_v1alpha5_VirtualMachineClass)))).
  - exact (proj1 (proj2 (proj2 (proj2 registered_v1alpha5_VirtualMachineGroup)))).
  - exact (proj1 (proj2 (proj2 (proj2 registered_v1alpha5_VirtualMachineImage)))).
  - exact (proj1 (proj2 (proj2 (proj2 registered_v1alpha5_ClusterVirtualMachineImage)))).
  - exact (proj1 (proj2 (proj2 (proj2 registered_v1alpha5_VirtualMachineService)))).
  - exact (proj1 (proj2 (proj2 (proj2 registered_v1alpha5_VirtualMachineSetResourcePolicy)))).
  - exact (proj1 (proj2 (proj2 (proj2 registered_v1alpha6_VirtualMachine)))).
  - exact (proj1 (proj2 (proj2 (proj2 registered_v1alpha6_VirtualMachineClass)))).
  - exact (proj1 (proj2 (proj2 (proj2 registered_v1alpha6_VirtualMachineGroup)))).
  - exact (proj1 (proj2 (proj2 (proj2 registered_v1alpha6_VirtualMachineImage)))).
  - exact (proj1 (proj2 (proj2 (proj2 registered_v1alpha6_ClusterVirtualMachineImage)))).
  - exact (proj1 (proj2 (proj2 (proj2 registered_v1alpha6_VirtualMachineService)))).
  - exact (proj1 (proj2 (proj2 (proj2 registered_v1alpha6_VirtualMachineSetResourcePolicy)))).
Qed.

(** A list is of a kind that is not converted itself. *)
Lemma list_gvk tv o gvk : list_object o = true -> GroupVersionKindFor o (default_converter tv) = Ok gvk -> is_list (k_Kind gvk) = true.
Proof.
  intros Hl (t & Ht & E)%GroupVersionKindFor_inv. destruct o; try discriminate Hl. injection Ht as <-.
  pose proof (built_wf _ _ (default_built tv _ (DefaultConverterFor_eq tv))) as Hwf. apply (wf_types _ Hwf) in E.
  apply (wf_names _ Hwf) in E as (-> & _). apply is_list_app.
Qed.

(** What is converted to a hub object is an object of a version and of its kind. *)
Lemma converted_kind tv o hub hub' : Convert o hub (default_converter tv) = (hub', Ok tt) -> IsHub hub (default_converter tv) = true ->
  list_object hub = false /\ of_version hub = false /\ of_version o = true /\ kind_of o = kind_of hub.
Proof.
  intros (a & b & f & d & Ea & Eb & Hf & _)%Convert_ok Hhub. unfold IsHub in Hhub. rewrite Eb in Hhub.
  pose proof (built_wf _ _ (default_built tv _ (DefaultConverterFor_eq tv))) as Hwf.
  destruct (wf_funcs _ Hwf _ _ _ Hf) as (_ & Hk & Hv & Hl & _).
  assert (Hlo : list_object o = false).
  { destruct (list_object o) eqn:E; [|done]. apply (list_gvk tv o a E) in Ea. congruence. }
  assert (Hlh : list_object hub = false).
  { destruct (list_object hub) eqn:E; [|done]. apply (list_gvk tv hub b E) in Eb. congruence. }
  rewrite (registered_gvk tv o Hlo) in Ea. rewrite (registered_gvk tv hub Hlh) in Eb. injection Ea as <-. injection Eb as <-.
  rewrite (registered_hub tv hub Hlh) in Hhub. cbn [gvk_of k_Kind k_Version] in Hk, Hv. split_and!; [done|by destruct (of_version hub)| |done].
  destruct (of_version o) eqn:Eo; [done|]. destruct Hv.
  assert (Hs : forall x, list_object x = false -> of_version x = false -> version_of x = "hub") by (by intros []). rewrite !Hs; [done..|by destruct (of_version hub)|done|done].
Qed.

(** New objects of the same type are the same. *)
Lemma new_same_shape o o' : list_object o = false -> shape_of o = shape_of o' -> new_same o = new_same o'.
Proof.
  intros Hl E. assert (Ht : type_of o = type_of o') by (by injection E).
  destruct o; try done; destruct o'; cbn [type_of] in Ht; try done.
  all: injection Ht as _ Hn; exfalso; (assert (Hf : is_list (kind +:+ "List") = false) by (by rewrite <-Hn)); by rewrite is_list_app in Hf.
Qed.
Lemma new_hub_kind o hub : list_object hub = false -> of_version hub = false -> of_version o = true -> kind_of o = kind_of hub -> new_hub o = new_same hub.
Proof. destruct hub; try done; destruct o; done. Qed.

(** The versions there are conversions for. *)
Definition versions : list string := ["v1alpha2"; "v1alpha5"; "v1alpha6"].

Lemma conversions_of_kind kind version : kind ∈ kinds -> version ∈ versions -> is_Some (conversion_func default_tables (gvk_of "hub" kind) (gvk_of version kind)) /\
  hub_type default_tables (gvk_of "hub" kind) = true.
Proof.
  intros Hk Hv. unfold kinds, versions in *. apply list_elem_of_In in Hk, Hv. cbn [In] in Hk, Hv.
  destruct_or!; try contradiction; subst; split.
  - destruct registered_v1alpha2_VirtualMachine as (_ & _ & _ & _ & _ & (p & E) & _). exact (mk_is_Some _ _ E).
  - exact (proj1 (proj2 (proj2 registered_v1alpha2_VirtualMachine))).
  - destruct registered_v1alpha2_VirtualMachineClass as (_ & _ & _ & _ & _ & (p & E) & _). exact (mk_is_Some _ _ E).
  - exact (proj1 (proj2 (proj2 registered_v1alpha2_VirtualMachineClass))).
  - destruct registered_v1alpha2_VirtualMachineGroup as (_ & _ & _ & _ & _ & (p & E) & _). exact (mk_is_Some _ _ E).
  - exact (proj1 (proj2 (proj2 registered_v1alpha2_VirtualMachineGroup))).
  - destruct registered_v1alpha2_VirtualMachineImage as (_ & _ & _ & _ & _ & (p & E) & _). exact (mk_is_Some _ _ E).
  - exact (proj1 (proj2 (proj2 registered_v1alpha2_VirtualMachineImage))).
  - destruct registered_v1alpha2_ClusterVirtualMachineImage as (_ & _ & _ & _ & _ & (p & E) & _). exact (mk_is_Some _ _ E).
  - exact (proj1 (proj2 (proj2 registered_v1alpha2_ClusterVirtualMachineImage))).
  - destruct registered_v1alpha2_VirtualMachineService as (_ & _ & _ & _ & _ & (p & E) & _). exact (mk_is_Some _ _ E).
  - exact (proj1 (proj2 (proj2 registered_v1alpha2_VirtualMachineService))).
  - destruct registered_v1alpha2_VirtualMachineSetResourcePolicy as (_ & _ & _ & _ & _ & (p & E) & _). exact (mk_is_Some _ _ E).
  - exact (proj1 (proj2 (proj2 registered_v1alpha2_VirtualMachineSetResourcePolicy))).
  - destruct registered_v1alpha5_VirtualMachine as (_ & _ & _ & _ & _ & (p & E) & _). exact (mk_is_Some _ _ E).
  - exact (proj1 (proj2 (proj2 registered_v1alpha5_VirtualMachine))).
  - destruct registered_v1alpha5_VirtualMachineClass as (_ & _ & _ & _ & _ & (p & E) & _). exact (mk_is_Some _ _ E).
  - exact (proj1 (proj2 (proj2 registered_v1alpha5_VirtualMachineClass))).
  - destruct registered_v1alpha5_VirtualMachineGroup as (_ & _ & _ & _ & _ & (p & E) & _). exact (mk_is_Some _ _ E).
  - exact (proj1 (proj2 (proj2 registered_v1alpha5_VirtualMachineGroup))).
  - destruct registered_v1alpha5_VirtualMachineImage as (_ & _ & _ & _ & _ & (p & E) & _). exact (mk_is_Some _ _ E).
  - exact (proj1 (proj2 (proj2 registered_v1alpha5_VirtualMachineImage))).
  - destruct registered_v1alpha5_ClusterVirtualMachineImage as (_ & _ & _ & _ & _ & (p & E) & _). exact (mk_is_Some _ _ E).
  - exact (proj1 (proj2 (proj2 registered_v1alpha5_ClusterVirtualMachineImage))).
  - destruct registered_v1alpha5_VirtualMachineService as (_ & _ & _ & _ & _ & (p & E) & _). exact (mk_is_Some _ _ E).
  - exact (proj1 (proj2 (proj2 registered_v1alpha5_VirtualMachineService))).
  - destruct registered_v1alpha5_VirtualMachineSetResourcePolicy as (_ & _ & _ & _ & _ & (p & E) & _). exact (mk_is_Some _ _ E).
  - exact (proj1 (proj2 (proj2 registered_v1alpha5_VirtualMachineSetResourcePolicy))).
  - destruct registered_v1alpha6_VirtualMachine as (_ & _ & _ & _ & _ & (p & E) & _). exact (mk_is_Some _ _ E).
  - exact (proj1 (proj2 (proj2 registered_v1alpha6_VirtualMachine))).
  - destruct registered_v1alpha6_VirtualMachineClass as (_ & _ & _ & _ & _ & (p & E) & _). exact (mk_is_Some _ _ E).
  - exact (proj1 (proj2 (proj2 registered_v1alpha6_VirtualMachineClass))).
  - destruct registered_v1alpha6_VirtualMachineGroup as (_ & _ & _ & _ & _ & (p & E) & _). exact (mk_is_Some _ _ E).
  - exact (proj1 (proj2 (proj2 registered_v1alpha6_VirtualMachineGroup))).
  - destruct registered_v1alpha6_VirtualMachineImage as (_ & _ & _ & _ & _ & (p & E) & _). exact (mk_is_Some _ _ E).
  - exact (proj1 (proj2 (proj2 registered_v1alpha6_VirtualMachineImage))).
  - destruct registered_v1alpha6_ClusterVirtualMachineImage as (_ & _ & _ & _ & _ & (p & E) & _). exact (mk_is_Some _ _ E).
  - exact (proj1 (proj2 (proj2 registered_v1alpha6_ClusterVirtualMachineImage))).
  - destruct registered_v1alpha6_VirtualMachineService as (_ & _ & _ & _ & _ & (p & E) & _). exact (mk_is_Some _ _ E).
  - exact (proj1 (proj2 (proj2 registered_v1alpha6_VirtualMachineService))).
  - destruct registered_v1alpha6_VirtualMachineSetResourcePolicy as (_ & _ & _ & _ & _ & (p & E) & _). exact (mk_is_Some _ _ E).
  - exact (proj1 (proj2 (proj2 registered_v1alpha6_VirtualMachineSetResourcePolicy))).
Qed.

Lemma target_ok tv version (a : GroupVersionKind) (isList : bool) : target_version tv GroupName = Ok version -> k_Kind a ∈ kinds -> version ∈ versions -> a = gvk_of "hub" (k_Kind a) ->
  (if negb (hub_type (default_converter tv) a) then Err (ENew (sprintf "no type registered for %s" [AS (gvk_String a)]))
  else
    spokeVersion ← res_wrap (sprintf "no target version registered for %s" [AS (gk_String a)]) (targetVersionSelector (default_converter tv) (k_Group a) (k_Kind a));
    let spokeGVK := mkGroupVersionKind (k_Group a) spokeVersion (k_Kind a) in
    match conversion_func (default_converter tv) a spokeGVK with
    | None => Err (ENew (sprintf "no conversion registered from %s to %s" [AS (gvk_String a); AS (k_Version spokeGVK)]))
    | Some _ =>
        Ok (if isList then mkGroupVersionKind (k_Group spokeGVK) (k_Version spokeGVK) (sprintf "%sList" [AS (k_Kind spokeGVK)]) else spokeGVK)
    end) = Ok (if isList then gvk_of version (sprintf "%sList" [AS (k_Kind a)]) else gvk_of version (k_Kind a)).
Proof.
  intros Ht Hk Hv ->. cbn [gvk_of k_Group k_Kind] in *. destruct (conversions_of_kind _ _ Hk Hv) as ([f Hf] & Hh). unfold gvk_of in *.
  rewrite hub_type_default, Hh. cbn [negb targetVersionSelector default_converter]. rewrite Ht. cbn [res_wrap mbind res_mbind res_bind]. cbv zeta.
  rewrite conversion_func_default. cbn [k_Kind]. rewrite Hf. done.
Qed.

Lemma object_target tv version o : target_version tv GroupName = Ok version -> version ∈ versions -> list_object o = false -> of_version o = false ->
  SpokeGroupVersionKindFor o (default_converter tv) = Ok (gvk_of version (kind_of o)).
Proof.
  intros Ht Hv Hl Ho. unfold SpokeGroupVersionKindFor. rewrite registered_gvk by done. cbn [mbind res_mbind res_bind].
  assert (Hk : kind_of o ∈ kinds) by (apply list_elem_of_In; destruct o; try discriminate Hl; cbn; auto 10).
  assert (Hn : is_list (kind_of o) = false) by (by destruct o).
  assert (Hhub : version_of o = "hub") by (by destruct o). rewrite Hhub. cbn [gvk_of k_Kind]. rewrite Hn. cbv zeta.
  exact (target_ok tv version (gvk_of "hub" (kind_of o)) false Ht Hk Hv eq_refl).
Qed.

Lemma list_target tv version kind items : target_version tv GroupName = Ok version -> version ∈ versions -> kind ∈ kinds ->
  SpokeGroupVersionKindFor (ListOf hub_path kind items) (default_converter tv) = Ok (gvk_of version (kind +:+ "List")).
Proof.
  intros Ht Hv Hk. unfold SpokeGroupVersionKindFor.
  assert (Hg : GroupVersionKindFor (ListOf hub_path kind items) (default_converter tv) = Ok (gvk_of "hub" (kind +:+ "List"))).
  { apply GroupVersionKindFor_inv. exists (mkGoType hub_path (kind +:+ "List")). split; [reflexivity|]. unfold default_converter. cbn [typeToGVK]. exact (registered_lists kind Hk). }
  rewrite Hg. cbn [mbind res_mbind res_bind gvk_of k_Kind k_Group k_Version]. rewrite is_list_app. cbv zeta. cbv iota.
  assert (Htrim : trim_suffix (kind +:+ "List") "List" = kind /\ sprintf "%sList" [AS kind] = kind +:+ "List").
  { clear -Hk. apply list_elem_of_In in Hk. unfold kinds in Hk. cbn [In] in Hk. destruct_or!; try contradiction; subst; by vm_compute. }
  destruct Htrim as [Et Es]. rewrite Et, <-Es. exact (target_ok tv version (gvk_of "hub" kind) true Ht Hk Hv eq_refl).
Qed.

(** The objects of the hub version and their lists. *)
Definition of_hub (o : Obj) : Prop :=
  match o with
  | ListOf path kind _ => path = hub_path /\ kind ∈ kinds
  | o => of_version o = false
  end.

(** Whatever the target versions are, when the first one of VM Operator is a version there are conversions for, every object of the hub version and
    every list of them is sent in that version, as the same kind. *)
Theorem sent_in_the_target_version tv c (Hc : DefaultConverterFor tv = Ok c) version (Ht : target_version tv GroupName = Ok version) (Hv : version ∈ versions)
    o (Ho : of_hub o) : SpokeGroupVersionKindFor o c = Ok (gvk_of version (kind_of o)).
Proof.
  rewrite DefaultConverterFor_eq in Hc. injection Hc as <-. destruct (list_object o) eqn:El.
  - revert Ho El. case o; [intros x _ El; discriminate El..|]. intros path kind items (-> & Hk) _. cbn [kind_of].
    by apply list_target.
  - apply (object_target tv version o Ht Hv El). destruct o; done.
Qed.

(** ** The newest version *)

Definition new_v1alpha6 (o : Obj) : Obj :=
  match o with
  | hub_VirtualMachine _ => v1alpha6_VirtualMachine vmoprv1alpha6.zero_VirtualMachine
  | hub_VirtualMachineClass _ => v1alpha6_VirtualMachineClass vmoprv1alpha6.zero_VirtualMachineClass
  | hub_VirtualMachineGroup _ => v1alpha6_VirtualMachineGroup vmoprv1alpha6.zero_VirtualMachineGroup
  | hub_VirtualMachineImage _ => v1alpha6_VirtualMachineImage vmoprv1alpha6.zero_VirtualMachineImage
  | hub_ClusterVirtualMachineImage _ => v1alpha6_ClusterVirtualMachineImage vmoprv1alpha6.zero_ClusterVirtualMachineImage
  | hub_VirtualMachineService _ => v1alpha6_VirtualMachineService vmoprv1alpha6.zero_VirtualMachineService
  | hub_VirtualMachineSetResourcePolicy _ => v1alpha6_VirtualMachineSetResourcePolicy vmoprv1alpha6.zero_VirtualMachineSetResourcePolicy
  | o => o
  end.
(** The hub version has two statuses without fields the conversions know. *)
Definition kept (o : Obj) : Obj :=
  match o with
  | hub_VirtualMachineClass x => hub_VirtualMachineClass {|
      vmophub.VirtualMachineClass_ObjectMeta := vmophub.VirtualMachineClass_ObjectMeta x;
      vmophub.VirtualMachineClass_Spec := vmophub.VirtualMachineClass_Spec x;
      vmophub.VirtualMachineClass_Status := vmophub.zero_VirtualMachineClassStatus;
      vmophub.VirtualMachineClass_Source := vmophub.VirtualMachineClass_Source x
    |}
  | hub_VirtualMachineSetResourcePolicy x => hub_VirtualMachineSetResourcePolicy {|
      vmophub.VirtualMachineSetResourcePolicy_ObjectMeta := vmophub.VirtualMachineSetResourcePolicy_ObjectMeta x;
      vmophub.VirtualMachineSetResourcePolicy_Spec := vmophub.VirtualMachineSetResourcePolicy_Spec x;
      vmophub.VirtualMachineSetResourcePolicy_Status := vmophub.zero_VirtualMachineSetResourcePolicyStatus;
      vmophub.VirtualMachineSetResourcePolicy_Source := vmophub.VirtualMachineSetResourcePolicy_Source x
    |}
  | o => tidy o
  end.

(** C28: The newest version has a place for everything: an object of the hub version that is sent in v1alpha6 and comes back is what it was, but for
    empty slices that became nil, the statuses nobody converts, and the version it now came from. *)
Theorem newest_version_is_complete tv c (Hc : DefaultConverterFor tv = Ok c) o (Ho : of_version o = false) (Hl : list_object o = false) (Hs : GetSource o = "") :
  exists spoke, Convert o (new_v1alpha6 o) c = (spoke, Ok tt) /\ IsHub spoke c = false /\
    Convert spoke (new_same o) c = (SetSource "vmoperator.vmware.com/v1alpha6" (kept o), Ok tt).
Proof.
  rewrite DefaultConverterFor_eq in Hc. injection Hc as <-. revert Ho Hl Hs. case o; [intros x Ho Hl Hs..|intros path kind items Ho Hl]; try discriminate Ho; try discriminate Hl; cbn [new_v1alpha6 new_same kept tidy].
  - destruct (VirtualMachine_hub_v1alpha6_back x) as (y & E1 & E2). destruct (hub_and_back "VirtualMachine" "v1alpha6" _ _ registered_v1alpha6_VirtualMachine tv _ _ _ _ _ E1 E2 Hs) as (sp & H1 & H2 & H3).
    exists sp. split; [exact H1|]. split; [exact H2|]. etransitivity; [exact H3|reflexivity].
  - destruct (VirtualMachineClass_hub_v1alpha6_back x) as (y & E1 & E2). destruct (hub_and_back "VirtualMachineClass" "v1alpha6" _ _ registered_v1alpha6_VirtualMachineClass tv _ _ _ _ _ E1 E2 Hs) as (sp & H1 & H2 & H3).
    exists sp. split; [exact H1|]. split; [exact H2|]. etransitivity; [exact H3|reflexivity].
  - destruct (VirtualMachineGroup_hub_v1alpha6_back x) as (y & E1 & E2). destruct (hub_and_back "VirtualMachineGroup" "v1alpha6" _ _ registered_v1alpha6_VirtualMachineGroup tv _ _ _ _ _ E1 E2 Hs) as (sp & H1 & H2 & H3).
    exists sp. split; [exact H1|]. split; [exact H2|]. etransitivity; [exact H3|reflexivity].
  - destruct (VirtualMachineImage_hub_v1alpha6_back x) as (y & E1 & E2). destruct (hub_and_back "VirtualMachineImage" "v1alpha6" _ _ registered_v1alpha6_VirtualMachineImage tv _ _ _ _ _ E1 E2 Hs) as (sp & H1 & H2 & H3).
    exists sp. split; [exact H1|]. split; [exact H2|]. etransitivity; [exact H3|reflexivity].
  - destruct (ClusterVirtualMachineImage_hub_v1alpha6_back x) as (y & E1 & E2). destruct (hub_and_back "ClusterVirtualMachineImage" "v1alpha6" _ _ registered_v1alpha6_ClusterVirtualMachineImage tv _ _ _ _ _ E1 E2 Hs) as (sp & H1 & H2 & H3).
    exists sp. split; [exact H1|]. split; [exact H2|]. etransitivity; [exact H3|reflexivity].
  - destruct (VirtualMachineService_hub_v1alpha6_back x) as (y & E1 & E2). destruct (hub_and_back "VirtualMachineService" "v1alpha6" _ _ registered_v1alpha6_VirtualMachineService tv _ _ _ _ _ E1 E2 Hs) as (sp & H1 & H2 & H3).
    exists sp. split; [exact H1|]. split; [exact H2|]. etransitivity; [exact H3|reflexivity].
  - destruct (VirtualMachineSetResourcePolicy_hub_v1alpha6_back x) as (y & E1 & E2). destruct (hub_and_back "VirtualMachineSetResourcePolicy" "v1alpha6" _ _ registered_v1alpha6_VirtualMachineSetResourcePolicy tv _ _ _ _ _ E1 E2 Hs) as (sp & H1 & H2 & H3).
    exists sp. split; [exact H1|]. split; [exact H2|]. etransitivity; [exact H3|reflexivity].
Qed.
