(* ===== verification/Prog.v ===== *)
(** Effectful Go functions: programs that make calls on a world (vCenter, the
    Kubernetes API server, the clock, background goroutines) and carry a state
    that stays modified when an error is returned. *)
From S2P Require Export Prelude Errors.

(** * Programs

    [Vis e k] makes the call [e] and goes on with its answer. A program is a
    finite tree: on every sequence of answers it returns. *)
Section prog.
Context {E : Type -> Type}.

Inductive prog (A : Type) : Type :=
| Ret (a : A)
| Vis {X : Type} (e : E X) (k : X -> prog A).
Arguments Ret {A} a.
Arguments Vis {A X} e k.

Fixpoint pbind {A B} (p : prog A) (f : A -> prog B) : prog B :=
  match p with
  | Ret a => f a
  | Vis e k => Vis e (fun x => pbind (k x) f)
  end.

(** A call that was made, with its answer. *)
Inductive call :=
| Call {X : Type} (e : E X) (x : X).

(** [runs p tr a]: when the world answers as in [tr], [p] makes exactly the
    calls of [tr] and returns [a]. *)
Fixpoint runs {A} (p : prog A) (tr : list call) (a : A) : Prop :=
  match p with
  | Ret b => tr = [] /\ a = b
  | Vis e k => exists x tr', tr = Call e x :: tr' /\ runs (k x) tr' a
  end.

(** [wp p Q]: [Q] holds of the calls and the result of every run of [p]. *)
Fixpoint wp {A} (p : prog A) (Q : list call -> A -> Prop) : Prop :=
  match p with
  | Ret a => Q [] a
  | Vis e k => forall x, wp (k x) (fun tr => Q (Call e x :: tr))
  end.

Lemma wp_runs {A} (p : prog A) Q :
  wp p Q <-> forall tr a, runs p tr a -> Q tr a.
Proof.
  revert Q. induction p as [b|X e k IH]; intros Q; simpl.
  - split; [by intros ? ? ? [-> ->]|by intros H; apply H].
  - split.
    + intros H tr a (x & tr' & -> & Hr). by apply (proj1 (IH x _) (H x)).
    + intros H x. apply IH. intros tr a Hr. apply H. eauto.
Qed.

Lemma wp_mono {A} (p : prog A) (Q Q' : list call -> A -> Prop) :
  wp p Q -> (forall tr a, Q tr a -> Q' tr a) -> wp p Q'.
Proof. rewrite !wp_runs. naive_solver. Qed.

Lemma wp_bind {A B} (p : prog A) (f : A -> prog B) Q :
  wp (pbind p f) Q <-> wp p (fun tr a => wp (f a) (fun tr' => Q (tr ++ tr')%list)).
Proof.
  revert Q. induction p as [b|X e k IH]; intros Q; simpl; [done|].
  split; intros H x.
  - exact (proj1 (IH x _) (H x)).
  - apply (proj2 (IH x _)). exact (H x).
Qed.

Lemma wp_and {A} (p : prog A) (Q Q' : list call -> A -> Prop) :
  wp p Q -> wp p Q' -> wp p (fun tr a => Q tr a /\ Q' tr a).
Proof. rewrite !wp_runs. naive_solver. Qed.

(** ** Running a program against a world that answers *)

Section exec.
Context {W : Type} (answer : forall X, E X -> W -> X * W).

Fixpoint exec {A} (p : prog A) (w : W) : list call * A :=
  match p with
  | Ret a => ([], a)
  | Vis e k =>
      let '(x, w') := answer _ e w in
      let '(tr, a) := exec (k x) w' in
      (Call e x :: tr, a)
  end.

Lemma exec_runs {A} (p : prog A) w : runs p (exec p w).1 (exec p w).2.
Proof.
  revert w. induction p as [b|X e k IH]; intros w; simpl; [done|].
  destruct (answer X e w) as [x w'] eqn:E1.
  pose proof (IH x w') as H. destruct (exec (k x) w') as [tr a]. simpl in *. eauto.
Qed.

Lemma exec_forall (P : call -> Prop) :
  (forall X (e : E X) w, P (Call e (answer X e w).1)) ->
  forall A (p : prog A) w, Forall P (exec p w).1.
Proof.
  intros HP A p. induction p as [b|X e k IH]; intros w; simpl; [constructor|].
  pose proof (HP X e w) as H1. destruct (answer X e w) as [x w']. specialize (IH x w').
  destruct (exec (k x) w') as [tr a]. by constructor.
Qed.
End exec.

(** * Programs with a state and errors *)

Definition M (S A : Type) : Type := S -> prog (res A * S).

Context {S : Type}.

Definition ret {A} (a : A) : M S A := fun s => Ret (Ok a, s).
Definition fail {A} (e : error) : M S A := fun s => Ret (Err e, s).
Definition panic {A} : M S A := fun s => Ret (Stop Panics, s).
Definition of_res {A} (r : res A) : M S A := fun s => Ret (r, s).

Definition bind {A B} (m : M S A) (k : A -> M S B) : M S B :=
  fun s => pbind (m s) (fun '(r, s') =>
    match r with
    | Ok a => k a s'
    | Err e => Ret (Err e, s')
    | Stop w => Ret (Stop w, s')
    end).

(** The result of a call as a value, for code that looks at the error. *)
Definition try {A} (m : M S A) : M S (A + error) :=
  fun s => pbind (m s) (fun '(r, s') =>
    match r with
    | Ok a => Ret (Ok (inl a), s')
    | Err e => Ret (Ok (inr e), s')
    | Stop w => Ret (Stop w, s')
    end).

(** [errors.Wrapf(err, msg)] on the error path. *)
Definition wrap {A} (msg : string) (m : M S A) : M S A :=
  fun s => pbind (m s) (fun '(r, s') => Ret (res_wrap msg r, s')).

(** [defer d()]: [d] runs on every way out of [m], whose result is kept. *)
Definition with_defer {A} (d : M S unit) (m : M S A) : M S A :=
  fun s => pbind (m s) (fun '(r, s') =>
    match r with
    | Stop Diverges => Ret (Stop Diverges, s')
    | _ => pbind (d s') (fun '(r', s'') =>
        match r' with
        | Stop w => Ret (Stop w, s'')
        | _ => Ret (r, s'')
        end)
    end).

(** A deferred function that adds to the error that is returned: [d] is given the
    error of [m], if any, and gives the one to return. *)
Definition finally {A} (d : option error -> M S (option error)) (m : M S A) : M S A :=
  fun s => pbind (m s) (fun '(r, s') =>
    match r with
    | Stop Diverges => Ret (Stop Diverges, s')
    | _ => pbind (d (match r with Err e => Some e | _ => None end) s') (fun '(r', s'') =>
        Ret (match r' with
             | Stop w => Stop w
             | Err e => Err e
             | Ok reterr => match r, reterr with Ok _, Some e => Err e | Err _, Some e => Err e | _, _ => r end
             end, s''))
    end).

(** A function with a state of its own, which is forgotten when it returns. *)
Definition local {S' A} (s0 : S') (m : M S' A) : M S A :=
  fun s => pbind (m s0) (fun '(r, _) => Ret (r, s)).

Definition get : M S S := fun s => Ret (Ok s, s).
Definition gets {A} (f : S -> A) : M S A := fun s => Ret (Ok (f s), s).
Definition modify (f : S -> S) : M S unit := fun s => Ret (Ok tt, f s).

(** A call on the world, one that cannot fail and one that can. *)
Definition ask {X} (e : E X) : M S X := fun s => Vis e (fun x => Ret (Ok x, s)).
Definition call_res {X} (e : E (res X)) : M S X := fun s => Vis e (fun r => Ret (r, s)).

(** A [for] loop over a slice; [body] may return from the function. *)
Fixpoint for_each {A} (l : list A) (body : A -> M S unit) : M S unit :=
  match l with
  | [] => ret tt
  | x :: l' => bind (body x) (fun _ => for_each l' body)
  end.

Fixpoint fold_m {A B} (f : B -> A -> M S B) (l : list A) (b : B) : M S B :=
  match l with
  | [] => ret b
  | x :: l' => bind (f b x) (fun b' => fold_m f l' b')
  end.

(** ** Weakest preconditions *)

Definition wpm {A} (m : M S A) (s : S) (Q : list call -> res A -> S -> Prop) : Prop :=
  wp (m s) (fun tr '(r, s') => Q tr r s').

Lemma wpm_runs {A} (m : M S A) s Q :
  wpm m s Q <-> forall tr r s', runs (m s) tr (r, s') -> Q tr r s'.
Proof.
  unfold wpm. rewrite wp_runs. split; intros H tr; [naive_solver|].
  intros [r s']. apply H.
Qed.

Lemma wpm_ext {A} (m m' : M S A) s Q : m s = m' s -> wpm m' s Q -> wpm m s Q.
Proof. unfold wpm. by intros ->. Qed.

Lemma wpm_mono {A} (m : M S A) s (Q Q' : list call -> res A -> S -> Prop) :
  wpm m s Q -> (forall tr r s', Q tr r s' -> Q' tr r s') -> wpm m s Q'.
Proof. rewrite !wpm_runs. naive_solver. Qed.

(** What holds of the runs of a program, next to their being runs of it. *)
Lemma wpm_with_run {A} (m : M S A) s Q :
  wpm m s Q -> wpm m s (fun tr r s' => runs (m s) tr (r, s') /\ Q tr r s').
Proof. rewrite !wpm_runs. naive_solver. Qed.

Lemma wpm_bind {A B} (m : M S A) (k : A -> M S B) s Q :
  wpm m s (fun tr r s' =>
    match r with
    | Ok a => wpm (k a) s' (fun tr' => Q (tr ++ tr')%list)
    | Err e => Q tr (Err e) s'
    | Stop w => Q tr (Stop w) s'
    end) ->
  wpm (bind m k) s Q.
Proof.
  unfold wpm, bind. rewrite wp_bind. intros H. eapply wp_mono; [exact H|].
  intros tr [[a|e|] s']; simpl; rewrite ?app_nil_r; auto.
Qed.

Lemma wpm_try {A} (m : M S A) s Q :
  wpm m s (fun tr r s' =>
    match r with
    | Ok a => Q tr (Ok (inl a)) s'
    | Err e => Q tr (Ok (inr e)) s'
    | Stop w => Q tr (Stop w) s'
    end) ->
  wpm (try m) s Q.
Proof.
  unfold wpm, try. rewrite wp_bind. intros H. eapply wp_mono; [exact H|].
  intros tr [[a|e|] s']; simpl; rewrite ?app_nil_r; auto.
Qed.

Lemma wpm_wrap {A} msg (m : M S A) s Q :
  wpm m s (fun tr r s' => Q tr (res_wrap msg r) s') -> wpm (wrap msg m) s Q.
Proof.
  unfold wpm, wrap. rewrite wp_bind. intros H. eapply wp_mono; [exact H|].
  intros tr [r s']; simpl; rewrite ?app_nil_r; auto.
Qed.

Lemma wpm_with_defer {A} d (m : M S A) s Q :
  wpm m s (fun tr r s' =>
    match r with
    | Stop Diverges => Q tr (Stop Diverges) s'
    | _ => wpm d s' (fun tr' r' s'' =>
        Q (tr ++ tr')%list (match r' with Stop w => Stop w | _ => r end) s'')
    end) ->
  wpm (with_defer d m) s Q.
Proof.
  unfold wpm, with_defer. rewrite wp_bind. intros H. eapply wp_mono; [exact H|].
  intros tr [r s'] H'.
  assert (G : wp (d s') (fun tr' '(r', s'') =>
      Q (tr ++ tr')%list (match r' with Stop w => Stop w | _ => r end) s'') ->
    wp (pbind (d s') (fun '(r', s'') =>
        match r' with Stop w => Ret (Stop w, s'') | _ => Ret (r, s'') end))
      (fun tr' '(r0, s0) => Q (tr ++ tr')%list r0 s0)).
  { intros Hd. rewrite wp_bind. eapply wp_mono; [exact Hd|].
    intros tr' [[u|e|w] s'']; simpl; rewrite ?app_nil_r; auto. }
  destruct r as [a|e|[|]]; [by apply G..|].
  simpl. by rewrite app_nil_r.
Qed.

(** What [finally] returns, from the result of the body and of the deferred
    function. *)
Definition finally_result {A} (r : res A) (r' : res (option error)) : res A :=
  match r' with
  | Stop w => Stop w
  | Err e => Err e
  | Ok reterr => match r, reterr with Ok _, Some e => Err e | Err _, Some e => Err e | _, _ => r end
  end.

Lemma wpm_finally {A} d (m : M S A) s Q :
  wpm m s (fun tr r s' =>
    match r with
    | Stop Diverges => Q tr (Stop Diverges) s'
    | _ => wpm (d (match r with Err e => Some e | _ => None end)) s' (fun tr' r' s'' =>
        Q (tr ++ tr')%list (finally_result r r') s'')
    end) ->
  wpm (finally d m) s Q.
Proof.
  unfold wpm, finally. rewrite wp_bind. intros H. eapply wp_mono; [exact H|].
  intros tr [r s'] H'.
  assert (G : forall p : prog (res (option error) * S),
    wp p (fun tr' '(r', s'') => Q (tr ++ tr')%list (finally_result r r') s'') ->
    wp (pbind p (fun '(r', s'') => Ret (finally_result r r', s'')))
      (fun tr' '(r0, s0) => Q (tr ++ tr')%list r0 s0)).
  { intros p Hd. rewrite wp_bind. eapply wp_mono; [exact Hd|].
    intros tr' [r' s'']; simpl; by rewrite app_nil_r. }
  destruct r as [a|e|[|]]; [by apply G..|]. simpl. by rewrite app_nil_r.
Qed.

Lemma wpm_ret {A} (a : A) s (Q : _ -> _ -> _ -> Prop) : Q [] (Ok a) s -> wpm (ret a) s Q.
Proof. done. Qed.
Lemma wpm_fail {A} e s (Q : _ -> _ -> _ -> Prop) : Q [] (Err e) s -> wpm (A:=A) (fail e) s Q.
Proof. done. Qed.
Lemma wpm_panic {A} s (Q : _ -> _ -> _ -> Prop) : Q [] (Stop Panics) s -> wpm (A:=A) panic s Q.
Proof. done. Qed.
Lemma wpm_of_res {A} r s (Q : _ -> _ -> _ -> Prop) : Q [] r s -> wpm (A:=A) (of_res r) s Q.
Proof. done. Qed.
Lemma wpm_get s (Q : _ -> _ -> _ -> Prop) : Q [] (Ok s) s -> wpm get s Q.
Proof. done. Qed.
Lemma wpm_gets {A} (f : S -> A) s (Q : _ -> _ -> _ -> Prop) : Q [] (Ok (f s)) s -> wpm (gets f) s Q.
Proof. done. Qed.
Lemma wpm_modify f s (Q : _ -> _ -> _ -> Prop) : Q [] (Ok tt) (f s) -> wpm (modify f) s Q.
Proof. done. Qed.
Lemma wpm_ask {X} (e : E X) s (Q : _ -> _ -> _ -> Prop) :
  (forall x, Q [Call e x] (Ok x) s) -> wpm (ask e) s Q.
Proof. done. Qed.
Lemma wpm_call {X} (e : E (res X)) s (Q : _ -> _ -> _ -> Prop) :
  (forall r, Q [Call e r] r s) -> wpm (call_res e) s Q.
Proof. done. Qed.

(** A loop whose body keeps an invariant of the calls made so far and the
    state. *)
Lemma wpm_for_each {A} (l : list A) body s
    (I : list call -> S -> Prop) (Q : list call -> res unit -> S -> Prop) :
  I [] s ->
  (forall tr s' x, x ∈ l -> I tr s' ->
     wpm (body x) s' (fun tr' r s'' =>
       match r with Ok _ => I (tr ++ tr')%list s'' | _ => Q (tr ++ tr')%list r s'' end)) ->
  (forall tr s', I tr s' -> Q tr (Ok tt) s') ->
  wpm (for_each l body) s Q.
Proof.
  intros H0 Hb Hq.
  assert (G : forall l', l' ⊆ l -> forall tr0 s0, I tr0 s0 ->
    wpm (for_each l' body) s0 (fun tr => Q (tr0 ++ tr)%list)).
  { induction l' as [|x l' IH]; intros Hl tr0 s0 Hi.
    - apply wpm_ret. rewrite app_nil_r. by apply Hq.
    - simpl. apply wpm_bind. eapply wpm_mono; [apply Hb; [apply Hl; left|exact Hi]|].
      intros tr' [u|e|] s'; cbn beta iota; [|done|done].
      intros Hi'. eapply wpm_mono; [apply IH; [set_solver|exact Hi']|].
      intros tr'' r s'' HQ. cbn beta. by rewrite app_assoc. }
  eapply wpm_mono; [by apply (G l)|]. done.
Qed.

(** The same for a loop that carries a value, with the index of the turn. *)
Lemma wpm_fold_m {A B} (f : B -> A -> M S B) (l : list A) b s
    (I : nat -> list call -> B -> S -> Prop) (Q : list call -> res B -> S -> Prop) :
  I O [] b s ->
  (forall k tr b' s' x, l !! k = Some x -> I k tr b' s' ->
     wpm (f b' x) s' (fun tr' r s'' =>
       match r with
       | Ok b'' => I (Datatypes.S k) (tr ++ tr')%list b'' s''
       | _ => Q (tr ++ tr')%list r s''
       end)) ->
  (forall tr b' s', I (length l) tr b' s' -> Q tr (Ok b') s') ->
  wpm (fold_m f l b) s Q.
Proof.
  intros H0 Hb Hq.
  assert (G : forall l' k tr0 b0 s0, l = (take k l ++ l')%list -> length (take k l) = k ->
    I k tr0 b0 s0 -> wpm (fold_m f l' b0) s0 (fun tr => Q (tr0 ++ tr)%list)).
  { induction l' as [|x l' IH]; intros k tr0 b0 s0 Hl Hk Hi.
    - apply wpm_ret. rewrite app_nil_r. apply Hq.
      apply (f_equal length) in Hl. rewrite app_nil_r, Hk in Hl. by rewrite Hl.
    - assert (Hx : l !! k = Some x).
      { rewrite Hl, lookup_app_r, Hk by lia. by rewrite Nat.sub_diag. }
      simpl. apply wpm_bind. eapply wpm_mono; [by apply (Hb k)|].
      intros tr' [u|e|w] s'; cbn beta iota; [|done|done].
      intros Hi'. eapply wpm_mono; [apply (IH (Datatypes.S k)); [| |exact Hi']|].
      + rewrite (take_S_r _ _ _ Hx), <-app_assoc. exact Hl.
      + rewrite (take_S_r _ _ _ Hx), length_app, Hk. simpl. lia.
      + intros tr'' r s'' HQ. cbn beta. by rewrite app_assoc. }
  eapply wpm_mono; [by apply (G l O)|]. done.
Qed.
End prog.

Arguments prog : clear implicits.
Arguments call : clear implicits.
Arguments M : clear implicits.
Arguments Ret {E A} a.
Arguments Vis {E A X} e k.
#[global] Arguments wpm : simpl never.

Lemma wpm_local {E S S' A} (s0 : S') (m : M E S' A) s (Q : list (call E) -> res A -> S -> Prop) :
  wpm m s0 (fun tr r _ => Q tr r s) -> wpm (local s0 m) s Q.
Proof.
  unfold wpm, local. rewrite wp_bind. intros H. eapply wp_mono; [exact H|].
  intros tr [r s']; simpl. by rewrite app_nil_r.
Qed.

Declare Scope go_scope.
Delimit Scope go_scope with go.
Notation "x <- m ;; k" := (bind m (fun x => k))
  (at level 100, m at level 99, k at level 200, right associativity) : go_scope.
Notation "m ;; k" := (bind m (fun _ => k))
  (at level 100, k at level 200, right associativity) : go_scope.

(** One step of a weakest precondition, by the shape of the program. *)
Ltac wp_step :=
  lazymatch goal with
  | |- wpm (bind _ _) _ _ => apply wpm_bind
  | |- wpm (try _) _ _ => apply wpm_try
  | |- wpm (wrap _ _) _ _ => apply wpm_wrap
  | |- wpm (with_defer _ _) _ _ => apply wpm_with_defer
  | |- wpm (finally _ _) _ _ => apply wpm_finally
  | |- wpm (local _ _) _ _ => apply wpm_local
  | |- wpm (ret _) _ _ => apply wpm_ret
  | |- wpm (fail _) _ _ => apply wpm_fail
  | |- wpm panic _ _ => apply wpm_panic
  | |- wpm (of_res _) _ _ => apply wpm_of_res
  | |- wpm get _ _ => apply wpm_get
  | |- wpm (gets _) _ _ => apply wpm_gets
  | |- wpm (modify _) _ _ => apply wpm_modify
  | |- wpm (ask _) _ _ => apply wpm_ask; intros ?
  | |- wpm (call_res _) _ _ => apply wpm_call; intros [?|?|]
  end; cbn beta iota zeta delta [res_wrap].

(** Steps as long as the program's shape says which, splitting on the tests. *)
Ltac wp_run :=
  repeat (wp_step ||
    match goal with
    | |- wpm (match ?x with _ => _ end) _ _ => destruct x eqn:?; cbn beta iota zeta
    | |- wpm (if ?x then _ else _) _ _ => destruct x eqn:?; cbn beta iota zeta
    | |- wpm (let _ := _ in _) _ _ => cbn zeta
    end).

(** Membership in a trace that is built up by appending. *)
Ltac in_trace := rewrite ?elem_of_app, ?elem_of_cons; tauto.

(** * Programs that check the world

    A predicate on traces that more calls do not make false. *)
Class Grows {E} (P : list (call E) -> Prop) := grows tr tr' : tr ⊆ tr' -> P tr -> P tr'.

#[export] Instance grows_in {E} (c : call E) : Grows (elem_of c).
Proof. intros tr tr' Hs Hin. by apply Hs. Qed.
#[export] Instance grows_in_eta {E} (c : call E) : Grows (fun tr => c ∈ tr).
Proof. apply grows_in. Qed.
#[export] Instance grows_and {E} (P Q : list (call E) -> Prop) : Grows P -> Grows Q -> Grows (fun tr => P tr /\ Q tr).
Proof. intros HP HQ tr tr' Hs [H1 H2]. split; [by eapply HP|by eapply HQ]. Qed.
#[export] Instance grows_or {E} (P Q : list (call E) -> Prop) : Grows P -> Grows Q -> Grows (fun tr => P tr \/ Q tr).
Proof. intros HP HQ tr tr' Hs [H1|H1]; [left; by eapply HP|right; by eapply HQ]. Qed.
#[export] Instance grows_exists {E A} (P : A -> list (call E) -> Prop) :
  (forall a, Grows (P a)) -> Grows (fun tr => exists a, P a tr).
Proof. intros HP tr tr' Hs [a H1]. exists a. by eapply HP. Qed.
#[export] Instance grows_impl {E} (X : Prop) (P : list (call E) -> Prop) : Grows P -> Grows (fun tr => X -> P tr).
Proof. intros HP tr tr' Hs H1 x. eapply HP; [exact Hs|by apply H1]. Qed.
#[export] Instance grows_Forall {E A} (P : A -> list (call E) -> Prop) l :
  (forall a, Grows (P a)) -> Grows (fun tr => Forall (fun a => P a tr) l).
Proof. intros HP tr tr' Hs H1. eapply Forall_impl; [exact H1|]. intros a Ha. by eapply HP. Qed.
#[export] Instance grows_const {E} (X : Prop) : Grows (E:=E) (fun _ => X).
Proof. by intros tr tr' _. Qed.

Lemma grows_app_l {E} (P : list (call E) -> Prop) `{!Grows P} tr tr' : P tr -> P (tr ++ tr')%list.
Proof. apply grows. intros x Hx. apply elem_of_app. by left. Qed.
Lemma grows_app_r {E} (P : list (call E) -> Prop) `{!Grows P} tr tr' : P tr' -> P (tr ++ tr')%list.
Proof. apply grows. intros x Hx. apply elem_of_app. by right. Qed.

(** A program that keeps an invariant of the state and, when it succeeds, has
    made calls of which [P] holds; it stops only if [bad]. *)
Definition checks {E S} (inv : S -> Prop) (bad : Prop) (P : list (call E) -> Prop) (m : M E S unit) : Prop :=
  forall c, inv c -> wpm m c (fun tr r c' => inv c' /\
    match r with Ok _ => P tr | Err _ => True | Stop _ => bad end).

Section checks.
Context {E : Type -> Type} {S : Type} (inv : S -> Prop) (bad : Prop).
Open Scope go_scope.

Lemma checks_mono (P Q : list (call E) -> Prop) (m : M E S unit) :
  checks inv bad P m -> (forall tr, P tr -> Q tr) -> checks inv bad Q m.
Proof.
  intros Hm HPQ c Hc. eapply wpm_mono; [by apply Hm|]. intros tr [u|e|w] c' [? ?]; split; auto.
Qed.

Lemma checks_ret (P : list (call E) -> Prop) : P [] -> checks inv bad P (ret tt).
Proof. intros HP c Hc. by apply wpm_ret. Qed.

Lemma checks_seq (P Q : list (call E) -> Prop) `{!Grows P, !Grows Q} (m k : M E S unit) :
  checks inv bad P m -> checks inv bad Q k -> checks inv bad (fun tr => P tr /\ Q tr) (m ;; k).
Proof.
  intros Hm Hk c Hc. apply wpm_bind. eapply wpm_mono; [by apply Hm|].
  intros tr [u|e|w] c1 [Hi HP]; cbn beta iota; [|done..].
  eapply wpm_mono; [by apply Hk|]. intros tr' [u'|e|w] c2 [Hi2 HQ]; [|done..].
  split; [done|]. split; [by apply (grows_app_l P)|by apply (grows_app_r Q)].
Qed.

Lemma checks_wrap (P : list (call E) -> Prop) msg (m : M E S unit) : checks inv bad P m -> checks inv bad P (wrap msg m).
Proof. intros Hm c Hc. apply wpm_wrap. eapply wpm_mono; [by apply Hm|]. by intros tr [u|e|w] c'. Qed.

Lemma checks_for_each {A} (P : A -> list (call E) -> Prop) `{!forall a, Grows (P a)} (l : list A) (body : A -> M E S unit) :
  (forall a, checks inv bad (P a) (body a)) ->
  checks inv bad (fun tr => Forall (fun a => P a tr) l) (for_each l body).
Proof.
  intros Hb. induction l as [|x l IH].
  - by apply checks_ret.
  - eapply checks_mono; [exact (checks_seq _ _ _ _ (Hb x) IH)|]. intros tr [H1 H2]. by constructor.
Qed.
End checks.

(** What is known of a part of a trace that is built up by appending. *)
Ltac in_part H :=
  let Hin := fresh in
  eapply grows; [|exact H]; intros ? Hin; rewrite ?elem_of_app, ?elem_of_cons in Hin; in_trace.
