(* ===== verification/ConversionClient.v ===== *)
(** The client that converts objects before they are written and after they are read
    ([pkg/conversion/client]), over a client that knows the versions of the API server only. *)
From stdpp Require Import gmap strings.
From S2P Require Export Prog Converter.
#[local] Open Scope go_scope.

(** * The client inside *)

(** A key is a namespace and a name; [Options] and [PatchData] stand for the options of a request, which are
    passed on, and for patches that were not made by this package. *)
Definition ObjectKey : Type := string * string.

Section client.
Context {Obj Options OtherPatch : Type} `{Objects Obj}.

(** [conversionMergePatch] keeps the original and the options of the merge patch. *)
Inductive Patch := ConversionMergePatch (from : Obj) (options : Options) | Other (p : OtherPatch).

(** The requests the client inside gets. An answer holds the object that was passed, as it is afterwards. *)
Inductive Req : Type -> Type :=
| RGet (key : ObjectKey) (obj : Obj) (opts : Options) : Req (Obj * option error)
| RList (list : Obj) (opts : Options) : Req (Obj * option error)
| RApply (obj : Obj) (opts : Options) : Req (Obj * option error)
| RCreate (obj : Obj) (opts : Options) : Req (Obj * option error)
| RDelete (obj : Obj) (opts : Options) : Req (Obj * option error)
| RUpdate (obj : Obj) (opts : Options) : Req (Obj * option error)
| RPatch (obj : Obj) (patch : Patch) (opts : Options) : Req (Obj * option error)
| RDeleteAllOf (obj : Obj) (opts : Options) : Req (Obj * option error)
| RStatusPatch (obj : Obj) (patch : Patch) (opts : Options) : Req (Obj * option error)
| RStatusApply (obj : Obj) (opts : Options) : Req (Obj * option error).

Definition request_object {X} (e : Req X) : Obj :=
  match e with
  | RGet _ obj _ | RList obj _ | RApply obj _ | RCreate obj _ | RDelete obj _ | RUpdate obj _
  | RPatch obj _ _ | RDeleteAllOf obj _ | RStatusPatch obj _ _ | RStatusApply obj _ => obj
  end.

(** What the code uses of the scheme of the client inside, of lists and of the texts of objects. *)
Class Scheme := {
  scheme_New : GroupVersionKind -> res Obj;
  scheme_Recognizes : GroupVersionKind -> bool;
  PrioritizedVersionsForGroup : string -> list GroupVersion;
  client_GroupVersionKindFor : Obj -> res GroupVersionKind;
  is_object : Obj -> bool;
  is_object_list : Obj -> bool;
  ExtractList : Obj -> res (list Obj);
  SetList : Obj -> list Obj -> res Obj;
  KObj : Obj -> string;
  go_type : Obj -> string;
  MergeData : Obj -> Options -> Obj -> res string
}.
Context `{Scheme} (converter : Converter).

(** The state of an operation is the object it was given. *)
Definition MC := M Req Obj.

(** A request with an object that is not the caller's, and one with the caller's. *)
Definition request (e : Req (Obj * option error)) : MC Obj :=
  answer <- ask e ;;
  match answer with (obj, None) => ret obj | (_, Some err) => fail err end.
Definition pass_on (e : Obj -> Req (Obj * option error)) : MC unit :=
  obj <- get ;;
  answer <- ask (e obj) ;;
  modify (λ _, answer.1) ;;
  match answer.2 with None => ret tt | Some err => fail err end.

(** [converter.Convert(ctx, src, dst)], into an object of the operation and into the caller's. *)
Definition convert_into (src dst : Obj) : MC Obj :=
  let '(dst, r) := Convert src dst converter in _ <- of_res r ;; ret dst.
Definition convert_back (src : Obj) : MC unit :=
  obj <- get ;;
  let '(obj, r) := Convert src obj converter in
  modify (λ _, obj) ;;
  of_res r.

(** ** New objects *)

Definition newSpokeObjectFor (obj : Obj) : res Obj :=
  gvk ← SpokeGroupVersionKindFor obj converter;
  (o ← scheme_New gvk;
  if is_object o then Ok o
  else Err (ENew (sprintf "object for %s does not implement sigs.k8s.io/controller-runtime/pkg/client.Object" [AS (gvk_String gvk)])))%stdpp.

Definition newSpokeObjectListFor (list : Obj) : res Obj :=
  gvk ← SpokeGroupVersionKindFor list converter;
  (o ← scheme_New gvk;
  if is_object_list o then Ok o
  else Err (ENew (sprintf "object for %s does not implement sigs.k8s.io/controller-runtime/pkg/client.ObjectList" [AS (gvk_String gvk)])))%stdpp.

Definition newObjectListItemFor (list : Obj) : res Obj :=
  gvkList ← client_GroupVersionKindFor list;
  if negb (is_list (k_Kind gvkList)) then Err (ENew (sprintf "object %s does not have a kind with the List suffix" [AS (gvk_String gvkList)]))
  else
    let gvk := mkGroupVersionKind (k_Group gvkList) (k_Version gvkList) (trim_suffix (k_Kind gvkList) "List") in
    (o ← scheme_New gvk;
    if is_object o then Ok o
    else Err (ENew (sprintf "object for %s does not implement sigs.k8s.io/controller-runtime/pkg/client.Object" [AS (gvk_String gvk)])))%stdpp.

(** ** The methods *)

Definition IsHub_obj : MC bool := gets (λ obj, IsHub obj converter).

(** The new object, the conversion of the caller's object into it, the request and the conversion of the
    answer into the caller's object; [doing] is what the texts of the errors say. *)
Definition convert_and (doing : string) (e : Obj -> Req (Obj * option error)) : MC unit :=
  obj <- get ;;
  spokeObj <- of_res (newSpokeObjectFor obj) ;;
  spokeObj <- wrap (sprintf "failed to convert %s to spoke version while %s" [AS (KObj obj); AS doing]) (convert_into obj spokeObj) ;;
  spokeObj <- request (e spokeObj) ;;
  wrap (sprintf "failed to convert %s from spoke version while %s" [AS (KObj spokeObj); AS doing]) (convert_back spokeObj).

Definition Get (key : ObjectKey) (opts : Options) : MC unit :=
  isHub <- IsHub_obj ;;
  if negb (isHub : bool) then pass_on (λ obj, RGet key obj opts)
  else
    obj <- get ;;
    spokeObj <- of_res (newSpokeObjectFor obj) ;;
    spokeObj <- request (RGet key spokeObj opts) ;;
    wrap (sprintf "failed to convert %s from spoke version while getting it" [AS (KObj spokeObj)]) (convert_back spokeObj).

(** One turn of the loop over the items. *)
Definition list_item (lst : Obj) (listItems : list Obj) (spokeRuntimeItem : Obj) : MC (list Obj) :=
  if negb (is_object spokeRuntimeItem) then fail (ENew (sprintf "%T does not implement client.Object" [AS (go_type spokeRuntimeItem)]))
  else
    listItem <- of_res (newObjectListItemFor lst) ;;
    let '(listItem, r) := Convert spokeRuntimeItem listItem converter in
    wrap (sprintf "failed to convert %s from spoke version while listing it" [AS (KObj listItem)]) (of_res r) ;;
    ret (listItems ++ [listItem])%list.

Definition List (opts : Options) : MC unit :=
  isHub <- IsHub_obj ;;
  if negb (isHub : bool) then pass_on (λ obj, RList obj opts)
  else
    list <- get ;;
    spokeList <- of_res (newSpokeObjectListFor list) ;;
    spokeList <- request (RList spokeList opts) ;;
    spokeListItems <- of_res (ExtractList spokeList) ;;
    listItems <- fold_m (list_item list) spokeListItems [] ;;
    list <- of_res (SetList list listItems) ;;
    modify (λ _, list).

Definition only_used : error := ENew "conversionClient only implements methods used in CAPV".
Definition use_patch : error := ENew "update must not be used for hub types. Use patch instead".

Definition Apply (opts : Options) : MC unit :=
  obj <- get ;;
  if is_object obj && IsHub obj converter then fail only_used else pass_on (λ obj, RApply obj opts).

Definition Create (opts : Options) : MC unit :=
  isHub <- IsHub_obj ;;
  if negb (isHub : bool) then pass_on (λ obj, RCreate obj opts)
  else convert_and "creating it" (λ spokeObj, RCreate spokeObj opts).

Definition Delete (opts : Options) : MC unit :=
  isHub <- IsHub_obj ;;
  if negb (isHub : bool) then pass_on (λ obj, RDelete obj opts)
  else convert_and "deleting it" (λ spokeObj, RDelete spokeObj opts).

Definition Update (opts : Options) : MC unit :=
  isHub <- IsHub_obj ;;
  if negb (isHub : bool) then pass_on (λ obj, RUpdate obj opts) else fail use_patch.

Definition Patch_ (patch : Patch) (opts : Options) : MC unit :=
  isHub <- IsHub_obj ;;
  if negb (isHub : bool) then pass_on (λ obj, RPatch obj patch opts)
  else match patch with
  | Other _ => fail (ENew "patch must be created using sigs.k8s.io/cluster-api-provider-vsphere/pkg/conversion/client.MergeFrom or MergeFromWithOptions")
  | ConversionMergePatch _ _ => convert_and "patching it" (λ spokeObj, RPatch spokeObj patch opts)
  end.

Definition DeleteAllOf (opts : Options) : MC unit :=
  isHub <- IsHub_obj ;;
  if negb (isHub : bool) then pass_on (λ obj, RDeleteAllOf obj opts) else fail only_used.

(** ** Status *)

Definition status_Get : MC unit := fail only_used.
Definition status_Create : MC unit := fail only_used.
Definition status_Update : MC unit := fail use_patch.

Definition status_Patch (patch : Patch) (opts : Options) : MC unit :=
  isHub <- IsHub_obj ;;
  if negb (isHub : bool) then pass_on (λ obj, RStatusPatch obj patch opts)
  else convert_and "patching status on it" (λ spokeObj, RStatusPatch spokeObj patch opts).

Definition status_Apply (opts : Options) : MC unit :=
  obj <- get ;;
  if is_object obj && IsHub obj converter then fail only_used else pass_on (λ obj, RStatusApply obj opts).

(** ** Patches and watches *)

(** [MergeFromWithOptions]; [wrapped] says that the client is one of this package. *)
Definition MergeFromWithOptions (wrapped : bool) (obj : Obj) (opts : Options) : res Patch :=
  if negb wrapped then Err (ENew "client must be created using sigs.k8s.io/cluster-api-provider-vsphere/pkg/conversion/client.NewWithConverter")
  else _ ← SpokeGroupVersionKindFor obj converter; Ok (ConversionMergePatch obj opts).
Definition MergeFrom (wrapped : bool) (obj : Obj) (noOptions : Options) : res Patch := MergeFromWithOptions wrapped obj noOptions.

(** [Convert] for its result. *)
Definition converted (src dst : Obj) : res Obj := let '(dst, r) := Convert src dst converter in _ ← r; Ok dst.

(** [conversionMergePatch.Data]: the merge patch between the conversions of the original and of the modified object, which
    the client is given converted. *)
Definition Data (from : Obj) (options : Options) (obj : Obj) : res string :=
  fromObj ← newSpokeObjectFor from;
  (fromObj ← res_wrap (sprintf "failed to convert original %s to target version while computing patch data" [AS (KObj from)]) (converted from fromObj);
  toObj ← (if IsHub obj converter then
      toObj ← newSpokeObjectFor obj;
      res_wrap (sprintf "failed to convert modified %s to target version while computing patch data" [AS (KObj obj)]) (converted obj toObj)
    else Ok obj);
  gvkFrom ← client_GroupVersionKindFor fromObj;
  gvkTo ← client_GroupVersionKindFor toObj;
  if bool_decide (gvkFrom = gvkTo) then MergeData fromObj options toObj
  else Err (ENew (sprintf "cannot generate patch data between %s and %s" [AS (gvk_String gvkFrom); AS (gvk_String gvkTo)])))%stdpp.

Definition WatchObject (wrapped : bool) (obj : Obj) : res Obj :=
  if negb wrapped then Err (ENew "client must be created using sigs.k8s.io/cluster-api-provider-vsphere/pkg/conversion/client.NewWithConverter")
  else _ ← SpokeGroupVersionKindFor obj converter; newSpokeObjectFor obj.

(** ** The client and its scheme *)

(** The errors of one hub type: of the type itself, and of the versions the scheme has of it. *)
Definition spoke_error (gvk : GroupVersionKind) (spokeGV : GroupVersion) : option error :=
  if bool_decide (spokeGV = k_GroupVersion gvk) then None
  else
    let spokeGVK := WithKind spokeGV (k_Kind gvk) in
    if negb (scheme_Recognizes spokeGVK) then None
    else if Recognizes spokeGVK converter then None
    else Some (ENew (sprintf "converter is configured to handle %s but it is not configured for handling conversions from/to %s which is registered in the client scheme" [AS (gvk_String gvk); AS (v_Version spokeGV)])).
Definition scheme_errors (gvk : GroupVersionKind) : list error :=
  if is_list (k_Kind gvk) then []
  else ((if negb (scheme_Recognizes gvk) then [ENew (sprintf "converter is configured to handle %s but the client scheme is not aware of this type" [AS (gvk_String gvk)])] else []) ++
    omap (spoke_error gvk) (PrioritizedVersionsForGroup (k_Group gvk)))%list.

(** The order of the errors is that of a map, which Go does not fix. *)
Definition checkConverterAndSchemeAreConsistent : option error :=
  NewAggregate (map Some (mjoin (map scheme_errors (map fst (map_to_list (AllKnownHubTypes converter)))))).

(** A client is made when they are. *)
Definition NewWithConverter : res Converter :=
  match checkConverterAndSchemeAreConsistent with Some err => Err err | None => Ok converter end.

Lemma scheme_errors_none gvk : scheme_errors gvk = [] -> is_list (k_Kind gvk) = false -> scheme_Recognizes gvk = true /\
  forall gv, gv ∈ PrioritizedVersionsForGroup (k_Group gvk) -> gv <> k_GroupVersion gvk -> scheme_Recognizes (WithKind gv (k_Kind gvk)) = true ->
    Recognizes (WithKind gv (k_Kind gvk)) converter = true.
Proof.
  unfold scheme_errors. intros E Hl. rewrite Hl in E. apply app_nil in E as (E1 & E2). split; [by destruct (scheme_Recognizes gvk)|].
  intros gv Hgv Hne Hr. destruct (Recognizes (WithKind gv (k_Kind gvk)) converter) eqn:Ec; [done|].
  assert (Hin : exists e, spoke_error gvk gv = Some e) by (unfold spoke_error; rewrite bool_decide_false by done; rewrite Hr, Ec; eauto).
  destruct Hin as [e He]. assert (Hel : e ∈ omap (spoke_error gvk) (PrioritizedVersionsForGroup (k_Group gvk))) by (apply list_elem_of_omap; eauto).
  rewrite E2 in Hel. by apply not_elem_of_nil in Hel.
Qed.

(** A client knows the hub types, and the converter the versions of them the client knows. *)
Lemma NewWithConverter_consistent gvk t : NewWithConverter = Ok converter -> AllKnownHubTypes converter !! gvk = Some t -> is_list (k_Kind gvk) = false ->
  scheme_Recognizes gvk = true /\
  forall gv, gv ∈ PrioritizedVersionsForGroup (k_Group gvk) -> gv <> k_GroupVersion gvk -> scheme_Recognizes (WithKind gv (k_Kind gvk)) = true ->
    Recognizes (WithKind gv (k_Kind gvk)) converter = true.
Proof.
  unfold NewWithConverter, checkConverterAndSchemeAreConsistent. intros E Ht. apply scheme_errors_none.
  destruct (scheme_errors gvk) as [|e l] eqn:El; [done|]. exfalso.
  destruct (mjoin (map scheme_errors (map fst (map_to_list (AllKnownHubTypes converter))))) eqn:Ej; [|done].
  assert (Hin : e ∈ mjoin (map scheme_errors (map fst (map_to_list (AllKnownHubTypes converter))))).
  { apply list_elem_of_join. exists (scheme_errors gvk). split; [rewrite El; by left|].
    apply list_elem_of_fmap. exists gvk. split; [done|]. apply list_elem_of_fmap. exists (gvk, t). split; [done|]. by apply elem_of_map_to_list. }
  rewrite Ej in Hin. by apply not_elem_of_nil in Hin.
Qed.

(** * What reaches the API server *)

(** The scheme makes objects of the types the converter knows. *)
Definition scheme_types : Prop := forall gvk o gvk', scheme_New gvk = Ok o -> GroupVersionKindFor o converter = Ok gvk' -> gvk' = gvk.

(** A version hub types are converted to has no hub types. *)
Definition separated : Prop := forall a b kind, is_Some (conversion_func converter a b) -> hub_type converter a = true ->
  hub_type converter (mkGroupVersionKind (k_Group b) (k_Version b) kind) = false.

(** The data of a patch of this package is made of two objects, neither of a hub type. *)
Definition data_without_hubs (from : Obj) (options : Options) (obj : Obj) : Prop :=
  forall data, Data from options obj = Ok data -> exists fromObj toObj, MergeData fromObj options toObj = Ok data /\
    IsHub fromObj converter = false /\ IsHub toObj converter = false.

(** A request without an object of a hub type: not the one it is for, and none in the data of the patch, which the client inside asks for
    with that object. *)
Definition not_hub (c : call Req) : Prop :=
  match c with
  | Call e _ => IsHub (request_object e) converter = false /\
      match e with
      | RPatch obj (ConversionMergePatch from options) _ | RStatusPatch obj (ConversionMergePatch from options) _ =>
          data_without_hubs from options obj
      | _ => True
      end
  end.

Lemma target_not_hub (new : Obj -> bool) text obj o : scheme_types -> separated ->
  (gvk ← SpokeGroupVersionKindFor obj converter; o ← scheme_New gvk; if new o then Ok o else Err (text gvk))%stdpp = Ok o ->
  IsHub o converter = false.
Proof.
  intros Ht Hs (gvk & Hg & (o' & Ho & E)%res_bind_ok)%res_bind_ok. destruct (new o'); [|done]. injection E as <-.
  unfold IsHub. destruct (GroupVersionKindFor o' converter) as [gvk'| |] eqn:Eo; [|done..].
  apply (Ht _ _ _ Ho) in Eo as ->. apply SpokeGroupVersionKindFor_ok in Hg as (g & a & v & _ & Ha & _ & Hf & _ & _ & Eg & Ev & _).
  destruct gvk as [gg gv gk]. cbn in *. subst. apply (Hs a _ gk Hf Ha).
Qed.
Lemma spoke_not_hub obj o : scheme_types -> separated -> newSpokeObjectFor obj = Ok o -> IsHub o converter = false.
Proof. intros Ht Hs. apply (target_not_hub is_object _ obj o Ht Hs). Qed.
Lemma spoke_list_not_hub obj o : scheme_types -> separated -> newSpokeObjectListFor obj = Ok o -> IsHub o converter = false.
Proof. intros Ht Hs. apply (target_not_hub is_object_list _ obj o Ht Hs). Qed.

Lemma converted_not_hub obj sp o : scheme_types -> separated -> newSpokeObjectFor obj = Ok sp -> converted obj sp = Ok o ->
  IsHub o converter = false.
Proof.
  intros Ht Hs En. unfold converted. destruct (Convert obj sp converter) as [o' r] eqn:Ec. intros (u & _ & [= <-])%res_bind_ok.
  unfold IsHub. rewrite (GroupVersionKindFor_shape o' sp); [by apply (spoke_not_hub obj)|]. by rewrite <-(Convert_shape converter obj sp), Ec.
Qed.

Lemma data_of_spokes from options obj : scheme_types -> separated -> data_without_hubs from options obj.
Proof.
  intros Ht Hs data. unfold Data. intros (sp & Hsp & (fromObj & Hfrom & (toObj & Hto & (gvkFrom & _ & (gvkTo & _ & Hd)%res_bind_ok)%res_bind_ok)%res_bind_ok)%res_bind_ok)%res_bind_ok.
  exists fromObj, toObj. destruct (bool_decide _); [|done]. split; [done|]. split.
  - destruct (converted from sp) as [o|e|w] eqn:Ec; [|done..]. injection Hfrom as <-. by apply (converted_not_hub from sp).
  - destruct (IsHub obj converter) eqn:Eh; [|by injection Hto as <-].
    apply res_bind_ok in Hto as (sp' & Hsp' & Hto). destruct (converted obj sp') as [o|e|w] eqn:Ec; [|done..]. injection Hto as <-.
    by apply (converted_not_hub obj sp').
Qed.

Inductive operation :=
| OpGet (key : ObjectKey) (opts : Options)
| OpList (opts : Options)
| OpCreate (opts : Options)
| OpDelete (opts : Options)
| OpUpdate (opts : Options)
| OpPatch (patch : Patch) (opts : Options)
| OpDeleteAllOf (opts : Options)
| OpStatusPatch (patch : Patch) (opts : Options)
| OpApply (opts : Options)
| OpStatusApply (opts : Options)
| OpStatusGet
| OpStatusCreate
| OpStatusUpdate.
Definition perform (op : operation) : MC unit :=
  match op with
  | OpGet key opts => Get key opts
  | OpList opts => List opts
  | OpCreate opts => Create opts
  | OpDelete opts => Delete opts
  | OpUpdate opts => Update opts
  | OpPatch patch opts => Patch_ patch opts
  | OpDeleteAllOf opts => DeleteAllOf opts
  | OpStatusPatch patch opts => status_Patch patch opts
  | OpApply opts => Apply opts
  | OpStatusApply opts => status_Apply opts
  | OpStatusGet => status_Get
  | OpStatusCreate => status_Create
  | OpStatusUpdate => status_Update
  end.

(** An apply configuration of a hub type is a [client.Object]: nothing else is looked at. *)
Definition applicable (op : operation) (obj : Obj) : Prop :=
  match op with OpApply _ | OpStatusApply _ => IsHub obj converter = true -> is_object obj = true | _ => True end.

Lemma pass_on_spec e obj (Q : list (call Req) -> res unit -> Obj -> Prop) :
  (forall x, Q [Call (e obj) x] (match x.2 with None => Ok tt | Some err => Err err end) x.1) -> wpm (pass_on e) obj Q.
Proof. intros HQ. unfold pass_on. do 6 wp_step. specialize (HQ x). destruct x as [o [err|]]; cbn; by wp_step. Qed.

Lemma convert_and_spec doing e obj (Q : list (call Req) -> res unit -> Obj -> Prop) :
  (forall err, Q [] (Err err) obj) -> (forall w, Q [] (Stop w) obj) ->
  (forall spokeObj spokeObj' x r obj', newSpokeObjectFor obj = Ok spokeObj -> Convert obj spokeObj converter = (spokeObj', Ok tt) ->
    (r = Ok tt -> x.2 = None /\ Convert x.1 obj converter = (obj', Ok tt)) ->
    Q [Call (e spokeObj') x] r obj') -> wpm (convert_and doing e) obj Q.
Proof.
  intros H1 H2 H3. unfold convert_and, convert_into, convert_back, request.
  do 4 wp_step. destruct (newSpokeObjectFor obj) as [spokeObj|err|w] eqn:En; cbn; [|apply H1|apply H2].
  do 2 wp_step. destruct (Convert obj spokeObj converter) as [spokeObj' r] eqn:Ec. do 2 wp_step. destruct r as [[]|err|w]; cbn; [|apply H1|apply H2].
  wp_step. cbn. do 3 wp_step. destruct x as [o [err|]]; wp_step; cbn.
  - by apply (H3 spokeObj spokeObj' (o, Some err)).
  - do 3 wp_step. destruct (Convert o obj converter) as [obj' r] eqn:Eb. do 3 wp_step.
    apply (H3 spokeObj spokeObj' (o, None) _ obj' eq_refl Ec). destruct r as [[]|?|?]; cbn; done.
Qed.

Lemma list_item_spec lst items x s (Q : list (call Req) -> res (list Obj) -> Obj -> Prop) :
  (forall r, Q [] r s) -> wpm (list_item lst items x) s Q.
Proof.
  intros HQ. unfold list_item. destruct (is_object x); cbn [negb]; [|by wp_step].
  do 2 wp_step. destruct (newObjectListItemFor lst) as [li|e|w]; [|apply HQ..].
  destruct (Convert x li converter) as [li' r]. do 3 wp_step. destruct r; cbn beta iota delta [res_wrap]; [apply wpm_ret|..]; apply HQ.
Qed.
Lemma fold_items_spec lst l s (Q : list (call Req) -> res (list Obj) -> Obj -> Prop) items :
  (forall r, Q [] r s) -> wpm (fold_m (list_item lst) l items) s Q.
Proof.
  intros HQ. revert items. induction l as [|x l IH]; intros items; [by apply wpm_ret|]. cbn [fold_m]. wp_step. apply list_item_spec.
  intros [items'|e|w]; [apply IH|apply HQ..].
Qed.

Lemma by_hub (m1 m2 : MC unit) obj (Q : list (call Req) -> res unit -> Obj -> Prop) :
  (IsHub obj converter = false -> wpm m1 obj Q) -> (IsHub obj converter = true -> wpm m2 obj Q) ->
  wpm (isHub <- IsHub_obj ;; if negb (isHub : bool) then m1 else m2) obj Q.
Proof. intros H1 H2. unfold IsHub_obj. do 2 wp_step. destruct (IsHub obj converter); [by apply H2|by apply H1]. Qed.

(** A request with one object. *)
Lemma request_spec e obj (Q : list (call Req) -> res Obj -> Obj -> Prop) :
  (forall x, Q [Call e x] (match x.2 with None => Ok x.1 | Some err => Err err end) obj) -> wpm (request e) obj Q.
Proof. intros HQ. unfold request. do 2 wp_step. specialize (HQ x). destruct x as [o [err|]]; by wp_step. Qed.

Lemma convert_back_spec o obj (Q : list (call Req) -> res unit -> Obj -> Prop) :
  Q [] (Convert o obj converter).2 (Convert o obj converter).1 -> wpm (convert_back o) obj Q.
Proof. intros HQ. unfold convert_back. do 2 wp_step. destruct (Convert o obj converter) as [obj' r]. by do 3 wp_step. Qed.

Lemma Get_spec key opts obj (Q : list (call Req) -> res unit -> Obj -> Prop) :
  (forall r, r <> Ok tt -> Q [] r obj) ->
  (forall spokeObj x r obj', newSpokeObjectFor obj = Ok spokeObj ->
    (r = Ok tt -> x.2 = None /\ Convert x.1 obj converter = (obj', Ok tt)) -> Q [Call (RGet key spokeObj opts) x] r obj') ->
  IsHub obj converter = true -> wpm (Get key opts) obj Q.
Proof.
  intros H1 H2 Hh. unfold Get. apply by_hub; [congruence|]. intros _. do 4 wp_step. destruct (newSpokeObjectFor obj) as [sp|e|w] eqn:En; [|by apply H1..].
  wp_step. apply request_spec. intros [o [err|]]; cbn beta iota delta [fst snd]; [by apply (H2 sp)|]. wp_step. apply convert_back_spec.
  apply (H2 sp); [done|]. cbn [fst snd]. destruct (Convert o obj converter) as [obj' [[]|e|w]]; [by split|done..].
Qed.

Lemma List_spec opts obj (Q : list (call Req) -> res unit -> Obj -> Prop) :
  (forall r, Q [] r obj) ->
  (forall spokeList x r obj', newSpokeObjectListFor obj = Ok spokeList -> Q [Call (RList spokeList opts) x] r obj') ->
  IsHub obj converter = true -> wpm (List opts) obj Q.
Proof.
  intros H1 H2 Hh. unfold List. apply by_hub; [congruence|]. intros _. do 4 wp_step. destruct (newSpokeObjectListFor obj) as [sp|e|w] eqn:En; [|apply H1..].
  wp_step. apply request_spec. intros [o [err|]]; cbn beta iota delta [fst snd]; [by apply H2|]. do 2 wp_step.
  destruct (ExtractList o); [|by apply H2..]. wp_step. apply fold_items_spec. intros [items|e|w]; cbn beta iota; [|by apply H2..].
  do 2 wp_step. destruct (SetList obj items); [|by apply H2..]. wp_step. by apply H2.
Qed.

(** C26: Whatever is done with an object, the API server is only sent objects of the versions it knows: no request of any operation holds
    an object of a hub type, and the data of a patch of this package is the merge patch between two objects that are of no hub type. This
    needs that the scheme makes for a group, version and kind an object of the type the converter has for it; that the versions hub types
    are converted to have no hub types; and that what is applied is a [client.Object] if it is of a hub type. *)
Theorem no_hub_is_sent (op : operation) obj (Ht : scheme_types) (Hs : separated) (Ha : applicable op obj) :
  wpm (perform op) obj (fun tr _ _ => Forall not_hub tr).
Proof.
  pose proof (fun from options o => data_of_spokes from options o Ht Hs) as Hdata.
  assert (Hnot : forall X (e : Req X) x, IsHub (request_object e) converter = false -> not_hub (Call e x)).
  { intros X e x Hh. split; [exact Hh|]. destruct e as [| | | | | |o [from options|q] opts| |o [from options|q] opts|]; try done; apply Hdata. }
  assert (Hpass : forall e, (forall o, request_object (e o) = o) -> IsHub obj converter = false -> wpm (pass_on e) obj (fun tr _ _ => Forall not_hub tr)).
  { intros e He Hh. apply pass_on_spec. intros x. apply Forall_singleton, Hnot. by rewrite He. }
  assert (Hconv : forall doing e, (forall o, request_object (e o) = o) -> wpm (convert_and doing e) obj (fun tr _ _ => Forall not_hub tr)).
  { intros doing e He. apply convert_and_spec; [constructor..|]. intros sp sp' x r obj' En Ec _. apply Forall_singleton, Hnot. rewrite He.
    unfold IsHub. rewrite (GroupVersionKindFor_shape sp' sp); [by apply (spoke_not_hub obj)|]. by rewrite <-(Convert_shape converter obj sp), Ec. }
  assert (Happly : forall e, (forall o, request_object (e o) = o) -> (IsHub obj converter = true -> is_object obj = true) ->
    wpm (obj <- get ;; if is_object obj && IsHub obj converter then fail only_used else pass_on e) obj (fun tr _ _ => Forall not_hub tr)).
  { intros e He Hobj. do 2 wp_step. destruct (IsHub obj converter) eqn:Eh.
    - rewrite Hobj by done. by apply wpm_fail.
    - rewrite andb_false_r. by apply Hpass. }
  destruct op as [key opts|opts|opts|opts|opts|[from o|q] opts|opts|patch opts|opts|opts| | |]; cbn [perform].
  - destruct (IsHub obj converter) eqn:Eh.
    + apply Get_spec; [constructor| |done]. intros sp x r obj' En _. apply Forall_singleton, Hnot. by apply (spoke_not_hub obj).
    + apply by_hub; [intros _; by apply Hpass|congruence].
  - destruct (IsHub obj converter) eqn:Eh.
    + apply List_spec; [constructor| |done]. intros sp x r obj' En. apply Forall_singleton, Hnot. by apply (spoke_list_not_hub obj).
    + apply by_hub; [intros _; by apply Hpass|congruence].
  - apply by_hub; intros Eh; [by apply Hpass|by apply Hconv].
  - apply by_hub; intros Eh; [by apply Hpass|by apply Hconv].
  - apply by_hub; intros Eh; [by apply Hpass|by apply wpm_fail].
  - apply by_hub; intros Eh; [by apply Hpass|by apply Hconv].
  - apply by_hub; intros Eh; [by apply Hpass|by apply wpm_fail].
  - apply by_hub; intros Eh; [by apply Hpass|by apply wpm_fail].
  - apply by_hub; intros Eh; [by apply Hpass|by apply Hconv].
  - by apply Happly.
  - by apply Happly.
  - by apply wpm_fail.
  - by apply wpm_fail.
  - by apply wpm_fail.
Qed.

(** An object that was read as a hub type is created, deleted and patched in the version it was read in: what the API server is sent then is of
    the Go type of what it answered. *)
Theorem written_as_read sel (Hc : built sel converter) key opts obj (Hh : IsHub obj converter = true) op
    (Hop : match op with OpCreate _ | OpDelete _ | OpPatch _ _ | OpStatusPatch _ _ => True | _ => False end) :
  wpm (Get key opts) obj (fun tr r obj' => r = Ok tt ->
    exists spokeObj answer, tr = [Call (RGet key spokeObj opts) (answer, None)] /\
    wpm (perform op) obj' (fun tr' _ _ => Forall (fun c => match c with Call e _ => shape_of (request_object e) = shape_of answer end) tr')).
Proof.
  apply Get_spec; [done| |done]. intros sp [answer o] r obj' En HQ Hr. destruct (HQ Hr) as (Ho & Ec). cbn in Ho, Ec. subst o. exists sp, answer. split; [done|].
  assert (Hh' : IsHub obj' converter = true).
  { unfold IsHub in *. rewrite (GroupVersionKindFor_shape obj' obj); [done|]. by rewrite <-(Convert_shape converter answer obj), Ec. }
  assert (Hconv : forall doing e, (forall o, request_object (e o) = o) ->
    wpm (convert_and doing e) obj' (fun tr' _ _ => Forall (fun c => match c with Call e _ => shape_of (request_object e) = shape_of answer end) tr')).
  { intros doing e He. apply convert_and_spec; [constructor..|]. intros sp2 sp2' x r2 obj2 _ Ec2 _. apply Forall_singleton. rewrite He.
    transitivity (shape_of sp2); [by rewrite <-(Convert_shape converter obj' sp2), Ec2|].
    pose proof (goes_back sel converter answer obj obj' sp2 Hc Ec Hh) as Hb. by rewrite Ec2 in Hb. }
  destruct op as [| |opts'|opts'| |[from o|p] opts'| |patch opts'| | | | |]; try done; cbn [perform]; apply by_hub; try congruence; intros _; first [by apply Hconv|by apply wpm_fail].
Qed.
End client.
