(* ===== verification/VmopClient.v ===== *)
(** The conversion client with the default converter: what an object of VM Operator becomes between
    the API server and a controller; and concrete objects, converters and schemes for which the theorems about the
    converter and the client are used. *)
From stdpp Require Import gmap strings.
From S2P Require Export VmopConverter ConversionClient.

(** * An object that is read and written again *)

(** The operations that send an object the caller has. *)
Definition sends_object {Options OtherPatch : Type} (op : operation (Obj := Obj) (Options := Options) (OtherPatch := OtherPatch)) : bool :=
  match op with OpCreate _ | OpDelete _ | OpPatch _ _ | OpStatusPatch _ _ => true | _ => false end.

Section read_and_written.
Context {Options OtherPatch : Type} `{!Scheme (Obj := Obj) (Options := Options)}.

(** A scheme makes new objects. *)
Definition makes_new_objects : Prop := forall gvk o, scheme_New gvk = Ok o -> o = new_same o.

Lemma new_spoke c obj sp : makes_new_objects -> newSpokeObjectFor c obj = Ok sp -> sp = new_same sp.
Proof.
  intros Hnew (gvk & _ & (o & Ho & E)%res_bind_ok)%res_bind_ok. destruct (ConversionClient.is_object o); [|done]. injection E as <-. by apply (Hnew gvk).
Qed.

(** What an object that was read is converted to. *)
Lemma sent_back tv answer obj obj' sp sp' : obj = new_same obj -> IsHub obj (default_converter tv) = true ->
  Convert answer obj (default_converter tv) = (obj', Ok tt) -> sp = new_same sp -> Convert obj' sp (default_converter tv) = (sp', Ok tt) -> sp' = tidy answer.
Proof.
  intros Hobj Hhub Hc Hsp Hc'. destruct (converted_kind tv answer obj obj' Hc Hhub) as (Hl & Ho & Hv & Hk).
  pose proof (new_hub_kind answer obj Hl Ho Hv Hk) as Hn. destruct (version_and_back tv answer Hv) as (hub & E1 & _ & E2).
  rewrite Hn, <-Hobj, Hc in E1. injection E1 as <-.
  pose proof (goes_back _ _ answer obj obj' sp (default_built tv _ (DefaultConverterFor_eq tv)) Hc Hhub) as Hb. rewrite Hc' in Hb.
  assert (Hsame : new_same answer = new_same sp) by (apply new_same_shape; [by destruct answer|done]).
  rewrite Hsame, <-Hsp, Hc' in E2. by injection E2.
Qed.

(** An object that is read as the hub version and sent again as it is, by a create, a delete or a patch, is sent in the version it was read in and with
    everything the hub version has of it. The records of the versions hold the fields that the conversions read or write: what an object of the API
    server has beyond these, such as [spec.suspendMode] or [spec.nextRestartTime], is no part of them, and is not sent again. *)
Theorem sent_as_it_was_read tv c (Hc : DefaultConverterFor tv = Ok c) (Hnew : makes_new_objects)
    (key : ObjectKey) (opts : Options) obj (Hobj : obj = new_same obj) (Hhub : IsHub obj c = true) (op : operation (OtherPatch := OtherPatch)) (Hop : sends_object op = true) :
  wpm (Get (OtherPatch := OtherPatch) c key opts) obj (fun tr r obj' => r = Ok tt ->
    exists spokeObj answer, tr = [Call (RGet key spokeObj opts) (answer, None)] /\
    wpm (perform c op) obj' (fun tr' _ _ => Forall (fun call => match call with Call e _ => request_object e = tidy answer end) tr')).
Proof.
  rewrite DefaultConverterFor_eq in Hc. injection Hc as <-. pose proof (sent_back tv) as Hback.
  generalize dependent (default_converter tv). intros c Hhub Hback. apply Get_spec; [done| |done]. intros sp [answer o] r obj' En HQ Hr. destruct (HQ Hr) as (Ho & Ec). cbn in Ho, Ec. subst o. exists sp, answer. split; [done|].
  assert (Hh' : IsHub obj' c = true).
  { unfold IsHub in *. rewrite (GroupVersionKindFor_shape obj' obj); [done|]. by rewrite <-(Convert_shape c answer obj), Ec. }
  assert (Hconv : forall doing e, (forall o, request_object (e o) = o) ->
    wpm (convert_and (OtherPatch := OtherPatch) c doing e) obj' (fun tr' _ _ => Forall (fun call => match call with Call e _ => request_object e = tidy answer end) tr')).
  { intros doing e He. apply convert_and_spec; [constructor..|]. intros sp2 sp2' x r2 obj2 En2 Ec2 _. apply Forall_singleton. rewrite He.
    by apply (Hback answer obj obj' sp2 sp2' Hobj Hhub Ec (new_spoke c obj' sp2 Hnew En2)). }
  destruct op as [| |opts'|opts'| |[from o|p] opts'| |patch opts'| | | | |]; try discriminate Hop; cbn [perform]; apply by_hub; try congruence; intros _; first [by apply Hconv|by apply wpm_fail].
Qed.
End read_and_written.

(** * Concrete converters, schemes and objects *)

Definition vmop_v1alpha2 : GroupVersion := version_GroupVersion "v1alpha2".
Definition ref_converter : Converter := default_converter [mkGroupVersion "other.vmware.com" "v1"; vmop_v1alpha2].

(** A scheme with every type of every version. *)
Definition ref_types : list (GroupVersionKind * Obj) := [
  (gvk_of "hub" "VirtualMachine", hub_VirtualMachine vmophub.zero_VirtualMachine); (gvk_of "hub" "VirtualMachineList", ListOf hub_path "VirtualMachine" []);
  (gvk_of "hub" "VirtualMachineClass", hub_VirtualMachineClass vmophub.zero_VirtualMachineClass); (gvk_of "hub" "VirtualMachineClassList", ListOf hub_path "VirtualMachineClass" []);
  (gvk_of "hub" "VirtualMachineGroup", hub_VirtualMachineGroup vmophub.zero_VirtualMachineGroup); (gvk_of "hub" "VirtualMachineGroupList", ListOf hub_path "VirtualMachineGroup" []);
  (gvk_of "hub" "VirtualMachineImage", hub_VirtualMachineImage vmophub.zero_VirtualMachineImage); (gvk_of "hub" "VirtualMachineImageList", ListOf hub_path "VirtualMachineImage" []);
  (gvk_of "hub" "ClusterVirtualMachineImage", hub_ClusterVirtualMachineImage vmophub.zero_ClusterVirtualMachineImage); (gvk_of "hub" "ClusterVirtualMachineImageList", ListOf hub_path "ClusterVirtualMachineImage" []);
  (gvk_of "hub" "VirtualMachineService", hub_VirtualMachineService vmophub.zero_VirtualMachineService); (gvk_of "hub" "VirtualMachineServiceList", ListOf hub_path "VirtualMachineService" []);
  (gvk_of "hub" "VirtualMachineSetResourcePolicy", hub_VirtualMachineSetResourcePolicy vmophub.zero_VirtualMachineSetResourcePolicy); (gvk_of "hub" "VirtualMachineSetResourcePolicyList", ListOf hub_path "VirtualMachineSetResourcePolicy" []);
  (gvk_of "v1alpha2" "VirtualMachine", v1alpha2_VirtualMachine vmoprv1alpha2.zero_VirtualMachine); (gvk_of "v1alpha2" "VirtualMachineList", ListOf (version_path "v1alpha2") "VirtualMachine" []);
  (gvk_of "v1alpha2" "VirtualMachineClass", v1alpha2_VirtualMachineClass vmoprv1alpha2.zero_VirtualMachineClass); (gvk_of "v1alpha2" "VirtualMachineClassList", ListOf (version_path "v1alpha2") "VirtualMachineClass" []);
  (gvk_of "v1alpha2" "VirtualMachineGroup", v1alpha2_VirtualMachineGroup vmoprv1alpha2.zero_VirtualMachineGroup); (gvk_of "v1alpha2" "VirtualMachineGroupList", ListOf (version_path "v1alpha2") "VirtualMachineGroup" []);
  (gvk_of "v1alpha2" "VirtualMachineImage", v1alpha2_VirtualMachineImage vmoprv1alpha2.zero_VirtualMachineImage); (gvk_of "v1alpha2" "VirtualMachineImageList", ListOf (version_path "v1alpha2") "VirtualMachineImage" []);
  (gvk_of "v1alpha2" "ClusterVirtualMachineImage", v1alpha2_ClusterVirtualMachineImage vmoprv1alpha2.zero_ClusterVirtualMachineImage); (gvk_of "v1alpha2" "ClusterVirtualMachineImageList", ListOf (version_path "v1alpha2") "ClusterVirtualMachineImage" []);
  (gvk_of "v1alpha2" "VirtualMachineService", v1alpha2_VirtualMachineService vmoprv1alpha2.zero_VirtualMachineService); (gvk_of "v1alpha2" "VirtualMachineServiceList", ListOf (version_path "v1alpha2") "VirtualMachineService" []);
  (gvk_of "v1alpha2" "VirtualMachineSetResourcePolicy", v1alpha2_VirtualMachineSetResourcePolicy vmoprv1alpha2.zero_VirtualMachineSetResourcePolicy); (gvk_of "v1alpha2" "VirtualMachineSetResourcePolicyList", ListOf (version_path "v1alpha2") "VirtualMachineSetResourcePolicy" []);
  (gvk_of "v1alpha5" "VirtualMachine", v1alpha5_VirtualMachine vmoprv1alpha5.zero_VirtualMachine); (gvk_of "v1alpha5" "VirtualMachineList", ListOf (version_path "v1alpha5") "VirtualMachine" []);
  (gvk_of "v1alpha5" "VirtualMachineClass", v1alpha5_VirtualMachineClass vmoprv1alpha5.zero_VirtualMachineClass); (gvk_of "v1alpha5" "VirtualMachineClassList", ListOf (version_path "v1alpha5") "VirtualMachineClass" []);
  (gvk_of "v1alpha5" "VirtualMachineGroup", v1alpha5_VirtualMachineGroup vmoprv1alpha5.zero_VirtualMachineGroup); (gvk_of "v1alpha5" "VirtualMachineGroupList", ListOf (version_path "v1alpha5") "VirtualMachineGroup" []);
  (gvk_of "v1alpha5" "VirtualMachineImage", v1alpha5_VirtualMachineImage vmoprv1alpha5.zero_VirtualMachineImage); (gvk_of "v1alpha5" "VirtualMachineImageList", ListOf (version_path "v1alpha5") "VirtualMachineImage" []);
  (gvk_of "v1alpha5" "ClusterVirtualMachineImage", v1alpha5_ClusterVirtualMachineImage vmoprv1alpha5.zero_ClusterVirtualMachineImage); (gvk_of "v1alpha5" "ClusterVirtualMachineImageList", ListOf (version_path "v1alpha5") "ClusterVirtualMachineImage" []);
  (gvk_of "v1alpha5" "VirtualMachineService", v1alpha5_VirtualMachineService vmoprv1alpha5.zero_VirtualMachineService); (gvk_of "v1alpha5" "VirtualMachineServiceList", ListOf (version_path "v1alpha5") "VirtualMachineService" []);
  (gvk_of "v1alpha5" "VirtualMachineSetResourcePolicy", v1alpha5_VirtualMachineSetResourcePolicy vmoprv1alpha5.zero_VirtualMachineSetResourcePolicy); (gvk_of "v1alpha5" "VirtualMachineSetResourcePolicyList", ListOf (version_path "v1alpha5") "VirtualMachineSetResourcePolicy" []);
  (gvk_of "v1alpha6" "VirtualMachine", v1alpha6_VirtualMachine vmoprv1alpha6.zero_VirtualMachine); (gvk_of "v1alpha6" "VirtualMachineList", ListOf (version_path "v1alpha6") "VirtualMachine" []);
  (gvk_of "v1alpha6" "VirtualMachineClass", v1alpha6_VirtualMachineClass vmoprv1alpha6.zero_VirtualMachineClass); (gvk_of "v1alpha6" "VirtualMachineClassList", ListOf (version_path "v1alpha6") "VirtualMachineClass" []);
  (gvk_of "v1alpha6" "VirtualMachineGroup", v1alpha6_VirtualMachineGroup vmoprv1alpha6.zero_VirtualMachineGroup); (gvk_of "v1alpha6" "VirtualMachineGroupList", ListOf (version_path "v1alpha6") "VirtualMachineGroup" []);
  (gvk_of "v1alpha6" "VirtualMachineImage", v1alpha6_VirtualMachineImage vmoprv1alpha6.zero_VirtualMachineImage); (gvk_of "v1alpha6" "VirtualMachineImageList", ListOf (version_path "v1alpha6") "VirtualMachineImage" []);
  (gvk_of "v1alpha6" "ClusterVirtualMachineImage", v1alpha6_ClusterVirtualMachineImage vmoprv1alpha6.zero_ClusterVirtualMachineImage); (gvk_of "v1alpha6" "ClusterVirtualMachineImageList", ListOf (version_path "v1alpha6") "ClusterVirtualMachineImage" []);
  (gvk_of "v1alpha6" "VirtualMachineService", v1alpha6_VirtualMachineService vmoprv1alpha6.zero_VirtualMachineService); (gvk_of "v1alpha6" "VirtualMachineServiceList", ListOf (version_path "v1alpha6") "VirtualMachineService" []);
  (gvk_of "v1alpha6" "VirtualMachineSetResourcePolicy", v1alpha6_VirtualMachineSetResourcePolicy vmoprv1alpha6.zero_VirtualMachineSetResourcePolicy); (gvk_of "v1alpha6" "VirtualMachineSetResourcePolicyList", ListOf (version_path "v1alpha6") "VirtualMachineSetResourcePolicy" [])
].
Definition ref_New (gvk : GroupVersionKind) : res Obj :=
  match List.find (λ e, bool_decide (fst e = gvk)) ref_types with
  | Some (_, o) => Ok o
  | None => Err (ENew (sprintf "no kind is registered for %s" [AS (gvk_String gvk)]))
  end.
#[local] Instance ref_scheme : Scheme (Obj := Obj) (Options := unit) := {|
  scheme_New := ref_New;
  scheme_Recognizes gvk := existsb (λ e, bool_decide (fst e = gvk)) ref_types;
  PrioritizedVersionsForGroup group := if String.eqb group GroupName then hub_GroupVersion :: map version_GroupVersion ["v1alpha6"; "v1alpha5"; "v1alpha2"] else [];
  client_GroupVersionKindFor o := match List.find (λ e, bool_decide (type_of (snd e) = type_of o)) ref_types with Some (gvk, _) => Ok gvk | None => Err (ENew "no kind is registered") end;
  ConversionClient.is_object o := negb (list_object o);
  is_object_list := list_object;
  ExtractList o := match o with ListOf _ _ items => Ok items | _ => Err (ENew "no list") end;
  SetList o items := match o with ListOf path kind _ => Ok (ListOf path kind items) | _ => Err (ENew "no list") end;
  KObj _ := "object";
  go_type o := t_Name (type_of o);
  MergeData _ _ _ := Ok "{}"
|}.

Lemma ref_New_in gvk o : ref_New gvk = Ok o -> (gvk, o) ∈ ref_types.
Proof.
  unfold ref_New. destruct (List.find _ _) as [[g o']|] eqn:E; [|done]. intros [= <-]. apply List.find_some in E as (E & Eg).
  apply bool_decide_eq_true_1 in Eg as <-. by apply list_elem_of_In.
Qed.

Lemma ref_makes_new_objects : makes_new_objects (Options := unit).
Proof.
  intros gvk o E%ref_New_in. assert (Hall : Forall (λ e, snd e = new_same (snd e)) ref_types) by (unfold ref_types; repeat constructor).
  exact (proj1 (Forall_forall _ _) Hall _ E).
Qed.

(** The scheme and the converter agree on the types. *)
Definition agrees (e : GroupVersionKind * Obj) : bool :=
  match GroupVersionKindFor (snd e) ref_converter with Ok gvk => bool_decide (gvk = fst e) | _ => true end.
Lemma ref_scheme_types : scheme_types (Options := unit) ref_converter.
Proof.
  intros gvk o gvk' E%ref_New_in Eg. assert (Hall : forallb agrees ref_types = true) by (vm_compute; reflexivity).
  rewrite forallb_forall in Hall. apply list_elem_of_In, Hall in E. unfold agrees in E. cbn [fst snd] in E. rewrite Eg in E. by apply bool_decide_eq_true_1 in E.
Qed.

(** The kinds of the version hub are the hub types. *)
Lemma ref_hub_version gvk : hub_type ref_converter gvk = true -> k_Version gvk = "hub".
Proof.
  assert (Hall : forallb (λ e, implb (snd e) (String.eqb (k_Version (fst e)) "hub")) (map_to_list (gvkHubTypes default_tables)) = true) by (vm_compute; reflexivity).
  intros Hh. change (hub_type default_tables gvk = true) in Hh. unfold hub_type in Hh. destruct (gvkHubTypes default_tables !! gvk) as [[|]|] eqn:E; try discriminate Hh.
  rewrite forallb_forall in Hall. apply elem_of_map_to_list, list_elem_of_In, Hall in E. by apply String.eqb_eq.
Qed.
Lemma ref_separated : separated ref_converter.
Proof.
  intros a b kind [f Hf] Ha. destruct (hub_type ref_converter (mkGroupVersionKind (k_Group b) (k_Version b) kind)) eqn:Hb; [|reflexivity]. apply ref_hub_version in Ha, Hb. cbn in Hb.
  pose proof (built_wf _ _ (default_built _ _ (DefaultConverterFor_eq [mkGroupVersion "other.vmware.com" "v1"; vmop_v1alpha2]))) as Hwf.
  destruct (wf_funcs _ Hwf a b f Hf) as (_ & _ & Hv & _). congruence.
Qed.

(** A machine of v1alpha2 and the one it is read into. *)
Definition ref_machine : Obj := v1alpha2_VirtualMachine
  {|
    vmoprv1alpha2.VirtualMachine_ObjectMeta := vmoprv1alpha2.VirtualMachine_ObjectMeta vmoprv1alpha2.zero_VirtualMachine;
    vmoprv1alpha2.VirtualMachine_Spec := {|
    vmoprv1alpha2.VirtualMachineSpec_ImageName := "ubuntu";
    vmoprv1alpha2.VirtualMachineSpec_ClassName := "small";
    vmoprv1alpha2.VirtualMachineSpec_Affinity := vmoprv1alpha2.VirtualMachineSpec_Affinity vmoprv1alpha2.zero_VirtualMachineSpec;
    vmoprv1alpha2.VirtualMachineSpec_StorageClass := "fast";
    vmoprv1alpha2.VirtualMachineSpec_Bootstrap := vmoprv1alpha2.VirtualMachineSpec_Bootstrap vmoprv1alpha2.zero_VirtualMachineSpec;
    vmoprv1alpha2.VirtualMachineSpec_Network := vmoprv1alpha2.VirtualMachineSpec_Network vmoprv1alpha2.zero_VirtualMachineSpec;
    vmoprv1alpha2.VirtualMachineSpec_PowerState := "PoweredOn";
    vmoprv1alpha2.VirtualMachineSpec_PowerOffMode := vmoprv1alpha2.VirtualMachineSpec_PowerOffMode vmoprv1alpha2.zero_VirtualMachineSpec;
    vmoprv1alpha2.VirtualMachineSpec_Volumes := vmoprv1alpha2.VirtualMachineSpec_Volumes vmoprv1alpha2.zero_VirtualMachineSpec;
    vmoprv1alpha2.VirtualMachineSpec_ReadinessProbe := vmoprv1alpha2.VirtualMachineSpec_ReadinessProbe vmoprv1alpha2.zero_VirtualMachineSpec;
    vmoprv1alpha2.VirtualMachineSpec_Reserved := vmoprv1alpha2.VirtualMachineSpec_Reserved vmoprv1alpha2.zero_VirtualMachineSpec;
    vmoprv1alpha2.VirtualMachineSpec_MinHardwareVersion := vmoprv1alpha2.VirtualMachineSpec_MinHardwareVersion vmoprv1alpha2.zero_VirtualMachineSpec;
    vmoprv1alpha2.VirtualMachineSpec_GroupName := vmoprv1alpha2.VirtualMachineSpec_GroupName vmoprv1alpha2.zero_VirtualMachineSpec
  |};
    vmoprv1alpha2.VirtualMachine_Status := vmoprv1alpha2.VirtualMachine_Status vmoprv1alpha2.zero_VirtualMachine
  |}.
Definition ref_hub : Obj := hub_VirtualMachine vmophub.zero_VirtualMachine.
Definition ref_other : Obj := v1alpha5_VirtualMachine vmoprv1alpha5.zero_VirtualMachine.

Lemma ref_default : DefaultConverterFor [mkGroupVersion "other.vmware.com" "v1"; vmop_v1alpha2] = Ok ref_converter.
Proof. apply DefaultConverterFor_eq. Qed.
Lemma ref_hub_is_hub : IsHub ref_hub ref_converter = true.
Proof. vm_compute. reflexivity. Qed.

(** * The theorems at concrete inputs *)

Lemma converter_well_formed_witness : built (λ group _, target_version [mkGroupVersion "other.vmware.com" "v1"; vmop_v1alpha2] group) ref_converter /\ well_formed ref_converter.
Proof.
  split; [exact (default_built _ _ ref_default)|].
  exact (converter_well_formed (λ group _, target_version [mkGroupVersion "other.vmware.com" "v1"; vmop_v1alpha2] group) ref_converter (default_built _ _ ref_default)).
Defined.

Lemma hub_goes_back_witness : exists hub', Convert ref_machine ref_hub ref_converter = (hub', Ok tt) /\ IsHub ref_hub ref_converter = true /\
  match Convert hub' ref_other ref_converter with
  | (target', Ok _) => shape_of ref_other = shape_of ref_machine
  | (target', Err _) => shape_of ref_other <> shape_of ref_machine -> target' = ref_other
  | (_, Stop _) => shape_of ref_other = shape_of ref_machine
  end.
Proof.
  destruct (version_and_back [mkGroupVersion "other.vmware.com" "v1"; vmop_v1alpha2] ref_machine eq_refl) as (hub' & Hc & _).
  exists hub'. split; [exact Hc|]. split; [exact ref_hub_is_hub|].
  exact (hub_goes_back _ ref_converter (default_built _ _ ref_default) ref_machine ref_hub hub' ref_other Hc ref_hub_is_hub).
Defined.

Lemma nothing_is_lost_witness : DefaultConverterFor [mkGroupVersion "other.vmware.com" "v1"; vmop_v1alpha2] = Ok ref_converter /\ of_version ref_machine = true /\ hub_and_back_ok ref_converter ref_machine.
Proof.
  split; [exact ref_default|]. split; [reflexivity|].
  exact (nothing_is_lost _ ref_converter ref_default ref_machine eq_refl).
Defined.

Lemma newest_version_is_complete_witness : exists spoke, Convert ref_hub (new_v1alpha6 ref_hub) ref_converter = (spoke, Ok tt) /\ IsHub spoke ref_converter = false /\
  Convert spoke (new_same ref_hub) ref_converter = (SetSource "vmoperator.vmware.com/v1alpha6" (kept ref_hub), Ok tt).
Proof. exact (newest_version_is_complete _ ref_converter ref_default ref_hub eq_refl eq_refl eq_refl). Defined.

Lemma sent_in_the_target_version_witness : target_version [mkGroupVersion "other.vmware.com" "v1"; vmop_v1alpha2] GroupName = Ok "v1alpha2" /\
  SpokeGroupVersionKindFor (hub_list "VirtualMachineService") ref_converter = Ok (gvk_of "v1alpha2" "VirtualMachineServiceList").
Proof.
  split; [reflexivity|]. refine (sent_in_the_target_version _ ref_converter ref_default "v1alpha2" eq_refl _ (hub_list "VirtualMachineService") _).
  - apply list_elem_of_In. left. reflexivity.
  - split; [reflexivity|]. apply list_elem_of_In. cbn. auto 10.
Defined.

Lemma no_hub_is_sent_witness : scheme_types (Options := unit) ref_converter /\ separated ref_converter /\
  wpm (perform (OtherPatch := unit) ref_converter (OpCreate tt)) ref_hub (fun tr _ _ => Forall (not_hub (OtherPatch := unit) ref_converter) tr).
Proof.
  split; [exact ref_scheme_types|]. split; [exact ref_separated|].
  exact (no_hub_is_sent ref_converter (OpCreate tt) ref_hub ref_scheme_types ref_separated I).
Defined.

Lemma written_as_read_witness : built (λ group _, target_version [mkGroupVersion "other.vmware.com" "v1"; vmop_v1alpha2] group) ref_converter /\ IsHub ref_hub ref_converter = true /\
  wpm (Get (OtherPatch := unit) ref_converter ("default", "vm") tt) ref_hub (fun tr r obj' => r = Ok tt ->
    exists spokeObj answer, tr = [Call (RGet ("default", "vm") spokeObj tt) (answer, None)] /\
    wpm (perform (OtherPatch := unit) ref_converter (OpDelete tt)) obj' (fun tr' _ _ => Forall (fun c => match c with Call e _ => shape_of (request_object e) = shape_of answer end) tr')).
Proof.
  split; [exact (default_built _ _ ref_default)|]. split; [exact ref_hub_is_hub|].
  exact (written_as_read ref_converter _ (default_built _ _ ref_default) ("default", "vm") tt ref_hub ref_hub_is_hub (OpDelete tt) I).
Defined.

Lemma sent_as_it_was_read_witness : makes_new_objects (Options := unit) /\ ref_hub = new_same ref_hub /\
  wpm (Get (OtherPatch := unit) ref_converter ("default", "vm") tt) ref_hub (fun tr r obj' => r = Ok tt ->
    exists spokeObj answer, tr = [Call (RGet ("default", "vm") spokeObj tt) (answer, None)] /\
    wpm (perform (OtherPatch := unit) ref_converter (OpCreate tt)) obj' (fun tr' _ _ => Forall (fun call => match call with Call e _ => request_object e = tidy answer end) tr')).
Proof.
  split; [exact ref_makes_new_objects|]. split; [reflexivity|].
  exact (sent_as_it_was_read _ ref_converter ref_default ref_makes_new_objects ("default", "vm") tt ref_hub eq_refl ref_hub_is_hub (OpCreate tt) eq_refl).
Defined.
