(* ===== verification/World.v ===== *)
(** The world outside the code: the calls it makes on vCenter (govmomi), on the
    Kubernetes API server, on the clock and on background goroutines, with the
    data that goes in and comes out, and the context a reconciliation of a
    VSphereVM carries ([pkg/context/vm_context.go],
    [pkg/services/govmomi/context.go]). *)
From S2P Require Export Prelude GoStrings Types VmwareTypes Libs Errors Prog.

(** * vSphere data *)

(** [types.ManagedObjectReference]. *)
Record MoRef := mkMoRef { mo_Type : string; mo_Value : string }.
#[export] Instance mo_eq_dec : EqDecision MoRef.
Proof. solve_decision. Defined.

(** A folder of the inventory. *)
Record Folder := mkFolder { fo_Ref : MoRef; fo_InventoryPath : string }.

(** [mo.Task], the fields of its [Info] the code reads; the error is there when
    [Info.Error] is, with its fault. *)
Inductive Fault :=
| InvalidPowerState (ExistingState RequestedState : string)
| OtherFault.
Record TaskError := mkTaskError { te_Fault : Fault; te_LocalizedMessage : string }.
Record Task := mkTask {
  tk_Ref : string;
  tk_State : string;
  tk_Error : option TaskError
}.
Definition TaskInfoStateQueued : string := "queued".
Definition TaskInfoStateRunning : string := "running".
Definition TaskInfoStateSuccess : string := "success".
Definition TaskInfoStateError : string := "error".

(** The backing of a PCI passthrough device. *)
Inductive PCIBacking :=
| VmiopBacking (Vgpu : string)
| DynamicBacking (VendorId DeviceId : Z) (CustomLabel : string).
#[export] Instance PCIBacking_eq_dec : EqDecision PCIBacking.
Proof. solve_decision. Defined.

(** [types.VirtualDiskFlatVer2BackingInfo], the fields the code sets. *)
Record FlatBacking := mkFlatBacking {
  fb_DiskMode : string;
  fb_FileName : string;
  fb_ThinProvisioned : option bool;
  fb_EagerlyScrub : option bool
}.

(** A virtual device: what all of them have, and what the ones the code looks
    at have on top. A controller may be a SCSI controller, which takes up a unit
    number of its own. *)
Inductive DeviceKind :=
| VirtualDisk (CapacityInKB : Z) (Flat : option FlatBacking)
| EthernetCard (MacAddress AddressType : string) (Backing : string)
| Controller (ScsiCtlrUnitNumber : option Z)
| PCIPassthrough (Backing : PCIBacking)
| OtherDevice.
Record VirtualDevice := mkVirtualDevice {
  de_Key : Z;
  de_ControllerKey : Z;
  de_UnitNumber : option Z;
  de_Kind : DeviceKind
}.

(** [types.GuestNicInfo] and the addresses of its [IpConfig]. *)
Record GuestNicInfo := mkGuestNicInfo {
  gn_MacAddress : string;
  gn_IpAddress : list string;
  gn_Network : string;
  gn_Connected : bool;
  gn_IpConfig : option (list string)
}.

(** [types.BaseOptionValue]: a key with its value when that is a string. *)
Record ExtraOption := mkExtraOption { eo_Key : string; eo_Value : option string }.

(** The groups of a compute cluster. *)
Inductive ClusterGroup :=
| ClusterVmGroup (Name : string) (Vm : list MoRef)
| ClusterHostGroup (Name : string) (Host : list MoRef).
(** Its rules; [ClusterVmHostRuleInfo] ties a VM group to a host group. *)
Inductive ClusterRule :=
| ClusterVmHostRuleInfo (Mandatory Enabled : option bool) (AffineHostGroupName VmGroupName : string)
| OtherClusterRule.
Record ClusterConfig := mkClusterConfig {
  cc_Group : list ClusterGroup;
  cc_Rule : list ClusterRule
}.

(** [pbmTypes.PbmQueryProfileResult]. *)
Record PbmQueryProfileResult := mkPbmQueryProfileResult {
  pq_ObjectKey : string;
  pq_ProfileId : list string
}.

(** A device change of a configuration; the device of an edit can be a nil
    pointer. *)
Inductive DeviceChange :=
| EditDevice (d : VirtualDevice) (profile : option string)
| AddDeviceCreate (d : VirtualDevice)
| AddDeviceChange (d : VirtualDevice)
| RemoveDevice (d : VirtualDevice)
| EditNoDevice (profile : option string).

(** [types.VirtualMachineRelocateSpecDiskLocator]. *)
Record DiskLocator := mkDiskLocator {
  dl_DiskId : Z;
  dl_DiskMoveType : string;
  dl_Datastore : MoRef;
  dl_DiskBackingInfo : option FlatBacking
}.

(** [types.ResourceAllocationInfo]; custom shares are given by their number. *)
Record ResourceAllocationInfo := mkResourceAllocationInfo {
  ra_Reservation : option Z;
  ra_Limit : option Z;
  ra_Shares : option Z
}.

(** [types.VirtualMachineCloneSpec] with its [Config] and [Location]. *)
Record CloneSpec := mkCloneSpec {
  ck_InstanceUuid : string;
  ck_DiskUuidEnabled : bool;
  ck_DeviceChange : list DeviceChange;
  ck_ExtraConfig : list (string * string);
  ck_NumCPUs : Z;
  ck_NumCoresPerSocket : option Z;
  ck_MemoryMB : Z;
  ck_VAppConfigRemoved : bool;
  ck_CpuAllocation : option ResourceAllocationInfo;
  ck_MemoryAllocation : option ResourceAllocationInfo;
  ck_MemoryReservationLockedToMax : option bool;
  ck_NestedHVEnabled : option bool;
  ck_FtEncryptionMode : string;
  ck_MigrateEncryption : string;
  ck_VmProfile : list string;
  ck_Crypto : option string;
  ck_DiskMoveType : string;
  ck_Folder : MoRef;
  ck_Pool : MoRef;
  ck_Datastore : MoRef;
  ck_Disk : list DiskLocator;
  ck_PowerOn : bool;
  ck_Snapshot : option MoRef
}.

(** A datastore with its maintenance mode. *)
Record DatastoreSummary := mkDatastoreSummary { ds_Ref : MoRef; ds_MaintenanceMode : string }.

(** The configurations the code hands to [Reconfigure]. *)
Inductive ReconfigureSpec :=
| ReconfigureExtraConfig (extraConfig : list (string * string))
| ReconfigureStoragePolicy (profileID : string) (changes : list DeviceChange).

(** The functions of govmomi that read a list of devices: [SelectByType] for the
    disks and for the ethernet cards, [SelectByBackingInfo] for PCI devices,
    [FindByKey], [NewKey]; and [ManagedObjectReference.String]. *)
Class Govmomi := {
  SelectDisks : list VirtualDevice -> list VirtualDevice;
  SelectEthernetCards : list VirtualDevice -> list VirtualDevice;
  SelectByPCIBacking : list VirtualDevice -> PCIBacking -> list VirtualDevice;
  FindByKey : list VirtualDevice -> Z -> option VirtualDevice;
  NewKey : list VirtualDevice -> Z;
  MoRef_String : MoRef -> string
}.

(** * Kubernetes data *)

(** [ipamv1.IPAddressClaim]: the pool it asks, the address it was given. *)
Record IPAddressClaim := mkIPAddressClaim {
  ic_ObjectMeta : ObjectMeta;
  ic_PoolRef : IPPoolReference;
  ic_AddressRefName : string;
  ic_Conditions : list Condition;
  ic_V1Beta1Conditions : list V1Beta1Condition
}.

(** [ipamv1.IPAddress]. *)
Record IPAddress := mkIPAddress {
  ip_Name : string;
  ip_Namespace : string;
  ip_Address : string;
  ip_Prefix : option Z;
  ip_Gateway : string
}.

(** [session.Session]: the client whose logins it holds, with what the server
    says it is, and the datacenter of its finder. *)
Record Session := mkSession {
  ss_Client : string;
  ss_IsVC : bool;
  ss_ApiType : string;
  ss_Datacenter : option MoRef
}.

(** [controllerutil.OperationResult]. *)
Inductive OperationResult := OpNone | OpCreated | OpUpdated | OpUpdatedStatus | OpUpdatedStatusOnly.

(** * Calls

    The answer of a call that can fail is a [res]; a nil pointer in an answer
    is [None]. Where the code looks at the type of an error, the answer is a
    [lib_res]: its errors are those of the library that is called, and not of a type
    that the package of the caller keeps to itself. *)
Inductive lib_res (A : Type) :=
| LOk (a : A)
| LErr (kind : lib_error) (msg : string)
| LStop (w : no_return).
Arguments LOk {A}. Arguments LErr {A}. Arguments LStop {A}.
Definition of_lib {A} (r : lib_res A) : res A :=
  match r with LOk a => Ok a | LErr kind msg => Err (ELib kind msg) | LStop w => Stop w end.

Inductive Ev : Type -> Type :=
(* the clock *)
| Now : Ev Z
(* the session and its finder *)
| SessionHasClient : Ev bool
| FindByUuid (uuid : string) (vmSearch instanceUuid : bool) : Ev (res (option MoRef))
| FinderFolderOrDefault (folder : string) : Ev (lib_res Folder)
| FinderVirtualMachine (path : string) : Ev (lib_res MoRef)
| FinderClusterComputeResource (name : string) : Ev (res MoRef)
| FinderDatacenter (name : string) : Ev (res MoRef)
| RetrieveTask (taskRef : string) : Ev (res Task)
(* reading a virtual machine *)
| VMUUID (vm : MoRef) : Ev string
| VMConfigVersion (vm : MoRef) : Ev (res (option string))
| VMPowerState (vm : MoRef) : Ev (res string)
| VMIsToolsRunning (vm : MoRef) : Ev (res bool)
| VMGuestStateChangeSupported (vm : MoRef) : Ev (res (option (option bool)))
| VMExtraConfig (vm : MoRef) : Ev (res (option (list ExtraOption)))
| VMHardwareAndGuest (vm : MoRef) : Ev (res (option (list VirtualDevice) * option (list GuestNicInfo)))
| VMDevice (vm : MoRef) : Ev (res (list VirtualDevice))
| VMHostSystem (vm : MoRef) : Ev (res MoRef)
| HostObjectName (host : MoRef) : Ev (res string)
| ClusterConfiguration (ccr : MoRef) : Ev (res ClusterConfig)
(* starting a task, whose reference is the answer *)
| VMPowerOn (vm : MoRef) : Ev (res string)
| VMPowerOff (vm : MoRef) : Ev (res string)
| VMDestroy (vm : MoRef) : Ev (res string)
| VMUpgrade (vm : MoRef) (version : string) : Ev (res string)
| VMReconfigure (vm : MoRef) (spec : ReconfigureSpec) : Ev (res string)
| ClusterReconfigureVmGroup (ccr : MoRef) (name : string) (vms : list MoRef) : Ev (res string)
| TemplateClone (tpl : MoRef) (folder : MoRef) (name : string) (spec : CloneSpec) : Ev (res string)
(* what a clone is made from *)
| TemplateSnapshot (tpl : MoRef) : Ev (res (option (option MoRef)))
| TemplateFindSnapshot (tpl : MoRef) (name : string) : Ev (option MoRef * option error)
| FinderResourcePoolOrDefault (pool : string) : Ev (res MoRef)
| FinderDatastore (name : string) : Ev (res MoRef)
| FinderDefaultDatastore : Ev (res MoRef)
| FinderNetwork (name : string) : Ev (res MoRef)
| EthernetCardBackingInfo (network : MoRef) : Ev (res string)
| CreateEthernetCard (cardType backing : string) : Ev (res VirtualDevice)
| PoolOwner (pool : MoRef) : Ev (res MoRef)
| ComputeResourceDatastores (cluster : MoRef) : Ev (res (list MoRef))
| RetrieveDatastores (refs : list MoRef) : Ev (res (list DatastoreSummary))
| CryptoManagerKmip : Ev (res unit)
| KmipGenerateKey (providerID : string) : Ev (res string)
(* the order in which a map is ranged over, and a random number below n *)
| RangeMap {A : Type} (m : gmap string A) : Ev (list (string * A))
| RandIntn (n : Z) : Ev Z
(* changing without a task *)
| VMShutdownGuest (vm : MoRef) : Ev (res unit)
| VMAddDevice (vm : MoRef) (devices : list VirtualDevice) : Ev (res unit)
| AttachTags (tagIDs : list string) (vm : MoRef) : Ev (res unit)
| ModuleListMembers (moduleID : string) : Ev (res (list MoRef))
| ModuleAddMembers (moduleID : string) (vm : MoRef) : Ev (res bool)
| ModuleRemoveMembers (moduleID : string) (vm : MoRef) : Ev (res bool)
| ModuleCreate (clusterRef : MoRef) : Ev (res string)
| ModuleDelete (moduleID : string) : Ev (res unit)
(* storage policies *)
| PbmNewClient : Ev (res unit)
| PbmProfileIDByName (name : string) : Ev (res string)
| PbmCheckRequirements (hubs : list MoRef) (profileID : string) : Ev (res (list MoRef))
| PbmQueryAssociatedProfiles (disks : list string) : Ev (res (list PbmQueryProfileResult))
(* Kubernetes *)
| GetSecret (ns name : string) : Ev (res (gmap string string))
| GetIPAddressClaim (ns name : string) : Ev (res IPAddressClaim)
| GetIPAddress (ns name : string) : Ev (res IPAddress)
| CreateOrPatchIPAddressClaim (claim : IPAddressClaim) (mutate : IPAddressClaim -> IPAddressClaim)
    : Ev (res (IPAddressClaim * OperationResult))
| UpdateIPAddressClaim (claim : IPAddressClaim) : Ev (res unit)
| PatchVSphereVM (vm : VSphereVM) : Ev (res unit)
| GetVSphereVM (ns name : string) : Ev (res VSphereVM)
| GetVSphereCluster (ns name : string) : Ev (res VSphereCluster)
| GetVSphereMachine (ns name : string) : Ev (res VSphereMachine)
| GetVSphereDeploymentZone (name : string) : Ev (res VSphereDeploymentZone)
| GetVSphereFailureDomain (name : string) : Ev (res VSphereFailureDomain)
| GetVSphereClusterIdentity (name : string) : Ev (res VSphereClusterIdentity)
| GetVSphereMachineTemplate (ns name : string) : Ev (res VSphereMachineSpec)
| GetNamespaceLabels (name : string) : Ev (res (option (gmap string string)))
| GetCluster (ns name : string) : Ev (res KubeCluster)
| GetObject (kind ns name : string) : Ev (res ObjectMeta)
| ListObjects (kind ns clusterName : string) : Ev (res (list ObjectMeta))
| ListVSphereMachines (ns clusterName : string) : Ev (res (list VSphereMachine))
| ListVSphereVMs (clusterName : string) : Ev (res (list VSphereVM))
| DeleteVSphereVM (vm : VSphereVM) : Ev (res unit)
(* [CreateOrPatch] of a VSphereVM fetches it, has it changed by the caller and
   writes it back: the two ends of that *)
| FetchOrNewVSphereVM (vm : VSphereVM) : Ev (res VSphereVM)
| WriteVSphereVM (vm : VSphereVM) : Ev (res (VSphereVM * OperationResult))
(* the helpers of Cluster API and controller-runtime *)
| GetClusterFromMetadata (om : ObjectMeta) : Ev (res KubeCluster)
| GetOwnerMachine (om : ObjectMeta) : Ev (res (option Machine))
| AddOwners (machine : Machine) : Ev (res unit)
| EnsureFinalizer (vm : VSphereVM) (finalizer : string) : Ev (res bool)
| NewPatchHelper (vm : VSphereVM) : Ev (res unit)
| EnsurePausedCondition (cluster : option KubeCluster) (vm : VSphereVM) : Ev (res (bool * bool))
| UnmarshalTemplateRef (kind ns name : string) (path : list string) : Ev (res (option (string * string)))
| ClusterCacheGetClient (ns name : string) : Ev (res unit)
| DeleteNode (clusterNs clusterName name : string) : Ev (res unit)
(* an interval of a poll passed, and the poll has not timed out *)
| PollInterval : Ev bool
(* sessions with a vCenter: the cache, and the client they are made of *)
| SessionCacheLoad (key : string) : Ev (option Session)
| SessionCacheStore (key : string) (s : Session) : Ev unit
| SessionCacheRange : Ev (list Session)
| VimUserSession (client : string) : Ev (res bool)
| RestSession (client : string) : Ev (res bool)
| ParseURL (url : string) : Ev (res (option string))
| VimNewClient (url : string) (thumbprint : option string) : Ev (res (string * bool * string))
| VimLogin (client username password : string) : Ev (res unit)
| VimLogout (client : string) : Ev (res unit)
| RestLogin (client username password : string) : Ev (res unit)
| RestLogout (client : string) : Ev (res unit)
| SessionDatacenter (client name : string) : Ev (res MoRef)
| FindInventoryPath (ref : MoRef) : Ev (res string)
(* background goroutines that send an event for the VSphereVM later *)
| GoWhenTaskCompletes (taskRef : string) (vm : VSphereVM) : Ev unit
| GoWhenNetworkIsReady (taskRef : string) (vm : VSphereVM) : Ev unit
(* the other objects that are reconciled, by their kind and metadata where only
   these matter *)
| GetOwnerCluster (om : ObjectMeta) : Ev (res (option KubeCluster))
| EnsureFinalizerOf (kind : string) (om : ObjectMeta) (finalizer : string) : Ev (res bool)
| NewPatchHelperOf (kind : string) (om : ObjectMeta) : Ev (res unit)
| EnsurePausedConditionOf (cluster : option KubeCluster) (kind : string) (om : ObjectMeta) : Ev (res (bool * bool))
| PatchVSphereCluster (c : VSphereCluster) : Ev (res unit)
| PatchVSphereDeploymentZone (z : VSphereDeploymentZone) : Ev (res unit)
| PatchVSphereClusterIdentity (i : VSphereClusterIdentity) : Ev (res unit)
| PatchVSphereMachine (m : VSphereMachine) : Ev (res unit)
| PatchMachine (m : Machine) : Ev (res unit)
| PatchObject (kind : string) (om : ObjectMeta) : Ev (res unit)
| UpdateObject (kind : string) (om : ObjectMeta) : Ev (res unit)
| DeleteObject (kind : string) (om : ObjectMeta) : Ev (res unit)
| ListVSphereClusters : Ev (res (list VSphereCluster))
| ListVSphereDeploymentZones (selector : option LabelSelector) : Ev (res (list VSphereDeploymentZone))
| ListMachines : Ev (res (list Machine))
(* more of vCenter *)
| FinderResourcePool (pool : string) : Ev (res MoRef)
| FinderFolder (folder : string) : Ev (res MoRef)
| GetTagForCategory (tag category : string) : Ev (res unit)
| GetAttachedTags (ref : MoRef) : Ev (res (list string))
(* the version in the service content of a client *)
| AboutVersion (client : string) : Ev string
(* the objects of the supervisor mode: reading one, listing those of a namespace
   with labels (and values), creating one and patching one, which both give the
   object as it then is, making the patch, deleting one; the two ends of
   [CreateOrPatch]; and the patch helper *)
| KubeGet {T : Type} (k : Kind T) (ns name : string) : Ev (res T)
| KubeList {T : Type} (k : Kind T) (ns : string) (labels : list (string * option string)) : Ev (res (list T))
| KubeCreate {T : Type} (k : Kind T) (o : T) : Ev (res T)
| KubeMergeFrom {T : Type} (k : Kind T) (o : T) : Ev (res unit)
| KubePatch {T : Type} (k : Kind T) (original o : T) : Ev (res T)
| KubeDelete {T : Type} (k : Kind T) (o : T) : Ev (res unit)
| KubeFetchOrNew {T : Type} (k : Kind T) (o : T) : Ev (res T)
| KubeWrite {T : Type} (k : Kind T) (o : T) : Ev (res OperationResult)
| KubeHelperPatch {T : Type} (k : Kind T) (o : T) : Ev (res unit)
(* the Machines [GetFilteredMachinesForCluster] keeps, by their names *)
| ListControlPlaneMachines (ns clusterName : string) : Ev (res (gmap string Machine))
(* [annotations.IsPaused] and [IsExternallyManaged] *)
| IsPausedOf (cluster : KubeCluster) (kind : string) (om : ObjectMeta) : Ev bool
| IsExternallyManagedOf (kind : string) (om : ObjectMeta) : Ev bool
(* the requests [ClusterToInfrastructureMapFunc] gives for a Cluster *)
| ClusterToInfrastructure (group kind : string) (om : ObjectMeta) : Ev (list (string * string)).

(** * The context of a reconciliation

    [capvcontext.VMContext] together with the two fields of
    [virtualMachineContext] that change: its [State], which points at the
    result, and its [IPAMState]. The reference of the VM is passed along. *)
Record VMContext := mkVMContext {
  cx_VSphereVM : VSphereVM;
  cx_ClusterModuleInfo : option string;
  cx_VSphereFailureDomain : option VSphereFailureDomain;
  cx_IsVC : bool;
  cx_ApiType : string;
  cx_State : VirtualMachine;
  cx_IPAMState : gmap string NetworkDeviceSpec
}.

Definition set_cx_VSphereVM (v : VSphereVM) (c : VMContext) : VMContext :=
  mkVMContext v (cx_ClusterModuleInfo c) (cx_VSphereFailureDomain c) (cx_IsVC c) (cx_ApiType c)
    (cx_State c) (cx_IPAMState c).
Definition set_cx_ClusterModuleInfo (v : option string) (c : VMContext) : VMContext :=
  mkVMContext (cx_VSphereVM c) v (cx_VSphereFailureDomain c) (cx_IsVC c) (cx_ApiType c)
    (cx_State c) (cx_IPAMState c).
Definition set_cx_VSphereFailureDomain (v : option VSphereFailureDomain) (c : VMContext) : VMContext :=
  mkVMContext (cx_VSphereVM c) (cx_ClusterModuleInfo c) v (cx_IsVC c) (cx_ApiType c) (cx_State c)
    (cx_IPAMState c).
(** The session of a context, the parts of it the code looks at. *)
Definition set_cx_Session (v : Session) (c : VMContext) : VMContext :=
  mkVMContext (cx_VSphereVM c) (cx_ClusterModuleInfo c) (cx_VSphereFailureDomain c) (ss_IsVC v)
    (ss_ApiType v) (cx_State c) (cx_IPAMState c).
Definition set_cx_State (v : VirtualMachine) (c : VMContext) : VMContext :=
  mkVMContext (cx_VSphereVM c) (cx_ClusterModuleInfo c) (cx_VSphereFailureDomain c) (cx_IsVC c)
    (cx_ApiType c) v (cx_IPAMState c).
Definition set_cx_IPAMState (v : gmap string NetworkDeviceSpec) (c : VMContext) : VMContext :=
  mkVMContext (cx_VSphereVM c) (cx_ClusterModuleInfo c) (cx_VSphereFailureDomain c) (cx_IsVC c)
    (cx_ApiType c) (cx_State c) v.

#[warnings="-notation-for-abbreviation"]
Notation MV := (M Ev VMContext).
#[warnings="-notation-for-abbreviation"]
Notation trace := (list (call Ev)).

(** [VMContext.String]. *)
Definition VMContext_String (c : VMContext) : string :=
  let vm := cx_VSphereVM c in
  sprintf "%s %s/%s" [AS (vm_GVK vm); AS (vm_Namespace vm); AS (vm_Name vm)].

(** The task the status refers to, and when a failed one may be retried. *)
Definition TaskRef (c : VMContext) : string := vt_TaskRef (vm_Status (cx_VSphereVM c)).
Definition RetryAfter (c : VMContext) : Time := vt_RetryAfter (vm_Status (cx_VSphereVM c)).

Section context.
Context `{Libs}.
Open Scope go_scope.

Definition getVM : MV VSphereVM := gets cx_VSphereVM.
Definition on_vm (f : VSphereVM -> VSphereVM) : MV unit :=
  modify (fun c => set_cx_VSphereVM (f (cx_VSphereVM c)) c).
Definition on_state (f : VirtualMachine -> VirtualMachine) : MV unit :=
  modify (fun c => set_cx_State (f (cx_State c)) c).

(** [vm.Status.TaskRef = ref]. *)
Definition set_TaskRef (ref : string) : MV unit := on_vm (on_status (set_vt_TaskRef ref)).

(** [conditions.Set(vm, c)] and [conditions.Delete(vm, ty)]. *)
Definition set_condition (c : Condition) : MV unit :=
  now <- ask Now ;;
  on_vm (fun vm => SetConditions vm (conditions_Set now (GetConditions vm) c)).
Definition delete_condition (ty : string) : MV unit :=
  on_vm (fun vm => SetConditions vm (conditions_Delete (GetConditions vm) ty)).

(** [deprecatedv1beta1conditions.MarkFalse], [MarkTrue] and [Delete]. *)
Definition mark_false (ty reason severity message : string) : MV unit :=
  now <- ask Now ;;
  on_vm (fun vm => SetV1Beta1Conditions vm
    (v1beta1_MarkFalse now (GetV1Beta1Conditions vm) ty reason severity message)).
Definition mark_true (ty : string) : MV unit :=
  now <- ask Now ;;
  on_vm (fun vm => SetV1Beta1Conditions vm (v1beta1_MarkTrue now (GetV1Beta1Conditions vm) ty)).
Definition v1beta1_delete (ty : string) : MV unit :=
  on_vm (fun vm => SetV1Beta1Conditions vm (v1beta1_Delete (GetV1Beta1Conditions vm) ty)).

(** A call whose errors are those of its library. *)
Definition call_lib {St X} (e : Ev (lib_res X)) : M Ev St X :=
  r <- ask e ;; of_res (of_lib r).

(** [pkg/session/session.go]: [findByUUID], [FindByBIOSUUID] and
    [FindByInstanceUUID], in the datacenter of the session. *)
Definition findByUUID {St} (uuid : string) (findByInstanceUUID : bool) : M Ev St (option MoRef) :=
  initialized <- ask SessionHasClient ;;
  if negb (initialized : bool) then fail (ENew "vSphere client is not initialized")
  else wrap (sprintf "error finding object by uuid %q" [AS uuid]) (call_res (FindByUuid uuid true findByInstanceUUID)).
Definition FindByBIOSUUID {St} (uuid : string) : M Ev St (option MoRef) := findByUUID uuid false.
Definition FindByInstanceUUID {St} (uuid : string) : M Ev St (option MoRef) := findByUUID uuid true.

(** [vmCtx.Patch(ctx)]. *)
Definition Patch : MV unit :=
  vm <- getVM ;;
  call_res (PatchVSphereVM vm).
End context.

(** * What a trace says *)

(** The reference of the task a call started. *)
Definition started_task (c : call Ev) : option string :=
  let of_res (r : res string) := match r with Ok t => Some t | _ => None end in
  match c with
  | @Call _ X e x =>
      match e in Ev Y return Y -> option string with
      | VMPowerOn _ => of_res
      | VMPowerOff _ => of_res
      | VMDestroy _ => of_res
      | VMUpgrade _ _ => of_res
      | VMReconfigure _ _ => of_res
      | ClusterReconfigureVmGroup _ _ _ => of_res
      | TemplateClone _ _ _ _ => of_res
      | _ => fun _ => None
      end x
  end.
Definition started_tasks (tr : trace) : list string := omap started_task tr.

(** What a call asks the outside to change, whatever the answer. *)
Inductive effect :=
| PowersOn (vm : MoRef)
| PowersOff (vm : MoRef)
| Destroys (vm : MoRef)
| Upgrades (vm : MoRef)
| Reconfigures (vm : MoRef)
| ChangesGroup (ccr : MoRef)
| Clones (name : string)
| ShutsDownGuest (vm : MoRef)
| AddsDevices (vm : MoRef)
| AttachesTags (vm : MoRef)
| AddsMember (moduleID : string) (vm : MoRef)
| RemovesMember (moduleID : string) (vm : MoRef)
| CreatesModule
| DeletesModule (moduleID : string)
| GeneratesKey
| WritesClaim (name : string)
| Patches
| DeletesNode (name : string)
| AddsFinalizer (name : string)
| DeletesVM (name : string)
| WritesVM (name : string)
| LogsIn (client : string)
| LogsOut (client : string)
| WatchesTask (taskRef : string)
| WatchesNetwork (taskRef : string)
| PatchesObject (kind name : string)
| UpdatesObject (kind name : string)
| DeletesObject (kind name : string)
| CreatesObject (kind name : string)
| WritesObject (kind name : string).
#[export] Instance effect_eq_dec : EqDecision effect.
Proof. solve_decision. Defined.

Definition effect_of (c : call Ev) : option effect :=
  match c with
  | @Call _ X e _ =>
      match e with
      | VMPowerOn vm => Some (PowersOn vm)
      | VMPowerOff vm => Some (PowersOff vm)
      | VMDestroy vm => Some (Destroys vm)
      | VMUpgrade vm _ => Some (Upgrades vm)
      | VMReconfigure vm _ => Some (Reconfigures vm)
      | ClusterReconfigureVmGroup ccr _ _ => Some (ChangesGroup ccr)
      | TemplateClone _ _ name _ => Some (Clones name)
      | VMShutdownGuest vm => Some (ShutsDownGuest vm)
      | VMAddDevice vm _ => Some (AddsDevices vm)
      | AttachTags _ vm => Some (AttachesTags vm)
      | ModuleAddMembers m vm => Some (AddsMember m vm)
      | ModuleRemoveMembers m vm => Some (RemovesMember m vm)
      | ModuleCreate _ => Some CreatesModule
      | ModuleDelete m => Some (DeletesModule m)
      | KmipGenerateKey _ => Some GeneratesKey
      | CreateOrPatchIPAddressClaim cl _ => Some (WritesClaim (om_Name (ic_ObjectMeta cl)))
      | UpdateIPAddressClaim cl => Some (WritesClaim (om_Name (ic_ObjectMeta cl)))
      | PatchVSphereVM _ => Some Patches
      | DeleteNode _ _ name => Some (DeletesNode name)
      | EnsureFinalizer vm _ => Some (AddsFinalizer (om_Name (vm_ObjectMeta vm)))
      | DeleteVSphereVM vm => Some (DeletesVM (om_Name (vm_ObjectMeta vm)))
      | WriteVSphereVM vm => Some (WritesVM (om_Name (vm_ObjectMeta vm)))
      | VimLogin c _ _ => Some (LogsIn c)
      | VimLogout c => Some (LogsOut c)
      | RestLogin c _ _ => Some (LogsIn c)
      | RestLogout c => Some (LogsOut c)
      | GoWhenTaskCompletes t _ => Some (WatchesTask t)
      | GoWhenNetworkIsReady t _ => Some (WatchesNetwork t)
      | EnsureFinalizerOf _ om _ => Some (AddsFinalizer (om_Name om))
      | PatchVSphereCluster c => Some (PatchesObject "VSphereCluster" (om_Name (vc_ObjectMeta c)))
      | PatchVSphereDeploymentZone z => Some (PatchesObject "VSphereDeploymentZone" (om_Name (zn_ObjectMeta z)))
      | PatchVSphereClusterIdentity i => Some (PatchesObject "VSphereClusterIdentity" (om_Name (ci_ObjectMeta i)))
      | PatchVSphereMachine m => Some (PatchesObject "VSphereMachine" (om_Name (p_ObjectMeta m)))
      | PatchMachine m => Some (PatchesObject "Machine" (om_Name (mc_ObjectMeta m)))
      | PatchObject k om => Some (PatchesObject k (om_Name om))
      | UpdateObject k om => Some (UpdatesObject k (om_Name om))
      | DeleteObject k om => Some (DeletesObject k (om_Name om))
      | KubeCreate k o => Some (CreatesObject (kind_name k) (om_Name (kind_meta k o)))
      | KubePatch k _ o => Some (PatchesObject (kind_name k) (om_Name (kind_meta k o)))
      | KubeDelete k o => Some (DeletesObject (kind_name k) (om_Name (kind_meta k o)))
      | KubeWrite k o => Some (WritesObject (kind_name k) (om_Name (kind_meta k o)))
      | KubeHelperPatch k o => Some (PatchesObject (kind_name k) (om_Name (kind_meta k o)))
      | _ => None
      end
  end.
Definition effects (tr : trace) : list effect := omap effect_of tr.

(** Go ranges over a map in some order. *)
Definition fair_range (c : call Ev) : Prop :=
  match c with
  | @Call _ X e x =>
      match e in Ev Y return Y -> Prop with
      | RangeMap m => fun l => l ≡ₚ map_to_list m
      | _ => fun _ => True
      end x
  end.

(** The power states that were read. *)
Definition power_seen (c : call Ev) : option (MoRef * string) :=
  match c with
  | @Call _ X e x =>
      match e in Ev Y return Y -> option (MoRef * string) with
      | VMPowerState vm => fun r => match r with Ok st => Some (vm, st) | _ => None end
      | _ => fun _ => None
      end x
  end.
Definition power_states (tr : trace) : list (MoRef * string) := omap power_seen tr.

Lemma effects_app tr tr' : effects (tr ++ tr')%list = (effects tr ++ effects tr')%list.
Proof. apply omap_app. Qed.

Lemma power_states_app tr tr' :
  power_states (tr ++ tr')%list = (power_states tr ++ power_states tr')%list.
Proof. apply omap_app. Qed.

Lemma started_tasks_app tr tr' :
  started_tasks (tr ++ tr')%list = (started_tasks tr ++ started_tasks tr')%list.
Proof. apply omap_app. Qed.

(** Without an effect no task is started. *)
Lemma quiet_started_tasks tr : effects tr = [] -> started_tasks tr = [].
Proof.
  induction tr as [|[X e x] tr IH]; [done|]. unfold effects, started_tasks. simpl.
  destruct e; simpl; try discriminate; exact IH.
Qed.

(** Tasks come with the effects that start one. *)
Definition starts_task (e : effect) : bool :=
  match e with
  | PowersOn _ | PowersOff _ | Destroys _ | Upgrades _ | Reconfigures _ | ChangesGroup _ | Clones _ => true
  | _ => false
  end.
Lemma started_tasks_none tr : Forall (fun e => starts_task e = false) (effects tr) -> started_tasks tr = [].
Proof.
  induction tr as [|[X e x] tr IH]; [done|]. unfold effects, started_tasks in *. simpl.
  destruct e; simpl; try exact IH; rewrite Forall_cons; intros [Hs Hf]; try discriminate Hs; by apply IH.
Qed.

Lemma effects_cons cl tr :
  effects (cl :: tr) = match effect_of cl with Some e => e :: effects tr | None => effects tr end.
Proof. done. Qed.
Lemma started_tasks_cons cl tr :
  started_tasks (cl :: tr) =
  match started_task cl with Some t => t :: started_tasks tr | None => started_tasks tr end.
Proof. done. Qed.
Lemma power_states_cons cl tr :
  power_states (cl :: tr) =
  match power_seen cl with Some p => p :: power_states tr | None => power_states tr end.
Proof. done. Qed.

Create Rewrite HintDb trace.
#[export] Hint Rewrite effects_app started_tasks_app power_states_app app_nil_r
  effects_cons started_tasks_cons power_states_cons : trace.

(** ** The steps on the context *)

Section context_lemmas.
Context `{Libs}.

(** Setting a condition reads the clock and changes the conditions of the
    VSphereVM only. *)
Lemma wpm_set_condition cnd c (Q : trace -> res unit -> VMContext -> Prop) :
  (forall now, Q [Call Now now] (Ok tt)
     (set_cx_VSphereVM (SetConditions (cx_VSphereVM c)
        (conditions_Set now (GetConditions (cx_VSphereVM c)) cnd)) c)) ->
  wpm (set_condition cnd) c Q.
Proof. intros HQ now. apply HQ. Qed.

Lemma wpm_mark_false ty reason sev msg c (Q : trace -> res unit -> VMContext -> Prop) :
  (forall now, Q [Call Now now] (Ok tt)
     (set_cx_VSphereVM (SetV1Beta1Conditions (cx_VSphereVM c)
        (v1beta1_MarkFalse now (GetV1Beta1Conditions (cx_VSphereVM c)) ty reason sev msg)) c)) ->
  wpm (mark_false ty reason sev msg) c Q.
Proof. intros HQ now. apply HQ. Qed.

Lemma wpm_mark_true ty c (Q : trace -> res unit -> VMContext -> Prop) :
  (forall now, Q [Call Now now] (Ok tt)
     (set_cx_VSphereVM (SetV1Beta1Conditions (cx_VSphereVM c)
        (v1beta1_MarkTrue now (GetV1Beta1Conditions (cx_VSphereVM c)) ty)) c)) ->
  wpm (mark_true ty) c Q.
Proof. intros HQ now. apply HQ. Qed.
End context_lemmas.

Lemma wpm_call_lib {St X} (e : Ev (lib_res X)) (c : St) (Q : trace -> res X -> St -> Prop) :
  (forall r, Q [Call e r] (of_lib r) c) -> wpm (call_lib e) c Q.
Proof. intros HQ. unfold call_lib. wp_step. apply wpm_ask. intros r. wp_step. apply HQ. Qed.

(** One step, with the operations on the context as steps of their own. *)
Ltac vm_step :=
  lazymatch goal with
  | |- wpm (set_condition _) _ _ => apply wpm_set_condition; intros ?
  | |- wpm (mark_false _ _ _ _) _ _ => apply wpm_mark_false; intros ?
  | |- wpm (mark_true _) _ _ => apply wpm_mark_true; intros ?
  | |- wpm (delete_condition _) _ _ => apply wpm_modify
  | |- wpm (v1beta1_delete _) _ _ => apply wpm_modify
  | |- wpm (on_vm _) _ _ => apply wpm_modify
  | |- wpm (on_state _) _ _ => apply wpm_modify
  | |- wpm (set_TaskRef _) _ _ => apply wpm_modify
  | |- wpm getVM _ _ => apply wpm_gets
  | |- wpm Patch _ _ => unfold Patch
  | |- wpm (call_lib _) _ _ => apply wpm_call_lib; intros [?|? ?|?]
  | |- wpm (FindByBIOSUUID _) _ _ => unfold FindByBIOSUUID, findByUUID
  | |- wpm (FindByInstanceUUID _) _ _ => unfold FindByInstanceUUID, findByUUID
  | _ => wp_step
  end; cbn beta iota zeta delta [res_wrap of_lib].

(** Steps as long as the shape of the program says which. *)
Ltac vm_steps :=
  repeat (first [vm_step | progress cbn beta iota zeta delta [res_wrap or_panic or_diverge]]).

(** ** Programs that only read

    Their calls have no effect and they leave the context as it is. *)
Definition reads {St A} (m : M Ev St A) : Prop :=
  forall c, wpm m c (fun tr _ c' => effects tr = [] /\ c' = c).

Section reads.
Context {St : Type}.

Lemma reads_ret {A} (a : A) : reads (St:=St) (ret a).
Proof. intros c. by wp_step. Qed.
Lemma reads_fail {A} e : reads (St:=St) (A:=A) (fail e).
Proof. intros c. by wp_step. Qed.
Lemma reads_panic {A} : reads (St:=St) (A:=A) panic.
Proof. intros c. by wp_step. Qed.
Lemma reads_of_res {A} (r : res A) : reads (St:=St) (of_res r).
Proof. intros c. by wp_step. Qed.
Lemma reads_get : reads (St:=St) get.
Proof. intros c. by wp_step. Qed.
Lemma reads_gets {A} (f : St -> A) : reads (gets f).
Proof. intros c. by wp_step. Qed.
Lemma effects_silent (cl : call Ev) : effect_of cl = None -> effects [cl] = [].
Proof. intros He. unfold effects. cbn [omap list_omap]. by rewrite He. Qed.
Lemma reads_ask {X} (e : Ev X) : (forall x, effect_of (Call e x) = None) -> reads (St:=St) (ask e).
Proof. intros He c. apply wpm_ask. intros x. by rewrite effects_silent. Qed.
Lemma reads_call {X} (e : Ev (res X)) : (forall x, effect_of (Call e x) = None) -> reads (St:=St) (call_res e).
Proof. intros He c. apply wpm_call. intros x. by rewrite effects_silent. Qed.
Lemma reads_bind {A B} (m : M Ev St A) (k : A -> M Ev St B) :
  reads m -> (forall a, reads (k a)) -> reads (bind m k).
Proof.
  intros Hm Hk c. apply wpm_bind. eapply wpm_mono; [apply Hm|].
  intros tr [a|e|w] c' [He ->]; [|by auto..].
  eapply wpm_mono; [apply Hk|]. intros tr' r c'' [He' ->]. by rewrite effects_app, He, He'.
Qed.
Lemma reads_try {A} (m : M Ev St A) : reads m -> reads (try m).
Proof. intros Hm c. apply wpm_try. eapply wpm_mono; [apply Hm|]. by intros tr [a|e|w] c'. Qed.
Lemma reads_wrap {A} msg (m : M Ev St A) : reads m -> reads (wrap msg m).
Proof. intros Hm c. apply wpm_wrap. eapply wpm_mono; [apply Hm|]. by intros tr r c'. Qed.
Lemma reads_fold_m {A B} (f : B -> A -> M Ev St B) l b :
  (forall b x, reads (f b x)) -> reads (fold_m f l b).
Proof.
  intros Hf. revert b. induction l as [|x l IH]; intros b; [apply reads_ret|].
  apply reads_bind; [apply Hf|exact IH].
Qed.

(** A program that reads leaves everything to what comes after it. *)
Lemma wpm_reads_bind {A B} (m : M Ev St A) (k : A -> M Ev St B) c (Q : trace -> res B -> St -> Prop) :
  reads m ->
  (forall tr e, effects tr = [] -> Q tr (Err e) c) ->
  (forall tr w, effects tr = [] -> Q tr (Stop w) c) ->
  (forall tr a, effects tr = [] -> wpm (k a) c (fun tr' => Q (tr ++ tr')%list)) ->
  wpm (bind m k) c Q.
Proof.
  intros Hm He Hs Hk. apply wpm_bind. eapply wpm_mono; [apply Hm|].
  intros tr [a|e|w] c' [Htr ->]; auto.
Qed.
End reads.

Create HintDb reads.
#[export] Hint Resolve reads_ret reads_fail reads_panic reads_of_res reads_get reads_gets
  reads_bind reads_try reads_wrap reads_fold_m : reads.
#[export] Hint Extern 1 (reads (ask _)) => (apply reads_ask; reflexivity) : reads.
#[export] Hint Extern 1 (reads (call_res _)) => (apply reads_call; reflexivity) : reads.
#[export] Hint Extern 1 (reads getVM) => (apply reads_gets) : reads.
Lemma reads_call_lib `{Libs} {St X} (e : Ev (lib_res X)) : (forall x, effect_of (Call e x) = None) -> reads (St:=St) (call_lib e).
Proof. intros He. apply reads_bind; [by apply reads_ask|]. intros r. apply reads_of_res. Qed.
#[export] Hint Extern 1 (reads (call_lib _)) => (apply reads_call_lib; reflexivity) : reads.
Lemma reads_findByUUID `{Libs} {St} uuid b : reads (St:=St) (findByUUID uuid b).
Proof.
  apply reads_bind; [by apply reads_ask|]. intros [|]; [|apply reads_fail]. apply reads_wrap. by apply reads_call.
Qed.
#[export] Hint Extern 1 (reads (FindByBIOSUUID _)) => (apply reads_findByUUID) : reads.
#[export] Hint Extern 1 (reads (FindByInstanceUUID _)) => (apply reads_findByUUID) : reads.
#[export] Hint Extern 2 (reads (match ?x with _ => _ end)) => (destruct x) : reads.

(** Solves [reads] goals from the shape of the program. *)
Ltac solve_reads :=
  repeat first
    [ progress intros
    | solve [auto 1 with reads]
    | apply reads_bind | apply reads_try | apply reads_wrap | apply reads_fold_m
    | match goal with |- reads (match ?x with _ => _ end) => destruct x end
    | progress cbn zeta ].

(** Passes a program that only reads, whose calls then have no effect. *)
Ltac pass_reads :=
  apply wpm_reads_bind; [solve_reads| | |];
  [let tr := fresh "tr" in let H := fresh "Htr" in intros tr ? H
  |let tr := fresh "tr" in let H := fresh "Htr" in intros tr ? H
  |let tr := fresh "tr" in let H := fresh "Htr" in intros tr ? H].

(** Computes the effects and the tasks of a trace from what is known of its
    parts. *)
Ltac trace_simpl :=
  autorewrite with trace in *;
  cbn [effect_of started_task power_seen] in *;
  repeat match goal with
  | H : effects ?tr = _ |- context [effects ?tr] => rewrite H
  | H : effects ?tr = [] |- context [started_tasks ?tr] => rewrite (quiet_started_tasks tr H)
  end;
  repeat match goal with
  | |- context [effects []] => change (effects []) with (@nil effect)
  | |- context [started_tasks []] => change (started_tasks []) with (@nil string)
  | |- context [power_states []] => change (power_states []) with (@nil (MoRef * string))
  end; cbn [app]; rewrite ?app_nil_r.

(** ** What a program leaves of the task

    No task was started and the record is as it was, or one was and the record
    is its reference. *)
Definition no_task (c : VMContext) (tr : trace) (c' : VMContext) : Prop :=
  started_tasks tr = [] /\ TaskRef c' = TaskRef c.
Definition one_task (tr : trace) (c' : VMContext) : Prop :=
  exists t, started_tasks tr = [t] /\ TaskRef c' = t.

(** ** What stays the same

    No operation of the VM service changes the specification or the metadata of
    the VSphereVM, nor what the context was made with. *)
Definition same_object (c c' : VMContext) : Prop :=
  vm_Spec (cx_VSphereVM c') = vm_Spec (cx_VSphereVM c) /\
  vm_ObjectMeta (cx_VSphereVM c') = vm_ObjectMeta (cx_VSphereVM c) /\
  vm_GVK (cx_VSphereVM c') = vm_GVK (cx_VSphereVM c) /\
  cx_ClusterModuleInfo c' = cx_ClusterModuleInfo c /\
  cx_VSphereFailureDomain c' = cx_VSphereFailureDomain c /\
  cx_IsVC c' = cx_IsVC c /\ cx_ApiType c' = cx_ApiType c.

#[export] Instance same_object_preorder : PreOrder same_object.
Proof.
  split; [done|]. intros c1 c2 c3 (? & ? & ? & ? & ? & ? & ?) (? & ? & ? & ? & ? & ? & ?).
  split_and!; congruence.
Qed.
#[export] Hint Extern 0 (same_object _ _) => reflexivity : core.

(** ** Programs that change the status of the VSphereVM only *)

Definition same_but_status (c c' : VMContext) : Prop :=
  same_object c c' /\ cx_State c' = cx_State c /\ cx_IPAMState c' = cx_IPAMState c.

#[export] Instance same_but_status_preorder : PreOrder same_but_status.
Proof.
  split; [done|]. intros c1 c2 c3 (? & ? & ?) (? & ? & ?). split; [by etrans|]. split; congruence.
Qed.

Definition keeps {A} (m : MV A) : Prop := forall c, wpm m c (fun _ _ c' => same_but_status c c').

Section keeps.
Context `{Libs}.

Lemma keeps_pure {A} (m : MV A) : (forall c, exists r, m c = Ret (r, c)) -> keeps m.
Proof. intros Hm c. destruct (Hm c) as [r Hr]. unfold wpm. rewrite Hr. done. Qed.
Lemma keeps_ret {A} (a : A) : keeps (ret a).
Proof. apply keeps_pure. intros c. by eexists. Qed.
Lemma keeps_fail {A} e : keeps (A:=A) (fail e).
Proof. apply keeps_pure. intros c. by eexists. Qed.
Lemma keeps_panic {A} : keeps (A:=A) panic.
Proof. apply keeps_pure. intros c. by eexists. Qed.
Lemma keeps_of_res {A} (r : res A) : keeps (of_res r).
Proof. apply keeps_pure. intros c. by eexists. Qed.
Lemma keeps_get : keeps get.
Proof. apply keeps_pure. intros c. by eexists. Qed.
Lemma keeps_gets {A} (f : VMContext -> A) : keeps (gets f).
Proof. apply keeps_pure. intros c. by eexists. Qed.
Lemma keeps_ask {X} (e : Ev X) : keeps (ask e).
Proof. intros c. by apply wpm_ask. Qed.
Lemma keeps_call {X} (e : Ev (res X)) : keeps (call_res e).
Proof. intros c. by apply wpm_call. Qed.
Lemma keeps_on_vm f :
  (forall vm, vm_Spec (f vm) = vm_Spec vm /\ vm_ObjectMeta (f vm) = vm_ObjectMeta vm /\ vm_GVK (f vm) = vm_GVK vm) ->
  keeps (on_vm f).
Proof. intros Hf c. apply wpm_modify. destruct (Hf (cx_VSphereVM c)) as (? & ? & ?). by repeat split. Qed.
Lemma keeps_bind {A B} (m : MV A) (k : A -> MV B) : keeps m -> (forall a, keeps (k a)) -> keeps (bind m k).
Proof.
  intros Hm Hk c. apply wpm_bind. eapply wpm_mono; [apply Hm|].
  intros tr [a|e|w] c' Hc; [|done..]. eapply wpm_mono; [apply Hk|]. intros ? ? c'' ?. by etrans.
Qed.
Lemma keeps_try {A} (m : MV A) : keeps m -> keeps (try m).
Proof. intros Hm c. apply wpm_try. eapply wpm_mono; [apply Hm|]. by intros tr [a|e|w] c'. Qed.
Lemma keeps_wrap {A} msg (m : MV A) : keeps m -> keeps (wrap msg m).
Proof. intros Hm c. apply wpm_wrap. eapply wpm_mono; [apply Hm|]. done. Qed.
Lemma keeps_set_condition cnd : keeps (set_condition cnd).
Proof. apply keeps_bind; [apply keeps_ask|]. intros now. by apply keeps_on_vm. Qed.
Lemma keeps_mark_false ty r s m : keeps (mark_false ty r s m).
Proof. apply keeps_bind; [apply keeps_ask|]. intros now. by apply keeps_on_vm. Qed.
Lemma keeps_mark_true ty : keeps (mark_true ty).
Proof. apply keeps_bind; [apply keeps_ask|]. intros now. by apply keeps_on_vm. Qed.
Lemma keeps_reads {A} (m : MV A) : reads m -> keeps m.
Proof. intros Hm c. eapply wpm_mono; [apply Hm|]. by intros tr r c' [_ ->]. Qed.
End keeps.

Create HintDb keeps.
#[export] Hint Resolve keeps_ret keeps_fail keeps_panic keeps_of_res keeps_get keeps_gets keeps_ask
  keeps_call keeps_set_condition keeps_mark_false keeps_mark_true : keeps.
#[export] Hint Extern 1 (keeps (on_vm _)) => (apply keeps_on_vm; by repeat split) : keeps.
#[export] Hint Extern 1 (keeps (set_TaskRef _)) => (apply keeps_on_vm; by repeat split) : keeps.
#[export] Hint Extern 1 (keeps (delete_condition _)) => (apply keeps_on_vm; by repeat split) : keeps.
#[export] Hint Extern 1 (keeps (v1beta1_delete _)) => (apply keeps_on_vm; by repeat split) : keeps.
#[export] Hint Extern 1 (keeps getVM) => (apply keeps_gets) : keeps.
#[export] Hint Extern 1 (keeps (call_lib _)) => (apply keeps_reads, reads_call_lib; reflexivity) : keeps.
#[export] Hint Extern 1 (keeps (FindByBIOSUUID _)) => (apply keeps_reads, reads_findByUUID) : keeps.
#[export] Hint Extern 1 (keeps (FindByInstanceUUID _)) => (apply keeps_reads, reads_findByUUID) : keeps.

(** Solves [keeps] goals from the shape of the program. *)
Ltac solve_keeps :=
  repeat first
    [ progress intros
    | solve [auto 1 with keeps]
    | apply keeps_bind | apply keeps_try | apply keeps_wrap
    | match goal with
      | |- keeps (match ?x with _ => _ end) => destruct x
      | |- keeps Patch => unfold Patch
      end
    | progress cbn zeta ].

(** ** Programs whose calls change nothing outside, whatever they do to the
    state *)

Definition calm {St A} (m : M Ev St A) : Prop := forall c, wpm m c (fun tr _ _ => effects tr = []).

Section calm.
Context {St : Type}.

Lemma calm_reads {A} (m : M Ev St A) : reads m -> calm m.
Proof. intros Hm c. eapply wpm_mono; [apply Hm|]. by intros tr r c' [? _]. Qed.
Lemma calm_modify f : calm (St:=St) (modify f).
Proof. intros c. by apply wpm_modify. Qed.
Lemma calm_bind {A B} (m : M Ev St A) (k : A -> M Ev St B) :
  calm m -> (forall a, calm (k a)) -> calm (bind m k).
Proof.
  intros Hm Hk c. apply wpm_bind. eapply wpm_mono; [apply Hm|].
  intros tr [a|e|w] c' Hc; [|done..]. eapply wpm_mono; [apply Hk|]. intros ? ? c'' Hc'.
  by rewrite effects_app, Hc, Hc'.
Qed.
Lemma calm_try {A} (m : M Ev St A) : calm m -> calm (try m).
Proof. intros Hm c. apply wpm_try. eapply wpm_mono; [apply Hm|]. by intros tr [a|e|w] c'. Qed.
Lemma calm_wrap {A} msg (m : M Ev St A) : calm m -> calm (wrap msg m).
Proof. intros Hm c. apply wpm_wrap. eapply wpm_mono; [apply Hm|]. done. Qed.
End calm.

Section calm_context.
Context `{Libs}.

Lemma calm_set_condition cnd : calm (set_condition cnd).
Proof. apply calm_bind; [by apply calm_reads, reads_ask|]. intros now. apply calm_modify. Qed.
Lemma calm_mark_false ty r s m : calm (mark_false ty r s m).
Proof. apply calm_bind; [by apply calm_reads, reads_ask|]. intros now. apply calm_modify. Qed.
Lemma calm_mark_true ty : calm (mark_true ty).
Proof. apply calm_bind; [by apply calm_reads, reads_ask|]. intros now. apply calm_modify. Qed.
End calm_context.

(** A calm program of a context changes the status only when it keeps the
    rest. *)
Lemma wpm_settles {A} (m : MV A) c :
  keeps m -> calm m -> wpm m c (fun tr _ c' => same_but_status c c' /\ effects tr = []).
Proof.
  intros Hk Hs. unfold wpm. eapply wp_mono; [apply wp_and; [apply Hk|apply Hs]|]. by intros tr [r c'].
Qed.

Create HintDb calm.
#[export] Hint Resolve calm_modify calm_set_condition calm_mark_false calm_mark_true : calm.
#[export] Hint Extern 1 (calm (on_vm _)) => (apply calm_modify) : calm.
#[export] Hint Extern 1 (calm (delete_condition _)) => (apply calm_modify) : calm.
#[export] Hint Extern 1 (calm (v1beta1_delete _)) => (apply calm_modify) : calm.
#[export] Hint Extern 2 (calm _) => (apply calm_reads; solve [auto 1 with reads]) : calm.

(** Solves [calm] goals from the shape of the program. *)
Ltac solve_calm :=
  repeat first
    [ progress intros
    | solve [auto 1 with calm]
    | apply calm_bind | apply calm_try | apply calm_wrap
    | match goal with |- calm (match ?x with _ => _ end) => destruct x end
    | progress cbn zeta ].

(** ** Programs whose effects are of one kind *)

Definition within {St A} (P : effect -> Prop) (m : M Ev St A) : Prop :=
  forall c, wpm m c (fun tr _ _ => Forall P (effects tr)).

Section within.
Context {St : Type} (P : effect -> Prop).

Lemma within_calm {A} (m : M Ev St A) : calm m -> within P m.
Proof. intros Hm c. eapply wpm_mono; [apply Hm|]. by intros tr r c' ->. Qed.
Lemma within_call {X} (e : Ev (res X)) :
  (forall x, match effect_of (Call e x) with Some ef => P ef | None => True end) -> within (St:=St) P (call_res e).
Proof.
  intros He c. apply wpm_call. intros x. specialize (He x). unfold effects. cbn [omap list_omap].
  destruct (effect_of _); by repeat constructor.
Qed.
Lemma within_bind {A B} (m : M Ev St A) (k : A -> M Ev St B) :
  within P m -> (forall a, within P (k a)) -> within P (bind m k).
Proof.
  intros Hm Hk c. apply wpm_bind. eapply wpm_mono; [apply Hm|].
  intros tr [a|e|w] c' Hc; [|done..]. eapply wpm_mono; [apply Hk|]. intros ? ? c'' Hc'.
  rewrite effects_app. by apply Forall_app.
Qed.
Lemma within_try {A} (m : M Ev St A) : within P m -> within P (try m).
Proof. intros Hm c. apply wpm_try. eapply wpm_mono; [apply Hm|]. by intros tr [a|e|w] c'. Qed.
Lemma within_wrap {A} msg (m : M Ev St A) : within P m -> within P (wrap msg m).
Proof. intros Hm c. apply wpm_wrap. eapply wpm_mono; [apply Hm|]. done. Qed.
Lemma within_for_each {A} (l : list A) (body : A -> M Ev St unit) :
  (forall x, within P (body x)) -> within P (for_each l body).
Proof.
  intros Hb. induction l as [|x l IH]; [by apply within_calm, calm_reads, reads_ret|].
  apply within_bind; [apply Hb|]. by intros _.
Qed.
Lemma within_fold_m {A B} (g : B -> A -> M Ev St B) l b :
  (forall b x, within P (g b x)) -> within P (fold_m g l b).
Proof.
  intros Hg. revert b. induction l as [|x l IH]; intros b; [by apply within_calm, calm_reads, reads_ret|].
  apply within_bind; [apply Hg|exact IH].
Qed.
End within.

(** Solves [within] goals from the shape of the program; what is left are calls
    with an effect. *)
Ltac solve_within :=
  repeat (cbn zeta; lazymatch goal with
  | |- forall _, _ => intro
  | |- within _ (bind _ _) => apply within_bind
  | |- within _ (try _) => apply within_try
  | |- within _ (wrap _ _) => apply within_wrap
  | |- within _ (for_each _ _) => apply within_for_each
  | |- within _ (fold_m _ _ _) => apply within_fold_m
  | |- within _ (call_res _) => apply within_call; intros ?; cbn [effect_of]; first [exact I | solve [auto]]
  | |- within _ (match ?x with _ => _ end) => destruct x
  | |- within _ _ => apply within_calm; solve [auto 2 with calm]
  end).

(** ** Programs whose effects are of one kind and that leave the state as it is *)

Definition acts {St A} (P : effect -> Prop) (m : M Ev St A) : Prop :=
  forall c, wpm m c (fun tr _ c' => Forall P (effects tr) /\ c' = c).

Section acts.
Context {St : Type} (P : effect -> Prop).

Lemma acts_reads {A} (m : M Ev St A) : reads m -> acts P m.
Proof. intros Hm c. eapply wpm_mono; [apply Hm|]. by intros tr r c' [-> ->]. Qed.
Lemma acts_call {X} (e : Ev (res X)) :
  (forall x, match effect_of (Call e x) with Some ef => P ef | None => True end) -> acts (St:=St) P (call_res e).
Proof.
  intros He c. apply wpm_call. intros x. specialize (He x). split; [|done]. unfold effects. cbn [omap list_omap].
  destruct (effect_of _); by repeat constructor.
Qed.
Lemma acts_bind {A B} (m : M Ev St A) (k : A -> M Ev St B) : acts P m -> (forall a, acts P (k a)) -> acts P (bind m k).
Proof.
  intros Hm Hk c. apply wpm_bind. eapply wpm_mono; [apply Hm|].
  intros tr [a|e|w] c' [Hc ->]; [|done..]. eapply wpm_mono; [apply Hk|]. intros ? ? c'' [Hc' ->].
  split; [|done]. rewrite effects_app. by apply Forall_app.
Qed.
Lemma acts_try {A} (m : M Ev St A) : acts P m -> acts P (try m).
Proof. intros Hm c. apply wpm_try. eapply wpm_mono; [apply Hm|]. by intros tr [a|e|w] c'. Qed.
Lemma acts_wrap {A} msg (m : M Ev St A) : acts P m -> acts P (wrap msg m).
Proof. intros Hm c. apply wpm_wrap. eapply wpm_mono; [apply Hm|]. done. Qed.
Lemma acts_fold_m {A B} (g : B -> A -> M Ev St B) l b : (forall b x, acts P (g b x)) -> acts P (fold_m g l b).
Proof.
  intros Hg. revert b. induction l as [|x l IH]; intros b; [apply acts_reads, reads_ret|].
  apply acts_bind; [apply Hg|exact IH].
Qed.
Lemma acts_mono {A} (P' : effect -> Prop) (m : M Ev St A) : acts P' m -> (forall e, P' e -> P e) -> acts P m.
Proof.
  intros Hm HP c. eapply wpm_mono; [apply Hm|]. intros tr r c' [He ->]. split; [|done].
  by eapply Forall_impl.
Qed.
Lemma acts_preserves {A X} (f : St -> X) (m : M Ev St A) :
  acts P m -> forall c, wpm m c (fun _ _ c' => f c' = f c).
Proof. intros Hm c. eapply wpm_mono; [apply Hm|]. by intros tr r c' [_ ->]. Qed.
Lemma acts_of {A} (m : M Ev St A) : within P m -> (forall c, wpm m c (fun _ _ c' => c' = c)) -> acts P m.
Proof.
  intros Hw Hs c. unfold wpm. eapply wp_mono; [apply wp_and; [apply Hw|apply Hs]|]. by intros tr [r c'].
Qed.
Lemma acts_within {A} (m : M Ev St A) : acts P m -> within P m.
Proof. intros Hm c. eapply wpm_mono; [apply Hm|]. by intros tr r c' [? _]. Qed.

(** The first part of a program may be passed when it only acts. *)
Lemma wpm_acts_bind {A B} (m : M Ev St A) (k : A -> M Ev St B) c (Q : trace -> res B -> St -> Prop) :
  acts P m ->
  (forall tr e, Forall P (effects tr) -> Q tr (Err e) c) ->
  (forall tr w, Forall P (effects tr) -> Q tr (Stop w) c) ->
  (forall tr a, Forall P (effects tr) -> wpm (k a) c (fun tr' => Q (tr ++ tr')%list)) ->
  wpm (bind m k) c Q.
Proof.
  intros Hm He Hs Hk. apply wpm_bind. eapply wpm_mono; [apply Hm|].
  intros tr [a|e|w] c' [Htr ->]; auto.
Qed.
End acts.

Create HintDb acts.

(** Solves [acts] goals from the shape of the program; what is left are calls
    with an effect. *)
Ltac solve_acts :=
  repeat (cbn zeta; lazymatch goal with
  | |- forall _, _ => intro
  | |- acts _ (bind _ _) => apply acts_bind
  | |- acts _ (try _) => apply acts_try
  | |- acts _ (wrap _ _) => apply acts_wrap
  | |- acts _ (match ?x with _ => _ end) => destruct x
  | |- acts _ _ => first
      [ apply acts_reads; solve [auto 1 with reads]
      | solve [eauto 2 with acts]
      | apply acts_call; intros ?; cbn [effect_of]; solve [exact I | auto] ]
  end).

(** ** Programs that leave a part of the context as it is *)

Definition preserves {St X A} (f : St -> X) (m : M Ev St A) : Prop :=
  forall c, wpm m c (fun _ _ c' => f c' = f c).

Section preserves.
Context {St X : Type} (f : St -> X).

Lemma preserves_pure {A} (m : M Ev St A) : (forall c, exists r, m c = Ret (r, c)) -> preserves f m.
Proof. intros Hm c. destruct (Hm c) as [r Hr]. unfold wpm. rewrite Hr. done. Qed.
Lemma preserves_ret {A} (a : A) : preserves f (ret a).
Proof. apply preserves_pure. intros c. by eexists. Qed.
Lemma preserves_fail {A} e : preserves f (A:=A) (fail e).
Proof. apply preserves_pure. intros c. by eexists. Qed.
Lemma preserves_panic {A} : preserves f (A:=A) panic.
Proof. apply preserves_pure. intros c. by eexists. Qed.
Lemma preserves_of_res {A} (r : res A) : preserves f (of_res r).
Proof. apply preserves_pure. intros c. by eexists. Qed.
Lemma preserves_get : preserves f get.
Proof. apply preserves_pure. intros c. by eexists. Qed.
Lemma preserves_gets {A} (g : St -> A) : preserves f (gets g).
Proof. apply preserves_pure. intros c. by eexists. Qed.
Lemma preserves_ask {Y} (e : Ev Y) : preserves f (ask e).
Proof. intros c. by apply wpm_ask. Qed.
Lemma preserves_call {Y} (e : Ev (res Y)) : preserves f (call_res e).
Proof. intros c. by apply wpm_call. Qed.
Lemma preserves_call_lib {Y} (e : Ev (lib_res Y)) : preserves f (call_lib e).
Proof. intros c. by apply wpm_call_lib. Qed.
Lemma preserves_modify g : (forall c, f (g c) = f c) -> preserves f (modify g).
Proof. intros Hg c. apply wpm_modify. apply Hg. Qed.
Lemma preserves_bind {A B} (m : M Ev St A) (k : A -> M Ev St B) :
  preserves f m -> (forall a, preserves f (k a)) -> preserves f (bind m k).
Proof.
  intros Hm Hk c. apply wpm_bind. eapply wpm_mono; [apply Hm|].
  intros tr [a|e|w] c' Hc; [|done..]. eapply wpm_mono; [apply Hk|]. intros ? ? c'' ?. congruence.
Qed.
Lemma preserves_try {A} (m : M Ev St A) : preserves f m -> preserves f (try m).
Proof. intros Hm c. apply wpm_try. eapply wpm_mono; [apply Hm|]. by intros tr [a|e|w] c'. Qed.
Lemma preserves_wrap {A} msg (m : M Ev St A) : preserves f m -> preserves f (wrap msg m).
Proof. intros Hm c. apply wpm_wrap. eapply wpm_mono; [apply Hm|]. done. Qed.
Lemma preserves_with_defer {A} d (m : M Ev St A) : preserves f d -> preserves f m -> preserves f (with_defer d m).
Proof.
  intros Hd Hm c. apply wpm_with_defer. eapply wpm_mono; [apply Hm|]. intros tr r c' Hc.
  assert (Hd' : wpm d c' (fun _ _ s => f s = f c)).
  { eapply wpm_mono; [apply Hd|]. intros ? ? ? ?. congruence. }
  by destruct r as [a|e|[|]].
Qed.
Lemma preserves_for_each {A} (l : list A) (body : A -> M Ev St unit) :
  (forall x, preserves f (body x)) -> preserves f (for_each l body).
Proof.
  intros Hb. induction l as [|x l IH]; [apply preserves_ret|]. apply preserves_bind; [apply Hb|]. by intros _.
Qed.
Lemma preserves_fold_m {A B} (g : B -> A -> M Ev St B) l b :
  (forall b x, preserves f (g b x)) -> preserves f (fold_m g l b).
Proof.
  intros Hg. revert b. induction l as [|x l IH]; intros b; [apply preserves_ret|].
  apply preserves_bind; [apply Hg|exact IH].
Qed.
Lemma preserves_reads {A} (m : M Ev St A) : reads m -> preserves f m.
Proof. intros Hm c. eapply wpm_mono; [apply Hm|]. by intros tr r c' [_ ->]. Qed.
Lemma preserves_acts {A} (P : effect -> Prop) (m : M Ev St A) : acts P m -> preserves f m.
Proof. intros Hm c. eapply wpm_mono; [apply Hm|]. by intros tr r c' [_ ->]. Qed.
End preserves.

Create HintDb preserves.
#[export] Hint Resolve preserves_ret preserves_fail preserves_panic preserves_of_res preserves_get
  preserves_gets preserves_ask preserves_call preserves_call_lib : preserves.

(** Solves [preserves] goals from the shape of the program; the assignments are
    those that do not touch the part, by computation. *)
Ltac solve_preserves :=
  repeat (cbn zeta; lazymatch goal with
  | |- forall _, _ => intro
  | |- preserves _ (bind _ _) => apply preserves_bind
  | |- preserves _ (try _) => apply preserves_try
  | |- preserves _ (wrap _ _) => apply preserves_wrap
  | |- preserves _ (with_defer _ _) => apply preserves_with_defer
  | |- preserves _ (for_each _ _) => apply preserves_for_each
  | |- preserves _ (fold_m _ _ _) => apply preserves_fold_m
  | |- preserves _ (modify _) => apply preserves_modify; reflexivity
  | |- preserves _ (on_vm _) => apply preserves_modify; reflexivity
  | |- preserves _ (on_state _) => apply preserves_modify; reflexivity
  | |- preserves _ (set_TaskRef _) => apply preserves_modify; reflexivity
  | |- preserves _ (delete_condition _) => apply preserves_modify; reflexivity
  | |- preserves _ (v1beta1_delete _) => apply preserves_modify; reflexivity
  | |- preserves _ (set_condition _) => unfold set_condition
  | |- preserves _ (mark_true _) => unfold mark_true
  | |- preserves _ (mark_false _ _ _ _) => unfold mark_false
  | |- preserves _ getVM => apply preserves_gets
  | |- preserves _ Patch => unfold Patch
  | |- preserves _ (match ?x with _ => _ end) => destruct x
  | |- preserves _ _ => solve [auto 1 with preserves]
  end).
