(* ===== verification/RefLibs.v ===== *)
(** A concrete instance of the library interfaces and a small world that answers
    every call, used to run the modelled programs on examples. *)
From S2P Require Import Prelude GoStrings Types Libs Errors Prog World.

Module RefLibs.

Definition ref_Get (l : list Condition) (ty : string) : option Condition :=
  head (base.filter (fun c => c_Type c = ty) l).

(** The transition time is kept while the status stays the same. *)
Definition ref_Set (now : Z) (l : list Condition) (c : Condition) : list Condition :=
  let t := match ref_Get l (c_Type c) with
           | Some old => if String.eqb (c_Status old) (c_Status c) then c_LastTransitionTime old else Some now
           | None => Some now
           end in
  (base.filter (fun x => c_Type x <> c_Type c) l ++
   [mkCondition (c_Type c) (c_Status c) (c_ObservedGeneration c) t (c_Reason c) (c_Message c)])%list.

Definition ref_Delete (l : list Condition) (ty : string) : list Condition :=
  base.filter (fun x => c_Type x <> ty) l.

Definition ref_Summary (now : Z) (l : list Condition) (ty : string) (types ignored : list string)
    (reasons : string * string * string) : list Condition + string :=
  let bad t := match ref_Get l t with
               | Some c => negb (String.eqb (c_Status c) ConditionTrue)
               | None => negb (existsb (String.eqb t) ignored)
               end in
  inl (if existsb bad types then ref_Set now l (cond ty ConditionFalse reasons.1.1 "")
       else ref_Set now l (cond ty ConditionTrue reasons.2 "")).

Definition ref_Aggregate (now : Z) (ls : list (list Condition)) (l : list Condition) (src ty : string)
    : list Condition + string :=
  let bad l := match ref_Get l src with
               | Some c => negb (String.eqb (c_Status c) ConditionTrue)
               | None => true
               end in
  inl (ref_Set now l (cond ty (if existsb bad ls then ConditionFalse else ConditionTrue) "Aggregated" "")).

Definition ref_Mark (now : Z) (l : list V1Beta1Condition) (ty status reason severity message : string)
    : list V1Beta1Condition :=
  (base.filter (fun x => c1_Type x <> ty) l ++
   [mkV1Beta1Condition ty status severity (Some now) reason message])%list.

Definition ref_ParseGroup (s : string) : string + string :=
  match split_byte (Ascii.ascii_of_nat 47) s with
  | [v] => inl ""
  | [g; v] => inl g
  | _ => inr ("unexpected GroupVersion string: " +:+ s)
  end.

(** Versions of three numbers. *)
Definition ref_semver (s : string) : option (Z * Z * Z) :=
  match map (digits_val 0) (split_byte (Ascii.ascii_of_nat 46) s) with
  | [Some a; Some b; Some c] => Some (a, b, c)
  | _ => None
  end.
Definition ref_semver_compare (s t : string) : option comparison :=
  match ref_semver s, ref_semver t with
  | Some (a, b, c), Some (a', b', c') =>
      Some (match a ?= a' with Eq => match b ?= b' with Eq => c ?= c' | r => r end | r => r end)
  | _, _ => None
  end.

Definition ref_ParseGroupVersion (s : string) : option (string * string) :=
  match split_byte (Ascii.ascii_of_nat 47) s with [v] => Some ("", v) | [g; v] => Some (g, v) | _ => None end.

Lemma ref_Get_app l l' ty :
  ref_Get (l ++ l')%list ty = match ref_Get l ty with Some c => Some c | None => ref_Get l' ty end.
Proof. unfold ref_Get. rewrite filter_app. by destruct (base.filter _ l). Qed.

Lemma ref_Get_filter l ty ty' :
  ref_Get (base.filter (fun x => c_Type x <> ty') l) ty = if decide (ty = ty') then None else ref_Get l ty.
Proof.
  unfold ref_Get. induction l as [|c l IH]; [by destruct (decide _)|].
  rewrite (filter_cons _ c l). destruct (decide (c_Type c <> ty')) as [Hc|Hc].
  - rewrite !filter_cons. destruct (decide (c_Type c = ty)) as [He|]; [|done].
    simpl. by rewrite decide_False by congruence.
  - rewrite IH. destruct (decide (ty = ty')) as [->|Hn]; [done|].
    rewrite filter_cons, decide_False; [done|]. intros E. apply Hc. congruence.
Qed.

Lemma ref_Get_type l ty c : ref_Get l ty = Some c -> c_Type c = ty.
Proof.
  unfold ref_Get. induction l as [|c' l IH]; [done|]. rewrite filter_cons.
  destruct (decide (c_Type c' = ty)); [|done]. by intros [= <-].
Qed.

Lemma ref_Set_same now l c :
  exists g t, ref_Get (ref_Set now l c) (c_Type c) =
    Some (mkCondition (c_Type c) (c_Status c) g t (c_Reason c) (c_Message c)).
Proof.
  unfold ref_Set. rewrite ref_Get_app, ref_Get_filter, decide_True by done.
  unfold ref_Get. rewrite filter_cons, decide_True by done. simpl. eauto.
Qed.

Lemma ref_Set_other now l c ty :
  ty <> c_Type c -> ref_Get (ref_Set now l c) ty = ref_Get l ty.
Proof.
  intros Hne. unfold ref_Set. rewrite ref_Get_app, ref_Get_filter, decide_False by done.
  destruct (ref_Get l ty) as [c'|]; [done|]. unfold ref_Get at 1.
  rewrite filter_cons, decide_False; [done|]. simpl. congruence.
Qed.

(** The last Machine of every name. *)
Fixpoint last_of_name (l : list Machine) : list Machine :=
  match l with
  | [] => []
  | m :: l =>
      if existsb (fun m' => String.eqb (om_Name (mc_ObjectMeta m')) (om_Name (mc_ObjectMeta m))) l
      then last_of_name l else m :: last_of_name l
  end.
Lemma same_name_later l m :
  existsb (fun m' => String.eqb (om_Name (mc_ObjectMeta m')) (om_Name (mc_ObjectMeta m))) l = false <->
  Forall (fun m' => om_Name (mc_ObjectMeta m') <> om_Name (mc_ObjectMeta m)) l.
Proof.
  rewrite <-not_true_iff_false, List.existsb_exists, Forall_forall. split.
  - intros Hn m' Hm Heq. apply Hn. exists m'. split; [by apply list_elem_of_In|by apply String.eqb_eq].
  - intros Hf (m' & Hm & Heq%String.eqb_eq). apply list_elem_of_In in Hm. by apply (Hf m').
Qed.
Lemma last_of_name_spec l m :
  m ∈ last_of_name l <->
  exists before after, l = (before ++ m :: after)%list /\
    Forall (fun m' => om_Name (mc_ObjectMeta m') <> om_Name (mc_ObjectMeta m)) after.
Proof.
  induction l as [|x l IH]; cbn [last_of_name].
  { split; [by intros ?%elem_of_nil|]. by intros ([] & ? & ? & _). }
  assert (Hlater : m ∈ last_of_name l <-> exists before after, x :: l = ((x :: before) ++ m :: after)%list /\
    Forall (fun m' => om_Name (mc_ObjectMeta m') <> om_Name (mc_ObjectMeta m)) after).
  { rewrite IH. split; intros (b & a & Heq & Hf); exists b, a; (split; [|done]); [by rewrite Heq|by injection Heq]. }
  destruct (existsb _ l) eqn:Ex.
  - rewrite Hlater. split; [intros (b & a & ? & ?); by exists (x :: b), a|].
    intros ([|y b] & a & [= -> ->] & Hf); [|by exists b, a]. apply same_name_later in Hf. congruence.
  - apply same_name_later in Ex. rewrite elem_of_cons, Hlater. split.
    + intros [->|(b & a & ? & ?)]; [by exists [], l|by exists (x :: b), a].
    + intros ([|y b] & a & [= -> ->] & Hf); [by left|right; by exists b, a].
Qed.

#[export] Program Instance ref_libs : Libs := {
  conditions_Get := ref_Get;
  conditions_Set := ref_Set;
  conditions_Delete := ref_Delete;
  conditions_SetSummary := ref_Summary;
  conditions_SetAggregate := ref_Aggregate;
  v1beta1_MarkTrue now l ty := ref_Mark now l ty ConditionTrue "" "" "";
  v1beta1_MarkFalse now l ty reason severity message :=
    ref_Mark now l ty ConditionFalse reason severity message;
  v1beta1_Delete l ty := base.filter (fun x => c1_Type x <> ty) l;
  v1beta1_SetSummary now l types := l;
  v1beta1_SetAggregate now l ty sources := l;
  AddFinalizer l f := if bool_decide (f ∈ l) then (l, false) else ((l ++ [f])%list, true);
  RemoveFinalizer l f := (base.filter (fun x => x <> f) l, bool_decide (f ∈ l));
  EnsureOwnerRef l r := (base.filter (fun x => or_UID x <> or_UID r) l ++ [r])%list;
  HasOwner l gv kinds :=
    existsb (fun r => String.eqb (or_APIVersion r) gv && existsb (String.eqb (or_Kind r)) kinds) l;
  aggregate_text := str_join ", ";
  conditions_SetMirror now src l ty ty' :=
    match ref_Get src ty with
    | Some c => ref_Set now l (cond ty' (c_Status c) (c_Reason c) (c_Message c))
    | None => ref_Set now l (cond ty' ConditionUnknown "NotYetReported" "")
    end;
  v1beta1_SetMirror now src l ty := l;
  IsOwnedByObject refs group kind name :=
    existsb (fun r => match ref_ParseGroup (or_APIVersion r) with
                      | inl g => String.eqb g group && String.eqb (or_Kind r) kind && String.eqb (or_Name r) name
                      | inr _ => false
                      end) refs;
  RemoveOwnerRef l r :=
    base.filter (fun x => ~ (or_APIVersion x = or_APIVersion r /\ or_Kind x = or_Kind r /\ or_Name x = or_Name r)) l;
  machine_collection := last_of_name;
  SortedByCreationTimestamp l := l;
  IsValidLabelValue s := [];
  selector_valid sel := true;
  selector_matches sel labels :=
    bool_decide (map_Forall (fun k v => labels !! k = Some v) (sl_MatchLabels sel));
  ParseGroup := ref_ParseGroup;
  sha256_hex s := s;
  semver_major s :=
    if String.eqb s "" then None
    else match split_byte (Ascii.ascii_of_nat 46) s with m :: _ => digits_val 0 m | [] => None end;
  semver_error_text s := "invalid version";
  SetControllerReference apiVersion kind owner om :=
    if existsb (fun r => bool_decide (or_Controller r = Some true) && negb (String.eqb (or_UID r) (om_UID owner)))
         (om_OwnerReferences om)
    then inr "object is already owned by another controller"
    else inl (base.filter (fun r => or_UID r <> om_UID owner) (om_OwnerReferences om) ++
              [mkOwnerReference apiVersion kind (om_Name owner) (om_UID owner) (Some true)])%list;
  SetOwnerReference apiVersion kind owner om :=
    inl (base.filter (fun r => or_UID r <> om_UID owner) (om_OwnerReferences om) ++
         [owner_ref apiVersion kind (om_Name owner) (om_UID owner)])%list;
  FindStatusCondition := ref_Get;
  FormatLabelSelector sel := "<selector>";
  selector_empty sel := bool_decide (sl_MatchLabels sel = ∅) && bool_decide (sl_MatchExpressions sel = []);
  NewQuantity n := itoa n;
  quantity_IsZero q := String.eqb q "0";
  selector_error_text sel := "invalid selector";
  ParseGroupVersion := ref_ParseGroupVersion;
  semver_compare s t := ref_semver_compare s t;
  json_text := quote;
  stack_text := id;
  HasPaused annotations := bool_decide (is_Some (default ∅ annotations !! "cluster.x-k8s.io/paused"));
  GetControllerOf := List.find (fun r => bool_decide (or_Controller r = Some true));
  clientcmd_Load _ := inr "no configuration";
  url_ParseError u := sprintf "parse %q: invalid" [AS u];
  url_String u := u;
  time_text := itoa;
  base64_error_text s := "illegal base64 data";
  uuid_valid s := Nat.eqb (String.length s) 36;
  KRef ns name := ns +:+ "/" +:+ name;
  ReadyCondition := "Ready";
  PausedCondition := "Paused";
  ProvisionedReason := "Provisioned";
  NotProvisionedReason := "NotProvisioned";
  DeletingReason := "Deleting";
  AvailableReason := "Available";
  ReadyReason := "Ready";
  NotReadyReason := "NotReady";
  ReadyUnknownReason := "ReadyUnknown";
  ClusterNameLabel := "cluster.x-k8s.io/cluster-name";
  MachineControlPlaneLabel := "cluster.x-k8s.io/control-plane";
  MachineExternalIP := "ExternalIP";
  MachineInternalDNS := "InternalDNS";
  SeverityInfo := "Info";
  SeverityWarning := "Warning";
  SeverityError := "Error";
  DeletingV1Beta1Reason := "Deleting";
  CloudConfig := "cloud-config";
  Ignition := "ignition";
  ClusterV1Group := "cluster.x-k8s.io";
  ControlPlaneV1Group := "controlplane.cluster.x-k8s.io";
  ClusterControlPlaneInitializedCondition := "ControlPlaneInitialized";
  DeletionFailedV1Beta1Reason := "DeletionFailed";
  AvailableCondition := "Available";
  WaitingForClusterInfrastructureReadyReason := "WaitingForClusterInfrastructureReady";
  WaitingForControlPlaneInitializedReason := "WaitingForControlPlaneInitialized";
  WaitingForBootstrapDataReason := "WaitingForBootstrapData";
  WaitingForControlPlaneAvailableV1Beta1Reason := "WaitingForControlPlaneAvailable";
  InternalErrorReason := "InternalError";
  MachineDeploymentNameLabel := "cluster.x-k8s.io/deployment-name";
  MachineInternalIP := "InternalIP";
  ClusterV1GroupVersion := "cluster.x-k8s.io/v1beta2";
  ServiceAccountNameKey := "kubernetes.io/service-account.name";
  SecretTypeServiceAccountToken := "kubernetes.io/service-account-token";
  ClusterIPNone := "None";
  rbac_GroupName := "rbac.authorization.k8s.io";
  NamespacePublic := "kube-public";
  ConfigMapClusterInfo := "cluster-info";
  KubeConfigKey := "kubeconfig";
  LabelTopologyZone := "topology.kubernetes.io/zone";
  LabelHostname := "kubernetes.io/hostname";
  ReadWriteOnce := "ReadWriteOnce";
  IPv4Protocol := "IPv4";
  IPv6Protocol := "IPv6";
  IPFamilyPolicySingleStack := "SingleStack";
  IPFamilyPolicyRequireDualStack := "RequireDualStack";
  netop_GroupVersion := "netoperator.vmware.com/v1alpha1";
  ncp_GroupVersion := "vmware.com/v1alpha1";
  nsxvpc_GroupVersion := "crd.nsx.vmware.com/v1alpha1";
  IPAddressTypeIPv4 := "IPV4";
  IPAddressTypeIPv6 := "IPV6";
  IPAddressTypeIPv4IPv6 := "IPV4IPV6"
}.
Next Obligation. intros. apply ref_Set_same. Qed.
Next Obligation. intros. by apply ref_Set_other. Qed.
Next Obligation. intros. by eapply ref_Get_type. Qed.
Next Obligation. intros. unfold ref_Delete. rewrite ref_Get_filter. by apply decide_True. Qed.
Next Obligation. intros. unfold ref_Delete. rewrite ref_Get_filter. by apply decide_False. Qed.
Next Obligation.
  intros now l ty types ignored reasons l' ty' H Hne. unfold ref_Summary in H.
  destruct (existsb _ types); injection H as <-; by apply ref_Set_other.
Qed.
Next Obligation.
  intros now ls l src ty l' ty' H Hne. injection H as <-. by apply ref_Set_other.
Qed.
Next Obligation. intros. simpl. rewrite list_elem_of_filter. tauto. Qed.
Next Obligation. done. Qed.
Next Obligation.
  intros l f x. simpl. case_bool_decide as Hf; simpl; [|by rewrite elem_of_app, list_elem_of_singleton].
  split; [by left|]. by intros [?| ->].
Qed.
Next Obligation. intros. apply elem_of_app. right. by apply list_elem_of_singleton. Qed.
Next Obligation.
  intros now src l ty ty' t Hne. simpl. destruct (ref_Get src ty); by apply ref_Set_other.
Qed.
Next Obligation. intros l r x. simpl. rewrite list_elem_of_filter. tauto. Qed.
Next Obligation. intros l m. apply last_of_name_spec. Qed.
Next Obligation. reflexivity. Qed.
Next Obligation. reflexivity. Qed.
Next Obligation.
  intros apiVersion kind owner om l. simpl. destruct (existsb _ _); [done|]. intros [= <-].
  apply elem_of_app. right. by left.
Qed.
Next Obligation.
  intros apiVersion kind owner om l. simpl. intros [= <-]. eexists. apply elem_of_app. right. by left.
Qed.
Next Obligation. intros. by eapply ref_Get_type. Qed.
Next Obligation.
  intros l r Hf%List.find_some. destruct Hf as [Hin Hc%bool_decide_eq_true]. split; [by apply list_elem_of_In|done].
Qed.

#[export] Instance ref_govmomi : Govmomi := {|
  SelectDisks l := List.filter (fun d => match de_Kind d with VirtualDisk _ _ => true | _ => false end) l;
  SelectEthernetCards l :=
    List.filter (fun d => match de_Kind d with EthernetCard _ _ _ => true | _ => false end) l;
  SelectByPCIBacking l b :=
    List.filter (fun d => match de_Kind d with PCIPassthrough b' => bool_decide (b' = b) | _ => false end) l;
  FindByKey l k := head (base.filter (fun d => de_Key d = k) l);
  NewKey l := -200;
  MoRef_String r := mo_Type r +:+ ":" +:+ mo_Value r
|}.

(** * A world

    Its state is the time, which passes by a second with every look at the
    clock, and what its objects are like. *)
Record RefWorld := mkRefWorld {
  rw_Now : Z;
  rw_ByBIOSUUID : res (option MoRef);
  rw_ByInstanceUUID : res (option MoRef);
  rw_ByPath : string -> res MoRef;
  rw_Task : res Task;
  rw_PowerState : string;
  rw_ToolsRunning : bool;
  rw_GuestStateChange : option (option bool);
  rw_ExtraConfig : option (list ExtraOption);
  rw_Devices : list VirtualDevice;
  rw_Guest : option (list GuestNicInfo);
  rw_Claim : string -> res IPAddressClaim;
  rw_Address : string -> res IPAddress
}.

Definition vm_ref : MoRef := mkMoRef "VirtualMachine" "vm-42".
Definition empty_world : RefWorld :=
  mkRefWorld 0 (Ok None) (Ok None) (fun _ => Err (ELib FinderNotFound "vm not found"))
    (Err (ELib OtherLibError "no task"))
    "poweredOff" false None None [] None (fun _ => Err (ELib APINotFound "not found"))
    (fun _ => Err (ELib APINotFound "not found")).

Definition to_lib {A} (r : res A) : lib_res A :=
  match r with
  | Ok a => LOk a
  | Err (ELib kind msg) => LErr kind msg
  | Err _ => LErr OtherLibError ""
  | Stop w => LStop w
  end.
Definition ref_answer (X : Type) (e : Ev X) (w : RefWorld) : X * RefWorld :=
  match e in Ev Y return Y * RefWorld with
  | Now => (rw_Now w, mkRefWorld (rw_Now w + 1000000000) (rw_ByBIOSUUID w) (rw_ByInstanceUUID w)
                (rw_ByPath w) (rw_Task w) (rw_PowerState w) (rw_ToolsRunning w) (rw_GuestStateChange w)
                (rw_ExtraConfig w) (rw_Devices w) (rw_Guest w) (rw_Claim w) (rw_Address w))
  | SessionHasClient => (true, w)
  | FindByUuid _ _ instanceUuid => ((if instanceUuid then rw_ByInstanceUUID w else rw_ByBIOSUUID w), w)
  | FinderFolderOrDefault f => (LOk (mkFolder (mkMoRef "Folder" "group-v3") ("/dc0/vm" +:+ f)), w)
  | FinderVirtualMachine path => (to_lib (rw_ByPath w path), w)
  | FinderClusterComputeResource _ => (Ok (mkMoRef "ClusterComputeResource" "domain-c7"), w)
  | FinderDatacenter n => (Ok (mkMoRef "Datacenter" n), w)
  | RetrieveTask _ => (rw_Task w, w)
  | VMUUID _ => ("4231f0a4-0000-0000-0000-000000000042", w)
  | VMConfigVersion _ => (Ok (Some "vmx-17"), w)
  | VMPowerState _ => (Ok (rw_PowerState w), w)
  | VMIsToolsRunning _ => (Ok (rw_ToolsRunning w), w)
  | VMGuestStateChangeSupported _ => (Ok (rw_GuestStateChange w), w)
  | VMExtraConfig _ => (Ok (rw_ExtraConfig w), w)
  | VMHardwareAndGuest _ => (Ok (Some (rw_Devices w), rw_Guest w), w)
  | VMDevice _ => (Ok (rw_Devices w), w)
  | VMHostSystem _ => (Ok (mkMoRef "HostSystem" "host-21"), w)
  | HostObjectName _ => (Ok "esx-1", w)
  | ClusterConfiguration _ => (Ok (mkClusterConfig [ClusterVmGroup "vm-group" []] []), w)
  | VMPowerOn _ => (Ok "task-on", w)
  | VMPowerOff _ => (Ok "task-off", w)
  | VMDestroy _ => (Ok "task-destroy", w)
  | VMUpgrade _ _ => (Ok "task-upgrade", w)
  | VMReconfigure _ _ => (Ok "task-reconfigure", w)
  | ClusterReconfigureVmGroup _ _ _ => (Ok "task-group", w)
  | TemplateClone _ _ _ _ => (Ok "task-clone", w)
  | TemplateSnapshot _ => (Ok None, w)
  | TemplateFindSnapshot _ _ => ((None, None), w)
  | FinderResourcePoolOrDefault _ => (Ok (mkMoRef "ResourcePool" "resgroup-8"), w)
  | FinderDatastore n => (Ok (mkMoRef "Datastore" n), w)
  | FinderDefaultDatastore => (Ok (mkMoRef "Datastore" "datastore-15"), w)
  | FinderNetwork n => (Ok (mkMoRef "Network" n), w)
  | EthernetCardBackingInfo n => (Ok (mo_Value n), w)
  | CreateEthernetCard _ b => (Ok (mkVirtualDevice 0 0 None (EthernetCard "" "" b)), w)
  | PoolOwner _ => (Ok (mkMoRef "ClusterComputeResource" "domain-c7"), w)
  | ComputeResourceDatastores _ => (Ok [mkMoRef "Datastore" "datastore-15"], w)
  | RetrieveDatastores refs => (Ok (map (fun r => mkDatastoreSummary r "normal") refs), w)
  | CryptoManagerKmip => (Ok tt, w)
  | KmipGenerateKey k => (Ok k, w)
  | RangeMap m => (map_to_list m, w)
  | RandIntn n => (0, w)
  | VMShutdownGuest _ => (Ok tt, w)
  | VMAddDevice _ _ => (Ok tt, w)
  | AttachTags _ _ => (Ok tt, w)
  | ModuleListMembers _ => (Ok [], w)
  | ModuleAddMembers _ _ => (Ok true, w)
  | ModuleRemoveMembers _ _ => (Ok true, w)
  | ModuleCreate _ => (Ok "module-1", w)
  | ModuleDelete _ => (Ok tt, w)
  | PbmNewClient => (Ok tt, w)
  | PbmProfileIDByName n => (Ok n, w)
  | PbmCheckRequirements hubs _ => (Ok hubs, w)
  | PbmQueryAssociatedProfiles disks => (Ok (map (fun d => mkPbmQueryProfileResult d []) disks), w)
  | GetSecret _ _ => (Ok {["value" := "#cloud-config"]}, w)
  | GetIPAddressClaim _ n => (rw_Claim w n, w)
  | GetIPAddress _ n => (rw_Address w n, w)
  | CreateOrPatchIPAddressClaim c m => (Ok (m c, OpCreated), w)
  | UpdateIPAddressClaim _ => (Ok tt, w)
  | PatchVSphereVM _ => (Ok tt, w)
  | GetVSphereVM _ _ => (Err (ELib APINotFound "not found"), w)
  | GetVSphereCluster _ _ => (Err (ELib APINotFound "not found"), w)
  | GetVSphereMachine _ _ => (Err (ELib APINotFound "not found"), w)
  | GetVSphereDeploymentZone _ => (Err (ELib APINotFound "not found"), w)
  | GetVSphereFailureDomain _ => (Err (ELib APINotFound "not found"), w)
  | GetVSphereClusterIdentity _ => (Err (ELib APINotFound "not found"), w)
  | GetVSphereMachineTemplate _ _ => (Err (ELib APINotFound "not found"), w)
  | GetNamespaceLabels _ => (Ok None, w)
  | GetCluster _ _ => (Err (ELib APINotFound "not found"), w)
  | GetObject _ _ _ => (Err (ELib APINotFound "not found"), w)
  | ListObjects _ _ _ => (Ok [], w)
  | ListVSphereMachines _ _ => (Ok [], w)
  | ListVSphereVMs _ => (Ok [], w)
  | DeleteVSphereVM _ => (Ok tt, w)
  | FetchOrNewVSphereVM vm => (Ok vm, w)
  | WriteVSphereVM vm => (Ok (vm, OpCreated), w)
  | GetClusterFromMetadata _ => (Err (ELib APINotFound "not found"), w)
  | GetOwnerMachine _ => (Ok None, w)
  | AddOwners _ => (Ok tt, w)
  | EnsureFinalizer _ _ => (Ok false, w)
  | NewPatchHelper _ => (Ok tt, w)
  | EnsurePausedCondition _ _ => (Ok (false, false), w)
  | UnmarshalTemplateRef _ _ _ _ => (Ok None, w)
  | ClusterCacheGetClient _ _ => (Ok tt, w)
  | DeleteNode _ _ _ => (Ok tt, w)
  | PollInterval => (false, w)
  | SessionCacheLoad _ => (None, w)
  | SessionCacheStore _ _ => (tt, w)
  | SessionCacheRange => ([], w)
  | VimUserSession _ => (Ok true, w)
  | RestSession _ => (Ok true, w)
  | ParseURL u => (Ok (Some u), w)
  | VimNewClient u _ => (Ok (u, true, "VirtualCenter"), w)
  | VimLogin _ _ _ => (Ok tt, w)
  | VimLogout _ => (Ok tt, w)
  | RestLogin _ _ _ => (Ok tt, w)
  | RestLogout _ => (Ok tt, w)
  | SessionDatacenter _ n => (Ok (mkMoRef "Datacenter" n), w)
  | FindInventoryPath ref => (Ok ("/" +:+ mo_Value ref), w)
  | GoWhenTaskCompletes _ _ => (tt, w)
  | GoWhenNetworkIsReady _ _ => (tt, w)
  | GetOwnerCluster _ => (Ok None, w)
  | EnsureFinalizerOf _ _ _ => (Ok false, w)
  | NewPatchHelperOf _ _ => (Ok tt, w)
  | EnsurePausedConditionOf _ _ _ => (Ok (false, false), w)
  | PatchVSphereCluster _ => (Ok tt, w)
  | PatchVSphereDeploymentZone _ => (Ok tt, w)
  | PatchVSphereClusterIdentity _ => (Ok tt, w)
  | PatchVSphereMachine _ => (Ok tt, w)
  | PatchMachine _ => (Ok tt, w)
  | PatchObject _ _ => (Ok tt, w)
  | UpdateObject _ _ => (Ok tt, w)
  | DeleteObject _ _ => (Ok tt, w)
  | ListVSphereClusters => (Ok [], w)
  | ListVSphereDeploymentZones _ => (Ok [], w)
  | ListMachines => (Ok [], w)
  | FinderResourcePool _ => (Ok (mkMoRef "ResourcePool" "resgroup-8"), w)
  | FinderFolder f => (Ok (mkMoRef "Folder" f), w)
  | GetTagForCategory _ _ => (Ok tt, w)
  | GetAttachedTags _ => (Ok [], w)
  | AboutVersion _ => ("8.0.1", w)
  | KubeGet _ _ _ => (Err (ELib APINotFound "not found"), w)
  | KubeList _ _ _ => (Ok [], w)
  | KubeCreate _ o => (Ok o, w)
  | KubeMergeFrom _ _ => (Ok tt, w)
  | KubePatch _ _ o => (Ok o, w)
  | KubeDelete _ _ => (Ok tt, w)
  | KubeFetchOrNew _ o => (Ok o, w)
  | KubeWrite _ _ => (Ok OpCreated, w)
  | KubeHelperPatch _ _ => (Ok tt, w)
  | ListControlPlaneMachines _ _ => (Ok ∅, w)
  | IsPausedOf _ _ _ => (false, w)
  | IsExternallyManagedOf _ _ => (false, w)
  | ClusterToInfrastructure _ _ _ => ([], w)
  end.

(** A world with a VM in a power state, the devices it has and the extra
    configuration it was given, and without claims. *)
Definition vm_world (powerState : string) (devices : list VirtualDevice) (extraConfig : list ExtraOption)
    : RefWorld :=
  mkRefWorld 0 (Ok None) (Ok (Some vm_ref)) (fun _ => Ok vm_ref) (Err (ELib OtherLibError "no task"))
    powerState true (Some (Some true)) (Some extraConfig) devices None
    (fun _ => Err (ELib APINotFound "not found")) (fun _ => Err (ELib APINotFound "not found")).

(** A run of a program in a world: its calls, its result, its state. *)
Definition run {A} (m : MV A) (c : VMContext) (w : RefWorld) : trace * (res A * VMContext) :=
  exec ref_answer (m c) w.

Lemma run_runs {A} (m : MV A) c w :
  runs (m c) (run m c w).1 ((run m c w).2.1, (run m c w).2.2).
Proof. rewrite <-surjective_pairing. apply exec_runs. Qed.

(** * Objects for the examples *)

Definition sample_vm (spec : VirtualMachineCloneSpec) (powerOffMode taskRef : string) : VSphereVM :=
  mkVSphereVM "infrastructure.cluster.x-k8s.io/v1beta2, Kind=VSphereVM"
    (mkObjectMeta "vm-1" "default" "11111111-2222-3333-4444-555555555555" None [] [VMFinalizer] None)
    (mkVSphereVMSpec spec (mkVSphereVMBootstrapReference "") "" powerOffMode 0)
    (mkVSphereVMStatus [] "" None [] "" "" None taskRef [] None "" None).

Definition sample_context (vm : VSphereVM) : VMContext :=
  mkVMContext vm None None true "VirtualCenter" (mkVirtualMachine "vm-1" "" "pending" [] "") ∅.

End RefLibs.
