(* ===== verification/Conditions.v ===== *)
(** The conditions of whatever object a reconciliation is about: the helpers of
    Cluster API as steps on a state that has conditions, for the reconcilers
    other than the one of VSphereVMs (whose steps are in [World.v]). *)
From S2P Require Import Prelude GoStrings Types Libs Errors Prog World.
From stdpp Require Import relations.

(** A state with the conditions of an object, in both contracts. *)
Class Conditioned (St : Type) := {
  the_conditions : St -> list Condition;
  put_conditions : list Condition -> St -> St;
  the_v1beta1 : St -> list V1Beta1Condition;
  put_v1beta1 : list V1Beta1Condition -> St -> St;
  the_put l s : the_conditions (put_conditions l s) = l;
  the_put_v1beta1 l s : the_v1beta1 (put_v1beta1 l s) = l;
  the_other l s : the_conditions (put_v1beta1 l s) = the_conditions s
}.
Arguments the_conditions {St _} !s.
Arguments put_conditions {St _} l !s.
Arguments the_v1beta1 {St _} !s.
Arguments put_v1beta1 {St _} l !s.

Section conditions.
Context `{Libs} {St : Type} `{!Conditioned St}.
#[warnings="-notation-for-abbreviation"]
Notation MS := (M Ev St).
Open Scope go_scope.

(** [conditions.Set(obj, c)] and [conditions.Delete(obj, ty)]. *)
Definition cond_set (c : Condition) : MS unit :=
  now <- ask Now ;;
  modify (fun s => put_conditions (conditions_Set now (the_conditions s) c) s).
Definition cond_delete (ty : string) : MS unit :=
  modify (fun s => put_conditions (conditions_Delete (the_conditions s) ty) s).

(** [deprecatedv1beta1conditions.MarkFalse], [MarkTrue], [Delete] and
    [SetSummary]. *)
Definition cond_false (ty reason severity message : string) : MS unit :=
  now <- ask Now ;;
  modify (fun s => put_v1beta1 (v1beta1_MarkFalse now (the_v1beta1 s) ty reason severity message) s).
Definition cond_true (ty : string) : MS unit :=
  now <- ask Now ;;
  modify (fun s => put_v1beta1 (v1beta1_MarkTrue now (the_v1beta1 s) ty) s).
Definition cond_v1beta1_delete (ty : string) : MS unit :=
  modify (fun s => put_v1beta1 (v1beta1_Delete (the_v1beta1 s) ty) s).
Definition cond_v1beta1_summary (types : list string) : MS unit :=
  now <- ask Now ;;
  modify (fun s => put_v1beta1 (v1beta1_SetSummary now (the_v1beta1 s) types) s).

(** [conditions.SetSummaryCondition(obj, obj, ty, ...)] with the message of its
    error. *)
Definition cond_summary (ty : string) (types ignored : list string) (reasons : string * string * string)
    : MS unit :=
  now <- ask Now ;;
  s <- get ;;
  match conditions_SetSummary now (the_conditions s) ty types ignored reasons with
  | inr msg => fail (EWrap (sprintf "failed to set %s condition" [AS ty]) (ELib OtherLibError msg))
  | inl l => modify (put_conditions l)
  end.

(** ** What they change: conditions only *)

Definition adorn (s s' : St) : Prop := (exists l, s' = put_conditions l s) \/ (exists l, s' = put_v1beta1 l s).
Definition adorned : St -> St -> Prop := rtc adorn.

#[export] Instance adorned_preorder : PreOrder adorned.
Proof. apply rtc_po. Qed.

Lemma adorned_put l s : adorned s (put_conditions l s).
Proof. apply rtc_once. left. by exists l. Qed.
Lemma adorned_put_v1beta1 l s : adorned s (put_v1beta1 l s).
Proof. apply rtc_once. right. by exists l. Qed.

(** A part of the state that is not the conditions stays. *)
Lemma adorned_field {X} (f : St -> X) s s' :
  (forall l s, f (put_conditions l s) = f s) -> (forall l s, f (put_v1beta1 l s) = f s) ->
  adorned s s' -> f s' = f s.
Proof.
  intros H1 H2. induction 1 as [|x y z [[l ->]|[l ->]] _ IH]; [done|..]; by rewrite IH, ?H1, ?H2.
Qed.

(** Programs that have no effect and change conditions only. *)
Definition adorns {A} (m : MS A) : Prop := forall s, wpm m s (fun tr _ s' => effects tr = [] /\ adorned s s').

Lemma adorns_reads {A} (m : MS A) : reads m -> adorns m.
Proof. intros Hm s. eapply wpm_mono; [apply Hm|]. by intros tr r s' [? ->]. Qed.
Lemma adorns_cond_set c : adorns (cond_set c).
Proof. intros s now. split; [done|apply adorned_put]. Qed.
Lemma adorns_cond_delete ty : adorns (cond_delete ty).
Proof. intros s. split; [done|apply adorned_put]. Qed.
Lemma adorns_cond_false ty r v m : adorns (cond_false ty r v m).
Proof. intros s now. split; [done|apply adorned_put_v1beta1]. Qed.
Lemma adorns_cond_true ty : adorns (cond_true ty).
Proof. intros s now. split; [done|apply adorned_put_v1beta1]. Qed.
Lemma adorns_cond_v1beta1_delete ty : adorns (cond_v1beta1_delete ty).
Proof. intros s. split; [done|apply adorned_put_v1beta1]. Qed.
Lemma adorns_cond_v1beta1_summary types : adorns (cond_v1beta1_summary types).
Proof. intros s now. split; [done|apply adorned_put_v1beta1]. Qed.
Lemma adorns_bind {A B} (m : MS A) (k : A -> MS B) : adorns m -> (forall a, adorns (k a)) -> adorns (bind m k).
Proof.
  intros Hm Hk s. apply wpm_bind. eapply wpm_mono; [apply Hm|].
  intros tr [a|e|w] s' [He Ha]; [|done..]. eapply wpm_mono; [apply Hk|]. intros tr' r s'' [He' Ha'].
  split; [by rewrite effects_app, He, He'|by etrans].
Qed.
Lemma adorns_try {A} (m : MS A) : adorns m -> adorns (try m).
Proof. intros Hm s. apply wpm_try. eapply wpm_mono; [apply Hm|]. by intros tr [a|e|w] s'. Qed.
Lemma adorns_wrap {A} msg (m : MS A) : adorns m -> adorns (wrap msg m).
Proof. intros Hm s. apply wpm_wrap. eapply wpm_mono; [apply Hm|]. done. Qed.
Lemma adorns_summary ty types ignored reasons : adorns (cond_summary ty types ignored reasons).
Proof.
  intros s now. cbn. destruct (conditions_SetSummary _ _ _ _ _ _); [|by split].
  split; [done|apply adorned_put].
Qed.

(** The first part of a program may be passed when it only adorns. *)
Lemma wpm_adorns_bind {A B} (m : MS A) (k : A -> MS B) s (Q : trace -> res B -> St -> Prop) :
  adorns m ->
  (forall tr e s', effects tr = [] -> adorned s s' -> Q tr (Err e) s') ->
  (forall tr w s', effects tr = [] -> adorned s s' -> Q tr (Stop w) s') ->
  (forall tr a s', effects tr = [] -> adorned s s' -> wpm (k a) s' (fun tr' => Q (tr ++ tr')%list)) ->
  wpm (bind m k) s Q.
Proof.
  intros Hm He Hs Hk. apply wpm_bind. eapply wpm_mono; [apply Hm|].
  intros tr [a|e|w] s' [Htr Ha]; auto.
Qed.

(** ** Single steps *)

Lemma wpm_cond_set c s (Q : trace -> res unit -> St -> Prop) :
  (forall now, Q [Call Now now] (Ok tt) (put_conditions (conditions_Set now (the_conditions s) c) s)) ->
  wpm (cond_set c) s Q.
Proof. intros HQ now. apply HQ. Qed.
Lemma wpm_cond_false ty r v m s (Q : trace -> res unit -> St -> Prop) :
  (forall now l, Q [Call Now now] (Ok tt) (put_v1beta1 l s)) -> wpm (cond_false ty r v m) s Q.
Proof. intros HQ now. apply HQ. Qed.
Lemma wpm_cond_true ty s (Q : trace -> res unit -> St -> Prop) :
  (forall now l, Q [Call Now now] (Ok tt) (put_v1beta1 l s)) -> wpm (cond_true ty) s Q.
Proof. intros HQ now. apply HQ. Qed.
Lemma wpm_cond_v1beta1_delete ty s (Q : trace -> res unit -> St -> Prop) :
  (forall l, Q [] (Ok tt) (put_v1beta1 l s)) -> wpm (cond_v1beta1_delete ty) s Q.
Proof. intros HQ. apply wpm_modify, HQ. Qed.
(** ** Programs that leave a condition as it is *)

Lemma preserves_adorns {A X} (f : St -> X) (m : MS A) :
  (forall l s, f (put_conditions l s) = f s) -> (forall l s, f (put_v1beta1 l s) = f s) -> adorns m -> preserves f m.
Proof.
  intros H1 H2 Hm s. eapply wpm_mono; [apply Hm|]. intros tr r s' [_ Ha]. by apply (adorned_field f).
Qed.

Definition the_condition (ty : string) (s : St) : option Condition := conditions_Get (the_conditions s) ty.

Lemma the_other_condition ty l s : the_condition ty (put_v1beta1 l s) = the_condition ty s.
Proof. unfold the_condition. by rewrite the_other. Qed.

Lemma preserves_cond_set ty c : c_Type c <> ty -> preserves (the_condition ty) (cond_set c).
Proof.
  intros Hne s. apply wpm_cond_set. intros now. unfold the_condition. rewrite the_put.
  by apply conditions_Get_Set_other.
Qed.
Lemma preserves_cond_false ty t r v m : preserves (the_condition ty) (cond_false t r v m).
Proof. intros s. apply wpm_cond_false. intros now l. unfold the_condition. by rewrite the_other. Qed.
Lemma preserves_cond_true ty t : preserves (the_condition ty) (cond_true t).
Proof. intros s. apply wpm_cond_true. intros now l. unfold the_condition. by rewrite the_other. Qed.
Lemma preserves_cond_v1beta1_delete ty t : preserves (the_condition ty) (cond_v1beta1_delete t).
Proof. intros s. apply wpm_cond_v1beta1_delete. intros l. unfold the_condition. by rewrite the_other. Qed.

(** After it was set, a condition is the one that was set. *)
Lemma the_condition_set now c s :
  exists g t, the_condition (c_Type c) (put_conditions (conditions_Set now (the_conditions s) c) s) =
    Some (mkCondition (c_Type c) (c_Status c) g t (c_Reason c) (c_Message c)).
Proof. unfold the_condition. rewrite the_put. apply conditions_Get_Set_same. Qed.

End conditions.

#[export] Hint Resolve preserves_cond_false preserves_cond_true preserves_cond_v1beta1_delete : preserves.
#[export] Hint Extern 1 (preserves _ (cond_set _)) => (apply preserves_cond_set; discriminate) : preserves.

Create HintDb adorns.
#[export] Hint Resolve adorns_cond_set adorns_cond_delete adorns_cond_false adorns_cond_true
  adorns_cond_v1beta1_delete adorns_cond_v1beta1_summary adorns_summary : adorns.
#[export] Hint Extern 2 (adorns _) => (apply adorns_reads; solve [auto 1 with reads]) : adorns.

(** Solves [adorns] goals from the shape of the program. *)
Ltac solve_adorns :=
  repeat first
    [ progress intros
    | solve [auto 1 with adorns]
    | apply adorns_bind | apply adorns_try | apply adorns_wrap
    | match goal with |- adorns (match ?x with _ => _ end) => destruct x end
    | progress cbn zeta ].

(** One step, with the conditions of any object. *)
Ltac cond_step :=
  lazymatch goal with
  | |- wpm (cond_set _) _ _ => apply wpm_cond_set; intros ?
  | |- wpm (cond_false _ _ _ _) _ _ => apply wpm_cond_false; intros ? ?
  | |- wpm (cond_true _) _ _ => apply wpm_cond_true; intros ? ?
  | |- wpm (cond_v1beta1_delete _) _ _ => apply wpm_cond_v1beta1_delete; intros ?
  | _ => wp_step
  end; cbn beta iota zeta delta [res_wrap].
