(* ===== verification/Identity.v ===== *)
(** [pkg/identity/identity.go] and [pkg/session/session.go]: the credentials a
    VSphereCluster may use, and the sessions with a vCenter made with them. *)
From S2P Require Import Prelude GoStrings GoNet Types Libs Constants Errors Prog World RefLibs.

Module Identity.

(** * [identity.go] *)

Definition UsernameKey : string := "username".
Definition PasswordKey : string := "password".
Definition SecretKind : string := "Secret".
Definition VSphereClusterIdentityKind : string := "VSphereClusterIdentity".
(** [om.DeletionTimestamp.IsZero()]. *)
Definition not_deleted (om : ObjectMeta) : bool := match om_DeletionTimestamp om with None => true | _ => false end.

Definition GroupName : string := "infrastructure.cluster.x-k8s.io".
(** [infrav1.GroupVersion.String()]. *)
Definition GroupVersion : string := GroupName +:+ "/v1beta2".

Record Credentials := mkCredentials { cr_Username : string; cr_Password : string }.

(** [secret.Data[key]]; a nil map is an empty one. *)
Definition getData (secret : gmap string string) (key : string) : string := default "" (secret !! key).

(** The error, if any; the client is never nil. *)
Definition validateInputs (cluster : option VSphereCluster) : option error :=
  match cluster with
  | None => Some (ENew "vsphere cluster is required")
  | Some cluster =>
      if negb (VSphereIdentityReference_IsDefined (ls_IdentityRef (vc_Spec cluster)))
      then Some (ENew "IdentityRef is required") else None
  end.

Definition IsSecretIdentity (cluster : option VSphereCluster) : bool :=
  match cluster with
  | None => false
  | Some cluster =>
      if negb (VSphereIdentityReference_IsDefined (ls_IdentityRef (vc_Spec cluster))) then false
      else String.eqb (ir_Kind (ls_IdentityRef (vc_Spec cluster))) SecretKind
  end.

Definition IsOwnedByIdentityOrCluster (ownerReferences : list OwnerReference) : bool :=
  existsb (fun ownerReference =>
    str_contains (or_APIVersion ownerReference) (GroupName +:+ "/") &&
    (String.eqb (or_Kind ownerReference) "VSphereCluster" ||
     String.eqb (or_Kind ownerReference) "VSphereClusterIdentity")) ownerReferences.

Section programs.
Context `{Libs} {St : Type}.
#[warnings="-notation-for-abbreviation"]
Notation MS := (M Ev St).
Open Scope go_scope.

(** The namespace and the name of the secret of an identity. *)
Definition identity_secret (cluster : VSphereCluster) (controllerNamespace : string)
    : MS (string * string) :=
  let ref := ls_IdentityRef (vc_Spec cluster) in
  let ns := om_Namespace (vc_ObjectMeta cluster) in
  if String.eqb (ir_Kind ref) SecretKind then ret (ns, ir_Name ref)
  else if String.eqb (ir_Kind ref) VSphereClusterIdentityKind then
    identity <- call_res (GetVSphereClusterIdentity (ir_Name ref)) ;;
    if negb (ptr_deref (ci_Ready identity) false) then fail (ENew "identity isn't ready to be used yet")
    else
      match ci_AllowedNamespaces identity with
      | None => fail (ENew "allowedNamespaces set to nil, no namespaces are allowed to use this identity")
      | Some selector =>
          if negb (selector_valid selector) then fail (ENew "failed to build selector")
          else
            labels <- call_res (GetNamespaceLabels ns) ;;
            if negb (selector_matches selector (default ∅ labels)) then
              fail (ENew (sprintf "namespace %s is not allowed to use specifified identity" [AS ns]))
            else ret (controllerNamespace, ci_SecretName identity)
      end
  else fail (ENew (sprintf "unknown type %s used for Identity" [AS (ir_Kind ref)])).

Definition GetCredentials (cluster : option VSphereCluster) (controllerNamespace : string)
    : MS Credentials :=
  match cluster with
  | None => fail (ENew "vsphere cluster is required")
  | Some cl =>
      match validateInputs cluster with
      | Some err => fail err
      | None =>
          secretKey <- identity_secret cl controllerNamespace ;;
          secret <- call_res (GetSecret secretKey.1 secretKey.2) ;;
          ret (mkCredentials (getData secret UsernameKey) (getData secret PasswordKey))
      end
  end.

(** * [session.go] *)

(** [session.Params]. *)
Record Params := mkParams {
  pa_server : string;
  pa_datacenter : string;
  pa_userinfo : string * string;
  pa_thumbprint : string
}.

Definition sessionKey (params : Params) : string :=
  pa_server params +:+ "#" +:+ pa_datacenter params +:+ "#" +:+ (pa_userinfo params).1 +:+ "#" +:+
  sha256_hex (pa_userinfo params).2.

(** A bare IPv6 address is put in brackets. *)
Definition urlSafeServer (server : string) : string :=
  match parse_addr server with
  | Some ip => if negb (is4 ip) then "[" +:+ server +:+ "]" else server
  | None => server
  end.

Definition newClient (url : string) (user : string * string) (thumbprint : string)
    : MS (string * bool * string) :=
  client <- wrap "failed to create client"
              (call_res (VimNewClient url (if String.eqb thumbprint "" then None else Some thumbprint))) ;;
  wrap "failed to create client: failed to login" (call_res (VimLogin client.1.1 user.1 user.2)) ;;
  ret client.

Definition newManager (client : string) (user : string * string) : MS unit :=
  wrap "failed to create tags manager: failed to login REST client"
    (call_res (RestLogin client user.1 user.2)).

(** The cached session, when both of its sides are active; otherwise what is
    cached is logged out. *)
Definition cached_session (sessionKey : string) : MS (option Session) :=
  cached <- ask (SessionCacheLoad sessionKey) ;;
  match cached with
  | None => ret None
  | Some s =>
      userSession <- try (call_res (VimUserSession (ss_Client s))) ;;
      tagManagerSession <- try (call_res (RestSession (ss_Client s))) ;;
      match userSession, tagManagerSession with
      | inl true, inl true => ret (Some s)
      | _, _ =>
          try (call_res (RestLogout (ss_Client s))) ;;
          try (call_res (VimLogout (ss_Client s))) ;;
          ret None
      end
  end.

Definition create_session (params : Params) : MS Session :=
  soapURL <- wrap (sprintf "failed to create vCenter session: error parsing vSphere URL %q" [AS (pa_server params)])
               (call_res (ParseURL (urlSafeServer (pa_server params)))) ;;
  match soapURL with
  | None => fail (ENew (sprintf "failed to create vCenter session: error parsing vSphere URL %q: URL is nil"
                          [AS (pa_server params)]))
  | Some soapURL =>
      client <- wrap "failed to create vCenter session"
                  (newClient soapURL (pa_userinfo params) (pa_thumbprint params)) ;;
      let '(client, isVC, apiType) := client in
      r <- try (newManager client (pa_userinfo params)) ;;
      match r with
      | inr err =>
          try (call_res (VimLogout client)) ;;
          fail (EWrap "failed to create vCenter session: failed to create tags manager" err)
      | inl _ =>
          dc <- (if negb (String.eqb (pa_datacenter params) "") then
                   r <- try (call_res (SessionDatacenter client (pa_datacenter params))) ;;
                   match r with
                   | inr err =>
                       try (call_res (RestLogout client)) ;;
                       try (call_res (VimLogout client)) ;;
                       fail (EWrap (sprintf "failed to create vCenter session: failed to find datacenter %q"
                                      [AS (pa_datacenter params)]) err)
                   | inl dc => ret (Some dc)
                   end
                 else ret None) ;;
          let session := mkSession client isVC apiType dc in
          ask (SessionCacheStore (sessionKey params) session) ;;
          ret session
      end
  end.

(** The whole function runs under a mutex. *)
Definition GetOrCreate (params : Params) : MS Session :=
  cached <- cached_session (sessionKey params) ;;
  match cached with
  | Some s => ret s
  | None => create_session params
  end.

(** [Session.GetVersion]. *)
Definition GetVersion (s : Session) : MS string :=
  svcVersion <- ask (AboutVersion (ss_Client s)) ;;
  match semver_major svcVersion with
  | None => fail (EWrap (sprintf "failed to parse version %q" [AS svcVersion])
                    (ELib OtherLibError (semver_error_text svcVersion)))
  | Some major =>
      if 6 <=? major then ret svcVersion
      else fail (ENew (sprintf "version %q lower than 6" [AS svcVersion]))
  end.

(** Logs every cached session out; the cache itself is not emptied. *)
Definition Clear : MS unit :=
  sessions <- ask SessionCacheRange ;;
  for_each sessions (fun s => try (call_res (VimLogout (ss_Client s))) ;; ret tt).

(** * Letting a secret go

    The end of the deletion of a VSphereCluster and of a VSphereClusterIdentity. *)

Definition without_finalizer (f : string) (om : ObjectMeta) : ObjectMeta :=
  set_om_Finalizers (RemoveFinalizer (om_Finalizers om) f).1 om.

(** The secret of the identity is let go, and deleted. *)
Definition release_secret (secret : ObjectMeta) : MS unit :=
  let obj := KRef (om_Namespace secret) (om_Name secret) in
  let removed := RemoveFinalizer (om_Finalizers secret) SecretIdentitySetFinalizer in
  let secret := set_om_Finalizers removed.1 secret in
  (if (removed.2 : bool) then
     wrap (sprintf "failed to update Secret %s" [AS obj]) (call_res (UpdateObject "Secret" secret))
   else ret tt) ;;
  (if not_deleted secret then
     wrap (sprintf "failed to delete Secret %s" [AS obj]) (call_res (DeleteObject "Secret" secret))
   else ret tt).

End programs.

(** * Lemmas *)

Section lemmas.
Context `{Libs} {St : Type}.

(** A session is made, or found, with nothing but logins and logouts. *)
Definition session_effect (e : effect) : Prop := match e with LogsIn _ | LogsOut _ => True | _ => False end.

Lemma GetOrCreate_within params : within (St:=St) session_effect (GetOrCreate params).
Proof. unfold GetOrCreate, cached_session, create_session, newClient, newManager. solve_within. Qed.
Lemma GetOrCreate_acts params : acts (St:=St) session_effect (GetOrCreate params).
Proof. unfold GetOrCreate, cached_session, create_session, newClient, newManager. solve_acts. Qed.
Lemma reads_GetCredentials cluster ns : reads (St:=St) (GetCredentials cluster ns).
Proof. unfold GetCredentials, identity_secret. solve_reads. Qed.
Lemma reads_GetVersion s : reads (St:=St) (GetVersion s).
Proof. unfold GetVersion. solve_reads. Qed.

(** The version of a vCenter that is accepted is not the empty text. *)
Lemma GetVersion_spec s (c : St) :
  wpm (GetVersion s) c (fun tr r c' => effects tr = [] /\ c' = c /\
    match r with Ok v => exists m, semver_major v = Some m /\ 6 <= m | Err _ => True | Stop _ => False end).
Proof.
  unfold GetVersion. wp_step. wp_step. destruct (semver_major x) as [m|] eqn:E; [|by wp_step].
  destruct (6 <=? m) eqn:Hm; wp_step; [|done]. split_and!; [done..|]. exists m. split; [done|lia].
Qed.

(** Where the secret of an identity is, and who may read it there. *)
Definition secret_allowed (cluster : VSphereCluster) (controllerNamespace : string)
    (tr : trace) (ns name : string) : Prop :=
  let ref := ls_IdentityRef (vc_Spec cluster) in
  let cns := om_Namespace (vc_ObjectMeta cluster) in
  ir_Kind ref = SecretKind /\ ns = cns /\ name = ir_Name ref \/
  ir_Kind ref = VSphereClusterIdentityKind /\ ns = controllerNamespace /\
  exists identity selector labels,
    Call (GetVSphereClusterIdentity (ir_Name ref)) (Ok identity) ∈ tr /\
    name = ci_SecretName identity /\ ci_Ready identity = Some true /\
    ci_AllowedNamespaces identity = Some selector /\
    Call (GetNamespaceLabels cns) (Ok labels) ∈ tr /\
    selector_matches selector (default ∅ labels) = true.

Lemma identity_secret_spec cluster ns (c : St) :
  wpm (identity_secret cluster ns) c (fun tr r c' => c' = c /\ effects tr = [] /\
    match r with Ok key => secret_allowed cluster ns tr key.1 key.2 | _ => True end).
Proof.
  unfold identity_secret, secret_allowed.
  destruct (String.eqb_spec (ir_Kind (ls_IdentityRef (vc_Spec cluster))) SecretKind) as [->|_].
  { wp_step. split_and!; [done..|]. by left. }
  destruct (String.eqb_spec (ir_Kind (ls_IdentityRef (vc_Spec cluster))) VSphereClusterIdentityKind) as [->|_];
    [|by wp_step].
  repeat wp_step; [|done..].
  destruct (ci_Ready a) as [[|]|] eqn:Hready; cbn [ptr_deref negb]; [|by wp_step..].
  destruct (ci_AllowedNamespaces a) as [selector|] eqn:Hsel; [|by wp_step].
  destruct (selector_valid selector); cbn [negb]; [|by wp_step]. repeat wp_step; [|done..].
  destruct (selector_matches selector _) eqn:Hm; cbn [negb]; [|by wp_step].
  wp_step. split_and!; [done..|]. right. split_and!; [done..|].
  exists a, selector, a0. split_and!; try done; in_trace.
Qed.

Definition credentials_allowed (cluster : option VSphereCluster) (controllerNamespace : string)
    (tr : trace) (creds : Credentials) : Prop :=
  exists cl ns name secret,
    cluster = Some cl /\ VSphereIdentityReference_IsDefined (ls_IdentityRef (vc_Spec cl)) = true /\
    secret_allowed cl controllerNamespace tr ns name /\
    Call (GetSecret ns name) (Ok secret) ∈ tr /\
    creds = mkCredentials (getData secret UsernameKey) (getData secret PasswordKey).

Lemma secret_allowed_app cl ns0 tr tr' ns name :
  secret_allowed cl ns0 tr ns name -> secret_allowed cl ns0 (tr ++ tr')%list ns name.
Proof.
  intros [Hs|(? & ? & i & sel & l & Hi & ? & ? & ? & Hl & ?)]; [by left|right].
  split_and!; [done..|]. exists i, sel, l. split_and!; try done; in_trace.
Qed.

Lemma GetCredentials_spec cluster controllerNamespace (c : St) :
  wpm (GetCredentials cluster controllerNamespace) c (fun tr r c' => c' = c /\ effects tr = [] /\
    match r with Ok creds => credentials_allowed cluster controllerNamespace tr creds | _ => True end).
Proof.
  unfold GetCredentials, validateInputs. destruct cluster as [cl|]; [|by wp_step].
  destruct (VSphereIdentityReference_IsDefined _) eqn:Hdef; cbn [negb]; [|by wp_step].
  wp_step. eapply wpm_mono; [apply identity_secret_spec|].
  intros tr0 [[ns name]|e|w] c1 (-> & He & Hs); [|done..]. repeat wp_step; [|by trace_simpl..].
  split_and!; [done|by trace_simpl|]. exists cl, ns, name, a.
  split_and!; try done; [by apply secret_allowed_app|in_trace].
Qed.

(** C37: credentials are handed out only to the VSphereClusters that may use them.
    They come from one secret: for an identity of kind [Secret] the one it names
    in the namespace of the cluster itself, for a [VSphereClusterIdentity] the one
    it names in the namespace of the controller, and that only when the identity is
    ready and the selector of its allowed namespaces matches the labels of the
    namespace of the cluster. Nothing is changed. *)
Theorem GetCredentials_allowed cluster controllerNamespace (c : St) tr creds c' :
  runs (GetCredentials cluster controllerNamespace c) tr (Ok creds, c') ->
  c' = c /\ effects tr = [] /\ credentials_allowed cluster controllerNamespace tr creds.
Proof. intros Hr. exact (proj1 (wpm_runs _ _ _) (GetCredentials_spec cluster controllerNamespace c) _ _ _ Hr). Qed.

(** ** Secrets *)

Lemma release_secret_spec secret (c : St) :
  wpm (release_secret secret) c (fun tr r c' => c' = c /\
    match r with
    | Ok _ => let freed := without_finalizer SecretIdentitySetFinalizer secret in
        (SecretIdentitySetFinalizer ∈ om_Finalizers secret -> Call (UpdateObject "Secret" freed) (Ok tt) ∈ tr) /\
        (not_deleted secret = true -> Call (DeleteObject "Secret" freed) (Ok tt) ∈ tr)
    | _ => True
    end).
Proof.
  unfold release_secret. cbn zeta. rewrite RemoveFinalizer_changed. wp_step.
  assert (Hdel : not_deleted (set_om_Finalizers (RemoveFinalizer (om_Finalizers secret) SecretIdentitySetFinalizer).1 secret)
    = not_deleted secret) by done.
  rewrite Hdel. unfold without_finalizer.
  case_bool_decide as Hin; [do 2 wp_step; cbn beta iota; [|done..]|wp_step];
    (destruct (not_deleted secret); [do 2 wp_step; cbn beta iota; [|done..]|wp_step]);
    (split; [done|]); split; intros; try done;
    repeat match goal with u : unit |- _ => destruct u end; in_trace.
Qed.

(** ** Sessions *)

(** The sides of a session: the one of the client, the REST one of the tags. *)
Inductive side := VimSide | RestSide.

(** The logins that went through, and the logouts that were made. *)
Definition login_of (c : call Ev) : option (side * string) :=
  match c with
  | @Call _ X e x =>
      match e in Ev Y return Y -> option (side * string) with
      | VimLogin cl _ _ => fun r => if is_ok r then Some (VimSide, cl) else None
      | RestLogin cl _ _ => fun r => if is_ok r then Some (RestSide, cl) else None
      | _ => fun _ => None
      end x
  end.
Definition logout_of (c : call Ev) : option (side * string) :=
  match c with
  | @Call _ X e x =>
      match e with
      | VimLogout cl => Some (VimSide, cl)
      | RestLogout cl => Some (RestSide, cl)
      | _ => None
      end
  end.
Definition logins (tr : trace) : list (side * string) := omap login_of tr.
Definition logouts (tr : trace) : list (side * string) := omap logout_of tr.

(** A session that was found in the cache under the key, with both sides active,
    or one that was logged in on both sides and stored there. *)
Definition session_given (params : Params) (tr : trace) (s : Session) : Prop :=
  tr = [Call (SessionCacheLoad (sessionKey params)) (Some s);
        Call (VimUserSession (ss_Client s)) (Ok true); Call (RestSession (ss_Client s)) (Ok true)] \/
  logins tr = [(VimSide, ss_Client s); (RestSide, ss_Client s)] /\
  last tr = Some (Call (SessionCacheStore (sessionKey params) s) tt) /\
  (pa_datacenter params <> "" ->
     exists dc, ss_Datacenter s = Some dc /\
       Call (SessionDatacenter (ss_Client s) (pa_datacenter params)) (Ok dc) ∈ tr).

Definition given_or_logged_out (params : Params) (tr0 tr : trace) (r : res Session) : Prop :=
  match r with
  | Ok s => session_given params (tr0 ++ tr)%list s
  | Err _ => forall l, l ∈ logins tr -> l ∈ logouts tr
  | Stop _ => True
  end.

Lemma logins_app tr tr' : logins (tr ++ tr')%list = (logins tr ++ logins tr')%list.
Proof. apply omap_app. Qed.

(** A run that ended before a login. *)
Lemma not_logged_in params tr0 tr r :
  logins tr = [] -> (forall s, r <> Ok s) -> given_or_logged_out params tr0 tr r.
Proof. intros Hl Hr. destruct r as [s|e|w]; simpl; [by destruct (Hr s)| |done]. rewrite Hl. by intros l ?%elem_of_nil. Qed.

Ltac not_in := split; [done|by apply not_logged_in].

Lemma create_session_spec params (c : St) tr0 :
  logins tr0 = [] ->
  wpm (create_session params) c (fun tr r c' => c' = c /\ given_or_logged_out params tr0 tr r).
Proof.
  intros H0. unfold create_session, newClient, newManager.
  repeat wp_step; [|not_in|not_in]. destruct a as [url|]; [|wp_step; not_in].
  repeat wp_step; [|not_in|done|not_in|not_in].
  destruct a as [[cl isVC] apiType]; cbn [fst]. repeat wp_step.
  2-3: split; [done|intros l Hl; exact Hl].
  2-3: done.
  destruct (String.eqb_spec (pa_datacenter params) "") as [Hd|Hd]; cbn [negb]; repeat wp_step.
  all: try (split; [done|]; first [exact I | intros l Hl; cbn in Hl |- *; revert Hl; rewrite !elem_of_cons; tauto]).
  - split; [done|]. right. unfold logins in H0. destruct x. split_and!; [|rewrite last_app; reflexivity|by intros ?].
    rewrite logins_app. unfold logins. by rewrite H0.
  - split; [done|]. right. destruct x. split_and!; [rewrite logins_app, H0; reflexivity|rewrite last_app; reflexivity|].
    intros _. exists a1. split; [done|]. in_trace.
Qed.

Lemma cached_session_spec key (c : St) :
  wpm (cached_session key) c (fun tr r c' => c' = c /\ logins tr = [] /\
    match r with
    | Ok (Some s) => tr = [Call (SessionCacheLoad key) (Some s);
        Call (VimUserSession (ss_Client s)) (Ok true); Call (RestSession (ss_Client s)) (Ok true)]
    | _ => True
    end).
Proof. unfold cached_session. wp_run; by subst. Qed.

Lemma GetOrCreate_spec params (c : St) :
  wpm (GetOrCreate params) c (fun tr r c' => c' = c /\ given_or_logged_out params [] tr r).
Proof.
  unfold GetOrCreate. wp_step. eapply wpm_mono; [apply cached_session_spec|].
  intros tr [[s|]|e|w] c1 (-> & Hl & Ht); [| |split; [done|by apply not_logged_in]..].
  - wp_step. split; [done|]. left. by rewrite Ht.
  - eapply wpm_mono; [by apply create_session_spec|]. intros tr' r c' [-> Hr]. split; [done|].
    destruct r as [s|e|w]; [exact Hr| |done]. intros l. rewrite logins_app, Hl. intros Hin.
    unfold logouts. rewrite omap_app. apply elem_of_app. right. by apply Hr.
Qed.

(** a session is handed out from the cache only when both of its sides are
    active, or else it is one that was just logged in on both sides, stored under
    the key of its parameters and whose finder has the datacenter that was asked
    for. When none can be made, every login that went through was followed by a
    logout: no session leaks. *)
Theorem GetOrCreate_no_leak params (c : St) tr r c' :
  runs (GetOrCreate params c) tr (r, c') ->
  c' = c /\
  match r with
  | Ok s => session_given params tr s
  | Err _ => forall l, l ∈ logins tr -> l ∈ logouts tr
  | Stop _ => True
  end.
Proof. intros Hr. exact (proj1 (wpm_runs _ _ _) (GetOrCreate_spec params c) _ _ _ Hr). Qed.
End lemmas.

(** * Concrete inputs *)

Section examples.
Import RefLibs.

Definition sample_identity_cluster : VSphereCluster :=
  mkVSphereCluster (mkObjectMeta "cluster-1" "default" "uid" None [] [] None)
    (mkVSphereClusterSpec "vcenter" "" (mkAPIEndpoint "" 0) (mkVSphereIdentityReference SecretKind "creds") [] None None)
    [] [] "" [] None "".
Definition sample_credentials_run : trace * (res Credentials * unit) :=
  exec ref_answer (GetCredentials (Some sample_identity_cluster) "capv-system" tt) empty_world.
Lemma sample_credentials_runs :
  runs (GetCredentials (Some sample_identity_cluster) "capv-system" tt) sample_credentials_run.1
    (Ok (mkCredentials "" ""), tt).
Proof. apply (exec_runs ref_answer (GetCredentials (Some sample_identity_cluster) "capv-system" tt) empty_world). Qed.

Lemma GetCredentials_allowed_witness :
  credentials_allowed (Some sample_identity_cluster) "capv-system" sample_credentials_run.1 (mkCredentials "" "").
Proof. exact (proj2 (proj2 (GetCredentials_allowed _ _ _ _ _ _ sample_credentials_runs))). Defined.

Definition sample_params : Params := mkParams "fd00::1" "dc0" ("admin", "secret") "".
Definition sample_session : Session := mkSession "[fd00::1]" true "VirtualCenter" (Some (mkMoRef "Datacenter" "dc0")).
Definition sample_session_run : trace * (res Session * unit) :=
  exec ref_answer (GetOrCreate sample_params tt) empty_world.
Lemma sample_session_runs :
  runs (GetOrCreate sample_params tt) sample_session_run.1 (Ok sample_session, tt).
Proof. apply (exec_runs ref_answer (GetOrCreate sample_params tt) empty_world). Qed.

Lemma GetOrCreate_no_leak_witness : session_given sample_params sample_session_run.1 sample_session.
Proof. exact (proj2 (GetOrCreate_no_leak _ _ _ _ _ sample_session_runs)). Defined.
End examples.

End Identity.
