(* ===== verification/Owners.v ===== *)
(** [pkg/util/fetch_object.go], [pkg/util/cluster.go] and the part of
    [pkg/util/machines.go] that follows owner references: from a Machine to the
    object that manages it, from a VSphereVM to its VSphereMachine, and from there
    to the VSphereCluster. *)
From S2P Require Import Prelude GoStrings Types Libs Errors Prog World RefLibs Identity.

Module Owners.

Section owners.
Context `{Libs} {St : Type}.
#[warnings="-notation-for-abbreviation"]
Notation MS := (M Ev St).
Open Scope go_scope.

(** [labels[key]]; the zero value when the map is nil or has no such key. *)
Definition label (om : ObjectMeta) (key : string) : string :=
  match om_Labels om with Some l => default "" (l !! key) | None => "" end.

(** * [fetch_object.go] *)

Fixpoint findOwnerRefWithKind (ownerRefs : list OwnerReference) (group kind : string) : res OwnerReference :=
  match ownerRefs with
  | [] => Err (ENew (sprintf "unable to find owner reference with APIVersion %s and Kind %s"
                       [AS (group +:+ "/v1beta2"); AS kind]))
  | ref :: refs =>
      match ParseGroup (or_APIVersion ref) with
      | inr msg => Err (ELib OtherLibError msg)
      | inl g => if String.eqb g group && String.eqb (or_Kind ref) kind then Ok ref
                 else findOwnerRefWithKind refs group kind
      end
  end.

Definition fetchOwnerOfKindInto (group kind : string) (fromObject : ObjectMeta) : MS ObjectMeta :=
  ref <- of_res (findOwnerRefWithKind (om_OwnerReferences fromObject) group kind) ;;
  call_res (GetObject kind (om_Namespace fromObject) (or_Name ref)).

Definition FetchControlPlaneOwnerObject (object : ObjectMeta) : MS ObjectMeta :=
  fetchOwnerOfKindInto ControlPlaneV1Group "KubeadmControlPlane" object.

Definition FetchMachineDeploymentOwnerObject (object : ObjectMeta) : MS ObjectMeta :=
  ms <- fetchOwnerOfKindInto ClusterV1Group "MachineSet" object ;;
  fetchOwnerOfKindInto ClusterV1Group "MachineDeployment" ms.

(** * [machines.go] *)

Definition getVSphereMachineByName (namespace name : string) : MS VSphereMachine :=
  call_res (GetVSphereMachine namespace name).

(** The loop over the references: the first one that is a VSphereMachine. *)
Fixpoint vsphere_machine_owner (refs : list OwnerReference) : res (option string) :=
  match refs with
  | [] => Ok None
  | ref :: refs =>
      match ParseGroup (or_APIVersion ref) with
      | inr msg => Err (ELib OtherLibError msg)
      | inl g => if String.eqb (or_Kind ref) "VSphereMachine" && String.eqb g Identity.GroupName
                 then Ok (Some (or_Name ref)) else vsphere_machine_owner refs
      end
  end.

Definition GetOwnerVSphereMachine (obj : ObjectMeta) : MS (option VSphereMachine) :=
  owner <- of_res (vsphere_machine_owner (om_OwnerReferences obj)) ;;
  match owner with
  | None => ret None
  | Some name => m <- getVSphereMachineByName (om_Namespace obj) name ;; ret (Some m)
  end.

(** * [cluster.go] *)

Definition GetVSphereClusterFromVSphereMachine (machine : VSphereMachine) : MS VSphereCluster :=
  let om := p_ObjectMeta machine in
  let clusterName := label om ClusterNameLabel in
  if String.eqb clusterName "" then
    fail (ENew (sprintf "error getting VSphereCluster name from VSphereMachine %s/%s"
                  [AS (om_Namespace om); AS (om_Name om)]))
  else
    cluster <- call_res (GetCluster (om_Namespace om) clusterName) ;;
    match kc_InfrastructureRefName cluster with
    | None =>
        fail (ENew (sprintf "error getting VSphereCluster name from VSphereMachine %s/%s: Cluster.spec.infrastructureRef not yet set"
                      [AS (om_Namespace om); AS (om_Name om)]))
    | Some name => call_res (GetVSphereCluster (om_Namespace om) name)
    end.
End owners.

(** * Lemmas *)

Section lemmas.
Context `{Libs} {St : Type}.

Lemma reads_fetchOwnerOfKindInto g k o : reads (St:=St) (fetchOwnerOfKindInto g k o).
Proof. unfold fetchOwnerOfKindInto. solve_reads. Qed.
Lemma reads_GetOwnerVSphereMachine o : reads (St:=St) (GetOwnerVSphereMachine o).
Proof. unfold GetOwnerVSphereMachine, getVSphereMachineByName. solve_reads. Qed.
Lemma reads_GetVSphereClusterFromVSphereMachine m : reads (St:=St) (GetVSphereClusterFromVSphereMachine m).
Proof. unfold GetVSphereClusterFromVSphereMachine. solve_reads. Qed.

(** The reference that is found is one of the list with that group and kind, and
    no reference before it has them. *)
Lemma findOwnerRefWithKind_ok refs group kind ref :
  findOwnerRefWithKind refs group kind = Ok ref ->
  ref ∈ refs /\ or_Kind ref = kind /\ ParseGroup (or_APIVersion ref) = inl group.
Proof.
  induction refs as [|r refs IH]; simpl; [done|].
  destruct (ParseGroup (or_APIVersion r)) as [g|msg] eqn:Hg; [|done].
  destruct (String.eqb_spec g group) as [->|]; cbn [andb].
  - destruct (String.eqb_spec (or_Kind r) kind) as [Hk|].
    + intros [= <-]. split; [left|done].
    + intros Hr. destruct (IH Hr) as [? ?]. split; [by right|done].
  - intros Hr. destruct (IH Hr) as [? ?]. split; [by right|done].
Qed.
End lemmas.

End Owners.
