(* ===== verification/MachineUtil.v ===== *)
(** [pkg/util]: names, identifiers and metadata of machines
    ([machines.go], [constants.go], [ipaddress_claim.go], [ipfamily.go],
    [label.go], [vmx.go], [template.go]). *)
From S2P Require Import Prelude GoStrings GoBase64 GoNet Types Libs Errors.
From Stdlib Require Import Ascii.

Module MachineUtil.

(** * [ipaddress_claim.go] *)

Definition IPAddressClaimName (vmName : string) (deviceIndex poolIndex : Z) : string :=
  sprintf "%s-%d-%d" [AS vmName; AZ deviceIndex; AZ poolIndex].

(** * [vmx.go] *)

(** [strconv.Atoi] fails with [*strconv.NumError]. *)
Definition atoi_err_text (s : string) (e : atoi_error) : string :=
  sprintf "strconv.Atoi: parsing %q: %s"
    [AS s; AS (match e with ErrSyntax => "invalid syntax" | ErrRange => "value out of range" end)].

Definition ParseHardwareVersion (version : string) : res Z :=
  let versionStr := trim_prefix version "vmx-" in
  match atoi versionStr with
  | inl v => Ok v
  | inr e => Err (ENew (atoi_err_text versionStr e))
  end.

Definition LessThan (version1 version2 : string) : res bool :=
  res_bind (ParseHardwareVersion version1) (fun v1 =>
  res_bind (ParseHardwareVersion version2) (fun v2 => Ok (v1 <? v2))).

(** * [ipfamily.go] *)

Inductive ClusterIPFamily :=
| IPv4SingleStack
| IPv6SingleStack
| DualStackIPv4Primary
| DualStackIPv6Primary.

(** The fields of a [clusterv1.Cluster] the function reads. *)
Record Cluster := mkCluster {
  cl_Namespace : string;
  cl_Name : string;
  cl_PodsCIDRBlocks : list string;
  cl_ServicesCIDRBlocks : list string
}.

(** The loop over the blocks: whether an IPv4 and an IPv6 block were seen, and
    whether the first block is an IPv6 one; the text of the block that does not
    parse. [parse_err] is the text of the error of [net.ParseCIDR]. *)
Fixpoint scan_cidrs (i : Z) (blocks : list string) (hasIPv4 hasIPv6 firstIsIPv6 : bool)
    : (bool * bool * bool) + string :=
  match blocks with
  | [] => inl (hasIPv4, hasIPv6, firstIsIPv6)
  | cidr :: blocks' =>
      match parse_cidr cidr with
      | None => inr cidr
      | Some ip =>
          let isIPv6 := bool_decide (to4 ip = None) in
          scan_cidrs (i + 1) blocks' (if isIPv6 then hasIPv4 else true)
            (if isIPv6 then true else hasIPv6) (if i =? 0 then isIPv6 else firstIsIPv6)
      end
  end.

Definition DetermineClusterIPFamily (cluster : option Cluster) : res ClusterIPFamily :=
  match cluster with
  | None => Err (ENew "cluster is nil")
  | Some cluster =>
      let cidrBlocks := cl_PodsCIDRBlocks cluster in
      let cidrBlocks := if zlen cidrBlocks =? 0 then cl_ServicesCIDRBlocks cluster else cidrBlocks in
      if zlen cidrBlocks =? 0 then
        Err (ENew (sprintf "cluster %s/%s has no Pod or Service CIDR blocks"
                     [AS (cl_Namespace cluster); AS (cl_Name cluster)]))
      else
        match scan_cidrs 0 cidrBlocks false false false with
        | inr cidr =>
            Err (EWrap (sprintf "failed to parse CIDR %q" [AS cidr])
                       (ENew (sprintf "invalid CIDR address: %s" [AS cidr])))
        | inl (hasIPv4, hasIPv6, firstIsIPv6) =>
            if hasIPv4 && hasIPv6 then
              Ok (if firstIsIPv6 then DualStackIPv6Primary else DualStackIPv4Primary)
            else Ok (if hasIPv6 then IPv6SingleStack else IPv4SingleStack)
        end
  end.

(** * [label.go] *)

Definition LabelValueMaxLength : nat := 63.
#[global] Arguments LabelValueMaxLength : simpl never.

Definition stripZoneInfo (info : string) : string :=
  match last_index_byte "%" info with
  | None => info
  | Some idx => take_str idx info
  end.

(** The loop cuts the text at its last dot; every turn shortens it, so its
    length is fuel enough. *)
Fixpoint truncate_loop (fuel : nat) (inputURL : string) : string :=
  match fuel with
  | O => inputURL
  | S fuel' =>
      match last_index_byte "." inputURL with
      | None => take_str LabelValueMaxLength inputURL
      | Some pos =>
          let inputURL := take_str pos inputURL in
          if (String.length inputURL <=? LabelValueMaxLength)%nat then inputURL
          else truncate_loop fuel' inputURL
      end
  end.

Definition truncateLabelLength (inputURL : string) : string :=
  if (String.length inputURL <=? LabelValueMaxLength)%nat then inputURL
  else truncate_loop (S (String.length inputURL)) inputURL.

Definition SanitizeHostInfoLabel (info : string) : string :=
  let updatedInfo := stripZoneInfo info in
  match parse_ip updatedInfo with
  | Some ip =>
      if bool_decide (to4 ip = None) then
        sprintf "%s.ipv6-literal" [AS (replace_byte ":" "-" updatedInfo)]
      else updatedInfo
  | None => truncateLabelLength info
  end.

(** * [template.go]

    The template language is Go's, with two functions of a library; [execute]
    stands for parsing and executing a template on a machine name. *)
Definition maxNameLength : nat := 63.
#[global] Arguments maxNameLength : simpl never.

Definition GenerateMachineNameFromTemplate (execute : string -> string -> res string)
    (machineName nameTemplate : string) : res string :=
  if String.eqb machineName "" then Err (ENew "machine name can not be emmpty")
  else if String.eqb nameTemplate "" then Ok machineName
  else res_bind (execute nameTemplate machineName) (fun name =>
    Ok (if (maxNameLength <? String.length name)%nat then take_str maxNameLength name else name)).

(** * Identifiers in [machines.go] *)

Definition ProviderIDPrefix : string := "vsphere://".

Definition is_hex (c : ascii) : bool :=
  let n := nat_of_ascii c in
  is_digit c || ((97 <=? n)%nat && (n <=? 102)%nat) || ((65 <=? n)%nat && (n <=? 70)%nat).

(** [n] characters of [[a-f\d]], without regard to case. *)
Fixpoint match_hex (n : nat) (s : string) : option string :=
  match n with
  | O => Some s
  | S n' => match s with
            | String c s' => if is_hex c then match_hex n' s' else None
            | EmptyString => None
            end
  end.
Definition match_byte (c : ascii) (s : string) : option string :=
  match s with
  | String d s' => if Ascii.eqb c d then Some s' else None
  | EmptyString => None
  end.

(** The pattern of a UUID up to the end of the text. *)
Definition match_uuid (s : string) : bool :=
  match s1 ← match_hex 8 s; s1 ← match_byte "-" s1;
        s2 ← match_hex 4 s1; s2 ← match_byte "-" s2;
        s3 ← match_hex 4 s2; s3 ← match_byte "-" s3;
        s4 ← match_hex 4 s3; s4 ← match_byte "-" s4;
        match_hex 12 s4 with
  | Some EmptyString => true
  | _ => false
  end.

(** A literal under the flag [(?i)], where an [s] also matches the long s
    (U+017F), the only letter of the prefix with a fold outside ASCII. *)
Fixpoint match_fold (lit s : string) : option string :=
  match lit with
  | EmptyString => Some s
  | String c lit' =>
      match s with
      | String d s' =>
          if Ascii.eqb (lower_ascii d) c then match_fold lit' s'
          else if Ascii.eqb c "s" then
            match s with
            | String "197" (String "191" s'') => match_fold lit' s''
            | _ => None
            end
          else None
      | EmptyString => None
      end
  end.

Definition ConvertProviderIDToUUID (providerID : option string) : string :=
  match providerID with
  | None => ""
  | Some p =>
      if String.eqb p "" then ""
      else match match_fold ProviderIDPrefix p with
           | Some uuid => if match_uuid uuid then uuid else ""
           | None => ""
           end
  end.

Definition ConvertUUIDToProviderID (uuid : string) : string :=
  if String.eqb uuid "" then ""
  else if negb (match_uuid uuid) then ""
  else ProviderIDPrefix +:+ uuid.

(** * Machines as text *)

Record MachineName := mkMachineName { mn_Namespace : string; mn_Name : string }.

(** One turn of the loop: [count] is the number of the machine, from one, and
    [n] the number of machines. *)
Definition machines_step (n count : Z) (message : string) (m : MachineName) : string :=
  if count =? 1 then sprintf "%s/%s" [AS (mn_Namespace m); AS (mn_Name m)]
  else if (count >? 1) && negb (count =? n) then
    sprintf "%s, %s/%s" [AS message; AS (mn_Namespace m); AS (mn_Name m)]
  else sprintf "%s and %s/%s" [AS message; AS (mn_Namespace m); AS (mn_Name m)].

Fixpoint machines_loop (n count : Z) (message : string) (l : list MachineName) : string :=
  match l with
  | [] => message
  | m :: l' => machines_loop n (count + 1) (machines_step n count message m) l'
  end.

Definition MachinesAsString (machines : list MachineName) : string :=
  machines_loop (zlen machines) 1 "" machines.

(** * Addresses and labels of machines *)

Section labels.
Context `{Libs}.

Definition IsControlPlaneMachine (labels : option (gmap string string)) : bool :=
  match labels with
  | Some l => bool_decide (is_Some (l !! MachineControlPlaneLabel))
  | None => false
  end.

(** The addresses are pairs of a type and an address. *)
Fixpoint GetMachinePreferredIPAddress (addresses : list (string * string)) : res string :=
  match addresses with
  | [] => Err (ESentinel ErrNoMachineIPAddr)
  | (ty, address) :: rest =>
      if negb (String.eqb ty MachineExternalIP) then GetMachinePreferredIPAddress rest
      else Ok address
  end.
End labels.

(** * Lemmas *)

Lemma claim_name_eq vm d p :
  IPAddressClaimName vm d p = (vm +:+ String "-" (itoa d)) +:+ String "-" (itoa p).
Proof. rewrite string_app_assoc, string_app_cons. unfold IPAddressClaimName. simpl. by rewrite string_app_nil_r. Qed.

Lemma claim_name_inj vm d p vm' d' p' :
  0 <= d -> 0 <= p -> 0 <= d' -> 0 <= p' ->
  IPAddressClaimName vm d p = IPAddressClaimName vm' d' p' -> vm = vm' /\ d = d' /\ p = p'.
Proof.
  intros Hd Hp Hd' Hp'. rewrite !claim_name_eq. intros E.
  apply last_sep_inj in E as [E Ep]; [|by apply last_index_byte_itoa..].
  apply last_sep_inj in E as [Evm Ed]; [|by apply last_index_byte_itoa..].
  by apply (inj itoa) in Ed, Ep.
Qed.

Lemma match_fold_prefix uuid : match_fold ProviderIDPrefix (ProviderIDPrefix +:+ uuid) = Some uuid.
Proof. reflexivity. Qed.

(** An address [To4] gives nothing for. *)
Definition is_v6 (ip : list Z) : bool := bool_decide (to4 ip = None).

Lemma scan_cidrs_spec blocks ips i h4 h6 f6 :
  mapM parse_cidr blocks = Some ips -> 0 <= i ->
  scan_cidrs i blocks h4 h6 f6 =
    inl (h4 || existsb (fun ip => negb (is_v6 ip)) ips, h6 || existsb is_v6 ips,
         if i =? 0 then match ips with ip :: _ => is_v6 ip | [] => f6 end else f6).
Proof.
  intros H Hi. apply mapM_Some_1 in H. revert i h4 h6 f6 Hi.
  induction H as [|b ip blocks ips Hb _ IH]; intros i h4 h6 f6 Hi; simpl.
  - rewrite !orb_false_r. by destruct (i =? 0).
  - rewrite Hb, IH by lia. rewrite (proj2 (Z.eqb_neq (i + 1) 0)) by lia. fold (is_v6 ip).
    destruct (is_v6 ip), (i =? 0), h4, h6; reflexivity.
Qed.

Lemma scan_cidrs_bad blocks i h4 h6 f6 :
  mapM parse_cidr blocks = None ->
  exists cidr, scan_cidrs i blocks h4 h6 f6 = inr cidr /\ cidr ∈ blocks /\ parse_cidr cidr = None.
Proof.
  revert i h4 h6 f6. induction blocks as [|b blocks IH]; intros i h4 h6 f6; simpl; [done|].
  destruct (parse_cidr b) as [ip|] eqn:E; simpl.
  - destruct (mapM parse_cidr blocks) eqn:E'; [done|]. intros _.
    destruct (IH (i + 1) (if bool_decide (to4 ip = None) then h4 else true)
                (if bool_decide (to4 ip = None) then true else h6)
                (if i =? 0 then bool_decide (to4 ip = None) else f6) eq_refl) as (c & Hc & Hin & Hp).
    exists c. repeat split; auto. by right.
  - intros _. exists b. repeat split; auto. by left.
Qed.

Lemma truncate_loop_length fuel s :
  (String.length s < fuel)%nat -> (String.length (truncate_loop fuel s) <= LabelValueMaxLength)%nat.
Proof.
  revert s. induction fuel as [|fuel IH]; intros s Hs; [lia|]. cbn [truncate_loop].
  destruct (last_index_byte "." s) as [pos|] eqn:E; [|rewrite length_take_str; lia].
  destruct (String.length (take_str pos s) <=? LabelValueMaxLength)%nat eqn:El.
  - by apply Nat.leb_le in El.
  - apply IH. apply last_index_byte_lt in E. rewrite length_take_str. lia.
Qed.

Lemma length_replace_byte a b s : String.length (replace_byte a b s) = String.length s.
Proof. induction s as [|c s IH]; simpl; auto. Qed.

Lemma stripZoneInfo_length info : (String.length (stripZoneInfo info) <= String.length info)%nat.
Proof.
  unfold stripZoneInfo. destruct (last_index_byte "%" info); [|done]. rewrite length_take_str. lia.
Qed.

(** A machine as it is written in a message. *)
Definition machine_text (m : MachineName) : string := mn_Namespace m +:+ "/" +:+ mn_Name m.

Lemma machines_loop_snoc n count message l m :
  1 < count -> n = count + zlen l ->
  machines_loop n count message (l ++ [m])%list =
    message +:+ fold_right (fun m acc => ", " +:+ machine_text m +:+ acc) "" l +:+
    " and " +:+ machine_text m.
Proof.
  unfold zlen. revert count message. induction l as [|m' l IH]; intros count message Hc Hn.
  - simpl in *. unfold machines_step. rewrite (proj2 (Z.eqb_neq count 1)) by lia.
    rewrite (proj2 (Z.eqb_eq count n)) by lia. rewrite andb_false_r.
    unfold machine_text. simpl. by rewrite !string_app_nil_r.
  - change ((m' :: l) ++ [m])%list with (m' :: (l ++ [m]))%list.
    cbn [machines_loop]. rewrite IH by (simpl length in *; lia). unfold machines_step.
    simpl length in Hn. rewrite (proj2 (Z.eqb_neq count 1)) by lia.
    rewrite (proj2 (Z.eqb_neq count n)) by lia.
    replace (count >? 1) with true by lia. cbn [andb negb fold_right].
    unfold machine_text. simpl. rewrite !string_app_nil_r.
    by repeat (rewrite string_app_assoc || rewrite string_app_cons).
Qed.

(** * Properties *)

(** The names of the claims of a VM, and of any two VMs, do not collide:
    the name determines the VM, the device and the pool. *)
Theorem IPAddressClaimName_inj vm d p vm' d' p' :
  0 <= d -> 0 <= p -> 0 <= d' -> 0 <= p' ->
  IPAddressClaimName vm d p = IPAddressClaimName vm' d' p' -> vm = vm' /\ d = d' /\ p = p'.
Proof. apply claim_name_inj. Qed.

Lemma IPAddressClaimName_inj_witness :
  IPAddressClaimName "vm-1" 10 2 = "vm-1-10-2" /\ ("vm-1" = "vm-1" /\ 10 = 10 /\ 2 = 2).
Proof. split; [reflexivity|]. apply IPAddressClaimName_inj; try lia. reflexivity. Defined.

(** a provider ID made from a BIOS UUID converts back to that UUID, and
    whatever UUID a provider ID gives makes a provider ID again, which is the
    same up to the case of the scheme. *)
Theorem providerID_roundtrip uuid :
  ConvertUUIDToProviderID uuid <> "" ->
  ConvertProviderIDToUUID (Some (ConvertUUIDToProviderID uuid)) = uuid /\
  (forall p, ConvertProviderIDToUUID (Some p) = uuid ->
     ConvertUUIDToProviderID uuid = ProviderIDPrefix +:+ uuid /\
     match_fold ProviderIDPrefix p = Some uuid).
Proof.
  unfold ConvertUUIDToProviderID. destruct (String.eqb uuid "") eqn:E0; [done|].
  destruct (match_uuid uuid) eqn:Em; [|done]. intros _. cbn [negb]. split.
  - unfold ConvertProviderIDToUUID. rewrite match_fold_prefix, Em. reflexivity.
  - intros p. unfold ConvertProviderIDToUUID. destruct (String.eqb p "").
    + intros <-. done.
    + destruct (match_fold ProviderIDPrefix p) as [u|]; [|intros <-; done].
      destruct (match_uuid u); intros <-; done.
Qed.

Definition sample_uuid : string := "423A1f2e-0000-beef-cafe-0123456789ab".

Lemma providerID_roundtrip_witness :
  ConvertProviderIDToUUID (Some (ConvertUUIDToProviderID sample_uuid)) = sample_uuid /\
  (forall p, ConvertProviderIDToUUID (Some p) = sample_uuid ->
     ConvertUUIDToProviderID sample_uuid = ProviderIDPrefix +:+ sample_uuid /\
     match_fold ProviderIDPrefix p = Some sample_uuid).
Proof. apply (providerID_roundtrip sample_uuid). vm_compute. discriminate. Defined.

(** the IP family of a cluster is decided by its pod blocks, or by its
    service blocks when it has no pod blocks: single stack when all blocks are
    of one family, otherwise dual stack with the family of the first block as
    the primary one; a block that does not parse, or no block, is an error. *)
Theorem DetermineClusterIPFamily_spec c :
  let blocks := if zlen (cl_PodsCIDRBlocks c) =? 0 then cl_ServicesCIDRBlocks c
                else cl_PodsCIDRBlocks c in
  match mapM parse_cidr blocks with
  | Some (ip :: ips) =>
      DetermineClusterIPFamily (Some c) =
        Ok (if forallb is_v6 (ip :: ips) then IPv6SingleStack
            else if forallb (fun ip => negb (is_v6 ip)) (ip :: ips) then IPv4SingleStack
            else if is_v6 ip then DualStackIPv6Primary else DualStackIPv4Primary)
  | _ => is_ok (DetermineClusterIPFamily (Some c)) = false
  end.
Proof.
  intros blocks. unfold DetermineClusterIPFamily. fold blocks.
  destruct (mapM parse_cidr blocks) as [ips|] eqn:E.
  - assert (Hl : zlen blocks = zlen ips) by (unfold zlen; erewrite length_mapM; eauto).
    rewrite Hl, (scan_cidrs_spec _ _ _ _ _ _ E) by lia.
    destruct ips as [|ip ips]; [done|]. cbn [orb].
    assert (F : forall f, existsb (fun ip => negb (f ip)) (ip :: ips) = negb (forallb f (ip :: ips))).
    { intros f. generalize (ip :: ips). intros l. induction l as [|x l IH]; simpl; [done|].
      rewrite IH. by destruct (f x). }
    assert (F' : existsb is_v6 (ip :: ips) = negb (forallb (fun ip => negb (is_v6 ip)) (ip :: ips))).
    { rewrite <-F. generalize (ip :: ips). intros l. induction l as [|x l IH]; simpl; [done|].
      rewrite IH. by rewrite negb_involutive. }
    replace (zlen (ip :: ips) =? 0) with false by (unfold zlen; simpl; lia). cbn iota.
    rewrite F, F'. cbn [forallb].
    destruct (is_v6 ip) eqn:E6, (forallb is_v6 ips), (forallb (fun ip0 => negb (is_v6 ip0)) ips); reflexivity.
  - destruct (zlen blocks =? 0); [done|].
    destruct (scan_cidrs_bad blocks 0 false false false E) as (c' & -> & _). done.
Qed.

(** The label made of a host's name fits the limit of 63 bytes, whatever
    the name. *)
Theorem SanitizeHostInfoLabel_length info :
  (String.length (SanitizeHostInfoLabel info) <= LabelValueMaxLength)%nat.
Proof.
  unfold SanitizeHostInfoLabel. destruct (parse_ip (stripZoneInfo info)) as [ip|] eqn:E.
  - apply parse_ip_length in E. unfold LabelValueMaxLength. case_bool_decide; [|lia].
    simpl. rewrite !string_length_app, length_replace_byte. simpl. lia.
  - unfold truncateLabelLength.
    destruct (String.length info <=? LabelValueMaxLength)%nat eqn:El; [by apply Nat.leb_le in El|].
    apply truncate_loop_length. lia.
Qed.

(** A list of machines reads "a, b and c": commas between all machines but
    the last two, which "and" joins; every machine appears once, in order. *)
Theorem MachinesAsString_text ms m m0 :
  MachinesAsString [] = "" /\
  MachinesAsString [m0] = machine_text m0 /\
  MachinesAsString (m0 :: ms ++ [m])%list =
    str_join ", " (machine_text <$> m0 :: ms) +:+ " and " +:+ machine_text m.
Proof.
  split; [done|]. split.
  - unfold MachinesAsString, machine_text, machines_step. cbn [machines_loop Z.eqb Pos.eqb].
    unfold machines_step. simpl. by rewrite string_app_nil_r.
  - unfold MachinesAsString. cbn [machines_loop].
    rewrite machines_loop_snoc by (unfold zlen; simpl; rewrite ?length_app; simpl; lia).
    unfold machines_step. cbn [Z.eqb Pos.eqb]. rewrite <-string_app_assoc. f_equal.
    change (sprintf "%s/%s" [AS (mn_Namespace m0); AS (mn_Name m0)])
      with (mn_Namespace m0 +:+ "/" +:+ (mn_Name m0 +:+ "")).
    rewrite string_app_nil_r. fold (machine_text m0). revert m0.
    induction ms as [|m' ms IH]; intros m0; [by rewrite string_app_nil_r|].
    rewrite !fmap_cons, str_join_cons. cbn [fold_right]. rewrite <-fmap_cons, <-IH.
    reflexivity.
Qed.

(** A generated name is never longer than 63 bytes, is the machine name
    when no template is given, and is otherwise what the template gives, cut. *)
Theorem GenerateMachineName_bounded execute machineName nameTemplate name :
  GenerateMachineNameFromTemplate execute machineName nameTemplate = Ok name ->
  machineName <> "" /\
  (nameTemplate = "" -> name = machineName) /\
  (nameTemplate <> "" ->
     (String.length name <= maxNameLength)%nat /\
     exists out rest, execute nameTemplate machineName = Ok out /\ out = name +:+ rest).
Proof.
  unfold GenerateMachineNameFromTemplate.
  destruct (String.eqb_spec machineName "") as [->|Hm]; [done|].
  destruct (String.eqb_spec nameTemplate "") as [->|Ht].
  { intros [= <-]. done. }
  intros (out & Ho & Hn)%res_bind_ok. split; [done|]. split; [done|]. intros _.
  destruct (maxNameLength <? String.length out)%nat eqn:El.
  - assert (name = take_str maxNameLength out) as -> by congruence.
    split; [rewrite length_take_str; lia|]. exists out, (drop_str maxNameLength out).
    by rewrite take_drop_str.
  - assert (name = out) as -> by congruence. apply Nat.ltb_ge in El. split; [done|]. exists out, "". by rewrite string_app_nil_r.
Qed.

Lemma GenerateMachineName_bounded_witness :
  "worker" <> "" /\
  ("{{ .machine.name }}-x" = "" -> "worker-x" = "worker") /\
  ("{{ .machine.name }}-x" <> "" ->
     (String.length "worker-x" <= maxNameLength)%nat /\
     exists out rest, (fun _ n => Ok (n +:+ "-x")) "{{ .machine.name }}-x" "worker" = Ok out /\
       out = "worker-x" +:+ rest).
Proof. apply (GenerateMachineName_bounded (fun _ n => Ok (n +:+ "-x"))). reflexivity. Defined.

End MachineUtil.
