(* ===== verification/Metadata.v ===== *)
(** [GetMachineMetadata] of [pkg/util/machines.go] and the template
    [metadataFormat] of [pkg/util/constants.go]: the cloud-init metadata of a
    VM, from its devices, the addresses given by IPAM and the MAC addresses
    vCenter reports. *)
From S2P Require Import Prelude GoStrings GoBase64 GoNet Types.
From Stdlib Require Import Ascii.

Module Metadata.

(** * The template

    A trimmed action leaves nothing of the white space before it, so every
    piece of text starts with its line feed. *)
Definition nl (s : string) : string := String lf s.
Definition quoted (s : string) : string := String dquote (s +:+ String dquote "").
Definition show_bool (b : bool) : string := if b then "true" else "false".

(** [{{ if p }}text{{ end }}] for a pointer: it is true when it is not nil. *)
Definition if_set {A} (p : option A) (f : A -> string) : string :=
  match p with Some v => f v | None => "" end.
(** The same for a string and for a list: true when not empty. *)
Definition if_text (s : string) (t : string) : string := if String.eqb s "" then "" else t.
Definition if_some {A} (l : list A) (t : string) : string := match l with [] => "" | _ => t end.

(** [{{ range l }}...{{ end }}]. *)
Definition range {A} (l : list A) (f : A -> string) : string :=
  fold_right (fun x acc => f x +:+ acc) "" l.

Definition render_overrides (key : string) (o : option DHCPOverrides) : string :=
  if_set o (fun o =>
    nl ("      " +:+ key +:+ ":") +:+
    if_set (dh_Hostname o) (fun v => nl ("        hostname: " +:+ quoted v)) +:+
    if_set (dh_RouteMetric o) (fun v => nl ("        route-metric: " +:+ itoa v)) +:+
    if_set (dh_SendHostname o) (fun v => nl ("        send-hostname: " +:+ show_bool v)) +:+
    if_set (dh_UseDNS o) (fun v => nl ("        use-dns: " +:+ show_bool v)) +:+
    if_set (dh_UseDomains o) (fun v => nl ("        use-domains: " +:+ v)) +:+
    if_set (dh_UseHostname o) (fun v => nl ("        use-hostname: " +:+ show_bool v)) +:+
    if_set (dh_UseMTU o) (fun v => nl ("        use-mtu: " +:+ show_bool v)) +:+
    if_set (dh_UseNTP o) (fun v => nl ("        use-ntp: " +:+ show_bool v)) +:+
    if_set (dh_UseRoutes o) (fun v => nl ("        use-routes: " +:+ quoted v))).

(** A nil pointer prints as [<nil>]. *)
Definition show_metric (m : option Z) : string :=
  match m with Some v => itoa v | None => "<nil>" end.

Definition render_route (r : NetworkRouteSpec) : string :=
  nl ("      - to: " +:+ quoted (rt_To r)) +:+
  nl ("        via: " +:+ quoted (rt_Via r)) +:+
  nl ("        metric: " +:+ show_metric (rt_Metric r)).

(** The function [nameservers] of the template. *)
Definition nameservers (spec : NetworkDeviceSpec) : bool :=
  (0 <? zlen (nd_Nameservers spec)) || (0 <? zlen (nd_SearchDomains spec)).

Definition render_device (i : Z) (net : NetworkDeviceSpec) : string :=
  let dhcp p := show_bool (ptr_deref p false) in
  nl ("    id" +:+ itoa i +:+ ":") +:+
  nl "      match:" +:+
  nl ("        macaddress: " +:+ quoted (nd_MACAddr net)) +:+
  nl ("      set-name: " +:+
      quoted (if String.eqb (nd_DeviceName net) "" then "eth" +:+ itoa i else nd_DeviceName net)) +:+
  nl "      wakeonlan: true" +:+
  nl ("      dhcp4: " +:+ dhcp (nd_DHCP4 net)) +:+
  nl ("      dhcp6: " +:+ dhcp (nd_DHCP6 net)) +:+
  nl ("      accept-ra: " +:+ dhcp (nd_DHCP6 net)) +:+
  render_overrides "dhcp4-overrides" (nd_DHCP4Overrides net) +:+
  render_overrides "dhcp6-overrides" (nd_DHCP6Overrides net) +:+
  if_some (nd_IPAddrs net)
    (nl "      addresses:" +:+ range (nd_IPAddrs net) (fun a => nl ("      - " +:+ quoted a))) +:+
  if_text (nd_Gateway4 net) (nl ("      gateway4: " +:+ quoted (nd_Gateway4 net))) +:+
  if_text (nd_Gateway6 net) (nl ("      gateway6: " +:+ quoted (nd_Gateway6 net))) +:+
  if_set (nd_MTU net) (fun v => nl ("      mtu: " +:+ itoa v)) +:+
  if_some (nd_Routes net) (nl "      routes:" +:+ range (nd_Routes net) render_route) +:+
  (if nameservers net then
     nl "      nameservers:" +:+
     if_some (nd_Nameservers net)
       (nl "        addresses:" +:+
        range (nd_Nameservers net) (fun a => nl ("        - " +:+ quoted a))) +:+
     if_some (nd_SearchDomains net)
       (nl "        search:" +:+
        range (nd_SearchDomains net) (fun a => nl ("        - " +:+ quoted a)))
   else "").

Definition metadataFormat (hostname : string) (devices : list NetworkDeviceSpec)
    (waitForIPv4 waitForIPv6 : bool) : string :=
  nl ("instance-id: " +:+ quoted hostname) +:+
  nl ("local-hostname: " +:+ quoted hostname) +:+
  nl "wait-on-network:" +:+
  nl ("  ipv4: " +:+ show_bool waitForIPv4) +:+
  nl ("  ipv6: " +:+ show_bool waitForIPv6) +:+
  nl "network:" +:+
  nl "  version: 2" +:+
  nl "  ethernets:" +:+
  range (enumerate devices) (fun '(i, net) => render_device i net) +:+
  nl "".

(** * The devices *)

(** The copy of the [i]th device of the specification: the routes of the VM are
    added to its own, its MAC address is the reported one, and the addresses
    IPAM gave to that MAC address are added to its static ones, with the
    gateways of IPAM in place of its own. *)
Definition spec_device (vmRoutes : list NetworkRouteSpec) (ipamState : gmap string NetworkDeviceSpec)
    (status : option NetworkStatus) (dev : NetworkDeviceSpec) : NetworkDeviceSpec :=
  let d := set_nd_Routes (nd_Routes dev ++ vmRoutes)%list dev in
  let d := match status with Some s => set_nd_MACAddr (st_MACAddr s) d | None => d end in
  match ipamState !! nd_MACAddr d with
  | Some state =>
      set_nd_Gateway6 (nd_Gateway6 state) (set_nd_Gateway4 (nd_Gateway4 state)
        (set_nd_IPAddrs (nd_IPAddrs d ++ nd_IPAddrs state)%list d))
  | None => d
  end.

(** The flags after one device: set by a static address of the family, or by
    DHCP. Once both are set, the rest of the devices is not looked at. *)
Definition wait_flags (dev : NetworkDeviceSpec) (w : bool * bool) : bool * bool :=
  if w.1 && w.2 then w
  else
    let '(w4, w6) :=
      fold_left (fun '(w4, w6) ipStr =>
        match parse_ip ipStr with
        | Some ip => if bool_decide (to4 ip = None) then (w4, true) else (true, w6)
        | None => (w4, w6)
        end) (nd_IPAddrs dev) w in
    (w4 || ptr_deref (nd_DHCP4 dev) false, w6 || ptr_deref (nd_DHCP6 dev) false).

(** The loop over the devices of the specification, which fills the front of
    the slice, and the flags it ends with. *)
Fixpoint spec_devices (vmRoutes : list NetworkRouteSpec) (ipamState : gmap string NetworkDeviceSpec)
    (statuses : list NetworkStatus) (devs : list NetworkDeviceSpec) (w : bool * bool)
    : list NetworkDeviceSpec * (bool * bool) :=
  match devs with
  | [] => ([], w)
  | dev :: devs' =>
      let '(ds, w') := spec_devices vmRoutes ipamState (tail statuses) devs' (wait_flags dev w) in
      (spec_device vmRoutes ipamState (head statuses) dev :: ds, w')
  end.

(** The last loop: [devices[i].MACAddr = networkStatuses[i].MACAddr]. *)
Fixpoint set_macs (statuses : list NetworkStatus) (devices : list NetworkDeviceSpec)
    : list NetworkDeviceSpec :=
  match statuses, devices with
  | s :: statuses', d :: devices' => set_nd_MACAddr (st_MACAddr s) d :: set_macs statuses' devices'
  | _, _ => devices
  end.

(** The slice has the length of the longer of the two; the devices past the
    specification are zero but for the routes of the VM, which the turn for the
    last device of the specification adds to all of them. *)
Definition metadata_devices (vm : VSphereVM) (ipamState : gmap string NetworkDeviceSpec)
    (statuses : list NetworkStatus) : list NetworkDeviceSpec * (bool * bool) :=
  let devs := vm_devices vm in
  let vmRoutes := ns_Routes (cs_Network (vm_clone vm)) in
  let extra := match devs with
               | [] => NetworkDeviceSpec_zero
               | _ => set_nd_Routes vmRoutes NetworkDeviceSpec_zero
               end in
  let '(front, w) := spec_devices vmRoutes ipamState statuses devs (false, false) in
  let devices := (front ++ replicate (length statuses - length devs) extra)%list in
  (set_macs statuses devices, w).

Definition GetMachineMetadata (hostname : string) (vm : VSphereVM)
    (ipamState : gmap string NetworkDeviceSpec) (statuses : list NetworkStatus) : string :=
  let '(devices, (w4, w6)) := metadata_devices vm ipamState statuses in
  metadataFormat hostname devices w4 w6.

(** * Lemmas *)

Lemma length_spec_devices r ip ss ds w : length (spec_devices r ip ss ds w).1 = length ds.
Proof.
  revert ss w. induction ds as [|d ds IH]; intros ss w; simpl; [done|].
  specialize (IH (tail ss) (wait_flags d w)).
  destruct (spec_devices r ip (tail ss) ds (wait_flags d w)). simpl in *. by rewrite IH.
Qed.

Lemma length_set_macs ss ds : length (set_macs ss ds) = length ds.
Proof. revert ds. induction ss as [|s ss IH]; intros [|d ds]; simpl; auto. Qed.

Lemma set_macs_lookup ss ds i :
  set_macs ss ds !! i =
    match ss !! i with
    | Some s => set_nd_MACAddr (st_MACAddr s) <$> ds !! i
    | None => ds !! i
    end.
Proof.
  revert ds i. induction ss as [|s ss IH]; intros [|d ds] [|i]; simpl; try done.
  by destruct (ss !! i).
Qed.

Lemma spec_devices_lookup r ip ss ds w i d :
  ds !! i = Some d ->
  (spec_devices r ip ss ds w).1 !! i = Some (spec_device r ip (ss !! i) d).
Proof.
  revert ss w i. induction ds as [|d' ds IH]; intros ss w [|i] H; simpl in *; try done.
  - injection H as ->. destruct (spec_devices r ip (tail ss) ds (wait_flags d w)).
    simpl. by destruct ss.
  - specialize (IH (tail ss) (wait_flags d' w) i H).
    destruct (spec_devices r ip (tail ss) ds (wait_flags d' w)). simpl in *. rewrite IH.
    by destruct ss.
Qed.

(** What makes a device wait for a family. *)
Definition static4 (s : string) : bool :=
  match parse_ip s with Some ip => negb (bool_decide (to4 ip = None)) | None => false end.
Definition static6 (s : string) : bool :=
  match parse_ip s with Some ip => bool_decide (to4 ip = None) | None => false end.
Definition wants4 (d : NetworkDeviceSpec) : bool :=
  existsb static4 (nd_IPAddrs d) || ptr_deref (nd_DHCP4 d) false.
Definition wants6 (d : NetworkDeviceSpec) : bool :=
  existsb static6 (nd_IPAddrs d) || ptr_deref (nd_DHCP6 d) false.

Lemma wait_flags_spec d w : wait_flags d w = (w.1 || wants4 d, w.2 || wants6 d).
Proof.
  unfold wait_flags, wants4, wants6.
  assert (F : forall l v, fold_left (fun '(w4, w6) ipStr =>
      match parse_ip ipStr with
      | Some ip => if bool_decide (to4 ip = None) then (w4, true) else (true, w6)
      | None => (w4, w6)
      end) l v = (v.1 || existsb static4 l, v.2 || existsb static6 l)).
  { induction l as [|s l IH]; intros [v4 v6]; simpl; [by rewrite !orb_false_r|].
    rewrite IH. unfold static4 at 2, static6 at 2. destruct (parse_ip s) as [ip|]; [|done].
    destruct (bool_decide (to4 ip = None)), v4, v6; reflexivity. }
  destruct w as [w4 w6]. simpl. destruct (w4 && w6) eqn:E.
  - by apply andb_prop in E as [-> ->].
  - rewrite F. cbn [fst snd]. by rewrite <-!orb_assoc.
Qed.

Lemma spec_devices_flags r ip ss ds w :
  (spec_devices r ip ss ds w).2 = (w.1 || existsb wants4 ds, w.2 || existsb wants6 ds).
Proof.
  revert ss w. induction ds as [|d ds IH]; intros ss w; simpl.
  - destruct w. by rewrite !orb_false_r.
  - specialize (IH (tail ss) (wait_flags d w)).
    destruct (spec_devices r ip (tail ss) ds (wait_flags d w)). simpl in *.
    rewrite IH, wait_flags_spec. simpl. by rewrite <-!orb_assoc.
Qed.

(** The metadata is not base64: the first dash, in the third group, is outside
    the alphabet. *)
Lemma metadata_not_base64 hostname devices w4 w6 :
  b64_decode (metadataFormat hostname devices w4 w6) = None.
Proof. reflexivity. Qed.

Lemma GetMachineMetadata_not_base64 hostname vm ipam ss :
  b64_decode (GetMachineMetadata hostname vm ipam ss) = None.
Proof.
  unfold GetMachineMetadata. destruct (metadata_devices vm ipam ss) as [ds [w4 w6]].
  apply metadata_not_base64.
Qed.

(** * Properties *)

(** the devices of the metadata. There is one for every device of the
    specification and every reported network; the one at index [i] has the MAC
    address reported at [i] whatever the specification says; a device of the
    specification keeps its static addresses in front of the ones IPAM gave to
    its MAC address, and routes through its own routes and those of the VM; and
    the guest waits for a family exactly when some device of the specification
    uses DHCP or has a static address of that family. *)
Theorem metadata_devices_spec vm ipam ss :
  let ds := (metadata_devices vm ipam ss).1 in
  length ds = Nat.max (length (vm_devices vm)) (length ss) /\
  (forall i s, ss !! i = Some s -> exists d, ds !! i = Some d /\ nd_MACAddr d = st_MACAddr s) /\
  (forall i dev s, vm_devices vm !! i = Some dev -> ss !! i = Some s ->
     exists d, ds !! i = Some d /\
       nd_Routes d = (nd_Routes dev ++ ns_Routes (cs_Network (vm_clone vm)))%list /\
       nd_IPAddrs d = (nd_IPAddrs dev ++
         match ipam !! st_MACAddr s with Some st => nd_IPAddrs st | None => [] end)%list /\
       nd_Gateway4 d = match ipam !! st_MACAddr s with Some st => nd_Gateway4 st | None => nd_Gateway4 dev end /\
       nd_Gateway6 d = match ipam !! st_MACAddr s with Some st => nd_Gateway6 st | None => nd_Gateway6 dev end) /\
  (metadata_devices vm ipam ss).2 =
    (existsb wants4 (vm_devices vm), existsb wants6 (vm_devices vm)).
Proof.
  unfold metadata_devices. set (r := ns_Routes (cs_Network (vm_clone vm))).
  pose proof (length_spec_devices r ipam ss (vm_devices vm) (false, false)) as Hl.
  pose proof (spec_devices_flags r ipam ss (vm_devices vm) (false, false)) as Hf.
  assert (Hd : forall i dev, vm_devices vm !! i = Some dev ->
    (spec_devices r ipam ss (vm_devices vm) (false, false)).1 !! i =
      Some (spec_device r ipam (ss !! i) dev)) by (intros; by apply spec_devices_lookup).
  destruct (spec_devices r ipam ss (vm_devices vm) (false, false)) as [front w].
  cbn [fst snd] in *. set (extra := match vm_devices vm with [] => _ | _ => _ end).
  set (ds := (front ++ replicate (length ss - length (vm_devices vm)) extra)%list).
  assert (Hlen : length ds = Nat.max (length (vm_devices vm)) (length ss)).
  { unfold ds. rewrite length_app, length_replicate. lia. }
  split_and!.
  - by rewrite length_set_macs.
  - intros i s Hs. rewrite set_macs_lookup, Hs.
    assert (Hi : (i < length ds)%nat) by (apply lookup_lt_Some in Hs; lia).
    apply lookup_lt_is_Some_2 in Hi as [d ->]. eexists. split; [reflexivity|]. done.
  - intros i dev s Hdev Hs. rewrite set_macs_lookup, Hs.
    unfold ds. rewrite lookup_app_l by (apply lookup_lt_Some in Hdev; lia).
    rewrite (Hd _ _ Hdev), Hs. eexists. split; [reflexivity|].
    unfold spec_device. cbn [nd_MACAddr set_nd_MACAddr]. fold r.
    destruct (ipam !! st_MACAddr s); cbn; by rewrite ?app_nil_r.
  - exact Hf.
Qed.

End Metadata.
