(* ===== verification/NetStatus.v ===== *)
(** [pkg/services/govmomi/net/net.go] and the network part of
    [pkg/services/govmomi/util.go]: the network status vCenter reports, the
    addresses that are dropped from it, and the background wait for the MAC and
    IP addresses of a VM, which triggers a reconciliation for every address. *)
From S2P Require Import Prelude GoStrings GoNet Types Libs Errors Prog World.

Module NetStatus.

(** * Addresses *)

(** The reason an address is of no use outside the guest. *)
Definition local_only_reason (addr : string) : string :=
  match parse_ip addr with
  | None => "invalid"
  | Some a =>
      if is_unspecified a then "unspecified"
      else if is_link_local_multicast a then "link-local-mutlicast"
      else if is_link_local_unicast a then "link-local-unicast"
      else if is_loopback a then "loopback"
      else ""
  end.

Definition ErrOnLocalOnlyIPAddr (addr : string) : option error :=
  let reason := local_only_reason addr in
  if negb (String.eqb reason "") then
    Some (ENew (sprintf "failed to validate ip addr=%v: %s" [AS addr; AS reason]))
  else None.

Definition sanitizeIPAddrs (ipAddrs : list string) : list string :=
  if zlen ipAddrs =? 0 then []
  else fold_left (fun acc addr =>
    match ErrOnLocalOnlyIPAddr addr with
    | Some _ => acc
    | None => (acc ++ [addr])%list
    end) ipAddrs [].

(** * The reported status *)

(** [net.NetworkStatus]. *)
Record NetStatus := mkNetStatus {
  nt_Connected : bool;
  nt_IPAddrs : list string;
  nt_MACAddr : string;
  nt_NetworkName : string
}.

(** What the guest reports for the MAC address of a card; of several entries
    for the same address the last one counts. *)
Definition guest_status (mac : string) (guest : option (list GuestNicInfo)) : NetStatus :=
  let zero := mkNetStatus false [] mac "" in
  match guest with
  | None => zero
  | Some nics =>
      fold_left (fun st i =>
        if equal_fold mac (gn_MacAddress i) then
          mkNetStatus (gn_Connected i) (gn_IpAddress i) mac (gn_Network i)
        else st) nics zero
  end.

Fixpoint network_statuses (devices : list VirtualDevice) (guest : option (list GuestNicInfo))
    : list NetStatus :=
  match devices with
  | [] => []
  | d :: devices' =>
      match de_Kind d with
      | EthernetCard mac _ _ => guest_status mac guest :: network_statuses devices' guest
      | _ => network_statuses devices' guest
      end
  end.

Section programs.
Context `{Libs} {Gm : Govmomi} {St : Type}.
Open Scope go_scope.

Definition GetNetworkStatus (moRef : MoRef) : M Ev St (list NetStatus) :=
  obj <- wrap (sprintf "unable to fetch props %v for vm %v"
                 [AL ["config.hardware.device"; "guest.net"]; AS (MoRef_String moRef)])
           (call_res (VMHardwareAndGuest moRef)) ;;
  match obj.1 with
  | None => fail (ENew "config.hardware.device is nil")
  | Some devices => ret (network_statuses devices obj.2)
  end.

(** [VMService.getNetworkStatus]. *)
Definition getNetworkStatus (moRef : MoRef) : M Ev St (list NetworkStatus) :=
  allNetStatus <- GetNetworkStatus moRef ;;
  ret (map (fun s => mkNetworkStatus (Some (nt_Connected s)) (sanitizeIPAddrs (nt_IPAddrs s))
                       (nt_MACAddr s) (nt_NetworkName s)) allNetStatus).
End programs.

(** * Waiting for MAC addresses *)

(** A property change: an assignment of a value, or another operation. *)
Inductive PropertyChange (A : Type) := Assign (val : A) | OtherOp.
Arguments Assign {A} val.
Arguments OtherOp {A}.

Definition has_mac (d : VirtualDevice) : bool :=
  match de_Kind d with EthernetCard mac _ _ => negb (String.eqb mac "") | _ => true end.

(** The callback of [waitForMacAddresses]. *)
Definition waitForMacAddresses_done (changes : list (PropertyChange (list VirtualDevice))) : bool :=
  forallb (fun c => match c with Assign devs => forallb has_mac devs | OtherOp => true end) changes.

(** The loop of [getMacAddresses]: the addresses in the order of the cards, and
    the two maps between addresses and positions. *)
Fixpoint mac_loop (i : Z) (devices : list VirtualDevice)
    (acc : list string * gmap string Z * gmap Z string)
    : list string * gmap string Z * gmap Z string :=
  match devices with
  | [] => acc
  | d :: devices' =>
      match de_Kind d with
      | EthernetCard mac _ _ =>
          let '(macs, m2d, d2m) := acc in
          mac_loop (i + 1) devices' ((macs ++ [mac])%list, <[mac := i]> m2d, <[i := mac]> d2m)
      | _ => mac_loop i devices' acc
      end
  end.
Definition getMacAddresses (devices : list VirtualDevice) : list string * gmap string Z * gmap Z string :=
  mac_loop 0 devices ([], ∅, ∅).

(** * Waiting for IP addresses *)

(** The sets the callback closes over; a set of pairs stands for the maps from
    a MAC address to a set of addresses. *)
Record WaitState := mkWaitState {
  w_IPv4Lease : gset string;
  w_IPv6Lease : gset string;
  w_Skipped : gset (string * string);
  w_StaticIP : gset (string * string)
}.
Definition WaitState_zero : WaitState := mkWaitState ∅ ∅ ∅ ∅.

Section wait.
Context (devices : list NetworkDeviceSpec) (macToDeviceIndex : gmap string Z)
        (deviceToMacIndex : gmap Z string) (vmString : string).

Definition is_static (deviceSpec : NetworkDeviceSpec) (ip : string) : bool :=
  existsb (fun specIP => String.eqb ip (ip_string (parse_cidr specIP))) (nd_IPAddrs deviceSpec).

(** One address of a network card: the state, and the addresses sent to the
    channel so far. *)
Definition on_ip (deviceSpec : NetworkDeviceSpec) (mac : string)
    (acc : WaitState * list string) (ip : string) : WaitState * list string :=
  let '(st, sent) := acc in
  match ErrOnLocalOnlyIPAddr ip with
  | Some _ =>
      (mkWaitState (w_IPv4Lease st) (w_IPv6Lease st) ({[(mac, ip)]} ∪ w_Skipped st) (w_StaticIP st), sent)
  | None =>
      if is_static deviceSpec ip then
        if decide ((mac, ip) ∈ w_StaticIP st) then acc
        else (mkWaitState (w_IPv4Lease st) (w_IPv6Lease st) (w_Skipped st)
                ({[(mac, ip)]} ∪ w_StaticIP st), (sent ++ [ip])%list)
      else if match parse_ip ip with Some a => negb (bool_decide (to4 a = None)) | None => false end then
        if ptr_deref (nd_DHCP4 deviceSpec) false then
          if decide (mac ∈ w_IPv4Lease st) then acc
          else (mkWaitState ({[mac]} ∪ w_IPv4Lease st) (w_IPv6Lease st) (w_Skipped st) (w_StaticIP st),
                (sent ++ [ip])%list)
        else acc
      else
        if ptr_deref (nd_DHCP6 deviceSpec) false then
          if decide (mac ∈ w_IPv6Lease st) then acc
          else (mkWaitState (w_IPv4Lease st) ({[mac]} ∪ w_IPv6Lease st) (w_Skipped st) (w_StaticIP st),
                (sent ++ [ip])%list)
        else acc
  end.

(** The loop over the cards; an error is sent to the error channel and ends the
    wait. *)
Fixpoint on_nics (nics : list GuestNicInfo) (acc : WaitState * list string)
    : WaitState * list string * option error :=
  match nics with
  | [] => (acc, None)
  | nic :: nics' =>
      let mac := gn_MacAddress nic in
      match gn_IpConfig nic with
      | None => on_nics nics' acc
      | Some ips =>
          if String.eqb mac "" then on_nics nics' acc
          else
            match macToDeviceIndex !! mac with
            | None =>
                (acc, Some (ENew (sprintf "unknown device spec index for mac %s while waiting for ip addresses for vm %s"
                                    [AS mac; AS vmString])))
            | Some idx =>
                match (if (idx <? 0) || (zlen devices <=? idx) then None else devices !! Z.to_nat idx) with
                | None =>
                    (acc, Some (ENew (sprintf "invalid device spec index %d for mac %s while waiting for ip addresses for vm %s"
                                        [AZ idx; AS mac; AS vmString])))
                | Some deviceSpec => on_nics nics' (fold_left (on_ip deviceSpec mac) ips acc)
                end
            end
      end
  end.

Fixpoint on_changes (changes : list (PropertyChange (list GuestNicInfo))) (acc : WaitState * list string)
    : WaitState * list string * option error :=
  match changes with
  | [] => (acc, None)
  | OtherOp :: changes' => on_changes changes' acc
  | Assign nics :: changes' =>
      match on_nics nics acc with
      | (acc', None) => on_changes changes' acc'
      | r => r
      end
  end.

(** Whether a device has all the addresses requested for it. *)
Definition device_done (st : WaitState) (mac : string) (deviceSpec : NetworkDeviceSpec) : bool :=
  (negb (ptr_deref (nd_DHCP4 deviceSpec) false) || bool_decide (mac ∈ w_IPv4Lease st)) &&
  (negb (ptr_deref (nd_DHCP6 deviceSpec) false) || bool_decide (mac ∈ w_IPv6Lease st)) &&
  forallb (fun specIP => bool_decide ((mac, ip_string (parse_cidr specIP)) ∈ w_StaticIP st))
    (nd_IPAddrs deviceSpec).

(** The loop over the devices: the result of the callback, and an error when a
    device has no MAC address. *)
Fixpoint all_done (st : WaitState) (ds : list (Z * NetworkDeviceSpec)) : bool * option error :=
  match ds with
  | [] => (true, None)
  | (i, deviceSpec) :: ds' =>
      if ptr_deref (nd_SkipIPAllocation deviceSpec) false then all_done st ds'
      else match deviceToMacIndex !! i with
           | None =>
               (true, Some (ENew (sprintf "invalid mac index %d waiting for ip addresses for vm %s"
                                    [AZ i; AS vmString])))
           | Some mac => if device_done st mac deviceSpec then all_done st ds' else (false, None)
           end
  end.

(** [onPropertyChange]: the state and all that was sent to the channel so far,
    the error sent, and the result, which is true when the wait is over. *)
Definition onPropertyChange (acc : WaitState * list string)
    (changes : list (PropertyChange (list GuestNicInfo)))
    : WaitState * list string * option error * bool :=
  match on_changes changes acc with
  | (acc', Some e) => (acc', Some e, true)
  | (acc', None) => let '(r, e) := all_done acc'.1 (enumerate devices) in (acc', e, r)
  end.

(** [property.Wait] calls it on every update until it returns true. *)
Fixpoint wait_run (acc : WaitState * list string)
    (updates : list (list (PropertyChange (list GuestNicInfo))))
    : WaitState * list string * option error * bool :=
  match updates with
  | [] => (acc, None, false)
  | u :: updates' =>
      match onPropertyChange acc u with
      | (acc', e, true) => (acc', e, true)
      | (acc', _, false) => wait_run acc' updates'
      end
  end.

(** ** Lemmas *)

(** The device of a MAC address, as the callback finds it. *)
Definition device_of (mac : string) : option NetworkDeviceSpec :=
  idx ← macToDeviceIndex !! mac;
  if (idx <? 0) || (zlen devices <=? idx) then None else devices !! Z.to_nat idx.

(** Every address that was sent is accounted for by one element of the sets, and
    the sets hold only what the devices ask for. *)
Definition wait_inv (st : WaitState) (sent : list string) : Prop :=
  length sent = (size (w_IPv4Lease st) + size (w_IPv6Lease st) + size (w_StaticIP st))%nat /\
  (forall mac, mac ∈ w_IPv4Lease st ->
     exists d, device_of mac = Some d /\ ptr_deref (nd_DHCP4 d) false = true) /\
  (forall mac, mac ∈ w_IPv6Lease st ->
     exists d, device_of mac = Some d /\ ptr_deref (nd_DHCP6 d) false = true) /\
  (forall mac ip, (mac, ip) ∈ w_StaticIP st ->
     exists d, device_of mac = Some d /\ is_static d ip = true /\ ip ∈ sent).

Lemma wait_inv_on_ip d mac st sent ip :
  device_of mac = Some d -> wait_inv st sent ->
  wait_inv (on_ip d mac (st, sent) ip).1 (on_ip d mac (st, sent) ip).2.
Proof.
  intros Hd Hinv. pose proof Hinv as (Hl & H4 & H6 & Hs). unfold on_ip.
  destruct (ErrOnLocalOnlyIPAddr ip); [exact Hinv|].
  destruct (is_static d ip) eqn:Es.
  { destruct (decide _) as [|Hn]; [exact Hinv|]. split_and!; cbn.
    - rewrite length_app, size_union, size_singleton by set_solver. simpl. lia.
    - done.
    - done.
    - intros mac' ip' [[= -> ->]%elem_of_singleton|Hin]%elem_of_union.
      + exists d. repeat split; auto. set_solver.
      + destruct (Hs _ _ Hin) as (d' & ? & ? & ?). exists d'. repeat split; auto. set_solver. }
  assert (Hs' : forall mac0 ip0, (mac0, ip0) ∈ w_StaticIP st ->
    exists d, device_of mac0 = Some d /\ is_static d ip0 = true /\ ip0 ∈ (sent ++ [ip])%list).
  { intros mac' ip' Hin. destruct (Hs _ _ Hin) as (d' & ? & ? & ?).
    exists d'. repeat split; auto. set_solver. }
  destruct (match parse_ip ip with Some _ => _ | None => _ end).
  - destruct (ptr_deref (nd_DHCP4 d) false) eqn:Ed; [|exact Hinv].
    destruct (decide _) as [|Hn]; [exact Hinv|]. split_and!; cbn; auto.
    + rewrite length_app, size_union, size_singleton by set_solver. simpl. lia.
    + intros mac' [->%elem_of_singleton|Hin]%elem_of_union; eauto.
  - destruct (ptr_deref (nd_DHCP6 d) false) eqn:Ed; [|exact Hinv].
    destruct (decide _) as [|Hn]; [exact Hinv|]. split_and!; cbn; auto.
    + rewrite length_app, size_union, size_singleton by set_solver. simpl. lia.
    + intros mac' [->%elem_of_singleton|Hin]%elem_of_union; eauto.
Qed.

Lemma wait_inv_fold d mac ips acc :
  device_of mac = Some d -> wait_inv acc.1 acc.2 ->
  wait_inv (fold_left (on_ip d mac) ips acc).1 (fold_left (on_ip d mac) ips acc).2.
Proof.
  intros Hd. revert acc. induction ips as [|ip ips IH]; intros [st sent] Hi; [done|].
  cbn [fold_left]. apply IH. by apply wait_inv_on_ip.
Qed.

Lemma wait_inv_on_nics nics acc :
  wait_inv acc.1 acc.2 -> wait_inv (on_nics nics acc).1.1 (on_nics nics acc).1.2.
Proof.
  revert acc. induction nics as [|nic nics IH]; intros acc Hi; [done|]. cbn [on_nics].
  destruct (gn_IpConfig nic) as [ips|]; [|by apply IH].
  destruct (String.eqb (gn_MacAddress nic) ""); [by apply IH|].
  destruct (macToDeviceIndex !! gn_MacAddress nic) as [idx|] eqn:Em; [|exact Hi].
  destruct (if (idx <? 0) || (zlen devices <=? idx) then None else devices !! Z.to_nat idx) as [d|] eqn:Ed;
    [|exact Hi].
  apply IH, wait_inv_fold; [|exact Hi]. unfold device_of. by rewrite Em.
Qed.

Lemma wait_inv_on_changes changes acc :
  wait_inv acc.1 acc.2 -> wait_inv (on_changes changes acc).1.1 (on_changes changes acc).1.2.
Proof.
  revert acc. induction changes as [|[nics|] changes IH]; intros acc Hi; [done| |by apply IH].
  cbn [on_changes]. pose proof (wait_inv_on_nics nics acc Hi) as Hn.
  destruct (on_nics nics acc) as [acc' [e|]]; [exact Hn|by apply IH].
Qed.

Lemma wait_inv_zero : wait_inv WaitState_zero [].
Proof. split_and!; cbn; [by rewrite !size_empty|set_solver..]. Qed.

Lemma wait_inv_run updates acc :
  wait_inv acc.1 acc.2 ->
  wait_inv (wait_run acc updates).1.1.1 (wait_run acc updates).1.1.2.
Proof.
  revert acc. induction updates as [|u updates IH]; intros acc Hi; [done|].
  cbn [wait_run]. unfold onPropertyChange.
  pose proof (wait_inv_on_changes u acc Hi) as Hc.
  destruct (on_changes u acc) as [acc' [e|]]; [exact Hc|]. cbn [fst] in Hc.
  destruct (all_done acc'.1 (enumerate devices)) as [[|] e]; [exact Hc|by apply IH].
Qed.

Lemma all_done_true st ds :
  all_done st ds = (true, None) ->
  forall i d, (i, d) ∈ ds -> ptr_deref (nd_SkipIPAllocation d) false = false ->
  exists mac, deviceToMacIndex !! i = Some mac /\ device_done st mac d = true.
Proof.
  induction ds as [|[i d] ds IH]; intros H j d' Hin Hs; [by apply elem_of_nil in Hin|].
  simpl in H. apply elem_of_cons in Hin as [[= -> ->]|Hin].
  - rewrite Hs in H. destruct (deviceToMacIndex !! i) as [mac|]; [|done].
    exists mac. split; [done|]. by destruct (device_done st mac d).
  - apply IH; [|done..]. destruct (ptr_deref (nd_SkipIPAllocation d) false); [done|].
    destruct (deviceToMacIndex !! i); [|done]. by destruct (device_done st s d).
Qed.

(** ** Properties *)

(** over any sequence of updates, the wait triggers at most one
    reconciliation for a DHCPv4 lease of a card, one for a DHCPv6 lease, and one
    for each static address of a card, and only for cards whose device asks for
    them: what was sent is counted by those sets. When the wait ends without an
    error, every device that does not skip the allocation has a card with all it
    asks for, and its static addresses were sent. *)
Theorem wait_run_spec updates :
  let '(st, sent, e, r) := wait_run (WaitState_zero, []) updates in
  wait_inv st sent /\
  (r = true -> e = None ->
   forall i d, (i, d) ∈ enumerate devices -> ptr_deref (nd_SkipIPAllocation d) false = false ->
   exists mac, deviceToMacIndex !! i = Some mac /\ device_done st mac d = true /\
     forall specIP, specIP ∈ nd_IPAddrs d -> ip_string (parse_cidr specIP) ∈ sent).
Proof.
  pose proof (wait_inv_run updates (WaitState_zero, []) wait_inv_zero) as Hi.
  destruct (wait_run (WaitState_zero, []) updates) as [[[st sent] e] r] eqn:E.
  cbn [fst snd] in Hi. split; [exact Hi|]. intros -> -> i d Hin Hs.
  assert (Hd : all_done st (enumerate devices) = (true, None)).
  { clear Hi Hin Hs. revert E. generalize (WaitState_zero, @nil string) as acc.
    induction updates as [|u updates IH]; intros acc; cbn [wait_run]; [done|].
    unfold onPropertyChange. destruct (on_changes u acc) as [acc' [e|]]; [done|].
    destruct (all_done acc'.1 (enumerate devices)) as [[|] e] eqn:Ea; [|apply IH].
    intros [= -> ->]. exact Ea. }
  destruct (all_done_true _ _ Hd i d Hin Hs) as (mac & Hm & Hdone). exists mac.
  split_and!; [done..|]. intros specIP Hip. unfold device_done in Hdone.
  apply andb_prop in Hdone as [_ Hf]. rewrite forallb_forall in Hf.
  specialize (Hf specIP (proj1 (list_elem_of_In _ _) Hip)). apply bool_decide_eq_true in Hf.
  destruct Hi as (_ & _ & _ & Hstat). destruct (Hstat _ _ Hf) as (_ & _ & _ & ?). done.
Qed.
End wait.

(** A card with DHCPv4 and a static address: the first update brings an
    address of the guest only, the second the lease, the third the static
    address, after which the wait is over. *)
Definition sample_device : NetworkDeviceSpec :=
  set_nd_DHCP4 (Some true) (set_nd_IPAddrs ["10.0.0.5/24"] NetworkDeviceSpec_zero).
Definition sample_update (ips : list string) : list (PropertyChange (list GuestNicInfo)) :=
  [Assign [mkGuestNicInfo "00:50:56:00:00:01" [] "net" true (Some ips)]].
Definition sample_updates := [
  sample_update ["fe80::1"]; sample_update ["fe80::1"; "192.168.7.3"];
  sample_update ["192.168.7.4"; "10.0.0.5"]].
Definition sample_run :=
  wait_run [sample_device] {["00:50:56:00:00:01" := 0]} {[0 := "00:50:56:00:00:01"]} "vm"
    (WaitState_zero, []) sample_updates.

Lemma wait_run_spec_witness :
  (sample_run.1.1.2 = ["192.168.7.3"; "10.0.0.5"] /\ sample_run.1.2 = None /\ sample_run.2 = true) /\
  let '(st, sent, e, r) := sample_run in
  wait_inv [sample_device] {["00:50:56:00:00:01" := 0]} st sent /\
  (r = true -> e = None ->
   forall i d, (i, d) ∈ enumerate [sample_device] -> ptr_deref (nd_SkipIPAllocation d) false = false ->
   exists mac, ({[0 := "00:50:56:00:00:01"]} : gmap Z string) !! i = Some mac /\
     device_done st mac d = true /\
     forall specIP, specIP ∈ nd_IPAddrs d -> ip_string (parse_cidr specIP) ∈ sent).
Proof. split; [by vm_compute|]. apply wait_run_spec. Defined.

(** The addresses kept in the status of a network are those that can be reached
    from outside the guest, in their order. *)
Lemma sanitizeIPAddrs_filter ipAddrs :
  sanitizeIPAddrs ipAddrs = base.filter (fun a => local_only_reason a = "") ipAddrs.
Proof.
  unfold sanitizeIPAddrs. destruct (zlen ipAddrs =? 0) eqn:E.
  { apply Z.eqb_eq in E. unfold zlen in E. destruct ipAddrs; [done|simpl in E; lia]. }
  assert (G : forall acc, fold_left (fun acc addr =>
      match ErrOnLocalOnlyIPAddr addr with Some _ => acc | None => (acc ++ [addr])%list end) ipAddrs acc
    = (acc ++ base.filter (fun a => local_only_reason a = "") ipAddrs)%list); [|by apply G].
  clear E. induction ipAddrs as [|a l IH]; intros acc; cbn [fold_left]; [by rewrite app_nil_r|].
  rewrite IH, filter_cons. unfold ErrOnLocalOnlyIPAddr.
  destruct (String.eqb_spec (local_only_reason a) "") as [->|Hne]; cbn [negb].
  - by rewrite decide_True, <-app_assoc by done.
  - by rewrite decide_False.
Qed.

End NetStatus.
