(* ===== verification/Ipam.v ===== *)
(** [pkg/services/govmomi/ipam]: the addresses that an IPAM provider gave to the
    devices of a VM ([status.go], [parse.go]). *)
From S2P Require Import Prelude GoStrings GoNet Types Libs Errors Prog World RefLibs MachineUtil.
Import MachineUtil RefLibs.

Module Ipam.

(** [ipamDeviceConfig]. *)
Record ipamDeviceConfig := mkIpamDeviceConfig {
  DeviceIndex : Z;
  IPAMAddresses : list IPAddress;
  MACAddress : string;
  NetworkSpecGateway4 : string;
  IPAMConfigGateway4 : string;
  NetworkSpecGateway6 : string;
  IPAMConfigGateway6 : string
}.

Definition set_IPAMAddresses (v : list IPAddress) (c : ipamDeviceConfig) : ipamDeviceConfig :=
  mkIpamDeviceConfig (DeviceIndex c) v (MACAddress c) (NetworkSpecGateway4 c) (IPAMConfigGateway4 c)
    (NetworkSpecGateway6 c) (IPAMConfigGateway6 c).
Definition set_IPAMConfigGateway4 (v : string) (c : ipamDeviceConfig) : ipamDeviceConfig :=
  mkIpamDeviceConfig (DeviceIndex c) (IPAMAddresses c) (MACAddress c) (NetworkSpecGateway4 c) v
    (NetworkSpecGateway6 c) (IPAMConfigGateway6 c).
Definition set_IPAMConfigGateway6 (v : string) (c : ipamDeviceConfig) : ipamDeviceConfig :=
  mkIpamDeviceConfig (DeviceIndex c) (IPAMAddresses c) (MACAddress c) (NetworkSpecGateway4 c)
    (IPAMConfigGateway4 c) (NetworkSpecGateway6 c) v.

(** * [parse.go] *)

Definition prefixesAsStrings (prefixes : list Prefix) : list string := map prefix_string prefixes.

Definition parseAddressWithPrefix (ipamAddress : IPAddress) : Prefix + error :=
  let addressWithPrefix :=
    sprintf "%s/%d" [AS (ip_Address ipamAddress); AZ (ptr_deref (ip_Prefix ipamAddress) 0)] in
  match parse_prefix addressWithPrefix with
  | Some p => inl p
  | None => inr (ENew (sprintf "IPAddress %s/%s has invalid ip address: %q"
                   [AS (ip_Namespace ipamAddress); AS (ip_Name ipamAddress); AS addressWithPrefix]))
  end.

Definition areGatewaysMismatched (deviceGateway ipAddressGateway : string) : bool :=
  negb (String.eqb deviceGateway "") && negb (String.eqb deviceGateway ipAddressGateway).

Definition parseGateway (ipamAddress : IPAddress) (addressWithPrefix : Prefix)
    (cfg : ipamDeviceConfig) : option Addr + error :=
  let gw := ip_Gateway ipamAddress in
  if String.eqb gw "" then inl None
  else
    match parse_addr gw with
    | None =>
        inr (ENew (sprintf "IPAddress %s/%s has invalid gateway: %q"
               [AS (ip_Namespace ipamAddress); AS (ip_Name ipamAddress); AS gw]))
    | Some gatewayAddr =>
        if negb (eqb (is4 (paddr addressWithPrefix)) (is4 gatewayAddr)) then
          inr (ENew (sprintf "IPAddress %s/%s has mismatched gateway and address IP families"
                 [AS (ip_Namespace ipamAddress); AS (ip_Name ipamAddress)]))
        else if is4 gatewayAddr then
          if areGatewaysMismatched (NetworkSpecGateway4 cfg) gw then
            inr (ENew (sprintf "the IPv4 Gateway for IPAddress %s does not match the Gateway4 already configured on device (index %d)"
                   [AS (ip_Name ipamAddress); AZ (DeviceIndex cfg)]))
          else if areGatewaysMismatched (IPAMConfigGateway4 cfg) gw then
            inr (ENew (sprintf "the IPv4 IPAddresses assigned to the same device (index %d) do not have the same gateway"
                   [AZ (DeviceIndex cfg)]))
          else inl (Some gatewayAddr)
        else
          if areGatewaysMismatched (NetworkSpecGateway6 cfg) gw then
            inr (ENew (sprintf "the IPv6 Gateway for IPAddress %s does not match the Gateway6 already configured on device (index %d)"
                   [AS (ip_Name ipamAddress); AZ (DeviceIndex cfg)]))
          else if areGatewaysMismatched (IPAMConfigGateway6 cfg) gw then
            inr (ENew (sprintf "the IPv6 IPAddresses assigned to the same device (index %d) do not have the same gateway"
                   [AZ (DeviceIndex cfg)]))
          else inl (Some gatewayAddr)
    end.

(** * [BuildState] *)

(** One turn of the inner loop: the configuration of the device, the addresses
    accepted so far, the errors so far. *)
Definition build_address (acc : ipamDeviceConfig * list Prefix * list error) (a : IPAddress)
    : ipamDeviceConfig * list Prefix * list error :=
  let '(cfg, ps, errs) := acc in
  match parseAddressWithPrefix a with
  | inr e => (cfg, ps, (errs ++ [e])%list)
  | inl p =>
      if bool_decide (p ∈ ps) then
        (cfg, ps, (errs ++ [ENew (sprintf "IPAddress %s/%s is a duplicate of another address: %q"
                             [AS (ip_Namespace a); AS (ip_Name a); AS (prefix_string p)])])%list)
      else
        match parseGateway a p cfg with
        | inr e => (cfg, ps, (errs ++ [e])%list)
        | inl g =>
            let cfg := match g with
                       | Some gw => if is4 gw then set_IPAMConfigGateway4 (ip_Gateway a) cfg
                                    else set_IPAMConfigGateway6 (ip_Gateway a) cfg
                       | None => cfg
                       end in
            (cfg, (ps ++ [p])%list, errs)
        end
  end.

Definition build_device (state : gmap string NetworkDeviceSpec) (errs : list error)
    (cfg : ipamDeviceConfig) : gmap string NetworkDeviceSpec * list error :=
  let '(cfg', ps, errs') := fold_left build_address (IPAMAddresses cfg) (cfg, [], errs) in
  if 0 <? zlen ps then
    (<[MACAddress cfg' :=
         set_nd_Gateway6 (IPAMConfigGateway6 cfg') (set_nd_Gateway4 (IPAMConfigGateway4 cfg')
           (set_nd_IPAddrs (prefixesAsStrings ps) NetworkDeviceSpec_zero))]> state, errs')
  else (state, errs').

Definition build_devices (cfgs : list ipamDeviceConfig) : gmap string NetworkDeviceSpec * list error :=
  fold_left (fun '(state, errs) cfg => build_device state errs cfg) cfgs (∅, []).

Section programs.
Context `{Libs}.
Open Scope go_scope.

Definition getIPAddrClaim (name : string) : MV IPAddressClaim :=
  vm <- getVM ;;
  call_res (GetIPAddressClaim (vm_Namespace vm) name).

(** The inner loop over the pools of a device, with the numbers of claims and of
    bound claims. *)
Definition claim_turn (devIdx : Z) (acc : ipamDeviceConfig * Z * Z) (poolRefIdx : Z)
    : MV (ipamDeviceConfig * Z * Z) :=
  let '(cfg, bound, total) := acc in
  vm <- getVM ;;
  let name := IPAddressClaimName (vm_Name vm) devIdx poolRefIdx in
  r <- try (getIPAddrClaim name) ;;
  match r with
  | inr err =>
      if IsNotFound err then ret (cfg, bound, total + 1)
      else fail (EWrap (sprintf "failed to get IPAddressClaim %s" [AS (KRef (vm_Namespace vm) name)]) err)
  | inl claim =>
      let ipAddrName := ic_AddressRefName claim in
      if String.eqb ipAddrName "" then ret (cfg, bound, total + 1)
      else
        ipAddr <- call_res (GetIPAddress (vm_Namespace vm) ipAddrName) ;;
        ret (set_IPAMAddresses (IPAMAddresses cfg ++ [ipAddr])%list cfg, bound + 1, total + 1)
  end.

Definition device_turn (networkStatus : list NetworkStatus)
    (acc : list ipamDeviceConfig * Z * Z) (d : Z * NetworkDeviceSpec)
    : MV (list ipamDeviceConfig * Z * Z) :=
  let '(cfgs, bound, total) := acc in
  let '(devIdx, dev) := d in
  match networkStatus !! Z.to_nat devIdx with
  | None => fail (ENew "waiting for devices to have MAC address set")
  | Some st =>
      if String.eqb (st_MACAddr st) "" then fail (ENew "waiting for devices to have MAC address set")
      else
        let cfg := mkIpamDeviceConfig devIdx [] (st_MACAddr st) (nd_Gateway4 dev) "" (nd_Gateway6 dev) "" in
        r <- fold_m (claim_turn devIdx) (map fst (enumerate (nd_AddressesFromPools dev)))
               (cfg, bound, total) ;;
        let '(cfg, bound, total) := r in
        ret ((cfgs ++ [cfg])%list, bound, total)
  end.

Definition buildIPAMDeviceConfigs (networkStatus : list NetworkStatus) : MV (list ipamDeviceConfig) :=
  vm <- getVM ;;
  r <- fold_m (device_turn networkStatus) (enumerate (vm_devices vm)) ([], 0, 0) ;;
  let '(cfgs, boundClaims, totalClaims) := r in
  if boundClaims <? totalClaims then fail (ESentinel ErrWaitingForIPAddr)
  else ret cfgs.

Definition BuildState (networkStatus : list NetworkStatus) : MV (gmap string NetworkDeviceSpec) :=
  cfgs <- buildIPAMDeviceConfigs networkStatus ;;
  let '(state, errs) := build_devices cfgs in
  if 0 <? zlen errs then fail (ENew (str_join (String lf "") (map error_string errs)))
  else ret state.
End programs.

(** * Lemmas on [BuildState] *)

(** What a device's entry in the state says of the addresses it was made from:
    all of them, as pairwise different prefixes; and the gateway of the entry is
    the gateway of every address of that family that has one, and does not
    contradict the one of the specification. *)
Definition gateway_ok (spec4 spec6 gw4 gw6 : string) (a : IPAddress) : Prop :=
  ip_Gateway a = "" \/
  exists p gw, parseAddressWithPrefix a = inl p /\ parse_addr (ip_Gateway a) = Some gw /\
    is4 (paddr p) = is4 gw /\
    (if is4 gw then gw4 = ip_Gateway a /\ (spec4 = "" \/ spec4 = ip_Gateway a)
     else gw6 = ip_Gateway a /\ (spec6 = "" \/ spec6 = ip_Gateway a)).

Definition addresses_ok (l : list IPAddress) (ps : list Prefix) : Prop :=
  Forall2 (fun a p => parseAddressWithPrefix a = inl p) l ps /\ NoDup ps.

(** The loop over the addresses, as far as it made no error. *)
Definition loop_ok (cfg cfg' : ipamDeviceConfig) (l : list IPAddress) (ps : list Prefix) : Prop :=
  addresses_ok l ps /\
  MACAddress cfg' = MACAddress cfg /\
  NetworkSpecGateway4 cfg' = NetworkSpecGateway4 cfg /\
  NetworkSpecGateway6 cfg' = NetworkSpecGateway6 cfg /\
  Forall (gateway_ok (NetworkSpecGateway4 cfg) (NetworkSpecGateway6 cfg)
            (IPAMConfigGateway4 cfg') (IPAMConfigGateway6 cfg')) l.

Lemma areGatewaysMismatched_false d g :
  areGatewaysMismatched d g = false -> d = "" \/ d = g.
Proof.
  unfold areGatewaysMismatched. destruct (String.eqb_spec d ""); [by left|].
  destruct (String.eqb_spec d g); [by right|done].
Qed.

Lemma parse_addr_nonempty s a : parse_addr s = Some a -> s <> "".
Proof. by intros H ->. Qed.

Lemma gateway_ok_update4 s4 s6 gw4 gw6 g a :
  gw4 = "" \/ gw4 = g -> gateway_ok s4 s6 gw4 gw6 a -> gateway_ok s4 s6 g gw6 a.
Proof.
  intros Hg [He|(p & gw & Hp & Hgw & Hf & H)]; [by left|]. right. exists p, gw.
  split_and!; [done..|]. destruct (is4 gw); [|done]. destruct H as [-> H]. split; [|done].
  destruct Hg as [Hg|<-]; [|done]. by apply parse_addr_nonempty in Hgw.
Qed.
Lemma gateway_ok_update6 s4 s6 gw4 gw6 g a :
  gw6 = "" \/ gw6 = g -> gateway_ok s4 s6 gw4 gw6 a -> gateway_ok s4 s6 gw4 g a.
Proof.
  intros Hg [He|(p & gw & Hp & Hgw & Hf & H)]; [by left|]. right. exists p, gw.
  split_and!; [done..|]. destruct (is4 gw); [done|]. destruct H as [-> H]. split; [|done].
  destruct Hg as [Hg|<-]; [|done]. by apply parse_addr_nonempty in Hgw.
Qed.

(** What [parseGateway] accepts. *)
Lemma parseGateway_inl a p cfg g :
  parseGateway a p cfg = inl g ->
  match g with
  | None => ip_Gateway a = ""
  | Some gw =>
      parse_addr (ip_Gateway a) = Some gw /\ is4 (paddr p) = is4 gw /\
      if is4 gw then
        (NetworkSpecGateway4 cfg = "" \/ NetworkSpecGateway4 cfg = ip_Gateway a) /\
        (IPAMConfigGateway4 cfg = "" \/ IPAMConfigGateway4 cfg = ip_Gateway a)
      else
        (NetworkSpecGateway6 cfg = "" \/ NetworkSpecGateway6 cfg = ip_Gateway a) /\
        (IPAMConfigGateway6 cfg = "" \/ IPAMConfigGateway6 cfg = ip_Gateway a)
  end.
Proof.
  unfold parseGateway. destruct (String.eqb_spec (ip_Gateway a) "") as [E|E]; [by intros [= <-]|].
  destruct (parse_addr (ip_Gateway a)) as [gw|]; [|done].
  destruct (eqb (is4 (paddr p)) (is4 gw)) eqn:Ef; [|done]. apply eqb_prop in Ef. cbn [negb].
  destruct (is4 gw) eqn:E4.
  - destruct (areGatewaysMismatched (NetworkSpecGateway4 cfg) _) eqn:E1; [done|].
    destruct (areGatewaysMismatched (IPAMConfigGateway4 cfg) _) eqn:E2; [done|].
    intros [= <-]. rewrite E4. split_and!; auto using areGatewaysMismatched_false.
  - destruct (areGatewaysMismatched (NetworkSpecGateway6 cfg) _) eqn:E1; [done|].
    destruct (areGatewaysMismatched (IPAMConfigGateway6 cfg) _) eqn:E2; [done|].
    intros [= <-]. rewrite E4. split_and!; auto using areGatewaysMismatched_false.
Qed.

(** Errors are only added, and without a new one the address is accepted. *)
Lemma build_address_step cfg0 cfg ps errs l a :
  loop_ok cfg0 cfg l ps ->
  let '(cfg', ps', errs') := build_address (cfg, ps, errs) a in
  (errs' = errs /\ loop_ok cfg0 cfg' (l ++ [a])%list ps') \/ (exists e, errs' = (errs ++ [e])%list).
Proof.
  intros ([Hps Hnd] & Hmac & H4 & H6 & Hg). unfold build_address.
  destruct (parseAddressWithPrefix a) as [p|e] eqn:Ep; [|by right; eauto].
  case_bool_decide as Hin; [by right; eauto|].
  destruct (parseGateway a p cfg) as [g|e] eqn:Eg; [|by right; eauto].
  left. split; [done|]. apply parseGateway_inl in Eg.
  assert (Hok : addresses_ok (l ++ [a])%list (ps ++ [p])%list).
  { split; [by apply Forall2_app; [|constructor]|].
    apply NoDup_app. split_and!; [done|by intros x Hx ->%list_elem_of_singleton|apply NoDup_singleton]. }
  destruct g as [gw|].
  - destruct Eg as (Hgw & Hf & Hm). destruct (is4 gw) eqn:E4; destruct Hm as [Hs Hc].
    + split_and!; auto. apply Forall_app. split.
      * eapply Forall_impl; [exact Hg|]. intros x Hx. by eapply gateway_ok_update4.
      * constructor; [|done]. right. exists p, gw. rewrite <-H4 in *. rewrite E4 in *. auto.
    + split_and!; auto. apply Forall_app. split.
      * eapply Forall_impl; [exact Hg|]. intros x Hx. by eapply gateway_ok_update6.
      * constructor; [|done]. right. exists p, gw. rewrite <-H6 in *. rewrite E4 in *. auto.
  - split_and!; auto. apply Forall_app. split; [done|]. constructor; [by left|done].
Qed.

Lemma build_address_prefix acc a :
  exists more, (build_address acc a).2 = (acc.2 ++ more)%list.
Proof.
  destruct acc as [[cfg ps] errs]. unfold build_address.
  destruct (parseAddressWithPrefix a); [|by eexists].
  case_bool_decide; [by eexists|]. destruct (parseGateway a p cfg); [|by eexists].
  exists []. by rewrite app_nil_r.
Qed.

Lemma build_addresses_prefix l acc :
  exists more, (fold_left build_address l acc).2 = (acc.2 ++ more)%list.
Proof.
  revert acc. induction l as [|a l IH]; intros acc; [exists []; by rewrite app_nil_r|].
  cbn [fold_left]. destruct (build_address_prefix acc a) as [m1 E1].
  destruct (IH (build_address acc a)) as [m2 E2]. exists (m1 ++ m2)%list. by rewrite E2, E1, app_assoc.
Qed.

Lemma build_addresses_ok cfg l :
  IPAMConfigGateway4 cfg = "" -> IPAMConfigGateway6 cfg = "" ->
  forall errs cfg' ps, fold_left build_address l (cfg, [], errs) = (cfg', ps, errs) -> loop_ok cfg cfg' l ps.
Proof.
  intros G4 G6 errs. induction l as [|a l IH] using rev_ind; intros cfg' ps.
  - intros [= <- <-]. split_and!; try done. split; [done|constructor].
  - rewrite fold_left_app. cbn [fold_left].
    destruct (fold_left build_address l (cfg, [], errs)) as [[cfg1 ps1] errs1] eqn:E.
    destruct (build_addresses_prefix l (cfg, [], errs)) as [m1 Em]. rewrite E in Em. cbn in Em. subst errs1.
    destruct (build_address_prefix (cfg1, ps1, (errs ++ m1)%list) a) as [m2 Em2].
    intros H. rewrite H in Em2. cbn in Em2.
    assert (m1 = [] /\ m2 = []) as [-> ->].
    { rewrite <-app_assoc in Em2. rewrite <-(app_nil_r errs) in Em2 at 1.
      apply app_inv_head, eq_sym, app_eq_nil in Em2. done. }
    rewrite app_nil_r in *. specialize (IH cfg1 ps1 eq_refl).
    pose proof (build_address_step cfg cfg1 ps1 errs l a IH) as Hs. rewrite H in Hs.
    destruct Hs as [[_ Hs]|[e He]]; [done|].
    exfalso. apply (f_equal length) in He. rewrite length_app in He. simpl in He. lia.
Qed.

(** The entry of a device. *)
Definition entry_ok (cfg : ipamDeviceConfig) (spec : NetworkDeviceSpec) : Prop :=
  exists ps, addresses_ok (IPAMAddresses cfg) ps /\ nd_IPAddrs spec = prefixesAsStrings ps /\
    Forall (gateway_ok (NetworkSpecGateway4 cfg) (NetworkSpecGateway6 cfg)
              (nd_Gateway4 spec) (nd_Gateway6 spec)) (IPAMAddresses cfg).

Definition fresh_config (cfg : ipamDeviceConfig) : Prop :=
  IPAMConfigGateway4 cfg = "" /\ IPAMConfigGateway6 cfg = "".

Lemma build_device_ok state errs cfg state' :
  fresh_config cfg ->
  build_device state errs cfg = (state', errs) ->
  (forall mac, mac <> MACAddress cfg -> state' !! mac = state !! mac) /\
  (IPAMAddresses cfg <> [] -> exists spec, state' !! MACAddress cfg = Some spec /\ entry_ok cfg spec).
Proof.
  intros [G4 G6]. unfold build_device.
  destruct (fold_left build_address (IPAMAddresses cfg) (cfg, [], errs)) as [[cfg' ps] errs'] eqn:E.
  intros H. assert (Herr : errs' = errs) by (destruct (0 <? zlen ps); congruence). subst errs'.
  destruct (build_addresses_ok cfg _ G4 G6 _ _ _ E) as (Ha & Hmac & H4 & H6 & Hg).
  rewrite Hmac in H. destruct (0 <? zlen ps) eqn:El; injection H as <-.
  - split; [intros mac Hne; by rewrite lookup_insert_ne|]. intros _.
    eexists. rewrite lookup_insert_eq. split; [reflexivity|]. exists ps. auto.
  - split; [done|]. intros Hne. exfalso. apply Hne.
    destruct Ha as [Hf _]. apply Forall2_length in Hf. unfold zlen in El.
    destruct (IPAMAddresses cfg); [done|]. simpl in Hf. lia.
Qed.

Lemma build_device_prefix state errs cfg :
  exists more, (build_device state errs cfg).2 = (errs ++ more)%list.
Proof.
  unfold build_device. destruct (build_addresses_prefix (IPAMAddresses cfg) (cfg, [], errs)) as [m E].
  destruct (fold_left build_address (IPAMAddresses cfg) (cfg, [], errs)) as [[cfg' ps] errs'].
  exists m. by destruct (0 <? zlen ps).
Qed.

Lemma build_devices_ok cfgs state :
  Forall fresh_config cfgs -> NoDup (map MACAddress cfgs) ->
  build_devices cfgs = (state, []) ->
  forall cfg, cfg ∈ cfgs -> IPAMAddresses cfg <> [] ->
  exists spec, state !! MACAddress cfg = Some spec /\ entry_ok cfg spec.
Proof.
  unfold build_devices. revert state.
  induction cfgs as [|c cfgs IH] using rev_ind; intros state Hf Hnd; [set_solver|].
  rewrite map_app in Hnd. apply NoDup_app in Hnd as (Hnd & Hdis & _).
  apply Forall_app in Hf as [Hf Hc]. rewrite Forall_singleton in Hc.
  rewrite fold_left_app. cbn [fold_left].
  destruct (fold_left _ cfgs (∅, [])) as [state1 errs1] eqn:E. intros H.
  destruct (build_device_prefix state1 errs1 c) as [m Em]. rewrite H in Em. cbn in Em.
  apply eq_sym, app_eq_nil in Em as [-> ->].
  destruct (build_device_ok _ _ _ _ Hc H) as [Hother Hsame].
  intros cfg [Hin|Hin%list_elem_of_singleton]%elem_of_app Hne; [|subst; by apply Hsame].
  destruct (IH state1 Hf Hnd eq_refl cfg Hin Hne) as (spec & Hs & Hok).
  exists spec. split; [|done]. rewrite Hother; [done|].
  intros Heq. apply (Hdis (MACAddress cfg)); [|set_solver].
  by apply list_elem_of_fmap_2.
Qed.

Section program_lemmas.
Context `{Libs}.

(** The address came from the claim of pool [k] of device [d]: the claim was
    bound to it, and it was fetched. *)
Definition claim_answered (vm : VSphereVM) (d k : Z) (a : IPAddress) (tr : trace) : Prop :=
  exists claim,
    Call (GetIPAddressClaim (vm_Namespace vm) (IPAddressClaimName (vm_Name vm) d k)) (Ok claim) ∈ tr /\
    ic_AddressRefName claim <> "" /\
    Call (GetIPAddress (vm_Namespace vm) (ic_AddressRefName claim)) (Ok a) ∈ tr.

Lemma claim_answered_mono vm d k a tr tr' :
  claim_answered vm d k a tr -> claim_answered vm d k a (tr ++ tr')%list.
Proof. intros (cl & ? & ? & ?). exists cl. split_and!; [|done|]; apply elem_of_app; by left. Qed.

(** The configuration of a device after [k] of its pools. *)
Definition claims_inv (c : VMContext) (devIdx : Z) (cfg0 : ipamDeviceConfig) (b0 t0 : Z)
    (k : nat) (tr : trace) (acc : ipamDeviceConfig * Z * Z) (c' : VMContext) : Prop :=
  let '(cfg, b, t) := acc in
  let l := IPAMAddresses cfg in
  c' = c /\ cfg = set_IPAMAddresses l cfg0 /\ b = b0 + zlen l /\ t = t0 + Z.of_nat k /\
  (length l <= k)%nat /\
  (length l = k -> forall j a, l !! j = Some a ->
     claim_answered (cx_VSphereVM c) devIdx (Z.of_nat j) a tr).

Lemma claim_turn_spec c devIdx cfg0 b0 t0 k tr acc c' :
  claims_inv c devIdx cfg0 b0 t0 k tr acc c' ->
  wpm (claim_turn devIdx acc (Z.of_nat k)) c' (fun tr' r c'' =>
    match r with
    | Ok acc' => claims_inv c devIdx cfg0 b0 t0 (S k) (tr ++ tr')%list acc' c''
    | _ => c'' = c
    end).
Proof.
  destruct acc as [[cfg b] t]. intros (-> & Hcfg & -> & -> & Hle & Hcl). unfold claim_turn.
  assert (Hskip : forall tr', claims_inv c devIdx cfg0 b0 t0 (S k) (tr ++ tr')%list
            (cfg, b0 + zlen (IPAMAddresses cfg), t0 + Z.of_nat k + 1) c).
  { intros tr'. split_and!; [done|done|done|lia|lia|lia]. }
  unfold getIPAddrClaim, getVM. do 7 wp_step.
  - destruct (String.eqb_spec (ic_AddressRefName a) "") as [E|E]; [wp_step; apply Hskip|].
    repeat wp_step; [|done..]. unfold claims_inv. cbn [IPAMAddresses set_IPAMAddresses].
    unfold zlen. rewrite length_app. simpl length.
    split_and!; [done|by rewrite Hcfg|lia..|].
    intros Hk j x Hj. apply lookup_app_Some in Hj as [Hj|[Hlen Hj]].
    + apply claim_answered_mono, Hcl; [lia|done].
    + apply list_lookup_singleton_Some in Hj as [Hj <-].
      assert (j = k) as -> by lia. exists a. split_and!; [in_trace|done|in_trace].
  - destruct (IsNotFound e); wp_step; [apply Hskip|done].
  - done.
Qed.

Lemma claim_turns c devIdx (pools : list IPPoolReference) cfg0 b0 t0 :
  IPAMAddresses cfg0 = [] ->
  wpm (fold_m (claim_turn devIdx) (map fst (enumerate pools)) (cfg0, b0, t0)) c
    (fun tr r c' => match r with
                    | Ok acc => claims_inv c devIdx cfg0 b0 t0 (length pools) tr acc c'
                    | _ => c' = c
                    end).
Proof.
  intros H0. eapply (wpm_fold_m _ _ _ _ (claims_inv c devIdx cfg0 b0 t0)).
  - split_and!; try done; [by destruct cfg0; simpl in *; subst|rewrite H0; unfold zlen; simpl; lia|lia|rewrite H0; done|].
    intros _ j a. by rewrite H0.
  - intros k tr [[cfg b] t] s' x Hx Hi.
    assert (x = Z.of_nat k) as ->.
    { rewrite list_lookup_fmap in Hx. apply fmap_Some in Hx as ([i y] & Hi' & ->).
      by apply enumerate_lookup in Hi' as [-> _]. }
    eapply wpm_mono; [by apply claim_turn_spec|]. intros tr' [acc|e|w] s''; auto.
  - intros tr [[cfg b] t] s' Hi. unfold enumerate in Hi.
    by rewrite length_map, length_enumerate_from in Hi.
Qed.

(** The configuration of the device at index [i] is complete. *)
Definition config_ok (c : VMContext) (ns : list NetworkStatus) (i : nat) (dev : NetworkDeviceSpec)
    (cfg : ipamDeviceConfig) (tr : trace) : Prop :=
  fresh_config cfg /\ NetworkSpecGateway4 cfg = nd_Gateway4 dev /\
  NetworkSpecGateway6 cfg = nd_Gateway6 dev /\
  (exists st, ns !! i = Some st /\ st_MACAddr st = MACAddress cfg /\ MACAddress cfg <> "") /\
  (length (IPAMAddresses cfg) <= length (nd_AddressesFromPools dev))%nat /\
  (length (IPAMAddresses cfg) = length (nd_AddressesFromPools dev) ->
   forall j a, IPAMAddresses cfg !! j = Some a ->
     claim_answered (cx_VSphereVM c) (Z.of_nat i) (Z.of_nat j) a tr).

Lemma config_ok_mono c ns i dev cfg tr tr' :
  config_ok c ns i dev cfg tr -> config_ok c ns i dev cfg (tr ++ tr')%list.
Proof.
  intros (? & ? & ? & ? & ? & Hcl). split_and!; try done. intros Hlen j a Hj.
  by apply claim_answered_mono, Hcl.
Qed.

(** The configurations after [k] devices: bound claims are at most all claims,
    and when they are all of them every device has an address per pool. *)
Definition devices_inv (c : VMContext) (ns : list NetworkStatus) (k : nat) (tr : trace)
    (acc : list ipamDeviceConfig * Z * Z) (c' : VMContext) : Prop :=
  let '(cfgs, b, t) := acc in
  c' = c /\ length cfgs = k /\ b <= t /\
  forall i cfg, cfgs !! i = Some cfg -> exists dev,
    vm_devices (cx_VSphereVM c) !! i = Some dev /\ config_ok c ns i dev cfg tr /\
    (b = t -> length (IPAMAddresses cfg) = length (nd_AddressesFromPools dev)).

Lemma device_turn_spec c ns k tr acc c' dev :
  vm_devices (cx_VSphereVM c) !! k = Some dev ->
  devices_inv c ns k tr acc c' ->
  wpm (device_turn ns acc (Z.of_nat k, dev)) c' (fun tr' r c'' =>
    match r with
    | Ok acc' => devices_inv c ns (S k) (tr ++ tr')%list acc' c''
    | _ => c'' = c
    end).
Proof.
  intros Hdev. destruct acc as [[cfgs b] t]. intros (-> & Hk & Hbt & Hi). unfold device_turn.
  rewrite Nat2Z.id. destruct (ns !! k) as [st|] eqn:Est; [|by wp_step].
  destruct (String.eqb_spec (st_MACAddr st) "") as [|Hmac]; [by wp_step|].
  wp_step. eapply wpm_mono; [by apply claim_turns|].
  intros tr1 [[[cfg b1] t1]|e|w] c1; [|done..].
  intros (-> & Hcfg & -> & -> & Hle & Hcl). wp_step. rewrite app_nil_r.
  split_and!; [done|rewrite length_app; simpl; lia|unfold zlen; lia|].
  assert (Hlz : zlen (IPAMAddresses cfg) <= Z.of_nat (length (nd_AddressesFromPools dev))) by (unfold zlen; lia).
  intros i cfg' [Hl|[Hl Hc]]%lookup_app_Some.
  - destruct (Hi _ _ Hl) as (d & Hd & Hok & Heq). exists d. split_and!; [done|by apply config_ok_mono|].
    intros E. apply Heq. lia.
  - apply list_lookup_singleton_Some in Hc as [Hc <-]. assert (i = k) as -> by lia.
    exists dev. split_and!; [done| |intros E; unfold zlen in *; lia].
    rewrite Hcfg. split_and!; cbn; try done.
    + by exists st.
    + intros Hlen j a Hj. specialize (Hcl Hlen j a Hj) as (cl & ? & ? & ?).
      exists cl. split_and!; [|done|]; apply elem_of_app; by right.
Qed.

Lemma buildIPAMDeviceConfigs_spec c ns :
  wpm (buildIPAMDeviceConfigs ns) c (fun tr r c' =>
    c' = c /\
    match r with
    | Ok cfgs =>
        length cfgs = length (vm_devices (cx_VSphereVM c)) /\
        forall i cfg, cfgs !! i = Some cfg -> exists dev,
          vm_devices (cx_VSphereVM c) !! i = Some dev /\ config_ok c ns i dev cfg tr /\
          length (IPAMAddresses cfg) = length (nd_AddressesFromPools dev)
    | _ => True
    end).
Proof.
  unfold buildIPAMDeviceConfigs, getVM. do 3 wp_step.
  eapply (wpm_fold_m _ _ _ _ (devices_inv c ns)).
  - split_and!; try done.
  - intros k tr acc c' [i dev] Hx Hi.
    assert (i = Z.of_nat k /\ vm_devices (cx_VSphereVM c) !! k = Some dev) as [-> Hdev].
    { by apply enumerate_lookup in Hx. }
    eapply wpm_mono; [by apply device_turn_spec|]. by intros tr' [acc'|e|w] c''.
  - intros tr [[cfgs b] t] c' (-> & Hlen & Hbt & Hi).
    unfold enumerate in Hlen. rewrite length_enumerate_from in Hlen.
    destruct (b <? t) eqn:E; wp_step; [done|]. rewrite app_nil_r. split_and!; [done..|].
    intros i cfg Hc. destruct (Hi _ _ Hc) as (dev & Hd & Hok & Heq). exists dev.
    split_and!; [done..|]. apply Heq. lia.
Qed.

Lemma configs_NoDup c ns tr cfgs :
  NoDup (map st_MACAddr ns) ->
  (forall i cfg, cfgs !! i = Some cfg -> exists dev, config_ok c ns i dev cfg tr) ->
  NoDup (map MACAddress cfgs).
Proof.
  rewrite !NoDup_alt. intros Hnd Hi i j m Hx Hy.
  rewrite list_lookup_fmap in Hx, Hy.
  apply fmap_Some in Hx as (ci & Hci & ->). apply fmap_Some in Hy as (cj & Hcj & Heq).
  destruct (Hi _ _ Hci) as (di & _ & _ & _ & (si & Hsi & Hmi & _) & _).
  destruct (Hi _ _ Hcj) as (dj & _ & _ & _ & (sj & Hsj & Hmj & _) & _).
  apply (Hnd i j (MACAddress ci)).
  - by rewrite list_lookup_fmap, Hsi, <-Hmi.
  - by rewrite list_lookup_fmap, Hsj, Heq, <-Hmj.
Qed.

Lemma reads_BuildState l : reads (BuildState l).
Proof. unfold BuildState, buildIPAMDeviceConfigs, device_turn, claim_turn, getIPAddrClaim. solve_reads. Qed.

(** * Properties *)

(** C36: when [BuildState] succeeds, and the MAC addresses of the VM's network
    statuses are pairwise different, every device that takes addresses from pools
    has an entry under its MAC address, made of exactly one address for every
    pool, which the claim of that pool was bound to; the addresses are pairwise
    different, and all gateways of a family agree with each other and with the
    one of the specification. [BuildState] only reads: it writes nothing to the API
    server or vCenter and leaves the VSphereVM as it is. *)
Theorem BuildState_complete ns c tr state c' :
  NoDup (map st_MACAddr ns) ->
  runs (BuildState ns c) tr (Ok state, c') ->
  effects tr = [] /\ c' = c /\
  forall i dev, vm_devices (cx_VSphereVM c) !! i = Some dev -> nd_AddressesFromPools dev <> [] ->
  exists st addrs spec ps,
    ns !! i = Some st /\ state !! st_MACAddr st = Some spec /\
    length addrs = length (nd_AddressesFromPools dev) /\
    (forall j a, addrs !! j = Some a ->
       claim_answered (cx_VSphereVM c) (Z.of_nat i) (Z.of_nat j) a tr) /\
    addresses_ok addrs ps /\ nd_IPAddrs spec = prefixesAsStrings ps /\
    Forall (gateway_ok (nd_Gateway4 dev) (nd_Gateway6 dev) (nd_Gateway4 spec) (nd_Gateway6 spec)) addrs.
Proof.
  intros Hnd Hrun. split; [by destruct (proj1 (wpm_runs _ _ _) (reads_BuildState ns c) _ _ _ Hrun)|].
  revert tr c' Hrun. enough (W : wpm (BuildState ns) c (fun tr r c' =>
    match r with Ok state => c' = c /\ forall i dev,
        vm_devices (cx_VSphereVM c) !! i = Some dev -> nd_AddressesFromPools dev <> [] ->
        exists st addrs spec ps, ns !! i = Some st /\ state !! st_MACAddr st = Some spec /\
          length addrs = length (nd_AddressesFromPools dev) /\
          (forall j a, addrs !! j = Some a ->
             claim_answered (cx_VSphereVM c) (Z.of_nat i) (Z.of_nat j) a tr) /\
          addresses_ok addrs ps /\ nd_IPAddrs spec = prefixesAsStrings ps /\
          Forall (gateway_ok (nd_Gateway4 dev) (nd_Gateway6 dev) (nd_Gateway4 spec) (nd_Gateway6 spec)) addrs
    | _ => True end)).
  { intros tr c' Hr. rewrite wpm_runs in W. exact (W _ _ _ Hr). }
  unfold BuildState. wp_step. eapply wpm_mono; [apply buildIPAMDeviceConfigs_spec|].
  intros tr [cfgs|e|w] c' [-> Hc]; [|done..]. destruct Hc as [Hlen Hc].
  destruct (build_devices cfgs) as [state' errs] eqn:Eb.
  destruct (0 <? zlen errs) eqn:Ee; wp_step; [done|]. rewrite app_nil_r. split; [done|].
  assert (errs = []) as -> by (destruct errs; [done|apply Z.ltb_ge in Ee; unfold zlen in Ee; simpl length in Ee; lia]).
  intros i dev Hdev Hp.
  assert (Hil : (i < length cfgs)%nat) by (apply lookup_lt_Some in Hdev; lia).
  apply lookup_lt_is_Some_2 in Hil as [cfg Hcfg].
  destruct (Hc _ _ Hcfg) as (dev' & Hdev' & Hok & Hall).
  assert (dev' = dev) as -> by congruence.
  assert (Hfresh : Forall fresh_config cfgs).
  { apply Forall_lookup. intros j cf Hj. by destruct (Hc _ _ Hj) as (? & _ & (? & _) & _). }
  assert (HN : NoDup (map MACAddress cfgs)).
  { eapply (configs_NoDup c ns tr); [done|]. intros j cf Hj. destruct (Hc _ _ Hj) as (? & _ & ? & _). eauto. }
  assert (Hne : IPAMAddresses cfg <> []) by (intros E; rewrite E in Hall; by destruct (nd_AddressesFromPools dev)).
  destruct (build_devices_ok cfgs state' Hfresh HN Eb cfg (list_elem_of_lookup_2 _ _ _ Hcfg) Hne)
    as (spec & Hs & ps & Hps & Hips & Hg).
  destruct Hok as (_ & H4 & H6 & (st & Hst & Hmac & _) & _ & Hcl). rewrite H4, H6 in Hg.
  exists st, (IPAMAddresses cfg), spec, ps. rewrite Hmac. split_and!; auto.
Qed.
End program_lemmas.

(** A device with a pool whose claim is bound to 10.0.0.5/24. *)
Definition sample_pool_device : NetworkDeviceSpec :=
  set_nd_AddressesFromPools [mkIPPoolReference "pool" "InClusterIPPool" "ipam.cluster.x-k8s.io"]
    NetworkDeviceSpec_zero.
Definition sample_pool_vm : VSphereVM :=
  sample_vm (set_cs_Network (mkNetworkSpec [sample_pool_device] []) VirtualMachineCloneSpec_zero) "" "".
Definition sample_claim (name : string) : IPAddressClaim :=
  mkIPAddressClaim (mkObjectMeta name "default" "" None [] [] None) (mkIPPoolReference "pool" "" "")
    (name +:+ "-addr") [] [].
Definition sample_pool_world : RefWorld :=
  mkRefWorld 0 (Ok None) (Ok None) (fun _ => Ok vm_ref) (Err (ENew "")) "poweredOff" false None None [] None
    (fun n => Ok (sample_claim n))
    (fun n => Ok (mkIPAddress n "default" "10.0.0.5" (Some 24) "10.0.0.1")).
Definition sample_statuses : list NetworkStatus := [mkNetworkStatus (Some true) [] "00:50:56:00:00:01" "net"].
Definition sample_build := run (BuildState sample_statuses) (sample_context sample_pool_vm) sample_pool_world.
Definition sample_state : gmap string NetworkDeviceSpec :=
  {["00:50:56:00:00:01" :=
      set_nd_Gateway4 "10.0.0.1" (set_nd_IPAddrs ["10.0.0.5/24"] NetworkDeviceSpec_zero)]}.

Lemma BuildState_complete_witness :
  NoDup (map st_MACAddr sample_statuses) /\
  sample_build.2.1 = Ok sample_state /\
  exists st addrs spec ps,
    sample_statuses !! O = Some st /\ sample_state !! st_MACAddr st = Some spec /\
    length addrs = 1%nat /\
    (forall j a, addrs !! j = Some a ->
       claim_answered sample_pool_vm 0 (Z.of_nat j) a sample_build.1) /\
    addresses_ok addrs ps /\ nd_IPAddrs spec = prefixesAsStrings ps /\
    Forall (gateway_ok "" "" (nd_Gateway4 spec) (nd_Gateway6 spec)) addrs.
Proof.
  assert (Hnd : NoDup (map st_MACAddr sample_statuses)) by (apply NoDup_singleton).
  assert (Hr : sample_build.2.1 = Ok sample_state) by (vm_compute; reflexivity).
  split; [exact Hnd|]. split; [exact Hr|].
  assert (Hruns := run_runs (BuildState sample_statuses) (sample_context sample_pool_vm) sample_pool_world).
  fold sample_build in Hruns. rewrite Hr in Hruns.
  exact (proj2 (proj2 (BuildState_complete _ _ _ _ _ Hnd Hruns)) O sample_pool_device eq_refl ltac:(done)).
Defined.

End Ipam.
