(* ===== verification/VMUtil.v ===== *)
(** [pkg/services/govmomi/errors.go] and the first part of
    [pkg/services/govmomi/util.go]: finding a VM, and the life of the task that
    is recorded in the status of a VSphereVM. *)
From S2P Require Import Prelude GoStrings Types Libs Errors Prog World RefLibs.

Module VMUtil.

(** * [errors.go] *)

Definition isNotFound (err : error) : bool :=
  match err with EVMNotFound _ _ => true | _ => false end.
Definition isFolderNotFound (err : error) : bool :=
  match err with ELib FinderNotFound _ => true | _ => false end.
Definition isVirtualMachineNotFound (err : error) : bool :=
  match err with ELib FinderNotFound _ => true | _ => false end.
Definition wasNotFoundByBIOSUUID (err : error) : bool :=
  match err with
  | EVMNotFound uuid byInventoryPath => negb (String.eqb uuid "") && String.eqb byInventoryPath ""
  | _ => false
  end.

Section util.
Context `{Libs}.
Open Scope go_scope.

(** * [util.go] *)

Definition findVM : MV MoRef :=
  vm <- getVM ;;
  let biosUUID := vs_BiosUUID (vm_Spec vm) in
  if negb (String.eqb biosUUID "") then
    objRef <- FindByBIOSUUID biosUUID ;;
    match objRef with
    | None => fail (EVMNotFound biosUUID "")
    | Some ref => ret ref
    end
  else
    objRef <- FindByInstanceUUID (vm_UID vm) ;;
    match objRef with
    | None =>
        folder <- call_lib (FinderFolderOrDefault (cs_Folder (vm_clone vm))) ;;
        let inventoryPath := path_join (fo_InventoryPath folder) (vm_Name vm) in
        r <- try (call_lib (FinderVirtualMachine inventoryPath)) ;;
        match r with
        | inr err =>
            if isVirtualMachineNotFound err then fail (EVMNotFound "" inventoryPath) else fail err
        | inl ref => ret ref
        end
    | Some ref => ret ref
    end.

Definition getTask : MV (option Task) :=
  vm <- getVM ;;
  if String.eqb (vt_TaskRef (vm_Status vm)) "" then ret None
  else
    r <- try (call_res (RetrieveTask (vt_TaskRef (vm_Status vm)))) ;;
    ret (match r with inl obj => Some obj | inr _ => None end).

Definition isInvalidPowerStateAndExpectedPowerState (f : Fault) : bool :=
  match f with
  | InvalidPowerState existing requested => String.eqb existing requested
  | OtherFault => false
  end.

(** [1 * time.Minute] in nanoseconds. *)
Definition RetryDelay : Z := 60 * 1000000000.

(** [RetryAfter] is set and the clock is before it. *)
Definition retry_pending (vm : VSphereVM) : MV bool :=
  match vt_RetryAfter (vm_Status vm) with
  | None => ret false
  | Some t => now <- ask Now ;; ret (now <? t)
  end.

(** The end of the case of a failed task. *)
Definition task_failed (errorMessage : string) : MV bool :=
  mark_false VMProvisionedV1Beta1Condition TaskFailure SeverityInfo errorMessage ;;
  set_condition (cond VSphereVMVirtualMachineProvisionedCondition ConditionFalse
                   VSphereVMVirtualMachineTaskFailedReason "") ;;
  vm <- getVM ;;
  match vt_RetryAfter (vm_Status vm) with
  | None =>
      now <- ask Now ;;
      on_vm (on_status (set_vt_RetryAfter (Some (now + RetryDelay)))) ;;
      ret true
  | Some _ =>
      set_TaskRef "" ;;
      on_vm (on_status (set_vt_RetryAfter None)) ;;
      ret true
  end.

Definition checkAndRetryTask (task : option Task) : MV bool :=
  match task with
  | None => set_TaskRef "" ;; ret false
  | Some task =>
      vm <- getVM ;;
      pending <- retry_pending vm ;;
      if pending then
        fail (ENew (sprintf "last task failed retry after %v"
                      [AS (time_text (ptr_deref (vt_RetryAfter (vm_Status vm)) 0))]))
      else
        let st := tk_State task in
        if String.eqb st TaskInfoStateQueued then ret true
        else if String.eqb st TaskInfoStateRunning then ret true
        else if String.eqb st TaskInfoStateSuccess then set_TaskRef "" ;; ret false
        else if String.eqb st TaskInfoStateError then
          match tk_Error task with
          | Some te =>
              if isInvalidPowerStateAndExpectedPowerState (te_Fault te)
              then set_TaskRef "" ;; ret false
              else task_failed (te_LocalizedMessage te)
          | None => task_failed ""
          end
        else
          c <- get ;;
          fail (ENew (sprintf "unknown task state %q for %q" [AS st; AS (VMContext_String c)]))
  end.

Definition reconcileInFlightTask : MV bool :=
  task <- getTask ;;
  checkAndRetryTask task.

(** A goroutine is started that waits for the task and then sends an event for
    the VSphereVM. *)
Definition reconcileVSphereVMOnTaskCompletion : MV unit :=
  task <- getTask ;;
  match task with
  | None => ret tt
  | Some task =>
      vm <- getVM ;;
      ask (GoWhenTaskCompletes (tk_Ref task) vm)
  end.

(** What that goroutine does with the answer of [WaitForResult]: no event is
    sent when waiting fails or when the task failed; one is sent otherwise, also
    when there is no information on the task. *)
Definition task_completion_event (taskInfo : res (option string)) : bool :=
  match taskInfo with
  | Ok (Some st) => negb (String.eqb st TaskInfoStateError)
  | Ok None => true
  | _ => false
  end.

Definition reconcileVSphereVMWhenNetworkIsReady (powerOnTask : string) : MV unit :=
  vm <- getVM ;;
  ask (GoWhenNetworkIsReady powerOnTask vm).
End util.

(** * Lemmas *)

Section lemmas.
Context `{Libs}.

(** A task in state error that is not about a VM being in the requested power
    state already. *)
Definition failed_task (task : Task) : Prop :=
  tk_State task = TaskInfoStateError /\
  match tk_Error task with
  | Some te => isInvalidPowerStateAndExpectedPowerState (te_Fault te) = false
  | None => True
  end.

Lemma task_failed_spec msg c :
  wpm (task_failed msg) c (fun tr r c' =>
    r = Ok true /\ effects tr = [] /\
    match RetryAfter c with
    | None => TaskRef c' = TaskRef c /\
        exists now, Call Now now ∈ tr /\ RetryAfter c' = Some (now + RetryDelay)
    | Some _ => TaskRef c' = "" /\ RetryAfter c' = None
    end).
Proof.
  unfold task_failed. repeat vm_step. unfold RetryAfter, TaskRef. cbn.
  destruct (vt_RetryAfter (vm_Status (cx_VSphereVM c))); repeat vm_step; cbn.
  - split_and!; done.
  - split_and!; [done..|]. eexists. split; [|done]. in_trace.
Qed.

(** The case of a failed task. *)
Lemma failed_task_case task c :
  failed_task task ->
  checkAndRetryTask (Some task) c =
    (vm <- getVM ;;
     pending <- retry_pending vm ;;
     if pending then
       fail (ENew (sprintf "last task failed retry after %v"
                     [AS (time_text (ptr_deref (vt_RetryAfter (vm_Status vm)) 0))]))
     else task_failed (match tk_Error task with Some te => te_LocalizedMessage te | None => "" end))%go c.
Proof.
  intros [Hst He]. unfold checkAndRetryTask. rewrite Hst.
  destruct (tk_Error task) as [te|]; [rewrite He|]; reflexivity.
Qed.

Lemma checkAndRetryTask_failed_run task c :
  failed_task task ->
  wpm (checkAndRetryTask (Some task)) c (fun tr r c' =>
    effects tr = [] /\
    match RetryAfter c with
    | None => r = Ok true /\ TaskRef c' = TaskRef c /\
        exists now, Call Now now ∈ tr /\ RetryAfter c' = Some (now + RetryDelay)
    | Some t => exists now tr', tr = Call Now now :: tr' /\
        if now <? t then is_ok r = false /\ c' = c
        else r = Ok true /\ TaskRef c' = "" /\ RetryAfter c' = None
    end).
Proof.
  intros Hf. eapply wpm_ext; [by apply failed_task_case|]. unfold retry_pending. repeat vm_step.
  pose proof (task_failed_spec
    (match tk_Error task with Some te => te_LocalizedMessage te | None => "" end) c) as Hs.
  unfold RetryAfter in *. destruct (vt_RetryAfter (vm_Status (cx_VSphereVM c))) as [t|].
  - repeat vm_step. destruct (x <? t) eqn:E; repeat vm_step.
    + split; [done|]. exists x, []. by rewrite E.
    + eapply wpm_mono; [exact Hs|]. intros tr r c' (-> & He & Hr). split; [exact He|].
      exists x, tr. by rewrite E.
  - repeat vm_step. eapply wpm_mono; [exact Hs|]. intros tr r c' (-> & He & Hr).
    split; [exact He|]. exact (conj eq_refl Hr).
Qed.

(** What a check of the task may change: the reference of the task, the time of
    the retry and the conditions. It has no effect outside. *)
Lemma checkAndRetryTask_quiet task c :
  wpm (checkAndRetryTask task) c (fun tr r c' =>
    effects tr = [] /\
    (TaskRef c' = TaskRef c \/ TaskRef c' = "") /\
    (r = Ok false -> TaskRef c' = "")).
Proof.
  destruct task as [task|]; [|repeat vm_step; split_and!; auto].
  destruct (String.eqb (tk_State task) TaskInfoStateError) eqn:E.
  - apply String.eqb_eq in E.
    destruct (match tk_Error task with
              | Some te => isInvalidPowerStateAndExpectedPowerState (te_Fault te)
              | None => false end) eqn:Ef.
    + unfold checkAndRetryTask, retry_pending. rewrite E.
      destruct (tk_Error task) as [te|]; [|done]. rewrite Ef. repeat vm_step.
      destruct (vt_RetryAfter _); repeat vm_step; [destruct (_ <? _)|]; repeat vm_step; split_and!; auto; done.
    + eapply wpm_mono; [apply checkAndRetryTask_failed_run|].
      { split; [done|]. by destruct (tk_Error task). }
      intros tr r c' [He Hr]. split; [done|].
      destruct (RetryAfter c).
      * destruct Hr as (now & tr' & _ & Hr). destruct (now <? z).
        -- destruct Hr as [Hr ->]. split; [by left|]. by intros ->.
        -- destruct Hr as (-> & Ht & _). split; [by right|done].
      * destruct Hr as (-> & Ht & _). split; [by left|done].
  - unfold checkAndRetryTask, retry_pending. repeat vm_step.
    destruct (vt_RetryAfter _); repeat vm_step; [destruct (_ <? _); repeat vm_step|];
      try (split_and!; auto; done);
      rewrite E; repeat case_match; repeat vm_step; split_and!; auto; done.
Qed.
Lemma keeps_reconcileInFlightTask : keeps reconcileInFlightTask.
Proof.
  unfold reconcileInFlightTask, getTask, checkAndRetryTask, task_failed, retry_pending. solve_keeps.
Qed.

Lemma reads_getTask : reads getTask.
Proof. unfold getTask. solve_reads. Qed.

(** The tasks that were retrieved, by reference, with their answers. *)
Definition retrieved (c : call Ev) : option (string * res Task) :=
  match c with
  | @Call _ X e x =>
      match e in Ev Y return Y -> option (string * res Task) with
      | RetrieveTask t => fun r => Some (t, r)
      | _ => fun _ => None
      end x
  end.
Definition retrieved_tasks (tr : trace) : list (string * res Task) := omap retrieved tr.
Lemma retrieved_tasks_app tr tr' :
  retrieved_tasks (tr ++ tr')%list = (retrieved_tasks tr ++ retrieved_tasks tr')%list.
Proof. apply omap_app. Qed.

Lemma getTask_spec c :
  wpm getTask c (fun tr r c' => c' = c /\ effects tr = [] /\
    if String.eqb (TaskRef c) "" then retrieved_tasks tr = [] /\ r = Ok None
    else exists a, retrieved_tasks tr = [(TaskRef c, a)] /\
      match a with Ok task => r = Ok (Some task) | Err _ => r = Ok None | Stop w => r = Stop w end).
Proof.
  unfold getTask, TaskRef. do 2 vm_step. destruct (String.eqb _ ""); vm_steps; split_and!; try done; by eexists.
Qed.

Lemma checkAndRetryTask_retrieves task c :
  wpm (checkAndRetryTask task) c (fun tr _ _ => retrieved_tasks tr = []).
Proof.
  unfold checkAndRetryTask, retry_pending, task_failed. destruct task; vm_steps; [|done].
  destruct (vt_RetryAfter (vm_Status (cx_VSphereVM c))) eqn:E; vm_steps; repeat case_match; vm_steps; try done.
  all: cbn [cx_VSphereVM set_cx_VSphereVM vm_Status]; repeat case_match; by vm_steps.
Qed.

(** A task that has not ended. *)
Definition in_progress (task : Task) : Prop :=
  tk_State task = TaskInfoStateQueued \/ tk_State task = TaskInfoStateRunning.

(** A task in progress makes the pass stop, or fail while a retry is pending. *)
Lemma checkAndRetryTask_in_progress task c :
  in_progress task ->
  wpm (checkAndRetryTask (Some task)) c (fun tr r c' => c' = c /\ r <> Ok false).
Proof.
  intros Hp. unfold checkAndRetryTask, retry_pending. vm_steps.
  destruct (vt_RetryAfter (vm_Status (cx_VSphereVM c))); vm_steps; [destruct (_ <? _); vm_steps; [done|]|];
    destruct Hp as [-> | ->]; by vm_steps.
Qed.

(** Why a pass waits for a task: it has not ended; or it failed, and either the
    time of its retry is set to a minute after the clock, or that time has come
    and the task is dropped, so that the next pass starts again. *)
Definition awaited (task : Task) (c : VMContext) (tr : trace) (c' : VMContext) : Prop :=
  in_progress task /\ TaskRef c' = TaskRef c \/
  failed_task task /\
  match RetryAfter c with
  | None => TaskRef c' = TaskRef c /\
      exists now, Call Now now ∈ tr /\ RetryAfter c' = Some (now + RetryDelay)
  | Some t => (exists now, Call Now now ∈ tr /\ t <= now) /\ TaskRef c' = "" /\ RetryAfter c' = None
  end.

Lemma awaited_app task c tr0 tr c' : awaited task c tr c' -> awaited task c (tr0 ++ tr)%list c'.
Proof.
  intros [?|[Hf Hr]]; [by left|right]. split; [done|]. destruct (RetryAfter c).
  - destruct Hr as ((now & Hn & Hle) & ?). split; [|done]. exists now. split; [in_trace|done].
  - destruct Hr as (? & now & Hn & ?). split; [done|]. exists now. split; [in_trace|done].
Qed.

Lemma checkAndRetryTask_waits task c :
  wpm (checkAndRetryTask (Some task)) c (fun tr r c' => r = Ok true -> awaited task c tr c').
Proof.
  destruct (String.eqb_spec (tk_State task) TaskInfoStateError) as [E|Hne].
  - destruct (match tk_Error task with
              | Some te => isInvalidPowerStateAndExpectedPowerState (te_Fault te)
              | None => false end) eqn:Ef.
    + unfold checkAndRetryTask, retry_pending. rewrite E. destruct (tk_Error task) as [te|]; [|done]. rewrite Ef.
      repeat vm_step. destruct (vt_RetryAfter _); repeat vm_step; [destruct (_ <? _)|]; by repeat vm_step.
    + assert (Hf : failed_task task) by (split; [done|]; by destruct (tk_Error task)).
      eapply wpm_mono; [by apply checkAndRetryTask_failed_run|]. intros tr r c' [_ Hr] Hok. right. split; [done|].
      destruct (RetryAfter c) as [t|]; [|by destruct Hr as (_ & ?)].
      destruct Hr as (now & tr' & -> & Hr). destruct (Z.ltb_spec now t) as [_|Hle]; [destruct Hr as [Hr _]; by rewrite Hok in Hr|].
      destruct Hr as (_ & ? & ?). split; [|done]. exists now. split; [by left|done].
  - unfold checkAndRetryTask, retry_pending. repeat vm_step.
    destruct (vt_RetryAfter _); repeat vm_step; [destruct (_ <? _); repeat vm_step; [done|]|].
    all: unfold awaited, in_progress.
    all: destruct (String.eqb_spec (tk_State task) TaskInfoStateQueued); [repeat vm_step; auto|].
    all: destruct (String.eqb_spec (tk_State task) TaskInfoStateRunning); [repeat vm_step; auto|].
    all: rewrite (proj2 (String.eqb_neq _ _) Hne); destruct (String.eqb _ _); by repeat vm_step.
Qed.

(** A check of the task in flight has no effect; when it says to go on there is
    no task any more, and none was in progress; when it says to wait, the task
    is one to wait for. *)
Lemma reconcileInFlightTask_spec c :
  wpm reconcileInFlightTask c (fun tr r c' =>
    same_but_status c c' /\ effects tr = [] /\ (TaskRef c' = TaskRef c \/ TaskRef c' = "") /\
    (r = Ok false -> TaskRef c' = "") /\
    (r = Ok true -> exists task, retrieved_tasks tr = [(TaskRef c, Ok task)] /\ awaited task c tr c') /\
    (TaskRef c <> "" -> exists a, retrieved_tasks tr = [(TaskRef c, a)] /\
      forall task, a = Ok task -> in_progress task -> c' = c /\ r <> Ok false)).
Proof.
  apply wpm_runs. intros tr r c' Hr. split.
  { revert tr r c' Hr. apply wpm_runs, keeps_reconcileInFlightTask. }
  revert tr r c' Hr. apply wpm_runs. unfold reconcileInFlightTask. vm_step.
  eapply wpm_mono; [apply getTask_spec|]. intros tr r c1 (-> & He & Hr).
  destruct (String.eqb_spec (TaskRef c) "") as [E|Hne].
  - destruct Hr as [Hr ->]. unfold checkAndRetryTask. vm_steps. rewrite app_nil_r.
    split_and!; [done|by right|done|by intros [=]|done].
  - destruct Hr as (a & Ha & Hr).
    assert (Hchk : forall task, wpm (checkAndRetryTask task) c (fun tr' r c' =>
      effects (tr ++ tr')%list = [] /\ (TaskRef c' = TaskRef c \/ TaskRef c' = "") /\
      (r = Ok false -> TaskRef c' = "") /\ retrieved_tasks (tr ++ tr')%list = [(TaskRef c, a)] /\
      (task = None -> r = Ok false) /\
      (forall tk, task = Some tk -> r = Ok true -> awaited tk c (tr ++ tr')%list c') /\
      (forall tk, task = Some tk -> in_progress tk -> c' = c /\ r <> Ok false))).
    { intros task. apply wpm_runs. intros tr' r' c' Hrun.
      pose proof (proj1 (wpm_runs _ _ _) (checkAndRetryTask_quiet task c) _ _ _ Hrun) as (Hq & Ht & Hf).
      pose proof (proj1 (wpm_runs _ _ _) (checkAndRetryTask_retrieves task c) _ _ _ Hrun) as Hret.
      cbn beta in Hret. rewrite effects_app, He, Hq, retrieved_tasks_app, Ha, Hret. split_and!; try done.
      - intros ->. destruct Hrun as [_ Hrun]. congruence.
      - intros tk -> Hok. apply awaited_app.
        exact (proj1 (wpm_runs _ _ _) (checkAndRetryTask_waits tk c) _ _ _ Hrun Hok).
      - intros tk -> Hp. exact (proj1 (wpm_runs _ _ _) (checkAndRetryTask_in_progress tk c Hp) _ _ _ Hrun). }
    assert (Hne' : TaskRef c <> "") by done.
    destruct r as [task|e|w].
    + eapply wpm_mono; [apply Hchk|]. intros tr' r c' (H1 & H2 & H3 & H4 & H5 & H6 & H7).
      split_and!; [done..| |].
      * intros ->. destruct a as [tk|e|w]; [|by injection Hr as ->; specialize (H5 eq_refl)|done].
        injection Hr as ->. exists tk. split; [done|]. by apply H6.
      * intros _. exists a. split; [done|]. intros tk ->. injection Hr as ->. by apply H7.
    + destruct a; discriminate Hr.
    + destruct a as [| |w']; try discriminate Hr. split_and!; [done|by left|done|done|].
      intros _. exists (Stop w'). by split.
Qed.

(** The event on completion is all that the deferred function causes. *)
Lemma reconcileVSphereVMOnTaskCompletion_spec c :
  wpm reconcileVSphereVMOnTaskCompletion c (fun tr _ c' =>
    c' = c /\ power_states tr = [] /\ started_tasks tr = [] /\
    (effects tr = [] \/ exists t, effects tr = [WatchesTask t])).
Proof.
  unfold reconcileVSphereVMOnTaskCompletion, getTask. do 3 vm_step.
  destruct (String.eqb _ ""); vm_steps; eauto 7.
Qed.

(** * Finding the VM *)

(** vCenter's answers to a search by BIOS UUID and by instance UUID. *)
Definition by_bios_uuid (uuid : string) (r : option MoRef) : call Ev := Call (FindByUuid uuid true false) (Ok r).
Definition by_instance_uuid (uuid : string) (r : option MoRef) : call Ev := Call (FindByUuid uuid true true) (Ok r).

(** The VM that carries a BIOS UUID is not found by it. *)
Definition missing_by_uuid (vm : VSphereVM) (tr : trace) : Prop :=
  vs_BiosUUID (vm_Spec vm) <> "" /\ by_bios_uuid (vs_BiosUUID (vm_Spec vm)) None ∈ tr.
(** The VM that carries none is found neither by its instance UUID nor by its
    name in the folder. *)
Definition missing_by_name (vm : VSphereVM) (tr : trace) : Prop :=
  vs_BiosUUID (vm_Spec vm) = "" /\ by_instance_uuid (vm_UID vm) None ∈ tr /\
  exists folder msg,
    Call (FinderFolderOrDefault (cs_Folder (vm_clone vm))) (LOk folder) ∈ tr /\
    Call (FinderVirtualMachine (path_join (fo_InventoryPath folder) (vm_Name vm)))
      (LErr FinderNotFound msg) ∈ tr.
(** It is not found by its instance UUID, and there is no folder it could be in. *)
Definition missing_with_folder (vm : VSphereVM) (tr : trace) : Prop :=
  vs_BiosUUID (vm_Spec vm) = "" /\ by_instance_uuid (vm_UID vm) None ∈ tr /\
  exists msg, Call (FinderFolderOrDefault (cs_Folder (vm_clone vm))) (LErr FinderNotFound msg) ∈ tr.
(** The VM is found, by the BIOS UUID when it carries one. *)
Definition found_vm (vm : VSphereVM) (tr : trace) (ref : MoRef) : Prop :=
  if String.eqb (vs_BiosUUID (vm_Spec vm)) "" then
    by_instance_uuid (vm_UID vm) (Some ref) ∈ tr \/
    by_instance_uuid (vm_UID vm) None ∈ tr /\
    exists folder, Call (FinderFolderOrDefault (cs_Folder (vm_clone vm))) (LOk folder) ∈ tr /\
      Call (FinderVirtualMachine (path_join (fo_InventoryPath folder) (vm_Name vm))) (LOk ref) ∈ tr
  else by_bios_uuid (vs_BiosUUID (vm_Spec vm)) (Some ref) ∈ tr.

(** What is known when the lookup fails: with the error for a VM that is not found,
    that vCenter said so; with the one for a folder, that it said that of the
    folder. *)
Definition lookup_failed (vm : VSphereVM) (tr : trace) (e : error) : Prop :=
  (isNotFound e = true -> if wasNotFoundByBIOSUUID e then missing_by_uuid vm tr else missing_by_name vm tr) /\
  (isFolderNotFound e = true -> missing_with_folder vm tr).

Lemma findVM_spec c :
  wpm findVM c (fun tr r c' => c' = c /\ effects tr = [] /\ power_states tr = [] /\
    match r with
    | Ok ref => found_vm (cx_VSphereVM c) tr ref
    | Err e => lookup_failed (cx_VSphereVM c) tr e
    | Stop _ => True
    end).
Proof.
  assert (Hother : forall vm tr e, isNotFound e = false -> isFolderNotFound e = false -> lookup_failed vm tr e).
  { intros vm tr e H1 H2. split; congruence. }
  unfold findVM, found_vm. do 2 vm_step.
  destruct (String.eqb_spec (vs_BiosUUID (vm_Spec (cx_VSphereVM c))) "") as [E|Hne]; cbn [negb].
  - do 4 vm_step. destruct x; cbn [negb]; [|vm_step; split_and!; by try apply Hother].
    vm_steps; [|by split_and!; try apply Hother|done]. destruct a as [ref|]; vm_steps.
    + split_and!; [done..|]. left. unfold by_instance_uuid. in_trace.
    + split_and!; [done..|]. right. split; [unfold by_instance_uuid; in_trace|]. eexists. split; in_trace.
    + destruct (isVirtualMachineNotFound (ELib kind msg)) eqn:En; vm_steps; split_and!; try done; [|by destruct kind].
      split; [|done]. intros _. cbn [wasNotFoundByBIOSUUID]. simpl. split; [done|]. split; [unfold by_instance_uuid; in_trace|].
      destruct kind; try discriminate En. exists a, msg. split; in_trace.
    + done.
    + split_and!; try done. split; [done|]. intros Hk. split; [done|]. split; [unfold by_instance_uuid; in_trace|].
      destruct kind; try discriminate Hk. exists msg. in_trace.
    + done.
  - do 4 vm_step. destruct x; cbn [negb]; [|vm_step; split_and!; by try apply Hother].
    vm_steps; [|by split_and!; try apply Hother|done].
    destruct a as [ref|]; vm_steps; split_and!; try done; [unfold by_bios_uuid; in_trace|].
    split; [|done]. intros _. cbn [wasNotFoundByBIOSUUID]. rewrite (proj2 (String.eqb_neq _ _) Hne). simpl.
    split; [done|]. unfold by_bios_uuid. in_trace.
Qed.
(** ** Properties *)

(** the VM is looked up without changing anything. A VSphereVM that carries a
    BIOS UUID is looked up by it alone; one that carries none by its instance
    UUID, then by its name in its folder. It is reported as not found only when
    that lookup answered so, and as not found by BIOS UUID only when it carries
    one: a machine that was provisioned is never mistaken for a new one. *)
Theorem findVM_lookup c tr r c' :
  runs (findVM c) tr (r, c') ->
  c' = c /\ effects tr = [] /\
  match r with
  | Ok ref => found_vm (cx_VSphereVM c) tr ref
  | Err e => isNotFound e = true ->
      if wasNotFoundByBIOSUUID e then missing_by_uuid (cx_VSphereVM c) tr
      else missing_by_name (cx_VSphereVM c) tr
  | Stop _ => True
  end.
Proof.
  intros Hr. destruct (proj1 (wpm_runs _ _ _) (findVM_spec c) _ _ _ Hr) as (Hc & He & _ & Hs).
  split_and!; [done..|]. destruct r as [ref|e|w]; [exact Hs|exact (proj1 Hs)|done].
Qed.

(** a failed task is retried after a minute. The pass that first sees it keeps
    its reference and sets the time of the retry to a minute after the clock; a
    pass before that time is refused and leaves everything as it is; the first
    pass from then on drops the reference and the time, so that the operation
    can start again. Nothing is changed outside. *)
Theorem checkAndRetryTask_retries task c tr r c' :
  failed_task task -> runs (checkAndRetryTask (Some task) c) tr (r, c') ->
  same_but_status c c' /\ effects tr = [] /\
  match RetryAfter c with
  | None => r = Ok true /\ TaskRef c' = TaskRef c /\
      exists now, Call Now now ∈ tr /\ RetryAfter c' = Some (now + RetryDelay)
  | Some t => exists now tr', tr = Call Now now :: tr' /\
      if now <? t then is_ok r = false /\ c' = c
      else r = Ok true /\ TaskRef c' = "" /\ RetryAfter c' = None
  end.
Proof.
  intros Hf Hr. split.
  - revert tr r c' Hr. apply wpm_runs.
    assert (Hk : keeps (checkAndRetryTask (Some task))); [|apply Hk].
    unfold checkAndRetryTask, retry_pending, task_failed. solve_keeps.
  - revert tr r c' Hr. by apply wpm_runs, checkAndRetryTask_failed_run.
Qed.
End lemmas.

(** * Concrete inputs *)

Section examples.
Import RefLibs.

Definition sample_failed_task : Task :=
  mkTask "task-7" TaskInfoStateError (Some (mkTaskError OtherFault "no space left")).
Definition sample_task_context : VMContext :=
  sample_context (sample_vm VirtualMachineCloneSpec_zero "" "task-7").
Definition sample_retry := run (checkAndRetryTask (Some sample_failed_task)) sample_task_context empty_world.

Lemma checkAndRetryTask_retries_witness :
  failed_task sample_failed_task /\ TaskRef sample_retry.2.2 = "task-7" /\
  RetryAfter sample_retry.2.2 = Some (2000000000 + RetryDelay).
Proof.
  assert (Hf : failed_task sample_failed_task) by done.
  destruct (checkAndRetryTask_retries sample_failed_task sample_task_context _ _ _ Hf
    (run_runs (checkAndRetryTask (Some sample_failed_task)) sample_task_context empty_world))
    as (_ & _ & Hr & Ht & _).
  split; [exact Hf|]. split; [exact Ht|]. vm_compute. reflexivity.
Defined.

Definition sample_lookup := run findVM sample_task_context empty_world.

Lemma findVM_lookup_witness :
  exists e, sample_lookup.2.1 = Err e /\ isNotFound e = true /\
  missing_by_name (cx_VSphereVM sample_task_context) sample_lookup.1.
Proof.
  destruct (findVM_lookup sample_task_context _ _ _ (run_runs findVM sample_task_context empty_world))
    as (_ & _ & Hr).
  exists (EVMNotFound "" "/dc0/vm/vm-1").
  split; [vm_compute; reflexivity|]. split; [reflexivity|]. exact (Hr eq_refl).
Defined.
End examples.

End VMUtil.
