(* ===== verification/Power.v ===== *)
(** [pkg/services/govmomi/power.go]: the power state of a VM and the soft
    power-off of its guest. *)
From S2P Require Import Prelude GoStrings Types Libs Errors Prog World RefLibs VMUtil.
From Stdlib Require Import SpecFloat.

Module Power.

(** * Durations

    A [time.Duration] counts nanoseconds; [Seconds] is a [float64]. *)
Definition Second : Z := 1000000000.
Definition duration_max : Z := 2 ^ 63 - 1.
Definition duration_min : Z := - 2 ^ 63.

Definition float64 (z : Z) : spec_float := binary_normalize 53 1024 z 0 false.

(** [float64(d/Second) + float64(d%Second)/1e9]. *)
Definition Seconds (d : Z) : spec_float :=
  SFadd 53 1024 (float64 (Z.quot d Second))
    (SFdiv 53 1024 (float64 (Z.rem d Second)) (float64 1000000000)).

(** [now.Sub(t)] saturates; the zero time is the start of year 1. *)
Definition zero_time : Z := -62135596800 * 1000000000.
Definition time_sub (now : Z) (t : Time) : Z :=
  Z.max duration_min (Z.min duration_max (now - ptr_deref t zero_time)).

(** The duration the timeout is compared as: the field is a number of seconds,
    the default is assigned as it is. *)
Definition soft_power_off_timeout (vm : VSphereVM) : Z :=
  let s := vs_GuestSoftPowerOffTimeoutSeconds (vm_Spec vm) in
  if negb (s =? 0) then s * Second else GuestSoftPowerOffDefaultTimeoutSeconds.

Definition timeout_exceeded (timeout diff : Z) : bool :=
  SFltb (float64 0) (Seconds timeout) && SFleb (Seconds timeout) (Seconds diff).

(** [client.ObjectKeyFromObject(vm)] as text. *)
Definition ObjectKey (vm : VSphereVM) : string := vm_Namespace vm +:+ "/" +:+ vm_Name vm.

Section power.
Context `{Libs}.
Open Scope go_scope.

Definition getPowerState (ref : MoRef) : MV string :=
  powerState <- call_res (VMPowerState ref) ;;
  if String.eqb powerState "poweredOn" then ret VirtualMachinePowerStatePoweredOn
  else if String.eqb powerState "poweredOff" then ret VirtualMachinePowerStatePoweredOff
  else if String.eqb powerState "suspended" then ret VirtualMachinePowerStateSuspended
  else
    c <- get ;;
    fail (ENew (sprintf "unexpected power state %q for vm %s" [AS powerState; AS (VMContext_String c)])).

Definition isSoftPowerOffTimeoutExceeded (vm : VSphereVM) : MV bool :=
  if negb (conditions_Has (GetConditions vm) VSphereVMGuestSoftPowerOffSucceededCondition) then ret false
  else if String.eqb (vs_PowerOffMode (vm_Spec vm)) VirtualMachinePowerOpModeSoft then ret false
  else
    now <- ask Now ;;
    let timeSoftPowerOff :=
      match conditions_Get (GetConditions vm) VSphereVMGuestSoftPowerOffSucceededCondition with
      | Some c => c_LastTransitionTime c
      | None => None
      end in
    ret (timeout_exceeded (soft_power_off_timeout vm) (time_sub now timeSoftPowerOff)).

Definition soft_failed (v1beta1_message message : string) : MV bool :=
  mark_false GuestSoftPowerOffSucceededV1Beta1Condition GuestSoftPowerOffFailedV1Beta1Reason
    SeverityWarning v1beta1_message ;;
  set_condition (cond VSphereVMGuestSoftPowerOffSucceededCondition ConditionFalse
                   VSphereVMGuestSoftPowerOffFailedReason message) ;;
  ret true.

Definition triggerSoftPowerOff (ref : MoRef) : MV bool :=
  vm <- getVM ;;
  let mode := vs_PowerOffMode (vm_Spec vm) in
  if String.eqb mode "" || String.eqb mode VirtualMachinePowerOpModeHard then ret false
  else if conditions_Has (GetConditions vm) VSphereVMGuestSoftPowerOffSucceededCondition then
    if String.eqb mode VirtualMachinePowerOpModeSoft then ret true
    else
      exceeded <- isSoftPowerOffTimeoutExceeded vm ;;
      ret (negb exceeded)
  else
    vmwareToolsRunning <- call_res (VMIsToolsRunning ref) ;;
    if negb vmwareToolsRunning then
      if String.eqb mode VirtualMachinePowerOpModeTrySoft then ret false
      else
        soft_failed (sprintf "VMware Tools not installed on VM %s" [AS (ObjectKey vm)])
                    (sprintf "VMware Tools not installed on VM %s" [AS (ObjectKey vm)])
    else
      guest <- call_res (VMGuestStateChangeSupported ref) ;;
      match guest with
      | None => panic
      | Some supported =>
          if negb (ptr_deref supported false) then
            if String.eqb mode VirtualMachinePowerOpModeTrySoft then ret false
            else
              soft_failed
                (sprintf "unable to trigger soft power off because guest state change is not supported on VM %s." [AS (ObjectKey vm)])
                (sprintf "Unable to trigger soft power off because guest state change is not supported on VM %s." [AS (ObjectKey vm)])
          else
            call_res (VMShutdownGuest ref) ;;
            mark_false GuestSoftPowerOffSucceededV1Beta1Condition GuestSoftPowerOffInProgressV1Beta1Reason
              SeverityInfo (sprintf "guest soft power off initiated on VM %s" [AS (ObjectKey vm)]) ;;
            set_condition (cond VSphereVMGuestSoftPowerOffSucceededCondition ConditionFalse
                             VSphereVMGuestSoftPowerOffInProgressReason
                             (sprintf "guest soft power off initiated on VM %s" [AS (ObjectKey vm)])) ;;
            ret true
      end.
End power.

(** * Checks of the comparison of durations *)

Example default_timeout_is_300ns : Seconds 300 = SFdiv 53 1024 (float64 300) (float64 1000000000).
Proof. vm_compute. reflexivity. Qed.
Example timeout_examples :
  timeout_exceeded (300 * Second) (300 * Second) = true /\
  timeout_exceeded (300 * Second) (300 * Second - 1) = false /\
  timeout_exceeded (-1) (5 * Second) = false.
Proof. vm_compute. auto. Qed.

(** * Lemmas *)

Section lemmas.
Context `{Libs}.

Definition soft_condition (c : VMContext) : bool :=
  conditions_Has (GetConditions (cx_VSphereVM c)) VSphereVMGuestSoftPowerOffSucceededCondition.
Definition PowerOffMode (c : VMContext) : string := vs_PowerOffMode (vm_Spec (cx_VSphereVM c)).

(** What every run of [triggerSoftPowerOff] keeps and may do. *)
Definition soft_post (ref : MoRef) (c : VMContext) (tr : trace) (r : res bool) (c' : VMContext) : Prop :=
  same_but_status c c' /\ TaskRef c' = TaskRef c /\ power_states tr = [] /\
  (effects tr = [] \/ effects tr = [ShutsDownGuest ref]) /\
  (r = Ok false -> PowerOffMode c <> VirtualMachinePowerOpModeSoft /\ c' = c /\ effects tr = []) /\
  (ShutsDownGuest ref ∈ effects tr -> soft_condition c = false /\
    (PowerOffMode c <> "" /\ PowerOffMode c <> VirtualMachinePowerOpModeHard)) /\
  (r = Ok true -> soft_condition c' = true).

Lemma reads_isSoftPowerOffTimeoutExceeded vm : reads (isSoftPowerOffTimeoutExceeded vm).
Proof. unfold isSoftPowerOffTimeoutExceeded. solve_reads. Qed.

(** A run without effect that changes nothing. *)
Lemma soft_quiet ref c tr r :
  effects tr = [] -> power_states tr = [] ->
  (r = Ok false -> PowerOffMode c <> VirtualMachinePowerOpModeSoft) ->
  (r = Ok true -> soft_condition c = true) -> soft_post ref c tr r c.
Proof.
  intros He Hp Hf Ht. split_and!; [done..|by left| | |done].
  - intros Hr. split_and!; auto.
  - rewrite He. by intros ?%elem_of_nil.
Qed.

Lemma timeout_quiet vm c :
  wpm (isSoftPowerOffTimeoutExceeded vm) c (fun tr r c' => c' = c /\ effects tr = [] /\ power_states tr = []).
Proof.
  unfold isSoftPowerOffTimeoutExceeded. destruct (negb _); vm_steps; [done|].
  destruct (String.eqb _ _); by vm_steps.
Qed.

Lemma soft_failed_spec ref m m' tr0 c :
  soft_condition c = false -> effects tr0 = [] -> power_states tr0 = [] ->
  wpm (soft_failed m m') c (fun tr => soft_post ref c (tr0 ++ tr)%list).
Proof.
  intros Hs He Hp. unfold soft_failed. vm_steps. split_and!; [by repeat split|done|by trace_simpl|by left; trace_simpl|done| |].
  - trace_simpl. by intros ?%elem_of_nil.
  - intros _. apply (conditions_Has_Set_same now0 _ (cond VSphereVMGuestSoftPowerOffSucceededCondition _ _ _)).
Qed.

Lemma triggerSoftPowerOff_spec ref c : wpm (triggerSoftPowerOff ref) c (soft_post ref c).
Proof.
  unfold triggerSoftPowerOff. do 2 vm_step. fold (PowerOffMode c). fold (soft_condition c).
  destruct (String.eqb_spec (PowerOffMode c) "") as [E|N1]; cbn [orb].
  { vm_steps. apply soft_quiet; try done. by rewrite E. }
  destruct (String.eqb_spec (PowerOffMode c) VirtualMachinePowerOpModeHard) as [E|N2].
  { vm_steps. apply soft_quiet; try done. by rewrite E. }
  destruct (soft_condition c) eqn:Hs.
  { destruct (String.eqb_spec (PowerOffMode c) VirtualMachinePowerOpModeSoft) as [E|N3].
    - vm_steps. by apply soft_quiet.
    - vm_step. eapply wpm_mono; [apply timeout_quiet|]. intros tr [b|e|w] c' (-> & He & Hp); vm_steps;
        apply soft_quiet; trace_simpl; done. }
  vm_steps; [|by apply soft_quiet..]. destruct a; cbn [negb].
  - vm_steps; [|by apply soft_quiet..]. destruct a as [supported|]; [|vm_steps; by apply soft_quiet].
    destruct (ptr_deref supported false); cbn [negb].
    + vm_steps.
      * split_and!; [by repeat split|done|done|by right|done|done|].
        intros _. apply (conditions_Has_Set_same _ _ (cond VSphereVMGuestSoftPowerOffSucceededCondition _ _ _)).
      * split_and!; [done..|by right|done|done|done].
      * split_and!; [done..|by right|done|done|done].
    + destruct (String.eqb_spec (PowerOffMode c) VirtualMachinePowerOpModeTrySoft) as [E|N3].
      * vm_steps. apply soft_quiet; try done. by rewrite E.
      * by eapply (soft_failed_spec ref _ _ [_; _]).
  - destruct (String.eqb_spec (PowerOffMode c) VirtualMachinePowerOpModeTrySoft) as [E|N3].
    + vm_steps. apply soft_quiet; try done. by rewrite E.
    + by eapply (soft_failed_spec ref _ _ [_]).
Qed.

(** ** Properties *)

(** the soft power-off decides whether the VM may be powered off hard. In
    mode soft it never may; in mode hard, or without a mode, it may at once and
    the guest is left alone. The guest is asked to shut down once only: when it
    was asked before the condition on the soft power-off is there, and it is
    there after every run that says to wait. A run that says not to wait changed
    nothing. *)
Theorem triggerSoftPowerOff_decides ref c tr r c' :
  runs (triggerSoftPowerOff ref c) tr (r, c') ->
  same_but_status c c' /\ TaskRef c' = TaskRef c /\
  (effects tr = [] \/ effects tr = [ShutsDownGuest ref]) /\
  (r = Ok false -> PowerOffMode c <> VirtualMachinePowerOpModeSoft /\ c' = c /\ effects tr = []) /\
  (PowerOffMode c = "" \/ PowerOffMode c = VirtualMachinePowerOpModeHard -> effects tr = []) /\
  (effects tr = [ShutsDownGuest ref] -> soft_condition c = false) /\
  (r = Ok true -> soft_condition c' = true).
Proof.
  intros Hr. destruct (proj1 (wpm_runs _ _ _) (triggerSoftPowerOff_spec ref c) _ _ _ Hr)
    as (Hs & Ht & _ & He & Hf & Hg & Hc).
  split_and!; [done..| | |done].
  - intros Hm. destruct He as [He|He]; [done|]. rewrite He in Hg.
    destruct (Hg ltac:(by left)) as (_ & ? & ?). by destruct Hm.
  - intros He'. rewrite He' in Hg. apply Hg. by left.
Qed.

(** the timeout of the soft power-off that applies when the specification
    gives none is 300 nanoseconds, where a timeout that is given counts in
    seconds: when the controller comes back after the 20 seconds it asks for,
    the default has expired, and the same number given explicitly has not. *)
Theorem soft_power_off_default_expires vm :
  vs_GuestSoftPowerOffTimeoutSeconds (vm_Spec vm) = 0 ->
  timeout_exceeded (soft_power_off_timeout vm) (20 * Second) = true /\
  (forall vm', vs_GuestSoftPowerOffTimeoutSeconds (vm_Spec vm') = GuestSoftPowerOffDefaultTimeoutSeconds ->
     timeout_exceeded (soft_power_off_timeout vm') (20 * Second) = false).
Proof.
  intros Hz. unfold soft_power_off_timeout. rewrite Hz. split; [by vm_compute|].
  intros vm' ->. by vm_compute.
Qed.
End lemmas.

(** * Concrete inputs *)

Section examples.
Import RefLibs.

Definition sample_soft_vm : VSphereVM := sample_vm VirtualMachineCloneSpec_zero VirtualMachinePowerOpModeSoft "".
Definition sample_soft := run (triggerSoftPowerOff vm_ref) (sample_context sample_soft_vm)
  (vm_world "poweredOn" [] []).

Lemma triggerSoftPowerOff_decides_witness :
  effects sample_soft.1 = [ShutsDownGuest vm_ref] /\ soft_condition sample_soft.2.2 = true.
Proof.
  destruct (triggerSoftPowerOff_decides vm_ref (sample_context sample_soft_vm) _ _ _
    (run_runs (triggerSoftPowerOff vm_ref) (sample_context sample_soft_vm)
       (vm_world "poweredOn" [] [])))
    as (_ & _ & _ & _ & _ & _ & Hc).
  split; [vm_compute; reflexivity|]. apply Hc. vm_compute. reflexivity.
Defined.

Lemma soft_power_off_default_expires_witness :
  timeout_exceeded (soft_power_off_timeout sample_soft_vm) (20 * Second) = true.
Proof. exact (proj1 (soft_power_off_default_expires sample_soft_vm eq_refl)). Defined.
End examples.

End Power.
