(* ===== verification/Clone.v ===== *)
(** [pkg/services/govmomi/vcenter/clone.go] with
    [pkg/services/govmomi/template/template.go] and
    [pkg/services/govmomi/create.go]: the clone of a VM from its template, its
    disks, data disks and network cards. *)
From S2P Require Import Prelude GoStrings Types Libs Errors Prog World RefLibs Extra.
From Stdlib Require Import SpecFloat.

Module Clone.

Definition fullCloneDiskMoveType : string := "moveAllDiskBackingsAndConsolidate".
Definition linkCloneDiskMoveType : string := "createNewChildDiskBacking".
Definition disallowSharingDiskMoveType : string := "moveAllDiskBackingsAndDisallowSharing".
Definition maxUnitNumber : nat := 30.

(** * Disks of the template *)

Definition disk_flat (d : VirtualDevice) : option FlatBacking :=
  match de_Kind d with VirtualDisk _ flat => flat | _ => None end.
(** The capacity of a disk, and an assignment to it. *)
Definition CapacityInKB (d : VirtualDevice) : option Z :=
  match de_Kind d with VirtualDisk c _ => Some c | _ => None end.
Definition set_CapacityInKB (c : Z) (d : VirtualDevice) : VirtualDevice :=
  mkVirtualDevice (de_Key d) (de_ControllerKey d) (de_UnitNumber d) (VirtualDisk c (disk_flat d)).

Definition getDiskLocators (disks : list VirtualDevice) (datastoreRef : MoRef) (isLinkedClone : bool)
    : list DiskLocator :=
  map (fun disk =>
    mkDiskLocator (de_Key disk)
      (if isLinkedClone then linkCloneDiskMoveType else disallowSharingDiskMoveType)
      datastoreRef (disk_flat disk)) disks.

Definition getDiskConfigSpec (disk : VirtualDevice) (diskCloneCapacityKB : Z) : res DeviceChange :=
  match CapacityInKB disk with
  | None => Stop Panics
  | Some capacity =>
      if diskCloneCapacityKB =? 0 then Ok (EditDevice disk None)
      else if (0 <? diskCloneCapacityKB) && (capacity <=? diskCloneCapacityKB) then
        Ok (EditDevice (set_CapacityInKB diskCloneCapacityKB disk) None)
      else if (0 <? diskCloneCapacityKB) && (diskCloneCapacityKB <? capacity) then
        Err (ENew (sprintf "can't resize template disk down, initial capacity is larger: %dKiB > %dKiB"
                     [AZ capacity; AZ diskCloneCapacityKB]))
      else Ok (EditDevice disk None)
  end.

(** The loop over the disks after the first. *)
Fixpoint additional_disks (i : nat) (additionalDisksGiB : list Z) (disks : list VirtualDevice)
    (diskSpecs : list DeviceChange) : res (list DeviceChange) :=
  match disks with
  | [] => Ok diskSpecs
  | disk :: disks' =>
      let capacity := match additionalDisksGiB !! i with
                      | Some gib => Some (gib * 1024 * 1024)
                      | None => CapacityInKB disk
                      end in
      res_bind (or_panic capacity) (fun c =>
      res_bind (res_wrap "Error getting disk config spec for additional disk" (getDiskConfigSpec disk c))
        (fun spec => additional_disks (S i) additionalDisksGiB disks' (diskSpecs ++ [spec])%list))
  end.

Section clone.
Context `{Libs} {Gm : Govmomi}.
Open Scope go_scope.

Definition getDiskSpec (vm : VSphereVM) (devices : list VirtualDevice) : res (list DeviceChange) :=
  match SelectDisks devices with
  | [] => Err (ENew (sprintf "Invalid disk count: %d" [AZ 0]))
  | primaryDisk :: rest =>
      res_bind (res_wrap "Error getting disk config spec for primary disk"
                  (getDiskConfigSpec primaryDisk (cs_DiskGiB (vm_clone vm) * 1024 * 1024)))
        (fun spec => additional_disks 0 (cs_AdditionalDisksGiB (vm_clone vm)) rest [spec])
  end.

(** * Data disks *)

Record unitNumberAssigner := mkUnitNumberAssigner { used : list bool; offset : Z }.

(** [used[i] = true]. *)
Definition mark_used (i : Z) (u : list bool) : res (list bool) :=
  if (0 <=? i) && (i <? zlen u) then Ok (<[Z.to_nat i := true]> u) else Stop Panics.

Fixpoint mark_devices (controllerKey : Z) (devices : list VirtualDevice) (u : list bool) : res (list bool) :=
  match devices with
  | [] => Ok u
  | d :: devices' =>
      match de_UnitNumber d with
      | Some n =>
          if de_ControllerKey d =? controllerKey
          then res_bind (mark_used n u) (mark_devices controllerKey devices')
          else mark_devices controllerKey devices' u
      | None => mark_devices controllerKey devices' u
      end
  end.

(** The controller is a device that is a controller. *)
Definition newUnitNumberAssigner (controller : VirtualDevice) (existingDevices : list VirtualDevice)
    : res unitNumberAssigner :=
  let u := replicate maxUnitNumber false in
  res_bind (match de_Kind controller with
            | Controller (Some n) => mark_used n u
            | _ => Ok u
            end) (fun u =>
  res_bind (mark_devices (de_Key controller) existingDevices u) (fun u =>
  Ok (mkUnitNumberAssigner u 0))).

(** The index of the first element that is false. *)
Fixpoint first_unused (l : list bool) : option nat :=
  match l with
  | [] => None
  | b :: l' => if b then S <$> first_unused l' else Some O
  end.

Definition assign (a : unitNumberAssigner) : (Z * unitNumberAssigner) + error :=
  if zlen (used a) <? offset a then inr (ENew "all unit numbers are already in-use")
  else
    match first_unused (drop (Z.to_nat (offset a)) (used a)) with
    | Some i =>
        let unit := Z.of_nat i + offset a in
        inl (unit, mkUnitNumberAssigner (<[Z.to_nat unit := true]> (used a)) (offset a + 1))
    | None => inr (ENew "all unit numbers are already in-use")
    end.

Definition data_disk_backing (provisioningMode : string) : FlatBacking :=
  if String.eqb provisioningMode ThinProvisioningMode then mkFlatBacking "persistent" "" (Some true) None
  else if String.eqb provisioningMode ThickProvisioningMode then
    mkFlatBacking "persistent" "" (Some false) None
  else if String.eqb provisioningMode EagerlyZeroedProvisioningMode then
    mkFlatBacking "persistent" "" (Some false) (Some true)
  else mkFlatBacking "persistent" "" None None.

(** The loop over the definitions; the key of the [i]th disk is [NewKey() - i],
    an [int32]. *)
Definition int32_wrap (z : Z) : Z := (z + 2 ^ 31) mod 2 ^ 32 - 2 ^ 31.

Fixpoint data_disks (i : Z) (controllerKey newKey : Z) (defs : list VSphereDisk) (a : unitNumberAssigner)
    (disks : list DeviceChange) : res (list DeviceChange) :=
  match defs with
  | [] => Ok disks
  | dataDisk :: defs' =>
      match assign a with
      | inr e => Err e
      | inl (unitNumber, a') =>
          let dev := mkVirtualDevice (int32_wrap (newKey - i)) controllerKey (Some unitNumber)
                       (VirtualDisk (vd_SizeGiB dataDisk * 1024 * 1024)
                          (Some (data_disk_backing (vd_ProvisioningMode dataDisk)))) in
          data_disks (i + 1) controllerKey newKey defs' a' (disks ++ [AddDeviceCreate dev])%list
      end
  end.

Definition is_controller (d : VirtualDevice) : bool :=
  match de_Kind d with Controller _ => true | _ => false end.

Definition createDataDisks (dataDiskDefs : list VSphereDisk) (devices : list VirtualDevice)
    : res (list DeviceChange) :=
  match SelectDisks devices with
  | [] => Err (ENew (sprintf "Invalid disk count: %d" [AZ 0]))
  | primaryDisk :: _ =>
      match FindByKey devices (de_ControllerKey primaryDisk) with
      | Some controller =>
          if is_controller controller then
            res_bind (newUnitNumberAssigner controller devices) (fun a =>
            data_disks 0 (de_Key controller) (NewKey devices) dataDiskDefs a [])
          else Err (ENew (sprintf "unable to find controller with key=%v" [AZ (de_ControllerKey primaryDisk)]))
      | None => Err (ENew (sprintf "unable to find controller with key=%v" [AZ (de_ControllerKey primaryDisk)]))
      end
  end.

(** * Quantities *)

Definition float64 (z : Z) : spec_float := binary_normalize 53 1024 z 0 false.

(** [int64(math.Ceil(f))] for a finite [f]. *)
Definition ceil_to_Z (f : spec_float) : Z :=
  match f with
  | S754_finite s m e =>
      let v := if s then Zneg m else Zpos m in
      if 0 <=? e then v * 2 ^ e else - ((- v) / 2 ^ (- e))
  | _ => 0
  end.

Definition convertQuantityToMhz (v : Z) : Z :=
  ceil_to_Z (SFdiv 53 1024 (float64 v) (float64 1000000)).
Definition convertQuantityToMiB (v : Z) : Z :=
  ceil_to_Z (SFdiv 53 1024 (SFdiv 53 1024 (float64 v) (float64 1024)) (float64 1024)).

(** Reservation, limit and shares of a resource, when any is given. *)
Definition allocation (convert : Z -> Z) (request limit shares : Z) : option ResourceAllocationInfo :=
  if negb (request =? 0) || negb (limit =? 0) || (0 <? shares) then
    Some (mkResourceAllocationInfo
            (if negb (request =? 0) then Some (convert request) else None)
            (if negb (limit =? 0) then Some (convert limit) else None)
            (if 0 <? shares then Some shares else None))
  else None.

(** * Network cards *)

Definition ethCardType : string := "vmxnet3".

Definition set_mac (mac : string) (key : Z) (d : VirtualDevice) : VirtualDevice :=
  let kind :=
    match de_Kind d with
    | EthernetCard m ty b => if negb (String.eqb mac "") then EthernetCard mac "manual" b else EthernetCard m ty b
    | k => k
    end in
  mkVirtualDevice key (de_ControllerKey d) (de_UnitNumber d) kind.

Definition network_turn (acc : list DeviceChange * Z) (netSpec : NetworkDeviceSpec)
    : MV (list DeviceChange * Z) :=
  let '(deviceSpecs, key) := acc in
  c <- get ;;
  ref <- wrap (sprintf "unable to find network %q" [AS (nd_NetworkName netSpec)])
           (call_res (FinderNetwork (nd_NetworkName netSpec))) ;;
  backing <- wrap (sprintf "unable to create new ethernet card backing info for network %q on %q"
                     [AS (nd_NetworkName netSpec); AS (VMContext_String c)])
               (call_res (EthernetCardBackingInfo ref)) ;;
  dev <- wrap (sprintf "unable to create new ethernet card %q for network %q on %q"
                 [AS ethCardType; AS (nd_NetworkName netSpec); AS (VMContext_String c)])
           (call_res (CreateEthernetCard ethCardType backing)) ;;
  ret ((deviceSpecs ++ [AddDeviceChange (set_mac (nd_MACAddr netSpec) key dev)])%list, int32_wrap (key - 1)).

Definition getNetworkSpecs (devices : list VirtualDevice) : MV (list DeviceChange) :=
  vm <- getVM ;;
  r <- fold_m network_turn (vm_devices vm) (map RemoveDevice (SelectEthernetCards devices), -100) ;;
  ret r.1.

(** * [template.go] *)

Definition findTemplateByInstanceUUID (templateID : string) : MV (option MoRef) :=
  if negb (uuid_valid templateID) then ret None
  else wrap "error querying template by instance UUID" (FindByInstanceUUID templateID).

Definition findTemplateByName (templateID : string) : MV MoRef :=
  wrap (sprintf "unable to find template by name %q" [AS templateID])
    (call_lib (FinderVirtualMachine templateID)).

Definition FindTemplate (templateID : string) : MV MoRef :=
  tpl <- findTemplateByInstanceUUID templateID ;;
  match tpl with
  | Some tpl => ret tpl
  | None => findTemplateByName templateID
  end.

(** * [Clone] *)

Definition pairs (e : Extra.Config) : list (string * string) :=
  map (fun o => (Extra.Key o, Extra.Value o)) e.

(** The extra configuration: the bootstrap data by its format, then the custom
    keys in the order their map is ranged over. *)
Definition clone_extra_config (bootstrapData format : string) : MV Extra.Config :=
  vm <- getVM ;;
  e <- (if 0 <? slen bootstrapData then
          if String.eqb format CloudConfig then
            of_res (or_diverge (Extra.SetCloudInitUserData (S (String.length bootstrapData)) [] bootstrapData))
          else if String.eqb format Ignition then
            of_res (or_diverge (Extra.SetIgnitionUserData (S (String.length bootstrapData)) [] bootstrapData))
          else ret []
        else ret []) ;;
  match cs_CustomVMXKeys (vm_clone vm) with
  | Some keys => l <- ask (RangeMap keys) ;; ret (Extra.SetCustomVMXKeys e l)
  | None => ret e
  end.

(** The snapshot to link the clone to: the current one, or the one of the given
    name, when there is one and a linked clone is asked for or by default. *)
Definition find_snapshot (tpl : MoRef) : MV (option MoRef) :=
  vm <- getVM ;;
  let mode := cs_CloneMode (vm_clone vm) in
  if String.eqb mode "" || String.eqb mode LinkedClone then
    let snapshotName := cs_Snapshot (vm_clone vm) in
    if String.eqb snapshotName "" then
      snap <- wrap (sprintf "error getting snapshot information for template %s" [AS (cs_Template (vm_clone vm))])
                (call_res (TemplateSnapshot tpl)) ;;
      ret (match snap with Some current => current | None => None end)
    else
      r <- ask (TemplateFindSnapshot tpl snapshotName) ;;
      ret r.1
  else ret None.

Definition set_clone_mode (snapshotRef : option MoRef) : MV unit :=
  on_vm (on_status (set_vt_CloneMode FullClone)) ;;
  match snapshotRef with
  | Some r =>
      on_vm (on_status (set_vt_CloneMode LinkedClone)) ;;
      on_vm (on_status (set_vt_Snapshot (mo_Value r)))
  | None => ret tt
  end.

(** The device changes: disks, data disks, network cards. *)
Definition clone_devices (devices : list VirtualDevice) (snapshotRef : option MoRef) : MV (list DeviceChange) :=
  c <- get ;;
  let vm := cx_VSphereVM c in
  diskSpecs <- match snapshotRef with
               | None => wrap (sprintf "error getting disk spec for %q" [AS (VMContext_String c)])
                           (of_res (getDiskSpec vm devices))
               | Some _ => ret []
               end ;;
  dataDisks <- (if 0 <? zlen (cs_DataDisks (vm_clone vm)) then
                  wrap "error getting data disks"
                    (of_res (createDataDisks (cs_DataDisks (vm_clone vm)) devices))
                else ret []) ;;
  networkSpecs <- wrap (sprintf "error getting network specs for %q" [AS (VMContext_String c)])
                    (getNetworkSpecs devices) ;;
  ret (diskSpecs ++ dataDisks ++ networkSpecs)%list.

(** The placement hubs for a storage policy when no datastore is given: the
    datastores of the owner of the pool that are not in maintenance. *)
Definition policy_hubs (pool : MoRef) : MV (list MoRef) :=
  cluster <- wrap (sprintf "failed to get owning cluster of resourcepool %q to calculate datastore based on storage policy"
                     [AS (MoRef_String pool)]) (call_res (PoolOwner pool)) ;;
  refs <- wrap "unable to list datastores from owning cluster of requested resourcepool"
            (call_res (ComputeResourceDatastores cluster)) ;;
  datastores <- wrap "unable to collect datastore properties to validate maintenance mode"
                  (call_res (RetrieveDatastores refs)) ;;
  ret (map ds_Ref (List.filter (fun ds => String.eqb (ds_MaintenanceMode ds) "normal") datastores)).

(** The datastore of the clone: the given one, checked against the storage
    policy; a random one of those compatible with the policy; the default. *)
Definition clone_datastore (pool : MoRef) : MV MoRef :=
  c <- get ;;
  let spec := vm_clone (cx_VSphereVM c) in
  datastoreRef <- (if negb (String.eqb (cs_Datastore spec) "") then
                     r <- wrap (sprintf "unable to get datastore %s for %q"
                                  [AS (cs_Datastore spec); AS (VMContext_String c)])
                            (call_res (FinderDatastore (cs_Datastore spec))) ;;
                     ret (Some r)
                   else ret None) ;;
  datastoreRef <-
    (if negb (String.eqb (cs_StoragePolicyName spec) "") then
       wrap (sprintf "unable to create pbm client for %q" [AS (VMContext_String c)]) (call_res PbmNewClient) ;;
       storageProfileID <- wrap (sprintf "unable to get storageProfileID from name %s for %q"
                                   [AS (cs_StoragePolicyName spec); AS (VMContext_String c)])
                             (call_res (PbmProfileIDByName (cs_StoragePolicyName spec))) ;;
       hubs <- match datastoreRef with Some r => ret [r] | None => policy_hubs pool end ;;
       compatible <- wrap "unable to check requirements for storage policy"
                       (call_res (PbmCheckRequirements hubs storageProfileID)) ;;
       if zlen compatible =? 0 then
         fail (ENew (sprintf "no compatible datastores found for storage policy: %s" [AS (cs_StoragePolicyName spec)]))
       else
         match datastoreRef with
         | Some r => ret (Some r)
         | None =>
             now <- ask Now ;;
             n <- ask (RandIntn (zlen compatible)) ;;
             r <- of_res (or_panic (if n <? 0 then None else compatible !! Z.to_nat n)) ;;
             ret (Some r)
         end
     else ret datastoreRef) ;;
  match datastoreRef with
  | Some r => ret r
  | None => wrap (sprintf "unable to get default datastore for %q" [AS (VMContext_String c)])
              (call_res FinderDefaultDatastore)
  end.

Definition one_of (s : string) (l : list string) : string := if existsb (String.eqb s) l then s else "".

(** The profile of the crypto policy and the key of the crypto provider. *)
Definition clone_crypto : MV (list string * option string) :=
  c <- get ;;
  let spec := vm_clone (cx_VSphereVM c) in
  vmProfile <- (if negb (String.eqb (cs_CryptoProfile spec) "") then
                  wrap (sprintf "unable to create pbm client for %q" [AS (VMContext_String c)]) (call_res PbmNewClient) ;;
                  id <- wrap (sprintf "unable to get storageProfileID from name %s for %q"
                                [AS (cs_CryptoProfile spec); AS (VMContext_String c)])
                          (call_res (PbmProfileIDByName (cs_CryptoProfile spec))) ;;
                  ret [id]
                else ret []) ;;
  crypto <- (if negb (String.eqb (cs_CryptoKeyID spec) "") then
               wrap (sprintf "unable to create kmip client for %q" [AS (VMContext_String c)]) (call_res CryptoManagerKmip) ;;
               keyID <- wrap (sprintf "unable to generate a key for %q" [AS (VMContext_String c)])
                          (call_res (KmipGenerateKey (cs_CryptoKeyID spec))) ;;
               ret (Some keyID)
             else ret None) ;;
  ret (vmProfile, crypto).

Definition clone_spec (vm : VSphereVM) (snapshotRef : option MoRef) (folder : Folder) (pool : MoRef)
    (devices : list VirtualDevice) (extraConfig : Extra.Config) (deviceSpecs : list DeviceChange)
    (datastoreRef : MoRef) (vmProfile : list string) (crypto : option string) : CloneSpec :=
  let spec := vm_clone vm in
  let res := cs_Resources spec in
  mkCloneSpec (vm_UID vm) true deviceSpecs (pairs extraConfig)
    (if cs_NumCPUs spec <? 2 then 2 else cs_NumCPUs spec) (cs_NumCoresPerSocket spec)
    (if cs_MemoryMiB spec =? 0 then 2048 else cs_MemoryMiB spec) true
    (allocation convertQuantityToMhz (rs_CPU (res_Requests res)) (rs_CPU (res_Limits res)) (sh_CPU (res_Shares res)))
    (allocation convertQuantityToMiB (rs_Memory (res_Requests res)) (rs_Memory (res_Limits res)) (sh_Memory (res_Shares res)))
    (if 0 <? zlen (cs_PciDevices spec) then Some true else None)
    (cs_NestedHV spec)
    (one_of (cs_FtEncryptionMode spec) [FtEncryptionDisabled; FtEncryptionOpportunistic; FtEncryptionRequired])
    (one_of (cs_MigrateEncryption spec)
       [DisabledMigrateEncryption; OpportunisticMigrateEncryption; RequiredMigrateEncryption])
    vmProfile crypto
    (match snapshotRef with Some _ => linkCloneDiskMoveType | None => fullCloneDiskMoveType end)
    (fo_Ref folder) pool datastoreRef
    (getDiskLocators (SelectDisks devices) datastoreRef (match snapshotRef with Some _ => true | None => false end))
    false snapshotRef.

Definition Clone (bootstrapData format : string) : MV unit :=
  extraConfig <- clone_extra_config bootstrapData format ;;
  vm <- getVM ;;
  tpl <- FindTemplate (cs_Template (vm_clone vm)) ;;
  snapshotRef <- find_snapshot tpl ;;
  set_clone_mode snapshotRef ;;
  c <- get ;;
  folder <- wrap (sprintf "unable to get folder for %q" [AS (VMContext_String c)])
              (call_lib (FinderFolderOrDefault (cs_Folder (vm_clone vm)))) ;;
  pool <- wrap (sprintf "unable to get resource pool for %q" [AS (VMContext_String c)])
            (call_res (FinderResourcePoolOrDefault (cs_ResourcePool (vm_clone vm)))) ;;
  devices <- wrap (sprintf "error getting devices for %q" [AS (VMContext_String c)]) (call_res (VMDevice tpl)) ;;
  deviceSpecs <- clone_devices devices snapshotRef ;;
  datastoreRef <- clone_datastore pool ;;
  crypto <- clone_crypto ;;
  task <- wrap (sprintf "error trigging clone op for machine %s" [AS (VMContext_String c)])
            (call_res (TemplateClone tpl (fo_Ref folder) (vm_Name vm)
               (clone_spec vm snapshotRef folder pool devices extraConfig deviceSpecs datastoreRef crypto.1 crypto.2))) ;;
  set_TaskRef task ;;
  try Patch ;;
  ret tt.

(** * [create.go] *)

Definition createVM (bootstrapData format : string) : MV unit :=
  c <- get ;;
  if negb (cx_IsVC c) then fail (ENew (sprintf "expected VCenter client got %v" [AS (cx_ApiType c)]))
  else Clone bootstrapData format.
End clone.

(** * Lemmas on unit numbers *)

(** The free unit numbers, in order. *)
Fixpoint free_from (i : Z) (l : list bool) : list Z :=
  match l with
  | [] => []
  | b :: l' => if b then free_from (i + 1) l' else i :: free_from (i + 1) l'
  end.

Lemma first_unused_free i l :
  match first_unused l with
  | None => free_from i l = []
  | Some k => (k < length l)%nat /\ (forall j, (j < k)%nat -> l !! j = Some true) /\
      free_from i l = (i + Z.of_nat k) :: free_from i (<[k := true]> l)
  end.
Proof.
  revert i. induction l as [|b l IH]; intros i; simpl; [done|]. destruct b.
  - specialize (IH (i + 1)). destruct (first_unused l) as [k|]; simpl; [|done].
    destruct IH as (Hk & Hj & ->). split_and!; [lia| |f_equal; lia].
    intros [|j] Hjk; [done|]. apply Hj. lia.
  - split_and!; [lia|lia|f_equal; lia].
Qed.

Lemma free_from_spec i l u :
  u ∈ free_from i l <-> exists k, u = i + Z.of_nat k /\ l !! k = Some false.
Proof.
  revert i. induction l as [|b l IH]; intros i; simpl.
  - split; [by intros ?%elem_of_nil|]. by intros (k & _ & H).
  - destruct b; rewrite ?elem_of_cons, IH; split.
    + intros (k & -> & Hk). exists (S k). split; [lia|done].
    + intros ([|k] & -> & Hk); [done|]. exists k. split; [lia|done].
    + intros [->|(k & -> & Hk)]; [exists O; split; [lia|done]|exists (S k); split; [lia|done]].
    + intros ([|k] & -> & Hk); [left; lia|right; exists k; split; [lia|done]].
Qed.

Lemma free_from_NoDup i l : NoDup (free_from i l).
Proof.
  revert i. induction l as [|b l IH]; intros i; simpl; [constructor|]. destruct b; [done|].
  constructor; [|done]. rewrite free_from_spec. intros (k & Hk & _). lia.
Qed.

(** Below the offset everything is used. *)
Definition assigner_ok (a : unitNumberAssigner) : Prop :=
  0 <= offset a /\ forall k, Z.of_nat k < offset a -> (k < length (used a))%nat ->
    used a !! k = Some true.

Lemma free_from_drop i l n :
  (forall k, (k < n)%nat -> (k < length l)%nat -> l !! k = Some true) ->
  free_from i l = free_from (i + Z.of_nat n) (drop n l).
Proof.
  revert i l. induction n as [|n IH]; intros i l Hk; [by rewrite Z.add_0_r|].
  destruct l as [|b l]; [done|].
  assert (Hb : Some b = Some true) by (apply (Hk O); simpl; lia). injection Hb as ->.
  simpl. rewrite (IH (i + 1)); [f_equal; lia|]. intros k Hk1 Hk2. apply (Hk (S k)); simpl; lia.
Qed.

(** An assignment takes the first free number. *)
Lemma assign_spec a :
  assigner_ok a ->
  match free_from 0 (used a) with
  | [] => exists e, assign a = inr e
  | u :: rest => exists a', assign a = inl (u, a') /\ assigner_ok a' /\ free_from 0 (used a') = rest
  end.
Proof.
  intros [Ho Hu]. unfold assign.
  remember (Z.to_nat (offset a)) as n eqn:En.
  assert (Hoff : offset a = Z.of_nat n) by lia. rewrite Hoff in *. clear En Ho.
  assert (Hdrop : free_from 0 (used a) = free_from (Z.of_nat n) (drop n (used a))).
  { rewrite (free_from_drop 0 _ n); [done|]. intros k Hk Hk'. apply Hu; lia. }
  rewrite Hdrop. pose proof (first_unused_free (Z.of_nat n) (drop n (used a))) as Hf.
  destruct (zlen (used a) <? Z.of_nat n) eqn:El.
  { apply Z.ltb_lt in El. unfold zlen in El. rewrite drop_ge by lia. simpl. eauto. }
  destruct (first_unused (drop n (used a))) as [k|]; [|rewrite Hf; eauto].
  destruct Hf as (Hk & Hj & ->). rewrite length_drop in Hk.
  replace (Z.to_nat (Z.of_nat k + Z.of_nat n)) with (n + k)%nat by lia.
  replace (Z.of_nat n + Z.of_nat k) with (Z.of_nat k + Z.of_nat n) by lia.
  eexists. split; [reflexivity|]. split.
  - split; simpl; [lia|]. intros j Hjn Hjl. rewrite length_insert in Hjl.
    destruct (decide (j = (n + k)%nat)) as [->|Hne]; [by apply list_lookup_insert_eq|].
    rewrite list_lookup_insert_ne by lia.
    destruct (decide (j < n)%nat); [apply Hu; lia|]. assert (j = n) as -> by lia.
    specialize (Hj O ltac:(lia)). by rewrite lookup_drop, Nat.add_0_r in Hj.
  - simpl. rewrite (free_from_drop 0 _ n).
    + rewrite drop_insert_ge by lia. by replace (n + k - n)%nat with k by lia.
    + intros j Hjn Hjl. rewrite length_insert in Hjl. rewrite list_lookup_insert_ne by lia. apply Hu; lia.
Qed.

(** The unit number of a device change, and the disk it adds for a definition. *)
Definition added_unit (d : DeviceChange) : option Z :=
  match d with AddDeviceCreate d => de_UnitNumber d | _ => None end.
Definition adds_disk (controllerKey : Z) (def : VSphereDisk) (d : DeviceChange) : Prop :=
  exists key unit, d = AddDeviceCreate (mkVirtualDevice key controllerKey unit
    (VirtualDisk (vd_SizeGiB def * 1024 * 1024) (Some (data_disk_backing (vd_ProvisioningMode def))))).

Lemma data_disks_spec i ck nk defs a acc :
  assigner_ok a ->
  if decide (length defs <= length (free_from 0 (used a)))%nat then
    exists specs, data_disks i ck nk defs a acc = Ok (acc ++ specs)%list /\
      map added_unit specs = map Some (take (length defs) (free_from 0 (used a))) /\
      Forall2 (adds_disk ck) defs specs
  else exists e, data_disks i ck nk defs a acc = Err e.
Proof.
  revert i a acc. induction defs as [|d defs IH]; intros i a acc Ha.
  { rewrite decide_True by (simpl; lia). exists []. by rewrite app_nil_r. }
  pose proof (assign_spec a Ha) as Hs. cbn [data_disks].
  destruct (free_from 0 (used a)) as [|u rest].
  { rewrite decide_False by (simpl; lia). destruct Hs as [e ->]. eauto. }
  destruct Hs as (a' & -> & Ha' & Hrest). cbv zeta.
  set (dev := AddDeviceCreate _).
  specialize (IH (i + 1) a' (acc ++ [dev])%list Ha'). rewrite Hrest in IH.
  destruct (decide (length defs <= length rest)%nat).
  - rewrite decide_True by (simpl; lia). destruct IH as (specs & -> & Hu & Hc).
    exists (dev :: specs). split_and!.
    + by rewrite <-app_assoc.
    + simpl. by rewrite Hu.
    + constructor; [|done]. by do 2 eexists.
  - by rewrite decide_False by (simpl; lia).
Qed.

(** Whether a unit number of a controller is taken by a device, or by the
    controller itself. *)
Definition takes_unit (controllerKey n : Z) (d : VirtualDevice) : bool :=
  match de_UnitNumber d with Some m => (m =? n) && (de_ControllerKey d =? controllerKey) | None => false end.
Definition own_unit (controller : VirtualDevice) (n : Z) : bool :=
  match de_Kind controller with Controller (Some m) => m =? n | _ => false end.
Definition unit_taken (controller : VirtualDevice) (devices : list VirtualDevice) (n : Z) : bool :=
  own_unit controller n || existsb (takes_unit (de_Key controller) n) devices.

(** The free unit numbers of a controller, in increasing order. *)
Definition free_units (controller : VirtualDevice) (devices : list VirtualDevice) : list Z :=
  List.filter (fun n => negb (unit_taken controller devices n)) (seqZ 0 30).

Lemma mark_used_spec n u :
  match mark_used n u with
  | Ok u' => length u' = length u /\
      forall k b, u !! k = Some b -> u' !! k = Some (b || (n =? Z.of_nat k))
  | Err _ => False
  | Stop _ => ~ 0 <= n < zlen u
  end.
Proof.
  unfold mark_used, zlen. destruct ((0 <=? n) && (n <? Z.of_nat (length u))) eqn:E; [|lia].
  split; [by rewrite length_insert|]. intros k b Hk. destruct (n =? Z.of_nat k) eqn:En.
  - apply Z.eqb_eq in En as ->. rewrite Nat2Z.id, orb_true_r.
    apply list_lookup_insert_eq. by eapply lookup_lt_Some.
  - rewrite list_lookup_insert_ne by lia. by rewrite orb_false_r.
Qed.

Lemma mark_devices_spec ck devices u :
  match mark_devices ck devices u with
  | Ok u' => length u' = length u /\
      forall k b, u !! k = Some b -> u' !! k = Some (b || existsb (takes_unit ck (Z.of_nat k)) devices)
  | Err _ => False
  | Stop _ => exists n, existsb (takes_unit ck n) devices = true /\ ~ 0 <= n < zlen u
  end.
Proof.
  revert u. induction devices as [|d devices IH]; intros u; cbn [mark_devices existsb].
  { split; [done|]. intros k b. by rewrite orb_false_r. }
  unfold takes_unit at 1 3. destruct (de_UnitNumber d) as [n|]; [|apply IH].
  destruct (de_ControllerKey d =? ck).
  - pose proof (mark_used_spec n u) as Hm. destruct (mark_used n u) as [u1|e|w]; simpl; [|done|].
    + destruct Hm as [Hl Hk]. specialize (IH u1).
      destruct (mark_devices ck devices u1); [|done|].
      * destruct IH as [Hl' Hk']. split; [congruence|]. intros k b Hb.
        rewrite (Hk' k _ (Hk k b Hb)). f_equal. rewrite andb_true_r. by rewrite orb_assoc.
      * destruct IH as (m & Hm & Hr). exists m. unfold zlen in *. rewrite Hl in Hr.
        rewrite Hm. by rewrite orb_true_r.
    + exists n. rewrite Z.eqb_refl. done.
  - specialize (IH u). destruct (mark_devices ck devices u); [|done|].
    + destruct IH as [Hl Hk]. split; [done|]. intros k b Hb. by rewrite andb_false_r, (Hk k b Hb).
    + destruct IH as (m & Hm & Hr). exists m. by rewrite Hm, orb_true_r.
Qed.

Lemma free_from_filter (f : Z -> bool) i l :
  (forall k b, l !! k = Some b -> b = f (i + Z.of_nat k)) ->
  free_from i l = List.filter (fun n => negb (f n)) (seqZ i (zlen l)).
Proof.
  unfold zlen. revert i. induction l as [|b l IH]; intros i Hf; [done|].
  rewrite seqZ_cons by (simpl; lia). replace (Z.pred (Z.of_nat (length (b :: l)))) with (Z.of_nat (length l)) by (simpl; lia).
  simpl. rewrite (IH (i + 1)).
  - rewrite (Hf O b eq_refl), Z.add_0_r. unfold Z.succ. by destruct (f i).
  - intros k b' Hk. rewrite (Hf (S k) b' Hk). f_equal. lia.
Qed.

Lemma newUnitNumberAssigner_spec controller devices :
  match newUnitNumberAssigner controller devices with
  | Ok a => assigner_ok a /\ free_from 0 (used a) = free_units controller devices
  | Err _ => False
  | Stop _ => exists n, unit_taken controller devices n = true /\ ~ 0 <= n < 30
  end.
Proof.
  unfold newUnitNumberAssigner.
  assert (Hown : match (match de_Kind controller with
      | Controller (Some n) => mark_used n (replicate maxUnitNumber false)
      | _ => Ok (replicate maxUnitNumber false)
      end) with
    | Ok u => length u = maxUnitNumber /\
        forall k b, u !! k = Some b -> b = own_unit controller (Z.of_nat k)
    | Err _ => False
    | Stop _ => exists n, own_unit controller n = true /\ ~ 0 <= n < 30
    end).
  { unfold own_unit. destruct (de_Kind controller) as [| |[n|]| |];
      try (split; [by rewrite length_replicate|]; by intros k b [-> _]%lookup_replicate).
    pose proof (mark_used_spec n (replicate maxUnitNumber false)) as Hm.
    destruct (mark_used n _) as [u|e|w]; [|done|].
    - destruct Hm as [Hl Hk]. rewrite length_replicate in Hl. split; [done|]. intros k b Hb.
      rewrite (Hk k false) in Hb; [by injection Hb|]. apply lookup_replicate. split; [done|].
      rewrite <-Hl. by eapply lookup_lt_Some.
    - exists n. rewrite Z.eqb_refl. unfold zlen in Hm. by rewrite length_replicate in Hm. }
  destruct (match de_Kind controller with Controller (Some n) => _ | _ => _ end) as [u|e|w]; simpl; [|done|].
  - destruct Hown as [Hl Hown]. pose proof (mark_devices_spec (de_Key controller) devices u) as Hm.
    destruct (mark_devices _ devices u) as [u'|e|w]; simpl; [|done|].
    + destruct Hm as [Hl' Hk]. split; [split; simpl; lia|]. unfold free_units.
      rewrite (free_from_filter (unit_taken controller devices) 0).
      * unfold zlen. by rewrite Hl', Hl.
      * intros k b Hb. destruct (u !! k) as [b'|] eqn:Hb'.
        -- rewrite (Hk k b' Hb') in Hb. injection Hb as <-. by rewrite (Hown k b' Hb').
        -- apply lookup_ge_None in Hb'. apply lookup_lt_Some in Hb. lia.
    + destruct Hm as (n & Hn & Hr). exists n. unfold unit_taken. rewrite Hn, orb_true_r. split; [done|].
      unfold zlen in Hr. by rewrite Hl in Hr.
  - destruct Hown as (n & Hn & Hr). exists n. unfold unit_taken. by rewrite Hn.
Qed.

(** * Lemmas on disks *)

(** The change a disk gets for a requested capacity: it grows to what is
    requested, when something is. *)
Definition resized (request : option Z) (disk : VirtualDevice) (spec : DeviceChange) : Prop :=
  exists c r, CapacityInKB disk = Some c /\ request = Some r /\ (0 < r -> c <= r) /\
    spec = EditDevice (if 0 <? r then set_CapacityInKB r disk else disk) None.
(** A request that would shrink a disk. *)
Definition shrinks (request : option Z) (disk : VirtualDevice) : Prop :=
  exists c r, CapacityInKB disk = Some c /\ request = Some r /\ 0 < r < c.

Lemma getDiskConfigSpec_spec disk r :
  match getDiskConfigSpec disk r with
  | Ok spec => resized (Some r) disk spec
  | Err _ => shrinks (Some r) disk
  | Stop _ => CapacityInKB disk = None
  end.
Proof.
  unfold getDiskConfigSpec, resized, shrinks. destruct (CapacityInKB disk) as [c|]; [|done].
  destruct (r =? 0) eqn:E0; [exists c, r|].
  { rewrite (proj2 (Z.ltb_ge 0 r)) by lia. split_and!; (done || lia). }
  destruct (0 <? r) eqn:Er; simpl.
  - destruct (c <=? r) eqn:Ec; simpl.
    + exists c, r. rewrite Er. split_and!; (done || lia).
    + rewrite (proj2 (Z.ltb_lt r c)) by lia. exists c, r. split_and!; (done || lia).
  - exists c, r. rewrite Er. split_and!; (done || lia).
Qed.

(** The capacity that is requested for the [i]th disk after the first. *)
Definition additional_request (additionalDisksGiB : list Z) (i : nat) (disk : VirtualDevice) : option Z :=
  match additionalDisksGiB !! i with Some gib => Some (gib * 1024 * 1024) | None => CapacityInKB disk end.

Lemma additional_disks_spec i l disks acc :
  match additional_disks i l disks acc with
  | Ok specs => exists specs', specs = (acc ++ specs')%list /\
      Forall2 (fun kd => resized (additional_request l kd.1 kd.2) kd.2)
        (zip (seq i (length disks)) disks) specs'
  | Err _ => exists kd, kd ∈ zip (seq i (length disks)) disks /\
      shrinks (additional_request l kd.1 kd.2) kd.2
  | Stop _ => exists disk, disk ∈ disks /\ CapacityInKB disk = None
  end.
Proof.
  revert i acc. induction disks as [|d disks IH]; intros i acc; cbn [additional_disks].
  { exists []. split; [by rewrite app_nil_r|constructor]. }
  fold (additional_request l i d). destruct (additional_request l i d) as [c|] eqn:Er; cbn [or_panic res_bind].
  - pose proof (getDiskConfigSpec_spec d c) as Hd. destruct (getDiskConfigSpec d c) as [spec|e|w]; cbn [res_wrap res_bind].
    + specialize (IH (S i) (acc ++ [spec])%list).
      destruct (additional_disks (S i) l disks _) as [specs|e|w].
      * destruct IH as (specs' & -> & Hf). exists (spec :: specs'). split; [by rewrite <-app_assoc|].
        simpl. constructor; [|done]. simpl. by rewrite Er.
      * destruct IH as (kd & Hin & Hs). exists kd. split; [by right|done].
      * destruct IH as (d' & Hin & Hs). exists d'. split; [by right|done].
    + exists (i, d). split; [by left|]. simpl. by rewrite Er.
    + exists d. split; [by left|done].
  - exists d. split; [by left|]. unfold additional_request in Er. by destruct (l !! i).
Qed.

(** * Lemmas on the programs *)

Section programs.
Context `{Libs} {Gm : Govmomi}.

Lemma reads_clone_extra_config b f : reads (clone_extra_config b f).
Proof. unfold clone_extra_config. solve_reads. Qed.
Lemma reads_FindTemplate t : reads (FindTemplate t).
Proof. unfold FindTemplate, findTemplateByInstanceUUID, findTemplateByName. solve_reads. Qed.
Lemma reads_find_snapshot t : reads (find_snapshot t).
Proof. unfold find_snapshot. solve_reads. Qed.
Lemma reads_getNetworkSpecs d : reads (getNetworkSpecs d).
Proof. unfold getNetworkSpecs, network_turn. solve_reads. Qed.
#[local] Hint Resolve reads_getNetworkSpecs : reads.
Lemma reads_clone_devices d s : reads (clone_devices d s).
Proof. unfold clone_devices. solve_reads. Qed.
Lemma reads_policy_hubs p : reads (policy_hubs p).
Proof. unfold policy_hubs. solve_reads. Qed.
#[local] Hint Resolve reads_policy_hubs : reads.
Lemma reads_clone_datastore p : reads (clone_datastore p).
Proof. unfold clone_datastore. solve_reads. Qed.

#[local] Hint Resolve reads_clone_extra_config reads_FindTemplate reads_find_snapshot reads_clone_devices
  reads_clone_datastore : reads.

Lemma clone_crypto_effects c :
  wpm clone_crypto c (fun tr _ c' => c' = c /\ started_tasks tr = [] /\
    (effects tr = [] \/ effects tr = [GeneratesKey])).
Proof.
  unfold clone_crypto. do 2 wp_step. pass_reads.
  1-2: by trace_simpl; auto.
  destruct (negb _); repeat wp_step; trace_simpl; auto.
Qed.

Lemma wpm_set_clone_mode s c (Q : trace -> res unit -> VMContext -> Prop) :
  (forall c', same_object c c' ->
     TaskRef c' = TaskRef c -> cx_State c' = cx_State c -> Q [] (Ok tt) c') ->
  wpm (set_clone_mode s) c Q.
Proof. intros HQ. unfold set_clone_mode. destruct s; repeat vm_step; apply HQ; by repeat split. Qed.

(** ** Properties *)

(** The capacity that is requested for a disk by its index. *)
Definition requested (vm : VSphereVM) (i : nat) (disk : VirtualDevice) : option Z :=
  match i with
  | O => Some (cs_DiskGiB (vm_clone vm) * 1024 * 1024)
  | S j => additional_request (cs_AdditionalDisksGiB (vm_clone vm)) j disk
  end.

(** C38: the disks of a clone are those of the template, in order, each grown to
    the capacity that the VSphereVM asks for (the first by [DiskGiB], the others
    by their entry of [AdditionalDisksGiB], or as they are without one). A disk
    is never shrunk: the only errors are a template without a disk and a request
    below the capacity of a disk. *)
Theorem getDiskSpec_never_shrinks vm devices :
  match getDiskSpec vm devices with
  | Ok specs =>
      Forall2 (fun kd => resized (requested vm kd.1 kd.2) kd.2)
        (zip (seq 0 (length (SelectDisks devices))) (SelectDisks devices)) specs
  | Err _ => SelectDisks devices = [] \/
      exists kd, kd ∈ zip (seq 0 (length (SelectDisks devices))) (SelectDisks devices) /\
        shrinks (requested vm kd.1 kd.2) kd.2
  | Stop _ => exists disk, disk ∈ SelectDisks devices /\ CapacityInKB disk = None
  end.
Proof.
  assert (Hz : forall i (l : list VirtualDevice), zip (seq (S i) (length l)) l =
    map (fun kd => (S kd.1, kd.2)) (zip (seq i (length l)) l)).
  { intros i l. revert i. induction l as [|d l IH]; intros i; [done|]. simpl. by rewrite IH. }
  unfold getDiskSpec. destruct (SelectDisks devices) as [|primary rest]; [by left|].
  pose proof (getDiskConfigSpec_spec primary (cs_DiskGiB (vm_clone vm) * 1024 * 1024)) as Hp.
  destruct (getDiskConfigSpec primary _) as [spec|e|w]; cbn [res_wrap res_bind].
  - pose proof (additional_disks_spec 0 (cs_AdditionalDisksGiB (vm_clone vm)) rest [spec]) as Ha.
    destruct (additional_disks 0 _ rest [spec]) as [specs|e|w].
    + destruct Ha as (specs' & -> & Hf). simpl. constructor; [done|]. rewrite Hz. by apply Forall2_fmap_l.
    + right. destruct Ha as (kd & Hin & Hs). exists (S kd.1, kd.2). split; [|done].
      simpl. right. rewrite Hz. apply list_elem_of_fmap. eauto.
    + destruct Ha as (d & Hin & Hs). exists d. split; [by right|done].
  - right. exists (O, primary). split; [by left|done].
  - exists primary. split; [by left|done].
Qed.

(** the data disks of a clone go on the controller of the first disk of the
    template, at its lowest free unit numbers in order, where free means not
    taken by the controller itself or by a device on it: one disk per definition,
    of its size and provisioning mode. Creating them fails exactly when the
    controller has fewer free unit numbers than there are definitions (and a unit
    number of the template that is out of range is not handled). *)
Theorem createDataDisks_units defs devices primary rest controller :
  SelectDisks devices = primary :: rest ->
  FindByKey devices (de_ControllerKey primary) = Some controller ->
  is_controller controller = true ->
  match createDataDisks defs devices with
  | Ok specs =>
      (length defs <= length (free_units controller devices))%nat /\
      map added_unit specs = map Some (take (length defs) (free_units controller devices)) /\
      Forall2 (adds_disk (de_Key controller)) defs specs
  | Err _ => (length (free_units controller devices) < length defs)%nat
  | Stop _ => exists n, unit_taken controller devices n = true /\ ~ 0 <= n < 30
  end.
Proof.
  intros Hd Hk Hc. unfold createDataDisks. rewrite Hd, Hk, Hc.
  pose proof (newUnitNumberAssigner_spec controller devices) as Ha.
  destruct (newUnitNumberAssigner controller devices) as [a|e|w]; cbn [res_bind]; [|done|done].
  destruct Ha as [Ha Hf].
  pose proof (data_disks_spec 0 (de_Key controller) (NewKey devices) defs a [] Ha) as Hs.
  rewrite Hf in Hs. destruct (decide _).
  - destruct Hs as (specs & -> & Hu & Hall). by split_and!.
  - destruct Hs as (e & ->). lia.
Qed.

(** The end of a run that started the task: the clone of a template under the name
    of the VSphereVM and with its UID as the instance UUID, then the patch with the
    VSphereVM as it is left, in which the reference of the task is recorded. Before
    that nothing is changed but for a key that is generated. *)
Definition cloned (c : VMContext) (tr : trace) (c' : VMContext) : Prop :=
  exists tr0 tpl folder spec task x,
    tr = (tr0 ++ [ Call (TemplateClone tpl folder (vm_Name (cx_VSphereVM c)) spec) (Ok task);
                   Call (PatchVSphereVM (cx_VSphereVM c')) x ])%list /\
    ck_InstanceUuid spec = vm_UID (cx_VSphereVM c) /\ TaskRef c' = task /\
    (effects tr0 = [] \/ effects tr0 = [GeneratesKey]).
(** The effects of one that did not. *)
Definition not_cloned (name : string) (tr : trace) : Prop :=
  Forall (fun e => e = GeneratesKey \/ e = Clones name) (effects tr).
Definition clone_post (c : VMContext) (tr : trace) (r : res unit) (c' : VMContext) : Prop :=
  same_object c c' /\ cx_State c' = cx_State c /\
  (no_task c tr c' /\ is_ok r = false /\ not_cloned (vm_Name (cx_VSphereVM c)) tr \/
   one_task tr c' /\ cloned c tr c').

Lemma cloned_app c tr0 tr c' : effects tr0 = [] -> cloned c tr c' -> cloned c (tr0 ++ tr)%list c'.
Proof.
  intros He (tr1 & tpl & folder & spec & task & x & -> & Hu & Ht & He1).
  exists (tr0 ++ tr1)%list, tpl, folder, spec, task, x. rewrite effects_app, He, app_assoc. by split_and!.
Qed.
Lemma cloned_end c trk tpl folder spec task x c' :
  effects trk = [] \/ effects trk = [GeneratesKey] -> ck_InstanceUuid spec = vm_UID (cx_VSphereVM c) -> TaskRef c' = task ->
  cloned c (trk ++ [Call (TemplateClone tpl folder (vm_Name (cx_VSphereVM c)) spec) (Ok task)] ++
            [Call (PatchVSphereVM (cx_VSphereVM c')) x])%list c'.
Proof. intros. exists trk, tpl, folder, spec, task, x. by split_and!. Qed.

Lemma clone_stopped c tr r c1 :
  same_object c c1 -> TaskRef c1 = TaskRef c -> cx_State c1 = cx_State c -> is_ok r = false ->
  started_tasks tr = [] -> not_cloned (vm_Name (cx_VSphereVM c)) tr -> clone_post c tr r c1.
Proof. intros. split_and!; [done..|]. by left. Qed.

Lemma Clone_spec bootstrapData format c : wpm (Clone bootstrapData format) c (clone_post c).
Proof.
  unfold Clone.
  assert (Hq : forall tr, effects tr = [] -> not_cloned (vm_Name (cx_VSphereVM c)) tr).
  { intros tr Htr. unfold not_cloned. by rewrite Htr. }
  pass_reads; [by apply clone_stopped; try apply Hq; trace_simpl..|].
  do 2 vm_step.
  pass_reads; [by apply clone_stopped; try apply Hq; trace_simpl..|].
  pass_reads; [by apply clone_stopped; try apply Hq; trace_simpl..|].
  wp_step. apply wpm_set_clone_mode. intros c1 Hs Ht Hst.
  do 2 wp_step.
  pass_reads; [by apply clone_stopped; try apply Hq; trace_simpl..|].
  pass_reads; [by apply clone_stopped; try apply Hq; trace_simpl..|].
  pass_reads; [by apply clone_stopped; try apply Hq; trace_simpl..|].
  pass_reads; [by apply clone_stopped; try apply Hq; trace_simpl..|].
  pass_reads; [by apply clone_stopped; try apply Hq; trace_simpl..|].
  wp_step. eapply wpm_mono; [apply clone_crypto_effects|].
  assert (Hk : forall trk, effects trk = [] \/ effects trk = [GeneratesKey] ->
    not_cloned (vm_Name (cx_VSphereVM c)) trk).
  { intros trk [He|He]; unfold not_cloned; rewrite He; auto. }
  intros trk [k|e|w] ck (-> & Htk & Hek);
    [|by apply clone_stopped; unfold not_cloned; trace_simpl; auto; by apply Hk..].
  vm_steps.
  4-5: apply clone_stopped; unfold not_cloned; trace_simpl; rewrite ?Htk; [done..|];
    apply Forall_app; split; [by apply Hk|auto].
  all: split; [etrans; [exact Hs|by repeat split]|]; split; [done|]; right; split.
  1, 3, 5: unfold one_task; trace_simpl; rewrite Htk; by eexists.
  all: repeat first [apply cloned_end; [exact Hek|reflexivity|reflexivity] | apply cloned_app; [assumption || reflexivity|]].
Qed.

(** C35: a clone starts one task at most, and when it starts one its reference is
    recorded in the status, and the last things done are the clone under the name
    of the VSphereVM, with its UID as the instance UUID, and then the patch that
    makes the record durable: the VSphereVM that is written carries the reference
    of the task that was started. It does not succeed without starting one, and
    when it starts none the record is as before. The only other change outside is a
    new key at the key provider, and what is desired of the VSphereVM is never
    changed. *)
Theorem Clone_starts_one_task bootstrapData format c tr r c' :
  runs (Clone bootstrapData format c) tr (r, c') ->
  same_object c c' /\
  (no_task c tr c' /\ is_ok r = false /\ not_cloned (vm_Name (cx_VSphereVM c)) tr \/
   one_task tr c' /\ cloned c tr c').
Proof.
  intros Hr. revert tr r c' Hr. apply wpm_runs. eapply wpm_mono; [apply Clone_spec|].
  by intros tr r c' (Hs & _ & Hc).
Qed.
End programs.

(** * Concrete inputs *)

Section examples.
Import RefLibs.

(** A SCSI controller at unit 7 with a disk at unit 0. *)
Definition sample_controller : VirtualDevice := mkVirtualDevice 1000 100 (Some 3) (Controller (Some 7)).
Definition sample_devices : list VirtualDevice :=
  [ sample_controller; mkVirtualDevice 2000 1000 (Some 0) (VirtualDisk 20971520 None) ].

Lemma createDataDisks_units_witness :
  match createDataDisks [mkVSphereDisk "a" 5 ThinProvisioningMode; mkVSphereDisk "b" 6 ""] sample_devices with
  | Ok specs => map added_unit specs = [Some 1; Some 2]
  | _ => False
  end.
Proof.
  pose proof (createDataDisks_units [mkVSphereDisk "a" 5 ThinProvisioningMode; mkVSphereDisk "b" 6 ""]
    sample_devices _ _ sample_controller eq_refl eq_refl eq_refl) as Hs.
  destruct (createDataDisks _ sample_devices) as [specs|e|w] eqn:E; [|discriminate E..].
  exact (proj1 (proj2 Hs)).
Defined.

Lemma Clone_starts_one_task_witness :
  let c := sample_context (sample_vm VirtualMachineCloneSpec_zero "" "") in
  exists c', (run (Clone "" CloudConfig) c (vm_world "poweredOff" sample_devices [])).2 = (Ok tt, c') /\
    same_object c c' /\ vt_TaskRef (vm_Status (cx_VSphereVM c')) = "task-clone".
Proof.
  intros c. set (w := vm_world "poweredOff" sample_devices []).
  destruct (Clone_starts_one_task _ _ _ _ _ _ (run_runs (Clone "" CloudConfig) c w)) as [Hs Ht].
  eexists. split; [vm_compute; reflexivity|]. split; [exact Hs|vm_compute; reflexivity].
Defined.
End examples.

End Clone.
