(* ===== verification/Pci.v ===== *)
(** [pkg/services/govmomi/pci/device.go]: the PCI devices a VM lacks. *)
From S2P Require Import Prelude GoStrings Types Libs Errors Prog World RefLibs.

Module Pci.

Definition createBackingInfo (spec : PCIDeviceSpec) : res PCIBacking :=
  if negb (String.eqb (pci_VGPUProfile spec) "") then Ok (VmiopBacking (pci_VGPUProfile spec))
  else
    res_bind (or_panic (pci_VendorID spec)) (fun v =>
    res_bind (or_panic (pci_DeviceID spec)) (fun d =>
    Ok (DynamicBacking v d (pci_CustomLabel spec)))).

Definition constructKey (spec : PCIDeviceSpec) : res string :=
  if negb (String.eqb (pci_VGPUProfile spec) "") then Ok (pci_VGPUProfile spec)
  else
    res_bind (or_panic (pci_DeviceID spec)) (fun d =>
    res_bind (or_panic (pci_VendorID spec)) (fun v =>
    Ok (sprintf "%d-%d" [AZ d; AZ v]))).

(** How many devices of each key are expected. *)
Fixpoint expected_devices (deviceSpecs : list PCIDeviceSpec) (m : gmap string Z) : res (gmap string Z) :=
  match deviceSpecs with
  | [] => Ok m
  | spec :: specs' =>
      res_bind (constructKey spec) (fun key =>
      expected_devices specs'
        (match m !! key with None => <[key := 1]> m | Some n => <[key := n + 1]> m end))
  end.

Section pci.
Context {Gm : Govmomi}.

(** The loop that picks the missing ones; a missing key of the map counts 0. *)
Fixpoint missing_devices (devices : list VirtualDevice) (deviceSpecs : list PCIDeviceSpec)
    (m : gmap string Z) (specsToBeAdded : list PCIDeviceSpec) : res (list PCIDeviceSpec) :=
  match deviceSpecs with
  | [] => Ok specsToBeAdded
  | spec :: specs' =>
      res_bind (constructKey spec) (fun key =>
      res_bind (createBackingInfo spec) (fun backing =>
      let pciDeviceList := SelectByPCIBacking devices backing in
      let expectedDeviceLen := default 0 (m !! key) in
      if 0 <? expectedDeviceLen - zlen pciDeviceList
      then missing_devices devices specs' (<[key := expectedDeviceLen - 1]> m) (specsToBeAdded ++ [spec])%list
      else missing_devices devices specs' m specsToBeAdded))
  end.

Open Scope go_scope.

Definition CalculateDevicesToBeAdded (vm : MoRef) (deviceSpecs : list PCIDeviceSpec)
    : MV (list PCIDeviceSpec) :=
  deviceVendorIDComboMap <- of_res (expected_devices deviceSpecs ∅) ;;
  devices <- call_res (VMDevice vm) ;;
  of_res (missing_devices devices deviceSpecs deviceVendorIDComboMap []).

Close Scope go_scope.
End pci.

(** The loop over the specs; the key is an [int32] that counts down. *)
Fixpoint construct_devices (deviceKey : Z) (pciDeviceSpecs : list PCIDeviceSpec) : res (list VirtualDevice) :=
  match pciDeviceSpecs with
  | [] => Ok []
  | pciDevice :: specs' =>
      res_bind (createBackingInfo pciDevice) (fun backing =>
      res_bind (construct_devices ((deviceKey - 1 + 2 ^ 31) mod 2 ^ 32 - 2 ^ 31) specs') (fun l =>
      Ok (mkVirtualDevice deviceKey 0 None (PCIPassthrough backing) :: l)))
  end.
Definition ConstructDeviceSpecs (pciDeviceSpecs : list PCIDeviceSpec) : res (list VirtualDevice) :=
  construct_devices (-200) pciDeviceSpecs.

(** * Lemmas *)

(** How many specs have a key. *)
Definition has_key (k : string) (spec : PCIDeviceSpec) : bool :=
  match constructKey spec with Ok k' => String.eqb k' k | _ => false end.
Definition count_key (k : string) (l : list PCIDeviceSpec) : Z := zlen (List.filter (has_key k) l).

Lemma count_key_cons k s l : count_key k (s :: l) = (if has_key k s then 1 else 0) + count_key k l.
Proof. unfold count_key, zlen. simpl. destruct (has_key k s); simpl; lia. Qed.
Lemma count_key_snoc k s l : count_key k (l ++ [s]) = count_key k l + (if has_key k s then 1 else 0).
Proof.
  unfold count_key, zlen. rewrite List.filter_app, length_app. simpl.
  destruct (has_key k s); simpl; lia.
Qed.
Lemma count_key_nonneg k l : 0 <= count_key k l.
Proof. unfold count_key, zlen. lia. Qed.

Lemma expected_devices_count l m m' k :
  expected_devices l m = Ok m' -> default 0 (m' !! k) = default 0 (m !! k) + count_key k l.
Proof.
  revert m. induction l as [|s l IH]; intros m; cbn [expected_devices].
  { intros [= <-]. unfold count_key, zlen. simpl. lia. }
  intros (key & Hk & Hr)%res_bind_ok. rewrite (IH _ Hr), count_key_cons. unfold has_key. rewrite Hk.
  destruct (String.eqb_spec key k) as [->|Hne].
  - destruct (m !! k) as [n|]; rewrite lookup_insert_eq; simpl; lia.
  - destruct (m !! key); rewrite lookup_insert_ne by done; lia.
Qed.

Section lemmas.
Context {Gm : Govmomi}.

(** The number of devices the VM has for a spec. *)
Definition present (devices : list VirtualDevice) (s : PCIDeviceSpec) : Z :=
  match createBackingInfo s with Ok b => zlen (SelectByPCIBacking devices b) | _ => 0 end.

Lemma present_nonneg devices s : 0 <= present devices s.
Proof. unfold present. destruct (createBackingInfo s); unfold zlen; lia. Qed.

Lemma missing_devices_count devices l m acc out k n :
  (forall s, s ∈ l -> has_key k s = true -> present devices s = n) -> 0 <= n ->
  missing_devices devices l m acc = Ok out ->
  count_key k l <= default 0 (m !! k) ->
  count_key k out = count_key k acc + Z.max 0 (Z.min (count_key k l) (default 0 (m !! k) - n)).
Proof.
  intros Hn H0. revert m acc. induction l as [|s l IH]; intros m acc; cbn [missing_devices].
  { intros [= <-] Hle. unfold count_key at 3, zlen. simpl. lia. }
  intros (key & Hk & (b & Hb & Hr)%res_bind_ok)%res_bind_ok Hle. rewrite count_key_cons in Hle |- *.
  assert (IH' := IH ltac:(intros s' Hs'; apply Hn; by right)). clear IH.
  assert (Hhk : has_key k s = String.eqb key k) by (unfold has_key; by rewrite Hk).
  rewrite Hhk in Hle |- *. pose proof (count_key_nonneg k l) as Hpos.
  assert (Hp : String.eqb key k = true -> zlen (SelectByPCIBacking devices b) = n).
  { intros E. rewrite <-(Hn s ltac:(by left) ltac:(congruence)). unfold present. by rewrite Hb. }
  cbv zeta in Hr. destruct (0 <? _) eqn:E.
  - apply IH' in Hr as ->.
    + rewrite count_key_snoc, Hhk. destruct (String.eqb_spec key k) as [->|Hne].
      * rewrite lookup_insert_eq. simpl. specialize (Hp eq_refl). lia.
      * rewrite lookup_insert_ne by done. lia.
    + destruct (String.eqb_spec key k) as [->|Hne].
      * rewrite lookup_insert_eq. simpl. lia.
      * rewrite lookup_insert_ne by done. lia.
  - apply IH' in Hr as ->.
    + destruct (String.eqb_spec key k) as [->|Hne]; [specialize (Hp eq_refl)|]; lia.
    + destruct (String.eqb key k); lia.
Qed.

Lemma missing_devices_sublist devices l m acc out :
  missing_devices devices l m acc = Ok out -> exists sub, out = (acc ++ sub)%list /\ sub `sublist_of` l.
Proof.
  revert m acc. induction l as [|s l IH]; intros m acc; cbn [missing_devices].
  { intros [= <-]. exists []. by rewrite app_nil_r. }
  intros (key & Hk & (b & Hb & Hr)%res_bind_ok)%res_bind_ok. cbv zeta in Hr.
  destruct (0 <? _); apply IH in Hr as (sub & -> & Hsub).
  - exists (s :: sub). split; [by rewrite <-app_assoc|by constructor].
  - exists sub. split; [done|by constructor].
Qed.

Lemma reads_CalculateDevicesToBeAdded vm l : reads (CalculateDevicesToBeAdded vm l).
Proof. unfold CalculateDevicesToBeAdded. solve_reads. Qed.

(** the PCI devices to be added are some of the expected ones, in order. For
    every kind of device (its key), if the VM has [n] devices for each spec of
    that kind, exactly as many are to be added as are expected beyond [n]: after
    adding them the VM has what is expected, and none is added when it has
    enough. The VM is only read. *)
Theorem CalculateDevicesToBeAdded_missing vm specs c tr r c' :
  runs (CalculateDevicesToBeAdded vm specs c) tr (r, c') ->
  effects tr = [] /\ c' = c /\
  match r with
  | Ok out => exists devices, Call (VMDevice vm) (Ok devices) ∈ tr /\ out `sublist_of` specs /\
      forall k n, 0 <= n -> (forall s, s ∈ specs -> has_key k s = true -> present devices s = n) ->
        count_key k out = Z.max 0 (count_key k specs - n)
  | _ => True
  end.
Proof.
  intros Hr. revert tr r c' Hr. apply wpm_runs. unfold CalculateDevicesToBeAdded. repeat wp_step.
  destruct (expected_devices specs ∅) as [m|e|w] eqn:Em; [|done..]. repeat wp_step; [|done..].
  split_and!; [done..|]. cbn [app].
  destruct (missing_devices a specs m []) as [out|e|w] eqn:Eo; [|done..].
  exists a. split; [in_trace|]. split.
  { by apply missing_devices_sublist in Eo as (sub & -> & Hs). }
  intros k n Hn0 Hn. pose proof (expected_devices_count _ _ _ k Em) as Hc. rewrite lookup_empty in Hc. change (default 0 None) with 0 in Hc.
  rewrite (missing_devices_count a specs m [] out k n Hn Hn0 Eo) by (rewrite Hc; lia).
  unfold count_key at 1, zlen. simpl. pose proof (count_key_nonneg k specs). lia.
Qed.
End lemmas.

(** * Concrete inputs *)

Section examples.
Import RefLibs.

(** A VM with one device of the three that are expected. *)
Definition sample_gpu : PCIDeviceSpec := mkPCIDeviceSpec (Some 7864) (Some 4318) "" "".
Definition sample_pci_devices : list VirtualDevice :=
  [mkVirtualDevice 13000 100 None (PCIPassthrough (DynamicBacking 4318 7864 ""))].

Definition sample_pci_specs : list PCIDeviceSpec :=
  [sample_gpu; sample_gpu; mkPCIDeviceSpec None None "grid_v100" ""; sample_gpu].
Definition sample_pci_world : RefWorld :=
  vm_world "poweredOff" sample_pci_devices [].
Definition sample_pci_run :=
  run (CalculateDevicesToBeAdded vm_ref sample_pci_specs)
    (sample_context (sample_vm VirtualMachineCloneSpec_zero "" "")) sample_pci_world.

Lemma CalculateDevicesToBeAdded_missing_witness :
  exists out, sample_pci_run.2.1 = Ok out /\ out `sublist_of` sample_pci_specs /\ count_key "7864-4318" out = 2.
Proof.
  assert (E : sample_pci_run.2.1 = Ok [sample_gpu; mkPCIDeviceSpec None None "grid_v100" ""; sample_gpu] \/
              sample_pci_run.2.1 = Ok [sample_gpu; sample_gpu; mkPCIDeviceSpec None None "grid_v100" ""])
    by (vm_compute; auto).
  destruct (CalculateDevicesToBeAdded_missing _ _ _ _ _ _
    (run_runs (CalculateDevicesToBeAdded vm_ref sample_pci_specs)
       (sample_context (sample_vm VirtualMachineCloneSpec_zero "" "")) sample_pci_world)) as (_ & _ & Hr).
  fold sample_pci_run in Hr.
  destruct E as [E|E]; rewrite E in Hr; destruct Hr as (devices & _ & Hs & _);
    (eexists; split; [exact E|]; split; [exact Hs|]; vm_compute; reflexivity).
Defined.
End examples.

End Pci.
