(* ===== verification/Cluster.v ===== *)
(** The groups, rules and modules of compute clusters:
    [pkg/services/govmomi/cluster], [pkg/services/govmomi/find/object.go] and
    [pkg/services/govmomi/clustermodules/provider.go]. *)
From S2P Require Import Prelude GoStrings Types Libs Errors Prog World RefLibs.

Module Cluster.

(** [vmHostAffinityRule], a rule that ties a VM group to a host group. *)
Record Rule := mkRule { ru_Mandatory : option bool; ru_Enabled : option bool }.
Definition IsMandatory (v : Rule) : bool := ptr_deref (ru_Mandatory v) false.
Definition Disabled (v : Rule) : bool :=
  match ru_Enabled v with None => true | Some e => negb e end.

(** The rule of a VM group and a host group, the first in the list. *)
Fixpoint find_rule (hostGroupName vmGroupName : string) (rules : list ClusterRule) : option Rule :=
  match rules with
  | [] => None
  | ClusterVmHostRuleInfo mandatory enabled hostGroup vmGroup :: rules' =>
      if String.eqb hostGroup hostGroupName && String.eqb vmGroup vmGroupName
      then Some (mkRule mandatory enabled)
      else find_rule hostGroupName vmGroupName rules'
  | OtherClusterRule :: rules' => find_rule hostGroupName vmGroupName rules'
  end.

(** The members of the first VM group of a name, the hosts of a host group. *)
Fixpoint find_vm_group (name : string) (groups : list ClusterGroup) : option (list MoRef) :=
  match groups with
  | [] => None
  | ClusterVmGroup n vms :: groups' => if String.eqb n name then Some vms else find_vm_group name groups'
  | ClusterHostGroup _ _ :: groups' => find_vm_group name groups'
  end.
Fixpoint find_host_group (name : string) (groups : list ClusterGroup) : option (list MoRef) :=
  match groups with
  | [] => None
  | ClusterHostGroup n hosts :: groups' => if String.eqb n name then Some hosts else find_host_group name groups'
  | ClusterVmGroup _ _ :: groups' => find_host_group name groups'
  end.

(** [VMGroup]: the compute cluster and the group in it. *)
Record VMGroup := mkVMGroup { vg_Cluster : MoRef; vg_Name : string; vg_Vm : list MoRef }.

Section cluster.
Context {St : Type}.
#[warnings="-notation-for-abbreviation"]
Notation MS := (M Ev St).
Open Scope go_scope.

Definition listRules (clusterName : string) : MS (list ClusterRule) :=
  ccr <- call_res (FinderClusterComputeResource clusterName) ;;
  clusterConfigInfoEx <- call_res (ClusterConfiguration ccr) ;;
  ret (cc_Rule clusterConfigInfoEx).

Definition VerifyAffinityRule (clusterName hostGroupName vmGroupName : string) : MS Rule :=
  rules <- wrap (sprintf "unable to list rules for compute cluster %s" [AS clusterName])
             (listRules clusterName) ;;
  match find_rule hostGroupName vmGroupName rules with
  | Some rule => ret rule
  | None => fail (ENew "no matching affinity rule found/exists")
  end.

Definition FindVMGroup (clusterName vmGroupName : string) : MS VMGroup :=
  ccr <- call_res (FinderClusterComputeResource clusterName) ;;
  clusterConfigInfoEx <- call_res (ClusterConfiguration ccr) ;;
  match find_vm_group vmGroupName (cc_Group clusterConfigInfoEx) with
  | Some vms => ret (mkVMGroup ccr vmGroupName vms)
  | None => fail (ENew (sprintf "cannot find VM group %s" [AS vmGroupName]))
  end.

(** [Add] edits the group to its members with the VM at the end; the answer is
    the reference of the task. *)
Definition VMGroup_Add (vg : VMGroup) (vmObj : MoRef) : MS string :=
  call_res (ClusterReconfigureVmGroup (vg_Cluster vg) (vg_Name vg) (vg_Vm vg ++ [vmObj])%list).
Definition VMGroup_HasVM (vg : VMGroup) (vmObj : MoRef) : bool :=
  existsb (fun vm => bool_decide (vm = vmObj)) (vg_Vm vg).

Definition ListHostsFromGroup (ccr : MoRef) (hostGroup : string) : MS (list MoRef) :=
  clusterConfigInfoEx <- call_res (ClusterConfiguration ccr) ;;
  ret (default [] (find_host_group hostGroup (cc_Group clusterConfigInfoEx))).

(** [find.ObjectFunc]: how the objects of a failure domain are found, by its
    type; there is no function for another type. *)
Definition ObjectFunc (failureDomainType : string) (topology : Topology) : option (MS (list MoRef)) :=
  if String.eqb failureDomainType ComputeClusterFailureDomain then
    Some (r <- call_res (FinderClusterComputeResource (tp_ComputeCluster topology)) ;; ret [r])
  else if String.eqb failureDomainType DatacenterFailureDomain then
    Some (r <- call_res (FinderDatacenter (tp_Datacenter topology)) ;; ret [r])
  else if String.eqb failureDomainType HostGroupFailureDomain then
    Some (ccr <- call_res (FinderClusterComputeResource (tp_ComputeCluster topology)) ;;
          ListHostsFromGroup ccr (fh_HostGroupName (tp_Hosts topology)))
  else None.

(** * The provider of cluster modules *)

Definition StatusNotFound : Z := 404.

Definition CreateModule (clusterRef : MoRef) : MS string := call_res (ModuleCreate clusterRef).

Definition DeleteModule (moduleUUID : string) : MS unit :=
  r <- try (call_res (ModuleDelete moduleUUID)) ;;
  match r with
  | inr err => if IsStatusError err StatusNotFound then ret tt else fail err
  | inl _ => ret tt
  end.

Definition DoesModuleExist (moduleUUID : string) : MS bool :=
  if String.eqb moduleUUID "" then ret false
  else
    r <- try (call_res (ModuleListMembers moduleUUID)) ;;
    match r with
    | inl _ => ret true
    | inr err => if IsStatusError err StatusNotFound then ret false else fail err
    end.

Definition IsMoRefModuleMember (moduleID : string) (moRef : MoRef) : MS bool :=
  moduleMembers <- call_res (ModuleListMembers moduleID) ;;
  ret (existsb (fun member => bool_decide (member = moRef)) moduleMembers).

Definition AddMoRefToModule (moduleID : string) (moRef : MoRef) : MS unit :=
  isMember <- IsMoRefModuleMember moduleID moRef ;;
  if negb isMember then
    call_res (ModuleAddMembers moduleID moRef) ;;
    ret tt
  else ret tt.

Definition RemoveMoRefFromModule (moduleID : string) (moRef : MoRef) : MS unit :=
  call_res (ModuleRemoveMembers moduleID moRef) ;;
  ret tt.
End cluster.

(** * Lemmas *)

Lemma VMGroup_HasVM_spec vg vm : VMGroup_HasVM vg vm = true <-> vm ∈ vg_Vm vg.
Proof.
  unfold VMGroup_HasVM. rewrite existsb_exists. split.
  - intros (x & Hin & He). apply bool_decide_eq_true in He as <-. by apply list_elem_of_In.
  - intros Hin. exists vm. rewrite bool_decide_eq_true. split; [by apply list_elem_of_In|done].
Qed.

Lemma find_vm_group_spec name groups :
  match find_vm_group name groups with
  | Some vms => exists l l', groups = (l ++ ClusterVmGroup name vms :: l')%list /\
      forall vms', ClusterVmGroup name vms' ∉ l
  | None => forall vms, ClusterVmGroup name vms ∉ groups
  end.
Proof.
  induction groups as [|[n vms|n hosts] groups IH]; cbn [find_vm_group].
  - intros vms. apply not_elem_of_nil.
  - destruct (String.eqb_spec n name) as [->|Hne].
    + exists [], groups. split; [done|]. intros vms'. apply not_elem_of_nil.
    + destruct (find_vm_group name groups) as [vms'|].
      * destruct IH as (l & l' & -> & Hl). exists (ClusterVmGroup n vms :: l), l'. split; [done|].
        intros v [[= -> _]|Hin]%elem_of_cons; [done|by apply (Hl v)].
      * intros v [[= -> _]|Hin]%elem_of_cons; [done|by apply (IH v)].
  - destruct (find_vm_group name groups) as [vms'|].
    + destruct IH as (l & l' & -> & Hl). exists (ClusterHostGroup n hosts :: l), l'. split; [done|].
      intros v [[=]|Hin]%elem_of_cons. by apply (Hl v).
    + intros v [[=]|Hin]%elem_of_cons. by apply (IH v).
Qed.

Lemma reads_FindVMGroup {St} c g : reads (St:=St) (FindVMGroup c g).
Proof. unfold FindVMGroup. solve_reads. Qed.
Lemma reads_IsMoRefModuleMember {St} m r : reads (St:=St) (IsMoRefModuleMember m r).
Proof. unfold IsMoRefModuleMember. solve_reads. Qed.

(** The calls that change a module start no task and leave the context. *)
Lemma AddMoRefToModule_spec m r (c : VMContext) :
  wpm (AddMoRefToModule m r) c (fun tr res c' => c' = c /\ started_tasks tr = [] /\
    (effects tr = [] \/ effects tr = [AddsMember m r])).
Proof.
  unfold AddMoRefToModule. apply wpm_reads_bind; [apply reads_IsMoRefModuleMember|..].
  1-2: by intros tr x Htr; trace_simpl; auto.
  intros tr isMember Htr. destruct (negb isMember); repeat wp_step; trace_simpl; auto.
Qed.

(** The members of a module that were listed. *)
Definition listed_members (c : call Ev) : option (string * list MoRef) :=
  match c with
  | @Call _ X e x =>
      match e in Ev Y return Y -> option (string * list MoRef) with
      | ModuleListMembers m => fun r => match r with Ok l => Some (m, l) | _ => None end
      | _ => fun _ => None
      end x
  end.
Definition members_listed (tr : trace) : list (string * list MoRef) := omap listed_members tr.

(** adding a VM to a cluster module is idempotent: it is added exactly when
    the module was listed and the VM was not among the members. *)
Theorem AddMoRefToModule_once m r c tr res c' :
  runs (AddMoRefToModule (St:=VMContext) m r c) tr (res, c') ->
  c' = c /\
  (AddsMember m r ∈ effects tr <->
   exists members, members_listed tr = [(m, members)] /\ r ∉ members).
Proof.
  intros Hr. revert tr res c' Hr. apply wpm_runs.
  assert (Hm : forall a, existsb (fun member => bool_decide (member = r)) a = true <-> r ∈ a).
  { intros a. exact (VMGroup_HasVM_spec (mkVMGroup r "" a) r). }
  unfold AddMoRefToModule, IsMoRefModuleMember. repeat wp_step.
  2-3: split; [done|]; split; [by intros ?%elem_of_nil|by intros (members & [=] & _)].
  specialize (Hm a). destruct (existsb _ a) eqn:E; simpl; repeat wp_step; (split; [done|]); split; intros Heff.
  - by apply elem_of_nil in Heff.
  - destruct Heff as (members & [= <-] & Hn). exfalso. apply Hn. by apply Hm.
  - exists a. split; [done|]. intros Hin. by apply Hm in Hin.
  - by apply list_elem_of_singleton.
  - exists a. split; [done|]. intros Hin. by apply Hm in Hin.
  - by apply list_elem_of_singleton.
  - exists a. split; [done|]. intros Hin. by apply Hm in Hin.
  - by apply list_elem_of_singleton.
Qed.

(** * Concrete inputs *)

Section examples.
Import RefLibs.

Definition sample_member_context : VMContext := sample_context (sample_vm VirtualMachineCloneSpec_zero "" "").
Lemma AddMoRefToModule_once_witness :
  AddsMember "module-1" vm_ref ∈ effects (run (AddMoRefToModule "module-1" vm_ref) sample_member_context empty_world).1.
Proof.
  refine (proj2 (proj2 (AddMoRefToModule_once "module-1" vm_ref sample_member_context _ _ _
    (run_runs (AddMoRefToModule "module-1" vm_ref) sample_member_context empty_world))) _).
  exists []. split; [reflexivity|]. intros Hin. by apply elem_of_nil in Hin.
Defined.
End examples.

End Cluster.
