(* ===== verification/ClusterModules.v ===== *)
(** Anti-affinity of the machines of a cluster: [pkg/clustermodule] and
    [controllers/clustermodule_reconciler.go]. Every owner of machines (the
    KubeadmControlPlane, the MachineDeployments) has a cluster module on vCenter;
    the specification of the VSphereCluster lists them. *)
From S2P Require Import Prelude Sorting GoStrings Types Libs Constants Errors Prog World RefLibs Conditions Identity Owners Cluster.

Module ClusterModules.
Import Identity Cluster.

(** * The context of a VSphereCluster ([pkg/context/cluster_context.go]) *)

Record ClusterContext := mkClusterContext {
  cl_Cluster : option KubeCluster;
  cl_VSphereCluster : VSphereCluster
}.
Definition set_cl_VSphereCluster (v : VSphereCluster) (c : ClusterContext) : ClusterContext :=
  mkClusterContext (cl_Cluster c) v.

#[export] Program Instance cluster_conditioned : Conditioned ClusterContext := {|
  the_conditions c := vc_Conditions (cl_VSphereCluster c);
  put_conditions l c := set_cl_VSphereCluster (set_vc_Conditions l (cl_VSphereCluster c)) c;
  the_v1beta1 c := vc_V1Beta1Conditions (cl_VSphereCluster c);
  put_v1beta1 l c := set_cl_VSphereCluster (set_vc_V1Beta1Conditions l (cl_VSphereCluster c)) c
|}.
Solve Obligations with intros; repeat match goal with c : ClusterContext |- _ => destruct c as [? []] end; done.

(** [VSphereCluster.GroupVersionKind()] with the namespace and the name. *)
Definition ClusterContext_String (c : ClusterContext) : string :=
  let vc := cl_VSphereCluster c in
  sprintf "%s %s/%s" [AS (vc_GVK vc); AS (om_Namespace (vc_ObjectMeta vc)); AS (om_Name (vc_ObjectMeta vc))].

(** The fields of [ControllerManagerContext] the services read. *)
Record ManagerContext := mkManagerContext {
  mg_Username : string;
  mg_Password : string;
  mg_Namespace : string
}.

(** * [types.go] *)

Inductive Wrapper :=
| kcpWrapper (om : ObjectMeta)
| mdWrapper (om : ObjectMeta).

Definition wrapper_meta (w : Wrapper) : ObjectMeta := match w with kcpWrapper om | mdWrapper om => om end.
Definition wrapper_kind (w : Wrapper) : string :=
  match w with kcpWrapper _ => "KubeadmControlPlane" | mdWrapper _ => "MachineDeployment" end.
Definition GetTemplatePath (w : Wrapper) : list string :=
  match w with
  | kcpWrapper _ => ["spec"; "machineTemplate"; "spec"; "infrastructureRef"]
  | mdWrapper _ => ["spec"; "template"; "spec"; "infrastructureRef"]
  end.
Definition IsControlPlane (w : Wrapper) : bool := match w with kcpWrapper _ => true | mdWrapper _ => false end.
Definition GetName (w : Wrapper) : string := om_Name (wrapper_meta w).

(** * [util.go] *)

Definition same_module (a b : ClusterModule) : bool :=
  Bool.eqb (ptr_deref (cm_ControlPlane a) false) (ptr_deref (cm_ControlPlane b) false) &&
  String.eqb (cm_TargetObjectName a) (cm_TargetObjectName b) &&
  String.eqb (cm_ModuleUUID a) (cm_ModuleUUID b).

Fixpoint all_same (l l' : list ClusterModule) : bool :=
  match l, l' with
  | a :: l, b :: l' => if same_module a b then all_same l l' else false
  | _, _ => true
  end.

(** Both slices are sorted in place before they are compared. *)
Definition Compare (oldMods newMods : list ClusterModule) : bool :=
  if negb (Nat.eqb (length oldMods) (length newMods)) then false
  else all_same (sort_by cm_TargetObjectName oldMods) (sort_by cm_TargetObjectName newMods).

Definition IsClusterCompatible `{Libs} (version : string) : bool :=
  if String.eqb version "" then false
  else match semver_major version with None => false | Some major => 7 <=? major end.

(** * [session.go] and [service.go] *)

Section service.
Context `{Libs} (mgr : ManagerContext).
#[warnings="-notation-for-abbreviation"]
Notation MC := (M Ev ClusterContext).
Open Scope go_scope.

Definition newParams (vc : VSphereCluster) (datacenter : string) : Params :=
  mkParams (ls_Server (vc_Spec vc)) datacenter ("", "") (ls_Thumbprint (vc_Spec vc)).

Definition fetchSession (params : Params) : MC Session :=
  vc <- gets cl_VSphereCluster ;;
  if VSphereIdentityReference_IsDefined (ls_IdentityRef (vc_Spec vc)) then
    creds <- wrap "failed to get credentials from IdentityRef" (GetCredentials (Some vc) (mg_Namespace mgr)) ;;
    GetOrCreate (mkParams (pa_server params) (pa_datacenter params) (cr_Username creds, cr_Password creds)
                   (pa_thumbprint params))
  else
    GetOrCreate (mkParams (pa_server params) (pa_datacenter params) (mg_Username mgr, mg_Password mgr)
                   (pa_thumbprint params)).

(** The datacenter is needed because the finder is used. *)
Definition fetchSessionForObject (template : VSphereMachineSpec) : MC Session :=
  vc <- gets cl_VSphereCluster ;;
  fetchSession (newParams vc (cs_Datacenter (ps_VirtualMachineCloneSpec template))).

(** The kind and the name of the infrastructure template of an owner. *)
Definition fetchTemplateRef (input : Wrapper) : MC (string * string) :=
  let kind := wrapper_kind input in
  let ns := om_Namespace (wrapper_meta input) in
  let name := GetName input in
  wrap (sprintf "failed to get %s external object %q/%q" [AS kind; AS ns; AS name])
    (call_res (GetObject kind ns name)) ;;
  objRef <- call_res (UnmarshalTemplateRef kind ns name (GetTemplatePath input)) ;;
  ret (default ("", "") objRef).

Definition fetchMachineTemplate (input : Wrapper) (templateName : string) : MC VSphereMachineSpec :=
  call_res (GetVSphereMachineTemplate (om_Namespace (wrapper_meta input)) templateName).

Definition getComputeClusterResource (resourcePool : string) : MC MoRef :=
  rp <- call_res (FinderResourcePoolOrDefault resourcePool) ;;
  cc <- call_res (PoolOwner rp) ;;
  ownerPath <- call_res (FindInventoryPath cc) ;;
  r <- try (call_res (FinderClusterComputeResource ownerPath)) ;;
  match r with
  | inr _ => fail (EIncompatible (mo_Value cc))
  | inl _ => ret cc
  end.

Definition validMachineTemplate : string := "VSphereMachineTemplate".

Definition for_object (what : string) (w : Wrapper) : string :=
  sprintf "error fetching %s for object %s/%s" [AS what; AS (om_Namespace (wrapper_meta w)); AS (GetName w)].

(** [Create]; the empty text when there is nothing to create a module for. *)
Definition Create (w : Wrapper) : MC string :=
  templateRef <- wrap (for_object "template ref" w) (fetchTemplateRef w) ;;
  if negb (String.eqb templateRef.1 validMachineTemplate) then ret ""
  else
    template <- wrap (for_object "machine template" w) (fetchMachineTemplate w templateRef.2) ;;
    vc <- gets cl_VSphereCluster ;;
    if negb (String.eqb (cs_Server (ps_VirtualMachineCloneSpec template)) (ls_Server (vc_Spec vc))) then ret ""
    else
      wrap (for_object "session" w) (fetchSessionForObject template) ;;
      computeClusterRef <- wrap "error fetching compute cluster resource"
        (getComputeClusterResource (cs_ResourcePool (ps_VirtualMachineCloneSpec template))) ;;
      wrap "error creating cluster module" (CreateModule computeClusterRef).

Definition DoesExist (w : Wrapper) (moduleUUID : string) : MC bool :=
  templateRef <- wrap (for_object "template ref" w) (fetchTemplateRef w) ;;
  template <- wrap (for_object "machine template" w) (fetchMachineTemplate w templateRef.2) ;;
  wrap (for_object "session" w) (fetchSessionForObject template) ;;
  DoesModuleExist moduleUUID.

Definition Remove (moduleUUID : string) : MC unit :=
  vc <- gets cl_VSphereCluster ;;
  fetchSession (newParams vc "") ;;
  DeleteModule moduleUUID.

(** * The reconciler *)

(** The prefix keeps the control plane apart from the machine deployments. *)
Definition appendKCPKey (name : string) : string := "kcp" +:+ name.

(** The owners by key: the control plane first, then the machine deployments. *)
Definition owner_objects (kcps mds : list ObjectMeta) : gmap string Wrapper :=
  let objects := match kcps with
                 | kcp :: _ => if not_deleted kcp then {[appendKCPKey (om_Name kcp) := kcpWrapper kcp]} else ∅
                 | [] => ∅
                 end in
  foldl (fun objs md => if not_deleted md then <[om_Name md := mdWrapper md]> objs else objs) objects mds.

Definition fetchMachineOwnerObjects : MC (gmap string Wrapper) :=
  vc <- gets cl_VSphereCluster ;;
  let om := vc_ObjectMeta vc in
  match default ∅ (om_Labels om) !! ClusterNameLabel with
  | None => fail (ENew "failed to get Cluster name from VSphereCluster: missing cluster name label")
  | Some name =>
      kcps <- wrap "failed to list KubeadmControlPlane objects"
                (call_res (ListObjects "KubeadmControlPlane" (om_Namespace om) name)) ;;
      if 1 <? zlen kcps then
        fail (ENew (sprintf "multiple KubeadmControlPlane objects found, expected 1, found %d" [AZ (zlen kcps)]))
      else
        mds <- wrap "failed to list MachineDeployment objects"
                 (call_res (ListObjects "MachineDeployment" (om_Namespace om) name)) ;;
        ret (owner_objects kcps mds)
  end.

(** [clusterModError]. *)
Record clusterModError := mkClusterModError { me_name : string; me_err : error }.

Definition incompatibleOwnerErrors (errList : list clusterModError) : list clusterModError :=
  List.filter (fun e => IsIncompatibleOwnerError (me_err e)) errList.

Definition generateClusterModuleErrorMessage (errList : list clusterModError) : string :=
  let msg := foldl (fun sb e => sb +:+ sprintf "%s %s, " [AS (me_name e); AS (error_string (me_err e))])
               "Failed to create cluster modules for: " errList in
  String.substring 0 (String.length msg - 2) msg.

(** The local variables of [Reconcile]. *)
Record modState := mkModState {
  objectMap : gmap string Wrapper;
  clusterModuleSpecs : list ClusterModule;
  modErrs : list clusterModError
}.

(** The key of an entry of the specification, and of an owner. *)
Definition module_key (m : ClusterModule) : string :=
  let curr := cm_TargetObjectName m in
  if ptr_deref (cm_ControlPlane m) false then appendKCPKey curr else curr.

(** The entry for an owner. *)
Definition module_of (obj : Wrapper) (uuid : string) : ClusterModule :=
  mkClusterModule (Some (IsControlPlane obj)) (GetName obj) uuid.

(** A turn of the loop over the modules that are listed. *)
Definition reconcile_module (st : modState) (m : ClusterModule) : MC modState :=
  let curr := module_key m in
  match objectMap st !! curr with
  | None =>
      try (Remove (cm_ModuleUUID m)) ;;
      ret (mkModState (delete curr (objectMap st)) (clusterModuleSpecs st) (modErrs st))
  | Some obj =>
      let kept := (clusterModuleSpecs st ++ [module_of obj (cm_ModuleUUID m)])%list in
      exists_ <- try (DoesExist obj (cm_ModuleUUID m)) ;;
      match exists_ with
      | inr err =>
          ret (mkModState (delete curr (objectMap st)) kept
            (modErrs st ++
             [mkClusterModError (GetName obj)
                (EWrap (sprintf "failed to check if cluster module %q exists" [AS (cm_ModuleUUID m)]) err)])%list)
      | inl true => ret (mkModState (delete curr (objectMap st)) kept (modErrs st))
      | inl false => ret st
      end
  end.

(** A turn of the loop over the owners that are left. *)
Definition create_module (st : modState) (entry : string * Wrapper) : MC modState :=
  let obj := entry.2 in
  r <- try (Create obj) ;;
  match r with
  | inr err =>
      ret (mkModState (objectMap st) (clusterModuleSpecs st)
        (modErrs st ++ [mkClusterModError (GetName obj) (EWrap "failed to create cluster module" err)])%list)
  | inl moduleUUID =>
      if String.eqb moduleUUID "" then ret st
      else ret (mkModState (objectMap st) (clusterModuleSpecs st ++ [module_of obj moduleUUID])%list (modErrs st))
  end.

Definition set_modules (mods : list ClusterModule) (c : ClusterContext) : ClusterContext :=
  let vc := cl_VSphereCluster c in set_cl_VSphereCluster (set_vc_Spec (set_ls_ClusterModules mods (vc_Spec vc)) vc) c.

(** The conditions, and the error unless every error is about an owner that is
    not on a compute cluster. *)
Definition report (st : modState) : MC unit :=
  match modErrs st with
  | _ :: _ =>
      let incompatibleOwnerErrs := incompatibleOwnerErrors (modErrs st) in
      let msg := generateClusterModuleErrorMessage (modErrs st) in
      cond_false ClusterModulesAvailableV1Beta1Condition ClusterModuleSetupFailedV1Beta1Reason SeverityWarning msg ;;
      cond_set (cond VSphereClusterClusterModulesReadyCondition ConditionFalse VSphereClusterClusterModulesNotReadyReason msg) ;;
      if (0 <? zlen incompatibleOwnerErrs) && (zlen incompatibleOwnerErrs =? zlen (modErrs st)) then ret tt
      else fail (ENew msg)
  | [] =>
      (if 0 <? zlen (clusterModuleSpecs st) then cond_true ClusterModulesAvailableV1Beta1Condition
       else cond_v1beta1_delete ClusterModulesAvailableV1Beta1Condition) ;;
      cond_set (cond VSphereClusterClusterModulesReadyCondition ConditionTrue VSphereClusterClusterModulesReadyReason "")
  end.

Definition Reconcile : MC unit :=
  vc <- gets cl_VSphereCluster ;;
  let version := vc_VCenterVersion vc in
  if negb (IsClusterCompatible version) then
    let msg := sprintf "vCenter version %s does not support cluster modules" [AS version] in
    cond_false ClusterModulesAvailableV1Beta1Condition VCenterVersionIncompatibleV1Beta1Reason SeverityInfo msg ;;
    cond_set (cond VSphereClusterClusterModulesReadyCondition ConditionFalse VSphereClusterModulesInvalidVCenterVersionReason msg)
  else
    objects <- wrap "failed to get Machine owner objects" fetchMachineOwnerObjects ;;
    st <- fold_m reconcile_module (ls_ClusterModules (vc_Spec vc)) (mkModState objects [] []) ;;
    entries <- ask (RangeMap (objectMap st)) ;;
    st <- fold_m create_module entries st ;;
    modify (set_modules (clusterModuleSpecs st)) ;;
    report st.

(** [toAffinityInput]: the VSphereCluster to reconcile when an owner changes. *)
Definition toAffinityInput (obj : ObjectMeta) : M Ev unit (list (string * string)) :=
  rcl <- try (call_res (GetClusterFromMetadata obj)) ;;
  match rcl with
  | inr _ => ret []
  | inl cluster =>
      match kc_InfrastructureRefName cluster with
      | None => ret []
      | Some name =>
          rvc <- try (call_res (GetVSphereCluster (om_Namespace (kc_ObjectMeta cluster)) name)) ;;
          match rvc with
          | inr _ => ret []
          | inl vc => ret [(om_Namespace (vc_ObjectMeta vc), om_Name (vc_ObjectMeta vc))]
          end
      end
  end.
End service.

(** * Comparing modules *)

(** What makes two entries the same: [ControlPlane] left out is [false]. *)
Definition normal_module (m : ClusterModule) : ClusterModule :=
  mkClusterModule (Some (ptr_deref (cm_ControlPlane m) false)) (cm_TargetObjectName m) (cm_ModuleUUID m).

Lemma same_module_spec a b : same_module a b = true <-> normal_module a = normal_module b.
Proof.
  unfold same_module, normal_module. rewrite !andb_true_iff, eqb_true_iff, !String.eqb_eq.
  split; [by intros [[-> ->] ->]|]. by intros [= -> -> ->].
Qed.

Lemma all_same_spec l l' : length l = length l' -> all_same l l' = true <-> map normal_module l = map normal_module l'.
Proof.
  revert l'. induction l as [|a l IH]; intros [|b l'] Hl; try done. cbn [all_same map].
  injection Hl as Hl. pose proof (same_module_spec a b) as Hs. destruct (same_module a b).
  - rewrite IH by done. destruct Hs as [Hs _]. rewrite (Hs eq_refl). split; [by intros ->|by intros [= ->]].
  - split; [done|]. intros [= H1 H2 H3 _]. destruct Hs as [_ Hs]. apply Hs. unfold normal_module. congruence.
Qed.

Lemma normal_module_name m : cm_TargetObjectName (normal_module m) = cm_TargetObjectName m.
Proof. done. Qed.

(** [Compare] decides whether two lists hold the same modules: when the target
    names of the first are distinct, it says so exactly when one is a permutation
    of the other, a missing [ControlPlane] counting as false. The order in which
    either of them lists its modules does not matter. *)
Theorem Compare_permutation oldMods newMods :
  NoDup (map cm_TargetObjectName oldMods) ->
  Compare oldMods newMods = true <-> map normal_module oldMods ≡ₚ map normal_module newMods.
Proof.
  intros Hnd. unfold Compare. destruct (Nat.eqb_spec (length oldMods) (length newMods)) as [Hl|Hl]; cbn [negb].
  - rewrite all_same_spec by (by rewrite !sort_by_perm).
    rewrite <-!(sort_by_map cm_TargetObjectName) by done.
    assert (Hk : NoDup (map cm_TargetObjectName (map normal_module oldMods))).
    { rewrite map_map. exact Hnd. }
    split; intros Hp; [|by apply sort_by_unique].
    rewrite <-(sort_by_perm cm_TargetObjectName (map normal_module oldMods)), Hp. apply sort_by_perm.
  - split; [done|]. intros Hp%Permutation_length. by rewrite !length_map in Hp.
Qed.

(** * The reconciler *)





(** ** What is created *)

Definition created_module (c : call Ev) : option string :=
  match c with
  | @Call _ X e x =>
      match e in Ev Y return Y -> option string with
      | ModuleCreate _ => fun r => match r with Ok u => Some u | _ => None end
      | _ => fun _ => None
      end x
  end.
Definition created_modules (tr : trace) : list string := omap created_module tr.

Lemma created_modules_app tr tr' : created_modules (tr ++ tr')%list = (created_modules tr ++ created_modules tr')%list.
Proof. apply omap_app. Qed.

Lemma no_module_created tr : Forall (fun e => e <> CreatesModule) (effects tr) -> created_modules tr = [].
Proof.
  induction tr as [|[X e x] tr IH]; [done|]. unfold effects, created_modules in *. cbn [omap list_omap].
  destruct e; cbn [effect_of created_module]; try exact IH; rewrite Forall_cons; intros [Hs Hf]; try done; by apply IH.
Qed.

Lemma session_creates_nothing tr : Forall session_effect (effects tr) -> created_modules tr = [].
Proof. intros Hf. apply no_module_created. eapply Forall_impl; [exact Hf|]. by intros []. Qed.

Section lemmas.
Context `{Libs} (mgr : ManagerContext).

Lemma fetchSession_acts params : acts session_effect (fetchSession mgr params).
Proof.
  unfold fetchSession. apply acts_bind; [apply acts_reads, reads_gets|]. intros vc.
  destruct (VSphereIdentityReference_IsDefined _); [|apply GetOrCreate_acts].
  apply acts_bind; [apply acts_reads, reads_wrap, reads_GetCredentials|]. intros creds. apply GetOrCreate_acts.
Qed.
#[local] Hint Resolve fetchSession_acts : acts.

Lemma fetchSessionForObject_acts template : acts session_effect (fetchSessionForObject mgr template).
Proof. unfold fetchSessionForObject. solve_acts. Qed.
#[local] Hint Resolve fetchSessionForObject_acts : acts.

Lemma reads_fetchTemplateRef w : reads (fetchTemplateRef w).
Proof. unfold fetchTemplateRef. solve_reads. Qed.
Lemma reads_fetchMachineTemplate w n : reads (fetchMachineTemplate w n).
Proof. unfold fetchMachineTemplate. solve_reads. Qed.
Lemma reads_getComputeClusterResource pool : reads (getComputeClusterResource pool).
Proof. unfold getComputeClusterResource. solve_reads. Qed.
#[local] Hint Resolve reads_fetchTemplateRef reads_fetchMachineTemplate reads_getComputeClusterResource : reads.

Lemma DoesExist_acts w uuid : acts session_effect (DoesExist mgr w uuid).
Proof. unfold DoesExist, DoesModuleExist. solve_acts. Qed.

Lemma Remove_acts uuid :
  acts (fun e => session_effect e \/ e = DeletesModule uuid) (Remove mgr uuid).
Proof.
  unfold Remove, DeleteModule. apply acts_bind; [apply acts_reads, reads_gets|]. intros vc.
  apply acts_bind; [eapply acts_mono; [apply fetchSession_acts|by left]|]. intros _. solve_acts.
Qed.

(** Why an owner needs no module: its machines are not VSphereMachines, or they
    are on another vCenter. *)
Definition needs_no_module (server : string) (tr : trace) (w : Wrapper) : Prop :=
  let ns := om_Namespace (wrapper_meta w) in
  (exists ref, Call (UnmarshalTemplateRef (wrapper_kind w) ns (GetName w) (GetTemplatePath w)) (Ok ref) ∈ tr /\
     (default ("", "") ref).1 <> validMachineTemplate) \/
  (exists name t, Call (GetVSphereMachineTemplate ns name) (Ok t) ∈ tr /\
     cs_Server (ps_VirtualMachineCloneSpec t) <> server).

Definition create_post (w : Wrapper) (c : ClusterContext) (tr : trace) (r : res string) (c' : ClusterContext) : Prop :=
  c' = c /\ Forall (fun e => session_effect e \/ e = CreatesModule) (effects tr) /\
  match r with
  | Ok u => u = "" /\ needs_no_module (ls_Server (vc_Spec (cl_VSphereCluster c))) tr w \/ created_modules tr = [u]
  | _ => True
  end.

Lemma Create_spec w c : wpm (Create mgr w) c (create_post w c).
Proof.
  unfold Create, fetchTemplateRef, fetchMachineTemplate, create_post.
  do 5 wp_step; cbn beta iota; [|by split_and!; try done; constructor..].
  do 2 wp_step; cbn beta iota; [|by split_and!; try done; constructor..]. wp_step.
  set (ref := default _ a0). destruct (String.eqb_spec ref.1 validMachineTemplate) as [Hk|Hk]; cbn [negb].
  2:{ wp_step. split_and!; [done|constructor|]. left. split; [done|]. left. exists a0. split; [in_trace|done]. }
  do 3 wp_step; cbn beta iota; [|by split_and!; try done; constructor..]. do 2 wp_step.
  destruct (String.eqb_spec (cs_Server (ps_VirtualMachineCloneSpec a1)) (ls_Server (vc_Spec (cl_VSphereCluster c))))
    as [Hs|Hs]; cbn [negb].
  2:{ wp_step. split_and!; [done|constructor|]. left. split; [done|]. right. exists ref.2, a1. split; [in_trace|done]. }
  apply (wpm_acts_bind session_effect); [apply acts_wrap, fetchSessionForObject_acts|..].
  1-2: intros tr x Hf; split_and!; try done; eapply Forall_impl; [exact Hf|by left].
  intros tr s Hf.
  assert (Hf' : Forall (fun e => session_effect e \/ e = CreatesModule) (effects tr))
    by (eapply Forall_impl; [exact Hf|by left]).
  apply wpm_reads_bind; [apply reads_wrap, reads_getComputeClusterResource|..].
  1-2: intros tr' x Hr; split_and!; try done; by trace_simpl.
  intros tr' cc Hr. unfold CreateModule. do 2 wp_step; (split; [done|]).
  all: split; [by trace_simpl; apply Forall_app; split; [exact Hf'|by repeat constructor; right]|try done].
  right. rewrite !created_modules_app, (session_creates_nothing tr Hf), (no_module_created tr') by (by rewrite Hr). done.
Qed.

(** ** The loop over the modules that are listed *)







(** *** The module of an owner that keeps it is not deleted *)





(** ** The loop over the owners that are left *)








(** ** The whole pass *)

Definition modules (c : ClusterContext) : list ClusterModule := ls_ClusterModules (vc_Spec (cl_VSphereCluster c)).

(** The condition that says that the cluster modules are ready. *)
Definition modules_ready (c : ClusterContext) : Prop :=
  exists cnd, conditions_Get (vc_Conditions (cl_VSphereCluster c)) VSphereClusterClusterModulesReadyCondition = Some cnd /\
    c_Status cnd = ConditionTrue.


Lemma report_spec st c :
  wpm (report st) c (fun tr r c' => effects tr = [] /\ created_modules tr = [] /\ adorned c c' /\
    (modules_ready c' -> modErrs st = [])).
Proof.
  assert (Hset : forall now r msg l st0, modules_ready (put_conditions (conditions_Set now l
      (cond VSphereClusterClusterModulesReadyCondition ConditionFalse r msg)) st0) -> False).
  { intros now r msg l [cl vc] (cnd & Hg & Hs). cbn in Hg.
    destruct (conditions_Get_Set_same now l (cond VSphereClusterClusterModulesReadyCondition ConditionFalse r msg))
      as (g & t & E). cbn in E, Hg. rewrite E in Hg. by injection Hg as <-. }
  unfold report. destruct (modErrs st) as [|e errs].
  - assert (Ha : adorns (if 0 <? zlen (clusterModuleSpecs st) then cond_true ClusterModulesAvailableV1Beta1Condition
                         else cond_v1beta1_delete ClusterModulesAvailableV1Beta1Condition)) by solve_adorns.
    apply wpm_adorns_bind; [exact Ha|..].
    1-2: by intros tr x s' He Had; split_and!; [done|apply no_module_created; by rewrite He|done|].
    intros tr u s' He Had. cond_step. rewrite effects_app, created_modules_app, (no_module_created tr) by (by rewrite He).
    split_and!; [by rewrite He|done| |done]. etrans; [exact Had|apply adorned_put].
  - cond_step. cond_step. cond_step. cond_step.
    destruct (_ && _); wp_step; split_and!; try done;
      try (by intros Hm; exfalso; exact (Hset _ _ _ _ _ Hm));
      (etrans; [apply adorned_put_v1beta1|apply adorned_put]).
Qed.







(** ** What a pass does not touch *)

Definition modules_effect (e : effect) : Prop :=
  session_effect e \/ e = CreatesModule \/ exists u, e = DeletesModule u.

Lemma reconcile_module_acts st m : acts modules_effect (reconcile_module mgr st m).
Proof.
  unfold reconcile_module. destruct (objectMap st !! _); apply acts_bind.
  - apply acts_try. eapply acts_mono; [apply DoesExist_acts|]. by left.
  - solve_acts.
  - apply acts_try. eapply acts_mono; [apply Remove_acts|]. intros e [?| ->]; [by left|]. right; right. by eexists.
  - solve_acts.
Qed.
Lemma create_module_acts st e : acts modules_effect (create_module mgr st e).
Proof.
  unfold create_module. apply acts_bind; [|solve_acts]. apply acts_try. intros c.
  eapply wpm_mono; [apply Create_spec|]. intros tr r c' (-> & He & _). split; [|done].
  eapply Forall_impl; [exact He|]. intros x [?| ->]; [by left|by right; left].
Qed.
Lemma reads_fetchMachineOwnerObjects : reads fetchMachineOwnerObjects.
Proof. unfold fetchMachineOwnerObjects. solve_reads. Qed.

Lemma Reconcile_within : within modules_effect (Reconcile mgr).
Proof.
  unfold Reconcile. apply within_bind; [apply within_calm, calm_reads, reads_gets|]. intros vc. cbn zeta.
  assert (Hset : forall c, within modules_effect (cond_set c)).
  { intros c s. eapply wpm_mono; [apply adorns_cond_set|]. by intros tr r s' [-> _]. }
  assert (Hfalse : forall t r v m, within modules_effect (cond_false (St:=ClusterContext) t r v m)).
  { intros t r v m s. eapply wpm_mono; [apply adorns_cond_false|]. by intros tr r' s' [-> _]. }
  destruct (negb _); [by apply within_bind; [apply Hfalse|intros _; apply Hset]|].
  apply within_bind; [apply within_calm, calm_reads, reads_wrap, reads_fetchMachineOwnerObjects|]. intros objs.
  apply within_bind; [apply within_fold_m; intros; apply acts_within, reconcile_module_acts|]. intros st.
  apply within_bind; [by apply within_calm, calm_reads, reads_ask|]. intros entries.
  apply within_bind; [apply within_fold_m; intros; apply acts_within, create_module_acts|]. intros st'.
  apply within_bind; [apply within_calm, calm_modify|]. intros _ s.
  eapply wpm_mono; [apply report_spec|]. by intros tr r s' [-> _].
Qed.

Lemma Reconcile_preserves {X} (f : ClusterContext -> X) :
  (forall mods c, f (set_modules mods c) = f c) ->
  (forall s r m, preserves f (cond_set (cond VSphereClusterClusterModulesReadyCondition s r m))) ->
  (forall l s, f (put_v1beta1 l s) = f s) ->
  preserves f (Reconcile mgr).
Proof.
  intros Hmods Hset Hv.
  assert (Hfalse : forall t r v m, preserves f (cond_false (St:=ClusterContext) t r v m)).
  { intros t r v m s. by apply wpm_cond_false. }
  unfold Reconcile. apply preserves_bind; [apply preserves_gets|]. intros vc. cbn zeta.
  destruct (negb _); [by apply preserves_bind; [apply Hfalse|intros _; apply Hset]|].
  apply preserves_bind; [apply preserves_reads, reads_wrap, reads_fetchMachineOwnerObjects|]. intros objs.
  apply preserves_bind.
  { apply preserves_fold_m. intros. eapply preserves_acts, reconcile_module_acts. }
  intros st. apply preserves_bind; [apply preserves_ask|]. intros entries.
  apply preserves_bind.
  { apply preserves_fold_m. intros. eapply preserves_acts, create_module_acts. }
  intros st'. apply preserves_bind; [by apply preserves_modify|]. intros _. unfold report.
  destruct (modErrs st').
  - apply preserves_bind; [|intros _; apply Hset].
    destruct (0 <? _); [intros s; by apply wpm_cond_true|intros s; by apply wpm_cond_v1beta1_delete].
  - cbn zeta. apply preserves_bind; [apply Hfalse|]. intros _. apply preserves_bind; [apply Hset|]. intros _.
    destruct (_ && _); [apply preserves_ret|apply preserves_fail].
Qed.
End lemmas.

(** ** Properties *)


(** * Concrete inputs *)

Section examples.
Import RefLibs.

Definition sample_owner (name : string) : ObjectMeta := mkObjectMeta name "default" name None [] [] None.

(** A cluster with a control plane and machine deployments, whose templates are
    VSphereMachineTemplates on the server of the cluster. *)
Definition owners_answer (kcps mds : list ObjectMeta) (X : Type) (e : Ev X) (w : RefWorld) : X * RefWorld :=
  match e in Ev Y return Y * RefWorld with
  | ListObjects kind _ _ => (Ok (if String.eqb kind "KubeadmControlPlane" then kcps else mds), w)
  | GetObject _ ns name => (Ok (mkObjectMeta name ns name None [] [] None), w)
  | UnmarshalTemplateRef _ _ _ _ => (Ok (Some (validMachineTemplate, "template-1")), w)
  | GetVSphereMachineTemplate _ _ =>
      (Ok (mkVSphereMachineSpec (set_cs_Server "vcenter" VirtualMachineCloneSpec_zero) "" "" 0 (mkVSphereVMNamingSpec "")), w)
  | e => ref_answer _ e w
  end.


Definition sample_manager : ManagerContext := mkManagerContext "admin" "secret" "capv-system".
Definition sample_modules_context (version : string) (mods : list ClusterModule) : ClusterContext :=
  mkClusterContext None
    (mkVSphereCluster (mkObjectMeta "cluster-1" "default" "uid" (Some {[ClusterNameLabel := "cluster-1"]}) [] [] None)
      (mkVSphereClusterSpec "vcenter" "" (mkAPIEndpoint "" 0) (mkVSphereIdentityReference "" "") mods None None)
      [] [] version [] None "VSphereCluster").
Definition modules_run (kcps mds : list string) (mods : list ClusterModule) : trace * (res unit * ClusterContext) :=
  exec (owners_answer (map sample_owner kcps) (map sample_owner mds))
    (Reconcile sample_manager (sample_modules_context "8.0.1" mods)) empty_world.

(** The control plane keeps its module, the one of a machine deployment that is
    gone is deleted, and a new machine deployment gets one. *)
Definition sample_modules : list ClusterModule :=
  [mkClusterModule (Some true) "cp" "m-cp"; mkClusterModule None "gone" "m-gone"].


Lemma Compare_permutation_witness :
  Compare sample_modules (reverse sample_modules) = true.
Proof.
  apply (Compare_permutation sample_modules (reverse sample_modules)).
  - apply (bool_decide_unpack _). by vm_compute.
  - by rewrite reverse_Permutation.
Defined.

(** The key of a control plane can be the name of a machine deployment: the module
    of the control plane is handed to the machine deployment, and the control
    plane is left without one. *)
Example kcp_key_collides :
  modules (modules_run ["md"] ["kcpmd"] [mkClusterModule (Some true) "md" "m-1"]).2.2 =
    [mkClusterModule (Some false) "kcpmd" "m-1"].
Proof. by vm_compute. Qed.

(** With equal target names the order of the entries matters. *)
Example Compare_same_name :
  let a := mkClusterModule (Some true) "a" "m-1" in let b := mkClusterModule (Some false) "a" "m-2" in
  Compare [a; b] [b; a] = false.
Proof. by vm_compute. Qed.
End examples.

End ClusterModules.
