(* ===== verification/ClusterController.v ===== *)
(** [controllers/vspherecluster_reconciler.go] and the map functions of
    [controllers/vspherecluster_controller.go]: the reconciliation of a
    VSphereCluster in the govmomi mode. *)
From S2P Require Import Prelude Sorting GoStrings Types Libs Constants Errors Prog World RefLibs Conditions Identity Owners MachineUtil Cluster ClusterModules.
From Stdlib Require Import Sorted.

Module ClusterController.
Import Identity ClusterModules.

(** [reconcile.Result]: after how many nanoseconds to reconcile again, 0 for not. *)
Definition Result := Z.
Definition tenSeconds : Result := 10 * 1000000000.


(** What the reconciler is made with, and the feature gate it looks at. *)
Record clusterReconciler := mkClusterReconciler {
  cr_manager : ManagerContext;
  cr_NodeAntiAffinity : bool
}.

Section controller.
Context `{Libs}.
#[warnings="-notation-for-abbreviation"]
Notation MC := (M Ev ClusterContext).
Open Scope go_scope.

Definition getVC : MC VSphereCluster := gets cl_VSphereCluster.
Definition on_vc (f : VSphereCluster -> VSphereCluster) : MC unit :=
  modify (fun c => set_cl_VSphereCluster (f (cl_VSphereCluster c)) c).

(** [ctrlutil.RemoveFinalizer(vsphereCluster, ClusterFinalizer)]. *)
Definition remove_cluster_finalizer (vc : VSphereCluster) : VSphereCluster :=
  set_vc_ObjectMeta (without_finalizer ClusterFinalizer (vc_ObjectMeta vc)) vc.

(** * Patching *)

Definition patch : MC unit :=
  cond_v1beta1_summary [VCenterAvailableV1Beta1Condition] ;;
  cond_summary VSphereClusterReadyCondition
    [VSphereClusterVCenterAvailableCondition; VSphereClusterFailureDomainsReadyCondition;
     VSphereClusterClusterModulesReadyCondition]
    [VSphereClusterFailureDomainsReadyCondition; VSphereClusterClusterModulesReadyCondition]
    (VSphereClusterNotReadyReason, VSphereClusterReadyUnknownReason, VSphereClusterReadyReason) ;;
  vc <- getVC ;;
  call_res (PatchVSphereCluster vc).

Definition patch_on_exit (reterr : option error) : MC (option error) :=
  r <- try patch ;;
  ret (match r with inr err => NewAggregate [reterr; Some err] | inl _ => reterr end).

(** * Cluster modules *)

Definition reconcileClusterModules (r : clusterReconciler) : MC Result :=
  vc <- getVC ;;
  if cr_NodeAntiAffinity r && negb (ptr_deref (ls_DisableClusterModule (vc_Spec vc)) false) then
    ClusterModules.Reconcile (cr_manager r) ;; ret 0
  else ret 0.

(** * Deletion *)

Definition secret_key (vc : VSphereCluster) : string * string :=
  (om_Namespace (vc_ObjectMeta vc), ir_Name (ls_IdentityRef (vc_Spec vc))).

(** What is left when the machines are gone. *)
Definition release_cluster (r : clusterReconciler) : MC Result :=
  reconcileClusterModules r ;;
  vc <- getVC ;;
  if IsSecretIdentity (Some vc) then
    got <- try (call_res (GetObject "Secret" (secret_key vc).1 (secret_key vc).2)) ;;
    match got with
    | inr err => if IsNotFound err then on_vc remove_cluster_finalizer ;; ret 0 else fail err
    | inl secret => release_secret secret ;; on_vc remove_cluster_finalizer ;; ret 0
    end
  else on_vc remove_cluster_finalizer ;; ret 0.

Definition reconcileDelete (r : clusterReconciler) : MC Result :=
  cond_set (cond VSphereClusterVCenterAvailableCondition ConditionFalse VSphereClusterVCenterAvailableDeletingReason "") ;;
  cond_set (cond VSphereClusterClusterModulesReadyCondition ConditionFalse VSphereClusterClusterModulesDeletingReason "") ;;
  cond_set (cond VSphereClusterFailureDomainsReadyCondition ConditionFalse VSphereClusterFailureDomainsDeletingReason "") ;;
  c <- get ;;
  let om := vc_ObjectMeta (cl_VSphereCluster c) in
  vsphereMachines <- match cl_Cluster c with
    | Some cluster =>
        wrap (sprintf "unable to list VSphereMachines part of VSphereCluster %s/%s" [AS (om_Namespace om); AS (om_Name om)])
          (call_res (ListVSphereMachines (om_Namespace (kc_ObjectMeta cluster)) (om_Name (kc_ObjectMeta cluster))))
    | None => ret []
    end ;;
  if 0 <? zlen vsphereMachines then ret tenSeconds else release_cluster r.

(** * Failure domains *)

(** A turn of the loop over the zones: how many have not reported, how many are
    not ready, and the failure domains of the others. *)
Definition zone_turn (server : string) (acc : Z * Z * list KubeFailureDomain) (zone : VSphereDeploymentZone)
    : Z * Z * list KubeFailureDomain :=
  let '(readyNotReported, notReady, failureDomains) := acc in
  if negb (String.eqb (dz_Server (zn_Spec zone)) server) then acc
  else
    let fd := mkKubeFailureDomain (om_Name (zn_ObjectMeta zone)) (dz_ControlPlane (zn_Spec zone)) in
    match zn_Ready zone with
    | None => (readyNotReported + 1, notReady, failureDomains ++ [fd])%list
    | Some true => (readyNotReported, notReady, failureDomains ++ [fd])%list
    | Some false => (readyNotReported, notReady + 1, failureDomains)
    end.

(** The order of [slices.SortFunc] is by name; zones have distinct names. *)
Definition reconcileDeploymentZones : MC bool :=
  vc <- getVC ;;
  match ls_FailureDomainSelector (vc_Spec vc) with
  | None => ret true
  | Some selector =>
      if negb (selector_valid selector) then
        fail (EWrap "zone label selector is misconfigured" (ELib OtherLibError "invalid label selector"))
      else
        zones <- wrap "unable to list VSphereDeploymentZones" (call_res (ListVSphereDeploymentZones (Some selector))) ;;
        let '(readyNotReported, notReady, failureDomains) :=
          foldl (zone_turn (ls_Server (vc_Spec vc))) (0, 0, []) zones in
        on_vc (set_vc_FailureDomains (sort_by kf_Name failureDomains)) ;;
        if 0 <? readyNotReported then
          cond_false FailureDomainsAvailableV1Beta1Condition WaitingForFailureDomainStatusV1Beta1Reason SeverityInfo
            "waiting for failure domains to report ready status" ;;
          cond_set (cond VSphereClusterFailureDomainsReadyCondition ConditionFalse
            VSphereClusterFailureDomainsNotReadyReason "Waiting for failure domains to report ready status") ;;
          ret false
        else
          (if 0 <? zlen failureDomains then
             if 0 <? notReady then
               cond_false FailureDomainsAvailableV1Beta1Condition FailureDomainsSkippedV1Beta1Reason SeverityInfo
                 "one or more failure domains are not ready" ;;
               cond_set (cond VSphereClusterFailureDomainsReadyCondition ConditionFalse
                 VSphereClusterFailureDomainsNotReadyReason "One or more failure domains are not ready")
             else
               cond_true FailureDomainsAvailableV1Beta1Condition ;;
               cond_set (cond VSphereClusterFailureDomainsReadyCondition ConditionTrue
                 VSphereClusterFailureDomainsReadyReason "")
           else cond_v1beta1_delete FailureDomainsAvailableV1Beta1Condition) ;;
          ret true
  end.

(** * The identity and vCenter *)

Definition reconcileIdentitySecret : MC unit :=
  vsphereCluster <- getVC ;;
  if negb (IsSecretIdentity (Some vsphereCluster)) then ret tt
  else
    let key := secret_key vsphereCluster in
    let name := om_Name (vc_ObjectMeta vsphereCluster) in
    secret <- call_res (GetObject "Secret" key.1 key.2) ;;
    if negb (IsOwnedByObject (om_OwnerReferences secret) GroupName "VSphereCluster" name) &&
       IsOwnedByIdentityOrCluster (om_OwnerReferences secret) then
      fail (ENew (sprintf "another cluster has set the OwnerRef for Secret %s/%s"
                    [AS (om_Namespace secret); AS (om_Name secret)]))
    else
      call_res (NewPatchHelperOf "Secret" secret) ;;
      let secret := set_om_OwnerReferences
        (EnsureOwnerRef (om_OwnerReferences secret)
           (owner_ref GroupVersion "VSphereCluster" name (om_UID (vc_ObjectMeta vsphereCluster)))) secret in
      let secret := if negb (ContainsFinalizer (om_Finalizers secret) SecretIdentitySetFinalizer)
                    then set_om_Finalizers (AddFinalizer (om_Finalizers secret) SecretIdentitySetFinalizer).1 secret
                    else secret in
      call_res (PatchObject "Secret" secret).

Definition reconcileVCenterConnectivity (r : clusterReconciler) : MC Session :=
  vc <- getVC ;;
  fetchSession (cr_manager r) (newParams vc "").

Definition reconcileVCenterVersion (s : Session) : MC unit :=
  version <- wrap "invalid vCenter version" (GetVersion s) ;;
  on_vc (set_vc_VCenterVersion version).

Definition vcenter_unreachable {A} (err : error) (msg : error) : MC A :=
  cond_false VCenterAvailableV1Beta1Condition VCenterUnreachableV1Beta1Reason SeverityError
    (sprintf "%v" [AS (error_string err)]) ;;
  cond_set (cond VSphereClusterVCenterAvailableCondition ConditionFalse VSphereClusterVCenterUnreachableReason
              (error_string err)) ;;
  fail msg.

(** The version: a failure is reported and the pass goes on. The message is the
    text of the error, which has to be there. *)
Definition version_step (s : Session) : MC unit :=
  r <- try (reconcileVCenterVersion s) ;;
  vc <- getVC ;;
  if match r with inr _ => true | inl _ => String.eqb (vc_VCenterVersion vc) "" end then
    cond_false ClusterModulesAvailableV1Beta1Condition MissingVCenterVersionV1Beta1Reason SeverityWarning
      (sprintf "%v" [AS (match r with inr err => error_string err | inl _ => "<nil>" end)]) ;;
    match r with
    | inr err =>
        cond_set (cond VSphereClusterClusterModulesReadyCondition ConditionFalse
          VSphereClusterModulesInvalidVCenterVersionReason (error_string err))
    | inl _ => panic
    end
  else ret tt.

Definition modules_step (r : clusterReconciler) : MC Result :=
  res <- try (reconcileClusterModules r) ;;
  match res with
  | inr err =>
      cond_false ClusterModulesAvailableV1Beta1Condition ClusterModuleSetupFailedV1Beta1Reason SeverityWarning
        (sprintf "%v" [AS (error_string err)]) ;;
      cond_set (cond VSphereClusterClusterModulesReadyCondition ConditionFalse
        VSphereClusterClusterModulesNotReadyReason (error_string err)) ;;
      fail err
  | inl _ =>
      on_vc (set_vc_Provisioned (Some true)) ;;
      ret 0
  end.

(** From the identity on. *)
Definition reconcile_vcenter (r : clusterReconciler) : MC Result :=
  identity <- try reconcileIdentitySecret ;;
  match identity with
  | inr err => vcenter_unreachable err err
  | inl _ =>
      session <- try (reconcileVCenterConnectivity r) ;;
      match session with
      | inr err =>
          c <- get ;;
          vcenter_unreachable err
            (EWrap (sprintf "unexpected error while probing vcenter for %s" [AS (ClusterContext_String c)]) err)
      | inl vcenterSession =>
          cond_true VCenterAvailableV1Beta1Condition ;;
          cond_set (cond VSphereClusterVCenterAvailableCondition ConditionTrue VSphereClusterVCenterAvailableReason "") ;;
          version_step vcenterSession ;;
          modules_step r
      end
  end.

Definition reconcileNormal (r : clusterReconciler) : MC Result :=
  zones <- try reconcileDeploymentZones ;;
  match zones with
  | inr err =>
      cond_set (cond VSphereClusterFailureDomainsReadyCondition ConditionFalse
        VSphereClusterFailureDomainsNotReadyReason (error_string err)) ;;
      fail err
  | inl ok => if negb ok then ret tenSeconds else reconcile_vcenter r
  end.

(** * [Reconcile] *)

Definition reconcile_cluster (r : clusterReconciler) : MC Result :=
  c <- get ;;
  match om_DeletionTimestamp (vc_ObjectMeta (cl_VSphereCluster c)) with
  | Some _ => reconcileDelete r
  | None =>
      match cl_Cluster c with
      | None => ret 0
      | Some _ => reconcileNormal r
      end
  end.

Definition Reconcile (r : clusterReconciler) (namespace name : string) : M Ev unit Result :=
  got <- try (call_res (GetVSphereCluster namespace name)) ;;
  match got with
  | inr err => if IsNotFound err then ret 0 else fail err
  | inl vsphereCluster =>
      let om := vc_ObjectMeta vsphereCluster in
      cluster <- call_res (GetOwnerCluster om) ;;
      finalizerAdded <- call_res (EnsureFinalizerOf "VSphereCluster" om ClusterFinalizer) ;;
      if (finalizerAdded : bool) then ret 0
      else
        call_res (NewPatchHelperOf "VSphereCluster" om) ;;
        paused <- call_res (EnsurePausedConditionOf cluster "VSphereCluster" om) ;;
        if (paused.1 || paused.2 : bool) then ret 0
        else local (mkClusterContext cluster vsphereCluster) (finally patch_on_exit (reconcile_cluster r))
  end.

(** * Which VSphereClusters to reconcile when another object changes *)

Definition controlPlaneMachineToCluster (vsphereMachine : VSphereMachine) : M Ev unit (list (string * string)) :=
  let om := p_ObjectMeta vsphereMachine in
  let addresses := map (fun a => (ma_Type a, ma_Address a)) (pt_Addresses (p_Status vsphereMachine)) in
  if negb (MachineUtil.IsControlPlaneMachine (om_Labels om)) then ret []
  else if zlen addresses =? 0 then ret []
  else
    match MachineUtil.GetMachinePreferredIPAddress addresses with
    | Stop w => of_res (Stop w)
    | Err _ => ret []
    | Ok _ =>
        rcl <- try (call_res (GetClusterFromMetadata om)) ;;
        match rcl with
        | inr _ => ret []
        | inl cluster =>
            if conditions_IsTrue (kc_Conditions cluster) ClusterControlPlaneInitializedCondition then ret []
            else if negb (String.eqb (ep_Host (kc_ControlPlaneEndpoint cluster)) "" &&
                          (ep_Port (kc_ControlPlaneEndpoint cluster) =? 0)) then ret []
            else
              match kc_InfrastructureRefName cluster with
              | None => ret []
              | Some name =>
                  rvc <- try (call_res (GetVSphereCluster (om_Namespace om) name)) ;;
                  match rvc with
                  | inr _ => ret []
                  | inl vsphereCluster =>
                      let endpoint := ls_ControlPlaneEndpoint (vc_Spec vsphereCluster) in
                      if negb (String.eqb (ep_Host endpoint) "") && negb (ep_Port endpoint =? 0) then ret []
                      else ret [(om_Namespace om, name)]
                  end
              end
        end
    end.

Definition deploymentZoneToCluster (obj : VSphereDeploymentZone) : M Ev unit (list (string * string)) :=
  rcl <- try (call_res ListVSphereClusters) ;;
  match rcl with
  | inr _ => ret []
  | inl clusters =>
      ret (omap (M:=list) (fun cluster : VSphereCluster =>
             if String.eqb (dz_Server (zn_Spec obj)) (ls_Server (vc_Spec cluster))
             then Some (om_Namespace (vc_ObjectMeta cluster), om_Name (vc_ObjectMeta cluster)) else None) clusters)
  end.
End controller.

(** One step, with the operations on the VSphereCluster as steps of their own. *)
Ltac cl_step :=
  lazymatch goal with
  | |- wpm getVC _ _ => apply wpm_gets
  | |- wpm (on_vc _) _ _ => apply wpm_modify
  | _ => cond_step
  end; cbn beta iota zeta delta [res_wrap].

(** * Lemmas *)

Definition finalizers (c : ClusterContext) : list string := om_Finalizers (vc_ObjectMeta (cl_VSphereCluster c)).
Definition deleting (c : ClusterContext) : bool :=
  negb (not_deleted (vc_ObjectMeta (cl_VSphereCluster c))).
Definition provisioned (c : ClusterContext) : option bool := vc_Provisioned (cl_VSphereCluster c).

(** What the reconciliation of the modules keeps of the object. *)
Definition unmanaged (c : ClusterContext) :=
  let vc := cl_VSphereCluster c in
  (cl_Cluster c, vc_ObjectMeta vc, set_ls_ClusterModules [] (vc_Spec vc),
   (vc_VCenterVersion vc, vc_FailureDomains vc, vc_Provisioned vc)).

Section lemmas.
Context `{Libs}.

Lemma adorned_unmanaged c c' : adorned c c' -> unmanaged c' = unmanaged c.
Proof. by apply (adorned_field unmanaged). Qed.

Lemma reconcileClusterModules_unmanaged r : preserves unmanaged (reconcileClusterModules r).
Proof.
  unfold reconcileClusterModules. apply preserves_bind; [apply preserves_gets|]. intros vc.
  destruct (_ && _); [|apply preserves_ret]. apply preserves_bind; [|intros _; apply preserves_ret].
  apply Reconcile_preserves; [done| |done]. intros s rs m c. by apply wpm_cond_set.
Qed.

(** ** Deletion *)

Definition machines_gone (c : ClusterContext) (tr : trace) : Prop :=
  match cl_Cluster c with
  | None => True
  | Some cluster =>
      Call (ListVSphereMachines (om_Namespace (kc_ObjectMeta cluster)) (om_Name (kc_ObjectMeta cluster))) (Ok []) ∈ tr
  end.

(** The secret of the identity is not there, or it was seen, no longer has the
    finalizer, and is deleted. *)
Definition secret_released (c : ClusterContext) (tr : trace) : Prop :=
  let vc := cl_VSphereCluster c in
  let key := secret_key vc in
  IsSecretIdentity (Some vc) = true ->
  (exists e, IsNotFound e = true /\ Call (GetObject "Secret" key.1 key.2) (Err e) ∈ tr) \/
  exists secret, let freed := without_finalizer SecretIdentitySetFinalizer secret in
    Call (GetObject "Secret" key.1 key.2) (Ok secret) ∈ tr /\
    (SecretIdentitySetFinalizer ∈ om_Finalizers secret -> Call (UpdateObject "Secret" freed) (Ok tt) ∈ tr) /\
    (not_deleted secret = true -> Call (DeleteObject "Secret" freed) (Ok tt) ∈ tr).

Definition delete_post (c : ClusterContext) (tr : trace) (r : res Result) (c' : ClusterContext) : Prop :=
  finalizers c' = finalizers c \/
  r = Ok 0 /\ finalizers c' = (RemoveFinalizer (finalizers c) ClusterFinalizer).1 /\
  machines_gone c tr /\ secret_released c tr.

Lemma machines_gone_app c tr tr' : machines_gone c tr' -> machines_gone c (tr ++ tr').
Proof. unfold machines_gone. destruct (cl_Cluster c); [|done]. intros; in_trace. Qed.

Lemma secret_released_app c tr tr' : secret_released c tr' -> secret_released c (tr ++ tr').
Proof.
  intros Hs Hid. destruct (Hs Hid) as [(e & He & Hin)|(secret & Hin & Hu & Hd)]; [left|right].
  - exists e. split; [done|in_trace].
  - exists secret. split_and!; [in_trace|intros Hf; specialize (Hu Hf); in_trace|intros Hf; specialize (Hd Hf); in_trace].
Qed.

(** The parts of the context the deletion goes by. *)
Lemma unmanaged_same c c' : unmanaged c' = unmanaged c ->
  finalizers c' = finalizers c /\ cl_Cluster c' = cl_Cluster c /\
  secret_key (cl_VSphereCluster c') = secret_key (cl_VSphereCluster c) /\
  IsSecretIdentity (Some (cl_VSphereCluster c')) = IsSecretIdentity (Some (cl_VSphereCluster c)) /\
  om_Name (vc_ObjectMeta (cl_VSphereCluster c')) = om_Name (vc_ObjectMeta (cl_VSphereCluster c)) /\
  provisioned c' = provisioned c.
Proof.
  intros Hu. unfold unmanaged in Hu. injection Hu as Hc Hm _ _ _ Hid _ _ _ _ Hp.
  unfold finalizers, secret_key, IsSecretIdentity, provisioned. by rewrite Hm, Hid, Hc, Hp.
Qed.

Lemma release_cluster_spec r c :
  wpm (release_cluster r) c (fun tr res c' => finalizers c' = finalizers c \/
    res = Ok 0 /\ finalizers c' = (RemoveFinalizer (finalizers c) ClusterFinalizer).1 /\ secret_released c tr).
Proof.
  unfold release_cluster. cl_step. eapply wpm_mono; [apply reconcileClusterModules_unmanaged|].
  intros tr0 [_r|e|w] c1 Hu; destruct (unmanaged_same _ _ Hu) as (Hf & _ & Hk & Hi & _); cbn beta iota;
    [|by left..]. unfold secret_released. cbn zeta. rewrite <-Hk, <-Hi, <-Hf.
  cl_step. cl_step. destruct (IsSecretIdentity (Some (cl_VSphereCluster c1))) eqn:E.
  2:{ do 2 cl_step. cl_step. right. by split_and!. }
  do 3 cl_step; cbn beta iota; [| |by left].
  - cl_step. eapply wpm_mono; [apply release_secret_spec|].
    intros tr1 [[]|e|w] c2 [-> Hs]; cbn beta iota; [|by left..].
    do 2 cl_step. cl_step. right. split_and!; [done..|]. intros _. right. exists a.
    destruct Hs as [Hu' Hd]. split_and!.
    + in_trace.
    + intros Hin. specialize (Hu' Hin). in_trace.
    + intros Hin. specialize (Hd Hin). in_trace.
  - destruct (IsNotFound e) eqn:En; [|by cl_step; left]. do 2 cl_step. cl_step. right. split_and!; [done..|].
    intros _. left. exists e. split; [done|in_trace].
Qed.

Lemma cluster_delete_spec r c : wpm (reconcileDelete r) c (delete_post c).
Proof.
  unfold reconcileDelete, delete_post. do 6 cl_step.
  set (c1 := put_conditions _ _). assert (Hu : unmanaged c1 = unmanaged c) by done. clearbody c1.
  destruct (unmanaged_same _ _ Hu) as (Hf & Hc & Hk & Hi & _). do 2 cl_step. cbn zeta. cl_step.
  rewrite Hc, <-Hf. unfold secret_released, machines_gone. cbn zeta. rewrite <-Hk, <-Hi.
  assert (Hrest : forall (machines : list VSphereMachine) trm, ((0 <? zlen machines) = false -> machines_gone c trm) ->
    wpm (if 0 <? zlen machines then ret tenSeconds else release_cluster r) c1 (fun tr' res c' =>
      finalizers c' = finalizers c1 \/ res = Ok 0 /\ finalizers c' = (RemoveFinalizer (finalizers c1) ClusterFinalizer).1 /\
      machines_gone c trm /\ secret_released c1 tr')).
  { intros machines trm Hm. destruct (0 <? zlen machines); [by cl_step; left|].
    eapply wpm_mono; [apply release_cluster_spec|]. intros tr res c' [?|(? & ? & ?)]; [by left|right; split_and!; auto]. }
  destruct (cl_Cluster c) as [cluster|] eqn:Ecl.
  - do 2 cl_step; cbn beta iota; [|by left..].
    eapply wpm_mono; [apply (Hrest a [Call (ListVSphereMachines (om_Namespace (kc_ObjectMeta cluster))
      (om_Name (kc_ObjectMeta cluster))) (Ok a)])|].
    + intros Hz. unfold machines_gone. rewrite Ecl. destruct a as [|x a]; [by apply list_elem_of_singleton|].
      exfalso. apply Z.ltb_ge in Hz. unfold zlen in Hz. cbn [length] in Hz. lia.
    + intros tr res c' [?|(-> & ? & Hm & Hs)]; [by left|right]. split_and!; [done..| |].
      * unfold machines_gone in Hm. rewrite Ecl in Hm. apply list_elem_of_singleton in Hm. rewrite Hm. in_trace.
      * do 7 (apply (secret_released_app c1 [_]) || apply (secret_released_app c1 [])). exact Hs.
  - cl_step. eapply wpm_mono; [apply (Hrest [] []); intros _; unfold machines_gone; by rewrite Ecl|].
    intros tr res c' [?|(-> & ? & Hm & Hs)]; [by left|right]. split_and!; [done..|].
    do 6 (apply (secret_released_app c1 [_]) || apply (secret_released_app c1 [])). exact Hs.
Qed.

(** ** Failure domains *)

Definition same_server (server : string) (zone : VSphereDeploymentZone) : bool :=
  String.eqb (dz_Server (zn_Spec zone)) server.
Definition eligible (server : string) (zone : VSphereDeploymentZone) : bool :=
  same_server server zone && match zn_Ready zone with Some false => false | _ => true end.
Definition unreported (server : string) (zone : VSphereDeploymentZone) : bool :=
  same_server server zone && match zn_Ready zone with None => true | _ => false end.
Definition unready (server : string) (zone : VSphereDeploymentZone) : bool :=
  same_server server zone && match zn_Ready zone with Some false => true | _ => false end.
Definition domain_of (zone : VSphereDeploymentZone) : KubeFailureDomain :=
  mkKubeFailureDomain (om_Name (zn_ObjectMeta zone)) (dz_ControlPlane (zn_Spec zone)).

Lemma fold_zones server zones n m fds :
  foldl (zone_turn server) (n, m, fds) zones =
    (n + zlen (List.filter (unreported server) zones), m + zlen (List.filter (unready server) zones),
     (fds ++ map domain_of (List.filter (eligible server) zones))%list).
Proof.
  revert n m fds. induction zones as [|zone zones IH]; intros n m fds.
  - cbn. unfold zlen. cbn. by rewrite app_nil_r, !Z.add_0_r.
  - cbn [foldl List.filter]. unfold zone_turn, unreported, unready, eligible, same_server.
    destruct (String.eqb (dz_Server (zn_Spec zone)) server) eqn:E; cbn [negb andb];
      [destruct (zn_Ready zone) as [[|]|]|]; rewrite IH; unfold zlen, unreported, unready, eligible, same_server; cbn [map length];
      rewrite <-?app_assoc; cbn [app]; rewrite !pair_equal_spec; split_and!; (lia || done).
Qed.

Lemma zlen_zero {A} (f : A -> bool) l : (0 <? zlen (List.filter f l)) = false <-> forall x, x ∈ l -> f x = false.
Proof.
  unfold zlen. rewrite Z.ltb_ge. split.
  - intros Hz x Hx. destruct (f x) eqn:E; [|done]. exfalso.
    assert (Hin : In x (List.filter f l)) by (apply filter_In; split; [by apply list_elem_of_In|done]).
    destruct (List.filter f l); [done|cbn in Hz; lia].
  - intros Hf. destruct (List.filter f l) as [|x l'] eqn:E; [done|].
    assert (Hin : In x (List.filter f l)) by (rewrite E; by left).
    apply filter_In in Hin as [Hin Hx]. rewrite (Hf x) in Hx; [done|by apply list_elem_of_In].
Qed.

(** The failure domains are those of the zones that were listed; [ok] says
    whether every zone of the server has reported. *)
Definition domains_set (c : ClusterContext) (tr : trace) (ok : bool) (c' : ClusterContext) : Prop :=
  let server := ls_Server (vc_Spec (cl_VSphereCluster c)) in
  match ls_FailureDomainSelector (vc_Spec (cl_VSphereCluster c)) with
  | None => ok = true /\ c' = c
  | Some selector =>
      exists zones, Call (ListVSphereDeploymentZones (Some selector)) (Ok zones) ∈ tr /\
        vc_FailureDomains (cl_VSphereCluster c') = sort_by kf_Name (map domain_of (List.filter (eligible server) zones)) /\
        (ok = true <-> forall zone, zone ∈ zones -> same_server server zone = true -> zn_Ready zone <> None)
  end.

Lemma domains_adorned (c1 c' : ClusterContext) : adorned c1 c' -> vc_FailureDomains (cl_VSphereCluster c') = vc_FailureDomains (cl_VSphereCluster c1).
Proof. by apply (adorned_field (fun c => vc_FailureDomains (cl_VSphereCluster c))). Qed.

Lemma reconcileDeploymentZones_spec c :
  wpm reconcileDeploymentZones c (fun tr r c' => effects tr = [] /\
    provisioned c' = provisioned c /\ match r with Ok ok => domains_set c tr ok c' | _ => True end).
Proof.
  unfold reconcileDeploymentZones, domains_set. do 2 cl_step.
  destruct (ls_FailureDomainSelector _) as [selector|]; [|by cl_step].
  destruct (selector_valid selector); cbn [negb]; [|by cl_step]. do 3 cl_step; cbn beta iota; [|done..].
  rewrite fold_zones. cbn [app]. do 2 cl_step. set (server := ls_Server _).
  set (c1 := set_cl_VSphereCluster _ c).
  assert (Hrep : (0 <? 0 + zlen (List.filter (unreported server) a)) = false <->
    forall zone, zone ∈ a -> same_server server zone = true -> zn_Ready zone <> None).
  { rewrite Z.add_0_l, zlen_zero. unfold unreported. split; intros Hz zone Hin.
    - specialize (Hz zone Hin). intros Hs Hr. by rewrite Hs, Hr in Hz.
    - specialize (Hz zone Hin). destruct (same_server server zone); [|done]. cbn [andb].
      destruct (zn_Ready zone); [done|]. by destruct Hz. }
  assert (Hd : forall tr (c' : ClusterContext) ok, adorned c1 c' -> effects tr = [] ->
    (ok = true <-> (0 <? 0 + zlen (List.filter (unreported server) a)) = false) ->
    effects ([] ++ [Call (ListVSphereDeploymentZones (Some selector)) (Ok a)] ++ [] ++ tr) = [] /\
    provisioned c' = provisioned c /\ exists zones,
      Call (ListVSphereDeploymentZones (Some selector)) (Ok zones) ∈ ([] ++ [Call (ListVSphereDeploymentZones (Some selector)) (Ok a)] ++ [] ++ tr)%list /\
      vc_FailureDomains (cl_VSphereCluster c') = sort_by kf_Name (map domain_of (List.filter (eligible server) zones)) /\
      (ok = true <-> forall zone, zone ∈ zones -> same_server server zone = true -> zn_Ready zone <> None)).
  { intros tr c' ok Had He Hok. split; [by trace_simpl|]. split; [by apply (adorned_field provisioned) in Had|].
    exists a. split; [in_trace|]. split; [|by rewrite Hok].
    by rewrite (domains_adorned _ _ Had). }
  destruct (0 <? 0 + _) eqn:Eun.
  - do 2 cl_step. do 2 cl_step. cl_step. rewrite <-?app_assoc, ?app_nil_r. apply (Hd [_; _]); [|done..].
    etrans; [apply adorned_put_v1beta1|apply adorned_put].
  - assert (Ha : adorns (if 0 <? zlen (map domain_of (List.filter (eligible server) a)) then
        if 0 <? 0 + zlen (List.filter (unready server) a) then
          cond_false FailureDomainsAvailableV1Beta1Condition FailureDomainsSkippedV1Beta1Reason SeverityInfo
            "one or more failure domains are not ready" ;;
          cond_set (cond VSphereClusterFailureDomainsReadyCondition ConditionFalse
            VSphereClusterFailureDomainsNotReadyReason "One or more failure domains are not ready")
        else
          cond_true FailureDomainsAvailableV1Beta1Condition ;;
          cond_set (cond VSphereClusterFailureDomainsReadyCondition ConditionTrue
            VSphereClusterFailureDomainsReadyReason "")
      else cond_v1beta1_delete (St:=ClusterContext) FailureDomainsAvailableV1Beta1Condition)%go) by solve_adorns.
    apply wpm_adorns_bind; [exact Ha|..].
    1-2: intros tr x s' He Had; (split; [by trace_simpl|]); split; [by apply (adorned_field provisioned) in Had|done].
    intros tr u s' He Had. cl_step. rewrite app_nil_r. by apply Hd.
Qed.

(** ** The version of vCenter

    A failure leaves an error to report; without one the version is not empty. *)
Lemma version_step_spec s c :
  wpm (version_step s) c (fun tr r c' => r = Ok tt /\ effects tr = [] /\ provisioned c' = provisioned c /\
    the_condition VSphereClusterVCenterAvailableCondition c' = the_condition VSphereClusterVCenterAvailableCondition c /\
    (vc_VCenterVersion (cl_VSphereCluster c') = vc_VCenterVersion (cl_VSphereCluster c) \/
     exists m, semver_major (vc_VCenterVersion (cl_VSphereCluster c')) = Some m /\ 6 <= m)).
Proof.
  unfold version_step, reconcileVCenterVersion. do 4 cl_step. eapply wpm_mono; [apply GetVersion_spec|].
  intros tr [v|e|w] c' (He & -> & Hv); cbn beta iota delta [res_wrap]; [| |done].
  - cl_step. do 2 cl_step. destruct Hv as (m & Hm & Hle). cbn [set_cl_VSphereCluster cl_VSphereCluster vc_VCenterVersion set_vc_VCenterVersion].
    destruct (String.eqb_spec v "") as [->|]; [by rewrite semver_major_empty in Hm|].
    cl_step. split_and!; [done|by trace_simpl|done..|]. right. by exists m.
  - do 2 cl_step. do 2 cl_step. cl_step. split_and!; [done|by trace_simpl|done| |by left].
    unfold the_condition. rewrite the_put. rewrite conditions_Get_Set_other by discriminate. by rewrite the_other.
Qed.

(** ** The rest of a pass *)

Definition vcenter_available (c : ClusterContext) : Prop :=
  exists cnd, the_condition VSphereClusterVCenterAvailableCondition c = Some cnd /\ c_Status cnd = ConditionTrue.

Lemma reconcileClusterModules_preserves {X} (f : ClusterContext -> X) r :
  (forall mods c, f (set_modules mods c) = f c) ->
  (forall s rs m, preserves f (cond_set (cond VSphereClusterClusterModulesReadyCondition s rs m))) ->
  (forall l s, f (put_v1beta1 l s) = f s) ->
  preserves f (reconcileClusterModules r).
Proof.
  intros H1 H2 H3. unfold reconcileClusterModules. apply preserves_bind; [apply preserves_gets|]. intros vc.
  destruct (_ && _); [|apply preserves_ret]. apply preserves_bind; [|intros _; apply preserves_ret].
  by apply Reconcile_preserves.
Qed.

Lemma modules_step_spec r c :
  wpm (modules_step r) c (fun tr res c' =>
    the_condition VSphereClusterVCenterAvailableCondition c' = the_condition VSphereClusterVCenterAvailableCondition c /\
    (provisioned c' = provisioned c \/ res = Ok 0 /\ provisioned c' = Some true)).
Proof.
  unfold modules_step. do 2 cl_step. apply wpm_runs. intros tr res c1 Hr.
  assert (Hp : provisioned c1 = provisioned c).
  { assert (Hpres : preserves provisioned (reconcileClusterModules r)).
    { apply reconcileClusterModules_preserves; [done| |done]. intros s rs m s0. by apply wpm_cond_set. }
    exact (proj1 (wpm_runs _ _ _) (Hpres c) _ _ _ Hr). }
  assert (Hv : the_condition VSphereClusterVCenterAvailableCondition c1 = the_condition VSphereClusterVCenterAvailableCondition c).
  { assert (Hpres : preserves (the_condition VSphereClusterVCenterAvailableCondition) (reconcileClusterModules r)).
    { apply reconcileClusterModules_preserves; [done| |by intros; apply the_other_condition].
      intros s rs m. by apply preserves_cond_set. }
    exact (proj1 (wpm_runs _ _ _) (Hpres c) _ _ _ Hr). }
  revert Hp Hv. destruct res as [x|e|w]; cbn beta iota; intros Hp Hv; [| |by split; [|left]].
  - do 2 cl_step. cl_step. split; [exact Hv|by right].
  - do 2 cl_step. do 2 cl_step. cl_step. split; [|by left].
    unfold the_condition. rewrite the_put. rewrite conditions_Get_Set_other by discriminate. by rewrite the_other.
Qed.

Lemma fetchSession_same mgr params c : wpm (fetchSession mgr params) c (fun _ _ c' => c' = c).
Proof. eapply wpm_mono; [apply fetchSession_acts|]. by intros tr r c' [_ ->]. Qed.

Lemma reconcileIdentitySecret_same c : wpm reconcileIdentitySecret c (fun _ _ c' => c' = c).
Proof.
  unfold reconcileIdentitySecret. do 2 cl_step. destruct (negb _); [by cl_step|]. cbn zeta. do 2 cl_step; cbn beta iota; [|done..].
  destruct (_ && _); [by cl_step|]. do 2 cl_step; cbn beta iota; [|done..]. by cl_step.
Qed.

(** Every zone of the server the selector finds has reported whether it is
    ready. *)
Definition zones_reported (c : ClusterContext) (tr : trace) : Prop :=
  forall selector, ls_FailureDomainSelector (vc_Spec (cl_VSphereCluster c)) = Some selector ->
  exists zones, Call (ListVSphereDeploymentZones (Some selector)) (Ok zones) ∈ tr /\
    forall zone, zone ∈ zones -> same_server (ls_Server (vc_Spec (cl_VSphereCluster c))) zone = true -> zn_Ready zone <> None.

Definition normal_post (c : ClusterContext) (tr : trace) (r : res Result) (c' : ClusterContext) : Prop :=
  provisioned c' = provisioned c \/
  r = Ok 0 /\ provisioned c' = Some true /\ vcenter_available c' /\ zones_reported c tr.

Lemma vcenter_unreachable_provisioned {A} e m c :
  wpm (vcenter_unreachable (A:=A) e m) c (fun _ _ c' => provisioned c' = provisioned c).
Proof. unfold vcenter_unreachable. do 4 cl_step. by cl_step. Qed.

Lemma reconcile_vcenter_spec r c :
  wpm (reconcile_vcenter r) c (fun tr res c' => provisioned c' = provisioned c \/
    res = Ok 0 /\ provisioned c' = Some true /\ vcenter_available c').
Proof.
  unfold reconcile_vcenter. do 2 cl_step. eapply wpm_mono; [apply reconcileIdentitySecret_same|].
  intros tr [u|e|w] c' ->; cbn beta iota; [| |by left].
  2:{ eapply wpm_mono; [apply vcenter_unreachable_provisioned|]. by left. }
  do 2 cl_step. unfold reconcileVCenterConnectivity. do 2 cl_step. eapply wpm_mono; [apply fetchSession_same|].
  intros tr1 [s|e|w] c' ->; cbn beta iota; [| |by left].
  2:{ do 2 cl_step. eapply wpm_mono; [apply vcenter_unreachable_provisioned|]. by left. }
  do 4 cl_step. set (c1 := put_conditions _ _).
  assert (Hc1 : vcenter_available c1).
  { destruct (the_condition_set now0 (cond VSphereClusterVCenterAvailableCondition ConditionTrue
      VSphereClusterVCenterAvailableReason "") (put_v1beta1 l c)) as (g & t & E). by eexists. }
  assert (Hp1 : provisioned c1 = provisioned c) by done. clearbody c1.
  cl_step. eapply wpm_mono; [apply version_step_spec|].
  intros tr2 r2 c2 (-> & _ & Hp2 & Hv2 & _). cbn beta iota. eapply wpm_mono; [apply modules_step_spec|].
  intros tr3 r3 c3 [Hv3 [Hp3|[-> Hp3]]]; [left; congruence|right]. split_and!; [done..|].
  unfold vcenter_available in *. by rewrite Hv3, Hv2.
Qed.

Lemma cluster_normal_spec r c : wpm (reconcileNormal r) c (normal_post c).
Proof.
  unfold reconcileNormal, normal_post. do 2 cl_step. eapply wpm_mono; [apply reconcileDeploymentZones_spec|].
  intros tr [ok|e|w] c1 (He & Hp & Hd); cbn beta iota; [| |by left].
  - destruct ok; cbn [negb]; [|by cl_step; left].
    eapply wpm_mono; [apply reconcile_vcenter_spec|]. intros tr' res c' [?|(-> & ? & ?)]; [left; congruence|right].
    split_and!; [done..|]. intros selector Hsel. unfold domains_set in Hd. rewrite Hsel in Hd.
    destruct Hd as (zones & Hin & _ & [Hok _]). exists zones. split; [in_trace|by apply Hok].
  - do 2 cl_step. cl_step. by left.
Qed.

Lemma reconcileDelete_provisioned r : preserves provisioned (reconcileDelete r).
Proof.
  assert (Hset : forall c, preserves provisioned (cond_set c)) by (intros c s; by apply wpm_cond_set).
  assert (Hfin : preserves provisioned (on_vc remove_cluster_finalizer)) by (by apply preserves_modify).
  assert (Hrel : forall secret, preserves provisioned (release_secret secret)).
  { intros secret c. eapply wpm_mono; [apply release_secret_spec|]. by intros tr res c' [-> _]. }
  assert (Hmod : preserves provisioned (reconcileClusterModules r)).
  { apply reconcileClusterModules_preserves; [done| |done]. intros. apply Hset. }
  unfold reconcileDelete, release_cluster, getVC.
  repeat (apply preserves_bind; [first [apply Hset|apply preserves_get|apply preserves_gets|exact Hmod]|intros ?]). cbn zeta.
  apply preserves_bind; [destruct (cl_Cluster _); solve_preserves|]. intros machines.
  destruct (0 <? _); [apply preserves_ret|].
  repeat (apply preserves_bind; [first [apply preserves_gets|exact Hmod]|intros ?]).
  destruct (IsSecretIdentity _).
  - apply preserves_bind; [apply preserves_try, preserves_call|]. intros [secret|e].
    + apply preserves_bind; [apply Hrel|]. intros _. apply preserves_bind; [exact Hfin|]. intros _. apply preserves_ret.
    + destruct (IsNotFound e); [|apply preserves_fail]. apply preserves_bind; [exact Hfin|]. intros _. apply preserves_ret.
  - apply preserves_bind; [exact Hfin|]. intros _. apply preserves_ret.
Qed.

Lemma reconcileNormal_finalizers r : preserves finalizers (reconcileNormal r).
Proof.
  assert (Hset : forall c, preserves finalizers (cond_set c)) by (intros c s; by apply wpm_cond_set).
  assert (Hfalse : forall t rs v m, preserves finalizers (cond_false t rs v m)) by (intros t rs v m s; by apply wpm_cond_false).
  assert (Htrue : forall t, preserves finalizers (cond_true t)) by (intros t s; by apply wpm_cond_true).
  assert (Hdel : forall t, preserves finalizers (cond_v1beta1_delete t)) by (intros t s; by apply wpm_cond_v1beta1_delete).
  assert (Hunr : forall A e m, preserves finalizers (vcenter_unreachable (A:=A) e m)).
  { intros A e m. unfold vcenter_unreachable. repeat (apply preserves_bind; [first [apply Hfalse|apply Hset]|intros _]).
    apply preserves_fail. }
  assert (Hzones : preserves finalizers reconcileDeploymentZones).
  { unfold reconcileDeploymentZones. apply preserves_bind; [apply preserves_gets|]. intros vc.
    destruct (ls_FailureDomainSelector _); [|apply preserves_ret]. destruct (negb _); [apply preserves_fail|].
    apply preserves_bind; [apply preserves_wrap, preserves_call|]. intros zones.
    destruct (foldl _ _ _) as [[n m] fds]. apply preserves_bind; [by apply preserves_modify|]. intros _.
    destruct (0 <? n).
    - apply preserves_bind; [apply Hfalse|]. intros _. apply preserves_bind; [apply Hset|]. intros _. apply preserves_ret.
    - apply preserves_bind; [|intros _; apply preserves_ret].
      destruct (0 <? zlen fds); [destruct (0 <? m)|apply Hdel].
      + apply preserves_bind; [apply Hfalse|]. intros _. apply Hset.
      + apply preserves_bind; [apply Htrue|]. intros _. apply Hset. }
  assert (Hmod : preserves finalizers (reconcileClusterModules r)).
  { apply reconcileClusterModules_preserves; [done| |done]. intros. apply Hset. }
  assert (Hversion : forall s, preserves finalizers (version_step s)).
  { intros s. unfold version_step, reconcileVCenterVersion. apply preserves_bind.
    - apply preserves_try, preserves_bind; [apply preserves_wrap, preserves_reads, reads_GetVersion|].
      intros v. by apply preserves_modify.
    - intros res. apply preserves_bind; [apply preserves_gets|]. intros vc.
      destruct (match res with inl _ => _ | inr _ => _ end); [|apply preserves_ret].
      apply preserves_bind; [apply Hfalse|]. intros _. destruct res; [apply preserves_panic|apply Hset]. }
  unfold reconcileNormal. apply preserves_bind; [by apply preserves_try|]. intros [ok|e].
  2:{ apply preserves_bind; [apply Hset|]. intros _. apply preserves_fail. }
  destruct (negb ok); [apply preserves_ret|]. unfold reconcile_vcenter.
  apply preserves_bind.
  { apply preserves_try. intros c. eapply wpm_mono; [apply reconcileIdentitySecret_same|]. by intros tr res c' ->. }
  intros [u|e]; [|apply Hunr]. apply preserves_bind.
  { unfold reconcileVCenterConnectivity. apply preserves_try, preserves_bind; [apply preserves_gets|]. intros vc c.
    eapply wpm_mono; [apply fetchSession_same|]. by intros tr res c' ->. }
  intros [session|e].
  2:{ apply preserves_bind; [apply preserves_get|]. intros c. apply Hunr. }
  apply preserves_bind; [apply Htrue|]. intros _. apply preserves_bind; [apply Hset|]. intros _.
  apply preserves_bind; [apply Hversion|]. intros _. unfold modules_step.
  apply preserves_bind; [by apply preserves_try|]. intros [x|e].
  - apply preserves_bind; [by apply preserves_modify|]. intros _. apply preserves_ret.
  - apply preserves_bind; [apply Hfalse|]. intros _. apply preserves_bind; [apply Hset|]. intros _. apply preserves_fail.
Qed.

Lemma reconcile_cluster_spec r c :
  wpm (reconcile_cluster r) c (fun tr res c' =>
    if deleting c then delete_post c tr res c' /\ provisioned c' = provisioned c
    else finalizers c' = finalizers c /\ normal_post c tr res c').
Proof.
  unfold reconcile_cluster, deleting, not_deleted. do 2 cl_step.
  destruct (om_DeletionTimestamp _); cbn [negb].
  - apply wpm_runs. intros tr res c' Hr.
    split; [exact (proj1 (wpm_runs _ _ _) (cluster_delete_spec r c) _ _ _ Hr)|].
    exact (proj1 (wpm_runs _ _ _) (reconcileDelete_provisioned r c) _ _ _ Hr).
  - destruct (cl_Cluster c); [|cl_step; split; [done|by left]]. apply wpm_runs. intros tr res c' Hr.
    split; [exact (proj1 (wpm_runs _ _ _) (reconcileNormal_finalizers r c) _ _ _ Hr)|].
    exact (proj1 (wpm_runs _ _ _) (cluster_normal_spec r c) _ _ _ Hr).
Qed.

(** ** The secret of the identity *)

(** The secret is one the cluster may use: it owns it, or no cluster and no
    identity does. *)
Definition secret_usable (c : ClusterContext) (secret : ObjectMeta) : Prop :=
  IsOwnedByObject (om_OwnerReferences secret) GroupName "VSphereCluster" (om_Name (vc_ObjectMeta (cl_VSphereCluster c))) = true \/
  IsOwnedByIdentityOrCluster (om_OwnerReferences secret) = false.

Definition owner_of_secret (c : ClusterContext) : OwnerReference :=
  let om := vc_ObjectMeta (cl_VSphereCluster c) in owner_ref GroupVersion "VSphereCluster" (om_Name om) (om_UID om).

Definition secret_taken (c : ClusterContext) (tr : trace) (secret' : ObjectMeta) : Prop :=
  exists secret, let key := secret_key (cl_VSphereCluster c) in
    Call (GetObject "Secret" key.1 key.2) (Ok secret) ∈ tr /\ secret_usable c secret /\
    owner_of_secret c ∈ om_OwnerReferences secret' /\ SecretIdentitySetFinalizer ∈ om_Finalizers secret'.

Definition secret_post (c : ClusterContext) (tr : trace) (r : res unit) : Prop :=
  (forall k s' x, Call (PatchObject k s') x ∈ tr -> k = "Secret" /\ secret_taken c tr s') /\
  (r = Ok tt -> IsSecretIdentity (Some (cl_VSphereCluster c)) = true ->
   exists s', secret_taken c tr s' /\ Call (PatchObject "Secret" s') (Ok tt) ∈ tr).

(** The cases of a membership in a short trace. *)
Ltac in_cases E :=
  rewrite ?elem_of_app, ?elem_of_cons, ?elem_of_nil in E;
  repeat match type of E with _ \/ _ => destruct E as [E|E] end.
Ltac no_patch := let E := fresh in intros ? ? ? E; in_cases E; first [discriminate E|done].

Lemma reconcileIdentitySecret_spec c : wpm reconcileIdentitySecret c (fun tr r c' => c' = c /\ secret_post c tr r).
Proof.
  assert (Hno : forall tr e, (forall k s' x, Call (PatchObject k s') x ∉ tr) -> secret_post c tr (Err e)).
  { intros tr e Hn. split; [|done]. intros k s' x Hin. by apply Hn in Hin. }
  assert (Hstop : forall tr w, (forall k s' x, Call (PatchObject k s') x ∉ tr) -> secret_post c tr (Stop w)).
  { intros tr w Hn. split; [|done]. intros k s' x Hin. by apply Hn in Hin. }
  unfold reconcileIdentitySecret. do 2 cl_step. destruct (IsSecretIdentity _) eqn:Eid; cbn [negb].
  2:{ cl_step. split; [done|]. split; [by intros ? ? ? ?%elem_of_nil|]. intros _ E. by rewrite Eid in E. }
  cbn zeta. set (key := secret_key _). do 2 cl_step; cbn beta iota.
  2-3: split; [done|]; first [apply Hno|apply Hstop]; no_patch.
  destruct (IsOwnedByObject _ _ _ _) eqn:Eown; cbn [negb andb].
  2: destruct (IsOwnedByIdentityOrCluster (om_OwnerReferences a)) eqn:Eoth; cbn [andb].
  2:{ cl_step. split; [done|]. apply Hno. no_patch. }
  all: do 2 cl_step; cbn beta iota.
  2, 3, 5, 6: split; [done|]; first [apply Hno|apply Hstop]; no_patch.
  all: set (secret' := if negb (ContainsFinalizer _ _) then _ else _).
  all: assert (Htaken : forall tr, Call (GetObject "Secret" key.1 key.2) (Ok a) ∈ tr -> secret_taken c tr secret').
  1, 3: intros tr Hin; exists a; cbn zeta; split_and!; [exact Hin|by (left + right)| |];
      unfold secret', ContainsFinalizer; cbn [om_Finalizers set_om_OwnerReferences]; case_bool_decide as Hf; cbn [negb];
      cbn [om_OwnerReferences set_om_OwnerReferences set_om_Finalizers om_Finalizers];
      first [apply EnsureOwnerRef_in|exact Hf|apply AddFinalizer_spec; by right].
  all: cl_step; (split; [done|]; split;
    [intros k s' x E; in_cases E; try discriminate E; try done; injection E as -> -> _; split; [done|apply Htaken; in_trace]
    |intros Hok _; try discriminate Hok]).
  all: injection Hok as ->; exists secret'; split; [apply Htaken|]; in_trace.
Qed.
End lemmas.

(** ** Properties *)

(** C5: the finalizer of a VSphereCluster goes away only in a pass over an object
    that is being deleted, that ends without an error, in which no VSphereMachine
    of its cluster was left, and in which the secret of its identity was let go:
    it does not exist, or its finalizer was removed and it was deleted. The other
    finalizers stay. *)
Theorem cluster_finalizer `{Libs} r c tr res c' :
  runs (reconcile_cluster r c) tr (res, c') -> ClusterFinalizer ∈ finalizers c -> ClusterFinalizer ∉ finalizers c' ->
  deleting c = true /\ res = Ok 0 /\ machines_gone c tr /\ secret_released c tr /\
  forall f, f ∈ finalizers c' <-> f ∈ finalizers c /\ f <> ClusterFinalizer.
Proof.
  intros Hr Hin Hout. pose proof (proj1 (wpm_runs _ _ _) (reconcile_cluster_spec r c) _ _ _ Hr) as Hp. cbn beta in Hp.
  destruct (deleting c); [|destruct Hp as [Hp _]; by rewrite Hp in Hout].
  destruct Hp as [[Hf|(-> & Hf & ? & ?)] _]; [by rewrite Hf in Hout|].
  split_and!; try done. intros f. rewrite Hf. apply RemoveFinalizer_spec.
Qed.

(** C6: a VSphereCluster becomes provisioned only in a pass that ends without an
    error over an object that is not being deleted, after every deployment zone of
    its server the selector finds has reported, and when a session with vCenter
    was made, which the condition VCenterAvailable says. It never stops being
    provisioned. *)
Theorem cluster_provisioned `{Libs} r c tr res c' :
  runs (reconcile_cluster r c) tr (res, c') -> provisioned c' <> provisioned c ->
  deleting c = false /\ res = Ok 0 /\ provisioned c' = Some true /\ vcenter_available c' /\ zones_reported c tr.
Proof.
  intros Hr Hne. pose proof (proj1 (wpm_runs _ _ _) (reconcile_cluster_spec r c) _ _ _ Hr) as Hp. cbn beta in Hp.
  destruct (deleting c); [by destruct Hp|]. destruct Hp as [_ [?|(? & ? & ? & ?)]]; [done|by split_and!].
Qed.

(** the failure domains of a VSphereCluster with a selector are, in the order of
    their names, those of the deployment zones the selector finds that are on the
    server of the cluster and are ready or have not reported yet, each with the
    zone's name and whether it is for the control plane; the pass goes on exactly
    when all of those on the server have reported. *)
Theorem reconcileDeploymentZones_domains `{Libs} c tr ok c' selector :
  runs (reconcileDeploymentZones c) tr (Ok ok, c') ->
  ls_FailureDomainSelector (vc_Spec (cl_VSphereCluster c)) = Some selector ->
  exists zones, let server := ls_Server (vc_Spec (cl_VSphereCluster c)) in
    let domains := vc_FailureDomains (cl_VSphereCluster c') in
    Call (ListVSphereDeploymentZones (Some selector)) (Ok zones) ∈ tr /\
    StronglySorted (key_le kf_Name) domains /\ domains ≡ₚ map domain_of (List.filter (eligible server) zones) /\
    (ok = true <-> forall zone, zone ∈ zones -> same_server server zone = true -> zn_Ready zone <> None).
Proof.
  intros Hr Hsel. destruct (proj1 (wpm_runs _ _ _) (reconcileDeploymentZones_spec c) _ _ _ Hr) as (_ & _ & Hd).
  unfold domains_set in Hd. rewrite Hsel in Hd. destruct Hd as (zones & Hin & Hfd & Hok).
  exists zones. cbn zeta. rewrite Hfd. split_and!; [done|apply sort_by_sorted|apply sort_by_perm|done..].
Qed.

(** the secret of an identity is taken only when this cluster owns it or no
    other VSphereCluster or identity does; what is written to it then has the
    cluster among its owners and the finalizer that protects it. When the step
    succeeds for an identity that is a secret, it was written so. *)
Theorem reconcileIdentitySecret_takes `{Libs} c tr r c' :
  runs (reconcileIdentitySecret c) tr (r, c') -> c' = c /\ secret_post c tr r.
Proof. intros Hr. exact (proj1 (wpm_runs _ _ _) (reconcileIdentitySecret_spec c) _ _ _ Hr). Qed.

(** * Concrete inputs *)

Section examples.
Import RefLibs.

Definition sample_reconciler : clusterReconciler :=
  mkClusterReconciler (mkManagerContext "admin" "secret" "capv-system") false.

Definition sample_cluster (deletion : Time) (identity : VSphereIdentityReference) (selector : option LabelSelector)
    (conditions : list Condition) : ClusterContext :=
  mkClusterContext
    (Some (mkKubeCluster (mkObjectMeta "cluster-1" "default" "c" None [] [] None) (Some ("VSphereCluster", "cluster-1"))
             (mkAPIEndpoint "" 0) None [] [] [] None None))
    (mkVSphereCluster (mkObjectMeta "cluster-1" "default" "uid" None [] [ClusterFinalizer] deletion)
      (mkVSphereClusterSpec "vcenter" "" (mkAPIEndpoint "" 0) identity [] None selector)
      conditions [] "" [] None "VSphereCluster").

Definition sample_zone (name server : string) (ready : option bool) : VSphereDeploymentZone :=
  mkVSphereDeploymentZone (mkObjectMeta name "" name None [] [] None)
    (mkVSphereDeploymentZoneSpec server "fd" None (mkPlacementConstraint "" "")) ready [] [].

(** A world with deployment zones, and the secret of an identity. *)
Definition zones_answer (zones : list VSphereDeploymentZone) (X : Type) (e : Ev X) (w : RefWorld) : X * RefWorld :=
  match e in Ev Y return Y * RefWorld with
  | ListVSphereDeploymentZones _ => (Ok zones, w)
  | GetObject _ ns name => (Ok (mkObjectMeta name ns name None [] [] None), w)
  | e => ref_answer _ e w
  end.
Definition run_cluster {A} (zones : list VSphereDeploymentZone) (m : M Ev ClusterContext A) (c : ClusterContext)
    : trace * (res A * ClusterContext) := exec (zones_answer zones) (m c) empty_world.
Lemma run_cluster_runs {A} zones (m : M Ev ClusterContext A) c :
  runs (m c) (run_cluster zones m c).1 ((run_cluster zones m c).2.1, (run_cluster zones m c).2.2).
Proof. rewrite <-surjective_pairing. exact (exec_runs (zones_answer zones) (m c) empty_world). Qed.

Definition sample_secret : VSphereIdentityReference := mkVSphereIdentityReference Identity.SecretKind "creds".
Definition sample_deleted : ClusterContext := sample_cluster (Some 1) sample_secret None [].
Definition sample_delete_run := run_cluster [] (reconcile_cluster sample_reconciler) sample_deleted.
Lemma sample_delete_finalizers : finalizers sample_delete_run.2.2 = [].
Proof. by vm_compute. Qed.

Lemma cluster_finalizer_witness : secret_released sample_deleted sample_delete_run.1.
Proof.
  destruct (cluster_finalizer sample_reconciler sample_deleted _ _ _
    (run_cluster_runs [] (reconcile_cluster sample_reconciler) sample_deleted)) as (_ & _ & _ & Hs & _).
  - apply list_elem_of_singleton. reflexivity.
  - fold sample_delete_run. rewrite sample_delete_finalizers. apply not_elem_of_nil.
  - exact Hs.
Defined.

Definition sample_selector : LabelSelector := mkLabelSelector ∅ [].
Definition sample_zones : list VSphereDeploymentZone :=
  [sample_zone "zone-b" "vcenter" (Some true); sample_zone "zone-x" "other" None; sample_zone "zone-a" "vcenter" (Some true);
   sample_zone "zone-c" "vcenter" (Some false)].
Definition sample_normal : ClusterContext := sample_cluster None sample_secret (Some sample_selector) [].
Definition sample_normal_run := run_cluster sample_zones (reconcile_cluster sample_reconciler) sample_normal.
Lemma sample_normal_provisioned : provisioned sample_normal_run.2.2 = Some true.
Proof. by vm_compute. Qed.
Lemma sample_normal_domains :
  vc_FailureDomains (cl_VSphereCluster sample_normal_run.2.2) = [mkKubeFailureDomain "zone-a" None; mkKubeFailureDomain "zone-b" None].
Proof. by vm_compute. Qed.

Lemma cluster_provisioned_witness : vcenter_available sample_normal_run.2.2.
Proof.
  destruct (cluster_provisioned sample_reconciler sample_normal _ _ _
    (run_cluster_runs sample_zones (reconcile_cluster sample_reconciler) sample_normal)) as (_ & _ & _ & Hv & _).
  - fold sample_normal_run. by rewrite sample_normal_provisioned.
  - exact Hv.
Defined.

Definition sample_zones_run := run_cluster sample_zones reconcileDeploymentZones sample_normal.
Lemma sample_zones_ok : sample_zones_run.2.1 = Ok true.
Proof. by vm_compute. Qed.
Lemma reconcileDeploymentZones_domains_witness :
  StronglySorted (key_le kf_Name) (vc_FailureDomains (cl_VSphereCluster sample_zones_run.2.2)).
Proof.
  destruct (reconcileDeploymentZones_domains sample_normal sample_zones_run.1 true sample_zones_run.2.2 sample_selector)
    as (zones & _ & Hs & _).
  - rewrite <-sample_zones_ok. exact (run_cluster_runs sample_zones reconcileDeploymentZones sample_normal).
  - reflexivity.
  - exact Hs.
Defined.

Lemma reconcileIdentitySecret_takes_witness :
  (run_cluster [] reconcileIdentitySecret sample_normal).2.2 = sample_normal.
Proof.
  exact (proj1 (reconcileIdentitySecret_takes sample_normal _ _ _ (run_cluster_runs [] reconcileIdentitySecret sample_normal))).
Defined.

(** When no failure domain is left the condition of the v1beta1 contract is
    deleted, but the one that says that they are not ready stays. *)
Definition sample_stale : ClusterContext :=
  sample_cluster None sample_secret (Some sample_selector)
    [cond VSphereClusterFailureDomainsReadyCondition ConditionFalse "NotReady" "Waiting for failure domains to report ready status"].
Example failure_domains_condition_stays :
  the_condition VSphereClusterFailureDomainsReadyCondition (run_cluster [] reconcileDeploymentZones sample_stale).2.2 =
    the_condition VSphereClusterFailureDomainsReadyCondition sample_stale.
Proof. by vm_compute. Qed.
End examples.

End ClusterController.
