(* ===== verification/ZoneController.v ===== *)
(** [controllers/vspheredeploymentzone_controller.go] with
    [vspheredeploymentzone_controller_domain.go], [pkg/taggable] and
    [pkg/context/vspheredeploymentzone_context.go]: the reconciliation of a
    VSphereDeploymentZone, which is ready when vCenter has everything its
    placement constraint and its failure domain name. *)
From S2P Require Import Prelude GoStrings Types Libs Constants Errors Prog World RefLibs Conditions Identity Owners MachineUtil Cluster ClusterModules.

Module ZoneController.
Import Identity Cluster ClusterModules.

(** * The context of a zone *)

Record VSphereDeploymentZoneContext := mkVSphereDeploymentZoneContext {
  zx_VSphereDeploymentZone : VSphereDeploymentZone;
  zx_AuthSession : option Session
}.
Definition set_zx_VSphereDeploymentZone (v : VSphereDeploymentZone) (c : VSphereDeploymentZoneContext)
    : VSphereDeploymentZoneContext := mkVSphereDeploymentZoneContext v (zx_AuthSession c).
Definition set_zx_AuthSession (v : option Session) (c : VSphereDeploymentZoneContext)
    : VSphereDeploymentZoneContext := mkVSphereDeploymentZoneContext (zx_VSphereDeploymentZone c) v.

#[export] Program Instance zone_conditioned : Conditioned VSphereDeploymentZoneContext := {|
  the_conditions c := zn_Conditions (zx_VSphereDeploymentZone c);
  put_conditions l c := set_zx_VSphereDeploymentZone (set_zn_Conditions l (zx_VSphereDeploymentZone c)) c;
  the_v1beta1 c := zn_V1Beta1Conditions (zx_VSphereDeploymentZone c);
  put_v1beta1 l c := set_zx_VSphereDeploymentZone (set_zn_V1Beta1Conditions l (zx_VSphereDeploymentZone c)) c
|}.
Solve Obligations with intros; repeat match goal with c : VSphereDeploymentZoneContext |- _ => destruct c as [[] ?] end; done.

Section controller.
Context `{Libs} `{Govmomi} (mgr : ManagerContext).
#[warnings="-notation-for-abbreviation"]
Notation MZ := (M Ev VSphereDeploymentZoneContext).
Open Scope go_scope.

Definition getZone : MZ VSphereDeploymentZone := gets zx_VSphereDeploymentZone.
Definition on_zone (f : VSphereDeploymentZone -> VSphereDeploymentZone) : MZ unit :=
  modify (fun c => set_zx_VSphereDeploymentZone (f (zx_VSphereDeploymentZone c)) c).

(** [GetSession] where its finder or its tag manager is used: the session is a
    pointer. *)
Definition auth_session : MZ Session :=
  s <- gets zx_AuthSession ;;
  match s with Some s => ret s | None => panic end.

(** [MarkFalse] and [Set] of a condition that is false, with one message each. *)
Definition both_false (ty1 reason1 msg1 ty reason msg : string) : MZ unit :=
  cond_false ty1 reason1 SeverityError msg1 ;;
  cond_set (cond ty ConditionFalse reason msg).

(** * [pkg/taggable] *)

Definition HasTag (ref : MoRef) (tagName : string) : MZ bool :=
  auth_session ;;
  attachedTags <- call_res (GetAttachedTags ref) ;;
  ret (existsb (fun tag => String.eqb tag tagName) attachedTags).

(** [GetObjects]; calling the function that is missing for a type panics. *)
Definition GetObjects (failureDomain : VSphereFailureDomain) (fdType : string) : MZ (list MoRef) :=
  auth_session ;;
  match ObjectFunc fdType (fs_Topology (vf_Spec failureDomain)) with
  | None => panic
  | Some finderFunc =>
      objRefs <- finderFunc ;;
      if zlen objRefs =? 0 then fail (ENew "unable to find taggable object") else ret objRefs
  end.

(** * Failure domains *)

(** Reading the tag of a failure domain, and that every object of it has it. *)
Definition verifyFailureDomain (vsphereFailureDomain : VSphereFailureDomain) (failureDomain : FailureDomain)
    : MZ unit :=
  let name := fd_Name failureDomain in
  auth_session ;;
  wrap (sprintf "failed to verify tag %s and category %s" [AS name; AS (fd_TagCategory failureDomain)])
    (call_res (GetTagForCategory name (fd_TagCategory failureDomain))) ;;
  objects <- wrap (sprintf "failed to get objects of type %s" [AS (fd_Type failureDomain)])
    (GetObjects vsphereFailureDomain (fd_Type failureDomain)) ;;
  for_each objects (fun obj =>
    hasTag <- wrap (sprintf "failed to verify if object %s has tag %s" [AS (MoRef_String obj); AS name])
      (HasTag obj name) ;;
    if negb (hasTag : bool) then
      fail (ENew (sprintf "object %s does not have tag %s" [AS (MoRef_String obj); AS name]))
    else ret tt).

Definition reconcileInfraFailureDomain := verifyFailureDomain.

(** The condition about the failure domain of a zone that is not valid. *)
Definition domain_invalid (reason1 msg1 reason msg : string) : MZ unit :=
  both_false VSphereFailureDomainValidatedV1Beta1Condition reason1 msg1
    VSphereDeploymentZoneFailureDomainValidatedCondition reason msg.

Definition reconcileComputeCluster (fd : VSphereFailureDomain) : MZ unit :=
  let computeCluster := tp_ComputeCluster (fs_Topology (vf_Spec fd)) in
  if String.eqb computeCluster "" then ret tt
  else
    auth_session ;;
    r <- try (call_res (FinderClusterComputeResource computeCluster)) ;;
    match r with
    | inr err =>
        let msg := sprintf "compute cluster %s not found" [AS computeCluster] in
        domain_invalid ComputeClusterNotFoundV1Beta1Reason msg
          VSphereDeploymentZoneFailureDomainComputeClusterNotFoundReason msg ;;
        fail (EWrap "compute cluster not found" err)
    | inl ccr =>
        zone <- getZone ;;
        let resourcePool := pc_ResourcePool (dz_PlacementConstraint (zn_Spec zone)) in
        if String.eqb resourcePool "" then ret tt
        else
          rp <- wrap "unable to find resource pool" (call_res (FinderResourcePool resourcePool)) ;;
          owner <- try (call_res (PoolOwner rp)) ;;
          match owner with
          | inr err =>
              domain_invalid ComputeClusterNotFoundV1Beta1Reason "resource pool owner not found"
                VSphereDeploymentZoneFailureDomainComputeClusterNotFoundReason "resource pool owner not found" ;;
              fail (EWrap "unable to find owner compute resource" err)
          | inl ref =>
              if negb (bool_decide (ref = ccr)) then
                domain_invalid ResourcePoolNotFoundV1Beta1Reason "resource pool is not owned by compute cluster"
                  VSphereDeploymentZoneFailureDomainResourcePoolNotFoundReason
                  "resource pool is not owned by compute cluster" ;;
                fail (ENew (sprintf "compute cluster %s does not own resource pool %s"
                              [AS computeCluster; AS resourcePool]))
              else ret tt
          end
    end.

(** A network of the topology, of either list. *)
Definition find_network (network : string) : MZ unit :=
  auth_session ;;
  r <- try (call_res (FinderNetwork network)) ;;
  match r with
  | inl _ => ret tt
  | inr err =>
      let msg := sprintf "network %s is not found" [AS network] in
      domain_invalid NetworkNotFoundV1Beta1Reason msg VSphereDeploymentZoneFailureDomainNetworkNotFoundReason msg ;;
      fail (EWrap (sprintf "unable to find network %s" [AS network]) err)
  end.

Definition find_datastore (datastore : string) : MZ unit :=
  if String.eqb datastore "" then ret tt
  else
    auth_session ;;
    r <- try (call_res (FinderDatastore datastore)) ;;
    match r with
    | inl _ => ret tt
    | inr err =>
        let msg := sprintf "datastore %s is misconfigured" [AS datastore] in
        domain_invalid DatastoreNotFoundV1Beta1Reason msg
          VSphereDeploymentZoneFailureDomainDatastoreNotFoundReason msg ;;
        fail (EWrap (sprintf "unable to find datastore %s" [AS datastore]) err)
    end.

(** The hosts: the rule that ties the group of VMs to the group of hosts; one
    that is disabled is only logged. *)
Definition verify_hosts (computeCluster : string) (hosts : FailureDomainHosts) : MZ unit :=
  if negb (FailureDomainHosts_IsDefined hosts) then ret tt
  else
    auth_session ;;
    r <- try (VerifyAffinityRule computeCluster (fh_HostGroupName hosts) (fh_VMGroupName hosts)) ;;
    match r with
    | inl _ => ret tt
    | inr err =>
        domain_invalid HostsMisconfiguredV1Beta1Reason "vm host affinity does not exist"
          VSphereDeploymentZoneFailureDomainHostsMisconfiguredReason "vm host affinity rule does not exist" ;;
        fail err
    end.

Definition reconcileTopology (fd : VSphereFailureDomain) : MZ unit :=
  let topology := fs_Topology (vf_Spec fd) in
  find_datastore (tp_Datastore topology) ;;
  for_each (tp_Networks topology) find_network ;;
  for_each (map nc_NetworkName (tp_NetworkConfigurations topology)) find_network ;;
  verify_hosts (tp_ComputeCluster topology) (tp_Hosts topology).

(** * Owner references *)

(** The object is patched with other owner references; the object afterwards. *)
Definition updateOwnerReferences (kind : string) (obj : ObjectMeta)
    (ownerRefFunc : list OwnerReference -> list OwnerReference) : MZ ObjectMeta :=
  call_res (NewPatchHelperOf kind obj) ;;
  let obj := set_om_OwnerReferences (ownerRefFunc (om_OwnerReferences obj)) obj in
  wrap "failed to update OwnerReferences" (call_res (PatchObject kind obj)) ;;
  ret obj.

(** One of the two tags of the failure domain, and what is said when it is not
    right. *)
Definition domain_step (fd : VSphereFailureDomain) (domain : FailureDomain) (reason1 reason msg : string)
    : MZ unit :=
  r <- try (reconcileInfraFailureDomain fd domain) ;;
  match r with
  | inl _ => ret tt
  | inr err =>
      domain_invalid reason1 (sprintf "%v" [AS (error_string err)]) reason (error_string err) ;;
      fail (EWrap msg err)
  end.

Definition zone_owner (uid : string) (zone : VSphereDeploymentZone) : OwnerReference :=
  owner_ref GroupVersion "VSphereDeploymentZone" (om_Name (zn_ObjectMeta zone)) uid.

Definition reconcileFailureDomain (fd : VSphereFailureDomain) : MZ unit :=
  domain_step fd (fs_Region (vf_Spec fd)) RegionMisconfiguredV1Beta1Reason
    VSphereDeploymentZoneFailureDomainRegionMisconfiguredReason
    "failed to reconcile failure domain: region is not configured correctly" ;;
  domain_step fd (fs_Zone (vf_Spec fd)) ZoneMisconfiguredV1Beta1Reason
    VSphereDeploymentZoneFailureDomainZoneMisconfiguredReason
    "failed to reconcile failure domain: zone is not configured correctly" ;;
  let computeCluster := tp_ComputeCluster (fs_Topology (vf_Spec fd)) in
  (if negb (String.eqb computeCluster "") then
     wrap (sprintf "failed to reconcile failure domain: compute cluster %s is not configured correctly" [AS computeCluster])
       (reconcileComputeCluster fd)
   else ret tt) ;;
  wrap "failed to reconcile failure domain: topology is not configured correctly" (reconcileTopology fd) ;;
  zone <- getZone ;;
  owned <- try (updateOwnerReferences "VSphereFailureDomain" (vf_ObjectMeta fd) (fun refs =>
    EnsureOwnerRef refs (zone_owner (om_UID (zn_ObjectMeta zone)) zone))) ;;
  match owned with
  | inr err =>
      cond_set (cond VSphereDeploymentZoneFailureDomainValidatedCondition ConditionFalse
        VSphereDeploymentZoneFailureDomainValidationFailedReason "failed to update owner references of failure domain") ;;
      fail err
  | inl _ =>
      cond_true VSphereFailureDomainValidatedV1Beta1Condition ;;
      cond_set (cond VSphereDeploymentZoneFailureDomainValidatedCondition ConditionTrue
        VSphereDeploymentZoneFailureDomainValidatedReason "")
  end.

(** * Placement and session *)

Definition placement_missing (reason1 reason msg : string) : MZ unit :=
  both_false PlacementConstraintMetV1Beta1Condition reason1 msg
    VSphereDeploymentZonePlacementConstraintReadyCondition reason msg.

Definition find_pool (resourcePool : string) : MZ unit :=
  if String.eqb resourcePool "" then ret tt
  else
    auth_session ;;
    r <- try (call_res (FinderResourcePool resourcePool)) ;;
    match r with
    | inl _ => ret tt
    | inr err =>
        placement_missing ResourcePoolNotFoundV1Beta1Reason
          VSphereDeploymentZonePlacementConstraintResourcePoolNotFoundReason
          (sprintf "resource pool %s is misconfigured" [AS resourcePool]) ;;
        fail (EWrap (sprintf "failed to reconcile placement contraint: unable to find resource pool %s"
                       [AS resourcePool]) err)
    end.

Definition find_folder (folder : string) : MZ unit :=
  if String.eqb folder "" then ret tt
  else
    auth_session ;;
    r <- try (call_res (FinderFolder folder)) ;;
    match r with
    | inl _ => ret tt
    | inr err =>
        placement_missing FolderNotFoundV1Beta1Reason
          VSphereDeploymentZonePlacementConstraintFolderNotFoundReason
          (sprintf "folder %s is misconfigured" [AS folder]) ;;
        fail (EWrap (sprintf "failed to reconcile placement contraint: unable to find folder %s" [AS folder]) err)
    end.

Definition reconcilePlacementConstraint : MZ unit :=
  zone <- getZone ;;
  let placementConstraint := dz_PlacementConstraint (zn_Spec zone) in
  find_pool (pc_ResourcePool placementConstraint) ;;
  find_folder (pc_Folder placementConstraint) ;;
  cond_true PlacementConstraintMetV1Beta1Condition ;;
  cond_set (cond VSphereDeploymentZonePlacementConstraintReadyCondition ConditionTrue
    VSphereDeploymentZonePlacementConstraintReadyReason "").

(** The loop over the clusters: the credentials of the first one on the server
    whose identity can be read, those of the manager when there is none. *)
Fixpoint session_of_clusters (server : string) (params : Params) (clusters : list VSphereCluster) : MZ Session :=
  match clusters with
  | [] => GetOrCreate params
  | vc :: clusters =>
      let ref := ls_IdentityRef (vc_Spec vc) in
      if negb (String.eqb server (ls_Server (vc_Spec vc))) || negb (VSphereIdentityReference_IsDefined ref) then
        session_of_clusters server params clusters
      else
        let params := mkParams (pa_server params) (pa_datacenter params) (pa_userinfo params)
                        (ls_Thumbprint (vc_Spec vc)) in
        creds <- try (GetCredentials (Some vc) (mg_Namespace mgr)) ;;
        match creds with
        | inr _ => session_of_clusters server params clusters
        | inl creds =>
            GetOrCreate (mkParams (pa_server params) (pa_datacenter params)
                           (cr_Username creds, cr_Password creds) (pa_thumbprint params))
        end
  end.

Definition getVCenterSession (datacenter : string) : MZ Session :=
  zone <- getZone ;;
  let server := dz_Server (zn_Spec zone) in
  let params := mkParams server datacenter (mg_Username mgr, mg_Password mgr) "" in
  clusters <- wrap "failed to list VSphereClusters" (call_res ListVSphereClusters) ;;
  session_of_clusters server params clusters.

(** * Reconciliation *)

Definition set_Ready (b : bool) : MZ unit := on_zone (set_zn_Ready (Some b)).

(** A step after which a failure makes the zone not ready. *)
Definition or_not_ready (m : MZ unit) : MZ unit :=
  r <- try m ;;
  match r with
  | inl _ => ret tt
  | inr err => set_Ready false ;; fail err
  end.

Definition reconcileNormal : MZ unit :=
  zone <- getZone ;;
  let key := dz_FailureDomain (zn_Spec zone) in
  failureDomain <- wrap (sprintf "failed to get VSphereFailureDomain %s" [AS (KRef "" key)])
    (call_res (GetVSphereFailureDomain key)) ;;
  session <- try (getVCenterSession (tp_Datacenter (fs_Topology (vf_Spec failureDomain)))) ;;
  match session with
  | inr err =>
      both_false VCenterAvailableV1Beta1Condition VCenterUnreachableV1Beta1Reason (sprintf "%v" [AS (error_string err)])
        VSphereDeploymentZoneVCenterAvailableCondition VSphereDeploymentZoneVCenterUnreachableReason (error_string err) ;;
      set_Ready false ;;
      fail err
  | inl authSession =>
      modify (set_zx_AuthSession (Some authSession)) ;;
      cond_true VCenterAvailableV1Beta1Condition ;;
      cond_set (cond VSphereDeploymentZoneVCenterAvailableCondition ConditionTrue
        VSphereDeploymentZoneVCenterAvailableReason "") ;;
      or_not_ready reconcilePlacementConstraint ;;
      or_not_ready (reconcileFailureDomain failureDomain) ;;
      set_Ready true
  end.

Definition remove_zone_finalizer (zone : VSphereDeploymentZone) : VSphereDeploymentZone :=
  let om := zn_ObjectMeta zone in
  set_zn_ObjectMeta (set_om_Finalizers (RemoveFinalizer (om_Finalizers om) DeploymentZoneFinalizer).1 om) zone.

(** The Machines in the zone that are not being deleted. *)
Definition machines_in_zone (zone : VSphereDeploymentZone) (machines : list Machine) : list Machine :=
  List.filter (fun m => not_deleted (mc_ObjectMeta m) && String.eqb (mc_FailureDomain m) (om_Name (zn_ObjectMeta zone)))
    (machine_collection machines).

Definition machine_names (machines : list Machine) : list MachineUtil.MachineName :=
  map (fun m => MachineUtil.mkMachineName (om_Namespace (mc_ObjectMeta m)) (om_Name (mc_ObjectMeta m))) machines.

(** The failure domain is let go, and deleted when nobody else owns it. *)
Definition release_domain (fd : VSphereFailureDomain) : MZ unit :=
  zone <- getZone ;;
  om <- updateOwnerReferences "VSphereFailureDomain" (vf_ObjectMeta fd) (fun refs =>
    RemoveOwnerRef refs (zone_owner "" zone)) ;;
  if (zlen (om_OwnerReferences om) =? 0) && not_deleted om then
    r <- try (call_res (DeleteObject "VSphereFailureDomain" om)) ;;
    match r with
    | inr err =>
        if negb (IsNotFound err) then
          fail (EWrap (sprintf "failed to delete VSphereFailureDomain %s" [AS (om_Name om)]) err)
        else ret tt
    | inl _ => ret tt
    end
  else ret tt.

Definition reconcileDelete : MZ unit :=
  cond_set (cond VSphereDeploymentZoneVCenterAvailableCondition ConditionFalse
    VSphereDeploymentZoneVCenterAvailableDeletingReason "") ;;
  cond_set (cond VSphereDeploymentZonePlacementConstraintReadyCondition ConditionFalse
    VSphereDeploymentZonePlacementConstraintDeletingReason "") ;;
  cond_set (cond VSphereDeploymentZoneFailureDomainValidatedCondition ConditionFalse
    VSphereDeploymentZoneFailureDomainDeletingReason "") ;;
  machines <- wrap "failed to list Machines" (call_res ListMachines) ;;
  zone <- getZone ;;
  let machinesUsingDeploymentZone := machines_in_zone zone machines in
  if 0 <? zlen machinesUsingDeploymentZone then
    let machineNamesStr :=
      MachineUtil.MachinesAsString (machine_names (SortedByCreationTimestamp machinesUsingDeploymentZone)) in
    fail (ENew (sprintf "blocking VSphereDeploymentZone deletion: currently in use by Machines %s"
                  [AS machineNamesStr]))
  else
    got <- try (call_res (GetVSphereFailureDomain (dz_FailureDomain (zn_Spec zone)))) ;;
    match got with
    | inr err =>
        if IsNotFound err then on_zone remove_zone_finalizer
        else fail (EWrap "failed to get VSphereFailureDomain" err)
    | inl failureDomain =>
        release_domain failureDomain ;;
        on_zone remove_zone_finalizer
    end.

Definition patch : MZ unit :=
  cond_v1beta1_summary [VCenterAvailableV1Beta1Condition; VSphereFailureDomainValidatedV1Beta1Condition;
    PlacementConstraintMetV1Beta1Condition] ;;
  cond_summary VSphereDeploymentZoneReadyCondition
    [VSphereDeploymentZonePlacementConstraintReadyCondition; VSphereDeploymentZoneVCenterAvailableCondition;
     VSphereDeploymentZoneFailureDomainValidatedCondition] []
    (VSphereDeploymentZoneNotReadyReason, VSphereDeploymentZoneReadyUnknownReason, VSphereDeploymentZoneReadyReason) ;;
  zone <- getZone ;;
  call_res (PatchVSphereDeploymentZone zone).

Definition patch_on_exit (reterr : option error) : MZ (option error) :=
  r <- try patch ;;
  ret (match r with inr err => NewAggregate [reterr; Some err] | inl _ => reterr end).

Definition reconcile_zone : MZ unit :=
  zone <- getZone ;;
  match om_DeletionTimestamp (zn_ObjectMeta zone) with
  | Some _ => reconcileDelete
  | None => reconcileNormal
  end.

(** [Reconcile]; a result never asks for another pass. *)
Definition Reconcile (name : string) : M Ev unit unit :=
  got <- try (call_res (GetVSphereDeploymentZone name)) ;;
  match got with
  | inr err => if IsNotFound err then ret tt else fail err
  | inl zone =>
      let om := zn_ObjectMeta zone in
      finalizerAdded <- call_res (EnsureFinalizerOf "VSphereDeploymentZone" om DeploymentZoneFinalizer) ;;
      if (finalizerAdded : bool) then ret tt
      else
        call_res (NewPatchHelperOf "VSphereDeploymentZone" om) ;;
        paused <- call_res (EnsurePausedConditionOf None "VSphereDeploymentZone" om) ;;
        if (paused.1 || paused.2 : bool) then ret tt
        else local (mkVSphereDeploymentZoneContext zone None) (finally patch_on_exit reconcile_zone)
  end.

Definition failureDomainsToDeploymentZones (failureDomain : VSphereFailureDomain) : M Ev unit (list string) :=
  zones <- try (call_res (ListVSphereDeploymentZones None)) ;;
  match zones with
  | inr _ => ret []
  | inl zones =>
      ret (map (fun zone => om_Name (zn_ObjectMeta zone))
             (List.filter (fun zone => String.eqb (dz_FailureDomain (zn_Spec zone)) (om_Name (vf_ObjectMeta failureDomain)))
                zones))
  end.
End controller.

(** * Lemmas *)

Ltac zn_step :=
  lazymatch goal with
  | |- wpm getZone _ _ => apply wpm_gets
  | |- wpm (on_zone _) _ _ => apply wpm_modify
  | |- wpm (set_Ready _) _ _ => apply wpm_modify
  | _ => cond_step
  end; cbn beta iota zeta delta [res_wrap].

(** ** What has been looked up in vCenter *)

(** The objects of a failure domain, by its type. *)
Definition domain_objects (fdType : string) (topology : Topology) (objs : list MoRef) (tr : trace) : Prop :=
  (fdType = ComputeClusterFailureDomain /\ (exists r, objs = [r] /\
     (Call (FinderClusterComputeResource (tp_ComputeCluster topology)) (Ok r) ∈ tr))) \/
  (fdType = DatacenterFailureDomain /\ (exists r, objs = [r] /\
     (Call (FinderDatacenter (tp_Datacenter topology)) (Ok r) ∈ tr))) \/
  (fdType = HostGroupFailureDomain /\ (exists ccr, (Call (FinderClusterComputeResource (tp_ComputeCluster topology)) (Ok ccr) ∈ tr) /\
     exists conf, objs = default [] (find_host_group (fh_HostGroupName (tp_Hosts topology)) (cc_Group conf)) /\
       (Call (ClusterConfiguration ccr) (Ok conf) ∈ tr))).

Definition has_tag (tag : string) (obj : MoRef) (tr : trace) : Prop :=
  exists tags, tag ∈ tags /\ Call (GetAttachedTags obj) (Ok tags) ∈ tr.

(** The tag of a region or a zone is in its category, and every object of it, of
    which there are some, has it. *)
Definition tagged (topology : Topology) (domain : FailureDomain) (tr : trace) : Prop :=
  Call (GetTagForCategory (fd_Name domain) (fd_TagCategory domain)) (Ok tt) ∈ tr /\
  exists objs, objs <> [] /\ domain_objects (fd_Type domain) topology objs tr /\
    Forall (fun obj => has_tag (fd_Name domain) obj tr) objs.

Definition pool_found (pool : string) (tr : trace) : Prop :=
  pool <> "" -> exists rp, Call (FinderResourcePool pool) (Ok rp) ∈ tr.
Definition folder_found (folder : string) (tr : trace) : Prop :=
  folder <> "" -> exists f, Call (FinderFolder folder) (Ok f) ∈ tr.

(** The compute cluster is there, and owns the resource pool of the zone. *)
Definition compute_cluster_found (computeCluster pool : string) (tr : trace) : Prop :=
  computeCluster <> "" -> exists ccr, Call (FinderClusterComputeResource computeCluster) (Ok ccr) ∈ tr /\
    (pool <> "" -> exists rp, Call (FinderResourcePool pool) (Ok rp) ∈ tr /\ Call (PoolOwner rp) (Ok ccr) ∈ tr).

Definition network_found (network : string) (tr : trace) : Prop :=
  exists n, Call (FinderNetwork network) (Ok n) ∈ tr.
Definition datastore_found (datastore : string) (tr : trace) : Prop :=
  datastore <> "" -> exists d, Call (FinderDatastore datastore) (Ok d) ∈ tr.

(** The rule that ties the VMs to the hosts is there. *)
Definition hosts_ruled (computeCluster : string) (hosts : FailureDomainHosts) (tr : trace) : Prop :=
  FailureDomainHosts_IsDefined hosts = true ->
  exists ccr, Call (FinderClusterComputeResource computeCluster) (Ok ccr) ∈ tr /\
    exists conf, find_rule (fh_HostGroupName hosts) (fh_VMGroupName hosts) (cc_Rule conf) <> None /\
      Call (ClusterConfiguration ccr) (Ok conf) ∈ tr.

Definition topology_found (topology : Topology) (tr : trace) : Prop :=
  datastore_found (tp_Datastore topology) tr /\
  Forall (fun n => network_found n tr) (tp_Networks topology) /\
  Forall (fun n => network_found n tr) (map nc_NetworkName (tp_NetworkConfigurations topology)) /\
  hosts_ruled (tp_ComputeCluster topology) (tp_Hosts topology) tr.

Lemma grows_domain_objects t tp objs : Grows (domain_objects t tp objs).
Proof. unfold domain_objects. apply _. Qed.
Lemma grows_tagged tp d : Grows (tagged tp d).
Proof. unfold tagged, has_tag. pose proof grows_domain_objects. apply _. Qed.
Lemma grows_topology tp : Grows (topology_found tp).
Proof. unfold topology_found, datastore_found, network_found, hosts_ruled. apply _. Qed.
#[export] Existing Instances grows_tagged grows_topology.

Section lemmas.
Context `{Libs} `{Govmomi} (mgr : ManagerContext).
#[warnings="-notation-for-abbreviation"]
Notation MZ := (M Ev VSphereDeploymentZoneContext).
Open Scope go_scope.

(** A context that has a session and differs from [c0] in its conditions. *)
Definition in_session (c0 c : VSphereDeploymentZoneContext) : Prop :=
  adorned c0 c /\ is_Some (zx_AuthSession c).

Lemma in_session_adorned c0 c c' : in_session c0 c -> adorned c c' -> in_session c0 c'.
Proof.
  intros [H1 H2] Ha. split; [by etrans|]. by rewrite (adorned_field zx_AuthSession c c').
Qed.

Lemma in_session_zone c0 c : in_session c0 c ->
  zn_Spec (zx_VSphereDeploymentZone c) = zn_Spec (zx_VSphereDeploymentZone c0) /\
  zn_ObjectMeta (zx_VSphereDeploymentZone c) = zn_ObjectMeta (zx_VSphereDeploymentZone c0).
Proof.
  intros [Ha _]. split.
  - by apply (adorned_field (fun c => zn_Spec (zx_VSphereDeploymentZone c))).
  - by apply (adorned_field (fun c => zn_ObjectMeta (zx_VSphereDeploymentZone c))).
Qed.

(** The resource pool of a zone. *)
Definition zone_pool (c : VSphereDeploymentZoneContext) : string :=
  pc_ResourcePool (dz_PlacementConstraint (zn_Spec (zx_VSphereDeploymentZone c))).
Lemma in_session_pool c0 c : in_session c0 c -> zone_pool c = zone_pool c0.
Proof. intros Hc. unfold zone_pool. by destruct (in_session_zone _ _ Hc) as [-> _]. Qed.

Lemma auth_session_spec c0 c (Q : trace -> res Session -> VSphereDeploymentZoneContext -> Prop) :
  in_session c0 c -> (forall s, Q [] (Ok s) c) -> wpm auth_session c Q.
Proof. intros [_ [s Hs]] HQ. unfold auth_session. do 2 zn_step. rewrite Hs. by apply wpm_ret. Qed.

(** Passing [auth_session], in a session. *)
Ltac in_auth Hc := zn_step; apply (auth_session_spec _ _ _ Hc); intros ?.

(** After a failed look-up, the condition is set and the error is returned. *)
Lemma invalid_fails c0 c t1 r1 m1 t r m e (Q : trace -> res unit -> VSphereDeploymentZoneContext -> Prop) :
  in_session c0 c -> (forall tr c', in_session c0 c' -> Q tr (Err e) c') ->
  wpm (both_false t1 r1 m1 t r m ;; fail e) c Q.
Proof.
  intros Hc HQ. unfold both_false. do 4 zn_step. zn_step. apply HQ.
  apply (in_session_adorned _ _ _ Hc). etrans; [apply adorned_put_v1beta1|apply adorned_put].
Qed.

Lemma domain_invalid_fails c0 c r1 m1 r m e (Q : trace -> res unit -> VSphereDeploymentZoneContext -> Prop) :
  in_session c0 c -> (forall tr c', in_session c0 c' -> Q tr (Err e) c') ->
  wpm (domain_invalid r1 m1 r m ;; fail e) c Q.
Proof. intros Hc HQ. unfold domain_invalid. exact (invalid_fails c0 c _ _ _ _ _ _ _ Q Hc HQ). Qed.

(** The conditions that say so at the end of a look-up that succeeded. *)
Lemma adorns_looks_up c0 (m : MZ unit) : adorns m -> checks (in_session c0) True (fun _ => True) m.
Proof.
  intros Hm c Hc. eapply wpm_mono; [apply Hm|]. intros tr r c' [_ Ha].
  split; [by apply (in_session_adorned _ _ _ Hc)|by destruct r].
Qed.

(** Look-ups that keep a context in its session. *)
#[warnings="-notation-for-abbreviation"]
Notation looks_up c0 P m := (checks (in_session c0) True P m).

Lemma has_tag_spec c0 obj tag c :
  in_session c0 c -> wpm (HasTag obj tag) c (fun tr r c' => c' = c /\
    match r with Ok true => has_tag tag obj tr | _ => True end).
Proof.
  intros Hc. unfold HasTag. in_auth Hc. do 2 zn_step; [|done..]. zn_step. split; [done|].
  destruct (existsb _ a) eqn:Hb; [|done]. apply existsb_exists in Hb as (t & Hin & ->%String.eqb_eq).
  exists a. split; [by apply list_elem_of_In|in_trace].
Qed.

Lemma get_objects_spec c0 fd fdType c :
  in_session c0 c -> wpm (GetObjects fd fdType) c (fun tr r c' => c' = c /\
    match r with Ok objs => objs <> [] /\ domain_objects fdType (fs_Topology (vf_Spec fd)) objs tr | _ => True end).
Proof.
  intros Hc. unfold GetObjects. in_auth Hc. unfold ObjectFunc, ListHostsFromGroup, domain_objects.
  destruct (String.eqb_spec fdType ComputeClusterFailureDomain) as [->|_].
  { do 3 zn_step; [|done..]. zn_step. cbn. split; [done|]. split; [done|]. left. split; [done|]. exists a.
    split; [done|in_trace]. }
  destruct (String.eqb_spec fdType DatacenterFailureDomain) as [->|_].
  { do 3 zn_step; [|done..]. zn_step. cbn. split; [done|]. split; [done|]. right; left. split; [done|]. exists a.
    split; [done|in_trace]. }
  destruct (String.eqb_spec fdType HostGroupFailureDomain) as [->|_]; [|by zn_step].
  do 3 zn_step; [|done..]. do 2 zn_step; [|done..]. zn_step.
  destruct (zlen _ =? 0) eqn:Hz; zn_step; [done|]. split; [done|]. split; [by intros E; rewrite E in Hz|].
  right; right. split; [done|]. exists a. split; [in_trace|]. exists a0. split; [done|in_trace].
Qed.

Lemma verifyFailureDomain_looks_up c0 fd domain :
  looks_up c0 (tagged (fs_Topology (vf_Spec fd)) domain) (verifyFailureDomain fd domain).
Proof.
  intros c Hc. unfold verifyFailureDomain. in_auth Hc. do 3 zn_step; [|done..]. do 2 zn_step.
  eapply wpm_mono; [by eapply get_objects_spec|]. intros tr0 [objs|e|w] c1 [-> Hobjs]; cbn beta iota; [|done..].
  destruct Hobjs as [Hne Hobjs]. eapply wpm_mono.
  - apply (checks_for_each (in_session c0) True (has_tag (fd_Name domain))); [|exact Hc].
    intros obj c2 Hc2. do 2 zn_step. eapply wpm_mono; [by eapply has_tag_spec|].
    intros tr2 [[|]|e|w] c3 [-> Ht]; cbn beta iota delta [res_wrap negb]; [|done..]. zn_step. split; [done|]. by rewrite app_nil_r.
  - intros tr2 [u0|e|w] c3 [Hc3 Ht]; cbn beta iota; [|done..]. destruct a. split; [done|]. split; [in_trace|].
    exists objs. split; [done|]. split.
    + pose proof (grows_domain_objects (fd_Type domain) (fs_Topology (vf_Spec fd)) objs). in_part Hobjs.
    + apply (Forall_impl _ _ _ Ht). unfold has_tag. intros o (tags & Hin & Ho). exists tags. split; [done|in_trace].
Qed.

Lemma find_network_looks_up c0 n : looks_up c0 (network_found n) (find_network n).
Proof.
  intros c Hc. unfold find_network. in_auth Hc. do 3 zn_step; [| |done].
  - zn_step. split; [done|]. exists a. in_trace.
  - by apply (domain_invalid_fails c0).
Qed.

Lemma find_datastore_looks_up c0 d : looks_up c0 (datastore_found d) (find_datastore d).
Proof.
  intros c Hc. unfold find_datastore, datastore_found. destruct (String.eqb_spec d ""); [by zn_step|].
  in_auth Hc. do 3 zn_step; [| |done].
  - zn_step. split; [done|]. intros _. exists a. in_trace.
  - by apply (domain_invalid_fails c0).
Qed.

Lemma verify_hosts_looks_up c0 cc hosts : looks_up c0 (hosts_ruled cc hosts) (verify_hosts cc hosts).
Proof.
  intros c Hc. unfold verify_hosts, hosts_ruled. destruct (FailureDomainHosts_IsDefined hosts); cbn [negb]; [|by zn_step].
  in_auth Hc. unfold VerifyAffinityRule, listRules. do 6 zn_step; [| |done].
  2:{ by apply (domain_invalid_fails c0). }
  do 2 zn_step; [| |done]; [|by apply (domain_invalid_fails c0)]. zn_step.
  destruct (find_rule _ _ _) as [rule|] eqn:Hrule; zn_step; [|by apply (domain_invalid_fails c0)].
  zn_step. split; [done|]. intros _. exists a. split; [in_trace|]. exists a0. split; [by rewrite Hrule|in_trace].
Qed.

Lemma reconcileTopology_looks_up c0 fd :
  looks_up c0 (topology_found (fs_Topology (vf_Spec fd))) (reconcileTopology fd).
Proof.
  unfold reconcileTopology, topology_found. cbn zeta.
  assert (Grows (datastore_found (tp_Datastore (fs_Topology (vf_Spec fd))))) by (unfold datastore_found; apply _).
  assert (forall n, Grows (network_found n)) by (intros; unfold network_found; apply _).
  assert (Grows (hosts_ruled (tp_ComputeCluster (fs_Topology (vf_Spec fd))) (tp_Hosts (fs_Topology (vf_Spec fd)))))
    by (unfold hosts_ruled; apply _).
  apply checks_seq; [apply _..|apply find_datastore_looks_up|].
  apply checks_seq; [apply _..|apply checks_for_each; [apply _|apply find_network_looks_up]|].
  apply checks_seq; [apply _..|apply checks_for_each; [apply _|apply find_network_looks_up]|].
  apply verify_hosts_looks_up.
Qed.

Lemma reconcileComputeCluster_looks_up c0 fd :
  looks_up c0 (compute_cluster_found (tp_ComputeCluster (fs_Topology (vf_Spec fd))) (zone_pool c0))
    (reconcileComputeCluster fd).
Proof.
  intros c Hc. unfold reconcileComputeCluster, compute_cluster_found. cbn zeta.
  destruct (String.eqb_spec (tp_ComputeCluster (fs_Topology (vf_Spec fd))) "") as [Hn|Hn]; [by zn_step|].
  in_auth Hc. do 3 zn_step; [| |done].
  2:{ by apply (domain_invalid_fails c0). }
  do 2 zn_step. change (pc_ResourcePool _) with (zone_pool c). rewrite (in_session_pool _ _ Hc).
  destruct (String.eqb_spec (zone_pool c0) "") as [Hp|Hp].
  { zn_step. split; [done|]. intros _. exists a. split; [in_trace|done]. }
  do 3 zn_step; [|done..]. do 3 zn_step; [| |done].
  2:{ by apply (domain_invalid_fails c0). }
  case_bool_decide as Heq; cbn [negb].
  - zn_step. split; [done|]. intros _. exists a. split; [in_trace|]. intros _. exists a0. split; [in_trace|].
    subst a1. in_trace.
  - by apply (domain_invalid_fails c0).
Qed.

Lemma domain_step_looks_up c0 fd domain r1 r m :
  looks_up c0 (tagged (fs_Topology (vf_Spec fd)) domain) (domain_step fd domain r1 r m).
Proof.
  intros c Hc. unfold domain_step. do 2 zn_step. eapply wpm_mono; [by apply (verifyFailureDomain_looks_up c0)|].
  intros tr [u|e|w] c1 [Hc1 Ht]; cbn beta iota; [| |done].
  - zn_step. by rewrite app_nil_r.
  - by apply (domain_invalid_fails c0).
Qed.

Lemma updateOwnerReferences_spec kind om f (c : VSphereDeploymentZoneContext) :
  wpm (updateOwnerReferences kind om f) c (fun tr r c' => c' = c /\
    match r with
    | Ok om' => om' = set_om_OwnerReferences (f (om_OwnerReferences om)) om /\ Call (PatchObject kind om') (Ok tt) ∈ tr
    | _ => True
    end).
Proof.
  unfold updateOwnerReferences. do 2 zn_step; [|done..]. cbn zeta. do 3 zn_step; [|done..]. zn_step.
  split; [done|]. split; [done|]. destruct a0. in_trace.
Qed.

(** The failure domain was written with the zone as an owner. *)
Definition domain_owned (zone : VSphereDeploymentZone) (fd : VSphereFailureDomain) (tr : trace) : Prop :=
  let om := vf_ObjectMeta fd in
  Call (PatchObject "VSphereFailureDomain"
    (set_om_OwnerReferences
       (EnsureOwnerRef (om_OwnerReferences om) (zone_owner (om_UID (zn_ObjectMeta zone)) zone)) om)) (Ok tt) ∈ tr.

(** Everything a failure domain names is in vCenter. *)
Definition domain_valid (zone : VSphereDeploymentZone) (fd : VSphereFailureDomain) (tr : trace) : Prop :=
  let topology := fs_Topology (vf_Spec fd) in
  tagged topology (fs_Region (vf_Spec fd)) tr /\
  tagged topology (fs_Zone (vf_Spec fd)) tr /\
  compute_cluster_found (tp_ComputeCluster topology) (pc_ResourcePool (dz_PlacementConstraint (zn_Spec zone))) tr /\
  topology_found topology tr /\ domain_owned zone fd tr.

Lemma reconcileFailureDomain_looks_up c0 fd :
  looks_up c0 (domain_valid (zx_VSphereDeploymentZone c0) fd) (reconcileFailureDomain fd).
Proof.
  unfold reconcileFailureDomain, domain_valid. cbn zeta.
  assert (Hcc : Grows (compute_cluster_found (tp_ComputeCluster (fs_Topology (vf_Spec fd))) (zone_pool c0)))
    by (unfold compute_cluster_found; apply _).
  assert (Ho : Grows (domain_owned (zx_VSphereDeploymentZone c0) fd)) by (unfold domain_owned; apply _).
  change (pc_ResourcePool _) with (zone_pool c0).
  apply checks_seq; [apply _..|apply domain_step_looks_up|].
  apply checks_seq; [apply _..|apply domain_step_looks_up|].
  apply checks_seq; [exact Hcc|apply _| |].
  { destruct (String.eqb_spec (tp_ComputeCluster (fs_Topology (vf_Spec fd))) "") as [Hn|_]; cbn [negb].
    - apply checks_ret. by intros ?.
    - apply checks_wrap, reconcileComputeCluster_looks_up. }
  apply checks_seq; [apply _..|apply checks_wrap, reconcileTopology_looks_up|].
  intros c Hc. do 4 zn_step. eapply wpm_mono; [apply updateOwnerReferences_spec|].
  intros tr [om'|e|w] c1 [-> Hp]; cbn beta iota; [| |done].
  - do 3 zn_step. split.
    + apply (in_session_adorned _ _ _ Hc). etrans; [apply adorned_put_v1beta1|apply adorned_put].
    + destruct Hp as [-> Hp]. unfold domain_owned, zone_owner in *. cbn zeta.
      destruct (in_session_zone _ _ Hc) as [_ <-]. in_trace.
  - do 3 zn_step. split; [|done]. apply (in_session_adorned _ _ _ Hc), adorned_put.
Qed.

Lemma find_pool_looks_up c0 pool : looks_up c0 (pool_found pool) (find_pool pool).
Proof.
  intros c Hc. unfold find_pool, pool_found. destruct (String.eqb_spec pool "") as [Hn|Hn]; [by zn_step|].
  in_auth Hc. do 3 zn_step; [| |done].
  - zn_step. split; [done|]. intros _. exists a. in_trace.
  - unfold placement_missing; by apply (invalid_fails c0).
Qed.

Lemma find_folder_looks_up c0 folder : looks_up c0 (folder_found folder) (find_folder folder).
Proof.
  intros c Hc. unfold find_folder, folder_found. destruct (String.eqb_spec folder "") as [Hn|Hn]; [by zn_step|].
  in_auth Hc. do 3 zn_step; [| |done].
  - zn_step. split; [done|]. intros _. exists a. in_trace.
  - unfold placement_missing; by apply (invalid_fails c0).
Qed.

Lemma reconcilePlacementConstraint_looks_up c0 :
  let placement := dz_PlacementConstraint (zn_Spec (zx_VSphereDeploymentZone c0)) in
  looks_up c0 (fun tr => pool_found (pc_ResourcePool placement) tr /\ folder_found (pc_Folder placement) tr)
    reconcilePlacementConstraint.
Proof.
  intros placement c Hc. unfold reconcilePlacementConstraint. do 2 zn_step.
  destruct (in_session_zone _ _ Hc) as [-> _]. cbn zeta. fold placement. revert c Hc.
  change (looks_up c0 (fun tr => pool_found (pc_ResourcePool placement) tr /\ folder_found (pc_Folder placement) tr)
    (find_pool (pc_ResourcePool placement) ;; find_folder (pc_Folder placement) ;;
     cond_true PlacementConstraintMetV1Beta1Condition ;;
     cond_set (cond VSphereDeploymentZonePlacementConstraintReadyCondition ConditionTrue
       VSphereDeploymentZonePlacementConstraintReadyReason ""))).
  assert (Grows (pool_found (pc_ResourcePool placement))) by (unfold pool_found; apply _).
  assert (Grows (folder_found (pc_Folder placement))) by (unfold folder_found; apply _).
  apply checks_seq; [apply _..|apply find_pool_looks_up|].
  eapply checks_mono; [apply checks_seq; [| |apply find_folder_looks_up|apply adorns_looks_up; solve_adorns]; apply _|].
  by intros tr [? _].
Qed.

(** ** The session *)

Lemma session_of_clusters_acts server params clusters :
  acts session_effect (session_of_clusters mgr server params clusters).
Proof.
  revert params. induction clusters as [|vc clusters IH]; intros params; cbn [session_of_clusters];
    [apply GetOrCreate_acts|].
  destruct (_ || _); [apply IH|]. cbn zeta.
  apply acts_bind; [apply acts_try, acts_reads, reads_GetCredentials|].
  intros [creds|e]; [apply GetOrCreate_acts|apply IH].
Qed.

Lemma getVCenterSession_acts dc : acts session_effect (getVCenterSession mgr dc).
Proof.
  unfold getVCenterSession, getZone. apply acts_bind; [solve_acts|]. intros zone. cbn zeta.
  apply acts_bind; [solve_acts|]. intros clusters. apply session_of_clusters_acts.
Qed.

(** ** The whole *)

(** Everything the zone and its failure domain name was found in vCenter. *)
Definition zone_valid (zone : VSphereDeploymentZone) (tr : trace) : Prop :=
  exists fd, Call (GetVSphereFailureDomain (dz_FailureDomain (zn_Spec zone))) (Ok fd) ∈ tr /\
    pool_found (pc_ResourcePool (dz_PlacementConstraint (zn_Spec zone))) tr /\
    folder_found (pc_Folder (dz_PlacementConstraint (zn_Spec zone))) tr /\
    domain_valid zone fd tr.

Lemma grows_domain_valid zone fd : Grows (domain_valid zone fd).
Proof. unfold domain_valid, compute_cluster_found, domain_owned. apply _. Qed.
Existing Instance grows_domain_valid.
Lemma grows_zone_valid zone : Grows (zone_valid zone).
Proof. unfold zone_valid, pool_found, folder_found. apply _. Qed.
Existing Instance grows_zone_valid.

Definition the_zone := zx_VSphereDeploymentZone.
Definition zone_ready (c : VSphereDeploymentZoneContext) : option bool := zn_Ready (the_zone c).

(** A pass that is not a deletion. *)
Definition normal_post (c : VSphereDeploymentZoneContext) (tr : trace) (r : res unit) (c' : VSphereDeploymentZoneContext) : Prop :=
  zn_ObjectMeta (the_zone c') = zn_ObjectMeta (the_zone c) /\
  match r with
  | Ok _ => zone_ready c' = Some true /\ zone_valid (the_zone c) tr
  | Err _ => zone_ready c' = Some false \/
      zone_ready c' = zone_ready c /\ exists e, Call (GetVSphereFailureDomain (dz_FailureDomain (zn_Spec (the_zone c)))) (Err e) ∈ tr
  | Stop _ => True
  end.

(** A step that looks things up, where a failure makes the zone not ready. *)
Lemma or_not_ready_spec c0 P m c :
  looks_up c0 P m -> in_session c0 c ->
  wpm (or_not_ready m) c (fun tr r c' =>
    zn_ObjectMeta (the_zone c') = zn_ObjectMeta (the_zone c0) /\
    match r with Ok _ => in_session c0 c' /\ P tr | Err _ => zone_ready c' = Some false | Stop _ => True end).
Proof.
  intros Hm Hc. unfold or_not_ready. do 2 zn_step. eapply wpm_mono; [by apply Hm|].
  intros tr [u|e|w] c1 [Hc1 HP]; cbn beta iota; destruct (in_session_zone _ _ Hc1) as [_ Ho].
  - zn_step. by rewrite app_nil_r.
  - by do 3 zn_step.
  - by split.
Qed.

Lemma zone_normal_spec c : wpm (reconcileNormal mgr) c (normal_post c).
Proof.
  unfold reconcileNormal, normal_post. do 3 zn_step. zn_step. zn_step; [| |done].
  2:{ split; [done|]. right. split; [done|]. exists e. in_trace. }
  rename a into fd. do 2 zn_step. eapply wpm_mono; [apply getVCenterSession_acts|].
  intros tr0 [s|e|w] c1 [_ ->]; cbn beta iota; [| |done].
  2:{ unfold both_false. do 7 zn_step. split; [done|]. by left. }
  do 6 zn_step. set (c1 := put_conditions _ _).
  assert (Hc1 : in_session c1 c1) by (by split; [reflexivity|exists s]).
  assert (Hz : zn_Spec (the_zone c1) = zn_Spec (the_zone c) /\ zn_ObjectMeta (the_zone c1) = zn_ObjectMeta (the_zone c)) by done.
  clearbody c1. destruct Hz as [Hs Ho].
  zn_step. eapply wpm_mono; [apply (or_not_ready_spec c1); [apply reconcilePlacementConstraint_looks_up|exact Hc1]|].
  intros tr1 [u1|e|w] c2 [Ho2 Hr]; cbn beta iota; [|split; [congruence|by left]|split; [congruence|done]].
  destruct Hr as [Hc2 [Hpool Hfolder]].
  zn_step. eapply wpm_mono; [apply (or_not_ready_spec c1); [apply reconcileFailureDomain_looks_up|exact Hc2]|].
  intros tr2 [u2|e|w] c3 [Ho3 Hr]; cbn beta iota; [|split; [congruence|by left]|split; [congruence|done]].
  destruct Hr as [Hc3 Hd]. zn_step. split; [rewrite <-Ho; exact Ho3|]. split; [done|].
  fold (the_zone c1) in Hpool, Hfolder, Hd. rewrite Hs in Hpool, Hfolder.
  assert (Hd' : domain_valid (the_zone c) fd tr2).
  { revert Hd. unfold domain_valid, domain_owned, zone_owner. cbn zeta. by rewrite Hs, Ho. }
  exists fd. split; [in_trace|]. split; [|split].
  - intros Hne. destruct (Hpool Hne) as [x Hx]. exists x. in_trace.
  - intros Hne. destruct (Hfolder Hne) as [x Hx]. exists x. in_trace.
  - in_part Hd'.
Qed.

(** ** Deletion *)

Definition zone_finalizers (c : VSphereDeploymentZoneContext) : list string := om_Finalizers (zn_ObjectMeta (the_zone c)).

(** The Machines were listed, and every one in the zone is being deleted, or there
    is a later one of its name (in another namespace), which the code takes
    instead. *)
Definition zone_unused (zone : VSphereDeploymentZone) (tr : trace) : Prop :=
  exists machines, Call ListMachines (Ok machines) ∈ tr /\
    forall before m after, machines = (before ++ m :: after)%list -> mc_FailureDomain m = om_Name (zn_ObjectMeta zone) ->
      om_DeletionTimestamp (mc_ObjectMeta m) <> None \/
      exists m', m' ∈ after /\ om_Name (mc_ObjectMeta m') = om_Name (mc_ObjectMeta m).

(** The failure domain is not there, or the zone no longer owns it; and when
    nobody does, it is deleted. *)
Definition domain_let_go (zone : VSphereDeploymentZone) (fd : VSphereFailureDomain) (tr : trace) : Prop :=
  let om := vf_ObjectMeta fd in
  let freed := set_om_OwnerReferences (RemoveOwnerRef (om_OwnerReferences om) (zone_owner "" zone)) om in
  Call (PatchObject "VSphereFailureDomain" freed) (Ok tt) ∈ tr /\
  (om_OwnerReferences freed = [] -> om_DeletionTimestamp om = None ->
     exists r, Call (DeleteObject "VSphereFailureDomain" freed) r ∈ tr /\
       (r = Ok tt \/ exists e, r = Err e /\ IsNotFound e = true)).
Definition domain_released (zone : VSphereDeploymentZone) (tr : trace) : Prop :=
  let key := dz_FailureDomain (zn_Spec zone) in
  (exists e, Call (GetVSphereFailureDomain key) (Err e) ∈ tr /\ IsNotFound e = true) \/
  (exists fd, Call (GetVSphereFailureDomain key) (Ok fd) ∈ tr /\ domain_let_go zone fd tr).

Lemma machines_in_zone_none zone machines :
  (0 <? zlen (machines_in_zone zone machines)) = false ->
  forall before m after, machines = (before ++ m :: after)%list -> mc_FailureDomain m = om_Name (zn_ObjectMeta zone) ->
    om_DeletionTimestamp (mc_ObjectMeta m) <> None \/
    exists m', m' ∈ after /\ om_Name (mc_ObjectMeta m') = om_Name (mc_ObjectMeta m).
Proof.
  intros Hz before m after Hl Hf.
  destruct (decide (Exists (fun m' => om_Name (mc_ObjectMeta m') = om_Name (mc_ObjectMeta m)) after)) as [He|Hn].
  { right. apply Exists_exists in He as (m' & ? & ?). by exists m'. }
  left. intros Hd. assert (Hm : m ∈ machine_collection machines).
  { apply machine_collection_spec. exists before, after. split; [done|]. by apply not_Exists_Forall in Hn; [|intros ?; apply _]. }
  apply Z.ltb_ge in Hz. unfold machines_in_zone in Hz.
  assert (Hin : In m (List.filter (fun m => not_deleted (mc_ObjectMeta m) &&
    String.eqb (mc_FailureDomain m) (om_Name (zn_ObjectMeta zone))) (machine_collection machines))).
  { apply filter_In. split; [by apply list_elem_of_In|]. unfold not_deleted. rewrite Hd, Hf. cbn. apply String.eqb_refl. }
  revert Hin Hz. unfold zlen. destruct (List.filter _ _); [done|]. cbn [length]. lia.
Qed.

Lemma release_domain_spec fd c :
  wpm (release_domain fd) c (fun tr r c' => c' = c /\
    match r with Ok _ => domain_let_go (the_zone c) fd tr | _ => True end).
Proof.
  unfold release_domain, domain_let_go, the_zone. cbn zeta. do 3 zn_step.
  eapply wpm_mono; [apply updateOwnerReferences_spec|].
  intros tr [om|e|w] c1 [-> Hp]; cbn beta iota; [|done..]. destruct Hp as [-> Hp]. cbn [om_OwnerReferences set_om_OwnerReferences] in *.
  destruct (zlen _ =? 0) eqn:Hz; cbn [andb].
  2:{ zn_step. split; [done|]. split; [in_trace|]. intros E. by rewrite E in Hz. }
  destruct (not_deleted _) eqn:Hd.
  2:{ zn_step. split; [done|]. split; [in_trace|]. intros _ E. unfold not_deleted in Hd. cbn in Hd. by rewrite E in Hd. }
  do 3 zn_step; [| |done].
  - zn_step. split; [done|]. split; [in_trace|]. intros _ _. exists (Ok a). split; [in_trace|]. left. by destruct a.
  - destruct (IsNotFound e) eqn:En; cbn [negb]; [|by zn_step]. zn_step. split; [done|]. split; [in_trace|].
    intros _ _. exists (Err e). split; [in_trace|]. right. by exists e.
Qed.

Definition zone_delete_post (c : VSphereDeploymentZoneContext) (tr : trace) (r : res unit) (c' : VSphereDeploymentZoneContext) : Prop :=
  zone_finalizers c' = zone_finalizers c \/
  r = Ok tt /\ zone_finalizers c' = (RemoveFinalizer (zone_finalizers c) DeploymentZoneFinalizer).1 /\
  zone_unused (the_zone c) tr /\ domain_released (the_zone c) tr.

Lemma zone_delete_spec c : wpm reconcileDelete c (zone_delete_post c).
Proof.
  unfold reconcileDelete, zone_delete_post. do 6 zn_step. set (c1 := put_conditions _ _).
  assert (Hz : zn_Spec (the_zone c1) = zn_Spec (the_zone c) /\ zn_ObjectMeta (the_zone c1) = zn_ObjectMeta (the_zone c)) by done.
  clearbody c1. destruct Hz as [Hs Ho].
  assert (Hf : zone_finalizers c1 = zone_finalizers c) by (unfold zone_finalizers; by rewrite Ho).
  do 3 zn_step; [|by left..]. do 2 zn_step. fold (the_zone c1).
  destruct (0 <? _) eqn:Hm; [by zn_step; left|].
  pose proof (machines_in_zone_none _ _ Hm) as Hu. rewrite Ho in Hu. rewrite Hs.
  do 3 zn_step; [| |by left].
  - zn_step. eapply wpm_mono; [apply release_domain_spec|].
    intros tr [u|e|w] c2 [-> Hd]; cbn beta iota; [|by left..].
    zn_step. right. split; [done|]. split; [by rewrite <-Hf|]. split.
    + exists a. split; [in_trace|done].
    + right. exists a0. split; [in_trace|]. revert Hd. unfold domain_let_go, zone_owner. cbn zeta. rewrite Ho.
      intros [Hp Hd]. split; [in_trace|]. intros H1 H2. destruct (Hd H1 H2) as (r & Hin & Hr). exists r.
      split; [in_trace|done].
  - destruct (IsNotFound e) eqn:En; [|by zn_step; left]. zn_step. right. split; [done|].
    split; [by rewrite <-Hf|]. split.
    + exists a. split; [in_trace|done].
    + left. exists e. split; [in_trace|done].
Qed.

(** C8: a deployment zone is ready only when vCenter has what it names. A pass
    over a zone that is not being deleted and ends without an error leaves the
    zone ready, and in it were found the resource pool and the folder of its
    placement constraint, the tags of the region and of the zone of its failure
    domain on all of the objects they are about, the compute cluster as the owner
    of that resource pool, the datastore, the networks and the rule for the
    hosts of the topology, and the zone was written as an owner of the failure
    domain. A pass that ends with an error leaves the zone not ready, except when
    the failure domain could not be read: then it stays as it was. *)
Theorem zone_ready_valid c tr r c' :
  om_DeletionTimestamp (zn_ObjectMeta (the_zone c)) = None ->
  runs (reconcile_zone mgr c) tr (r, c') ->
  match r with
  | Ok _ => zone_ready c' = Some true /\ zone_valid (the_zone c) tr
  | Err _ => zone_ready c' = Some false \/
      zone_ready c' = zone_ready c /\ exists e, Call (GetVSphereFailureDomain (dz_FailureDomain (zn_Spec (the_zone c)))) (Err e) ∈ tr
  | Stop _ => True
  end.
Proof.
  intros Hd Hr. refine (proj2 (proj1 (wpm_runs _ _ (normal_post c)) _ _ _ _ Hr)).
  unfold reconcile_zone. do 2 zn_step. fold (the_zone c). rewrite Hd. apply zone_normal_spec.
Qed.

(** C9: a deployment zone is let go only when nothing uses it. The finalizers of a
    zone change in a pass only by losing the one of the controller, in a pass
    without an error over a zone that is being deleted, when the Machines of all
    namespaces were listed and each one in the zone is being deleted or is listed
    before another Machine of its name, which the code takes instead of it (so that no
    Machine is left in the zone when names are unique over the namespaces), and its
    failure domain is gone or was written without the zone among its owners, and deleted
    when nobody else owns it. *)
Theorem zone_finalizer c tr r c' :
  runs (reconcile_zone mgr c) tr (r, c') ->
  zone_finalizers c' = zone_finalizers c \/
  r = Ok tt /\ om_DeletionTimestamp (zn_ObjectMeta (the_zone c)) <> None /\
  zone_finalizers c' = (RemoveFinalizer (zone_finalizers c) DeploymentZoneFinalizer).1 /\
  zone_unused (the_zone c) tr /\ domain_released (the_zone c) tr.
Proof.
  intros Hr. refine (proj1 (wpm_runs _ _ (fun tr r c' => zone_finalizers c' = zone_finalizers c \/ _)) _ _ _ _ Hr).
  unfold reconcile_zone. do 2 zn_step. fold (the_zone c).
  destruct (om_DeletionTimestamp (zn_ObjectMeta (the_zone c))) eqn:Hd.
  - eapply wpm_mono; [apply zone_delete_spec|]. intros tr1 r1 c1 [?|(? & ? & ? & ?)]; [by left|right]. by split_and!.
  - eapply wpm_mono; [apply zone_normal_spec|]. intros tr1 r1 c1 [Ho _]. left. unfold zone_finalizers. by rewrite Ho.
Qed.
End lemmas.

(** * Concrete inputs *)

Section examples.
Import RefLibs.

Definition sample_domain (regionType : string) : VSphereFailureDomain :=
  mkVSphereFailureDomain (mkObjectMeta "fd-a" "" "uid-fd" None [] [] None)
    (mkVSphereFailureDomainSpec (mkFailureDomain "region-a" regionType "k8s-region")
       (mkFailureDomain "zone-a" ComputeClusterFailureDomain "k8s-zone")
       (mkTopology "dc0" "cluster-a" (mkFailureDomainHosts "vm-group" "host-group") ["net-1"] [] "datastore-a")).

Definition sample_zone (deletion : Time) : VSphereDeploymentZoneContext :=
  mkVSphereDeploymentZoneContext
    (mkVSphereDeploymentZone (mkObjectMeta "zone-1" "" "uid-zone" None [] [DeploymentZoneFinalizer] deletion)
       (mkVSphereDeploymentZoneSpec "vcenter" "fd-a" None (mkPlacementConstraint "pool" "folder")) None [] []) None.

(** A vCenter that has what the failure domain names. *)
Definition zone_answer (fd : VSphereFailureDomain) (X : Type) (e : Ev X) (w : RefWorld) : X * RefWorld :=
  match e in Ev Y return Y * RefWorld with
  | GetVSphereFailureDomain _ => (Ok fd, w)
  | GetAttachedTags _ => (Ok ["region-a"; "zone-a"], w)
  | ClusterConfiguration _ =>
      (Ok (mkClusterConfig [] [ClusterVmHostRuleInfo (Some true) (Some false) "host-group" "vm-group"]), w)
  | e => ref_answer _ e w
  end.
Definition sample_manager : ManagerContext := mkManagerContext "admin" "secret" "capv-system".
Definition zone_run (fd : VSphereFailureDomain) (c : VSphereDeploymentZoneContext)
    : trace * (res unit * VSphereDeploymentZoneContext) :=
  exec (zone_answer fd) (reconcile_zone sample_manager c) empty_world.

Lemma zone_run_runs fd c :
  runs (reconcile_zone sample_manager c) (zone_run fd c).1 ((zone_run fd c).2.1, (zone_run fd c).2.2).
Proof. rewrite <-surjective_pairing. exact (exec_runs (zone_answer fd) (reconcile_zone sample_manager c) empty_world). Qed.

Definition sample_zone_run := zone_run (sample_domain DatacenterFailureDomain) (sample_zone None).
Lemma sample_zone_result : (zone_run (sample_domain DatacenterFailureDomain) (sample_zone None)).2.1 = Ok tt.
Proof. vm_compute. reflexivity. Qed.
Lemma zone_ready_valid_witness :
  zone_ready sample_zone_run.2.2 = Some true /\ zone_valid (the_zone (sample_zone None)) sample_zone_run.1.
Proof.
  pose proof (zone_ready_valid sample_manager (sample_zone None) _ _ _ eq_refl
    (zone_run_runs (sample_domain DatacenterFailureDomain) (sample_zone None))) as Hw.
  rewrite sample_zone_result in Hw. exact Hw.
Defined.

Definition sample_zone_delete := zone_run (sample_domain DatacenterFailureDomain) (sample_zone (Some 1)).
Lemma sample_zone_delete_finalizers : zone_finalizers sample_zone_delete.2.2 = [].
Proof. vm_compute. reflexivity. Qed.
Lemma zone_finalizer_witness :
  zone_unused (the_zone (sample_zone (Some 1))) sample_zone_delete.1 /\
  domain_released (the_zone (sample_zone (Some 1))) sample_zone_delete.1.
Proof.
  destruct (zone_finalizer sample_manager (sample_zone (Some 1)) _ _ _
    (zone_run_runs (sample_domain DatacenterFailureDomain) (sample_zone (Some 1)))) as [Hf|(_ & _ & _ & Hu & Hd)]; [|done].
  fold sample_zone_delete in Hf. rewrite sample_zone_delete_finalizers in Hf. discriminate Hf.
Defined.

(** A failure domain of a type without a function to find its objects makes the
    pass panic. *)
Example unknown_type_panics : (zone_run (sample_domain "Rack") (sample_zone None)).2.1 = Stop Panics.
Proof. vm_compute. reflexivity. Qed.

(** The credentials of the only cluster on the server cannot be read: the session
    is asked for with the credentials of the manager and the thumbprint of that
    cluster. *)
Definition sample_cluster : VSphereCluster :=
  mkVSphereCluster (mkObjectMeta "cluster-1" "default" "uid" None [] [] None)
    (mkVSphereClusterSpec "vcenter" "AA:BB" (mkAPIEndpoint "" 0)
       (mkVSphereIdentityReference Identity.VSphereClusterIdentityKind "gone") [] None None)
    [] [] "" [] None "".
Definition thumbprints (tr : trace) : list (option string) :=
  omap (M:=list) (fun c => match c with @Call _ _ (VimNewClient _ t) _ => Some t | _ => None end) tr.
Example fallback_keeps_thumbprint :
  thumbprints (exec ref_answer (session_of_clusters sample_manager "vcenter"
    (mkParams "vcenter" "dc0" ("admin", "secret") "") [sample_cluster] (sample_zone None)) empty_world).1 =
  [Some "AA:BB"].
Proof. vm_compute. reflexivity. Qed.
End examples.

End ZoneController.
