(* ===== verification/IdentityController.v ===== *)
(** [controllers/vsphereclusteridentity_controller.go]: a VSphereClusterIdentity
    takes its secret for itself and is ready then; its deletion deletes the
    secret. *)
From S2P Require Import Prelude GoStrings Types Libs Constants Errors Prog World RefLibs Conditions Identity.

Module IdentityController.
Import Identity.

#[export] Program Instance identity_conditioned : Conditioned VSphereClusterIdentity := {|
  the_conditions := ci_Conditions;
  put_conditions := set_ci_Conditions;
  the_v1beta1 := ci_V1Beta1Conditions;
  put_v1beta1 := set_ci_V1Beta1Conditions
|}.
Solve Obligations with intros; repeat match goal with c : VSphereClusterIdentity |- _ => destruct c end; done.

Section controller.
(** The namespace of the controller, where the secrets are. *)
Context `{Libs} (namespace : string).
#[warnings="-notation-for-abbreviation"]
Notation MI := (M Ev VSphereClusterIdentity).
Open Scope go_scope.

Definition secret_unavailable {A} (reason1 reason : string) (err reterr : error) : MI A :=
  cond_false CredentialsAvailableV1Beta1Condition reason1 SeverityWarning (sprintf "%v" [AS (error_string err)]) ;;
  cond_set (cond VSphereClusterIdentityAvailableCondition ConditionFalse reason (error_string err)) ;;
  fail reterr.

(** The secret with the identity among its owners and with the finalizer that
    protects it. *)
Definition owned_secret (identity : VSphereClusterIdentity) (secret : ObjectMeta) : ObjectMeta :=
  let secret := set_om_OwnerReferences
    (EnsureOwnerRef (om_OwnerReferences secret)
       (owner_ref GroupVersion "VSphereClusterIdentity" (om_Name (ci_ObjectMeta identity))
          (om_UID (ci_ObjectMeta identity)))) secret in
  if negb (ContainsFinalizer (om_Finalizers secret) SecretIdentitySetFinalizer)
  then set_om_Finalizers (AddFinalizer (om_Finalizers secret) SecretIdentitySetFinalizer).1 secret
  else secret.

(** A secret of another identity, or of a cluster. *)
Definition secret_in_use (identity : VSphereClusterIdentity) (secret : ObjectMeta) : bool :=
  negb (IsOwnedByObject (om_OwnerReferences secret) GroupName "VSphereClusterIdentity" (om_Name (ci_ObjectMeta identity))) &&
  IsOwnedByIdentityOrCluster (om_OwnerReferences secret).

(** What [Reconcile] does for an identity that is not being deleted. *)
Definition reconcileNormal : MI unit :=
  identity <- get ;;
  got <- try (call_res (GetObject "Secret" namespace (ci_SecretName identity))) ;;
  match got with
  | inr err =>
      secret_unavailable SecretNotAvailableV1Beta1Reason VSphereClusterIdentitySecretNotAvailableReason err
        (EWrap (sprintf "failed to get Secret %s" [AS (KRef namespace (ci_SecretName identity))]) err)
  | inl secret =>
      if secret_in_use identity secret then
        let msg := "secret being used by another Cluster/VSphereIdentity" in
        cond_false CredentialsAvailableV1Beta1Condition SecretAlreadyInUseV1Beta1Reason SeverityError msg ;;
        cond_set (cond VSphereClusterIdentityAvailableCondition ConditionFalse
          VSphereClusterIdentitySecretAlreadyInUseReason msg) ;;
        modify (set_ci_Ready (Some false)) ;;
        fail (ENew msg)
      else
        updated <- try (call_res (UpdateObject "Secret" (owned_secret identity secret))) ;;
        match updated with
        | inr err =>
            secret_unavailable SecretOwnerReferenceFailedV1Beta1Reason
              VSphereClusterIdentitySettingSecretOwnerReferenceFailedReason err err
        | inl _ =>
            cond_true CredentialsAvailableV1Beta1Condition ;;
            cond_set (cond VSphereClusterIdentityAvailableCondition ConditionTrue
              VSphereClusterIdentityAvailableReason "") ;;
            modify (set_ci_Ready (Some true))
        end
  end.

Definition remove_identity_finalizer (identity : VSphereClusterIdentity) : VSphereClusterIdentity :=
  set_ci_ObjectMeta (without_finalizer VSphereClusterIdentityFinalizer (ci_ObjectMeta identity)) identity.

Definition reconcileDelete : MI unit :=
  cond_set (cond VSphereClusterIdentityAvailableCondition ConditionFalse VSphereClusterIdentityDeletingReason "") ;;
  identity <- get ;;
  got <- try (call_res (GetObject "Secret" namespace (ci_SecretName identity))) ;;
  match got with
  | inr err => if IsNotFound err then modify remove_identity_finalizer else fail err
  | inl secret =>
      release_secret secret ;;
      modify remove_identity_finalizer
  end.

Definition patch_on_exit (reterr : option error) : MI (option error) :=
  cond_v1beta1_summary [CredentialsAvailableV1Beta1Condition] ;;
  identity <- get ;;
  r <- try (call_res (PatchVSphereClusterIdentity identity)) ;;
  ret (match r with inr err => NewAggregate [reterr; Some err] | inl _ => reterr end).

Definition reconcile_identity : MI unit :=
  identity <- get ;;
  match om_DeletionTimestamp (ci_ObjectMeta identity) with
  | Some _ => reconcileDelete
  | None => reconcileNormal
  end.

Definition Reconcile (name : string) : M Ev unit unit :=
  got <- try (call_res (GetVSphereClusterIdentity name)) ;;
  match got with
  | inr err => if IsNotFound err then ret tt else fail err
  | inl identity =>
      let om := ci_ObjectMeta identity in
      finalizerAdded <- call_res (EnsureFinalizerOf "VSphereClusterIdentity" om VSphereClusterIdentityFinalizer) ;;
      if (finalizerAdded : bool) then ret tt
      else
        call_res (NewPatchHelperOf "VSphereClusterIdentity" om) ;;
        paused <- call_res (EnsurePausedConditionOf None "VSphereClusterIdentity" om) ;;
        if (paused.1 || paused.2 : bool) then ret tt
        else local identity (finally patch_on_exit reconcile_identity)
  end.
End controller.

(** * Lemmas *)

Section lemmas.
Context `{Libs} (namespace : string).
Open Scope go_scope.

(** The secret was free or its own, and was written with the identity among its
    owners and the finalizer that protects it. *)
Definition secret_held (identity : VSphereClusterIdentity) (tr : trace) : Prop :=
  exists secret secret', Call (GetObject "Secret" namespace (ci_SecretName identity)) (Ok secret) ∈ tr /\
    secret_in_use identity secret = false /\
    owner_ref GroupVersion "VSphereClusterIdentity" (om_Name (ci_ObjectMeta identity))
      (om_UID (ci_ObjectMeta identity)) ∈ om_OwnerReferences secret' /\
    SecretIdentitySetFinalizer ∈ om_Finalizers secret' /\
    Call (UpdateObject "Secret" secret') (Ok tt) ∈ tr.

Definition identity_available (i : VSphereClusterIdentity) : Prop :=
  exists cnd, the_condition VSphereClusterIdentityAvailableCondition i = Some cnd /\ c_Status cnd = ConditionTrue.

Lemma owned_secret_held identity secret :
  owner_ref GroupVersion "VSphereClusterIdentity" (om_Name (ci_ObjectMeta identity))
    (om_UID (ci_ObjectMeta identity)) ∈ om_OwnerReferences (owned_secret identity secret) /\
  SecretIdentitySetFinalizer ∈ om_Finalizers (owned_secret identity secret).
Proof.
  unfold owned_secret, ContainsFinalizer. cbn zeta. cbn [om_Finalizers set_om_OwnerReferences].
  case_bool_decide as Hf; cbn; (split; [apply EnsureOwnerRef_in|]); [exact Hf|apply AddFinalizer_spec; by right].
Qed.

(** What a pass that is not a deletion leaves. *)
Definition normal_post (i : VSphereClusterIdentity) (tr : trace) (r : res unit) (i' : VSphereClusterIdentity) : Prop :=
  ci_ObjectMeta i' = ci_ObjectMeta i /\
  match r with
  | Ok _ => ci_Ready i' = Some true /\ identity_available i' /\ secret_held i tr
  | Err _ => (ci_Ready i' = ci_Ready i \/ ci_Ready i' = Some false) /\
      exists cnd, the_condition VSphereClusterIdentityAvailableCondition i' = Some cnd /\ c_Status cnd = ConditionFalse
  | Stop _ => True
  end.

Lemma secret_unavailable_spec {A} r1 r err reterr i (Q : trace -> res A -> VSphereClusterIdentity -> Prop) :
  (forall tr i', ci_ObjectMeta i' = ci_ObjectMeta i -> ci_Ready i' = ci_Ready i ->
     (exists cnd, the_condition VSphereClusterIdentityAvailableCondition i' = Some cnd /\ c_Status cnd = ConditionFalse) ->
     Q tr (Err reterr) i') ->
  wpm (secret_unavailable r1 r err reterr) i Q.
Proof.
  intros HQ. unfold secret_unavailable. do 4 cond_step. cond_step. apply HQ; [done..|].
  destruct (the_condition_set now0 (cond VSphereClusterIdentityAvailableCondition ConditionFalse r (error_string err))
    (put_v1beta1 l i)) as (g & t & E). eexists. split; [exact E|done].
Qed.

Lemma identity_normal_spec i : wpm (reconcileNormal namespace) i (normal_post i).
Proof.
  unfold reconcileNormal, normal_post. do 5 cond_step; [| |done].
  2:{ apply secret_unavailable_spec. intros tr i' -> -> Hc. split; [done|]. split; [by left|exact Hc]. }
  destruct (secret_in_use i a) eqn:Hu.
  - do 6 cond_step. cond_step. split; [done|]. split; [by right|].
    match goal with |- exists cnd, the_condition _ (set_ci_Ready _ ?x) = _ /\ _ =>
      change (exists cnd, the_condition VSphereClusterIdentityAvailableCondition x = Some cnd /\ c_Status cnd = ConditionFalse) end.
    destruct (the_condition_set now0 (cond VSphereClusterIdentityAvailableCondition ConditionFalse
      VSphereClusterIdentitySecretAlreadyInUseReason "secret being used by another Cluster/VSphereIdentity")
      (put_v1beta1 l i)) as (g & t & E). eexists. split; [exact E|done].
  - do 3 cond_step; [| |done].
    2:{ apply secret_unavailable_spec. intros tr i' -> -> Hc. split; [done|]. split; [by left|exact Hc]. }
    do 4 cond_step. cond_step. split; [done|]. split; [done|]. split.
    + destruct (the_condition_set now0 (cond VSphereClusterIdentityAvailableCondition ConditionTrue
        VSphereClusterIdentityAvailableReason "") (put_v1beta1 l i)) as (g & t & E). eexists. split; [exact E|done].
    + exists a, (owned_secret i a). destruct (owned_secret_held i a), a0. split_and!; [in_trace|done..|in_trace].
Qed.

(** The secret is not there, or no longer has the finalizer and is deleted. *)
Definition secret_gone (identity : VSphereClusterIdentity) (tr : trace) : Prop :=
  (exists e, IsNotFound e = true /\ Call (GetObject "Secret" namespace (ci_SecretName identity)) (Err e) ∈ tr) \/
  exists secret, let freed := without_finalizer SecretIdentitySetFinalizer secret in
    Call (GetObject "Secret" namespace (ci_SecretName identity)) (Ok secret) ∈ tr /\
    (SecretIdentitySetFinalizer ∈ om_Finalizers secret -> Call (UpdateObject "Secret" freed) (Ok tt) ∈ tr) /\
    (not_deleted secret = true -> Call (DeleteObject "Secret" freed) (Ok tt) ∈ tr).

Definition identity_finalizers (i : VSphereClusterIdentity) : list string := om_Finalizers (ci_ObjectMeta i).

Lemma identity_delete_spec i :
  wpm (reconcileDelete namespace) i (fun tr r i' => identity_finalizers i' = identity_finalizers i \/
    r = Ok tt /\ identity_finalizers i' = (RemoveFinalizer (identity_finalizers i) VSphereClusterIdentityFinalizer).1 /\
    secret_gone i tr).
Proof.
  unfold reconcileDelete, secret_gone. do 7 cond_step; [| |by left].
  - cond_step. eapply wpm_mono; [apply release_secret_spec|].
    intros tr [u|e|w] i1 [-> Hs]; cbn beta iota; [|by left..]. cond_step. right. split; [done|]. split; [done|].
    right. exists a. destruct Hs as [Hu Hd]. cbn zeta. split_and!.
    + in_trace.
    + intros Hin. specialize (Hu Hin). in_trace.
    + intros Hin. specialize (Hd Hin). in_trace.
  - destruct (IsNotFound e) eqn:En; cond_step; [|by left]. right. split; [done|]. split; [done|].
    left. exists e. split; [done|in_trace].
Qed.

(** an identity is made ready only with a secret of its own. A pass over a
    VSphereClusterIdentity that is not being deleted and ends without an error
    leaves it ready and available, and in it the secret it names was read in the
    namespace of the controller, was not one of another identity or of a cluster,
    and was written with the identity among its owners and the finalizer that
    protects it. A pass that ends with an error says that the identity is not
    available and never makes it ready. *)
Theorem identity_ready i tr r i' :
  om_DeletionTimestamp (ci_ObjectMeta i) = None ->
  runs (reconcile_identity namespace i) tr (r, i') ->
  match r with
  | Ok _ => ci_Ready i' = Some true /\ identity_available i' /\ secret_held i tr
  | Err _ => (ci_Ready i' = ci_Ready i \/ ci_Ready i' = Some false) /\ ~ identity_available i'
  | Stop _ => True
  end.
Proof.
  intros Hd Hr. assert (Hp : wpm (reconcile_identity namespace) i (normal_post i)).
  { unfold reconcile_identity. do 2 cond_step. rewrite Hd. apply identity_normal_spec. }
  pose proof (proj2 (proj1 (wpm_runs _ _ _) Hp _ _ _ Hr)) as Hpost. destruct r as [u|e|w]; [exact Hpost| |done].
  destruct Hpost as [Hrd (cnd & Hc & Hs)]. split; [exact Hrd|]. intros (cnd' & Hc' & Hs').
  rewrite Hc in Hc'. injection Hc' as <-. rewrite Hs in Hs'. discriminate Hs'.
Qed.

(** An identity is let go only when it is being deleted and its secret is gone, or
    lost its finalizer and was deleted. *)
Theorem identity_finalizer i tr r i' :
  runs (reconcile_identity namespace i) tr (r, i') ->
  identity_finalizers i' = identity_finalizers i \/
  om_DeletionTimestamp (ci_ObjectMeta i) <> None /\
  identity_finalizers i' = (RemoveFinalizer (identity_finalizers i) VSphereClusterIdentityFinalizer).1 /\
  secret_gone i tr.
Proof.
  intros Hr. refine (proj1 (wpm_runs _ _ (fun tr r i' => identity_finalizers i' = identity_finalizers i \/ _)) _ _ _ _ Hr).
  unfold reconcile_identity. do 2 cond_step. destruct (om_DeletionTimestamp (ci_ObjectMeta i)) eqn:Hd.
  - eapply wpm_mono; [apply identity_delete_spec|]. intros tr1 r1 i1 [?|(? & ? & ?)]; [by left|right]. by split_and!.
  - eapply wpm_mono; [apply identity_normal_spec|]. intros tr1 r1 i1 [Ho _]. left. unfold identity_finalizers. by rewrite Ho.
Qed.
End lemmas.

(** * Concrete inputs *)

Section examples.
Import RefLibs.

Definition sample_identity (name : string) (deletion : Time) (ready : option bool) : VSphereClusterIdentity :=
  mkVSphereClusterIdentity (mkObjectMeta name "" name None [] [VSphereClusterIdentityFinalizer] deletion) ready "creds" None [] [].

(** A secret that has owners, or cannot be read. *)
Definition secret_answer (owners : option (list OwnerReference)) (X : Type) (e : Ev X) (w : RefWorld) : X * RefWorld :=
  match e in Ev Y return Y * RefWorld with
  | GetObject _ ns name =>
      (match owners with
       | Some owners => Ok (mkObjectMeta name ns name None owners [SecretIdentitySetFinalizer] None)
       | None => Err (ELib APINotFound "not found")
       end, w)
  | e => ref_answer _ e w
  end.
Definition identity_run (owners : option (list OwnerReference)) (i : VSphereClusterIdentity)
    : trace * (res unit * VSphereClusterIdentity) :=
  exec (secret_answer owners) (reconcile_identity "capv-system" i) empty_world.
Lemma identity_run_runs owners i :
  runs (reconcile_identity "capv-system" i) (identity_run owners i).1 ((identity_run owners i).2.1, (identity_run owners i).2.2).
Proof. rewrite <-surjective_pairing. exact (exec_runs (secret_answer owners) (reconcile_identity "capv-system" i) empty_world). Qed.

Lemma sample_identity_result : (identity_run (Some []) (sample_identity "identity-1" None None)).2.1 = Ok tt.
Proof. vm_compute. reflexivity. Qed.
Lemma identity_ready_witness :
  identity_available (identity_run (Some []) (sample_identity "identity-1" None None)).2.2 /\
  secret_held "capv-system" (sample_identity "identity-1" None None)
    (identity_run (Some []) (sample_identity "identity-1" None None)).1.
Proof.
  pose proof (identity_ready "capv-system" (sample_identity "identity-1" None None) _ _ _ eq_refl
    (identity_run_runs (Some []) (sample_identity "identity-1" None None))) as Hw.
  rewrite sample_identity_result in Hw. exact (proj2 Hw).
Defined.

Lemma identity_finalizer_witness :
  let run := identity_run (Some []) (sample_identity "identity-1" (Some 1) None) in
  identity_finalizers run.2.2 = [VSphereClusterIdentityFinalizer] \/
  secret_gone "capv-system" (sample_identity "identity-1" (Some 1) None) run.1.
Proof.
  destruct (identity_finalizer "capv-system" (sample_identity "identity-1" (Some 1) None) _ _ _
    (identity_run_runs (Some []) (sample_identity "identity-1" (Some 1) None))) as [Hf|(_ & _ & Hs)].
  - left. exact Hf.
  - right. exact Hs.
Defined.

(** Deleting an identity that was refused because its secret is another's deletes
    the secret all the same. *)
Definition other_owner : OwnerReference := owner_ref GroupVersion "VSphereClusterIdentity" "identity-1" "identity-1".
Example refused_identity_deletes_secret :
  (identity_run (Some [other_owner]) (sample_identity "identity-2" None None)).2.1 =
    Err (ENew "secret being used by another Cluster/VSphereIdentity") /\
  effects (identity_run (Some [other_owner]) (sample_identity "identity-2" (Some 1) (Some false))).1 =
    [UpdatesObject "Secret" "creds"; DeletesObject "Secret" "creds"].
Proof. split; vm_compute; reflexivity. Qed.

(** An identity that is ready stays so when its secret has gone. *)
Example ready_without_secret :
  ci_Ready (identity_run None (sample_identity "identity-1" None (Some true))).2.2 = Some true.
Proof. vm_compute. reflexivity. Qed.
End examples.

End IdentityController.
