(* ===== verification/MachineInterface.v ===== *)
(** [MachineContext] of [pkg/context/interfaces.go] and [VSphereMachineService] of
    [pkg/services/interfaces.go]: what the controller of VSphereMachines relies on
    of the object it reconciles and of the service that makes its VM, in the
    govmomi mode as in the supervisor mode. *)
From S2P Require Import Prelude GoStrings Types Libs Errors Prog World Conditions.

Module MachineInterface.

(** [MachineContext]: the VSphereMachine with its conditions and its metadata, and
    the objects it was reached from. *)
Class MachineContext (Ctx : Type) := {
  mx_Conditioned :: Conditioned Ctx;
  ctx_String : Ctx -> string;
  GetObjectMeta : Ctx -> ObjectMeta;
  put_ObjectMeta : ObjectMeta -> Ctx -> Ctx;
  GetReady : Ctx -> bool;
  GetCluster : Ctx -> option KubeCluster;
  GetMachine : Ctx -> option Machine;
  put_Machine : Machine -> Ctx -> Ctx;
  SetBaseMachineContext : option KubeCluster -> Machine -> Ctx -> Ctx;
  ctx_Patch : M Ev Ctx unit;

  meta_put om c : GetObjectMeta (put_ObjectMeta om c) = om;
  base_put om c : (GetCluster (put_ObjectMeta om c), GetMachine (put_ObjectMeta om c)) = (GetCluster c, GetMachine c);
  meta_put_machine m c : GetObjectMeta (put_Machine m c) = GetObjectMeta c;
  ready_put_machine m c : GetReady (put_Machine m c) = GetReady c;
  view_put_conditions l c :
    (GetObjectMeta (put_conditions l c), GetReady (put_conditions l c), GetCluster (put_conditions l c), GetMachine (put_conditions l c)) =
    (GetObjectMeta c, GetReady c, GetCluster c, GetMachine c);
  view_put_v1beta1 l c :
    (GetObjectMeta (put_v1beta1 l c), GetReady (put_v1beta1 l c), GetCluster (put_v1beta1 l c), GetMachine (put_v1beta1 l c)) =
    (GetObjectMeta c, GetReady c, GetCluster c, GetMachine c);
  meta_base cluster m c : GetObjectMeta (SetBaseMachineContext cluster m c) = GetObjectMeta c;
  ctx_Patch_same c : wpm ctx_Patch c (fun _ _ c' => c' = c)
}.

(** What the service leaves alone. *)
Definition the_rest `{MachineContext Ctx} (c : Ctx) : ObjectMeta * option KubeCluster * option Machine :=
  (GetObjectMeta c, GetCluster c, GetMachine c).

(** [VSphereMachineService] with what the reconciler is configured with. The
    promises are the laws: the metadata of the object and the objects it was
    reached from are left alone; a deletion says that nothing was found only when
    the VM is gone; and a VM that is done is one that is ready. *)
Class VSphereMachineService `{Libs} (Ctx : Type) `{MachineContext Ctx} := {
  supervisorBased : bool;
  FetchVSphereMachine : string -> string -> M Ev unit Ctx;
  FetchVSphereCluster : KubeCluster -> M Ev Ctx unit;
  SyncFailureReason : M Ev Ctx unit;
  svc_ReconcileDelete : M Ev Ctx unit;
  svc_ReconcileNormal : M Ev Ctx bool;
  GetHostInfo : M Ev Ctx string;
  GetMachinesInCluster : string -> string -> M Ev unit (list ObjectMeta);
  (** The supervisor mode: resolving the network provider of the cluster, which
      there may not be one of yet, and the hooks for the VM. *)
  ForCluster : M Ev Ctx bool;
  setVMModifiers : M Ev Ctx unit;

  (** The VM of a machine was looked for and is not there. *)
  vm_not_found : Ctx -> list (call Ev) -> Prop;
  vm_not_found_grows c :: Grows (vm_not_found c);
  vm_not_found_adorned c c' : adorned c c' -> vm_not_found c' = vm_not_found c;

  FetchVSphereMachine_law ns name : wpm (FetchVSphereMachine ns name) tt (fun tr _ _ => effects tr = []);
  FetchVSphereCluster_law cl c : wpm (FetchVSphereCluster cl) c (fun tr _ c' => effects tr = [] /\ the_rest c' = the_rest c);
  SyncFailureReason_law c : wpm SyncFailureReason c (fun tr _ c' => effects tr = [] /\ the_rest c' = the_rest c);
  ReconcileDelete_law c : wpm svc_ReconcileDelete c (fun tr r c' => the_rest c' = the_rest c /\
    match r with Err e => IsNotFound e = true -> vm_not_found c tr | _ => True end);
  ReconcileNormal_law c : wpm svc_ReconcileNormal c (fun tr r c' => the_rest c' = the_rest c /\
    match r with Ok false => GetReady c' = true | _ => True end);
  GetHostInfo_law c : wpm GetHostInfo c (fun tr _ c' => effects tr = [] /\ c' = c);
  ForCluster_law c : wpm ForCluster c (fun tr _ c' => effects tr = [] /\ the_rest c' = the_rest c);
  setVMModifiers_law c : wpm setVMModifiers c (fun tr _ c' => effects tr = [] /\ the_rest c' = the_rest c)
}.

End MachineInterface.
