(* ===== verification/VimMachine.v ===== *)
(** [pkg/services/vimmachine.go] with [VIMMachineContext] of
    [pkg/context/machine_context.go]: the VSphereVM of a VSphereMachine, its name,
    its specification and what it reports back. *)
From S2P Require Import Prelude GoStrings Types Libs Constants Errors Prog World RefLibs Conditions Identity MachineUtil MachineInterface.

Module VimMachine.
Import Identity MachineUtil MachineInterface.

(** * The context *)

Record VIMMachineContext := mkVIMMachineContext {
  xm_Cluster : option KubeCluster;
  xm_Machine : option Machine;
  xm_VSphereCluster : option VSphereCluster;
  xm_VSphereMachine : VSphereMachine
}.
Definition set_xm_Machine (v : option Machine) (c : VIMMachineContext) : VIMMachineContext :=
  mkVIMMachineContext (xm_Cluster c) v (xm_VSphereCluster c) (xm_VSphereMachine c).
Definition set_xm_VSphereCluster (v : option VSphereCluster) (c : VIMMachineContext) : VIMMachineContext :=
  mkVIMMachineContext (xm_Cluster c) (xm_Machine c) v (xm_VSphereMachine c).
Definition set_xm_VSphereMachine (v : VSphereMachine) (c : VIMMachineContext) : VIMMachineContext :=
  mkVIMMachineContext (xm_Cluster c) (xm_Machine c) (xm_VSphereCluster c) v.

Definition on_pstatus (f : VSphereMachineStatus -> VSphereMachineStatus) (c : VIMMachineContext) : VIMMachineContext :=
  let m := xm_VSphereMachine c in set_xm_VSphereMachine (set_p_Status (f (p_Status m)) m) c.

(** ** Conditions of a VSphereMachine

    Those of the v1beta1 contract are two pointers deep. *)

Definition machine_v1beta1 (m : VSphereMachine) : option VSphereMachineV1Beta1DeprecatedStatus :=
  match pt_Deprecated (p_Status m) with Some d => px_V1Beta1 d | None => None end.
Definition set_machine_v1beta1 (b : VSphereMachineV1Beta1DeprecatedStatus) (c : VIMMachineContext) : VIMMachineContext :=
  on_pstatus (set_pt_Deprecated (Some (mkVSphereMachineDeprecatedStatus (Some b)))) c.

Definition machine_GetV1Beta1Conditions (c : VIMMachineContext) : list V1Beta1Condition :=
  match machine_v1beta1 (xm_VSphereMachine c) with Some b => pb_Conditions b | None => [] end.
(** Missing levels are created. *)
Definition machine_SetV1Beta1Conditions (conditions : list V1Beta1Condition) (c : VIMMachineContext) : VIMMachineContext :=
  let b := default (mkVSphereMachineV1Beta1DeprecatedStatus [] None None) (machine_v1beta1 (xm_VSphereMachine c)) in
  set_machine_v1beta1 (mkVSphereMachineV1Beta1DeprecatedStatus conditions (pb_FailureReason b) (pb_FailureMessage b)) c.

#[export] Program Instance vim_conditioned : Conditioned VIMMachineContext := {|
  the_conditions c := pt_Conditions (p_Status (xm_VSphereMachine c));
  put_conditions l c := on_pstatus (set_pt_Conditions l) c;
  the_v1beta1 := machine_GetV1Beta1Conditions;
  put_v1beta1 := machine_SetV1Beta1Conditions
|}.
Solve Obligations with done.

Definition VIMMachineContext_String (c : VIMMachineContext) : string :=
  let m := xm_VSphereMachine c in
  sprintf "%s %s/%s" [AS (p_GVK m); AS (om_Namespace (p_ObjectMeta m)); AS (om_Name (p_ObjectMeta m))].

#[export] Program Instance vim_context : MachineContext VIMMachineContext := {|
  ctx_String := VIMMachineContext_String;
  GetObjectMeta c := p_ObjectMeta (xm_VSphereMachine c);
  put_ObjectMeta om c := set_xm_VSphereMachine (set_p_ObjectMeta om (xm_VSphereMachine c)) c;
  GetReady c := ptr_deref (pt_Provisioned (p_Status (xm_VSphereMachine c))) false;
  GetCluster := xm_Cluster;
  GetMachine := xm_Machine;
  put_Machine m c := set_xm_Machine (Some m) c;
  SetBaseMachineContext cluster machine c :=
    mkVIMMachineContext cluster (Some machine) (xm_VSphereCluster c) (xm_VSphereMachine c);
  ctx_Patch := bind (gets xm_VSphereMachine) (fun m => call_res (PatchVSphereMachine m))
|}.
Solve Obligations with intros; repeat wp_step; done.

(** * Networks of a failure domain *)

Definition empty_device : NetworkDeviceSpec :=
  mkNetworkDeviceSpec "" "" None None "" "" [] None "" [] [] [] [] None None None.

(** The first loop puts a network on every device, as long as there are networks;
    the second one makes devices of the networks that are left. *)
Definition overrideNetworkDeviceSpecs {T} (deviceSpecs : list NetworkDeviceSpec) (networks : list T)
    (mergeFunc : T -> NetworkDeviceSpec -> NetworkDeviceSpec) : list NetworkDeviceSpec :=
  let devices := imap (fun i device => match networks !! i with
                                       | Some network => mergeFunc network device
                                       | None => device
                                       end) deviceSpecs in
  let index := Nat.min (length deviceSpecs) (length networks) in
  (devices ++ map (fun network => mergeFunc network empty_device) (drop index networks))%list.

Definition mergeFailureDomainNetworkName (network : string) (device : NetworkDeviceSpec) : NetworkDeviceSpec :=
  set_nd_NetworkName network device.

Definition when {A B} (b : bool) (f : A -> B -> B) (a : A) (x : B) : B := if b then f a x else x.

Definition mergeNetworkConfigurationInNetworkDeviceSpec (nc : NetworkConfiguration) (device : NetworkDeviceSpec)
    : NetworkDeviceSpec :=
  let device := when (negb (String.eqb (nc_NetworkName nc) "")) set_nd_NetworkName (nc_NetworkName nc) device in
  let device := when (bool_decide (is_Some (nc_DHCP4 nc))) set_nd_DHCP4 (nc_DHCP4 nc) device in
  let device := when (bool_decide (is_Some (nc_DHCP6 nc))) set_nd_DHCP6 (nc_DHCP6 nc) device in
  let device := when (0 <? zlen (nc_Nameservers nc)) set_nd_Nameservers (nc_Nameservers nc) device in
  let device := when (0 <? zlen (nc_SearchDomains nc)) set_nd_SearchDomains (nc_SearchDomains nc) device in
  let device := when (bool_decide (is_Some (nc_DHCP4Overrides nc))) set_nd_DHCP4Overrides (nc_DHCP4Overrides nc) device in
  let device := when (bool_decide (is_Some (nc_DHCP6Overrides nc))) set_nd_DHCP6Overrides (nc_DHCP6Overrides nc) device in
  when (0 <? zlen (nc_AddressesFromPools nc)) set_nd_AddressesFromPools (nc_AddressesFromPools nc) device.

(** ** The override of a failure domain *)

Definition on_clone (f : VirtualMachineCloneSpec -> VirtualMachineCloneSpec) (vm : VSphereVM) : VSphereVM :=
  set_vm_Spec (set_vs_VirtualMachineCloneSpec (f (vs_VirtualMachineCloneSpec (vm_Spec vm))) (vm_Spec vm)) vm.

Definition on_devices (f : list NetworkDeviceSpec -> list NetworkDeviceSpec) (cs : VirtualMachineCloneSpec)
    : VirtualMachineCloneSpec :=
  set_cs_Network (set_ns_Devices (f (ns_Devices (cs_Network cs))) (cs_Network cs)) cs.

Definition overrideWithFailureDomain (zone : VSphereDeploymentZone) (fd : VSphereFailureDomain)
    (cs : VirtualMachineCloneSpec) : VirtualMachineCloneSpec :=
  let placement := dz_PlacementConstraint (zn_Spec zone) in
  let topology := fs_Topology (vf_Spec fd) in
  let cs := set_cs_Server (dz_Server (zn_Spec zone)) cs in
  let cs := set_cs_Datacenter (tp_Datacenter topology) cs in
  let cs := when (negb (String.eqb (pc_Folder placement) "")) set_cs_Folder (pc_Folder placement) cs in
  let cs := when (negb (String.eqb (pc_ResourcePool placement) "")) set_cs_ResourcePool (pc_ResourcePool placement) cs in
  let cs := when (negb (String.eqb (tp_Datastore topology) "")) set_cs_Datastore (tp_Datastore topology) cs in
  let cs := if 0 <? zlen (tp_Networks topology) then
              on_devices (fun devices => overrideNetworkDeviceSpecs devices (tp_Networks topology)
                            mergeFailureDomainNetworkName) cs
            else cs in
  if 0 <? zlen (tp_NetworkConfigurations topology) then
    on_devices (fun devices => overrideNetworkDeviceSpecs devices (tp_NetworkConfigurations topology)
                  mergeNetworkConfigurationInNetworkDeviceSpec) cs
  else cs.

(** * Names *)

(** The template language is Go's with two functions of a library. *)
Section service.
Context `{Libs} (execute : string -> string -> res string).
#[warnings="-notation-for-abbreviation"]
Notation MX := (M Ev VIMMachineContext).
Open Scope go_scope.

Definition GenerateVSphereVMName (machineName : string) (namingStrategy : VSphereVMNamingSpec) : res string :=
  if String.eqb (nm_Template namingStrategy) "" then Ok machineName
  else res_wrap "failed to generate name for VSphereVM"
         (GenerateMachineNameFromTemplate execute machineName (nm_Template namingStrategy)).

(** The name of a Windows VM: the first nine bytes and the last five, which have
    to be there. *)
Definition windows_name (name : string) : res string :=
  if (String.length name <? 9)%nat then Stop Panics
  else Ok (trim_suffix (take_str 9 name) "-" +:+ "-" +:+ drop_str (String.length name - 5) name).

Definition generateVMObjectName (machine : VSphereMachine) (machineName : string) : res string :=
  res_bind (GenerateVSphereVMName machineName (ps_Naming (p_Spec machine))) (fun name =>
    if String.eqb (cs_OS (ps_VirtualMachineCloneSpec (p_Spec machine))) Windows && (15 <? slen machineName)
    then windows_name name else Ok name).

(** * The VSphereVM *)

Definition get_machine : MX Machine :=
  machine <- gets xm_Machine ;;
  match machine with Some machine => ret machine | None => panic end.
Definition get_vsphere_cluster : MX VSphereCluster :=
  cluster <- gets xm_VSphereCluster ;;
  match cluster with Some cluster => ret cluster | None => panic end.

(** The name of the VM of the machine of the context. *)
Definition vm_object_name : MX string :=
  machine <- get_machine ;;
  c <- get ;;
  of_res (generateVMObjectName (xm_VSphereMachine c) (om_Name (mc_ObjectMeta machine))).

Definition findVSphereVM : MX VSphereVM :=
  name <- vm_object_name ;;
  c <- get ;;
  call_res (GetVSphereVM (om_Namespace (p_ObjectMeta (xm_VSphereMachine c))) name).

(** The zone and the failure domain of the machine; when one of them cannot be
    read nothing is overridden. *)
Definition generateOverrideFunc : MX (option (VirtualMachineCloneSpec -> VirtualMachineCloneSpec)) :=
  machine <- get_machine ;;
  if String.eqb (mc_FailureDomain machine) "" then ret None
  else
    zone <- try (call_res (GetVSphereDeploymentZone (mc_FailureDomain machine))) ;;
    match zone with
    | inr _ => ret None
    | inl zone =>
        fd <- try (call_res (GetVSphereFailureDomain (dz_FailureDomain (zn_Spec zone)))) ;;
        match fd with
        | inr _ => ret None
        | inl fd => ret (Some (overrideWithFailureDomain zone fd))
        end
    end.

(** The labels of the VM, from those of the Machine. *)
Definition vm_labels (machine : Machine) (labels : gmap string string) : gmap string string :=
  let of_machine := default ∅ (om_Labels (mc_ObjectMeta machine)) in
  let labels := <[ClusterNameLabel := default "" (of_machine !! ClusterNameLabel)]> labels in
  match of_machine !! MachineControlPlaneLabel with
  | Some val => <[MachineControlPlaneLabel := val]> labels
  | None => labels
  end.

(** The metadata of the VM: the machine owns it, and it is labelled. *)
Definition vm_meta (vsphereMachine : VSphereMachine) (machine : Machine) (om : ObjectMeta) : ObjectMeta :=
  let om := set_om_OwnerReferences (EnsureOwnerRef (om_OwnerReferences om)
    (owner_ref GroupVersion "VSphereMachine" (om_Name (p_ObjectMeta vsphereMachine))
       (om_UID (p_ObjectMeta vsphereMachine)))) om in
  set_om_Labels (Some (vm_labels machine (default ∅ (om_Labels om)))) om.

(** The server and the thumbprint of the cluster, where none is given. *)
Definition fill_server : VirtualMachineCloneSpec -> MX VirtualMachineCloneSpec := fun cs =>
  cs <- (if String.eqb (cs_Server cs) "" then
           cluster <- get_vsphere_cluster ;; ret (set_cs_Server (ls_Server (vc_Spec cluster)) cs)
         else ret cs) ;;
  (if String.eqb (cs_Thumbprint cs) "" then
     cluster <- get_vsphere_cluster ;; ret (set_cs_Thumbprint (ls_Thumbprint (vc_Spec cluster)) cs)
   else ret cs).

(** [mutateFn]; [vsphereVM] is the VM that was found before. *)
Definition mutate_vm (vsphereVM : option VSphereVM) (vm : VSphereVM) : MX VSphereVM :=
  machine <- get_machine ;;
  c <- get ;;
  let vsphereMachine := xm_VSphereMachine c in
  let vm := set_vm_ObjectMeta (vm_meta vsphereMachine machine (vm_ObjectMeta vm)) vm in
  match mc_BootstrapDataSecretName machine with
  | None => panic
  | Some secret =>
      overrideFunc <- generateOverrideFunc ;;
      let cs := ps_VirtualMachineCloneSpec (p_Spec vsphereMachine) in
      let cs := match overrideFunc with Some f => f cs | None => cs end in
      cs <- fill_server cs ;;
      let biosUUID := match vsphereVM with Some found => vs_BiosUUID (vm_Spec found) | None => vs_BiosUUID (vm_Spec vm) end in
      ret (set_vm_Spec (mkVSphereVMSpec cs (mkVSphereVMBootstrapReference secret) biosUUID
             (ps_PowerOffMode (p_Spec vsphereMachine)) (ps_GuestSoftPowerOffTimeoutSeconds (p_Spec vsphereMachine))) vm)
  end.

(** The object [CreateOrPatch] is given: a name and nothing else. *)
Definition new_vm (namespace name : string) : VSphereVM :=
  mkVSphereVM "" (mkObjectMeta name namespace "" None [] [] None)
    (mkVSphereVMSpec VirtualMachineCloneSpec_zero (mkVSphereVMBootstrapReference "") "" "" 0)
    (mkVSphereVMStatus [] "" None [] "" "" None "" [] None "" None).

(** [CreateOrPatch] fetches the VM of that name, or starts with the one it is
    given, has it changed and writes it. *)
Definition createOrPatchVSphereVM (vsphereVM : option VSphereVM) : MX VSphereVM :=
  name <- vm_object_name ;;
  c <- get ;;
  wrap "failed to CreateOrPatch VSphereVM" (
    vm <- call_res (FetchOrNewVSphereVM (new_vm (om_Namespace (p_ObjectMeta (xm_VSphereMachine c))) name)) ;;
    vm <- mutate_vm vsphereVM vm ;;
    written <- call_res (WriteVSphereVM vm) ;;
    ret written.1).

(** * What the VM reports *)

(** The conditions about the VM become those of the machine. *)
Definition mirror (vm : VSphereVM) : MX unit :=
  now <- ask Now ;;
  modify (fun c => put_v1beta1 (v1beta1_SetMirror now (GetV1Beta1Conditions vm) (the_v1beta1 c)
                                  VMProvisionedV1Beta1Condition) c) ;;
  now <- ask Now ;;
  modify (fun c => put_conditions (conditions_SetMirror now (GetConditions vm) (the_conditions c)
    VSphereVMVirtualMachineProvisionedCondition VSphereMachineVirtualMachineProvisionedCondition) c).

Definition set_ProviderID (providerID : string) (c : VIMMachineContext) : VIMMachineContext :=
  let m := xm_VSphereMachine c in set_xm_VSphereMachine (set_p_Spec (set_ps_ProviderID providerID (p_Spec m)) m) c.

Definition reconcileProviderID (vm : VSphereVM) : MX bool :=
  let biosUUID := vs_BiosUUID (vm_Spec vm) in
  if String.eqb biosUUID "" then ret false
  else
    let providerID := ConvertUUIDToProviderID biosUUID in
    c <- get ;;
    if String.eqb providerID "" then
      fail (ENew (sprintf "failed to reconcile providerID: invalid BIOS UUID %s for %s"
                    [AS biosUUID; AS (VIMMachineContext_String c)]))
    else
      (if negb (String.eqb (ps_ProviderID (p_Spec (xm_VSphereMachine c))) providerID)
       then modify (set_ProviderID providerID) else ret tt) ;;
      ret true.

(** The network of the VM, without the cards that have no MAC address (the detour
    over JSON changes nothing), and its addresses with its name at the end: there
    is always one. *)
Definition machine_network (vm : VSphereVM) : list NetworkStatus :=
  List.filter (fun st => negb (String.eqb (st_MACAddr st) "")) (vt_Network (vm_Status vm)).
Definition machine_addresses (vm : VSphereVM) : list MachineAddress :=
  (map (mkMachineAddress MachineExternalIP) (vt_Addresses (vm_Status vm)) ++
   [mkMachineAddress MachineInternalDNS (om_Name (vm_ObjectMeta vm))])%list.

Definition reconcileNetwork (vm : VSphereVM) : MX bool :=
  let errs := omap (M:=list) (fun st => if String.eqb (st_MACAddr st) "" then Some (Some (ENew "macAddr is required")) else None)
                (vt_Network (vm_Status vm)) in
  modify (on_pstatus (set_pt_Network (machine_network vm))) ;;
  modify (on_pstatus (set_pt_Addresses (machine_addresses vm))) ;;
  if zlen (machine_addresses vm) =? 0 then
    (* every error is there twice *)
    match NewAggregate (errs ++ errs)%list with
    | Some err => fail err
    | None => ret false
    end
  else ret true.

(** * The service *)

Definition FetchVSphereMachine (namespace name : string) : M Ev unit VIMMachineContext :=
  vsphereMachine <- call_res (GetVSphereMachine namespace name) ;;
  ret (mkVIMMachineContext None None None vsphereMachine).

Definition FetchVSphereCluster (cluster : KubeCluster) : MX unit :=
  c <- get ;;
  vsphereCluster <- call_res (GetVSphereCluster (om_Namespace (p_ObjectMeta (xm_VSphereMachine c)))
                                (default "" (kc_InfrastructureRefName cluster))) ;;
  modify (set_xm_VSphereCluster (Some vsphereCluster)).

Definition ReconcileDelete : MX unit :=
  vm <- findVSphereVM ;;
  (if bool_decide (om_DeletionTimestamp (vm_ObjectMeta vm) = None) then call_res (DeleteVSphereVM vm) else ret tt) ;;
  mirror vm.

(** The failure of the VM, with the levels of the status it needs. *)
Definition failure_of (vm : VSphereVM) : option (option string * option string) :=
  match vt_Deprecated (vm_Status vm) with
  | Some d => match vx_V1Beta1 d with
              | Some b =>
                  if bool_decide (vb_FailureReason b = None) && bool_decide (vb_FailureMessage b = None) then None
                  else Some (vb_FailureReason b, vb_FailureMessage b)
              | None => None
              end
  | None => None
  end.
Definition set_failure (reason message : option string) (c : VIMMachineContext) : VIMMachineContext :=
  let b := default (mkVSphereMachineV1Beta1DeprecatedStatus [] None None) (machine_v1beta1 (xm_VSphereMachine c)) in
  set_machine_v1beta1 (mkVSphereMachineV1Beta1DeprecatedStatus (pb_Conditions b) reason message) c.

Definition SyncFailureReason : MX unit :=
  vsphereVM <- findVSphereVM ;;
  match failure_of vsphereVM with
  | Some (reason, message) => modify (set_failure reason message)
  | None => ret tt
  end.

(** What is left when the VM is ready: its identity and its addresses. *)
Definition publish_vm (vm : VSphereVM) : MX bool :=
  c <- get ;;
  ok <- wrap (sprintf "unexpected error while reconciling provider ID for %s" [AS (VIMMachineContext_String c)])
          (reconcileProviderID vm) ;;
  if negb (ok : bool) then ret true
  else
    c <- get ;;
    ok <- wrap (sprintf "unexpected error while reconciling network for %s" [AS (VIMMachineContext_String c)])
            (reconcileNetwork vm) ;;
    if negb (ok : bool) then
      cond_false VMProvisionedV1Beta1Condition WaitingForNetworkAddressesV1Beta1Reason SeverityInfo "" ;;
      cond_set (cond VSphereMachineVirtualMachineProvisionedCondition ConditionFalse
        VSphereMachineVirtualMachineWaitingForNetworkAddressReason "") ;;
      ret true
    else
      modify (on_pstatus (set_pt_Provisioned (Some true))) ;;
      ret false.

(** Whether to come back. *)
Definition ReconcileNormal : MX bool :=
  found <- try findVSphereVM ;;
  match found with
  | inr err => if negb (IsNotFound err) then fail err else ret tt
  | inl _ => ret tt
  end ;;
  vm <- createOrPatchVSphereVM (match found with inl vm => Some vm | inr _ => None end) ;;
  if negb (ptr_deref (vt_Ready (vm_Status vm)) false) then
    mirror vm ;;
    ret true
  else publish_vm vm.

Definition GetHostInfo : MX string :=
  vsphereVM <- findVSphereVM ;;
  ret (if conditions_IsTrue (GetConditions vsphereVM) VSphereVMVirtualMachineProvisionedCondition
       then vt_Host (vm_Status vsphereVM) else "").

Definition GetMachinesInCluster (namespace clusterName : string) : M Ev unit (list ObjectMeta) :=
  machines <- call_res (ListVSphereMachines namespace clusterName) ;;
  ret (map p_ObjectMeta machines).
End service.

(** * Lemmas *)

(** ** Devices *)

Lemma lookup_imap_default {A B} (f : nat -> A -> B) (l : list A) i : imap f l !! i = f i <$> l !! i.
Proof. by rewrite list_lookup_imap. Qed.

(** the networks of a failure domain are put on the devices in their order. There
    are as many devices afterwards as there were devices or networks, whichever is
    more; the device at a place has the network of that place merged into it, if
    there is one, and a device that was not there before is made from nothing. *)
Theorem overrideNetworkDeviceSpecs_lookup {T} (deviceSpecs : list NetworkDeviceSpec) (networks : list T) mergeFunc i :
  length (overrideNetworkDeviceSpecs deviceSpecs networks mergeFunc) = Nat.max (length deviceSpecs) (length networks) /\
  overrideNetworkDeviceSpecs deviceSpecs networks mergeFunc !! i =
    match deviceSpecs !! i, networks !! i with
    | Some device, Some network => Some (mergeFunc network device)
    | Some device, None => Some device
    | None, Some network => Some (mergeFunc network empty_device)
    | None, None => None
    end.
Proof.
  unfold overrideNetworkDeviceSpecs. split.
  - rewrite length_app, length_imap, length_map, length_drop. lia.
  - destruct (decide (i < length deviceSpecs)%nat) as [Hi|Hi].
    + rewrite lookup_app_l by (rewrite length_imap; exact Hi). rewrite list_lookup_imap.
      destruct (lookup_lt_is_Some_2 deviceSpecs i Hi) as [d ->]. cbn. by destruct (networks !! i).
    + rewrite lookup_app_r, length_imap by (rewrite length_imap; lia).
      rewrite (lookup_ge_None_2 deviceSpecs i) by lia. rewrite list_lookup_fmap, lookup_drop.
      destruct (decide (length deviceSpecs <= length networks)%nat) as [Hn|Hn].
      * rewrite Nat.min_l by exact Hn. replace (length deviceSpecs + (i - length deviceSpecs))%nat with i by lia.
        by destruct (networks !! i).
      * rewrite (lookup_ge_None_2 networks i) by lia. rewrite lookup_ge_None_2 by lia. done.
Qed.

(** ** Names *)

Lemma trim_suffix_length s p : (String.length (trim_suffix s p) <= String.length s)%nat.
Proof.
  unfold trim_suffix. destruct (has_suffix s p); [|done]. rewrite length_take_str. lia.
Qed.

(** The name of a Windows VM that is named after its machine has at most fifteen
    bytes, and it is the name of the machine when that is short enough. *)
Theorem windows_name_bounded execute machine machineName name :
  cs_OS (ps_VirtualMachineCloneSpec (p_Spec machine)) = Windows -> nm_Template (ps_Naming (p_Spec machine)) = "" ->
  generateVMObjectName execute machine machineName = Ok name ->
  slen name <= 15 /\ (slen machineName <= 15 -> name = machineName).
Proof.
  intros Hos Ht. unfold generateVMObjectName, GenerateVSphereVMName. rewrite Ht, Hos. cbn [String.eqb res_bind andb].
  rewrite String.eqb_refl. cbn [andb]. destruct (15 <? slen machineName) eqn:Hlen.
  - unfold windows_name. destruct (_ <? 9)%nat eqn:H9; [done|]. apply Z.ltb_lt in Hlen. apply Nat.ltb_ge in H9.
    pose proof (trim_suffix_length (take_str 9 machineName) "-") as H1. rewrite length_take_str in H1.
    unfold slen in Hlen. revert H1 H9. generalize (trim_suffix (take_str 9 machineName) "-"). intros t H1 H9 [= <-].
    unfold slen. rewrite !string_length_app, length_drop_str. cbn [String.length]. lia.
  - intros [= <-]. apply Z.ltb_ge in Hlen. by split.
Qed.

(** ** What is written as a VM *)

Section lemmas.
Context `{Libs} (execute : string -> string -> res string).
#[warnings="-notation-for-abbreviation"]
Notation MX := (M Ev VIMMachineContext).
Open Scope go_scope.

Lemma reads_vm_object_name : reads (vm_object_name execute).
Proof. unfold vm_object_name, get_machine. solve_reads. Qed.
Lemma reads_findVSphereVM : reads (findVSphereVM execute).
Proof. unfold findVSphereVM. apply reads_bind; [apply reads_vm_object_name|]. solve_reads. Qed.
Lemma reads_fill_server cs : reads (fill_server cs).
Proof. unfold fill_server, get_vsphere_cluster. solve_reads. Qed.

(** Where the clone spec of a VM comes from: from a zone and its failure domain
    that were read, or, when the machine is in no failure domain or one of the two
    cannot be read, from the machine alone. *)
Definition zone_read (machine : Machine) (zone : VSphereDeploymentZone) (fd : VSphereFailureDomain) (tr : trace) : Prop :=
  mc_FailureDomain machine <> "" /\
  Call (GetVSphereDeploymentZone (mc_FailureDomain machine)) (Ok zone) ∈ tr /\
  Call (GetVSphereFailureDomain (dz_FailureDomain (zn_Spec zone))) (Ok fd) ∈ tr.
Definition no_zone (machine : Machine) (tr : trace) : Prop :=
  mc_FailureDomain machine = "" \/
  (exists e, Call (GetVSphereDeploymentZone (mc_FailureDomain machine)) (Err e) ∈ tr) \/
  (exists zone e, Call (GetVSphereDeploymentZone (mc_FailureDomain machine)) (Ok zone) ∈ tr /\
     Call (GetVSphereFailureDomain (dz_FailureDomain (zn_Spec zone))) (Err e) ∈ tr).

Lemma generateOverrideFunc_spec c machine :
  xm_Machine c = Some machine ->
  wpm generateOverrideFunc c (fun tr r c' => effects tr = [] /\ c' = c /\
    match r with
    | Ok (Some f) => exists zone fd, zone_read machine zone fd tr /\ f = overrideWithFailureDomain zone fd
    | Ok None => no_zone machine tr
    | _ => True
    end).
Proof.
  intros Em. unfold generateOverrideFunc, get_machine, no_zone. do 3 wp_step. rewrite Em. wp_step.
  destruct (String.eqb_spec (mc_FailureDomain machine) "") as [Hd|Hd]; [wp_step; split_and!; [done..|by left]|].
  do 3 wp_step; [|wp_step; split_and!; [done..|right; left; eexists; in_trace]|done].
  do 3 wp_step; [|wp_step; split_and!; [done..|right; right; exists a, e; split; in_trace]|done].
  wp_step. split_and!; [done..|]. exists a, a0. unfold zone_read. split; [|done]. split_and!; [done|in_trace..].
Qed.

(** A field that is taken from the cluster when it is empty. *)
Definition or_cluster (c : VIMMachineContext) (of_cluster : VSphereClusterSpec -> string) (given written : string) : Prop :=
  (given <> "" /\ written = given) \/
  (given = "" /\ exists cluster, xm_VSphereCluster c = Some cluster /\ written = of_cluster (vc_Spec cluster)).

(** A clone spec without what the cluster may give it. *)
Definition unfilled (cs : VirtualMachineCloneSpec) : VirtualMachineCloneSpec := set_cs_Server "" (set_cs_Thumbprint "" cs).

Lemma fill_server_spec cs c :
  wpm (fill_server cs) c (fun tr r c' => effects tr = [] /\ c' = c /\
    match r with
    | Ok cs' => or_cluster c ls_Server (cs_Server cs) (cs_Server cs') /\
                or_cluster c ls_Thumbprint (cs_Thumbprint cs) (cs_Thumbprint cs') /\ unfilled cs' = unfilled cs
    | _ => True
    end).
Proof.
  assert (Hcl : forall cs0 given (k : VSphereCluster -> VirtualMachineCloneSpec) (P : VirtualMachineCloneSpec -> Prop),
    (given <> "" -> P cs0) -> (forall cl, given = "" -> xm_VSphereCluster c = Some cl -> P (k cl)) ->
    wpm (if String.eqb given "" then cluster <- get_vsphere_cluster ;; ret (k cluster) else ret cs0) c
      (fun tr r c' => effects tr = [] /\ c' = c /\ match r with Ok x => P x | _ => True end)).
  { intros cs0 given k P H1 H2. destruct (String.eqb_spec given "") as [Hg|Hg]; [|by wp_step; auto].
    unfold get_vsphere_cluster. do 3 wp_step. destruct (xm_VSphereCluster c) as [cl|]; [do 2 wp_step|wp_step]; auto. }
  unfold fill_server. wp_step. eapply wpm_mono; [apply (Hcl cs (cs_Server cs) _ (fun x =>
    or_cluster c ls_Server (cs_Server cs) (cs_Server x) /\ cs_Thumbprint x = cs_Thumbprint cs /\ unfilled x = unfilled cs))|].
  - intros Hg. split_and!; [by left|done..].
  - intros cl Hg Hc. split_and!; [right; split; [done|by exists cl]|done..].
  - intros tr [cs1|e|w] c' (He & -> & Hok); cbn beta iota; [|done..]. destruct Hok as (Hs & Ht & Hd).
    eapply wpm_mono; [apply (Hcl cs1 (cs_Thumbprint cs1) _ (fun x =>
      cs_Server x = cs_Server cs1 /\ or_cluster c ls_Thumbprint (cs_Thumbprint cs1) (cs_Thumbprint x) /\ unfilled x = unfilled cs1))|].
    + intros Hg. split_and!; [done|by left|done].
    + intros cl Hg Hc. split_and!; [done|right; split; [done|by exists cl]|done].
    + intros tr' [cs2|e|w] c' (He' & -> & Hok); (split; [by rewrite effects_app, He, He'|]); [|done..].
      destruct Hok as (Hs' & Ht' & Hd'). rewrite Ht in Ht'. split; [done|]. split; [by rewrite Hs'|]. split; [done|congruence].
Qed.

(** What a failure domain gives comes before what the machine says. *)
Definition before (given own : string) : string := if String.eqb given "" then own else given.
Definition some_before {A} (given own : option A) : option A := match given with Some x => Some x | None => own end.
Definition list_before {A} (given own : list A) : list A := match given with [] => own | l => l end.

(** A device of the machine, or an empty one, with the name of a network and with
    a network configuration of the failure domain. *)
Definition placed_device (network : option string) (config : option NetworkConfiguration) (own : NetworkDeviceSpec)
    : NetworkDeviceSpec :=
  let name := default (nd_NetworkName own) network in
  match config with
  | None => set_nd_NetworkName name own
  | Some nc =>
      mkNetworkDeviceSpec (before (nc_NetworkName nc) name) (nd_DeviceName own)
        (some_before (nc_DHCP4 nc) (nd_DHCP4 own)) (some_before (nc_DHCP6 nc) (nd_DHCP6 own))
        (nd_Gateway4 own) (nd_Gateway6 own) (nd_IPAddrs own) (nd_MTU own) (nd_MACAddr own)
        (list_before (nc_Nameservers nc) (nd_Nameservers own)) (nd_Routes own)
        (list_before (nc_SearchDomains nc) (nd_SearchDomains own))
        (list_before (nc_AddressesFromPools nc) (nd_AddressesFromPools own))
        (some_before (nc_DHCP4Overrides nc) (nd_DHCP4Overrides own))
        (some_before (nc_DHCP6Overrides nc) (nd_DHCP6Overrides own)) (nd_SkipIPAllocation own)
  end.

(** The network devices of a VM in a failure domain: as many as the machine has,
    or the failure domain has networks or network configurations, whichever is the
    most; each is that of the machine at its place, if there is one, with the
    network and the network configuration of that place. *)
Definition devices_placed (topology : Topology) (own devices : list NetworkDeviceSpec) : Prop :=
  length devices = Nat.max (Nat.max (length own) (length (tp_Networks topology))) (length (tp_NetworkConfigurations topology)) /\
  forall i device, devices !! i = Some device ->
    device = placed_device (tp_Networks topology !! i) (tp_NetworkConfigurations topology !! i) (default empty_device (own !! i)).

(** A clone spec without where the VM is put, that is, without server, thumbprint,
    datacenter, folder, resource pool, datastore and network devices. *)
Definition unplaced (cs : VirtualMachineCloneSpec) : VirtualMachineCloneSpec :=
  on_devices (fun _ => []) (set_cs_Datastore "" (set_cs_ResourcePool "" (set_cs_Folder "" (set_cs_Datacenter "" (unfilled cs))))).

(** The clone spec of a VM in a zone with its failure domain. *)
Definition in_failure_domain (zone : VSphereDeploymentZone) (fd : VSphereFailureDomain)
    (own cs : VirtualMachineCloneSpec) : Prop :=
  let placement := dz_PlacementConstraint (zn_Spec zone) in
  let topology := fs_Topology (vf_Spec fd) in
  cs_Datacenter cs = tp_Datacenter topology /\
  cs_Folder cs = before (pc_Folder placement) (cs_Folder own) /\
  cs_ResourcePool cs = before (pc_ResourcePool placement) (cs_ResourcePool own) /\
  cs_Datastore cs = before (tp_Datastore topology) (cs_Datastore own) /\
  devices_placed topology (ns_Devices (cs_Network own)) (ns_Devices (cs_Network cs)) /\
  unplaced cs = unplaced own.

Lemma merge_placed nc own :
  mergeNetworkConfigurationInNetworkDeviceSpec nc own = placed_device None (Some nc) own.
Proof.
  destruct nc as [nm d4 d6 ns sd o4 o6 pools], own.
  unfold mergeNetworkConfigurationInNetworkDeviceSpec, placed_device, when, before, zlen. cbn.
  destruct (String.eqb nm ""), d4, d6, ns, sd, o4, o6, pools; reflexivity.
Qed.

Lemma override_when {T} (devices : list NetworkDeviceSpec) (networks : list T) mergeFunc :
  (if 0 <? zlen networks then overrideNetworkDeviceSpecs devices networks mergeFunc else devices) =
  overrideNetworkDeviceSpecs devices networks mergeFunc.
Proof.
  destruct networks as [|n l]; [|done]. unfold overrideNetworkDeviceSpecs. cbn. rewrite drop_nil, app_nil_r.
  apply list_eq. intros i. change (0 <? zlen []) with false. rewrite list_lookup_imap. by destruct (devices !! i).
Qed.

Lemma override_devices_placed topology own :
  devices_placed topology own
    (overrideNetworkDeviceSpecs (overrideNetworkDeviceSpecs own (tp_Networks topology) mergeFailureDomainNetworkName)
       (tp_NetworkConfigurations topology) mergeNetworkConfigurationInNetworkDeviceSpec).
Proof.
  assert (Hname : forall d, set_nd_NetworkName (nd_NetworkName d) d = d) by (by intros []).
  split.
  - rewrite (proj1 (overrideNetworkDeviceSpecs_lookup _ _ _ 0)), (proj1 (overrideNetworkDeviceSpecs_lookup _ _ _ 0)). done.
  - intros i device. rewrite (proj2 (overrideNetworkDeviceSpecs_lookup _ _ _ i)), (proj2 (overrideNetworkDeviceSpecs_lookup _ _ _ i)).
    unfold mergeFailureDomainNetworkName, placed_device.
    destruct (own !! i) as [d|], (tp_Networks topology !! i) as [n|], (tp_NetworkConfigurations topology !! i) as [nc|];
      cbn [default]; intros [= <-]; rewrite ?merge_placed, ?Hname; try done; unfold placed_device; cbn; by rewrite ?Hname.
Qed.

(** The override places the VM and leaves the rest of the clone spec. *)
Lemma overrideWithFailureDomain_fields zone fd cs :
  cs_Server (overrideWithFailureDomain zone fd cs) = dz_Server (zn_Spec zone) /\
  cs_Thumbprint (overrideWithFailureDomain zone fd cs) = cs_Thumbprint cs /\
  in_failure_domain zone fd cs (overrideWithFailureDomain zone fd cs).
Proof.
  pose proof (override_devices_placed (fs_Topology (vf_Spec fd)) (ns_Devices (cs_Network cs))) as Hd.
  rewrite <-(override_when _ (tp_NetworkConfigurations _)), <-(override_when _ (tp_Networks _)) in Hd.
  unfold in_failure_domain, overrideWithFailureDomain, when, before. cbn zeta.
  destruct (0 <? zlen (tp_Networks _)), (0 <? zlen (tp_NetworkConfigurations _)), (String.eqb (pc_Folder _) "") eqn:E1,
    (String.eqb (pc_ResourcePool _) "") eqn:E2, (String.eqb (tp_Datastore _) "") eqn:E3; cbn [negb];
    (split; [reflexivity|]); (split; [reflexivity|]); split_and!; try exact Hd; reflexivity.
Qed.

Lemma unfilled_in_failure_domain zone fd own cs cs' :
  unfilled cs' = unfilled cs -> in_failure_domain zone fd own cs -> in_failure_domain zone fd own cs'.
Proof.
  intros Hu (H1 & H2 & H3 & H4 & H5 & H6).
  assert (Hf : forall X (f : VirtualMachineCloneSpec -> X), (forall s, f (unfilled s) = f s) -> f cs' = f cs)
    by (intros X f E; by rewrite <-(E cs), <-(E cs'), Hu).
  unfold in_failure_domain. cbn zeta.
  rewrite (Hf _ cs_Datacenter), (Hf _ cs_Folder), (Hf _ cs_ResourcePool), (Hf _ cs_Datastore), (Hf _ cs_Network), (Hf _ unplaced)
    by done.
  by split_and!.
Qed.

(** Where a VM is placed, and what else its clone spec is. In a failure domain: as
    that says; else: as the machine says. The server is that of the zone or of the
    machine, the thumbprint that of the machine; both are those of the cluster when
    there are none. The rest is as the machine says. *)
Definition vm_placed (c : VIMMachineContext) (machine : Machine) (tr : trace) (cs : VirtualMachineCloneSpec) : Prop :=
  let own := ps_VirtualMachineCloneSpec (p_Spec (xm_VSphereMachine c)) in
  or_cluster c ls_Thumbprint (cs_Thumbprint own) (cs_Thumbprint cs) /\
  ((exists zone fd, zone_read machine zone fd tr /\
      or_cluster c ls_Server (dz_Server (zn_Spec zone)) (cs_Server cs) /\ in_failure_domain zone fd own cs) \/
   (no_zone machine tr /\ or_cluster c ls_Server (cs_Server own) (cs_Server cs) /\ unfilled cs = unfilled own)).

(** The VM [vm] that is made of [vm0] for the machine of the context. *)
Definition vm_of (c : VIMMachineContext) (found : option VSphereVM) (vm0 vm : VSphereVM) (tr : trace) : Prop :=
  exists machine secret labels,
    xm_Machine c = Some machine /\ mc_BootstrapDataSecretName machine = Some secret /\
    vm_Status vm = vm_Status vm0 /\
    (forall k, set_om_Labels k (set_om_OwnerReferences [] (vm_ObjectMeta vm)) =
       set_om_Labels k (set_om_OwnerReferences [] (vm_ObjectMeta vm0))) /\
    owner_ref GroupVersion "VSphereMachine" (om_Name (p_ObjectMeta (xm_VSphereMachine c)))
      (om_UID (p_ObjectMeta (xm_VSphereMachine c))) ∈ om_OwnerReferences (vm_ObjectMeta vm) /\
    om_Labels (vm_ObjectMeta vm) = Some labels /\
    labels !! ClusterNameLabel = Some (default "" (default ∅ (om_Labels (mc_ObjectMeta machine)) !! ClusterNameLabel)) /\
    (forall k, k <> ClusterNameLabel -> labels !! k =
       some_before (if decide (k = MachineControlPlaneLabel)
                    then default ∅ (om_Labels (mc_ObjectMeta machine)) !! MachineControlPlaneLabel else None)
         (default ∅ (om_Labels (vm_ObjectMeta vm0)) !! k)) /\
    vs_BootstrapRef (vm_Spec vm) = mkVSphereVMBootstrapReference secret /\
    vs_PowerOffMode (vm_Spec vm) = ps_PowerOffMode (p_Spec (xm_VSphereMachine c)) /\
    vs_GuestSoftPowerOffTimeoutSeconds (vm_Spec vm) = ps_GuestSoftPowerOffTimeoutSeconds (p_Spec (xm_VSphereMachine c)) /\
    vs_BiosUUID (vm_Spec vm) = vs_BiosUUID (vm_Spec (default vm0 found)) /\
    vm_placed c machine tr (vs_VirtualMachineCloneSpec (vm_Spec vm)).

#[local] Instance grows_no_zone machine : Grows (no_zone machine).
Proof. unfold no_zone. exact _. Qed.
#[local] Instance grows_zone_read machine zone fd : Grows (zone_read machine zone fd).
Proof. unfold zone_read. exact _. Qed.
#[local] Instance grows_vm_of c found vm0 vm : Grows (vm_of c found vm0 vm).
Proof. unfold vm_of, vm_placed. exact _. Qed.

Lemma vm_labels_others machine labels k :
  k <> ClusterNameLabel -> vm_labels machine labels !! k =
    some_before (if decide (k = MachineControlPlaneLabel)
                 then default ∅ (om_Labels (mc_ObjectMeta machine)) !! MachineControlPlaneLabel else None) (labels !! k).
Proof.
  intros Hk. unfold vm_labels. cbn zeta. set (own := default ∅ _). destruct (own !! MachineControlPlaneLabel) as [val|] eqn:E.
  - destruct (decide (k = MachineControlPlaneLabel)) as [->|Hn]; [apply lookup_insert_eq|].
    by rewrite !lookup_insert_ne by (by apply not_eq_sym).
  - rewrite lookup_insert_ne by (by apply not_eq_sym). by destruct (decide _).
Qed.
Lemma vm_labels_cluster machine labels :
  vm_labels machine labels !! ClusterNameLabel = Some (default "" (default ∅ (om_Labels (mc_ObjectMeta machine)) !! ClusterNameLabel)).
Proof.
  unfold vm_labels. cbn zeta. set (own := default ∅ _). destruct (own !! MachineControlPlaneLabel) as [val|] eqn:E.
  - destruct (decide (ClusterNameLabel = MachineControlPlaneLabel)) as [En|Hn].
    + rewrite En, E. apply lookup_insert_eq.
    + rewrite lookup_insert_ne by (by apply not_eq_sym). apply lookup_insert_eq.
  - apply lookup_insert_eq.
Qed.

Lemma mutate_vm_spec found vm0 c :
  wpm (mutate_vm found vm0) c (fun tr r c' => effects tr = [] /\ c' = c /\
    match r with Ok vm => vm_of c found vm0 vm tr | _ => True end).
Proof.
  unfold mutate_vm, get_machine. do 3 wp_step. destruct (xm_Machine c) as [machine|] eqn:Em; [|by wp_step].
  do 3 wp_step. destruct (mc_BootstrapDataSecretName machine) as [secret|] eqn:Eb; [|by wp_step].
  wp_step. eapply wpm_mono; [by apply (generateOverrideFunc_spec c machine)|].
  intros tr1 [f|e|w] c1 (He1 & -> & Hf); cbn beta iota; [|by split..].
  wp_step. eapply wpm_mono; [apply fill_server_spec|].
  intros tr2 [cs|e|w] c2 (He2 & -> & Hcs); cbn beta iota; [|by rewrite !effects_app, He1, He2..].
  wp_step. split; [by rewrite !effects_app, He1, He2|]. split; [done|].
  destruct Hcs as (Hs & Ht & Hd). eexists machine, secret, _. split_and!; [done..| |reflexivity| | |done|done|done| |].
  - apply EnsureOwnerRef_in.
  - apply vm_labels_cluster.
  - intros k Hk. by apply vm_labels_others.
  - by destruct found.
  - unfold vm_placed. cbn zeta. cbn [vm_Spec set_vm_Spec vs_VirtualMachineCloneSpec].
    destruct f as [f|].
    + destruct Hf as (zone & fd & Hz & ->). destruct (overrideWithFailureDomain_fields zone fd
        (ps_VirtualMachineCloneSpec (p_Spec (xm_VSphereMachine c)))) as (Es & Et & Ed).
      rewrite Es in Hs. rewrite Et in Ht. split; [exact Ht|]. left. exists zone, fd.
      split_and!; [in_part Hz|exact Hs|by eapply unfilled_in_failure_domain].
    + split; [exact Ht|]. right. split_and!; [in_part Hf|exact Hs|exact Hd].
Qed.

Lemma effect_not_silent cl tr : effects tr = [] -> effect_of cl <> None -> cl ∉ tr.
Proof.
  intros He Hc Hin. apply list_elem_of_split in Hin as (l1 & l2 & ->).
  rewrite effects_app, effects_cons in He. destruct (effect_of cl); [|done]. by apply app_eq_nil in He as [_ ?].
Qed.

Definition written_vm (cl : call Ev) : option VSphereVM :=
  match cl with @Call _ X e _ => match e with WriteVSphereVM vm => Some vm | _ => None end end.

(** C12: the VSphereVM of a machine is made from what the machine says. A VSphereVM
    that is written is the one of the name that the machine gives it, fetched or
    new, with its status and its metadata but for owners and labels; the
    VSphereMachine owns it; it carries the label with the cluster of the Machine,
    the control plane label if the Machine has it, and the labels it had; it
    carries the name of the bootstrap secret, the way to power it off and how long
    to wait for that; it keeps the BIOS UUID of the VM that was found. Its clone
    spec is that of the VSphereMachine, field by field, but for where it is placed.
    When the zone and the failure domain of the Machine can be read: the server and
    the datacenter are theirs; the folder, the resource pool and the datastore are
    theirs where they give one; and each network device is that of the machine at
    its place with the network and the network configuration of the failure domain
    at that place. Server and thumbprint are those of the cluster where there are
    none. *)
Theorem createOrPatchVSphereVM_written found c tr r c' vm x :
  runs (createOrPatchVSphereVM execute found c) tr (r, c') -> Call (WriteVSphereVM vm) x ∈ tr ->
  c' = c /\ exists machine name vm0,
    xm_Machine c = Some machine /\
    generateVMObjectName execute (xm_VSphereMachine c) (om_Name (mc_ObjectMeta machine)) = Ok name /\
    Call (FetchOrNewVSphereVM (new_vm (om_Namespace (p_ObjectMeta (xm_VSphereMachine c))) name)) (Ok vm0) ∈ tr /\
    vm_of c found vm0 vm tr.
Proof.
  intros Hr. revert vm x. refine (proj1 (wpm_runs _ _ (fun tr r c' => forall vm x, Call (WriteVSphereVM vm) x ∈ tr -> c' = c /\ _)) _ _ _ _ Hr).
  assert (Hq : forall tr vm x, effects tr = [] -> Call (WriteVSphereVM vm) x ∉ tr).
  { intros tr1 vm x He. by apply effect_not_silent. }
  unfold createOrPatchVSphereVM, vm_object_name, get_machine. do 4 wp_step.
  destruct (xm_Machine c) as [machine|] eqn:Em; [|wp_step; by intros vm x Hin%Hq].
  do 4 wp_step. destruct (generateVMObjectName execute _ _) as [name|e|w] eqn:En; [|by intros vm x Hin%Hq..].
  do 5 wp_step; [|by intros vm x Hin; apply Hq in Hin..].
  wp_step. eapply wpm_mono; [apply mutate_vm_spec|].
  intros tr1 [vm1|e|w] c1 (He1 & -> & Hvm); cbn beta iota delta [res_wrap].
  2-3: intros vm x Hin; by apply Hq in Hin.
  assert (Hfin : forall cl vm x, (forall vm x, cl = Call (WriteVSphereVM vm) x -> vm = vm1) ->
    Call (WriteVSphereVM vm) x ∈ Call (FetchOrNewVSphereVM
      (new_vm (om_Namespace (p_ObjectMeta (xm_VSphereMachine c))) name)) (Ok a) :: tr1 ++ [cl] -> vm = vm1).
  { intros cl vm x Hcl [Hin|[Hin|Hin]%elem_of_app]%elem_of_cons; [by apply (f_equal written_vm) in Hin|by apply Hq in Hin|].
    apply list_elem_of_singleton in Hin. by eapply Hcl. }
  do 2 wp_step; cbn [app]; try (wp_step; cbn [app]).
  all: intros vm x Hin; apply Hfin in Hin as ->; [|intros vm' x' Heq; apply (f_equal written_vm) in Heq; cbn in Heq; congruence].
  all: split; [done|]; exists machine, name, a; split_and!; [done|done|in_trace|]; (eapply grows; [|exact Hvm]); intros ? ?; rewrite elem_of_cons; in_trace.
Qed.

(** ** What a machine says of its VM *)

Definition provisioned (c : VIMMachineContext) : option bool := pt_Provisioned (p_Status (xm_VSphereMachine c)).

(** What stays until the VM is done. *)
Definition kept (c c' : VIMMachineContext) : Prop := the_rest c' = the_rest c /\ provisioned c' = provisioned c.

#[local] Instance kept_preorder : PreOrder kept.
Proof. split; [done|]. intros x y z [H1 H2] [H3 H4]. split; congruence. Qed.

Lemma adorned_kept (c c' : VIMMachineContext) : adorned c c' -> kept c c'.
Proof.
  intros Ha. split; [exact (adorned_field the_rest c c' ltac:(done) ltac:(done) Ha)|
    exact (adorned_field provisioned c c' ltac:(done) ltac:(done) Ha)].
Qed.

(** The machine has the identity and the addresses of a VM. *)
Definition vm_published (vm : VSphereVM) (c : VIMMachineContext) : Prop :=
  vs_BiosUUID (vm_Spec vm) <> "" /\
  ps_ProviderID (p_Spec (xm_VSphereMachine c)) = ConvertUUIDToProviderID (vs_BiosUUID (vm_Spec vm)) /\
  ps_ProviderID (p_Spec (xm_VSphereMachine c)) <> "" /\
  pt_Network (p_Status (xm_VSphereMachine c)) = machine_network vm /\
  pt_Addresses (p_Status (xm_VSphereMachine c)) = machine_addresses vm.

Lemma reconcileProviderID_spec vm c :
  wpm (reconcileProviderID vm) c (fun tr r c' => effects tr = [] /\ kept c c' /\
    match r with
    | Ok true => vs_BiosUUID (vm_Spec vm) <> "" /\
        ps_ProviderID (p_Spec (xm_VSphereMachine c')) = ConvertUUIDToProviderID (vs_BiosUUID (vm_Spec vm)) /\
        ps_ProviderID (p_Spec (xm_VSphereMachine c')) <> ""
    | Ok false => c' = c
    | _ => True
    end).
Proof.
  unfold reconcileProviderID. destruct (String.eqb_spec (vs_BiosUUID (vm_Spec vm)) "") as [Hb|Hb]; [by wp_step|].
  cbn zeta. do 2 wp_step.
  destruct (String.eqb_spec (ConvertUUIDToProviderID (vs_BiosUUID (vm_Spec vm))) "") as [Hp|Hp]; [by wp_step|].
  wp_step. destruct (String.eqb_spec (ps_ProviderID (p_Spec (xm_VSphereMachine c)))
    (ConvertUUIDToProviderID (vs_BiosUUID (vm_Spec vm)))) as [He|He]; cbn [negb]; do 2 wp_step; split_and!; try done.
  by rewrite He.
Qed.

(** The machine always has an address: the name of the VM. *)
Lemma machine_addresses_some vm : (zlen (machine_addresses vm) =? 0) = false.
Proof.
  apply Z.eqb_neq. unfold zlen, machine_addresses. rewrite length_app. cbn [length]. lia.
Qed.

Lemma reconcileNetwork_spec vm c :
  wpm (reconcileNetwork vm) c (fun tr r c' => tr = [] /\ kept c c' /\ r = Ok true /\
    p_Spec (xm_VSphereMachine c') = p_Spec (xm_VSphereMachine c) /\
    pt_Network (p_Status (xm_VSphereMachine c')) = machine_network vm /\
    pt_Addresses (p_Status (xm_VSphereMachine c')) = machine_addresses vm).
Proof.
  unfold reconcileNetwork. cbn zeta. do 4 wp_step. rewrite machine_addresses_some. wp_step. by split_and!.
Qed.

Lemma publish_vm_spec vm c :
  wpm (publish_vm vm) c (fun tr r c' => the_rest c' = the_rest c /\
    match r with
    | Ok false => vm_published vm c' /\ provisioned c' = Some true
    | _ => provisioned c' = provisioned c
    end).
Proof.
  unfold publish_vm. do 4 wp_step. eapply wpm_mono; [apply reconcileProviderID_spec|].
  intros tr [ok|e|w] c1 (He & [Hr Hp] & Hok); cbn beta iota delta [res_wrap]; [|done..].
  destruct ok; cbn [negb]; [|by wp_step]. destruct Hok as (Hb & Hid & Hne). do 4 wp_step.
  eapply wpm_mono; [apply reconcileNetwork_spec|]. intros tr2 r2 c2 (-> & [Hr2 Hp2] & -> & Hs & Hn & Ha).
  cbn beta iota delta [res_wrap negb]. do 3 wp_step. split; [rewrite <-Hr, <-Hr2; done|]. split; [|done].
  unfold vm_published. cbn. rewrite Hs, Hn, Ha. by split_and!.
Qed.

Lemma adorns_put f : adorns (modify (fun c : VIMMachineContext => put_conditions (f c) c)).
Proof. intros c. apply wpm_modify. split; [done|apply adorned_put]. Qed.
Lemma adorns_put_v1beta1 f : adorns (modify (fun c : VIMMachineContext => put_v1beta1 (f c) c)).
Proof. intros c. apply wpm_modify. split; [done|apply adorned_put_v1beta1]. Qed.
Lemma adorns_mirror vm : adorns (mirror vm).
Proof.
  unfold mirror. apply adorns_bind; [solve_adorns|]. intros now. apply adorns_bind; [apply adorns_put_v1beta1|].
  intros _. apply adorns_bind; [solve_adorns|]. intros now'. apply adorns_put.
Qed.

Lemma createOrPatch_result found c :
  wpm (createOrPatchVSphereVM execute found) c (fun tr r c' => c' = c /\
    match r with Ok vm => exists vm0 op, Call (WriteVSphereVM vm0) (Ok (vm, op)) ∈ tr | _ => True end).
Proof.
  unfold createOrPatchVSphereVM. apply wpm_reads_bind; [apply reads_vm_object_name|done..|]. intros tr0 name _.
  do 5 wp_step; [|done..]. wp_step. eapply wpm_mono; [apply mutate_vm_spec|].
  intros tr1 [vm1|e|w] c1 (_ & -> & _); cbn beta iota delta [res_wrap]; [|done..].
  do 2 wp_step; [|done..]. wp_step. split; [done|]. destruct a0 as [vm op]. exists vm1, op. in_trace.
Qed.

(** A pass of the service. *)
Definition normal_pass (c : VIMMachineContext) (tr : trace) (r : res bool) (c' : VIMMachineContext) : Prop :=
  the_rest c' = the_rest c /\
  match r with
  | Ok false => exists vm vm0 op, Call (WriteVSphereVM vm0) (Ok (vm, op)) ∈ tr /\
      vt_Ready (vm_Status vm) = Some true /\ vm_published vm c' /\ provisioned c' = Some true
  | _ => provisioned c' = provisioned c
  end.

Lemma ReconcileNormal_spec c : wpm (ReconcileNormal execute) c (normal_pass c).
Proof.
  unfold ReconcileNormal. apply wpm_reads_bind; [apply reads_try, reads_findVSphereVM|done..|]. intros tr0 found _.
  apply wpm_reads_bind; [destruct found; solve_reads|done..|]. intros tr1 _ _.
  wp_step. eapply wpm_mono; [apply createOrPatch_result|].
  intros tr2 [vm|e|w] c2 [-> Hw]; cbn beta iota; [|done..]. destruct Hw as (vm0 & op & Hw).
  destruct (ptr_deref (vt_Ready (vm_Status vm)) false) eqn:Hready; cbn [negb].
  - eapply wpm_mono; [apply publish_vm_spec|]. intros tr3 [[|]|e|w] c3 [Hrest Hp]; (split; [done|]); try exact Hp.
    exists vm, vm0, op. split; [in_trace|]. split; [|exact Hp]. by destruct (vt_Ready (vm_Status vm)) as [[|]|].
  - apply wpm_adorns_bind; [apply adorns_mirror|..].
    1-2: intros tr3 x c3 _ Ha; apply adorned_kept in Ha; exact Ha.
    intros tr3 a c3 _ Ha. wp_step. apply adorned_kept in Ha. exact Ha.
Qed.

(** C13: a machine says what its VM is. A pass of the service that reports that it is
    done has written the VSphereVM, and found it ready and with a BIOS UUID; the
    provider ID of the machine is made of this UUID, its network and its addresses
    are those of the VM, and it is provisioned. Any other pass leaves it at what it
    said of that. Neither touches the metadata of the machine or the objects it was
    reached from. *)
Theorem ReconcileNormal_publishes c tr r c' :
  runs (ReconcileNormal execute c) tr (r, c') ->
  the_rest c' = the_rest c /\
  match r with
  | Ok false => exists vm vm0 op, Call (WriteVSphereVM vm0) (Ok (vm, op)) ∈ tr /\
      vt_Ready (vm_Status vm) = Some true /\ vm_published vm c' /\ provisioned c' = Some true
  | _ => provisioned c' = provisioned c
  end.
Proof.
  intros Hr. exact (proj1 (wpm_runs _ _ _) (ReconcileNormal_spec c) _ _ _ Hr).
Qed.

(** ** The service of the interface *)

(** The VM was asked for, or deleted, and was not there. *)
Definition vim_not_found (c : VIMMachineContext) (tr : trace) : Prop :=
  exists machine name e, xm_Machine c = Some machine /\
    generateVMObjectName execute (xm_VSphereMachine c) (om_Name (mc_ObjectMeta machine)) = Ok name /\
    IsNotFound e = true /\
    (Call (GetVSphereVM (om_Namespace (p_ObjectMeta (xm_VSphereMachine c))) name) (Err e) ∈ tr \/
     exists vm, Call (GetVSphereVM (om_Namespace (p_ObjectMeta (xm_VSphereMachine c))) name) (Ok vm) ∈ tr /\
       Call (DeleteVSphereVM vm) (Err e) ∈ tr).

#[local] Instance grows_vim_not_found c : Grows (vim_not_found c).
Proof. unfold vim_not_found. exact _. Qed.

Lemma vim_not_found_adorned c c' : adorned c c' -> vim_not_found c' = vim_not_found c.
Proof.
  unfold adorned. induction 1 as [|x y z [[l ->]|[l ->]] _ IH]; [done|..]; by rewrite IH.
Qed.

Context (execute_found : forall t n e, execute t n = Err e -> IsNotFound e = false).

Lemma name_found machine machineName e : generateVMObjectName execute machine machineName = Err e -> IsNotFound e = false.
Proof using execute_found.
  unfold generateVMObjectName, GenerateVSphereVMName, GenerateMachineNameFromTemplate.
  destruct (String.eqb (nm_Template _) ""); cbn [res_bind].
  - destruct (_ && _); [|done]. unfold windows_name. by destruct (_ <? 9)%nat.
  - destruct (String.eqb machineName ""); [by intros [= <-]|].
    destruct (execute _ machineName) as [out|e'|w] eqn:Ee; cbn; [|intros [= <-]; exact (execute_found _ _ _ Ee)|done].
    destruct (_ && _); [|done]. unfold windows_name. by destruct (_ <? 9)%nat.
Qed.

Lemma findVSphereVM_spec c :
  wpm (findVSphereVM execute) c (fun tr r c' => effects tr = [] /\ c' = c /\
    match r with
    | Ok vm => exists machine name, xm_Machine c = Some machine /\
        generateVMObjectName execute (xm_VSphereMachine c) (om_Name (mc_ObjectMeta machine)) = Ok name /\
        Call (GetVSphereVM (om_Namespace (p_ObjectMeta (xm_VSphereMachine c))) name) (Ok vm) ∈ tr
    | Err e => IsNotFound e = true -> vim_not_found c tr
    | Stop _ => True
    end).
Proof using execute_found.
  unfold findVSphereVM, vm_object_name, get_machine, vim_not_found. do 4 wp_step.
  destruct (xm_Machine c) as [machine|] eqn:Em; [|by wp_step].
  do 4 wp_step. destruct (generateVMObjectName execute _ _) as [name|e|w] eqn:En.
  - do 3 wp_step; split_and!; try done.
    + exists machine, name. split_and!; [done..|in_trace].
    + intros Hn. exists machine, name, e. split_and!; [done..|]. left. in_trace.
  - split_and!; [done..|]. rewrite (name_found _ _ _ En). discriminate.
  - done.
Qed.

Lemma FetchVSphereCluster_spec cluster c :
  wpm (FetchVSphereCluster cluster) c (fun tr _ c' => effects tr = [] /\ the_rest c' = the_rest c).
Proof. unfold FetchVSphereCluster. do 4 wp_step; [by wp_step|done..]. Qed.

Lemma SyncFailureReason_spec c :
  wpm (SyncFailureReason execute) c (fun tr _ c' => effects tr = [] /\ the_rest c' = the_rest c).
Proof.
  unfold SyncFailureReason. apply wpm_reads_bind; [apply reads_findVSphereVM|done..|]. intros tr vm He.
  destruct (failure_of vm) as [[reason message]|]; wp_step; (split; [by rewrite app_nil_r|done]).
Qed.

Lemma ReconcileDelete_spec c :
  wpm (ReconcileDelete execute) c (fun tr r c' => the_rest c' = the_rest c /\
    match r with Err e => IsNotFound e = true -> vim_not_found c tr | _ => True end).
Proof using execute_found.
  unfold ReconcileDelete. wp_step. eapply wpm_mono; [apply findVSphereVM_spec|].
  intros tr [vm|e|w] c1 (He & -> & Hf); cbn beta iota; [|by split..]. destruct Hf as (machine & name & Em & En & Hget).
  assert (Hm : forall tr1, wpm (mirror vm) c (fun tr2 r c' => the_rest c' = the_rest c /\
    match r with Err e => IsNotFound e = true -> vim_not_found c (tr ++ tr1 ++ tr2) | _ => True end)).
  { intros tr1. unfold mirror. do 6 wp_step. by split. }
  wp_step. case_bool_decide.
  - wp_step; [apply (Hm [Call (DeleteVSphereVM vm) (Ok a)])| |by split].
    split; [done|]. intros Hn. exists machine, name, e. split_and!; [done..|]. right. exists vm. split; in_trace.
  - wp_step. apply (Hm []).
Qed.

Lemma reads_GetHostInfo : reads (GetHostInfo execute).
Proof. unfold GetHostInfo. apply reads_bind; [apply reads_findVSphereVM|]. solve_reads. Qed.

(** [VimMachineService], of the govmomi mode: there is no network provider, and the
    hooks are those of the other mode. *)
#[export] Program Instance vim_service : VSphereMachineService VIMMachineContext := {|
  supervisorBased := false;
  MachineInterface.FetchVSphereMachine := FetchVSphereMachine;
  MachineInterface.FetchVSphereCluster := FetchVSphereCluster;
  MachineInterface.SyncFailureReason := SyncFailureReason execute;
  svc_ReconcileDelete := ReconcileDelete execute;
  svc_ReconcileNormal := ReconcileNormal execute;
  MachineInterface.GetHostInfo := GetHostInfo execute;
  MachineInterface.GetMachinesInCluster := GetMachinesInCluster;
  ForCluster := ret true;
  setVMModifiers := ret tt;
  vm_not_found := vim_not_found
|}.
Next Obligation. intros c c'. apply vim_not_found_adorned. Qed.
Next Obligation. intros ns name. unfold FetchVSphereMachine. by repeat wp_step. Qed.
Next Obligation. intros cl c. apply FetchVSphereCluster_spec. Qed.
Next Obligation. intros c. apply SyncFailureReason_spec. Qed.
Next Obligation. intros c. apply ReconcileDelete_spec. Qed.
Next Obligation.
  intros c. eapply wpm_mono; [apply ReconcileNormal_spec|]. intros tr r c' [Hrest Hp].
  split; [done|]. destruct r as [[|]|e|w]; try done. destruct Hp as (vm & vm0 & op & _ & _ & _ & Hp).
  unfold provisioned in Hp. cbn. by rewrite Hp.
Qed.
Next Obligation. intros c. exact (reads_GetHostInfo c). Qed.
Next Obligation. intros c. by wp_step. Qed.
Next Obligation. intros c. by wp_step. Qed.

End lemmas.

(** * Concrete inputs *)

Section examples.
Import RefLibs.

Definition sample_VSphereMachine (os server template : string) (deletion : Time) : VSphereMachine :=
  mkVSphereMachine "VSphereMachine" (mkObjectMeta "machine-1" "default" "uid-1" None [] [MachineFinalizer] deletion)
    (mkVSphereMachineSpec (set_cs_OS os (set_cs_Server server VirtualMachineCloneSpec_zero)) "" "" 0 (mkVSphereVMNamingSpec template))
    (mkVSphereMachineStatus [] None [] [] None).
Definition sample_Machine (failureDomain : string) (bootstrap : option string) : Machine :=
  mkMachine (mkObjectMeta "machine-1" "default" "uid-2" (Some {["cluster.x-k8s.io/cluster-name" := "cluster-1"]}) [] [] None)
    failureDomain bootstrap "v1.34.0" "Machine".
Definition sample_VSphereCluster : VSphereCluster :=
  mkVSphereCluster (mkObjectMeta "cluster-1" "default" "uid" None [] [] None)
    (mkVSphereClusterSpec "vcenter" "AA:BB" (mkAPIEndpoint "" 0) (mkVSphereIdentityReference "" "") [] None None) [] [] "" [] None "".
Definition sample_KubeCluster : KubeCluster :=
  mkKubeCluster (mkObjectMeta "cluster-1" "default" "uid-3" None [] [] None) (Some ("VSphereCluster", "cluster-1"))
    (mkAPIEndpoint "" 0) (Some true) [] ["10.0.0.0/16"] [] None None.
Definition sample_VIMMachineContext (server failureDomain : string) (deletion : Time) : VIMMachineContext :=
  mkVIMMachineContext (Some sample_KubeCluster) (Some (sample_Machine failureDomain (Some "bootstrap")))
    (Some sample_VSphereCluster) (sample_VSphereMachine "Linux" server "" deletion).

(** A template that gives a fixed name. *)
Definition sample_execute (out : string) (template name : string) : res string := Ok out.

(** A VSphereVM that is ready when it is written. *)
Definition ready_vm (vm : VSphereVM) : VSphereVM :=
  let vm := set_vm_Spec (set_vs_BiosUUID "4231f0a4-d41b-4f3c-8c3d-5a3d2c1b0a99" (vm_Spec vm)) vm in
  set_vm_Status (set_vt_Addresses ["10.0.0.7"] (set_vt_Ready (Some true) (vm_Status vm))) vm.
Definition ready_answer (X : Type) (e : Ev X) (w : RefWorld) : X * RefWorld :=
  match e in Ev Y return Y * RefWorld with
  | WriteVSphereVM vm => (Ok (ready_vm vm, OpCreated), w)
  | e => ref_answer _ e w
  end.
Definition vim_run {A} (m : M Ev VIMMachineContext A) (c : VIMMachineContext) : trace * (res A * VIMMachineContext) :=
  exec ready_answer (m c) empty_world.
Lemma vim_run_runs {A} (m : M Ev VIMMachineContext A) c : runs (m c) (vim_run m c).1 ((vim_run m c).2.1, (vim_run m c).2.2).
Proof. rewrite <-surjective_pairing. exact (exec_runs ready_answer (m c) empty_world). Qed.

Definition create := createOrPatchVSphereVM (sample_execute "") None.
Definition written_vms (tr : trace) : list VSphereVM := omap written_vm tr.

(** A machine without a server of its own: its VM gets that of the cluster. *)
Lemma createOrPatchVSphereVM_written_witness :
  let c := sample_VIMMachineContext "" "" None in
  let tr := (vim_run create c).1 in
  exists vm vm0, written_vms tr = [vm] /\ vm_of c None vm0 vm tr /\
    cs_Server (vs_VirtualMachineCloneSpec (vm_Spec vm)) = "vcenter".
Proof.
  assert (Hw : exists vm x, written_vms (vim_run create (sample_VIMMachineContext "" "" None)).1 = [vm] /\
    last (vim_run create (sample_VIMMachineContext "" "" None)).1 = Some (Call (WriteVSphereVM vm) x) /\
    cs_Server (vs_VirtualMachineCloneSpec (vm_Spec vm)) = "vcenter").
  { eexists _, _. split; [vm_compute; reflexivity|]. split; vm_compute; reflexivity. }
  destruct Hw as (vm & x & Hvms & Hlast & Hs).
  destruct (createOrPatchVSphereVM_written (sample_execute "") None _ _ _ _ vm x (vim_run_runs create (sample_VIMMachineContext "" "" None))
    (last_Some_elem_of _ _ Hlast)) as (_ & machine & name & vm0 & _ & _ & _ & Hof).
  exists vm, vm0. split; [exact Hvms|]. split; [exact Hof|exact Hs].
Defined.

Definition normal := ReconcileNormal (sample_execute "").
Lemma sample_normal_result : (vim_run normal (sample_VIMMachineContext "" "" None)).2.1 = Ok false.
Proof. vm_compute. reflexivity. Qed.
Lemma ReconcileNormal_publishes_witness :
  provisioned (vim_run normal (sample_VIMMachineContext "" "" None)).2.2 = Some true /\
  exists vm, vm_published vm (vim_run normal (sample_VIMMachineContext "" "" None)).2.2.
Proof.
  pose proof (ReconcileNormal_publishes (sample_execute "") _ _ _ _ (vim_run_runs normal (sample_VIMMachineContext "" "" None))) as Hw.
  rewrite sample_normal_result in Hw. destruct Hw as (_ & vm & vm0 & op & _ & _ & Hp & Hpr).
  split; [exact Hpr|]. exists vm. exact Hp.
Defined.

(** A cluster of thirty machines whose names differ in the middle: the names of
    their Windows VMs are the same. *)
Definition windows_machine (template : string) : VSphereMachine := sample_VSphereMachine Windows "" template None.
Example windows_names_collide :
  generateVMObjectName (sample_execute "") (windows_machine "") "win-worker-a-abcde" = Ok "win-worke-abcde" /\
  generateVMObjectName (sample_execute "") (windows_machine "") "win-worker-b-abcde" = Ok "win-worke-abcde".
Proof. split; vm_compute; reflexivity. Qed.

(** The length that is looked at is that of the name of the machine, and the name
    that is cut is the one that the template gives. *)
Example windows_template_short :
  generateVMObjectName (sample_execute "win-1") (windows_machine "win-1") "win-worker-a-abcde" = Stop Panics.
Proof. vm_compute. reflexivity. Qed.
Example windows_template_long :
  generateVMObjectName (sample_execute "a-name-of-more-than-fifteen") (windows_machine "t") "win-1" = Ok "a-name-of-more-than-fifteen".
Proof. vm_compute. reflexivity. Qed.
Lemma windows_name_bounded_witness :
  slen "win-worke-abcde" <= 15 /\ (slen "win-worker-a-abcde" <= 15 -> "win-worke-abcde" = "win-worker-a-abcde").
Proof. exact (windows_name_bounded (sample_execute "") (windows_machine "") "win-worker-a-abcde" _ eq_refl eq_refl (proj1 windows_names_collide)). Defined.
End examples.

End VimMachine.
