(* ===== verification/MachineController.v ===== *)
(** [controllers/vspheremachine_controller.go]: the reconciliation of a
    VSphereMachine, over the interface of the service that makes its VM. *)
From S2P Require Import Prelude GoStrings Types Libs Constants Errors Prog World RefLibs Conditions Identity MachineUtil MachineInterface VimMachine.

Module MachineController.
Import Identity MachineInterface.

(** [reconcile.Result]: after how many nanoseconds to reconcile again, 0 for not. *)
Definition Result := Z.
Definition tenSeconds : Result := 10 * 1000000000.

Definition hostInfoErrStr : string := "host info cannot be used as a label value".
Definition ESXiHostInfoLabel : string := "node.cluster.x-k8s.io/esxi-host".
(** [vmwarev1.GroupVersion.String()]. *)
Definition VMwareGroupVersion : string := "vmware.infrastructure.cluster.x-k8s.io/v1beta2".

Section controller.
Context `{Libs} {Ctx : Type} {mc : MachineContext Ctx} {svc : VSphereMachineService Ctx}.
#[warnings="-notation-for-abbreviation"]
Notation MC := (M Ev Ctx).
Open Scope go_scope.

(** Both conditions about the VM of a machine that is not there yet. *)
Definition not_provisioned (reason1 severity reason message : string) : MC unit :=
  cond_false VMProvisionedV1Beta1Condition reason1 severity "" ;;
  cond_set (cond VSphereMachineVirtualMachineProvisionedCondition ConditionFalse reason message).

(** * The label with the host *)

Definition patchMachineLabelsWithHostInfo : MC unit :=
  hostInfo <- GetHostInfo ;;
  let info := MachineUtil.SanitizeHostInfoLabel hostInfo in
  let errs := IsValidLabelValue info in
  if 0 <? zlen errs then
    fail (ENew (sprintf "%s (hostInfo: %s): %s" [AS hostInfoErrStr; AS hostInfo; AS (str_join "," errs)]))
  else
    machine <- gets GetMachine ;;
    match machine with
    | None => panic
    | Some machine =>
        call_res (NewPatchHelperOf "Machine" (mc_ObjectMeta machine)) ;;
        match om_Labels (mc_ObjectMeta machine) with
        | None => panic (* assignment to an entry of a nil map *)
        | Some labels =>
            let machine := set_mc_ObjectMeta
              (set_om_Labels (Some (<[ESXiHostInfoLabel := info]> labels)) (mc_ObjectMeta machine)) machine in
            modify (put_Machine machine) ;;
            call_res (PatchMachine machine)
        end
    end.

(** * Reconciliation *)

Definition reconcileDelete : MC Result :=
  not_provisioned DeletingV1Beta1Reason SeverityInfo VSphereMachineVirtualMachineDeletingReason "" ;;
  r <- try svc_ReconcileDelete ;;
  match r with
  | inr err =>
      if IsNotFound err then
        modify (fun c => put_ObjectMeta (without_finalizer MachineFinalizer (GetObjectMeta c)) c) ;;
        ret 0
      else
        not_provisioned DeletionFailedV1Beta1Reason SeverityWarning VSphereMachineVirtualMachineDeletingReason
          "Please check controller logs for errors" ;;
        fail err
  | inl _ => ret tenSeconds
  end.

(** What is waited for without bootstrap data. *)
Definition wait_for_bootstrap (c : Ctx) : MC Result :=
  match GetCluster c with
  | None => panic
  | Some cluster =>
      (if negb (MachineUtil.IsControlPlaneMachine (om_Labels (GetObjectMeta c))) &&
          negb (conditions_IsTrue (kc_Conditions cluster) ClusterControlPlaneInitializedCondition)
       then not_provisioned WaitingForControlPlaneAvailableV1Beta1Reason SeverityInfo
              VSphereMachineVirtualMachineWaitingForControlPlaneInitializedReason ""
       else not_provisioned WaitingForBootstrapDataV1Beta1Reason SeverityInfo
              VSphereMachineVirtualMachineWaitingForBootstrapDataReason "") ;;
      ret 0
  end.

(** The VM and the label, when everything it needs is there. *)
Definition reconcile_vm : MC Result :=
  requeue <- svc_ReconcileNormal ;;
  if (requeue : bool) then ret tenSeconds
  else
    wrap "failed to patch Machine with host info label" patchMachineLabelsWithHostInfo ;;
    cond_true VMProvisionedV1Beta1Condition ;;
    cond_set (cond VSphereMachineVirtualMachineProvisionedCondition ConditionTrue
      VSphereMachineVirtualMachineProvisionedReason "") ;;
    ret 0.

Definition reconcile_bootstrapped : MC Result :=
  c <- get ;;
  match GetMachine c with
  | None => panic
  | Some machine =>
      match mc_BootstrapDataSecretName machine with
      | None => wait_for_bootstrap c
      | Some _ => reconcile_vm
      end
  end.

Definition reconcileNormal : MC Result :=
  r <- try SyncFailureReason ;;
  match r with
  | inr err => if negb (IsNotFound err) then fail err else ret tt
  | inl _ => ret tt
  end ;;
  if negb supervisorBased then
    cluster <- gets GetCluster ;;
    match cluster with
    | None => panic
    | Some cluster =>
        if negb (ptr_deref (kc_InfrastructureProvisioned cluster) false) then
          not_provisioned WaitingForClusterInfrastructureV1Beta1Reason SeverityInfo
            VSphereMachineVirtualMachineWaitingForClusterInfrastructureReadyReason "" ;;
          ret 0
        else reconcile_bootstrapped
    end
  else
    setVMModifiers ;;
    reconcile_bootstrapped.

(** An owner reference to the VSphereCluster, which older versions set, is
    removed. *)
Definition drop_cluster_owner (kind name : string) (c : Ctx) : Ctx :=
  let apiVersion := if supervisorBased then VMwareGroupVersion else GroupVersion in
  let om := GetObjectMeta c in
  put_ObjectMeta (set_om_OwnerReferences
    (RemoveOwnerRef (om_OwnerReferences om) (owner_ref apiVersion kind name "")) om) c.

Definition reconcile_machine : MC Result :=
  c <- get ;;
  match om_DeletionTimestamp (GetObjectMeta c) with
  | Some _ => reconcileDelete
  | None =>
      match GetCluster c with
      | None => ret 0
      | Some cluster =>
          match kc_InfrastructureRef cluster with
          | None => ret 0
          | Some (kind, name) =>
              modify (drop_cluster_owner kind name) ;;
              wrap "failed to get VSphereCluster" (FetchVSphereCluster cluster) ;;
              if supervisorBased then
                provided <- ForCluster ;;
                if negb (provided : bool) then ret tenSeconds else reconcileNormal
              else reconcileNormal
          end
      end
  end.

(** The deferred function: the condition about the VM is there in any case. *)
Definition ensure_provisioned_condition : MC unit :=
  c <- get ;;
  match conditions_Get (the_conditions c) VSphereMachineVirtualMachineProvisionedCondition with
  | Some _ => ret tt
  | None =>
      if GetReady c then
        cond_set (cond VSphereMachineVirtualMachineProvisionedCondition ConditionTrue
          VSphereMachineVirtualMachineProvisionedReason "")
      else
        cond_set (cond VSphereMachineVirtualMachineProvisionedCondition ConditionFalse
          VSphereMachineVirtualMachineNotProvisionedReason "")
  end.

Definition on_exit (reterr : option error) : MC (option error) :=
  ensure_provisioned_condition ;;
  cond_v1beta1_summary [VMProvisionedV1Beta1Condition] ;;
  r <- try (cond_summary VSphereMachineReadyCondition [VSphereMachineVirtualMachineProvisionedCondition] []
              (VSphereMachineNotReadyReason, VSphereMachineReadyUnknownReason, VSphereMachineReadyReason)) ;;
  match r with
  | inr err => ret (NewAggregate [reterr; Some err])
  | inl _ =>
      p <- try ctx_Patch ;;
      ret (match p with inr err => NewAggregate [reterr; Some err] | inl _ => reterr end)
  end.

(** A VSphereMachine without an owner: when it is being deleted there is nothing
    to clean up. *)
Definition reconcile_orphan (om : ObjectMeta) : M Ev unit Result :=
  match om_DeletionTimestamp om with
  | None => ret 0
  | Some _ =>
      (if ContainsFinalizer (om_Finalizers om) MachineFinalizer then
         call_res (NewPatchHelperOf "VSphereMachine" om) ;;
         call_res (PatchObject "VSphereMachine" (without_finalizer MachineFinalizer om))
       else ret tt) ;;
      ret 0
  end.

(** A VSphereMachine whose Machine is known. *)
Definition reconcile_owned (cluster : option KubeCluster) (machine : Machine) (machineContext : Ctx) : M Ev unit Result :=
  let om := GetObjectMeta machineContext in
  finalizerAdded <- call_res (EnsureFinalizerOf "VSphereMachine" om MachineFinalizer) ;;
  if (finalizerAdded : bool) then ret 0
  else
    call_res (NewPatchHelperOf "VSphereMachine" om) ;;
    paused <- call_res (EnsurePausedConditionOf cluster "VSphereMachine" om) ;;
    if (paused.1 || paused.2 : bool) then ret 0
    else local (SetBaseMachineContext cluster machine machineContext) (finally on_exit reconcile_machine).

Definition Reconcile (namespace name : string) : M Ev unit Result :=
  got <- try (FetchVSphereMachine namespace name) ;;
  match got with
  | inr err => if IsNotFound err then ret 0 else fail err
  | inl machineContext =>
      let om := GetObjectMeta machineContext in
      machine <- wrap "failed to get Machine for VSphereMachine" (call_res (GetOwnerMachine om)) ;;
      match machine with
      | None => reconcile_orphan om
      | Some machine =>
          call_res (AddOwners machine) ;;
          rcl <- try (call_res (GetClusterFromMetadata (mc_ObjectMeta machine))) ;;
          reconcile_owned (match rcl with inl cluster => Some cluster | inr _ => None end) machine machineContext
      end
  end.

Definition enqueueClusterToMachineRequests (namespace name : string) : M Ev unit (list (string * string)) :=
  machines <- try (GetMachinesInCluster namespace name) ;;
  match machines with
  | inr _ => ret []
  | inl machines => ret (map (fun om => (om_Namespace om, om_Name om)) machines)
  end.
End controller.

(** * Lemmas *)

Section lemmas.
Context `{Libs} {Ctx : Type} {mc : MachineContext Ctx} {svc : VSphereMachineService Ctx}.
Open Scope go_scope.

Definition machine_finalizers (c : Ctx) : list string := om_Finalizers (GetObjectMeta c).

Lemma adorned_rest (c c' : Ctx) : adorned c c' -> the_rest c' = the_rest c.
Proof.
  apply (adorned_field the_rest); intros l s; unfold the_rest;
    [pose proof (view_put_conditions l s) as E|pose proof (view_put_v1beta1 l s) as E]; by injection E as -> _ -> ->.
Qed.
Lemma adorned_ready (c c' : Ctx) : adorned c c' -> GetReady c' = GetReady c.
Proof.
  apply (adorned_field GetReady); intros l s;
    [pose proof (view_put_conditions l s) as E|pose proof (view_put_v1beta1 l s) as E]; by injection E as _ -> _ _.
Qed.

Lemma not_provisioned_adorns r1 s r m : adorns (St:=Ctx) (not_provisioned r1 s r m).
Proof. unfold not_provisioned. solve_adorns. Qed.

(** Going on after the conditions were set. *)
Lemma after_not_provisioned {A} r1 s r m (k : M Ev Ctx A) c (Q : trace -> res A -> Ctx -> Prop) :
  (forall tr e c', effects tr = [] -> the_rest c' = the_rest c -> Q tr (Err e) c') ->
  (forall tr w c', effects tr = [] -> the_rest c' = the_rest c -> Q tr (Stop w) c') ->
  (forall tr c', effects tr = [] -> the_rest c' = the_rest c -> adorned c c' ->
     wpm k c' (fun tr' => Q (tr ++ tr')%list)) ->
  wpm (not_provisioned r1 s r m ;; k) c Q.
Proof.
  intros He Hs Hk. apply wpm_adorns_bind; [apply not_provisioned_adorns|..].
  - intros tr e c' Htr Ha. apply He; [done|by apply adorned_rest].
  - intros tr w c' Htr Ha. apply Hs; [done|by apply adorned_rest].
  - intros tr a c' Htr Ha. apply Hk; [done|by apply adorned_rest|exact Ha].
Qed.

(** ** Deletion *)

Lemma rest_finalizers (c c' : Ctx) : the_rest c' = the_rest c -> machine_finalizers c' = machine_finalizers c.
Proof. unfold the_rest, machine_finalizers. by intros [= -> _ _]. Qed.

Lemma machine_delete_spec (c : Ctx) :
  wpm reconcileDelete c (fun tr r c' => machine_finalizers c' = machine_finalizers c \/
    r = Ok 0 /\ machine_finalizers c' = (RemoveFinalizer (machine_finalizers c) MachineFinalizer).1 /\ vm_not_found c tr).
Proof.
  unfold reconcileDelete. apply after_not_provisioned.
  1-2: intros tr x c' _ Hr; left; by apply rest_finalizers.
  intros tr0 c0 _ Hr0 Ha0. do 2 cond_step. eapply wpm_mono; [apply ReconcileDelete_law|].
  intros tr1 [u|e|w] c1 [Hr1 Hgone]; cbn beta iota.
  - cond_step. left. by rewrite (rest_finalizers _ _ Hr1), (rest_finalizers _ _ Hr0).
  - destruct (IsNotFound e) eqn:En.
    + do 3 cond_step. right. split; [done|]. split.
      * unfold machine_finalizers. rewrite meta_put. unfold without_finalizer. cbn [om_Finalizers set_om_Finalizers].
        fold (machine_finalizers c1). by rewrite (rest_finalizers _ _ Hr1), (rest_finalizers _ _ Hr0).
      * rewrite <-(vm_not_found_adorned _ _ Ha0). pose proof (Hgone eq_refl) as Hg. in_part Hg.
    + apply after_not_provisioned.
      1-2: intros tr x c' _ Hr; left; by rewrite (rest_finalizers _ _ Hr), (rest_finalizers _ _ Hr1), (rest_finalizers _ _ Hr0).
      intros tr c' _ Hr _. cond_step. left.
      by rewrite (rest_finalizers _ _ Hr), (rest_finalizers _ _ Hr1), (rest_finalizers _ _ Hr0).
  - left. by rewrite (rest_finalizers _ _ Hr1), (rest_finalizers _ _ Hr0).
Qed.

(** ** What a machine needs *)

(** The infrastructure of the cluster, in the govmomi mode, and the bootstrap
    data are there. *)
Definition infrastructure_ready (c : Ctx) : Prop :=
  supervisorBased = false -> exists cluster, GetCluster c = Some cluster /\ kc_InfrastructureProvisioned cluster = Some true.
Definition bootstrapped (c : Ctx) : Prop :=
  exists machine, GetMachine c = Some machine /\ mc_BootstrapDataSecretName machine <> None.

Lemma rest_needs (c c' : Ctx) : the_rest c' = the_rest c ->
  (infrastructure_ready c' <-> infrastructure_ready c) /\ (bootstrapped c' <-> bootstrapped c).
Proof. unfold the_rest, infrastructure_ready, bootstrapped. by intros [= _ -> ->]. Qed.

(** The Machine was written with a label for its host. *)
Definition machine_labelled (c : Ctx) (tr : trace) : Prop :=
  exists machine machine' info labels, GetMachine c = Some machine /\
    om_Labels (mc_ObjectMeta machine') = Some labels /\ labels !! ESXiHostInfoLabel = Some info /\
    om_Name (mc_ObjectMeta machine') = om_Name (mc_ObjectMeta machine) /\ IsValidLabelValue info = [] /\
    Call (PatchMachine machine') (Ok tt) ∈ tr.

Lemma patchMachineLabels_spec (c : Ctx) :
  wpm patchMachineLabelsWithHostInfo c (fun tr r c' =>
    GetObjectMeta c' = GetObjectMeta c /\ GetReady c' = GetReady c /\
    match r with Ok _ => machine_labelled c tr | _ => True end).
Proof.
  unfold patchMachineLabelsWithHostInfo. cond_step. eapply wpm_mono; [apply GetHostInfo_law|].
  intros tr [hostInfo|e|w] c1 [_ ->]; cbn beta iota; [|done..]. cbn zeta.
  destruct (0 <? zlen _) eqn:Hz; [by cond_step|]. do 2 cond_step.
  destruct (GetMachine c) as [machine|] eqn:Em; [|by cond_step].
  do 2 cond_step; [|done..]. destruct (om_Labels _) as [labels|]; [|by cond_step].
  do 3 cond_step; (split; [apply meta_put_machine|]; split; [apply ready_put_machine|]); [|done..].
  exists machine, (set_mc_ObjectMeta (set_om_Labels
    (Some (<[ESXiHostInfoLabel := MachineUtil.SanitizeHostInfoLabel hostInfo]> labels)) (mc_ObjectMeta machine)) machine).
  eexists _, _. split; [done|]. split; [reflexivity|]. split; [apply lookup_insert_eq|]. split; [done|]. split.
  - apply Z.ltb_ge in Hz. unfold zlen in Hz. destruct (IsValidLabelValue _); [done|]. cbn [length] in Hz. lia.
  - destruct a0. in_trace.
Qed.


(** The condition that says the VM is there. *)
Definition vm_provisioned (c : Ctx) : Prop :=
  exists cnd, the_condition VSphereMachineVirtualMachineProvisionedCondition c = Some cnd /\ c_Status cnd = ConditionTrue.

Definition machine_done (c : Ctx) (tr : trace) (c' : Ctx) : Prop :=
  GetReady c' = true /\ vm_provisioned c' /\ machine_labelled c tr.

Lemma rest_labelled (c c' : Ctx) tr : the_rest c' = the_rest c -> machine_labelled c' tr -> machine_labelled c tr.
Proof. unfold the_rest, machine_labelled. by intros [= _ _ ->]. Qed.
Lemma grows_labelled (c : Ctx) : Grows (machine_labelled c).
Proof.
  intros tr tr' Hs (m & m' & info & l & H1 & H2 & H3 & H4 & H5 & Hin). exists m, m', info, l.
  split_and!; [done..|by apply Hs].
Qed.
Existing Instance grows_labelled.

(** A normal pass: the metadata stays; nothing is asked for unless what the
    machine needs is there; and when it is, a pass that ends without an error and
    without asking for another one is done. *)
Definition normal_post (c : Ctx) (tr : trace) (r : res Result) (c' : Ctx) : Prop :=
  GetObjectMeta c' = GetObjectMeta c /\
  (effects tr = [] \/ infrastructure_ready c /\ bootstrapped c) /\
  (infrastructure_ready c -> bootstrapped c -> r = Ok 0 -> machine_done c tr c').

Lemma reconcile_vm_spec (c : Ctx) :
  wpm reconcile_vm c (fun tr r c' => GetObjectMeta c' = GetObjectMeta c /\ (r = Ok 0 -> machine_done c tr c')).
Proof.
  assert (Hmeta : forall c' : Ctx, the_rest c' = the_rest c -> GetObjectMeta c' = GetObjectMeta c)
    by (unfold the_rest; intros c'; by intros [= -> _ _]).
  unfold reconcile_vm, machine_done. cond_step. eapply wpm_mono; [apply ReconcileNormal_law|].
  intros tr [[|]|e|w] c1 [Hr Hready]; cbn beta iota; [by cond_step; split; [apply Hmeta|]| |by split; [apply Hmeta|]..].
  do 2 cond_step. eapply wpm_mono; [apply patchMachineLabels_spec|].
  intros tr1 [u|e|w] c2 (Hm & Hready2 & Hl); cbn beta iota delta [res_wrap]; [|by split; [rewrite Hm; apply Hmeta|]..].
  do 5 cond_step. set (c3 := put_conditions _ _).
  assert (Ha : adorned c2 c3) by (etrans; [apply adorned_put_v1beta1|apply adorned_put]).
  assert (Hrest : GetObjectMeta c3 = GetObjectMeta c2) by (pose proof (adorned_rest _ _ Ha) as E; unfold the_rest in E; by injection E).
  split; [rewrite Hrest, Hm; by apply Hmeta|]. intros _. split; [by rewrite (adorned_ready _ _ Ha), Hready2|]. split.
  - destruct (the_condition_set now0 (cond VSphereMachineVirtualMachineProvisionedCondition ConditionTrue
      VSphereMachineVirtualMachineProvisionedReason "") (put_v1beta1 l c2)) as (g & t & E). eexists. split; [exact E|done].
  - apply (rest_labelled _ _ _ Hr). in_part Hl.
Qed.

Lemma reconcile_bootstrapped_spec (c : Ctx) :
  wpm reconcile_bootstrapped c (fun tr r c' => GetObjectMeta c' = GetObjectMeta c /\
    (effects tr = [] \/ bootstrapped c) /\ (bootstrapped c -> r = Ok 0 -> machine_done c tr c')).
Proof.
  unfold reconcile_bootstrapped, bootstrapped. do 2 cond_step.
  destruct (GetMachine c) as [machine|] eqn:Em.
  2:{ cond_step. split; [done|]. split; [by left|]. by intros (m & ? & _). }
  destruct (mc_BootstrapDataSecretName machine) eqn:Eb.
  - eapply wpm_mono; [apply reconcile_vm_spec|]. intros tr r c' [Hm Hd]. split; [done|]. split.
    + right. exists machine. by rewrite Eb.
    + intros _. exact Hd.
  - unfold wait_for_bootstrap.
    assert (Hno : forall tr r c', effects tr = [] -> the_rest c' = the_rest c ->
      GetObjectMeta c' = GetObjectMeta c /\ (effects tr = [] \/ exists m, Some machine = Some m /\ mc_BootstrapDataSecretName m <> None) /\
      ((exists m, Some machine = Some m /\ mc_BootstrapDataSecretName m <> None) -> r = Ok 0 -> machine_done c tr c')).
    { intros tr r c' He Hr. unfold the_rest in Hr. injection Hr as Hm _ _. split; [done|]. split; [by left|].
      intros (m & [= <-] & Hb). by rewrite Eb in Hb. }
    destruct (GetCluster c) as [cluster|]; [|by cond_step; apply Hno].
    apply wpm_adorns_bind; [destruct (_ && _); apply not_provisioned_adorns|..];
      intros tr x c' He Ha; apply adorned_rest in Ha; [by apply Hno..|].
    cond_step. apply Hno; [by trace_simpl|done].
Qed.

Lemma machine_normal_spec (c : Ctx) : wpm reconcileNormal c (normal_post c).
Proof.
  assert (Hno : forall tr r (c' : Ctx), effects tr = [] -> the_rest c' = the_rest c ->
    ~ (infrastructure_ready c /\ bootstrapped c /\ r = Ok 0) -> normal_post c tr r c').
  { intros tr r c' He Hr Hn. unfold the_rest in Hr. injection Hr as Hm _ _. split; [done|]. split; [by left|]. tauto. }
  assert (Hgo : forall tr0 c1, effects tr0 = [] -> the_rest c1 = the_rest c -> infrastructure_ready c ->
    wpm reconcile_bootstrapped c1 (fun tr r c' => normal_post c (tr0 ++ tr)%list r c')).
  { intros tr0 c1 He Hr Hi. eapply wpm_mono; [apply reconcile_bootstrapped_spec|].
    destruct (rest_needs _ _ Hr) as [_ Hb]. intros tr r c' (Hm & Hg & Hd). rewrite Hb in Hg, Hd.
    assert (Hm1 : GetObjectMeta c1 = GetObjectMeta c) by (unfold the_rest in Hr; by injection Hr).
    split; [congruence|]. split; [destruct Hg as [Hg|Hg]; [left; by rewrite effects_app, He, Hg|by right]|].
    intros _ Hbc Hok. destruct (Hd Hbc Hok) as (H1 & H2 & H3). split; [done|]. split; [done|].
    apply (rest_labelled _ _ _ Hr) in H3. by apply (grows_app_r (machine_labelled c)). }
  unfold reconcileNormal.
  match goal with |- wpm (bind _ (fun r => bind _ (fun _ => ?k))) _ _ =>
    assert (Hk : forall tr0 c1, effects tr0 = [] -> the_rest c1 = the_rest c ->
      wpm k c1 (fun tr r c' => normal_post c (tr0 ++ tr)%list r c')) end.
  { intros tr0 c1 He Hr. destruct supervisorBased eqn:Es; cbn [negb].
    - cond_step. eapply wpm_mono; [apply setVMModifiers_law|]. intros tr1 [u|e|w] c2 [He1 Hr1]; cbn beta iota.
      2-3: apply Hno; [by rewrite effects_app, He, He1|congruence|by intros (_ & _ & ?)].
      eapply wpm_mono; [apply (Hgo (tr0 ++ tr1)%list c2)|]; [by rewrite effects_app, He, He1|congruence|by intros E; rewrite Es in E|].
      intros tr r c'. by rewrite app_assoc.
    - do 2 cond_step. destruct (GetCluster c1) as [cluster|] eqn:Ec.
      2:{ cond_step. apply Hno; [by rewrite app_nil_r|done|by intros (_ & _ & ?)]. }
      assert (Hc : GetCluster c = Some cluster) by (unfold the_rest in Hr; injection Hr as _ Hr _; congruence).
      destruct (kc_InfrastructureProvisioned cluster) as [[|]|] eqn:Ei; cbn [ptr_deref negb].
      1: apply (Hgo tr0 c1 He Hr); intros _; exists cluster; by rewrite Ei.
      all: assert (Hni : ~ infrastructure_ready c) by (intros Hi; destruct (Hi Es) as (cl & Hcl & Hp); congruence).
      all: apply after_not_provisioned;
        [intros tr e c' Htr Hr'; apply Hno; [by rewrite !effects_app, He, Htr|congruence|tauto]
        |intros tr w c' Htr Hr'; apply Hno; [by rewrite !effects_app, He, Htr|congruence|tauto]
        |intros tr c' Htr Hr' _; cond_step; apply Hno; [rewrite ?app_nil_r, ?effects_app, ?He, ?Htr; done|congruence|tauto]]. }
  do 2 cond_step. eapply wpm_mono; [apply SyncFailureReason_law|].
  intros tr [u|e|w] c1 [He Hr]; cbn beta iota.
  - do 2 cond_step. by apply Hk.
  - cond_step. destruct (IsNotFound e); cbn [negb]; cond_step; [by apply Hk|]. rewrite app_nil_r.
    apply Hno; [done|done|by intros (_ & _ & ?)].
  - apply Hno; [done|done|by intros (_ & _ & ?)].
Qed.


(** The objects a machine was reached from. *)
Definition base (c : Ctx) : option KubeCluster * option Machine := (GetCluster c, GetMachine c).

Lemma rest_base (c c' : Ctx) : the_rest c' = the_rest c -> base c' = base c.
Proof. unfold the_rest, base. by intros [= _ -> ->]. Qed.
Lemma base_needs (c c' : Ctx) tr : base c' = base c ->
  (infrastructure_ready c' <-> infrastructure_ready c) /\ (bootstrapped c' <-> bootstrapped c) /\
  (machine_labelled c' tr <-> machine_labelled c tr).
Proof. unfold base, infrastructure_ready, bootstrapped, machine_labelled. by intros [= -> ->]. Qed.

(** The parts of a normal pass that do not depend on the metadata. *)
Definition pass_post (c : Ctx) (tr : trace) (r : res Result) (c' : Ctx) : Prop :=
  machine_finalizers c' = machine_finalizers c /\
  (effects tr = [] \/ infrastructure_ready c /\ bootstrapped c) /\
  (forall cluster, GetCluster c = Some cluster -> kc_InfrastructureRef cluster <> None ->
     infrastructure_ready c -> bootstrapped c -> r = Ok 0 -> machine_done c tr c').

Lemma pass_post_silent c tr r (c' : Ctx) :
  machine_finalizers c' = machine_finalizers c -> effects tr = [] ->
  (forall cluster, GetCluster c = Some cluster -> kc_InfrastructureRef cluster <> None -> r <> Ok 0) ->
  pass_post c tr r c'.
Proof.
  intros Hf He Hn. split; [done|]. split; [by left|]. intros cluster Hc Hi _ _ Hr. by destruct (Hn _ Hc Hi).
Qed.

Lemma machine_pass_spec (c : Ctx) :
  om_DeletionTimestamp (GetObjectMeta c) = None -> wpm reconcile_machine c (pass_post c).
Proof.
  intros Hd. unfold reconcile_machine. do 2 cond_step. rewrite Hd.
  destruct (GetCluster c) as [cluster|] eqn:Ec; [|by cond_step; apply pass_post_silent; [..|congruence]].
  destruct (kc_InfrastructureRef cluster) as [[kind name]|] eqn:Ei;
    [|by cond_step; apply pass_post_silent; [..|intros cl Hcl; rewrite Ec in Hcl; injection Hcl as <-]].
  do 2 cond_step. set (c0 := drop_cluster_owner kind name c).
  assert (Hf0 : machine_finalizers c0 = machine_finalizers c) by (unfold c0, drop_cluster_owner, machine_finalizers; by rewrite meta_put).
  assert (Hb0 : base c0 = base c) by (unfold c0, drop_cluster_owner, base; exact (base_put _ _)). clearbody c0.
  assert (Hgo : forall tr0 c1, effects tr0 = [] -> the_rest c1 = the_rest c0 ->
    wpm reconcileNormal c1 (fun tr r c' => pass_post c (tr0 ++ tr)%list r c')).
  { intros tr0 c1 He Hr. eapply wpm_mono; [apply machine_normal_spec|]. intros tr r c' (Hm & Hg & Hdone).
    assert (Hbc : base c1 = base c) by (rewrite (rest_base _ _ Hr); exact Hb0).
    destruct (base_needs _ _ tr Hbc) as (Hi & Hbo & Hl). rewrite Hi, Hbo in Hg. rewrite Hi, Hbo in Hdone.
    split; [unfold machine_finalizers; rewrite Hm; fold (machine_finalizers c1); rewrite (rest_finalizers _ _ Hr); exact Hf0|].
    split; [destruct Hg as [Hg|Hg]; [left; by rewrite effects_app, He, Hg|by right]|].
    intros cl _ _ H1 H2 Hok. destruct (Hdone H1 H2 Hok) as (Ha & Hb & Hc). split; [done|]. split; [done|].
    apply Hl in Hc. by apply (grows_app_r (machine_labelled c)). }
  do 2 cond_step. eapply wpm_mono; [apply FetchVSphereCluster_law|].
  intros tr1 [u|e|w] c1 [He1 Hr1]; cbn beta iota delta [res_wrap].
  2-3: apply pass_post_silent; [by rewrite (rest_finalizers _ _ Hr1)|done|done].
  destruct supervisorBased; [|by apply (Hgo tr1)].
  cond_step. eapply wpm_mono; [apply ForCluster_law|].
  intros tr2 [[|]|e|w] c2 [He2 Hr2]; cbn beta iota delta [negb].
  2: cond_step. 2-4: apply pass_post_silent; [by rewrite (rest_finalizers _ _ Hr2), (rest_finalizers _ _ Hr1)|by trace_simpl; rewrite ?effects_app, ?He1, ?He2|done].
  eapply wpm_mono; [apply (Hgo (tr1 ++ tr2)%list c2)|]; [by rewrite effects_app, He1, He2|congruence|].
  intros tr r c'. cbn [app]. by rewrite app_assoc.
Qed.

(** The finalizers after a pass over a machine: as they were, or, for one that is
    being deleted and whose VM was looked for and not found, without the one of
    the controller. *)
Definition kept_or_let_go (c : Ctx) (tr : trace) (c' : Ctx) : Prop :=
  machine_finalizers c' = machine_finalizers c \/
  om_DeletionTimestamp (GetObjectMeta c) <> None /\
  machine_finalizers c' = (RemoveFinalizer (machine_finalizers c) MachineFinalizer).1 /\ vm_not_found c tr.

Lemma reconcile_machine_finalizers (c : Ctx) :
  wpm reconcile_machine c (fun tr r c' => kept_or_let_go c tr c' /\
    (machine_finalizers c' <> machine_finalizers c -> r = Ok 0)).
Proof.
  unfold kept_or_let_go. destruct (om_DeletionTimestamp (GetObjectMeta c)) eqn:Hd.
  - unfold reconcile_machine. do 2 cond_step. rewrite Hd.
    eapply wpm_mono; [apply machine_delete_spec|]. intros tr1 r1 c1 [Hf|(Hr & ? & ?)]; [by split; [left|]|].
    split; [right; by split_and!|done].
  - eapply wpm_mono; [by apply machine_pass_spec|]. intros tr1 r1 c1 [? _]. by split; [left|].
Qed.

Lemma on_exit_rest reterr (c : Ctx) : wpm (on_exit reterr) c (fun _ _ c' => the_rest c' = the_rest c).
Proof.
  unfold on_exit, ensure_provisioned_condition.
  assert (Hk : forall c1, the_rest c1 = the_rest c ->
    wpm (cond_v1beta1_summary [VMProvisionedV1Beta1Condition] ;;
      r <- try (cond_summary VSphereMachineReadyCondition [VSphereMachineVirtualMachineProvisionedCondition] []
              (VSphereMachineNotReadyReason, VSphereMachineReadyUnknownReason, VSphereMachineReadyReason)) ;;
      match r with
      | inr err => ret (NewAggregate [reterr; Some err])
      | inl _ =>
          p <- try ctx_Patch ;;
          ret (match p with inr err => NewAggregate [reterr; Some err] | inl _ => reterr end)
      end) c1 (fun _ _ c' => the_rest c' = the_rest c)).
  { intros c1 H1. apply wpm_adorns_bind; [auto with adorns|..];
      intros tr x c2 _ Ha; apply adorned_rest in Ha; [congruence..|].
    apply wpm_adorns_bind; [apply adorns_try; auto with adorns|..];
      intros tr' y c3 _ Ha'; apply adorned_rest in Ha'; [congruence..|].
    destruct y; [|cond_step; congruence]. do 2 cond_step. eapply wpm_mono; [apply ctx_Patch_same|].
    intros tr2 [u0|e0|w0] c4 ->; repeat cond_step; congruence. }
  apply wpm_adorns_bind; [|intros tr x c1 _ Ha; apply adorned_rest in Ha; try done; by apply Hk..].
  apply adorns_bind; [solve_adorns|intros c0; destruct (conditions_Get _ _); [|destruct (GetReady c0)]; solve_adorns].
Qed.

Lemma finally_finalizers (c : Ctx) :
  wpm (finally on_exit reconcile_machine) c (fun tr _ c' => kept_or_let_go c tr c').
Proof.
  apply wpm_finally. eapply wpm_mono; [apply reconcile_machine_finalizers|]. intros tr r c1 [Hk _].
  assert (Hd : forall reterr, wpm (on_exit reterr) c1 (fun tr' _ c' => kept_or_let_go c (tr ++ tr')%list c')).
  { intros reterr. eapply wpm_mono; [apply on_exit_rest|]. intros tr' r' c' Hr. cbn beta in Hr. unfold kept_or_let_go.
    rewrite (rest_finalizers _ _ Hr). destruct Hk as [Hk|(? & ? & Hg)]; [by left|right]. split_and!; [done..|].
    by apply (grows_app_l (vm_not_found c)). }
  destruct r as [a|e|[|]]; [apply Hd..|exact Hk].
Qed.

(** ** The whole of [Reconcile] *)

(** The machine of a pass, as it was fetched. *)
Definition fetched (namespace name : string) (tr : trace) (c : Ctx) : Prop :=
  exists tr0 tr1, tr = (tr0 ++ tr1)%list /\ runs (FetchVSphereMachine namespace name tt) tr0 (Ok c, tt).
(** What is done before a machine is reconciled: a finalizer may be added. *)
Definition prepared (tr : trace) : Prop := effects tr = [] \/ exists name, effects tr = [AddsFinalizer name].

(** A machine that no Machine owns, so that nothing was made for it, and that is being deleted:
    all that is done is to write it without the finalizer. *)
Definition orphan_let_go (namespace name : string) (tr : trace) : Prop :=
  exists c x, fetched namespace name tr c /\
    Call (GetOwnerMachine (GetObjectMeta c)) (Ok None) ∈ tr /\
    om_DeletionTimestamp (GetObjectMeta c) <> None /\ MachineFinalizer ∈ machine_finalizers c /\
    Call (PatchObject "VSphereMachine" (without_finalizer MachineFinalizer (GetObjectMeta c))) x ∈ tr /\
    effects tr = [PatchesObject "VSphereMachine" (om_Name (GetObjectMeta c))].

(** A machine that is owned is reconciled, after what prepares that. *)
Definition owned_reconciled (namespace name : string) (tr : trace) : Prop :=
  exists c cluster machine tr0 tr1 r1 c', tr = (tr0 ++ tr1)%list /\ fetched namespace name tr0 c /\ prepared tr0 /\
    Call (GetOwnerMachine (GetObjectMeta c)) (Ok (Some machine)) ∈ tr0 /\
    let c0 := SetBaseMachineContext cluster machine c in
    runs (finally on_exit reconcile_machine c0) tr1 (r1, c') /\
    machine_finalizers c0 = machine_finalizers c /\ kept_or_let_go c0 tr1 c'.

Lemma reconcile_owned_spec namespace name (c : Ctx) machine trf tr0 cluster :
  runs (FetchVSphereMachine namespace name tt) trf (Ok c, tt) -> effects trf = [] -> effects tr0 = [] ->
  Call (GetOwnerMachine (GetObjectMeta c)) (Ok (Some machine)) ∈ tr0 ->
  wpm (reconcile_owned cluster machine c) tt (fun tr _ _ =>
    prepared (trf ++ tr0 ++ tr)%list \/ orphan_let_go namespace name (trf ++ tr0 ++ tr)%list \/
    owned_reconciled namespace name (trf ++ tr0 ++ tr)%list).
Proof.
  intros Hrun He He0 Hin. unfold reconcile_owned.
  assert (Hprep : forall tr, (effects tr = [] \/ exists n, effects tr = [AddsFinalizer n]) -> prepared (trf ++ tr0 ++ tr)%list).
  { intros tr Htr. unfold prepared. by rewrite !effects_app, He, He0. }
  do 2 cond_step; [|left; apply Hprep; right; eexists; reflexivity..].
  destruct a; [cond_step; left; apply Hprep; right; eexists; reflexivity|].
  do 2 cond_step; [|left; apply Hprep; right; eexists; reflexivity..].
  do 2 cond_step; [|left; apply Hprep; right; eexists; reflexivity..].
  destruct (_ || _); [cond_step; left; apply Hprep; right; eexists; reflexivity|].
  cond_step. eapply wpm_mono; [apply wpm_with_run, finally_finalizers|].
  intros tr' r' c' [Hrun' Hk]. right. right. rewrite !app_assoc.
  exists c, cluster, machine. eexists. exists tr', r', c'. split; [reflexivity|]. rewrite <-!app_assoc.
  split; [by eexists trf, _|]. split; [apply Hprep; right; eexists; reflexivity|].
  split; [in_trace|]. split; [done|]. split; [|done]. unfold machine_finalizers. by rewrite meta_base.
Qed.

(** C11: a machine is let go only when its VM is gone, or when there never was one
    for it. A pass for a VSphereMachine does one of three things. It changes
    nothing but for a finalizer that it adds. Or the machine that was fetched has
    no owner, is being deleted and has the finalizer of the controller: then that
    finalizer is removed, and nothing else is done. Or an owner was found and the
    machine is reconciled: then its finalizers are at the end what they were,
    unless it is being deleted and the service looked for its VM and did not find
    it, when they are what they were without the one of the controller. *)
Theorem machine_finalizer namespace name tr r s' :
  runs (Reconcile namespace name tt) tr (r, s') ->
  prepared tr \/ orphan_let_go namespace name tr \/ owned_reconciled namespace name tr.
Proof.
  intros Hr. revert tr r s' Hr. apply wpm_runs. unfold Reconcile. do 2 cond_step.
  eapply wpm_mono; [apply wpm_with_run, FetchVSphereMachine_law|].
  intros trf [c|e|w] [] [Hrun He]; cbn beta iota; [|destruct (IsNotFound e); cond_step; left; left; by rewrite ?app_nil_r|by left; left].
  assert (Hquiet : forall tr, effects tr = [] -> prepared (trf ++ tr)%list)
    by (intros tr Htr; left; by rewrite effects_app, He, Htr).
  do 3 cond_step; [|by left; apply Hquiet..]. destruct a as [machine|].
  - do 2 cond_step; [|by left; apply Hquiet..]. do 3 cond_step.
    all: try (by left; apply Hquiet).
    1: pose (rcl := Ok a0). 2: pose (rcl := Err e : res KubeCluster).
    all: eapply wpm_mono; [by apply (reconcile_owned_spec namespace name c machine trf
        ([Call (GetOwnerMachine (GetObjectMeta c)) (Ok (Some machine))] ++ [Call (AddOwners machine) (Ok a)] ++
         [Call (GetClusterFromMetadata (mc_ObjectMeta machine)) rcl])%list); [..|in_trace]|].
    all: intros tr r' s' Hs; exact Hs.
  - unfold reconcile_orphan. destruct (om_DeletionTimestamp (GetObjectMeta c)) eqn:Hd; [|by cond_step; left; apply Hquiet].
    destruct (ContainsFinalizer _ _) eqn:Hc; [|by do 2 cond_step; left; apply Hquiet].
    do 3 cond_step; [|by left; apply Hquiet..]. cond_step; [cond_step|..]; right; left.
    all: eexists c, _; split; [by eexists trf, _|]; split; [in_trace|]; split; [by rewrite Hd|]; split; [exact (bool_decide_eq_true_1 _ Hc)|].
    all: split; [in_trace|]; by rewrite effects_app, He.
Qed.

(** C10: nothing is made before it is time, and everything is there when a pass
    says so. A pass over a VSphereMachine that is not being deleted changes nothing
    anywhere unless the Machine has bootstrap data and, in the govmomi mode, the
    infrastructure of the cluster is provisioned. When these are there and the
    cluster refers to its infrastructure, a pass that ends without an error and
    does not ask for another one leaves the VSphereMachine ready, with the
    condition that its VM is provisioned, and has written the Machine with a valid
    label for the host of the VM. *)
Theorem machine_pass (c : Ctx) tr r c' :
  om_DeletionTimestamp (GetObjectMeta c) = None ->
  runs (reconcile_machine c) tr (r, c') ->
  (effects tr = [] \/ infrastructure_ready c /\ bootstrapped c) /\
  (forall cluster, GetCluster c = Some cluster -> kc_InfrastructureRef cluster <> None ->
     infrastructure_ready c -> bootstrapped c -> r = Ok 0 -> machine_done c tr c').
Proof. intros Hd Hr. exact (proj2 (proj1 (wpm_runs _ _ _) (machine_pass_spec c Hd) _ _ _ Hr)). Qed.

End lemmas.

(** * Concrete inputs

    In the govmomi mode, with the service of [VimMachine.v]. *)

Section examples.
Import RefLibs VimMachine.

Lemma sample_execute_found t n e : sample_execute "" t n = Err e -> IsNotFound e = false.
Proof. discriminate. Qed.
#[local] Instance sample_service : VSphereMachineService VIMMachineContext := vim_service (sample_execute "") sample_execute_found.

Definition sample_pass : M Ev VIMMachineContext Result := reconcile_machine.

(** The VSphereCluster is there as well, and the VM may be. *)
Definition machine_answer (vm : res VSphereVM) (X : Type) (e : Ev X) (w : RefWorld) : X * RefWorld :=
  match e in Ev Y return Y * RefWorld with
  | GetVSphereVM _ _ => (vm, w)
  | GetVSphereCluster _ _ => (Ok sample_VSphereCluster, w)
  | e => ready_answer _ e w
  end.
Definition machine_run (vm : res VSphereVM) (c : VIMMachineContext) : trace * (res Result * VIMMachineContext) :=
  exec (machine_answer vm) (sample_pass c) empty_world.
Lemma machine_run_runs vm c :
  runs (reconcile_machine c) (machine_run vm c).1 ((machine_run vm c).2.1, (machine_run vm c).2.2).
Proof. rewrite <-surjective_pairing. exact (exec_runs (machine_answer vm) (sample_pass c) empty_world). Qed.

Definition there : res VSphereVM := Ok (ready_vm (new_vm "default" "machine-1")).
Definition gone : res VSphereVM := Err (ELib APINotFound "not found").
Definition new_machine : VIMMachineContext := sample_VIMMachineContext "" "" None.
Definition deleted_machine : VIMMachineContext := sample_VIMMachineContext "" "" (Some 1).

Lemma new_machine_result : (machine_run there new_machine).2.1 = Ok 0.
Proof. vm_compute. reflexivity. Qed.
Lemma machine_pass_witness : machine_done new_machine (machine_run there new_machine).1 (machine_run there new_machine).2.2.
Proof.
  pose proof (machine_pass new_machine _ _ _ eq_refl (machine_run_runs there new_machine)) as [_ Hw].
  apply (Hw sample_KubeCluster); [reflexivity|discriminate| | |exact new_machine_result].
  - intros _. exists sample_KubeCluster. split; reflexivity.
  - eexists. split; [reflexivity|discriminate].
Defined.

Lemma deleted_machine_finalizers : machine_finalizers (machine_run gone deleted_machine).2.2 = [].
Proof. vm_compute. reflexivity. Qed.

(** The whole of a pass over a machine that is being deleted, with the given owner. *)
Definition deletion_answer (owner : option Machine) (X : Type) (e : Ev X) (w : RefWorld) : X * RefWorld :=
  match e in Ev Y return Y * RefWorld with
  | GetVSphereMachine _ _ => (Ok (xm_VSphereMachine deleted_machine), w)
  | GetOwnerMachine _ => (Ok owner, w)
  | e => machine_answer gone _ e w
  end.
Definition deletion_run (owner : option Machine) : trace * (res Result * unit) :=
  exec (deletion_answer owner) (Reconcile (svc:=sample_service) "default" "machine-1" tt) empty_world.
Lemma deletion_runs owner :
  runs (Reconcile (svc:=sample_service) "default" "machine-1" tt) (deletion_run owner).1
    ((deletion_run owner).2.1, (deletion_run owner).2.2).
Proof.
  rewrite <-surjective_pairing.
  exact (exec_runs (deletion_answer owner) (Reconcile (svc:=sample_service) "default" "machine-1" tt) empty_world).
Qed.
Lemma deletion_effects :
  effects (deletion_run (xm_Machine deleted_machine)).1 =
    [AddsFinalizer "machine-1"; PatchesObject "VSphereMachine" "machine-1"].
Proof. vm_compute; reflexivity. Qed.
Example orphan_effects :
  effects (deletion_run None).1 = [PatchesObject "VSphereMachine" "machine-1"].
Proof. vm_compute; reflexivity. Qed.

Lemma machine_finalizer_witness :
  owned_reconciled (svc:=sample_service) "default" "machine-1" (deletion_run (xm_Machine deleted_machine)).1.
Proof.
  destruct (machine_finalizer (svc:=sample_service) "default" "machine-1" _ _ _
    (deletion_runs (xm_Machine deleted_machine))) as [[He|[n He]]|[Ho|Hw]]; [..|exact Hw].
  - rewrite deletion_effects in He. discriminate He.
  - rewrite deletion_effects in He. discriminate He.
  - destruct Ho as (c & x & _ & _ & _ & _ & _ & He). rewrite deletion_effects in He. discriminate He.
Defined.

(** A Machine without labels: writing the one with its host panics. *)
Example nil_labels_panic :
  (machine_run there (set_xm_Machine (Some (mkMachine (mkObjectMeta "machine-1" "default" "uid-2" None [] [] None) "" (Some "bootstrap") "v1.34.0" "Machine"))
    new_machine)).2.1 = Stop Panics.
Proof. vm_compute. reflexivity. Qed.
End examples.

End MachineController.
