(* ===== verification/Webhooks.v ===== *)
(** [internal/webhooks], of the objects of the govmomi mode: what the API server
    lets a user create and change, and what is filled in. *)
From S2P Require Import Prelude GoStrings GoNet Types Libs Errors Prog World RefLibs MachineUtil VimMachine.
From stdpp Require Import relations.
From Stdlib Require Import Ascii.

Module Webhooks.
Import VimMachine.
#[local] Open Scope Z_scope.

#[export] Instance VSphereVMSpec_eq_dec : EqDecision VSphereVMSpec.
Proof. solve_decision. Defined.
#[export] Instance VSphereMachineSpec_eq_dec : EqDecision VSphereMachineSpec.
Proof. solve_decision. Defined.

(** * Field errors *)

(** The value an error is about. *)
Inductive BadValue :=
| BadText (s : string)
| BadNumber (n : Z)
| BadDevice (d : PCIDeviceSpec)
| BadTemplate (name : string) (spec : VSphereMachineSpec).
(** [field.Error]. *)
Inductive FieldError :=
| Invalid (path : string) (value : BadValue) (detail : string)
| Forbidden (path detail : string)
| Required (path detail : string).

(** [AggregateObjErrors]: nothing, or an API error that the object of that name is
    invalid. *)
Definition AggregateObjErrors (name : string) (allErrs : list FieldError) : option (string * list FieldError) :=
  match allErrs with [] => None | _ => Some (name, allErrs) end.
Definition admission := option (string * list FieldError).

(** * What the validations share *)

Definition invalid_addr (i j : nat) (ip : string) : list FieldError :=
  match parse_cidr ip with
  | Some _ => []
  | None => [Invalid (sprintf "spec.network.devices[%d].ipAddrs[%d]" [AZ (Z.of_nat i); AZ (Z.of_nat j)]) (BadText ip)
               "ip addresses should be in the CIDR format"]
  end.
Definition validate_addrs (devices : list NetworkDeviceSpec) : list FieldError :=
  concat (imap (fun i device => concat (imap (invalid_addr i) (nd_IPAddrs device))) devices).

(** A timeout of the soft power-off, which only the mode trySoft has. *)
Definition validate_timeout (path : string) (timeout : Z) (powerOffMode : string) : list FieldError :=
  if negb (timeout =? 0) && negb (String.eqb powerOffMode VirtualMachinePowerOpModeTrySoft)
  then [Invalid path (BadNumber timeout) "should not be set in templates unless the powerOffMode is trySoft"]
  else [].

Definition pci_valid (device : PCIDeviceSpec) : bool :=
  match pci_VGPUProfile device, pci_DeviceID device, pci_VendorID device with
  | EmptyString, Some _, Some _ => true
  | String _ _, None, None => true
  | _, _, _ => false
  end.
Definition validatePCIDevices (devices : list PCIDeviceSpec) : list FieldError :=
  concat (imap (fun i device =>
    if pci_valid device then []
    else [Invalid (sprintf "spec.template.spec.pciDevices[%d]" [AZ (Z.of_nat i)]) (BadDevice device)
            "should have either deviceId + vendorId or vGPUProfile set"]) devices).

(** * VSphereVM *)

Definition VSphereVM_Default (vm : VSphereVM) : VSphereVM :=
  if String.eqb (cs_OS (vs_VirtualMachineCloneSpec (vm_Spec vm))) "" then on_clone (set_cs_OS Linux) vm else vm.

Definition VSphereVM_ValidateCreate (vm : VSphereVM) : admission :=
  let spec := vm_Spec vm in
  let name := om_Name (vm_ObjectMeta vm) in
  AggregateObjErrors name
    (validate_addrs (ns_Devices (cs_Network (vs_VirtualMachineCloneSpec spec))) ++
     (if String.eqb (cs_OS (vs_VirtualMachineCloneSpec spec)) Windows && (15 <? slen name)
      then [Invalid "name" (BadText name) "name has to be less than 16 characters for Windows VM"] else []) ++
     validate_timeout "spec.guestSoftPowerOffTimeout" (vs_GuestSoftPowerOffTimeoutSeconds spec) (vs_PowerOffMode spec))%list.

(** An update is compared as maps of the keys of JSON, without some keys. A key is
    there when its field is not empty, so that taking a key away is the same as
    setting its field to zero, and two specs have the same maps when they have the
    same fields, up to a map of custom keys that is empty or nil. *)
Definition as_json (cs : VirtualMachineCloneSpec) : VirtualMachineCloneSpec :=
  if bool_decide (cs_CustomVMXKeys cs = Some ∅) then set_cs_CustomVMXKeys None cs else cs.
Definition without_devices (cs : VirtualMachineCloneSpec) : VirtualMachineCloneSpec := on_devices (fun _ => []) (as_json cs).

Definition vm_spec_without_keys (os biosUUID : bool) (spec : VSphereVMSpec) : VSphereVMSpec :=
  let cs := without_devices (set_cs_Thumbprint "" (vs_VirtualMachineCloneSpec spec)) in
  mkVSphereVMSpec (if os then set_cs_OS "" cs else cs) (mkVSphereVMBootstrapReference "")
    (if biosUUID then "" else vs_BiosUUID spec) "" 0.

(** The network of a spec is taken to be there as a map: whether the converter
    writes it, when it is the zero value, is up to the library. *)
Section unstructured.
Context (network_written : NetworkSpec -> bool).

Definition networks_written (old new : VirtualMachineCloneSpec) : bool :=
  network_written (cs_Network old) && network_written (cs_Network new).

Definition VSphereVM_ValidateUpdate (old new : VSphereVM) : res admission :=
  let spec := vm_Spec new in
  let oldSpec := vm_Spec old in
  let os := String.eqb (cs_OS (vs_VirtualMachineCloneSpec oldSpec)) "" in
  let biosUUID := String.eqb (vs_BiosUUID oldSpec) "" in
  if negb (networks_written (vs_VirtualMachineCloneSpec oldSpec) (vs_VirtualMachineCloneSpec spec)) then Stop Panics
  else
    Ok (AggregateObjErrors (om_Name (vm_ObjectMeta new))
          (validate_timeout "spec.guestSoftPowerOffTimeout" (vs_GuestSoftPowerOffTimeoutSeconds spec) (vs_PowerOffMode spec) ++
           (if bool_decide (vm_spec_without_keys os biosUUID oldSpec = vm_spec_without_keys os biosUUID spec) then []
            else [Forbidden "spec" "cannot be modified"]))%list).

(** * VSphereMachine *)

Definition VSphereMachine_Default (m : VSphereMachine) : VSphereMachine :=
  let cs := ps_VirtualMachineCloneSpec (p_Spec m) in
  if String.eqb (cs_Datacenter cs) "" then
    set_p_Spec (mkVSphereMachineSpec (set_cs_Datacenter "*" cs) (ps_ProviderID (p_Spec m)) (ps_PowerOffMode (p_Spec m))
                  (ps_GuestSoftPowerOffTimeoutSeconds (p_Spec m)) (ps_Naming (p_Spec m))) m
  else m.

Definition VSphereMachine_ValidateCreate (m : VSphereMachine) : admission :=
  let spec := p_Spec m in
  AggregateObjErrors (om_Name (p_ObjectMeta m))
    (validate_addrs (ns_Devices (cs_Network (ps_VirtualMachineCloneSpec spec))) ++
     validate_timeout "spec.guestSoftPowerOffTimeout" (ps_GuestSoftPowerOffTimeoutSeconds spec) (ps_PowerOffMode spec) ++
     validatePCIDevices (cs_PciDevices (ps_VirtualMachineCloneSpec spec)))%list.

Definition machine_spec_without_keys (spec : VSphereMachineSpec) : VSphereMachineSpec :=
  mkVSphereMachineSpec (without_devices (ps_VirtualMachineCloneSpec spec)) "" "" 0 (ps_Naming spec).

Definition VSphereMachine_ValidateUpdate (old new : VSphereMachine) : res admission :=
  let spec := p_Spec new in
  if negb (networks_written (ps_VirtualMachineCloneSpec (p_Spec old)) (ps_VirtualMachineCloneSpec spec)) then Stop Panics
  else
    Ok (AggregateObjErrors (om_Name (p_ObjectMeta new))
          (validate_timeout "spec.guestSoftPowerOffTimeout" (ps_GuestSoftPowerOffTimeoutSeconds spec) (ps_PowerOffMode spec) ++
           validate_addrs (ns_Devices (cs_Network (ps_VirtualMachineCloneSpec spec))) ++
           (if bool_decide (machine_spec_without_keys (p_Spec old) = machine_spec_without_keys spec) then []
            else [Forbidden "spec" "cannot be modified"]))%list).
End unstructured.

(** * VSphereMachineTemplate

    What matters of a template is its name and the spec of its machines. Specs are
    compared by their fields: slices and quantities that differ only in how they
    are represented are the same here. Whether the request is a dry run of the topology controller is up to the library;
    there is no request when the context lacks one. *)

Definition machineTemplateImmutableMsg : string :=
  "VSphereMachineTemplate spec.template.spec field is immutable. Please create a new resource instead.".

(** The regular expression [^vmx-[1-9][0-9]?$]. *)
Definition is_hardware_version (s : string) : bool :=
  has_prefix s "vmx-" &&
  match drop_str 4 s with
  | String d s' =>
      is_digit d && negb (Ascii.eqb d "0") &&
      match s' with
      | EmptyString => true
      | String d' EmptyString => is_digit d'
      | _ => false
      end
  | EmptyString => false
  end.

Definition VSphereMachineTemplate_Default (dryRun : option bool) (spec : VSphereMachineSpec) : res VSphereMachineSpec :=
  match dryRun with
  | None => Err (ENew "expected an admission.Request inside context")
  | Some dryRun =>
      Ok (if dryRun && String.eqb (ps_PowerOffMode spec) ""
          then mkVSphereMachineSpec (ps_VirtualMachineCloneSpec spec) (ps_ProviderID spec) VirtualMachinePowerOpModeHard
                 (ps_GuestSoftPowerOffTimeoutSeconds spec) (ps_Naming spec)
          else spec)
  end.

Section templates.
Context `{Libs} (execute : string -> string -> res string) (IsDNS1123Subdomain : string -> list string).

Definition naming_path : string := "spec.template.spec.namingStrategy.template".

Definition validateVSphereVMNamingTemplate (naming : VSphereVMNamingSpec) : res (list FieldError) :=
  if String.eqb (nm_Template naming) "" then Ok []
  else
    match GenerateVSphereVMName execute "machine" naming with
    | Stop w => Stop w
    | Err err => Ok [Invalid naming_path (BadText (nm_Template naming))
                       (sprintf "invalid VSphereVM name template: %v" [AS (error_string err)])]
    | Ok name => Ok (map (fun err => Invalid naming_path (BadText (nm_Template naming))
        (sprintf "invalid VSphereVM name template, generated name is not a valid Kubernetes object name: %v" [AS err]))
        (IsDNS1123Subdomain name))
    end.

Definition VSphereMachineTemplate_ValidateCreate (name : string) (spec : VSphereMachineSpec) : res admission :=
  let cs := ps_VirtualMachineCloneSpec spec in
  res_bind (validateVSphereVMNamingTemplate (ps_Naming spec)) (fun templateErrs =>
  Ok (AggregateObjErrors name
    ((if negb (String.eqb (ps_ProviderID spec) "")
      then [Forbidden "spec.template.spec.providerID" "cannot be set in templates"] else []) ++
     omap (fun device => if negb (bool_decide (nd_IPAddrs device = []))
             then Some (Forbidden "spec.template.spec.network.devices.ipAddrs" "cannot be set in templates") else None)
       (ns_Devices (cs_Network cs)) ++
     (if negb (String.eqb (cs_HardwareVersion cs) "") && negb (is_hardware_version (cs_HardwareVersion cs))
      then [Invalid "spec.template.spec.hardwareVersion" (BadText (cs_HardwareVersion cs))
              "should be a valid VM hardware version, example vmx-17"] else []) ++
     validate_timeout "spec.template.spec.guestSoftPowerOffTimeout" (ps_GuestSoftPowerOffTimeoutSeconds spec) (ps_PowerOffMode spec) ++
     validatePCIDevices (cs_PciDevices cs) ++ templateErrs)%list)).

Definition VSphereMachineTemplate_ValidateUpdate (dryRun : option bool) (name : string) (old new : VSphereMachineSpec) : res admission :=
  match dryRun with
  | None => Err (ENew "expected a admission.Request inside context")
  | Some dryRun =>
      res_bind (validateVSphereVMNamingTemplate (ps_Naming new)) (fun templateErrs =>
      Ok (AggregateObjErrors name
        ((if negb dryRun && negb (bool_decide (new = old))
          then [Invalid "spec.template.spec" (BadTemplate name new) machineTemplateImmutableMsg] else []) ++ templateErrs)%list))
  end.
End templates.

(** * The other objects *)

Definition VSphereFailureDomain_ValidateCreate (d : VSphereFailureDomain) : admission :=
  let topology := fs_Topology (vf_Spec d) in
  let region := fd_Type (fs_Region (vf_Spec d)) in
  let zone := fd_Type (fs_Zone (vf_Spec d)) in
  let check (b : bool) (e : FieldError) := if b then [e] else [] in
  AggregateObjErrors (om_Name (vf_ObjectMeta d))
    (check (String.eqb (tp_ComputeCluster topology) "" && FailureDomainHosts_IsDefined (tp_Hosts topology))
       (Forbidden "spec.Topology.ComputeCluster" "cannot be empty if Hosts is not empty") ++
     check (String.eqb region HostGroupFailureDomain)
       (Forbidden "spec.Region.Type" (sprintf "region's Failure Domain type cannot be %s" [AS region])) ++
     check (String.eqb zone HostGroupFailureDomain && negb (FailureDomainHosts_IsDefined (tp_Hosts topology)))
       (Forbidden "spec.Topology.Hosts" (sprintf "cannot be nil if zone's Failure Domain type is %s" [AS zone])) ++
     check (String.eqb region ComputeClusterFailureDomain && String.eqb (tp_ComputeCluster topology) "")
       (Forbidden "spec.Topology.ComputeCluster" (sprintf "cannot be nil if region's Failure Domain type is %s" [AS region])) ++
     check (String.eqb zone ComputeClusterFailureDomain && String.eqb (tp_ComputeCluster topology) "")
       (Forbidden "spec.Topology.ComputeCluster" (sprintf "cannot be nil if zone's Failure Domain type is %s" [AS zone])) ++
     check (negb (zlen (tp_NetworkConfigurations topology) =? 0) && negb (zlen (tp_Networks topology) =? 0))
       (Forbidden "spec.topology.networks" "cannot be set if spec.topology.networkConfigurations is already set") ++
     concat (imap (fun i nc => check (String.eqb (nc_NetworkName nc) "")
       (Required (sprintf "spec.topology.networkConfigurations[%d].networkName" [AZ (Z.of_nat i)]) "cannot be empty"))
       (tp_NetworkConfigurations topology)))%list.

Definition VSphereFailureDomain_ValidateUpdate (old new : VSphereFailureDomainSpec) : option FieldError :=
  if bool_decide (new = old) then None else Some (Forbidden "spec" "VSphereFailureDomainSpec is immutable").

Definition VSphereDeploymentZone_Default (spec : VSphereDeploymentZoneSpec) : VSphereDeploymentZoneSpec :=
  match dz_ControlPlane spec with
  | Some _ => spec
  | None => mkVSphereDeploymentZoneSpec (dz_Server spec) (dz_FailureDomain spec) (Some true) (dz_PlacementConstraint spec)
  end.

Definition VSphereClusterTemplate_ValidateUpdate (old new : VSphereClusterSpec) : option FieldError :=
  if bool_decide (new = old) then None else Some (Forbidden "spec.template.spec" "VSphereClusterTemplate spec is immutable").

(** * Lemmas *)

Lemma concat_imap_nil {A B} (f : nat -> A -> list B) l :
  concat (imap f l) = [] <-> forall i x, l !! i = Some x -> f i x = [].
Proof.
  revert f. induction l as [|y l IH]; intros f; [done|]. cbn [imap concat]. split.
  - intros [Hy Hl]%app_nil. intros [|i] x; [by intros [= <-]|]. exact (proj1 (IH _) Hl i x).
  - intros Hall. rewrite (Hall 0%nat y eq_refl). apply IH. intros i x Hx. exact (Hall (S i) x Hx).
Qed.

(** Every address of every device is in the CIDR notation. *)
Lemma validate_addrs_nil devices :
  validate_addrs devices = [] <-> forall d ip, d ∈ devices -> ip ∈ nd_IPAddrs d -> parse_cidr ip <> None.
Proof.
  unfold validate_addrs. rewrite concat_imap_nil. setoid_rewrite concat_imap_nil. unfold invalid_addr. split.
  - intros Hall d ip [i Hi]%list_elem_of_lookup [j Hj]%list_elem_of_lookup. specialize (Hall _ _ Hi _ _ Hj).
    by destruct (parse_cidr ip).
  - intros Hall i d Hi j ip Hj. destruct (parse_cidr ip) eqn:E; [done|]. exfalso.
    apply (Hall d ip); [by eapply list_elem_of_lookup_2..|exact E].
Qed.

Lemma validate_timeout_nil path timeout mode :
  validate_timeout path timeout mode = [] <-> timeout = 0 \/ mode = VirtualMachinePowerOpModeTrySoft.
Proof.
  unfold validate_timeout. destruct (Z.eqb_spec timeout 0) as [Ht|Ht]; cbn [negb andb]; [tauto|].
  destruct (String.eqb_spec mode VirtualMachinePowerOpModeTrySoft) as [Hm|Hm]; cbn [negb]; [tauto|].
  split; [done|]. intros [?|?]; contradiction.
Qed.

Lemma AggregateObjErrors_none name errs : AggregateObjErrors name errs = None <-> errs = [].
Proof. by destruct errs. Qed.

Lemma errors_nil {A} (P : Prop) `{Decision P} (l1 l2 : list A) :
  (if bool_decide P then l1 else l2) = [] <-> (P /\ l1 = []) \/ (~ P /\ l2 = []).
Proof. case_bool_decide; tauto. Qed.

Section updates.
Context (network_written : NetworkSpec -> bool).

(** ** Updates of a VSphereVM *)

(** What nobody may change. *)
Definition vm_frozen (spec : VSphereVMSpec) : VSphereVMSpec := vm_spec_without_keys true true spec.

Lemma without_devices_fields cs :
  cs_OS (without_devices cs) = cs_OS cs /\ cs_Server (without_devices cs) = cs_Server cs /\
  cs_Datacenter (without_devices cs) = cs_Datacenter cs.
Proof. unfold without_devices, as_json. by case_bool_decide. Qed.

Lemma vm_frozen_idem os biosUUID spec : vm_frozen (vm_spec_without_keys os biosUUID spec) = vm_frozen spec.
Proof.
  unfold vm_frozen, vm_spec_without_keys, without_devices, as_json.
  destruct os; cbn; destruct (bool_decide (cs_CustomVMXKeys (vs_VirtualMachineCloneSpec spec) = Some ∅)) eqn:Hk; cbn; by rewrite ?Hk.
Qed.

Definition vm_accepted (old new : VSphereVM) : Prop := VSphereVM_ValidateUpdate network_written old new = Ok None.

Lemma vm_accepted_spec old new : vm_accepted old new <->
  networks_written network_written (vs_VirtualMachineCloneSpec (vm_Spec old)) (vs_VirtualMachineCloneSpec (vm_Spec new)) = true /\
  (vs_GuestSoftPowerOffTimeoutSeconds (vm_Spec new) = 0 \/ vs_PowerOffMode (vm_Spec new) = VirtualMachinePowerOpModeTrySoft) /\
  vm_spec_without_keys (String.eqb (cs_OS (vs_VirtualMachineCloneSpec (vm_Spec old))) "") (String.eqb (vs_BiosUUID (vm_Spec old)) "") (vm_Spec old) =
  vm_spec_without_keys (String.eqb (cs_OS (vs_VirtualMachineCloneSpec (vm_Spec old))) "") (String.eqb (vs_BiosUUID (vm_Spec old)) "") (vm_Spec new).
Proof.
  unfold vm_accepted, VSphereVM_ValidateUpdate. cbn zeta. destruct (networks_written _ _ _); cbn [negb]; [|by split; [|intros [? _]]].
  rewrite <-(validate_timeout_nil "spec.guestSoftPowerOffTimeout"). case_bool_decide as Hs; rewrite ?app_nil_r; split.
  - intros E. injection E as He%AggregateObjErrors_none. tauto.
  - intros (_ & He & _). by rewrite He.
  - destruct (validate_timeout _ _ _); discriminate.
  - intros (_ & _ & ?). contradiction.
Qed.

Lemma vm_accepted_keeps old new : vm_accepted old new ->
  vm_frozen (vm_Spec new) = vm_frozen (vm_Spec old) /\
  (vs_BiosUUID (vm_Spec old) <> "" -> vs_BiosUUID (vm_Spec new) = vs_BiosUUID (vm_Spec old)) /\
  (cs_OS (vs_VirtualMachineCloneSpec (vm_Spec old)) <> "" ->
     cs_OS (vs_VirtualMachineCloneSpec (vm_Spec new)) = cs_OS (vs_VirtualMachineCloneSpec (vm_Spec old))).
Proof.
  rewrite vm_accepted_spec. intros (_ & _ & E). split.
  - apply (f_equal vm_frozen) in E. by rewrite !vm_frozen_idem in E.
  - split; intros Hne.
    + apply (f_equal vs_BiosUUID) in E. cbn in E. by rewrite (proj2 (String.eqb_neq _ _) Hne) in E.
    + apply (f_equal (fun s => cs_OS (vs_VirtualMachineCloneSpec s))) in E.
      cbn [vm_spec_without_keys vs_VirtualMachineCloneSpec] in E. rewrite (proj2 (String.eqb_neq _ _) Hne) in E.
      by rewrite !(proj1 (without_devices_fields _)) in E.
Qed.

(** The clone specs of a VM that was not changed but for its thumbprint, its
    operating system, its network devices, and whether custom keys that are not
    there are an empty map. *)
Definition same_clone (a b : VirtualMachineCloneSpec) : Prop :=
  cs_Template b = cs_Template a /\ cs_CloneMode b = cs_CloneMode a /\
  cs_Snapshot b = cs_Snapshot a /\ cs_Server b = cs_Server a /\ cs_Datacenter b = cs_Datacenter a /\
  cs_Folder b = cs_Folder a /\ cs_Datastore b = cs_Datastore a /\
  cs_StoragePolicyName b = cs_StoragePolicyName a /\ cs_ResourcePool b = cs_ResourcePool a /\
  cs_NumCPUs b = cs_NumCPUs a /\ cs_NumCoresPerSocket b = cs_NumCoresPerSocket a /\
  cs_Resources b = cs_Resources a /\ cs_MemoryMiB b = cs_MemoryMiB a /\
  cs_DiskGiB b = cs_DiskGiB a /\ cs_AdditionalDisksGiB b = cs_AdditionalDisksGiB a /\
  cs_TagIDs b = cs_TagIDs a /\ cs_PciDevices b = cs_PciDevices a /\
  cs_HardwareVersion b = cs_HardwareVersion a /\ cs_DataDisks b = cs_DataDisks a /\
  cs_NestedHV b = cs_NestedHV a /\ cs_FtEncryptionMode b = cs_FtEncryptionMode a /\
  cs_MigrateEncryption b = cs_MigrateEncryption a /\ cs_CryptoKeyID b = cs_CryptoKeyID a /\
  cs_CryptoProfile b = cs_CryptoProfile a /\
  ns_Routes (cs_Network b) = ns_Routes (cs_Network a) /\
  default ∅ (cs_CustomVMXKeys b) = default ∅ (cs_CustomVMXKeys a).

Lemma frozen_same old new : vm_frozen new = vm_frozen old ->
  same_clone (vs_VirtualMachineCloneSpec old) (vs_VirtualMachineCloneSpec new).
Proof.
  unfold vm_frozen, vm_spec_without_keys. cbn zeta. intros Hf%(f_equal vs_VirtualMachineCloneSpec). cbn in Hf.
  unfold without_devices, as_json in Hf. cbn [cs_CustomVMXKeys set_cs_Thumbprint] in Hf.
  unfold same_clone. destruct old as [[] ? ? ? ?], new as [[] ? ? ? ?]. cbn in *.
  case_bool_decide as H1; case_bool_decide as H2; cbn in Hf; injection Hf; intros; subst; split_and!; try done; cbn in *; congruence.
Qed.

(** C31: what a VSphereVM is made from is for ever. Over any sequence of updates that
    the API server accepts, everything in its specification but the bootstrap
    reference, the thumbprint, the devices and the power-off settings stays as it
    was, except that an operating system and a BIOS UUID may be given once; and
    after the first update a power-off timeout goes with the mode trySoft. *)
Theorem VSphereVM_updates_frozen old new :
  rtc vm_accepted old new ->
  same_clone (vs_VirtualMachineCloneSpec (vm_Spec old)) (vs_VirtualMachineCloneSpec (vm_Spec new)) /\
  (vs_BiosUUID (vm_Spec old) <> "" -> vs_BiosUUID (vm_Spec new) = vs_BiosUUID (vm_Spec old)) /\
  (cs_OS (vs_VirtualMachineCloneSpec (vm_Spec old)) <> "" ->
     cs_OS (vs_VirtualMachineCloneSpec (vm_Spec new)) = cs_OS (vs_VirtualMachineCloneSpec (vm_Spec old))) /\
  (old = new \/ vs_GuestSoftPowerOffTimeoutSeconds (vm_Spec new) = 0 \/
     vs_PowerOffMode (vm_Spec new) = VirtualMachinePowerOpModeTrySoft).
Proof.
  intros Hr. assert (Hf : vm_frozen (vm_Spec new) = vm_frozen (vm_Spec old) /\
    (vs_BiosUUID (vm_Spec old) <> "" -> vs_BiosUUID (vm_Spec new) = vs_BiosUUID (vm_Spec old)) /\
    (cs_OS (vs_VirtualMachineCloneSpec (vm_Spec old)) <> "" ->
       cs_OS (vs_VirtualMachineCloneSpec (vm_Spec new)) = cs_OS (vs_VirtualMachineCloneSpec (vm_Spec old))) /\
    (old = new \/ vs_GuestSoftPowerOffTimeoutSeconds (vm_Spec new) = 0 \/
       vs_PowerOffMode (vm_Spec new) = VirtualMachinePowerOpModeTrySoft)).
  { induction Hr as [|x y z Hxy _ (IHf & IHb & IHo & IHt)]; [by split_and!; [..|left]|].
    destruct (vm_accepted_keeps _ _ Hxy) as (Hf & Hb & Ho). split; [congruence|]. split; [|split].
    - intros Hx. specialize (Hb Hx). rewrite <-Hb. apply IHb. by rewrite Hb.
    - intros Hx. specialize (Ho Hx). rewrite <-Ho. apply IHo. by rewrite Ho.
    - right. destruct IHt as [->|IHt]; [|exact IHt]. apply vm_accepted_spec in Hxy. tauto. }
  destruct Hf as [Hf Hrest]. split; [by apply frozen_same|exact Hrest].
Qed.

(** A VM is never moved. *)
Lemma VSphereVM_not_moved old new :
  cs_Server (vs_VirtualMachineCloneSpec (vm_Spec new)) <> cs_Server (vs_VirtualMachineCloneSpec (vm_Spec old)) \/
  cs_Datacenter (vs_VirtualMachineCloneSpec (vm_Spec new)) <> cs_Datacenter (vs_VirtualMachineCloneSpec (vm_Spec old)) ->
  ~ vm_accepted old new.
Proof.
  intros Hm [Hf _]%vm_accepted_keeps.
  apply (f_equal vs_VirtualMachineCloneSpec) in Hf. cbn [vm_frozen vm_spec_without_keys vs_VirtualMachineCloneSpec] in Hf.
  destruct (without_devices_fields (set_cs_Thumbprint "" (vs_VirtualMachineCloneSpec (vm_Spec new)))) as (_ & Hs & Hd).
  destruct (without_devices_fields (set_cs_Thumbprint "" (vs_VirtualMachineCloneSpec (vm_Spec old)))) as (_ & Hs' & Hd').
  pose proof (f_equal cs_Server Hf) as H1. pose proof (f_equal cs_Datacenter Hf) as H2. cbn [set_cs_OS cs_Server cs_Datacenter] in H1, H2.
  rewrite Hs, Hs' in H1. rewrite Hd, Hd' in H2. cbn [set_cs_Thumbprint cs_Server cs_Datacenter] in H1, H2. tauto.
Qed.

(** ** Updates of a VSphereMachine *)

(** An update of a VSphereMachine is accepted if and only if it changes nothing of
    the specification but the provider ID, the power-off settings and the devices,
    the addresses of the devices are in the CIDR notation, and a power-off timeout
    comes with the mode trySoft. *)
Theorem VSphereMachine_ValidateUpdate_decides old new :
  networks_written network_written (ps_VirtualMachineCloneSpec (p_Spec old)) (ps_VirtualMachineCloneSpec (p_Spec new)) = true ->
  VSphereMachine_ValidateUpdate network_written old new = Ok None <->
  without_devices (ps_VirtualMachineCloneSpec (p_Spec new)) = without_devices (ps_VirtualMachineCloneSpec (p_Spec old)) /\
  ps_Naming (p_Spec new) = ps_Naming (p_Spec old) /\
  (forall d ip, d ∈ ns_Devices (cs_Network (ps_VirtualMachineCloneSpec (p_Spec new))) -> ip ∈ nd_IPAddrs d -> parse_cidr ip <> None) /\
  (ps_GuestSoftPowerOffTimeoutSeconds (p_Spec new) = 0 \/ ps_PowerOffMode (p_Spec new) = VirtualMachinePowerOpModeTrySoft).
Proof.
  intros Hw. unfold VSphereMachine_ValidateUpdate. cbn zeta. rewrite Hw. cbn [negb].
  rewrite <-(validate_timeout_nil "spec.guestSoftPowerOffTimeout"), <-validate_addrs_nil.
  assert (Hs : machine_spec_without_keys (p_Spec old) = machine_spec_without_keys (p_Spec new) <->
    without_devices (ps_VirtualMachineCloneSpec (p_Spec new)) = without_devices (ps_VirtualMachineCloneSpec (p_Spec old)) /\
    ps_Naming (p_Spec new) = ps_Naming (p_Spec old)).
  { unfold machine_spec_without_keys. split; [intros E; split; congruence|by intros [-> ->]]. }
  split.
  - intros E. injection E as [Ht [Ha He]%app_nil]%AggregateObjErrors_none%app_nil.
    case_bool_decide as Hd; [|discriminate]. apply Hs in Hd. tauto.
  - intros (H1 & H2 & Ha & Ht). rewrite Ht, Ha, bool_decide_true by tauto. done.
Qed.
(** ** The VSphereMachines there are

    Those that were created, with their defaults, and then updated, with their
    defaults, each time as the API server accepts it. *)
Inductive stored : VSphereMachine -> Prop :=
| stored_created m :
    VSphereMachine_ValidateCreate (VSphereMachine_Default m) = None -> stored (VSphereMachine_Default m)
| stored_updated old new :
    stored old ->
    VSphereMachine_ValidateUpdate network_written old (VSphereMachine_Default new) = Ok None ->
    stored (VSphereMachine_Default new).

Definition machine_well_formed (m : VSphereMachine) : Prop :=
  let cs := ps_VirtualMachineCloneSpec (p_Spec m) in
  cs_Datacenter cs <> "" /\
  (forall d ip, d ∈ ns_Devices (cs_Network cs) -> ip ∈ nd_IPAddrs d -> parse_cidr ip <> None) /\
  (ps_GuestSoftPowerOffTimeoutSeconds (p_Spec m) = 0 \/ ps_PowerOffMode (p_Spec m) = VirtualMachinePowerOpModeTrySoft) /\
  (forall d, d ∈ cs_PciDevices cs ->
     pci_VGPUProfile d <> "" /\ pci_DeviceID d = None /\ pci_VendorID d = None \/
     pci_VGPUProfile d = "" /\ pci_DeviceID d <> None /\ pci_VendorID d <> None).

Lemma pci_valid_spec d : pci_valid d = true <->
  pci_VGPUProfile d <> "" /\ pci_DeviceID d = None /\ pci_VendorID d = None \/
  pci_VGPUProfile d = "" /\ pci_DeviceID d <> None /\ pci_VendorID d <> None.
Proof.
  unfold pci_valid. destruct d as [[] [] [] ?]; cbn; split.
  all: try (intros [(? & ? & ?)|(? & ? & ?)]; congruence).
  all: intros E; first [discriminate E|left; by split_and!|right; by split_and!].
Qed.

Lemma Default_datacenter m : cs_Datacenter (ps_VirtualMachineCloneSpec (p_Spec (VSphereMachine_Default m))) <> "".
Proof. unfold VSphereMachine_Default. cbn zeta. by destruct (String.eqb_spec (cs_Datacenter (ps_VirtualMachineCloneSpec (p_Spec m))) ""). Qed.

Lemma validatePCIDevices_nil devices : validatePCIDevices devices = [] <-> forall d, d ∈ devices -> pci_valid d = true.
Proof.
  unfold validatePCIDevices. rewrite concat_imap_nil. split.
  - intros Hall d [i Hi]%list_elem_of_lookup. specialize (Hall _ _ Hi). by destruct (pci_valid d).
  - intros Hall i d Hi. by rewrite (Hall d) by (by eapply list_elem_of_lookup_2).
Qed.

Lemma without_devices_pci cs : cs_PciDevices (without_devices cs) = cs_PciDevices cs.
Proof. unfold without_devices, as_json. by case_bool_decide. Qed.

(** C32: every VSphereMachine that the API server stores is well formed. Whatever the
    updates it went through, it has a datacenter, the addresses of its devices are
    in the CIDR notation, a power-off timeout comes with the mode trySoft, and each
    of its PCI devices is either a virtual GPU or given by its vendor and its
    device. *)
Theorem stored_well_formed m : stored m -> machine_well_formed m.
Proof.
  unfold machine_well_formed. cbn zeta. induction 1 as [m Hc|old new _ (_ & _ & _ & Hpci) Hu].
  - unfold VSphereMachine_ValidateCreate in Hc. cbn zeta in Hc.
    apply AggregateObjErrors_none, app_nil in Hc as [Ha [Ht Hp]%app_nil].
    split; [apply Default_datacenter|]. split; [by apply validate_addrs_nil|]. split; [by eapply validate_timeout_nil|].
    intros d Hd. apply pci_valid_spec. by apply (proj1 (validatePCIDevices_nil _) Hp).
  - assert (Hw : networks_written network_written (ps_VirtualMachineCloneSpec (p_Spec old))
      (ps_VirtualMachineCloneSpec (p_Spec (VSphereMachine_Default new))) = true).
    { unfold VSphereMachine_ValidateUpdate in Hu. cbn zeta in Hu. by destruct (networks_written _ _ _). }
    apply (VSphereMachine_ValidateUpdate_decides _ _ Hw) in Hu as (Hcs & _ & Ha & Ht).
    split; [apply Default_datacenter|]. split; [exact Ha|]. split; [exact Ht|].
    apply (f_equal cs_PciDevices) in Hcs. rewrite !without_devices_pci in Hcs. by rewrite Hcs.
Qed.
End updates.

(** ** Failure domains *)

(** A failure domain is accepted when its region is not a group of hosts, groups of
    hosts are named where they are needed and with their compute cluster, a region
    or a zone that is a compute cluster names it, and the networks are given in
    one of the two ways, by name. *)
Theorem VSphereFailureDomain_ValidateCreate_decides d :
  let topology := fs_Topology (vf_Spec d) in
  VSphereFailureDomain_ValidateCreate d = None <->
  fd_Type (fs_Region (vf_Spec d)) <> HostGroupFailureDomain /\
  (FailureDomainHosts_IsDefined (tp_Hosts topology) = true \/
   fd_Type (fs_Region (vf_Spec d)) = ComputeClusterFailureDomain \/ fd_Type (fs_Zone (vf_Spec d)) = ComputeClusterFailureDomain ->
   tp_ComputeCluster topology <> "") /\
  (fd_Type (fs_Zone (vf_Spec d)) = HostGroupFailureDomain -> FailureDomainHosts_IsDefined (tp_Hosts topology) = true) /\
  (tp_NetworkConfigurations topology = [] \/ tp_Networks topology = []) /\
  (forall nc, nc ∈ tp_NetworkConfigurations topology -> nc_NetworkName nc <> "").
Proof.
  cbn zeta. unfold VSphereFailureDomain_ValidateCreate. cbn zeta. rewrite AggregateObjErrors_none.
  assert (Hc : forall (b : bool) (e : FieldError), (if b then [e] else []) = [] <-> b = false) by (by intros [|]).
  assert (Ha : forall l1 l2 : list FieldError, (l1 ++ l2)%list = [] <-> l1 = [] /\ l2 = []).
  { intros l1 l2. split; [apply app_nil|]. by intros [-> ->]. }
  rewrite !Ha, concat_imap_nil, !Hc. setoid_rewrite Hc.
  rewrite !andb_false_iff, !negb_false_iff, !String.eqb_neq, !Z.eqb_eq.
  assert (Hz : forall A (l : list A), zlen l = 0 <-> l = []) by (by intros A [|x l]; [done|]; unfold zlen; cbn [length]; split; [intros ?; exfalso; lia|done]).
  rewrite !Hz. setoid_rewrite String.eqb_neq.
  assert (Hn : (forall i nc, tp_NetworkConfigurations (fs_Topology (vf_Spec d)) !! i = Some nc -> nc_NetworkName nc <> "") <->
    forall nc, nc ∈ tp_NetworkConfigurations (fs_Topology (vf_Spec d)) -> nc_NetworkName nc <> "").
  { split; [intros Hall nc [i Hi]%list_elem_of_lookup; by eapply Hall|].
    intros Hall i nc Hi. eapply Hall. by eapply list_elem_of_lookup_2. }
  rewrite Hn. clear.
  assert (Hb : FailureDomainHosts_IsDefined (tp_Hosts (fs_Topology (vf_Spec d))) = false <->
    ~ FailureDomainHosts_IsDefined (tp_Hosts (fs_Topology (vf_Spec d))) = true) by (by destruct (FailureDomainHosts_IsDefined _)).
  rewrite Hb. clear Hb.
  set (hosts := FailureDomainHosts_IsDefined _ = true). set (regionCluster := fd_Type (fs_Region _) = ComputeClusterFailureDomain).
  set (zoneCluster := fd_Type (fs_Zone _) = ComputeClusterFailureDomain). set (zoneHosts := fd_Type (fs_Zone _) = HostGroupFailureDomain).
  assert (D0 : hosts \/ ~ hosts) by (destruct (decide hosts); tauto).
  assert (D1 : regionCluster \/ ~ regionCluster) by (destruct (decide regionCluster); tauto).
  assert (D2 : zoneCluster \/ ~ zoneCluster) by (destruct (decide zoneCluster); tauto).
  assert (D3 : zoneHosts \/ ~ zoneHosts) by (destruct (decide zoneHosts); tauto).
  assert (D4 : tp_ComputeCluster (fs_Topology (vf_Spec d)) = "" \/ tp_ComputeCluster (fs_Topology (vf_Spec d)) <> "")
    by (destruct (decide (tp_ComputeCluster (fs_Topology (vf_Spec d)) = "")); tauto).
  clearbody hosts regionCluster zoneCluster zoneHosts.
  split.
  - intros (H1 & H2 & H3 & H4 & H5 & H6 & H7). split_and!; [exact H2| |clear -H3; tauto|exact H6|exact H7]. clear -H1 H4 H5. tauto.
  - intros (H1 & H2 & H3 & H6 & H7). split_and!; [|exact H1|clear -H3 D3; tauto| | |exact H6|exact H7]; clear H1 H3 H6 H7; tauto.
Qed.

(** ** Hardware versions

    A version that a template may have is one the clone can read, from 1 to 99. *)
Lemma is_digit_in c : is_digit c = true -> c ∈ (["0"; "1"; "2"; "3"; "4"; "5"; "6"; "7"; "8"; "9"]%char : list ascii).
Proof. intros Hc. apply list_elem_of_In. destruct c as [[] [] [] [] [] [] [] []]; try discriminate Hc; cbn; tauto. Qed.

Theorem is_hardware_version_parses s :
  is_hardware_version s = true -> exists n, MachineUtil.ParseHardwareVersion s = Ok n /\ 1 <= n <= 99.
Proof.
  unfold is_hardware_version, MachineUtil.ParseHardwareVersion, trim_prefix. intros [Hp Hs]%andb_prop. rewrite Hp.
  change (String.length "vmx-") with 4%nat. destruct (drop_str 4 s) as [|d s']; [discriminate Hs|].
  apply andb_prop in Hs as [[Hd H0]%andb_prop Hs]. apply is_digit_in in Hd.
  destruct s' as [|d' [|? ?]]; [| |discriminate Hs].
  - repeat (apply elem_of_cons in Hd as [->|Hd]; [first [discriminate H0|by eexists]|]). by apply not_elem_of_nil in Hd.
  - apply is_digit_in in Hs.
    repeat (apply elem_of_cons in Hd as [->|Hd]; [first [discriminate H0|
      repeat (apply elem_of_cons in Hs as [->|Hs]; [by eexists|]); by apply not_elem_of_nil in Hs]|]).
    by apply not_elem_of_nil in Hd.
Qed.

(** * Concrete inputs *)

Section examples.
Import RefLibs.

(** A converter that leaves out a network that is the zero value. *)
Definition written (network : NetworkSpec) : bool := negb (bool_decide (network = mkNetworkSpec [] [])).

Definition sample_device (ips : list string) : NetworkDeviceSpec :=
  mkNetworkDeviceSpec "nic" "" None None "" "" ips None "" [] [] [] [] None None None.
Definition sample_spec (ips : list string) (datacenter : string) : VirtualMachineCloneSpec :=
  set_cs_OS Linux (set_cs_Datacenter datacenter (on_devices (fun _ => [sample_device ips]) VirtualMachineCloneSpec_zero)).
Definition sample_VSphereVM (biosUUID thumbprint : string) (ips : list string) : VSphereVM :=
  set_vm_Spec (mkVSphereVMSpec (set_cs_Thumbprint thumbprint (sample_spec ips "dc0")) (mkVSphereVMBootstrapReference "") biosUUID "" 0)
    (new_vm "default" "vm-1").

(** A VM gets its BIOS UUID, and then a thumbprint and another address. *)
Lemma VSphereVM_updates_frozen_witness :
  rtc (vm_accepted written) (sample_VSphereVM "" "" []) (sample_VSphereVM "uuid-1" "AA" ["10.0.0.7/24"]) /\
  same_clone (vs_VirtualMachineCloneSpec (vm_Spec (sample_VSphereVM "" "" [])))
    (vs_VirtualMachineCloneSpec (vm_Spec (sample_VSphereVM "uuid-1" "AA" ["10.0.0.7/24"]))).
Proof.
  assert (Hr : rtc (vm_accepted written) (sample_VSphereVM "" "" []) (sample_VSphereVM "uuid-1" "AA" ["10.0.0.7/24"])).
  { apply (rtc_l _ _ (sample_VSphereVM "uuid-1" "" [])); [vm_compute; reflexivity|]. apply rtc_once. vm_compute. reflexivity. }
  split; [exact Hr|]. exact (proj1 (VSphereVM_updates_frozen written _ _ Hr)).
Defined.

Definition a_machine (ips : list string) (timeout : Z) (mode : string) : VSphereMachine :=
  mkVSphereMachine "" (mkObjectMeta "machine-1" "default" "uid-1" None [] [] None)
    (mkVSphereMachineSpec (sample_spec ips "dc0") "" mode timeout (mkVSphereVMNamingSpec ""))
    (mkVSphereMachineStatus [] None [] [] None).
Lemma VSphereMachine_ValidateUpdate_decides_witness :
  VSphereMachine_ValidateUpdate written (a_machine [] 0 "") (a_machine ["10.0.0.7/24"] 60 "trySoft") = Ok None.
Proof.
  apply (proj2 (VSphereMachine_ValidateUpdate_decides written (a_machine [] 0 "") (a_machine ["10.0.0.7/24"] 60 "trySoft") eq_refl)).
  split; [vm_compute; reflexivity|]. split; [reflexivity|]. split; [|right; reflexivity].
  cbn. intros d ip ->%list_elem_of_singleton ->%list_elem_of_singleton. vm_compute. discriminate.
Defined.

(** A machine that was created without a datacenter, and got an address. *)
Lemma stored_well_formed_witness :
  let m := VSphereMachine_Default (a_machine ["10.0.0.7/24"] 60 "trySoft") in stored written m /\ machine_well_formed m.
Proof.
  assert (Hs : stored written (VSphereMachine_Default (a_machine ["10.0.0.7/24"] 60 "trySoft"))).
  { apply (stored_updated written (VSphereMachine_Default (a_machine [] 0 ""))); [apply stored_created; vm_compute; reflexivity|..];
      vm_compute; reflexivity. }
  split; [exact Hs|]. exact (stored_well_formed written _ Hs).
Defined.

(** The addresses of a VSphereVM are looked at when it is created only. *)
Example vm_update_any_address :
  (VSphereVM_ValidateCreate (sample_VSphereVM "" "" ["10.0.0.7"]) <> None) /\
  vm_accepted written (sample_VSphereVM "" "" []) (sample_VSphereVM "" "" ["10.0.0.7"]).
Proof. split; [vm_compute; discriminate|vm_compute; reflexivity]. Qed.

(** A machine of a failure domain whose zone could not be read when its VM was
    made: what is written once the zone can be read is refused, so that the VM
    stays where it is. *)
Definition zone_answer (vm : option VSphereVM) (X : Type) (e : Ev X) (w : RefWorld) : X * RefWorld :=
  match e in Ev Y return Y * RefWorld with
  | GetVSphereDeploymentZone name =>
      (match vm with
       | Some _ => Ok (mkVSphereDeploymentZone (mkObjectMeta name "" "uid-4" None [] [] None)
                         (mkVSphereDeploymentZoneSpec "vcenter" "fd-1" None (mkPlacementConstraint "" "")) None [] [])
       | None => Err (ELib OtherLibError "timeout")
       end, w)
  | GetVSphereFailureDomain name =>
      (Ok (mkVSphereFailureDomain (mkObjectMeta name "" "uid-5" None [] [] None)
             (mkVSphereFailureDomainSpec (mkFailureDomain "" "" "") (mkFailureDomain "" "" "")
                (mkTopology "dc1" "" (mkFailureDomainHosts "" "") [] [] ""))), w)
  | FetchOrNewVSphereVM new => (Ok (default new vm), w)
  | e => ref_answer _ e w
  end.
Definition placed_vm (vm : option VSphereVM) : option VSphereVM :=
  head (written_vms (exec (zone_answer vm) (create (sample_VIMMachineContext "" "zone-1" None)) empty_world).1).

Example misplaced_vm_stays :
  exists vm1 vm2, placed_vm None = Some vm1 /\ placed_vm (Some vm1) = Some vm2 /\
    cs_Datacenter (vs_VirtualMachineCloneSpec (vm_Spec vm1)) = "" /\
    cs_Datacenter (vs_VirtualMachineCloneSpec (vm_Spec vm2)) = "dc1" /\
    VSphereVM_ValidateUpdate (fun _ => true) vm1 vm2 = Ok (Some ("machine-1", [Forbidden "spec" "cannot be modified"])).
Proof.
  eexists _, _. split; [vm_compute; reflexivity|]. split; [vm_compute; reflexivity|].
  split; [reflexivity|]. split; [reflexivity|]. vm_compute. reflexivity.
Qed.
Lemma is_hardware_version_parses_witness : exists n, MachineUtil.ParseHardwareVersion "vmx-17" = Ok n /\ 1 <= n <= 99.
Proof. apply (is_hardware_version_parses "vmx-17"). vm_compute. reflexivity. Defined.
End examples.

End Webhooks.
