(* ===== verification/VMService.v ===== *)
(** [pkg/services/govmomi/service.go] with [storageprofile_util.go]: the steps
    that bring a VM to its desired state, [ReconcileVM] and [DestroyVM]. *)
From S2P Require Import Prelude GoStrings GoBase64 Types Libs Errors Prog World Extra.
From S2P Require Import MachineUtil Metadata NetStatus Ipam VMUtil Power Clone Pci Cluster.

Import VMUtil.

Module VMService.

Definition guestInfoKeyMetadata : string := "guestinfo.metadata".
(** [time.Second * 20]. *)
Definition SoftPowerOffRequeue : Z := 20 * 1000000000.

Definition isStoragePolicyIDPresent (storageProfileID : string) (result : PbmQueryProfileResult) : bool :=
  existsb (String.eqb storageProfileID) (pq_ProfileId result).

(** The disks by their storage id [<vm>:<key>], and the ids in order. *)
Fixpoint disk_map (vm : MoRef) (disks : list VirtualDevice) (m : gmap string VirtualDevice)
    : gmap string VirtualDevice :=
  match disks with
  | [] => m
  | d :: disks' => disk_map vm disks' (<[sprintf "%s:%d" [AS (mo_Value vm); AZ (de_Key d)] := d]> m)
  end.
Definition disk_ids (vm : MoRef) (disks : list VirtualDevice) : list string :=
  map (fun d => sprintf "%s:%d" [AS (mo_Value vm); AZ (de_Key d)]) disks.

(** The edits for the disks that lack the policy. *)
Fixpoint policy_changes (storageProfileID : string) (diskMap : gmap string VirtualDevice)
    (diskObjects : list PbmQueryProfileResult) (changes : list DeviceChange) : list DeviceChange :=
  match diskObjects with
  | [] => changes
  | o :: os =>
      if negb (isStoragePolicyIDPresent storageProfileID o) then
        let config := match diskMap !! pq_ObjectKey o with
                      | Some d => EditDevice d (Some storageProfileID)
                      | None => EditNoDevice (Some storageProfileID)
                      end in
        policy_changes storageProfileID diskMap os (changes ++ [config])%list
      else policy_changes storageProfileID diskMap os changes
  end.

(** The value of the metadata key, the last one that is a string. *)
Definition metadata_value (extraConfig : list ExtraOption) : string :=
  fold_left (fun v ec =>
    if String.eqb (eo_Key ec) guestInfoKeyMetadata
    then match eo_Value ec with Some s => s | None => v end else v) extraConfig "".

Section service.
Context `{Libs} {Gm : Govmomi}.
Open Scope go_scope.

(** The conditions of a provisioning that did not succeed. *)
Definition not_provisioned (v1beta1Reason severity : string) (err : error) : MV unit :=
  mark_false VMProvisionedV1Beta1Condition v1beta1Reason severity (sprintf "%v" [AS (error_string err)]) ;;
  set_condition (cond VSphereVMVirtualMachineProvisionedCondition ConditionFalse NotProvisionedReason
                   (error_string err)).

(** ** Steps *)

Definition reconcileUUID (ref : MoRef) : MV unit :=
  uuid <- ask (VMUUID ref) ;;
  on_state (set_v_BiosUUID uuid).

Definition reconcileHardwareVersion (ref : MoRef) : MV bool :=
  c <- get ;;
  let vm := cx_VSphereVM c in
  let version := cs_HardwareVersion (vm_clone vm) in
  if negb (String.eqb version "") then
    config <- wrap (sprintf "error getting guestInfo version information from VM %s" [AS (vm_Name vm)])
                (call_res (VMConfigVersion ref)) ;;
    current <- of_res (or_panic config) ;;
    toUpgrade <- wrap "failed to parse hardware version" (of_res (MachineUtil.LessThan current version)) ;;
    if (toUpgrade : bool) then
      task <- wrap (sprintf "error trigging upgrade op for machine %s" [AS (VMContext_String c)])
                (call_res (VMUpgrade ref version)) ;;
      set_TaskRef task ;;
      ret false
    else ret true
  else ret true.

Definition PCIDevicesRemovedMessage : string := "PCI devices removed after VM was powered on".

Definition reconcilePCIDevices (ref : MoRef) : MV unit :=
  c <- get ;;
  let expectedPciDevices := cs_PciDevices (vm_clone (cx_VSphereVM c)) in
  if negb (zlen expectedPciDevices =? 0) then
    specsToBeAdded <- Pci.CalculateDevicesToBeAdded ref expectedPciDevices ;;
    if zlen specsToBeAdded =? 0 then
      vm <- getVM ;;
      if conditions_Has (GetConditions vm) VSphereVMPCIDevicesDetachedCondition then
        v1beta1_delete PCIDevicesDetachedV1Beta1Condition ;;
        delete_condition VSphereVMPCIDevicesDetachedCondition
      else ret tt
    else
      powerState <- call_res (VMPowerState ref) ;;
      if String.eqb powerState "poweredOn" then
        mark_false PCIDevicesDetachedV1Beta1Condition NotFoundV1Beta1Reason SeverityWarning
          PCIDevicesRemovedMessage ;;
        set_condition (cond VSphereVMPCIDevicesDetachedCondition ConditionFalse
                         VSphereVMPCIDevicesDetachedNotFoundReason PCIDevicesRemovedMessage) ;;
        fail (ENew "missing PCI devices")
      else
        devices <- of_res (Pci.ConstructDeviceSpecs specsToBeAdded) ;;
        wrap (sprintf "error adding pci devices for %q" [AS (VMContext_String c)])
          (call_res (VMAddDevice ref devices))
  else ret tt.

Definition reconcileNetworkStatus (ref : MoRef) : MV unit :=
  netStatus <- NetStatus.getNetworkStatus ref ;;
  on_state (set_v_Network netStatus).

Definition reconcileIPAddresses : MV bool :=
  network <- gets (fun c => v_Network (cx_State c)) ;;
  r <- try (Ipam.BuildState network) ;;
  match r with
  | inr err =>
      if negb (error_is err ErrWaitingForIPAddr) then fail err
      else
        mark_false VMProvisionedV1Beta1Condition WaitingForIPAddressV1Beta1Reason SeverityInfo
          (sprintf "%v" [AS (error_string err)]) ;;
        set_condition (cond VSphereVMVirtualMachineProvisionedCondition ConditionFalse
                         VSphereVMVirtualMachineWaitingForIPAddressReason (error_string err)) ;;
        ret false
  | inl ipamState =>
      modify (set_cx_IPAMState ipamState) ;;
      ret true
  end.

Definition getMetadata (ref : MoRef) : MV string :=
  c <- get ;;
  config <- wrap (sprintf "unable to fetch props %v for vm %s"
                    [AL ["config.extraConfig"]; AS (VMContext_String c)])
              (call_res (VMExtraConfig ref)) ;;
  match config with
  | None => ret ""
  | Some extraConfig =>
      let metadataBase64 := metadata_value extraConfig in
      if String.eqb metadataBase64 "" then ret ""
      else
        match b64_decode metadataBase64 with
        | Some metadataBuf => ret metadataBuf
        | None => fail (EWrap (sprintf "unable to decode metadata for %s" [AS (VMContext_String c)])
                          (ELib OtherLibError (base64_error_text metadataBase64)))
        end
  end.

Definition setMetadata (ref : MoRef) (metadata : string) : MV string :=
  c <- get ;;
  extraConfig <- of_res (or_diverge (Extra.SetCloudInitMetadata (S (String.length metadata)) [] metadata)) ;;
  wrap (sprintf "unable to set metadata on vm %s" [AS (VMContext_String c)])
    (call_res (VMReconfigure ref (ReconfigureExtraConfig (Clone.pairs extraConfig)))).

Definition reconcileMetadata (ref : MoRef) : MV bool :=
  existingMetadata <- getMetadata ref ;;
  c <- get ;;
  let newMetadata := Metadata.GetMachineMetadata (vm_Name (cx_VSphereVM c)) (cx_VSphereVM c)
                       (cx_IPAMState c) (v_Network (cx_State c)) in
  if String.eqb newMetadata existingMetadata then ret true
  else
    taskRef <- wrap (sprintf "unable to set metadata on vm %s" [AS (VMContext_String c)])
                 (setMetadata ref newMetadata) ;;
    set_TaskRef taskRef ;;
    ret false.

Definition reconcileStoragePolicy (ref : MoRef) : MV unit :=
  c <- get ;;
  let name := cs_StoragePolicyName (vm_clone (cx_VSphereVM c)) in
  if String.eqb name "" then ret tt
  else
    powerState <- Power.getPowerState ref ;;
    if String.eqb powerState VirtualMachinePowerStatePoweredOn then ret tt
    else
      wrap "unable to create pbm client" (call_res PbmNewClient) ;;
      storageProfileID <- wrap "unable to retrieve storage profile ID" (call_res (PbmProfileIDByName name)) ;;
      devices <- call_res (VMDevice ref) ;;
      let disks := SelectDisks devices in
      diskObjects <- wrap "unable to query disks associated profiles"
                       (call_res (PbmQueryAssociatedProfiles (disk_ids ref disks))) ;;
      let changes := policy_changes storageProfileID (disk_map ref disks ∅) diskObjects [] in
      if 0 <? zlen changes then
        task <- wrap (sprintf "unable to set storagePolicy on vm %s" [AS (VMContext_String c)])
                  (call_res (VMReconfigure ref (ReconfigureStoragePolicy storageProfileID changes))) ;;
        set_TaskRef task
      else ret tt.

Definition reconcileVMGroupInfo (ref : MoRef) : MV bool :=
  c <- get ;;
  match cx_VSphereFailureDomain c with
  | None => ret true
  | Some fd =>
      let topology := fs_Topology (vf_Spec fd) in
      let group := fh_VMGroupName (tp_Hosts topology) in
      if negb (FailureDomainHosts_IsDefined (tp_Hosts topology)) then ret true
      else
        vmGroup <- wrap (sprintf "unable to find VM Group %s" [AS group])
                     (Cluster.FindVMGroup (tp_ComputeCluster topology) group) ;;
        if negb (Cluster.VMGroup_HasVM vmGroup ref) then
          task <- wrap (sprintf "failed to add VM %s to VM group" [AS (vm_Name (cx_VSphereVM c))])
                    (Cluster.VMGroup_Add vmGroup ref) ;;
          set_TaskRef task ;;
          ret false
        else ret true
  end.

Definition reconcileClusterModuleMembership (ref : MoRef) : MV unit :=
  info <- gets cx_ClusterModuleInfo ;;
  match info with
  | Some moduleUUID =>
      Cluster.AddMoRefToModule moduleUUID ref ;;
      on_vm (on_status (set_vt_ModuleUUID (Some moduleUUID)))
  | None => ret tt
  end.

Definition reconcilePowerState (ref : MoRef) : MV bool :=
  powerState <- Power.getPowerState ref ;;
  c <- get ;;
  if String.eqb powerState VirtualMachinePowerStatePoweredOff then
    r <- try (call_res (VMPowerOn ref)) ;;
    match r with
    | inr err =>
        not_provisioned PoweringOnFailedV1Beta1Reason SeverityWarning err ;;
        fail (EWrap (sprintf "failed to trigger power on op for vm %s" [AS (VMContext_String c)]) err)
    | inl task =>
        mark_false VMProvisionedV1Beta1Condition PoweringOnV1Beta1Reason SeverityInfo "" ;;
        set_condition (cond VSphereVMVirtualMachineProvisionedCondition ConditionFalse
                         VSphereVMVirtualMachinePoweringOnReason "") ;;
        set_TaskRef task ;;
        Patch ;;
        reconcileVSphereVMWhenNetworkIsReady task ;;
        ret false
    end
  else if String.eqb powerState VirtualMachinePowerStatePoweredOn then ret true
  else fail (ENew (sprintf "unexpected power state %q for vm %s" [AS powerState; AS (VMContext_String c)])).

Definition reconcileHostInfo (ref : MoRef) : MV unit :=
  host <- call_res (VMHostSystem ref) ;;
  name <- call_res (HostObjectName host) ;;
  on_vm (on_status (set_vt_Host name)).

Definition reconcileTags (ref : MoRef) : MV unit :=
  vm <- getVM ;;
  let tagIDs := cs_TagIDs (vm_clone vm) in
  if zlen tagIDs =? 0 then ret tt
  else
    wrap (sprintf "failed to attach tags %v to VM %s" [AL tagIDs; AS (vm_Name vm)])
      (call_res (AttachTags tagIDs ref)).

(** The data of a bootstrap secret and its format. *)
Definition getBootstrapData : MV (string * string) :=
  c <- get ;;
  let vm := cx_VSphereVM c in
  let name := br_Name (vs_BootstrapRef (vm_Spec vm)) in
  if String.eqb name "" then ret ("", "")
  else
    secret <- wrap (sprintf "failed to get bootstrap data secret for %s" [AS (VMContext_String c)])
                (call_res (GetSecret (vm_Namespace vm) name)) ;;
    let format := match secret !! "format" with
                  | Some f => if slen f =? 0 then CloudConfig else f
                  | None => CloudConfig
                  end in
    match secret !! "value" with
    | None => fail (ENew "error retrieving bootstrap data: secret value key is missing")
    | Some value => ret (value, format)
    end.

(** ** [ReconcileVM]

    The VM that is returned is the [State] of the context, with or without an
    error. *)

Definition initial_state (vm : VSphereVM) : VirtualMachine :=
  mkVirtualMachine (vm_Name vm) "" VirtualMachineStatePending [] "".

(** Goes on when a step says so, and returns otherwise. *)
Definition and_then (step : MV bool) (k : MV unit) : MV unit :=
  ok <- step ;;
  if ok then k else ret tt.

(** How both [ReconcileVM] and [DestroyVM] begin: the result is initialised; when
    a task is in flight, or that cannot be told, they return; otherwise the event
    for the completion of a task is deferred. *)
Definition unless_in_flight {A} (result : A) (pass : MV A) : MV A :=
  vm <- getVM ;;
  modify (set_cx_State (initial_state vm)) ;;
  inFlight <- reconcileInFlightTask ;;
  if (inFlight : bool) then ret result
  else with_defer reconcileVSphereVMOnTaskCompletion pass.

(** The VM was not found. *)
Definition reconcile_missing (err : error) : MV unit :=
  if negb (isNotFound err) then fail err
  else if wasNotFoundByBIOSUUID err then
    mark_false VMProvisionedV1Beta1Condition NotFoundByBIOSUUIDV1Beta1Reason SeverityWarning
      (sprintf "%v" [AS (error_string err)]) ;;
    set_condition (cond VSphereVMVirtualMachineProvisionedCondition ConditionFalse
                     VSphereVMVirtualMachineNotFoundByBIOSUUIDReason (error_string err)) ;;
    on_state (set_v_State VirtualMachineStateNotFound) ;;
    fail err
  else
    vm <- getVM ;;
    (if negb (conditions_Has (GetConditions vm) VSphereVMVirtualMachineProvisionedCondition) then
       mark_false VMProvisionedV1Beta1Condition CloningV1Beta1Reason SeverityInfo "" ;;
       set_condition (cond VSphereVMVirtualMachineProvisionedCondition ConditionFalse
                        VSphereVMVirtualMachineWaitingForCloneReason "")
     else ret tt) ;;
    r <- try getBootstrapData ;;
    match r with
    | inr err => not_provisioned CloningFailedV1Beta1Reason SeverityWarning err ;; fail err
    | inl data =>
        r <- try (Clone.createVM data.1 data.2) ;;
        match r with
        | inr err => not_provisioned CloningFailedV1Beta1Reason SeverityWarning err ;; fail err
        | inl _ => ret tt
        end
    end.

(** The VM exists. *)
Definition reconcile_found (vmRef : MoRef) : MV unit :=
  modify (set_cx_IPAMState ∅) ;;
  on_state (set_v_VMRef (MoRef_String vmRef)) ;;
  reconcileUUID vmRef ;;
  and_then (reconcileHardwareVersion vmRef) (
  reconcilePCIDevices vmRef ;;
  reconcileNetworkStatus vmRef ;;
  and_then reconcileIPAddresses (
  and_then (reconcileMetadata vmRef) (
  reconcileStoragePolicy vmRef ;;
  and_then (reconcileVMGroupInfo vmRef) (
  reconcileClusterModuleMembership vmRef ;;
  and_then (reconcilePowerState vmRef) (
  reconcileHostInfo vmRef ;;
  r <- try (reconcileTags vmRef) ;;
  match r with
  | inr err => not_provisioned TagsAttachmentFailedV1Beta1Reason SeverityError err ;; fail err
  | inl _ => on_state (set_v_State VirtualMachineStateReady)
  end))))).

Definition reconcile_pass : MV unit :=
  r <- try findVM ;;
  match r with
  | inr err => reconcile_missing err
  | inl vmRef => reconcile_found vmRef
  end.

Definition ReconcileVM : MV unit := unless_in_flight tt reconcile_pass.

(** ** [DestroyVM]

    Returns after how long to come back, when it asks for that. *)

Definition destroy_powered_on (ref : MoRef) : MV (option Z) :=
  softPowerOffPending <- Power.triggerSoftPowerOff ref ;;
  if (softPowerOffPending : bool) then ret (Some SoftPowerOffRequeue)
  else
    task <- call_res (VMPowerOff ref) ;;
    set_TaskRef task ;;
    Patch ;;
    ret None.

Definition leave_module (ref : MoRef) : MV unit :=
  info <- gets cx_ClusterModuleInfo ;;
  match info with
  | Some moduleUUID =>
      r <- try (Cluster.RemoveMoRefFromModule moduleUUID ref) ;;
      match r with
      | inr err =>
          if negb (IsStatusError err Cluster.StatusNotFound) then fail err
          else on_vm (on_status (set_vt_ModuleUUID None))
      | inl _ => on_vm (on_status (set_vt_ModuleUUID None))
      end
  | None => ret tt
  end.

Definition destroy_powered_off (ref : MoRef) : MV (option Z) :=
  vm <- getVM ;;
  (if conditions_Has (GetConditions vm) VSphereVMGuestSoftPowerOffSucceededCondition then
     mark_true GuestSoftPowerOffSucceededV1Beta1Condition ;;
     set_condition (cond VSphereVMGuestSoftPowerOffSucceededCondition ConditionTrue
                      VSphereVMGuestSoftPowerOffSucceededReason "")
   else ret tt) ;;
  leave_module ref ;;
  task <- call_res (VMDestroy ref) ;;
  set_TaskRef task ;;
  ret None.

Definition destroy_found (ref : MoRef) : MV (option Z) :=
  powerState <- Power.getPowerState ref ;;
  if String.eqb powerState VirtualMachinePowerStatePoweredOn then destroy_powered_on ref
  else destroy_powered_off ref.

Definition destroy_pass : MV (option Z) :=
  r <- try findVM ;;
  match r with
  | inr err =>
      if isNotFound err || isFolderNotFound err then
        on_state (set_v_State VirtualMachineStateNotFound) ;;
        ret None
      else fail err
  | inl ref => destroy_found ref
  end.

Definition DestroyVM : MV (option Z) := unless_in_flight None destroy_pass.
End service.

End VMService.
