(* ===== verification/VMPass.v ===== *)
(** What the passes of the VM service have in common: the task in flight, the
    power state, the event that is deferred. *)
From S2P Require Import Prelude GoStrings GoBase64 Types Libs Errors Prog World RefLibs.
From S2P Require Import Extra MachineUtil Metadata NetStatus Ipam VMUtil Power Clone Pci.
From S2P Require Import Cluster VMService.

Import VMUtil VMService.

Module VMPass.

Section lemmas.
Context `{Libs} {Gm : Govmomi}.

Lemma last_app_some {A} (l l' : list A) x : last l' = Some x -> last (l ++ l') = Some x.
Proof. intros Hl. by rewrite last_app, Hl. Qed.

Lemma getPowerState_spec ref c :
  wpm (Power.getPowerState ref) c (fun tr r c' => c' = c /\ effects tr = [] /\
    match r with Ok st => power_states tr = [(ref, st)] | _ => True end).
Proof.
  unfold Power.getPowerState. vm_steps; [|done..].
  destruct (String.eqb_spec a "poweredOn") as [->|_]; [by vm_steps|].
  destruct (String.eqb_spec a "poweredOff") as [->|_]; [by vm_steps|].
  destruct (String.eqb_spec a "suspended") as [->|_]; by vm_steps.
Qed.

(** ** The whole of [ReconcileVM] and [DestroyVM] *)

(** What the deferred function adds to a run. *)
Definition silent (tr : trace) : Prop :=
  power_states tr = [] /\ started_tasks tr = [] /\ (effects tr = [] \/ exists t, effects tr = [WatchesTask t]).

(** When a task is in flight nothing happens; otherwise the pass is made, from a
    context without a task whose result is the initial one. *)
Lemma wpm_unless_in_flight {A} (result : A) (pass : MV A) c (Q : trace -> res A -> VMContext -> Prop) :
  (forall tr r c1, effects tr = [] -> same_object c c1 -> cx_State c1 = initial_state (cx_VSphereVM c) ->
     TaskRef c1 = TaskRef c \/ TaskRef c1 = "" ->
     (forall a, r = Ok a -> a = result /\ exists task, retrieved_tasks tr = [(TaskRef c, Ok task)] /\ awaited task c tr c1) -> Q tr r c1) ->
  (forall tr0 c1, effects tr0 = [] -> same_object c c1 -> cx_State c1 = initial_state (cx_VSphereVM c) ->
     TaskRef c1 = "" ->
     wpm pass c1 (fun tr r c' => forall tr' r', silent tr' -> r' = r \/ (exists w, r' = Stop w) ->
       Q (tr0 ++ tr ++ tr')%list r' c')) ->
  wpm (unless_in_flight result pass) c Q.
Proof.
  intros Hin Hpass. unfold unless_in_flight. do 5 vm_step.
  eapply wpm_mono; [apply reconcileInFlightTask_spec|].
  intros tr r c1 ((Hs & Hst & _) & He & Ht & Hf & Htrue & _). cbn [cx_State set_cx_State] in Hst.
  assert (Hs' : same_object c c1) by (etrans; [|exact Hs]; by repeat split).
  destruct r as [[|]|e|w].
  - vm_step. cbn [app]. rewrite app_nil_r. apply Hin; [done..|]. intros a [= <-]. split; [done|by apply Htrue].
  - apply wpm_with_defer. eapply wpm_mono; [by apply Hpass; auto|].
    intros tr' r c2 HQ. cbn beta in HQ. cbn [app].
    assert (Hd : forall r : res A, (forall tr'' r', silent tr'' -> r' = r \/ (exists w, r' = Stop w) ->
        Q (tr ++ tr' ++ tr'')%list r' c2) ->
      wpm reconcileVSphereVMOnTaskCompletion c2 (fun tr'' r' c3 =>
        Q (tr ++ tr' ++ tr'')%list (match r' with Stop w => Stop w | _ => r end) c3)).
    { intros r0 HQ'. eapply wpm_mono; [apply reconcileVSphereVMOnTaskCompletion_spec|].
      intros tr'' r' c3 (-> & Hp & Hst' & He'). apply HQ'; [done|]. destruct r'; eauto. }
    destruct r as [a|e|[|]]; [by apply Hd..|].
    specialize (HQ [] (Stop Diverges)). rewrite app_nil_r in HQ. apply HQ; [|by left].
    split; [done|]. split; [done|by left].
  - apply Hin; done.
  - apply Hin; done.
Qed.

Lemma silent_effects tr e : silent tr -> e ∈ effects tr -> exists t, e = WatchesTask t.
Proof.
  intros (_ & _ & [He|[t He]]); rewrite He; [by intros ?%elem_of_nil|].
  intros ?%list_elem_of_singleton. by exists t.
Qed.

(** The answers of a run in which a task was in flight. *)
Definition waits_post {A} (result : A) (c : VMContext) (tr : trace) (r : res A) (c' : VMContext) : Prop :=
  forall task, head (retrieved_tasks tr) = Some (TaskRef c, Ok task) -> in_progress task ->
  effects tr = [] /\ c' = set_cx_State (initial_state (cx_VSphereVM c)) c /\ (forall a, r = Ok a -> a = result).

Lemma unless_in_flight_waits {A} (result : A) (pass : MV A) c :
  TaskRef c <> "" -> wpm (unless_in_flight result pass) c (waits_post result c).
Proof.
  intros Hne. unfold unless_in_flight. do 5 vm_step. eapply wpm_mono; [apply reconcileInFlightTask_spec|].
  intros tr r c1 (_ & He & _ & _ & _ & Hret). destruct (Hret Hne) as (a & Ha & Hp). clear Hret.
  assert (Hstop : forall r' : res A, (forall x, r' = Ok x -> x = result) -> waits_post result c tr r' c1).
  { intros r' Hr' task Hh Hin. rewrite Ha in Hh. injection Hh as Hh1. by destruct (Hp task Hh1 Hin) as [-> _]. }
  destruct r as [[|]|e|w]; [| |by apply Hstop..].
  - vm_step. cbn [app]. rewrite app_nil_r. apply Hstop. by intros x [= <-].
  - apply wpm_runs. intros tr' r' c' _ task Hh Hin. exfalso. cbn [app] in Hh.
    rewrite retrieved_tasks_app, Ha in Hh. injection Hh as Hh1. by destruct (Hp task Hh1 Hin).
Qed.

(** ** Properties *)

(** while the task that is recorded is queued or running, neither
    [ReconcileVM] nor [DestroyVM] (two instances of [unless_in_flight]) does
    anything but read: no call changes anything, the VSphereVM is as it was, the
    VM is reported as pending, and the answer is the empty one or, while a failed
    task waits for its retry, an error. *)
Theorem task_in_flight_waits {A} (result : A) (pass : MV A) c tr r c' task :
  TaskRef c <> "" -> runs (unless_in_flight result pass c) tr (r, c') ->
  head (retrieved_tasks tr) = Some (TaskRef c, Ok task) -> in_progress task ->
  effects tr = [] /\ c' = set_cx_State (initial_state (cx_VSphereVM c)) c /\
  (forall a, r = Ok a -> a = result).
Proof.
  intros Hne Hr. exact (proj1 (wpm_runs _ _ _) (unless_in_flight_waits result pass c Hne) tr r c' Hr task).
Qed.
End lemmas.

(** * Concrete inputs *)

Section examples.
Import RefLibs.

Definition sample_running_world : RefWorld :=
  mkRefWorld 0 (Ok None) (Ok (Some vm_ref)) (fun _ => Ok vm_ref)
    (Ok (mkTask "task-7" TaskInfoStateRunning None)) "poweredOff" true None None [] None
    (fun _ => Err (ELib APINotFound "not found")) (fun _ => Err (ELib APINotFound "not found")).
Definition sample_running := run ReconcileVM sample_task_context sample_running_world.

Lemma task_in_flight_waits_witness :
  sample_running.2.1 = Ok tt /\ effects sample_running.1 = [].
Proof.
  split; [vm_compute; reflexivity|].
  refine (proj1 (task_in_flight_waits tt reconcile_pass sample_task_context _ _ _
    (mkTask "task-7" TaskInfoStateRunning None) _ (run_runs ReconcileVM sample_task_context sample_running_world) _ _)).
  - discriminate.
  - vm_compute. reflexivity.
  - right. reflexivity.
Defined.
End examples.

End VMPass.
