(* ===== verification/VMInterface.v ===== *)
(** [services.VirtualMachineService] of [pkg/services/interfaces.go]: what the
    controller of VSphereVMs relies on of the service that manages virtual
    machines, stated without its implementation. *)
From S2P Require Import Prelude GoStrings Types Libs Errors Prog World VMUtil.
Import VMUtil.

Module VMInterface.

(** What reconciling a VM may ask for: never that it is taken down. *)
Definition reconcile_effect (e : effect) : Prop :=
  match e with
  | AddsDevices _ | AddsMember _ _ | AttachesTags _ | Upgrades _ | Reconfigures _ | ChangesGroup _
  | PowersOn _ | WatchesNetwork _ | Patches | Clones _ | GeneratesKey | WatchesTask _ => True
  | _ => False
  end.

(** What taking a VM down may ask for: never that it is made or started. *)
Definition destroy_effect (e : effect) : Prop :=
  match e with
  | PowersOff _ | Destroys _ | ShutsDownGuest _ | RemovesMember _ _ | Patches | WatchesTask _ => True
  | _ => False
  end.

(** No storage policy is asked for. *)
Definition no_policy (c : VMContext) : Prop := cs_StoragePolicyName (vm_clone (cx_VSphereVM c)) = "".

(** vCenter answered that the VM is not there: that there is none with its BIOS UUID,
    when it carries one; or else that there is none with its instance UUID, and none of
    its name in its folder or no such folder. *)
Definition vm_gone (vm : VSphereVM) (tr : trace) : Prop :=
  missing_by_uuid vm tr \/ missing_by_name vm tr \/ missing_with_folder vm tr.

Lemma vm_gone_same c c1 tr : same_object c c1 -> vm_gone (cx_VSphereVM c1) tr -> vm_gone (cx_VSphereVM c) tr.
Proof.
  intros (Hs & Hm & _). unfold vm_gone, missing_by_uuid, missing_by_name, missing_with_folder, vm_UID, vm_Name, vm_clone.
  by rewrite Hs, Hm.
Qed.

Lemma vm_gone_app vm tr0 tr tr' : vm_gone vm tr -> vm_gone vm (tr0 ++ tr ++ tr')%list.
Proof.
  intros [(H1 & H2)|[(H1 & H2 & folder & msg & H3 & H4)|(H1 & H2 & msg & H3)]].
  - left. split; [done|in_trace].
  - right. left. split; [done|]. split; [in_trace|]. exists folder, msg. split; in_trace.
  - right. right. split; [done|]. split; [in_trace|]. exists msg. in_trace.
Qed.

(** What the controller of VSphereVMs writes to the status itself. *)
Definition published (c : VMContext) : option bool * list string * string * list NetworkStatus :=
  let st := vm_Status (cx_VSphereVM c) in (vt_Ready st, vt_Addresses st, vt_VMRef st, vt_Network st).

Section service.
Context `{Libs}.

(** The promise of [ReconcileVM]: the object is not changed but for its status;
    the task that is started, if any, is recorded; a VM that is ready was seen
    powered on. *)
Record reconcile_contract (c : VMContext) (tr : trace) (r : res unit) (c' : VMContext) : Prop := {
  rc_object : same_object c c';
  rc_published : published c' = published c;
  rc_effects : Forall reconcile_effect (effects tr);
  rc_tasks : no_policy c -> started_tasks tr = [] \/ one_task tr c';
  rc_ready : v_State (cx_State c') = VirtualMachineStateReady ->
    exists ref, last (power_states tr) = Some (ref, "poweredOn")
}.

(** The promise of [DestroyVM]: likewise, and a VM that is reported as not found
    was not found; nothing was started then. *)
Record destroy_contract (c : VMContext) (tr : trace) (r : res (option Z)) (c' : VMContext) : Prop := {
  dc_object : same_object c c';
  dc_published : published c' = published c;
  dc_effects : Forall destroy_effect (effects tr);
  dc_tasks : started_tasks tr = [] \/ one_task tr c';
  dc_gone : v_State (cx_State c') = VirtualMachineStateNotFound ->
    started_tasks tr = [] /\ vm_gone (cx_VSphereVM c) tr
}.

(** The VM that is returned is the [State] of the context, next to how long to
    wait, when [DestroyVM] asks for that. *)
Class VirtualMachineService := {
  svc_ReconcileVM : MV unit;
  svc_DestroyVM : MV (option Z);
  svc_ReconcileVM_contract c : wpm svc_ReconcileVM c (reconcile_contract c);
  svc_DestroyVM_contract c : wpm svc_DestroyVM c (destroy_contract c)
}.
End service.

End VMInterface.
