(* ===== verification/ReconcileVM.v ===== *)
(** [ReconcileVM]: what a pass over a VM does, step by step, and the properties
    of the whole. *)
From S2P Require Import Prelude GoStrings GoBase64 Types Libs Errors Prog World RefLibs.
From S2P Require Import Extra MachineUtil Metadata NetStatus Ipam VMUtil Power Clone Pci.
From S2P Require Import Cluster VMService VMPass VMInterface.

Import VMUtil VMService VMPass VMInterface.

Module ReconcileVM.

Section lemmas.
Context `{Libs} {Gm : Govmomi}.

(** What a step leaves: what is desired, what the context was made with and the
    state that is reported. *)
Definition same_view (c c' : VMContext) : Prop :=
  same_object c c' /\ v_State (cx_State c') = v_State (cx_State c).

#[local] Instance same_view_preorder : PreOrder same_view.
Proof.
  split; [done|]. intros c1 c2 c3 [H1 H2] [H3 H4]. split; [by etrans|congruence].
Qed.

(** The changes the steps before the power state may ask for. *)
Definition routine (e : effect) : Prop :=
  match e with
  | AddsDevices _ | AddsMember _ _ | AttachesTags _ | Upgrades _ | Reconfigures _ | ChangesGroup _ => True
  | _ => False
  end.

Lemma no_policy_same c c' : same_view c c' -> no_policy c -> no_policy c'.
Proof. intros [(Hs & _) _]. unfold no_policy, vm_clone. by rewrite Hs. Qed.

(** A step: what it changes outside, and, when no storage policy is asked for,
    that it starts a task at most and none when it says to go on. *)
Definition step {A} (go_on : A -> bool) (m : MV A) : Prop :=
  forall c, wpm m c (fun tr r c' =>
    same_view c c' /\ Forall routine (effects tr) /\
    (no_policy c -> no_task c tr c' \/ one_task tr c' /\ forall a, r = Ok a -> go_on a = false)).

Lemma step_reads {A} g (m : MV A) : reads m -> step g m.
Proof.
  intros Hm c. eapply wpm_mono; [apply Hm|]. intros tr r c' [He ->].
  rewrite He. split_and!; [done|constructor|]. left. split; [by apply quiet_started_tasks|done].
Qed.

Lemma step_bind {A B} (g' : B -> bool) (m : MV A) (k : A -> MV B) :
  reads m -> (forall a, step g' (k a)) -> step g' (bind m k).
Proof.
  intros Hm Hk c. apply wpm_bind. eapply wpm_mono; [apply Hm|].
  intros tr [a|e|w] c' [He ->]; [|by split_and!; [done|rewrite He; constructor|left; split; [apply quiet_started_tasks|]]..].
  eapply wpm_mono; [apply Hk|]. intros tr' r c2 (Hv' & He' & Ht').
  unfold no_task, one_task in *. trace_simpl. done.
Qed.

Lemma step_modify f :
  (forall c, same_view c (f c) /\ TaskRef (f c) = TaskRef c) -> step (fun _ => true) (modify f).
Proof. intros Hf c. apply wpm_modify. destruct (Hf c). split_and!; [done|constructor|]. by left. Qed.

(** Ends a step whose trace and context are explicit. *)
Ltac step_done :=
  unfold no_task, one_task; trace_simpl;
  split; [by repeat split|]; split; [by rewrite ?Forall_cons, ?Forall_nil; simpl|];
  intros ?; first [left; by split | right; split; [by eexists|]; try done; by intros ? [= <-]].

Definition always {A} (_ : A) : bool := true.

Lemma step_UUID ref : step always (reconcileUUID ref).
Proof. intros c. unfold reconcileUUID. vm_steps. step_done. Qed.

Lemma step_HardwareVersion ref : step id (reconcileHardwareVersion ref).
Proof.
  intros c. unfold reconcileHardwareVersion. vm_steps. destruct (negb _); vm_steps.
  all: try step_done.
  destruct a as [v|]; cbn [or_panic]; vm_steps; [|step_done].
  destruct (MachineUtil.LessThan _ _) as [[|]|e|w]; vm_steps; step_done.
Qed.

Lemma step_PCIDevices ref : step always (reconcilePCIDevices ref).
Proof.
  intros c. unfold reconcilePCIDevices. do 2 vm_step. destruct (negb _); [|vm_step; step_done].
  apply wpm_reads_bind; [apply Pci.reads_CalculateDevicesToBeAdded|..].
  1-2: intros tr x Htr; step_done.
  intros tr specs Htr. destruct (zlen specs =? 0).
  - do 2 vm_step. destruct (conditions_Has _ _); vm_steps; step_done.
  - do 2 vm_step; [|step_done..].
    destruct (String.eqb a "poweredOn"); vm_steps; [step_done|].
    destruct (Pci.ConstructDeviceSpecs specs); vm_steps; step_done.
Qed.

Lemma step_NetworkStatus ref : step always (reconcileNetworkStatus ref).
Proof.
  unfold reconcileNetworkStatus. apply step_bind.
  { unfold NetStatus.getNetworkStatus, NetStatus.GetNetworkStatus. solve_reads. }
  intros a. simpl. intros c. vm_step. step_done.
Qed.

Lemma step_IPAddresses : step id reconcileIPAddresses.
Proof.
  intros c. unfold reconcileIPAddresses. do 2 vm_step.
  apply wpm_reads_bind; [apply reads_try, Ipam.reads_BuildState|..].
  1-2: intros tr x Htr; step_done.
  intros tr [st|err] Htr; [vm_steps; step_done|].
  destruct (negb _); vm_steps; step_done.
Qed.

Lemma reads_getMetadata ref : reads (getMetadata ref).
Proof. unfold getMetadata. solve_reads. Qed.

Lemma step_Metadata ref : step id (reconcileMetadata ref).
Proof.
  intros c. unfold reconcileMetadata.
  apply wpm_reads_bind; [apply reads_getMetadata|..].
  1-2: intros tr x Htr; step_done.
  intros tr m Htr. do 2 vm_step. destruct (String.eqb _ m); [vm_step; step_done|].
  unfold setMetadata. vm_steps. destruct (or_diverge _); vm_steps; step_done.
Qed.

Lemma step_StoragePolicy ref : step always (reconcileStoragePolicy ref).
Proof.
  intros c. unfold reconcileStoragePolicy. do 2 vm_step. unfold no_policy.
  destruct (String.eqb_spec (cs_StoragePolicyName (vm_clone (cx_VSphereVM c))) "") as [->|Hne].
  { vm_step. step_done. }
  apply wpm_reads_bind; [unfold Power.getPowerState; solve_reads|..].
  1-2: intros tr x Htr; step_done.
  intros tr st Htr. destruct (String.eqb st _); [vm_step; step_done|].
  vm_steps; try (trace_simpl; split_and!; [by repeat split|by rewrite ?Forall_nil|done]).
  destruct (_ <? _); vm_steps; trace_simpl; rewrite ?Forall_cons, ?Forall_nil; (split; [by repeat split|]);
    (split; [by repeat split|done]).
Qed.

Lemma step_VMGroupInfo ref : step id (reconcileVMGroupInfo ref).
Proof.
  intros c. unfold reconcileVMGroupInfo. do 2 vm_step.
  destruct (cx_VSphereFailureDomain c) as [fd|]; [|vm_step; step_done].
  destruct (negb _); [vm_step; step_done|].
  apply wpm_reads_bind; [apply reads_wrap, Cluster.reads_FindVMGroup|..].
  1-2: intros tr x Htr; step_done.
  intros tr g Htr. destruct (negb _); [|vm_step; step_done].
  unfold Cluster.VMGroup_Add. vm_steps; step_done.
Qed.

Lemma step_ClusterModuleMembership ref : step always (reconcileClusterModuleMembership ref).
Proof.
  intros c. unfold reconcileClusterModuleMembership. do 2 vm_step.
  destruct (cx_ClusterModuleInfo c) as [m|]; [|vm_step; step_done].
  vm_step. eapply wpm_mono; [apply Cluster.AddMoRefToModule_spec|].
  intros tr [u|e|w] c' (-> & Ht & [He|He]); vm_steps; rewrite ?app_nil_r, ?Ht, ?He; step_done.
Qed.
(** ** The power state and what follows it *)

(** The changes that go with powering on. *)
Definition power_effect (e : effect) : Prop :=
  match e with PowersOn _ | Patches | WatchesNetwork _ => True | _ => False end.

Lemma reconcilePowerState_spec ref c :
  wpm (reconcilePowerState ref) c (fun tr r c' =>
    same_view c c' /\ (r = Ok true -> effects tr = [] /\ c' = c /\ power_states tr = [(ref, "poweredOn")]) /\
    Forall power_effect (effects tr) /\ (no_task c tr c' \/ one_task tr c') /\
    (forall vm, PowersOn vm ∈ effects tr -> vm = ref /\ power_states tr = [(ref, "poweredOff")])).
Proof.
  unfold reconcilePowerState. vm_step. eapply wpm_mono; [apply getPowerState_spec|].
  intros tr [st|e|w] c' (-> & He & Hp).
  2-3: rewrite He; unfold no_task; trace_simpl; split_and!; [done..|constructor|by left|by intros ? ?%elem_of_nil].
  do 2 vm_step. unfold no_task, one_task.
  destruct (String.eqb_spec st VirtualMachinePowerStatePoweredOff) as [->|_].
  { unfold not_provisioned, reconcileVSphereVMWhenNetworkIsReady. vm_steps.
    all: trace_simpl; rewrite Hp; (split; [by repeat split|]); (split; [done|]); (split; [by repeat constructor|]).
    all: split; [try (right; by eexists); left; by split|].
    all: intros vm [Hv|Hv]%elem_of_cons; [split; [congruence|done]|].
    all: repeat (apply elem_of_cons in Hv as [[=]|Hv]); by apply elem_of_nil in Hv. }
  destruct (String.eqb_spec st VirtualMachinePowerStatePoweredOn) as [->|_]; vm_steps; trace_simpl.
  all: split_and!; [done..|constructor|by left|by intros ? ?%elem_of_nil].
Qed.

Lemma reconcileHostInfo_spec ref c :
  wpm (reconcileHostInfo ref) c (fun tr r c' =>
    same_view c c' /\ TaskRef c' = TaskRef c /\ effects tr = [] /\ power_states tr = []).
Proof. unfold reconcileHostInfo. vm_steps; by repeat split. Qed.

Lemma reconcileTags_spec ref c :
  wpm (reconcileTags ref) c (fun tr r c' => c' = c /\ started_tasks tr = [] /\
    Forall routine (effects tr) /\ power_states tr = []).
Proof.
  unfold reconcileTags. vm_steps. destruct (_ =? 0); vm_steps; split_and!; try done; by repeat constructor.
Qed.

(** ** The pass over a VM that exists *)

Definition allowed (e : effect) : Prop := routine e \/ power_effect e.

Definition pass_post (ref : MoRef) (c : VMContext) (tr : trace) (r : res unit) (c' : VMContext) : Prop :=
  same_object c c' /\ Forall allowed (effects tr) /\ (no_policy c -> no_task c tr c' \/ one_task tr c') /\
  (v_State (cx_State c') = v_State (cx_State c) \/
   r = Ok tt /\ v_State (cx_State c') = VirtualMachineStateReady /\ (no_policy c -> no_task c tr c') /\
   last (power_states tr) = Some (ref, "poweredOn")) /\
  (forall vm, PowersOn vm ∈ effects tr -> vm = ref /\ last (power_states tr) = Some (ref, "poweredOff")).

Lemma routine_not_power l vm : Forall routine l -> PowersOn vm ∉ l.
Proof. intros Hl Hin. rewrite Forall_forall in Hl. by apply (Hl _ Hin). Qed.

(** A step in front of a pass. *)
Lemma pass_step {A} (g : A -> bool) ref (m : MV A) (k : A -> MV unit) c :
  step g m -> (forall a, if g a then forall c1, wpm (k a) c1 (pass_post ref c1) else k a = ret tt) ->
  wpm (bind m k) c (pass_post ref c).
Proof.
  intros Hm Hk. apply wpm_bind. eapply wpm_mono; [by apply Hm|].
  intros tr r c1 (Hv & He & Ht).
  assert (Hout : forall r : res unit, pass_post ref c tr r c1).
  { intros r'. split; [apply Hv|]. split; [eapply Forall_impl; [exact He|]; by left|].
    split; [tauto|]. split; [left; apply Hv|]. intros vm Hin. by apply routine_not_power in Hin. }
  destruct r as [a|e|w]; [|by apply Hout..].
  specialize (Hk a). destruct (g a) eqn:Hg.
  - assert (Hno : no_policy c -> no_task c tr c1).
    { intros Hp. destruct (Ht Hp) as [?|[_ Ha]]; [done|]. specialize (Ha a eq_refl). congruence. }
    assert (Hpp : no_policy c -> no_policy c1) by (by apply no_policy_same).
    eapply wpm_mono; [apply Hk|].
    intros tr' r c2 (Ho & Ha & Ht' & Hst & Hon). unfold pass_post, no_task, one_task in *. trace_simpl.
    destruct Hv as [Hv1 Hv2]. split; [by etrans|].
    split; [apply Forall_app; split; [eapply Forall_impl; [exact He|]; by left|done]|].
    split; [|split].
    + intros Hp. destruct (Hno Hp) as [Hs Href]. rewrite Hs.
      destruct (Ht' (Hpp Hp)) as [[? ?]|?]; [left; split; [done|congruence]|by right].
    + destruct Hst as [Hst|(-> & Hst & Hn & Hl)]; [left; congruence|right].
      split_and!; [done..| |by apply last_app_some].
      intros Hp. destruct (Hno Hp) as [Hs Href]. rewrite Hs. destruct (Hn (Hpp Hp)). split; [done|congruence].
    + intros vm [Hin|Hin]%elem_of_app; [by apply routine_not_power in Hin|].
      destruct (Hon vm Hin) as [? ?]. split; [done|by apply last_app_some].
  - rewrite Hk. vm_step. rewrite app_nil_r. apply Hout.
Qed.

(** The end of a pass: the power state, the host, the tags. *)
Lemma pass_power ref c :
  wpm (and_then (reconcilePowerState ref) (
    reconcileHostInfo ref ;;
    r <- try (reconcileTags ref) ;;
    match r with
    | inr err => not_provisioned TagsAttachmentFailedV1Beta1Reason SeverityError err ;; fail err
    | inl _ => on_state (set_v_State VirtualMachineStateReady)
    end)%go) c (pass_post ref c).
Proof.
  unfold and_then. vm_step. eapply wpm_mono; [apply reconcilePowerState_spec|].
  intros tr r c1 (Hv & Hok & Ha & Ht & Hon).
  assert (Hout : forall r : res unit, pass_post ref c tr r c1).
  { intros r'. split; [apply Hv|]. split; [eapply Forall_impl; [exact Ha|]; by right|]. split; [done|].
    split; [left; apply Hv|]. intros vm [-> ->]%Hon. done. }
  destruct r as [[|]|e|w]; [|vm_steps; rewrite app_nil_r; apply Hout|by apply Hout..].
  destruct (Hok eq_refl) as (He & -> & Hp). clear Hok Ha Ht Hon Hout.
  vm_step. eapply wpm_mono; [apply reconcileHostInfo_spec|].
  intros trh r c2 (Hv2 & Ht2 & He2 & Hp2).
  assert (Hsc : forall tr' c' (r : res unit), same_view c c' -> no_task c tr' c' -> Forall routine (effects tr') ->
    pass_post ref c tr' r c').
  { intros tr' c' r' [Hs Hv'] Hn Hr. split; [done|]. split; [eapply Forall_impl; [exact Hr|]; by left|].
    split; [by left|]. split; [by left|]. intros vm Hin. by apply routine_not_power in Hin. }
  destruct r as [u|e|w]; [|apply Hsc; unfold no_task; trace_simpl; done..].
  do 2 vm_step. eapply wpm_mono; [apply reconcileTags_spec|].
  intros trt r c3 (-> & Ht3 & Hr3 & Hp3). unfold not_provisioned.
  destruct r as [u'|e|w]; vm_steps.
  - unfold pass_post, no_task. trace_simpl. rewrite Ht3, Hp, Hp2, Hp3. simpl. split_and!.
    + apply Hv2.
    + eapply Forall_impl; [exact Hr3|]. by left.
    + by left.
    + by right.
    + intros vm Hin. by apply routine_not_power in Hin.
  - apply Hsc; unfold no_task; trace_simpl; [etrans; [exact Hv2|by repeat split]|by rewrite Ht3|done].
  - apply Hsc; unfold no_task; trace_simpl; [done|by rewrite Ht3|done].
Qed.

(** The next step of a pass, which always goes on or says whether to. *)
Ltac pass_always lem :=
  apply (pass_step always); [apply lem; by repeat split|]; intros ?; cbn [always]; intros ?.
Ltac pass_if lem :=
  apply (pass_step id); [apply lem|]; intros [|]; cbn [id]; [intros ?|done].

Lemma reconcile_found_spec ref c : wpm (reconcile_found ref) c (pass_post ref c).
Proof.
  unfold reconcile_found.
  pass_always step_modify. pass_always step_modify. pass_always step_UUID.
  pass_if step_HardwareVersion. pass_always step_PCIDevices. pass_always step_NetworkStatus.
  pass_if step_IPAddresses. pass_if step_Metadata. pass_always step_StoragePolicy.
  pass_if step_VMGroupInfo. pass_always step_ClusterModuleMembership.
  apply pass_power.
Qed.
(** ** The pass over a VM that is missing *)

Lemma not_provisioned_spec v1 sev err c :
  wpm (not_provisioned v1 sev err) c (fun tr r c' =>
    r = Ok tt /\ same_but_status c c' /\ TaskRef c' = TaskRef c /\ effects tr = []).
Proof. unfold not_provisioned. vm_steps. by repeat split. Qed.

Lemma reads_getBootstrapData : reads getBootstrapData.
Proof. unfold getBootstrapData. solve_reads. Qed.

(** What a pass over a missing VM does. *)
Definition missing_post (err : error) (c : VMContext) (tr : trace) (r : res unit) (c' : VMContext) : Prop :=
  same_object c c' /\ (no_task c tr c' \/ one_task tr c') /\
  (cx_State c' = cx_State c \/ v_State (cx_State c') = VirtualMachineStateNotFound) /\
  Forall (fun e => e = GeneratesKey \/ e = Patches \/
    e = Clones (vm_Name (cx_VSphereVM c)) /\ isNotFound err = true /\ wasNotFoundByBIOSUUID err = false) (effects tr).

Lemma missing_quiet err c tr r c' :
  same_but_status c c' -> TaskRef c' = TaskRef c -> effects tr = [] -> missing_post err c tr r c'.
Proof.
  intros (Hs & Hst & _) Ht He. split; [done|]. split; [left; split; [by apply quiet_started_tasks|done]|].
  split; [by left|]. by rewrite He.
Qed.

Lemma missing_post_app err c tr r c' tr' r' c'' :
  missing_post err c tr r c' -> same_but_status c' c'' -> TaskRef c'' = TaskRef c' -> effects tr' = [] ->
  missing_post err c (tr ++ tr')%list r' c''.
Proof.
  intros (H1 & H2 & H3 & H4) (Hs & Hst & _) Ht He. unfold missing_post, no_task, one_task in *.
  trace_simpl. rewrite Ht, Hst. split_and!; [by etrans|done..].
Qed.

Lemma createVM_spec data format c : wpm (Clone.createVM data format) c (Clone.clone_post c).
Proof.
  unfold Clone.createVM. do 2 vm_step. destruct (negb _); [|apply Clone.Clone_spec].
  vm_step. by apply Clone.clone_stopped; try constructor.
Qed.

Lemma reconcile_missing_spec err c : wpm (reconcile_missing err) c (missing_post err c).
Proof.
  unfold reconcile_missing. destruct (isNotFound err) eqn:En; cbn [negb]; [|vm_step; by apply missing_quiet].
  destruct (wasNotFoundByBIOSUUID err) eqn:Eb.
  { vm_steps. split; [by repeat split|]. split; [by left|]. split; [by right|done]. }
  do 2 vm_step.
  assert (Hcond : forall tr0 c1 (k : MV unit), same_but_status c c1 -> TaskRef c1 = TaskRef c -> effects tr0 = [] ->
    (forall tr1 c2, same_but_status c c2 -> TaskRef c2 = TaskRef c -> effects tr1 = [] ->
       wpm k c2 (fun tr => missing_post err c (tr1 ++ tr)%list)) ->
    wpm (bind (if negb (conditions_Has (GetConditions (cx_VSphereVM c)) VSphereVMVirtualMachineProvisionedCondition)
               then mark_false VMProvisionedV1Beta1Condition CloningV1Beta1Reason SeverityInfo "" ;;
                    set_condition (cond VSphereVMVirtualMachineProvisionedCondition ConditionFalse
                        VSphereVMVirtualMachineWaitingForCloneReason "")
               else ret tt)%go (fun _ => k)) c1 (fun tr => missing_post err c (tr0 ++ tr)%list)).
  { intros tr0 c1 k Hs Ht He Hk. destruct (negb _); vm_steps.
    - eapply wpm_mono; [apply (Hk (tr0 ++ [Call Now now; Call Now now0])%list)|].
      + etrans; [exact Hs|by repeat split].
      + done.
      + by trace_simpl.
      + intros tr r c' Hm. cbn beta in Hm. rewrite <-app_assoc in Hm. exact Hm.
    - by apply Hk. }
  apply (Hcond []); [done..|]. clear Hcond. intros tr1 c2 Hs Ht He.
  apply wpm_reads_bind; [apply reads_try, reads_getBootstrapData|..].
  1-2: intros; apply missing_quiet; trace_simpl; done.
  intros tr2 [data|e] He2; cbn beta iota.
  - do 2 vm_step. eapply wpm_mono; [apply createVM_spec|].
    intros trc r c3 (Hsc & Hstc & Hc).
    assert (Hpost : forall r' : res unit, missing_post err c (tr1 ++ tr2 ++ trc) r' c3).
    { assert (Hn : vm_Name (cx_VSphereVM c2) = vm_Name (cx_VSphereVM c)).
      { destruct Hs as ((_ & Hm & _) & _). unfold vm_Name. by rewrite Hm. }
      rewrite Hn in Hc. intros r'. split; [etrans; [apply Hs|done]|].
      unfold no_task, one_task, Clone.not_cloned, Clone.cloned in *. trace_simpl.
      split; [|split; [left; destruct Hs as (_ & Hss & _); congruence|]].
      - destruct Hc as [([Hst' Hr'] & _)|[Ho _]]; [left; split; [done|congruence]|by right].
      - destruct Hc as [(_ & _ & Hf)|(_ & trk & tpl & folder & spec & task & x & -> & _ & _ & Hf)].
        + eapply Forall_impl; [exact Hf|]. intros x [-> | ->]; naive_solver.
        + trace_simpl. rewrite Hn. destruct Hf as [-> | ->]; repeat constructor; naive_solver. }
    destruct r as [u|e|w].
    + vm_steps. rewrite app_nil_r. apply Hpost.
    + vm_step. eapply wpm_mono; [apply not_provisioned_spec|].
      intros trn r c4 (-> & Hsn & Htn & Hen). vm_steps. rewrite app_nil_r.
      rewrite !app_assoc. eapply (missing_post_app _ _ _ (Err e)); [|done..]. rewrite <-app_assoc. by apply Hpost.
    + apply Hpost.
  - vm_step. eapply wpm_mono; [apply not_provisioned_spec|].
    intros trn r c4 (-> & Hsn & Htn & Hen). vm_steps.
    apply missing_quiet; [by etrans|congruence|by trace_simpl].
Qed.
Lemma allowed_reconcile e : allowed e -> reconcile_effect e.
Proof. intros [He|He]; by destruct e. Qed.

(** What a run of [ReconcileVM] does. *)
Record reconcile_post (c : VMContext) (tr : trace) (r : res unit) (c' : VMContext) : Prop := {
  rp_object : same_object c c';
  rp_effects : Forall reconcile_effect (effects tr);
  rp_tasks : no_policy c -> started_tasks tr = [] \/ one_task tr c';
  rp_ready : v_State (cx_State c') = VirtualMachineStateReady ->
    (forall e, r <> Err e) /\ (no_policy c -> started_tasks tr = []) /\
    exists ref, last (power_states tr) = Some (ref, "poweredOn");
  rp_power : forall vm, PowersOn vm ∈ effects tr -> last (power_states tr) = Some (vm, "poweredOff");
  rp_clone : forall name, Clones name ∈ effects tr ->
    name = vm_Name (cx_VSphereVM c) /\ missing_by_name (cx_VSphereVM c) tr
}.

Lemma same_vm_missing c c1 tr tr0 tr' :
  same_object c c1 -> missing_by_name (cx_VSphereVM c1) tr ->
  missing_by_name (cx_VSphereVM c) (tr0 ++ tr ++ tr')%list.
Proof.
  intros (Hs & Hm & _). unfold missing_by_name, vm_UID, vm_Name, vm_clone. rewrite Hs, Hm.
  intros (H1 & H2 & folder & msg & H3 & H4). split; [done|]. split; [in_trace|]. exists folder, msg. split; in_trace.
Qed.

Lemma no_policy_same_object c c' : same_object c c' -> no_policy c -> no_policy c'.
Proof. intros (Hs & _). unfold no_policy, vm_clone. by rewrite Hs. Qed.

Lemma reconcile_post_app c c1 tr0 tr tr' r r' c' :
  reconcile_post c1 tr r c' -> effects tr0 = [] -> same_object c c1 -> silent tr' ->
  r' = r \/ (exists w, r' = Stop w) -> reconcile_post c (tr0 ++ tr ++ tr')%list r' c'.
Proof.
  intros [P1 P2 P3 P4 P5 P6] He Hs (Hp & Ht & He') Hr.
  assert (Hq : started_tasks tr0 = []) by (by apply quiet_started_tasks).
  assert (Hef : Forall reconcile_effect (effects tr') /\ (forall vm, PowersOn vm ∉ effects tr') /\
    (forall n, Clones n ∉ effects tr')).
  { destruct He' as [-> | [t ->]].
    - split; [done|]. split; intros ?; apply not_elem_of_nil.
    - split; [by repeat constructor|]. split; intros ? [[=]|Hin]%elem_of_cons; by apply elem_of_nil in Hin. }
  destruct Hef as (Hef & Hon & Hcl). split.
  - by etrans.
  - rewrite !effects_app, He. cbn [app]. by apply Forall_app.
  - intros Hn. unfold one_task in *. rewrite !started_tasks_app, Hq, Ht, app_nil_r. cbn [app].
    apply P3. by eapply no_policy_same_object.
  - intros Hst. destruct (P4 Hst) as (Hne & Hn & ref & Hl). split; [|split].
    + destruct Hr as [-> | [w ->]]; [done|by intros e].
    + intros Hpol. rewrite !started_tasks_app, Hq, Ht, app_nil_r. cbn [app]. apply Hn. by eapply no_policy_same_object.
    + exists ref. rewrite !power_states_app, Hp, app_nil_r. by apply last_app_some.
  - intros vm Hin. rewrite !effects_app, He in Hin. cbn [app] in Hin. apply elem_of_app in Hin as [Hin|Hin]; [|by apply Hon in Hin].
    rewrite !power_states_app, Hp, app_nil_r. by apply last_app_some, P5.
  - intros n Hin. rewrite !effects_app, He in Hin. cbn [app] in Hin. apply elem_of_app in Hin as [Hin|Hin]; [|by apply Hcl in Hin].
    destruct (P6 n Hin) as [-> Hm]. split; [|by eapply same_vm_missing].
    destruct Hs as (_ & Hm' & _). unfold vm_Name. by rewrite Hm'.
Qed.

Lemma reconcile_pass_spec c :
  v_State (cx_State c) = VirtualMachineStatePending -> TaskRef c = "" ->
  wpm reconcile_pass c (reconcile_post c).
Proof.
  intros Hst Href. unfold reconcile_pass. do 2 vm_step. eapply wpm_mono; [apply findVM_spec|].
  intros tr0 r c1 (-> & He0 & Hp0 & Hr).
  destruct r as [ref|e|w]; cbn beta iota.
  - eapply wpm_mono; [apply reconcile_found_spec|]. intros tr r c' (Hs & Ha & Ht & Hs' & Hon).
    assert (He : effects (tr0 ++ tr)%list = effects tr) by (by rewrite effects_app, He0).
    assert (Hsta : started_tasks (tr0 ++ tr)%list = started_tasks tr) by (by trace_simpl).
    assert (Hpow : power_states (tr0 ++ tr)%list = power_states tr) by (by rewrite power_states_app, Hp0).
    split; unfold one_task; rewrite ?He, ?Hsta, ?Hpow.
    + done.
    + eapply Forall_impl; [exact Ha|apply allowed_reconcile].
    + intros Hn. destruct (Ht Hn) as [[? ?]|?]; [by left|by right].
    + intros Hready. destruct Hs' as [Hs'|(-> & _ & Hn & Hl)]; [rewrite Hs', Hst in Hready; discriminate Hready|].
      split; [done|]. split; [intros Hpol; by apply Hn|by exists ref].
    + intros vm Hin. by destruct (Hon vm Hin) as [-> ?].
    + intros n Hin. exfalso. rewrite Forall_forall in Ha. by destruct (Ha _ Hin).
  - eapply wpm_mono; [apply reconcile_missing_spec|]. intros tr r c' (Hs & Ht & Hs' & Ha).
    assert (He : effects (tr0 ++ tr)%list = effects tr) by (by rewrite effects_app, He0).
    assert (Hsta : started_tasks (tr0 ++ tr)%list = started_tasks tr) by (by trace_simpl).
    rewrite Forall_forall in Ha. split; unfold one_task; rewrite ?He, ?Hsta.
    + done.
    + apply Forall_forall. intros x Hin. by destruct (Ha _ Hin) as [-> | [-> | (-> & _)]].
    + intros _. destruct Ht as [[? ?]|?]; [by left|by right].
    + intros Hready. destruct Hs' as [Hs'|Hs']; rewrite Hs' in Hready; [rewrite Hst in Hready|]; discriminate Hready.
    + intros vm Hin. by destruct (Ha _ Hin) as [?|[?|(? & _)]].
    + intros n Hin. destruct (Ha _ Hin) as [?|[?|(Hn & Hnf & Hby)]]; [done..|].
      specialize (proj1 Hr Hnf) as Hr'. rewrite Hby in Hr'.
      split; [congruence|]. apply (same_vm_missing c c tr0 [] tr); done.
  - split; rewrite ?He0; try done.
    + intros _. left. by apply quiet_started_tasks.
    + intros Hready. rewrite Hst in Hready. discriminate Hready.
    + intros vm Hin. by apply elem_of_nil in Hin.
    + intros n Hin. by apply elem_of_nil in Hin.
Qed.

Lemma ReconcileVM_spec c : wpm ReconcileVM c (reconcile_post c).
Proof.
  unfold ReconcileVM. apply wpm_unless_in_flight.
  - intros tr r c1 He Hs Hst Ht Hr. split; rewrite ?He; try done.
    + intros _. left. by apply quiet_started_tasks.
    + rewrite Hst. done.
    + intros vm Hin. by apply elem_of_nil in Hin.
    + intros n Hin. by apply elem_of_nil in Hin.
  - intros tr0 c1 He Hs Hst Ht. eapply wpm_mono; [apply reconcile_pass_spec; [by rewrite Hst|done]|].
    intros tr r c' Hp tr' r' Hsil Hr'. by eapply reconcile_post_app.
Qed.
(** ** The metadata of a VM that is powered on *)

(** The metadata that was read from the VM is what the VSphereVM, the network that
    was reported and the addresses from IPAM ask for. *)
Definition metadata_current (tr : trace) (c : VMContext) : Prop :=
  exists ref config, Call (VMExtraConfig ref) (Ok config) ∈ tr /\
    b64_decode (metadata_value (default [] config)) =
      Some (Metadata.GetMachineMetadata (vm_Name (cx_VSphereVM c)) (cx_VSphereVM c)
              (cx_IPAMState c) (v_Network (cx_State c))).

Definition same_network (c c' : VMContext) : Prop :=
  same_object c c' /\ cx_IPAMState c' = cx_IPAMState c /\ v_Network (cx_State c') = v_Network (cx_State c).

Lemma metadata_current_mono tr tr' c c' :
  metadata_current tr c -> same_network c c' -> metadata_current (tr ++ tr')%list c'.
Proof.
  intros (ref & config & Hin & Hd) ((Hs & Hm & _) & Hi & Hn). exists ref, config. split; [in_trace|].
  rewrite Hd, Hi, Hn. unfold Metadata.GetMachineMetadata, Metadata.metadata_devices, vm_devices, vm_clone, vm_Name.
  by rewrite Hs, Hm.
Qed.

Lemma metadata_current_app tr0 tr c : metadata_current tr c -> metadata_current (tr0 ++ tr)%list c.
Proof. intros (ref & config & Hin & Hd). exists ref, config. split; [in_trace|done]. Qed.

(** Programs that leave the network as it is. *)
Definition keeps_network {A} (m : MV A) : Prop := forall c, wpm m c (fun _ _ c' => same_network c c').

Lemma keeps_network_keeps {A} (m : MV A) : keeps m -> keeps_network m.
Proof. intros Hm c. eapply wpm_mono; [apply Hm|]. intros tr r c' (? & Hst & ?). unfold same_network. by rewrite Hst. Qed.

Lemma keeps_network_bind {A B} (m : MV A) (k : A -> MV B) :
  keeps m -> (forall a, keeps_network (k a)) -> keeps_network (bind m k).
Proof.
  intros Hm Hk c. apply wpm_bind. eapply wpm_mono; [by apply (keeps_network_keeps m)|].
  intros tr [a|e|w] c' (Hs & Hi & Hn); [|done..]. eapply wpm_mono; [apply Hk|].
  intros ? ? c2 (? & ? & ?). split; [by etrans|]. split; congruence.
Qed.

Lemma keeps_network_if {A} (b : bool) (m m' : MV A) :
  keeps_network m -> keeps_network m' -> keeps_network (if b then m else m').
Proof. by destruct b. Qed.

Lemma getMetadata_spec ref c :
  wpm (getMetadata ref) c (fun tr r c' => c' = c /\ effects tr = [] /\
    forall m, r = Ok m -> exists config, Call (VMExtraConfig ref) (Ok config) ∈ tr /\
      b64_decode (metadata_value (default [] config)) = Some m).
Proof.
  unfold getMetadata. vm_steps; [|done..].
  destruct a as [ec|]; [|vm_steps; split_and!; [done..|]; intros m [= <-]; exists None; split; [in_trace|done]].
  destruct (String.eqb_spec (metadata_value ec) "") as [E|_].
  - vm_steps. split_and!; [done..|]. intros m [= <-]. exists (Some ec). split; [in_trace|]. simpl. by rewrite E.
  - destruct (b64_decode (metadata_value ec)) as [d|] eqn:E; vm_steps; split_and!; try done.
    intros m [= <-]. exists (Some ec). split; [in_trace|done].
Qed.

Lemma reconcileMetadata_current ref c :
  wpm (reconcileMetadata ref) c (fun tr r c' => Forall routine (effects tr) /\
    v_State (cx_State c') = v_State (cx_State c) /\ (r = Ok true -> metadata_current tr c')).
Proof.
  unfold reconcileMetadata. vm_step. eapply wpm_mono; [apply getMetadata_spec|].
  intros tr [m|e|w] c' (-> & He & Hm); [|by rewrite He..].
  destruct (Hm m eq_refl) as (config & Hin & Hd). do 2 vm_step.
  destruct (String.eqb_spec (Metadata.GetMachineMetadata (vm_Name (cx_VSphereVM c)) (cx_VSphereVM c) (cx_IPAMState c)
      (v_Network (cx_State c))) m) as [E|_].
  - vm_step. trace_simpl. split_and!; [done..|]. intros _. exists ref, config. split; [in_trace|]. by rewrite Hd, E.
  - unfold setMetadata. vm_steps. destruct (or_diverge _); vm_steps; trace_simpl; split_and!; try done; by repeat constructor.
Qed.

(** The statement of a pass about the metadata. *)
Definition prepared_post (tr : trace) (r : res unit) (c' : VMContext) : Prop :=
  (exists vm, PowersOn vm ∈ effects tr) \/ v_State (cx_State c') = VirtualMachineStateReady ->
  metadata_current tr c'.

Lemma prepared_stop tr r c' :
  Forall routine (effects tr) -> v_State (cx_State c') <> VirtualMachineStateReady -> prepared_post tr r c'.
Proof. intros Hr Hn [[vm Hin]|Hst]; [by apply routine_not_power in Hin|done]. Qed.

Lemma prepared_step {A} (g : A -> bool) (m : MV A) (k : A -> MV unit) c :
  step g m -> v_State (cx_State c) <> VirtualMachineStateReady ->
  (forall a, if g a then forall c1, v_State (cx_State c1) <> VirtualMachineStateReady -> wpm (k a) c1 prepared_post
             else k a = ret tt) ->
  wpm (bind m k) c prepared_post.
Proof.
  intros Hm Hst Hk. apply wpm_bind. eapply wpm_mono; [by apply Hm|].
  intros tr r c1 ([_ Hv] & He & _). rewrite <-Hv in Hst.
  destruct r as [a|e|w]; [|by apply prepared_stop..]. specialize (Hk a). destruct (g a).
  - eapply wpm_mono; [by apply Hk|]. intros tr' r c2 Hp Hor. apply metadata_current_app, Hp.
    destruct Hor as [[vm Hin]|?]; [left; exists vm|by right].
    rewrite effects_app in Hin. apply elem_of_app in Hin as [Hin|Hin]; [by apply routine_not_power in Hin|done].
  - rewrite Hk. vm_step. rewrite app_nil_r. by apply prepared_stop.
Qed.

Lemma keeps_after_metadata ref :
  keeps_network (
    reconcileStoragePolicy ref ;;
    and_then (reconcileVMGroupInfo ref) (
    reconcileClusterModuleMembership ref ;;
    and_then (reconcilePowerState ref) (
    reconcileHostInfo ref ;;
    r <- try (reconcileTags ref) ;;
    match r with
    | inr err => not_provisioned TagsAttachmentFailedV1Beta1Reason SeverityError err ;; fail err
    | inl _ => on_state (set_v_State VirtualMachineStateReady)
    end)))%go.
Proof.
  unfold and_then.
  apply keeps_network_bind; [unfold reconcileStoragePolicy, Power.getPowerState; solve_keeps|]. intros _.
  apply keeps_network_bind; [unfold reconcileVMGroupInfo, Cluster.FindVMGroup, Cluster.VMGroup_Add; solve_keeps|].
  intros ok. apply keeps_network_if; [|apply keeps_network_keeps, keeps_ret].
  apply keeps_network_bind.
  { unfold reconcileClusterModuleMembership, Cluster.AddMoRefToModule, Cluster.IsMoRefModuleMember. solve_keeps. }
  intros _. apply keeps_network_bind.
  { unfold reconcilePowerState, Power.getPowerState, not_provisioned, reconcileVSphereVMWhenNetworkIsReady. solve_keeps. }
  intros ok'. apply keeps_network_if; [|apply keeps_network_keeps, keeps_ret].
  apply keeps_network_bind; [unfold reconcileHostInfo; solve_keeps|]. intros _.
  apply keeps_network_bind; [unfold reconcileTags; solve_keeps|]. intros [u|err].
  - intros c. vm_step. by repeat split.
  - apply keeps_network_keeps. unfold not_provisioned. solve_keeps.
Qed.

(** The next step of a pass before the metadata. *)
Ltac prepared_always lem :=
  apply (prepared_step always); [apply lem; by repeat split|done|]; intros ?; cbn [always]; intros ? ?.
Ltac prepared_if lem :=
  apply (prepared_step id); [apply lem|done|]; intros [|]; cbn [id]; [intros ? ?|done].

Lemma reconcile_found_prepared ref c :
  v_State (cx_State c) <> VirtualMachineStateReady -> wpm (reconcile_found ref) c prepared_post.
Proof.
  intros Hst. unfold reconcile_found.
  prepared_always step_modify. prepared_always step_modify. prepared_always step_UUID.
  prepared_if step_HardwareVersion. prepared_always step_PCIDevices. prepared_always step_NetworkStatus.
  prepared_if step_IPAddresses.
  unfold and_then at 1. apply wpm_bind. eapply wpm_mono; [apply reconcileMetadata_current|].
  intros tr r c' (He & Hv & Hc).
  assert (Hn : v_State (cx_State c') <> VirtualMachineStateReady) by congruence.
  destruct r as [[|]|e|w]; [|vm_step; rewrite app_nil_r; by apply prepared_stop|by apply prepared_stop..].
  eapply wpm_mono; [apply keeps_after_metadata|]. intros tr' r' c'' Hk _.
  eapply metadata_current_mono; [by apply Hc|exact Hk].
Qed.
Lemma ReconcileVM_prepared c : wpm ReconcileVM c prepared_post.
Proof.
  unfold ReconcileVM. apply wpm_unless_in_flight.
  - intros tr r c1 He _ Hst _ _. apply prepared_stop; [by rewrite He|by rewrite Hst].
  - intros tr0 c1 He0 _ Hst _.
    assert (Hn : v_State (cx_State c1) <> VirtualMachineStateReady) by (by rewrite Hst).
    assert (Hp : wpm reconcile_pass c1 prepared_post).
    { unfold reconcile_pass. do 2 vm_step. eapply wpm_mono; [apply findVM_spec|].
      intros tr r c2 (-> & He & _ & _). destruct r as [ref|e|w]; cbn beta iota.
      - eapply wpm_mono; [by apply reconcile_found_prepared|]. intros tr' r' c' Hp Hor.
        apply metadata_current_app, Hp. by rewrite effects_app, He in Hor.
      - eapply wpm_mono; [apply reconcile_missing_spec|]. intros tr' r' c' (_ & _ & Hs & Ha) [[vm Hin]|Hr].
        + rewrite effects_app, He in Hin. rewrite Forall_forall in Ha. by destruct (Ha _ Hin) as [?|[?|(? & _)]].
        + destruct Hs as [Hs|Hs]; [congruence|by rewrite Hs in Hr].
      - apply prepared_stop; [by rewrite He|done]. }
    eapply wpm_mono; [exact Hp|]. intros tr r c' Hpost tr' r' Hsil _ Hor.
    apply metadata_current_app. eapply metadata_current_mono; [|by repeat split]. apply Hpost.
    destruct Hor as [[vm Hin]|?]; [left; exists vm|by right].
    rewrite !effects_app, He0 in Hin. cbn [app] in Hin. apply elem_of_app in Hin as [Hin|Hin]; [done|].
    by destruct (silent_effects _ _ Hsil Hin).
Qed.

(** ** Properties *)

(** C1: a pass starts one task at most, when no storage policy is asked for. When
    it starts one, the reference of that task is the one recorded in the status,
    so that the next pass waits for it. What is desired of the VSphereVM is not
    changed. *)
Theorem ReconcileVM_one_task c tr r c' :
  runs (ReconcileVM c) tr (r, c') -> no_policy c ->
  same_object c c' /\ (started_tasks tr = [] \/ one_task tr c').
Proof.
  intros Hr Hp. pose proof (proj1 (wpm_runs _ _ _) (ReconcileVM_spec c) _ _ _ Hr) as [Hs _ Ht _ _ _].
  split; [exact Hs|by apply Ht].
Qed.

(** a VM is reported as ready only when the last power state that was read is
    powered on, its metadata is what the specification, the network it reports
    and the addresses from IPAM ask for, no error is returned, and, without a
    storage policy, the pass started no task. *)
Theorem ReconcileVM_ready c tr r c' :
  runs (ReconcileVM c) tr (r, c') -> v_State (cx_State c') = VirtualMachineStateReady ->
  (forall e, r <> Err e) /\ (no_policy c -> started_tasks tr = []) /\
  (exists ref, last (power_states tr) = Some (ref, "poweredOn")) /\ metadata_current tr c'.
Proof.
  intros Hr Hst. pose proof (proj1 (wpm_runs _ _ _) (ReconcileVM_spec c) _ _ _ Hr) as [_ _ _ Hready _ _].
  destruct (Hready Hst) as (He & Hn & Hp). split_and!; [done..|].
  apply (proj1 (wpm_runs _ _ _) (ReconcileVM_prepared c) _ _ _ Hr). by right.
Qed.

(** C33: a VM is powered on only when it was seen to be powered off, and only after
    its metadata was found to be what is desired: the guest never boots with
    metadata that is missing or old. *)
Theorem ReconcileVM_powers_on_prepared c tr r c' vm :
  runs (ReconcileVM c) tr (r, c') -> PowersOn vm ∈ effects tr ->
  last (power_states tr) = Some (vm, "poweredOff") /\ metadata_current tr c'.
Proof.
  intros Hr Hin. pose proof (proj1 (wpm_runs _ _ _) (ReconcileVM_spec c) _ _ _ Hr) as [_ _ _ _ Hp _].
  split; [by apply Hp|]. apply (proj1 (wpm_runs _ _ _) (ReconcileVM_prepared c) _ _ _ Hr). left. by exists vm.
Qed.

(** C39: a VM is cloned only for a VSphereVM that carries no BIOS UUID, after vCenter
    answered in that pass that there is none with its instance UUID, and none of its
    name in its folder, and under that name: a machine that was provisioned once is
    never created again, and no error of a lookup makes a second VM. *)
Theorem ReconcileVM_clones_missing c tr r c' name :
  runs (ReconcileVM c) tr (r, c') -> Clones name ∈ effects tr ->
  name = vm_Name (cx_VSphereVM c) /\ missing_by_name (cx_VSphereVM c) tr.
Proof.
  intros Hr Hin. pose proof (proj1 (wpm_runs _ _ _) (ReconcileVM_spec c) _ _ _ Hr) as [_ _ _ _ _ Hc].
  by apply Hc.
Qed.

(** reconciling never takes anything down: no run powers a VM off, shuts its
    guest down, destroys it, removes it from a cluster module, deletes a module
    or a node, or writes a claim. *)
Theorem ReconcileVM_never_takes_down c tr r c' e :
  runs (ReconcileVM c) tr (r, c') -> e ∈ effects tr -> reconcile_effect e.
Proof.
  intros Hr Hin. pose proof (proj1 (wpm_runs _ _ _) (ReconcileVM_spec c) _ _ _ Hr) as [_ He _ _ _ _].
  rewrite Forall_forall in He. by apply He.
Qed.
End lemmas.

(** * Concrete inputs *)

Section examples.
Import RefLibs.

Definition sample_new_context : VMContext := sample_context (sample_vm VirtualMachineCloneSpec_zero "" "").

(** The metadata of the VM is missing: it is set, by a task. *)
Definition sample_metadata_run := run ReconcileVM sample_new_context (vm_world "poweredOff" [] []).
Lemma sample_metadata_runs :
  runs (ReconcileVM sample_new_context) sample_metadata_run.1 (sample_metadata_run.2.1, sample_metadata_run.2.2).
Proof. exact (run_runs ReconcileVM sample_new_context (vm_world "poweredOff" [] [])). Qed.

Lemma ReconcileVM_one_task_witness :
  (started_tasks sample_metadata_run.1 = [] \/ one_task sample_metadata_run.1 sample_metadata_run.2.2) /\
  started_tasks sample_metadata_run.1 = ["task-reconfigure"].
Proof.
  split; [exact (proj2 (ReconcileVM_one_task _ _ _ _ sample_metadata_runs eq_refl))|vm_compute; reflexivity].
Defined.

(** The metadata is in place. *)
Definition sample_metadata : list ExtraOption :=
  [mkExtraOption guestInfoKeyMetadata
     (Some (b64_encode (Metadata.GetMachineMetadata "vm-1" (cx_VSphereVM sample_new_context) ∅ [])))].
Definition sample_ready_run := run ReconcileVM sample_new_context (vm_world "poweredOn" [] sample_metadata).
Lemma sample_ready_runs :
  runs (ReconcileVM sample_new_context) sample_ready_run.1 (sample_ready_run.2.1, sample_ready_run.2.2).
Proof. exact (run_runs ReconcileVM sample_new_context (vm_world "poweredOn" [] sample_metadata)). Qed.
Lemma sample_ready_state : v_State (cx_State sample_ready_run.2.2) = VirtualMachineStateReady.
Proof. vm_compute. reflexivity. Qed.

Lemma ReconcileVM_ready_witness :
  v_State (cx_State sample_ready_run.2.2) = VirtualMachineStateReady /\
  metadata_current sample_ready_run.1 sample_ready_run.2.2.
Proof.
  split; [exact sample_ready_state|].
  exact (proj2 (proj2 (proj2 (ReconcileVM_ready _ _ _ _ sample_ready_runs sample_ready_state)))).
Defined.

Definition sample_power_on_run := run ReconcileVM sample_new_context (vm_world "poweredOff" [] sample_metadata).
Lemma sample_power_on_runs :
  runs (ReconcileVM sample_new_context) sample_power_on_run.1 (sample_power_on_run.2.1, sample_power_on_run.2.2).
Proof. exact (run_runs ReconcileVM sample_new_context (vm_world "poweredOff" [] sample_metadata)). Qed.
Lemma sample_power_on_effects :
  effects sample_power_on_run.1 = [PowersOn vm_ref; Patches; WatchesNetwork "task-on"].
Proof. vm_compute. reflexivity. Qed.

Lemma ReconcileVM_powers_on_prepared_witness :
  PowersOn vm_ref ∈ effects sample_power_on_run.1 /\
  last (power_states sample_power_on_run.1) = Some (vm_ref, "poweredOff").
Proof.
  assert (Hin : PowersOn vm_ref ∈ effects sample_power_on_run.1) by (rewrite sample_power_on_effects; left).
  split; [exact Hin|]. exact (proj1 (ReconcileVM_powers_on_prepared _ _ _ _ vm_ref sample_power_on_runs Hin)).
Defined.

(** A world without the VM, with its template. *)
Definition sample_clone_world : RefWorld :=
  mkRefWorld 0 (Ok None) (Ok None)
    (fun path => if String.eqb path "/dc0/vm/vm-1" then Err (ELib FinderNotFound "not found") else Ok vm_ref)
    (Err (ELib OtherLibError "no task")) "poweredOff" true None None Clone.sample_devices None
    (fun _ => Err (ELib APINotFound "not found")) (fun _ => Err (ELib APINotFound "not found")).
Definition sample_clone_run := run ReconcileVM sample_new_context sample_clone_world.
Lemma sample_clone_runs :
  runs (ReconcileVM sample_new_context) sample_clone_run.1 (sample_clone_run.2.1, sample_clone_run.2.2).
Proof. exact (run_runs ReconcileVM sample_new_context sample_clone_world). Qed.
Lemma sample_clone_effects : effects sample_clone_run.1 = [Clones "vm-1"; Patches].
Proof. vm_compute. reflexivity. Qed.

Lemma ReconcileVM_clones_missing_witness :
  Clones "vm-1" ∈ effects sample_clone_run.1 /\
  missing_by_name (cx_VSphereVM sample_new_context) sample_clone_run.1.
Proof.
  assert (Hin : Clones "vm-1" ∈ effects sample_clone_run.1) by (rewrite sample_clone_effects; left).
  split; [exact Hin|].
  exact (proj2 (ReconcileVM_clones_missing _ _ _ _ "vm-1" sample_clone_runs Hin)).
Defined.

Lemma ReconcileVM_never_takes_down_witness : reconcile_effect (Clones "vm-1").
Proof.
  assert (Hin : Clones "vm-1" ∈ effects sample_clone_run.1) by (rewrite sample_clone_effects; left).
  exact (ReconcileVM_never_takes_down _ _ _ _ (Clones "vm-1") sample_clone_runs Hin).
Defined.

(** ** Two tasks in a pass *)

Definition sample_policy_spec : VirtualMachineCloneSpec :=
  mkVirtualMachineCloneSpec "" "" "" "" "" "" "" "" "gold" "" (mkNetworkSpec [] []) 0 None
    (mkVirtualMachineResources (mkVirtualMachineResourceSpec 0 0)
       (mkVirtualMachineResourceSpec 0 0) (mkVirtualMachineResourceShares 0 0))
    0 0 [] None [] [] "" "" [] None "" "" "" "".
Definition sample_policy_context : VMContext := sample_context (sample_vm sample_policy_spec "" "").
Definition sample_policy_run :=
  run ReconcileVM sample_policy_context (vm_world "poweredOff" Clone.sample_devices sample_metadata).

Lemma sample_policy_runs :
  runs (ReconcileVM sample_policy_context) sample_policy_run.1 (sample_policy_run.2.1, sample_policy_run.2.2).
Proof.
  exact (run_runs ReconcileVM sample_policy_context (vm_world "poweredOff" Clone.sample_devices sample_metadata)).
Qed.
Lemma sample_policy_result : sample_policy_run.2.1 = Ok tt.
Proof. vm_compute. reflexivity. Qed.

(** With a storage policy, a pass can start a second task while the first is
    running: a VM that is powered off and whose disks lack the policy is
    reconfigured and powered on in the same pass, and only the reference of the
    power-on is kept, so that no later pass waits for the reconfiguration. *)
Example storage_policy_task_is_lost :
  exists c tr c', runs (ReconcileVM c) tr (Ok tt, c') /\ TaskRef c = "" /\
    cs_StoragePolicyName (vm_clone (cx_VSphereVM c)) = "gold" /\
    effects tr = [Reconfigures vm_ref; PowersOn vm_ref; Patches; WatchesNetwork "task-on"] /\
    started_tasks tr = ["task-reconfigure"; "task-on"] /\ TaskRef c' = "task-on".
Proof.
  exists sample_policy_context, sample_policy_run.1, sample_policy_run.2.2. split.
  - exact (eq_ind _ (fun r => runs (ReconcileVM sample_policy_context) sample_policy_run.1
      (r, sample_policy_run.2.2)) sample_policy_runs _ sample_policy_result).
  - split_and!; vm_compute; reflexivity.
Qed.
End examples.

End ReconcileVM.
