(* ===== verification/DestroyVM.v ===== *)
(** [DestroyVM]: what a pass that removes a VM does, and the properties of the
    whole. *)
From S2P Require Import Prelude GoStrings GoBase64 Types Libs Errors Prog World RefLibs.
From S2P Require Import Extra MachineUtil Metadata NetStatus Ipam VMUtil Power Clone Pci.
From S2P Require Import Cluster VMService VMPass VMInterface.

Import VMUtil VMService VMPass VMInterface.

Module DestroyVM.

Section lemmas.
Context `{Libs} {Gm : Govmomi}.

(** What a run of [DestroyVM] does. *)
Record destroy_post (c : VMContext) (tr : trace) (r : res (option Z)) (c' : VMContext) : Prop := {
  dp_object : same_object c c';
  dp_effects : Forall destroy_effect (effects tr);
  dp_tasks : started_tasks tr = [] /\ (TaskRef c' = TaskRef c \/ TaskRef c' = "") \/ one_task tr c';
  dp_destroy : forall vm, Destroys vm ∈ effects tr ->
    exists st, last (power_states tr) = Some (vm, st) /\ st <> "poweredOn";
  dp_power_off : forall vm, PowersOff vm ∈ effects tr ->
    last (power_states tr) = Some (vm, "poweredOn") /\
    Power.PowerOffMode c <> VirtualMachinePowerOpModeSoft;
  dp_done : r = Ok None -> one_task tr c' \/ v_State (cx_State c') = VirtualMachineStateNotFound \/
    exists task, retrieved_tasks tr = [(TaskRef c, Ok task)] /\ awaited task c tr c';
  dp_requeue : forall d, r = Ok (Some d) -> d = SoftPowerOffRequeue /\ started_tasks tr = [] /\
    Power.soft_condition c' = true
}.

Lemma destroy_quiet c tr r c' :
  same_object c c' -> effects tr = [] -> TaskRef c' = TaskRef c \/ TaskRef c' = "" ->
  (r = Ok None -> v_State (cx_State c') = VirtualMachineStateNotFound \/
    exists task, retrieved_tasks tr = [(TaskRef c, Ok task)] /\ awaited task c tr c') ->
  (forall d, r <> Ok (Some d)) -> destroy_post c tr r c'.
Proof.
  intros Hs He Ht Hd Hr. assert (Hq : started_tasks tr = []) by (by apply quiet_started_tasks).
  split; rewrite ?He; try done.
  - by left.
  - intros vm Hin. by apply elem_of_nil in Hin.
  - intros vm Hin. by apply elem_of_nil in Hin.
  - intros Hn. right. by apply Hd.
  - intros d Hn. by apply Hr in Hn.
Qed.

Lemma destroy_post_app c c1 tr0 tr tr' r r' c' :
  destroy_post c1 tr r c' -> effects tr0 = [] -> same_object c c1 -> TaskRef c1 = "" -> silent tr' ->
  r' = r \/ (exists w, r' = Stop w) ->
  (r = Ok None -> one_task tr c' \/ v_State (cx_State c') = VirtualMachineStateNotFound) ->
  destroy_post c (tr0 ++ tr ++ tr')%list r' c'.
Proof.
  intros [P1 P2 P3 P4 P5 _ P7] He Hs Href Hsil Hr Hdone.
  assert (Hq : started_tasks tr0 = []) by (by apply quiet_started_tasks).
  assert (Hin : forall e, e ∈ effects (tr0 ++ tr ++ tr')%list -> e ∈ effects tr \/ exists t, e = WatchesTask t).
  { intros e Hin. rewrite !effects_app, He in Hin. cbn [app] in Hin. apply elem_of_app in Hin as [?|Hin]; [by left|right].
    by apply (silent_effects tr'). }
  assert (Hsta : started_tasks (tr0 ++ tr ++ tr')%list = started_tasks tr).
  { destruct Hsil as (_ & Ht & _). rewrite !started_tasks_app, Hq, Ht. by rewrite app_nil_r. }
  assert (Hpow : forall x, last (power_states tr) = Some x -> last (power_states (tr0 ++ tr ++ tr')%list) = Some x).
  { destruct Hsil as (Hp & _). intros x Hl. rewrite !power_states_app, Hp, app_nil_r. by apply last_app_some. }
  assert (Hok : forall a, r' = Ok a -> r = Ok a) by (intros a ->; by destruct Hr as [<- | [w ?]]).
  split.
  - by etrans.
  - apply Forall_forall. intros e [Hi|[t ->]]%Hin; [|done]. rewrite Forall_forall in P2. by apply P2.
  - unfold one_task in *. rewrite Hsta. destruct P3 as [[? Ht]|?]; [left|by right]. split; [done|]. right.
    destruct Ht; congruence.
  - intros vm [Hi|[t [=]]]%Hin. destruct (P4 vm Hi) as (st & Hl & Hne). exists st. by split; [apply Hpow|].
  - intros vm [Hi|[t [=]]]%Hin. destruct (P5 vm Hi) as [Hl Hne]. split; [by apply Hpow|].
    destruct Hs as (Hs & _). unfold Power.PowerOffMode in *. by rewrite <-Hs.
  - intros Hn%Hok. unfold one_task in *. rewrite Hsta. destruct (Hdone Hn); auto.
  - intros d Hn%Hok. rewrite Hsta. by apply P7.
Qed.
(** What a pass of [DestroyVM] does when no task is recorded. *)
Definition destroy_pass_post (c : VMContext) (tr : trace) (r : res (option Z)) (c' : VMContext) : Prop :=
  destroy_post c tr r c' /\
  (r = Ok None -> one_task tr c' \/ v_State (cx_State c') = VirtualMachineStateNotFound).

(** The effects a pass may have on a VM whose power state was read. *)
Definition destroy_effect_at (c : VMContext) (ref : MoRef) (st : string) (e : effect) : Prop :=
  match e with
  | PowersOff vm => vm = ref /\ st = "poweredOn" /\ Power.PowerOffMode c <> VirtualMachinePowerOpModeSoft
  | Destroys vm => vm = ref /\ st <> "poweredOn"
  | ShutsDownGuest _ | RemovesMember _ _ | Patches => True
  | _ => False
  end.

Lemma destroy_pass_intro ref st c tr r c' :
  same_object c c' -> last (power_states tr) = Some (ref, st) ->
  Forall (destroy_effect_at c ref st) (effects tr) ->
  no_task c tr c' /\ r <> Ok None \/ one_task tr c' /\ (forall d, r <> Ok (Some d)) ->
  (forall d, r = Ok (Some d) -> d = SoftPowerOffRequeue /\ Power.soft_condition c' = true) ->
  destroy_pass_post c tr r c'.
Proof.
  intros Hs Hp He Ht Hd. rewrite Forall_forall in He.
  assert (Hone : r = Ok None -> one_task tr c') by (intros Hr; by destruct Ht as [[_ ?]|[? _]]).
  split; [split|by left; apply Hone].
  - done.
  - apply Forall_forall. intros e Hin. specialize (He e Hin). by destruct e.
  - destruct Ht as [[[? ?] _]|[? _]]; [left|by right]. split; [done|by left].
  - intros vm Hin. destruct (He _ Hin) as [-> Hne]. by exists st.
  - intros vm Hin. destruct (He _ Hin) as (-> & -> & Hm). done.
  - intros Hr. left. by apply Hone.
  - intros d Hr. destruct (Hd d Hr). split; [done|]. split; [|done].
    destruct Ht as [[[? _] _]|[_ Hn]]; [done|by apply Hn in Hr].
Qed.

Lemma destroy_powered_on_spec ref c :
  wpm (destroy_powered_on ref) c (fun tr r c' => forall tr0, effects tr0 = [] ->
    power_states tr0 = [(ref, "poweredOn")] -> destroy_pass_post c (tr0 ++ tr)%list r c').
Proof.
  unfold destroy_powered_on. vm_step. eapply wpm_mono; [apply Power.triggerSoftPowerOff_spec|].
  intros tr r c1 ((Hs & _) & Ht & Hp & He & Hf & _ & Hc).
  assert (Hst : started_tasks tr = []).
  { apply started_tasks_none. destruct He as [-> | ->]; by repeat constructor. }
  destruct r as [[|]|e|w].
  2: destruct (Hf eq_refl) as (Hm & -> & He'); clear He; vm_steps.
  all: intros tr0 He0 Hp0; apply (destroy_pass_intro ref "poweredOn");
    unfold no_task, one_task; autorewrite with trace; cbn [effect_of started_task power_seen];
    rewrite ?(quiet_started_tasks tr0 He0), ?Hst, ?He0, ?Hp0, ?Hp, ?He'; try done.
  all: try (by repeat constructor).
  all: try (by destruct He as [-> | ->]; repeat constructor).
  all: try (by left); try (right; split; [by eexists|done]).
  intros d [= <-]. split; [done|by apply Hc].
Qed.

Lemma leave_module_spec ref c :
  wpm (leave_module ref) c (fun tr r c' => same_object c c' /\ TaskRef c' = TaskRef c /\ power_states tr = [] /\
    (effects tr = [] \/ exists m, effects tr = [RemovesMember m ref])).
Proof.
  unfold leave_module, Cluster.RemoveMoRefFromModule. do 2 vm_step. destruct (cx_ClusterModuleInfo c); vm_steps.
  1, 3: split_and!; [by repeat split|done|done|]; right; by eexists.
  - destruct (negb _); vm_steps; split_and!; try (by repeat split); right; by eexists.
  - split_and!; auto.
Qed.

(** The end of the removal of a VM that is not powered on. *)
Lemma destroy_end_spec ref st c tr0 c1 :
  st <> "poweredOn" -> effects tr0 = [] -> power_states tr0 = [(ref, st)] ->
  same_object c c1 -> TaskRef c1 = TaskRef c ->
  wpm (leave_module ref ;; task <- call_res (VMDestroy ref) ;; set_TaskRef task ;; ret None)%go c1
    (fun tr => destroy_pass_post c (tr0 ++ tr)%list).
Proof.
  intros Hne He0 Hp0 Hs Ht. vm_step. eapply wpm_mono; [apply leave_module_spec|].
  intros tr2 r c2 (Hs2 & Ht2 & Hp2 & He2).
  assert (Hst2 : started_tasks tr2 = []).
  { apply started_tasks_none. destruct He2 as [-> | [m ->]]; by repeat constructor. }
  assert (Hs' : same_object c c2) by (by etrans).
  assert (Hf : Forall (destroy_effect_at c ref st) (effects tr2)).
  { destruct He2 as [-> | [m ->]]; by repeat constructor. }
  destruct r as [u|e|w]; vm_steps; apply (destroy_pass_intro ref st);
    unfold no_task, one_task; autorewrite with trace; cbn [effect_of started_task power_seen];
    rewrite ?(quiet_started_tasks tr0 He0), ?Hst2, ?He0, ?Hp0, ?Hp2, ?Ht2; try done.
  all: try (cbn [app]; apply Forall_app; split; [done|apply Forall_singleton; by split]).
  all: try (by left); try (right; split; [by eexists|done]).
Qed.

Lemma destroy_powered_off_spec ref st c tr0 :
  st <> "poweredOn" -> effects tr0 = [] -> power_states tr0 = [(ref, st)] ->
  wpm (destroy_powered_off ref) c (fun tr => destroy_pass_post c (tr0 ++ tr)%list).
Proof.
  intros Hne He0 Hp0. unfold destroy_powered_off. do 2 vm_step. destruct (conditions_Has _ _).
  - do 4 vm_step. eapply wpm_mono.
    + apply (destroy_end_spec ref st c (tr0 ++ [Call Now now; Call Now now0])%list); [done|by trace_simpl| |by repeat split|done].
      by rewrite power_states_app, Hp0.
    + intros tr r c' Hpost. cbn beta in Hpost. rewrite <-app_assoc in Hpost. exact Hpost.
  - do 2 vm_step. by apply (destroy_end_spec ref st c tr0).
Qed.

Lemma destroy_pass_spec c :
  TaskRef c = "" -> wpm destroy_pass c (destroy_pass_post c).
Proof.
  intros Href. unfold destroy_pass. do 2 vm_step. eapply wpm_mono; [apply findVM_spec|].
  intros tr r c1 (-> & He & Hp & _).
  destruct r as [ref|e|w]; cbn beta iota.
  - unfold destroy_found. vm_step. eapply wpm_mono; [apply getPowerState_spec|].
    intros trp [st|e|w] c1 (-> & Hep & Hpp).
    + assert (He0 : effects (tr ++ trp)%list = []) by (by rewrite effects_app, He, Hep).
      assert (Hp0 : power_states (tr ++ trp)%list = [(ref, st)]) by (by rewrite power_states_app, Hp, Hpp).
      destruct (String.eqb_spec st VirtualMachinePowerStatePoweredOn) as [->|Hne].
      * eapply wpm_mono; [by apply destroy_powered_on_spec|]. intros tr' r c' Hpost.
        rewrite app_assoc. by apply Hpost.
      * eapply wpm_mono; [by apply (destroy_powered_off_spec ref st c (tr ++ trp)%list)|]. intros tr' r c' Hpost.
        by rewrite app_assoc.
    + split; [|done]. apply destroy_quiet; try done; [by rewrite effects_app, He, Hep|by left].
    + split; [|done]. apply destroy_quiet; try done; [by rewrite effects_app, He, Hep|by left].
  - destruct (isNotFound e || isFolderNotFound e); vm_steps.
    + split; [apply destroy_quiet|]; try (rewrite ?app_nil_r); try done; [by left|by left|by right].
    + split; [|done]. apply destroy_quiet; rewrite ?app_nil_r; try done. by left.
  - split; [|done]. apply destroy_quiet; try done. by left.
Qed.

Lemma DestroyVM_spec c : wpm DestroyVM c (destroy_post c).
Proof.
  unfold DestroyVM. apply wpm_unless_in_flight.
  - intros tr r c1 He Hs _ Ht Hr. apply destroy_quiet; [done..| |].
    + intros Hn. right. by destruct (Hr _ Hn) as (_ & ?).
    + intros d Hd. by destruct (Hr _ Hd).
  - intros tr0 c1 He0 Hs _ Ht. eapply wpm_mono; [by apply destroy_pass_spec|].
    intros tr r c' [Hpost Hd] tr' r' Hsil Hr'. by eapply destroy_post_app.
Qed.
(** ** Properties *)

(** a VM is destroyed only when the last power state that was read is not
    powered on, and powered off hard only when it is powered on and the power-off
    mode is not soft. Whatever else is done belongs to taking the VM down: the
    shutdown of the guest, leaving the cluster module, the patch of the
    VSphereVM. *)
Theorem DestroyVM_powers_off_first c tr r c' :
  runs (DestroyVM c) tr (r, c') ->
  Forall destroy_effect (effects tr) /\
  (forall vm, Destroys vm ∈ effects tr ->
     exists st, last (power_states tr) = Some (vm, st) /\ st <> "poweredOn") /\
  (forall vm, PowersOff vm ∈ effects tr ->
     last (power_states tr) = Some (vm, "poweredOn") /\
     Power.PowerOffMode c <> VirtualMachinePowerOpModeSoft).
Proof.
  intros Hr. pose proof (proj1 (wpm_runs _ _ _) (DestroyVM_spec c) _ _ _ Hr) as [_ He _ Hd Hp _ _]. done.
Qed.

(** C34: the deletion makes progress and is never lost. A pass starts one task at
    most, whose reference it records. A pass that ends without an error has
    started one, or reports the VM as not found, or waits for the task that was
    recorded, or asks to come back after 20 seconds while the guest shuts down,
    as its condition says. It waits for the recorded task only when that is queued
    or running, or when it failed: a failed task is kept with the time of its retry
    set to a minute after the clock, and the first pass from that time on drops it,
    so that the next one starts again. A task that ended well, or that vCenter no
    longer knows, is not waited for. *)
Theorem DestroyVM_progress c tr r c' :
  runs (DestroyVM c) tr (r, c') ->
  same_object c c' /\
  (started_tasks tr = [] /\ (TaskRef c' = TaskRef c \/ TaskRef c' = "") \/ one_task tr c') /\
  (r = Ok None ->
     one_task tr c' \/ v_State (cx_State c') = VirtualMachineStateNotFound \/
     exists task, retrieved_tasks tr = [(TaskRef c, Ok task)] /\ awaited task c tr c') /\
  (forall d, r = Ok (Some d) ->
     d = SoftPowerOffRequeue /\ started_tasks tr = [] /\ Power.soft_condition c' = true).
Proof.
  intros Hr. pose proof (proj1 (wpm_runs _ _ _) (DestroyVM_spec c) _ _ _ Hr) as [Hs _ Ht _ _ Hd Hq]. done.
Qed.
End lemmas.

(** * Concrete inputs *)

Section examples.
Import RefLibs.

Definition sample_destroy_context : VMContext :=
  sample_context (sample_vm VirtualMachineCloneSpec_zero VirtualMachinePowerOpModeSoft "").
Definition sample_destroy_run := run DestroyVM sample_destroy_context (vm_world "poweredOff" [] []).
Lemma sample_destroy_runs :
  runs (DestroyVM sample_destroy_context) sample_destroy_run.1 (sample_destroy_run.2.1, sample_destroy_run.2.2).
Proof. exact (run_runs DestroyVM sample_destroy_context (vm_world "poweredOff" [] [])). Qed.
Lemma sample_destroy_effects : effects sample_destroy_run.1 = [Destroys vm_ref].
Proof. vm_compute. reflexivity. Qed.

Lemma DestroyVM_powers_off_first_witness :
  exists st, last (power_states sample_destroy_run.1) = Some (vm_ref, st) /\ st <> "poweredOn".
Proof.
  assert (Hin : Destroys vm_ref ∈ effects sample_destroy_run.1) by (rewrite sample_destroy_effects; left).
  exact (proj1 (proj2 (DestroyVM_powers_off_first _ _ _ _ sample_destroy_runs)) vm_ref Hin).
Defined.

(** The VM is powered on and its guest can be shut down. *)
Definition sample_shutdown_run := run DestroyVM sample_destroy_context (vm_world "poweredOn" [] []).
Lemma sample_shutdown_runs :
  runs (DestroyVM sample_destroy_context) sample_shutdown_run.1 (sample_shutdown_run.2.1, sample_shutdown_run.2.2).
Proof. exact (run_runs DestroyVM sample_destroy_context (vm_world "poweredOn" [] [])). Qed.
Lemma sample_shutdown_result : sample_shutdown_run.2.1 = Ok (Some SoftPowerOffRequeue).
Proof. vm_compute. reflexivity. Qed.

Lemma DestroyVM_progress_witness :
  started_tasks sample_shutdown_run.1 = [] /\ Power.soft_condition sample_shutdown_run.2.2 = true.
Proof.
  exact (proj2 (proj2 (proj2 (proj2 (DestroyVM_progress _ _ _ _ sample_shutdown_runs))) _ sample_shutdown_result)).
Defined.
End examples.

End DestroyVM.
