(* ===== verification/VMRefine.v ===== *)
(** The VM service of [pkg/services/govmomi] keeps the promises of
    [services.VirtualMachineService]: the instance of the interface the
    controller is used with. *)
From S2P Require Import Prelude GoStrings Types Libs Errors Prog World NetStatus Ipam VMUtil Power Clone Pci Cluster.
From S2P Require Import VMService VMPass VMInterface ReconcileVM DestroyVM.
Import VMUtil VMService VMPass VMInterface.

Module VMRefine.

Section lemmas.
Context `{Libs} {Gm : Govmomi}.

Lemma keeps_destroy_found ref : keeps (destroy_found ref).
Proof.
  unfold destroy_found, destroy_powered_on, destroy_powered_off, leave_module, Power.getPowerState,
    Power.triggerSoftPowerOff, Power.isSoftPowerOffTimeoutExceeded, Power.soft_failed, Cluster.RemoveMoRefFromModule.
  solve_keeps.
Qed.

(** A VM is reported as not found after a pass whose lookup said so, and which did
    nothing else. *)
Lemma destroy_pass_gone c :
  v_State (cx_State c) <> VirtualMachineStateNotFound ->
  wpm destroy_pass c (fun tr r c' => v_State (cx_State c') = VirtualMachineStateNotFound ->
    effects tr = [] /\ vm_gone (cx_VSphereVM c) tr).
Proof.
  intros Hne. unfold destroy_pass. do 2 vm_step.
  eapply wpm_mono; [apply findVM_spec|].
  intros tr r c1 (-> & He & _ & Hr). destruct r as [ref|e|w]; cbn beta iota; [| |by intros Hst].
  - eapply wpm_mono; [apply keeps_destroy_found|]. intros tr' r c' (_ & Hs & _) Hst. congruence.
  - destruct Hr as [Hn Hf]. destruct (isNotFound e) eqn:En; cbn [orb]; [|destruct (isFolderNotFound e) eqn:Ef]; vm_steps; intros Hst;
      [..|by destruct (Hne Hst)]; rewrite !app_nil_r; (split; [done|]).
    + specialize (Hn eq_refl). destruct (wasNotFoundByBIOSUUID e); [by left|by right; left].
    + right. right. by apply Hf.
Qed.

Lemma DestroyVM_gone c :
  wpm DestroyVM c (fun tr r c' => v_State (cx_State c') = VirtualMachineStateNotFound ->
    started_tasks tr = [] /\ vm_gone (cx_VSphereVM c) tr).
Proof.
  unfold DestroyVM. apply wpm_unless_in_flight.
  - intros tr r c1 _ _ Hst _ _. rewrite Hst. intros Hn. discriminate Hn.
  - intros tr0 c1 He0 Hs Hst _. eapply wpm_mono; [apply destroy_pass_gone; rewrite Hst; discriminate|].
    intros tr r c' Hg tr' r' (_ & Ht & _) _ Hn. destruct (Hg Hn) as [He Hgone].
    rewrite !started_tasks_app, (quiet_started_tasks tr0 He0), (quiet_started_tasks tr He), Ht.
    split; [done|]. apply vm_gone_app. by eapply vm_gone_same.
Qed.

(** Neither touches what the controller publishes. *)
Lemma reads_findVM : reads findVM.
Proof. unfold findVM. solve_reads. Qed.

(** The parts that only read. *)
#[local] Hint Extern 1 (preserves _ (Clone.clone_extra_config _ _)) =>
  (apply preserves_reads, Clone.reads_clone_extra_config) : preserves.
#[local] Hint Extern 1 (preserves _ (Clone.FindTemplate _)) =>
  (apply preserves_reads, Clone.reads_FindTemplate) : preserves.
#[local] Hint Extern 1 (preserves _ (Clone.find_snapshot _)) =>
  (apply preserves_reads, Clone.reads_find_snapshot) : preserves.
#[local] Hint Extern 1 (preserves _ (Clone.clone_devices _ _)) =>
  (apply preserves_reads, Clone.reads_clone_devices) : preserves.
#[local] Hint Extern 1 (preserves _ (Clone.clone_datastore _)) =>
  (apply preserves_reads, Clone.reads_clone_datastore) : preserves.
#[local] Hint Extern 1 (preserves _ (Cluster.FindVMGroup _ _)) =>
  (apply preserves_reads, Cluster.reads_FindVMGroup) : preserves.
#[local] Hint Extern 1 (preserves _ (Pci.CalculateDevicesToBeAdded _ _)) =>
  (apply preserves_reads, Pci.reads_CalculateDevicesToBeAdded) : preserves.
#[local] Hint Extern 1 (preserves _ (Power.isSoftPowerOffTimeoutExceeded _)) =>
  (apply preserves_reads, Power.reads_isSoftPowerOffTimeoutExceeded) : preserves.
#[local] Hint Extern 1 (preserves _ (Ipam.BuildState _)) =>
  (apply preserves_reads, Ipam.reads_BuildState) : preserves.
#[local] Hint Extern 1 (preserves _ (getMetadata _)) =>
  (apply preserves_reads, ReconcileVM.reads_getMetadata) : preserves.
#[local] Hint Extern 1 (preserves _ (getBootstrapData)) =>
  (apply preserves_reads, ReconcileVM.reads_getBootstrapData) : preserves.
#[local] Hint Extern 1 (preserves _ (getTask)) =>
  (apply preserves_reads, VMUtil.reads_getTask) : preserves.
#[local] Hint Extern 1 (preserves _ (findVM)) =>
  (apply preserves_reads, reads_findVM) : preserves.

Lemma published_createVM data format : preserves published (Clone.createVM data format).
Proof. unfold Clone.createVM, Clone.Clone, Clone.set_clone_mode, Clone.clone_crypto. solve_preserves. Qed.

Lemma published_missing err : preserves published (reconcile_missing err).
Proof. unfold reconcile_missing, not_provisioned. solve_preserves; apply published_createVM. Qed.

Lemma published_found ref : preserves published (reconcile_found ref).
Proof.
  unfold reconcile_found, and_then, reconcileUUID, reconcileHardwareVersion, reconcilePCIDevices,
    reconcileNetworkStatus, reconcileIPAddresses, reconcileMetadata, setMetadata, reconcileStoragePolicy,
    reconcileVMGroupInfo, reconcileClusterModuleMembership, reconcilePowerState, reconcileHostInfo, reconcileTags,
    not_provisioned, reconcileVSphereVMWhenNetworkIsReady, Power.getPowerState, Cluster.AddMoRefToModule,
    Cluster.IsMoRefModuleMember, Cluster.VMGroup_Add, NetStatus.getNetworkStatus, NetStatus.GetNetworkStatus.
  solve_preserves.
Qed.

Lemma published_unless_in_flight {A} (result : A) (pass : MV A) :
  preserves published pass -> preserves published (unless_in_flight result pass).
Proof.
  intros Hp. unfold unless_in_flight, reconcileInFlightTask, checkAndRetryTask, retry_pending, task_failed,
    reconcileVSphereVMOnTaskCompletion. solve_preserves; exact Hp.
Qed.

Lemma published_ReconcileVM : preserves published ReconcileVM.
Proof.
  unfold ReconcileVM. apply published_unless_in_flight. unfold reconcile_pass. solve_preserves; [apply published_found|apply published_missing].
Qed.

Lemma published_DestroyVM : preserves published DestroyVM.
Proof.
  unfold DestroyVM. apply published_unless_in_flight. unfold destroy_pass, destroy_found, destroy_powered_on, destroy_powered_off,
    leave_module, Power.getPowerState, Power.triggerSoftPowerOff, Power.soft_failed, Cluster.RemoveMoRefFromModule.
  solve_preserves.
Qed.

Lemma ReconcileVM_contract c : wpm ReconcileVM c (reconcile_contract c).
Proof.
  apply wpm_runs. intros tr r c' Hrun.
  destruct (proj1 (wpm_runs _ _ _) (ReconcileVM.ReconcileVM_spec c) _ _ _ Hrun) as [Hs He Ht Hr _ _].
  split; try done; [exact (proj1 (wpm_runs _ _ _) (published_ReconcileVM c) _ _ _ Hrun)|]. intros Hst. by destruct (Hr Hst) as (_ & _ & Hp).
Qed.

Lemma DestroyVM_contract c : wpm DestroyVM c (destroy_contract c).
Proof.
  apply wpm_runs. intros tr r c' Hr.
  destruct (proj1 (wpm_runs _ _ _) (DestroyVM.DestroyVM_spec c) _ _ _ Hr) as [Hs He Ht _ _ _ _].
  split; [done|exact (proj1 (wpm_runs _ _ _) (published_DestroyVM c) _ _ _ Hr)|done| |].
  - destruct Ht as [[? _]|?]; [by left|by right].
  - exact (proj1 (wpm_runs _ _ _) (DestroyVM_gone c) _ _ _ Hr).
Qed.

(** [govmomi.VMService]. *)
#[export] Instance govmomi_VMService : VirtualMachineService := {|
  svc_ReconcileVM := ReconcileVM;
  svc_DestroyVM := DestroyVM;
  svc_ReconcileVM_contract := ReconcileVM_contract;
  svc_DestroyVM_contract := DestroyVM_contract
|}.
End lemmas.

End VMRefine.
