(* ===== verification/Claims.v ===== *)
(** [controllers/vspherevm_ipaddress_reconciler.go]: the IPAddressClaims of a
    VSphereVM, one for every pool of every device. *)
From S2P Require Import Prelude GoStrings Types Libs Errors Prog World RefLibs Identity MachineUtil.
Import MachineUtil Identity.

Module Claims.


(** The turns of the two nested loops over devices and their pools, in order. *)
Definition pool_refs (vm : VSphereVM) : list (Z * Z * IPPoolReference) :=
  concat (map (fun '(devIdx, device) =>
    map (fun '(poolRefIdx, poolRef) => (devIdx, poolRefIdx, poolRef))
      (enumerate (nd_AddressesFromPools device))) (enumerate (vm_devices vm))).

Definition claim_name (vm : VSphereVM) (turn : Z * Z * IPPoolReference) : string :=
  IPAddressClaimName (vm_Name vm) turn.1.1 turn.1.2.

Section claims.
Context `{Libs}.
Open Scope go_scope.

(** The claim as it is asked for, before [mutateFn]. *)
Definition new_claim (vm : VSphereVM) (name : string) : IPAddressClaim :=
  mkIPAddressClaim (mkObjectMeta name (vm_Namespace vm) "" None [] [] None) (mkIPPoolReference "" "" "")
    "" [] [].

(** [mutateFn] of [createOrPatchIPAddressClaim]. *)
Definition mutate_claim (vm : VSphereVM) (poolRef : IPPoolReference) (claim : IPAddressClaim)
    : IPAddressClaim :=
  let om := ic_ObjectMeta claim in
  let om := set_om_OwnerReferences (EnsureOwnerRef (om_OwnerReferences om)
              (owner_ref GroupVersion "VSphereVM" (vm_Name vm) (vm_UID vm))) om in
  let om := set_om_Finalizers (AddFinalizer (om_Finalizers om) IPAddressClaimFinalizer).1 om in
  let cluster := match om_Labels (vm_ObjectMeta vm) with
                 | Some l => default "" (l !! ClusterNameLabel)
                 | None => ""
                 end in
  let om := set_om_Labels (Some (<[ClusterNameLabel := cluster]> (default ∅ (om_Labels om)))) om in
  mkIPAddressClaim om (mkIPPoolReference (pr_Name poolRef) (pr_Kind poolRef) (pr_APIGroup poolRef))
    (ic_AddressRefName claim) (ic_Conditions claim) (ic_V1Beta1Conditions claim).

Definition createOrPatchIPAddressClaim (name : string) (poolRef : IPPoolReference)
    : MV (IPAddressClaim * bool) :=
  vm <- getVM ;;
  r <- wrap "failed to CreateOrPatch IPAddressClaim"
         (call_res (CreateOrPatchIPAddressClaim (new_claim vm name) (mutate_claim vm poolRef))) ;;
  let '(claim, result) := r in
  ret (claim, match result with OpCreated => true | _ => false end).

(** What the loop has counted and collected. *)
Record Tally := mkTally {
  ta_totalClaims : Z;
  ta_claimsCreated : Z;
  ta_claimsFulfilled : Z;
  ta_claims : list IPAddressClaim;
  ta_errList : list error
}.

(** What a turn adds to it, by the result of [createOrPatchIPAddressClaim]. *)
Definition tally_turn (acc : Tally) (r : IPAddressClaim * bool + error) : Tally :=
  let total := ta_totalClaims acc + 1 in
  match r with
  | inr err => mkTally total (ta_claimsCreated acc) (ta_claimsFulfilled acc) (ta_claims acc)
                 (ta_errList acc ++ [err])
  | inl (claim, created) =>
      mkTally total
        (if (created : bool) then ta_claimsCreated acc + 1 else ta_claimsCreated acc)
        (if negb (String.eqb (ic_AddressRefName claim) "")
         then ta_claimsFulfilled acc + 1 else ta_claimsFulfilled acc)
        (if conditions_Has (ic_Conditions claim) ReadyCondition
         then ta_claims acc ++ [claim] else ta_claims acc)
        (ta_errList acc)
  end.

Definition claim_step (acc : Tally) (turn : Z * Z * IPPoolReference) : MV Tally :=
  vm <- getVM ;;
  let name := claim_name vm turn in
  r <- try (call_res (GetIPAddressClaim (vm_Namespace vm) name)) ;;
  (match r with
   | inr err => if negb (IsNotFound err)
                then fail (EWrap (sprintf "failed to get IPAddressClaim %s" [AS (KRef (vm_Namespace vm) name)]) err)
                else ret tt
   | inl _ => ret tt
   end) ;;
  r <- try (createOrPatchIPAddressClaim name turn.2) ;;
  ret (tally_turn acc r).

Definition claims_failed (errList : list error) : MV unit :=
  let aggregatedErr := EAggregate errList in
  mark_false IPAddressClaimedV1Beta1Condition IPAddressClaimNotFoundV1Beta1Reason SeverityError
    (sprintf "%v" [AS (error_string aggregatedErr)]) ;;
  set_condition (cond VSphereVMIPAddressClaimsFulfilledCondition ConditionFalse
                   VSphereVMIPAddressClaimsNotFulfilledReason (error_string aggregatedErr)) ;;
  fail aggregatedErr.

(** All claims report whether they are ready. *)
Definition aggregate_claims (claims : list IPAddressClaim) : MV unit :=
  now <- ask Now ;;
  on_vm (fun vm => SetV1Beta1Conditions vm (v1beta1_SetAggregate now (GetV1Beta1Conditions vm)
           IPAddressClaimedV1Beta1Condition (map ic_V1Beta1Conditions claims))) ;;
  if 0 <? zlen claims then
    now <- ask Now ;;
    vm <- getVM ;;
    match conditions_SetAggregate now (map ic_Conditions claims) (GetConditions vm) ReadyCondition
            VSphereVMIPAddressClaimsFulfilledCondition with
    | inl conditions => on_vm (fun vm => SetConditions vm conditions)
    | inr msg => fail (EWrap "failed to aggregate Ready condition from IPAddressClaims" (ELib OtherLibError msg))
    end
  else
    set_condition (cond VSphereVMIPAddressClaimsFulfilledCondition ConditionTrue
                     VSphereVMIPAddressClaimsNotFulfilledReason "").

(** Some claim does not: the state goes by the counters. *)
Definition count_claims (t : Tally) : MV unit :=
  let total := ta_totalClaims t in
  let created := ta_claimsCreated t in
  let fulfilled := ta_claimsFulfilled t in
  if total =? fulfilled then
    mark_true IPAddressClaimedV1Beta1Condition ;;
    set_condition (cond VSphereVMIPAddressClaimsFulfilledCondition ConditionTrue
                     VSphereVMIPAddressClaimsFulfilledReason "")
  else if (fulfilled <? total) && (0 <? created) then
    mark_false IPAddressClaimedV1Beta1Condition IPAddressClaimsBeingCreatedV1Beta1Reason SeverityInfo
      (sprintf "%d/%d claims being created" [AZ created; AZ total]) ;;
    set_condition (cond VSphereVMIPAddressClaimsFulfilledCondition ConditionFalse
                     VSphereVMIPAddressClaimsBeingCreatedReason
                     (sprintf "%d/%d claims being created" [AZ created; AZ total]))
  else if (fulfilled <? total) && (created =? 0) then
    mark_false IPAddressClaimedV1Beta1Condition WaitingForIPAddressV1Beta1Reason SeverityInfo
      (sprintf "%d/%d claims being processed" [AZ (total - fulfilled); AZ total]) ;;
    set_condition (cond VSphereVMIPAddressClaimsFulfilledCondition ConditionFalse
                     VSphereVMIPAddressClaimsWaitingForIPAddressReason
                     (sprintf "%d/%d claims being processed" [AZ (total - fulfilled); AZ total]))
  else ret tt.

Definition reconcileIPAddressClaims : MV unit :=
  vm <- getVM ;;
  t <- fold_m claim_step (pool_refs vm) (mkTally 0 0 0 [] []) ;;
  if 0 <? zlen (ta_errList t) then claims_failed (ta_errList t)
  else if zlen (ta_claims t) =? ta_totalClaims t then aggregate_claims (ta_claims t)
  else count_claims t.

(** * Deletion *)

Definition set_claim_Finalizers (l : list string) (claim : IPAddressClaim) : IPAddressClaim :=
  mkIPAddressClaim (set_om_Finalizers l (ic_ObjectMeta claim)) (ic_PoolRef claim) (ic_AddressRefName claim)
    (ic_Conditions claim) (ic_V1Beta1Conditions claim).

Definition release_claim (turn : Z * Z * IPPoolReference) : MV unit :=
  vm <- getVM ;;
  let name := claim_name vm turn in
  r <- try (call_res (GetIPAddressClaim (vm_Namespace vm) name)) ;;
  match r with
  | inr err =>
      if IsNotFound err then ret tt
      else fail (EWrap (sprintf "failed to get IPAddressClaim %q to remove the finalizer" [AS name]) err)
  | inl claim =>
      let '(finalizers, removed) := RemoveFinalizer (om_Finalizers (ic_ObjectMeta claim)) IPAddressClaimFinalizer in
      if (removed : bool) then
        wrap (sprintf "failed to update IPAddressClaim %s"
                [AS (KRef (om_Namespace (ic_ObjectMeta claim)) (om_Name (ic_ObjectMeta claim)))])
          (call_res (UpdateIPAddressClaim (set_claim_Finalizers finalizers claim)))
      else ret tt
  end.

Definition deleteIPAddressClaims : MV unit :=
  vm <- getVM ;;
  for_each (pool_refs vm) release_claim.
End claims.

(** * Lemmas *)

(** The positions of the turns are pairwise different and not negative. *)
Lemma pool_turns {A} (devices : list (Z * A)) (pools : A -> list IPPoolReference) :
  NoDup (map fst devices) -> Forall (fun p => 0 <= p.1) devices ->
  let turns := concat (map (fun '(d, device) => map (fun '(p, r) => (d, p, r)) (enumerate (pools device))) devices) in
  NoDup (map fst turns) /\ Forall (fun t => 0 <= t.1.1 /\ 0 <= t.1.2) turns /\
  Forall (fun t => t.1.1 ∈ map fst devices) turns.
Proof.
  intros Hn Hp. induction devices as [|[d x] devices IH]; [by split_and!; constructor|].
  cbn [map concat] in *. rewrite NoDup_cons in Hn. destruct Hn as [Hd Hn]. rewrite Forall_cons in Hp.
  destruct Hp as [Hd0 Hp]. destruct (IH Hn Hp) as (Hnd & Hpos & Hin).
  destruct (enumerate_from_indices 0 (pools x)) as [Hi Hi0]. fold (enumerate (pools x)) in Hi, Hi0.
  split_and!.
  - rewrite map_app. apply NoDup_app. split_and!; [|intros k|exact Hnd].
    + rewrite map_map. rewrite (map_ext _ (fun p => (d, fst p))) by (by intros []).
      rewrite <-(map_map fst (pair d)). apply NoDup_fmap_2; [|exact Hi]. by intros ? ? [= ->].
    + rewrite map_map, !list_elem_of_fmap. intros ([p r] & -> & _) (t & Ht & Htin).
      rewrite Forall_forall in Hin. apply Hd. specialize (Hin _ Htin). rewrite <-Ht in Hin. exact Hin.
  - apply Forall_app. split; [|exact Hpos]. apply Forall_map. eapply Forall_impl; [exact Hi0|].
    intros [p r] Hq. simpl in *. lia.
  - apply Forall_app. split.
    + apply Forall_map, Forall_forall. intros [p r] _. left.
    + eapply Forall_impl; [exact Hin|]. intros t Ht. by right.
Qed.

Lemma claim_names_distinct vm : NoDup (map (claim_name vm) (pool_refs vm)).
Proof.
  destruct (enumerate_from_indices 0 (vm_devices vm)) as [Hn H0].
  destruct (pool_turns (enumerate (vm_devices vm)) nd_AddressesFromPools Hn H0) as (Hnd & Hpos & _).
  fold (pool_refs vm) in Hnd, Hpos. revert Hnd Hpos.
  induction (pool_refs vm) as [|t l IH]; [by constructor|]. cbn [map].
  rewrite !NoDup_cons, Forall_cons. intros [Ht Hnd] [[Hd Hp] Hpos]. split; [|by apply IH].
  rewrite list_elem_of_fmap. intros (t' & Heq & Hin). rewrite Forall_forall in Hpos.
  destruct (Hpos _ Hin) as [Hd' Hp']. apply claim_name_inj in Heq as (_ & Ed & Ep); try done.
  apply Ht. rewrite list_elem_of_fmap. exists t'. split; [|done]. destruct t as [[]], t' as [[]]. simpl in *. congruence.
Qed.

Section lemmas.
Context `{Libs}.

Definition writes_claims (e : effect) : Prop := match e with WritesClaim _ => True | _ => False end.


(** The claim of a turn was asked for and written. *)
Definition claim_written (vm : VSphereVM) (tr : trace) (turn : Z * Z * IPPoolReference) : Prop :=
  exists claim result,
    Call (CreateOrPatchIPAddressClaim (new_claim vm (claim_name vm turn)) (mutate_claim vm turn.2))
      (Ok (claim, result)) ∈ tr.

Lemma claim_written_app_l vm tr tr' turn : claim_written vm tr turn -> claim_written vm (tr ++ tr') turn.
Proof. intros (claim & result & Hin). exists claim, result. in_trace. Qed.
Lemma claim_written_app_r vm tr tr' turn : claim_written vm tr' turn -> claim_written vm (tr ++ tr') turn.
Proof. intros (claim & result & Hin). exists claim, result. in_trace. Qed.

Lemma createOrPatchIPAddressClaim_spec turn c :
  wpm (createOrPatchIPAddressClaim (claim_name (cx_VSphereVM c) turn) turn.2) c (fun tr r c' => c' = c /\
    effects tr = [WritesClaim (claim_name (cx_VSphereVM c) turn)] /\
    match r with Ok _ => claim_written (cx_VSphereVM c) tr turn | _ => True end).
Proof.
  unfold createOrPatchIPAddressClaim. vm_steps; [|done..].
  destruct a as [claim result]. vm_steps. split_and!; [done..|]. exists claim, result. in_trace.
Qed.

Lemma claim_step_spec acc turn c :
  wpm (claim_step acc turn) c (fun tr r c' => c' = c /\
    match r with
    | Ok acc' =>
        effects tr = [WritesClaim (claim_name (cx_VSphereVM c) turn)] /\
        ta_totalClaims acc' = ta_totalClaims acc + 1 /\
        (ta_errList acc' = [] -> ta_errList acc = [] /\ claim_written (cx_VSphereVM c) tr turn)
    | _ => True
    end).
Proof.
  unfold claim_step. do 2 vm_step. do 2 (pass_reads; [done..|]). do 2 wp_step.
  eapply wpm_mono; [apply createOrPatchIPAddressClaim_spec|].
  intros tr1 r c' (-> & Heff & Hw). destruct r as [[claim created]|e|w]; [wp_step..|done].
  - trace_simpl. split_and!; try done. intros He. split; [exact He|].
    by do 2 apply claim_written_app_r.
  - trace_simpl. split_and!; try done. cbn. intros He. by destruct (app_cons_not_nil _ _ _ (eq_sym He)).
Qed.

(** What the turns of the loop have done after [k] of them. *)
Definition turns_done (c : VMContext) (k : nat) (tr : trace) (acc : Tally) : Prop :=
  let vm := cx_VSphereVM c in
  effects tr = map (fun t => WritesClaim (claim_name vm t)) (take k (pool_refs vm)) /\
  ta_totalClaims acc = Z.of_nat k /\
  (ta_errList acc = [] -> Forall (claim_written vm tr) (take k (pool_refs vm))).

Lemma claim_loop_spec c :
  wpm (fold_m claim_step (pool_refs (cx_VSphereVM c)) (mkTally 0 0 0 [] [])) c (fun tr r c' => c' = c /\
    match r with Ok acc => turns_done c (length (pool_refs (cx_VSphereVM c))) tr acc | _ => True end).
Proof.
  apply wpm_fold_m with (I := fun k tr acc c' => c' = c /\ turns_done c k tr acc); [..|done].
  { split; [done|]. unfold turns_done. rewrite take_0. by split_and!. }
  intros k tr acc c' turn Hk [-> (Heff & Htot & Hw)].
  eapply wpm_mono; [apply claim_step_spec|]. intros tr' r c' [-> Hr].
  destruct r as [acc'|e|w]; [|done..]. destruct Hr as (Heff' & Htot' & Hw').
  split; [done|]. unfold turns_done. rewrite (take_S_r _ _ _ Hk), map_app. split_and!.
  - by rewrite effects_app, Heff, Heff'.
  - lia.
  - intros He. destruct (Hw' He) as [He' Hin]. apply Forall_app. split.
    + eapply Forall_impl; [exact (Hw He')|]. intros t. apply claim_written_app_l.
    + constructor; [|done]. by apply claim_written_app_r.
Qed.

Lemma claims_failed_never_ok errs c :
  wpm (claims_failed errs) c (fun _ r _ => match r with Ok _ => False | _ => True end).
Proof. unfold claims_failed. by vm_steps. Qed.

Lemma aggregate_claims_settles l : keeps (aggregate_claims l) /\ calm (aggregate_claims l).
Proof. split; unfold aggregate_claims; [solve_keeps|solve_calm]. Qed.

Lemma count_claims_settles t : keeps (count_claims t) /\ calm (count_claims t).
Proof. split; unfold count_claims; [solve_keeps|solve_calm]. Qed.

Lemma reconcileIPAddressClaims_spec c :
  wpm reconcileIPAddressClaims c (fun tr r c' =>
    match r with
    | Ok _ => same_but_status c c' /\
        effects tr = map (fun t => WritesClaim (claim_name (cx_VSphereVM c) t)) (pool_refs (cx_VSphereVM c)) /\
        Forall (claim_written (cx_VSphereVM c) tr) (pool_refs (cx_VSphereVM c))
    | _ => True
    end).
Proof.
  unfold reconcileIPAddressClaims. do 3 vm_step. eapply wpm_mono; [apply claim_loop_spec|].
  intros tr r c' [-> Hr]. destruct r as [t|e|w]; [|done..].
  destruct Hr as (Heff & _ & Hw). rewrite firstn_all in Heff, Hw.
  assert (Hm : forall m : MV unit, keeps m /\ calm m -> ta_errList t = [] ->
    wpm m c (fun tr' r c' => match r with
      | Ok _ => same_but_status c c' /\
          effects ([] ++ tr ++ tr') =
            map (fun t => WritesClaim (claim_name (cx_VSphereVM c) t)) (pool_refs (cx_VSphereVM c)) /\
          Forall (claim_written (cx_VSphereVM c) ([] ++ tr ++ tr')) (pool_refs (cx_VSphereVM c))
      | _ => True end)).
  { intros m [Hk Hs] He. eapply wpm_mono; [by apply wpm_settles|].
    intros tr' [u|e|w] c' [Hc Hs']; [|done..]. trace_simpl. split_and!; [done..|].
    eapply Forall_impl; [exact (Hw He)|]. intros x. apply claim_written_app_l. }
  destruct (ta_errList t) as [|e errs] eqn:He.
  - cbn [zlen length]. destruct (zlen (ta_claims t) =? ta_totalClaims t).
    + by apply Hm; [apply aggregate_claims_settles|].
    + by apply Hm; [apply count_claims_settles|].
  - replace (0 <? zlen (e :: errs)) with true by (symmetry; apply Z.ltb_lt; unfold zlen; cbn [length]; lia).
    eapply wpm_mono; [apply claims_failed_never_ok|]. by intros tr' [u|e'|w] c'.
Qed.

(** On every way out: only claims were written, and of the VSphereVM only the
    conditions changed. *)
Lemma reconcileIPAddressClaims_within : within writes_claims reconcileIPAddressClaims.
Proof.
  unfold reconcileIPAddressClaims, claim_step, createOrPatchIPAddressClaim, claims_failed. solve_within.
  - apply within_calm, aggregate_claims_settles.
  - apply within_calm, count_claims_settles.
Qed.

Lemma reconcileIPAddressClaims_preserves {X} (f : VMContext -> X) :
  (forall c l, f (set_cx_VSphereVM (SetConditions (cx_VSphereVM c) l) c) = f c) ->
  (forall c l, f (set_cx_VSphereVM (SetV1Beta1Conditions (cx_VSphereVM c) l) c) = f c) ->
  preserves f reconcileIPAddressClaims.
Proof.
  intros H1 H2. unfold reconcileIPAddressClaims, claim_step, createOrPatchIPAddressClaim, claims_failed,
    aggregate_claims, count_claims, set_condition, mark_false, mark_true.
  repeat (cbn zeta; match goal with
  | |- preserves _ (on_vm _) => apply preserves_modify; intros ?; cbn beta; first [apply H1|apply H2]
  | _ => progress solve_preserves
  end).
Qed.

(** when the claims of a VM are reconciled without an error, every pool of
    every device had its own claim created or patched, once, in the order of the
    devices, under a name no other turn has, and every one of these writes went
    through; nothing else outside was changed, and of the VSphereVM only the
    status. *)
Theorem reconcileIPAddressClaims_writes c tr u c' :
  runs (reconcileIPAddressClaims c) tr (Ok u, c') ->
  let vm := cx_VSphereVM c in
  same_but_status c c' /\
  effects tr = map (fun t => WritesClaim (claim_name vm t)) (pool_refs vm) /\
  NoDup (map (claim_name vm) (pool_refs vm)) /\
  Forall (claim_written vm tr) (pool_refs vm).
Proof.
  intros Hr. destruct (proj1 (wpm_runs _ _ _) (reconcileIPAddressClaims_spec c) _ _ _ Hr) as (? & ? & ?).
  split_and!; try done. apply claim_names_distinct.
Qed.

(** what is written to a claim, whatever it was before: the VSphereVM is an
    owner, the finalizer and the name of the cluster are there, the pool is the
    one of the device; its name, its namespace and its address stay, as do its
    other finalizers and labels. *)
Theorem mutate_claim_spec vm poolRef claim :
  let claim' := mutate_claim vm poolRef claim in
  let om := ic_ObjectMeta claim in
  let om' := ic_ObjectMeta claim' in
  ic_PoolRef claim' = poolRef /\
  owner_ref GroupVersion "VSphereVM" (vm_Name vm) (vm_UID vm) ∈ om_OwnerReferences om' /\
  (forall f, f ∈ om_Finalizers om' <-> f ∈ om_Finalizers om \/ f = IPAddressClaimFinalizer) /\
  (exists l, om_Labels om' = Some l /\
     l !! ClusterNameLabel = Some (match om_Labels (vm_ObjectMeta vm) with
                                   | Some l => default "" (l !! ClusterNameLabel) | None => "" end) /\
     forall k, k <> ClusterNameLabel -> l !! k = default ∅ (om_Labels om) !! k) /\
  om_Name om' = om_Name om /\ om_Namespace om' = om_Namespace om /\
  ic_AddressRefName claim' = ic_AddressRefName claim /\ ic_Conditions claim' = ic_Conditions claim.
Proof.
  cbn zeta. unfold mutate_claim. cbn. split_and!; try done.
  - by destruct poolRef.
  - apply EnsureOwnerRef_in.
  - intros f. apply AddFinalizer_spec.
  - eexists. split; [done|]. split; [apply lookup_insert_eq|]. intros k Hk. by apply lookup_insert_ne.
Qed.
(** * Deletion *)

(** The claim of a turn holds nothing back any more: it is gone, or it had no
    finalizer of ours, or it was updated to have none, its others kept. *)
Definition claim_released (vm : VSphereVM) (tr : trace) (turn : Z * Z * IPPoolReference) : Prop :=
  (exists e, Call (GetIPAddressClaim (vm_Namespace vm) (claim_name vm turn)) (Err e) ∈ tr /\ IsNotFound e = true) \/
  (exists claim, Call (GetIPAddressClaim (vm_Namespace vm) (claim_name vm turn)) (Ok claim) ∈ tr /\
     (IPAddressClaimFinalizer ∉ om_Finalizers (ic_ObjectMeta claim) \/
      exists finalizers,
        Call (UpdateIPAddressClaim (set_claim_Finalizers finalizers claim)) (Ok tt) ∈ tr /\
        forall f, f ∈ finalizers <-> f ∈ om_Finalizers (ic_ObjectMeta claim) /\ f <> IPAddressClaimFinalizer)).

Lemma claim_released_app_l vm tr tr' turn : claim_released vm tr turn -> claim_released vm (tr ++ tr') turn.
Proof.
  intros [(e & Hin & He)|(claim & Hin & Hc)]; [left; exists e; split; [in_trace|done]|].
  right. exists claim. split; [in_trace|]. destruct Hc as [Hc|(l & Hl & Hf)]; [by left|].
  right. exists l. split; [in_trace|done].
Qed.
Lemma claim_released_app_r vm tr tr' turn : claim_released vm tr' turn -> claim_released vm (tr ++ tr') turn.
Proof.
  intros [(e & Hin & He)|(claim & Hin & Hc)]; [left; exists e; split; [in_trace|done]|].
  right. exists claim. split; [in_trace|]. destruct Hc as [Hc|(l & Hl & Hf)]; [by left|].
  right. exists l. split; [in_trace|done].
Qed.

Lemma release_claim_spec turn c :
  wpm (release_claim turn) c (fun tr r c' => c' = c /\ Forall writes_claims (effects tr) /\
    match r with Ok _ => claim_released (cx_VSphereVM c) tr turn | _ => True end).
Proof.
  unfold release_claim. do 4 vm_step; vm_steps; [| |by split_and!; try constructor].
  - pose proof (RemoveFinalizer_spec (om_Finalizers (ic_ObjectMeta a)) IPAddressClaimFinalizer) as Hf.
    pose proof (RemoveFinalizer_changed (om_Finalizers (ic_ObjectMeta a)) IPAddressClaimFinalizer) as Hc.
    destruct (RemoveFinalizer _ _) as [finalizers removed]. cbn [fst snd] in *. subst removed.
    case_bool_decide as Hin; vm_steps; (split_and!; [done|repeat constructor|try done]).
    + destruct a0. right. exists a. split; [in_trace|]. right. exists finalizers. split; [in_trace|exact Hf].
    + right. exists a. split; [in_trace|]. by left.
  - destruct (IsNotFound e) eqn:En; vm_steps; (split_and!; [done|repeat constructor|try done]).
    left. exists e. split; [in_trace|done].
Qed.

Lemma deleteIPAddressClaims_spec c :
  wpm deleteIPAddressClaims c (fun tr r c' => c' = c /\ Forall writes_claims (effects tr) /\
    match r with Ok _ => Forall (claim_released (cx_VSphereVM c) tr) (pool_refs (cx_VSphereVM c)) | _ => True end).
Proof.
  unfold deleteIPAddressClaims. do 2 vm_step. cbn [app].
  induction (pool_refs (cx_VSphereVM c)) as [|turn l IH]; [by vm_steps; split_and!; try constructor|].
  cbn [for_each]. vm_step. eapply wpm_mono; [apply release_claim_spec|].
  intros tr r c' (-> & He & Hr). destruct r as [u|e|w]; [|done..].
  eapply wpm_mono; [apply IH|]. intros tr' r c' (-> & He' & Hr'). split; [done|].
  rewrite effects_app, Forall_app. split; [done|]. destruct r as [u'|e|w]; [|done..]. constructor.
  - by apply claim_released_app_l.
  - eapply Forall_impl; [exact Hr'|]. intros t. apply claim_released_app_r.
Qed.

(** when releasing the claims of a VM succeeds, each of them was not there,
    or had no finalizer of this controller, or was updated with that finalizer
    and no other taken out; the VSphereVM is not changed, and whether it succeeds
    or not nothing but claims was written. *)
Theorem deleteIPAddressClaims_releases c tr r c' :
  runs (deleteIPAddressClaims c) tr (r, c') ->
  c' = c /\ Forall writes_claims (effects tr) /\
  match r with Ok _ => Forall (claim_released (cx_VSphereVM c) tr) (pool_refs (cx_VSphereVM c)) | _ => True end.
Proof. intros Hr. exact (proj1 (wpm_runs _ _ _) (deleteIPAddressClaims_spec c) _ _ _ Hr). Qed.
End lemmas.

(** * Concrete inputs *)

Section examples.
Import RefLibs.

Definition sample_pool_device (pools : list IPPoolReference) : NetworkDeviceSpec :=
  set_nd_AddressesFromPools pools NetworkDeviceSpec_zero.
Definition sample_pools_context : VMContext :=
  sample_context (sample_vm (set_cs_Network (mkNetworkSpec
    [sample_pool_device [mkIPPoolReference "pool-a" "Pool" "ipam"];
     sample_pool_device [mkIPPoolReference "pool-b" "Pool" "ipam"; mkIPPoolReference "pool-a" "Pool" "ipam"]] [])
    VirtualMachineCloneSpec_zero) "hard" "").
Definition sample_claims_run := run reconcileIPAddressClaims sample_pools_context empty_world.
Lemma sample_claims_runs :
  runs (reconcileIPAddressClaims sample_pools_context) sample_claims_run.1 (Ok tt, sample_claims_run.2.2).
Proof. exact (run_runs reconcileIPAddressClaims sample_pools_context empty_world). Qed.

Lemma reconcileIPAddressClaims_writes_witness :
  map (claim_name (cx_VSphereVM sample_pools_context)) (pool_refs (cx_VSphereVM sample_pools_context)) =
    ["vm-1-0-0"; "vm-1-1-0"; "vm-1-1-1"] /\
  effects sample_claims_run.1 =
    map (fun t => WritesClaim (claim_name (cx_VSphereVM sample_pools_context) t))
      (pool_refs (cx_VSphereVM sample_pools_context)).
Proof.
  split; [reflexivity|]. exact (proj1 (proj2 (reconcileIPAddressClaims_writes _ _ _ _ sample_claims_runs))).
Defined.

Definition sample_release_run := run deleteIPAddressClaims sample_pools_context empty_world.
Lemma sample_release_runs :
  runs (deleteIPAddressClaims sample_pools_context) sample_release_run.1 (Ok tt, sample_release_run.2.2).
Proof. exact (run_runs deleteIPAddressClaims sample_pools_context empty_world). Qed.

Lemma deleteIPAddressClaims_releases_witness :
  Forall (claim_released (cx_VSphereVM sample_pools_context) sample_release_run.1)
    (pool_refs (cx_VSphereVM sample_pools_context)).
Proof. exact (proj2 (proj2 (deleteIPAddressClaims_releases _ _ _ _ sample_release_runs))). Defined.

(** A VM without pools, whose claims count as fulfilled, is given the reason of
    claims that are not. *)
Definition sample_no_pools_run :=
  run reconcileIPAddressClaims (sample_context (sample_vm VirtualMachineCloneSpec_zero "hard" "")) empty_world.
Lemma no_pools_reason :
  sample_no_pools_run.2.1 = Ok tt /\
  option_map (fun c => (c_Status c, c_Reason c))
    (conditions_Get (GetConditions (cx_VSphereVM sample_no_pools_run.2.2)) VSphereVMIPAddressClaimsFulfilledCondition)
  = Some (ConditionTrue, VSphereVMIPAddressClaimsNotFulfilledReason).
Proof. split; reflexivity. Qed.
End examples.

End Claims.
