(* ===== verification/VMController.v ===== *)
(** [controllers/vspherevm_controller.go]: the reconciler of VSphereVMs around
    the VM service. *)
From S2P Require Import Prelude GoStrings Types Libs Errors Prog World RefLibs Identity Owners MachineUtil.
From S2P Require Import GoBase64 Metadata VMUtil VMService VMPass VMInterface VMRefine Claims.
Import Identity Owners VMUtil VMInterface Claims.

Module VMController.

(** The part of the manager's context the reconciler reads, and whether the
    feature gate [NodeAntiAffinity] is on. *)
Record vmReconciler := mkVmReconciler {
  rc_Username : string;
  rc_Password : string;
  rc_Namespace : string;
  rc_NodeAntiAffinity : bool
}.

(** [reconcile.Result]: how long to wait; nothing is asked for by zero. *)
Definition Result := Z.

Record fetchClusterModuleInput := mkFetchClusterModuleInput {
  fi_VSphereCluster : VSphereCluster;
  fi_Machine : Machine
}.

Section controller.
Context `{Libs} `{!VirtualMachineService}.
Open Scope go_scope.

(** * The session with vCenter *)

Definition manager_params (r : vmReconciler) (vm : VSphereVM) : Params :=
  mkParams (cs_Server (vm_clone vm)) (cs_Datacenter (vm_clone vm)) (rc_Username r, rc_Password r)
    (cs_Thumbprint (vm_clone vm)).

Definition retrieveVcenterSession (r : vmReconciler) : MV Session :=
  vsphereVM <- getVM ;;
  let params := manager_params r vsphereVM in
  rcl <- try (call_res (GetClusterFromMetadata (vm_ObjectMeta vsphereVM))) ;;
  match rcl with
  | inr _ => GetOrCreate params
  | inl cluster =>
      let om := kc_ObjectMeta cluster in
      match kc_InfrastructureRefName cluster with
      | None => fail (ENew (sprintf "cannot retrieve vCenter session for cluster %s: Cluster.spec.infrastructureRef is nil"
                              [AS (KRef (om_Namespace om) (om_Name om))]))
      | Some refName =>
          rvc <- try (call_res (GetVSphereCluster (om_Namespace om) refName)) ;;
          match rvc with
          | inr _ => GetOrCreate params
          | inl vsphereCluster =>
              if VSphereIdentityReference_IsDefined (ls_IdentityRef (vc_Spec vsphereCluster)) then
                creds <- wrap "failed to get credentials from IdentityRef"
                           (GetCredentials (Some vsphereCluster) (rc_Namespace r)) ;;
                GetOrCreate (mkParams (pa_server params) (pa_datacenter params)
                               (cr_Username creds, cr_Password creds) (pa_thumbprint params))
              else GetOrCreate params
          end
      end
  end.

(** * Cluster modules *)

Fixpoint find_module (mods : list ClusterModule) (owner : string) : option string :=
  match mods with
  | [] => None
  | m :: mods => if String.eqb (cm_TargetObjectName m) owner then Some (cm_ModuleUUID m)
                 else find_module mods owner
  end.

Definition fetchClusterModuleInfo (input : fetchClusterModuleInput) : MV (option string) :=
  let machine := mc_ObjectMeta (fi_Machine input) in
  r <- try (if MachineUtil.IsControlPlaneMachine (om_Labels machine)
            then FetchControlPlaneOwnerObject machine
            else FetchMachineDeploymentOwnerObject machine) ;;
  match r with
  | inr err => if IsNotFound err then ret None else fail err
  | inl owner => ret (find_module (ls_ClusterModules (vc_Spec (fi_VSphereCluster input))) (om_Name owner))
  end.

(** * Deletion *)

Definition deleteNode (name : string) : MV unit :=
  vm <- getVM ;;
  cluster <- call_res (GetClusterFromMetadata (vm_ObjectMeta vm)) ;;
  let om := kc_ObjectMeta cluster in
  match om_DeletionTimestamp om with
  | Some _ => ret tt
  | None =>
      r <- try (call_res (ClusterCacheGetClient (om_Namespace om) (om_Name om))) ;;
      match r with
      | inr err => if IsClusterNotConnected err then ret tt else fail err
      | inl _ => call_res (DeleteNode (om_Namespace om) (om_Name om) name)
      end
  end.

(** [ctrlutil.RemoveFinalizer(vm, f)]. *)
Definition remove_finalizer (f : string) (vm : VSphereVM) : VSphereVM :=
  let om := vm_ObjectMeta vm in
  set_vm_ObjectMeta (set_om_Finalizers (RemoveFinalizer (om_Finalizers om) f).1 om) vm.

(** The VM is gone: what is left of it is let go. *)
Definition release_vm (name : string) : MV Result :=
  try (deleteNode name) ;;
  deleteIPAddressClaims ;;
  on_vm (remove_finalizer VMFinalizer) ;;
  ret 0.

Definition reconcileDelete : MV Result :=
  mark_false VMProvisionedV1Beta1Condition DeletingV1Beta1Reason SeverityInfo "" ;;
  set_condition (cond VSphereVMVirtualMachineProvisionedCondition ConditionFalse DeletingReason "") ;;
  r <- try svc_DestroyVM ;;
  match r with
  | inr err =>
      mark_false VMProvisionedV1Beta1Condition "DeletionFailed" SeverityWarning (sprintf "%v" [AS (error_string err)]) ;;
      set_condition (cond VSphereVMVirtualMachineProvisionedCondition ConditionFalse DeletingReason (error_string err)) ;;
      fail (EWrap "failed to destroy VM" err)
  | inl result =>
      let wait := ptr_deref result 0 in
      if negb (wait =? 0) then ret wait
      else
        vm <- gets cx_State ;;
        if negb (String.eqb (v_State vm) VirtualMachineStateNotFound) then ret 0
        else
          release_vm (v_Name vm)
  end.

(** * Reconciling *)

(** Whether a device expects an address that is not there yet. *)
Definition waits_for_ip (dev : NetworkDeviceSpec) : bool :=
  if ptr_deref (nd_SkipIPAllocation dev) false then false
  else if ptr_deref (nd_DHCP4 dev) false || ptr_deref (nd_DHCP6 dev) false then false
  else (zlen (nd_IPAddrs dev) =? 0) && (zlen (nd_AddressesFromPools dev) =? 0).

Definition isWaitingForStaticIPAllocation (vm : VSphereVM) : bool := existsb waits_for_ip (vm_devices vm).

Definition reconcileNetwork (vm : VirtualMachine) (vsphereVM : VSphereVM) : VSphereVM :=
  let ipAddrs := concat (map st_IPAddrs (v_Network vm)) in
  on_status (set_vt_Addresses ipAddrs) (on_status (set_vt_Network (v_Network vm)) vsphereVM).

Definition update_biosUUID (vm : VirtualMachine) (vsphereVM : VSphereVM) : VSphereVM :=
  if negb (String.eqb (vs_BiosUUID (vm_Spec vsphereVM)) (v_BiosUUID vm))
  then set_vm_Spec (set_vs_BiosUUID (v_BiosUUID vm) (vm_Spec vsphereVM)) vsphereVM else vsphereVM.

Definition update_VMRef (vm : VirtualMachine) (vsphereVM : VSphereVM) : VSphereVM :=
  if negb (String.eqb (v_VMRef vm) "") && String.eqb (vt_VMRef (vm_Status vsphereVM)) ""
  then on_status (set_vt_VMRef (v_VMRef vm)) vsphereVM else vsphereVM.

(** What is done with a VM that is ready. *)
Definition vm_ready (vm : VirtualMachine) : MV Result :=
  if String.eqb (v_BiosUUID vm) "" then fail (ENew "biosUUID is empty while VM is ready")
  else
    on_vm (fun vsphereVM => reconcileNetwork vm (update_VMRef vm (update_biosUUID vm vsphereVM))) ;;
    vsphereVM <- getVM ;;
    if zlen (vt_Addresses (vm_Status vsphereVM)) =? 0 then
      mark_false VMProvisionedV1Beta1Condition WaitingForIPAllocationV1Beta1Reason SeverityInfo "" ;;
      set_condition (cond VSphereVMVirtualMachineProvisionedCondition ConditionFalse
                       VSphereVMVirtualMachineWaitingForIPAllocationReason "") ;;
      ret (10 * 1000000000)
    else
      on_vm (on_status (set_vt_Ready (Some true))) ;;
      mark_true VMProvisionedV1Beta1Condition ;;
      set_condition (cond VSphereVMVirtualMachineProvisionedCondition ConditionTrue ProvisionedReason "") ;;
      ret 0.

Definition reconcileNormal : MV Result :=
  vsphereVM <- getVM ;;
  if isWaitingForStaticIPAllocation vsphereVM then
    mark_false VMProvisionedV1Beta1Condition WaitingForStaticIPAllocationV1Beta1Reason SeverityInfo "" ;;
    set_condition (cond VSphereVMVirtualMachineProvisionedCondition ConditionFalse
                     VSphereVMVirtualMachineWaitingForStaticIPAllocationReason "") ;;
    ret 0
  else
    reconcileIPAddressClaims ;;
    wrap "failed to reconcile VM" svc_ReconcileVM ;;
    vm <- gets cx_State ;;
    if negb (String.eqb (v_State vm) VirtualMachineStateReady) then
      vsphereVM <- getVM ;;
      match vt_RetryAfter (vm_Status vsphereVM) with
      | Some t => now <- ask Now ;; ret (t - now)
      | None => ret 0
      end
    else vm_ready vm.

(** [reconcile]. *)
Definition reconcile_deletion_or_normal : MV Result :=
  vm <- getVM ;;
  match om_DeletionTimestamp (vm_ObjectMeta vm) with
  | Some _ => reconcileDelete
  | None => reconcileNormal
  end.

Definition reconcile (r : vmReconciler) (input : fetchClusterModuleInput) : MV Result :=
  (if rc_NodeAntiAffinity r && negb (ptr_deref (ls_DisableClusterModule (vc_Spec (fi_VSphereCluster input))) false)
   then
     vm <- getVM ;;
     info <- try (fetchClusterModuleInfo input) ;;
     match info with
     | inr err =>
         match om_DeletionTimestamp (vm_ObjectMeta vm) with
         | None => fail err
         | Some _ => modify (set_cx_ClusterModuleInfo None)
         end
     | inl info => modify (set_cx_ClusterModuleInfo info)
     end
   else ret tt) ;;
  reconcile_deletion_or_normal.
(** * [Reconcile] *)

(** Looks at the cached VSphereVM every 5 milliseconds, for 5 seconds: a thousand
    times after the first. *)
Fixpoint poll_cache (fuel : nat) (originalTaskRef : string) : MV unit :=
  match fuel with
  | O => fail (ELib OtherLibError "context deadline exceeded")
  | S fuel =>
      vm <- getVM ;;
      cached <- call_res (GetVSphereVM (vm_Namespace vm) (vm_Name vm)) ;;
      if negb (String.eqb originalTaskRef (vt_TaskRef (vm_Status cached))) then ret tt
      else
        intervalPassed <- ask PollInterval ;;
        if (intervalPassed : bool) then poll_cache fuel originalTaskRef
        else fail (ELib OtherLibError "context deadline exceeded")
  end.
Definition poll_times : nat := 1001.

(** Before the summary: [VirtualMachineProvisioned] is always set. *)
Definition ensure_provisioned_condition : MV unit :=
  vm <- getVM ;;
  if conditions_Has (GetConditions vm) VSphereVMVirtualMachineProvisionedCondition then ret tt
  else if ptr_deref (vt_Ready (vm_Status vm)) false then
    set_condition (cond VSphereVMVirtualMachineProvisionedCondition ConditionTrue ProvisionedReason "")
  else
    set_condition (cond VSphereVMVirtualMachineProvisionedCondition ConditionFalse NotProvisionedReason "").

(** [conditions.SetSummaryCondition]: the text of its error. *)
Definition set_summary : MV (option string) :=
  now <- ask Now ;;
  on_vm (fun vm => SetV1Beta1Conditions vm (v1beta1_SetSummary now (GetV1Beta1Conditions vm)
    [VCenterAvailableV1Beta1Condition; IPAddressClaimedV1Beta1Condition; VMProvisionedV1Beta1Condition])) ;;
  now <- ask Now ;;
  vm <- getVM ;;
  match conditions_SetSummary now (GetConditions vm) ReadyCondition
          [VSphereVMVCenterAvailableCondition; VSphereVMVirtualMachineProvisionedCondition;
           VSphereVMIPAddressClaimsFulfilledCondition]
          [VSphereVMVCenterAvailableCondition; VSphereVMIPAddressClaimsFulfilledCondition]
          (NotReadyReason, ReadyUnknownReason, ReadyReason) with
  | inl conditions => on_vm (fun vm => SetConditions vm conditions) ;; ret None
  | inr msg => ret (Some msg)
  end.

(** Patches, and waits until the cache shows that the task changed. *)
Definition patch_and_wait (originalTaskRef : string) (reterr : option error) : MV (option error) :=
  patched <- try Patch ;;
  let reterr := match patched with
                | inr err => NewAggregate [reterr; Some err]
                | inl _ => reterr
                end in
  vm <- getVM ;;
  if negb (String.eqb (vt_TaskRef (vm_Status vm)) originalTaskRef) then
    polled <- try (poll_cache poll_times originalTaskRef) ;;
    ret (NewAggregate [reterr; match polled with inr err => Some err | inl _ => None end])
  else ret reterr.

(** The deferred function: the summary, the patch, the wait for the cache. *)
Definition on_exit (originalTaskRef : string) (reterr : option error) : MV (option error) :=
  ensure_provisioned_condition ;;
  failed <- set_summary ;;
  match failed with
  | Some msg =>
      ret (NewAggregate [reterr; Some (EWrap (sprintf "failed to set %s condition" [AS ReadyCondition])
                                         (ELib OtherLibError msg))])
  | None =>
      patch_and_wait originalTaskRef reterr
  end.

(** From the context on. *)
Definition reconcile_context (r : vmReconciler) (input : fetchClusterModuleInput) : MV Result :=
  vm <- getVM ;;
  finally (on_exit (vt_TaskRef (vm_Status vm))) (reconcile r input).

Definition failure_domain (failureDomain : string) : MV (option VSphereFailureDomain) :=
  if negb (String.eqb failureDomain "") then
    zone <- wrap (sprintf "failed to get VSphereDeploymentZone %s" [AS failureDomain])
              (call_res (GetVSphereDeploymentZone failureDomain)) ;;
    let name := dz_FailureDomain (zn_Spec zone) in
    fd <- wrap (sprintf "failed to get VSphereFailureDomain %s" [AS name]) (call_res (GetVSphereFailureDomain name)) ;;
    ret (Some fd)
  else ret None.

(** From the session to the context: the owners of the VSphereVM. *)
Definition reconcile_owned (r : vmReconciler) : MV Result :=
  vsphereVM <- getVM ;;
  vsphereMachine <- wrap "failed to get VSphereMachine for VSphereVM"
                      (GetOwnerVSphereMachine (vm_ObjectMeta vsphereVM)) ;;
  match vsphereMachine with
  | None => ret 0
  | Some vsphereMachine =>
      vsphereCluster <- wrap "failed to get VSphereCluster from VSphereMachine"
                          (GetVSphereClusterFromVSphereMachine vsphereMachine) ;;
      machine <- wrap "failed to get Machine for VSphereMachine"
                   (call_res (GetOwnerMachine (p_ObjectMeta vsphereMachine))) ;;
      match machine with
      | None => ret 0
      | Some machine =>
          call_res (AddOwners machine) ;;
          fd <- failure_domain (mc_FailureDomain machine) ;;
          modify (set_cx_VSphereFailureDomain fd) ;;
          reconcile_context r (mkFetchClusterModuleInput vsphereCluster machine)
      end
  end.

(** [vsphereVM] is a variable of [Reconcile] before it is part of a context; it is
    kept in one from the start. *)
Definition reconcile_vsphereVM (r : vmReconciler) : MV Result :=
  vsphereVM <- getVM ;;
  rcl <- try (call_res (GetClusterFromMetadata (vm_ObjectMeta vsphereVM))) ;;
  let cluster := match rcl with inl c => Some c | inr _ => None end in
  finalizerAdded <- call_res (EnsureFinalizer vsphereVM VMFinalizer) ;;
  if (finalizerAdded : bool) then ret 0
  else
    call_res (NewPatchHelper vsphereVM) ;;
    paused <- call_res (EnsurePausedCondition cluster vsphereVM) ;;
    let '(isPaused, requeue) := paused in
    if (isPaused || requeue : bool) then ret 0
    else
      authSession <- try (retrieveVcenterSession r) ;;
      match authSession with
      | inr err =>
          mark_false VCenterAvailableV1Beta1Condition VCenterUnreachableV1Beta1Reason SeverityError
            (sprintf "%v" [AS (error_string err)]) ;;
          set_condition (cond VSphereVMVCenterAvailableCondition ConditionFalse VSphereVMVCenterUnreachableReason
                           (error_string err)) ;;
          fail err
      | inl authSession =>
          mark_true VCenterAvailableV1Beta1Condition ;;
          set_condition (cond VSphereVMVCenterAvailableCondition ConditionTrue AvailableReason "") ;;
          modify (set_cx_Session authSession) ;;
          reconcile_owned r
      end.

Definition fresh_context (vm : VSphereVM) : VMContext :=
  mkVMContext vm None None false "" (mkVirtualMachine "" "" "" [] "") ∅.

Definition Reconcile (r : vmReconciler) (namespace name : string) : M Ev unit Result :=
  got <- try (call_res (GetVSphereVM namespace name)) ;;
  match got with
  | inr err => if IsNotFound err then ret 0 else fail err
  | inl vsphereVM => local (fresh_context vsphereVM) (reconcile_vsphereVM r)
  end.

(** * Which VSphereVMs to reconcile when another object changes *)

Definition requests_of (vms : list VSphereVM) : list (string * string) :=
  map (fun vm => (vm_Namespace vm, vm_Name vm)) vms.

Definition clusterToVSphereVMs (a : ObjectMeta) : M Ev unit (list (string * string)) :=
  vms <- try (call_res (ListVSphereVMs (om_Name a))) ;;
  ret (match vms with inl vms => requests_of vms | inr _ => [] end).

Definition vsphereClusterToVSphereVMs (vsphereCluster : VSphereCluster) : M Ev unit (list (string * string)) :=
  match om_Labels (vc_ObjectMeta vsphereCluster) ≫= (fun l => l !! ClusterNameLabel) with
  | None => ret []
  | Some clusterName =>
      vms <- try (call_res (ListVSphereVMs clusterName)) ;;
      ret (match vms with inl vms => requests_of vms | inr _ => [] end)
  end.
(** The first owner that is a VSphereVM. *)
Definition ipAddressClaimToVSphereVM (ipAddressClaim : IPAddressClaim) : list (string * string) :=
  let om := ic_ObjectMeta ipAddressClaim in
  if HasOwner (om_OwnerReferences om) GroupVersion ["VSphereVM"] then
    match List.find (fun ref => String.eqb (or_Kind ref) "VSphereVM") (om_OwnerReferences om) with
    | Some ref => [(om_Namespace om, or_Name ref)]
    | None => []
    end
  else [].
End controller.

(** * Lemmas *)

Section lemmas.
Context `{Libs} `{!VirtualMachineService}.

(** Everything of the object but its finalizers and its status. *)
Definition same_desire (c c' : VMContext) : Prop :=
  vm_Spec (cx_VSphereVM c') = vm_Spec (cx_VSphereVM c) /\
  set_om_Finalizers [] (vm_ObjectMeta (cx_VSphereVM c')) = set_om_Finalizers [] (vm_ObjectMeta (cx_VSphereVM c)) /\
  vm_GVK (cx_VSphereVM c') = vm_GVK (cx_VSphereVM c).

#[local] Instance same_desire_preorder : PreOrder same_desire.
Proof. split; [done|]. intros c1 c2 c3 (? & ? & ?) (? & ? & ?). split_and!; congruence. Qed.

Lemma same_object_desire c c' : same_object c c' -> same_desire c c'.
Proof. intros (Hs & Hm & Hg & _). split_and!; [done|by rewrite Hm|done]. Qed.

Definition finalizers (c : VMContext) : list string := om_Finalizers (vm_ObjectMeta (cx_VSphereVM c)).
Lemma same_object_finalizers c c' : same_object c c' -> finalizers c' = finalizers c.
Proof. intros (_ & Hm & _). unfold finalizers. by rewrite Hm. Qed.

Lemma deleteNode_spec name c :
  wpm (deleteNode name) c (fun tr r c' => c' = c /\ (effects tr = [] \/ effects tr = [DeletesNode name])).
Proof.
  unfold deleteNode. do 4 vm_step; [|by auto..].
  destruct (om_DeletionTimestamp (kc_ObjectMeta a)); vm_steps; [by auto..| |by auto].
  destruct (IsClusterNotConnected e); vm_steps; by auto.
Qed.

(** ** Conditions that are set on the way *)

Definition annotated (c c' : VMContext) : Prop :=
  same_but_status c c' /\ TaskRef c' = TaskRef c /\ published c' = published c.

Definition unobserved (tr : trace) : Prop := effects tr = [] /\ power_states tr = [].

Lemma wpm_annotate_false {A} ty reason sev msg cnd (k : MV A) c (Q : trace -> res A -> VMContext -> Prop) :
  (forall tr c1, unobserved tr -> annotated c c1 -> wpm k c1 (fun tr' => Q (tr ++ tr')%list)) ->
  wpm (mark_false ty reason sev msg ;; set_condition cnd ;; k)%go c Q.
Proof.
  intros Hk. do 4 vm_step. eapply wpm_mono; [apply (Hk [Call Now now; Call Now now0])|]; [done|by repeat split|done].
Qed.
Lemma wpm_annotate_true {A} ty cnd (k : MV A) c (Q : trace -> res A -> VMContext -> Prop) :
  (forall tr c1, unobserved tr -> annotated c c1 -> wpm k c1 (fun tr' => Q (tr ++ tr')%list)) ->
  wpm (mark_true ty ;; set_condition cnd ;; k)%go c Q.
Proof.
  intros Hk. do 4 vm_step. eapply wpm_mono; [apply (Hk [Call Now now; Call Now now0])|]; [done|by repeat split|done].
Qed.

Lemma unobserved_tasks tr : unobserved tr -> started_tasks tr = [].
Proof. intros [He _]. by apply quiet_started_tasks. Qed.

(** ** Deletion *)

(** What reconciling a deletion may ask for. *)
Definition delete_effect (e : effect) : Prop :=
  destroy_effect e \/ match e with DeletesNode _ | WritesClaim _ => True | _ => False end.

Lemma release_tasks l tr : Forall writes_claims (effects tr) -> started_tasks tr = l -> l = [].
Proof.
  intros Hf <-. apply started_tasks_none. eapply Forall_impl; [exact Hf|]. by intros [].
Qed.

Lemma release_vm_spec name c :
  wpm (release_vm name) c (fun tr r c' => same_desire c c' /\ published c' = published c /\
    TaskRef c' = TaskRef c /\ Forall delete_effect (effects tr) /\ started_tasks tr = [] /\
    (finalizers c' = finalizers c \/
     r = Ok 0 /\ Forall (claim_released (cx_VSphereVM c) tr) (pool_refs (cx_VSphereVM c)) /\
     forall f, f ∈ finalizers c' <-> f ∈ finalizers c /\ f <> VMFinalizer)).
Proof.
  unfold release_vm. do 2 wp_step. eapply wpm_mono; [apply deleteNode_spec|]. intros tr1 r1 c1 [-> He1].
  assert (Hd : Forall delete_effect (effects tr1) /\ started_tasks tr1 = []).
  { split; [|apply started_tasks_none]; destruct He1 as [-> | ->]; repeat constructor; by right. }
  destruct Hd as [Hd Hs].
  assert (Hk : forall r : res (unit + error), wpm (deleteIPAddressClaims ;; on_vm (remove_finalizer VMFinalizer) ;; ret 0)%go c
    (fun tr' r0 s' => same_desire c s' /\ published s' = published c /\ TaskRef s' = TaskRef c /\
      Forall delete_effect (effects (tr1 ++ tr')) /\ started_tasks (tr1 ++ tr') = [] /\
      (finalizers s' = finalizers c \/
       r0 = Ok 0 /\ Forall (claim_released (cx_VSphereVM c) (tr1 ++ tr')) (pool_refs (cx_VSphereVM c)) /\
       forall f, f ∈ finalizers s' <-> f ∈ finalizers c /\ f <> VMFinalizer))).
  { intros _. vm_step. eapply wpm_mono; [apply deleteIPAddressClaims_spec|]. intros tr2 r2 c2 (-> & He2 & Hr2).
    assert (Hd2 : Forall delete_effect (effects (tr1 ++ tr2)) /\ started_tasks (tr1 ++ tr2) = []).
    { rewrite effects_app, started_tasks_app, Hs, (release_tasks _ tr2 He2 eq_refl). split; [|done].
      apply Forall_app. split; [done|]. eapply Forall_impl; [exact He2|]. intros []; try done; by right. }
    destruct Hd2 as [Hd2 Hs2].
    destruct r2 as [u|e|w]; [vm_steps; rewrite ?app_nil_r| |]; (split_and!; try done; try (by left)).
    right. split; [done|]. split.
    - eapply Forall_impl; [exact Hr2|]. intros t. apply claim_released_app_r.
    - intros f. unfold finalizers. cbn. apply RemoveFinalizer_spec. }
  destruct r1 as [u|e|w]; cbn beta iota.
  - by apply (Hk (Ok (inl u))).
  - by apply (Hk (Ok (inr e))).
  - split_and!; try done. by left.
Qed.

Record delete_post (c : VMContext) (tr : trace) (r : res Result) (c' : VMContext) : Prop := {
  dl_desire : same_desire c c';
  dl_published : published c' = published c;
  dl_effects : Forall delete_effect (effects tr);
  dl_tasks : started_tasks tr = [] \/ one_task tr c';
  dl_finalizers : finalizers c' = finalizers c \/
    r = Ok 0 /\ started_tasks tr = [] /\ vm_gone (cx_VSphereVM c) tr /\
    Forall (claim_released (cx_VSphereVM c) tr) (pool_refs (cx_VSphereVM c)) /\
    forall f, f ∈ finalizers c' <-> f ∈ finalizers c /\ f <> VMFinalizer
}.

Lemma same_object_pools c c1 : same_object c c1 -> pool_refs (cx_VSphereVM c1) = pool_refs (cx_VSphereVM c).
Proof. intros (Hs & _). unfold pool_refs, vm_devices, vm_clone. by rewrite Hs. Qed.
Lemma same_object_released c c1 tr t :
  same_object c c1 -> claim_released (cx_VSphereVM c1) tr t -> claim_released (cx_VSphereVM c) tr t.
Proof. intros (_ & Hm & _). unfold claim_released, claim_name, vm_Namespace, vm_Name. by rewrite Hm. Qed.

Lemma delete_stop c c1 c2 tr0 tr tr2 r :
  same_object c c1 -> published c1 = published c -> Forall destroy_effect (effects tr) ->
  started_tasks tr = [] \/ one_task tr c1 -> unobserved tr0 -> unobserved tr2 -> annotated c1 c2 ->
  delete_post c (tr0 ++ tr ++ tr2)%list r c2.
Proof.
  intros Hs Hp He Ht Hu0 Hu2 ([Hs2 _] & Ht2 & Hp2).
  pose proof (unobserved_tasks _ Hu0) as Hq0. pose proof (unobserved_tasks _ Hu2) as Hq2.
  destruct Hu0 as [He0 _], Hu2 as [He2 _]. split.
  - apply same_object_desire. by etrans.
  - congruence.
  - rewrite !effects_app, He0, He2, app_nil_r. eapply Forall_impl; [exact He|]. by left.
  - unfold one_task in *. rewrite !started_tasks_app, Hq0, Hq2, app_nil_r, Ht2. exact Ht.
  - left. apply same_object_finalizers. by etrans.
Qed.

Lemma reconcileDelete_spec c : wpm reconcileDelete c (delete_post c).
Proof.
  unfold reconcileDelete. apply wpm_annotate_false. intros tr0 c0 Hu0 ([Ho0 _] & Ht0 & Hp0).
  do 2 vm_step. eapply wpm_mono; [apply svc_DestroyVM_contract|]. intros tr r c1 [Hs Hp He Ht Hg].
  assert (Hs' : same_object c c1) by (by etrans). rewrite Hp0 in Hp.
  assert (Hnil : forall r', delete_post c (tr0 ++ tr ++ [])%list r' c1).
  { intros r'. by apply (delete_stop c c1 c1). }
  destruct r as [result|e|w]; cbn beta iota zeta; [| |rewrite <-(app_nil_r tr); apply Hnil].
  - destruct (ptr_deref result 0 =? 0); cbn [negb]; [|vm_step; apply Hnil].
    do 2 vm_step.
    destruct (String.eqb_spec (v_State (cx_State c1)) VirtualMachineStateNotFound) as [Hst|_]; cbn [negb];
      [|vm_step; apply Hnil].
    destruct (Hg Hst) as [Hq Hgone]. eapply wpm_mono; [apply release_vm_spec|].
    intros tr2 r2 c2 (Hd2 & Hp2 & Ht2 & He2 & Hs2 & Hf2). cbn [app].
    pose proof (unobserved_tasks _ Hu0) as Hq0. destruct Hu0 as [He0 _]. split.
    + etrans; [by apply same_object_desire|exact Hd2].
    + congruence.
    + rewrite !effects_app, He0. cbn [app]. apply Forall_app. split; [|done]. eapply Forall_impl; [exact He|]. by left.
    + left. by rewrite !started_tasks_app, Hq0, Hq, Hs2.
    + rewrite (same_object_finalizers _ _ Hs') in Hf2. destruct Hf2 as [Hf2|(-> & Hr2 & Hf2)]; [by left|right].
      split_and!; [done|by rewrite !started_tasks_app, Hq0, Hq, Hs2| | |done].
      * apply vm_gone_app. exact (vm_gone_same _ _ _ Ho0 Hgone).
      * rewrite (same_object_pools _ _ Hs') in Hr2. eapply Forall_impl; [exact Hr2|]. intros t Ht'.
        do 2 apply claim_released_app_r. by eapply same_object_released.
  - apply wpm_annotate_false. intros tr2 c2 Hu2 Ha2. vm_step. rewrite app_nil_r. by apply (delete_stop c c1 c2).
Qed.

(** ** Reconciling *)

Lemma claims_frame c :
  wpm reconcileIPAddressClaims c (fun tr r c' => same_object c c' /\ TaskRef c' = TaskRef c /\
    published c' = published c /\ Forall writes_claims (effects tr)).
Proof.
  apply wpm_runs. intros tr r c' Hr.
  pose proof (proj1 (wpm_runs _ _ _) (reconcileIPAddressClaims_within c) _ _ _ Hr) as Hw.
  pose proof (proj1 (wpm_runs _ _ _) (reconcileIPAddressClaims_preserves (fun c =>
    (vm_Spec (cx_VSphereVM c), vm_ObjectMeta (cx_VSphereVM c), vm_GVK (cx_VSphereVM c), cx_ClusterModuleInfo c,
     cx_VSphereFailureDomain c, cx_IsVC c, cx_ApiType c)) ltac:(reflexivity) ltac:(reflexivity) c)
    _ _ _ Hr) as Ho. cbn beta in Ho. injection Ho as ? ? ? ? ? ? ?.
  pose proof (proj1 (wpm_runs _ _ _) (reconcileIPAddressClaims_preserves TaskRef
    ltac:(reflexivity) ltac:(reflexivity) c) _ _ _ Hr) as Ht.
  pose proof (proj1 (wpm_runs _ _ _) (reconcileIPAddressClaims_preserves published
    ltac:(reflexivity) ltac:(reflexivity) c) _ _ _ Hr) as Hp.
  by repeat split.
Qed.

(** Everything of the object but its BIOS UUID and its status. *)
Definition same_but_uuid (c c' : VMContext) : Prop :=
  set_vs_BiosUUID "" (vm_Spec (cx_VSphereVM c')) = set_vs_BiosUUID "" (vm_Spec (cx_VSphereVM c)) /\
  vm_ObjectMeta (cx_VSphereVM c') = vm_ObjectMeta (cx_VSphereVM c) /\
  vm_GVK (cx_VSphereVM c') = vm_GVK (cx_VSphereVM c).

#[local] Instance same_but_uuid_preorder : PreOrder same_but_uuid.
Proof. split; [done|]. intros c1 c2 c3 (? & ? & ?) (? & ? & ?). split_and!; congruence. Qed.

Lemma same_object_but_uuid c c' : same_object c c' -> same_but_uuid c c'.
Proof. intros (Hs & Hm & Hg & _). split_and!; [by rewrite Hs|done|done]. Qed.

Definition biosUUID (c : VMContext) : string := vs_BiosUUID (vm_Spec (cx_VSphereVM c)).
Definition vmRef (c : VMContext) : string := vt_VMRef (vm_Status (cx_VSphereVM c)).
Definition ready (c : VMContext) : option bool := vt_Ready (vm_Status (cx_VSphereVM c)).

(** The VM service reports the VM as ready. *)
Definition vm_is_ready (c : VMContext) : Prop := v_State (cx_State c) = VirtualMachineStateReady.

(** The VSphereVM was given what the VM reports, addresses among it. *)
Definition provisioned (c : VMContext) : Prop :=
  vm_is_ready c /\ biosUUID c = v_BiosUUID (cx_State c) /\ biosUUID c <> "" /\
  vt_Network (vm_Status (cx_VSphereVM c)) = v_Network (cx_State c) /\
  vt_Addresses (vm_Status (cx_VSphereVM c)) = concat (map st_IPAddrs (v_Network (cx_State c))) /\
  vt_Addresses (vm_Status (cx_VSphereVM c)) <> [].

Definition normal_effect (e : effect) : Prop := reconcile_effect e \/ writes_claims e.

(** The three assignments from the VM that was reported. *)
Lemma publish_spec vm v :
  let v' := reconcileNetwork vm (update_VMRef vm (update_biosUUID vm v)) in
  vs_BiosUUID (vm_Spec v') = v_BiosUUID vm /\
  set_vs_BiosUUID "" (vm_Spec v') = set_vs_BiosUUID "" (vm_Spec v) /\
  vm_ObjectMeta v' = vm_ObjectMeta v /\ vm_GVK v' = vm_GVK v /\
  vt_Network (vm_Status v') = v_Network vm /\
  vt_Addresses (vm_Status v') = concat (map st_IPAddrs (v_Network vm)) /\
  vt_TaskRef (vm_Status v') = vt_TaskRef (vm_Status v) /\ vt_Ready (vm_Status v') = vt_Ready (vm_Status v) /\
  (vt_VMRef (vm_Status v) <> "" -> vt_VMRef (vm_Status v') = vt_VMRef (vm_Status v)).
Proof.
  cbn zeta. unfold reconcileNetwork, update_VMRef, update_biosUUID.
  destruct v as [g m s t]. cbn.
  destruct (String.eqb_spec (vs_BiosUUID s) (v_BiosUUID vm)) as [E|_]; cbn; rewrite ?E; cbn;
    destruct (negb (String.eqb (v_VMRef vm) "")), (String.eqb_spec (vt_VMRef t) ""); cbn; by split_and!.
Qed.

(** What [vm_ready] does with a VM that is ready. *)
Lemma vm_ready_spec c :
  vm_is_ready c ->
  wpm (vm_ready (cx_State c)) c (fun tr r c' => same_but_uuid c c' /\ unobserved tr /\ TaskRef c' = TaskRef c /\
    cx_State c' = cx_State c /\
    (biosUUID c' = biosUUID c \/ biosUUID c' = v_BiosUUID (cx_State c) /\ v_BiosUUID (cx_State c) <> "") /\
    (vmRef c <> "" -> vmRef c' = vmRef c) /\
    (ready c' = ready c \/ r = Ok 0 /\ ready c' = Some true /\ provisioned c')).
Proof.
  intros Hst. unfold vm_ready. destruct (String.eqb_spec (v_BiosUUID (cx_State c)) "") as [_|Hne].
  { wp_step. split_and!; try done; by left. }
  pose proof (publish_spec (cx_State c) (cx_VSphereVM c)) as Hp. cbn zeta in Hp.
  do 4 vm_step. cbn [cx_VSphereVM set_cx_VSphereVM].
  set (v := reconcileNetwork _ _) in *. clearbody v. destruct Hp as (Hu & Hs & Hm & Hg & Hn & Ha & Ht & Hr & Hv).
  destruct (zlen (vt_Addresses (vm_Status v)) =? 0) eqn:Ez; [|vm_step].
  - apply wpm_annotate_false. intros tr c1 Hu0 ([(Hs1 & Hm1 & Hg1 & _) [Hst1 _]] & Ht1 & Hp1). vm_step.
    unfold published in Hp1. cbn in *. injection Hp1 as Hr1 Ha1 Hv1 Hn1. rewrite app_nil_r.
    unfold same_but_uuid, biosUUID, vmRef, ready. rewrite Hs1, Hm1, Hg1, Ht1, Hr1, Hv1, Hu.
    split_and!; try done; [by right|by left].
  - apply wpm_annotate_true. intros tr c1 Hu0 ([(Hs1 & Hm1 & Hg1 & _) [Hst1 _]] & Ht1 & Hp1). vm_step.
    unfold published in Hp1. cbn in *. injection Hp1 as Hr1 Ha1 Hv1 Hn1. rewrite app_nil_r.
    unfold provisioned, vm_is_ready, same_but_uuid, biosUUID, vmRef, ready.
    rewrite Hs1, Hm1, Hg1, Ht1, Hr1, Hv1, Hu, Hst1, Hn1, Ha1.
    split_and!; try done; [by right|]. right. split_and!; try done.
    intros Hnil. by rewrite Hnil in Ez.
Qed.

Record normal_post (c : VMContext) (tr : trace) (r : res Result) (c' : VMContext) : Prop := {
  nm_desire : same_but_uuid c c';
  nm_effects : Forall normal_effect (effects tr);
  nm_tasks : no_policy c -> started_tasks tr = [] \/ one_task tr c';
  nm_uuid : biosUUID c' = biosUUID c \/
    vm_is_ready c' /\ biosUUID c' = v_BiosUUID (cx_State c') /\ v_BiosUUID (cx_State c') <> "";
  nm_vmRef : vmRef c <> "" -> vmRef c' = vmRef c;
  nm_ready : ready c' = ready c \/
    r = Ok 0 /\ ready c' = Some true /\ provisioned c' /\
    exists ref, last (power_states tr) = Some (ref, "poweredOn")
}.

(** Nothing but the status changed, and no task was started. *)
Lemma normal_stop c c' tr r :
  same_object c c' -> published c' = published c -> Forall normal_effect (effects tr) ->
  (no_policy c -> started_tasks tr = [] \/ one_task tr c') -> normal_post c tr r c'.
Proof.
  intros Hs Hp He Ht. assert (Hp' := Hp). unfold published in Hp'. injection Hp' as Hr Ha Hv Hn.
  pose proof (same_object_but_uuid _ _ Hs) as Hd. destruct Hs as (Hs & _). split; try done.
  - left. unfold biosUUID. by rewrite Hs.
  - by left.
Qed.

Lemma reconcileNormal_spec c : wpm reconcileNormal c (normal_post c).
Proof.
  unfold reconcileNormal. do 2 vm_step. destruct (isWaitingForStaticIPAllocation (cx_VSphereVM c)).
  { apply wpm_annotate_false. intros tr c1 Hu ([Hs _] & _ & Hp). vm_step. rewrite !app_nil_r.
    pose proof (unobserved_tasks _ Hu). destruct Hu as [He _].
    apply normal_stop; [done|done|cbn [app]; by rewrite He|cbn [app]; by left]. }
  vm_step. eapply wpm_mono; [apply claims_frame|]. intros tr1 r1 c1 (Hs1 & Ht1 & Hp1 & Hw1).
  pose proof (release_tasks _ tr1 Hw1 eq_refl) as Hq1.
  assert (He1 : Forall normal_effect (effects tr1)).
  { eapply Forall_impl; [exact Hw1|]. by right. }
  destruct r1 as [u|e|w]; [|by apply normal_stop; try done; left..].
  do 2 wp_step. eapply wpm_mono; [apply svc_ReconcileVM_contract|]. intros tr2 r2 c2 [Hs2 Hp2 He2 Ht2 Hr2].
  assert (Hs' : same_object c c2) by (by etrans). rewrite Hp1 in Hp2.
  assert (Hpol : no_policy c -> no_policy c1).
  { unfold no_policy, vm_clone. destruct Hs1 as (-> & _). done. }
  assert (Hstop : forall tr3 r3 c3, effects tr3 = [] -> c3 = c2 -> normal_post c ([] ++ tr1 ++ tr2 ++ tr3) r3 c3).
  { intros tr3 r3 c3 He3 ->. pose proof (quiet_started_tasks _ He3) as Hq3. apply normal_stop; [done|done| |].
    - cbn [app]. rewrite !effects_app, He3, app_nil_r. apply Forall_app. split; [done|].
      eapply Forall_impl; [exact He2|]. by left.
    - intros Hn. cbn [app]. unfold one_task in *. rewrite !started_tasks_app, Hq1, Hq3, app_nil_r. cbn [app]. auto. }
  destruct r2 as [u2|e2|w2]; cbn [res_wrap]; [|rewrite <-(app_nil_r tr2); by apply Hstop..].
  do 2 vm_step. destruct (String.eqb_spec (v_State (cx_State c2)) VirtualMachineStateReady) as [Hst|_]; cbn [negb].
  - eapply wpm_mono; [by apply vm_ready_spec|]. intros tr3 r3 c3 (Hd3 & [He3 Hpw3] & Ht3 & Hst3 & Hu3 & Hv3 & Hr3).
    pose proof (quiet_started_tasks _ He3) as Hq3.
    destruct (Hstop [] (Ok 0) c2 eq_refl eq_refl) as [Hd2 He2' Htk2 _ _ _]. rewrite app_nil_r in He2', Htk2.
    assert (Hbu : biosUUID c2 = biosUUID c) by (unfold biosUUID; by destruct Hs' as (-> & _)).
    unfold published in Hp2. injection Hp2 as Hrd Ha Hvr Hn. cbn [app] in *. split.
    + by etrans.
    + rewrite app_assoc, effects_app, He3, app_nil_r. exact He2'.
    + unfold one_task in *. rewrite app_assoc, started_tasks_app, Hq3, app_nil_r, Ht3. exact Htk2.
    + unfold vm_is_ready. rewrite Hst3, <-Hbu. destruct Hu3 as [?|[? ?]]; [by left|by right].
    + unfold vmRef in *. rewrite <-Hvr. exact Hv3.
    + unfold ready in *. rewrite <-Hrd. destruct Hr3 as [?|(-> & ? & ?)]; [by left|right]. split_and!; try done.
      destruct (Hr2 Hst) as [ref Hl]. exists ref.
      rewrite !power_states_app, Hpw3, app_nil_r. by apply VMPass.last_app_some.
  - do 2 vm_step. destruct (vt_RetryAfter (vm_Status (cx_VSphereVM c2))); vm_steps; by apply Hstop.
Qed.

(** ** The pass of the controller *)

Definition deleting (c : VMContext) : bool :=
  match om_DeletionTimestamp (vm_ObjectMeta (cx_VSphereVM c)) with Some _ => true | None => false end.

Definition controller_post (c : VMContext) (tr : trace) (r : res Result) (c' : VMContext) : Prop :=
  if deleting c then delete_post c tr r c' else normal_post c tr r c'.

Lemma delete_post_app c tr0 tr r c' : effects tr0 = [] -> delete_post c tr r c' -> delete_post c (tr0 ++ tr)%list r c'.
Proof.
  intros He0 [Hd Hp He Ht Hf]. pose proof (quiet_started_tasks _ He0) as Hq0. split; try done.
  - by rewrite effects_app, He0.
  - unfold one_task in *. by rewrite started_tasks_app, Hq0.
  - destruct Hf as [?|(-> & Hq & Hg & Hr & Hf)]; [by left|right]. split_and!; try done.
    + by rewrite started_tasks_app, Hq0.
    + rewrite <-(app_nil_r tr). by apply vm_gone_app.
    + eapply Forall_impl; [exact Hr|]. intros t. apply claim_released_app_r.
Qed.

Lemma normal_post_app c tr0 tr r c' : effects tr0 = [] -> normal_post c tr r c' -> normal_post c (tr0 ++ tr)%list r c'.
Proof.
  intros He0 [Hd He Ht Hu Hv Hr]. pose proof (quiet_started_tasks _ He0) as Hq0. split; try done.
  - by rewrite effects_app, He0.
  - unfold one_task in *. by rewrite started_tasks_app, Hq0.
  - destruct Hr as [?|(-> & Hr & Hp & ref & Hl)]; [by left|right]. split_and!; try done. exists ref.
    rewrite power_states_app. by apply VMPass.last_app_some.
Qed.

Lemma reads_fetchClusterModuleInfo input : reads (fetchClusterModuleInfo input).
Proof.
  unfold fetchClusterModuleInfo, FetchControlPlaneOwnerObject, FetchMachineDeploymentOwnerObject.
  solve_reads; apply reads_fetchOwnerOfKindInto.
Qed.

Lemma reconcile_branch_spec c tr0 :
  effects tr0 = [] -> wpm reconcile_deletion_or_normal c (fun tr => controller_post c (tr0 ++ tr)%list).
Proof.
  intros He0. unfold reconcile_deletion_or_normal, controller_post, deleting. do 2 vm_step.
  destruct (om_DeletionTimestamp _).
  - eapply wpm_mono; [apply reconcileDelete_spec|]. intros tr r c'. by apply delete_post_app.
  - eapply wpm_mono; [apply reconcileNormal_spec|]. intros tr r c'. by apply normal_post_app.
Qed.

Lemma controller_stop c tr r : effects tr = [] -> controller_post c tr r c.
Proof.
  intros He. pose proof (quiet_started_tasks _ He) as Hq. unfold controller_post. destruct (deleting c).
  - split; [done|done|by rewrite He|by left|by left].
  - apply normal_stop; [done|done|by rewrite He|by left].
Qed.

Lemma controller_post_module info c tr r c' :
  controller_post (set_cx_ClusterModuleInfo info c) tr r c' -> controller_post c tr r c'.
Proof.
  unfold controller_post. change (deleting (set_cx_ClusterModuleInfo info c)) with (deleting c).
  destruct (deleting c); [intros [] | intros []]; by split.
Qed.

Lemma reconcile_spec r input c : wpm (reconcile r input) c (controller_post c).
Proof.
  unfold reconcile. vm_step. destruct (rc_NodeAntiAffinity r && _).
  - do 4 vm_step. eapply wpm_mono; [apply reads_fetchClusterModuleInfo|].
    intros tr0 r0 c0 [He0 ->]. cbn [app].
    assert (Hb : forall info, wpm reconcile_deletion_or_normal (set_cx_ClusterModuleInfo info c)
      (fun tr' => controller_post c ((tr0 ++ []) ++ tr')%list)).
    { intros info. rewrite app_nil_r. eapply wpm_mono; [by apply (reconcile_branch_spec _ tr0)|].
      intros tr r1 c'. apply controller_post_module. }
    destruct r0 as [info|e|w]; cbn beta iota; [vm_step; apply Hb| |by apply controller_stop].
    destruct (om_DeletionTimestamp _); vm_step; [apply Hb|]. apply controller_stop. by rewrite app_nil_r.
  - vm_step. exact (reconcile_branch_spec c [] eq_refl).
Qed.

(** ** The deferred function *)

Definition patch_asked (t : string) (tr : trace) : Prop :=
  exists vm x, Call (PatchVSphereVM vm) x ∈ tr /\ vt_TaskRef (vm_Status vm) = t.
Definition patch_done (t : string) (tr : trace) : Prop :=
  exists vm, Call (PatchVSphereVM vm) (Ok tt) ∈ tr /\ vt_TaskRef (vm_Status vm) = t.
(** The cache was seen to hold the object with another task than at the start. *)
Definition cache_moved (vm : VSphereVM) (originalTaskRef : string) (tr : trace) : Prop :=
  exists cached, Call (GetVSphereVM (vm_Namespace vm) (vm_Name vm)) (Ok cached) ∈ tr /\
    vt_TaskRef (vm_Status cached) <> originalTaskRef.
(** The error when the summary could not be computed. *)
Definition summary_error (e : error) : Prop :=
  exists errs msg, e = EAggregate errs /\
    EWrap (sprintf "failed to set %s condition" [AS ReadyCondition]) (ELib OtherLibError msg) ∈ errs.

Lemma poll_cache_spec fuel original c :
  wpm (poll_cache fuel original) c (fun tr r c' => c' = c /\ effects tr = [] /\
    match r with Ok _ => cache_moved (cx_VSphereVM c) original tr | _ => True end).
Proof.
  induction fuel as [|fuel IH]; cbn [poll_cache]; [by wp_step|].
  do 4 vm_step; [|by vm_steps..]. destruct (String.eqb_spec original (vt_TaskRef (vm_Status a))) as [_|Hne]; cbn [negb].
  - do 2 vm_step. destruct x; [|by vm_step]. eapply wpm_mono; [apply IH|]. intros tr r c' (-> & He & Hr).
    split_and!; [done|by trace_simpl|]. destruct r; [|done..]. destruct Hr as (cached & Hin & Hne).
    exists cached. split; [in_trace|done].
  - vm_step. split_and!; try done. exists a. split; [in_trace|congruence].
Qed.

Lemma ensure_provisioned_spec c :
  wpm ensure_provisioned_condition c (fun tr r c' => annotated c c' /\ effects tr = [] /\ r = Ok tt).
Proof.
  unfold ensure_provisioned_condition. do 2 vm_step. destruct (conditions_Has _ _); [by vm_step|].
  destruct (ptr_deref _ _); vm_step; by repeat split.
Qed.

Lemma set_summary_spec c :
  wpm set_summary c (fun tr r c' => annotated c c' /\ effects tr = [] /\ exists failed, r = Ok failed).
Proof.
  unfold set_summary. vm_steps. destruct (conditions_SetSummary _ _ _ _ _ _); vm_steps; repeat split; by eexists.
Qed.

Lemma patch_and_wait_spec original reterr c :
  wpm (patch_and_wait original reterr) c (fun tr r c' =>
    started_tasks tr = [] /\ patch_asked (TaskRef c) tr /\
    (r = Ok None -> reterr = None /\ patch_done (TaskRef c) tr /\
       (TaskRef c = original \/ cache_moved (cx_VSphereVM c) original tr))).
Proof.
  unfold patch_and_wait. do 6 vm_step.
  3: { split_and!; [done| |done]. eexists _, _. split; [in_trace|done]. }
  all: do 2 vm_step; fold (TaskRef c); destruct (String.eqb_spec (TaskRef c) original) as [Heq|Hne]; cbn [negb].
  2, 4: do 2 wp_step; (eapply wpm_mono; [apply poll_cache_spec|]); intros tr r c' (-> & He & Hr);
    pose proof (quiet_started_tasks _ He) as Hq; destruct r as [u|e'|w]; repeat vm_step;
    rewrite ?app_nil_r, ?started_tasks_app, ?Hq.
  all: split_and!; try done.
  all: try (eexists _, _; split; [in_trace|done]).
  all: try (destruct reterr; intros [=]; done).
  - intros [= ->]. destruct a. split_and!; [done| |by left]. eexists. split; [in_trace|done].
  - destruct reterr; [done|]. intros _. destruct a. split_and!; [done| |right].
    + eexists. split; [in_trace|done].
    + destruct Hr as (cached & Hin & Hc). exists cached. split; [in_trace|done].
Qed.

Lemma patch_asked_app t tr0 tr : patch_asked t tr -> patch_asked t (tr0 ++ tr)%list.
Proof. intros (vm & x & Hin & Ht). exists vm, x. split; [in_trace|done]. Qed.
Lemma patch_done_app t tr0 tr : patch_done t tr -> patch_done t (tr0 ++ tr)%list.
Proof. intros (vm & Hin & Ht). exists vm. split; [in_trace|done]. Qed.
Lemma cache_moved_app vm t tr0 tr : cache_moved vm t tr -> cache_moved vm t (tr0 ++ tr)%list.
Proof. intros (cached & Hin & Ht). exists cached. split; [in_trace|done]. Qed.
Lemma cache_moved_desire c c1 t tr :
  set_om_Finalizers [] (vm_ObjectMeta (cx_VSphereVM c1)) = set_om_Finalizers [] (vm_ObjectMeta (cx_VSphereVM c)) ->
  cache_moved (cx_VSphereVM c1) t tr -> cache_moved (cx_VSphereVM c) t tr.
Proof.
  unfold cache_moved, vm_Namespace, vm_Name.
  destruct (vm_ObjectMeta (cx_VSphereVM c1)), (vm_ObjectMeta (cx_VSphereVM c)). cbn. by intros [= -> -> _ _ _ _].
Qed.

Definition exit_post (c : VMContext) (original : string) (reterr : option error) (tr : trace)
    (r : res (option error)) : Prop :=
  started_tasks tr = [] /\
  (patch_asked (TaskRef c) tr \/ (exists e, r = Ok (Some e) /\ summary_error e)) /\
  (r = Ok None -> reterr = None /\ patch_done (TaskRef c) tr /\
     (TaskRef c = original \/ cache_moved (cx_VSphereVM c) original tr)).

Lemma on_exit_spec original reterr c :
  wpm (on_exit original reterr) c (fun tr r _ => exit_post c original reterr tr r).
Proof.
  unfold on_exit, exit_post. vm_step. eapply wpm_mono; [apply ensure_provisioned_spec|].
  intros tr0 r0 c0 (([Ho0 _] & Ht0 & _) & He0 & ->). vm_step. eapply wpm_mono; [apply set_summary_spec|].
  intros tr1 r1 c1 (([Ho1 _] & Ht1 & _) & He1 & [failed ->]). rewrite <-Ht0, <-Ht1.
  assert (Ho : same_object c c1) by (by etrans).
  pose proof (quiet_started_tasks _ He0) as Hq0. pose proof (quiet_started_tasks _ He1) as Hq1.
  destruct failed as [msg|].
  - vm_step. split_and!; [by rewrite !started_tasks_app, Hq0, Hq1| |by destruct reterr].
    right. destruct reterr as [e|]; (eexists; split; [reflexivity|]); eexists _, msg; (split; [reflexivity|]).
    + right. left.
    + left.
  - eapply wpm_mono; [apply patch_and_wait_spec|]. intros tr2 r2 c2 (Hq2 & Ha & Hd).
    split; [by rewrite !started_tasks_app, Hq0, Hq1, Hq2|]. split; [left; by do 2 apply patch_asked_app|].
    intros Hn. destruct (Hd Hn) as (-> & Hp & Hc). split_and!; [done|by do 2 apply patch_done_app|].
    destruct Hc as [Hc|Hc]; [by left|right]. do 2 apply cache_moved_app.
    eapply cache_moved_desire; [|exact Hc]. by destruct Ho as (_ & -> & _).
Qed.

(** What is known of the task after a pass over the object of [c]. *)
Definition task_recorded (c : VMContext) (tr : trace) (r : res Result) : Prop :=
  started_tasks tr = [] \/ exists t, started_tasks tr = [t] /\
    (patch_asked t tr \/ (exists w, r = Stop w) \/ exists e, r = Err e /\ summary_error e) /\
    (forall a, r = Ok a -> patch_done t tr /\ (t = TaskRef c \/ cache_moved (cx_VSphereVM c) (TaskRef c) tr)).

Lemma task_recorded_app c tr0 tr r :
  started_tasks tr0 = [] -> task_recorded c tr r -> task_recorded c (tr0 ++ tr)%list r.
Proof.
  intros Hq0. unfold task_recorded.
  rewrite started_tasks_app, Hq0. cbn [app]. intros [?|(t & Ht & Ha & Hd)]; [by left|right]. exists t.
  split; [done|]. split; [destruct Ha as [Ha|Ha]; [left; by apply patch_asked_app|by right]|].
  intros a Hr. destruct (Hd a Hr) as [Hp Hc]. split; [by apply patch_done_app|].
  destruct Hc as [Hc|Hc]; [by left|right; by apply cache_moved_app].
Qed.

Lemma controller_post_tasks c tr r c' :
  controller_post c tr r c' -> no_policy c -> started_tasks tr = [] \/ one_task tr c'.
Proof. unfold controller_post. destruct (deleting c); intros []; auto. Qed.

Lemma controller_post_meta c tr r c' :
  controller_post c tr r c' ->
  set_om_Finalizers [] (vm_ObjectMeta (cx_VSphereVM c')) = set_om_Finalizers [] (vm_ObjectMeta (cx_VSphereVM c)).
Proof. unfold controller_post. destruct (deleting c); [by intros [(_ & ? & _)]|intros [(_ & Hm & _)]; by rewrite Hm]. Qed.

Lemma reconcile_context_spec r input c :
  no_policy c -> wpm (reconcile_context r input) c (fun tr res _ => task_recorded c tr res).
Proof.
  intros Hn. unfold reconcile_context. do 3 vm_step. fold (TaskRef c).
  eapply wpm_mono; [apply reconcile_spec|]. intros tr res c1 Hp.
  pose proof (controller_post_tasks _ _ _ _ Hp Hn) as Ht. pose proof (controller_post_meta _ _ _ _ Hp) as Hm.
  assert (Hd : forall reterr, wpm (on_exit (TaskRef c) reterr) c1 (fun tr' r' _ =>
    reterr = (match res with Err e => Some e | _ => None end) ->
    task_recorded c ([] ++ tr ++ tr')%list (finally_result res r'))).
  { intros reterr. eapply wpm_mono; [apply on_exit_spec|]. intros tr' r' c2 (Hq & Ha & Hok) Hrt. cbn [app].
    unfold task_recorded. rewrite started_tasks_app, Hq, app_nil_r. destruct Ht as [?|[t [Ht Hrec]]]; [by left|right].
    exists t. split; [done|]. rewrite Hrec in *. split.
    - destruct Ha as [Ha|(e & -> & Hs)]; [left; by apply patch_asked_app|right].
      destruct res as [a|e'|w]; cbn; [right; by exists e|right; by exists e|left; by exists w].
    - intros a Hf. destruct r' as [[e|]|e|w]; cbn in Hf; try (by destruct res).
      destruct (Hok eq_refl) as (_ & Hpd & Hc). split; [by apply patch_done_app|].
      destruct Hc as [Hc|Hc]; [by left|right]. apply cache_moved_app. by eapply cache_moved_desire. }
  assert (Hdiv : task_recorded c ([] ++ tr)%list (Stop Diverges)).
  { cbn [app]. destruct Ht as [?|[t [Ht Hrec]]]; [by left|right]. exists t. split; [done|]. split; [|done].
    right. left. by eexists. }
  destruct res as [a|e|[|]]; [..|exact Hdiv].
  all: (eapply wpm_mono; [apply Hd|]); intros tr' r' c2 HQ; by apply HQ.
Qed.

(** ** Before the context *)

Definition linked (c c' : VMContext) : Prop :=
  (vm_Spec (cx_VSphereVM c') = vm_Spec (cx_VSphereVM c) /\
   vm_ObjectMeta (cx_VSphereVM c') = vm_ObjectMeta (cx_VSphereVM c)) /\ TaskRef c' = TaskRef c.

#[local] Instance linked_preorder : PreOrder linked.
Proof. split; [by repeat split|]. intros c1 c2 c3 [(? & ?) ?] [(? & ?) ?]. repeat split; congruence. Qed.

(** Programs that come before: they start no task and leave the object, but for
    its conditions. *)
Definition prologue {A} (m : MV A) : Prop :=
  forall c, wpm m c (fun tr _ c' => started_tasks tr = [] /\ linked c c').

Lemma prologue_reads {A} (m : MV A) : reads m -> prologue m.
Proof.
  intros Hm c. eapply wpm_mono; [apply Hm|]. intros tr r c' [He ->]. split; [by apply quiet_started_tasks|done].
Qed.
Lemma prologue_try {A} (m : MV A) : prologue m -> prologue (try m).
Proof. intros Hm c. apply wpm_try. eapply wpm_mono; [apply Hm|]. by intros tr [a|e|w] c'. Qed.
Lemma prologue_call {X} (e : Ev (res X)) : (forall x, started_task (Call e x) = None) -> prologue (call_res e).
Proof.
  intros He c. apply wpm_call. intros x. split; [|done]. unfold started_tasks. cbn [omap list_omap]. by rewrite He.
Qed.
Lemma prologue_modify f : (forall c, linked c (f c)) -> prologue (modify f).
Proof. intros Hf c. by apply wpm_modify. Qed.
Lemma prologue_bind {A B} (m : MV A) (k : A -> MV B) : prologue m -> (forall a, prologue (k a)) -> prologue (bind m k).
Proof.
  intros Hm Hk c. apply wpm_bind. eapply wpm_mono; [apply Hm|]. intros tr [a|e|w] c' [Ht Hc]; [|done..].
  eapply wpm_mono; [apply Hk|]. intros tr' r c'' [Ht' Hc']. rewrite started_tasks_app, Ht, Ht'.
  split; [done|]. by etrans.
Qed.

Lemma linked_recorded c c1 tr r : linked c c1 -> task_recorded c1 tr r -> task_recorded c tr r.
Proof.
  intros [(_ & Hm) Ht] [?|(t & Hs & Ha & Hd)]; [by left|right]. exists t. split_and!; [done..|]. intros a Hr.
  destruct (Hd a Hr) as [Hp Hc]. split; [done|]. rewrite Ht in Hc. destruct Hc as [Hc|Hc]; [by left|right].
  eapply cache_moved_desire; [|exact Hc]. by rewrite Hm.
Qed.

Lemma linked_no_policy c c1 : linked c c1 -> no_policy c -> no_policy c1.
Proof. intros [(Hs & _) _]. unfold no_policy, vm_clone. by rewrite Hs. Qed.

Definition records (m : MV Result) : Prop :=
  forall c, no_policy c -> wpm m c (fun tr res _ => task_recorded c tr res).

Lemma records_bind {A} (m : MV A) (k : A -> MV Result) :
  prologue m -> (forall a, records (k a)) -> records (bind m k).
Proof.
  intros Hm Hk c Hn. apply wpm_bind. eapply wpm_mono; [apply Hm|].
  intros tr [a|e|w] c1 [Ht Hl]; [|by left..]. eapply wpm_mono; [apply Hk; by eapply linked_no_policy|].
  intros tr' r c2 Hr. apply task_recorded_app; [done|]. by eapply linked_recorded.
Qed.
Lemma records_prologue (m : MV Result) : prologue m -> records m.
Proof. intros Hm c _. eapply wpm_mono; [apply Hm|]. intros tr r c' [Ht _]. by left. Qed.

Lemma prologue_GetOrCreate params : prologue (GetOrCreate params).
Proof.
  intros c. apply wpm_runs. intros tr r c' Hr.
  destruct (proj1 (wpm_runs _ _ _) (GetOrCreate_spec params c) _ _ _ Hr) as [-> _].
  pose proof (proj1 (wpm_runs _ _ _) (GetOrCreate_within params c) _ _ _ Hr) as Hw. cbn beta in Hw.
  split; [|done]. apply started_tasks_none. eapply Forall_impl; [exact Hw|]. by intros [].
Qed.

Lemma prologue_retrieveVcenterSession r : prologue (retrieveVcenterSession r).
Proof.
  unfold retrieveVcenterSession. apply prologue_bind; [by apply prologue_reads, reads_gets|]. intros vm. cbn zeta.
  apply prologue_bind; [apply prologue_reads; solve_reads|]. intros [cluster|e]; [|apply prologue_GetOrCreate].
  destruct (kc_InfrastructureRefName cluster); [|by apply prologue_reads, reads_fail].
  apply prologue_bind; [apply prologue_reads; solve_reads|]. intros [vc|e]; [|apply prologue_GetOrCreate].
  destruct (VSphereIdentityReference_IsDefined _); [|apply prologue_GetOrCreate].
  apply prologue_bind; [apply prologue_reads, reads_wrap, reads_GetCredentials|]. intros creds. apply prologue_GetOrCreate.
Qed.

Lemma records_ret a : records (ret a).
Proof. apply records_prologue, prologue_reads, reads_ret. Qed.

Lemma reads_failure_domain fd : reads (failure_domain fd).
Proof. unfold failure_domain. solve_reads. Qed.

Lemma records_reconcile_owned r : records (reconcile_owned r).
Proof.
  unfold reconcile_owned. apply records_bind; [by apply prologue_reads, reads_gets|]. intros vm.
  apply records_bind; [apply prologue_reads, reads_wrap, reads_GetOwnerVSphereMachine|]. intros [m|]; [|apply records_ret].
  apply records_bind; [apply prologue_reads, reads_wrap, reads_GetVSphereClusterFromVSphereMachine|]. intros cl.
  apply records_bind; [apply prologue_reads; solve_reads|]. intros [machine|]; [|apply records_ret].
  apply records_bind; [apply prologue_reads; solve_reads|]. intros _.
  apply records_bind; [apply prologue_reads, reads_failure_domain|]. intros fd.
  apply records_bind; [by apply prologue_modify|]. intros _ c. apply reconcile_context_spec.
Qed.

Lemma prologue_set_condition cnd : prologue (set_condition cnd).
Proof. apply prologue_bind; [apply prologue_reads; solve_reads|]. intros now. by apply prologue_modify. Qed.
Lemma prologue_mark_true ty : prologue (mark_true ty).
Proof. apply prologue_bind; [apply prologue_reads; solve_reads|]. intros now. by apply prologue_modify. Qed.
Lemma prologue_mark_false ty r s m : prologue (mark_false ty r s m).
Proof. apply prologue_bind; [apply prologue_reads; solve_reads|]. intros now. by apply prologue_modify. Qed.

Lemma records_reconcile_vsphereVM r : records (reconcile_vsphereVM r).
Proof.
  unfold reconcile_vsphereVM. apply records_bind; [by apply prologue_reads, reads_gets|]. intros vm.
  apply records_bind; [apply prologue_reads; solve_reads|]. intros rcl. cbn zeta.
  apply records_bind; [by apply prologue_call|]. intros [|]; [apply records_ret|].
  apply records_bind; [apply prologue_reads; solve_reads|]. intros _.
  apply records_bind; [apply prologue_reads; solve_reads|]. intros [isPaused requeue].
  destruct (isPaused || requeue); [apply records_ret|].
  apply records_bind; [apply prologue_try, prologue_retrieveVcenterSession|]. intros [session|err].
  - apply records_bind; [apply prologue_mark_true|]. intros _.
    apply records_bind; [apply prologue_set_condition|]. intros _.
    apply records_bind; [by apply prologue_modify|]. intros _. apply records_reconcile_owned.
  - apply records_prologue. apply prologue_bind; [apply prologue_mark_false|]. intros _.
    apply prologue_bind; [apply prologue_set_condition|]. intros _. apply prologue_reads, reads_fail.
Qed.

(** The finalizer was there and the object is not paused. *)
Definition may_act (tr : trace) : Prop :=
  exists vm cluster, Call (EnsureFinalizer vm VMFinalizer) (Ok false) ∈ tr /\
    Call (EnsurePausedCondition cluster vm) (Ok (false, false)) ∈ tr.
Definition gated (tr : trace) : Prop :=
  Forall (fun e => match e with AddsFinalizer _ => True | _ => False end) (effects tr) \/ may_act tr.

Lemma reconcile_vsphereVM_gated r c : wpm (reconcile_vsphereVM r) c (fun tr _ _ => gated tr).
Proof.
  unfold reconcile_vsphereVM. do 2 vm_step.
  apply wpm_reads_bind; [solve_reads|intros; left; trace_simpl; by repeat constructor..|].
  intros tr0 rcl He0. do 2 vm_step; [|by left; trace_simpl; repeat constructor..].
  destruct a; [by vm_steps; left; trace_simpl; repeat constructor|].
  do 2 vm_step; [|by left; trace_simpl; repeat constructor..].
  do 2 vm_step; [|by left; trace_simpl; repeat constructor..].
  destruct a0 as [isPaused requeue].
  destruct (isPaused || requeue) eqn:E; [by vm_steps; left; trace_simpl; repeat constructor|].
  apply orb_false_elim in E as [-> ->]. apply wpm_runs. intros tr r' c' _. right.
  exists (cx_VSphereVM c), (match rcl with inl cl => Some cl | inr _ => None end). split; in_trace.
Qed.

(** The object a pass began with. *)
Definition fetched (tr : trace) : option VSphereVM :=
  match tr with
  | @Call _ X e x :: _ =>
      match e in Ev Y return Y -> option VSphereVM with
      | GetVSphereVM _ _ => fun r => match r with Ok vm => Some vm | _ => None end
      | _ => fun _ => None
      end x
  | [] => None
  end.

(** ** Properties *)

(** C3: the finalizer of a VSphereVM goes away only in a pass over an object that is
    being deleted, that ends without an error, that started no task, in which every
    IPAddressClaim of the VM was released, and in which vCenter answered that the VM is
    not there: that it has no VM with the BIOS UUID of the object or, when the object
    carries none, no VM with its instance UUID and either no VM of its name in its
    folder or no such folder. The other finalizers stay. *)
Theorem reconcile_finalizer r input c tr res c' :
  runs (reconcile r input c) tr (res, c') -> VMFinalizer ∈ finalizers c -> VMFinalizer ∉ finalizers c' ->
  deleting c = true /\ res = Ok 0 /\ started_tasks tr = [] /\ vm_gone (cx_VSphereVM c) tr /\
  Forall (claim_released (cx_VSphereVM c) tr) (pool_refs (cx_VSphereVM c)) /\
  forall f, f ∈ finalizers c' <-> f ∈ finalizers c /\ f <> VMFinalizer.
Proof.
  intros Hr Hin Hout. pose proof (proj1 (wpm_runs _ _ _) (reconcile_spec r input c) _ _ _ Hr) as Hp.
  unfold controller_post in Hp. destruct (deleting c).
  - destruct Hp as [_ _ _ _ [Hf|(-> & ? & ? & ? & ?)]]; [congruence|done].
  - destruct Hp as [(_ & Hm & _) _ _ _ _ _]. unfold finalizers in *. by rewrite Hm in Hout.
Qed.

(** C4: a VSphereVM becomes ready only in a pass that ends well, in which the VM was
    last seen powered on and the service reported it as ready, with the BIOS UUID
    of the VM, the network it reports and at least one address; and an object that
    is being deleted never becomes ready. *)
Theorem reconcile_ready r input c tr res c' :
  runs (reconcile r input c) tr (res, c') -> ready c' <> ready c ->
  deleting c = false /\ res = Ok 0 /\ ready c' = Some true /\ provisioned c' /\
  exists ref, last (power_states tr) = Some (ref, "poweredOn").
Proof.
  intros Hr Hne. pose proof (proj1 (wpm_runs _ _ _) (reconcile_spec r input c) _ _ _ Hr) as Hp.
  unfold controller_post in Hp. destruct (deleting c).
  - destruct Hp as [_ Hp _ _ _]. unfold published in Hp. injection Hp as Hp _ _ _. done.
  - by destruct Hp as [_ _ _ _ _ [?|?]].
Qed.

(** a pass changes nothing of what is desired, nor of the metadata but the
    finalizers, except the BIOS UUID, and that only to the one of a VM that is
    ready: it is never cleared. The reference of the VM is set once. *)
Theorem reconcile_identity r input c tr res c' :
  runs (reconcile r input c) tr (res, c') ->
  set_vs_BiosUUID "" (vm_Spec (cx_VSphereVM c')) = set_vs_BiosUUID "" (vm_Spec (cx_VSphereVM c)) /\
  set_om_Finalizers [] (vm_ObjectMeta (cx_VSphereVM c')) = set_om_Finalizers [] (vm_ObjectMeta (cx_VSphereVM c)) /\
  (biosUUID c' = biosUUID c \/
   vm_is_ready c' /\ biosUUID c' = v_BiosUUID (cx_State c') /\ biosUUID c' <> "") /\
  (vmRef c <> "" -> vmRef c' = vmRef c).
Proof.
  intros Hr. pose proof (proj1 (wpm_runs _ _ _) (reconcile_spec r input c) _ _ _ Hr) as Hp.
  unfold controller_post in Hp. destruct (deleting c).
  - destruct Hp as [(Hs & Hm & _) Hp _ _ _]. unfold published in Hp. injection Hp as _ _ Hv _.
    unfold biosUUID, vmRef. rewrite Hs. split_and!; try done. by left.
  - destruct Hp as [(Hs & Hm & _) _ _ Hu Hv _]. rewrite Hm. split_and!; try done.
    destruct Hu as [?|(? & Hu & Hne)]; [by left|right]. split_and!; [done..|by rewrite Hu].
Qed.

(** C2: no task is lost. When a pass of the controller over a VSphereVM without a
    storage policy has started a task on vCenter, that is the only one, and the
    object was patched with the reference of that task, also when the pass ends
    with an error (unless the summary of the conditions could not be computed,
    which is then the error). When the pass ends without an error the patch went
    through and the cache was seen to hold another task than before, so that the
    next pass waits for it. *)
Theorem Reconcile_records_task r ns name tr res u vm :
  runs (Reconcile r ns name tt) tr (res, u) -> fetched tr = Some vm ->
  cs_StoragePolicyName (vm_clone vm) = "" -> task_recorded (fresh_context vm) tr res.
Proof.
  intros Hr Hf Hpol. revert Hf.
  assert (Hw : wpm (Reconcile r ns name) tt (fun tr res _ => fetched tr = Some vm -> task_recorded (fresh_context vm) tr res)).
  { unfold Reconcile. do 3 wp_step; cbn beta iota; [| |done].
    - wp_step. apply wpm_runs. intros tr' res' c' Hrun Hf. cbn in Hf. injection Hf as ->.
      apply (task_recorded_app _ [_]); [done|].
      exact (proj1 (wpm_runs _ _ _) (records_reconcile_vsphereVM r (fresh_context vm) Hpol) _ _ _ Hrun).
    - destruct (IsNotFound e); wp_step; done. }
  exact (proj1 (wpm_runs _ _ _) Hw _ _ _ Hr).
Qed.

(** nothing is done for a VSphereVM before its finalizer is known to be there,
    nor while it or its cluster is paused: what a pass does before that is adding
    the finalizer at most. *)
Theorem Reconcile_gated r ns name tr res u :
  runs (Reconcile r ns name tt) tr (res, u) -> gated tr.
Proof.
  assert (Hw : wpm (Reconcile r ns name) tt (fun tr _ _ => gated tr)).
  { unfold Reconcile. do 3 wp_step; cbn beta iota; [| |by left].
    - wp_step. eapply wpm_mono; [apply reconcile_vsphereVM_gated|]. intros tr' _ _ [He|(vm & cl & H1 & H2)].
      + left. exact He.
      + right. exists vm, cl. split; by right.
    - destruct (IsNotFound e); wp_step; by left. }
  exact (proj1 (wpm_runs _ _ _) Hw _ _ _).
Qed.
End lemmas.

(** * Concrete inputs *)

Section examples.
Import RefLibs VMRefine.

Definition sample_reconciler : vmReconciler := mkVmReconciler "admin" "secret" "capv-system" false.
Definition sample_cluster : VSphereCluster :=
  mkVSphereCluster (mkObjectMeta "cluster-1" "default" "uid" None [] [] None)
    (mkVSphereClusterSpec "vcenter" "" (mkAPIEndpoint "" 0) (mkVSphereIdentityReference "" "") [] None None) [] [] "" [] None "".
Definition sample_machine : Machine := mkMachine (mkObjectMeta "machine-1" "default" "m" None [] [] None) "" None "v1.34.0" "Machine".
Definition sample_input : fetchClusterModuleInput := mkFetchClusterModuleInput sample_cluster sample_machine.

(** A VSphereVM that is being deleted, whose destroy task is recorded. *)
Definition sample_deleted_vm (taskRef : string) : VSphereVM :=
  set_vm_ObjectMeta (mkObjectMeta "vm-1" "default" "11111111-2222-3333-4444-555555555555" None
      [owner_ref "infrastructure.cluster.x-k8s.io/v1beta2" "VSphereMachine" "machine-1" "m"]
      [VMFinalizer] (Some 1))
    (sample_vm VirtualMachineCloneSpec_zero "" taskRef).
(** The task succeeded and the VM is gone. *)
Definition sample_gone_world : RefWorld :=
  mkRefWorld 0 (Ok None) (Ok None) (fun _ => Err (ELib FinderNotFound "vm not found"))
    (Ok (mkTask "task-7" TaskInfoStateSuccess None)) "poweredOff" false None None [] None
    (fun _ => Err (ELib APINotFound "not found")) (fun _ => Err (ELib APINotFound "not found")).

Definition sample_gone_context : VMContext := sample_context (sample_deleted_vm "task-7").
Definition sample_gone_run := run (reconcile sample_reconciler sample_input) sample_gone_context sample_gone_world.
Lemma sample_gone_runs :
  runs (reconcile sample_reconciler sample_input sample_gone_context) sample_gone_run.1
    (sample_gone_run.2.1, sample_gone_run.2.2).
Proof. exact (run_runs (reconcile sample_reconciler sample_input) sample_gone_context sample_gone_world). Qed.
Lemma sample_gone_finalizers : finalizers sample_gone_run.2.2 = [].
Proof. vm_compute. reflexivity. Qed.

Lemma reconcile_finalizer_witness :
  vm_gone (cx_VSphereVM sample_gone_context) sample_gone_run.1.
Proof.
  assert (Hout : VMFinalizer ∉ finalizers sample_gone_run.2.2).
  { rewrite sample_gone_finalizers. apply not_elem_of_nil. }
  assert (Hin : VMFinalizer ∈ finalizers sample_gone_context) by left.
  exact (proj1 (proj2 (proj2 (proj2 (reconcile_finalizer _ _ _ _ _ _ sample_gone_runs Hin Hout))))).
Defined.

(** A VM that runs and reports an address. *)
Definition sample_devices : list VirtualDevice :=
  [mkVirtualDevice 4000 100 None (EthernetCard "00:50:56:00:00:01" "manual" "net")].
Definition sample_network : list NetworkStatus :=
  [mkNetworkStatus (Some true) ["10.0.0.5"] "00:50:56:00:00:01" "net"].
Definition sample_running_vm : VSphereVM := sample_vm VirtualMachineCloneSpec_zero "" "".
Definition sample_running_world (powerState : string) : RefWorld :=
  mkRefWorld 0 (Ok None) (Ok (Some vm_ref)) (fun _ => Ok vm_ref) (Err (ELib OtherLibError "no task"))
    powerState true (Some (Some true))
    (Some [mkExtraOption VMService.guestInfoKeyMetadata
             (Some (b64_encode (Metadata.GetMachineMetadata "vm-1" sample_running_vm ∅ sample_network)))])
    sample_devices (Some [mkGuestNicInfo "00:50:56:00:00:01" ["10.0.0.5"] "net" true None])
    (fun _ => Err (ELib APINotFound "not found")) (fun _ => Err (ELib APINotFound "not found")).

Definition sample_ready_run :=
  run (reconcile sample_reconciler sample_input) (sample_context sample_running_vm) (sample_running_world "poweredOn").
Lemma sample_ready_pass_runs :
  runs (reconcile sample_reconciler sample_input (sample_context sample_running_vm)) sample_ready_run.1
    (sample_ready_run.2.1, sample_ready_run.2.2).
Proof.
  exact (run_runs (reconcile sample_reconciler sample_input) (sample_context sample_running_vm)
    (sample_running_world "poweredOn")).
Qed.
Lemma sample_ready_ready : ready sample_ready_run.2.2 = Some true.
Proof. vm_compute. reflexivity. Qed.

Lemma reconcile_ready_witness : provisioned sample_ready_run.2.2.
Proof.
  assert (Hne : ready sample_ready_run.2.2 <> ready (sample_context sample_running_vm)).
  { rewrite sample_ready_ready. discriminate. }
  exact (proj1 (proj2 (proj2 (proj2 (reconcile_ready _ _ _ _ _ _ sample_ready_pass_runs Hne))))).
Defined.

Lemma reconcile_identity_witness :
  biosUUID sample_ready_run.2.2 = biosUUID (sample_context sample_running_vm) \/
  vm_is_ready sample_ready_run.2.2 /\
    biosUUID sample_ready_run.2.2 = v_BiosUUID (cx_State sample_ready_run.2.2) /\ biosUUID sample_ready_run.2.2 <> "".
Proof. exact (proj1 (proj2 (proj2 (reconcile_identity _ _ _ _ _ _ sample_ready_pass_runs)))). Defined.

(** ** The whole of [Reconcile]

    An API server that keeps the VSphereVM it is given, with its owners. *)
Definition server_answer (X : Type) (e : Ev X) (w : RefWorld * VSphereVM) : X * (RefWorld * VSphereVM) :=
  match e in Ev Y return Y * (RefWorld * VSphereVM) with
  | GetVSphereVM _ _ => (Ok w.2, w)
  | PatchVSphereVM vm => (Ok tt, (w.1, vm))
  | GetVSphereMachine ns name =>
      (Ok (mkVSphereMachine "VSphereMachine"
             (mkObjectMeta name ns "m" (Some {[ClusterNameLabel := "cluster-1"]}) [] [] None)
             (mkVSphereMachineSpec VirtualMachineCloneSpec_zero "" "" 0 (mkVSphereVMNamingSpec ""))
             (mkVSphereMachineStatus [] None [] [] None)), w)
  | GetCluster ns name => (Ok (mkKubeCluster (mkObjectMeta name ns "c" None [] [] None) (Some ("VSphereCluster", "cluster-1"))
                              (mkAPIEndpoint "" 0) None [] [] [] None None), w)
  | GetVSphereCluster _ _ => (Ok sample_cluster, w)
  | GetOwnerMachine _ => (Ok (Some sample_machine), w)
  | e => let '(x, w') := ref_answer _ e w.1 in (x, (w', w.2))
  end.

Definition sample_owned_vm : VSphereVM :=
  set_vm_ObjectMeta (mkObjectMeta "vm-1" "default" "11111111-2222-3333-4444-555555555555" None
      [owner_ref "infrastructure.cluster.x-k8s.io/v1beta2" "VSphereMachine" "machine-1" "m"]
      [VMFinalizer] None) sample_running_vm.
Definition sample_server : RefWorld * VSphereVM := (sample_running_world "poweredOff", sample_owned_vm).
Definition sample_reconcile_run : trace * (res Result * unit) :=
  exec server_answer (Reconcile sample_reconciler "default" "vm-1" tt) sample_server.
Lemma sample_reconcile_runs :
  runs (Reconcile sample_reconciler "default" "vm-1" tt) sample_reconcile_run.1
    (sample_reconcile_run.2.1, sample_reconcile_run.2.2).
Proof.
  rewrite <-surjective_pairing.
  exact (exec_runs server_answer (Reconcile sample_reconciler "default" "vm-1" tt) sample_server).
Qed.
Lemma sample_reconcile_fetched : fetched sample_reconcile_run.1 = Some sample_owned_vm.
Proof. vm_compute. reflexivity. Qed.
Lemma sample_reconcile_tasks : started_tasks sample_reconcile_run.1 = ["task-on"] /\ sample_reconcile_run.2.1 = Ok 0.
Proof. vm_compute. split; reflexivity. Qed.

Lemma Reconcile_records_task_witness :
  started_tasks sample_reconcile_run.1 = ["task-on"] /\
  task_recorded (fresh_context sample_owned_vm) sample_reconcile_run.1 sample_reconcile_run.2.1.
Proof.
  split; [exact (proj1 sample_reconcile_tasks)|].
  exact (Reconcile_records_task _ _ _ _ _ _ _ sample_reconcile_runs sample_reconcile_fetched eq_refl).
Defined.

Lemma Reconcile_gated_witness : gated sample_reconcile_run.1.
Proof. exact (Reconcile_gated _ _ _ _ _ _ sample_reconcile_runs). Defined.

(** The pass that removes the finalizer after the destroy task looks for the
    object in the cache, because the reference of the task changed; once the cache
    has dropped the object, that look fails and a deletion that went well is
    returned as an error. *)
Definition sample_finished_run :=
  run (reconcile_context sample_reconciler sample_input) sample_gone_context sample_gone_world.
Lemma deletion_returns_not_found :
  finalizers sample_finished_run.2.2 = [] /\
  sample_finished_run.2.1 = Err (EAggregate [ELib APINotFound "not found"]).
Proof. vm_compute. split; reflexivity. Qed.
End examples.

End VMController.
