(* ===== verification/VmopCommon.v ===== *)
(** What the components of the supervisor mode share: the constants of
    [api/supervisor/v1beta2] and of [pkg/services/vmoperator], the name of the
    VirtualMachine of a machine, the labels of VirtualMachines by their role, and
    making or patching an object that may exist. *)
From S2P Require Import Prelude GoStrings Types VmwareTypes Libs Errors Prog World MachineUtil.

Module VmopCommon.
Import vmwarev1.

(** * [conditions_consts.go] and [vspherecluster_types.go] *)

Definition ResourcePolicyReadyV1Beta1Condition : string := "ResourcePolicyReady".
Definition ResourcePolicyCreationFailedV1Beta1Reason : string := "ResourcePolicyCreationFailed".
Definition ClusterNetworkReadyV1Beta1Condition : string := "ClusterNetworkReady".
Definition ClusterNetworkProvisionFailedV1Beta1Reason : string := "ClusterNetworkProvisionFailed".
Definition LoadBalancerReadyV1Beta1Condition : string := "LoadBalancerReady".
Definition LoadBalancerCreationFailedV1Beta1Reason : string := "LoadBalancerCreationFailed".
Definition WaitingForLoadBalancerIPV1Beta1Reason : string := "WaitingForLoadBalancerIP".
Definition WaitingForKubeadmControlPlaneSpecReadyV1Beta1Reason : string := "WaitingForKubeadmControlPlaneSpecReady".
Definition VMCreationFailedV1Beta1Reason : string := "VMCreationFailed".
Definition VMProvisionStartedV1Beta1Reason : string := "VMProvisionStarted".
Definition PoweringOnV1Beta1Reason : string := "PoweringOn".
Definition WaitingForNetworkAddressV1Beta1Reason : string := "WaitingForNetworkAddress".
Definition WaitingForBIOSUUIDV1Beta1Reason : string := "WaitingForBIOSUUID".

Definition ProviderServiceAccountsReadyV1Beta1Condition : string := "ProviderServiceAccountsReady".
Definition ProviderServiceAccountsReconciliationFailedV1Beta1Reason : string := "ProviderServiceAccountsReconciliationFailed".
Definition SupervisorLoadBalancerSvcNamespace : string := "kube-system".
Definition SupervisorLoadBalancerSvcName : string := "kube-apiserver-lb-svc".
Definition SupervisorAPIServerPort : Z := 6443.
Definition SupervisorHeadlessSvcNamespace : string := "default".
Definition SupervisorHeadlessSvcName : string := "supervisor".
Definition SupervisorHeadlessSvcPort : Z := 6443.
Definition ServiceDiscoveryReadyV1Beta1Condition : string := "ServiceDiscoveryReady".
Definition SupervisorHeadlessServiceSetupFailedV1Beta1Reason : string := "SupervisorHeadlessServiceSetupFailed".

Definition ProviderServiceAccountFinalizer : string := "providerserviceaccount.vmware.infrastructure.cluster.x-k8s.io".
Definition ClusterFinalizer : string := "vspherecluster.vmware.infrastructure.cluster.x-k8s.io".
Definition VSphereClusterReadyCondition `{Libs} : string := ReadyCondition.
Definition VSphereClusterReadyReason `{Libs} : string := ReadyReason.
Definition VSphereClusterNotReadyReason `{Libs} : string := NotReadyReason.
Definition VSphereClusterReadyUnknownReason `{Libs} : string := ReadyUnknownReason.
Definition VSphereClusterResourcePolicyReadyCondition : string := "ResourcePolicyReady".
Definition VSphereClusterResourcePolicyReadyReason `{Libs} : string := ReadyReason.
Definition VSphereClusterResourcePolicyNotReadyReason `{Libs} : string := NotReadyReason.
Definition VSphereClusterResourcePolicyReadyDeletingReason `{Libs} : string := DeletingReason.
Definition VSphereClusterNetworkReadyCondition : string := "NetworkReady".
Definition VSphereClusterNetworkReadyReason `{Libs} : string := ReadyReason.
Definition VSphereClusterNetworkNotReadyReason `{Libs} : string := NotReadyReason.
Definition VSphereClusterNetworkReadyDeletingReason `{Libs} : string := DeletingReason.
Definition VSphereClusterLoadBalancerReadyCondition : string := "LoadBalancerReady".
Definition VSphereClusterLoadBalancerReadyReason `{Libs} : string := ReadyReason.
Definition VSphereClusterLoadBalancerNotReadyReason `{Libs} : string := NotReadyReason.
Definition VSphereClusterLoadBalancerWaitingForIPReason : string := "WaitingForIP".
Definition VSphereClusterLoadBalancerWaitingForKubeadmControlPlaneSpecReadyReason : string :=
  "WaitingForKubeadmControlPlaneSpecReady".
Definition VSphereClusterLoadBalancerDeletingReason `{Libs} : string := DeletingReason.
Definition VSphereClusterProviderServiceAccountsReadyCondition : string := "ProviderServiceAccountsReady".
Definition VSphereClusterProviderServiceAccountsReadyReason `{Libs} : string := ReadyReason.
Definition VSphereClusterProviderServiceAccountsNotReadyReason `{Libs} : string := NotReadyReason.
Definition VSphereClusterServiceDiscoveryReadyCondition : string := "ServiceDiscoveryReady".
Definition VSphereClusterServiceDiscoveryReadyReason `{Libs} : string := ReadyReason.
Definition VSphereClusterServiceDiscoveryNotReadyReason `{Libs} : string := NotReadyReason.
Definition VSphereClusterFailureDomainsReadyCondition : string := "FailureDomainsReady".
Definition VSphereClusterFailureDomainsReadyReason `{Libs} : string := ReadyReason.
Definition VSphereClusterFailureDomainsNotReadyReason `{Libs} : string := NotReadyReason.
Definition VSphereClusterFailureDomainsReadyInternalErrorReason `{Libs} : string := InternalErrorReason.
Definition VSphereClusterFailureDomainsReadyDeletingReason `{Libs} : string := DeletingReason.

(** [vmwarev1.GroupVersion.String()]. *)
Definition VMwareGroupVersion : string := "vmware.infrastructure.cluster.x-k8s.io/v1beta2".

(** The feature gates ([feature/feature.go]) of the supervisor mode. *)
Class FeatureGates := {
  gate_NodeAutoPlacement : bool;
  gate_NamespaceScopedZones : bool;
  gate_MultiNetworks : bool;
  gate_InfrastructurePolicies : bool;
  gate_IPv6DualStack : bool;
  gate_VLANSubinterface : bool;
  gate_ClusterNetworkProvider : bool
}.

(** * [constants.go] and the constants of the services *)

Definition ZoneAnnotationPrefix : string := "zone.vmware.infrastructure.cluster.x-k8s.io".
Definition ControlPlaneVMClusterModuleGroupName : string := "control-plane-group".
Definition ClusterModuleNameAnnotationKey : string := "vsphere-cluster-module-group".
Definition ProviderTagsAnnotationKey : string := "vsphere-tag".
Definition ControlPlaneVMVMAntiAffinityTagValue : string := "CtrlVmVmAATag".
Definition WorkerVMVMAntiAffinityTagValue : string := "WorkerVmVmAATag".
Definition defaultAPIBindPort : Z := 6443.
Definition controlPlaneServiceAPIServerPortName : string := "apiserver".
Definition ClusterSelectorKey : string := "capv.vmware.com/cluster.name".
Definition nodeSelectorKey : string := "capv.vmware.com/cluster.role".
Definition roleNode : string := "node".
Definition roleControlPlane : string := "controlplane".
Definition legacyClusterSelectorKey : string := "capw.vmware.com/cluster.name".
Definition legacyNodeSelectorKey : string := "capw.vmware.com/cluster.role".

(** The key of the annotation with the zone of a MachineDeployment. *)
Definition zone_annotation (md : string) : string := sprintf "%s/%s" [AS ZoneAnnotationPrefix; AS md].

Lemma zone_annotation_eq md : zone_annotation md = ZoneAnnotationPrefix +:+ "/" +:+ md.
Proof. unfold zone_annotation. cbn. by rewrite !string_app_nil_r. Qed.

#[export] Instance zone_annotation_inj : Inj (=) (=) zone_annotation.
Proof. intros x y. rewrite !zone_annotation_eq. by intros [= ?]. Qed.

(** * Names and labels *)

(** [GenerateVirtualMachineName]; [execute] is the template engine. *)
Definition GenerateVirtualMachineName (execute : string -> string -> res string) (machineName : string)
    (namingStrategy : VirtualMachineNamingSpec) : res string :=
  if String.eqb (na_Template namingStrategy) "" then Ok machineName
  else res_wrap "failed to generate name for VirtualMachine"
         (MachineUtil.GenerateMachineNameFromTemplate execute machineName (na_Template namingStrategy)).

(** [virtualMachineObjectKey]: the namespace and the name. *)
Definition virtualMachineObjectKey (execute : string -> string -> res string) (machineName machineNamespace : string)
    (namingStrategy : VirtualMachineNamingSpec) : res (string * string) :=
  res_bind (GenerateVirtualMachineName execute machineName namingStrategy) (fun name => Ok (machineNamespace, name)).

Definition clusterRoleVMLabels (clusterName : string) (controlPlane : bool) : gmap string string :=
  let result := {[ClusterSelectorKey := clusterName; legacyClusterSelectorKey := clusterName]} in
  if controlPlane
  then <[legacyNodeSelectorKey := roleControlPlane]> (<[nodeSelectorKey := roleControlPlane]> result)
  else <[legacyNodeSelectorKey := roleNode]> (<[nodeSelectorKey := roleNode]> result).

Definition getMachineDeploymentNameForCluster (clusterName : string) : string :=
  sprintf "%s-workers-0" [AS clusterName].

(** A name that is generated is not an error that something was not found, when
    those of the template engine are not. *)
Lemma GenerateVirtualMachineName_found execute machineName naming e :
  (forall t n e, execute t n = Err e -> IsNotFound e = false) ->
  GenerateVirtualMachineName execute machineName naming = Err e -> IsNotFound e = false.
Proof.
  intros Hx. unfold GenerateVirtualMachineName, MachineUtil.GenerateMachineNameFromTemplate.
  destruct (String.eqb (na_Template naming) ""); [done|].
  destruct (String.eqb machineName ""); [by intros [= <-]|].
  destruct (execute _ machineName) as [out|e'|w] eqn:Ee; cbn; [done|intros [= <-]; exact (Hx _ _ _ Ee)|done].
Qed.

(** A call in a trace whose calls are known. *)
Ltac in_list := cbn [app]; repeat first [by apply list_elem_of_here | apply list_elem_of_further].

(** Without an effect no call has one. *)
Lemma no_effects tr : effects tr = [] -> Forall (fun cl => effect_of cl = None) tr.
Proof.
  induction tr as [|cl tr IH]; [constructor|]. unfold effects. cbn [omap list_omap]. destruct (effect_of cl) eqn:He; [done|].
  constructor; [done|by apply IH].
Qed.

(** * Making and patching

    An object that was looked for is made when it is not there and patched when
    it is to become different. *)
Section objects.
Context {St : Type}.
Open Scope go_scope.

(** [if err := c.Get(...); err != nil { if !apierrors.IsNotFound(err) { return err }; exists = false }]:
    the object, and whether it is there. *)
Definition get_or_new {T} (k : Kind T) (ns name : string) (new : T) : M Ev St (T * bool) :=
  r <- try (call_res (KubeGet k ns name)) ;;
  match r with
  | inl o => ret (o, true)
  | inr err => if negb (IsNotFound err) then fail err else ret (new, false)
  end.

(** [if !exists { c.Create(...) } else if !reflect.DeepEqual(original, o) { c.Patch(...) }]
    with a patch made by [conversionclient.MergeFrom]: the object afterwards. *)
Definition create_or_merge {T} `{EqDecision T} (k : Kind T) (exists_ : bool) (original o : T) : M Ev St T :=
  if negb exists_ then call_res (KubeCreate k o)
  else if negb (bool_decide (original = o)) then
    wrap (sprintf "failed to create patch for %s object" [AS (kind_name k)]) (call_res (KubeMergeFrom k original)) ;;
    wrap (sprintf "failed to patch %s object" [AS (kind_name k)]) (call_res (KubePatch k original o))
  else ret o.

(** The same with a patch made by [client.MergeFrom]. *)
Definition create_or_patch {T} `{EqDecision T} (k : Kind T) (exists_ : bool) (original o : T) : M Ev St T :=
  if negb exists_ then call_res (KubeCreate k o)
  else if negb (bool_decide (original = o)) then call_res (KubePatch k original o)
  else ret o.

Lemma get_or_new_reads {T} (k : Kind T) ns name new : reads (get_or_new k ns name new).
Proof. unfold get_or_new. solve_reads. Qed.

(** What was found, or that it is not there. *)
Lemma get_or_new_spec {T} (k : Kind T) ns name new (c : St) :
  wpm (get_or_new k ns name new) c (fun tr r c' => c' = c /\ effects tr = [] /\
    match r with
    | Ok (o, true) => tr = [Call (KubeGet k ns name) (Ok o)]
    | Ok (o, false) => o = new /\ exists e, tr = [Call (KubeGet k ns name) (Err e)] /\ IsNotFound e = true
    | _ => True
    end).
Proof.
  unfold get_or_new. do 2 wp_step. apply wpm_call. intros [o|e|w]; cbn beta iota; [by wp_step| |done].
  destruct (IsNotFound e) eqn:En; cbn [negb]; wp_step; [|done]. eauto 10.
Qed.
End objects.

End VmopCommon.
