(* ===== verification/VMGroup.v ===== *)
(** [controllers/vmware/virtualmachinegroup_reconciler.go]: the group of the VMs of
    the worker machines of a cluster, through which they are placed. *)
From S2P Require Import Prelude Sorting GoStrings Types VmwareTypes Libs Errors Prog World RefLibs VmopCommon Clone.
From stdpp Require Import relations.
#[local] Open Scope Z_scope.

Module VMGroup.
Import vmwarev1 vmoprvhub VmopCommon.

(** A MachineDeployment is being deleted; its name. *)
Definition md_Name (md : MachineDeployment) : string := om_Name (md_ObjectMeta md).
Definition md_deleting (md : MachineDeployment) : bool := bool_decide (om_DeletionTimestamp (md_ObjectMeta md) <> None).
Definition m_deleting (m : VSphereMachine) : bool := bool_decide (om_DeletionTimestamp (m_ObjectMeta m) <> None).

(** * The data the group is computed from *)

Definition memberNames (vmg : VirtualMachineGroup) : list string :=
  match g_BootOrder vmg with
  | group :: _ => map gm_Name (bo_Members group)
  | [] => []
  end.

(** The names that are logged. *)
Definition nameList (names : list string) : string :=
  let names := sort_by id names in
  if zlen names <=? 20 then str_join ", " names
  else sprintf "%s, ... (%d more)" [AS (str_join ", " (take 20 names)); AZ (zlen names - 20)].

Section group.
Context `{Libs} (execute : string -> string -> res string).
Open Scope go_scope.

(** From the name of the VirtualMachine of a machine to the MachineDeployment of
    that; the loop of [getVirtualMachineNameToMachineDeploymentMapping]. *)
Fixpoint vm_name_loop (vSphereMachines : list VSphereMachine) (acc : gmap string string) : res (gmap string string) :=
  match vSphereMachines with
  | [] => Ok acc
  | vsphereMachine :: rest =>
      if m_deleting vsphereMachine then vm_name_loop rest acc
      else
        res_bind (GenerateVirtualMachineName execute (m_Name vsphereMachine) (ms_Naming (m_Spec vsphereMachine)))
          (fun virtualMachineName =>
             let md := m_Label vsphereMachine MachineDeploymentNameLabel in
             vm_name_loop rest (if negb (String.eqb md "") then <[virtualMachineName := md]> acc else acc))
  end.
Definition getVirtualMachineNameToMachineDeploymentMapping (vSphereMachines : list VSphereMachine)
    : res (gmap string string) :=
  vm_name_loop vSphereMachines ∅.

(** The zone a member of the group says its MachineDeployment was placed to. *)
Definition placed_member (names : gmap string string) (mdName : string) (member : VirtualMachineGroupMemberStatus)
    : option string :=
  if negb (String.eqb (default "" (names !! gs_Name member)) mdName) then None
  else if negb (conditions_IsTrue (gs_Conditions member) VirtualMachineGroupMemberConditionPlacementReady) then None
  else
    let zone := default "" (gs_PlacementZone member) in
    if negb (String.eqb zone "") then Some zone
    else
      match conditions_Get (gs_Conditions member) VirtualMachineGroupMemberConditionPlacementReady with
      | Some c => if String.eqb (c_Reason c) "AlreadyPlaced" && negb (String.eqb (c_Message c) "")
                  then Some (c_Message c) else None
      | None => None
      end.
(** The loop over the members, which the first that is placed ends. *)
Fixpoint first_placed (names : gmap string string) (mdName : string) (members : list VirtualMachineGroupMemberStatus)
    : option string :=
  match members with
  | [] => None
  | member :: members =>
      match placed_member names mdName member with
      | Some zone => Some zone
      | None => first_placed names mdName members
      end
  end.
(** [vmgHasMDVM]. *)
Definition has_member (names : gmap string string) (mdName : string) (vmg : VirtualMachineGroup) : bool :=
  existsb (fun name => String.eqb (default "" (names !! name)) mdName) (memberNames vmg).

(** The body of the loop over the MachineDeployments. *)
Definition place_md (singleZoneName : string) (existingVMG : option VirtualMachineGroup) (names : gmap string string)
    (mapping : gmap string string) (md : MachineDeployment) : gmap string string :=
  if md_deleting md then mapping
  else if negb (String.eqb (md_FailureDomain md) "") then <[md_Name md := md_FailureDomain md]> mapping
  else
    match existingVMG with
    | None => if negb (String.eqb singleZoneName "") then <[md_Name md := singleZoneName]> mapping else mapping
    | Some vmg =>
        let failureDomain := default "" (default ∅ (g_Annotations vmg) !! zone_annotation (md_Name md)) in
        if negb (String.eqb failureDomain "") then <[md_Name md := failureDomain]> mapping
        else
          let mapping :=
            match first_placed names (md_Name md) (g_Members vmg) with
            | Some zone => <[md_Name md := zone]> mapping
            | None => mapping
            end in
          match mapping !! md_Name md with
          | Some _ => mapping
          | None =>
              if negb (String.eqb singleZoneName "") && negb (has_member names (md_Name md) vmg)
              then <[md_Name md := singleZoneName]> mapping else mapping
          end
    end.
Definition getMachineDeploymentToFailureDomainMapping (mds : list MachineDeployment) (singleZoneName : string)
    (existingVMG : option VirtualMachineGroup) (names : gmap string string) : gmap string string :=
  foldl (place_md singleZoneName existingVMG names) ∅ mds.

(** * The group *)

(** The annotations that are not about zones. *)
Definition other_annotations (annotations : gmap string string) : gmap string string :=
  base.filter (fun kv => has_prefix kv.1 (ZoneAnnotationPrefix +:+ "/") = false) annotations.
(** Those and one for each MachineDeployment with a failure domain. *)
Definition zone_annotations (mapping annotations : gmap string string) : gmap string string :=
  map_fold (fun md failureDomain acc => <[zone_annotation md := failureDomain]> acc) annotations mapping.

Definition cluster_owner (cluster : KubeCluster) : OwnerReference :=
  mkOwnerReference ClusterV1GroupVersion "Cluster" (om_Name (kc_ObjectMeta cluster)) (om_UID (kc_ObjectMeta cluster)) (Some true).

(** The metadata of the group, from that of the existing one or of a new one. *)
Definition group_meta (cluster : KubeCluster) (om : ObjectMeta) : ObjectMeta :=
  set_om_OwnerReferences (EnsureOwnerRef (om_OwnerReferences om) (cluster_owner cluster))
    (set_om_Labels (Some (<[ClusterNameLabel := om_Name (kc_ObjectMeta cluster)]> (default ∅ (om_Labels om)))) om).
Definition new_group (cluster : KubeCluster) : VirtualMachineGroup :=
  mkVirtualMachineGroup
    (mkObjectMeta (om_Name (kc_ObjectMeta cluster)) (om_Namespace (kc_ObjectMeta cluster)) "" None [] [] None)
    (Some ∅) [] [].

(** A VirtualMachine is to be a member: in a new group all are; in an existing one
    those that are already, and those whose MachineDeployment is placed. *)
Definition joins (existingVMG : option VirtualMachineGroup) (names mapping : gmap string string) (name : string) : bool :=
  match existingVMG with
  | None => true
  | Some vmg =>
      bool_decide (name ∈ memberNames vmg) || bool_decide (is_Some (mapping !! default "" (names !! name)))
  end.

Definition computeVirtualMachineGroup (cluster : KubeCluster) (mds : list MachineDeployment)
    (vSphereMachines : list VSphereMachine) (singleZoneName : string) (existingVMG : option VirtualMachineGroup)
    : res VirtualMachineGroup :=
  let vmg := default (new_group cluster) existingVMG in
  let annotations := match existingVMG with
                     | Some g => other_annotations (default ∅ (g_Annotations g))
                     | None => ∅
                     end in
  res_bind (getVirtualMachineNameToMachineDeploymentMapping vSphereMachines) (fun names =>
  let sortedVirtualMachineNames := sort_by id (map fst (map_to_list names)) in
  let mapping := getMachineDeploymentToFailureDomainMapping mds singleZoneName existingVMG names in
  let members := map (fun name => mkGroupMember name "VirtualMachine")
                   (List.filter (joins existingVMG names mapping) sortedVirtualMachineNames) in
  Ok (set_g_BootOrder [mkVirtualMachineGroupBootOrderGroup members None]
       (set_g_Annotations (Some (zone_annotations mapping annotations))
         (set_g_ObjectMeta (group_meta cluster (g_ObjectMeta vmg)) vmg)))).

(** * When to create it *)

(** The replicas that are asked for, in an [int32], and the names. *)
Definition expected_replicas (mds : list MachineDeployment) : Z :=
  foldl (fun n md => if md_deleting md then n else Clone.int32_wrap (n + ptr_deref (md_Replicas md) 0)) 0 mds.
Definition live_md_names (mds : list MachineDeployment) : list string :=
  map md_Name (List.filter (fun md => negb (md_deleting md)) mds).

(** The loop over the machines: their number, in an [int32], or that one of them
    is being deleted. *)
Fixpoint count_machines (mdNames : list string) (vSphereMachines : list VSphereMachine) (count : Z) : option Z :=
  match vSphereMachines with
  | [] => Some count
  | vSphereMachine :: rest =>
      if negb (bool_decide (m_Label vSphereMachine MachineDeploymentNameLabel ∈ mdNames)) then
        count_machines mdNames rest count
      else if m_deleting vSphereMachine then None
      else count_machines mdNames rest (Clone.int32_wrap (count + 1))
  end.

Definition shouldCreateVirtualMachineGroup (mds : list MachineDeployment) (vSphereMachines : list VSphereMachine) : bool :=
  let expected := expected_replicas mds in
  if expected =? 0 then false
  else
    match count_machines (live_md_names mds) vSphereMachines 0 with
    | None => false
    | Some current => negb (current <? expected)
    end.

(** * Reconciliation *)

Context {St : Type}.

Definition getVirtualMachineGroup (cluster : KubeCluster) : M Ev St (option VirtualMachineGroup) :=
  r <- try (call_res (KubeGet KVirtualMachineGroup (om_Namespace (kc_ObjectMeta cluster)) (om_Name (kc_ObjectMeta cluster)))) ;;
  match r with
  | inl vmg => ret (Some vmg)
  | inr err =>
      if negb (IsNotFound err) then fail (EWrap (sprintf "failed to get VirtualMachineGroup %s" [AS (KRef "" "")]) err)
      else ret None
  end.

Definition getVSphereMachines (cluster : KubeCluster) : M Ev St (list VSphereMachine) :=
  wrap "failed to get VSphereMachines"
    (call_res (KubeList KVSphereMachine (om_Namespace (kc_ObjectMeta cluster))
       [(ClusterNameLabel, Some (om_Name (kc_ObjectMeta cluster))); (MachineDeploymentNameLabel, None)])).

Definition getMachineDeployments (cluster : KubeCluster) : M Ev St (list MachineDeployment) :=
  wrap "failed to list MachineDeployments"
    (call_res (KubeList KMachineDeployment (om_Namespace (kc_ObjectMeta cluster))
       [(ClusterNameLabel, Some (om_Name (kc_ObjectMeta cluster)))])).

Definition getSingleZoneName (cluster : KubeCluster) : M Ev St string :=
  zones <- call_res (KubeList KZone (om_Namespace (kc_ObjectMeta cluster)) []) ;;
  match zones with [zone] => ret (om_Name zone) | _ => ret "" end.

Definition reconcileNormal (cluster : KubeCluster) : M Ev St unit :=
  currentVMG <- getVirtualMachineGroup cluster ;;
  vSphereMachines <- getVSphereMachines cluster ;;
  machineDeployments <- getMachineDeployments cluster ;;
  singleZoneName <- getSingleZoneName cluster ;;
  match currentVMG with
  | None =>
      if negb (shouldCreateVirtualMachineGroup machineDeployments vSphereMachines) then ret tt
      else
        newVMG <- of_res (computeVirtualMachineGroup cluster machineDeployments vSphereMachines singleZoneName None) ;;
        wrap "failed to create new VMG" (call_res (KubeCreate KVirtualMachineGroup newVMG)) ;;
        ret tt
  | Some current =>
      updatedVMG <- of_res (computeVirtualMachineGroup cluster machineDeployments vSphereMachines singleZoneName (Some current)) ;;
      wrap "failed to create patch for VirtualMachineGroup object" (call_res (KubeMergeFrom KVirtualMachineGroup current)) ;;
      wrap "failed to patch VirtualMachineGroup object" (call_res (KubePatch KVirtualMachineGroup current updatedVMG)) ;;
      ret tt
  end.

Definition Reconcile (namespace name : string) : M Ev St unit :=
  r <- try (call_res (GetCluster namespace name)) ;;
  match r with
  | inr err => if IsNotFound err then ret tt else fail err
  | inl cluster =>
      if negb (bool_decide (om_DeletionTimestamp (kc_ObjectMeta cluster) = None)) then ret tt
      else if negb (conditions_IsTrue (kc_Conditions cluster) ClusterControlPlaneInitializedCondition) then ret tt
      else reconcileNormal cluster
  end.
End group.

(** * Where MachineDeployments are placed *)

Section placement.
Context `{Libs} (execute : string -> string -> res string).

(** The zone that the group records for a MachineDeployment. *)
Definition recorded (vmg : VirtualMachineGroup) (md : string) : string :=
  default "" (default ∅ (g_Annotations vmg) !! zone_annotation md).

(** The failure domain of a MachineDeployment, in the order of the rules: what the
    user says; what the group records; what its members say; the only zone, unless
    a placement may be going on. *)
Definition placement (singleZoneName : string) (existingVMG : option VirtualMachineGroup) (names : gmap string string)
    (md : MachineDeployment) : option string :=
  if negb (String.eqb (md_FailureDomain md) "") then Some (md_FailureDomain md)
  else
    let single := if negb (String.eqb singleZoneName "") then Some singleZoneName else None in
    match existingVMG with
    | None => single
    | Some vmg =>
        if negb (String.eqb (recorded vmg (md_Name md)) "") then Some (recorded vmg (md_Name md))
        else
          match first_placed names (md_Name md) (g_Members vmg) with
          | Some zone => Some zone
          | None => if has_member names (md_Name md) vmg then None else single
          end
    end.

Lemma place_md_eq single existing names mapping md :
  mapping !! md_Name md = None ->
  place_md single existing names mapping md =
  if md_deleting md then mapping
  else match placement single existing names md with Some zone => <[md_Name md := zone]> mapping | None => mapping end.
Proof.
  intros Hn. unfold place_md, placement, recorded. destruct (md_deleting md); [done|].
  destruct (negb (String.eqb (md_FailureDomain md) "")); [done|].
  destruct existing as [vmg|]; [|by destruct (negb (String.eqb single ""))].
  cbn zeta. destruct (negb (String.eqb (default "" _) "")); [done|].
  destruct (first_placed _ _ _) as [zone|]; [by rewrite lookup_insert_eq|]. rewrite Hn.
  by destruct (negb (String.eqb single "")), (has_member _ _ _).
Qed.

Lemma mapping_lookup single existing names mds mapping n z :
  NoDup (map md_Name mds) -> (forall md, md ∈ mds -> mapping !! md_Name md = None) ->
  foldl (place_md single existing names) mapping mds !! n = Some z <->
  mapping !! n = Some z \/
  exists md, md ∈ mds /\ md_Name md = n /\ md_deleting md = false /\ placement single existing names md = Some z.
Proof.
  revert mapping. induction mds as [|md mds IH]; intros mapping Hnd Hfresh; cbn [foldl].
  { split; [by left|]. intros [?|(md & Hmd & _)]; [done|]. by apply elem_of_nil in Hmd. }
  cbn [map] in Hnd. apply NoDup_cons in Hnd as [Hni Hnd].
  assert (Hmd : mapping !! md_Name md = None) by (apply Hfresh; left).
  rewrite place_md_eq by done. rewrite IH; [|done|].
  - assert (Hne : forall md', md' ∈ mds -> md_Name md' <> md_Name md).
    { intros md' Hin E. apply Hni. rewrite <-E. by apply list_elem_of_fmap_2. }
    split.
    + intros [Hz|(md' & Hin & Hrest)]; [|right; exists md'; split; [by right|done]].
      destruct (md_deleting md) eqn:Ed; [by left|].
      destruct (placement single existing names md) as [z'|] eqn:Ep; [|by left].
      apply lookup_insert_Some in Hz as [[<- <-]|[_ Hz]]; [|by left]. right. exists md. split; [left|done].
    + intros [Hz|(md' & Hin & Hn & Hd & Hp)].
      * left. destruct (md_deleting md); [done|]. destruct (placement _ _ _ md) as [z'|]; [|done].
        rewrite lookup_insert_ne; [done|]. intros E. congruence.
      * apply elem_of_cons in Hin as [->|Hin]; [|right; by exists md'].
        left. rewrite Hd, Hp, Hn. apply lookup_insert_eq.
  - intros md' Hin. destruct (md_deleting md); [apply Hfresh; by right|].
    destruct (placement _ _ _ md) as [z'|]; [|apply Hfresh; by right].
    rewrite lookup_insert_ne; [apply Hfresh; by right|]. intros E. apply Hni. rewrite E. by apply list_elem_of_fmap_2.
Qed.

(** ** The annotations and the members of a group *)

Lemma zone_annotations_lookup mapping annotations md :
  zone_annotations mapping annotations !! zone_annotation md =
  match mapping !! md with Some zone => Some zone | None => annotations !! zone_annotation md end.
Proof.
  unfold zone_annotations.
  apply (map_fold_weak_ind (fun r m => forall md, r !! zone_annotation md =
    match m !! md with Some zone => Some zone | None => annotations !! zone_annotation md end)).
  - intros md'. by rewrite lookup_empty.
  - intros md' zone m r Hm IH md0. destruct (decide (md' = md0)) as [->|Hne].
    + by rewrite !lookup_insert_eq.
    + rewrite !lookup_insert_ne; [apply IH|done|]. by intros ?%zone_annotation_inj.
Qed.
Lemma zone_annotations_other mapping annotations key :
  (forall md, key <> zone_annotation md) -> zone_annotations mapping annotations !! key = annotations !! key.
Proof.
  intros Hk. unfold zone_annotations. apply (map_fold_weak_ind (fun r _ => r !! key = annotations !! key)); [done|].
  intros md zone m r _ IH. rewrite lookup_insert_ne; [done|]. intros E. by apply (Hk md).
Qed.

Lemma zone_annotation_prefix md : has_prefix (zone_annotation md) (ZoneAnnotationPrefix +:+ "/") = true.
Proof. rewrite zone_annotation_eq. unfold has_prefix. by destruct md. Qed.

Lemma other_annotations_zone annotations md : other_annotations annotations !! zone_annotation md = None.
Proof.
  apply map_lookup_filter_None. right. intros v _. cbn [fst]. by rewrite zone_annotation_prefix.
Qed.
Lemma other_annotations_other annotations key :
  has_prefix key (ZoneAnnotationPrefix +:+ "/") = false -> other_annotations annotations !! key = annotations !! key.
Proof.
  intros Hk. unfold other_annotations. rewrite map_lookup_filter. destruct (annotations !! key) as [v|]; [|done].
  cbn [mbind option_bind fst]. by rewrite option_guard_True.
Qed.

(** The names of VirtualMachines are those of the machines that are not being
    deleted and belong to a MachineDeployment. *)
Definition vm_of (m : VSphereMachine) (name : string) : Prop :=
  m_deleting m = false /\ GenerateVirtualMachineName execute (m_Name m) (ms_Naming (m_Spec m)) = Ok name /\
  m_Label m MachineDeploymentNameLabel <> "".

Lemma vm_name_loop_spec machines acc names :
  vm_name_loop execute machines acc = Ok names ->
  (forall n md, names !! n = Some md ->
     acc !! n = Some md \/ exists m, m ∈ machines /\ vm_of m n /\ m_Label m MachineDeploymentNameLabel = md) /\
  (forall n, is_Some (acc !! n) \/ (exists m, m ∈ machines /\ vm_of m n) -> is_Some (names !! n)).
Proof.
  revert acc. induction machines as [|m machines IH]; intros acc; cbn [vm_name_loop].
  { intros [= <-]. split; [by left|]. intros n [?|(m & Hm & _)]; [done|]. by apply elem_of_nil in Hm. }
  destruct (m_deleting m) eqn:Ed.
  - intros [H1 H2]%IH. split.
    + intros n md [?|(m' & Hin & Hm')]%H1; [by left|]. right. exists m'. split; [by right|done].
    + intros n [?|(m' & Hin & Hm')]; [apply H2; by left|].
      apply elem_of_cons in Hin as [->|Hin]; [destruct Hm' as [Hm' _]; congruence|]. apply H2. right. by exists m'.
  - intros (name & Hname & [H1 H2]%IH)%res_bind_ok.
    destruct (String.eqb_spec (m_Label m MachineDeploymentNameLabel) "") as [El|El]; cbn [negb] in H1, H2.
    + split.
      * intros n md [?|(m' & Hin & Hm')]%H1; [by left|]. right. exists m'. split; [by right|done].
      * intros n [?|(m' & Hin & Hm')]; [apply H2; by left|].
        apply elem_of_cons in Hin as [->|Hin]; [by destruct Hm' as (_ & _ & ?)|]. apply H2. right. by exists m'.
    + split.
      * intros n md [Ha|(m' & Hin & Hm')]%H1; [|right; exists m'; split; [by right|done]].
        apply lookup_insert_Some in Ha as [[<- <-]|[_ Ha]]; [|by left]. right. exists m. split; [left|done].
      * intros n [Ha|(m' & Hin & Hm')].
        -- apply H2. left. destruct (decide (name = n)) as [->|Hne]; [by rewrite lookup_insert_eq|].
           by rewrite lookup_insert_ne.
        -- apply elem_of_cons in Hin as [->|Hin]; [|apply H2; right; by exists m'].
           destruct Hm' as (_ & Hn & _). assert (name = n) as <- by congruence.
           apply H2. left. by rewrite lookup_insert_eq.
Qed.

Lemma names_domain machines names n :
  getVirtualMachineNameToMachineDeploymentMapping execute machines = Ok names ->
  is_Some (names !! n) <-> exists m, m ∈ machines /\ vm_of m n.
Proof.
  intros [H1 H2]%vm_name_loop_spec. split.
  - intros [md Hmd]. destruct (H1 _ _ Hmd) as [Hx|(m & Hin & Hm & _)]; [by rewrite lookup_empty in Hx|]. by exists m.
  - intros Hm. apply H2. by right.
Qed.

Lemma sorted_names_in (names : gmap string string) n :
  n ∈ sort_by id (map fst (map_to_list names)) <-> is_Some (names !! n).
Proof.
  rewrite (sort_by_perm id). setoid_rewrite list_elem_of_fmap. split.
  - intros ([n' md] & -> & Hin). apply elem_of_map_to_list in Hin. by exists md.
  - intros [md Hmd]. exists (n, md). split; [done|]. by apply elem_of_map_to_list.
Qed.

Lemma filter_sorted {A} (R : A -> A -> Prop) f l : Sorted.StronglySorted R l -> Sorted.StronglySorted R (List.filter f l).
Proof.
  induction 1 as [|x l Hs IH Hx]; [constructor|]. cbn. destruct (f x); [|done]. constructor; [done|].
  apply Forall_forall. intros y Hy. rewrite Forall_forall in Hx. apply Hx.
  apply list_elem_of_In in Hy. apply filter_In in Hy as [Hy _]. by apply list_elem_of_In.
Qed.

Lemma memberNames_computed group names :
  memberNames (set_g_BootOrder
    [mkVirtualMachineGroupBootOrderGroup (map (fun name => mkGroupMember name "VirtualMachine") names) None] group) = names.
Proof. cbn. rewrite map_map. apply map_id. Qed.

(** A MachineDeployment that is not being deleted and is placed. *)
Definition placed (mds : list MachineDeployment) (single : string) (existing : option VirtualMachineGroup)
    (names : gmap string string) (md zone : string) : Prop :=
  exists d, d ∈ mds /\ md_Name d = md /\ md_deleting d = false /\ placement single existing names d = Some zone.

Lemma mapping_placed mds single existing names md zone :
  NoDup (map md_Name mds) ->
  getMachineDeploymentToFailureDomainMapping mds single existing names !! md = Some zone <->
  placed mds single existing names md zone.
Proof.
  intros Hnd. unfold getMachineDeploymentToFailureDomainMapping. rewrite mapping_lookup.
  - split; [intros [Hx|?]; [by rewrite lookup_empty in Hx|done]|by right].
  - exact Hnd.
  - intros d _. apply lookup_empty.
Qed.

(** the group that is computed records the zone of exactly the MachineDeployments
    that are placed, by the failure domain of the user before what was recorded
    before what the members report before the only zone, and leaves the other
    annotations as they were. Its members are sorted and without duplicates: of the
    VMs of live machines all in a new group, and in an existing one those that were
    members and those whose MachineDeployment is placed. *)
Theorem computed_group cluster mds machines single existing group :
  NoDup (map md_Name mds) ->
  computeVirtualMachineGroup execute cluster mds machines single existing = Ok group ->
  exists names, getVirtualMachineNameToMachineDeploymentMapping execute machines = Ok names /\
  (forall md zone, default ∅ (g_Annotations group) !! zone_annotation md = Some zone <->
     placed mds single existing names md zone) /\
  (forall key, has_prefix key (ZoneAnnotationPrefix +:+ "/") = false ->
     default ∅ (g_Annotations group) !! key =
     match existing with Some g => default ∅ (g_Annotations g) !! key | None => None end) /\
  Sorted.StronglySorted String.le (memberNames group) /\ NoDup (memberNames group) /\
  (forall n, n ∈ memberNames group <->
     (exists m, m ∈ machines /\ vm_of m n) /\
     (existing = None \/ (exists g, existing = Some g /\ n ∈ memberNames g) \/
      exists md zone, names !! n = Some md /\ placed mds single existing names md zone)).
Proof.
  intros Hnd (names & Hnames & [= <-])%res_bind_ok. exists names. split; [done|].
  set (mapping := getMachineDeploymentToFailureDomainMapping mds single existing names).
  split_and!.
  - intros md zone. cbn [g_Annotations set_g_BootOrder set_g_Annotations set_g_ObjectMeta default from_option id].
    rewrite zone_annotations_lookup. rewrite <-mapping_placed by done. fold mapping.
    destruct (mapping !! md); [done|]. destruct existing as [g|]; [|by rewrite lookup_empty].
    by rewrite other_annotations_zone.
  - intros key Hkey. cbn [g_Annotations set_g_BootOrder set_g_Annotations set_g_ObjectMeta default from_option id].
    rewrite zone_annotations_other by (intros md ->; by rewrite zone_annotation_prefix in Hkey).
    destruct existing as [g|]; [by apply other_annotations_other|apply lookup_empty].
  - rewrite memberNames_computed. apply filter_sorted. apply (sort_by_sorted id).
  - rewrite memberNames_computed. apply NoDup_ListNoDup, List.NoDup_filter, NoDup_ListNoDup.
    rewrite (sort_by_perm id). apply NoDup_fst_map_to_list.
  - intros n. rewrite memberNames_computed. rewrite list_elem_of_In, filter_In, <-list_elem_of_In, sorted_names_in.
    rewrite <-(names_domain _ _ _ Hnames). fold mapping.
    split; (intros [[md Hmd] Hj]; split; [by exists md|]); unfold joins in *.
    + destruct existing as [g|]; [|by left]. apply orb_true_iff in Hj. rewrite !bool_decide_eq_true in Hj.
      destruct Hj as [Hj|[zone Hz]]; [right; left; by exists g|]. right; right.
      rewrite Hmd in Hz. exists md, zone. by rewrite <-mapping_placed.
    + destruct existing as [g|]; [|done]. apply orb_true_iff. rewrite !bool_decide_eq_true.
      destruct Hj as [?|[(g' & [= <-] & Hn)|(md' & zone & Hmd' & Hz)]]; [done|by left|]. right.
      rewrite Hmd'. exists zone. by apply mapping_placed.
Qed.
End placement.

(** * What a reconciliation does to the group *)

Inductive group_write :=
| GroupCreated (vmg : VirtualMachineGroup)
| GroupPatched (original updated : VirtualMachineGroup).

Definition group_write_of (c : call Ev) : option group_write :=
  match c with
  | @Call _ X e _ =>
      match e with
      | @KubeCreate T k o =>
          match k in Kind T return T -> option group_write with
          | KVirtualMachineGroup => fun vmg => Some (GroupCreated vmg)
          | _ => fun _ => None
          end o
      | @KubePatch T k original o =>
          match k in Kind T return T -> T -> option group_write with
          | KVirtualMachineGroup => fun original vmg => Some (GroupPatched original vmg)
          | _ => fun _ _ => None
          end original o
      | _ => None
      end
  end.
Definition group_writes (tr : trace) : list group_write := omap group_write_of tr.

Lemma group_writes_app tr tr' : group_writes (tr ++ tr')%list = (group_writes tr ++ group_writes tr')%list.
Proof. apply omap_app. Qed.
Lemma quiet_group_writes tr : effects tr = [] -> group_writes tr = [].
Proof.
  induction tr as [|[X e x] tr IH]; [done|]. unfold effects, group_writes. simpl.
  destruct e; simpl; try discriminate; exact IH.
Qed.

(** The MachineDeployments a call says there are. *)
Definition listed_mds (c : call Ev) : option (list MachineDeployment) :=
  match c with
  | @Call _ X e x =>
      match e in Ev Y return Y -> option (list MachineDeployment) with
      | @KubeList T k _ _ =>
          match k in Kind T return res (list T) -> option (list MachineDeployment) with
          | KMachineDeployment => fun r => match r with Ok l => Some l | _ => None end
          | _ => fun _ => None
          end
      | _ => fun _ => None
      end x
  end.
Definition listed_deployments (tr : trace) : list (list MachineDeployment) := omap listed_mds tr.

Section reconciled.
Context `{Libs} (execute : string -> string -> res string) {St : Type}.

Definition single_zone (zones : list ObjectMeta) : string := match zones with [zone] => om_Name zone | _ => "" end.

(** The one write of a pass, if any, with what it was computed from. *)
Definition group_pass (namespace name : string) (tr : trace) : Prop :=
  group_writes tr = [] \/
  exists cluster machines mds zones,
    let ns := om_Namespace (kc_ObjectMeta cluster) in
    let n := om_Name (kc_ObjectMeta cluster) in
    Call (GetCluster namespace name) (Ok cluster) ∈ tr /\
    om_DeletionTimestamp (kc_ObjectMeta cluster) = None /\
    conditions_IsTrue (kc_Conditions cluster) ClusterControlPlaneInitializedCondition = true /\
    Call (KubeList KVSphereMachine ns [(ClusterNameLabel, Some n); (MachineDeploymentNameLabel, None)]) (Ok machines) ∈ tr /\
    Call (KubeList KMachineDeployment ns [(ClusterNameLabel, Some n)]) (Ok mds) ∈ tr /\
    Call (KubeList KZone ns []) (Ok zones) ∈ tr /\
    ((exists e group, Call (KubeGet KVirtualMachineGroup ns n) (Err e) ∈ tr /\ IsNotFound e = true /\
        shouldCreateVirtualMachineGroup mds machines = true /\
        computeVirtualMachineGroup execute cluster mds machines (single_zone zones) None = Ok group /\
        group_writes tr = [GroupCreated group]) \/
     (exists current group, Call (KubeGet KVirtualMachineGroup ns n) (Ok current) ∈ tr /\
        computeVirtualMachineGroup execute cluster mds machines (single_zone zones) (Some current) = Ok group /\
        group_writes tr = [GroupPatched current group])).

Lemma getVirtualMachineGroup_spec cluster (c : St) :
  wpm (getVirtualMachineGroup cluster) c (fun tr r _ => effects tr = [] /\
    let key := KubeGet KVirtualMachineGroup (om_Namespace (kc_ObjectMeta cluster)) (om_Name (kc_ObjectMeta cluster)) in
    match r with
    | Ok (Some vmg) => tr = [Call key (Ok vmg)]
    | Ok None => exists e, tr = [Call key (Err e)] /\ IsNotFound e = true
    | _ => True
    end).
Proof.
  unfold getVirtualMachineGroup. do 2 wp_step. apply wpm_call. intros [o|e|w]; cbn beta iota; [by wp_step| |done].
  destruct (IsNotFound e) eqn:En; cbn [negb]; wp_step; [|done]. split; [done|]. by exists e.
Qed.

Lemma getSingleZoneName_spec cluster (c : St) :
  wpm (getSingleZoneName cluster) c (fun tr r _ => effects tr = [] /\
    match r with
    | Ok single => exists zones, single = single_zone zones /\
        tr = [Call (KubeList KZone (om_Namespace (kc_ObjectMeta cluster)) []) (Ok zones)]
    | _ => True
    end).
Proof.
  unfold getSingleZoneName. wp_step. apply wpm_call. intros [zones|e|w]; cbn beta iota; [|done..].
  destruct zones as [|z [|z' zones]]; wp_step; (split; [done|]); eexists; (split; [|reflexivity]); reflexivity.
Qed.

Lemma group_Reconcile_spec namespace name (c : St) :
  wpm (Reconcile execute namespace name) c (fun tr _ _ => group_pass namespace name tr).
Proof.
  unfold Reconcile. do 2 wp_step. apply wpm_call. intros [cluster|e|w]; cbn beta iota; [|by destruct (IsNotFound e); wp_step; left|by left].
  destruct (bool_decide (om_DeletionTimestamp _ = None)) eqn:Ed; cbn [negb]; [|by left].
  apply bool_decide_eq_true in Ed.
  destruct (conditions_IsTrue _ _) eqn:Ei; cbn [negb]; [|by left].
  unfold reconcileNormal. wp_step. eapply wpm_mono; [apply getVirtualMachineGroup_spec|].
  intros tr1 [current|e|w] c1 [Ht1 Hcur]; cbn beta iota; cbn zeta in Hcur;
    [|left; by rewrite group_writes_app, (quiet_group_writes tr1)..].
  unfold getVSphereMachines, getMachineDeployments. do 2 wp_step. apply wpm_call.
  intros [machines|e|w]; cbn beta iota delta [res_wrap]; [|left; by rewrite !group_writes_app, (quiet_group_writes tr1)..].
  do 2 wp_step. apply wpm_call.
  intros [mds|e|w]; cbn beta iota delta [res_wrap]; [|left; by rewrite !group_writes_app, (quiet_group_writes tr1)..].
  wp_step. eapply wpm_mono; [apply getSingleZoneName_spec|].
  intros tr2 [single|e|w] c2 [Ht2 Hz]; cbn beta iota.
  2-3: left; by rewrite !group_writes_app, (quiet_group_writes tr1), (quiet_group_writes tr2).
  destruct Hz as (zones & -> & ->). destruct current as [current|].
  - subst tr1. wp_step. destruct (computeVirtualMachineGroup _ _ _ _ _ _) as [group|e|w] eqn:Ec; wp_step; [|by left..].
    do 3 wp_step; [|by left..]. do 3 wp_step; try wp_step; right; exists cluster, machines, mds, zones; cbn zeta.
    all: split_and!; [in_list|done|done|in_list|in_list|in_list|]; right; exists current, group.
    all: split_and!; [in_list|done|reflexivity].
  - destruct Hcur as (e & -> & En). destruct (shouldCreateVirtualMachineGroup mds machines) eqn:Es; cbn [negb]; [|by left].
    wp_step. destruct (computeVirtualMachineGroup _ _ _ _ _ _) as [group|e'|w] eqn:Ec; wp_step; [|by left..].
    do 3 wp_step; try wp_step; right; exists cluster, machines, mds, zones; cbn zeta.
    all: split_and!; [in_list|done|done|in_list|in_list|in_list|]; left; exists e, group.
    all: split_and!; [in_list|done|done|done|reflexivity].
Qed.

(** ** Placements last *)

(** A MachineDeployment is there, is not being deleted, and the user does not say
    where it is to be. *)
Definition unpinned (md : string) (mds : list MachineDeployment) : Prop :=
  NoDup (map md_Name mds) /\
  exists d, d ∈ mds /\ md_Name d = md /\ md_deleting d = false /\ md_FailureDomain d = "".

(** What can happen to a group: a pass of the reconciliation that found the
    MachineDeployment so, and whatever else does not touch its annotation (the
    status that the VM operator writes, other annotations). *)
Inductive group_step (md : string) : VirtualMachineGroup -> VirtualMachineGroup -> Prop :=
| group_reconciled namespace name (s s' : St) tr r current group :
    runs (Reconcile execute namespace name s) tr (r, s') ->
    GroupPatched current group ∈ group_writes tr ->
    Forall (unpinned md) (listed_deployments tr) ->
    group_step md current group
| group_otherwise current group : recorded group md = recorded current md -> group_step md current group.

Lemma computed_keeps cluster mds machines single current group md :
  unpinned md mds ->
  computeVirtualMachineGroup execute cluster mds machines single (Some current) = Ok group ->
  recorded current md <> "" -> recorded group md = recorded current md.
Proof.
  intros (Hnd & d & Hd & <- & Hlive & Hfd) Hc Hr.
  destruct (computed_group execute _ _ _ _ _ _ Hnd Hc) as (names & _ & Hann & _).
  unfold recorded at 1. rewrite (proj2 (Hann (md_Name d) (recorded current (md_Name d)))); [done|].
  exists d. split_and!; [done..|]. unfold placement. rewrite Hfd. cbn [negb String.eqb].
  apply String.eqb_neq in Hr. by rewrite Hr.
Qed.

(** C17: a placement lasts: once the group records a zone for a MachineDeployment it
    records that zone after any number of passes and of changes by others, as long
    as the MachineDeployment stays and the user does not say otherwise. Others may
    change anything but the annotation about that MachineDeployment, and the passes
    see MachineDeployments with distinct names. *)
Theorem placement_persists md group group' zone :
  rtc (group_step md) group group' -> recorded group md = zone -> zone <> "" -> recorded group' md = zone.
Proof.
  induction 1 as [|g1 g2 g3 Hs _ IH]; [done|]. intros Hz Hne. apply IH; [|done].
  destruct Hs as [namespace name s s' tr r current group1 Hrun Hw Hmds|current group1 He]; [|by rewrite He].
  pose proof (proj1 (wpm_runs _ _ _) (group_Reconcile_spec namespace name s) _ _ _ Hrun) as [Hq|Hp]; cbn beta in *.
  { rewrite Hq in Hw. by apply elem_of_nil in Hw. }
  destruct Hp as (cluster & machines & mds & zones & _ & _ & _ & _ & Hin & _ & Hp).
  assert (unpinned md mds) as Hun.
  { rewrite Forall_forall in Hmds. apply Hmds. unfold listed_deployments. apply list_elem_of_omap. by eexists. }
  destruct Hp as [(e & g' & _ & _ & _ & _ & Hq)|(cur & g' & _ & Hc & Hq)]; rewrite Hq in Hw.
  - by apply list_elem_of_singleton in Hw.
  - apply list_elem_of_singleton in Hw as [= -> ->]. rewrite <-Hz. eapply computed_keeps; [exact Hun|exact Hc|].
    by rewrite Hz.
Qed.

(** ** When a group is made *)

Definition total_replicas (mds : list MachineDeployment) : Z :=
  foldr Z.add 0 (map (fun md => ptr_deref (md_Replicas md) 0) (List.filter (fun md => negb (md_deleting md)) mds)).

Lemma int32_wrap_id z : - 2 ^ 31 <= z < 2 ^ 31 -> Clone.int32_wrap z = z.
Proof. intros Hz. unfold Clone.int32_wrap. rewrite Z.mod_small by lia. lia. Qed.

Lemma expected_replicas_eq mds :
  Forall (fun md => 0 <= ptr_deref (md_Replicas md) 0) mds -> total_replicas mds < 2 ^ 31 ->
  expected_replicas mds = total_replicas mds.
Proof.
  unfold expected_replicas, total_replicas. intros Hf.
  assert (G : forall n, 0 <= n ->
    n + foldr Z.add 0 (map (fun md => ptr_deref (md_Replicas md) 0) (List.filter (fun md => negb (md_deleting md)) mds)) < 2 ^ 31 ->
    foldl (fun n md => if md_deleting md then n else Clone.int32_wrap (n + ptr_deref (md_Replicas md) 0)) n mds =
    n + foldr Z.add 0 (map (fun md => ptr_deref (md_Replicas md) 0) (List.filter (fun md => negb (md_deleting md)) mds))).
  { induction Hf as [|md mds Hmd Hf IH]; intros n Hn; cbn [foldl List.filter map foldr]; [lia|].
    destruct (md_deleting md); cbn [negb map foldr]; [by apply IH|]. intros Hlt.
    assert (0 <= foldr Z.add 0 (map (fun md => ptr_deref (md_Replicas md) 0) (List.filter (fun md => negb (md_deleting md)) mds))) as Hnn.
    { clear -Hf. induction Hf as [|md mds Hmd Hf IH]; cbn [List.filter map foldr]; [lia|].
      destruct (md_deleting md); cbn [negb map foldr]; lia. }
    rewrite int32_wrap_id by lia. rewrite IH; lia. }
  intros Hlt. rewrite G; lia.
Qed.

(** The machines of the MachineDeployments that are not being deleted. *)
Definition machines_of (mds : list MachineDeployment) (machines : list VSphereMachine) : list VSphereMachine :=
  List.filter (fun m => bool_decide (m_Label m MachineDeploymentNameLabel ∈ live_md_names mds)) machines.

Lemma count_machines_eq mds machines n k :
  0 <= n -> n + zlen machines < 2 ^ 31 ->
  count_machines (live_md_names mds) machines n = Some k ->
  k = n + zlen (machines_of mds machines) /\ Forall (fun m => m_deleting m = false) (machines_of mds machines).
Proof.
  unfold machines_of, zlen. revert n. induction machines as [|m machines IH]; intros n Hn; cbn [count_machines List.filter length].
  { intros _ [= <-]. split; [cbn; lia|constructor]. }
  intros Hlt. destruct (bool_decide _); cbn [negb]; [|apply IH; lia].
  destruct (m_deleting m) eqn:Ed; [done|]. rewrite int32_wrap_id by lia.
  intros [-> Hf]%IH; [|lia..]. cbn [length]. split; [lia|]. by constructor.
Qed.

(** the group is made for a whole batch: when a pass creates it, then there is
    something to place, none of the machines of its MachineDeployments is being
    deleted, there are at least as many of them as replicas are asked for, and the
    VM of every one of them is a member. *)
Theorem group_made_for_batch namespace name (s s' : St) tr r group :
  runs (Reconcile execute namespace name s) tr (r, s') ->
  GroupCreated group ∈ group_writes tr ->
  exists mds machines ns labels labels',
    Call (KubeList KMachineDeployment ns labels) (Ok mds) ∈ tr /\
    Call (KubeList KVSphereMachine ns labels') (Ok machines) ∈ tr /\
    (Forall (fun md => 0 <= ptr_deref (md_Replicas md) 0) mds -> total_replicas mds < 2 ^ 31 -> zlen machines < 2 ^ 31 ->
     0 < total_replicas mds <= zlen (machines_of mds machines) /\
     Forall (fun m => m_deleting m = false) (machines_of mds machines) /\
     (NoDup (map md_Name mds) ->
      forall m vm, m ∈ machines_of mds machines -> vm_of execute m vm -> vm ∈ memberNames group)).
Proof.
  intros Hrun Hw. pose proof (proj1 (wpm_runs _ _ _) (group_Reconcile_spec namespace name s) _ _ _ Hrun) as [Hq|Hp]; cbn beta in *.
  { rewrite Hq in Hw. by apply elem_of_nil in Hw. }
  destruct Hp as (cluster & machines & mds & zones & _ & _ & _ & Hm & Hd & _ & Hp).
  exists mds, machines. do 3 eexists. split; [exact Hd|]. split; [exact Hm|]. intros Hnn Hsum Hlen.
  destruct Hp as [(e & g' & _ & _ & Hs & Hc & Hq)|(cur & g' & _ & Hc & Hq)]; rewrite Hq in Hw;
    apply list_elem_of_singleton in Hw; [|done]. injection Hw as ->.
  unfold shouldCreateVirtualMachineGroup in Hs. rewrite expected_replicas_eq in Hs by done.
  assert (0 <= total_replicas mds) as Htot.
  { clear -Hnn. unfold total_replicas. induction Hnn as [|md mds Hmd Hf IH]; cbn [List.filter map foldr]; [lia|].
    destruct (md_deleting md); cbn [negb map foldr]; lia. }
  destruct (total_replicas mds =? 0) eqn:Ez; [done|]. apply Z.eqb_neq in Ez.
  destruct (count_machines _ _ _) as [k|] eqn:Ek; [|done].
  apply count_machines_eq in Ek as [-> Hf]; [|lia..]. split; [|split; [exact Hf|]].
  - destruct (Z.ltb_spec (0 + zlen (machines_of mds machines)) (total_replicas mds)); [done|]. lia.
  - intros Hnd m vm Hin Hvm. destruct (computed_group execute _ _ _ _ _ _ Hnd Hc) as (names & _ & _ & _ & _ & _ & Hmem).
    apply Hmem. split; [|by left]. exists m. split; [|done].
    apply list_elem_of_In in Hin. apply filter_In in Hin as [Hin _]. by apply list_elem_of_In.
Qed.
End reconciled.

(** * Examples *)

Import RefLibs.

Definition sample_cluster : KubeCluster :=
  mkKubeCluster (mkObjectMeta "c" "ns" "uid-c" None [] [] None) (Some ("VSphereCluster", "c")) (Types.mkAPIEndpoint "" 0) (Some true)
    [cond "ControlPlaneInitialized" ConditionTrue "Initialized" ""] [] [] None (Some true).
Definition sample_md (name : string) (replicas : Z) (failureDomain : string) : MachineDeployment :=
  mkMachineDeployment (mkObjectMeta name "ns" name None [] [] None) (Some replicas) failureDomain.
Definition no_network : VSphereMachineNetworkSpec :=
  mkVSphereMachineNetworkSpec (mkInterfaceSpec (mkInterfaceNetworkReference "" "" "") 0 []) [] [].
Definition sample_machine (name md : string) (deletion : Time) : VSphereMachine :=
  vmwarev1.mkVSphereMachine "VSphereMachine"
    (mkObjectMeta name "ns" name (Some {["cluster.x-k8s.io/deployment-name" := md]}) [] [] deletion)
    (vmwarev1.mkVSphereMachineSpec "" "image" "class" "" [] no_network "" "" (mkVirtualMachineNamingSpec "") [])
    (vmwarev1.mkVSphereMachineStatus [] None [] "" "" "" [] None).

(** A world with a group, machines, MachineDeployments and zones. *)
Record GroupWorld := mkGroupWorld {
  gw_Group : option VirtualMachineGroup;
  gw_Machines : list VSphereMachine;
  gw_MachineDeployments : list MachineDeployment;
  gw_Zones : list ObjectMeta
}.
Definition gw_get (w : GroupWorld) {T} (k : Kind T) : res T :=
  match k in Kind T return res T with
  | KVirtualMachineGroup => match gw_Group w with Some g => Ok g | None => Err (ELib APINotFound "not found") end
  | _ => Err (ELib APINotFound "not found")
  end.
Definition gw_list (w : GroupWorld) {T} (k : Kind T) : res (list T) :=
  match k in Kind T return res (list T) with
  | KVSphereMachine => Ok (gw_Machines w)
  | KMachineDeployment => Ok (gw_MachineDeployments w)
  | KZone => Ok (gw_Zones w)
  | _ => Ok []
  end.
Definition group_answer (X : Type) (e : Ev X) (w : GroupWorld) : X * GroupWorld :=
  match e in Ev Y return Y * GroupWorld with
  | GetCluster _ _ => (Ok sample_cluster, w)
  | KubeGet k _ _ => (gw_get w k, w)
  | KubeList k _ _ => (gw_list w k, w)
  | e => ((ref_answer _ e empty_world).1, w)
  end.
Definition sample_execute (template name : string) : res string := Ok (name +:+ "-vm").
Definition group_run (w : GroupWorld) : trace * (res unit * unit) :=
  exec group_answer (Reconcile sample_execute "ns" "c" tt) w.
Lemma group_run_runs w : runs (Reconcile sample_execute "ns" "c" tt) (group_run w).1 ((group_run w).2.1, (group_run w).2.2).
Proof. rewrite <-surjective_pairing. apply exec_runs. Qed.

(** Two MachineDeployments, of which the user places one. *)
Definition fresh_world : GroupWorld :=
  mkGroupWorld None [sample_machine "b-1" "b" None; sample_machine "a-1" "a" None; sample_machine "a-2" "a" None]
    [sample_md "a" 2 ""; sample_md "b" 1 "zone-b"] [].
Definition fresh_group : VirtualMachineGroup :=
  match computeVirtualMachineGroup sample_execute sample_cluster (gw_MachineDeployments fresh_world)
          (gw_Machines fresh_world) "" None with
  | Ok g => g
  | _ => new_group sample_cluster
  end.

(** All the VMs are members, and one annotation is there. *)
Example fresh_group_members :
  memberNames fresh_group = ["a-1"; "a-2"; "b-1"] /\ recorded fresh_group "b" = "zone-b" /\ recorded fresh_group "a" = "".
Proof. by vm_compute. Qed.

Lemma computed_group_witness :
  exists names, getVirtualMachineNameToMachineDeploymentMapping sample_execute (gw_Machines fresh_world) = Ok names /\
  (forall md zone, default ∅ (g_Annotations fresh_group) !! zone_annotation md = Some zone <->
     placed (gw_MachineDeployments fresh_world) "" None names md zone).
Proof.
  destruct (computed_group sample_execute sample_cluster (gw_MachineDeployments fresh_world) (gw_Machines fresh_world)
    "" None fresh_group) as (names & Hnames & Hann & _).
  - apply (bool_decide_unpack _). by vm_compute.
  - by vm_compute.
  - exists names. by split.
Defined.

(** The replicas of two MachineDeployments that together leave the [int32]: the sum
    is negative, and a group is made before there is any machine. *)
Example replicas_overflow :
  let mds := [sample_md "a" (2 ^ 31 - 1) ""; sample_md "b" (2 ^ 31 - 1) ""] in
  expected_replicas mds = -2 /\ shouldCreateVirtualMachineGroup mds [] = true.
Proof. by vm_compute. Qed.

Lemma fresh_result : (group_run fresh_world).2 = (Ok tt, tt).
Proof. vm_compute. reflexivity. Qed.

Lemma group_made_for_batch_witness :
  exists mds machines ns labels labels',
    Call (KubeList KMachineDeployment ns labels) (Ok mds) ∈ (group_run fresh_world).1 /\
    Call (KubeList KVSphereMachine ns labels') (Ok machines) ∈ (group_run fresh_world).1 /\
    (Forall (fun md => 0 <= ptr_deref (md_Replicas md) 0) mds -> total_replicas mds < 2 ^ 31 -> zlen machines < 2 ^ 31 ->
     0 < total_replicas mds <= zlen (machines_of mds machines) /\
     Forall (fun m => m_deleting m = false) (machines_of mds machines) /\
     (NoDup (map md_Name mds) ->
      forall m vm, m ∈ machines_of mds machines -> vm_of sample_execute m vm -> vm ∈ memberNames fresh_group)).
Proof.
  apply (group_made_for_batch sample_execute "ns" "c" tt tt (group_run fresh_world).1 (Ok tt) fresh_group).
  - pose proof (group_run_runs fresh_world) as Hw. by rewrite fresh_result in Hw.
  - replace (group_writes (group_run fresh_world).1) with [GroupCreated fresh_group] by (vm_compute; reflexivity). left.
Defined.

(** The VM operator placed a machine of [a] in a zone; the pass after that records
    it, and a later pass keeps it although a machine then reports another zone. *)
Definition with_status (zone : string) (g : VirtualMachineGroup) : VirtualMachineGroup :=
  mkVirtualMachineGroup (g_ObjectMeta g) (g_Annotations g) (g_BootOrder g)
    [mkVirtualMachineGroupMemberStatus "a-1" (Some zone) [cond "PlacementReady" ConditionTrue "Ready" ""]].
Definition with_group (g : VirtualMachineGroup) (w : GroupWorld) : GroupWorld :=
  mkGroupWorld (Some g) (gw_Machines w) (gw_MachineDeployments w) (gw_Zones w).
Definition next_group (g : VirtualMachineGroup) : VirtualMachineGroup :=
  match group_writes (group_run (with_group g fresh_world)).1 with [GroupPatched _ g'] => g' | _ => g end.

Definition placed_group : VirtualMachineGroup := next_group (with_status "zone-1" fresh_group).
Definition later_group : VirtualMachineGroup := next_group (with_status "zone-2" placed_group).

Lemma later_result :
  (group_run (with_group (with_status "zone-2" placed_group) fresh_world)).2 = (Ok tt, tt) /\
  group_writes (group_run (with_group (with_status "zone-2" placed_group) fresh_world)).1 =
    [GroupPatched (with_status "zone-2" placed_group) later_group].
Proof. split; vm_compute; reflexivity. Qed.

Lemma placement_persists_witness :
  recorded placed_group "a" = "zone-1" /\ recorded later_group "a" = "zone-1".
Proof.
  split; [by vm_compute|].
  apply (placement_persists (St:=unit) sample_execute "a" placed_group later_group "zone-1"); [|by vm_compute|done].
  eapply rtc_l; [apply (group_otherwise sample_execute "a" placed_group (with_status "zone-2" placed_group)); reflexivity|].
  apply rtc_once. destruct later_result as [Hr Hw].
  eapply (group_reconciled sample_execute "a" "ns" "c" tt tt
    (group_run (with_group (with_status "zone-2" placed_group) fresh_world)).1 (Ok tt)).
  - pose proof (group_run_runs (with_group (with_status "zone-2" placed_group) fresh_world)) as Hrun.
    by rewrite Hr in Hrun.
  - rewrite Hw. left.
  - replace (listed_deployments _) with [gw_MachineDeployments fresh_world] by (vm_compute; reflexivity).
    constructor; [|constructor]. split; [apply (bool_decide_unpack _); by vm_compute|].
    exists (sample_md "a" 2 ""). by split_and!; [left|..].
Defined.

End VMGroup.
