(* ===== verification/NetworkInterface.v ===== *)
(** [NetworkProvider] of [pkg/services/interfaces.go] and [ClusterContext] of
    [pkg/context/vmware/cluster_context.go]: what the reconcilers of the supervisor
    mode rely on of the network of a cluster. *)
From S2P Require Import Prelude GoStrings Types VmwareTypes Libs Errors Prog World Conditions MachineUtil VmopCommon.

Module NetworkInterface.
Import VmopCommon.

(** [ClusterContext]: a Cluster, which may not be known yet, and its
    VSphereCluster. *)
Record ClusterContext := mkClusterContext {
  cc_Cluster : option KubeCluster;
  cc_VSphereCluster : vmwarev1.VSphereCluster
}.
Definition set_cc_VSphereCluster (v : vmwarev1.VSphereCluster) (c : ClusterContext) : ClusterContext :=
  mkClusterContext (cc_Cluster c) v.

(** [ClusterContext.String]. *)
Definition ClusterContext_String (c : ClusterContext) : string :=
  let v := cc_VSphereCluster c in
  sprintf "%s %s/%s" [AS (vmwarev1.v_GVK v); AS (om_Namespace (vmwarev1.v_ObjectMeta v)); AS (om_Name (vmwarev1.v_ObjectMeta v))].

Definition cc_Name (c : ClusterContext) : string := om_Name (vmwarev1.v_ObjectMeta (cc_VSphereCluster c)).
Definition cc_Namespace (c : ClusterContext) : string := om_Namespace (vmwarev1.v_ObjectMeta (cc_VSphereCluster c)).

(** [GetConditions] and the like of a VSphereCluster, and through it of the
    context. *)
Definition on_status (f : vmwarev1.VSphereClusterStatus -> vmwarev1.VSphereClusterStatus) (c : ClusterContext) : ClusterContext :=
  set_cc_VSphereCluster (vmwarev1.set_v_Status (f (vmwarev1.v_Status (cc_VSphereCluster c))) (cc_VSphereCluster c)) c.
Definition GetConditions (v : vmwarev1.VSphereCluster) : list Condition := vmwarev1.vt_Conditions (vmwarev1.v_Status v).
Definition SetConditions (l : list Condition) (c : ClusterContext) : ClusterContext := on_status (vmwarev1.set_vt_Conditions l) c.
Definition GetV1Beta1Conditions (v : vmwarev1.VSphereCluster) : list V1Beta1Condition :=
  vmwarev1.deprecated_get (vmwarev1.vt_Deprecated (vmwarev1.v_Status v)).
Definition SetV1Beta1Conditions (l : list V1Beta1Condition) (c : ClusterContext) : ClusterContext :=
  on_status (fun st => vmwarev1.set_vt_Deprecated (vmwarev1.deprecated_set (vmwarev1.vt_Deprecated st) l) st) c.

#[export] Instance cluster_conditioned : Conditioned ClusterContext.
Proof.
  refine {|
    the_conditions c := GetConditions (cc_VSphereCluster c);
    put_conditions := SetConditions;
    the_v1beta1 c := GetV1Beta1Conditions (cc_VSphereCluster c);
    put_v1beta1 := SetV1Beta1Conditions
  |}; done.
Defined.

(** What conditions do not touch. *)
Definition cluster_view (c : ClusterContext) :=
  (cc_Cluster c, vmwarev1.v_GVK (cc_VSphereCluster c), vmwarev1.v_ObjectMeta (cc_VSphereCluster c),
   vmwarev1.v_Spec (cc_VSphereCluster c), vmwarev1.vt_Provisioned (vmwarev1.v_Status (cc_VSphereCluster c)),
   vmwarev1.vt_FailureDomains (vmwarev1.v_Status (cc_VSphereCluster c))).
Lemma adorned_view c c' : adorned c c' -> cluster_view c' = cluster_view c.
Proof. by apply (adorned_field cluster_view). Qed.

(** A condition of the VSphereCluster is true. *)
Definition condition_true `{Libs} (ty : string) (c : ClusterContext) : Prop :=
  exists cnd, the_condition ty c = Some cnd /\ c_Status cnd = ConditionTrue.

(** [DetermineClusterIPFamily] of the Cluster of a context. *)
Definition family_view (cluster : KubeCluster) : MachineUtil.Cluster :=
  MachineUtil.mkCluster (om_Namespace (kc_ObjectMeta cluster)) (om_Name (kc_ObjectMeta cluster))
    (kc_PodCIDRBlocks cluster) (kc_ServiceCIDRBlocks cluster).
Definition ip_family `{Libs} (cluster : option KubeCluster) : res MachineUtil.ClusterIPFamily :=
  MachineUtil.DetermineClusterIPFamily (option_map family_view cluster).

(** The objects whose status can be verified, and any other object by the name of
    its type. *)
Inductive NetworkObject :=
| OVirtualNetwork (vnet : VirtualNetwork)
| OSubnetSet (subnetset : SubnetSet)
| ONetwork (network : ObjectMeta)
| OOther (typeName : string).

(** [NetworkProvider]. Its promises are the laws: to provision the network of a
    cluster touches its conditions only, of which it makes the one about the
    network true when it succeeds; configuring a VM reads, and sets the network of
    the VM only. *)
Class NetworkProvider `{Libs} (NP : Type) := {
  Name : NP -> string;
  SupportsIPv6DualStack : NP -> bool;
  HasLoadBalancer : NP -> bool;
  SupportsVMReadinessProbe : NP -> bool;
  ProvisionClusterNetwork : NP -> M Ev ClusterContext unit;
  GetClusterNetworkName : NP -> M Ev ClusterContext string;
  GetVMServiceAnnotations : NP -> M Ev ClusterContext (gmap string string);
  ConfigureVirtualMachine :
    NP -> vmwarev1.VSphereMachine -> vmoprvhub.VirtualMachine -> M Ev ClusterContext vmoprvhub.VirtualMachine;
  VerifyNetworkStatus : NP -> NetworkObject -> M Ev ClusterContext unit;

  ProvisionClusterNetwork_law np c : wpm (ProvisionClusterNetwork np) c (fun _ r c' => adorned c c' /\
    match r with Ok _ => condition_true VSphereClusterNetworkReadyCondition c' | _ => True end);
  GetVMServiceAnnotations_law np : reads (GetVMServiceAnnotations np);
  ConfigureVirtualMachine_law np machine vm c : wpm (ConfigureVirtualMachine np machine vm) c (fun tr r c' =>
    effects tr = [] /\ c' = c /\
    match r with
    | Ok vm' => exists network, vm' = vmoprvhub.set_o_Spec (vmoprvhub.set_s_Network network (vmoprvhub.o_Spec vm)) vm
    | _ => True
    end)
}.

(** [ControlPlaneEndpointService] and [ResourcePolicyService]. The promises: an
    endpoint that is given is one, and the condition about the load balancer says
    so; nothing of the context but conditions is touched, and nothing at all by the
    resource policy. *)
Class ControlPlaneEndpointService `{Libs} (NP : Type) `{!NetworkProvider NP} := {
  ReconcileControlPlaneEndpointService : NP -> M Ev ClusterContext (option vmwarev1.APIEndpoint);
  ReconcileControlPlaneEndpointService_law np c : wpm (ReconcileControlPlaneEndpointService np) c (fun _ r c' => adorned c c' /\
    match r with
    | Ok (Some endpoint) => vmwarev1.ae_Host endpoint <> "" /\ condition_true VSphereClusterLoadBalancerReadyCondition c'
    | _ => True
    end)
}.
Class ResourcePolicyService := {
  ReconcileResourcePolicy : M Ev ClusterContext unit;
  ReconcileResourcePolicy_law c : wpm ReconcileResourcePolicy c (fun _ _ c' => c' = c)
}.

End NetworkInterface.
