(* ===== verification/Network.v ===== *)
(** [pkg/services/network] and [pkg/manager/network.go], [network_factory.go]: the
    providers of the network of a cluster, and which of them a cluster has; with
    [pkg/util/networkutil.go], which they use. *)
From S2P Require Import Prelude GoStrings Types VmwareTypes Libs Errors Prog World RefLibs Conditions MachineUtil Owners VmopCommon NetworkInterface.

Module Network.
Import vmwarev1 vmoprvhub VmopCommon NetworkInterface.

(** * Constants *)

Definition VPCNetworkProviderName : string := "VPC".
Definition NSXTier1NetworkProviderName : string := "NSXTier1".
Definition VSphereDistributedNetworkProviderName : string := "VSphereDistributed".
Definition DummyLBNetworkProviderName : string := "DummyLBNetworkProvider".
Definition DummyNetworkProviderName : string := "DummyNetworkProvider".
Definition NSXTVNetSelectorKey : string := "ncp.vmware.com/virtual-network-name".
Definition CAPVDefaultNetworkLabel : string := "capv.vmware.com/is-default-network".
Definition NetOpNetworkNameAnnotation : string := "netoperator.vmware.com/network-name".
Definition SystemNamespace : string := "kube-system".
Definition legacyDefaultNetworkLabel : string := "capw.vmware.com/is-default-network".
Definition AnnotationEnableEndpointHealthCheckKey : string := "lb.iaas.vmware.com/enable-endpoint-health-check".
Definition PrimaryInterfaceName : string := "eth0".

(** The providers, each with what it is made with. *)
Inductive Provider :=
| netopNetworkProvider
| nsxtNetworkProvider (disableFW : string)
| nsxtVPCNetworkProvider
| dummyNetworkProvider
| dummyLBNetworkProvider.

Section providers.
Context `{Libs} `{FeatureGates}.
#[warnings="-notation-for-abbreviation"]
Notation MN := (M Ev ClusterContext).
Open Scope go_scope.

(** The version and the kind of the networks, as in a reference and as compared. *)
Definition network_ref (apiVersion kind name : string) : PartialObjectRef := mkPartialObjectRef kind apiVersion name.
Definition NetworkGVKNSXT : string * string * string := FromAPIVersionAndKind ncp_GroupVersion "VirtualNetwork".

(** * [networkutil.go] *)

Definition NCPSNATKey : string := "ncp/snat_ip".
Definition NCPVersionKey : string := "version".
Definition NCPNamespace : string := "vmware-system-nsx".
Definition NCPVersionConfigMap : string := "nsx-ncp-version-config".
Definition NCPVersionSupportFW : string := "3.0.1".
Definition NCPVersionSupportFWEnded : string := "3.1.0".
Definition EmptyAnnotationErrorMsg : string := "annotation not found".
Definition EmptyNCPSNATKeyMsg : string := NCPSNATKey +:+ " key not found".

Definition GetNamespaceNetSnatIP (namespace : string) : MN string :=
  namespaceObj <- call_res (KubeGet KNamespace "" namespace) ;;
  match nm_Annotations namespaceObj with
  | None => fail (ENew EmptyAnnotationErrorMsg)
  | Some annotations =>
      let snatIP := default "" (annotations !! NCPSNATKey) in
      if String.eqb snatIP "" then fail (ENew EmptyNCPSNATKeyMsg) else ret snatIP
  end.

(** The first three segments of a version. *)
Definition trim_version (version : string) : string :=
  let segments := split_byte (Ascii.ascii_of_nat 46) version in
  if 3 <? zlen segments then str_join "." (take 3 segments) else version.

Definition GetNCPVersion : MN string :=
  configmapObj <- call_res (KubeGet KConfigMap NCPNamespace NCPVersionConfigMap) ;;
  ret (trim_version (default "" (cf_Data configmapObj !! NCPVersionKey))).

Definition NCPSupportFW : MN bool :=
  ncpVersion <- GetNCPVersion ;;
  match semver_compare ncpVersion NCPVersionSupportFW, semver_compare ncpVersion NCPVersionSupportFWEnded with
  | Some c, Some c' =>
      ret (match c with Lt => false | _ => true end && match c' with Lt => true | _ => false end)
  | _, _ => fail (ELib OtherLibError (semver_error_text ncpVersion))
  end.

(** * The condition about the network *)

(** Both conditions say that the network is not ready. *)
Definition network_not_ready (message : string) : MN unit :=
  cond_false ClusterNetworkReadyV1Beta1Condition ClusterNetworkProvisionFailedV1Beta1Reason SeverityWarning message ;;
  cond_set (cond VSphereClusterNetworkReadyCondition ConditionFalse VSphereClusterNetworkNotReadyReason message).
Definition network_ready_condition : Condition :=
  cond VSphereClusterNetworkReadyCondition ConditionTrue VSphereClusterNetworkReadyReason "".
(** Both say that it is. *)
Definition network_ready : MN unit :=
  cond_true ClusterNetworkReadyV1Beta1Condition ;;
  cond_set network_ready_condition.

(** The loop over the conditions of a network: whether one is about being ready, or
    the first that says it is not. *)
Fixpoint ready_loop (conditions : list Condition) (hasReadyCondition : bool) : bool + Condition :=
  match conditions with
  | [] => inl hasReadyCondition
  | condition :: conditions =>
      if negb (String.eqb (c_Type condition) "Ready") then ready_loop conditions hasReadyCondition
      else if negb (String.eqb (c_Status condition) ConditionTrue) then inr condition
      else ready_loop conditions true
  end.

(** [verifyNSXTVirtualNetworkStatus] and [verifyNsxtVpcSubnetSetStatus], which
    differ in what they call the network. *)
Definition verify_network (what missing : string) (conditions : list Condition) : MN unit :=
  cctx <- get ;;
  let cluster := sprintf "%s/%s" [AS (cc_Namespace cctx); AS (cc_Name cctx)] in
  match ready_loop conditions false with
  | inr condition =>
      network_not_ready (c_Message condition) ;;
      fail (ENew (sprintf "%s ready status is: '%s' in cluster %s. reason: %s, message: %s"
                    [AS what; AS (c_Status condition); AS cluster; AS (c_Reason condition); AS (c_Message condition)]))
  | inl false =>
      network_not_ready missing ;;
      fail (ENew (sprintf "%s ready status in cluster %s has not been set" [AS what; AS cluster]))
  | inl true => network_ready
  end.
Definition verifyNSXTVirtualNetworkStatus (vnet : VirtualNetwork) : MN unit :=
  verify_network "virtual network" "No Ready status for virtual network" (vn_Conditions vnet).
Definition verifyNsxtVpcSubnetSetStatus (subnetset : SubnetSet) : MN unit :=
  verify_network "subnetset" "No Ready status for SubnetSet" (su_Conditions subnetset).

(** The VSphereCluster becomes an owner of an object. *)
Definition owned_by_cluster (msg : string) (om : ObjectMeta) : MN ObjectMeta :=
  cctx <- get ;;
  match SetOwnerReference VMwareGroupVersion "VSphereCluster" (v_ObjectMeta (cc_VSphereCluster cctx)) om with
  | inl refs => ret (set_om_OwnerReferences refs om)
  | inr text => fail (EWrap msg (ELib OtherLibError text))
  end.

Definition new_meta (ns name : string) : ObjectMeta := mkObjectMeta name ns "" None [] [] None.

(** The network is made or changed, or the conditions say that this failed. *)
Definition provisioned {T} (m : MN T) : MN T :=
  r <- try m ;;
  match r with
  | inl o => ret o
  | inr err => network_not_ready (error_string err) ;; fail (EWrap "Failed to provision network" err)
  end.

(** * NSX-T *)

Definition GetNSXTVirtualNetworkName (clusterName : string) : string := sprintf "%s-vnet" [AS clusterName].

(** The ranges are set when the firewall is enabled and they are not set yet. *)
Definition whitelisted (disableFW : string) (vnet : VirtualNetwork) : MN VirtualNetwork :=
  if negb (String.eqb disableFW "true") && String.eqb (vn_WhitelistSourceRanges vnet) "" then
    supportFW <- wrap "failed to check if NCP supports firewall rules enforcement on GC T1 router" NCPSupportFW ;;
    if (supportFW : bool) then
      systemNSSnatIP <- wrap "failed to get Snat IP for kube-system" (GetNamespaceNetSnatIP SystemNamespace) ;;
      ret (set_vn_WhitelistSourceRanges (systemNSSnatIP +:+ "/32") vnet)
    else ret vnet
  else ret vnet.

Definition nsxt_ProvisionClusterNetwork (disableFW : string) : MN unit :=
  cctx <- get ;;
  let name := GetNSXTVirtualNetworkName (cc_Name cctx) in
  got <- get_or_new KVirtualNetwork (cc_Namespace cctx) name
           (mkVirtualNetwork (new_meta (cc_Namespace cctx) name) "" []) ;;
  let '(originalVNET, vnetExists) := (got : VirtualNetwork * bool) in
  vnet <- whitelisted disableFW originalVNET ;;
  om <- owned_by_cluster (sprintf "error setting %s/%s as owner of %s/%s"
          [AS (cc_Namespace cctx); AS (cc_Name cctx); AS (om_Namespace (vn_ObjectMeta vnet)); AS (om_Name (vn_ObjectMeta vnet))])
          (vn_ObjectMeta vnet) ;;
  vnet <- provisioned (create_or_patch KVirtualNetwork vnetExists originalVNET (set_vn_ObjectMeta om vnet)) ;;
  verifyNSXTVirtualNetworkStatus vnet.

Definition nsxt_GetClusterNetworkName : MN string :=
  cctx <- get ;;
  let name := GetNSXTVirtualNetworkName (cc_Name cctx) in
  call_res (KubeGet KVirtualNetwork (cc_Namespace cctx) name) ;;
  ret name.

(** An interface is the one to the network of the cluster; the network of an
    interface is taken to be there. *)
Definition interface_to (name : string) (vnif : VirtualMachineNetworkInterfaceSpec) : res bool :=
  res_bind (or_panic (ns_Network vnif)) (fun network =>
  Ok (bool_decide (FromAPIVersionAndKind (pr_APIVersion network) (pr_Kind network) = NetworkGVKNSXT) &&
      String.eqb (pr_Name network) name)).
Fixpoint has_interface (name : string) (interfaces : list VirtualMachineNetworkInterfaceSpec) : res bool :=
  match interfaces with
  | [] => Ok false
  | vnif :: interfaces =>
      res_bind (interface_to name vnif) (fun found => if (found : bool) then Ok true else has_interface name interfaces)
  end.

Definition with_network (network : VirtualMachineNetworkSpec) (vm : VirtualMachine) : VirtualMachine :=
  set_o_Spec (set_s_Network (Some network) (o_Spec vm)) vm.
Definition no_interfaces : VirtualMachineNetworkSpec := mkVirtualMachineNetworkSpec [] [].

Definition nsxt_ConfigureVirtualMachine (vm : VirtualMachine) : MN VirtualMachine :=
  cctx <- get ;;
  let name := GetNSXTVirtualNetworkName (cc_Name cctx) in
  let network := default no_interfaces (s_Network (o_Spec vm)) in
  found <- of_res (has_interface name (nt_Interfaces network)) ;;
  if (found : bool) then ret (with_network network vm)
  else
    ret (with_network (set_nt_Interfaces (nt_Interfaces network ++
           [mkVirtualMachineNetworkInterfaceSpec (sprintf "eth%d" [AZ (zlen (nt_Interfaces network))])
              (Some (network_ref ncp_GroupVersion "VirtualNetwork" name)) "" "" None [] []])%list network) vm).

(** * NSX-VPC *)

Definition createSubnetSet (cctx : ClusterContext) : bool :=
  ptr_deref (nw_CreateSubnetSet (vs_Network (v_Spec (cc_VSphereCluster cctx)))) true.

Definition address_type (family : MachineUtil.ClusterIPFamily) : string :=
  match family with
  | MachineUtil.IPv4SingleStack => IPAddressTypeIPv4
  | MachineUtil.IPv6SingleStack => IPAddressTypeIPv6
  | MachineUtil.DualStackIPv4Primary | MachineUtil.DualStackIPv6Primary => IPAddressTypeIPv4IPv6
  end.

Definition vpc_ProvisionClusterNetwork : MN unit :=
  cctx <- get ;;
  if negb (createSubnetSet cctx) then network_ready
  else
    addressType <-
      (if gate_IPv6DualStack then
         family <- wrap "failed to determine cluster IP family" (of_res (ip_family (cc_Cluster cctx))) ;;
         ret (address_type family)
       else ret "") ;;
    got <- get_or_new KSubnetSet (cc_Namespace cctx) (cc_Name cctx)
             (mkSubnetSet (new_meta (cc_Namespace cctx) (cc_Name cctx)) addressType []) ;;
    let '(originalSubnetSet, subnetSetExists) := (got : SubnetSet * bool) in
    om <- owned_by_cluster (sprintf "error setting %s as owner of %s"
            [AS (KRef (cc_Namespace cctx) (cc_Name cctx));
             AS (KRef (om_Namespace (su_ObjectMeta originalSubnetSet)) (om_Name (su_ObjectMeta originalSubnetSet)))])
            (su_ObjectMeta originalSubnetSet) ;;
    subnetset <- provisioned (create_or_patch KSubnetSet subnetSetExists originalSubnetSet (set_su_ObjectMeta om originalSubnetSet)) ;;
    verifyNsxtVpcSubnetSetStatus subnetset.

Definition vpc_GetClusterNetworkName : MN string :=
  cctx <- get ;;
  call_res (KubeGet KSubnetSet (cc_Namespace cctx) (cc_Name cctx)) ;;
  ret (cc_Name cctx).

Definition getIPAMModes (cctx : ClusterContext) : res (list string) :=
  if negb gate_IPv6DualStack then Ok []
  else
    res_bind (res_wrap "failed to determine cluster IP family" (ip_family (cc_Cluster cctx))) (fun family =>
    Ok (match family with
        | MachineUtil.IPv4SingleStack => [IPv4Protocol]
        | MachineUtil.IPv6SingleStack => [IPv6Protocol]
        | MachineUtil.DualStackIPv4Primary | MachineUtil.DualStackIPv6Primary => [IPv4Protocol; IPv6Protocol]
        end)).

(** [setRoutes] on an interface. *)
Definition routes_of (routes : list RouteSpec) : list VirtualMachineNetworkRouteSpec :=
  map (fun route => mkVirtualMachineNetworkRouteSpec (ro_To route) (ro_Via route) 0) routes.
Definition setRoutes (vmInterface : VirtualMachineNetworkInterfaceSpec) (routes : list RouteSpec)
    : VirtualMachineNetworkInterfaceSpec :=
  set_ns_Routes (ns_Routes vmInterface ++ routes_of routes)%list vmInterface.

Definition mtu_of (spec : InterfaceSpec) : option Z := if if_MTU spec =? 0 then None else Some (if_MTU spec).
Definition ref_of (ref : InterfaceNetworkReference) : PartialObjectRef :=
  network_ref (nr_APIVersion ref) (nr_Kind ref) (nr_Name ref).

(** [setVMSecondaryInterfaces]. *)
Definition secondary_interface (ipamModes : list string) (secondary : SecondaryInterfaceSpec)
    : VirtualMachineNetworkInterfaceSpec :=
  let spec := si_Interface secondary in
  setRoutes (mkVirtualMachineNetworkInterfaceSpec (si_Name secondary) (Some (ref_of (if_NetworkRef spec)))
               "None" "None" (mtu_of spec) [] ipamModes) (if_Routes spec).
Definition setVMSecondaryInterfaces (machine : VSphereMachine) (ipamModes : list string)
    (network : VirtualMachineNetworkSpec) : VirtualMachineNetworkSpec :=
  set_nt_Interfaces (nt_Interfaces network ++
    map (secondary_interface ipamModes) (mn_Secondary (ms_Network (m_Spec machine))))%list network.

Definition setVLANs (machine : VSphereMachine) (network : VirtualMachineNetworkSpec) : res VirtualMachineNetworkSpec :=
  let vlans := mn_VLANs (ms_Network (m_Spec machine)) in
  if zlen vlans =? 0 then Ok network
  else if negb gate_VLANSubinterface then
    Err (ENew "invalid configuration: VLANs cannot be used as feature gate VLANSubinterface is not enabled")
  else
    Ok (set_nt_VLANs (nt_VLANs network ++
      map (fun vlan => mkVirtualMachineNetworkVLANSpec (vl_Name vlan) (ptr_deref (vl_ID vlan) 0) (vl_Link vlan)) vlans)%list network).

(** The primary interface: to the SubnetSet of the cluster, or as the machine
    says. *)
Definition primary_interface (cctx : ClusterContext) (machine : VSphereMachine) (ipamModes : list string)
    : res VirtualMachineNetworkInterfaceSpec :=
  let primary := mn_Primary (ms_Network (m_Spec machine)) in
  if createSubnetSet cctx then
    if InterfaceSpec_IsDefined primary then
      Err (ENew "primary interface can not be configured when createSubnetSet is true")
    else
      Ok (mkVirtualMachineNetworkInterfaceSpec PrimaryInterfaceName
            (Some (network_ref nsxvpc_GroupVersion "SubnetSet" (cc_Name cctx))) "" "" None [] ipamModes)
  else if negb (InterfaceSpec_IsDefined primary) then
    Err (ENew "primary interface must be configured when createSubnetSet is false")
  else
    Ok (setRoutes (mkVirtualMachineNetworkInterfaceSpec PrimaryInterfaceName (Some (ref_of (if_NetworkRef primary)))
                     "" "" (mtu_of primary) [] ipamModes) (if_Routes primary)).

Definition vpc_network (cctx : ClusterContext) (machine : VSphereMachine) : res VirtualMachineNetworkSpec :=
  res_bind (getIPAMModes cctx) (fun ipamModes =>
  res_bind (primary_interface cctx machine ipamModes) (fun primary =>
  setVLANs machine (setVMSecondaryInterfaces machine ipamModes (mkVirtualMachineNetworkSpec [primary] [])))).
Definition vpc_ConfigureVirtualMachine (machine : VSphereMachine) (vm : VirtualMachine) : MN VirtualMachine :=
  cctx <- get ;;
  network <- of_res (vpc_network cctx machine) ;;
  ret (with_network network vm).

(** * Net-Operator *)

Definition getDefaultClusterNetworkWithLabel (label : string) : MN ObjectMeta :=
  cctx <- get ;;
  match cc_Cluster cctx with
  | None => panic
  | Some cluster =>
      networks <- call_res (KubeList KNetwork (om_Namespace (kc_ObjectMeta cluster)) [(label, Some "true")]) ;;
      match networks with
      | [] => fail (ENew (sprintf "no default network found with label %s" [AS label]))
      | [network] => ret network
      | _ => fail (ENew (sprintf "more than one network found with label %s: %d" [AS label; AZ (zlen networks)]))
      end
  end.
Definition getDefaultClusterNetwork : MN ObjectMeta :=
  r <- try (getDefaultClusterNetworkWithLabel CAPVDefaultNetworkLabel) ;;
  match r with
  | inl network => ret network
  | inr _ => getDefaultClusterNetworkWithLabel legacyDefaultNetworkLabel
  end.
Definition getClusterNetwork : MN ObjectMeta := getDefaultClusterNetwork.
Definition netop_GetClusterNetworkName : MN string :=
  network <- getClusterNetwork ;;
  ret (om_Name network).
Definition netop_ConfigureVirtualMachine (machine : VSphereMachine) (vm : VirtualMachine) : MN VirtualMachine :=
  network <- getClusterNetwork ;;
  ret (with_network (setVMSecondaryInterfaces machine []
         (mkVirtualMachineNetworkSpec
            [mkVirtualMachineNetworkInterfaceSpec PrimaryInterfaceName
               (Some (network_ref netop_GroupVersion "Network" (om_Name network))) "" "" None [] []] [])) vm).

(** * The interface *)

(** The name of the type of an object. *)
Definition type_name (obj : NetworkObject) : string :=
  match obj with
  | OVirtualNetwork _ => "*v1alpha1.VirtualNetwork"
  | OSubnetSet _ => "*v1alpha1.SubnetSet"
  | ONetwork _ => "*v1alpha1.Network"
  | OOther name => name
  end.

Definition provider_Name (np : Provider) : string :=
  match np with
  | netopNetworkProvider => VSphereDistributedNetworkProviderName
  | nsxtNetworkProvider _ => NSXTier1NetworkProviderName
  | nsxtVPCNetworkProvider => VPCNetworkProviderName
  | dummyNetworkProvider => DummyNetworkProviderName
  | dummyLBNetworkProvider => DummyLBNetworkProviderName
  end.
Definition provider_SupportsIPv6DualStack (np : Provider) : bool :=
  match np with nsxtVPCNetworkProvider => gate_IPv6DualStack | _ => false end.
Definition provider_HasLoadBalancer (np : Provider) : bool :=
  match np with dummyNetworkProvider => false | _ => true end.
Definition provider_SupportsVMReadinessProbe (np : Provider) : bool :=
  match np with nsxtVPCNetworkProvider => false | _ => true end.
Definition provider_ProvisionClusterNetwork (np : Provider) : MN unit :=
  match np with
  | netopNetworkProvider => network_ready
  | nsxtNetworkProvider disableFW => nsxt_ProvisionClusterNetwork disableFW
  | nsxtVPCNetworkProvider => vpc_ProvisionClusterNetwork
  | dummyNetworkProvider | dummyLBNetworkProvider => cond_set network_ready_condition
  end.
Definition provider_GetClusterNetworkName (np : Provider) : MN string :=
  match np with
  | netopNetworkProvider => netop_GetClusterNetworkName
  | nsxtNetworkProvider _ => nsxt_GetClusterNetworkName
  | nsxtVPCNetworkProvider => vpc_GetClusterNetworkName
  | dummyNetworkProvider | dummyLBNetworkProvider => ret ""
  end.
Definition provider_GetVMServiceAnnotations (np : Provider) : MN (gmap string string) :=
  match np with
  | netopNetworkProvider => networkName <- netop_GetClusterNetworkName ;; ret {[NetOpNetworkNameAnnotation := networkName]}
  | nsxtNetworkProvider _ => vnetName <- nsxt_GetClusterNetworkName ;; ret {[NSXTVNetSelectorKey := vnetName]}
  | nsxtVPCNetworkProvider => ret {[AnnotationEnableEndpointHealthCheckKey := ""]}
  | dummyNetworkProvider | dummyLBNetworkProvider => ret ∅
  end.
Definition provider_ConfigureVirtualMachine (np : Provider) (machine : VSphereMachine) (vm : VirtualMachine)
    : MN VirtualMachine :=
  match np with
  | netopNetworkProvider => netop_ConfigureVirtualMachine machine vm
  | nsxtNetworkProvider _ => nsxt_ConfigureVirtualMachine vm
  | nsxtVPCNetworkProvider => vpc_ConfigureVirtualMachine machine vm
  | dummyNetworkProvider | dummyLBNetworkProvider => ret vm
  end.
Definition provider_VerifyNetworkStatus (np : Provider) (obj : NetworkObject) : MN unit :=
  match np with
  | netopNetworkProvider =>
      match obj with
      | ONetwork _ => ret tt
      | _ => fail (ENew (sprintf "expected Net Operator Network but got %s" [AS (type_name obj)]))
      end
  | nsxtNetworkProvider _ =>
      match obj with
      | OVirtualNetwork vnet => verifyNSXTVirtualNetworkStatus vnet
      | _ => fail (ENew (sprintf "expected NCP VirtualNetwork but got %s" [AS (type_name obj)]))
      end
  | nsxtVPCNetworkProvider =>
      cctx <- get ;;
      if negb (createSubnetSet cctx) then ret tt
      else
        match obj with
        | OSubnetSet subnetset => verifyNsxtVpcSubnetSetStatus subnetset
        | _ => fail (ENew (sprintf "expected NSX VPC SubnetSet but got %s" [AS (type_name obj)]))
        end
  | dummyNetworkProvider | dummyLBNetworkProvider => ret tt
  end.

(** * Which provider a cluster has ([pkg/manager]) *)

Definition legacyToNetworkProviderName : list (string * string) :=
  [("NSX", NSXTier1NetworkProviderName); ("NSX-VPC", VPCNetworkProviderName);
   ("vsphere-network", VSphereDistributedNetworkProviderName)].
Definition ConvertNetworkProviderName (name : string) : string :=
  match List.find (fun p => String.eqb (fst p) name) legacyToNetworkProviderName with
  | Some (_, converted) => converted
  | None => name
  end.

Definition GetNetworkProvider (networkProvider : string) : Provider :=
  if String.eqb networkProvider VPCNetworkProviderName then nsxtVPCNetworkProvider
  else if String.eqb networkProvider NSXTier1NetworkProviderName then nsxtNetworkProvider "false"
  else if String.eqb networkProvider VSphereDistributedNetworkProviderName then netopNetworkProvider
  else if String.eqb networkProvider DummyLBNetworkProviderName then dummyLBNetworkProvider
  else dummyNetworkProvider.

Inductive NetworkProviderFactory :=
| perClusterNetworkProviderFactory (registry : gmap string Provider)
| staticNetworkProviderFactory (networkProvider : Provider).

Definition NewPerClusterNetworkProviderFactory : NetworkProviderFactory :=
  perClusterNetworkProviderFactory
    (foldl (fun registry name => <[name := GetNetworkProvider name]> registry) ∅
       [VSphereDistributedNetworkProviderName; NSXTier1NetworkProviderName; VPCNetworkProviderName]).
Definition NewStaticNetworkProviderFactory (networkProvider : string) : NetworkProviderFactory :=
  staticNetworkProviderFactory (GetNetworkProvider networkProvider).

Definition ForCluster (f : NetworkProviderFactory) (cluster : VSphereCluster) : res Provider :=
  match f with
  | staticNetworkProviderFactory np => Ok np
  | perClusterNetworkProviderFactory registry =>
      let provider := nw_Provider (vs_Network (v_Spec cluster)) in
      if String.eqb provider "" then Err (ESentinel ErrNetworkProviderEmpty)
      else
        match registry !! provider with
        | Some np => Ok np
        | None => Err (ENew (sprintf "unknown network provider %q" [AS provider]))
        end
  end.

Definition getVSphereClusterForObject {St} (obj : ObjectMeta) : M Ev St VSphereCluster :=
  let clusterName := Owners.label obj ClusterNameLabel in
  if String.eqb clusterName "" then fail (ESentinel ErrNoOwningCluster)
  else
    cluster <- wrap (sprintf "failed to get Cluster %s" [AS (KRef (om_Namespace obj) clusterName)])
                 (call_res (GetCluster (om_Namespace obj) clusterName)) ;;
    let ns := om_Namespace (kc_ObjectMeta cluster) in
    match kc_InfrastructureRefName cluster with
    | None => fail (ENew (sprintf "Cluster %s does not have a spec.infrastructureRef set"
                            [AS (KRef ns (om_Name (kc_ObjectMeta cluster)))]))
    | Some name =>
        wrap (sprintf "failed to get VSphereCluster %s" [AS (KRef ns name)]) (call_res (KubeGet KVSphereCluster ns name))
    end.

Definition ForObject {St} (f : NetworkProviderFactory) (obj : ObjectMeta) : M Ev St Provider :=
  match f with
  | staticNetworkProviderFactory np => ret np
  | perClusterNetworkProviderFactory _ =>
      vsphereCluster <- getVSphereClusterForObject obj ;;
      of_res (ForCluster f vsphereCluster)
  end.
End providers.

(** * Lemmas *)

Section lemmas.
Context `{Libs} `{FeatureGates}.
#[warnings="-notation-for-abbreviation"]
Notation MN := (M Ev ClusterContext).
Open Scope go_scope.

Lemma set_true ty reason c :
  wpm (cond_set (cond ty ConditionTrue reason "")) c (fun tr r c' => effects tr = [] /\ adorned c c' /\ r = Ok tt /\ condition_true ty c').
Proof.
  apply wpm_cond_set. intros now. split; [done|]. split; [apply adorned_put|]. split; [done|].
  destruct (the_condition_set now (cond ty ConditionTrue reason "") c) as (g & t & Hc). by eexists.
Qed.

Lemma network_not_ready_adorns msg : adorns (network_not_ready msg).
Proof. unfold network_not_ready. solve_adorns. Qed.

Lemma network_ready_spec c :
  wpm network_ready c (fun tr r c' => effects tr = [] /\ adorned c c' /\ r = Ok tt /\
    condition_true VSphereClusterNetworkReadyCondition c').
Proof.
  unfold network_ready. cond_step. cond_step. eapply wpm_mono; [apply set_true|].
  intros tr r c' (He & Ha & -> & Ht). split; [by rewrite effects_app, He|]. split; [|done].
  etrans; [apply adorned_put_v1beta1|exact Ha].
Qed.

Definition provision_post (c : ClusterContext) (r : res unit) (c' : ClusterContext) : Prop :=
  adorned c c' /\ match r with Ok _ => condition_true VSphereClusterNetworkReadyCondition c' | _ => True end.

Lemma verify_network_spec what missing conditions c :
  wpm (verify_network what missing conditions) c (fun _ r c' => provision_post c r c').
Proof.
  unfold verify_network, provision_post. wp_step. apply wpm_get. cbn beta iota zeta.
  destruct (ready_loop conditions false) as [[]|cnd].
  - eapply wpm_mono; [apply network_ready_spec|]. by intros tr r c' (_ & Ha & -> & Ht).
  - apply wpm_adorns_bind; [apply network_not_ready_adorns|done..|]. intros tr u c' _ Ha. by wp_step.
  - apply wpm_adorns_bind; [apply network_not_ready_adorns|done..|]. intros tr u c' _ Ha. by wp_step.
Qed.

Lemma create_or_patch_spec {T} `{EqDecision T} (k : Kind T) there original o (c : ClusterContext) :
  wpm (create_or_patch k there original o) c (fun _ _ c' => c' = c).
Proof.
  unfold create_or_patch. destruct there; cbn [negb]; [|by wp_step].
  destruct (bool_decide (original = o)); cbn [negb]; by wp_step.
Qed.

Lemma provisioned_spec {T} `{EqDecision T} (k : Kind T) there original o c :
  wpm (provisioned (create_or_patch k there original o)) c (fun _ r c' =>
    match r with Ok _ => c' = c | _ => adorned c c' end).
Proof.
  unfold provisioned. do 2 wp_step. eapply wpm_mono; [apply create_or_patch_spec|].
  intros tr [u|e|w] c' ->; cbn beta iota; [by wp_step| |done].
  apply wpm_adorns_bind; [apply network_not_ready_adorns|by intros ? ? ? ? ?..|]. intros ? ? ? ? ?. by wp_step.
Qed.

Lemma owned_by_cluster_reads msg om : reads (owned_by_cluster msg om).
Proof.
  unfold owned_by_cluster. apply reads_bind; [apply reads_get|]. intros cctx. destruct (SetOwnerReference _ _ _ _); solve_reads.
Qed.

Lemma NCPSupportFW_reads : reads NCPSupportFW.
Proof.
  unfold NCPSupportFW, GetNCPVersion. apply reads_bind; [solve_reads|]. intros v.
  destruct (semver_compare v _); [|solve_reads]. destruct (semver_compare v _); solve_reads.
Qed.
Lemma GetNamespaceNetSnatIP_reads ns : reads (GetNamespaceNetSnatIP ns).
Proof. unfold GetNamespaceNetSnatIP. solve_reads. Qed.
Lemma whitelisted_reads disableFW vnet : reads (whitelisted disableFW vnet).
Proof.
  unfold whitelisted. destruct (_ && _); [|solve_reads]. apply reads_bind; [apply reads_wrap, NCPSupportFW_reads|].
  intros []; [|solve_reads]. apply reads_bind; [apply reads_wrap, GetNamespaceNetSnatIP_reads|]. solve_reads.
Qed.

(** The end of both provisions: from the object that was found. *)
Lemma provision_rest {T} `{EqDecision T} (k : Kind T) there original (put : ObjectMeta -> T) msg om (conditions : T -> list Condition)
    what missing c :
  wpm (om' <- owned_by_cluster msg om ;;
       o <- provisioned (create_or_patch k there original (put om')) ;;
       verify_network what missing (conditions o)) c (fun _ r c' => provision_post c r c').
Proof.
  apply wpm_reads_bind; [apply owned_by_cluster_reads|by intros..|]. intros tr0 om' _.
  wp_step. eapply wpm_mono; [apply provisioned_spec|].
  intros tr1 [o|e|w] c' Hc; cbn beta iota; [subst c'|done..].
  apply verify_network_spec.
Qed.

Lemma nsxt_provision_spec disableFW c : wpm (nsxt_ProvisionClusterNetwork disableFW) c (fun _ r c' => provision_post c r c').
Proof.
  unfold nsxt_ProvisionClusterNetwork. wp_step. apply wpm_get. cbn beta iota zeta.
  apply wpm_reads_bind; [apply get_or_new_reads|by intros..|]. intros tr [original there] _.
  apply wpm_reads_bind; [apply whitelisted_reads|by intros..|]. intros tr1 vnet _.
  apply (provision_rest KVirtualNetwork there original (fun om => set_vn_ObjectMeta om vnet) _ _ vn_Conditions).
Qed.

Lemma vpc_provision_spec c : wpm vpc_ProvisionClusterNetwork c (fun _ r c' => provision_post c r c').
Proof.
  unfold vpc_ProvisionClusterNetwork. wp_step. apply wpm_get. cbn beta iota zeta.
  destruct (negb (createSubnetSet c)).
  { eapply wpm_mono; [apply network_ready_spec|]. by intros tr r c' (_ & Ha & -> & Ht). }
  apply wpm_reads_bind; [destruct gate_IPv6DualStack; solve_reads|by intros..|]. intros tr addressType _.
  apply wpm_reads_bind; [apply get_or_new_reads|by intros..|]. intros tr1 [original there] _.
  apply (provision_rest KSubnetSet there original (fun om => set_su_ObjectMeta om original) _ _ su_Conditions).
Qed.

Lemma netop_network_reads label : reads (getDefaultClusterNetworkWithLabel label).
Proof.
  unfold getDefaultClusterNetworkWithLabel. apply reads_bind; [apply reads_get|]. intros cctx.
  destruct (cc_Cluster cctx); [|solve_reads]. apply reads_bind; [solve_reads|]. intros [|n [|n' l]]; solve_reads.
Qed.
Lemma getClusterNetwork_reads : reads getClusterNetwork.
Proof.
  unfold getClusterNetwork, getDefaultClusterNetwork. apply reads_bind; [apply reads_try, netop_network_reads|].
  intros [n|e]; [solve_reads|apply netop_network_reads].
Qed.

Lemma with_network_law network vm :
  exists nw, with_network network vm = set_o_Spec (set_s_Network nw (o_Spec vm)) vm.
Proof. by exists (Some network). Qed.
Lemma same_network_law vm : exists nw, vm = set_o_Spec (set_s_Network nw (o_Spec vm)) vm.
Proof. exists (s_Network (o_Spec vm)). by destruct vm as [? ? ? ? [] ?]. Qed.

#[export] Instance network_providers : NetworkProvider Provider.
Proof.
  refine {|
    NetworkInterface.Name := provider_Name;
    NetworkInterface.SupportsIPv6DualStack := provider_SupportsIPv6DualStack;
    NetworkInterface.HasLoadBalancer := provider_HasLoadBalancer;
    NetworkInterface.SupportsVMReadinessProbe := provider_SupportsVMReadinessProbe;
    NetworkInterface.ProvisionClusterNetwork := provider_ProvisionClusterNetwork;
    NetworkInterface.GetClusterNetworkName := provider_GetClusterNetworkName;
    NetworkInterface.GetVMServiceAnnotations := provider_GetVMServiceAnnotations;
    NetworkInterface.ConfigureVirtualMachine := provider_ConfigureVirtualMachine;
    NetworkInterface.VerifyNetworkStatus := provider_VerifyNetworkStatus
  |}.
  - intros [| | | |] c; cbn [provider_ProvisionClusterNetwork].
    + eapply wpm_mono; [apply network_ready_spec|]. by intros tr r c' (_ & Ha & -> & Ht).
    + apply nsxt_provision_spec.
    + apply vpc_provision_spec.
    + eapply wpm_mono; [apply set_true|]. by intros tr r c' (_ & Ha & -> & Ht).
    + eapply wpm_mono; [apply set_true|]. by intros tr r c' (_ & Ha & -> & Ht).
  - intros [| | | |]; cbn [provider_GetVMServiceAnnotations]; unfold netop_GetClusterNetworkName, nsxt_GetClusterNetworkName.
    + apply reads_bind; [|solve_reads]. apply reads_bind; [apply getClusterNetwork_reads|solve_reads].
    + solve_reads.
    + solve_reads.
    + solve_reads.
    + solve_reads.
  - intros np machine vm c. destruct np; cbn [provider_ConfigureVirtualMachine].
    + apply wpm_reads_bind; [apply getClusterNetwork_reads|by intros..|]. intros tr n He.
      wp_step. rewrite app_nil_r. split; [done|]. split; [done|]. apply with_network_law.
    + unfold nsxt_ConfigureVirtualMachine. wp_step. apply wpm_get. cbn beta iota zeta. wp_step.
      destruct (has_interface _ _) as [[]|e|w]; wp_step; try done; wp_step; (split; [done|]); (split; [done|]); apply with_network_law.
    + unfold vpc_ConfigureVirtualMachine. wp_step. apply wpm_get. cbn beta iota zeta. wp_step.
      destruct (vpc_network c machine) as [network|e|w]; wp_step; try done. wp_step. split; [done|]. split; [done|]. apply with_network_law.
    + wp_step. split; [done|]. split; [done|]. apply same_network_law.
    + wp_step. split; [done|]. split; [done|]. apply same_network_law.
Defined.
End lemmas.

(** * What the providers do *)

Section theorems.
Context `{Libs} `{FeatureGates}.
Open Scope go_scope.

(** The object of a cluster with a name, as the API server said it is: as it was
    read, when nothing had to be changed; or as it was after a patch of what was
    read, or, when it was not found, after its creation. [changed] says what was
    sent, of what was read or of the new object. *)
Definition seen {T} (k : Kind T) (ns name : string) (new : T) (changed : T -> T -> Prop) (o : T) (tr : trace) : Prop :=
  (exists original sent, Call (KubeGet k ns name) (Ok original) ∈ tr /\ changed original sent /\
     (sent = original /\ o = original \/ Call (KubePatch k original sent) (Ok o) ∈ tr)) \/
  (exists e sent, Call (KubeGet k ns name) (Err e) ∈ tr /\ IsNotFound e = true /\ changed new sent /\
     Call (KubeCreate k sent) (Ok o) ∈ tr).
#[export] Instance seen_grows {T} (k : Kind T) ns name new changed o : Grows (seen k ns name new changed o).
Proof.
  intros tr tr' Hs [(original & sent & Hg & Hc & Hr)|(e & sent & Hg & Hn & Hc & Hr)]; [left|right].
  - exists original, sent. split; [by apply Hs|]. split; [done|]. destruct Hr as [?|Hr]; [by left|right; by apply Hs].
  - exists e, sent. split; [by apply Hs|]. split_and!; try done. by apply Hs.
Qed.

(** The VSphereCluster becomes an owner. *)
Definition owned (vc : VSphereCluster) (om om' : ObjectMeta) : Prop :=
  exists refs, SetOwnerReference VMwareGroupVersion "VSphereCluster" (v_ObjectMeta vc) om = inl refs /\ om' = set_om_OwnerReferences refs om.

(** The networks: of NSX-T, whose ranges may be set too, and the SubnetSet of a
    VPC. *)
Definition vnet_changed (vc : VSphereCluster) (original sent : VirtualNetwork) : Prop :=
  exists om ranges, owned vc (vn_ObjectMeta original) om /\
    sent = set_vn_ObjectMeta om (set_vn_WhitelistSourceRanges ranges original).
Definition vnet_seen (c : ClusterContext) : VirtualNetwork -> trace -> Prop :=
  let name := GetNSXTVirtualNetworkName (cc_Name c) in
  seen KVirtualNetwork (cc_Namespace c) name (mkVirtualNetwork (new_meta (cc_Namespace c) name) "" []) (vnet_changed (cc_VSphereCluster c)).
Definition subnetset_changed (vc : VSphereCluster) (original sent : SubnetSet) : Prop :=
  exists om, owned vc (su_ObjectMeta original) om /\ sent = set_su_ObjectMeta om original.
Definition addresses_of (c : ClusterContext) (addressType : string) : Prop :=
  if gate_IPv6DualStack then exists family, ip_family (cc_Cluster c) = Ok family /\ addressType = address_type family
  else addressType = "".
Definition subnetset_seen (c : ClusterContext) (subnetset : SubnetSet) (tr : trace) : Prop :=
  exists addressType, addresses_of c addressType /\
    seen KSubnetSet (cc_Namespace c) (cc_Name c) (mkSubnetSet (new_meta (cc_Namespace c) (cc_Name c)) addressType [])
      (subnetset_changed (cc_VSphereCluster c)) subnetset tr.

(** The conditions of a network say that it is ready, and none that it is not. *)
Definition is_ready (conditions : list Condition) : Prop :=
  (exists c, c ∈ conditions /\ c_Type c = "Ready") /\
  forall c, c ∈ conditions -> c_Type c = "Ready" -> c_Status c = ConditionTrue.

Lemma ready_loop_true conditions b :
  ready_loop conditions b = inl true ->
  (b = true \/ exists c, c ∈ conditions /\ c_Type c = "Ready") /\
  forall c, c ∈ conditions -> c_Type c = "Ready" -> c_Status c = ConditionTrue.
Proof.
  revert b. induction conditions as [|c l IH]; intros b; cbn [ready_loop].
  { intros [= ->]. split; [by left|]. intros c Hc. by apply elem_of_nil in Hc. }
  destruct (String.eqb_spec (c_Type c) "Ready") as [Ht|Ht]; cbn [negb].
  - destruct (String.eqb_spec (c_Status c) ConditionTrue) as [Hs|Hs]; cbn [negb]; [|done].
    intros [_ Ha]%IH. split; [right; exists c; split; [left|done]|].
    intros c' [->|Hc]%elem_of_cons Ht'; [done|by apply Ha].
  - intros [He Ha]%IH. split.
    + destruct He as [?|(c' & Hc & Hct)]; [by left|]. right. exists c'. split; [by right|done].
    + intros c' [->|Hc]%elem_of_cons Ht'; [done|by apply Ha].
Qed.

Lemma verify_network_ready what missing conditions c :
  wpm (verify_network what missing conditions) c (fun _ r _ => match r with Ok _ => is_ready conditions | _ => True end).
Proof.
  unfold verify_network. wp_step. apply wpm_get. cbn beta iota zeta.
  destruct (ready_loop conditions false) as [[]|cnd] eqn:Er.
  - apply ready_loop_true in Er as [[?|?] ?]; [done|].
    eapply wpm_mono; [apply network_ready_spec|]. by intros tr r c' (_ & _ & -> & _).
  - apply wpm_adorns_bind; [apply network_not_ready_adorns|done..|]. intros. by wp_step.
  - apply wpm_adorns_bind; [apply network_not_ready_adorns|done..|]. intros. by wp_step.
Qed.

Lemma provisioned_sent {T} `{EqDecision T} (k : Kind T) (there : bool) original o c :
  wpm (provisioned (create_or_patch k there original o)) c (fun tr r _ =>
    match r with
    | Ok o' => if there then o = original /\ o' = original \/ Call (KubePatch k original o) (Ok o') ∈ tr
               else Call (KubeCreate k o) (Ok o') ∈ tr
    | _ => True
    end).
Proof.
  unfold provisioned. do 2 wp_step. unfold create_or_patch.
  assert (G : forall e, wpm (network_not_ready (error_string e) ;; fail (A:=T) (EWrap "Failed to provision network" e)) c
                (fun _ r _ => match r with Ok _ => False | _ => True end)).
  { intros e. apply wpm_adorns_bind; [apply network_not_ready_adorns|done..|]. intros. by wp_step. }
  destruct there; cbn [negb].
  - destruct (bool_decide (original = o)) eqn:Eo; cbn [negb].
    + apply bool_decide_eq_true in Eo as <-. wp_step. wp_step. by left.
    + apply wpm_call. intros [o'|e|w]; cbn beta iota; [|eapply wpm_mono; [apply G|]; by intros tr [a|e'|w] c'|done].
      wp_step. right. in_trace.
  - apply wpm_call. intros [o'|e|w]; cbn beta iota; [|eapply wpm_mono; [apply G|]; by intros tr [a|e'|w] c'|done].
    wp_step. in_trace.
Qed.

Lemma owned_by_cluster_spec msg om (c : ClusterContext) :
  wpm (owned_by_cluster msg om) c (fun tr r c' => c' = c /\ match r with Ok om' => owned (cc_VSphereCluster c) om om' | _ => True end).
Proof.
  unfold owned_by_cluster. wp_step. apply wpm_get. cbn beta iota.
  destruct (SetOwnerReference _ _ _ _) as [refs|text] eqn:Er; wp_step; (split; [done|]); [by exists refs|done].
Qed.

(** What was read of an object, before it is written. *)
Definition was_read {T} (k : Kind T) ns name (new original : T) (there : bool) (tr : trace) : Prop :=
  if there then Call (KubeGet k ns name) (Ok original) ∈ tr
  else original = new /\ exists e, Call (KubeGet k ns name) (Err e) ∈ tr /\ IsNotFound e = true.
#[export] Instance was_read_grows {T} (k : Kind T) ns name new original there : Grows (was_read k ns name new original there).
Proof.
  intros tr tr' Hs. destruct there; cbn; [apply Hs|]. intros (-> & e & He & Hn). split; [done|]. exists e. split; [by apply Hs|done].
Qed.
Lemma get_or_new_read {T} (k : Kind T) ns name new (c : ClusterContext) :
  wpm (get_or_new k ns name new) c (fun tr r c' => c' = c /\
    match r with Ok (o, there) => was_read k ns name new o there tr | _ => True end).
Proof.
  eapply wpm_mono; [apply get_or_new_spec|]. intros tr r c' (-> & _ & Hr). split; [done|].
  destruct r as [[o []]|e|w]; [| |done..]; cbn; [subst tr; in_list|].
  destruct Hr as (-> & e & -> & Hn). split; [done|]. exists e. split; [in_list|done].
Qed.

(** The end of a provision that succeeds: the object it ends with was seen and is
    ready. *)
Lemma provision_seen {T} `{EqDecision T} (k : Kind T) ns name new (there : bool) original (put : ObjectMeta -> T) msg om
    (changed : T -> T -> Prop) (conditions : T -> list Condition) what missing c tr0 :
  was_read k ns name new original there tr0 ->
  (forall om', owned (cc_VSphereCluster c) om om' -> changed original (put om')) ->
  wpm (om' <- owned_by_cluster msg om ;;
       o <- provisioned (create_or_patch k there original (put om')) ;;
       verify_network what missing (conditions o)) c (fun tr r _ =>
    match r with Ok _ => exists o, seen k ns name new changed o (tr0 ++ tr)%list /\ is_ready (conditions o) | _ => True end).
Proof.
  intros Hread Hput. wp_step. eapply wpm_mono; [apply owned_by_cluster_spec|]. intros tr1 [om'|e|w] c1 [-> Ho]; cbn beta iota; [|done..].
  wp_step. eapply wpm_mono; [apply provisioned_sent|].
  intros tr2 [o|e|w] c' Hc; cbn beta iota; [|done..].
  eapply wpm_mono; [apply verify_network_ready|]. intros tr3 [u|e|w] c'' Hr; [|done..].
  exists o. split; [|exact Hr]. specialize (Hput _ Ho). destruct there; cbn in Hread.
  - left. exists original, (put om'). split; [in_trace|]. split; [done|]. destruct Hc as [?|Hc]; [by left|right; in_trace].
  - destruct Hread as (-> & e & He & Hn). right. exists e, (put om'). split_and!; try done; in_trace.
Qed.

Lemma whitelisted_spec disableFW vnet (c : ClusterContext) :
  wpm (whitelisted disableFW vnet) c (fun tr r c' => c' = c /\
    match r with Ok vnet' => exists ranges, vnet' = set_vn_WhitelistSourceRanges ranges vnet | _ => True end).
Proof.
  assert (Hsame : exists ranges, vnet = set_vn_WhitelistSourceRanges ranges vnet) by (exists (vn_WhitelistSourceRanges vnet); by destruct vnet).
  unfold whitelisted. destruct (_ && _); [|by wp_step]. apply wpm_reads_bind; [apply reads_wrap, NCPSupportFW_reads|done..|].
  intros tr1 [] _; [|by wp_step]. apply wpm_reads_bind; [apply reads_wrap, GetNamespaceNetSnatIP_reads|done..|].
  intros tr2 ip _. wp_step. split; [done|by eexists].
Qed.

Lemma nsxt_provision_seen disableFW (c : ClusterContext) :
  wpm (nsxt_ProvisionClusterNetwork disableFW) c (fun tr r _ =>
    match r with Ok _ => exists vnet, vnet_seen c vnet tr /\ is_ready (vn_Conditions vnet) | _ => True end).
Proof.
  unfold nsxt_ProvisionClusterNetwork. wp_step. apply wpm_get. cbn beta iota zeta.
  wp_step. eapply wpm_mono; [apply get_or_new_read|]. intros tr1 [[original there]|e|w] c1 [-> Hs]; cbn beta iota; [|done..].
  wp_step. eapply wpm_mono; [apply whitelisted_spec|]. intros tr2 [vnet|e|w] c2 [-> Hw]; cbn beta iota; [|done..].
  destruct Hw as [ranges ->].
  eapply wpm_mono; [eapply (provision_seen KVirtualNetwork _ _ _ there original
      (fun om => set_vn_ObjectMeta om (set_vn_WhitelistSourceRanges ranges original)) _ _ (vnet_changed (cc_VSphereCluster c)) vn_Conditions
      _ _ _ tr1 Hs); intros om Ho; by exists om, ranges|].
  intros tr3 [u|e|w] c3; [|done..]. intros (o & Ho & Hr). exists o. split; [|exact Hr]. in_part Ho.
Qed.

Lemma vpc_provision_seen (c : ClusterContext) : createSubnetSet c = true ->
  wpm vpc_ProvisionClusterNetwork c (fun tr r _ =>
    match r with Ok _ => exists s, subnetset_seen c s tr /\ is_ready (su_Conditions s) | _ => True end).
Proof.
  intros Hcreate. unfold vpc_ProvisionClusterNetwork. wp_step. apply wpm_get. cbn beta iota zeta. rewrite Hcreate. cbn [negb].
  assert (Ha : wpm (E:=Ev) (if gate_IPv6DualStack then
         family <- wrap "failed to determine cluster IP family" (of_res (ip_family (cc_Cluster c))) ;;
         ret (address_type family)
       else ret "") c (fun tr r c' => c' = c /\ match r with Ok a => addresses_of c a | _ => True end)).
  { unfold addresses_of. destruct gate_IPv6DualStack; [|by wp_step]. do 3 wp_step. destruct (ip_family _) as [family|e|w] eqn:Ef; cbn beta iota delta [res_wrap]; [|done..].
    wp_step. split; [done|by exists family]. }
  wp_step. eapply wpm_mono; [exact Ha|]. clear Ha. intros tr0 [addressType|e|w] c0 [-> Ha]; cbn beta iota; [|done..].
  wp_step. eapply wpm_mono; [apply get_or_new_read|]. intros tr1 [[original there]|e|w] c1 [-> Hs]; cbn beta iota; [|done..].
  eapply wpm_mono; [eapply (provision_seen KSubnetSet _ _ _ there original (fun om => set_su_ObjectMeta om original) _ _
      (subnetset_changed (cc_VSphereCluster c)) su_Conditions _ _ _ tr1 Hs); intros om Ho; by exists om|].
  intros tr3 [u|e|w] c3; [|done..]. intros (o & Ho & Hr). exists o. split; [|exact Hr]. exists addressType. split; [exact Ha|]. in_part Ho.
Qed.

(** C20: a network that is provisioned is there: when a provider succeeds, the
    condition about the network is true and nothing else of the VSphereCluster but
    conditions has changed. With NSX-T the virtual network of the cluster, of its name
    and in its namespace, was read, and created or patched where it was not there or
    not owned by the VSphereCluster, and as the API server returned it last its
    conditions say that it is ready and none that it is not. With an NSX VPC the same
    holds of the SubnetSet of the cluster if it is to be created
    ([createSubnetSet], the default); if not, nothing is written. *)
Theorem network_provisioned np c tr c' :
  runs (ProvisionClusterNetwork np c) tr (Ok tt, c') ->
  condition_true VSphereClusterNetworkReadyCondition c' /\ cluster_view c' = cluster_view c /\
  match np with
  | nsxtNetworkProvider _ => exists vnet, vnet_seen c vnet tr /\ is_ready (vn_Conditions vnet)
  | nsxtVPCNetworkProvider =>
      if createSubnetSet c then exists subnetset, subnetset_seen c subnetset tr /\ is_ready (su_Conditions subnetset)
      else effects tr = []
  | _ => True
  end.
Proof.
  intros Hrun. pose proof (proj1 (wpm_runs _ _ _) (ProvisionClusterNetwork_law np c) _ _ _ Hrun) as [Ha Ht]; cbn in Ht.
  split; [exact Ht|]. split; [by apply adorned_view|].
  destruct np as [|disableFW| | |]; try done; cbn [ProvisionClusterNetwork network_providers provider_ProvisionClusterNetwork] in Hrun.
  - exact (proj1 (wpm_runs _ _ _) (nsxt_provision_seen disableFW c) _ _ _ Hrun).
  - destruct (createSubnetSet c) eqn:Ec; [exact (proj1 (wpm_runs _ _ _) (vpc_provision_seen c Ec) _ _ _ Hrun)|].
    assert (G : wpm vpc_ProvisionClusterNetwork c (fun tr _ _ => effects tr = [])).
    { unfold vpc_ProvisionClusterNetwork. wp_step. apply wpm_get. cbn beta iota zeta. rewrite Ec. cbn [negb].
      eapply wpm_mono; [apply network_ready_spec|]. by intros tr0 r0 c0 [? _]. }
    exact (proj1 (wpm_runs _ _ _) G _ _ _ Hrun).
Qed.

(** ** An interface to the network of a cluster is added once *)

Definition nsxt_interface (name : string) (n : Z) : VirtualMachineNetworkInterfaceSpec :=
  mkVirtualMachineNetworkInterfaceSpec (sprintf "eth%d" [AZ n])
    (Some (network_ref ncp_GroupVersion "VirtualNetwork" name)) "" "" None [] [].
Lemma nsxt_interface_found name n : has_interface name [nsxt_interface name n] = Ok true.
Proof.
  cbn [has_interface]. unfold interface_to, nsxt_interface. cbn [ns_Network or_panic res_bind network_ref pr_APIVersion pr_Kind pr_Name].
  unfold NetworkGVKNSXT. by rewrite bool_decide_eq_true_2, String.eqb_refl.
Qed.
Lemma has_interface_app name l vnif :
  has_interface name l = Ok false -> has_interface name (l ++ [vnif]) = has_interface name [vnif].
Proof.
  induction l as [|i l IH]; [done|]. change ((i :: l) ++ [vnif])%list with (i :: (l ++ [vnif]))%list.
  cbn [has_interface]. destruct (interface_to name i) as [[]|e|w]; by cbn [res_bind].
Qed.
Lemma with_network_same vm network : s_Network (o_Spec vm) = Some network -> with_network network vm = vm.
Proof. destruct vm as [? ? ? ? [] ?]. cbn. by intros ->. Qed.

(** What a configured VM has. *)
Definition nsxt_has (name : string) (vm : VirtualMachine) : Prop :=
  exists network, s_Network (o_Spec vm) = Some network /\ has_interface name (nt_Interfaces network) = Ok true.
Lemma nsxt_configures vm (c : ClusterContext) :
  wpm (nsxt_ConfigureVirtualMachine vm) c (fun _ r c' => c' = c /\
    match r with Ok vm' => nsxt_has (GetNSXTVirtualNetworkName (cc_Name c)) vm' | _ => True end).
Proof.
  unfold nsxt_ConfigureVirtualMachine. wp_step. apply wpm_get. cbn beta iota zeta. wp_step.
  destruct (has_interface _ _) as [[]|e|w] eqn:Ef; wp_step; try done; wp_step; (split; [done|]).
  - by eexists; (split; [reflexivity|]).
  - eexists. split; [reflexivity|]. cbn [nt_Interfaces set_nt_Interfaces].
    rewrite has_interface_app by exact Ef. apply nsxt_interface_found.
Qed.
Lemma nsxt_configured vm (c : ClusterContext) :
  nsxt_has (GetNSXTVirtualNetworkName (cc_Name c)) vm -> nsxt_ConfigureVirtualMachine vm c = Ret (Ok vm, c).
Proof.
  intros (network & Hn & Hf). unfold nsxt_ConfigureVirtualMachine, bind, get, of_res, ret. cbn [pbind].
  rewrite Hn. cbn [default from_option id]. rewrite Hf. cbn [pbind]. by rewrite (with_network_same vm network).
Qed.

(** with NSX-T the interface to the network of the cluster is added to a VM once:
    configuring a VM that is configured changes nothing, also when the VM already
    had interfaces of its own. *)
Theorem nsxt_configured_once disableFW machine vm c tr vm' c' :
  runs (ConfigureVirtualMachine (nsxtNetworkProvider disableFW) machine vm c) tr (Ok vm', c') ->
  nsxt_has (GetNSXTVirtualNetworkName (cc_Name c)) vm' /\
  ConfigureVirtualMachine (nsxtNetworkProvider disableFW) machine vm' c' = Ret (Ok vm', c').
Proof.
  intros Hrun. destruct (proj1 (wpm_runs _ _ _) (nsxt_configures vm c) _ _ _ Hrun) as [-> Hh].
  split; [exact Hh|]. by apply nsxt_configured.
Qed.

(** An interface of a VM that names no network: the program panics. *)
Lemma nsxt_no_network vm c name :
  s_Network (o_Spec vm) = Some (mkVirtualMachineNetworkSpec [mkVirtualMachineNetworkInterfaceSpec name None "" "" None [] []] []) ->
  nsxt_ConfigureVirtualMachine vm c = Ret (Stop Panics, c).
Proof. intros Hn. unfold nsxt_ConfigureVirtualMachine, bind, get, of_res. cbn [pbind]. by rewrite Hn. Qed.

(** ** The provider of a cluster *)

(** with a provider per cluster, the provider of a cluster is the one that the
    cluster names: it is found when, and only when, the name is one of the three
    that the API knows, no name and any other name are errors, and the provider
    says the name it was asked for. *)
Theorem provider_of_cluster cluster :
  let name := nw_Provider (vs_Network (v_Spec cluster)) in
  match ForCluster NewPerClusterNetworkProviderFactory cluster with
  | Ok np => NetworkInterface.Name np = name /\
      name ∈ [VSphereDistributedNetworkProviderName; NSXTier1NetworkProviderName; VPCNetworkProviderName]
  | Err e => (name ∉ [VSphereDistributedNetworkProviderName; NSXTier1NetworkProviderName; VPCNetworkProviderName]) /\
      (e = ESentinel ErrNetworkProviderEmpty <-> name = "")
  | Stop _ => False
  end.
Proof.
  cbn zeta. unfold ForCluster, NewPerClusterNetworkProviderFactory. set (name := nw_Provider _).
  cbn [foldl]. destruct (String.eqb_spec name "") as [->|Hne].
  { split; [|done]. rewrite !elem_of_cons, elem_of_nil. by intros [?|[?|[?|?]]]. }
  destruct (decide (name = VPCNetworkProviderName)) as [->|H3].
  { rewrite lookup_insert_eq. split; [done|]. in_list. }
  rewrite lookup_insert_ne by done.
  destruct (decide (name = NSXTier1NetworkProviderName)) as [->|H2].
  { rewrite lookup_insert_eq. split; [done|]. in_list. }
  rewrite lookup_insert_ne by done.
  destruct (decide (name = VSphereDistributedNetworkProviderName)) as [->|H1].
  { rewrite lookup_insert_eq. split; [done|]. in_list. }
  rewrite lookup_insert_ne, lookup_empty by done.
  split; [|by split]. rewrite !elem_of_cons, elem_of_nil. by intros [?|[?|[?|?]]].
Qed.
End theorems.

(** * Examples *)

Import RefLibs.

Definition gates_off : FeatureGates := Build_FeatureGates false false false false false false false.
#[local] Existing Instance gates_off.

Definition sample_vspherecluster (provider : string) (endpoint : APIEndpoint) : VSphereCluster :=
  vmwarev1.mkVSphereCluster "VSphereCluster" (mkObjectMeta "c" "ns" "uid-c" None [] [] None)
    (vmwarev1.mkVSphereClusterSpec endpoint (mkNetwork None provider) None)
    (vmwarev1.mkVSphereClusterStatus [] None [] None).
Definition sample_cluster_context : ClusterContext :=
  mkClusterContext None (sample_vspherecluster "NSXTier1" (vmwarev1.mkAPIEndpoint "" 0)).
Definition ready_vnet : VirtualNetwork :=
  mkVirtualNetwork (new_meta "ns" "c-vnet") "10.0.0.1/32" [cond "Ready" ConditionTrue "Ready" ""].

(** A world where the network is there. *)
Definition net_get {T} (k : Kind T) : res T :=
  match k in Kind T return res T with
  | KVirtualNetwork => Ok ready_vnet
  | _ => Err (ELib APINotFound "not found")
  end.
Definition net_answer (X : Type) (e : Ev X) (w : RefWorld) : X * RefWorld :=
  match e in Ev Y return Y * RefWorld with
  | KubeGet k _ _ => (net_get k, w)
  | e => ref_answer _ e w
  end.
Definition provision_run : trace * (res unit * ClusterContext) :=
  exec net_answer (ProvisionClusterNetwork (nsxtNetworkProvider "true") sample_cluster_context) empty_world.

Lemma network_provisioned_witness : is_ready (vn_Conditions ready_vnet) /\
  condition_true VSphereClusterNetworkReadyCondition provision_run.2.2.
Proof.
  split.
  { split; [by exists (cond "Ready" ConditionTrue "Ready" ""); split; [left|]|].
    intros c Hc _. apply list_elem_of_singleton in Hc as ->. done. }
  apply (network_provisioned (nsxtNetworkProvider "true") sample_cluster_context provision_run.1).
  replace (Ok tt, provision_run.2.2) with provision_run.2 by (vm_compute; reflexivity).
  apply exec_runs.
Defined.

Definition sample_vm_object : VirtualMachine :=
  mkVirtualMachine "VirtualMachine" (new_meta "ns" "m") None None empty_spec empty_status.
Definition configure_run (vm : VirtualMachine) : trace * (res VirtualMachine * ClusterContext) :=
  exec net_answer (nsxt_ConfigureVirtualMachine vm sample_cluster_context) empty_world.
Definition configured_vm : VirtualMachine :=
  with_network (mkVirtualMachineNetworkSpec [nsxt_interface "c-vnet" 0] []) sample_vm_object.

Lemma nsxt_configured_once_witness :
  nsxt_ConfigureVirtualMachine configured_vm sample_cluster_context = Ret (Ok configured_vm, sample_cluster_context).
Proof.
  apply (nsxt_configured_once "true" (vmwarev1.mkVSphereMachine "" (new_meta "ns" "m")
      (vmwarev1.mkVSphereMachineSpec "" "" "" "" [] (mkVSphereMachineNetworkSpec
         (mkInterfaceSpec (mkInterfaceNetworkReference "" "" "") 0 []) [] []) "" "" (mkVirtualMachineNamingSpec "") [])
      (vmwarev1.mkVSphereMachineStatus [] None [] "" "" "" [] None))
    sample_vm_object sample_cluster_context (configure_run sample_vm_object).1).
  replace (Ok configured_vm, sample_cluster_context) with (configure_run sample_vm_object).2 by (vm_compute; reflexivity).
  apply exec_runs.
Defined.

End Network.
