(* ===== verification/VmopMachine.v ===== *)
(** [pkg/services/vmoperator/vmopmachine.go] and [pkg/context/vmware/machine_context.go]:
    the VirtualMachine of a VSphereMachine of the supervisor mode, as the service
    the controller of VSphereMachines works with. *)
From S2P Require Import Prelude Sorting GoStrings Types VmwareTypes Libs Constants Errors Prog World Conditions MachineUtil Owners Clone.
From S2P Require Import VmopCommon NetworkInterface Network MachineInterface RefLibs.
From stdpp Require Import relations.

Module VmopMachine.
Import vmwarev1 vmoprvhub VmopCommon NetworkInterface MachineInterface.
#[local] Open Scope Z_scope.

(** * [SupervisorMachineContext]

    The hooks of [VMModifiers] are those [setVMModifiers] makes, so each one is
    given by the network provider it calls; [sm_NetworkProvider] is the local
    variable [np] of the reconciliation. *)
Record SupervisorMachineContext (NP : Type) := mkSupervisorMachineContext {
  sm_Cluster : option KubeCluster;
  sm_Machine : option Machine;
  sm_VSphereCluster : option VSphereCluster;
  sm_VSphereMachine : VSphereMachine;
  sm_VMModifiers : list NP;
  sm_ConfigureControlPlaneVMReadinessProbe : bool;
  sm_NetworkProvider : option NP
}.
Arguments mkSupervisorMachineContext {NP}.
Arguments sm_Cluster {NP}.
Arguments sm_Machine {NP}.
Arguments sm_VSphereCluster {NP}.
Arguments sm_VSphereMachine {NP}.
Arguments sm_VMModifiers {NP}.
Arguments sm_ConfigureControlPlaneVMReadinessProbe {NP}.
Arguments sm_NetworkProvider {NP}.

Section context.
Context {NP : Type}.
#[warnings="-notation-for-abbreviation"]
Notation Ctx := (SupervisorMachineContext NP).

Definition set_sm_VSphereMachine (v : VSphereMachine) (c : Ctx) : Ctx :=
  mkSupervisorMachineContext (sm_Cluster c) (sm_Machine c) (sm_VSphereCluster c) v (sm_VMModifiers c)
    (sm_ConfigureControlPlaneVMReadinessProbe c) (sm_NetworkProvider c).
Definition set_sm_Machine (v : option Machine) (c : Ctx) : Ctx :=
  mkSupervisorMachineContext (sm_Cluster c) v (sm_VSphereCluster c) (sm_VSphereMachine c) (sm_VMModifiers c)
    (sm_ConfigureControlPlaneVMReadinessProbe c) (sm_NetworkProvider c).
Definition set_sm_VSphereCluster (v : option VSphereCluster) (c : Ctx) : Ctx :=
  mkSupervisorMachineContext (sm_Cluster c) (sm_Machine c) v (sm_VSphereMachine c) (sm_VMModifiers c)
    (sm_ConfigureControlPlaneVMReadinessProbe c) (sm_NetworkProvider c).
Definition set_sm_VMModifiers (v : list NP) (c : Ctx) : Ctx :=
  mkSupervisorMachineContext (sm_Cluster c) (sm_Machine c) (sm_VSphereCluster c) (sm_VSphereMachine c) v
    (sm_ConfigureControlPlaneVMReadinessProbe c) (sm_NetworkProvider c).
Definition set_sm_NetworkProvider (np : NP) (probe : bool) (c : Ctx) : Ctx :=
  mkSupervisorMachineContext (sm_Cluster c) (sm_Machine c) (sm_VSphereCluster c) (sm_VSphereMachine c) (sm_VMModifiers c)
    probe (Some np).

(** The VSphereMachine, its status and its specification change. *)
Definition on_machine (f : VSphereMachine -> VSphereMachine) (c : Ctx) : Ctx :=
  set_sm_VSphereMachine (f (sm_VSphereMachine c)) c.
Definition with_status (f : VSphereMachineStatus -> VSphereMachineStatus) (m : VSphereMachine) : VSphereMachine :=
  set_m_Status (f (m_Status m)) m.

Definition machine_GetConditions (m : VSphereMachine) : list Condition := mt_Conditions (m_Status m).
Definition machine_SetConditions (l : list Condition) : VSphereMachine -> VSphereMachine := with_status (set_mt_Conditions l).
Definition machine_GetV1Beta1Conditions (m : VSphereMachine) : list V1Beta1Condition :=
  deprecated_get (mt_Deprecated (m_Status m)).
Definition machine_SetV1Beta1Conditions (l : list V1Beta1Condition) : VSphereMachine -> VSphereMachine :=
  with_status (fun st => set_mt_Deprecated (deprecated_set (mt_Deprecated st) l) st).

#[export] Program Instance sm_conditioned : Conditioned Ctx := {|
  the_conditions c := machine_GetConditions (sm_VSphereMachine c);
  put_conditions l := on_machine (machine_SetConditions l);
  the_v1beta1 c := machine_GetV1Beta1Conditions (sm_VSphereMachine c);
  put_v1beta1 l := on_machine (machine_SetV1Beta1Conditions l)
|}.
Solve Obligations with done.

Definition SupervisorMachineContext_String (c : Ctx) : string :=
  let m := sm_VSphereMachine c in
  sprintf "%s %s/%s" [AS (m_GVK m); AS (m_Namespace m); AS (m_Name m)].
Definition SupervisorMachineContext_GetReady (c : Ctx) : bool :=
  ptr_deref (mt_Provisioned (m_Status (sm_VSphereMachine c))) false.
Definition SupervisorMachineContext_Patch : M Ev Ctx unit :=
  bind (gets sm_VSphereMachine) (fun m => call_res (KubeHelperPatch KVSphereMachine m)).
Definition SupervisorMachineContext_SetBaseMachineContext (cluster : option KubeCluster) (machine : Machine) (c : Ctx) : Ctx :=
  mkSupervisorMachineContext cluster (Some machine) (sm_VSphereCluster c) (sm_VSphereMachine c) (sm_VMModifiers c)
    (sm_ConfigureControlPlaneVMReadinessProbe c) (sm_NetworkProvider c).

#[export] Program Instance sm_context : MachineContext Ctx := {|
  ctx_String := SupervisorMachineContext_String;
  GetObjectMeta c := m_ObjectMeta (sm_VSphereMachine c);
  put_ObjectMeta om := on_machine (set_m_ObjectMeta om);
  GetReady := SupervisorMachineContext_GetReady;
  GetCluster := sm_Cluster;
  GetMachine := sm_Machine;
  put_Machine m := set_sm_Machine (Some m);
  SetBaseMachineContext := SupervisorMachineContext_SetBaseMachineContext;
  ctx_Patch := SupervisorMachineContext_Patch
|}.
Solve Obligations with intros; try unfold SupervisorMachineContext_Patch; repeat wp_step; done.
End context.

(** * What a VirtualMachine is to be *)

(** [affinityInfo]. *)
Record affinityInfo := mkAffinityInfo {
  ai_affinitySpec : AffinitySpec;
  ai_vmGroupName : string;
  ai_failureDomain : string
}.

Section desired.
Context `{Libs} `{FeatureGates}.

Definition or_else (s d : string) : string := if String.eqb s "" then d else s.

(** The names of the other MachineDeployments that the user has not placed. *)
Definition otherMDNames (mdName : string) (mds : list MachineDeployment) : list string :=
  sort_by id (map (fun md => om_Name (md_ObjectMeta md))
    (List.filter (fun md => String.eqb (md_FailureDomain md) "" && negb (String.eqb (om_Name (md_ObjectMeta md)) mdName)) mds)).

(** The machines of a MachineDeployment go to one failure domain, on different
    hosts, and preferably away from those of other MachineDeployments. *)
Definition of_deployment (mdName : string) : option LabelSelector :=
  Some (mkLabelSelector {[MachineDeploymentNameLabel := mdName]} []).
Definition affinity_spec (mdName : string) (others : list string) : AffinitySpec :=
  mkAffinitySpec
    (Some [mkVMAffinityTerm (of_deployment mdName) LabelTopologyZone])
    (Some ([mkVMAffinityTerm (of_deployment mdName) LabelHostname] ++
           if 0 <? zlen others
           then [mkVMAffinityTerm (Some (mkLabelSelector ∅ [(MachineDeploymentNameLabel, "In", others)])) LabelTopologyZone]
           else [])%list).

Definition checkVirtualMachineGroupMembership (vmOperatorVMGroup : VirtualMachineGroup) (virtualMachineName : string) : bool :=
  match g_BootOrder vmOperatorVMGroup with
  | [] => false
  | first :: _ => existsb (fun member => String.eqb (gm_Name member) virtualMachineName) (bo_Members first)
  end.

Definition group_info (mdName : string) (vmGroup : VirtualMachineGroup) (mds : list MachineDeployment) : affinityInfo :=
  mkAffinityInfo (affinity_spec mdName (otherMDNames mdName mds)) (om_Name (g_ObjectMeta vmGroup))
    (default "" (default ∅ (g_Annotations vmGroup) !! zone_annotation mdName)).

(** ** Its fields *)

Definition minHardwareVersion (version : string) : res Z :=
  if String.eqb version "" then Ok 0
  else res_bind (MachineUtil.ParseHardwareVersion version) (fun hwVersion => Ok (Clone.int32_wrap hwVersion)).

Definition powerOffMode (mode : string) : res string :=
  if String.eqb mode vmwarev1.VirtualMachinePowerOpModeHard || String.eqb mode "" then Ok vmoprvhub.VirtualMachinePowerOpModeHard
  else if String.eqb mode vmwarev1.VirtualMachinePowerOpModeSoft then Ok vmoprvhub.VirtualMachinePowerOpModeSoft
  else if String.eqb mode vmwarev1.VirtualMachinePowerOpModeTrySoft then Ok vmoprvhub.VirtualMachinePowerOpModeTrySoft
  else Err (ENew (sprintf "unable to map PowerOffMode %q to vm-operator equivalent" [AS mode])).

(** The fields that are set one by one, so that those that others have set are
    kept. *)
Definition base_spec (spec : VSphereMachineSpec) (clusterName dataSecretName mode : string) (minHW : Z)
    (s : VirtualMachineSpec) : VirtualMachineSpec :=
  let s := set_s_ImageName (or_else (s_ImageName s) (ms_ImageName spec)) s in
  let s := set_s_ClassName (or_else (s_ClassName s) (ms_ClassName spec)) s in
  let s := set_s_StorageClass (or_else (s_StorageClass s) (ms_StorageClass spec)) s in
  let s := set_s_PowerState VirtualMachinePowerStateOn s in
  let reserved := default (mkVirtualMachineReservedSpec "") (s_Reserved s) in
  let s := set_s_Reserved (Some (set_re_ResourcePolicyName (or_else (re_ResourcePolicyName reserved) clusterName) reserved)) s in
  let bootstrap := default (mkVirtualMachineBootstrapSpec None) (s_Bootstrap s) in
  let s := set_s_Bootstrap (Some (set_bs_CloudInit
    (Some (mkVirtualMachineBootstrapCloudInitSpec (Some (mkSecretKeySelector dataSecretName "user-data")))) bootstrap)) s in
  let s := set_s_PowerOffMode mode s in
  if s_MinHardwareVersion s =? 0 then set_s_MinHardwareVersion minHW s else s.

Definition is_control_plane (machine : Machine) : bool :=
  MachineUtil.IsControlPlaneMachine (om_Labels (mc_ObjectMeta machine)).

(** The API server of a control plane VM is probed once there is a control plane. *)
Definition with_probe (probe : bool) (cluster : KubeCluster) (machine : Machine) (s : VirtualMachineSpec) : VirtualMachineSpec :=
  if probe && is_control_plane machine && ptr_deref (kc_ControlPlaneInitialized cluster) false
  then set_s_ReadinessProbe (Some (Some (mkTCPSocketAction defaultAPIBindPort ""))) s
  else s.

(** ** Its labels and annotations *)

Definition getTopologyLabels (machine : Machine) (failureDomain : string) : gmap string string :=
  if negb (String.eqb (mc_FailureDomain machine) "") then {[LabelTopologyZone := mc_FailureDomain machine]}
  else if negb (String.eqb failureDomain "") then {[LabelTopologyZone := failureDomain]}
  else ∅.

Definition getVMLabels (clusterName : string) (machine : Machine) (vmLabels : option (gmap string string))
    (info : option affinityInfo) : gmap string string :=
  let labels := clusterRoleVMLabels clusterName (is_control_plane machine) ∪ default ∅ vmLabels in
  let labels := getTopologyLabels machine (match info with Some i => ai_failureDomain i | None => "" end) ∪ labels in
  let labels := <[ClusterNameLabel := clusterName]> labels in
  if is_control_plane machine then labels
  else <[MachineDeploymentNameLabel := Owners.label (mc_ObjectMeta machine) MachineDeploymentNameLabel]> labels.

Definition addResourcePolicyAnnotations (clusterName : string) (machine : Machine)
    (annotations : option (gmap string string)) : gmap string string :=
  let '(tag, module) :=
    if is_control_plane machine then (ControlPlaneVMVMAntiAffinityTagValue, ControlPlaneVMClusterModuleGroupName)
    else (WorkerVMVMAntiAffinityTagValue, getMachineDeploymentNameForCluster clusterName) in
  <[ClusterModuleNameAnnotationKey := module]> (<[ProviderTagsAnnotationKey := tag]> (default ∅ annotations)).

(** ** Its volumes *)

Definition volumeName (machine : VSphereMachine) (volume : VSphereMachineVolume) : string :=
  m_Name machine +:+ "-" +:+ vv_Name volume.

Definition is_claim (name : string) (volume : VirtualMachineVolume) : bool :=
  match vo_PersistentVolumeClaim volume with Some (claim, _) => String.eqb claim name | None => false end.
Definition addVolume (name : string) (s : VirtualMachineSpec) : VirtualMachineSpec :=
  if existsb (is_claim name) (s_Volumes s) then s
  else set_s_Volumes (s_Volumes s ++ [mkVirtualMachineVolume name (Some (name, false))])%list s.

(** The claim of a volume, with the zone of the machine when the cluster has
    several. *)
Definition volume_claim (vsphereCluster : VSphereCluster) (machine : Machine) (vsphereMachine : VSphereMachine)
    (volume : VSphereMachineVolume) : PersistentVolumeClaim :=
  let zonal := 1 <? zlen (vt_FailureDomains (v_Status vsphereCluster)) in
  let zone := mc_FailureDomain machine in
  mkPersistentVolumeClaim
    (mkObjectMeta (volumeName vsphereMachine volume) (m_Namespace vsphereMachine) "" None [] [] None)
    (if zonal && negb (String.eqb zone "") then
       Some {["csi.vsphere.volume-requested-topology" :=
                "[{" +:+ json_text LabelTopologyZone +:+ ":" +:+ json_text zone +:+ "}]"]}
     else None)
    [ReadWriteOnce] (vv_Capacity volume)
    (Some (or_else (vv_StorageClass volume) (ms_StorageClass (m_Spec vsphereMachine)))).

Definition getPolicies (spec : VSphereMachineSpec) : list PolicySpec :=
  if negb gate_InfrastructurePolicies then []
  else map (fun ref => mkPolicySpec "" (po_Kind ref) (po_Name ref)) (ms_Policies spec).

(** ** What is only set when it is made *)

Definition on_spec (f : VirtualMachineSpec -> VirtualMachineSpec) (vm : VirtualMachine) : VirtualMachine :=
  set_o_Spec (f (o_Spec vm)) vm.
Definition on_create (f : VirtualMachineSpec -> VirtualMachineSpec) (vm : VirtualMachine) : VirtualMachine :=
  if bool_decide (o_CreationTimestamp vm = None) then on_spec f vm else vm.
Definition with_affinity (info : option affinityInfo) (vm : VirtualMachine) : VirtualMachine :=
  match info with
  | None => vm
  | Some i =>
      on_spec (fun s => set_s_GroupName (or_else (s_GroupName s) (ai_vmGroupName i)) s)
        (on_create (set_s_Affinity (Some (ai_affinitySpec i))) vm)
  end.

(** ** The network of the machine *)

Definition convertKeyValueSlice (pairs : list (string * string)) : list (string * string) := map (fun pair => (pair.1, pair.2)) pairs.

Definition dhcp_options (o : VirtualMachineNetworkDHCPOptionsStatus) : VSphereMachineNetworkDHCPOptionsStatus :=
  mkVSphereMachineNetworkDHCPOptionsStatus (convertKeyValueSlice (dq_Config o)) (Some (dq_Enabled o)).
Definition ip_status (ip : VirtualMachineNetworkInterfaceIPStatus) : VSphereMachineNetworkInterfaceIPStatus :=
  mkVSphereMachineNetworkInterfaceIPStatus (ip_AutoConfigurationEnabled ip)
    (match ip_DHCP ip with
     | Some (ip4, ip6) => mkVSphereMachineNetworkDHCPStatus (dhcp_options ip4) (dhcp_options ip6)
     | None => no_DHCP
     end)
    (map (fun addr => mkVSphereMachineNetworkInterfaceIPAddrStatus (ad_Address addr) (ad_Lifetime addr) (ad_Origin addr) (ad_State addr))
       (ip_Addresses ip))
    (ip_MACAddr ip).
Definition dns_status (dns : VirtualMachineNetworkDNSStatus) : VSphereMachineNetworkDNSStatus :=
  mkVSphereMachineNetworkDNSStatus (Some (dn_DHCP dns)) (dn_DomainName dns) (dn_HostName dns) (dn_Nameservers dns) (dn_SearchDomains dns).
Definition interface_status (vmIface : VirtualMachineNetworkInterfaceStatus) : VSphereMachineNetworkInterfaceStatus :=
  mkVSphereMachineNetworkInterfaceStatus (in_Name vmIface) (in_DeviceKey vmIface)
    (match in_IP vmIface with Some ip => ip_status ip | None => no_IP end)
    (match in_DNS vmIface with Some dns => dns_status dns | None => no_DNS end).

(** Whether there is an address, and the machine with what is known of its
    network. *)
Definition reconcileNetwork (vm : VirtualMachine) (m : VSphereMachine) : res (bool * VSphereMachine) :=
  match t_Network (o_Status vm) with
  | None => Stop Panics
  | Some network =>
      let m := with_status (set_mt_Interfaces (map interface_status (wt_Interfaces network))) m in
      if String.eqb (wt_PrimaryIP4 network) "" && String.eqb (wt_PrimaryIP6 network) "" then Ok (false, m)
      else
        let ipAddr := or_else (wt_PrimaryIP4 network) (wt_PrimaryIP6 network) in
        Ok (true, if String.eqb ipAddr "" then m
                  else with_status (set_mt_Addresses [mkMachineAddress MachineInternalIP ipAddr]) m)
  end.

(** What is learnt of a VM that is there. *)
Definition surface (vm : VirtualMachine) (m : VSphereMachine) : VSphereMachine :=
  let m := set_m_Spec (set_ms_ProviderID (sprintf "vsphere://%s" [AS (t_BiosUUID (o_Status vm))]) (m_Spec m)) m in
  with_status (fun st => set_mt_Provisioned (Some true) (set_mt_FailureDomain (t_Zone (o_Status vm))
                 (set_mt_BiosUUID (t_BiosUUID (o_Status vm)) st))) m.
End desired.

(** * The service

    [execute] is the template engine and [log_V5] says whether debug logging is
    enabled, with which VirtualMachines are listed for the log. *)
Section service.
Context `{Libs} `{FeatureGates} {NP : Type} `{!NetworkProvider NP}.
Context (execute : string -> string -> res string) (log_V5 : bool).
#[warnings="-notation-for-abbreviation"]
Notation MS := (M Ev (SupervisorMachineContext NP)).
Open Scope go_scope.

(** The pointers of the context, which are there. *)
Definition get_machine : MS Machine := c <- get ;; of_res (or_panic (sm_Machine c)).
Definition get_cluster : MS KubeCluster := c <- get ;; of_res (or_panic (sm_Cluster c)).
Definition get_vsphere_cluster : MS VSphereCluster := c <- get ;; of_res (or_panic (sm_VSphereCluster c)).
Definition set_phase (phase : string) : MS unit := modify (on_machine (with_status (set_mt_Phase phase))).

Definition GetMachinesInCluster (namespace clusterName : string) : M Ev unit (list ObjectMeta) :=
  machines <- call_res (KubeList KVSphereMachine namespace [(ClusterNameLabel, Some clusterName)]) ;;
  ret (map m_ObjectMeta machines).

Definition FetchVSphereMachine (namespace name : string) : M Ev unit (SupervisorMachineContext NP) :=
  vsphereMachine <- call_res (KubeGet KVSphereMachine namespace name) ;;
  ret (mkSupervisorMachineContext None None None vsphereMachine [] false None).

Definition FetchVSphereCluster (cluster : KubeCluster) : MS unit :=
  c <- get ;;
  vsphereCluster <- call_res (KubeGet KVSphereCluster (m_Namespace (sm_VSphereMachine c)) (default "" (kc_InfrastructureRefName cluster))) ;;
  modify (set_sm_VSphereCluster (Some vsphereCluster)).

Definition getVirtualMachinesInCluster : MS (list VirtualMachine) :=
  c <- get ;;
  match sm_Cluster c with
  | None => fail (ENew (sprintf "No cluster is set for machine %s in namespace %s"
                     [AS (m_Name (sm_VSphereMachine c)); AS (m_Namespace (sm_VSphereMachine c))]))
  | Some cluster =>
      let ns := om_Namespace (kc_ObjectMeta cluster) in
      let name := om_Name (kc_ObjectMeta cluster) in
      vms <- wrap (sprintf "error getting virtualmachines in cluster %s/%s" [AS ns; AS name])
               (call_res (KubeList KVirtualMachine ns [(ClusterSelectorKey, Some name)])) ;;
      if zlen vms =? 0 then
        wrap (sprintf "error getting virtualmachines in cluster %s/%s using legacy labels" [AS ns; AS name])
          (call_res (KubeList KVirtualMachine ns [(legacyClusterSelectorKey, Some name)]))
      else ret vms
  end.

(** The VirtualMachines are listed for the log before and after. *)
Definition count_vms : MS unit := try getVirtualMachinesInCluster ;; ret tt.
Definition traced {A} (m : MS A) : MS A := if log_V5 then count_vms ;; with_defer count_vms m else m.

Definition vm_key : MS (string * string) :=
  c <- get ;;
  machine <- get_machine ;;
  of_res (virtualMachineObjectKey execute (om_Name (mc_ObjectMeta machine)) (om_Namespace (mc_ObjectMeta machine))
            (ms_Naming (m_Spec (sm_VSphereMachine c)))).

(** ** Deletion *)

(** The phase by whether the VM is there, and the error. *)
Definition failed_phase {A} (err : error) : MS A :=
  set_phase (if IsNotFound err then VSphereMachinePhaseNotFound else VSphereMachinePhaseError) ;;
  fail err.

Definition reconcile_delete : MS unit :=
  key <- vm_key ;;
  got <- try (call_res (KubeGet KVirtualMachine (fst key) (snd key))) ;;
  match got with
  | inr err => failed_phase err
  | inl vmOperatorVM =>
      if bool_decide (om_DeletionTimestamp (o_ObjectMeta vmOperatorVM) <> None) then set_phase VSphereMachinePhaseDeleting
      else
        deleted <- try (call_res (KubeDelete KVirtualMachine vmOperatorVM)) ;;
        match deleted with
        | inr err => failed_phase err
        | inl _ => set_phase VSphereMachinePhaseDeleting
        end
  end.
Definition ReconcileDelete : MS unit := traced reconcile_delete.

Definition SyncFailureReason : MS unit := ret tt.

Definition GetHostInfo : MS string :=
  key <- vm_key ;;
  vmOperatorVM <- call_res (KubeGet KVirtualMachine (fst key) (snd key)) ;;
  ret (t_NodeName (o_Status vmOperatorVM)).

(** ** The VirtualMachine *)

(** The claims of the volumes are made or patched, and the VM mounts them. *)
Definition ensure_volume (vm : VirtualMachine) (volume : VSphereMachineVolume) : MS VirtualMachine :=
  c <- get ;;
  vsphereCluster <- get_vsphere_cluster ;;
  machine <- get_machine ;;
  let vsphereMachine := sm_VSphereMachine c in
  let pvc := volume_claim vsphereCluster machine vsphereMachine volume in
  let ns := om_Namespace (pv_ObjectMeta pvc) in
  let name := om_Name (pv_ObjectMeta pvc) in
  wrap (sprintf "failed to create volume %s/%s" [AS ns; AS name])
    (found <- call_res (KubeFetchOrNew KPersistentVolumeClaim pvc) ;;
     match SetOwnerReference VMwareGroupVersion "VSphereMachine" (m_ObjectMeta vsphereMachine) (pv_ObjectMeta found) with
     | inr text =>
         fail (EWrap (sprintf "error setting %s/%s as owner of %s/%s"
                        [AS (m_Namespace vsphereMachine); AS (m_Name vsphereMachine); AS ns; AS name]) (ELib OtherLibError text))
     | inl refs =>
         call_res (KubeWrite KPersistentVolumeClaim
           (set_pv_ObjectMeta (set_om_OwnerReferences refs (pv_ObjectMeta found)) found))
     end) ;;
  ret (on_spec (addVolume name) vm).
Definition addVolumes (vm : VirtualMachine) : MS VirtualMachine :=
  c <- get ;;
  fold_m ensure_volume (ms_Volumes (m_Spec (sm_VSphereMachine c))) vm.

(** The hook of [setVMModifiers]: the network provider configures the VM. *)
Definition networkModifier (vm : VirtualMachine) (np : NP) : MS VirtualMachine :=
  c <- get ;;
  vsphereCluster <- get_vsphere_cluster ;;
  r <- try (local (mkClusterContext (sm_Cluster c) vsphereCluster) (ConfigureVirtualMachine np (sm_VSphereMachine c) vm)) ;;
  match r with
  | inl vm => ret vm
  | inr err => fail (ENew (sprintf "failed to configure machine network: %s" [AS (stack_text (error_string err))]))
  end.
Definition setVMModifiers : MS unit :=
  c <- get ;;
  np <- of_res (or_panic (sm_NetworkProvider c)) ;;
  modify (set_sm_VMModifiers [np]).

(** The VSphereMachine controls the VM. *)
Definition controlled (vm : VirtualMachine) : MS VirtualMachine :=
  c <- get ;;
  let m := sm_VSphereMachine c in
  match SetControllerReference VMwareGroupVersion "VSphereMachine" (m_ObjectMeta m) (o_ObjectMeta vm) with
  | inl refs => ret (set_o_ObjectMeta (set_om_OwnerReferences refs (o_ObjectMeta vm)) vm)
  | inr text =>
      fail (EWrap (sprintf "failed to mark %s %s/%s as owner of %s %s/%s"
                     [AS (m_GVK m); AS (m_Namespace m); AS (m_Name m); AS (o_GVK vm);
                      AS (om_Namespace (o_ObjectMeta vm)); AS (om_Name (o_ObjectMeta vm))]) (ELib OtherLibError text))
  end.

(** What the VM is before the volumes: its specification, labels and annotations. *)
Definition base_vm (c : SupervisorMachineContext NP) (cluster : KubeCluster) (machine : Machine) (mode : string) (minHW : Z)
    (info : option affinityInfo) (vm : VirtualMachine) : VirtualMachine :=
  let clusterName := om_Name (kc_ObjectMeta cluster) in
  let vm := on_spec (fun s => with_probe (sm_ConfigureControlPlaneVMReadinessProbe c) cluster machine
              (base_spec (m_Spec (sm_VSphereMachine c)) clusterName (default "" (mc_BootstrapDataSecretName machine)) mode minHW s)) vm in
  let vm := set_o_ObjectMeta (set_om_Labels (Some (getVMLabels clusterName machine (om_Labels (o_ObjectMeta vm)) info))
              (o_ObjectMeta vm)) vm in
  set_o_Annotations (Some (addResourcePolicyAnnotations clusterName machine (o_Annotations vm))) vm.

Definition reconcileVMOperatorVM (vmOperatorVM : VirtualMachine) (info : option affinityInfo) : MS VirtualMachine :=
  c <- get ;;
  machine <- get_machine ;;
  if String.eqb (mc_Version machine) "" then
    fail (ENew (sprintf "missing kubernetes version for %s %s/%s"
                  [AS (mc_GVK machine); AS (om_Namespace (mc_ObjectMeta machine)); AS (om_Name (mc_ObjectMeta machine))]))
  else
    minHW <- of_res (minHardwareVersion (ms_MinHardwareVersion (m_Spec (sm_VSphereMachine c)))) ;;
    got <- get_or_new KVirtualMachine (om_Namespace (o_ObjectMeta vmOperatorVM)) (om_Name (o_ObjectMeta vmOperatorVM)) vmOperatorVM ;;
    let '(originalVM, vmExists) := (got : VirtualMachine * bool) in
    cluster <- get_cluster ;;
    mode <- of_res (powerOffMode (ms_PowerOffMode (m_Spec (sm_VSphereMachine c)))) ;;
    vm <- addVolumes (base_vm c cluster machine mode minHW info originalVM) ;;
    let vm := on_create (set_s_Policies (getPolicies (m_Spec (sm_VSphereMachine c)))) vm in
    vm <- fold_m networkModifier (sm_VMModifiers c) vm ;;
    vm <- controlled (with_affinity info vm) ;;
    create_or_merge KVirtualMachine vmExists originalVM vm.

(** ** Whether it may be made *)

Definition wait_for_group (message : string) : MS unit :=
  cond_set (cond VSphereMachineVirtualMachineProvisionedCondition ConditionFalse
    VSphereMachineVirtualMachineWaitingForVirtualMachineGroupReason message).

(** The affinity of a VM, when it has one, or that its group has to be waited for. *)
Definition find_affinity (vmName : string) : MS (unit + option affinityInfo) :=
  c <- get ;;
  if negb (gate_NodeAutoPlacement && negb (MachineUtil.IsControlPlaneMachine (om_Labels (m_ObjectMeta (sm_VSphereMachine c)))))
  then ret (inr None)
  else
    cluster <- get_cluster ;;
    machine <- get_machine ;;
    let ns := om_Namespace (kc_ObjectMeta cluster) in
    let name := om_Name (kc_ObjectMeta cluster) in
    got <- try (call_res (KubeGet KVirtualMachineGroup ns name)) ;;
    match got with
    | inr err =>
        if negb (IsNotFound err) then fail err
        else
          wait_for_group (sprintf "Waiting for VSphereMachine's VirtualMachineGroup %s to exist" [AS (ns +:+ "/" +:+ name)]) ;;
          ret (inl tt)
    | inl vmGroup =>
        if negb (checkVirtualMachineGroupMembership vmGroup vmName) then
          wait_for_group (sprintf "Waiting for VirtualMachineGroup %s to have %s as a member"
            [AS (KRef (om_Namespace (g_ObjectMeta vmGroup)) (om_Name (g_ObjectMeta vmGroup))); AS vmName]) ;;
          ret (inl tt)
        else
          machineDeployments <- call_res (KubeList KMachineDeployment ns [(ClusterNameLabel, Some name)]) ;;
          ret (inr (Some (group_info (Owners.label (mc_ObjectMeta machine) MachineDeploymentNameLabel) vmGroup machineDeployments)))
    end.

(** ** Whether it is ready *)

(** Both conditions about the VM. *)
Definition not_yet (reason1 severity text reason message : string) : MS unit :=
  cond_false VMProvisionedV1Beta1Condition reason1 severity text ;;
  cond_set (cond VSphereMachineVirtualMachineProvisionedCondition ConditionFalse reason message).

Definition prerequisites : list string :=
  [VirtualMachineConditionClassReady; VirtualMachineConditionImageReady; VirtualMachineConditionVMSetResourcePolicyReady;
   VirtualMachineConditionBootstrapReady; VirtualMachineConditionStorageReady; VirtualMachineConditionNetworkReady;
   VirtualMachineConditionPlacementReady].
(** The first of them that is false. *)
Fixpoint failed_prerequisite (conditions : list Condition) (types : list string) : option (string * Condition) :=
  match types with
  | [] => None
  | condition :: types =>
      match FindStatusCondition conditions condition with
      | Some c => if String.eqb (c_Status c) ConditionFalse then Some (condition, c) else failed_prerequisite conditions types
      | None => failed_prerequisite conditions types
      end
  end.

Definition not_created (vm : VirtualMachine) : MS bool :=
  match failed_prerequisite (t_Conditions (o_Status vm)) prerequisites with
  | Some (condition, c) =>
      not_yet (c_Reason c) SeverityError (c_Message c) (c_Reason c) (c_Message c) ;;
      fail (ENew (sprintf "vm prerequisites check failed for condition %s: %s"
                    [AS condition; AS (KRef (om_Namespace (o_ObjectMeta vm)) (om_Name (o_ObjectMeta vm)))]))
  | None =>
      not_yet VMProvisionStartedV1Beta1Reason SeverityInfo "" VSphereMachineVirtualMachineProvisioningReason "" ;;
      ret true
  end.

Definition no_address (vm : VirtualMachine) : bool :=
  match t_Network (o_Status vm) with
  | None => true
  | Some network => String.eqb (wt_PrimaryIP4 network) "" && String.eqb (wt_PrimaryIP6 network) ""
  end.

(** What is left when there is a VM: whether to come back. *)
Definition follow_vm (vm : VirtualMachine) : MS bool :=
  set_phase VSphereMachinePhasePending ;;
  if negb (IsStatusConditionTrue (t_Conditions (o_Status vm)) VirtualMachineConditionCreated) then not_created vm
  else
    set_phase VSphereMachinePhaseCreated ;;
    if negb (String.eqb (t_PowerState (o_Status vm)) VirtualMachinePowerStateOn) then
      not_yet PoweringOnV1Beta1Reason SeverityInfo "" VSphereMachineVirtualMachinePoweringOnReason "" ;;
      ret true
    else
      set_phase VSphereMachinePhasePoweredOn ;;
      if no_address vm then
        not_yet WaitingForNetworkAddressV1Beta1Reason SeverityInfo "" VSphereMachineVirtualMachineWaitingForNetworkAddressReason "" ;;
        ret true
      else if String.eqb (t_BiosUUID (o_Status vm)) "" then
        not_yet WaitingForBIOSUUIDV1Beta1Reason SeverityInfo "" VSphereMachineVirtualMachineWaitingForBIOSUUIDReason "" ;;
        ret true
      else
        set_phase VSphereMachinePhaseReady ;;
        c <- get ;;
        networked <- of_res (reconcileNetwork vm (sm_VSphereMachine c)) ;;
        let '(ok, m) := (networked : bool * VSphereMachine) in
        modify (set_sm_VSphereMachine m) ;;
        if negb ok then ret true
        else
          modify (on_machine (surface vm)) ;;
          cond_true VMProvisionedV1Beta1Condition ;;
          cond_set (cond VSphereMachineVirtualMachineProvisionedCondition ConditionTrue VSphereMachineVirtualMachineProvisionedReason "") ;;
          ret false.

Definition reconcile_normal : MS bool :=
  set_phase VSphereMachinePhasePending ;;
  key <- vm_key ;;
  found <- find_affinity (snd key) ;;
  match found with
  | inl _ => ret true
  | inr info =>
      got <- get_or_new KVirtualMachine (fst key) (snd key)
               (mkVirtualMachine "" (mkObjectMeta (snd key) (fst key) "" None [] [] None) None None empty_spec empty_status) ;;
      r <- try (reconcileVMOperatorVM (fst got) info) ;;
      match r with
      | inr err =>
          let text := sprintf "failed to create or update VirtualMachine: %s" [AS (error_string err)] in
          not_yet VMCreationFailedV1Beta1Reason SeverityWarning text VSphereMachineVirtualMachineNotProvisionedReason text ;;
          fail err
      | inl vm => follow_vm vm
      end
  end.
Definition ReconcileNormal : MS bool := traced reconcile_normal.

(** [r.networkProviderFactory.ForCluster] in the reconciler: whether the cluster
    has a provider yet. *)
Context (factory_ForCluster : VSphereCluster -> res NP).
Definition resolve_provider : MS bool :=
  vsphereCluster <- get_vsphere_cluster ;;
  r <- try (of_res (factory_ForCluster vsphereCluster)) ;;
  match r with
  | inr err =>
      if error_is err ErrNetworkProviderEmpty then ret false
      else
        fail (EWrap (sprintf "failed to resolve network provider for VSphereCluster %s"
                       [AS (KRef (om_Namespace (v_ObjectMeta vsphereCluster)) (om_Name (v_ObjectMeta vsphereCluster)))]) err)
  | inl np => modify (set_sm_NetworkProvider np (SupportsVMReadinessProbe np)) ;; ret true
  end.
End service.

(** * What it writes *)

Inductive vm_write :=
| VMCreated (vm : VirtualMachine)
| VMPatched (original vm : VirtualMachine).
Definition vm_write_of (c : call Ev) : option vm_write :=
  match c with
  | @Call _ X e _ =>
      match e with
      | @KubeCreate T k o =>
          match k in Kind T return T -> option vm_write with
          | KVirtualMachine => fun vm => Some (VMCreated vm)
          | _ => fun _ => None
          end o
      | @KubePatch T k original o =>
          match k in Kind T return T -> T -> option vm_write with
          | KVirtualMachine => fun original vm => Some (VMPatched original vm)
          | _ => fun _ _ => None
          end original o
      | _ => None
      end
  end.
Definition vm_writes (tr : trace) : list vm_write := omap vm_write_of tr.

Lemma vm_writes_app tr tr' : vm_writes (tr ++ tr')%list = (vm_writes tr ++ vm_writes tr')%list.
Proof. apply omap_app. Qed.
Lemma quiet_vm_writes tr : effects tr = [] -> vm_writes tr = [].
Proof.
  induction tr as [|[X e x] tr IH]; [done|]. unfold effects, vm_writes. simpl.
  destruct e; simpl; try discriminate; exact IH.
Qed.

(** * Lemmas *)

Section lemmas.
Context `{Libs} `{FeatureGates} {NP : Type} `{!NetworkProvider NP}.
Context (execute : string -> string -> res string) (log_V5 : bool).
#[warnings="-notation-for-abbreviation"]
Notation Ctx := (SupervisorMachineContext NP).
#[warnings="-notation-for-abbreviation"]
Notation MS := (M Ev Ctx).

(** What neither conditions, nor the status, nor the provider ID touch. *)
Definition frame (c : Ctx) :=
  (sm_Cluster c, sm_Machine c, sm_VSphereCluster c, sm_VMModifiers c, sm_ConfigureControlPlaneVMReadinessProbe c,
   sm_NetworkProvider c, m_ObjectMeta (sm_VSphereMachine c), set_ms_ProviderID "" (m_Spec (sm_VSphereMachine c))).
Lemma adorns_frame {A} (m : MS A) : adorns m -> preserves frame m.
Proof. by apply preserves_adorns. Qed.
Lemma frame_rest (c c' : Ctx) : frame c' = frame c -> the_rest c' = the_rest c.
Proof. unfold frame, the_rest. cbn. by intros [= -> -> _ _ _ _ -> _]. Qed.

Lemma not_yet_adorns r1 s t r m : adorns (St:=Ctx) (not_yet r1 s t r m).
Proof. unfold not_yet. solve_adorns. Qed.
Lemma wait_for_group_adorns m : adorns (St:=Ctx) (wait_for_group m).
Proof. unfold wait_for_group. solve_adorns. Qed.

Lemma get_machine_reads : reads (St:=Ctx) get_machine.
Proof. unfold get_machine. solve_reads. Qed.
Lemma get_cluster_reads : reads (St:=Ctx) get_cluster.
Proof. unfold get_cluster. solve_reads. Qed.
Lemma get_vsphere_cluster_reads : reads (St:=Ctx) get_vsphere_cluster.
Proof. unfold get_vsphere_cluster. solve_reads. Qed.
Lemma getVirtualMachinesInCluster_reads : reads (St:=Ctx) getVirtualMachinesInCluster.
Proof.
  unfold getVirtualMachinesInCluster. apply reads_bind; [apply reads_get|]. intros c. destruct (sm_Cluster c); [|solve_reads].
  cbn zeta. apply reads_bind; [solve_reads|]. intros vms. destruct (zlen vms =? 0); solve_reads.
Qed.
Lemma count_vms_reads : reads (St:=Ctx) count_vms.
Proof. unfold count_vms. apply reads_bind; [apply reads_try, getVirtualMachinesInCluster_reads|solve_reads]. Qed.
Lemma vm_key_reads : reads (St:=Ctx) (vm_key execute).
Proof. unfold vm_key. apply reads_bind; [apply reads_get|]. intros c. apply reads_bind; [apply get_machine_reads|solve_reads]. Qed.

(** The key of the VM, of a machine that is there. *)
Definition key_of (c : Ctx) (machine : Machine) : res (string * string) :=
  virtualMachineObjectKey execute (om_Name (mc_ObjectMeta machine)) (om_Namespace (mc_ObjectMeta machine))
    (ms_Naming (m_Spec (sm_VSphereMachine c))).
Lemma vm_key_spec (c : Ctx) :
  wpm (vm_key execute) c (fun tr r c' => tr = [] /\ c' = c /\
    match sm_Machine c with
    | Some machine => r = key_of c machine
    | None => r = Stop Panics
    end).
Proof.
  unfold vm_key, get_machine, key_of. wp_step. apply wpm_get. cbn beta iota. do 2 wp_step. apply wpm_get. cbn beta iota. wp_step.
  destruct (sm_Machine c) as [machine|]; cbn [or_panic]; [|done]. wp_step. done.
Qed.

(** The listings for the log are passed over by whatever calls that only read do not
    touch, and that holds of a run that stops when it holds of one that does not. *)
Lemma traced_spec {A} (m : MS A) c (Q : trace -> res A -> Ctx -> Prop) :
  wpm m c Q ->
  (forall tr0 tr tr1 r c', effects tr0 = [] -> effects tr1 = [] -> Q tr r c' -> Q (tr0 ++ tr ++ tr1)%list r c') ->
  (forall tr r w c', Q tr r c' -> Q tr (Stop w) c') ->
  (forall tr w, effects tr = [] -> Q tr (Stop w) c) ->
  wpm (traced log_V5 m) c Q.
Proof.
  intros Hm Hpad Hstop Hq. unfold traced. destruct log_V5; [|exact Hm].
  assert (Hc : forall c (P : trace -> res unit -> Ctx -> Prop),
    (forall tr, effects tr = [] -> P tr (Ok tt) c) -> (forall tr w, effects tr = [] -> P tr (Stop w) c) -> wpm count_vms c P).
  { intros c0 P H1 H2. unfold count_vms. wp_step. wp_step.
    eapply wpm_mono; [apply getVirtualMachinesInCluster_reads|]. intros tr [v|e|w] c' [He ->]; cbn beta iota; [wp_step|wp_step|by apply H2];
      rewrite app_nil_r; by apply H1. }
  wp_step. apply Hc; [|by intros tr w He; apply Hq]. intros tr0 He0. cbn beta iota.
  wp_step. eapply wpm_mono; [exact Hm|]. intros tr r c' HQ.
  assert (G : wpm count_vms c' (fun tr' r' s'' => Q (tr0 ++ tr ++ tr')%list (match r' with Stop w => Stop w | _ => r end) s'')).
  { apply Hc; [intros tr1 He1|intros tr1 w He1; apply (Hstop _ r)]; by apply Hpad. }
  destruct r as [a|e|[|]]; [exact G|exact G|exact G|].
  rewrite <-(app_nil_r tr). by apply Hpad.
Qed.

(** ** Deletion *)

(** The VM of the machine was looked for, or deleted, and was not there. *)
Definition supervisor_not_found (c : Ctx) (tr : trace) : Prop :=
  exists machine ns name e, sm_Machine c = Some machine /\ key_of c machine = Ok (ns, name) /\ IsNotFound e = true /\
    (Call (KubeGet KVirtualMachine ns name) (Err e) ∈ tr \/
     exists vm, Call (KubeGet KVirtualMachine ns name) (Ok vm) ∈ tr /\ Call (KubeDelete KVirtualMachine vm) (Err e) ∈ tr).
#[export] Instance supervisor_not_found_grows c : Grows (supervisor_not_found c).
Proof.
  intros tr tr' Hs (machine & ns & name & e & H1 & H2 & H3 & [H4|(vm & H4 & H5)]); exists machine, ns, name, e;
    (split; [done|]); (split; [done|]); (split; [done|]); [left; by apply Hs|right; exists vm; split; by apply Hs].
Qed.
Lemma supervisor_not_found_adorned c c' : adorned c c' -> supervisor_not_found c' = supervisor_not_found c.
Proof.
  intros Ha. unfold supervisor_not_found, key_of.
  assert (E : (sm_Machine c', ms_Naming (m_Spec (sm_VSphereMachine c'))) = (sm_Machine c, ms_Naming (m_Spec (sm_VSphereMachine c)))).
  { by apply (adorned_field (fun c : Ctx => (sm_Machine c, ms_Naming (m_Spec (sm_VSphereMachine c))))). }
  by injection E as -> ->.
Qed.

(** The end of a deletion: the phase says what is known of the VM. *)
Definition delete_post (c : Ctx) (tr : trace) (r : res unit) (c' : Ctx) : Prop :=
  frame c' = frame c /\
  match r with
  | Ok _ => mt_Phase (m_Status (sm_VSphereMachine c')) = VSphereMachinePhaseDeleting /\
      exists ns name vm, Call (KubeGet KVirtualMachine ns name) (Ok vm) ∈ tr /\
        (om_DeletionTimestamp (o_ObjectMeta vm) <> None \/ Call (KubeDelete KVirtualMachine vm) (Ok tt) ∈ tr)
  | Err e => IsNotFound e = true -> supervisor_not_found c tr
  | Stop _ => True
  end.

Lemma failed_phase_spec {A} e (c : Ctx) :
  wpm (failed_phase (A:=A) e) c (fun tr r c' => tr = [] /\ frame c' = frame c /\ r = Err e).
Proof. unfold failed_phase, set_phase. wp_step. apply wpm_modify. cbn beta iota. by wp_step. Qed.

Context (execute_found : forall t n e, execute t n = Err e -> IsNotFound e = false).

Lemma key_found (c : Ctx) machine e : key_of c machine = Err e -> IsNotFound e = false.
Proof using execute_found.
  unfold key_of, virtualMachineObjectKey. destruct (GenerateVirtualMachineName _ _ _) as [n|e'|w] eqn:En; cbn [res_bind]; [done| |done].
  intros [= <-]. by eapply GenerateVirtualMachineName_found.
Qed.

Lemma reconcile_delete_spec (c : Ctx) : wpm (reconcile_delete execute) c (delete_post c).
Proof using execute_found.
  unfold reconcile_delete. wp_step. eapply wpm_mono; [apply vm_key_spec|]. intros tr0 r0 c0 (-> & -> & Hk).
  destruct (sm_Machine c) as [machine|] eqn:Em; [|subst r0; by split].
  destruct r0 as [[ns name]|e|w]; [|split; [done|]; intros Hn; by rewrite (key_found c machine e) in Hn|by split].
  symmetry in Hk. cbn [fst snd]. do 2 wp_step. apply wpm_call. intros [vm|e|w]; cbn beta iota.
  - destruct (bool_decide (om_DeletionTimestamp _ <> None)) eqn:Ed.
    + apply bool_decide_eq_true in Ed. apply wpm_modify. split; [done|]. split; [done|]. exists ns, name, vm. split; [in_list|by left].
    + do 2 wp_step. apply wpm_call. intros [[]|e|w]; cbn beta iota.
      * apply wpm_modify. split; [done|]. split; [done|]. exists ns, name, vm. split; [in_list|right; in_list].
      * eapply wpm_mono; [apply failed_phase_spec|]. intros tr r c' (-> & Hf & ->). split; [done|]. intros Hn.
        exists machine, ns, name, e. split; [done|]. split; [done|]. split; [done|]. right. exists vm. split; in_list.
      * by split.
  - eapply wpm_mono; [apply failed_phase_spec|]. intros tr r c' (-> & Hf & ->). split; [done|]. intros Hn.
    exists machine, ns, name, e. split; [done|]. split; [done|]. split; [done|]. left. in_list.
  - by split.
Qed.

Lemma vm_ReconcileDelete_spec (c : Ctx) : wpm (ReconcileDelete execute log_V5) c (delete_post c).
Proof using execute_found.
  unfold ReconcileDelete. apply traced_spec; [apply reconcile_delete_spec|..].
  - intros tr0 tr tr1 r c' _ _ [Hf Hr]. split; [exact Hf|].
    destruct r as [u|e|w]; [|intros Hn; specialize (Hr Hn); in_part Hr|done].
    destruct Hr as (Hp & ns & name & vm & Hg & Hd). split; [exact Hp|]. exists ns, name, vm.
    split; [in_trace|]. destruct Hd as [?|?]; [by left|right; in_trace].
  - intros tr r w c' [Hf _]. by split.
  - intros tr w _. by split.
Qed.

(** ** The volumes and the network *)

Definition is_ok_with {A} (r : res A) (P : A -> Prop) : Prop := match r with Ok a => P a | _ => True end.

Lemma ensure_volume_spec vm volume (c : Ctx) :
  wpm (ensure_volume vm volume) c (fun tr r c' => c' = c /\ vm_writes tr = [] /\
    is_ok_with r (fun vm' => vm' = on_spec (addVolume (volumeName (sm_VSphereMachine c) volume)) vm)).
Proof.
  unfold ensure_volume, get_vsphere_cluster, get_machine. wp_step. apply wpm_get. cbn beta iota.
  do 2 wp_step. apply wpm_get. cbn beta iota. wp_step. destruct (sm_VSphereCluster c) as [v|]; cbn [or_panic]; [|done].
  do 2 wp_step. apply wpm_get. cbn beta iota. wp_step. destruct (sm_Machine c) as [machine|]; cbn [or_panic]; [|done].
  cbn zeta. do 3 wp_step. apply wpm_call. intros [found|e|w]; cbn beta iota delta [res_wrap]; [|done..].
  destruct (SetOwnerReference _ _ _ _) as [refs|text]; [|by wp_step].
  apply wpm_call. intros [op|e|w]; cbn beta iota delta [res_wrap]; [|done..]. by wp_step.
Qed.

Lemma fold_volumes_spec volumes vm (c : Ctx) :
  wpm (fold_m ensure_volume volumes vm) c (fun tr r c' => c' = c /\ vm_writes tr = [] /\
    is_ok_with r (fun vm' => vm' = foldl (fun vm volume => on_spec (addVolume (volumeName (sm_VSphereMachine c) volume)) vm) vm volumes)).
Proof.
  revert vm. induction volumes as [|volume volumes IH]; intros vm; cbn [fold_m]; [by wp_step|].
  wp_step. eapply wpm_mono; [apply ensure_volume_spec|]. intros tr r c' (-> & Hw & Hr).
  destruct r as [vm'|e|w]; cbn [is_ok_with] in Hr; [subst vm'|done..].
  eapply wpm_mono; [apply IH|]. intros tr' r c' (-> & Hw' & Hr'). split; [done|]. split; [by rewrite vm_writes_app, Hw, Hw'|].
  exact Hr'.
Qed.

(** The same VM but for its network. *)
Definition renetworked (vm vm' : VirtualMachine) : Prop := exists network, vm' = on_spec (set_s_Network network) vm.
#[export] Instance renetworked_preorder : PreOrder renetworked.
Proof.
  split.
  - intros vm. exists (s_Network (o_Spec vm)). by destruct vm as [? ? ? ? [] ?].
  - intros vm1 vm2 vm3 [n2 ->] [n3 ->]. by exists n3.
Qed.

Lemma networkModifier_spec vm np (c : Ctx) :
  wpm (networkModifier vm np) c (fun tr r c' => effects tr = [] /\ c' = c /\ is_ok_with r (renetworked vm)).
Proof.
  unfold networkModifier, get_vsphere_cluster. wp_step. apply wpm_get. cbn beta iota.
  do 2 wp_step. apply wpm_get. cbn beta iota. wp_step. destruct (sm_VSphereCluster c) as [v|]; cbn [or_panic]; [|done].
  do 2 wp_step. apply wpm_local. eapply wpm_mono; [apply ConfigureVirtualMachine_law|].
  intros tr [vm'|e|w] c' (He & _ & Hr); cbn beta iota; [wp_step|wp_step|done]; rewrite ?app_nil_r; by cbn [app].
Qed.
Lemma fold_modifiers_spec nps vm (c : Ctx) :
  wpm (fold_m networkModifier nps vm) c (fun tr r c' => effects tr = [] /\ c' = c /\ is_ok_with r (renetworked vm)).
Proof.
  revert vm. induction nps as [|np nps IH]; intros vm; cbn [fold_m]; [wp_step; split; [done|]; split; [done|]; cbn; reflexivity|].
  wp_step. eapply wpm_mono; [apply networkModifier_spec|]. intros tr [vm'|e|w] c' (He & -> & Hr); [|done..].
  eapply wpm_mono; [apply IH|]. intros tr' r c' (He' & -> & Hr'). split; [by rewrite effects_app, He, He'|]. split; [done|].
  destruct r as [vm''|e|w]; [|done..]. cbn in *. by etrans.
Qed.

(** ** The VM that is written *)

(** What the VM is to be, but for its network and its owners. *)
Definition desired_vm (c : Ctx) (cluster : KubeCluster) (machine : Machine) (mode : string) (minHW : Z)
    (info : option affinityInfo) (original : VirtualMachine) : VirtualMachine :=
  let m := sm_VSphereMachine c in
  with_affinity info (on_create (set_s_Policies (getPolicies (m_Spec m)))
    (foldl (fun vm volume => on_spec (addVolume (volumeName m volume)) vm)
       (base_vm c cluster machine mode minHW info original) (ms_Volumes (m_Spec m)))).

Lemma on_create_renetworked f vm vm' :
  (forall n s, f (set_s_Network n s) = set_s_Network n (f s)) -> renetworked vm vm' -> renetworked (on_create f vm) (on_create f vm').
Proof.
  intros Hf [n ->]. exists n. unfold on_create. cbn [o_CreationTimestamp on_spec set_o_Spec].
  destruct (bool_decide _); [|done]. unfold on_spec. cbn [o_Spec set_o_Spec]. by rewrite Hf.
Qed.
Lemma with_affinity_renetworked info vm vm' : renetworked vm vm' -> renetworked (with_affinity info vm) (with_affinity info vm').
Proof.
  intros Hn. destruct info as [i|]; [|done]. unfold with_affinity.
  pose proof (on_create_renetworked (set_s_Affinity (Some (ai_affinitySpec i))) vm vm' (fun _ _ => eq_refl) Hn) as [n ->].
  by exists n.
Qed.

Lemma controlled_spec vm (c : Ctx) :
  wpm (controlled vm) c (fun tr r c' => tr = [] /\ c' = c /\ is_ok_with r (fun vm' => exists refs,
    SetControllerReference VMwareGroupVersion "VSphereMachine" (m_ObjectMeta (sm_VSphereMachine c)) (o_ObjectMeta vm) = inl refs /\
    vm' = set_o_ObjectMeta (set_om_OwnerReferences refs (o_ObjectMeta vm)) vm)).
Proof.
  unfold controlled. wp_step. apply wpm_get. cbn beta iota zeta.
  destruct (SetControllerReference _ _ _ _) as [refs|text]; wp_step; [|done]. split; [done|]. split; [done|]. by exists refs.
Qed.

(** A VM that is written for a machine, from the one there was. *)
Definition made_for (c : Ctx) (info : option affinityInfo) (original vm : VirtualMachine) : Prop :=
  exists cluster machine mode minHW network refs,
    sm_Cluster c = Some cluster /\ sm_Machine c = Some machine /\ mc_Version machine <> "" /\
    minHardwareVersion (ms_MinHardwareVersion (m_Spec (sm_VSphereMachine c))) = Ok minHW /\
    powerOffMode (ms_PowerOffMode (m_Spec (sm_VSphereMachine c))) = Ok mode /\
    let d := desired_vm c cluster machine mode minHW info original in
    SetControllerReference VMwareGroupVersion "VSphereMachine" (m_ObjectMeta (sm_VSphereMachine c)) (o_ObjectMeta d) = inl refs /\
    vm = set_o_ObjectMeta (set_om_OwnerReferences refs (o_ObjectMeta d)) (on_spec (set_s_Network network) d).

(** The write of a VM that was looked for, if any. *)
Definition one_write (c : Ctx) (info : option affinityInfo) (vm0 : VirtualMachine) (tr : trace) : Prop :=
  vm_writes tr = [] \/
  let key := KubeGet KVirtualMachine (om_Namespace (o_ObjectMeta vm0)) (om_Name (o_ObjectMeta vm0)) in
  (exists vm e, made_for c info vm0 vm /\ Call key (Err e) ∈ tr /\ IsNotFound e = true /\ vm_writes tr = [VMCreated vm]) \/
  (exists original vm, made_for c info original vm /\ Call key (Ok original) ∈ tr /\ original <> vm /\ vm_writes tr = [VMPatched original vm]).
(** The VM that is known in the end is one the API server answered with. *)
Definition answered (vm : VirtualMachine) (tr : trace) : Prop :=
  (exists ns name, Call (KubeGet KVirtualMachine ns name) (Ok vm) ∈ tr) \/
  (exists o, Call (KubeCreate KVirtualMachine o) (Ok vm) ∈ tr) \/
  (exists original o, Call (KubePatch KVirtualMachine original o) (Ok vm) ∈ tr).
#[export] Instance answered_grows vm : Grows (answered vm).
Proof.
  intros tr tr' Hs [(ns & name & Hc)|[(o & Hc)|(original & o & Hc)]];
    [left; exists ns, name|right; left; exists o|right; right; exists original, o]; by apply Hs.
Qed.

Lemma create_or_merge_spec exists_ original vm (c : Ctx) :
  wpm (create_or_merge KVirtualMachine exists_ original vm) c (fun tr r c' => c' = c /\
    (vm_writes tr = [] \/ vm_writes tr = (if exists_ then [VMPatched original vm] else [VMCreated vm]) /\ (exists_ = true -> original <> vm)) /\
    is_ok_with r (fun vm' => answered vm' tr \/ exists_ = true /\ vm' = original)).
Proof.
  unfold create_or_merge. destruct exists_; cbn [negb].
  - destruct (bool_decide (original = vm)) eqn:Ee; cbn [negb].
    + apply bool_decide_eq_true in Ee as <-. wp_step. split; [done|]. split; [by left|]. by right.
    + apply bool_decide_eq_false in Ee. do 2 wp_step. apply wpm_call.
      intros [u|e|w]; cbn beta iota delta [res_wrap]; [|by split; [|split; [left|]]..].
      wp_step. apply wpm_call. intros r. split; [done|]. split; [by right|].
      destruct r as [vm'|e|w]; [|done..]. left. right; right. exists original, vm. in_list.
  - apply wpm_call. intros r. split; [done|]. split; [by right|].
    destruct r as [vm'|e|w]; [|done..]. left. right; left. exists vm. in_list.
Qed.

(** The end of a run that wrote no VM. *)
Ltac no_vm_write :=
  rewrite ?vm_writes_app;
  repeat match goal with
  | He : effects ?t = [] |- context [vm_writes ?t] => rewrite (quiet_vm_writes t He)
  | Hw : vm_writes ?t = [] |- context [vm_writes ?t] => rewrite Hw
  end; done.
Ltac silent := split; [done|split; [left; no_vm_write|done]].

Lemma reconcileVMOperatorVM_spec vm0 info (c : Ctx) :
  wpm (reconcileVMOperatorVM vm0 info) c (fun tr r c' => c' = c /\ one_write c info vm0 tr /\ is_ok_with r (fun vm => answered vm tr)).
Proof.
  unfold reconcileVMOperatorVM. wp_step. apply wpm_get. cbn beta iota.
  unfold get_machine. do 2 wp_step. apply wpm_get. cbn beta iota. wp_step.
  destruct (sm_Machine c) as [machine|] eqn:Em; cbn [or_panic]; [|silent].
  destruct (String.eqb_spec (mc_Version machine) "") as [|Hv]; [wp_step; silent|].
  wp_step. wp_step. destruct (minHardwareVersion _) as [minHW|e|w] eqn:Eh; [|silent..].
  wp_step. eapply wpm_mono; [apply get_or_new_spec|].
  intros tr1 [[original there]|e|w] c1 (-> & He1 & Hget); cbn beta iota; [|silent..].
  unfold get_cluster. do 2 wp_step. apply wpm_get. cbn beta iota. wp_step.
  destruct (sm_Cluster c) as [cluster|] eqn:Ec; cbn [or_panic]; [|silent].
  wp_step. wp_step. destruct (powerOffMode _) as [mode|e|w] eqn:Ep; [|silent..].
  unfold addVolumes. do 2 wp_step. apply wpm_get. cbn beta iota. eapply wpm_mono; [apply fold_volumes_spec|].
  assert (Hw1 : vm_writes tr1 = []) by by apply quiet_vm_writes.
  intros tr2 [vm2|e|w] c2 (-> & Hw2 & Hv2); cbn [is_ok_with] in Hv2; cbn beta iota zeta;
    [subst vm2|silent..].
  wp_step. eapply wpm_mono; [apply fold_modifiers_spec|].
  intros tr3 [vm3|e|w] c3 (He3 & -> & Hv3); cbn [is_ok_with] in Hv3; cbn beta iota;
    [|silent..].
  apply (with_affinity_renetworked info) in Hv3. fold (desired_vm c cluster machine mode minHW info original) in Hv3.
  destruct Hv3 as [network Hnet].
  wp_step. eapply wpm_mono; [apply controlled_spec|].
  intros tr4 [vm4|e|w] c4 (-> & -> & Hv4); cbn [is_ok_with] in Hv4; cbn beta iota;
    [|silent..].
  destruct Hv4 as (refs & Hrefs & Hvm4). rewrite Hnet in Hrefs, Hvm4.
  assert (Hmade : made_for c info original vm4).
  { exists cluster, machine, mode, minHW, network, refs. by split_and!. }
  eapply wpm_mono; [apply create_or_merge_spec|]. intros tr5 r c5 (-> & Hw5 & Hr5). split; [done|].
  rewrite <-?app_assoc. cbn [app]. rewrite ?app_nil_r.
  assert (Ew : forall tr, vm_writes (tr1 ++ tr2 ++ tr3 ++ tr)%list = vm_writes tr).
  { intros tr. by rewrite !vm_writes_app, Hw1, Hw2, (quiet_vm_writes tr3). }
  split.
  - unfold one_write. rewrite Ew. destruct Hw5 as [->|[-> Hne]]; [by left|right].
    destruct there; cbn beta iota in Hget.
    + right. exists original, vm4. split; [done|]. split; [subst tr1; in_list|]. split; [by apply Hne|done].
    + destruct Hget as (-> & e & -> & Hn). left. exists vm4, e. split; [done|]. split; [in_list|done].
  - destruct r as [vm5|e|w]; [|done..]. cbn [is_ok_with] in *. destruct Hr5 as [Ha|[-> ->]]; [in_part Ha|].
    cbn beta iota in Hget. subst tr1. left. do 2 eexists. in_list.
Qed.

(** ** The group *)

Definition is_worker (c : Ctx) : bool :=
  negb (MachineUtil.IsControlPlaneMachine (om_Labels (m_ObjectMeta (sm_VSphereMachine c)))).

(** The group of the cluster has the VM as a member, and is what its affinity is
    made of. *)
Definition grouped (c : Ctx) (vmName : string) (info : affinityInfo) (tr : trace) : Prop :=
  exists cluster machine vmGroup mds,
    let ns := om_Namespace (kc_ObjectMeta cluster) in
    let name := om_Name (kc_ObjectMeta cluster) in
    sm_Cluster c = Some cluster /\ sm_Machine c = Some machine /\
    Call (KubeGet KVirtualMachineGroup ns name) (Ok vmGroup) ∈ tr /\
    checkVirtualMachineGroupMembership vmGroup vmName = true /\
    Call (KubeList KMachineDeployment ns [(ClusterNameLabel, Some name)]) (Ok mds) ∈ tr /\
    info = group_info (Owners.label (mc_ObjectMeta machine) MachineDeploymentNameLabel) vmGroup mds.
#[export] Instance grouped_grows c vmName info : Grows (grouped c vmName info).
Proof.
  intros tr tr' Hs (cluster & machine & vmGroup & mds & H1 & H2 & H3 & H4 & H5 & H6).
  exists cluster, machine, vmGroup, mds. split_and!; try done; by apply Hs.
Qed.

Lemma find_affinity_spec vmName (c : Ctx) :
  wpm (find_affinity vmName) c (fun tr r c' => effects tr = [] /\ frame c' = frame c /\
    match r with
    | Ok (inr info) => c' = c /\
        if gate_NodeAutoPlacement && is_worker c then exists i, info = Some i /\ grouped c vmName i tr else info = None
    | _ => True
    end).
Proof.
  unfold find_affinity. wp_step. apply wpm_get. cbn beta iota. fold (is_worker c).
  destruct (gate_NodeAutoPlacement && is_worker c); cbn [negb]; [|by wp_step].
  unfold get_cluster. do 2 wp_step. apply wpm_get. cbn beta iota. wp_step.
  destruct (sm_Cluster c) as [cluster|] eqn:Ec; cbn [or_panic]; [|done].
  unfold get_machine. do 2 wp_step. apply wpm_get. cbn beta iota. wp_step.
  destruct (sm_Machine c) as [machine|] eqn:Em; cbn [or_panic]; [|done].
  assert (Hwait : forall msg c0, frame c0 = frame c ->
    wpm (bind (wait_for_group msg) (fun _ => ret (A:=unit + option affinityInfo) (inl tt))) c0 (fun tr r c' => effects tr = [] /\ frame c' = frame c /\
      match r with Ok (inr info) => False | _ => True end)).
  { intros msg c0 Hf. wp_step. unfold wait_for_group. cond_step. cond_step. by split_and!. }
  do 2 wp_step. apply wpm_call. intros [vmGroup|e|w]; cbn beta iota; [| |done].
  - destruct (checkVirtualMachineGroupMembership vmGroup vmName) eqn:Eg; cbn [negb].
    + wp_step. apply wpm_call. intros [mds|e|w]; cbn beta iota; [|done..]. wp_step. split; [done|]. split; [done|]. split; [done|].
      eexists. split; [done|]. exists cluster, machine, vmGroup, mds. split_and!; try done; in_list.
    + eapply wpm_mono; [by apply Hwait|].
      intros tr [[u|i]|e|w] c' (He & Hf & Hx); done.
  - destruct (IsNotFound e); cbn [negb]; [|by wp_step].
    eapply wpm_mono; [by apply Hwait|].
    intros tr [[u|i]|e'|w] c' (He & Hf & Hx); done.
Qed.

(** ** Being done *)

Definition provisioned_condition (c : Ctx) : Prop :=
  exists cnd, the_condition VSphereMachineVirtualMachineProvisionedCondition c = Some cnd /\ c_Status cnd = ConditionTrue.

(** A VM that is there, and what the machine says of it. *)
Definition vm_done (vm : VirtualMachine) (c : Ctx) : Prop :=
  let m := sm_VSphereMachine c in
  IsStatusConditionTrue (t_Conditions (o_Status vm)) VirtualMachineConditionCreated = true /\
  t_PowerState (o_Status vm) = VirtualMachinePowerStateOn /\
  t_BiosUUID (o_Status vm) <> "" /\
  (exists network, t_Network (o_Status vm) = Some network /\
     or_else (wt_PrimaryIP4 network) (wt_PrimaryIP6 network) <> "" /\
     mt_Addresses (m_Status m) = [mkMachineAddress MachineInternalIP (or_else (wt_PrimaryIP4 network) (wt_PrimaryIP6 network))] /\
     mt_Interfaces (m_Status m) = map interface_status (wt_Interfaces network)) /\
  ms_ProviderID (m_Spec m) = "vsphere://" +:+ t_BiosUUID (o_Status vm) /\
  mt_BiosUUID (m_Status m) = t_BiosUUID (o_Status vm) /\
  mt_FailureDomain (m_Status m) = t_Zone (o_Status vm) /\
  mt_Provisioned (m_Status m) = Some true /\
  mt_Phase (m_Status m) = VSphereMachinePhaseReady /\
  provisioned_condition c.

Lemma not_yet_spec r1 s t r m (c : Ctx) :
  wpm (not_yet r1 s t r m) c (fun tr _ c' => effects tr = [] /\ frame c' = frame c).
Proof.
  eapply wpm_mono; [apply not_yet_adorns|]. intros tr r' c' [He Ha]. split; [done|]. by apply (adorned_field frame).
Qed.
(** A step that is not the last one. *)
Definition not_done (c : Ctx) (tr : trace) (r : res bool) (c' : Ctx) : Prop :=
  effects tr = [] /\ frame c' = frame c /\ r <> Ok false.
Lemma wait_spec r1 s t r m (c : Ctx) :
  wpm (bind (not_yet r1 s t r m) (fun _ => ret true)) c (not_done c) /\
  forall e, wpm (bind (not_yet r1 s t r m) (fun _ => fail e)) c (not_done c).
Proof.
  split; [|intros e]; (wp_step; eapply wpm_mono; [apply not_yet_spec|]; intros tr [u|e'|w] c' [He Hf]; [wp_step|done..]);
    by unfold not_done; rewrite app_nil_r.
Qed.

Lemma not_created_spec vm (c : Ctx) : wpm (not_created vm) c (not_done c).
Proof.
  unfold not_created. destruct (failed_prerequisite _ _) as [[condition cnd]|]; apply wait_spec.
Qed.

Lemma reconcileNetwork_ok vm m :
  no_address vm = false -> exists network, t_Network (o_Status vm) = Some network /\
    or_else (wt_PrimaryIP4 network) (wt_PrimaryIP6 network) <> "" /\
    reconcileNetwork vm m = Ok (true,
      with_status (fun st => set_mt_Addresses [mkMachineAddress MachineInternalIP (or_else (wt_PrimaryIP4 network) (wt_PrimaryIP6 network))]
        (set_mt_Interfaces (map interface_status (wt_Interfaces network)) st)) m).
Proof.
  unfold no_address, reconcileNetwork. destruct (t_Network (o_Status vm)) as [network|]; [|done]. intros Hn. exists network. split; [done|].
  assert (Ho : or_else (wt_PrimaryIP4 network) (wt_PrimaryIP6 network) <> "").
  { unfold or_else. destruct (String.eqb_spec (wt_PrimaryIP4 network) "") as [Hi|Hi]; [|done]. cbn [andb] in Hn. by apply String.eqb_neq. }
  split; [done|]. rewrite Hn. apply String.eqb_neq in Ho. by rewrite Ho.
Qed.

Lemma follow_vm_spec vm (c : Ctx) :
  wpm (follow_vm vm) c (fun tr r c' => effects tr = [] /\ frame c' = frame c /\ (r = Ok false -> vm_done vm c')).
Proof.
  assert (Hnot : forall (m : MS bool) c0, frame c0 = frame c -> wpm m c0 (not_done c0) ->
    wpm m c0 (fun tr r c' => effects tr = [] /\ frame c' = frame c /\ (r = Ok false -> vm_done vm c'))).
  { intros m c0 Hf Hm. eapply wpm_mono; [exact Hm|]. intros tr r c' (He & Hf' & Hr). split; [done|]. by split; [congruence|]. }
  unfold follow_vm, set_phase. wp_step. apply wpm_modify. cbn beta iota.
  destruct (IsStatusConditionTrue _ _) eqn:Ec; cbn [negb]; [|apply Hnot; [done|apply not_created_spec]].
  wp_step. apply wpm_modify. cbn beta iota.
  destruct (String.eqb_spec (t_PowerState (o_Status vm)) VirtualMachinePowerStateOn) as [Ep|]; cbn [negb]; [|apply Hnot; [done|apply wait_spec]].
  wp_step. apply wpm_modify. cbn beta iota.
  destruct (no_address vm) eqn:En; [apply Hnot; [done|apply wait_spec]|].
  destruct (String.eqb_spec (t_BiosUUID (o_Status vm)) "") as [|Eb]; [apply Hnot; [done|apply wait_spec]|].
  wp_step. apply wpm_modify. cbn beta iota. wp_step. apply wpm_get. cbn beta iota.
  set (c1 := on_machine _ _). do 2 wp_step.
  destruct (reconcileNetwork_ok vm (sm_VSphereMachine c1) En) as (network & Hn & Ho & ->). cbn beta iota zeta. wp_step. apply wpm_modify.
  cbn beta iota zeta delta [negb]. wp_step. apply wpm_modify. cbn beta iota. cond_step. cond_step. cond_step. cond_step. cond_step.
  split; [done|]. split; [done|]. intros _. unfold vm_done. split_and!; try done.
  - exists network. by split_and!.
  - cbn. by rewrite ?string_app_nil_r.
  - match goal with |- provisioned_condition (put_conditions (conditions_Set ?now (the_conditions ?s) ?cnd) ?s) =>
      destruct (the_condition_set now cnd s) as (g & tm & Hset); by eexists end.
Qed.

(** ** The pass *)

Definition new_vm (ns name : string) : VirtualMachine :=
  mkVirtualMachine "" (mkObjectMeta name ns "" None [] [] None) None None empty_spec empty_status.

Lemma one_write_pad c info vm0 tr0 tr tr1 :
  vm_writes tr0 = [] -> vm_writes tr1 = [] -> one_write c info vm0 tr -> one_write c info vm0 (tr0 ++ tr ++ tr1)%list.
Proof.
  intros Hq0 Hq1 Hw. unfold one_write. rewrite !vm_writes_app, Hq0, Hq1, app_nil_r. cbn [app].
  destruct Hw as [Hw|[(vm & e & Hm & Hc & Hn & Hw)|(original & vm & Hm & Hc & Hn & Hw)]]; [by left|right; left|right; right].
  - exists vm, e. split_and!; try done. in_trace.
  - exists original, vm. split_and!; try done. in_trace.
Qed.

(** A VM is only written when its group, if it needs one, has it. *)
Definition written_vm (c : Ctx) (tr : trace) : Prop :=
  vm_writes tr = [] \/
  exists machine ns name vm0 info,
    sm_Machine c = Some machine /\ key_of c machine = Ok (ns, name) /\
    (vm0 = new_vm ns name \/ Call (KubeGet KVirtualMachine ns name) (Ok vm0) ∈ tr) /\
    (if gate_NodeAutoPlacement && is_worker c then exists i, info = Some i /\ grouped c name i tr else info = None) /\
    one_write c info vm0 tr.
Definition normal_post (c : Ctx) (tr : trace) (r : res bool) (c' : Ctx) : Prop :=
  frame c' = frame c /\ written_vm c tr /\ (r = Ok false -> exists vm, answered vm tr /\ vm_done vm c').

Lemma written_vm_pad c tr0 tr tr1 : vm_writes tr0 = [] -> vm_writes tr1 = [] -> written_vm c tr -> written_vm c (tr0 ++ tr ++ tr1)%list.
Proof.
  intros Hq0 Hq1 [Hw|(machine & ns & name & vm0 & info & Hm & Hk & Hv & Hi & Hw)].
  { left. by rewrite !vm_writes_app, Hq0, Hq1, Hw. }
  right. exists machine, ns, name, vm0, info. split; [done|]. split; [done|]. split; [destruct Hv as [?|?]; [by left|right; in_trace]|].
  split; [|by apply one_write_pad]. destruct (_ && _); [|done]. destruct Hi as (i & -> & Hg). exists i. split; [done|]. in_part Hg.
Qed.

Lemma reconcile_normal_spec (c : Ctx) : wpm (reconcile_normal execute) c (normal_post c).
Proof.
  unfold reconcile_normal, set_phase. wp_step. apply wpm_modify. cbn beta iota. set (c1 := on_machine _ _).
  assert (Hf1 : frame c1 = frame c) by done.
  assert (Hq : forall tr r c', effects tr = [] -> frame c' = frame c -> r <> Ok false -> normal_post c tr r c').
  { intros tr r c' He Hf Hr. split; [exact Hf|]. split; [left; by apply quiet_vm_writes|by intros]. }
  wp_step. eapply wpm_mono; [apply vm_key_spec|]. intros tr0 r0 c0 (-> & -> & Hk).
  destruct (sm_Machine c1) as [machine|] eqn:Em; [|subst r0; by apply Hq].
  destruct r0 as [[ns name]|e|w]; [|by apply Hq..]. cbn [fst snd]. symmetry in Hk.
  wp_step. eapply wpm_mono; [apply find_affinity_spec|]. intros tr1 [[u|info]|e|w] c2 (He1 & Hf2 & Hinfo); [wp_step; by apply Hq; rewrite ?app_nil_r|..|by apply Hq|by apply Hq].
  destruct Hinfo as [-> Hinfo]. cbn beta iota.
  wp_step. eapply wpm_mono; [apply get_or_new_spec|]. fold (new_vm ns name).
  intros tr2 [[vm0 there]|e|w] c3 (-> & He2 & Hget); cbn beta iota; [|apply Hq; [by rewrite !effects_app, He1, He2|done|done]..].
  assert (Hvm0 : vm0 = new_vm ns name \/ Call (KubeGet KVirtualMachine ns name) (Ok vm0) ∈ tr2).
  { destruct there; [right; subst tr2; in_list|left; apply Hget]. }
  cbn [fst]. do 2 wp_step. eapply wpm_mono; [apply reconcileVMOperatorVM_spec|]. intros tr3 r3 c4 (-> & Hw & Ha).
  assert (Hwritten : forall tr, effects tr = [] -> written_vm c ([] ++ [] ++ tr1 ++ tr2 ++ tr3 ++ tr)%list).
  { intros tr He. right. exists machine, ns, name, vm0, info. split; [done|]. split; [exact Hk|].
    split; [destruct Hvm0 as [?|?]; [by left|right; in_trace]|]. split.
    - change (is_worker c) with (is_worker c1). destruct (_ && _); [|done]. destruct Hinfo as (i & -> & Hg). exists i. split; [done|].
      assert (Hg' : grouped c name i tr1) by exact Hg. in_part Hg'.
    - assert (Hw' : one_write c info vm0 tr3) by exact Hw. rewrite !app_assoc.
      rewrite <-(app_assoc _ tr3 tr). apply one_write_pad; [|by apply quiet_vm_writes|exact Hw'].
      cbn [app]. by rewrite !vm_writes_app, (quiet_vm_writes tr1), (quiet_vm_writes tr2). }
  destruct r3 as [vm|e|w]; cbn beta iota.
  - cbn [is_ok_with] in Ha. eapply wpm_mono; [apply follow_vm_spec|]. intros tr4 r c5 (He4 & Hf5 & Hd).
    split; [congruence|]. split; [by apply Hwritten|]. intros Hr. exists vm. split; [|by apply Hd]. in_part Ha.
  - wp_step. eapply wpm_mono; [apply not_yet_spec|]. intros tr4 [u|e'|w] c5 (He4 & Hf5); [wp_step|..];
      (split; [congruence|]); (split; [|by intros]); [rewrite app_nil_r; by apply Hwritten|by apply Hwritten..].
  - split; [done|]. split; [|by intros]. rewrite <-(app_nil_r tr3). by apply Hwritten.
Qed.

Lemma vm_ReconcileNormal_spec (c : Ctx) : wpm (ReconcileNormal execute log_V5) c (normal_post c).
Proof.
  unfold ReconcileNormal. apply traced_spec; [apply reconcile_normal_spec|..].
  - intros tr0 tr tr1 r c' Hq0 Hq1 (Hf & Hw & Hd). split; [exact Hf|]. split; [by apply written_vm_pad; [apply quiet_vm_writes..|]|].
    intros Hr. destruct (Hd Hr) as (vm & Ha & Hv). exists vm. split; [in_part Ha|exact Hv].
  - intros tr r w c' (Hf & Hw & _). split; [exact Hf|]. by split; [|intros].
  - intros tr w He. split; [done|]. split; [left; by apply quiet_vm_writes|by intros].
Qed.

(** ** The promises of the service *)

Context (factory_ForCluster : VSphereCluster -> res NP).

Lemma vm_FetchVSphereCluster_spec cluster (c : Ctx) :
  wpm (FetchVSphereCluster cluster) c (fun tr _ c' => effects tr = [] /\ the_rest c' = the_rest c).
Proof. unfold FetchVSphereCluster. wp_step. apply wpm_get. cbn beta iota. do 2 wp_step; [|done..]. by apply wpm_modify. Qed.
Lemma GetHostInfo_spec (c : Ctx) : wpm (GetHostInfo execute) c (fun tr _ c' => effects tr = [] /\ c' = c).
Proof.
  assert (Hr : reads (St:=Ctx) (GetHostInfo execute)).
  { unfold GetHostInfo. apply reads_bind; [apply vm_key_reads|]. intros key. solve_reads. }
  apply Hr.
Qed.
Lemma resolve_provider_spec (c : Ctx) :
  wpm (resolve_provider factory_ForCluster) c (fun tr _ c' => effects tr = [] /\ the_rest c' = the_rest c).
Proof.
  unfold resolve_provider, get_vsphere_cluster. wp_step. wp_step. apply wpm_get. cbn beta iota. wp_step.
  destruct (sm_VSphereCluster c) as [v|]; cbn [or_panic]; [|done]. do 3 wp_step.
  destruct (factory_ForCluster v) as [np|e|w]; cbn beta iota; [| |done].
  - wp_step. apply wpm_modify. cbn beta iota. by wp_step.
  - destruct (error_is e ErrNetworkProviderEmpty); by wp_step.
Qed.
Lemma setVMModifiers_spec (c : Ctx) : wpm setVMModifiers c (fun tr _ c' => effects tr = [] /\ the_rest c' = the_rest c).
Proof.
  unfold setVMModifiers. wp_step. apply wpm_get. cbn beta iota. do 2 wp_step.
  destruct (sm_NetworkProvider c) as [np|]; cbn [or_panic]; [|done]. by apply wpm_modify.
Qed.

#[export] Program Instance supervisor_service : VSphereMachineService Ctx := {|
  supervisorBased := true;
  MachineInterface.FetchVSphereMachine := FetchVSphereMachine;
  MachineInterface.FetchVSphereCluster := FetchVSphereCluster;
  MachineInterface.SyncFailureReason := SyncFailureReason;
  svc_ReconcileDelete := ReconcileDelete execute log_V5;
  svc_ReconcileNormal := ReconcileNormal execute log_V5;
  MachineInterface.GetHostInfo := GetHostInfo execute;
  MachineInterface.GetMachinesInCluster := GetMachinesInCluster;
  ForCluster := resolve_provider factory_ForCluster;
  MachineInterface.setVMModifiers := setVMModifiers;
  vm_not_found := supervisor_not_found
|}.
Next Obligation. intros c c'. apply supervisor_not_found_adorned. Qed.
Next Obligation. intros ns name. unfold FetchVSphereMachine. by repeat wp_step. Qed.
Next Obligation. intros cl c. apply vm_FetchVSphereCluster_spec. Qed.
Next Obligation. intros c. unfold SyncFailureReason. by wp_step. Qed.
Next Obligation.
  intros c. eapply wpm_mono; [apply vm_ReconcileDelete_spec|]. intros tr r c' [Hf Hr]. split; [by apply frame_rest|].
  by destruct r.
Qed.
Next Obligation.
  intros c. eapply wpm_mono; [apply vm_ReconcileNormal_spec|]. intros tr r c' (Hf & _ & Hd). split; [by apply frame_rest|].
  destruct r as [[]|e|w]; try done. destruct (Hd eq_refl) as (vm & _ & Hv).
  cbn. unfold SupervisorMachineContext_GetReady. by destruct Hv as (_ & _ & _ & _ & _ & _ & _ & -> & _).
Qed.
Next Obligation. intros c. apply GetHostInfo_spec. Qed.
Next Obligation. intros c. apply resolve_provider_spec. Qed.
Next Obligation. intros c. apply setVMModifiers_spec. Qed.

(** * Fields of the VM that is written *)

Definition add_claim (name : string) (volumes : list VirtualMachineVolume) : list VirtualMachineVolume :=
  if existsb (is_claim name) volumes then volumes else (volumes ++ [mkVirtualMachineVolume name (Some (name, false))])%list.
Lemma addVolume_eq name s : addVolume name s = set_s_Volumes (add_claim name (s_Volumes s)) s.
Proof. unfold addVolume, add_claim. destruct (existsb _ _); [by destruct s|done]. Qed.

Lemma add_claim_in name volumes : existsb (is_claim name) (add_claim name volumes) = true.
Proof.
  unfold add_claim. destruct (existsb _ volumes) eqn:Ee; [done|]. rewrite existsb_app. cbn. by rewrite String.eqb_refl, orb_true_r.
Qed.
Lemma add_claim_keeps name name' volumes :
  existsb (is_claim name) volumes = true -> existsb (is_claim name) (add_claim name' volumes) = true.
Proof. intros He. unfold add_claim. destruct (existsb (is_claim name') volumes); [done|]. by rewrite existsb_app, He. Qed.
Lemma add_claims_in m volumes l volume :
  (volume ∈ volumes \/ existsb (is_claim (volumeName m volume)) l = true) ->
  existsb (is_claim (volumeName m volume)) (foldl (fun l volume => add_claim (volumeName m volume) l) l volumes) = true.
Proof.
  revert l. induction volumes as [|v volumes IH]; intros l Hin; cbn [foldl].
  { destruct Hin as [Hin|?]; [by apply elem_of_nil in Hin|done]. }
  apply IH. destruct Hin as [[<-|Hin]%elem_of_cons|Hin]; [right; apply add_claim_in|by left|right; by apply add_claim_keeps].
Qed.
Lemma add_claims_same m volumes l :
  (forall volume, volume ∈ volumes -> existsb (is_claim (volumeName m volume)) l = true) ->
  foldl (fun l volume => add_claim (volumeName m volume) l) l volumes = l.
Proof.
  induction volumes as [|v volumes IH]; intros Hall; [done|]. cbn [foldl].
  replace (add_claim (volumeName m v) l) with l by (unfold add_claim; rewrite Hall; [done|left]).
  apply IH. intros volume Hin. apply Hall. by right.
Qed.






Lemma or_else_ne s d : s <> "" -> or_else s d = s.
Proof. intros Hs. unfold or_else. by destruct (String.eqb_spec s ""). Qed.


(** C15: when a pass over a machine of the supervisor mode is done, its VM, as the API
    server says it is, was created, is powered on, and has an address and a BIOS
    UUID; and the machine says so: its provider ID, address, zone and interfaces are
    those of the VM, its phase is Ready, it is provisioned and its condition about
    the VM is true. *)
Theorem supervisor_machine_done (c : Ctx) tr c' :
  runs (ReconcileNormal execute log_V5 c) tr (Ok false, c') -> exists vm, answered vm tr /\ vm_done vm c'.
Proof. intros Hrun. by apply (proj1 (wpm_runs _ _ _) (vm_ReconcileNormal_spec c) _ _ _ Hrun). Qed.


(** * A VM that is as it is to be stays

    The VM in one piece. *)
Definition desired_spec (c : Ctx) (cluster : KubeCluster) (machine : Machine) (mode : string) (minHW : Z)
    (info : option affinityInfo) (created : bool) (s : VirtualMachineSpec) : VirtualMachineSpec :=
  let m := sm_VSphereMachine c in
  let spec := m_Spec m in
  mkVirtualMachineSpec
    (or_else (s_ImageName s) (ms_ImageName spec))
    (or_else (s_ClassName s) (ms_ClassName spec))
    (match info with Some i => if created then s_Affinity s else Some (ai_affinitySpec i) | None => s_Affinity s end)
    (or_else (s_StorageClass s) (ms_StorageClass spec))
    (Some (mkVirtualMachineBootstrapSpec (Some (mkVirtualMachineBootstrapCloudInitSpec
       (Some (mkSecretKeySelector (default "" (mc_BootstrapDataSecretName machine)) "user-data"))))))
    (s_Network s)
    VirtualMachinePowerStateOn mode
    (foldl (fun l volume => add_claim (volumeName m volume) l) (s_Volumes s) (ms_Volumes spec))
    (if sm_ConfigureControlPlaneVMReadinessProbe c && is_control_plane machine && ptr_deref (kc_ControlPlaneInitialized cluster) false
     then Some (Some (mkTCPSocketAction defaultAPIBindPort "")) else s_ReadinessProbe s)
    (Some (mkVirtualMachineReservedSpec
       (or_else (re_ResourcePolicyName (default (mkVirtualMachineReservedSpec "") (s_Reserved s))) (om_Name (kc_ObjectMeta cluster)))))
    (if s_MinHardwareVersion s =? 0 then minHW else s_MinHardwareVersion s)
    (match info with Some i => or_else (s_GroupName s) (ai_vmGroupName i) | None => s_GroupName s end)
    (if created then s_Policies s else getPolicies spec).

Lemma volumes_eq m volumes vm :
  foldl (fun vm volume => on_spec (addVolume (volumeName m volume)) vm) vm volumes =
  on_spec (set_s_Volumes (foldl (fun l volume => add_claim (volumeName m volume) l) (s_Volumes (o_Spec vm)) volumes)) vm.
Proof.
  revert vm. induction volumes as [|volume volumes IH]; intros vm; cbn [foldl].
  { by destruct vm as [? ? ? ? [] ?]. }
  rewrite IH. unfold on_spec at 2 3. rewrite addVolume_eq. by destruct vm as [? ? ? ? [] ?].
Qed.

Lemma desired_vm_eq (c : Ctx) cluster machine mode minHW info vm :
  desired_vm c cluster machine mode minHW info vm =
  mkVirtualMachine (o_GVK vm)
    (set_om_Labels (Some (getVMLabels (om_Name (kc_ObjectMeta cluster)) machine (om_Labels (o_ObjectMeta vm)) info)) (o_ObjectMeta vm))
    (Some (addResourcePolicyAnnotations (om_Name (kc_ObjectMeta cluster)) machine (o_Annotations vm)))
    (o_CreationTimestamp vm)
    (desired_spec c cluster machine mode minHW info (bool_decide (o_CreationTimestamp vm <> None)) (o_Spec vm)) (o_Status vm).
Proof.
  unfold desired_vm. rewrite volumes_eq. destruct vm as [gvk om ann ts [] st]. unfold base_vm, desired_spec.
  set (labels := getVMLabels _ _ _ _). set (annots := addResourcePolicyAnnotations _ _ _).
  unfold with_probe, base_spec, with_affinity, on_create. destruct ts as [ts|], info as [i|].
  all: lazy -[labels annots getPolicies or_else foldl andb Z.eqb add_claim volumeName ptr_deref is_control_plane
              getVMLabels addResourcePolicyAnnotations defaultAPIBindPort].
  all: destruct (andb _ _), (Z.eqb _ _); reflexivity.
Qed.

Lemma or_else_idemp s d : or_else (or_else s d) d = or_else s d.
Proof. unfold or_else. destruct (String.eqb s "") eqn:Es; [by destruct (String.eqb d "")|by rewrite Es]. Qed.

(** The labels and annotations are put over those there are. *)
Lemma union_again (m l : gmap string string) : m ∪ (m ∪ l) = m ∪ l.
Proof. by rewrite (assoc_L (∪)), (idemp_L (∪) m). Qed.
Lemma getVMLabels_union name machine info :
  exists own, forall labels, getVMLabels name machine labels info = own ∪ default ∅ labels.
Proof.
  unfold getVMLabels. destruct (is_control_plane machine); eexists; intros labels; rewrite !insert_union_singleton_l, !(assoc_L (∪)); reflexivity.
Qed.
Lemma addResourcePolicyAnnotations_union name machine :
  exists own, forall annotations, addResourcePolicyAnnotations name machine annotations = own ∪ default ∅ annotations.
Proof.
  unfold addResourcePolicyAnnotations. destruct (is_control_plane machine); eexists; intros l; rewrite !insert_union_singleton_l, !(assoc_L (∪)); reflexivity.
Qed.

(** C24: the desired state of a VM is a fixed point: what a VM is to be, from a VM that
    is as it is to be, is that VM. So a pass that finds the VM as the pass before
    has left it has nothing of its own to patch; only the network provider and the
    owners, which are not part of this, can still differ. *)
Theorem desired_vm_stable (c : Ctx) cluster machine mode minHW info vm :
  let desired := desired_vm c cluster machine mode minHW info in
  desired (desired vm) = desired vm.
Proof.
  cbn zeta. rewrite !(desired_vm_eq c cluster machine mode minHW info). cbn [o_GVK o_ObjectMeta o_Annotations o_CreationTimestamp o_Spec o_Status].
  destruct (getVMLabels_union (om_Name (kc_ObjectMeta cluster)) machine info) as [own Hown].
  destruct (addResourcePolicyAnnotations_union (om_Name (kc_ObjectMeta cluster)) machine) as [own' Hown'].
  f_equal.
  - rewrite !Hown. cbn [om_Labels set_om_Labels default from_option id]. by rewrite union_again.
  - rewrite !Hown'. cbn [default from_option id]. by rewrite union_again.
  - set (created := bool_decide _). unfold desired_spec.
    cbn [s_ImageName s_ClassName s_Affinity s_StorageClass s_Network s_Volumes s_ReadinessProbe s_Reserved s_MinHardwareVersion s_GroupName s_Policies
         default from_option id re_ResourcePolicyName].
    rewrite !or_else_idemp. rewrite (add_claims_same _ _ (foldl _ _ _)) by (intros volume Hin; apply add_claims_in; by left).
    f_equal.
    + by destruct info, created.
    + by destruct (_ && _ && _).
    + destruct (s_MinHardwareVersion (o_Spec vm) =? 0) eqn:Ez; [by destruct (minHW =? 0)|by rewrite Ez].
    + destruct info; [apply or_else_idemp|done].
    + by destruct created.
Qed.
End lemmas.

(** * Examples *)

Import Network RefLibs.

Definition gates_placement : FeatureGates := Build_FeatureGates true false false false false false false.
#[local] Existing Instance gates_placement.

Definition sample_execute (template name : string) : res string := Ok (name +:+ "-vm").
Lemma vm_execute_found t n e : sample_execute t n = Err e -> IsNotFound e = false.
Proof. done. Qed.

Definition sample_cluster : KubeCluster :=
  mkKubeCluster (new_meta "ns" "c") (Some ("VSphereCluster", "c")) (Types.mkAPIEndpoint "" 0) (Some true) [] [] [] None (Some true).
Definition sample_machine : Machine :=
  mkMachine (set_om_Labels (Some {[MachineDeploymentNameLabel := "a"]}) (new_meta "ns" "a-1")) "" (Some "bootstrap") "v1.34.0" "Machine".
Definition sample_vspheremachine : VSphereMachine :=
  vmwarev1.mkVSphereMachine "VSphereMachine" (mkObjectMeta "a-1" "ns" "uid-1" None [] [] None)
    (vmwarev1.mkVSphereMachineSpec "" "image" "class" "storage" [mkVSphereMachineVolume "etcd" ∅ ""]
       (mkVSphereMachineNetworkSpec (mkInterfaceSpec (mkInterfaceNetworkReference "" "" "") 0 []) [] [])
       "trySoft" "" (mkVirtualMachineNamingSpec "") [])
    (vmwarev1.mkVSphereMachineStatus [] None [] "" "" "" [] None).
Definition sample_context : SupervisorMachineContext Provider :=
  mkSupervisorMachineContext (Some sample_cluster) (Some sample_machine)
    (Some (sample_vspherecluster "VPC" (vmwarev1.mkAPIEndpoint "" 0))) sample_vspheremachine
    [dummyNetworkProvider] false (Some dummyNetworkProvider).
Definition sample_group (zone : string) : VirtualMachineGroup :=
  mkVirtualMachineGroup (new_meta "ns" "c") (Some {[zone_annotation "a" := zone]})
    [mkVirtualMachineGroupBootOrderGroup [mkGroupMember "a-1" "VirtualMachine"] None] [].

(** What the VM operator makes of a VM. *)
Definition running (vm : VirtualMachine) : VirtualMachine :=
  mkVirtualMachine (o_GVK vm) (o_ObjectMeta vm) (o_Annotations vm) (Some 1) (o_Spec vm)
    (mkVirtualMachineStatus "node-1" VirtualMachinePowerStateOn [cond VirtualMachineConditionCreated ConditionTrue "Created" ""]
       (Some (mkVirtualMachineNetworkStatus [] "" "fd00::7")) "4231f0a4-d41b-4f3c-8c3d-5a3d2c1b0a99" "zone-1").

(** A world with a group of a zone and, perhaps, the VM. *)
Record MachineWorld := mkMachineWorld { mw_Zone : string; mw_VM : option VirtualMachine }.
Definition mw_get (w : MachineWorld) {T} (k : Kind T) : res T :=
  match k in Kind T return res T with
  | KVirtualMachineGroup => Ok (sample_group (mw_Zone w))
  | KVirtualMachine => match mw_VM w with Some vm => Ok vm | None => Err (ELib APINotFound "not found") end
  | _ => Err (ELib APINotFound "not found")
  end.
Definition mw_made {T} (k : Kind T) : T -> T :=
  match k in Kind T return T -> T with
  | KVirtualMachine => running
  | _ => id
  end.
Definition machine_answer (X : Type) (e : Ev X) (w : MachineWorld) : X * MachineWorld :=
  match e in Ev Y return Y * MachineWorld with
  | KubeGet k _ _ => (mw_get w k, w)
  | KubeCreate k o => (Ok (mw_made k o), w)
  | KubePatch k _ o => (Ok (mw_made k o), w)
  | e => ((ref_answer _ e empty_world).1, w)
  end.
Definition machine_run (w : MachineWorld) : trace * (res bool * SupervisorMachineContext Provider) :=
  exec machine_answer (ReconcileNormal sample_execute false sample_context) w.
Lemma vm_machine_run_runs w :
  runs (ReconcileNormal sample_execute false sample_context) (machine_run w).1 ((machine_run w).2.1, (machine_run w).2.2).
Proof. rewrite <-surjective_pairing. apply exec_runs. Qed.

Definition no_vm : MachineWorld := mkMachineWorld "zone-1" None.
Definition made_vm : VirtualMachine :=
  match vm_writes (machine_run no_vm).1 with [VMCreated vm] => vm | _ => new_vm "" "" end.
Lemma made_result : (machine_run no_vm).2.1 = Ok false /\ vm_writes (machine_run no_vm).1 = [VMCreated made_vm].
Proof. split; vm_compute; reflexivity. Qed.

Lemma supervisor_machine_done_witness :
  exists vm, answered vm (machine_run no_vm).1 /\ vm_done vm (machine_run no_vm).2.2.
Proof.
  apply (supervisor_machine_done sample_execute false sample_context). pose proof (vm_machine_run_runs no_vm) as Hrun.
  destruct made_result as [Hr _]. by rewrite Hr in Hrun.
Defined.

(** The next pass over the VM that was made patches nothing. *)
Example second_pass_quiet : effects (machine_run (mkMachineWorld "zone-1" (Some (running made_vm)))).1 =
  [WritesObject "PersistentVolumeClaim" "a-1-etcd"].
Proof. by vm_compute. Qed.

(** When the zone of the group changes, the label of a VM that is there changes. *)
Definition zone_label (w : vm_write) : option string :=
  match w with VMCreated vm | VMPatched _ vm => om_Labels (o_ObjectMeta vm) ≫= fun l => l !! LabelTopologyZone end.
Example zone_label_changes :
  map zone_label (vm_writes (machine_run no_vm).1) = [Some "zone-1"] /\
  map zone_label (vm_writes (machine_run (mkMachineWorld "zone-2" (Some (running made_vm)))).1) = [Some "zone-2"].
Proof. split; vm_compute; reflexivity. Qed.

End VmopMachine.
