(* ===== verification/ControlPlaneEndpoint.v ===== *)
(** [pkg/services/vmoperator/control_plane_endpoint.go] and [resource_policy.go]: the
    VirtualMachineService with the endpoint of the control plane of a cluster, and
    the resource policy of its VMs, as the services of the controller of
    VSphereClusters. *)
From S2P Require Import Prelude GoStrings GoNet Types VmwareTypes Libs Errors Prog World Conditions MachineUtil Owners.
From S2P Require Import VmopCommon NetworkInterface Network RefLibs.

Module ControlPlaneEndpoint.
Import vmwarev1 vmoprvhub VmopCommon NetworkInterface.
#[local] Open Scope Z_scope.

Section service.
Context `{Libs} {NP : Type} `{!NetworkProvider NP}.
#[warnings="-notation-for-abbreviation"]
Notation MN := (M Ev ClusterContext).
Open Scope go_scope.

Definition controlPlaneVMServiceName (clusterName : string) : string := clusterName.
Definition legacyControlPlaneVMServiceName (clusterName : string) : string := sprintf "%s-control-plane-service" [AS clusterName].

Definition get_cluster : MN KubeCluster := c <- get ;; of_res (or_panic (cc_Cluster c)).
Definition service_ref (s : VirtualMachineService) : string := KRef (om_Namespace (sv_ObjectMeta s)) (om_Name (sv_ObjectMeta s)).

(** * The service that is there *)

(** The first owner that is another VSphereCluster. *)
Fixpoint foreign_owner (refs : list OwnerReference) (uid : string) : option OwnerReference :=
  match refs with
  | [] => None
  | ref :: refs =>
      if String.eqb (or_Kind ref) "VSphereCluster" && negb (String.eqb (or_UID ref) uid) then Some ref else foreign_owner refs uid
  end.

Definition failed_to_get (name : string) (err : error) : error :=
  ENew (sprintf "failed to get VirtualMachineService %s: %v" [AS name; AS (error_string err)]).

(** By its name, or by the one older versions gave it. *)
Definition find_service (ns name legacyName : string) : MN VirtualMachineService :=
  got <- try (call_res (KubeGet KVirtualMachineService ns name)) ;;
  match got with
  | inl vmService => ret vmService
  | inr err =>
      if negb (IsNotFound err) then fail (failed_to_get name err)
      else
        fallback <- try (call_res (KubeGet KVirtualMachineService ns legacyName)) ;;
        match fallback with
        | inl vmService => ret vmService
        | inr fallbackErr => if negb (IsNotFound fallbackErr) then fail (failed_to_get legacyName fallbackErr) else fail err
        end
  end.

Definition getVMControlPlaneService : MN VirtualMachineService :=
  c <- get ;;
  cluster <- get_cluster ;;
  let name := controlPlaneVMServiceName (om_Name (kc_ObjectMeta cluster)) in
  vmService <- find_service (om_Namespace (kc_ObjectMeta cluster)) name (legacyControlPlaneVMServiceName (om_Name (kc_ObjectMeta cluster))) ;;
  match foreign_owner (om_OwnerReferences (sv_ObjectMeta vmService)) (om_UID (v_ObjectMeta (cc_VSphereCluster c))) with
  | Some ref =>
      fail (ENew (sprintf "VirtualMachineService %s exists but is owned by a different VSphereCluster instance %s" [AS name; AS (or_UID ref)]))
  | None =>
      if bool_decide (om_DeletionTimestamp (sv_ObjectMeta vmService) <> None)
      then fail (ENew (sprintf "VirtualMachineService %s exists but is being deleted" [AS name]))
      else ret vmService
  end.

(** * The service that is made *)

Definition getIPFamilyConfig (ipFamily : MachineUtil.ClusterIPFamily) : option string * list string :=
  match ipFamily with
  | MachineUtil.IPv4SingleStack => (Some IPFamilyPolicySingleStack, [IPv4Protocol])
  | MachineUtil.IPv6SingleStack => (Some IPFamilyPolicySingleStack, [IPv6Protocol])
  | MachineUtil.DualStackIPv4Primary => (Some IPFamilyPolicyRequireDualStack, [IPv4Protocol; IPv6Protocol])
  | MachineUtil.DualStackIPv6Primary => (Some IPFamilyPolicyRequireDualStack, [IPv6Protocol; IPv4Protocol])
  end.

Definition no_service_spec : VirtualMachineServiceSpec := mkVirtualMachineServiceSpec "" [] ∅ [] None.
Definition newVirtualMachineService (cluster : KubeCluster) : VirtualMachineService :=
  mkVirtualMachineService
    (mkObjectMeta (controlPlaneVMServiceName (om_Name (kc_ObjectMeta cluster))) (om_Namespace (kc_ObjectMeta cluster)) "" None [] [] None)
    None no_service_spec [].

Definition service_spec (clusterName : string) (ipv6DualStackSupported : bool) (ipFamily : MachineUtil.ClusterIPFamily)
    : VirtualMachineServiceSpec :=
  let '(policy, families) := if ipv6DualStackSupported then getIPFamilyConfig ipFamily else (None, []) in
  mkVirtualMachineServiceSpec VirtualMachineServiceTypeLoadBalancer
    [mkVirtualMachineServicePort controlPlaneServiceAPIServerPortName "TCP" defaultAPIBindPort defaultAPIBindPort]
    (clusterRoleVMLabels clusterName true) families policy.

(** The annotations are put over those there are, and then the field is set to the
    ones of the provider in any case: those there were are lost. *)
Definition createVMControlPlaneService (annotations : gmap string string) (ipv6DualStackSupported : bool)
    (ipFamily : MachineUtil.ClusterIPFamily) : MN VirtualMachineService :=
  c <- get ;;
  cluster <- get_cluster ;;
  let vmService := newVirtualMachineService cluster in
  got <- get_or_new KVirtualMachineService (om_Namespace (sv_ObjectMeta vmService)) (om_Name (sv_ObjectMeta vmService)) vmService ;;
  let '(originalVMService, vmServiceExists) := (got : VirtualMachineService * bool) in
  let vmService := mkVirtualMachineService (sv_ObjectMeta originalVMService) (Some annotations)
    (service_spec (om_Name (kc_ObjectMeta cluster)) ipv6DualStackSupported ipFamily) (sv_Ingress originalVMService) in
  match SetOwnerReference VMwareGroupVersion "VSphereCluster" (v_ObjectMeta (cc_VSphereCluster c)) (sv_ObjectMeta vmService) with
  | inr text =>
      fail (EWrap (sprintf "error setting %s/%s as owner of %s/%s"
                     [AS (cc_Namespace c); AS (cc_Name c); AS (om_Namespace (sv_ObjectMeta vmService)); AS (om_Name (sv_ObjectMeta vmService))])
                  (ELib OtherLibError text))
  | inl refs =>
      let vmService := set_sv_ObjectMeta (set_om_OwnerReferences refs (sv_ObjectMeta vmService)) vmService in
      if negb vmServiceExists then
        wrap (sprintf "failed to create VirtualMachineService %s" [AS (service_ref vmService)])
          (create_or_merge KVirtualMachineService false originalVMService vmService)
      else create_or_merge KVirtualMachineService true originalVMService vmService
  end.

(** * The addresses of the load balancer *)

(** The first address of each family, or one that is none. *)
Fixpoint scan_ingress (ingress : list string) (ipv4Addr ipv6Addr : string) : (string * string) + string :=
  match ingress with
  | [] => inl (ipv4Addr, ipv6Addr)
  | ip :: ingress =>
      if String.eqb ip "" then scan_ingress ingress ipv4Addr ipv6Addr
      else
        match parse_ip ip with
        | None => inr ip
        | Some parsed =>
            match to4 parsed with
            | Some _ => scan_ingress ingress (if String.eqb ipv4Addr "" then ip else ipv4Addr) ipv6Addr
            | None => scan_ingress ingress ipv4Addr (if String.eqb ipv6Addr "" then ip else ipv6Addr)
            end
        end
  end.

Definition getVMServiceVIPs (vmService : VirtualMachineService) : res (string * string) :=
  if negb (String.eqb (ss_Type (sv_Spec vmService)) VirtualMachineServiceTypeLoadBalancer) then
    Err (ENew (sprintf "VirtualMachineService %s does not have load balancer" [AS (service_ref vmService)]))
  else
    match scan_ingress (sv_Ingress vmService) "" "" with
    | inr ip =>
        Err (ENew (sprintf "invalid load balancer ingress IP address %q for VirtualMachineService %s" [AS ip; AS (service_ref vmService)]))
    | inl (ipv4Addr, ipv6Addr) =>
        if String.eqb ipv4Addr "" && String.eqb ipv6Addr "" then
          Err (ENew (sprintf "VirtualMachineService %s LoadBalancer does not have any Ingresses" [AS (service_ref vmService)]))
        else Ok (ipv4Addr, ipv6Addr)
    end.

Definition bool_text (b : bool) : string := if b then "true" else "false".

(** The address of the endpoint, and all that are needed. *)
Definition getAndValidateVIPs (vmService : VirtualMachineService) (topology : MachineUtil.ClusterIPFamily) : res (string * list string) :=
  res_bind (getVMServiceVIPs vmService) (fun vips =>
  let '(ipv4VIP, ipv6VIP) := vips in
  let missing4 := String.eqb ipv4VIP "" in
  let missing6 := String.eqb ipv6VIP "" in
  let both :=
    Err (ENew (sprintf "VirtualMachineService %s must have both IPv4 and IPv6 ingress for dual stack cluster (have IPv4: %v, IPv6: %v)"
                 [AS (service_ref vmService); AS (bool_text (negb missing4)); AS (bool_text (negb missing6))])) in
  match topology with
  | MachineUtil.IPv4SingleStack =>
      if missing4 then Err (ENew (sprintf "VirtualMachineService %s does not yet have IPv4 VIP assigned" [AS (service_ref vmService)]))
      else Ok (ipv4VIP, [ipv4VIP])
  | MachineUtil.IPv6SingleStack =>
      if missing6 then Err (ENew (sprintf "VirtualMachineService %s does not yet have IPv6 VIP assigned" [AS (service_ref vmService)]))
      else Ok (ipv6VIP, [ipv6VIP])
  | MachineUtil.DualStackIPv4Primary => if missing4 || missing6 then both else Ok (ipv4VIP, [ipv4VIP; ipv6VIP])
  | MachineUtil.DualStackIPv6Primary => if missing4 || missing6 then both else Ok (ipv6VIP, [ipv6VIP; ipv4VIP])
  end).

Definition getAPIEndpointFromVIP (vmService : VirtualMachineService) (vip : string) : res APIEndpoint :=
  let found := List.find (fun port => String.eqb (sp_Name port) controlPlaneServiceAPIServerPortName && String.eqb (sp_Protocol port) "TCP")
                 (ss_Ports (sv_Spec vmService)) in
  let servicePort := match found with Some port => sp_Port port | None => -1 end in
  if servicePort =? -1 then
    Err (ENew (sprintf "VirtualMachineService does not have port entry for %q" [AS controlPlaneServiceAPIServerPortName]))
  else Ok (mkAPIEndpoint vip servicePort).

(** * The certificate of the API server *)

Definition kcp_observed (kcp : KubeadmControlPlane) : bool :=
  (kp_ObservedGeneration kcp =? kp_Generation kcp) || existsb (fun g => g =? kp_Generation kcp) (kp_ConditionGenerations kcp).
Definition missing_SAN (certSANs requiredIPs : list string) : option string :=
  List.find (fun ip => negb (existsb (String.eqb ip) certSANs)) requiredIPs.

Definition ensureKCPReadyForControlPlaneEndpoint (requiredIPs : list string) : MN unit :=
  c <- get ;;
  match cc_Cluster c with
  | None => ret tt
  | Some cluster =>
      if zlen requiredIPs <=? 1 then ret tt
      else
        let ns := om_Namespace (kc_ObjectMeta cluster) in
        match kc_ControlPlaneRef cluster with
        | None => fail (ENew (sprintf "ControlPlaneRef is not defined for Cluster %s" [AS (KRef ns (om_Name (kc_ObjectMeta cluster)))]))
        | Some name =>
            kcp <- wrap (sprintf "failed to get KubeadmControlPlane %s" [AS (KRef ns name)]) (call_res (KubeGet KKubeadmControlPlane ns name)) ;;
            let ref := KRef (om_Namespace (kp_ObjectMeta kcp)) (om_Name (kp_ObjectMeta kcp)) in
            if bool_decide (om_DeletionTimestamp (kp_ObjectMeta kcp) <> None) then ret tt
            else if negb (kcp_observed kcp) then
              fail (ENew (sprintf "KubeadmControlPlane %s has not yet observed the current generation %d (observed: %d, no condition has observed the current generation)"
                            [AS ref; AZ (kp_Generation kcp); AZ (kp_ObservedGeneration kcp)]))
            else
              match missing_SAN (kp_CertSANs kcp) requiredIPs with
              | Some ip =>
                  fail (ENew (sprintf "KubeadmControlPlane %s certSANs does not contain %q yet; the runtime extension might not have set the IPs yet"
                                [AS ref; AS ip]))
              | None => ret tt
              end
        end
  end.

(** * The endpoint *)

(** Both conditions about the load balancer say why there is no endpoint. *)
Definition lb_failed (reason1 severity reason : string) (err : error) : MN unit :=
  cond_false LoadBalancerReadyV1Beta1Condition reason1 severity (error_string err) ;;
  cond_set (cond VSphereClusterLoadBalancerReadyCondition ConditionFalse reason (error_string err)).
(** What fails to be made. *)
Definition created {A} (m : MN A) : MN A :=
  r <- try m ;;
  match r with
  | inl a => ret a
  | inr err =>
      lb_failed LoadBalancerCreationFailedV1Beta1Reason SeverityWarning VSphereClusterLoadBalancerNotReadyReason err ;;
      fail err
  end.
(** What has to be waited for. *)
Definition awaited {A} (severity : string) (m : MN A) : MN A :=
  r <- try m ;;
  match r with
  | inl a => ret a
  | inr err =>
      lb_failed WaitingForLoadBalancerIPV1Beta1Reason severity VSphereClusterLoadBalancerWaitingForIPReason err ;;
      fail err
  end.

Definition is_dual_stack (ipFamily : MachineUtil.ClusterIPFamily) : bool :=
  match ipFamily with MachineUtil.DualStackIPv4Primary | MachineUtil.DualStackIPv6Primary => true | _ => false end.
Definition needs_dual_stack (ipFamily : MachineUtil.ClusterIPFamily) : bool :=
  match ipFamily with MachineUtil.IPv4SingleStack => false | _ => true end.

(** The service that is there, or one that is made. *)
Definition get_or_create_service (netProvider : NP) (ipFamily : MachineUtil.ClusterIPFamily) : MN VirtualMachineService :=
  got <- try getVMControlPlaneService ;;
  match got with
  | inl vmService => ret vmService
  | inr err =>
      if negb (IsNotFound err) then created (fail (EWrap "failed to check if VirtualMachineService exists" err))
      else
        annotations <- created (wrap "failed to get provider VirtualMachineService annotations" (GetVMServiceAnnotations netProvider)) ;;
        created (wrap "failed to create VirtualMachineService"
                   (createVMControlPlaneService annotations (SupportsIPv6DualStack netProvider) ipFamily))
  end.

(** The endpoint of a service, unless the certificate has to be waited for. *)
Definition endpoint_of (vmService : VirtualMachineService) (ipFamily : MachineUtil.ClusterIPFamily) : MN (option APIEndpoint) :=
  vips <- awaited SeverityInfo (of_res (getAndValidateVIPs vmService ipFamily)) ;;
  let '(primaryVIP, requiredVIPs) := (vips : string * list string) in
  ready <- (if is_dual_stack ipFamily then try (ensureKCPReadyForControlPlaneEndpoint requiredVIPs) else ret (inl tt)) ;;
  match ready with
  | inr err =>
      lb_failed WaitingForKubeadmControlPlaneSpecReadyV1Beta1Reason SeverityInfo
        VSphereClusterLoadBalancerWaitingForKubeadmControlPlaneSpecReadyReason err ;;
      ret None
  | inl _ =>
      cpEndpoint <- awaited SeverityWarning
        (wrap (sprintf "VirtualMachineService %s does not have an apiserver endpoint" [AS (service_ref vmService)])
           (of_res (getAPIEndpointFromVIP vmService primaryVIP))) ;;
      cond_true LoadBalancerReadyV1Beta1Condition ;;
      cond_set (cond VSphereClusterLoadBalancerReadyCondition ConditionTrue VSphereClusterLoadBalancerReadyReason "") ;;
      ret (Some cpEndpoint)
  end.

Definition ReconcileControlPlaneEndpointService (netProvider : NP) : MN (option APIEndpoint) :=
  if negb (HasLoadBalancer netProvider) then ret None
  else
    c <- get ;;
    ipFamily <- created (of_res (ip_family (cc_Cluster c))) ;;
    if negb (SupportsIPv6DualStack netProvider) && needs_dual_stack ipFamily then
      created (fail (ENew "IPv6 and DualStack require the IPv6DualStack feature gate, VM Operator v1alpha6+, and a network provider that supports it"))
    else
      vmService <- get_or_create_service netProvider ipFamily ;;
      endpoint_of vmService ipFamily.

(** * The resource policy *)

Definition newVirtualMachineSetResourcePolicy (cluster : KubeCluster) : VirtualMachineSetResourcePolicy :=
  mkVirtualMachineSetResourcePolicy
    (mkObjectMeta (om_Name (kc_ObjectMeta cluster)) (om_Namespace (kc_ObjectMeta cluster)) "" None [] [] None)
    (mkVirtualMachineSetResourcePolicySpec "" "" []).

Definition policy_spec (clusterName : string) : VirtualMachineSetResourcePolicySpec :=
  mkVirtualMachineSetResourcePolicySpec clusterName clusterName
    [ControlPlaneVMClusterModuleGroupName; getMachineDeploymentNameForCluster clusterName].

Definition createOrPatchVirtualMachineSetResourcePolicy : MN unit :=
  c <- get ;;
  cluster <- get_cluster ;;
  let vmResourcePolicy := newVirtualMachineSetResourcePolicy cluster in
  got <- get_or_new KResourcePolicy (om_Namespace (rp_ObjectMeta vmResourcePolicy)) (om_Name (rp_ObjectMeta vmResourcePolicy)) vmResourcePolicy ;;
  let '(originalResourcePolicy, vmResourcePolicyExists) := (got : VirtualMachineSetResourcePolicy * bool) in
  match SetOwnerReference VMwareGroupVersion "VSphereCluster" (v_ObjectMeta (cc_VSphereCluster c)) (rp_ObjectMeta originalResourcePolicy) with
  | inr text =>
      fail (EWrap (sprintf "error setting %s/%s as owner of %s/%s"
                     [AS (cc_Namespace c); AS (cc_Name c); AS (om_Namespace (rp_ObjectMeta originalResourcePolicy));
                      AS (om_Name (rp_ObjectMeta originalResourcePolicy))]) (ELib OtherLibError text))
  | inl refs =>
      create_or_merge KResourcePolicy vmResourcePolicyExists originalResourcePolicy
        (mkVirtualMachineSetResourcePolicy (set_om_OwnerReferences refs (rp_ObjectMeta originalResourcePolicy))
           (policy_spec (om_Name (kc_ObjectMeta cluster)))) ;;
      ret tt
  end.

Definition ReconcileResourcePolicy : MN unit :=
  r <- try createOrPatchVirtualMachineSetResourcePolicy ;;
  match r with
  | inl _ => ret tt
  | inr err => fail (ENew (sprintf "failed to create Resource Policy: %s" [AS (stack_text (error_string err))]))
  end.
End service.

(** * Lemmas *)

Section lemmas.
Context `{Libs} {NP : Type} `{!NetworkProvider NP}.
#[warnings="-notation-for-abbreviation"]
Notation MN := (M Ev ClusterContext).
Open Scope go_scope.

(** ** What a program leaves but conditions *)

Definition settles {A} (m : MN A) : Prop := forall c, wpm m c (fun _ _ c' => adorned c c').
Lemma settles_adorns {A} (m : MN A) : adorns m -> settles m.
Proof. intros Hm c. eapply wpm_mono; [apply Hm|]. by intros tr r c' [_ Ha]. Qed.
Lemma settles_reads {A} (m : MN A) : reads m -> settles m.
Proof. intros Hm. apply settles_adorns. by apply adorns_reads. Qed.
Lemma settles_same {A} (m : MN A) : (forall c, wpm m c (fun _ _ c' => c' = c)) -> settles m.
Proof. intros Hm c. eapply wpm_mono; [apply Hm|]. by intros tr r c' ->. Qed.
Lemma settles_bind {A B} (m : MN A) (k : A -> MN B) : settles m -> (forall a, settles (k a)) -> settles (bind m k).
Proof.
  intros Hm Hk c. wp_step. eapply wpm_mono; [apply Hm|]. intros tr [a|e|w] c' Ha; [|done..].
  eapply wpm_mono; [apply Hk|]. intros tr' r c'' Ha'. by etrans.
Qed.
Lemma settles_try {A} (m : MN A) : settles m -> settles (try m).
Proof. intros Hm c. wp_step. eapply wpm_mono; [apply Hm|]. by intros tr [a|e|w] c'. Qed.
Lemma settles_wrap {A} msg (m : MN A) : settles m -> settles (wrap msg m).
Proof. intros Hm c. wp_step. eapply wpm_mono; [apply Hm|]. done. Qed.

Lemma lb_failed_adorns r1 s r e : adorns (lb_failed r1 s r e).
Proof. unfold lb_failed. solve_adorns. Qed.
Lemma settles_created {A} (m : MN A) : settles m -> settles (created m).
Proof.
  intros Hm. unfold created. apply settles_bind; [by apply settles_try|]. intros [a|e]; [apply settles_reads; solve_reads|].
  apply settles_bind; [apply settles_adorns, lb_failed_adorns|]. intros _. apply settles_reads. solve_reads.
Qed.
Lemma settles_awaited {A} s (m : MN A) : settles m -> settles (awaited s m).
Proof.
  intros Hm. unfold awaited. apply settles_bind; [by apply settles_try|]. intros [a|e]; [apply settles_reads; solve_reads|].
  apply settles_bind; [apply settles_adorns, lb_failed_adorns|]. intros _. apply settles_reads. solve_reads.
Qed.

(** What comes of a step that reports its failure: the result is the one of the
    step. *)
Lemma created_spec {A} (m : MN A) c (Q : trace -> A -> ClusterContext -> Prop) :
  wpm m c (fun tr r c' => match r with Ok a => Q tr a c' | _ => True end) ->
  wpm (created m) c (fun tr r c' => match r with Ok a => Q tr a c' | _ => True end).
Proof.
  intros Hm. unfold created. do 2 wp_step. eapply wpm_mono; [exact Hm|].
  intros tr [a|e|w] c' Hr; cbn beta iota; [wp_step; by rewrite app_nil_r| |done].
  apply wpm_adorns_bind; [apply lb_failed_adorns|done..|]. intros. by wp_step.
Qed.
Lemma awaited_spec {A} s (r : res A) c :
  wpm (awaited s (of_res r)) c (fun tr r' c' => match r' with Ok a => r = Ok a /\ tr = [] /\ c' = c | _ => True end).
Proof.
  unfold awaited. do 3 wp_step. destruct r as [a|e|w]; cbn beta iota; [by wp_step| |done].
  apply wpm_adorns_bind; [apply lb_failed_adorns|done..|]. intros. by wp_step.
Qed.

Lemma endpoint_cluster_reads : reads get_cluster.
Proof. unfold get_cluster. solve_reads. Qed.
Lemma find_service_reads ns name legacy : reads (find_service ns name legacy).
Proof.
  unfold find_service. apply reads_bind; [solve_reads|]. intros [s|e]; [solve_reads|]. destruct (IsNotFound e); cbn [negb]; [|solve_reads].
  apply reads_bind; [solve_reads|]. intros [s|e']; [solve_reads|]. destruct (IsNotFound e'); solve_reads.
Qed.
Lemma getVMControlPlaneService_reads : reads getVMControlPlaneService.
Proof.
  unfold getVMControlPlaneService. apply reads_bind; [apply reads_get|]. intros c. apply reads_bind; [apply endpoint_cluster_reads|]. intros cluster.
  cbn zeta. apply reads_bind; [apply find_service_reads|]. intros s. destruct (foreign_owner _ _); [solve_reads|].
  destruct (bool_decide _); solve_reads.
Qed.
Lemma ensureKCP_reads ips : reads (ensureKCPReadyForControlPlaneEndpoint ips).
Proof.
  unfold ensureKCPReadyForControlPlaneEndpoint. apply reads_bind; [apply reads_get|]. intros c. destruct (cc_Cluster c); [|solve_reads].
  destruct (_ <=? _); [solve_reads|]. cbn zeta. destruct (kc_ControlPlaneRef _); [|solve_reads].
  apply reads_bind; [solve_reads|]. intros kcp. destruct (bool_decide _); [solve_reads|]. destruct (negb _); [solve_reads|].
  destruct (missing_SAN _ _); solve_reads.
Qed.

(** ** The service *)

Lemma create_or_merge_same {T} `{EqDecision T} (k : Kind T) there original o (c : ClusterContext) :
  wpm (create_or_merge k there original o) c (fun tr r c' => c' = c /\
    match r with
    | Ok o' => if there then original = o /\ o' = o \/ Call (KubePatch k original o) (Ok o') ∈ tr
               else Call (KubeCreate k o) (Ok o') ∈ tr
    | _ => True
    end).
Proof.
  unfold create_or_merge. destruct there; cbn [negb].
  - destruct (bool_decide (original = o)) eqn:Eo; cbn [negb].
    + apply bool_decide_eq_true in Eo. wp_step. split; [done|by left].
    + do 2 wp_step. apply wpm_call. intros [u|e|w]; cbn beta iota delta [res_wrap]; [|done..].
      wp_step. apply wpm_call. intros [o'|e|w]; cbn beta iota delta [res_wrap]; (split; [done|]); [|done..].
      right. in_list.
  - apply wpm_call. intros [o'|e|w]; (split; [done|]); [|done..]. in_list.
Qed.

(** The names of the service of a cluster: the one it has now, and the one older
    versions gave it, which is only looked up when the first is not found. *)
Definition service_got (cluster : KubeCluster) (name : string) (r : res VirtualMachineService) : call Ev :=
  Call (KubeGet KVirtualMachineService (om_Namespace (kc_ObjectMeta cluster)) name) r.
Definition is_there (cluster : KubeCluster) (svc : VirtualMachineService) (tr : trace) : Prop :=
  let name := om_Name (kc_ObjectMeta cluster) in
  service_got cluster name (Ok svc) ∈ tr \/
  (exists e, service_got cluster name (Err e) ∈ tr /\ IsNotFound e = true) /\
  service_got cluster (legacyControlPlaneVMServiceName name) (Ok svc) ∈ tr.
Definition is_missing (cluster : KubeCluster) (tr : trace) : Prop :=
  let name := om_Name (kc_ObjectMeta cluster) in
  exists e e', service_got cluster name (Err e) ∈ tr /\ IsNotFound e = true /\
    service_got cluster (legacyControlPlaneVMServiceName name) (Err e') ∈ tr /\ IsNotFound e' = true.

(** What [createVMControlPlaneService] sends: the service of a cluster, over the
    object [original] that is new or was read again. *)
Definition service_sent (cluster : KubeCluster) (refs : list OwnerReference) (annotations : gmap string string) (supported : bool)
    (fam : MachineUtil.ClusterIPFamily) (original : VirtualMachineService) : VirtualMachineService :=
  mkVirtualMachineService (set_om_OwnerReferences refs (sv_ObjectMeta original)) (Some annotations)
    (service_spec (om_Name (kc_ObjectMeta cluster)) supported fam) (sv_Ingress original).
Definition is_made (vc : VSphereCluster) (cluster : KubeCluster) (annotations : gmap string string) (supported : bool)
    (fam : MachineUtil.ClusterIPFamily) (svc : VirtualMachineService) (tr : trace) : Prop :=
  exists original refs,
    SetOwnerReference VMwareGroupVersion "VSphereCluster" (v_ObjectMeta vc) (sv_ObjectMeta original) = inl refs /\
    let sent := service_sent cluster refs annotations supported fam original in
    (original = newVirtualMachineService cluster /\ Call (KubeCreate KVirtualMachineService sent) (Ok svc) ∈ tr \/
     service_got cluster (om_Name (kc_ObjectMeta cluster)) (Ok original) ∈ tr /\
       (original = sent /\ svc = sent \/ Call (KubePatch KVirtualMachineService original sent) (Ok svc) ∈ tr)).

(** The service is there and is the cluster's own, or neither name was found and it
    was made in this pass, with the annotations of the network provider. *)
Definition usable (np : NP) (c : ClusterContext) (fam : MachineUtil.ClusterIPFamily) (svc : VirtualMachineService) (tr : trace) : Prop :=
  exists cluster, cc_Cluster c = Some cluster /\
    (is_there cluster svc tr /\ om_DeletionTimestamp (sv_ObjectMeta svc) = None /\
       (forall ref, ref ∈ om_OwnerReferences (sv_ObjectMeta svc) -> or_Kind ref = "VSphereCluster" ->
          or_UID ref = om_UID (v_ObjectMeta (cc_VSphereCluster c))) \/
     is_missing cluster tr /\ exists annotations tr',
       runs (GetVMServiceAnnotations np c) tr' (Ok annotations, c) /\
       is_made (cc_VSphereCluster c) cluster annotations (SupportsIPv6DualStack np) fam svc tr).

#[export] Instance is_there_grows cluster svc : Grows (is_there cluster svc).
Proof.
  intros tr tr' Hs [Hc|[(e & He & Hn) Hc]]; [left; by apply Hs|right].
  split; [exists e; split; [by apply Hs|done]|by apply Hs].
Qed.
#[export] Instance is_missing_grows cluster : Grows (is_missing cluster).
Proof. intros tr tr' Hs (e & e' & He & Hn & He' & Hn'). exists e, e'. split_and!; try done; by apply Hs. Qed.
#[export] Instance is_made_grows vc cluster annotations supported fam svc : Grows (is_made vc cluster annotations supported fam svc).
Proof.
  intros tr tr' Hs (original & refs & Ho & Hr). exists original, refs. split; [done|].
  destruct Hr as [[Hn Hc]|[Hg [?|Hc]]]; [left|right..].
  - split; [done|by apply Hs].
  - split; [by apply Hs|by left].
  - split; [by apply Hs|right; by apply Hs].
Qed.
#[export] Instance usable_grows np c fam svc : Grows (usable np c fam svc).
Proof.
  intros tr tr' Hs (cluster & Hc & Hr). exists cluster. split; [done|]. destruct Hr as [(Ht & Hd & Ho)|(Hm & a & tr0 & Hr & Hs')]; [left|right].
  - split; [by eapply grows|done].
  - split; [by eapply grows|]. exists a, tr0. split; [done|by eapply grows].
Qed.

Lemma foreign_owner_none refs uid :
  foreign_owner refs uid = None -> forall ref, ref ∈ refs -> or_Kind ref = "VSphereCluster" -> or_UID ref = uid.
Proof.
  induction refs as [|ref refs IH]; cbn [foreign_owner]; [by intros _ ref Hin%elem_of_nil|].
  destruct (_ && _) eqn:Eb; [done|]. intros Hf ref' [->|Hin]%elem_of_cons Hk; [|by apply IH].
  rewrite Hk, String.eqb_refl in Eb. cbn [andb] in Eb. apply negb_false_iff in Eb. by apply String.eqb_eq.
Qed.

Lemma find_service_spec cluster (c : ClusterContext) :
  wpm (find_service (om_Namespace (kc_ObjectMeta cluster)) (controlPlaneVMServiceName (om_Name (kc_ObjectMeta cluster)))
         (legacyControlPlaneVMServiceName (om_Name (kc_ObjectMeta cluster)))) c (fun tr r c' => c' = c /\
    match r with
    | Ok svc => is_there cluster svc tr
    | Err e => IsNotFound e = true -> is_missing cluster tr
    | _ => True
    end).
Proof.
  unfold find_service, controlPlaneVMServiceName. do 2 wp_step. apply wpm_call. intros [svc|e|w]; cbn beta iota; [| |done].
  { wp_step. split; [done|]. left. unfold service_got. in_list. }
  destruct (IsNotFound e) eqn:En; cbn [negb]; [|by wp_step].
  do 2 wp_step. apply wpm_call. intros [svc|e'|w]; cbn beta iota; [| |done].
  { wp_step. split; [done|]. right. split; [exists e; split; [|done]|]; unfold service_got; in_list. }
  destruct (IsNotFound e') eqn:En'; cbn [negb]; wp_step; [|done]. split; [done|]. intros _. exists e, e'.
  split_and!; try done; unfold service_got; in_list.
Qed.
Lemma getVMControlPlaneService_spec np fam (c : ClusterContext) :
  wpm getVMControlPlaneService c (fun tr r c' => c' = c /\
    match r with
    | Ok svc => usable np c fam svc tr
    | Err e => IsNotFound e = true -> exists cluster, cc_Cluster c = Some cluster /\ is_missing cluster tr
    | _ => True
    end).
Proof.
  unfold getVMControlPlaneService, get_cluster. wp_step. apply wpm_get. cbn beta iota. do 2 wp_step. apply wpm_get. cbn beta iota. wp_step.
  destruct (cc_Cluster c) as [cluster|] eqn:Ec; cbn [or_panic]; [|done]. cbn zeta. wp_step. eapply wpm_mono; [apply find_service_spec|].
  intros tr [svc|e|w] c' [-> Hr]; cbn beta iota; [| |done].
  - destruct (foreign_owner _ _) as [ref|] eqn:Ef; [by wp_step|]. destruct (bool_decide _) eqn:Ed; [by wp_step|].
    apply bool_decide_eq_false, dec_stable in Ed. wp_step. rewrite !app_nil_r. split; [done|]. exists cluster. split; [done|].
    left. split; [in_part Hr|]. split; [done|]. by apply foreign_owner_none.
  - split; [done|]. intros Hn. exists cluster. split; [done|]. specialize (Hr Hn). in_part Hr.
Qed.

Lemma createVMControlPlaneService_spec annotations supported fam (c : ClusterContext) :
  wpm (createVMControlPlaneService annotations supported fam) c (fun tr r c' => c' = c /\
    match r with
    | Ok svc => exists cluster, cc_Cluster c = Some cluster /\ is_made (cc_VSphereCluster c) cluster annotations supported fam svc tr
    | _ => True
    end).
Proof.
  unfold createVMControlPlaneService, get_cluster. wp_step. apply wpm_get. cbn beta iota. do 2 wp_step. apply wpm_get. cbn beta iota. wp_step.
  destruct (cc_Cluster c) as [cluster|]; cbn [or_panic]; [|done]. cbn zeta. wp_step. eapply wpm_mono; [apply get_or_new_spec|].
  intros tr [[original there]|e|w] c' (-> & _ & Hget); cbn beta iota; [|done..].
  destruct (SetOwnerReference _ _ _ _) as [refs|text] eqn:Eo; [|by wp_step]. cbn [sv_ObjectMeta] in Eo.
  destruct there; cbn [negb].
  - eapply wpm_mono; [apply create_or_merge_same|]. intros tr' [svc|e|w] c' [-> Hr]; (split; [done|]); [|done..].
    exists cluster. split; [done|]. exists original, refs. split; [exact Eo|]. cbn in Hget. subst tr. right.
    split; [unfold service_got; in_list|]. destruct Hr as [Hr|Hr]; [left; exact Hr|right; in_trace].
  - wp_step. eapply wpm_mono; [apply create_or_merge_same|]. intros tr' [svc|e|w] c' [-> Hr]; cbn beta iota delta [res_wrap]; (split; [done|]); [|done..].
    exists cluster. split; [done|]. exists original, refs. split; [exact Eo|]. left. split; [apply Hget|in_trace].
Qed.

Lemma get_or_create_service_spec np fam (c : ClusterContext) :
  wpm (get_or_create_service np fam) c (fun tr r c' => match r with Ok svc => usable np c fam svc tr /\ c' = c | _ => True end).
Proof.
  unfold get_or_create_service. do 2 wp_step. eapply wpm_mono; [apply (getVMControlPlaneService_spec np fam)|].
  intros tr0 [svc|e|w] c0 [-> Hr]; cbn beta iota; [| |done].
  { wp_step. by rewrite app_nil_r. }
  destruct (IsNotFound e) eqn:En; cbn [negb].
  2: { eapply wpm_mono; [apply (created_spec _ _ (fun _ _ _ => False)); by wp_step|]. by intros tr [svc|e'|w] c'. }
  destruct (Hr eq_refl) as (cluster & Hc & Hm).
  wp_step. eapply wpm_mono; [apply (created_spec _ _ (fun tr a c' => c' = c /\ exists tr', runs (GetVMServiceAnnotations np c) tr' (Ok a, c)));
    wp_step; apply wpm_runs|].
  { intros tr r c' Hrun. destruct (proj1 (wpm_runs _ _ _) (GetVMServiceAnnotations_law np c) _ _ _ Hrun) as [_ ->].
    destruct r as [a|e'|w]; [|done..]. split; [done|by exists tr]. }
  intros tr1 [annotations|e'|w] c1 Hc1; cbn beta iota; [|done..]. destruct Hc1 as [-> (tra & Hann)].
  eapply wpm_mono; [apply (created_spec _ _ (fun tr svc c' => usable np c fam svc (tr0 ++ tr1 ++ tr) /\ c' = c)); wp_step;
    eapply wpm_mono; [apply createVMControlPlaneService_spec|]|].
  { intros tr2 [svc|e'|w] c2 [-> Hs]; cbn beta iota delta [res_wrap]; [|done..]. split; [|done].
    destruct Hs as (cluster' & Hc' & Hs). rewrite Hc in Hc'. injection Hc' as <-. exists cluster. split; [done|]. right.
    split; [in_part Hm|]. exists annotations, tra. split; [done|]. in_part Hs. }
  by intros tr2 [svc|e'|w] c2.
Qed.

(** ** The addresses *)

Definition is_vip4 (ip : string) : Prop := exists parsed v4, parse_ip ip = Some parsed /\ to4 parsed = Some v4.
Definition is_vip6 (ip : string) : Prop := exists parsed, parse_ip ip = Some parsed /\ to4 parsed = None.

Lemma scan_ingress_spec ingress a4 a6 b4 b6 :
  scan_ingress ingress a4 a6 = inl (b4, b6) ->
  (b4 = a4 \/ b4 ∈ ingress /\ is_vip4 b4) /\ (b6 = a6 \/ b6 ∈ ingress /\ is_vip6 b6).
Proof.
  revert a4 a6. induction ingress as [|ip ingress IH]; intros a4 a6; cbn [scan_ingress].
  { intros [= <- <-]. split; by left. }
  destruct (String.eqb ip ""); [intros [[?|[? ?]] [?|[? ?]]]%IH; split; (by left) || (right; split; [by right|done])|].
  destruct (parse_ip ip) as [parsed|] eqn:Ep; [|done]. destruct (to4 parsed) as [v4|] eqn:E4; intros [H4 H6]%IH.
  - split; [|destruct H6 as [?|[? ?]]; [by left|right; split; [by right|done]]].
    destruct H4 as [->|[? ?]]; [|right; split; [by right|done]]. destruct (String.eqb a4 ""); [|by left].
    right. split; [left|by exists parsed, v4].
  - split; [destruct H4 as [?|[? ?]]; [by left|right; split; [by right|done]]|].
    destruct H6 as [->|[? ?]]; [|right; split; [by right|done]]. destruct (String.eqb a6 ""); [|by left].
    right. split; [left|by exists parsed].
Qed.

(** The address of an endpoint is one of the load balancer and of the primary family,
    and all that are needed are there. *)
Definition primary_of (fam : MachineUtil.ClusterIPFamily) (ip : string) : Prop :=
  match fam with
  | MachineUtil.IPv4SingleStack | MachineUtil.DualStackIPv4Primary => is_vip4 ip
  | MachineUtil.IPv6SingleStack | MachineUtil.DualStackIPv6Primary => is_vip6 ip
  end.
Definition needed (fam : MachineUtil.ClusterIPFamily) (ip : string) (required : list string) : Prop :=
  if is_dual_stack fam then exists other, required = [ip; other] /\ (is_vip4 ip /\ is_vip6 other \/ is_vip6 ip /\ is_vip4 other)
  else required = [ip].

Lemma getAndValidateVIPs_spec svc fam ip required :
  getAndValidateVIPs svc fam = Ok (ip, required) ->
  ip <> "" /\ ip ∈ sv_Ingress svc /\ primary_of fam ip /\ needed fam ip required /\ (forall x, x ∈ required -> x ∈ sv_Ingress svc).
Proof.
  unfold getAndValidateVIPs, getVMServiceVIPs. destruct (negb _); [done|].
  destruct (scan_ingress (sv_Ingress svc) "" "") as [[v4 v6]|] eqn:Es; [|done]. destruct (_ && _); [done|]. cbn [res_bind].
  apply scan_ingress_spec in Es as [H4 H6].
  assert (G4 : String.eqb v4 "" = false -> v4 <> "" /\ v4 ∈ sv_Ingress svc /\ is_vip4 v4).
  { intros Hn%String.eqb_neq. destruct H4 as [?|[? ?]]; [done|by split_and!]. }
  assert (G6 : String.eqb v6 "" = false -> v6 <> "" /\ v6 ∈ sv_Ingress svc /\ is_vip6 v6).
  { intros Hn%String.eqb_neq. destruct H6 as [?|[? ?]]; [done|by split_and!]. }
  destruct fam; destruct (String.eqb v4 "") eqn:E4; destruct (String.eqb v6 "") eqn:E6; cbn [orb]; try done; intros [= <- <-];
    try (destruct (G4 eq_refl) as (? & ? & ?)); try (destruct (G6 eq_refl) as (? & ? & ?));
    (split; [done|]); (split; [done|]); (split; [done|]); cbn [needed is_dual_stack]; (split; [first [done|eexists; split; [done|]; tauto]|]);
    intros x; rewrite !elem_of_cons, elem_of_nil; intros Hx; destruct_or! Hx; by subst.
Qed.

(** The certificate of the API server is for the addresses, or the control plane
    is on its way out. *)
Definition kcp_ready (cluster : KubeCluster) (required : list string) (tr : trace) : Prop :=
  exists name kcp, kc_ControlPlaneRef cluster = Some name /\
    Call (KubeGet KKubeadmControlPlane (om_Namespace (kc_ObjectMeta cluster)) name) (Ok kcp) ∈ tr /\
    (om_DeletionTimestamp (kp_ObjectMeta kcp) <> None \/
     kcp_observed kcp = true /\ forall ip, ip ∈ required -> ip ∈ kp_CertSANs kcp).
#[export] Instance kcp_ready_grows cluster required : Grows (kcp_ready cluster required).
Proof. intros tr tr' Hs (name & kcp & Hn & Hc & Hr). exists name, kcp. split_and!; try done. by apply Hs. Qed.

Lemma missing_SAN_none certSANs required : missing_SAN certSANs required = None -> forall ip, ip ∈ required -> ip ∈ certSANs.
Proof.
  unfold missing_SAN. intros Hn ip Hin. apply list_elem_of_In in Hin. pose proof (List.find_none _ _ Hn ip Hin) as Hf.
  apply negb_false_iff, existsb_exists in Hf as (x & Hx & He). apply String.eqb_eq in He as <-. by apply list_elem_of_In.
Qed.

Lemma ensureKCP_spec required (c : ClusterContext) :
  wpm (ensureKCPReadyForControlPlaneEndpoint required) c (fun tr r c' => c' = c /\
    match r with
    | Ok _ => forall cluster, cc_Cluster c = Some cluster -> 1 < zlen required -> kcp_ready cluster required tr
    | _ => True
    end).
Proof.
  unfold ensureKCPReadyForControlPlaneEndpoint. wp_step. apply wpm_get. cbn beta iota.
  destruct (cc_Cluster c) as [cluster|]; [|by wp_step]. destruct (Z.leb_spec (zlen required) 1); [wp_step; split; [done|]; intros; lia|].
  cbn zeta. destruct (kc_ControlPlaneRef cluster) as [name|] eqn:Er; [|by wp_step]. do 2 wp_step. apply wpm_call.
  intros [kcp|e|w]; cbn beta iota delta [res_wrap]; [|done..].
  assert (G : forall tr, Call (KubeGet KKubeadmControlPlane (om_Namespace (kc_ObjectMeta cluster)) name) (Ok kcp) ∈ tr ->
    (om_DeletionTimestamp (kp_ObjectMeta kcp) <> None \/ kcp_observed kcp = true /\ forall ip, ip ∈ required -> ip ∈ kp_CertSANs kcp) ->
    forall cluster', Some cluster = Some cluster' -> 1 < zlen required -> kcp_ready cluster' required tr).
  { intros tr Hin Hr cluster' [= <-] _. by exists name, kcp. }
  destruct (bool_decide _) eqn:Ed.
  { apply bool_decide_eq_true in Ed. wp_step. split; [done|]. apply G; [in_list|by left]. }
  destruct (kcp_observed kcp) eqn:Eo; cbn [negb]; [|by wp_step]. destruct (missing_SAN _ _) eqn:Em; wp_step; [done|].
  split; [done|]. apply G; [in_list|right]. split; [done|by apply missing_SAN_none].
Qed.

(** ** The endpoint *)

Definition lb_ready (c : ClusterContext) : Prop := condition_true VSphereClusterLoadBalancerReadyCondition c.

(** What an endpoint is one of. *)
Definition endpoint_from (c : ClusterContext) (svc : VirtualMachineService) (fam : MachineUtil.ClusterIPFamily)
    (endpoint : APIEndpoint) (tr : trace) : Prop :=
  exists required port, getAndValidateVIPs svc fam = Ok (ae_Host endpoint, required) /\
    port ∈ ss_Ports (sv_Spec svc) /\ sp_Name port = controlPlaneServiceAPIServerPortName /\ sp_Protocol port = "TCP" /\
    sp_Port port = ae_Port endpoint /\
    (is_dual_stack fam = true -> forall cluster, cc_Cluster c = Some cluster -> kcp_ready cluster required tr).

Lemma getAPIEndpointFromVIP_spec svc vip endpoint :
  getAPIEndpointFromVIP svc vip = Ok endpoint -> ae_Host endpoint = vip /\
    exists port, port ∈ ss_Ports (sv_Spec svc) /\ sp_Name port = controlPlaneServiceAPIServerPortName /\ sp_Protocol port = "TCP" /\
      sp_Port port = ae_Port endpoint.
Proof.
  unfold getAPIEndpointFromVIP. destruct (List.find _ _) as [port|] eqn:Ef; [|done].
  destruct (sp_Port port =? -1); [done|]. intros [= <-]. split; [done|]. exists port.
  apply List.find_some in Ef as [Hin [Hn Hp]%andb_true_iff]. apply String.eqb_eq in Hn, Hp. split; [by apply list_elem_of_In|by split_and!].
Qed.

Lemma endpoint_of_spec svc fam (c : ClusterContext) :
  wpm (endpoint_of svc fam) c (fun tr r c' =>
    match r with Ok (Some endpoint) => endpoint_from c svc fam endpoint tr /\ lb_ready c' | _ => True end).
Proof.
  unfold endpoint_of. wp_step. eapply wpm_mono; [apply awaited_spec|].
  intros tr1 [[vip required]|e|w] c1 Hr; cbn beta iota; [|done..]. destruct Hr as (Hv & -> & ->).
  assert (Hready : wpm (if is_dual_stack fam then try (ensureKCPReadyForControlPlaneEndpoint required) else ret (inl tt)) c
    (fun tr r c' => c' = c /\ match r with Ok (inl _) =>
       (is_dual_stack fam = true -> forall cluster, cc_Cluster c = Some cluster -> kcp_ready cluster required tr) | _ => True end)).
  { destruct (is_dual_stack fam) eqn:Ed; [|by wp_step]. wp_step. eapply wpm_mono; [apply ensureKCP_spec|].
    intros tr [u|e|w] c' [-> Hk]; (split; [done|]); [|done..]. intros _ cluster Hc. apply Hk; [done|].
    apply getAndValidateVIPs_spec in Hv as (_ & _ & _ & Hn & _). unfold needed in Hn. rewrite Ed in Hn. by destruct Hn as (other & -> & _). }
  wp_step. eapply wpm_mono; [exact Hready|]. intros tr2 [[u|e]|e|w] c2 [-> Hk]; cbn beta iota; [| |done..].
  - wp_step. unfold awaited. do 4 wp_step. destruct (getAPIEndpointFromVIP svc vip) as [endpoint|e|w] eqn:Ee; cbn beta iota delta [res_wrap]; [| |done].
    + apply getAPIEndpointFromVIP_spec in Ee as [<- (port & Hin & Hn & Hp & Hport)].
      wp_step. cond_step. cond_step. cond_step. cond_step. cond_step.
      split; [exists required, port; split_and!; try done; intros Hd cluster Hc; specialize (Hk Hd cluster Hc); in_part Hk|].
      match goal with |- lb_ready (put_conditions (conditions_Set ?now (the_conditions ?s) ?cnd) ?s) =>
        destruct (the_condition_set now cnd s) as (g & tm & Hset); by eexists end.
    + apply wpm_adorns_bind; [apply lb_failed_adorns|done..|]. intros. by wp_step.
  - apply wpm_adorns_bind; [apply lb_failed_adorns|done..|]. intros. by wp_step.
Qed.

Lemma ReconcileControlPlaneEndpointService_spec np (c : ClusterContext) :
  wpm (ReconcileControlPlaneEndpointService np) c (fun tr r c' =>
    match r with
    | Ok (Some endpoint) => exists fam svc, ip_family (cc_Cluster c) = Ok fam /\
        (SupportsIPv6DualStack np = true \/ needs_dual_stack fam = false) /\
        usable np c fam svc tr /\ endpoint_from c svc fam endpoint tr /\ lb_ready c'
    | _ => True
    end).
Proof.
  unfold ReconcileControlPlaneEndpointService. destruct (HasLoadBalancer np); cbn [negb]; [|by wp_step].
  wp_step. apply wpm_get. cbn beta iota. wp_step.
  eapply wpm_mono; [apply (created_spec _ _ (fun tr fam c' => ip_family (cc_Cluster c) = Ok fam /\ tr = [] /\ c' = c)); wp_step|].
  { destruct (ip_family (cc_Cluster c)); by split_and?. }
  intros tr0 [fam|e|w] c0 Hf; cbn beta iota; [|done..]. destruct Hf as (Hf & -> & ->).
  destruct (negb (SupportsIPv6DualStack np) && needs_dual_stack fam) eqn:Es.
  { eapply wpm_mono; [apply (created_spec _ _ (fun _ _ _ => False)); by wp_step|]. by intros tr [[ep|]|e|w] c'. }
  wp_step. eapply wpm_mono; [apply get_or_create_service_spec|].
  intros tr1 [svc|e|w] c1 Hs; cbn beta iota; [|done..]. destruct Hs as [Hs ->].
  eapply wpm_mono; [apply endpoint_of_spec|]. intros tr2 [[endpoint|]|e|w] c2 Hr; [|done..]. destruct Hr as [Hep Hlb].
  exists fam, svc. split; [exact Hf|]. split; [destruct (SupportsIPv6DualStack np); [by left|by right]|].
  split; [in_part Hs|]. split; [|exact Hlb].
  destruct Hep as (required & port & Hv & Hin & Hn & Hp & Hport & Hk). exists required, port. split_and!; try done.
  intros Hd cluster Hc. specialize (Hk Hd cluster Hc). in_part Hk.
Qed.

Lemma ReconcileControlPlaneEndpointService_settles np : settles (ReconcileControlPlaneEndpointService np).
Proof.
  unfold ReconcileControlPlaneEndpointService. destruct (negb _); [apply settles_reads; solve_reads|].
  apply settles_bind; [apply settles_reads, reads_get|]. intros c. apply settles_bind; [apply settles_created, settles_reads; solve_reads|]. intros fam.
  destruct (_ && _); [apply settles_created, settles_reads; solve_reads|]. apply settles_bind.
  - unfold get_or_create_service. apply settles_bind; [apply settles_try, settles_reads, getVMControlPlaneService_reads|].
    intros [svc|e]; [apply settles_reads; solve_reads|]. destruct (negb _); [apply settles_created, settles_reads; solve_reads|].
    apply settles_bind; [apply settles_created, settles_wrap, settles_reads, GetVMServiceAnnotations_law|]. intros annotations.
    apply settles_created, settles_wrap, settles_same. intros c0. eapply wpm_mono; [apply createVMControlPlaneService_spec|]. by intros tr r c' [-> _].
  - intros svc. unfold endpoint_of. apply settles_bind; [apply settles_awaited, settles_reads; solve_reads|]. intros [vip required].
    apply settles_bind; [destruct (is_dual_stack fam); [apply settles_try, settles_reads, ensureKCP_reads|apply settles_reads; solve_reads]|].
    intros [u|e].
    + apply settles_bind; [apply settles_awaited, settles_wrap, settles_reads; solve_reads|]. intros endpoint. apply settles_adorns. solve_adorns.
    + apply settles_adorns. apply adorns_bind; [apply lb_failed_adorns|]. solve_adorns.
Qed.

#[export] Instance control_plane_service : ControlPlaneEndpointService NP.
Proof.
  refine {| NetworkInterface.ReconcileControlPlaneEndpointService := ReconcileControlPlaneEndpointService |}.
  intros np c. apply wpm_runs. intros tr r c' Hrun. split.
  - exact (proj1 (wpm_runs _ _ _) (ReconcileControlPlaneEndpointService_settles np c) _ _ _ Hrun).
  - pose proof (proj1 (wpm_runs _ _ _) (ReconcileControlPlaneEndpointService_spec np c) _ _ _ Hrun) as Hs.
    destruct r as [[endpoint|]|e|w]; [|done..]. destruct Hs as (fam & svc & _ & _ & _ & (required & port & Hv & _) & Hlb).
    split; [|exact Hlb]. by apply getAndValidateVIPs_spec in Hv as [? _].
Defined.

#[export] Instance resource_policy_service : ResourcePolicyService.
Proof.
  refine {| NetworkInterface.ReconcileResourcePolicy := ReconcileResourcePolicy |}.
  intros c. unfold ReconcileResourcePolicy, createOrPatchVirtualMachineSetResourcePolicy, get_cluster.
  do 2 wp_step. wp_step. apply wpm_get. cbn beta iota. do 2 wp_step. apply wpm_get. cbn beta iota. wp_step.
  destruct (cc_Cluster c) as [cluster|]; cbn [or_panic]; [|done]. cbn zeta. wp_step. eapply wpm_mono; [apply get_or_new_spec|].
  intros tr [[original there]|e|w] c' (-> & _ & _); cbn beta iota; [|by wp_step|done].
  destruct (SetOwnerReference _ _ _ _) as [refs|text]; [|by do 2 wp_step].
  wp_step. eapply wpm_mono; [apply create_or_merge_same|]. intros tr' [o|e|w] c' [-> _]; cbn beta iota; by repeat wp_step.
Defined.

(** C19: the endpoint of a control plane behind a load balancer. When the service gives
    one, the condition about the load balancer is true; the host is an address of the
    VirtualMachineService of the cluster, of the family the cluster has first. That
    service was read under the name of the cluster in its namespace, or, that one not
    being found, under the name older versions gave it; it is not being deleted and no
    other VSphereCluster owns it. Or neither name was found, and the service is what
    the API server answered when the service of this cluster, with the
    VSphereCluster as an owner and the annotations of the network provider, was
    created, or written over one that had come to be there. The port is the one of its API server; a
    cluster with a second family has addresses of both, and then the certificate of
    the API server is for both, unless the control plane is being deleted. *)
Theorem endpoint_given np (c : ClusterContext) tr endpoint c' :
  runs (ReconcileControlPlaneEndpointService np c) tr (Ok (Some endpoint), c') ->
  lb_ready c' /\ cluster_view c' = cluster_view c /\
  exists fam svc required port, ip_family (cc_Cluster c) = Ok fam /\
    (SupportsIPv6DualStack np = true \/ needs_dual_stack fam = false) /\
    usable np c fam svc tr /\ ae_Host endpoint ∈ sv_Ingress svc /\ primary_of fam (ae_Host endpoint) /\ needed fam (ae_Host endpoint) required /\
    (forall ip, ip ∈ required -> ip ∈ sv_Ingress svc) /\
    port ∈ ss_Ports (sv_Spec svc) /\ sp_Name port = controlPlaneServiceAPIServerPortName /\ sp_Port port = ae_Port endpoint /\
    (is_dual_stack fam = true -> forall cluster, cc_Cluster c = Some cluster -> kcp_ready cluster required tr).
Proof.
  intros Hrun. pose proof (proj1 (wpm_runs _ _ _) (ReconcileControlPlaneEndpointService_spec np c) _ _ _ Hrun) as (fam & svc & Hf & Hs & Hu & Hep & Hlb).
  split; [exact Hlb|]. split; [apply adorned_view, (proj1 (wpm_runs _ _ _) (ReconcileControlPlaneEndpointService_settles np c) _ _ _ Hrun)|].
  destruct Hep as (required & port & Hv & Hin & Hn & _ & Hport & Hk). apply getAndValidateVIPs_spec in Hv as (_ & Hi & Hp & Hneed & Hall).
  exists fam, svc, required, port. by split_and!.
Qed.
End lemmas.

(** * Examples *)

Import Network RefLibs.

Definition gates_dual_stack : FeatureGates := Build_FeatureGates false false false false true false false.
#[local] Existing Instance gates_dual_stack.

(** A cluster with addresses of both families, and its service. *)
Definition dual_cluster : KubeCluster :=
  mkKubeCluster (new_meta "ns" "c") (Some ("VSphereCluster", "c")) (Types.mkAPIEndpoint "" 0) None []
    ["10.0.0.0/16"; "fd00::/48"] [] (Some "kcp") None.
Definition dual_context : ClusterContext := mkClusterContext (Some dual_cluster) (sample_vspherecluster "VPC" (mkAPIEndpoint "" 0)).
Definition sample_service (ingress : list string) : VirtualMachineService :=
  mkVirtualMachineService (new_meta "ns" "c") (Some {["owner" := "someone"]})
    (service_spec "c" true MachineUtil.DualStackIPv4Primary) ingress.
Definition sample_kcp (certSANs : list string) : KubeadmControlPlane := mkKubeadmControlPlane (new_meta "ns" "kcp") 2 1 [2] certSANs.

Record ServiceWorld := mkServiceWorld { sw_Service : VirtualMachineService; sw_KCP : KubeadmControlPlane }.
Definition sw_get (w : ServiceWorld) {T} (k : Kind T) : res T :=
  match k in Kind T return res T with
  | KVirtualMachineService => Ok (sw_Service w)
  | KKubeadmControlPlane => Ok (sw_KCP w)
  | _ => Err (ELib APINotFound "not found")
  end.
Definition service_answer (X : Type) (e : Ev X) (w : ServiceWorld) : X * ServiceWorld :=
  match e in Ev Y return Y * ServiceWorld with
  | KubeGet k _ _ => (sw_get w k, w)
  | e => ((ref_answer _ e empty_world).1, w)
  end.
Definition endpoint_run (w : ServiceWorld) : trace * (res (option APIEndpoint) * ClusterContext) :=
  exec service_answer (ReconcileControlPlaneEndpointService nsxtVPCNetworkProvider dual_context) w.
Lemma endpoint_run_runs w :
  runs (ReconcileControlPlaneEndpointService nsxtVPCNetworkProvider dual_context) (endpoint_run w).1
    ((endpoint_run w).2.1, (endpoint_run w).2.2).
Proof. rewrite <-surjective_pairing. apply exec_runs. Qed.

Definition vips : list string := ["fd00::5"; "10.1.0.5"].
Definition dual_world : ServiceWorld := mkServiceWorld (sample_service vips) (sample_kcp vips).
Lemma dual_result : (endpoint_run dual_world).2.1 = Ok (Some (mkAPIEndpoint "10.1.0.5" 6443)).
Proof. vm_compute. reflexivity. Qed.
Lemma endpoint_given_witness : lb_ready (endpoint_run dual_world).2.2.
Proof.
  apply (endpoint_given nsxtVPCNetworkProvider dual_context (endpoint_run dual_world).1 (mkAPIEndpoint "10.1.0.5" 6443)).
  pose proof (endpoint_run_runs dual_world) as Hrun. by rewrite dual_result in Hrun.
Defined.

(** Without the second address in the certificate there is no endpoint, and no error. *)
Example waits_for_certificate :
  (endpoint_run (mkServiceWorld (sample_service vips) (sample_kcp ["10.1.0.5"]))).2.1 = Ok None.
Proof. by vm_compute. Qed.

(** A service that is found when one is to be made loses its annotations. *)
Definition service_patches (tr : trace) : list (option (gmap string string)) :=
  omap (fun cl => match cl with
                  | @Call _ X e _ =>
                      match e with
                      | @KubePatch T k _ o =>
                          match k in Kind T return T -> option (option (gmap string string)) with
                          | KVirtualMachineService => fun s => Some (sv_Annotations s)
                          | _ => fun _ => None
                          end o
                      | _ => None
                      end
                  end) tr.
Example annotations_lost :
  service_patches (exec service_answer (createVMControlPlaneService ∅ true MachineUtil.DualStackIPv4Primary dual_context) dual_world).1 =
    [Some ∅].
Proof. by vm_compute. Qed.

End ControlPlaneEndpoint.
