(* ===== verification/VmwareCluster.v ===== *)
(** [controllers/vmware/vspherecluster_reconciler.go]: the VSphereClusters of the
    supervisor mode. *)
From S2P Require Import Prelude Sorting GoStrings Types VmwareTypes Libs Constants Errors Prog World Conditions Identity MachineUtil Owners.
From S2P Require Import VmopCommon NetworkInterface Network ControlPlaneEndpoint RefLibs.
From stdpp Require Import sorting.

Module VmwareCluster.
Import Identity vmwarev1 VmopCommon NetworkInterface.
#[local] Open Scope Z_scope.

Definition apiEndpointPort : Z := 6443.

Section reconciler.
Context `{Libs} `{FeatureGates} {NP : Type} `{!NetworkProvider NP} `{!ControlPlaneEndpointService NP} `{!ResourcePolicyService}.
Context (factory_ForCluster : VSphereCluster -> res NP).
#[warnings="-notation-for-abbreviation"]
Notation MN := (M Ev ClusterContext).
Open Scope go_scope.

Definition get_vc : MN VSphereCluster := gets cc_VSphereCluster.
Definition on_vc (f : VSphereCluster -> VSphereCluster) : MN unit :=
  modify (fun c => set_cc_VSphereCluster (f (cc_VSphereCluster c)) c).
Definition set_endpoint (endpoint : APIEndpoint) (vc : VSphereCluster) : VSphereCluster :=
  set_v_Spec (set_vs_ControlPlaneEndpoint endpoint (v_Spec vc)) vc.
Definition the_endpoint (c : ClusterContext) : APIEndpoint := vs_ControlPlaneEndpoint (v_Spec (cc_VSphereCluster c)).

(** * Failure domains *)

Definition failure_domains_failed (reason message : string) : MN unit :=
  cond_set (cond VSphereClusterFailureDomainsReadyCondition ConditionFalse reason message).
Definition internal_error {A} (err : error) : MN A :=
  failure_domains_failed VSphereClusterFailureDomainsReadyInternalErrorReason "Please check controller logs for errors" ;;
  fail err.

(** [markControlPlaneFailureDomain]: whether a zone is for control planes. *)
Definition markControlPlaneFailureDomain (zone : ObjectMeta) (selector : option LabelSelector) : res bool :=
  match selector with
  | None => Ok true
  | Some selector =>
      if selector_valid selector then Ok (selector_matches selector (default ∅ (om_Labels zone)))
      else Err (ELib OtherLibError (selector_error_text selector))
  end.

(** The zones of a namespace that are not being deleted. *)
Fixpoint zone_domains (zones : list ObjectMeta) (selector : option LabelSelector) : res (list KubeFailureDomain) :=
  match zones with
  | [] => Ok []
  | zone :: zones =>
      if bool_decide (om_DeletionTimestamp zone <> None) then zone_domains zones selector
      else
        res_bind (markControlPlaneFailureDomain zone selector) (fun controlPlane =>
        res_bind (zone_domains zones selector) (fun failureDomains =>
        Ok (mkKubeFailureDomain (om_Name zone) (Some controlPlane) :: failureDomains)))
  end.

Definition discover_domains (vsphereCluster : VSphereCluster) : MN (list KubeFailureDomain) :=
  let namespace := om_Namespace (v_ObjectMeta vsphereCluster) in
  if gate_NamespaceScopedZones then
    got <- try (call_res (KubeList KZone namespace [])) ;;
    match got with
    | inr err => internal_error (EWrap (sprintf "failed to list Zones in namespace %s" [AS namespace]) err)
    | inl zones =>
        domains <- try (of_res (zone_domains zones (vs_Selector (v_Spec vsphereCluster)))) ;;
        match domains with
        | inr err => internal_error err
        | inl domains => ret domains
        end
    end
  else
    got <- try (call_res (KubeList KAvailabilityZone "" [])) ;;
    match got with
    | inr err => internal_error err
    | inl zones => ret (map (fun az => mkKubeFailureDomain (om_Name az) (Some true)) zones)
    end.

Definition for_control_plane (failureDomain : KubeFailureDomain) : bool := ptr_deref (kf_ControlPlane failureDomain) false.

Definition set_failure_domains (failureDomains : list KubeFailureDomain) (vc : VSphereCluster) : VSphereCluster :=
  set_v_Status (set_vt_FailureDomains failureDomains (v_Status vc)) vc.

Definition reconcileFailureDomains : MN unit :=
  vsphereCluster <- get_vc ;;
  failureDomains <- discover_domains vsphereCluster ;;
  if (0 <? zlen failureDomains) && negb (existsb for_control_plane failureDomains) then
    failure_domains_failed VSphereClusterFailureDomainsNotReadyReason
      "No zone matches the specified selector for control plane failure domains" ;;
    fail (ENew (sprintf "no zone is matching the selector %q for control plane failure domains"
                  [AS (FormatLabelSelector (vs_Selector (v_Spec vsphereCluster)))]))
  else
    on_vc (set_failure_domains (sort_by kf_Name failureDomains)) ;;
    cond_set (cond VSphereClusterFailureDomainsReadyCondition ConditionTrue VSphereClusterFailureDomainsReadyReason "").

(** * The endpoint of the control plane *)

(** The endpoint is known: the condition about the load balancer is true. *)
Definition endpoint_known (np : NP) : MN unit :=
  cond_set (cond VSphereClusterLoadBalancerReadyCondition ConditionTrue VSphereClusterLoadBalancerReadyReason "") ;;
  if HasLoadBalancer np then cond_true LoadBalancerReadyV1Beta1Condition else ret tt.

Definition reconcileLoadBalancedEndpoint (np : NP) : MN unit :=
  cpEndpoint <- ReconcileControlPlaneEndpointService np ;;
  match cpEndpoint with
  | None => ret tt
  | Some cpEndpoint => on_vc (set_endpoint cpEndpoint)
  end.

(** The addresses of control plane machines, in the order of the range over the
    machines. *)
Definition machine_endpoint (apiEndpointList : list APIEndpoint) (machine : string * Machine) : MN (list APIEndpoint) :=
  let om := mc_ObjectMeta machine.2 in
  match mc_BootstrapDataSecretName machine.2 with
  | None => ret apiEndpointList
  | Some _ =>
      vsphereMachine <- wrap (sprintf "failed to get VSphereMachine for Machine %s/%s" [AS (om_Namespace om); AS (om_Name om)])
                          (call_res (KubeGet KVSphereMachine (om_Namespace om) (om_Name om))) ;;
      match mt_Addresses (m_Status vsphereMachine) with
      | [] => ret apiEndpointList
      | address :: _ => ret (apiEndpointList ++ [mkAPIEndpoint (ma_Address address) apiEndpointPort])%list
      end
  end.

(** Without an endpoint [pkgerrors.Wrapf] is given the [err] of the list of machines,
    which is nil, and so gives nil. *)
Definition reconcileAPIEndpoints : MN unit :=
  c <- get ;;
  cluster <- of_res (or_panic (cc_Cluster c)) ;;
  let ns := om_Namespace (kc_ObjectMeta cluster) in
  let name := om_Name (kc_ObjectMeta cluster) in
  machines <- wrap (sprintf "failed to get Machines for Cluster %s/%s" [AS ns; AS name]) (call_res (ListControlPlaneMachines ns name)) ;;
  entries <- ask (RangeMap machines) ;;
  apiEndpointList <- fold_m machine_endpoint entries [] ;;
  match apiEndpointList with
  | [] => ret tt
  | endpoint :: _ => on_vc (set_endpoint endpoint)
  end.

Definition cluster_endpoint (cluster : KubeCluster) : APIEndpoint :=
  mkAPIEndpoint (ep_Host (kc_ControlPlaneEndpoint cluster)) (ep_Port (kc_ControlPlaneEndpoint cluster)).

Definition reconcileControlPlaneEndpoint (np : NP) : MN unit :=
  c <- get ;;
  cluster <- of_res (or_panic (cc_Cluster c)) ;;
  if negb (APIEndpoint_IsZero (cluster_endpoint cluster)) then
    on_vc (set_endpoint (cluster_endpoint cluster)) ;;
    endpoint_known np
  else if negb (APIEndpoint_IsZero (the_endpoint c)) then endpoint_known np
  else if HasLoadBalancer np then
    wrap (sprintf "failed to reconcile loadbalanced endpoint for VSphereCluster %s/%s" [AS (cc_Namespace c); AS (cc_Name c)])
      (reconcileLoadBalancedEndpoint np)
  else
    wrap (sprintf "failed to reconcile API endpoints for VSphereCluster %s/%s" [AS (cc_Namespace c); AS (cc_Name c)])
      reconcileAPIEndpoints.

(** * Reconciliation *)

Definition ensure_resource_policy : MN unit :=
  c <- get ;;
  r <- try ReconcileResourcePolicy ;;
  match r with
  | inr err =>
      cond_false ResourcePolicyReadyV1Beta1Condition ResourcePolicyCreationFailedV1Beta1Reason SeverityWarning (error_string err) ;;
      cond_set (cond VSphereClusterResourcePolicyReadyCondition ConditionFalse VSphereClusterResourcePolicyNotReadyReason (error_string err)) ;;
      fail (EWrap (sprintf "failed to configure resource policy for vsphereCluster %s/%s" [AS (cc_Namespace c); AS (cc_Name c)]) err)
  | inl _ =>
      cond_true ResourcePolicyReadyV1Beta1Condition ;;
      cond_set (cond VSphereClusterResourcePolicyReadyCondition ConditionTrue VSphereClusterResourcePolicyReadyReason "")
  end.

Definition set_provisioned (vc : VSphereCluster) : VSphereCluster :=
  set_v_Status (set_vt_Provisioned (Some true) (v_Status vc)) vc.

Definition reconcileNormal (np : NP) : MN unit :=
  c <- get ;;
  wrap (sprintf "unexpected error while discovering failure domains for %s" [AS (cc_Name c)]) reconcileFailureDomains ;;
  ensure_resource_policy ;;
  wrap (sprintf "failed to configure cluster network for VSphereCluster %s/%s" [AS (cc_Namespace c); AS (cc_Name c)])
    (ProvisionClusterNetwork np) ;;
  wrap (sprintf "unexpected error while reconciling control plane endpoint for %s" [AS (cc_Name c)]) (reconcileControlPlaneEndpoint np) ;;
  c <- get ;;
  if APIEndpoint_IsZero (the_endpoint c) then ret tt else on_vc set_provisioned.

(** A condition that is there is to say that the cluster is being deleted. *)
Definition deleting_v1beta1 (t : string) : MN unit :=
  c <- get ;;
  if existsb (fun x => String.eqb (c1_Type x) t) (the_v1beta1 c) then cond_false t DeletingV1Beta1Reason SeverityInfo "" else ret tt.
Definition deleting_condition (ty reason : string) : MN unit := cond_set (cond ty ConditionFalse reason "").

Definition remove_cluster_finalizer (vc : VSphereCluster) : VSphereCluster :=
  set_v_ObjectMeta (without_finalizer ClusterFinalizer (v_ObjectMeta vc)) vc.

Definition reconcileDelete : MN unit :=
  for_each [ResourcePolicyReadyV1Beta1Condition; ClusterNetworkReadyV1Beta1Condition; LoadBalancerReadyV1Beta1Condition] deleting_v1beta1 ;;
  deleting_condition VSphereClusterResourcePolicyReadyCondition VSphereClusterResourcePolicyReadyDeletingReason ;;
  deleting_condition VSphereClusterNetworkReadyCondition VSphereClusterNetworkReadyDeletingReason ;;
  deleting_condition VSphereClusterLoadBalancerReadyCondition VSphereClusterLoadBalancerDeletingReason ;;
  deleting_condition VSphereClusterFailureDomainsReadyCondition VSphereClusterFailureDomainsReadyDeletingReason ;;
  on_vc remove_cluster_finalizer.

Definition patch : MN unit :=
  cond_v1beta1_summary [ResourcePolicyReadyV1Beta1Condition; ClusterNetworkReadyV1Beta1Condition; LoadBalancerReadyV1Beta1Condition] ;;
  cond_summary VSphereClusterReadyCondition
    [VSphereClusterResourcePolicyReadyCondition; VSphereClusterNetworkReadyCondition; VSphereClusterLoadBalancerReadyCondition;
     VSphereClusterFailureDomainsReadyCondition; VSphereClusterProviderServiceAccountsReadyCondition;
     VSphereClusterServiceDiscoveryReadyCondition]
    [VSphereClusterProviderServiceAccountsReadyCondition; VSphereClusterServiceDiscoveryReadyCondition]
    (VSphereClusterNotReadyReason, VSphereClusterReadyUnknownReason, VSphereClusterReadyReason) ;;
  vc <- get_vc ;;
  call_res (KubeHelperPatch KVSphereCluster vc).

Definition patch_on_exit (reterr : option error) : MN (option error) :=
  r <- try patch ;;
  ret (match r with inr err => NewAggregate [reterr; Some err] | inl _ => reterr end).

Definition reconcile_cluster : MN unit :=
  c <- get ;;
  if bool_decide (om_DeletionTimestamp (v_ObjectMeta (cc_VSphereCluster c)) <> None) then reconcileDelete
  else
    match cc_Cluster c with
    | None => ret tt
    | Some _ =>
        r <- try (of_res (factory_ForCluster (cc_VSphereCluster c))) ;;
        match r with
        | inr err =>
            if error_is err ErrNetworkProviderEmpty then ret tt
            else fail (EWrap (sprintf "failed to resolve network provider for VSphereCluster %s" [AS (KRef (cc_Namespace c) (cc_Name c))]) err)
        | inl np => reconcileNormal np
        end
    end.

Definition Reconcile (namespace name : string) : M Ev unit unit :=
  got <- try (call_res (KubeGet KVSphereCluster namespace name)) ;;
  match got with
  | inr err => if IsNotFound err then ret tt else fail err
  | inl vsphereCluster =>
      let om := v_ObjectMeta vsphereCluster in
      cluster <- call_res (GetOwnerCluster om) ;;
      finalizerAdded <- call_res (EnsureFinalizerOf "VSphereCluster" om ClusterFinalizer) ;;
      if (finalizerAdded : bool) then ret tt
      else
        call_res (NewPatchHelperOf "VSphereCluster" om) ;;
        paused <- call_res (EnsurePausedConditionOf cluster "VSphereCluster" om) ;;
        if (paused.1 || paused.2 : bool) then ret tt
        else local (mkClusterContext cluster vsphereCluster) (finally patch_on_exit reconcile_cluster)
  end.

(** * Which VSphereClusters to reconcile when another object changes *)

(** [util.GetVSphereClusterFromVMwareMachine]. *)
Definition GetVSphereClusterFromVMwareMachine (machine : VSphereMachine) : M Ev unit VSphereCluster :=
  let om := m_ObjectMeta machine in
  let clusterName := Owners.label om ClusterNameLabel in
  if String.eqb clusterName "" then
    fail (ENew (sprintf "error getting VSphereCluster name from VSphereMachine %s/%s" [AS (om_Namespace om); AS (om_Name om)]))
  else
    cluster <- call_res (GetCluster (om_Namespace om) clusterName) ;;
    match kc_InfrastructureRefName cluster with
    | None =>
        fail (ENew (sprintf "error getting VSphereCluster name from VSphereMachine %s/%s: Cluster.spec.infrastructureRef not yet set"
                      [AS (om_Namespace om); AS (om_Name om)]))
    | Some name => call_res (KubeGet KVSphereCluster (om_Namespace om) name)
    end.

Definition VSphereMachineToCluster (vsphereMachine : VSphereMachine) : M Ev unit (list (string * string)) :=
  if negb (MachineUtil.IsControlPlaneMachine (om_Labels (m_ObjectMeta vsphereMachine))) then ret []
  else if zlen (mt_Addresses (m_Status vsphereMachine)) =? 0 then ret []
  else
    r <- try (GetVSphereClusterFromVMwareMachine vsphereMachine) ;;
    match r with
    | inr _ => ret []
    | inl vsphereCluster => ret [(om_Namespace (v_ObjectMeta vsphereCluster), om_Name (v_ObjectMeta vsphereCluster))]
    end.

Definition ZoneToVSphereClusters (zone : ObjectMeta) : M Ev unit (list (string * string)) :=
  r <- try (call_res (KubeList KVSphereCluster (om_Namespace zone) [])) ;;
  match r with
  | inr _ => ret []
  | inl clusters => ret (map (fun c => (om_Namespace (v_ObjectMeta c), om_Name (v_ObjectMeta c))) clusters)
  end.

Definition KubeadmControlPlaneToCluster (kcp : ObjectMeta) : M Ev unit (list (string * string)) :=
  let clusterName := Owners.label kcp ClusterNameLabel in
  if String.eqb clusterName "" then ret []
  else
    r <- try (call_res (GetCluster (om_Namespace kcp) clusterName)) ;;
    match r with
    | inr _ => ret []
    | inl cluster =>
        match kc_InfrastructureRef cluster with
        | None => ret []
        | Some (kind, name) =>
            if String.eqb name "" || negb (String.eqb kind "VSphereCluster") then ret [] else ret [(om_Namespace kcp, name)]
        end
    end.
End reconciler.

(** * Lemmas *)

Section lemmas.
Context `{Libs} `{FeatureGates} {NP : Type} `{!NetworkProvider NP} `{!ControlPlaneEndpointService NP} `{!ResourcePolicyService}.
Context (factory_ForCluster : VSphereCluster -> res NP).
#[warnings="-notation-for-abbreviation"]
Notation MN := (M Ev ClusterContext).
Open Scope go_scope.

(** What the endpoint and being provisioned hang on. *)
Definition view (c : ClusterContext) :=
  (cc_Cluster c, v_ObjectMeta (cc_VSphereCluster c), the_endpoint c, vt_Provisioned (v_Status (cc_VSphereCluster c))).
Lemma preserves_view {A} (m : MN A) : adorns m -> preserves view m.
Proof. by apply preserves_adorns. Qed.
Lemma adorned_same_view c c' : adorned c c' -> view c' = view c.
Proof. by apply (adorned_field view). Qed.

Lemma internal_error_adorns {A} err : adorns (internal_error (A:=A) err).
Proof. unfold internal_error, failure_domains_failed. solve_adorns. Qed.
Lemma discover_domains_adorns vc : adorns (discover_domains vc).
Proof.
  unfold discover_domains. cbn zeta. destruct gate_NamespaceScopedZones; (apply adorns_bind; [solve_adorns|]).
  - intros [zones|e]; [|apply internal_error_adorns]. apply adorns_bind; [solve_adorns|]. intros [d|e]; [solve_adorns|apply internal_error_adorns].
  - intros [zones|e]; [solve_adorns|apply internal_error_adorns].
Qed.
Lemma reconcileFailureDomains_view : preserves view reconcileFailureDomains.
Proof.
  unfold reconcileFailureDomains. apply preserves_bind; [apply preserves_gets|]. intros vc.
  apply preserves_bind; [apply preserves_view, discover_domains_adorns|]. intros domains. destruct (_ && _).
  - apply preserves_bind; [apply preserves_view; unfold failure_domains_failed; solve_adorns|]. intros _. apply preserves_fail.
  - apply preserves_bind; [by apply preserves_modify|]. intros _. apply preserves_view. solve_adorns.
Qed.
Lemma ensure_resource_policy_view : preserves view ensure_resource_policy.
Proof.
  unfold ensure_resource_policy. apply preserves_bind; [apply preserves_get|]. intros c. apply preserves_bind.
  - apply preserves_try. intros c0. eapply wpm_mono; [apply ReconcileResourcePolicy_law|]. by intros tr r c' ->.
  - intros [u|e]; apply preserves_view; solve_adorns.
Qed.
Lemma provision_view np : preserves view (ProvisionClusterNetwork np).
Proof. intros c. eapply wpm_mono; [apply ProvisionClusterNetwork_law|]. intros tr r c' [Ha _]. by apply adorned_same_view. Qed.
Lemma endpoint_known_spec np (c : ClusterContext) :
  wpm (endpoint_known np) c (fun tr r c' => adorned c c' /\ (r = Ok tt -> condition_true VSphereClusterLoadBalancerReadyCondition c')).
Proof.
  unfold endpoint_known. cond_step. cond_step.
  match goal with |- context [put_conditions (conditions_Set ?now (the_conditions ?s) ?cnd) ?s] =>
    destruct (the_condition_set now cnd s) as (g & tm & Hset) end.
  destruct (HasLoadBalancer np); cond_step; (split; [|intros _]).
  - etrans; [apply adorned_put|apply adorned_put_v1beta1].
  - eexists. split; [by rewrite the_other_condition|done].
  - apply adorned_put.
  - by eexists.
Qed.

(** ** The endpoint *)

Definition has_endpoint (c : ClusterContext) : Prop := APIEndpoint_IsZero (the_endpoint c) = false.
Definition lb_ready (c : ClusterContext) : Prop := condition_true VSphereClusterLoadBalancerReadyCondition c.

(** An endpoint that the service of the load balancer returned: [tr] has a run of the
    service, for the same cluster, with the endpoint as its result. *)
Definition given_by_service (np : NP) (c : ClusterContext) (endpoint : APIEndpoint) (tr : trace) : Prop :=
  exists c1 before during after c2, view c1 = view c /\ tr = (before ++ during ++ after)%list /\
    runs (ReconcileControlPlaneEndpointService np c1) during (Ok (Some endpoint), c2).
Lemma given_by_service_grows np c c' endpoint tr tr' :
  view c' = view c -> given_by_service np c endpoint tr -> given_by_service np c' endpoint (tr' ++ tr)%list.
Proof.
  intros Hv (c1 & before & during & after & c2 & Hv' & -> & Hrun). exists c1, (tr' ++ before)%list, during, after, c2.
  split; [congruence|]. split; [by rewrite !app_assoc|done].
Qed.

(** A machine of the control plane that an endpoint is the address of. *)
Definition machine_of (endpoint : APIEndpoint) (cluster : KubeCluster) (tr : trace) : Prop :=
  exists machines name machine vsphereMachine address,
    Call (ListControlPlaneMachines (om_Namespace (kc_ObjectMeta cluster)) (om_Name (kc_ObjectMeta cluster))) (Ok machines) ∈ tr /\
    (Forall fair_range tr -> machines !! name = Some machine) /\ mc_BootstrapDataSecretName machine <> None /\
    Call (KubeGet KVSphereMachine (om_Namespace (mc_ObjectMeta machine)) (om_Name (mc_ObjectMeta machine))) (Ok vsphereMachine) ∈ tr /\
    head (mt_Addresses (m_Status vsphereMachine)) = Some address /\ endpoint = mkAPIEndpoint (ma_Address address) apiEndpointPort.
Definition found_in (entries : list (string * Machine)) (endpoint : APIEndpoint) (tr : trace) : Prop :=
  exists entry vsphereMachine address, entry ∈ entries /\ mc_BootstrapDataSecretName entry.2 <> None /\
    Call (KubeGet KVSphereMachine (om_Namespace (mc_ObjectMeta entry.2)) (om_Name (mc_ObjectMeta entry.2))) (Ok vsphereMachine) ∈ tr /\
    head (mt_Addresses (m_Status vsphereMachine)) = Some address /\ endpoint = mkAPIEndpoint (ma_Address address) apiEndpointPort.
#[export] Instance found_in_grows entries endpoint : Grows (found_in entries endpoint).
Proof. intros tr tr' Hs (e & m & a & Hq1 & Hq2 & Hq3 & Hq4 & Hq5). exists e, m, a. split_and!; try done. by apply Hs. Qed.

Lemma machine_endpoint_spec l entry (c : ClusterContext) :
  wpm (machine_endpoint l entry) c (fun tr r c' => effects tr = [] /\ c' = c /\
    match r with Ok l' => l' = l \/ exists endpoint, l' = (l ++ [endpoint])%list /\ found_in [entry] endpoint tr | _ => True end).
Proof.
  unfold machine_endpoint. destruct (mc_BootstrapDataSecretName entry.2) as [b|] eqn:Eb; [|wp_step; split_and!; by try left].
  do 2 wp_step. apply wpm_call. intros [m|e|w]; cbn beta iota delta [res_wrap]; [|done..].
  destruct (mt_Addresses (m_Status m)) as [|address rest] eqn:Ea; wp_step; (split; [done|]); (split; [done|]); [by left|right].
  eexists. split; [done|]. exists entry, m, address. split_and!; [left|by rewrite Eb|in_list|by rewrite Ea|done].
Qed.
Lemma machine_endpoints_spec entries l (c : ClusterContext) :
  wpm (fold_m machine_endpoint entries l) c (fun tr r c' => effects tr = [] /\ c' = c /\
    match r with Ok l' => forall endpoint, endpoint ∈ l' -> endpoint ∈ l \/ found_in entries endpoint tr | _ => True end).
Proof.
  revert l. induction entries as [|entry entries IH]; intros l; cbn [fold_m]; [wp_step; split_and!; by try (intros; left)|].
  wp_step. eapply wpm_mono; [apply machine_endpoint_spec|]. intros tr [l'|e|w] c' (He & -> & Hl); [|done..].
  eapply wpm_mono; [apply IH|]. intros tr' r c' (He' & -> & Hr). split; [by rewrite effects_app, He, He'|]. split; [done|].
  destruct r as [l''|e|w]; [|done..]. intros endpoint Hin. destruct (Hr _ Hin) as [Hin'|Hf].
  - destruct Hl as [->|(ep & -> & Hf)]; [by left|]. apply elem_of_app in Hin' as [?|Heq%list_elem_of_singleton]; [by left|subst ep]. right.
    destruct Hf as (entry' & m & a & Hin' & Hb & Hc & Ha & Hep). apply list_elem_of_singleton in Hin' as ->.
    exists entry, m, a. split_and!; try done; [left|in_trace].
  - right. destruct Hf as (entry' & m & a & Hin' & Hb & Hc & Ha & Hep). exists entry', m, a. split_and!; try done; [by right|in_trace].
Qed.

(** The end of the step about the endpoint: what the cluster says is taken, what is
    there stays, and otherwise there may be a new one. *)
Definition endpoint_post (np : NP) (c : ClusterContext) (tr : trace) (r : res unit) (c' : ClusterContext) : Prop :=
  (cc_Cluster c', v_ObjectMeta (cc_VSphereCluster c'), vt_Provisioned (v_Status (cc_VSphereCluster c'))) =
    (cc_Cluster c, v_ObjectMeta (cc_VSphereCluster c), vt_Provisioned (v_Status (cc_VSphereCluster c))) /\
  match cc_Cluster c with
  | None => the_endpoint c' = the_endpoint c
  | Some cluster =>
      if negb (APIEndpoint_IsZero (cluster_endpoint cluster)) then
        the_endpoint c' = cluster_endpoint cluster /\ (r = Ok tt -> lb_ready c')
      else if negb (APIEndpoint_IsZero (the_endpoint c)) then the_endpoint c' = the_endpoint c /\ (r = Ok tt -> lb_ready c')
      else the_endpoint c' = the_endpoint c \/
        r = Ok tt /\ (if HasLoadBalancer np then lb_ready c' /\ has_endpoint c' /\ given_by_service np c (the_endpoint c') tr else machine_of (the_endpoint c') cluster tr)
  end.

Lemma reconcileAPIEndpoints_spec cluster (c : ClusterContext) : cc_Cluster c = Some cluster ->
  wpm reconcileAPIEndpoints c (fun tr r c' => effects tr = [] /\
    (c' = c \/ r = Ok tt /\ exists endpoint, c' = set_cc_VSphereCluster (set_endpoint endpoint (cc_VSphereCluster c)) c /\ machine_of endpoint cluster tr)).
Proof.
  intros Hc. unfold reconcileAPIEndpoints. wp_step. apply wpm_get. cbn beta iota. do 2 wp_step. rewrite Hc. cbn [or_panic]. cbn zeta.
  do 2 wp_step. apply wpm_call. intros [machines|e|w]; cbn beta iota delta [res_wrap]; [|split; [done|by left]..].
  wp_step. apply wpm_ask. intros entries. cbn beta iota. wp_step. eapply wpm_mono; [apply machine_endpoints_spec|].
  intros tr [l|e|w] c' (He & -> & Hl); cbn beta iota; [|split; [by rewrite ?effects_app, He|by left]..].
  destruct l as [|endpoint l]; [wp_step; split; [by rewrite app_nil_r, ?effects_app, He|by left]|].
  apply wpm_modify. split; [by rewrite app_nil_r, ?effects_app, He|]. right. split; [done|]. exists endpoint. split; [done|].
  destruct (Hl endpoint ltac:(left)) as [Hn|([name machine] & m & a & Hin & Hb & Hg & Ha & ->)]; [by apply elem_of_nil in Hn|].
  exists machines, name, machine, m, a. split; [in_list|]. split.
  { intros Hf. rewrite !Forall_app in Hf. destruct Hf as (_ & _ & _ & Hf & _). apply Forall_cons in Hf as [Hf _]. cbn in Hf.
    rewrite Hf in Hin. by apply elem_of_map_to_list. }
  split; [exact Hb|]. split; [in_part Hg|]. by split.
Qed.

Lemma view_parts c c' : view c' = view c ->
  (cc_Cluster c', v_ObjectMeta (cc_VSphereCluster c'), vt_Provisioned (v_Status (cc_VSphereCluster c'))) =
    (cc_Cluster c, v_ObjectMeta (cc_VSphereCluster c), vt_Provisioned (v_Status (cc_VSphereCluster c))) /\ the_endpoint c' = the_endpoint c.
Proof. unfold view. by intros [= -> -> -> ->]. Qed.

Lemma reconcileControlPlaneEndpoint_spec np (c : ClusterContext) : wpm (reconcileControlPlaneEndpoint np) c (endpoint_post np c).
Proof.
  unfold reconcileControlPlaneEndpoint, endpoint_post. wp_step. apply wpm_get. cbn beta iota. do 2 wp_step.
  destruct (cc_Cluster c) as [cluster|] eqn:Ec; cbn [or_panic]; [|by rewrite ?Ec].
  destruct (APIEndpoint_IsZero (cluster_endpoint cluster)) eqn:Ez; cbn [negb].
  2: { wp_step. apply wpm_modify. cbn beta iota. eapply wpm_mono; [apply endpoint_known_spec|]. intros tr r c' [Ha Hr].
       pose proof (view_parts _ _ (adorned_same_view _ _ Ha)) as [Hv He]. split; [by rewrite Hv, <-Ec|]. split; [by rewrite He|exact Hr]. }
  destruct (APIEndpoint_IsZero (the_endpoint c)) eqn:Ee; cbn [negb].
  2: { eapply wpm_mono; [apply endpoint_known_spec|]. intros tr r c' [Ha Hr].
       pose proof (view_parts _ _ (adorned_same_view _ _ Ha)) as [Hv He]. split; [by rewrite Hv, <-Ec|]. split; [by rewrite He|exact Hr]. }
  destruct (HasLoadBalancer np); wp_step.
  - unfold reconcileLoadBalancedEndpoint. wp_step. apply wpm_runs. intros tr r c' Hrun.
    destruct (proj1 (wpm_runs _ _ _) (ReconcileControlPlaneEndpointService_law np c) _ _ _ Hrun) as [Ha Hr]. pose proof (view_parts _ _ (adorned_same_view _ _ Ha)) as [Hv He].
    destruct r as [[endpoint|]|e|w]; cbn beta iota delta [res_wrap];
      [apply wpm_modify|wp_step|..]; (split; [by rewrite <-Ec, <-Hv|]); [right|by left..].
    split; [done|]. destruct Hr as [Hh Hlb]. split; [exact Hlb|]. split.
    { unfold has_endpoint. cbn. unfold APIEndpoint_IsZero. by apply String.eqb_neq in Hh as ->. }
    cbn [the_endpoint]. exists c, [], tr, [], c'. by rewrite !app_nil_r.
  - eapply wpm_mono; [by apply (reconcileAPIEndpoints_spec cluster)|].
    intros tr r c' (_ & [->|(-> & endpoint & -> & Hm)]); (split; [by rewrite <-Ec|]); [by left|right]. by split.
Qed.

(** ** The pass *)

Definition normal_post (np : NP) (c : ClusterContext) (tr : trace) (r : res unit) (c' : ClusterContext) : Prop :=
  cc_Cluster c' = cc_Cluster c /\ v_ObjectMeta (cc_VSphereCluster c') = v_ObjectMeta (cc_VSphereCluster c) /\
  (the_endpoint c' = the_endpoint c \/ exists cluster, cc_Cluster c = Some cluster /\
     (has_endpoint c -> APIEndpoint_IsZero (cluster_endpoint cluster) = false) /\
     (the_endpoint c' = cluster_endpoint cluster \/ APIEndpoint_IsZero (cluster_endpoint cluster) = true /\
        (if HasLoadBalancer np then lb_ready c' /\ has_endpoint c' /\ given_by_service np c (the_endpoint c') tr else machine_of (the_endpoint c') cluster tr))) /\
  (vt_Provisioned (v_Status (cc_VSphereCluster c')) = vt_Provisioned (v_Status (cc_VSphereCluster c)) \/
   r = Ok tt /\ has_endpoint c' /\ vt_Provisioned (v_Status (cc_VSphereCluster c')) = Some true) /\
  (r = Ok tt -> has_endpoint c' -> vt_Provisioned (v_Status (cc_VSphereCluster c')) = Some true).

Lemma same_view_post np c tr r c' : view c' = view c -> r <> Ok tt -> normal_post np c tr r c'.
Proof.
  intros [[= Hc Hm Hp] He]%view_parts Hr. split; [exact Hc|]. split; [exact Hm|]. split; [by left|]. split; [by left|done].
Qed.
Lemma wpm_preserves_bind {A B} (m : MN A) (k : A -> MN B) c (Q : trace -> res B -> ClusterContext -> Prop) :
  preserves view m ->
  (forall tr e c', view c' = view c -> Q tr (Err e) c') -> (forall tr w c', view c' = view c -> Q tr (Stop w) c') ->
  (forall tr a c', view c' = view c -> wpm (k a) c' (fun tr' => Q (tr ++ tr')%list)) ->
  wpm (bind m k) c Q.
Proof. intros Hm He Hs Hk. wp_step. eapply wpm_mono; [apply Hm|]. intros tr [a|e|w] c' Hv; auto. Qed.

Lemma machine_of_grows endpoint cluster tr tr' :
  machine_of endpoint cluster tr -> machine_of endpoint cluster (tr' ++ tr)%list.
Proof.
  intros (machines & name & machine & m & a & Hq1 & Hq2 & Hq3 & Hq4 & Hq5 & Hq6). exists machines, name, machine, m, a.
  split_and!; try done; [in_trace| |in_trace]. intros [_ Hf]%Forall_app. by apply Hq2.
Qed.

Lemma cluster_Normal_spec np (c : ClusterContext) : wpm (reconcileNormal np) c (normal_post np c).
Proof.
  unfold reconcileNormal. wp_step. apply wpm_get. cbn beta iota.
  apply wpm_preserves_bind; [apply preserves_wrap, reconcileFailureDomains_view|by intros; apply same_view_post..|]. intros tr1 _ c1 Hv1.
  apply wpm_preserves_bind; [apply ensure_resource_policy_view|intros; apply same_view_post; congruence..|]. intros tr2 _ c2 Hv2.
  apply wpm_preserves_bind; [apply preserves_wrap, provision_view|intros; apply same_view_post; congruence..|]. intros tr3 _ c3 Hv3.
  assert (Hv : view c3 = view c) by congruence. clear Hv1 Hv2 Hv3.
  pose proof Hv as Hview. apply view_parts in Hv as [[= Hc Hm Hp] He].
  wp_step. wp_step. eapply wpm_mono; [apply reconcileControlPlaneEndpoint_spec|]. intros tr4 r4 c4 [[= Hc4 Hm4 Hp4] Hpost].
  assert (Hend : forall tr, the_endpoint c4 = the_endpoint c \/ exists cluster, cc_Cluster c = Some cluster /\
     (has_endpoint c -> APIEndpoint_IsZero (cluster_endpoint cluster) = false) /\
     (the_endpoint c4 = cluster_endpoint cluster \/ APIEndpoint_IsZero (cluster_endpoint cluster) = true /\
        (if HasLoadBalancer np then lb_ready c4 /\ has_endpoint c4 /\ given_by_service np c (the_endpoint c4) (tr ++ tr4) else machine_of (the_endpoint c4) cluster (tr ++ tr4)))).
  { intros tr. rewrite Hc in Hpost. destruct (cc_Cluster c) as [cluster|]; [|left; congruence].
    destruct (APIEndpoint_IsZero (cluster_endpoint cluster)) eqn:Ez; cbn [negb] in Hpost.
    - destruct (APIEndpoint_IsZero (the_endpoint c3)) eqn:E3; cbn [negb] in Hpost; [|left; destruct Hpost; congruence].
      destruct Hpost as [?|[_ Hnew]]; [left; congruence|right]. exists cluster. split; [done|]. split.
      + unfold has_endpoint. rewrite <-He. congruence.
      + right. split; [done|]. destruct (HasLoadBalancer np); [|by apply machine_of_grows].
        destruct Hnew as (? & ? & Hg). split_and!; try done. by eapply given_by_service_grows.
    - right. exists cluster. split; [done|]. split; [done|]. left. by destruct Hpost. }
  assert (Hsame : forall tr r, r <> Ok tt -> normal_post np c (tr ++ tr4)%list r c4).
  { intros tr r Hr. split; [congruence|]. split; [congruence|]. split; [apply Hend|]. split; [left; congruence|done]. }
  destruct r4 as [u|e|w]; cbn beta iota delta [res_wrap];
    [|rewrite !app_assoc; by apply Hsame|rewrite !app_assoc; by apply Hsame].
  wp_step. apply wpm_get. cbn beta iota. destruct (APIEndpoint_IsZero (the_endpoint c4)) eqn:E4.
  - wp_step. rewrite ?app_nil_r. cbn [app]. rewrite !app_assoc. split; [congruence|]. split; [congruence|]. split; [apply Hend|].
    split; [left; congruence|]. unfold has_endpoint. congruence.
  - apply wpm_modify. rewrite ?app_nil_r. cbn [app]. rewrite !app_assoc. split; [exact (eq_trans Hc4 Hc)|]. split; [exact (eq_trans Hm4 Hm)|].
    split; [apply Hend|]. split; [by right|done].
Qed.

(** ** Failure domains *)

Definition zone_domain (selector : option LabelSelector) (zone : ObjectMeta) : KubeFailureDomain :=
  mkKubeFailureDomain (om_Name zone)
    (Some (match selector with None => true | Some s => selector_matches s (default ∅ (om_Labels zone)) end)).
Definition is_live (zone : ObjectMeta) : bool := bool_decide (om_DeletionTimestamp zone = None).


(** The zones the API server lists, and the failure domains they are. *)
Definition discovered (vc : VSphereCluster) (l : list KubeFailureDomain) (tr : trace) : Prop :=
  if gate_NamespaceScopedZones then
    exists zones, Call (KubeList KZone (om_Namespace (v_ObjectMeta vc)) []) (Ok zones) ∈ tr /\
      l = map (zone_domain (vs_Selector (v_Spec vc))) (List.filter is_live zones)
  else
    exists zones, Call (KubeList KAvailabilityZone "" []) (Ok zones) ∈ tr /\ l = map (zone_domain None) zones.
#[export] Instance discovered_grows vc l : Grows (discovered vc l).
Proof.
  intros tr tr' Hs. unfold discovered. destruct gate_NamespaceScopedZones; intros (zones & Hc & Hl); exists zones; (split; [by apply Hs|done]).
Qed.



(** C18: the endpoint of a cluster of the supervisor mode and its being provisioned. An
    endpoint that is there stays, unless the Cluster has another one; a new one is
    the one of the Cluster, or, with a load balancer, the very one, host and port, that
    the service of the load balancer returned in this pass for this cluster, and the
    condition about the load balancer is then true; or, without one, the first address
    of a machine of the control plane with bootstrap data, with the port 6443. The
    cluster becomes provisioned only in a pass without error after which it has an
    endpoint, and is provisioned after each such pass. The one assumption is that a
    range over a Go map gives the entries of that map. *)
Theorem supervisor_cluster_endpoint (np : NP) (c : ClusterContext) tr r c' :
  runs (reconcileNormal np c) tr (r, c') -> Forall fair_range tr ->
  (has_endpoint c -> the_endpoint c' = the_endpoint c \/
     exists cluster, cc_Cluster c = Some cluster /\ APIEndpoint_IsZero (cluster_endpoint cluster) = false /\ the_endpoint c' = cluster_endpoint cluster) /\
  (the_endpoint c' <> the_endpoint c -> exists cluster, cc_Cluster c = Some cluster /\
     (the_endpoint c' = cluster_endpoint cluster \/ (HasLoadBalancer np = true /\ lb_ready c' /\ has_endpoint c' /\ given_by_service np c (the_endpoint c') tr) \/
      exists machines name machine vsphereMachine address, HasLoadBalancer np = false /\
        Call (ListControlPlaneMachines (om_Namespace (kc_ObjectMeta cluster)) (om_Name (kc_ObjectMeta cluster))) (Ok machines) ∈ tr /\
        machines !! name = Some machine /\ mc_BootstrapDataSecretName machine <> None /\
        Call (KubeGet KVSphereMachine (om_Namespace (mc_ObjectMeta machine)) (om_Name (mc_ObjectMeta machine))) (Ok vsphereMachine) ∈ tr /\
        head (mt_Addresses (m_Status vsphereMachine)) = Some address /\
        the_endpoint c' = mkAPIEndpoint (ma_Address address) apiEndpointPort)) /\
  let provisioned c := vt_Provisioned (v_Status (cc_VSphereCluster c)) in
  (provisioned c' <> provisioned c -> r = Ok tt /\ has_endpoint c' /\ provisioned c' = Some true) /\
  (r = Ok tt -> has_endpoint c' -> provisioned c' = Some true).
Proof.
  intros Hrun Hfair. destruct (proj1 (wpm_runs _ _ _) (cluster_Normal_spec np c) _ _ _ Hrun) as (_ & _ & He & Hp & Hd).
  split; [|split; [|split; [|exact Hd]]].
  - intros Hh. destruct He as [?|(cluster & Hc & Hz & Hn)]; [by left|right]. exists cluster. specialize (Hz Hh). split; [done|]. split; [done|].
    destruct Hn as [?|[Hz' _]]; [done|congruence].
  - intros Hne. destruct He as [?|(cluster & Hc & _ & Hn)]; [done|]. exists cluster. split; [done|].
    destruct Hn as [?|[_ Hn]]; [by left|right]. destruct (HasLoadBalancer np); [by left; destruct Hn|right].
    destruct Hn as (machines & name & machine & m & a & Hq1 & Hq2 & Hq3 & Hq4 & Hq5 & Hq6). exists machines, name, machine, m, a. split_and!; auto.
  - intros Hne. destruct Hp as [?|?]; [done|by destruct_and!].
Qed.

(** ** Deletion *)

Lemma deleting_adorns t : adorns (deleting_v1beta1 t).
Proof. unfold deleting_v1beta1. apply adorns_bind; [solve_adorns|]. intros c. destruct (existsb _ _); solve_adorns. Qed.
Lemma cluster_Delete_spec (c : ClusterContext) :
  wpm reconcileDelete c (fun tr r c' => effects tr = [] /\ r = Ok tt /\
    v_ObjectMeta (cc_VSphereCluster c') = without_finalizer ClusterFinalizer (v_ObjectMeta (cc_VSphereCluster c))).
Proof.
  assert (Hd : forall (m : MN unit) k, (forall c0, wpm m c0 (fun tr r c' => effects tr = [] /\ r = Ok tt /\ adorned c0 c')) ->
    (forall c0, wpm k c0 (fun tr r c' => effects tr = [] /\ r = Ok tt /\
       v_ObjectMeta (cc_VSphereCluster c') = without_finalizer ClusterFinalizer (v_ObjectMeta (cc_VSphereCluster c0)))) ->
    forall c0, wpm (bind m (fun _ => k)) c0 (fun tr r c' => effects tr = [] /\ r = Ok tt /\
       v_ObjectMeta (cc_VSphereCluster c') = without_finalizer ClusterFinalizer (v_ObjectMeta (cc_VSphereCluster c0)))).
  { intros m k Hm Hk c0. wp_step. eapply wpm_mono; [apply Hm|]. intros tr r c1 (He & -> & Ha). eapply wpm_mono; [apply Hk|].
    intros tr' r c2 (He' & -> & ->). split; [by rewrite effects_app, He, He'|]. split; [done|]. f_equal.
    by apply (adorned_field (fun c => v_ObjectMeta (cc_VSphereCluster c))). }
  assert (Hv1 : forall t c0, wpm (deleting_v1beta1 t) c0 (fun tr r c' => effects tr = [] /\ r = Ok tt /\ adorned c0 c')).
  { intros t c0. unfold deleting_v1beta1. wp_step. apply wpm_get. cbn beta iota. destruct (existsb _ _); cond_step; (split; [done|]); (split; [done|]);
      [apply adorned_put_v1beta1|done]. }
  unfold reconcileDelete. apply Hd.
  - intros c0. cbn [for_each].
    assert (Hs : forall t (k : MN unit) c0, (forall c1, wpm k c1 (fun tr r c' => effects tr = [] /\ r = Ok tt /\ adorned c1 c')) ->
      wpm (bind (deleting_v1beta1 t) (fun _ => k)) c0 (fun tr r c' => effects tr = [] /\ r = Ok tt /\ adorned c0 c')).
    { intros t k c1 Hk. wp_step. eapply wpm_mono; [apply Hv1|]. intros tr r c2 (He & -> & Ha). eapply wpm_mono; [apply Hk|].
      intros tr' r c3 (He' & -> & Ha'). split; [by rewrite effects_app, He, He'|]. split; [done|by etrans]. }
    apply Hs. intros c1. apply Hs. intros c2. apply Hs. intros c3. by wp_step.
  - unfold deleting_condition. do 4 (apply Hd; [intros; cond_step; split_and!; try done; apply adorned_put|]).
    intros c0. unfold on_vc. apply wpm_modify. by split_and!.
Qed.

(** the end of a VSphereCluster of the supervisor mode. A VSphereCluster that is
    being deleted loses the finalizer of the controller in the pass itself, without
    an error and with no effect on anything else; in every other pass, whatever comes
    of it, its metadata and so its finalizers stay. *)
Theorem supervisor_cluster_deletion (c : ClusterContext) tr r c' :
  runs (reconcile_cluster factory_ForCluster c) tr (r, c') ->
  let meta c := v_ObjectMeta (cc_VSphereCluster c) in
  match om_DeletionTimestamp (meta c) with
  | None => meta c' = meta c
  | Some _ => r = Ok tt /\ effects tr = [] /\ meta c' = without_finalizer ClusterFinalizer (meta c)
  end.
Proof.
  cbn zeta. revert tr r c'. apply (proj1 (wpm_runs _ _ (fun tr r c' => _))). unfold reconcile_cluster. wp_step. apply wpm_get. cbn beta iota.
  destruct (om_DeletionTimestamp (v_ObjectMeta (cc_VSphereCluster c))) as [t|].
  2: { rewrite bool_decide_eq_false_2 by tauto.
    destruct (cc_Cluster c); [|by wp_step]. do 3 wp_step. destruct (factory_ForCluster _) as [np|e|w]; cbn beta iota; [| |done].
    + eapply wpm_mono; [apply cluster_Normal_spec|]. by intros tr r c' (_ & -> & _).
    + destruct (error_is e ErrNetworkProviderEmpty); by wp_step. }
  rewrite bool_decide_eq_true_2 by done. eapply wpm_mono; [apply cluster_Delete_spec|]. by intros tr r c' (He & -> & Hm).
Qed.
End lemmas.

(** * Examples *)

Import Network ControlPlaneEndpoint RefLibs.

Definition gates_zones : FeatureGates := Build_FeatureGates false true false false false false false.
#[local] Existing Instance gates_zones.

Definition cluster_of (endpoint : Types.APIEndpoint) : KubeCluster :=
  mkKubeCluster (new_meta "ns" "c") (Some ("VSphereCluster", "c")) endpoint None [] ["10.0.0.0/16"] [] None None.
Definition cluster_context (deletion : Time) : ClusterContext :=
  mkClusterContext (Some (cluster_of (Types.mkAPIEndpoint "" 0)))
    (mkVSphereCluster "VSphereCluster" (mkObjectMeta "c" "ns" "uid-c" None [] [ClusterFinalizer] deletion)
       (mkVSphereClusterSpec (mkAPIEndpoint "" 0) (mkNetwork None "") None) (mkVSphereClusterStatus [] None [] None)).
Definition control_plane_machine : Machine := mkMachine (new_meta "ns" "cp-1") "" (Some "bootstrap") "v1.34.0" "Machine".
Definition control_plane_vspheremachine : VSphereMachine :=
  mkVSphereMachine "VSphereMachine" (new_meta "ns" "cp-1")
    (mkVSphereMachineSpec "" "image" "class" "" []
       (mkVSphereMachineNetworkSpec (mkInterfaceSpec (mkInterfaceNetworkReference "" "" "") 0 []) [] [])
       "" "" (mkVirtualMachineNamingSpec "") [])
    (mkVSphereMachineStatus [] None [mkMachineAddress "InternalIP" "10.0.0.7"] "" "" "" [] None).

(** A world with control plane machines and three zones, of which one is being
    deleted. *)
Definition the_zones : list ObjectMeta :=
  [new_meta "ns" "zone-2"; mkObjectMeta "zone-3" "ns" "" None [] [] (Some 1); new_meta "ns" "zone-1"].
Definition cw_get {T} (k : Kind T) : res T :=
  match k in Kind T return res T with
  | KVSphereMachine => Ok control_plane_vspheremachine
  | _ => Err (ELib APINotFound "not found")
  end.
Definition cw_list {T} (k : Kind T) : res (list T) :=
  match k in Kind T return res (list T) with
  | KZone => Ok the_zones
  | _ => Ok []
  end.
Definition cluster_answer (X : Type) (e : Ev X) (w : gmap string Machine) : X * gmap string Machine :=
  match e in Ev Y return Y * gmap string Machine with
  | KubeGet k _ _ => (cw_get k, w)
  | KubeList k _ _ => (cw_list k, w)
  | ListControlPlaneMachines _ _ => (Ok w, w)
  | e => ((ref_answer _ e empty_world).1, w)
  end.
Definition normal_run (w : gmap string Machine) : trace * (res unit * ClusterContext) :=
  exec cluster_answer (reconcileNormal (NP:=Provider) dummyNetworkProvider (cluster_context None)) w.
Lemma normal_run_runs w :
  runs (reconcileNormal (NP:=Provider) dummyNetworkProvider (cluster_context None)) (normal_run w).1 ((normal_run w).2.1, (normal_run w).2.2).
Proof. rewrite <-surjective_pairing. apply exec_runs. Qed.
Lemma answer_fair X (e : Ev X) w : fair_range (Call e (cluster_answer X e w).1).
Proof. destruct e; try exact I. cbn. reflexivity. Qed.
Lemma normal_run_fair w : Forall fair_range (normal_run w).1.
Proof. apply exec_forall. intros X e w'. apply answer_fair. Qed.

Definition one_machine : gmap string Machine := {["cp-1" := control_plane_machine]}.
Lemma one_machine_result : (normal_run one_machine).2.1 = Ok tt /\ the_endpoint (normal_run one_machine).2.2 = mkAPIEndpoint "10.0.0.7" 6443.
Proof. split; vm_compute; reflexivity. Qed.
Lemma supervisor_cluster_endpoint_witness :
  vt_Provisioned (v_Status (cc_VSphereCluster (normal_run one_machine).2.2)) = Some true.
Proof.
  destruct one_machine_result as [Hr He].
  destruct (supervisor_cluster_endpoint (NP:=Provider) dummyNetworkProvider (cluster_context None) (normal_run one_machine).1
    (normal_run one_machine).2.1 (normal_run one_machine).2.2) as (_ & _ & _ & Hp); [apply normal_run_runs|apply normal_run_fair|].
  apply Hp; [exact Hr|]. unfold has_endpoint. by rewrite He.
Defined.

(** Without a machine with an address there is no endpoint, and no error either:
    the pass is not repeated. *)
Example no_endpoint_result : (normal_run ∅).2.1 = Ok tt /\ the_endpoint (normal_run ∅).2.2 = mkAPIEndpoint "" 0.
Proof. split; vm_compute; reflexivity. Qed.

Definition domains_run : trace * (res unit * ClusterContext) :=
  exec cluster_answer (reconcileFailureDomains (cluster_context None)) ∅.
Example domains_sorted :
  map kf_Name (vt_FailureDomains (v_Status (cc_VSphereCluster domains_run.2.2))) = ["zone-1"; "zone-2"].
Proof. by vm_compute. Qed.

Definition deletion_run : trace * (res unit * ClusterContext) :=
  exec cluster_answer (reconcile_cluster (NP:=Provider) (ForCluster NewPerClusterNetworkProviderFactory) (cluster_context (Some 1))) ∅.
Lemma supervisor_cluster_deletion_witness :
  om_Finalizers (v_ObjectMeta (cc_VSphereCluster deletion_run.2.2)) = [].
Proof.
  pose proof (supervisor_cluster_deletion (NP:=Provider) (ForCluster NewPerClusterNetworkProviderFactory) (cluster_context (Some 1))
    deletion_run.1 deletion_run.2.1 deletion_run.2.2) as Hd.
  destruct Hd as (_ & _ & ->); [|by vm_compute]. rewrite <-surjective_pairing. apply exec_runs.
Defined.

End VmwareCluster.
