(* ===== verification/SupervisorUtil.v ===== *)
(** [pkg/util/supervisor.go]: taking an object over from another controller, and the
    VSphereMachine that owns an object. *)
From S2P Require Import Prelude GoStrings Types VmwareTypes Libs Errors Prog World VmopCommon RefLibs.

Module SupervisorUtil.
Import vmwarev1 VmopCommon.

Definition VMwareGroup : string := "vmware.infrastructure.cluster.x-k8s.io".

Section supervisor.
Context `{Libs}.
Open Scope go_scope.

(** Two references are to the same object, whatever the version. *)
Definition referSameObject (a b : OwnerReference) : bool :=
  match ParseGroupVersion (or_APIVersion a), ParseGroupVersion (or_APIVersion b) with
  | Some (aGroup, _), Some (bGroup, _) =>
      String.eqb aGroup bGroup && String.eqb (or_Kind a) (or_Kind b) && String.eqb (or_Name a) (or_Name b)
  | _, _ => false
  end.

Definition is_controller (ref : OwnerReference) : bool := bool_decide (or_Controller ref = Some true).

(** The first controller that is another object is removed. *)
Fixpoint deleteAllControllerRefs (owners : list OwnerReference) (ref : OwnerReference) : list OwnerReference :=
  match owners with
  | [] => []
  | owner :: owners =>
      if is_controller owner && negb (referSameObject owner ref) then owners else owner :: deleteAllControllerRefs owners ref
  end.

(** The owner is given by its API version, its kind and its metadata. *)
Definition SetControllerReferenceWithOverride (apiVersion kind : string) (owner controlled : ObjectMeta) : res ObjectMeta :=
  let ref := mkOwnerReference apiVersion kind (om_Name owner) "" None in
  let controlled := set_om_OwnerReferences (deleteAllControllerRefs (om_OwnerReferences controlled) ref) controlled in
  match SetControllerReference apiVersion kind owner controlled with
  | inl refs => Ok (set_om_OwnerReferences refs controlled)
  | inr text => Err (ELib OtherLibError text)
  end.

Definition getVMWareMachineByName {St} (namespace name : string) : M Ev St VSphereMachine := call_res (KubeGet KVSphereMachine namespace name).

(** The first reference to a VSphereMachine; one before it may be malformed. *)
Fixpoint vmware_machine_owner (refs : list OwnerReference) : res (option string) :=
  match refs with
  | [] => Ok None
  | ref :: refs =>
      match ParseGroupVersion (or_APIVersion ref) with
      | None => Err (ELib OtherLibError (sprintf "unexpected GroupVersion string: %s" [AS (or_APIVersion ref)]))
      | Some (group, _) =>
          if String.eqb (or_Kind ref) "VSphereMachine" && String.eqb group VMwareGroup then Ok (Some (or_Name ref))
          else vmware_machine_owner refs
      end
  end.
Definition GetOwnerVMWareMachine {St} (obj : ObjectMeta) : M Ev St (option VSphereMachine) :=
  owner <- of_res (vmware_machine_owner (om_OwnerReferences obj)) ;;
  match owner with
  | None => ret None
  | Some name =>
      m <- getVMWareMachineByName (om_Namespace obj) name ;;
      ret (Some m)
  end.

(** * Lemmas *)

(** Every owner but one controller stays, and the object itself stays. *)
Lemma deleteAllControllerRefs_spec owners ref :
  deleteAllControllerRefs owners ref = owners /\ (forall o, o ∈ owners -> is_controller o = true -> referSameObject o ref = true) \/
  exists before o after, owners = (before ++ o :: after)%list /\ deleteAllControllerRefs owners ref = (before ++ after)%list /\
    is_controller o = true /\ referSameObject o ref = false /\
    (forall o, o ∈ before -> is_controller o = true -> referSameObject o ref = true).
Proof.
  induction owners as [|owner owners IH]; cbn [deleteAllControllerRefs].
  { left. split; [done|]. intros o Ho. by apply elem_of_nil in Ho. }
  destruct (is_controller owner) eqn:Ec; destruct (referSameObject owner ref) eqn:Es; cbn [andb negb].
  2: { right. exists [], owner, owners. split_and!; try done. intros o Ho. by apply elem_of_nil in Ho. }
  all: destruct IH as [[He Hall]|(before & o & after & -> & He & Hc & Hs & Hall)];
    [left; rewrite He; split; [done|]; intros o [->|Ho]%elem_of_cons; [congruence|by apply Hall]|
     right; exists (owner :: before), o, after; rewrite He; split_and!; try done; intros o' [->|Ho]%elem_of_cons; [congruence|by apply Hall]].
Qed.

(** An object with at most one controller is controlled by the new owner after it was
    taken over, and keeps its owners that do not control it. *)
Lemma controller_taken_over apiVersion kind owner controlled controlled' :
  SetControllerReferenceWithOverride apiVersion kind owner controlled = Ok controlled' ->
  mkOwnerReference apiVersion kind (om_Name owner) (om_UID owner) (Some true) ∈ om_OwnerReferences controlled' /\
  (om_Name controlled', om_Namespace controlled', om_Finalizers controlled') = (om_Name controlled, om_Namespace controlled, om_Finalizers controlled).
Proof.
  unfold SetControllerReferenceWithOverride. destruct (SetControllerReference _ _ _ _) as [refs|text] eqn:Es; [|done]. intros [= <-].
  split; [|done]. cbn. by eapply SetControllerReference_in.
Qed.

Lemma controller_changes_owners apiVersion kind owner controlled controlled' :
  SetControllerReferenceWithOverride apiVersion kind owner controlled = Ok controlled' ->
  controlled' = set_om_OwnerReferences (om_OwnerReferences controlled') controlled.
Proof.
  unfold SetControllerReferenceWithOverride. destruct (SetControllerReference _ _ _ _) as [refs|text]; [|done]. intros [= <-].
  by destruct controlled.
Qed.

Lemma vmware_machine_owner_found refs name :
  vmware_machine_owner refs = Ok (Some name) -> exists ref version, ref ∈ refs /\ or_Kind ref = "VSphereMachine" /\
    or_Name ref = name /\ ParseGroupVersion (or_APIVersion ref) = Some (VMwareGroup, version).
Proof.
  induction refs as [|ref refs IH]; cbn [vmware_machine_owner]; [done|].
  destruct (ParseGroupVersion (or_APIVersion ref)) as [[group version]|] eqn:Ep; [|done].
  destruct (String.eqb_spec (or_Kind ref) "VSphereMachine") as [Hk|]; cbn [andb].
  - destruct (String.eqb_spec group VMwareGroup) as [->|].
    + intros [= <-]. exists ref, version. split_and!; [left|done..].
    + intros (r & v & ? & ?)%IH. exists r, v. split; [by right|done].
  - intros (r & v & ? & ?)%IH. exists r, v. split; [by right|done].
Qed.
End supervisor.

Import RefLibs.

(** A VSphereMachine takes an object over from a controller of an older version. *)
Example taken_over :
  let old := mkOwnerReference "old.io/v1" "VSphereMachine" "m" "uid-0" (Some true) in
  let other := owner_ref "v1" "Secret" "s" "uid-s" in
  match SetControllerReferenceWithOverride VMwareGroupVersion "VSphereMachine" (mkObjectMeta "m" "ns" "uid-1" None [] [] None)
          (mkObjectMeta "o" "ns" "uid-o" None [old; other] [] None) with
  | Ok om => om_OwnerReferences om = [other; mkOwnerReference VMwareGroupVersion "VSphereMachine" "m" "uid-1" (Some true)]
  | _ => False
  end.
Proof. by vm_compute. Qed.

End SupervisorUtil.
