(* ===== verification/ServiceAccounts.v ===== *)
(** [controllers/vmware/serviceaccount_controller.go]: the service accounts that a
    cluster has in the supervisor, and their tokens in the workload cluster. *)
From S2P Require Import Prelude GoStrings Types VmwareTypes Libs Errors Prog World Conditions Identity RefLibs.
From S2P Require Import VmopCommon NetworkInterface Network SupervisorUtil.
#[local] Open Scope Z_scope.

Module ServiceAccounts.
Import Identity vmwarev1 VmopCommon NetworkInterface SupervisorUtil.

Definition kindProviderServiceAccount : string := "ProviderServiceAccount".
(** [clusterNotReadyRequeueTime] and [time.Minute], in nanoseconds. *)
Definition clusterNotReadyRequeueTime : Z := 2 * 60 * 1000000000.
Definition a_minute : Z := 60 * 1000000000.

(** * Names *)

Definition ps_Name (p : ProviderServiceAccount) : string := om_Name (ps_ObjectMeta p).
Definition ps_Namespace (p : ProviderServiceAccount) : string := om_Namespace (ps_ObjectMeta p).
Definition getRoleName (p : ProviderServiceAccount) : string := ps_Name p.
Definition getRoleBindingName (p : ProviderServiceAccount) : string := ps_Name p.
Definition getServiceAccountName (p : ProviderServiceAccount) : string := ps_Name p.
Definition getServiceAccountSecretName (p : ProviderServiceAccount) : string := sprintf "%s-secret" [AS (ps_Name p)].

Section reconciler.
Context `{Libs}.
#[warnings="-notation-for-abbreviation"]
Notation MN := (M Ev ClusterContext).
Open Scope go_scope.

(** The metadata of an object that the account controls. *)
Definition controlled_by (p : ProviderServiceAccount) (om : ObjectMeta) : res ObjectMeta :=
  SetControllerReferenceWithOverride VMwareGroupVersion kindProviderServiceAccount (ps_ObjectMeta p) om.
Definition account_meta (p : ProviderServiceAccount) (name : string) : ObjectMeta :=
  mkObjectMeta name (ps_Namespace p) "" None [] [] None.
Definition obj_text (om : ObjectMeta) : string := KRef (om_Namespace om) (om_Name om).

(** * The objects of an account *)

Definition ensureServiceAccount (p : ProviderServiceAccount) : MN unit :=
  svcAccount <- of_res (controlled_by p (account_meta p (getServiceAccountName p))) ;;
  got <- try (call_res (KubeGet KServiceAccount (om_Namespace svcAccount) (om_Name svcAccount))) ;;
  match got with
  | inl _ => ret tt
  | inr err =>
      if negb (IsNotFound err) then
        fail (EWrap (sprintf "failed to check if ServiceAccount %s already exists" [AS (obj_text svcAccount)]) err)
      else
        created <- try (call_res (KubeCreate KServiceAccount svcAccount)) ;;
        match created with
        | inl _ => ret tt
        | inr err =>
            if negb (IsAlreadyExists err)
            then fail (EWrap (sprintf "failed to create ServiceAccount %s" [AS (obj_text svcAccount)]) err)
            else ret tt
        end
  end.

(** A secret that is there already, but not in the cache for want of the label, is
    given the label. *)
Definition label_secret (ns name : string) (cluster : KubeCluster) : MN unit :=
  secret <- call_res (KubeGet KSecret ns name) ;;
  let labels := default ∅ (om_Labels (sc_ObjectMeta secret)) in
  match labels !! ClusterNameLabel with
  | Some _ => ret tt
  | None =>
      call_res (KubePatch KSecret secret
        (set_sc_ObjectMeta (set_om_Labels (Some (<[ClusterNameLabel := om_Name (kc_ObjectMeta cluster)]> labels))
                              (sc_ObjectMeta secret)) secret)) ;;
      ret tt
  end.

(** The secret of the token, before its controller is set. *)
Definition token_secret (p : ProviderServiceAccount) (cluster : KubeCluster) : Secret :=
  mkSecret
    (set_om_Labels (Some {[ClusterNameLabel := om_Name (kc_ObjectMeta cluster)]})
       (account_meta p (getServiceAccountSecretName p)))
    (Some {[ServiceAccountNameKey := getServiceAccountName p]}) SecretTypeServiceAccountToken ∅.

Definition ensureServiceAccountSecret (p : ProviderServiceAccount) (cluster : KubeCluster) : MN unit :=
  om <- of_res (controlled_by p (sc_ObjectMeta (token_secret p cluster))) ;;
  let secret := set_sc_ObjectMeta om (token_secret p cluster) in
  got <- try (call_res (KubeGet (KCached KSecret) (om_Namespace om) (om_Name om))) ;;
  match got with
  | inl _ => ret tt
  | inr err =>
      if negb (IsNotFound err) then
        fail (EWrap (sprintf "failed to check if Secret %s already exists" [AS (obj_text om)]) err)
      else
        created <- try (call_res (KubeCreate KSecret secret)) ;;
        match created with
        | inl _ => ret tt
        | inr err =>
            if IsAlreadyExists err then label_secret (om_Namespace om) (om_Name om) cluster
            else fail (EWrap (sprintf "failed to create ServiceAccount Secret %s" [AS (obj_text om)]) err)
        end
  end.

Definition ensureRole (p : ProviderServiceAccount) : MN unit :=
  let om := account_meta p (getRoleName p) in
  wrap (sprintf "failed to create or patch Role %s" [AS (obj_text om)])
    (role <- call_res (KubeFetchOrNew KRole (mkRole om [])) ;;
     om <- of_res (controlled_by p (rl_ObjectMeta role)) ;;
     call_res (KubeWrite KRole (mkRole om (ps_Rules p)))) ;;
  ret tt.

Definition no_role : RoleRef := mkRoleRef "" "" "".
Definition role_of (p : ProviderServiceAccount) : RoleRef := mkRoleRef rbac_GroupName "Role" (getRoleName p).
Definition account_subject (p : ProviderServiceAccount) : Subject :=
  mkSubject "ServiceAccount" "" (getServiceAccountName p) (ps_Namespace p).
(** The role that a binding refers to cannot be changed. *)
Definition refers_elsewhere (p : ProviderServiceAccount) (binding : RoleBinding) : bool :=
  let ref := rb_RoleRef binding in
  negb (String.eqb (rr_Name ref) (getRoleName p)) || negb (String.eqb (rr_Kind ref) "Role") ||
  negb (String.eqb (rr_APIGroup ref) rbac_GroupName).

(** The binding is created, or patched. *)
Definition write_binding (p : ProviderServiceAccount) (roleBinding : RoleBinding) : MN unit :=
  wrap (sprintf "failed to create or patch RoleBinding %s" [AS (obj_text (rb_ObjectMeta roleBinding))])
    (found <- call_res (KubeFetchOrNew KRoleBinding roleBinding) ;;
     om <- of_res (controlled_by p (rb_ObjectMeta found)) ;;
     call_res (KubeWrite KRoleBinding (mkRoleBinding om (role_of p) [account_subject p]))) ;;
  ret tt.

Definition ensureRoleBinding (p : ProviderServiceAccount) : MN unit :=
  let om := account_meta p (getRoleBindingName p) in
  got <- try (call_res (KubeGet KRoleBinding (ps_Namespace p) (getRoleBindingName p))) ;;
  roleBinding <-
    match got with
    | inr err =>
        if negb (IsNotFound err) then
          fail (EWrap (sprintf "failed to get RoleBinding %s" [AS (KRef (ps_Namespace p) (getRoleBindingName p))]) err)
        else ret (mkRoleBinding om no_role [])
    | inl binding =>
        (if refers_elsewhere p binding then
           wrap (sprintf "failed to delete RoleBinding %s to update the roleRef" [AS (obj_text (rb_ObjectMeta binding))])
             (call_res (KubeDelete KRoleBinding binding))
         else ret tt) ;;
        ret binding
    end ;;
  write_binding p roleBinding.

(** * The token in the workload cluster *)

Definition ensure_namespace (name : string) : MN unit :=
  got <- try (call_res (KubeGet (KGuest KNamespace) "" name)) ;;
  match got with
  | inl _ => ret tt
  | inr err =>
      if IsNotFound err then
        wrap (sprintf "failed to create Namespace %s in workload cluster" [AS name])
          (call_res (KubeCreate (KGuest KNamespace) (mkNamespace (mkObjectMeta name "" "" None [] [] None) None))) ;;
        ret tt
      else fail err
  end.

Definition target_secret (p : ProviderServiceAccount) : Secret :=
  mkSecret (mkObjectMeta (ps_TargetSecretName p) (ps_TargetNamespace p) "" None [] [] None) None "" ∅.

Definition syncServiceAccountSecret (p : ProviderServiceAccount) : MN unit :=
  let secretName := getServiceAccountSecretName p in
  svcAccountTokenSecret <-
    wrap (sprintf "failed to get ServiceAccount token secret %s" [AS (KRef (ps_Namespace p) secretName)])
      (call_res (KubeGet KSecret (ps_Namespace p) secretName)) ;;
  if bool_decide (sc_Data svcAccountTokenSecret = ∅) then ret tt
  else
    ensure_namespace (ps_TargetNamespace p) ;;
    targetSecret <- call_res (KubeFetchOrNew (KGuest KSecret) (target_secret p)) ;;
    call_res (KubeWrite (KGuest KSecret) (set_sc_Data (sc_Data svcAccountTokenSecret) targetSecret)) ;;
    ret tt.

(** * All accounts of a cluster *)

Definition ensure_account (cluster : KubeCluster) (p : ProviderServiceAccount) : MN unit :=
  if HasPaused (ps_Annotations p) then ret tt
  else
    wrap (sprintf "failed to ensure ServiceAccount %s" [AS (ps_Name p)]) (ensureServiceAccount p) ;;
    wrap (sprintf "failed to ensure ServiceAcountToken secret %s" [AS (getServiceAccountSecretName p)])
      (ensureServiceAccountSecret p cluster) ;;
    wrap (sprintf "failed to ensure Role for ServiceAccount %s" [AS (ps_Name p)]) (ensureRole p) ;;
    wrap (sprintf "failed to ensure RoleBinding for ServiceAccount %s" [AS (ps_Name p)]) (ensureRoleBinding p) ;;
    wrap (sprintf "failed to sync secret for ProviderServiceAccount %s to workload cluster" [AS (ps_Name p)])
      (syncServiceAccountSecret p).

Definition ensureProviderServiceAccounts (cluster : KubeCluster) (pSvcAccounts : list ProviderServiceAccount) : MN unit :=
  for_each pSvcAccounts (ensure_account cluster).

(** An account is for a cluster. *)
Definition serves (clusterName : string) (p : ProviderServiceAccount) : bool :=
  bool_decide (om_DeletionTimestamp (ps_ObjectMeta p) = None) &&
  match ps_Ref p with Some ref => String.eqb ref clusterName | None => false end.

Definition getProviderServiceAccounts : MN (list ProviderServiceAccount) :=
  c <- get ;;
  items <- call_res (KubeList KProviderServiceAccount (cc_Namespace c) []) ;;
  ret (List.filter (serves (cc_Name c)) items).

(** Both conditions say how the pass ended. *)
Definition report_accounts (reterr : option error) : MN (option error) :=
  match reterr with
  | Some err =>
      cond_false ProviderServiceAccountsReadyV1Beta1Condition ProviderServiceAccountsReconciliationFailedV1Beta1Reason SeverityWarning
        (error_string err) ;;
      cond_set (cond VSphereClusterProviderServiceAccountsReadyCondition ConditionFalse
        VSphereClusterProviderServiceAccountsNotReadyReason (error_string err))
  | None =>
      cond_true ProviderServiceAccountsReadyV1Beta1Condition ;;
      cond_set (cond VSphereClusterProviderServiceAccountsReadyCondition ConditionTrue
        VSphereClusterProviderServiceAccountsReadyReason "")
  end ;;
  ret reterr.

Definition reconcileNormal (cluster : KubeCluster) : MN Z :=
  finally report_accounts
    (pSvcAccounts <- wrap "failed to get ProviderServiceAccounts" getProviderServiceAccounts ;;
     wrap "failed to ensure ProviderServiceAccounts" (ensureProviderServiceAccounts cluster pSvcAccounts) ;;
     ret 0).

(** * The pass *)

Definition patch : MN unit :=
  vc <- gets cc_VSphereCluster ;;
  call_res (KubeHelperPatch KVSphereCluster vc).
Definition patch_on_exit (reterr : option error) : MN (option error) :=
  r <- try patch ;;
  ret (match r with inr err => NewAggregate [reterr; Some err] | inl _ => reterr end).

(** The client of the workload cluster, or when to come back. *)
Definition with_guest (cluster : KubeCluster) (m : MN Z) : MN Z :=
  guestClient <- try (call_res (ClusterCacheGetClient (om_Namespace (kc_ObjectMeta cluster)) (om_Name (kc_ObjectMeta cluster)))) ;;
  match guestClient with
  | inr err => if IsClusterNotConnected err then ret a_minute else ret clusterNotReadyRequeueTime
  | inl _ => m
  end.

(** The finalizer of older versions is removed. *)
Definition drop_old_finalizer (c : ClusterContext) : ClusterContext :=
  let vc := cc_VSphereCluster c in
  if ContainsFinalizer (om_Finalizers (v_ObjectMeta vc)) ProviderServiceAccountFinalizer
  then set_cc_VSphereCluster (set_v_ObjectMeta (without_finalizer ProviderServiceAccountFinalizer (v_ObjectMeta vc)) vc) c
  else c.

Definition reconcile_accounts (cluster : KubeCluster) : MN Z :=
  modify drop_old_finalizer ;;
  c <- get ;;
  if bool_decide (om_DeletionTimestamp (v_ObjectMeta (cc_VSphereCluster c)) <> None) then ret 0
  else with_guest cluster (reconcileNormal cluster).

Definition Reconcile (namespace name : string) : M Ev unit Z :=
  got <- try (call_res (KubeGet KVSphereCluster namespace name)) ;;
  match got with
  | inr err => if IsNotFound err then ret 0 else fail err
  | inl vsphereCluster =>
      let om := v_ObjectMeta vsphereCluster in
      cluster <- wrap "failed to get Cluster from VSphereCluster" (call_res (GetClusterFromMetadata om)) ;;
      paused <- ask (IsPausedOf cluster "VSphereCluster" om) ;;
      if (paused : bool) then ret 0
      else
        call_res (NewPatchHelperOf "VSphereCluster" om) ;;
        local (mkClusterContext (Some cluster) vsphereCluster) (finally patch_on_exit (reconcile_accounts cluster))
  end.

(** * Which VSphereClusters to reconcile when another object changes *)

Definition toVSphereClusterRequest (p : ProviderServiceAccount) : list (string * string) :=
  match ps_Ref p with
  | None => []
  | Some name => if String.eqb name "" then [] else [(ps_Namespace p, name)]
  end.
Definition providerServiceAccountToVSphereCluster (p : ProviderServiceAccount) : list (string * string) :=
  toVSphereClusterRequest p.

(** The name of the account that controls an object. *)
Definition controlling_account (om : ObjectMeta) : option string :=
  match GetControllerOf (om_OwnerReferences om) with
  | Some ownerRef => if String.eqb (or_Kind ownerRef) kindProviderServiceAccount then Some (or_Name ownerRef) else None
  | None => None
  end.
Definition serviceAccountToVSphereCluster (om : ObjectMeta) : M Ev unit (list (string * string)) :=
  match controlling_account om with
  | None => ret []
  | Some name =>
      got <- try (call_res (KubeGet KProviderServiceAccount (om_Namespace om) name)) ;;
      ret (match got with inl p => toVSphereClusterRequest p | inr _ => [] end)
  end.
Definition secretToVSphereCluster (secret : Secret) : M Ev unit (list (string * string)) :=
  match controlling_account (sc_ObjectMeta secret) with
  | None => ret []
  | Some _ =>
      match default ∅ (sc_Annotations secret) !! ServiceAccountNameKey with
      | None => ret []
      | Some svcAccountName =>
          got <- try (call_res (KubeGet KServiceAccount (om_Namespace (sc_ObjectMeta secret)) svcAccountName)) ;;
          match got with
          | inl svcAccount => serviceAccountToVSphereCluster svcAccount
          | inr _ => ret []
          end
      end
  end.
End reconciler.

(** * What is written for an account *)

Section theorems.
Context `{Libs}.
#[warnings="-notation-for-abbreviation"]
Notation MN := (M Ev ClusterContext).
Open Scope go_scope.

Definition controls (p : ProviderServiceAccount) (om : ObjectMeta) : Prop :=
  mkOwnerReference VMwareGroupVersion kindProviderServiceAccount (ps_Name p) (om_UID (ps_ObjectMeta p)) (Some true)
    ∈ om_OwnerReferences om.
(** An account takes control of an object: nothing else of the metadata changes. *)
Definition taken_over (p : ProviderServiceAccount) (om om' : ObjectMeta) : Prop :=
  controls p om' /\ om' = set_om_OwnerReferences (om_OwnerReferences om') om.

(** The metadata of a new object in the namespace of the account. *)
Definition its_meta (p : ProviderServiceAccount) (name : string) : ObjectMeta := mkObjectMeta name (ps_Namespace p) "" None [] [] None.

(** The role and the binding of an account: the object that was read under the
    account's name in its namespace, or is new with that name, of which the account
    takes control, with the rules of the account; or with its role and its service
    account alone. *)
Definition role_written (p : ProviderServiceAccount) (tr : trace) (role : Role) : Prop :=
  exists found, Call (KubeFetchOrNew KRole (mkRole (its_meta p (ps_Name p)) [])) (Ok found) ∈ tr /\
    taken_over p (rl_ObjectMeta found) (rl_ObjectMeta role) /\ rl_Rules role = ps_Rules p.
Definition binding_of (p : ProviderServiceAccount) (tr : trace) (binding : RoleBinding) : Prop :=
  binding = mkRoleBinding (its_meta p (ps_Name p)) (mkRoleRef "" "" "") [] \/
  Call (KubeGet KRoleBinding (ps_Namespace p) (ps_Name p)) (Ok binding) ∈ tr.
Definition binding_written (p : ProviderServiceAccount) (tr : trace) (binding : RoleBinding) : Prop :=
  exists asked found, binding_of p tr asked /\ Call (KubeFetchOrNew KRoleBinding asked) (Ok found) ∈ tr /\
    taken_over p (rb_ObjectMeta found) (rb_ObjectMeta binding) /\
    rb_RoleRef binding = mkRoleRef rbac_GroupName "Role" (ps_Name p) /\ rb_Subjects binding = [mkSubject "ServiceAccount" "" (ps_Name p) (ps_Namespace p)].
(** The target secret: the one that was read under the target's name and namespace,
    or a new one, with the data of the token and nothing else of it changed. *)
Definition token_read (p : ProviderServiceAccount) (tr : trace) (token : Secret) : Prop :=
  Call (KubeGet KSecret (ps_Namespace p) (getServiceAccountSecretName p)) (Ok token) ∈ tr.
Definition target_written (p : ProviderServiceAccount) (tr : trace) (token secret : Secret) : Prop :=
  exists found, Call (KubeFetchOrNew (KGuest KSecret)
      (mkSecret (mkObjectMeta (ps_TargetSecretName p) (ps_TargetNamespace p) "" None [] [] None) None "" ∅)) (Ok found) ∈ tr /\
    secret = set_sc_Data (sc_Data token) found.

(** The changes that may be made for an account: its service account and the secret of
    its token, empty, which the account controls; the label of a secret that was there;
    the role with its rules and the binding of that role to it alone; and in the
    workload cluster the target namespace and, in the target secret, the data of the
    token, as it was read. *)
Inductive account_write (cluster : KubeCluster) (p : ProviderServiceAccount) (tr : trace) : call Ev -> Prop :=
| writes_account om x :
    taken_over p (its_meta p (ps_Name p)) om -> account_write cluster p tr (Call (KubeCreate KServiceAccount om) x)
| writes_secret om x :
    taken_over p (set_om_Labels (Some {[ClusterNameLabel := om_Name (kc_ObjectMeta cluster)]})
                    (its_meta p (getServiceAccountSecretName p))) om ->
    account_write cluster p tr (Call (KubeCreate KSecret
      (mkSecret om (Some {[ServiceAccountNameKey := ps_Name p]}) SecretTypeServiceAccountToken ∅)) x)
| writes_label secret labels x :
    Call (KubeGet KSecret (ps_Namespace p) (getServiceAccountSecretName p)) (Ok secret) ∈ tr ->
    labels = default ∅ (om_Labels (sc_ObjectMeta secret)) -> labels !! ClusterNameLabel = None ->
    account_write cluster p tr (Call (KubePatch KSecret secret
      (set_sc_ObjectMeta (set_om_Labels (Some (<[ClusterNameLabel := om_Name (kc_ObjectMeta cluster)]> labels))
                            (sc_ObjectMeta secret)) secret)) x)
| writes_role role x : role_written p tr role -> account_write cluster p tr (Call (KubeWrite KRole role) x)
| deletes_binding binding x :
    Call (KubeGet KRoleBinding (ps_Namespace p) (ps_Name p)) (Ok binding) ∈ tr -> rb_RoleRef binding <> role_of p ->
    account_write cluster p tr (Call (KubeDelete KRoleBinding binding) x)
| writes_binding binding x : binding_written p tr binding -> account_write cluster p tr (Call (KubeWrite KRoleBinding binding) x)
| writes_namespace x :
    account_write cluster p tr (Call (KubeCreate (KGuest KNamespace)
      (mkNamespace (mkObjectMeta (ps_TargetNamespace p) "" "" None [] [] None) None)) x)
| writes_token token secret x :
    token_read p tr token -> sc_Data token <> ∅ -> target_written p tr token secret ->
    account_write cluster p tr (Call (KubeWrite (KGuest KSecret) secret) x).

(** All that is changed is for the account. *)
Definition within (cluster : KubeCluster) (p : ProviderServiceAccount) (tr all : trace) : Prop :=
  Forall (fun cl => effect_of cl = None \/ account_write cluster p all cl) tr.

(** What an account has when a pass went well: its role, the binding of the role, and
    the data of its token, if there were any, in the target secret. *)
Definition has_role (p : ProviderServiceAccount) (tr : trace) : Prop :=
  exists role n, Call (KubeWrite KRole role) (Ok n) ∈ tr /\ role_written p tr role.
Definition role_is_bound (p : ProviderServiceAccount) (tr : trace) : Prop :=
  exists binding n, Call (KubeWrite KRoleBinding binding) (Ok n) ∈ tr /\ binding_written p tr binding.
Definition token_is_synced (p : ProviderServiceAccount) (tr : trace) : Prop :=
  exists token, token_read p tr token /\
    (sc_Data token = ∅ \/ exists secret n, Call (KubeWrite (KGuest KSecret) secret) (Ok n) ∈ tr /\ target_written p tr token secret).
Definition provided (p : ProviderServiceAccount) (tr : trace) : Prop :=
  has_role p tr /\ role_is_bound p tr /\ token_is_synced p tr.
#[export] Instance role_written_grows p role : Grows (fun tr => role_written p tr role).
Proof. unfold role_written. apply _. Qed.
#[export] Instance binding_written_grows p binding : Grows (fun tr => binding_written p tr binding).
Proof.
  intros tr tr' Hs (asked & found & Ha & Hf & Hr). exists asked, found. split; [|split; [by apply Hs|exact Hr]].
  destruct Ha as [?|Ha]; [by left|right; by apply Hs].
Qed.
#[export] Instance target_written_grows p token secret : Grows (fun tr => target_written p tr token secret).
Proof. unfold target_written. apply _. Qed.
#[export] Instance token_read_grows p token : Grows (fun tr => token_read p tr token).
Proof. unfold token_read. apply _. Qed.
#[export] Instance has_role_grows p : Grows (has_role p).
Proof. unfold has_role. apply _. Qed.
#[export] Instance role_is_bound_grows p : Grows (role_is_bound p).
Proof. unfold role_is_bound. apply _. Qed.
#[export] Instance token_is_synced_grows p : Grows (token_is_synced p).
Proof. unfold token_is_synced. apply _. Qed.
#[export] Instance provided_grows p : Grows (provided p).
Proof. unfold provided. apply _. Qed.

Lemma account_write_grows cluster p tr tr' cl : tr ⊆ tr' -> account_write cluster p tr cl -> account_write cluster p tr' cl.
Proof.
  intros Hs []; econstructor; eauto; first [by eapply (grows (P := fun tr => role_written p tr _)) | by eapply (grows (P := fun tr => binding_written p tr _))
    | by eapply (grows (P := fun tr => target_written p tr _ _)) | by apply Hs].
Qed.
Lemma within_grows cluster p tr all all' : all ⊆ all' -> within cluster p tr all -> within cluster p tr all'.
Proof. intros Hs Hf. eapply Forall_impl; [exact Hf|]. intros cl [?|?]; [by left|right]. by eapply account_write_grows. Qed.
Lemma within_app cluster p tr tr' : within cluster p tr tr -> within cluster p tr' tr' -> within cluster p (tr ++ tr') (tr ++ tr').
Proof.
  intros H1 H2. apply Forall_app. split; (eapply within_grows; [|eassumption]); intros x ?; apply elem_of_app; tauto.
Qed.

(** A program that works for one account, and what it has done when it succeeds. *)
Definition works (cluster : KubeCluster) (p : ProviderServiceAccount) (P : trace -> Prop) (m : MN unit) : Prop :=
  forall c, wpm m c (fun tr r c' => c' = c /\ within cluster p tr tr /\ match r with Ok _ => P tr | _ => True end).

Lemma works_seq cluster p (P Q : trace -> Prop) `{!Grows P, !Grows Q} m k :
  works cluster p P m -> works cluster p Q k -> works cluster p (fun tr => P tr /\ Q tr) (m ;; k).
Proof.
  intros Hm Hk c. wp_step. eapply wpm_mono; [apply Hm|]. intros tr [u|e|w] c1 (-> & Hw & HP); cbn beta iota; [|done..].
  eapply wpm_mono; [apply Hk|]. intros tr' [u'|e|w] c2 (-> & Hw2 & HQ); split_and!; try done; try (by apply within_app).
  - by apply (grows_app_l P).
  - by apply (grows_app_r Q).
Qed.
(** A program that works, after calls that were within bounds. *)
Lemma works_after cluster p (P : trace -> Prop) `{!Grows P} tr m c :
  works cluster p P m -> within cluster p tr tr ->
  wpm m c (fun tr' r c' => c' = c /\ within cluster p (tr ++ tr') (tr ++ tr') /\ match r with Ok _ => P (tr ++ tr')%list | _ => True end).
Proof.
  intros Hm Ht. eapply wpm_mono; [apply Hm|]. intros tr' r c' (-> & Hw & HP). split_and!; [done|by apply within_app|].
  destruct r; [|done..]. by apply (grows_app_r P).
Qed.
Lemma works_mono cluster p (P Q : trace -> Prop) m : (forall tr, P tr -> Q tr) -> works cluster p P m -> works cluster p Q m.
Proof. intros HPQ Hm c. eapply wpm_mono; [apply Hm|]. intros tr [u|e|w] c1 (? & ? & ?); by auto. Qed.
Lemma works_wrap cluster p P msg m : works cluster p P m -> works cluster p P (wrap msg m).
Proof. intros Hm c. wp_step. eapply wpm_mono; [apply Hm|]. by intros tr [u|e|w] c1 (? & ? & ?). Qed.

Lemma controlled_by_taken p om om' : controlled_by p om = Ok om' -> taken_over p om om'.
Proof.
  intros Hc. split; [|by eapply controller_changes_owners]. by destruct (controller_taken_over _ _ _ _ _ Hc) as [Hin _].
Qed.

Lemma refers_elsewhere_iff p binding : refers_elsewhere p binding = true <-> rb_RoleRef binding <> role_of p.
Proof.
  unfold refers_elsewhere, role_of. destruct (rb_RoleRef binding) as [g k n]; cbn.
  rewrite !orb_true_iff, !negb_true_iff, !String.eqb_neq.
  split; [naive_solver|]. intros Hne.
  destruct (decide (n = getRoleName p)) as [->|?]; [|tauto].
  destruct (decide (k = "Role")) as [->|?]; [|tauto]. right. by intros ->.
Qed.

(** A trace whose calls are known changes only what it may. *)
Ltac solve_within :=
  repeat first [apply Forall_nil_2
               | apply Forall_cons_2; [first [left; reflexivity | right]|]
               | eapply within_grows; [|eassumption]; intros ? ?; in_trace
               | apply Forall_app_2].
(** A program whose calls are known, on a way out of which nothing is promised. *)
Ltac its_write := econstructor; first [done | by in_list | by apply refers_elsewhere_iff].
Ltac finish := split_and!; try done; solve_within; its_write.

Lemma ensureServiceAccount_works cluster p : works cluster p (fun _ => True) (ensureServiceAccount p).
Proof.
  intros c. unfold ensureServiceAccount. do 2 wp_step.
  destruct (controlled_by p _) as [om|e|w] eqn:Hc; cbn beta iota; [|by repeat constructor..].
  apply controlled_by_taken in Hc.
  do 3 wp_step; cbn beta iota; wp_run; split_and!; try done; solve_within; by apply writes_account.
Qed.

Lemma label_secret_works cluster p : 
  works cluster p (fun _ => True) (label_secret (ps_Namespace p) (getServiceAccountSecretName p) cluster).
Proof.
  intros c. unfold label_secret. do 2 wp_step; cbn beta iota; wp_run; split_and!; try done; solve_within;
    (econstructor; [left|done|done]).
Qed.
Lemma ensureServiceAccountSecret_works cluster p : works cluster p (fun _ => True) (ensureServiceAccountSecret p cluster).
Proof.
  intros c. unfold ensureServiceAccountSecret. do 2 wp_step.
  destruct (controlled_by p _) as [om|e|w] eqn:Hc; cbn beta iota; [|by repeat constructor..].
  apply controlled_by_taken in Hc. pose proof Hc as [_ Hom].
  assert (om_Namespace om = ps_Namespace p) as Hns by (by rewrite Hom).
  assert (om_Name om = getServiceAccountSecretName p) as Hn by (by rewrite Hom). rewrite Hns, Hn. clear Hom.
  do 3 wp_step; wp_run; try finish.
  eapply wpm_mono; [apply label_secret_works|]. intros tr r c' (-> & Hw & _). destruct r; finish.
Qed.

Lemma ensureRole_works cluster p :
  works cluster p (has_role p) (ensureRole p).
Proof.
  intros c. unfold ensureRole. do 4 wp_step; try finish. do 2 wp_step.
  destruct (controlled_by p _) as [om|e|w] eqn:Hc; cbn beta iota; [|finish..].
  apply controlled_by_taken in Hc.
  assert (Hw : forall tr, Call (KubeFetchOrNew KRole (mkRole (account_meta p (getRoleName p)) [])) (Ok a) ∈ tr ->
    role_written p tr (mkRole om (ps_Rules p))) by (intros tr Hin; by exists a).
  wp_run; split_and!; try done; solve_within; try (apply writes_role, Hw; in_list).
  do 2 eexists. split; [apply list_elem_of_further, list_elem_of_here|apply Hw; in_list].
Qed.

(** The binding is asked for as it was read, or new, after calls within bounds. *)
Lemma write_binding_works cluster p roleBinding tr c :
  binding_of p tr roleBinding -> within cluster p tr tr ->
  wpm (write_binding p roleBinding) c (fun tr' r c' => c' = c /\ within cluster p (tr ++ tr') (tr ++ tr') /\
    match r with Ok _ => role_is_bound p (tr ++ tr')%list | _ => True end).
Proof.
  intros Hb Hwi. unfold write_binding.
  assert (Hone : forall tr' x, within cluster p tr' (tr ++ tr' ++ [x]) -> effect_of x = None \/ account_write cluster p (tr ++ tr' ++ [x]) x ->
     within cluster p (tr ++ tr' ++ [x]) (tr ++ tr' ++ [x])).
  { intros tr' x H1 H2. apply Forall_app. split; [eapply within_grows; [|exact Hwi]; intros ? ?; in_trace|].
    apply Forall_app. split; [done|]. by constructor. }
  do 4 wp_step; try (split_and!; [done|apply (Hone []); [constructor|by left]|done]). do 2 wp_step.
  destruct (controlled_by p _) as [om|e|w] eqn:Hc; cbn beta iota; [|by (split_and!; [done|apply (Hone []); [constructor|by left]|done])..].
  apply controlled_by_taken in Hc.
  assert (Hw : forall tr', Call (KubeFetchOrNew KRoleBinding roleBinding) (Ok a) ∈ tr' ->
    binding_written p (tr ++ tr') (mkRoleBinding om (role_of p) [account_subject p])).
  { intros tr' Hin. exists roleBinding, a. split; [|split; [in_trace|by split_and!]]. destruct Hb as [?|Hb]; [by left|right; in_trace]. }
  wp_run; (split; [done|]);
    (split; [apply (Hone [_]); [constructor; [by left|constructor]|right; apply writes_binding, Hw; in_list]|]); [|done..].
  do 2 eexists. split; [apply elem_of_app; right; in_list|apply Hw; in_list].
Qed.

Lemma ensureRoleBinding_works cluster p :
  works cluster p (role_is_bound p)
    (ensureRoleBinding p).
Proof.
  intros c. unfold ensureRoleBinding. cbn zeta. do 3 wp_step; wp_run; try finish.
  - apply (write_binding_works _ _ _ [_; _]); [right; in_list|solve_within; its_write].
  - apply (write_binding_works _ _ _ [_]); [right; in_list|solve_within].
  - apply (write_binding_works _ _ _ [_]); [by left|solve_within].
Qed.

Lemma ensure_namespace_works cluster p : works cluster p (fun _ => True) (ensure_namespace (ps_TargetNamespace p)).
Proof. intros c. unfold ensure_namespace. do 3 wp_step; wp_run; finish. Qed.

Lemma syncServiceAccountSecret_works cluster p : works cluster p (token_is_synced p) (syncServiceAccountSecret p).
Proof.
  intros c. unfold syncServiceAccountSecret. cbn zeta. do 3 wp_step; try finish.
  destruct (bool_decide_reflect (sc_Data a = ∅)) as [Hd|Hd]; cbn beta iota.
  - wp_run. split_and!; [done|solve_within|]. exists a. split; [unfold token_read; by in_list|by left].
  - wp_step. eapply wpm_mono; [apply ensure_namespace_works|]. intros tr [u|e|w] c1 (-> & Hw & _); cbn beta iota; [|finish..].
    do 2 wp_step; try finish.
    assert (Ht : forall tr, Call (KubeFetchOrNew (KGuest KSecret) (target_secret p)) (Ok a0) ∈ tr ->
      target_written p tr a (set_sc_Data (sc_Data a) a0)) by (intros tr' Hin; by exists a0).
    do 2 wp_step; wp_run; split_and!; try done; solve_within;
      try (by eapply writes_token; [unfold token_read; by in_list|done|apply Ht; by in_trace]).
    exists a. split; [unfold token_read; by in_list|right]. eexists _, _. split; [in_trace|apply Ht; in_trace].
Qed.

Lemma ensure_account_works cluster p :
  HasPaused (ps_Annotations p) = false -> works cluster p (provided p) (ensure_account cluster p).
Proof.
  intros Hp. unfold ensure_account. rewrite Hp.
  apply (works_mono cluster p (fun tr => True /\ True /\ has_role p tr /\ role_is_bound p tr /\ token_is_synced p tr));
    [by unfold provided; naive_solver|].
  apply works_seq; [apply _..|by apply works_wrap, ensureServiceAccount_works|].
  apply works_seq; [apply _..|by apply works_wrap, ensureServiceAccountSecret_works|].
  apply works_seq; [apply _..|by apply works_wrap, ensureRole_works|].
  apply works_seq; [apply _..|by apply works_wrap, ensureRoleBinding_works|].
  by apply works_wrap, syncServiceAccountSecret_works.
Qed.

(** All that is changed is for one of the accounts, and that one is not paused. *)
Definition within_all (cluster : KubeCluster) (l : list ProviderServiceAccount) (tr all : trace) : Prop :=
  Forall (fun cl => effect_of cl = None \/ exists p, p ∈ l /\ HasPaused (ps_Annotations p) = false /\ account_write cluster p all cl) tr.

Lemma accounts_works cluster l c :
  wpm (ensureProviderServiceAccounts cluster l) c (fun tr r c' => c' = c /\ within_all cluster l tr tr /\
    match r with Ok _ => Forall (fun p => HasPaused (ps_Annotations p) = false -> provided p tr) l | _ => True end).
Proof.
  unfold ensureProviderServiceAccounts. revert c. induction l as [|p l IH]; intros c; cbn [for_each]; [by repeat constructor|].
  assert (Hone : forall tr, HasPaused (ps_Annotations p) = false -> within cluster p tr tr -> within_all cluster (p :: l) tr tr).
  { intros tr Hp Hw. eapply Forall_impl; [exact Hw|]. intros cl [?|?]; [by left|right]. exists p. split_and!; [apply list_elem_of_here|done|done]. }
  wp_step. destruct (HasPaused (ps_Annotations p)) eqn:Hp.
  - unfold ensure_account at 1. rewrite Hp. wp_step. eapply wpm_mono; [apply IH|]. intros tr r c' (-> & Hw & HP).
    split_and!; [done| |]; cbn [app].
    + eapply Forall_impl; [exact Hw|]. intros cl [?|(q & ? & ?)]; [by left|right]. exists q. split; [by right|done].
    + destruct r; [|done..]. constructor; [by rewrite Hp|done].
  - eapply wpm_mono; [by apply ensure_account_works|]. intros tr [u|e|w] c' (-> & Hw & HP); cbn beta iota; [|by auto..].
    eapply wpm_mono; [apply IH|]. intros tr' r c' (-> & Hw' & HP'). split_and!; [done| |].
    + apply Forall_app. split.
      * eapply Forall_impl; [exact (Hone tr eq_refl Hw)|]. intros cl [?|(q & ? & ? & Hq)]; [by left|right]. exists q. split_and!; [done..|].
        eapply account_write_grows; [|exact Hq]. intros ? ?; in_trace.
      * eapply Forall_impl; [exact Hw'|]. intros cl [?|(q & ? & ? & Hq)]; [by left|right]. exists q. split_and!; [by right|done|].
        eapply account_write_grows; [|exact Hq]. intros ? ?; in_trace.
    + destruct r; [|done..]. constructor; [intros _; by apply (grows_app_l (provided p))|].
      eapply Forall_impl; [exact HP'|]. intros q Hq Hnp. by apply (grows_app_r (provided q)), Hq.
Qed.

(** The accounts that were listed as those of the cluster. *)
Definition listed (c : ClusterContext) (tr : trace) (accounts : list ProviderServiceAccount) : Prop :=
  exists items, Call (KubeList KProviderServiceAccount (cc_Namespace c) []) (Ok items) ∈ tr /\
    accounts = List.filter (serves (cc_Name c)) items.

Definition status_of (ty : string) (status : string) (c : ClusterContext) : Prop :=
  exists cnd, the_condition ty c = Some cnd /\ c_Status cnd = status.

Lemma report_accounts_spec reterr c :
  wpm (report_accounts reterr) c (fun tr r c' => Forall (fun cl => effect_of cl = None) tr /\ r = Ok reterr /\
    status_of VSphereClusterProviderServiceAccountsReadyCondition
      (match reterr with Some _ => ConditionFalse | None => ConditionTrue end) c').
Proof.
  unfold report_accounts. wp_step. destruct reterr as [e|]; repeat cond_step; (split; [by repeat constructor|]); (split; [done|]);
    match goal with |- status_of ?ty ?st (put_conditions (conditions_Set ?now (the_conditions ?s) ?cnd) _) =>
      destruct (the_condition_set now cnd s) as (g & t & Hc) end; by eexists.
Qed.

#[export] Instance listed_grows c accounts : Grows (fun tr => listed c tr accounts).
Proof. unfold listed. apply _. Qed.

Lemma accounts_pass_spec cluster c :
  wpm (pSvcAccounts <- wrap "failed to get ProviderServiceAccounts" getProviderServiceAccounts ;;
       wrap "failed to ensure ProviderServiceAccounts" (ensureProviderServiceAccounts cluster pSvcAccounts) ;;
       ret 0) c (fun tr r c' => exists accounts,
    within_all cluster accounts tr tr /\ (listed c tr accounts \/ accounts = []) /\
    match r with
    | Ok _ => listed c tr accounts /\ Forall (fun p => HasPaused (ps_Annotations p) = false -> provided p tr) accounts
    | _ => True
    end).
Proof.
  unfold getProviderServiceAccounts. do 6 wp_step; cbn beta iota.
  2,3: exists []; split_and!; [constructor; [by left|constructor]|by right|done].
  rename a into items. do 3 wp_step. set (accounts := List.filter _ items).
  eapply wpm_mono; [apply accounts_works|]. intros tr r c1 (-> & Hw & HP).
  assert (Hw' : within_all cluster accounts ([Call (KubeList KProviderServiceAccount (cc_Namespace c) []) (Ok items)] ++ tr)
     ([Call (KubeList KProviderServiceAccount (cc_Namespace c) []) (Ok items)] ++ tr)).
  { constructor; [by left|]. eapply Forall_impl; [exact Hw|]. intros cl [?|(q & ? & ? & Hq)]; [by left|right].
    exists q. split_and!; [done..|]. eapply account_write_grows; [|exact Hq]. by intros ? ?; right. }
  assert (Hl : listed c ([Call (KubeList KProviderServiceAccount (cc_Namespace c) []) (Ok items)] ++ tr) accounts)
    by (exists items; split; [left|done]).
  destruct r; cbn [res_wrap]; [wp_step|..]; exists accounts; rewrite ?app_nil_l, ?app_nil_r; (split; [done|]); (split; [by left|]); [|done..].
  split; [done|]. eapply Forall_impl; [exact HP|]. intros p Hp Hnp.
  eapply (grows (P := provided p)); [|by apply Hp]. by intros ? ?; right.
Qed.

(** C21: a pass over the service accounts of a cluster changes objects for the accounts
    that the API server listed in the cluster's namespace as this cluster's, that are not
    being deleted and are not paused, and for no other (and nothing at all when the list
    failed); and for such an account only what is the account's, in its namespace and
    under its name: its service account and the (empty) secret for its token, with the
    account as controller, or the label of that secret; the role that was read or made
    under the account's name, of which only the owners and the rules, those the account
    asks for, change; and the binding read or made under that name, which then is of that
    role to that service account alone, an old binding being deleted only when it refers
    to another role; and in the workload cluster the target namespace and the target
    secret, into which only the data go that were read from the secret of that account's
    token. When the pass succeeds the accounts have all been listed, each that is not
    paused has its role, its binding and, once there is a token, the token in the target
    secret, and the condition of the cluster says so; when it fails the condition says
    that. *)
Theorem service_accounts cluster c tr r c' :
  runs (reconcileNormal cluster c) tr (r, c') ->
  exists accounts,
    within_all cluster accounts tr tr /\ (listed c tr accounts \/ accounts = []) /\
    match r with
    | Ok _ => listed c tr accounts /\ Forall (fun p => HasPaused (ps_Annotations p) = false -> provided p tr) accounts /\
        status_of VSphereClusterProviderServiceAccountsReadyCondition ConditionTrue c'
    | Err _ => status_of VSphereClusterProviderServiceAccountsReadyCondition ConditionFalse c'
    | Stop _ => True
    end.
Proof.
  revert tr r c'. apply (proj1 (wpm_runs _ _ (fun tr r c' => _))).
  unfold reconcileNormal. wp_step. eapply wpm_mono; [apply accounts_pass_spec|].
  intros tr r c1 (accounts & Hw & Hlisted & HP).
  assert (Hdone : forall reterr : option error, wpm (report_accounts reterr) c1 (fun tr' r' c' => r' = Ok reterr /\
     within_all cluster accounts (tr ++ tr') (tr ++ tr') /\
     status_of VSphereClusterProviderServiceAccountsReadyCondition
       (match reterr with Some _ => ConditionFalse | None => ConditionTrue end) c')).
  { intros reterr. eapply wpm_mono; [apply report_accounts_spec|]. intros tr' r' c' (Hn & -> & Hs).
    split; [done|]. split; [|exact Hs]. apply Forall_app. split.
    - eapply Forall_impl; [exact Hw|]. intros cl [?|(q & ? & ? & Hq)]; [by left|right].
      exists q. split_and!; [done..|]. eapply account_write_grows; [|exact Hq]. intros ? ?; in_trace.
    - eapply Forall_impl; [exact Hn|]. by left. }
  destruct r as [z|e|[| ]]; [..|by exists accounts].
  all: eapply wpm_mono; [apply Hdone|]; intros tr' r' c' (-> & Hw' & Hs); exists accounts; (split; [done|]);
    (split; [destruct Hlisted as [?|?]; [left; by apply (grows_app_l (fun tr => listed c tr accounts))|by right]|]); try done.
  destruct HP as [Hl HP]. split_and!; [by apply (grows_app_l (fun tr => listed c tr accounts))| |done].
  eapply Forall_impl; [exact HP|]. intros p Hp Hnp. by apply (grows_app_l (provided p)), Hp.
Qed.
End theorems.

(** * An example *)

Import Network RefLibs.

(** An account whose binding refers to another role and whose token is there; one of
    another cluster; and one that is paused. *)
Definition sample_account (name cluster : string) (annotations : gmap string string) : ProviderServiceAccount :=
  mkProviderServiceAccount (new_meta "ns" name) (Some annotations) (Some cluster)
    [mkPolicyRule ["get"] [""] ["persistentvolumes"] [] []] "kube-system" "csi-token".
Definition sample_accounts : list ProviderServiceAccount :=
  [sample_account "other" "d" ∅; sample_account "paused" "c" {["cluster.x-k8s.io/paused" := ""]}; sample_account "csi" "c" ∅].
Definition sample_token : Secret :=
  mkSecret (new_meta "ns" "csi-secret") None SecretTypeServiceAccountToken {["token" := "abc"]}.
Definition old_binding : RoleBinding := mkRoleBinding (new_meta "ns" "csi") (mkRoleRef rbac_GroupName "Role" "old") [].
Definition account_get {T} (k : Kind T) : res T :=
  match k in Kind T return res T with
  | KSecret => Ok sample_token
  | KRoleBinding => Ok old_binding
  | _ => Err (ELib APINotFound "not found")
  end.
Definition account_list {T} (k : Kind T) : res (list T) :=
  match k in Kind T return res (list T) with
  | KProviderServiceAccount => Ok sample_accounts
  | _ => Ok []
  end.
Definition account_answer (X : Type) (e : Ev X) (w : unit) : X * unit :=
  match e in Ev Y return Y * unit with
  | KubeGet k _ _ => (account_get k, w)
  | KubeList k _ _ => (account_list k, w)
  | KubeFetchOrNew _ o => (Ok o, w)
  | e => ((ref_answer _ e empty_world).1, w)
  end.
Definition accounts_cluster : KubeCluster :=
  mkKubeCluster (new_meta "ns" "c") (Some ("VSphereCluster", "c")) (Types.mkAPIEndpoint "" 0) None [] [] [] None None.
Definition accounts_context : ClusterContext :=
  mkClusterContext (Some accounts_cluster) (sample_vspherecluster "NSXTier1" (vmwarev1.mkAPIEndpoint "" 0)).
Definition accounts_run : trace * (res Z * ClusterContext) := exec account_answer (reconcileNormal accounts_cluster accounts_context) tt.
Lemma accounts_run_runs : runs (reconcileNormal accounts_cluster accounts_context) accounts_run.1 (accounts_run.2.1, accounts_run.2.2).
Proof. rewrite <-surjective_pairing. apply exec_runs. Qed.
Lemma accounts_result : accounts_run.2.1 = Ok 0.
Proof. vm_compute. reflexivity. Qed.

Lemma service_accounts_witness :
  exists accounts, listed accounts_context accounts_run.1 accounts /\
    Forall (fun p => HasPaused (ps_Annotations p) = false -> provided p accounts_run.1) accounts.
Proof.
  destruct (service_accounts accounts_cluster accounts_context accounts_run.1 (Ok 0) accounts_run.2.2) as (accounts & _ & _ & Hl & HP & _).
  - pose proof accounts_run_runs as Hrun. by rewrite accounts_result in Hrun.
  - by exists accounts.
Defined.

(** The binding was deleted and made again, and the token is in the workload cluster. *)
Definition account_effects (tr : trace) : list string :=
  omap (fun cl => match cl with
                  | @Call _ X e _ =>
                      match e with
                      | KubeCreate k _ => Some ("create " +:+ kind_name k)
                      | KubeWrite k _ => Some ("write " +:+ kind_name k)
                      | KubeDelete k _ => Some ("delete " +:+ kind_name k)
                      | _ => None
                      end
                  end) tr.
Example accounts_effects :
  account_effects accounts_run.1 =
    ["create ServiceAccount"; "create Secret"; "write Role"; "delete RoleBinding"; "write RoleBinding"; "create Namespace"; "write Secret"].
Proof. vm_compute. reflexivity. Qed.

End ServiceAccounts.
