(* ===== verification/ServiceDiscovery.v ===== *)
(** [controllers/vmware/servicediscovery_controller.go]: the service in the workload
    cluster through which the supervisor's API server is reached. *)
From S2P Require Import Prelude GoStrings GoNet GoURL Types VmwareTypes Libs Errors Prog World Conditions Identity RefLibs.
From S2P Require Import MachineUtil VmopCommon NetworkInterface Network SupervisorUtil ServiceAccounts.
#[local] Open Scope Z_scope.

Module ServiceDiscovery.
Import MachineUtil vmwarev1 VmopCommon NetworkInterface Network SupervisorUtil.

(** * The objects in the workload cluster *)

Definition headless_meta : ObjectMeta :=
  mkObjectMeta SupervisorHeadlessSvcName SupervisorHeadlessSvcNamespace "" None [] [] None.

Definition newSupervisorHeadlessService `{Libs} (port targetPort : Z) : Service :=
  mkService headless_meta ClusterIPNone [(to_int32 port, to_int32 targetPort)] [].

(** The canonical texts of the addresses, or the first text that is none. *)
Fixpoint endpoint_addresses (targetHosts : list string) : res (list string) :=
  match targetHosts with
  | [] => Ok []
  | targetHost :: targetHosts' =>
      match parse_ip targetHost with
      | None => Err (ENew (sprintf "invalid supervisor API server endpoint %q: must be an IP address" [AS targetHost]))
      | Some ip => res_map (cons (ip_string (Some ip))) (endpoint_addresses targetHosts')
      end
  end.
Definition newSupervisorHeadlessServiceEndpoints (targetHosts : list string) (targetPort : Z) : res Endpoints :=
  res_map (fun addresses => mkEndpoints headless_meta [(addresses, [to_int32 targetPort])]) (endpoint_addresses targetHosts).

(** * The addresses of the supervisor *)

(** The last of the addresses of each family; a text that is no address is an error. *)
Fixpoint vips_by_family (vips : list string) (ipv4 ipv6 : string) : res (string * string) :=
  match vips with
  | [] => Ok (ipv4, ipv6)
  | ip :: vips' =>
      match parse_ip ip with
      | None => Err (ENew (sprintf "invalid supervisor API server VIP %q: must be an IP address" [AS ip]))
      | Some parsedIP =>
          match to4 parsedIP with
          | Some _ => vips_by_family vips' ip ipv6
          | None => vips_by_family vips' ipv4 ip
          end
      end
  end.

Definition present (l : list string) : list string := List.filter (fun ip => negb (String.eqb ip "")) l.
Definition some_vip (result : list string) : res (list string) :=
  match result with
  | [] => Err (ENew "no supervisor apiserver VIP found for dual stack cluster")
  | _ => Ok result
  end.
(** The addresses for a cluster with IPv6. *)
Definition vips_for (ipFamily : ClusterIPFamily) (ipv4 ipv6 : string) : res (list string) :=
  match ipFamily with
  | IPv6SingleStack =>
      if String.eqb ipv6 "" then Err (ENew "no supervisor apiserver IPv6 VIP found for IPv6 single stack cluster")
      else Ok [ipv6]
  | DualStackIPv4Primary => some_vip (present [ipv4; ipv6])
  | DualStackIPv6Primary => some_vip (present [ipv6; ipv4])
  | _ => Err (ENew "unknown cluster IPFamily")
  end.
Definition is_ipv4_single (ipFamily : ClusterIPFamily) : bool := match ipFamily with IPv4SingleStack => true | _ => false end.

Section addresses.
Context `{Libs}.
#[warnings="-notation-for-abbreviation"]
Notation MN := (M Ev ClusterContext).
Open Scope go_scope.

Definition svcKey : string := sprintf "%s/%s" [AS SupervisorLoadBalancerSvcNamespace; AS SupervisorLoadBalancerSvcName].
Definition get_lb_service : MN Service :=
  wrap (sprintf "unable to get supervisor loadbalancer Service %s" [AS svcKey])
    (call_res (KubeGet KService SupervisorLoadBalancerSvcNamespace SupervisorLoadBalancerSvcName)).
Definition no_vip : error := ENew (sprintf "no VIP found in the supervisor loadbalancer Service %s" [AS svcKey]).

Definition getSupervisorAPIServerVIP : MN string :=
  svc <- get_lb_service ;;
  match sr_Ingress svc with
  | ipAddr :: _ => if String.eqb ipAddr "" then fail no_vip else ret ipAddr
  | [] => fail no_vip
  end.
Definition getSupervisorAPIServerVIPs : MN (list string) :=
  svc <- get_lb_service ;;
  match present (sr_Ingress svc) with
  | [] => fail no_vip
  | vips => ret vips
  end.

(** The kubeconfig that a ConfigMap holds. *)
Definition tryParseClusterInfoFromConfigMap (cm : ConfigMap) : res KubeConfig :=
  let om := cf_ObjectMeta cm in
  match cf_Data cm !! KubeConfigKey with
  | None => Err (ENew (sprintf "no %s key in ConfigMap %s/%s" [AS KubeConfigKey; AS (om_Namespace om); AS (om_Name om)]))
  | Some kubeConfigString =>
      if String.eqb kubeConfigString "" then
        Err (ENew (sprintf "no %s key in ConfigMap %s/%s" [AS KubeConfigKey; AS (om_Namespace om); AS (om_Name om)]))
      else
        match clientcmd_Load kubeConfigString with
        | inl parsedKubeConfig => Ok parsedKubeConfig
        | inr err => Err (EWrap (sprintf "couldn't parse the kubeconfig file in the ConfigMap %s/%s"
                                   [AS (om_Namespace om); AS (om_Name om)]) (ENew err))
        end
  end.
(** The server of the default cluster of a kubeconfig. *)
Definition getClusterFromKubeConfig (config : KubeConfig) : option string :=
  match cg_Clusters config !! "" with
  | Some server => Some server
  | None =>
      match cg_Contexts config !! cg_CurrentContext config with
      | Some cluster => cg_Clusters config !! cluster
      | None => None
      end
  end.

Definition cmKey : string := sprintf "%s/%s" [AS NamespacePublic; AS ConfigMapClusterInfo].
Definition getSupervisorAPIServerURLWithFIP : MN string :=
  cm <- wrap (sprintf "unable to get ConfigMap %s" [AS cmKey]) (call_res (KubeGet KConfigMap NamespacePublic ConfigMapClusterInfo)) ;;
  kubeconfig <- of_res (tryParseClusterInfoFromConfigMap cm) ;;
  match getClusterFromKubeConfig kubeconfig with
  | Some server => ret server
  | None => fail (ENew (sprintf "unable to get cluster from kubeconfig in ConfigMap %s" [AS cmKey]))
  end.

(** The host of the supervisor's URL. *)
Definition host_of_url (urlString : string) : res string :=
  match Parse urlString with
  | None => Err (EWrap (sprintf "unable to parse supervisor URL from %s" [AS urlString]) (ENew (url_ParseError urlString)))
  | Some urlVal =>
      let host := Hostname urlVal in
      if String.eqb host "" then Err (ENew (sprintf "unable to get supervisor host from URL %s" [AS (url_String urlString)]))
      else Ok host
  end.
Definition getSupervisorAPIServerFIP : MN string :=
  urlString <- wrap "unable to get supervisor URL" getSupervisorAPIServerURLWithFIP ;;
  of_res (host_of_url urlString).

(** The address of the load balancer or, failing that, the floating address. *)
Definition vip_or_fip : MN (list string) :=
  vip <- try getSupervisorAPIServerVIP ;;
  match vip with
  | inl supervisorHost => ret [supervisorHost]
  | inr vipErr =>
      fip <- try getSupervisorAPIServerFIP ;;
      match fip with
      | inl supervisorHost => ret [supervisorHost]
      | inr fipErr =>
          match NewAggregate [Some vipErr; Some fipErr] with
          | Some err => fail (EWrap "Failed to discover supervisor API server endpoint" err)
          | None => ret []
          end
      end
  end.
(** The addresses of the load balancer, by family. *)
Definition all_vips (ipFamily : ClusterIPFamily) : MN (list string) :=
  vips <- wrap "failed to discover supervisor API server VIPs" getSupervisorAPIServerVIPs ;;
  if 3 <=? zlen vips then fail (ENew (sprintf "found too many VIPs: %v" [AL vips]))
  else
    byFamily <- of_res (vips_by_family vips "" "") ;;
    of_res (vips_for ipFamily byFamily.1 byFamily.2).
End addresses.

Section reconciler.
Context `{Libs} {NP : Type} `{!NetworkProvider NP}.
#[warnings="-notation-for-abbreviation"]
Notation MN := (M Ev ClusterContext).
Open Scope go_scope.

Definition getSupervisorAPIServerAddresses (np : NP) : MN (list string) :=
  c <- get ;;
  if SupportsIPv6DualStack np then
    ipFamily <- of_res (ip_family (cc_Cluster c)) ;;
    if negb (is_ipv4_single ipFamily) then all_vips ipFamily else vip_or_fip
  else vip_or_fip.

(** * The pass *)

Definition discovery_failed (err : error) : MN unit :=
  cond_false ServiceDiscoveryReadyV1Beta1Condition SupervisorHeadlessServiceSetupFailedV1Beta1Reason SeverityWarning (error_string err) ;;
  cond_set (cond VSphereClusterServiceDiscoveryReadyCondition ConditionFalse VSphereClusterServiceDiscoveryNotReadyReason (error_string err)).
Definition discovery_ready : MN unit :=
  cond_true ServiceDiscoveryReadyV1Beta1Condition ;;
  cond_set (cond VSphereClusterServiceDiscoveryReadyCondition ConditionTrue VSphereClusterServiceDiscoveryReadyReason "").

(** The service without a selector is made when it is not there. *)
Definition ensure_headless_service (svc : Service) : MN unit :=
  let om := sr_ObjectMeta svc in
  got <- try (call_res (KubeGet (KGuest KService) (om_Namespace om) (om_Name om))) ;;
  match got with
  | inl _ => ret tt
  | inr err =>
      if negb (IsNotFound err) then
        fail (EWrap (sprintf "failed to check if Service %s already exists" [AS (KRef (om_Namespace om) (om_Name om))]) err)
      else
        created <- try (call_res (KubeCreate (KGuest KService) svc)) ;;
        match created with
        | inl _ => ret tt
        | inr err =>
            if negb (IsAlreadyExists err) then fail (EWrap "failed to create supervisor headless Service" err) else ret tt
        end
  end.

Definition publish (newEndpoints : Endpoints) : MN unit :=
  let om := en_ObjectMeta newEndpoints in
  wrap "failed to create or patch service Endpoints"
    (endpoints <- call_res (KubeFetchOrNew (KGuest KEndpoints)
       (mkEndpoints (mkObjectMeta (om_Name om) (om_Namespace om) "" None [] [] None) [])) ;;
     call_res (KubeWrite (KGuest KEndpoints) (mkEndpoints (en_ObjectMeta endpoints) (en_Subsets newEndpoints)))) ;;
  discovery_ready.

Definition reconcileSupervisorHeadlessService (np : NP) : MN unit :=
  let supervisorPort := SupervisorAPIServerPort in
  let svc := newSupervisorHeadlessService SupervisorHeadlessSvcPort supervisorPort in
  ensure_headless_service svc ;;
  supervisorHosts <- try (getSupervisorAPIServerAddresses np) ;;
  match supervisorHosts with
  | inr err => discovery_failed err
  | inl supervisorHosts =>
      match newSupervisorHeadlessServiceEndpoints supervisorHosts supervisorPort with
      | Err err => discovery_failed err
      | Stop w => of_res (Stop w)
      | Ok newEndpoints => publish newEndpoints
      end
  end.

Definition reconcileNormal (np : NP) : MN unit :=
  done <- try (reconcileSupervisorHeadlessService np) ;;
  match done with
  | inl _ => ret tt
  | inr err => discovery_failed err ;; fail (EWrap "failed to reconcile supervisor headless Service" err)
  end.
End reconciler.

Section pass.
Context `{Libs} `{FeatureGates}.
#[warnings="-notation-for-abbreviation"]
Notation MN := (M Ev ClusterContext).
Open Scope go_scope.

Definition reconcile_discovery (f : NetworkProviderFactory) (cluster : KubeCluster) : MN Z :=
  c <- get ;;
  let vsphereCluster := cc_VSphereCluster c in
  if bool_decide (om_DeletionTimestamp (v_ObjectMeta vsphereCluster) <> None) then ret 0
  else
    match ForCluster f vsphereCluster with
    | Err err =>
        if error_is err ErrNetworkProviderEmpty then ret 0
        else fail (EWrap (sprintf "failed to resolve network provider for VSphereCluster %s"
               [AS (KRef (om_Namespace (v_ObjectMeta vsphereCluster)) (om_Name (v_ObjectMeta vsphereCluster)))]) err)
    | Stop w => of_res (Stop w)
    | Ok np => ServiceAccounts.with_guest cluster (reconcileNormal np ;; ret 0)
    end.

Definition Reconcile (f : NetworkProviderFactory) (namespace name : string) : M Ev unit Z :=
  got <- try (call_res (KubeGet KVSphereCluster namespace name)) ;;
  match got with
  | inr err => if IsNotFound err then ret 0 else fail err
  | inl vsphereCluster =>
      let om := v_ObjectMeta vsphereCluster in
      cluster <- wrap "failed to get Cluster from VSphereCluster" (call_res (GetClusterFromMetadata om)) ;;
      paused <- ask (IsPausedOf cluster "VSphereCluster" om) ;;
      if (paused : bool) then ret 0
      else
        call_res (NewPatchHelperOf "VSphereCluster" om) ;;
        local (mkClusterContext (Some cluster) vsphereCluster) (finally ServiceAccounts.patch_on_exit (reconcile_discovery f cluster))
  end.

(** * Which VSphereClusters to reconcile when another object changes *)

Definition allClustersRequests : M Ev unit (list (string * string)) :=
  clusters <- try (call_res (KubeList KVSphereCluster "" [])) ;;
  ret (match clusters with
       | inl items => map (fun c => (om_Namespace (v_ObjectMeta c), om_Name (v_ObjectMeta c))) items
       | inr _ => []
       end).
Definition serviceToClusters (om : ObjectMeta) : M Ev unit (list (string * string)) :=
  if negb (String.eqb (om_Namespace om) SupervisorLoadBalancerSvcNamespace) || negb (String.eqb (om_Name om) SupervisorLoadBalancerSvcName)
  then ret [] else allClustersRequests.
Definition configMapToClusters (om : ObjectMeta) : M Ev unit (list (string * string)) :=
  if negb (String.eqb (om_Namespace om) NamespacePublic) || negb (String.eqb (om_Name om) ConfigMapClusterInfo)
  then ret [] else allClustersRequests.

(** The VSphereCluster of a Cluster, unless something else manages it. *)
Definition clusterToSupervisorVSphereClusterFunc (cluster : KubeCluster) : M Ev unit (list (string * string)) :=
  requests <- ask (ClusterToInfrastructure VMwareGroupVersion "VSphereCluster" (kc_ObjectMeta cluster)) ;;
  match requests with
  | [] => ret []
  | (namespace, name) :: _ =>
      got <- try (call_res (KubeGet KVSphereCluster namespace name)) ;;
      match got with
      | inr _ => ret []
      | inl c =>
          external <- ask (IsExternallyManagedOf "VSphereCluster" (v_ObjectMeta c)) ;;
          ret (if (external : bool) then [] else requests)
      end
  end.
End pass.

(** * Addresses by family *)

Definition is_v4 (host : string) : Prop := exists ip, parse_ip host = Some ip /\ to4 ip <> None.
Definition is_v6 (host : string) : Prop := exists ip, parse_ip host = Some ip /\ to4 ip = None.

Lemma not_both host : is_v4 host -> is_v6 host -> False.
Proof. intros (ip & Hip & H4) (ip' & Hip' & H6). congruence. Qed.
Lemma v4_nonempty : is_v4 "" -> False.
Proof. by intros (ip & Hip & _). Qed.
Lemma v6_nonempty : is_v6 "" -> False.
Proof. by intros (ip & Hip & _). Qed.

(** The one address of a family, if there is one among the addresses. *)
Definition of_family (P : string -> Prop) (vips : list string) (ip : string) : Prop :=
  (ip = "" /\ Forall (fun v => ~ P v) vips) \/ (ip ∈ vips /\ P ip).

Lemma vips_by_family_spec vips a b a' b' :
  vips_by_family vips a b = Ok (a', b') ->
  Forall (fun v => is_v4 v \/ is_v6 v) vips /\
  ((a' = a /\ Forall (fun v => ~ is_v4 v) vips) \/ (a' ∈ vips /\ is_v4 a')) /\
  ((b' = b /\ Forall (fun v => ~ is_v6 v) vips) \/ (b' ∈ vips /\ is_v6 b')).
Proof.
  revert a b. induction vips as [|v vips IH]; intros a b; cbn [vips_by_family].
  - intros [= -> ->]. split_and!; [constructor|by left|by left].
  - destruct (parse_ip v) as [ip|] eqn:Hip; [|done]. destruct (to4 ip) eqn:H4; intros Hv.
    + assert (Hv4 : is_v4 v) by (exists ip; by rewrite H4).
      apply IH in Hv as (Hall & Ha & Hb). split_and!; [constructor; [by left|done]| |].
      * destruct Ha as [[-> _]|[? ?]]; right; [split; [left|done]|split; [by right|done]].
      * destruct Hb as [[-> Hn]|[? ?]]; [left|right; split; [by right|done]].
        split; [done|]. constructor; [|done]. intros ?. by eapply not_both.
    + assert (Hv6 : is_v6 v) by (by exists ip).
      apply IH in Hv as (Hall & Ha & Hb). split_and!; [constructor; [by right|done]| |].
      * destruct Ha as [[-> Hn]|[? ?]]; [left|right; split; [by right|done]].
        split; [done|]. constructor; [|done]. intros ?. by eapply not_both.
      * destruct Hb as [[-> _]|[? ?]]; right; [split; [left|done]|split; [by right|done]].
Qed.

(** The addresses for a cluster with IPv6, of those of the load balancer: at most two
    were there and all are IP addresses; a cluster with IPv6 alone gets an IPv6 address;
    one with both families an address of each family that there is one of, the primary
    family first. *)
Definition for_family (fam : ClusterIPFamily) (vips hosts : list string) : Prop :=
  zlen vips <= 2 /\ Forall (fun v => is_v4 v \/ is_v6 v) vips /\ hosts <> [] /\ hosts ⊆ vips /\
  exists ipv4 ipv6, of_family is_v4 vips ipv4 /\ of_family is_v6 vips ipv6 /\
    hosts = match fam with
            | IPv6SingleStack => [ipv6]
            | DualStackIPv6Primary => present [ipv6; ipv4]
            | _ => present [ipv4; ipv6]
            end.

Lemma of_family_present P vips ip : of_family P vips ip -> ip <> "" -> ip ∈ vips.
Proof. by intros [[-> _]|[? _]]. Qed.
Lemma present_sub vips l : Forall (fun ip => ip <> "" -> ip ∈ vips) l -> present l ⊆ vips.
Proof.
  intros Hl x Hx. apply list_elem_of_In in Hx. apply List.filter_In in Hx as [Hx Hne].
  rewrite List.Forall_forall in Hl. apply Hl; [done|]. intros ->. done.
Qed.

Lemma vips_for_spec fam vips ipv4 ipv6 hosts :
  zlen vips <= 2 -> vips_by_family vips "" "" = Ok (ipv4, ipv6) -> is_ipv4_single fam = false -> vips_for fam ipv4 ipv6 = Ok hosts ->
  for_family fam vips hosts.
Proof.
  intros Hlen (Hall & H4 & H6)%vips_by_family_spec Hfam Hv. fold (of_family is_v4 vips ipv4) in H4. fold (of_family is_v6 vips ipv6) in H6.
  pose proof (of_family_present _ _ _ H4) as Hin4. pose proof (of_family_present _ _ _ H6) as Hin6.
  assert (Hd : forall l, some_vip l = Ok hosts -> l = hosts /\ hosts <> []) by (intros []; [done|by intros [= <-]]).
  unfold for_family. destruct fam; try done; cbn [vips_for] in Hv.
  - destruct (String.eqb_spec ipv6 "") as [|Hne]; [done|]. injection Hv as <-. split_and!; try done.
    + intros x ->%list_elem_of_singleton. by apply Hin6.
    + by exists ipv4, ipv6.
  - apply Hd in Hv as [<- ?]. split_and!; try done; [apply present_sub; by repeat constructor|by exists ipv4, ipv6].
  - apply Hd in Hv as [<- ?]. split_and!; try done; [apply present_sub; by repeat constructor|by exists ipv4, ipv6].
Qed.

(** * What is published *)

Section theorems.
Context `{Libs} {NP : Type} `{!NetworkProvider NP}.
#[warnings="-notation-for-abbreviation"]
Notation MN := (M Ev ClusterContext).
Open Scope go_scope.

Definition lb_read (svc : Service) (tr : trace) : Prop :=
  Call (KubeGet KService SupervisorLoadBalancerSvcNamespace SupervisorLoadBalancerSvcName) (Ok svc) ∈ tr.
Definition first_vip (svc : Service) : option string :=
  match sr_Ingress svc with ip :: _ => if String.eqb ip "" then None else Some ip | [] => None end.
(** The load balancer could not be read, or has no first address. *)
Definition without_vip (tr : trace) : Prop :=
  (exists e, Call (KubeGet KService SupervisorLoadBalancerSvcNamespace SupervisorLoadBalancerSvcName) (Err e) ∈ tr) \/
  (exists svc, lb_read svc tr /\ first_vip svc = None).
(** The host of the URL of the server in the supervisor's ConfigMap. *)
Definition fip_read (host : string) (tr : trace) : Prop :=
  exists cm config server, Call (KubeGet KConfigMap NamespacePublic ConfigMapClusterInfo) (Ok cm) ∈ tr /\
    tryParseClusterInfoFromConfigMap cm = Ok config /\ getClusterFromKubeConfig config = Some server /\
    hostname_of server = Some host /\ host <> "".

#[export] Instance fip_read_grows host : Grows (fip_read host).
Proof. unfold fip_read. apply _. Qed.

(** Where the addresses of the supervisor may come from. *)
Inductive discovered (np : NP) (c : ClusterContext) (tr : trace) : list string -> Prop :=
| by_vip svc host :
    lb_read svc tr -> first_vip svc = Some host ->
    (SupportsIPv6DualStack np = true -> ip_family (cc_Cluster c) = Ok IPv4SingleStack) -> discovered np c tr [host]
| by_fip host :
    without_vip tr -> fip_read host tr ->
    (SupportsIPv6DualStack np = true -> ip_family (cc_Cluster c) = Ok IPv4SingleStack) -> discovered np c tr [host]
| by_family svc fam hosts :
    lb_read svc tr -> SupportsIPv6DualStack np = true -> ip_family (cc_Cluster c) = Ok fam -> fam <> IPv4SingleStack ->
    for_family fam (present (sr_Ingress svc)) hosts -> discovered np c tr hosts.

Lemma discovered_grows np c hosts tr tr' : tr ⊆ tr' -> discovered np c tr hosts -> discovered np c tr' hosts.
Proof.
  intros Hs [svc host Hl Hf Hc|host Hn Hf Hc|svc fam hs Hl Hd Hf Hne Hv].
  - by eapply by_vip; [apply Hs|..].
  - apply by_fip; [|by eapply (grows (P := fip_read host))|done].
    destruct Hn as [[e He]|(s & Hl & Hf')]; [left; exists e; by apply Hs|right; exists s; split; [by apply Hs|exact Hf']].
  - by eapply by_family; [apply Hs|..].
Qed.

(** What a program reads, when it changes nothing. *)
Definition finds {A} (m : MN A) (P : A -> trace -> Prop) (F : trace -> Prop) : Prop :=
  forall c, wpm m c (fun tr r c' => c' = c /\ effects tr = [] /\ match r with Ok a => P a tr | Err _ => F tr | Stop _ => True end).

Lemma vip_found : finds getSupervisorAPIServerVIP (fun host tr => exists svc, lb_read svc tr /\ first_vip svc = Some host) without_vip.
Proof.
  intros c. unfold getSupervisorAPIServerVIP, get_lb_service, without_vip. do 3 wp_step.
  - destruct (sr_Ingress a) as [|ip rest] eqn:Hi; [|destruct (String.eqb ip "") eqn:He]; wp_step; (split; [done|]); (split; [done|]).
    + right. exists a. split; [left|]. unfold first_vip. by rewrite Hi.
    + right. exists a. split; [left|]. unfold first_vip. by rewrite Hi, He.
    + exists a. split; [left|]. unfold first_vip. by rewrite Hi, He.
  - split; [done|]. split; [done|]. left. exists e. left.
  - done.
Qed.

Lemma host_of_url_spec url host : host_of_url url = Ok host -> hostname_of url = Some host /\ host <> "".
Proof.
  unfold host_of_url, hostname_of. destruct (Parse url) as [u|]; [|done]. cbn zeta.
  destruct (String.eqb_spec (Hostname u) "") as [|Hne]; [done|]. by intros [= <-].
Qed.

Lemma fip_found : finds getSupervisorAPIServerFIP fip_read (fun _ => True).
Proof.
  intros c. unfold getSupervisorAPIServerFIP, getSupervisorAPIServerURLWithFIP. do 5 wp_step; try done.
  wp_step. destruct (tryParseClusterInfoFromConfigMap a) as [config|e|w] eqn:Hp; cbn beta iota; try done.
  wp_step. destruct (getClusterFromKubeConfig config) as [server|] eqn:Hg; wp_step; [|done].
  wp_step. destruct (host_of_url server) as [host|e|w] eqn:Hh; try done.
  apply host_of_url_spec in Hh as [Hh Hne]. split; [done|]. split; [done|].
  exists a, config, server. split_and!; [left|done..].
Qed.

Lemma vip_or_fip_found np c :
  (SupportsIPv6DualStack np = true -> ip_family (cc_Cluster c) = Ok IPv4SingleStack) ->
  wpm vip_or_fip c (fun tr r c' => c' = c /\ effects tr = [] /\ match r with Ok hosts => discovered np c tr hosts | _ => True end).
Proof.
  intros Hfam. unfold vip_or_fip. do 2 wp_step. eapply wpm_mono; [apply vip_found|].
  intros tr [host|e|w] c1 (-> & He & Hf); cbn beta iota; [| |done].
  - wp_step. rewrite app_nil_r. split_and!; [done..|]. destruct Hf as (svc & ? & ?). by eapply by_vip.
  - do 2 wp_step. eapply wpm_mono; [apply fip_found|].
    intros tr' [host|e'|w] c1 (-> & He' & Hf'); cbn beta iota; [| |by rewrite effects_app, He, He'].
    + wp_step. rewrite app_nil_r, effects_app, He, He'. split_and!; [done..|]. apply by_fip; [|by apply (grows_app_r (fip_read host))|done].
      destruct Hf as [[x ?]|(svc & ? & ?)]; [left; exists x|right; exists svc; split; [|done]]; unfold lb_read in *; in_trace.
    + cbn [NewAggregate]. wp_run; rewrite effects_app, He, ?effects_app, He'; done.
Qed.

Lemma all_vips_found np c fam :
  SupportsIPv6DualStack np = true -> ip_family (cc_Cluster c) = Ok fam -> is_ipv4_single fam = false ->
  wpm (all_vips fam) c (fun tr r c' => c' = c /\ effects tr = [] /\ match r with Ok hosts => discovered np c tr hosts | _ => True end).
Proof.
  intros Hd Hfam Hs. unfold all_vips, getSupervisorAPIServerVIPs, get_lb_service. do 5 wp_step; try done.
  destruct (present (sr_Ingress a)) as [|v vips] eqn:Hv; wp_step; [done|].
  destruct (3 <=? zlen (v :: vips)) eqn:Hlen; [by wp_step|]. apply Z.leb_gt in Hlen. do 2 wp_step.
  destruct (vips_by_family (v :: vips) "" "") as [[ipv4 ipv6]|e|w] eqn:Hb; cbn beta iota; try done.
  cbn [fst snd]. wp_step. destruct (vips_for fam ipv4 ipv6) as [hosts|e|w] eqn:Hf; try done.
  split; [done|]. split; [done|]. eapply by_family; [left|done|exact Hfam|by intros ->|]. rewrite Hv.
  eapply vips_for_spec; [lia|done..].
Qed.

Lemma addresses_found np c :
  wpm (getSupervisorAPIServerAddresses np) c (fun tr r c' => c' = c /\ effects tr = [] /\
    match r with Ok hosts => discovered np c tr hosts | _ => True end).
Proof.
  unfold getSupervisorAPIServerAddresses. do 2 wp_step. destruct (SupportsIPv6DualStack np) eqn:Hd; cbn beta iota.
  - do 2 wp_step. destruct (ip_family (cc_Cluster c)) as [fam|e|w] eqn:Hf; cbn beta iota; try done.
    destruct (is_ipv4_single fam) eqn:Hs; cbn [negb].
    + eapply wpm_mono; [apply (vip_or_fip_found np); intros _; rewrite Hf; by destruct fam|]. by intros tr r c' ?.
    + eapply wpm_mono; [by apply (all_vips_found np _ fam)|]. by intros tr r c' ?.
  - eapply wpm_mono; [apply (vip_or_fip_found np); by rewrite Hd|]. by intros tr r c' ?.
Qed.

(** The addresses as they are published: in canonical form, with the port of the API
    server of the supervisor, as the only subset of the Endpoints of the headless
    service that were read in the workload cluster, or are new. *)
Definition canonical : list string -> list string -> Prop :=
  Forall2 (fun host address => exists ip, parse_ip host = Some ip /\ address = ip_string (Some ip)).
Definition published (hosts : list string) (tr : trace) (endpoints : Endpoints) : Prop :=
  exists addresses found, canonical hosts addresses /\
    Call (KubeFetchOrNew (KGuest KEndpoints) (mkEndpoints (mkObjectMeta "supervisor" "default" "" None [] [] None) [])) (Ok found) ∈ tr /\
    endpoints = mkEndpoints (en_ObjectMeta found) [(addresses, [6443])].
#[export] Instance published_grows hosts endpoints : Grows (fun tr => published hosts tr endpoints).
Proof. unfold published. apply _. Qed.

(** The changes that may be made. *)
Inductive headless_write (np : NP) (c : ClusterContext) (tr : trace) : call Ev -> Prop :=
| makes_service x :
    headless_write np c tr (Call (KubeCreate (KGuest KService)
      (mkService (mkObjectMeta "supervisor" "default" "" None [] [] None) ClusterIPNone [(6443, 6443)] [])) x)
| writes_endpoints hosts endpoints x :
    discovered np c tr hosts -> published hosts tr endpoints ->
    headless_write np c tr (Call (KubeWrite (KGuest KEndpoints) endpoints) x).

Lemma endpoint_addresses_spec hosts addresses :
  endpoint_addresses hosts = Ok addresses ->
  canonical hosts addresses.
Proof.
  revert addresses. induction hosts as [|h hosts IH]; intros addresses; cbn [endpoint_addresses]; [intros [= <-]; constructor|].
  destruct (parse_ip h) as [ip|] eqn:Hip; [|done]. destruct (endpoint_addresses hosts) as [l|e|w]; [|done..].
  intros [= <-]. constructor; [by exists ip|by apply IH].
Qed.
Lemma newEndpoints_spec hosts endpoints :
  newSupervisorHeadlessServiceEndpoints hosts SupervisorAPIServerPort = Ok endpoints ->
  exists addresses, canonical hosts addresses /\ endpoints = mkEndpoints headless_meta [(addresses, [6443])].
Proof.
  unfold newSupervisorHeadlessServiceEndpoints. destruct (endpoint_addresses hosts) as [l|e|w] eqn:Hl; [|done..].
  intros [= <-]. exists l. split; [by apply endpoint_addresses_spec|done].
Qed.
Lemma newEndpoints_returns hosts port w : newSupervisorHeadlessServiceEndpoints hosts port <> Stop w.
Proof.
  unfold newSupervisorHeadlessServiceEndpoints.
  assert (Hn : forall w, endpoint_addresses hosts <> Stop w).
  { induction hosts as [|h hosts IH]; intros w'; cbn [endpoint_addresses]; [done|]. destruct (parse_ip h); [|done].
    specialize (IH w'). by destruct (endpoint_addresses hosts) as [| |w'']. }
  specialize (Hn w). destruct (endpoint_addresses hosts); cbn; congruence.
Qed.

Lemma conditions_spec (m : MN unit) status c :
  m = (discovery_ready) /\ status = ConditionTrue \/ (exists err, m = discovery_failed err) /\ status = ConditionFalse ->
  wpm m c (fun tr r c' => effects tr = [] /\ adorned c c' /\ r = Ok tt /\ ServiceAccounts.status_of VSphereClusterServiceDiscoveryReadyCondition status c').
Proof.
  intros [[-> ->]|[[err ->] ->]]; [unfold discovery_ready|unfold discovery_failed]; repeat cond_step; (split; [done|]);
    (split; [etrans; [apply adorned_put_v1beta1|apply adorned_put]|]); (split; [done|]);
    match goal with |- ServiceAccounts.status_of ?ty ?st (put_conditions (conditions_Set ?now (the_conditions ?s) ?cnd) _) =>
      destruct (the_condition_set now cnd s) as (g & t & Hc) end; by eexists.
Qed.

Definition the_service : Service := mkService headless_meta ClusterIPNone [(6443, 6443)] [].
Lemma ensure_headless_service_spec c :
  wpm (ensure_headless_service the_service) c (fun tr r c' => c' = c /\
    Forall (fun cl => effect_of cl = None \/ exists x, cl = Call (KubeCreate (KGuest KService) the_service) x) tr).
Proof.
  unfold ensure_headless_service. cbn zeta. do 3 wp_step; wp_run; (split; [done|]);
    repeat first [apply Forall_nil_2 | apply Forall_cons_2; [first [left; reflexivity | right; by eexists]|]].
Qed.

Lemma headless_write_grows np c tr tr' cl : tr ⊆ tr' -> headless_write np c tr cl -> headless_write np c tr' cl.
Proof. intros Hs [x|hosts endpoints x Hd Hp]; [constructor|]. apply (writes_endpoints _ _ _ hosts); [by eapply discovered_grows|by eapply (grows (P := fun tr => published hosts tr _))]. Qed.
(** Nothing but what may be changed is. *)
Definition within (np : NP) (c : ClusterContext) (tr : trace) : Prop :=
  Forall (fun cl => effect_of cl = None \/ headless_write np c tr cl) tr.
Lemma within_both np c tr tr' : within np c tr -> within np c tr' -> within np c (tr ++ tr').
Proof.
  intros H1 H2. apply Forall_app. split; eapply Forall_impl; [exact H1| |exact H2|]; intros cl [?|Hw]; try (by left); right;
    (eapply headless_write_grows; [|exact Hw]); intros ? ?; in_trace.
Qed.
Lemma within_reads np c tr : effects tr = [] -> within np c tr.
Proof. intros He. apply no_effects in He. eapply Forall_impl; [exact He|]. by left. Qed.

(** The endpoints are those of the addresses that were found, or are left alone. *)
Definition is_published (np : NP) (c : ClusterContext) (tr : trace) : Prop :=
  exists hosts endpoints n, discovered np c tr hosts /\ published hosts tr endpoints /\
    Call (KubeWrite (KGuest KEndpoints) endpoints) (Ok n) ∈ tr.
Definition left_alone (tr : trace) : Prop := forall endpoints x, Call (KubeWrite (KGuest KEndpoints) endpoints) x ∉ tr.
Lemma left_alone_app tr tr' : left_alone tr -> left_alone tr' -> left_alone (tr ++ tr').
Proof. intros H1 H2 e x [?|?]%elem_of_app; [by eapply H1|by eapply H2]. Qed.
Lemma left_alone_reads tr : effects tr = [] -> left_alone tr.
Proof. intros He e x Hin. apply no_effects in He. rewrite Forall_forall in He. by apply He in Hin. Qed.
Lemma left_alone_service tr :
  Forall (fun cl => effect_of cl = None \/ exists x, cl = Call (KubeCreate (KGuest KService) the_service) x) tr -> left_alone tr.
Proof. intros Hf e x Hin. rewrite Forall_forall in Hf. apply Hf in Hin as [?|[y Hy]]; [done|]. by inversion Hy. Qed.
Lemma within_service np c tr :
  Forall (fun cl => effect_of cl = None \/ exists x, cl = Call (KubeCreate (KGuest KService) the_service) x) tr -> within np c tr.
Proof. intros Hf. eapply Forall_impl; [exact Hf|]. intros cl [?|[x ->]]; [by left|right; apply (makes_service _ _ _ x)]. Qed.

Definition ready (status : string) (c : ClusterContext) : Prop :=
  ServiceAccounts.status_of VSphereClusterServiceDiscoveryReadyCondition status c.

Lemma publish_writes np hosts addresses tr0 c :
  canonical hosts addresses -> discovered np c tr0 hosts -> within np c tr0 ->
  wpm (publish (mkEndpoints headless_meta [(addresses, [6443])])) c (fun tr r c' => adorned c c' /\ within np c (tr0 ++ tr) /\
    match r with Ok _ => ready ConditionTrue c' /\ is_published np c (tr0 ++ tr) | _ => True end).
Proof.
  intros Hp Hd Hw. unfold publish. cbn [en_ObjectMeta en_Subsets om_Name om_Namespace headless_meta]. cbn zeta. fold headless_meta.
  assert (Hd' : forall tr, discovered np c (tr0 ++ tr) hosts) by (intros tr; eapply discovered_grows; [|exact Hd]; intros ? ?; in_trace).
  do 4 wp_step; [|by split_and!; [constructor|apply within_both, within_reads|]..].
  assert (Hp' : forall tr, Call (KubeFetchOrNew (KGuest KEndpoints) (mkEndpoints headless_meta [])) (Ok a) ∈ tr ->
    published hosts tr (mkEndpoints (en_ObjectMeta a) [(addresses, [6443])])) by (intros tr Hin; by exists addresses, a).
  assert (Hone : forall x tr, effects tr = [] -> within np c (tr0 ++ (([Call (KubeFetchOrNew (KGuest KEndpoints)
       (mkEndpoints headless_meta [])) (Ok a)] ++
       [Call (KubeWrite (KGuest KEndpoints) (mkEndpoints (en_ObjectMeta a) [(addresses, [6443])])) x]) ++ tr))).
  { intros x tr He. apply Forall_app. split.
    - eapply Forall_impl; [exact Hw|]. intros cl [?|Hh]; [by left|right]. eapply headless_write_grows; [|exact Hh]. intros ? ?; in_trace.
    - apply Forall_app. split.
      + constructor; [by left|]. constructor; [|constructor]. right. eapply writes_endpoints; [apply Hd'|]. apply Hp'. in_trace.
      + apply no_effects in He. eapply Forall_impl; [exact He|]. by left. }
  wp_step; try (split_and!; [constructor|rewrite <-(app_nil_r ([_] ++ _)); by apply Hone|done]).
  eapply wpm_mono; [apply (conditions_spec _ ConditionTrue); by left|].
  intros tr r c' (He & Ha & -> & Hs). split_and!; [done|by apply Hone|done|].
  eexists hosts, _, _. split_and!; [apply Hd'|apply Hp'; in_trace|]. rewrite !elem_of_app. right; left; right. left.
Qed.

Lemma headless_spec np c :
  wpm (reconcileSupervisorHeadlessService np) c (fun tr r c' => adorned c c' /\ within np c tr /\
    match r with
    | Ok _ => (ready ConditionTrue c' /\ is_published np c tr) \/ (ready ConditionFalse c' /\ left_alone tr)
    | _ => True
    end).
Proof.
  unfold reconcileSupervisorHeadlessService. cbn zeta. wp_step. eapply wpm_mono; [apply ensure_headless_service_spec|].
  intros tr1 r1 c1 (-> & Hsvc). destruct r1 as [[]|e|w]; [|by split_and!; [constructor|apply within_service|]..].
  do 2 wp_step. eapply wpm_mono; [apply (addresses_found np)|]. intros tr2 r2 c2 (-> & He & Hd).
  assert (Hfail : forall err, wpm (discovery_failed err) c (fun tr3 r c' => adorned c c' /\ within np c (tr1 ++ tr2 ++ tr3) /\
    match r with
    | Ok _ => (ready ConditionTrue c' /\ is_published np c (tr1 ++ tr2 ++ tr3)) \/ (ready ConditionFalse c' /\ left_alone (tr1 ++ tr2 ++ tr3))
    | _ => True
    end)).
  { intros err. eapply wpm_mono; [apply (conditions_spec _ ConditionFalse); right; by split; [eexists|]|].
    intros tr3 r c' (He3 & Ha & -> & Hs). split; [done|].
    split; [apply within_both; [by apply within_service|]; apply within_reads; by rewrite effects_app, He, He3|].
    right. split; [done|]. apply left_alone_app; [by apply left_alone_service|]. apply left_alone_reads. by rewrite effects_app, He, He3. }
  destruct r2 as [hosts|e|w]; cbn beta iota; [|apply Hfail|by split_and!; [constructor|apply within_both; [apply within_service|apply within_reads]|]].
  destruct (newSupervisorHeadlessServiceEndpoints hosts _) as [endpoints|e|w] eqn:Hn; [|apply Hfail|by apply newEndpoints_returns in Hn].
  apply newEndpoints_spec in Hn as (addresses & Hp & ->). eapply wpm_mono; [apply (publish_writes np hosts addresses (tr1 ++ tr2)); [done| |]|].
  - eapply discovered_grows; [|exact Hd]. intros ? ?; in_trace.
  - apply within_both; [by apply within_service|by apply within_reads].
  - intros tr3 r c' (Ha & Hw & Hr). rewrite app_assoc. split_and!; [done..|]. destruct r; [by left|done..].
Qed.

(** C22: a pass of the discovery of the supervisor touches, in the VSphereCluster, the
    conditions only and, in the workload cluster, the headless service [supervisor] in
    the namespace [default], which has no selector and is created with the port 6443,
    and the Endpoints of that name in that namespace only. What is written into these
    Endpoints, as they were read, or as new ones, is one subset with the addresses that
    were discovered, in canonical form and with port 6443: the first address of the
    load balancer or, when there is none, the host of the URL in the supervisor's
    ConfigMap, for a cluster that has IPv4 alone (or when the network provider has no
    dual stack); otherwise the addresses of the load balancer by family, of which there
    are at most two, the cluster's primary family first. A pass that succeeds either has
    written them and the condition is true, or the condition is false and the endpoints
    were left alone; a pass that fails says so in the condition. *)
Theorem supervisor_published np c tr r c' :
  runs (reconcileNormal np c) tr (r, c') ->
  cluster_view c' = cluster_view c /\ within np c tr /\
  match r with
  | Ok _ => (ready ConditionTrue c' /\ is_published np c tr) \/ (ready ConditionFalse c' /\ left_alone tr)
  | Err _ => ready ConditionFalse c'
  | Stop _ => True
  end.
Proof.
  intros Hrun. enough (adorned c c' /\ within np c tr /\ match r with
    | Ok _ => (ready ConditionTrue c' /\ is_published np c tr) \/ (ready ConditionFalse c' /\ left_alone tr)
    | Err _ => ready ConditionFalse c' | Stop _ => True end) as (Ha & ?) by (split; [by apply adorned_view|done]).
  revert tr r c' Hrun. apply (proj1 (wpm_runs _ _ (fun tr r c' => _))).
  unfold reconcileNormal. do 2 wp_step. eapply wpm_mono; [apply headless_spec|].
  intros tr r c1 (Ha & Hw & Hr). destruct r as [u|e|w]; cbn beta iota; [wp_step; by rewrite app_nil_r| |done].
  wp_step. eapply wpm_mono; [apply (conditions_spec _ ConditionFalse); right; by split; [eexists|]|].
  intros tr2 r2 c2 (He & Ha2 & -> & Hs). wp_step. rewrite app_nil_r. split_and!; [by etrans| |done].
  apply within_both; [done|by apply within_reads].
Qed.

(** The host of a URL with a port is found: a name or an IPv4 address as it is, an IPv6
    address without its brackets. *)
Lemma host_of_supervisor_url host port fs :
  all_bytes is_digit port = true -> host <> "" ->
  (all_bytes plain host = true -> host_of_url ("https://" +:+ host +:+ ":" +:+ port) = Ok host) /\
  (all_bytes plain_or_colon host = true -> parse_addr host = Some (V6 fs "") ->
   host_of_url ("https://" +:+ literal host +:+ ":" +:+ port) = Ok host).
Proof.
  intros Hp Hne. assert (Hgo : forall url, hostname_of url = Some host -> host_of_url url = Ok host).
  { intros url Hu. unfold hostname_of in Hu. unfold host_of_url. destruct (Parse url) as [u|]; [|done].
    injection Hu as ->. cbn zeta. by destruct (String.eqb_spec host ""). }
  split; intros Hh; [apply Hgo; by apply hostname_with_port|]. intros Ha. apply Hgo. by eapply hostname_of_ipv6.
Qed.
End theorems.

(** * Examples *)

Import RefLibs.

Definition gates_off : FeatureGates := Build_FeatureGates false false false false true false false.
#[local] Existing Instance gates_off.

Definition discovery_cluster (blocks : list string) : KubeCluster :=
  mkKubeCluster (new_meta "ns" "c") (Some ("VSphereCluster", "c")) (Types.mkAPIEndpoint "" 0) None [] blocks [] None None.
Definition discovery_context (blocks : list string) : ClusterContext :=
  mkClusterContext (Some (discovery_cluster blocks)) (sample_vspherecluster "VPC" (mkAPIEndpoint "" 0)).
Definition lb_service (ingress : list string) : Service := mkService (new_meta "kube-system" "kube-apiserver-lb-svc") "" [] ingress.
Definition discovery_get (ingress : list string) {T} (k : Kind T) : res T :=
  match k in Kind T return res T with
  | KService => Ok (lb_service ingress)
  | _ => Err (ELib APINotFound "not found")
  end.
Definition discovery_answer (X : Type) (e : Ev X) (ingress : list string) : X * list string :=
  match e in Ev Y return Y * list string with
  | KubeGet k _ _ => (discovery_get ingress k, ingress)
  | KubeFetchOrNew _ o => (Ok o, ingress)
  | e => ((ref_answer _ e empty_world).1, ingress)
  end.
Definition discovery_run (blocks ingress : list string) : trace * (res unit * ClusterContext) :=
  exec discovery_answer (reconcileNormal nsxtVPCNetworkProvider (discovery_context blocks)) ingress.
Lemma discovery_run_runs blocks ingress :
  runs (reconcileNormal nsxtVPCNetworkProvider (discovery_context blocks)) (discovery_run blocks ingress).1
    ((discovery_run blocks ingress).2.1, (discovery_run blocks ingress).2.2).
Proof. rewrite <-surjective_pairing. apply exec_runs. Qed.

Definition dual_blocks : list string := ["10.0.0.0/16"; "fd00::/48"].
Definition both_vips : list string := ["fd00:0::1"; "10.1.0.5"].
Lemma discovery_result : (discovery_run dual_blocks both_vips).2.1 = Ok tt.
Proof. vm_compute. reflexivity. Qed.
Lemma supervisor_published_witness :
  cluster_view (discovery_run dual_blocks both_vips).2.2 = cluster_view (discovery_context dual_blocks) /\
  within nsxtVPCNetworkProvider (discovery_context dual_blocks) (discovery_run dual_blocks both_vips).1.
Proof.
  destruct (supervisor_published nsxtVPCNetworkProvider (discovery_context dual_blocks) (discovery_run dual_blocks both_vips).1 (Ok tt)
              (discovery_run dual_blocks both_vips).2.2) as (Hv & Hw & _).
  - pose proof (discovery_run_runs dual_blocks both_vips) as Hrun. by rewrite discovery_result in Hrun.
  - by split.
Defined.

(** The endpoints that are written. *)
Definition endpoints_written (tr : trace) : list (list (list string * list Z)) :=
  omap (fun cl => match cl with
                  | @Call _ X e _ =>
                      match e with
                      | @KubeWrite T k o =>
                          match k in Kind T return T -> option (list (list string * list Z)) with
                          | KGuest k' => match k' in Kind T return T -> option (list (list string * list Z)) with
                                         | KEndpoints => fun o => Some (en_Subsets o)
                                         | _ => fun _ => None
                                         end
                          | _ => fun _ => None
                          end o
                      | _ => None
                      end
                  end) tr.
Example dual_published :
  endpoints_written (discovery_run dual_blocks both_vips).1 = [[(["10.1.0.5"; "fd00::1"], [6443])]].
Proof. vm_compute. reflexivity. Qed.

(** A cluster that has IPv4 alone is given the first address, of whatever family. *)
Example ipv4_cluster_gets_ipv6 :
  endpoints_written (discovery_run ["10.0.0.0/16"] both_vips).1 = [[(["fd00::1"], [6443])]].
Proof. vm_compute. reflexivity. Qed.

(** Of two addresses of one family the last one is taken. *)
Example last_of_family :
  endpoints_written (discovery_run ["fd00::/48"] ["fd00::1"; "fd00::2"]).1 = [[(["fd00::2"], [6443])]].
Proof. vm_compute. reflexivity. Qed.

End ServiceDiscovery.
