(* ===== verification/MachineTemplate.v ===== *)
(** [controllers/vmware/vspheremachinetemplate_controller.go]: what a template of
    machines says about the nodes made from it. *)
From S2P Require Import Prelude GoStrings Types VmwareTypes Libs Errors Prog World RefLibs VmopCommon.
#[local] Open Scope Z_scope.

Module MachineTemplate.
Import vmwarev1 vmoprvhub VmopCommon.

(** The values that are known, and no value for the others. *)
Definition normalizeOperatingSystem (os : string) : string :=
  if String.eqb os "linux" then OperatingSystemLinux
  else if String.eqb os "windows" then OperatingSystemWindows
  else "".
Definition normalizeArchitecture (arch : string) : string :=
  if String.eqb arch "amd64" then ArchitectureAmd64
  else if String.eqb arch "arm64" then ArchitectureArm64
  else if String.eqb arch "s390x" then ArchitectureS390x
  else if String.eqb arch "ppc64le" then ArchitecturePpc64le
  else "".

(** The last value of each of the two properties of an image. *)
Definition os_and_arch (properties : list (string * string)) : string * string :=
  foldl (fun '(osType, osArch) '(key, value) =>
    if String.eqb key VMwareSystemOSTypePropertyKey then (value, osArch)
    else if String.eqb key VMwareSystemOSArchPropertyKey then (osType, value)
    else (osType, osArch)) ("", "") properties.

(** A value that is known replaces the one that is there. *)
Definition unless_empty (valid old : string) : string := if String.eqb valid "" then old else valid.

Section reconciler.
Context `{Libs}.
Open Scope go_scope.

(** The hardware of the class. *)
Definition with_hardware (vmClass : VirtualMachineClass) (capacity : gmap string string) : gmap string string :=
  let capacity := if 0 <? vk_Cpus vmClass then <[VSphereResourceCPU := NewQuantity (vk_Cpus vmClass)]> capacity else capacity in
  if negb (quantity_IsZero (vk_Memory vmClass)) then <[VSphereResourceMemory := vk_Memory vmClass]> capacity else capacity.

Definition with_status (vmClass : VirtualMachineClass) (os arch : string) (template : VSphereMachineTemplate) : VSphereMachineTemplate :=
  mkVSphereMachineTemplate (mz_ObjectMeta template) (mz_Spec template)
    (Some (with_hardware vmClass (default ∅ (mz_Capacity template))))
    (unless_empty (normalizeOperatingSystem os) (mz_OperatingSystem template))
    (unless_empty (normalizeArchitecture arch) (mz_Architecture template)).

Definition getOSAndArchFromClusterVirtualMachineImage (imageName : string) : M Ev unit (string * string) :=
  if String.eqb imageName "" then ret ("", "")
  else
    got <- try (call_res (KubeGet KClusterVirtualMachineImage "" imageName)) ;;
    match got with
    | inr err =>
        if IsNotFound err then ret ("", "")
        else fail (EWrap (sprintf "failed to get ClusterVirtualMachineImage %q" [AS imageName]) err)
    | inl cvmi => ret (os_and_arch (iy_VMwareSystemProperties cvmi))
    end.

Definition describe (namespace : string) (template : VSphereMachineTemplate) : M Ev unit unit :=
  let spec := mz_Spec template in
  vmClass <- wrap (sprintf "failed to get VirtualMachineClass %q for VSphereMachineTemplate" [AS (ms_ClassName spec)])
               (call_res (KubeGet KVirtualMachineClass namespace (ms_ClassName spec))) ;;
  call_res (NewPatchHelperOf "VSphereMachineTemplate" (mz_ObjectMeta template)) ;;
  info <- getOSAndArchFromClusterVirtualMachineImage (ms_ImageName spec) ;;
  call_res (KubeHelperPatch KVSphereMachineTemplate (with_status vmClass info.1 info.2 template)).

Definition Reconcile (namespace name : string) : M Ev unit unit :=
  got <- try (call_res (KubeGet KVSphereMachineTemplate namespace name)) ;;
  match got with
  | inr err => if IsNotFound err then ret tt else fail err
  | inl template =>
      if String.eqb (ms_ClassName (mz_Spec template)) "" then ret tt else describe namespace template
  end.

(** The templates with a class. *)
Definition enqueueVirtualMachineClassToVSphereMachineTemplateRequests (virtualMachineClass : ObjectMeta)
    : M Ev unit (list (string * string)) :=
  templates <- try (call_res (KubeList KVSphereMachineTemplate (om_Namespace virtualMachineClass) [])) ;;
  ret (match templates with
       | inl items =>
           map (fun t => (om_Namespace (mz_ObjectMeta t), om_Name (mz_ObjectMeta t)))
             (List.filter (fun t => String.eqb (ms_ClassName (mz_Spec t)) (om_Name virtualMachineClass)) items)
       | inr _ => []
       end).
End reconciler.

(** * What is written *)

Definition known_os (os : string) : Prop := os ∈ [OperatingSystemLinux; OperatingSystemWindows].
Definition known_arch (arch : string) : Prop := arch ∈ [ArchitectureAmd64; ArchitectureArm64; ArchitectureS390x; ArchitecturePpc64le].

Lemma normalizeOperatingSystem_known os old :
  unless_empty (normalizeOperatingSystem os) old = old \/
  (unless_empty (normalizeOperatingSystem os) old = os /\ known_os os).
Proof.
  unfold normalizeOperatingSystem, unless_empty.
  repeat match goal with |- context [String.eqb os ?x] =>
    destruct (String.eqb_spec os x) as [->|]; [right; split; [done|by apply list_elem_of_In; simpl; auto 6]|] end.
  by left.
Qed.
Lemma normalizeArchitecture_known arch old :
  unless_empty (normalizeArchitecture arch) old = old \/
  (unless_empty (normalizeArchitecture arch) old = arch /\ known_arch arch).
Proof.
  unfold normalizeArchitecture, unless_empty.
  repeat match goal with |- context [String.eqb arch ?x] =>
    destruct (String.eqb_spec arch x) as [->|]; [right; split; [done|by apply list_elem_of_In; simpl; auto 6]|] end.
  by left.
Qed.

(** A trace without changes. *)
Ltac no_change :=
  cbn [app]; repeat (apply Forall_cons_2; [by left|]);
  first [apply Forall_nil_2 | eapply Forall_impl; [eassumption|]; by left].

Section theorems.
Context `{Libs}.
Open Scope go_scope.

(** What a template may become when its class was read: its specification stays; its
    capacity has the CPUs and the memory of the class, and what else it had; its
    operating system and its architecture stay or become known ones. *)
Definition described (vmClass : VirtualMachineClass) (template template' : VSphereMachineTemplate) : Prop :=
  mz_ObjectMeta template' = mz_ObjectMeta template /\ mz_Spec template' = mz_Spec template /\
  (exists capacity, mz_Capacity template' = Some capacity /\
    (0 < vk_Cpus vmClass -> capacity !! VSphereResourceCPU = Some (NewQuantity (vk_Cpus vmClass))) /\
    (quantity_IsZero (vk_Memory vmClass) = false -> capacity !! VSphereResourceMemory = Some (vk_Memory vmClass)) /\
    forall key, key <> VSphereResourceCPU -> key <> VSphereResourceMemory -> capacity !! key = default ∅ (mz_Capacity template) !! key) /\
  (mz_OperatingSystem template' = mz_OperatingSystem template \/ known_os (mz_OperatingSystem template')) /\
  (mz_Architecture template' = mz_Architecture template \/ known_arch (mz_Architecture template')).

Lemma with_status_described vmClass os arch template : described vmClass template (with_status vmClass os arch template).
Proof.
  unfold described, with_status; cbn. split_and!; [done..| | |].
  - eexists. split; [done|]. unfold with_hardware. split_and!.
    + intros Hc%Z.ltb_lt. rewrite Hc. destruct (negb _); [rewrite lookup_insert_ne by done|]; by rewrite lookup_insert_eq.
    + intros ->. cbn. by rewrite lookup_insert_eq.
    + intros key H1 H2. destruct (negb _), (0 <? _); rewrite ?lookup_insert_ne by done; done.
  - destruct (normalizeOperatingSystem_known os (mz_OperatingSystem template)) as [->|[-> ?]]; [by left|by right].
  - destruct (normalizeArchitecture_known arch (mz_Architecture template)) as [->|[-> ?]]; [by left|by right].
Qed.

(** A pass changes nothing but the template it is for, which it patches once, and only
    when it names a class; the patch says what the class that was read says. *)
Theorem template_described namespace name tr r u :
  runs (Reconcile namespace name tt) tr (r, u) ->
  Forall (fun cl => effect_of cl = None \/ exists template vmClass template' x, cl = Call (KubeHelperPatch KVSphereMachineTemplate template') x /\
    Call (KubeGet KVSphereMachineTemplate namespace name) (Ok template) ∈ tr /\
    Call (KubeGet KVirtualMachineClass namespace (ms_ClassName (mz_Spec template))) (Ok vmClass) ∈ tr /\
    ms_ClassName (mz_Spec template) <> "" /\ described vmClass template template') tr.
Proof.
  revert tr r u. apply (proj1 (wpm_runs _ _ (fun tr r u => _))).
  unfold Reconcile. do 3 wp_step; [|destruct (IsNotFound e); wp_step|].
  2-4: no_change.
  destruct (String.eqb_spec (ms_ClassName (mz_Spec a)) "") as [|Hc]; [wp_step; no_change|].
  assert (Hread : reads (getOSAndArchFromClusterVirtualMachineImage (ms_ImageName (mz_Spec a)))).
  { unfold getOSAndArchFromClusterVirtualMachineImage. destruct (String.eqb _ _); solve_reads. }
  unfold describe. do 3 wp_step; [|no_change..]. do 2 wp_step; [|no_change..].
  wp_step. eapply wpm_mono; [apply Hread|]. intros tr [info|e|w] u [He%no_effects _]; cbn beta iota; [|no_change..].
  apply wpm_call. intros x.
  assert (Hw : exists template vmClass template' y, Call (KubeHelperPatch KVSphereMachineTemplate (with_status a0 info.1 info.2 a)) x =
      Call (KubeHelperPatch KVSphereMachineTemplate template') y /\ template = a /\ vmClass = a0 /\ described vmClass template template')
    by (eexists _, _, _, x; split_and!; [done..|apply with_status_described]).
  destruct Hw as (template & vmClass & template' & y & Heq & -> & -> & Hd). rewrite Heq.
  repeat apply Forall_app_2; try no_change. apply Forall_cons_2; [right|constructor].
  exists a, a0, template', y. split_and!; [done|in_trace|in_trace|done..].
Qed.
End theorems.

End MachineTemplate.
