(* ===== verification/VmwareWebhooks.v ===== *)
(** [internal/webhooks/vmware], of the objects of the supervisor mode: what the API
    server lets a user create and change. With [pkg/util/equal.go]. *)
From S2P Require Import Prelude GoStrings Types VmwareTypes Libs Errors Prog World RefLibs MachineUtil.
From S2P Require Import VmopCommon NetworkInterface Network.
From stdpp Require Import gmap relations.
From Stdlib Require Import Ascii.

Module VmwareWebhooks.
Import vmwarev1 vmoprvhub VmopCommon NetworkInterface Network.
#[local] Open Scope Z_scope.

(** * [pkg/util/equal.go] *)

(** What [cmp.Diff] does: it gives a text, or panics with an error, a text or a value of
    another type. *)
Inductive cmp_result := DiffText (diff : string) | PanicsError (err : error) | PanicsText (errMsg : string) | PanicsOther (type : string).

Definition bytes_of (l : list nat) : string := foldr (fun n s => String (ascii_of_nat n) s) "" l.
(** [strings.ReplaceAll] of a non-breaking space by a space, and of a tab by two. *)
Fixpoint replace_nbsp (s : string) : string :=
  match s with
  | EmptyString => EmptyString
  | String a s' =>
      match s' with
      | String b rest =>
          if Nat.eqb (nat_of_ascii a) 194 && Nat.eqb (nat_of_ascii b) 160 then String " " (replace_nbsp rest)
          else String a (replace_nbsp s')
      | EmptyString => s
      end
  end.
Fixpoint replace_tab (s : string) : string :=
  match s with
  | EmptyString => EmptyString
  | String a s' => if Nat.eqb (nat_of_ascii a) 9 then String " " (String " " (replace_tab s')) else String a (replace_tab s')
  end.
(** White space, in UTF-8. *)
Definition white_space : list string :=
  (map (fun n => bytes_of [n]) [9; 10; 11; 12; 13; 32] ++ map (fun n => bytes_of [194; n]) [133; 160] ++
   [bytes_of [225; 154; 128]] ++ map (fun n => bytes_of [226; 128; n]) ([168; 169; 175] ++ seq 128 11) ++
   [bytes_of [226; 129; 159]; bytes_of [227; 128; 128]])%nat%list.
Fixpoint trim_left (fuel : nat) (s : string) : string :=
  match fuel with
  | O => s
  | S fuel => match List.find (has_prefix s) white_space with Some w => trim_left fuel (drop_str (String.length w) s) | None => s end
  end.
Fixpoint trim_right (fuel : nat) (s : string) : string :=
  match fuel with
  | O => s
  | S fuel =>
      match List.find (has_suffix s) white_space with
      | Some w => trim_right fuel (take_str (String.length s - String.length w) s)
      | None => s
      end
  end.
(** [strings.TrimSpace]. *)
Definition TrimSpace (s : string) : string := trim_right (String.length s) (trim_left (String.length s) s).

(** Whether two objects are equal, and how they differ. *)
Definition Diff {A} (cmp_Diff : A -> A -> cmp_result) (x y : A) : (bool * string) + error :=
  match cmp_Diff x y with
  | PanicsError err => inr (EWrap "error diffing objects" err)
  | PanicsText errMsg => inr (ENew (sprintf "error diffing objects: %s" [AS errMsg]))
  | PanicsOther type => inr (ENew (sprintf "error diffing objects: panic of unknown type %s" [AS type]))
  | DiffText diff =>
      let diff := if String.eqb diff "" then diff else TrimSpace (replace_tab (replace_nbsp diff)) in
      inl (String.eqb diff "", diff)
  end.

(** * Field errors *)

Definition GVK : Type := string * string * string.
Definition gvk_text (gvk : GVK) : string := let '(g, v, k) := gvk in sprintf "%s/%s, Kind=%s" [AS g; AS v; AS k].

(** The value an error is about. *)
Inductive BadValue :=
| BadText (s : string)
| BadNumber (n : Z)
| BadGVK (gvk : GVK)
| BadSelector (selector : LabelSelector)
| BadTemplate (name : string) (spec : VSphereMachineSpec).
(** [field.Error]. *)
Inductive FieldError :=
| Invalid (path : string) (value : BadValue) (detail : string)
| Forbidden (path detail : string)
| Required (path detail : string)
| InternalError (path : string) (err : error).

(** The object of that name is invalid, or nothing. *)
Definition admission : Type := option (string * list FieldError).
Definition AggregateObjErrors (name : string) (allErrs : list FieldError) : admission :=
  match allErrs with [] => None | _ => Some (name, allErrs) end.
Definition check (b : bool) (e : FieldError) : list FieldError := if b then [e] else [].

(** [Path.Child] and [Path.Index]. *)
Definition child (path name : string) : string := path +:+ "." +:+ name.
Definition index (path : string) (i : nat) : string := path +:+ sprintf "[%d]" [AZ (Z.of_nat i)].

(** * The network of a machine *)

Section webhooks.
Context `{Libs} `{FeatureGates}.

Definition NetworkGVKNetOperator : GVK := FromAPIVersionAndKind netop_GroupVersion "Network".
Definition NetworkGVKNSXTVPCSubnetSet : GVK := FromAPIVersionAndKind nsxvpc_GroupVersion "SubnetSet".
Definition NetworkGVKNSXTVPCSubnet : GVK := FromAPIVersionAndKind nsxvpc_GroupVersion "Subnet".

(** [InterfaceNetworkReference.GroupVersionKind] and [InterfacesSpec.IsDefined]. *)
Definition net_gvk (spec : InterfaceSpec) : GVK :=
  FromAPIVersionAndKind (nr_APIVersion (if_NetworkRef spec)) (nr_Kind (if_NetworkRef spec)).
Definition Interfaces_IsDefined (network : VSphereMachineNetworkSpec) : bool :=
  InterfaceSpec_IsDefined (mn_Primary network) || negb (bool_decide (mn_Secondary network = [])).

(** The secondary interfaces whose networks are of none of some kinds. *)
Definition unsupported_secondary (path : string) (supported : list GVK) (detail : string) (secondary : list SecondaryInterfaceSpec)
    : list FieldError :=
  concat (imap (fun i s =>
    let gvk := net_gvk (si_Interface s) in
    check (negb (bool_decide (gvk ∈ supported))) (Invalid (child (index path i) "network") (BadGVK gvk) detail)) secondary).

Definition validate_types (networkProvider : string) (network : VSphereMachineNetworkSpec) (fldPath : string) : list FieldError :=
  let interfaces := child fldPath "interfaces" in
  if String.eqb networkProvider VPCNetworkProviderName then
    let primary := mn_Primary network in
    (check (InterfaceSpec_IsDefined primary && negb (bool_decide (net_gvk primary = NetworkGVKNSXTVPCSubnetSet)))
       (Invalid (child (child interfaces "primary") "network") (BadGVK (net_gvk primary))
          (sprintf "only supports %s" [AS (gvk_text NetworkGVKNSXTVPCSubnetSet)])) ++
     unsupported_secondary (child interfaces "secondary") [NetworkGVKNSXTVPCSubnetSet; NetworkGVKNSXTVPCSubnet]
       (sprintf "only supports %s or %s" [AS (gvk_text NetworkGVKNSXTVPCSubnetSet); AS (gvk_text NetworkGVKNSXTVPCSubnet)])
       (mn_Secondary network))%list
  else if String.eqb networkProvider VSphereDistributedNetworkProviderName then
    (check (InterfaceSpec_IsDefined (mn_Primary network))
       (Forbidden (child interfaces "primary")
          (sprintf "primary interface can not be set when network provider is %s" [AS VSphereDistributedNetworkProviderName])) ++
     unsupported_secondary (child interfaces "secondary") [NetworkGVKNetOperator]
       (sprintf "only supports %s" [AS (gvk_text NetworkGVKNetOperator)]) (mn_Secondary network))%list
  else [Forbidden interfaces (sprintf "interfaces can not be set when network provider is %s" [AS networkProvider])].

(** The names of the interfaces are unique. *)
Fixpoint validate_names (path : string) (i : nat) (interfaceNames : gset string) (secondary : list SecondaryInterfaceSpec)
    : list FieldError :=
  match secondary with
  | [] => []
  | s :: secondary =>
      if bool_decide (si_Name s ∈ interfaceNames)
      then Invalid (child (index path i) "name") (BadText (si_Name s)) "interface name is already in use" ::
           validate_names path (S i) interfaceNames secondary
      else validate_names path (S i) ({[si_Name s]} ∪ interfaceNames) secondary
  end.

(** One VLAN, given the names that were used and the IDs on each link. *)
Definition vlan_name_error (path : string) (secondaryNames vlanNames : gset string) (vlan : VLANSpec) : option FieldError :=
  let invalid detail := Some (Invalid (child path "name") (BadText (vl_Name vlan)) detail) in
  if bool_decide (vl_Name vlan ∈ vlanNames) then invalid "VLAN name must be unique"
  else if String.eqb (vl_Name vlan) PrimaryInterfaceName then invalid "VLAN name is already in use by the primary interface"
  else if bool_decide (vl_Name vlan ∈ secondaryNames) then invalid "VLAN name is already in use by a secondary interface"
  else None.
Definition vlan_id_error (path : string) (vlanIDsPerLink : gmap (string * Z) string) (vlan : VLANSpec)
    : list FieldError * gmap (string * Z) string :=
  match vl_ID vlan with
  | None => ([Required (child path "id") "VLAN ID cannot be unset"], vlanIDsPerLink)
  | Some id =>
      match vlanIDsPerLink !! (vl_Link vlan, id) with
      | Some existingVlanName =>
          ([Invalid (child path "id") (BadNumber id)
              (sprintf "VLAN ID %d is already used by VLAN %q on the same link %q" [AZ id; AS existingVlanName; AS (vl_Link vlan)])],
           vlanIDsPerLink)
      | None => ([], <[(vl_Link vlan, id) := vl_Name vlan]> vlanIDsPerLink)
      end
  end.
Fixpoint validate_vlans (path : string) (i : nat) (secondaryNames vlanNames : gset string)
    (vlanIDsPerLink : gmap (string * Z) string) (vlans : list VLANSpec) : list FieldError :=
  match vlans with
  | [] => []
  | vlan :: vlans =>
      let p := index path i in
      let nameErr := vlan_name_error p secondaryNames vlanNames vlan in
      let vlanNames := match nameErr with None => {[vl_Name vlan]} ∪ vlanNames | Some _ => vlanNames end in
      let idErrs := vlan_id_error p vlanIDsPerLink vlan in
      (match nameErr with Some e => [e] | None => [] end ++
       check (negb (bool_decide (vl_Link vlan ∈ secondaryNames)))
         (Invalid (child p "link") (BadText (vl_Link vlan)) "link must reference an existing secondary interface name") ++
       idErrs.1 ++ validate_vlans path (S i) secondaryNames vlanNames idErrs.2 vlans)%list
  end.
Definition secondary_names (network : VSphereMachineNetworkSpec) : gset string :=
  list_to_set (map si_Name (mn_Secondary network)).
Definition validateVLANs (networkProvider : string) (network : VSphereMachineNetworkSpec) (fldPath : string) : list FieldError :=
  let vlans := child fldPath "vlans" in
  if negb gate_VLANSubinterface then
    [Forbidden vlans "vlans can only be set when feature gate VLANSubinterface is enabled"]
  else if negb (String.eqb networkProvider VPCNetworkProviderName) then
    [Forbidden vlans (sprintf "vlans can only be set when network provider is %s" [AS VPCNetworkProviderName])]
  else if bool_decide (mn_Secondary network = []) then
    [Required vlans "vlans can only be specified if there are corresponding secondary interfaces"]
  else validate_vlans vlans 0 (secondary_names network) ∅ ∅ (mn_VLANs network).

Definition validateNetwork (networkProvider : string) (network : VSphereMachineNetworkSpec) (fldPath : string) : list FieldError :=
  let interfaces := child fldPath "interfaces" in
  ((if Interfaces_IsDefined network then
      if negb gate_MultiNetworks then
        [Forbidden interfaces "interfaces can only be set when feature gate MultiNetworks is enabled"]
      else
        validate_types networkProvider network fldPath ++
        validate_names (child interfaces "secondary") 0 {[PrimaryInterfaceName]} (mn_Secondary network)
    else []) ++
   (if bool_decide (mn_VLANs network = []) then [] else validateVLANs networkProvider network fldPath))%list.

Definition validatePolicies (policies : list PolicyRef) (fldPath : string) : list FieldError :=
  check (negb (bool_decide (policies = [])) && negb gate_InfrastructurePolicies)
    (Forbidden fldPath "policies can only be set when feature gate InfrastructurePolicies is enabled").

(** * VSphereMachine *)

Open Scope go_scope.

Definition VSphereMachine_ValidateCreate (f : NetworkProviderFactory) (m : VSphereMachine) : M Ev unit admission :=
  np <- ForObject f (m_ObjectMeta m) ;;
  ret (AggregateObjErrors (m_Name m)
    (validateNetwork (provider_Name np) (ms_Network (m_Spec m)) "spec.network" ++
     validatePolicies (ms_Policies (m_Spec m)) "spec.policies")%list).

Definition interfaces_of (network : VSphereMachineNetworkSpec) : InterfaceSpec * list SecondaryInterfaceSpec :=
  (mn_Primary network, mn_Secondary network).
(** The fields that may not be changed. *)
Definition validate_immutable (old new : VSphereMachineSpec) : list FieldError :=
  (check (negb (String.eqb (ms_ImageName new) (ms_ImageName old))) (Forbidden "spec.imageName" "cannot be modified") ++
   check (negb (String.eqb (ms_ClassName new) (ms_ClassName old))) (Forbidden "spec.className" "cannot be modified") ++
   check (negb (String.eqb (ms_StorageClass new) (ms_StorageClass old))) (Forbidden "spec.storageClass" "cannot be modified") ++
   check (negb (String.eqb (ms_MinHardwareVersion new) (ms_MinHardwareVersion old)))
     (Forbidden "spec.minHardwareVersion" "cannot be modified") ++
   check (negb (bool_decide (interfaces_of (ms_Network new) = interfaces_of (ms_Network old))))
     (Forbidden "spec.network.interfaces" "cannot be modified"))%list.

Definition VSphereMachine_ValidateUpdate (f : NetworkProviderFactory) (old new : VSphereMachine) : M Ev unit admission :=
  np <- ForObject f (m_ObjectMeta new) ;;
  ret (AggregateObjErrors (m_Name new)
    (validate_immutable (m_Spec old) (m_Spec new) ++
     validateNetwork (provider_Name np) (ms_Network (m_Spec new)) "spec.network" ++
     validatePolicies (ms_Policies (m_Spec new)) "spec.policies")%list).

(** * VSphereCluster and its template *)

Definition validateFailureDomainsControlPlaneSelector (selector : option LabelSelector) (fldPath : string) : list FieldError :=
  match selector with
  | None => []
  | Some selector =>
      if negb gate_NamespaceScopedZones then
        [Forbidden fldPath "control plane zone selector can only be set when feature gate NamespaceScopedZones is enabled"]
      else if negb (selector_valid selector) then [Invalid fldPath (BadSelector selector) (selector_error_text selector)]
      else check (selector_empty selector) (Invalid fldPath (BadSelector selector) "selector must not be empty")
  end.

Definition NSXVPC_IsDefined (network : Network) : bool := bool_decide (nw_CreateSubnetSet network <> None).
Definition subnetset_error (network : Network) (path : string) : list FieldError :=
  check (negb gate_MultiNetworks && bool_decide (nw_CreateSubnetSet network <> None))
    (Forbidden path "createSubnetSet can only be set when MultiNetworks feature gate is enabled").
Definition nsxvpc_error (path : string) : FieldError :=
  Forbidden path (sprintf "nsxVPC can only be set when network provider is %s" [AS VPCNetworkProviderName]).

Definition validate_provider (f : NetworkProviderFactory) (cluster : VSphereCluster) : res (list FieldError) :=
  let network := vs_Network (v_Spec cluster) in
  match ForCluster f cluster with
  | Stop w => Stop w
  | Err err => Ok [Invalid "spec.network.provider" (BadText (nw_Provider network)) (error_string err)]
  | Ok np => Ok (check (NSXVPC_IsDefined network && negb (String.eqb (provider_Name np) VPCNetworkProviderName))
                   (nsxvpc_error "spec.network.nsxVPC"))
  end.
Definition validateClusterNetwork (f : NetworkProviderFactory) (cluster : VSphereCluster) (skipEmptyProvider : bool)
    : res (list FieldError) :=
  let network := vs_Network (v_Spec cluster) in
  res_map (app (subnetset_error network "spec.network.nsxVPC.createSubnetSet"))
    (if gate_ClusterNetworkProvider then
       if String.eqb (nw_Provider network) "" then
         Ok (check (negb skipEmptyProvider) (Required "spec.network.provider" "spec.network.provider must be set"))
       else validate_provider f cluster
     else if negb (String.eqb (nw_Provider network) "") then
       Ok [Forbidden "spec.network.provider" "provider can only be set when ClusterNetworkProvider feature gate is enabled"]
     else validate_provider f cluster).

(** [validate], which creations and updates share; there may be no request, and then it
    is not taken to be a dry run of the topology controller. *)
Definition VSphereCluster_validate (f : NetworkProviderFactory) (dryRun : option bool) (cluster : VSphereCluster) : res admission :=
  res_map (fun allErrs => AggregateObjErrors (om_Name (v_ObjectMeta cluster))
    (allErrs ++ validateFailureDomainsControlPlaneSelector (vs_Selector (v_Spec cluster)) "spec.failureDomains.controlPlane.selector")%list)
    (validateClusterNetwork f cluster (default false dryRun)).

(** A VSphereCluster without anything. *)
Definition no_cluster : VSphereCluster :=
  mkVSphereCluster "" (mkObjectMeta "" "" "" None [] [] None) (mkVSphereClusterSpec (mkAPIEndpoint "" 0) (mkNetwork None "") None)
    (mkVSphereClusterStatus [] None [] None).
Definition validateClusterTemplateNetwork (f : NetworkProviderFactory) (spec : VSphereClusterSpec) : res (list FieldError) :=
  let path := "spec.template.spec.network.nsxVPC" in
  let network := vs_Network spec in
  res_map (app (subnetset_error network (child path "createSubnetSet")))
    (if negb gate_ClusterNetworkProvider && NSXVPC_IsDefined network then
       match ForCluster f no_cluster with
       | Stop w => Stop w
       | Err err => Ok [InternalError path err]
       | Ok np => Ok (check (negb (String.eqb (provider_Name np) VPCNetworkProviderName)) (nsxvpc_error path))
       end
     else Ok []).
Definition VSphereClusterTemplate_validate (f : NetworkProviderFactory) (name : string) (spec : VSphereClusterSpec) : res admission :=
  res_map (fun allErrs => AggregateObjErrors name
    (allErrs ++ validateFailureDomainsControlPlaneSelector (vs_Selector spec) "spec.template.spec.failureDomains.controlPlane.selector")%list)
    (validateClusterTemplateNetwork f spec).

(** * VSphereMachineTemplate

    The template engine, the check of names and the comparison are libraries. *)

Section templates.
Context (execute : string -> string -> res string) (IsDNS1123Subdomain : string -> list string).
Context (cmp_Diff : VSphereMachineSpec -> VSphereMachineSpec -> cmp_result).

Definition applyPreviousVSphereMachineTemplateDefaults (spec : VSphereMachineSpec) : VSphereMachineSpec :=
  if String.eqb (ms_PowerOffMode spec) "" then
    mkVSphereMachineSpec (ms_ProviderID spec) (ms_ImageName spec) (ms_ClassName spec) (ms_StorageClass spec) (ms_Volumes spec)
      (ms_Network spec) VirtualMachinePowerOpModeHard (ms_MinHardwareVersion spec) (ms_Naming spec) (ms_Policies spec)
  else spec.

Definition VSphereMachineTemplate_Default (dryRun : option bool) (spec : VSphereMachineSpec) : res VSphereMachineSpec :=
  match dryRun with
  | None => Err (ENew "expected an admission.Request inside context")
  | Some dryRun => Ok (if (dryRun : bool) then applyPreviousVSphereMachineTemplateDefaults spec else spec)
  end.

(** The path has the name that the field had before. *)
Definition naming_path : string := "spec.template.spec.namingStrategy.template".
Definition validate_naming (naming : VirtualMachineNamingSpec) : res (list FieldError) :=
  if String.eqb (na_Template naming) "" then Ok []
  else
    match GenerateVirtualMachineName execute "machine" naming with
    | Stop w => Stop w
    | Err err => Ok [Invalid naming_path (BadText (na_Template naming))
                       (sprintf "invalid VirtualMachine name template: %v" [AS (error_string err)])]
    | Ok name => Ok (map (fun err => Invalid naming_path (BadText (na_Template naming))
        (sprintf "invalid VirtualMachine name template, generated name is not a valid Kubernetes object name: %v" [AS err]))
        (IsDNS1123Subdomain name))
    end.

(** A template that is not for a cluster yet has no provider to be validated for. *)
Definition VSphereMachineTemplate_validate (f : NetworkProviderFactory) (om : ObjectMeta) (spec : VSphereMachineSpec)
    : M Ev unit admission :=
  got <- try (ForObject f om) ;;
  networkErrs <-
    match got with
    | inr err => if error_is err ErrNoOwningCluster then ret [] else fail err
    | inl np => ret (validateNetwork (provider_Name np) (ms_Network spec) "spec.template.spec.network")
    end ;;
  namingErrs <- of_res (validate_naming (ms_Naming spec)) ;;
  ret (AggregateObjErrors (om_Name om)
    (networkErrs ++ validatePolicies (ms_Policies spec) "spec.template.spec.policies" ++ namingErrs)%list).

Definition VSphereMachineTemplate_ValidateUpdate (f : NetworkProviderFactory) (dryRun : option bool) (om : ObjectMeta)
    (old new : VSphereMachineSpec) : M Ev unit admission :=
  match dryRun with
  | None => fail (ENew "expected a admission.Request inside context")
  | Some true => VSphereMachineTemplate_validate f om new
  | Some false =>
      let old := applyPreviousVSphereMachineTemplateDefaults old in
      let new := applyPreviousVSphereMachineTemplateDefaults new in
      match Diff cmp_Diff old new with
      | inr err => fail (ENew (sprintf "failed to compare old and new VSphereMachineTemplate: %v" [AS (error_string err)]))
      | inl (false, diff) =>
          ret (Some (om_Name om, [Invalid "spec.template.spec" (BadTemplate (om_Name om) new)
            (sprintf "VSphereMachineTemplate spec.template.spec field is immutable. Please create a new resource instead. Diff: %s" [AS diff])]))
      | inl (true, _) => VSphereMachineTemplate_validate f om new
      end
  end.
End templates.
End webhooks.

(** * What is accepted *)

Lemma app_nil_inv {A} (l1 l2 : list A) : (l1 ++ l2)%list = [] -> l1 = [] /\ l2 = [].
Proof. apply app_eq_nil. Qed.
Lemma check_nil b e : check b e = [] <-> b = false.
Proof. by destruct b. Qed.
Lemma no_object_errors name errs : AggregateObjErrors name errs = None <-> errs = [].
Proof. by destruct errs. Qed.

Section accepted.
Context `{Libs} `{FeatureGates}.

Lemma validate_names_nil path i names secondary :
  validate_names path i names secondary = [] ->
  NoDup (map si_Name secondary) /\ Forall (fun s => si_Name s ∉ names) secondary.
Proof.
  revert i names. induction secondary as [|s secondary IH]; intros i names; cbn [validate_names map]; [by repeat constructor|].
  case_bool_decide as Hs; [done|]. intros (Hnd & Hall)%IH. rewrite Forall_forall in Hall. split.
  - constructor; [|done]. intros (s' & Heq & Hin)%list_elem_of_fmap. apply (Hall s' Hin). rewrite <-Heq. set_solver.
  - constructor; [done|]. apply Forall_forall. intros s' Hin. specialize (Hall s' Hin). set_solver.
Qed.

(** The pair that identifies a VLAN on its link. *)
Definition on_link (vlan : VLANSpec) : string * Z := (vl_Link vlan, ptr_deref (vl_ID vlan) 0).

Lemma vlan_name_error_none path secondaryNames vlanNames vlan :
  vlan_name_error path secondaryNames vlanNames vlan = None ->
  vl_Name vlan ∉ vlanNames /\ vl_Name vlan <> PrimaryInterfaceName /\ vl_Name vlan ∉ secondaryNames.
Proof.
  unfold vlan_name_error. case_bool_decide; [done|]. destruct (String.eqb_spec (vl_Name vlan) PrimaryInterfaceName); [done|].
  by case_bool_decide.
Qed.
Lemma vlan_id_error_nil path ids vlan :
  (vlan_id_error path ids vlan).1 = [] ->
  ids !! on_link vlan = None /\ (vlan_id_error path ids vlan).2 = <[on_link vlan := vl_Name vlan]> ids /\ is_Some (vl_ID vlan).
Proof.
  unfold vlan_id_error, on_link. destruct (vl_ID vlan) as [id|]; [|done]. cbn [ptr_deref default].
  destruct (ids !! (vl_Link vlan, id)) eqn:Hid; [done|]. intros _. by eauto.
Qed.

Lemma validate_vlans_nil path i secondaryNames vlanNames ids vlans :
  validate_vlans path i secondaryNames vlanNames ids vlans = [] ->
  NoDup (map vl_Name vlans) /\ NoDup (map on_link vlans) /\
  Forall (fun v => vl_Name v ∉ vlanNames /\ vl_Name v <> PrimaryInterfaceName /\ vl_Name v ∉ secondaryNames /\
    vl_Link v ∈ secondaryNames /\ is_Some (vl_ID v) /\ ids !! on_link v = None) vlans.
Proof.
  revert i vlanNames ids. induction vlans as [|v vlans IH]; intros i vlanNames ids; cbn [validate_vlans map]; [by repeat constructor|].
  intros (Hn & (Hl & (Hid & Hrest)%app_nil_inv)%app_nil_inv)%app_nil_inv.
  destruct (vlan_name_error _ _ _ _) eqn:Hname in Hn, Hrest; [done|]. apply vlan_name_error_none in Hname as (Hv1 & Hv2 & Hv3).
  apply check_nil, negb_false_iff, bool_decide_eq_true in Hl. apply vlan_id_error_nil in Hid as (Hid & Hids & Hsome).
  rewrite Hids in Hrest. apply IH in Hrest as (Hnd & Hnd2 & Hall). rewrite Forall_forall in Hall. split_and!.
  - constructor; [|done]. intros (v' & Heq & Hin)%list_elem_of_fmap. destruct (Hall v' Hin) as (Hx & _). rewrite <-Heq in Hx. set_solver.
  - constructor; [|done]. intros (v' & Heq & Hin)%list_elem_of_fmap. destruct (Hall v' Hin) as (_ & _ & _ & _ & _ & Hx).
    rewrite <-Heq, lookup_insert_eq in Hx. done.
  - constructor; [done|]. apply Forall_forall. intros v' Hin. destruct (Hall v' Hin) as (Ha & Hb & Hc & Hd & He & Hf).
    apply lookup_insert_None in Hf as [Hf _]. split_and!; [set_solver|done..].
Qed.

(** What the network of a machine is when it was accepted for a provider. *)
Definition network_accepted (np : Provider) (network : VSphereMachineNetworkSpec) : Prop :=
  (mn_Secondary network <> [] \/ InterfaceSpec_IsDefined (mn_Primary network) = true ->
     gate_MultiNetworks = true /\ (np = nsxtVPCNetworkProvider \/ np = netopNetworkProvider)) /\
  (np = netopNetworkProvider -> InterfaceSpec_IsDefined (mn_Primary network) = false) /\
  NoDup (PrimaryInterfaceName :: map si_Name (mn_Secondary network)) /\
  (mn_VLANs network <> [] -> gate_VLANSubinterface = true /\ np = nsxtVPCNetworkProvider) /\
  NoDup (map vl_Name (mn_VLANs network)) /\ NoDup (map on_link (mn_VLANs network)) /\
  Forall (fun v => vl_Name v <> PrimaryInterfaceName /\ vl_Name v ∉ map si_Name (mn_Secondary network) /\
    vl_Link v ∈ map si_Name (mn_Secondary network) /\ is_Some (vl_ID v)) (mn_VLANs network).

Lemma provider_of_name np : provider_Name np = VPCNetworkProviderName <-> np = nsxtVPCNetworkProvider.
Proof. by destruct np. Qed.

Lemma validateVLANs_nil np network path :
  validateVLANs (provider_Name np) network path = [] ->
  gate_VLANSubinterface = true /\ np = nsxtVPCNetworkProvider /\
  NoDup (map vl_Name (mn_VLANs network)) /\ NoDup (map on_link (mn_VLANs network)) /\
  Forall (fun v => vl_Name v <> PrimaryInterfaceName /\ vl_Name v ∉ map si_Name (mn_Secondary network) /\
    vl_Link v ∈ map si_Name (mn_Secondary network) /\ is_Some (vl_ID v)) (mn_VLANs network).
Proof.
  unfold validateVLANs. cbn zeta. destruct gate_VLANSubinterface; [|done]. cbn [negb].
  destruct (String.eqb_spec (provider_Name np) VPCNetworkProviderName) as [Hnp%provider_of_name|]; [|done]. cbn [negb].
  case_bool_decide; [done|]. intros (Hn & Hl & Hall)%validate_vlans_nil. split_and!; try done.
  eapply Forall_impl; [exact Hall|]. cbn beta. unfold secondary_names. intros v (_ & Hv1 & Hv2 & Hv3 & Hv4 & _).
  rewrite elem_of_list_to_set in Hv2, Hv3. done.
Qed.

Lemma validateNetwork_nil np network path :
  validateNetwork (provider_Name np) network path = [] -> network_accepted np network.
Proof.
  unfold validateNetwork. cbn zeta. intros (Hi & Hv)%app_eq_nil.
  assert (Hvlan : mn_VLANs network = [] \/ mn_VLANs network <> [] /\ validateVLANs (provider_Name np) network path = [])
    by (case_bool_decide; tauto).
  assert (Hvlans : (mn_VLANs network <> [] -> gate_VLANSubinterface = true /\ np = nsxtVPCNetworkProvider) /\
    NoDup (map vl_Name (mn_VLANs network)) /\ NoDup (map on_link (mn_VLANs network)) /\
    Forall (fun v => vl_Name v <> PrimaryInterfaceName /\ vl_Name v ∉ map si_Name (mn_Secondary network) /\
      vl_Link v ∈ map si_Name (mn_Secondary network) /\ is_Some (vl_ID v)) (mn_VLANs network)).
  { destruct Hvlan as [->|[Hne (? & ? & ? & ? & ?)%validateVLANs_nil]]; [split_and!; [done|constructor..]|by split_and!]. }
  unfold network_accepted. unfold Interfaces_IsDefined in Hi.
  destruct (InterfaceSpec_IsDefined (mn_Primary network) || negb (bool_decide (mn_Secondary network = []))) eqn:Hdef.
  - destruct gate_MultiNetworks; [|done]. cbn [negb] in Hi. apply app_eq_nil in Hi as (Ht & (Hnd & Hout)%validate_names_nil).
    assert (Hnp : (np = nsxtVPCNetworkProvider \/ np = netopNetworkProvider) /\
       (np = netopNetworkProvider -> InterfaceSpec_IsDefined (mn_Primary network) = false)).
    { destruct np; try done; [|split; [by left|done]]. split; [by right|]. intros _. cbn in Ht. by apply app_eq_nil in Ht as [?%check_nil _]. }
    split; [intros _; by destruct Hnp|]. split; [apply Hnp|]. split; [|exact Hvlans]. constructor; [|done].
    intros (s & Heq & Hin)%list_elem_of_fmap. rewrite Forall_forall in Hout. apply (Hout s Hin). rewrite <-Heq. set_solver.
  - apply orb_false_iff in Hdef as [Hp Hs]. apply negb_false_iff, bool_decide_eq_true in Hs. rewrite Hs, Hp in *.
    split; [by intros [?|?]|]. split; [done|]. split; [cbn; constructor; [set_solver|constructor]|exact Hvlans].
Qed.

(** The network that a VM gets from its machine: the primary interface and the secondary
    ones of the machine, in this order and with different names, and its VLANs, whose
    names are different too, each on a secondary interface and with an ID that no other
    VLAN has there. *)
Definition vm_network_of (network : VSphereMachineNetworkSpec) (vm : VirtualMachine) : Prop :=
  exists nt, s_Network (o_Spec vm) = Some nt /\
    map ns_Name (nt_Interfaces nt) = PrimaryInterfaceName :: map si_Name (mn_Secondary network) /\
    map nv_Name (nt_VLANs nt) = map vl_Name (mn_VLANs network) /\
    NoDup (map ns_Name (nt_Interfaces nt) ++ map nv_Name (nt_VLANs nt)) /\
    NoDup (map (fun v => (nv_Link v, nv_ID v)) (nt_VLANs nt)) /\
    Forall (fun v => nv_Link v ∈ map si_Name (mn_Secondary network)) (nt_VLANs nt) /\
    Forall (fun v => exists vlan, vlan ∈ mn_VLANs network /\ vl_ID vlan = Some (nv_ID v) /\ vl_Name vlan = nv_Name v)
      (nt_VLANs nt).

Definition vm_vlan (vlan : VLANSpec) : VirtualMachineNetworkVLANSpec :=
  mkVirtualMachineNetworkVLANSpec (vl_Name vlan) (ptr_deref (vl_ID vlan) 0) (vl_Link vlan).

Lemma accepted_well_formed np network vm nt :
  network_accepted np network -> s_Network (o_Spec vm) = Some nt ->
  map ns_Name (nt_Interfaces nt) = PrimaryInterfaceName :: map si_Name (mn_Secondary network) ->
  nt_VLANs nt = map vm_vlan (mn_VLANs network) -> vm_network_of network vm.
Proof.
  intros (_ & _ & Hnd & _ & Hvn & Hvl & Hall) Hnt Hi Hv. rewrite Forall_forall in Hall.
  assert (Hnames : map nv_Name (nt_VLANs nt) = map vl_Name (mn_VLANs network)) by (rewrite Hv; by rewrite List.map_map).
  exists nt. split_and!; [done..| | | |].
  - rewrite Hi, Hnames. apply NoDup_app. split_and!; [done| |done].
    intros x Hx (v & -> & Hin)%list_elem_of_fmap. destruct (Hall v Hin) as (? & ? & _). by apply elem_of_cons in Hx as [?|?].
  - rewrite Hv, List.map_map. exact Hvl.
  - rewrite Hv. apply Forall_fmap, Forall_forall. intros v Hin. by destruct (Hall v Hin) as (_ & _ & ? & _).
  - rewrite Hv. apply Forall_fmap, Forall_forall. intros v Hin. destruct (Hall v Hin) as (_ & _ & _ & [id Hid]).
    exists v. cbn. by rewrite Hid.
Qed.

Lemma setVLANs_spec machine network nt :
  setVLANs machine network = Ok nt ->
  nt_Interfaces nt = nt_Interfaces network /\ nt_VLANs nt = (nt_VLANs network ++ map vm_vlan (mn_VLANs (ms_Network (m_Spec machine))))%list.
Proof.
  unfold setVLANs. cbn zeta. destruct (mn_VLANs (ms_Network (m_Spec machine))) as [|v vlans] eqn:Hv.
  - intros [= <-]. by rewrite app_nil_r.
  - destruct (zlen (v :: vlans) =? 0) eqn:Hz; [done|]. destruct gate_VLANSubinterface; [|done]. by intros [= <-].
Qed.
Lemma secondary_interface_names modes l : map ns_Name (map (secondary_interface modes) l) = map si_Name l.
Proof. rewrite List.map_map. by apply List.map_ext. Qed.
Lemma primary_interface_name c machine modes i : primary_interface c machine modes = Ok i -> ns_Name i = PrimaryInterfaceName.
Proof.
  unfold primary_interface. cbn zeta. destruct (createSubnetSet c), (InterfaceSpec_IsDefined _); try done; by intros [= <-].
Qed.
Lemma vpc_network_spec c machine nt :
  vpc_network c machine = Ok nt ->
  map ns_Name (nt_Interfaces nt) = PrimaryInterfaceName :: map si_Name (mn_Secondary (ms_Network (m_Spec machine))) /\
  nt_VLANs nt = map vm_vlan (mn_VLANs (ms_Network (m_Spec machine))).
Proof.
  unfold vpc_network. destruct (getIPAMModes c) as [modes|e|w]; [|done..]. cbn [res_bind].
  destruct (primary_interface c machine modes) as [i|e|w] eqn:Hi; [|done..]. cbn [res_bind]. apply primary_interface_name in Hi.
  intros [-> ->]%setVLANs_spec. split; [|done]. cbn. by rewrite Hi, secondary_interface_names.
Qed.

(** C23: what the webhook lets through can be given to a VM. When a machine's network was
    accepted for a network provider and that provider configures the VM of the machine,
    nothing of the network is lost and no two parts of it clash: the VM has the primary
    interface and all secondary interfaces of the machine, under different names, and all
    its VLANs, whose names are different from each other and from those of the
    interfaces, each on a secondary interface that is there, with the ID the machine
    gives it and no other VLAN has on that interface. A provider that does not look at
    the interfaces and VLANs of a machine has accepted one without any. *)
Theorem accepted_network_configured np c machine vm tr vm' c' path :
  validateNetwork (provider_Name np) (ms_Network (m_Spec machine)) path = [] ->
  runs (provider_ConfigureVirtualMachine np machine vm c) tr (Ok vm', c') ->
  match np with
  | nsxtVPCNetworkProvider | netopNetworkProvider => vm_network_of (ms_Network (m_Spec machine)) vm'
  | _ => Interfaces_IsDefined (ms_Network (m_Spec machine)) = false /\ mn_VLANs (ms_Network (m_Spec machine)) = []
  end.
Proof.
  intros Hv%validateNetwork_nil. pose proof Hv as (Hif & Hprim & _ & Hvl & _). intros Hrun.
  assert (Hnone : np <> nsxtVPCNetworkProvider -> mn_VLANs (ms_Network (m_Spec machine)) = []).
  { intros Hne. destruct (mn_VLANs (ms_Network (m_Spec machine))); [done|]. by destruct Hvl as [_ ?]. }
  assert (Hundef : np <> nsxtVPCNetworkProvider -> np <> netopNetworkProvider ->
     Interfaces_IsDefined (ms_Network (m_Spec machine)) = false /\ mn_VLANs (ms_Network (m_Spec machine)) = []).
  { intros Hn1 Hn2. split; [|by apply Hnone]. unfold Interfaces_IsDefined.
    destruct (InterfaceSpec_IsDefined (mn_Primary (ms_Network (m_Spec machine)))); [by destruct Hif as [_ [?|?]]; [right|..]|].
    case_bool_decide; [done|]. by destruct Hif as [_ [?|?]]; [left|..]. }
  destruct np; try (by apply Hundef).
  - assert (Hw : wpm (netop_ConfigureVirtualMachine machine vm) c (fun _ r _ =>
      match r with Ok vm' => vm_network_of (ms_Network (m_Spec machine)) vm' | _ => True end)).
    { unfold netop_ConfigureVirtualMachine. apply wpm_reads_bind; [apply getClusterNetwork_reads|by intros..|]. intros tr0 n _. wp_step.
      eapply accepted_well_formed; [exact Hv|done| |].
      - cbn. by rewrite secondary_interface_names.
      - cbn. by rewrite Hnone. }
    exact (proj1 (wpm_runs _ _ _) Hw _ _ _ Hrun).
  - assert (Hw : wpm (vpc_ConfigureVirtualMachine machine vm) c (fun _ r _ =>
      match r with Ok vm' => vm_network_of (ms_Network (m_Spec machine)) vm' | _ => True end)).
    { unfold vpc_ConfigureVirtualMachine. do 4 wp_step. destruct (vpc_network c machine) as [nt|e|w] eqn:Hn; [|done..].
      apply vpc_network_spec in Hn as [Hi Hvs]. wp_step. by eapply accepted_well_formed. }
    exact (proj1 (wpm_runs _ _ _) Hw _ _ _ Hrun).
Qed.

(** An update that the webhook accepts. *)
Definition updated (f : NetworkProviderFactory) (old new : VSphereMachine) : Prop :=
  exists tr u, runs (VSphereMachine_ValidateUpdate f old new tt) tr (Ok None, u).
Definition frozen (spec : VSphereMachineSpec) :=
  (ms_ImageName spec, ms_ClassName spec, ms_StorageClass spec, ms_MinHardwareVersion spec, interfaces_of (ms_Network spec)).
Lemma validate_immutable_nil old new : validate_immutable old new = [] -> frozen new = frozen old.
Proof.
  unfold validate_immutable, frozen.
  intros (H1%check_nil & (H2%check_nil & (H3%check_nil & (H4%check_nil & H5%check_nil)%app_eq_nil)%app_eq_nil)%app_eq_nil)%app_eq_nil.
  apply negb_false_iff in H1, H2, H3, H4, H5. apply String.eqb_eq in H1, H2, H3, H4. apply bool_decide_eq_true in H5. congruence.
Qed.

Lemma updated_frozen f old new : updated f old new -> frozen (m_Spec new) = frozen (m_Spec old) /\
  exists np, network_accepted np (ms_Network (m_Spec new)).
Proof.
  intros (tr & u & Hrun). assert (Hw : wpm (VSphereMachine_ValidateUpdate f old new) tt (fun _ r _ => r = Ok None ->
    frozen (m_Spec new) = frozen (m_Spec old) /\ exists np, network_accepted np (ms_Network (m_Spec new)))).
  { unfold VSphereMachine_ValidateUpdate. wp_step. eapply wpm_mono with (Q := fun _ _ _ => True); [by apply wpm_runs|].
    intros tr0 [np|e|w] u0 _; cbn beta iota; [|done..]. wp_step.
    intros [= (Hi%validate_immutable_nil & (Hn%validateNetwork_nil & _)%app_eq_nil)%no_object_errors%app_eq_nil].
    split; [done|by exists np]. }
  by apply (proj1 (wpm_runs _ _ _) Hw _ _ _ Hrun).
Qed.

(** Any number of updates leave the image, the class, the storage class, the minimal
    hardware version and the interfaces of a machine as they were. *)
Theorem machine_updates_frozen f old new : rtc (updated f) old new -> frozen (m_Spec new) = frozen (m_Spec old).
Proof. induction 1 as [|x y z [Hxy _]%updated_frozen _ IH]; [done|]. by rewrite IH. Qed.

(** What is known of a VSphereCluster that was accepted: its network provider can be
    resolved, unless it is a dry run; what is for NSX-VPC is only there for that
    provider and when the feature is enabled; and a selector of failure domains is
    valid, selects not everything and is only there when the feature is enabled. *)
Theorem cluster_accepted f dryRun cluster :
  VSphereCluster_validate f dryRun cluster = Ok None ->
  (dryRun <> Some true -> exists np, ForCluster f cluster = Ok np /\
     (NSXVPC_IsDefined (vs_Network (v_Spec cluster)) = true -> np = nsxtVPCNetworkProvider)) /\
  (NSXVPC_IsDefined (vs_Network (v_Spec cluster)) = true -> gate_MultiNetworks = true) /\
  (forall selector, vs_Selector (v_Spec cluster) = Some selector ->
     gate_NamespaceScopedZones = true /\ selector_valid selector = true /\ selector_empty selector = false).
Proof.
  unfold VSphereCluster_validate. destruct (validateClusterNetwork _ _ _) as [errs|e|w] eqn:Hn; [|done..]. cbn [res_map].
  intros [= [-> Hsel]%no_object_errors%app_eq_nil].
  assert (Hs : forall selector, vs_Selector (v_Spec cluster) = Some selector ->
     gate_NamespaceScopedZones = true /\ selector_valid selector = true /\ selector_empty selector = false).
  { intros selector Hs. unfold validateFailureDomainsControlPlaneSelector in Hsel. rewrite Hs in Hsel.
    destruct gate_NamespaceScopedZones; [|done]. destruct (selector_valid selector); [|done]. by apply check_nil in Hsel. }
  unfold validateClusterNetwork in Hn. cbn zeta in Hn.
  destruct (if gate_ClusterNetworkProvider then _ else _) as [errs|e|w] eqn:Hp in Hn; [|done..].
  cbn [res_map] in Hn. injection Hn as [Hsub ->]%app_eq_nil. unfold subnetset_error in Hsub. apply check_nil in Hsub.
  assert (Hdef : NSXVPC_IsDefined (vs_Network (v_Spec cluster)) = true -> gate_MultiNetworks = true).
  { unfold NSXVPC_IsDefined. intros Hd. rewrite Hd, andb_true_r in Hsub. by apply negb_false_iff in Hsub. }
  assert (Hprov : validate_provider f cluster = Ok [] -> exists np, ForCluster f cluster = Ok np /\
     (NSXVPC_IsDefined (vs_Network (v_Spec cluster)) = true -> np = nsxtVPCNetworkProvider)).
  { unfold validate_provider. cbn zeta. destruct (ForCluster f cluster) as [np|e|w]; [|done..].
    intros [= Hc%check_nil]. exists np. split; [done|]. intros Hd. rewrite Hd in Hc. cbn in Hc.
    apply negb_false_iff, String.eqb_eq in Hc. by apply provider_of_name. }
  split; [|by split]. intros Hdry.
  destruct gate_ClusterNetworkProvider; destruct (String.eqb_spec (nw_Provider (vs_Network (v_Spec cluster))) "") as [He|]; try done;
    try by apply Hprov.
  injection Hp as Hc%check_nil%negb_false_iff. destruct dryRun as [[]|]; done.
Qed.
End accepted.

(** * Examples *)

Import RefLibs.

Definition gates_on : FeatureGates := Build_FeatureGates false true true true false true true.
#[local] Existing Instance gates_on.

(** A machine with two more interfaces, and a VLAN with the same ID on each. *)
Definition subnet_interface (name : string) : SecondaryInterfaceSpec :=
  mkSecondaryInterfaceSpec name (mkInterfaceSpec (mkInterfaceNetworkReference "Subnet" name "crd.nsx.vmware.com/v1alpha1") 0 []).
Definition sample_network (vlans : list VLANSpec) : VSphereMachineNetworkSpec :=
  mkVSphereMachineNetworkSpec (mkInterfaceSpec (mkInterfaceNetworkReference "" "" "") 0 [])
    [subnet_interface "net1"; subnet_interface "net2"] vlans.
Definition sample_vlans : list VLANSpec := [mkVLANSpec "vlan1" (Some 7) "net1"; mkVLANSpec "vlan2" (Some 7) "net2"].
Definition networked_machine (vlans : list VLANSpec) : VSphereMachine :=
  mkVSphereMachine "" (new_meta "ns" "m")
    (mkVSphereMachineSpec "" "image" "class" "storage" [] (sample_network vlans) "hard" "" (mkVirtualMachineNamingSpec "") [])
    (mkVSphereMachineStatus [] None [] "" "" "" [] None).
Definition vpc_context : ClusterContext := mkClusterContext None (sample_vspherecluster "VPC" (mkAPIEndpoint "" 0)).
Definition vpc_run : trace * (res VirtualMachine * ClusterContext) :=
  exec net_answer (provider_ConfigureVirtualMachine nsxtVPCNetworkProvider (networked_machine sample_vlans) sample_vm_object vpc_context) empty_world.
Definition networked_vm : VirtualMachine :=
  with_network (mkVirtualMachineNetworkSpec
    [mkVirtualMachineNetworkInterfaceSpec PrimaryInterfaceName (Some (network_ref nsxvpc_GroupVersion "SubnetSet" "c")) "" "" None [] [];
     mkVirtualMachineNetworkInterfaceSpec "net1" (Some (network_ref nsxvpc_GroupVersion "Subnet" "net1")) "None" "None" None [] [];
     mkVirtualMachineNetworkInterfaceSpec "net2" (Some (network_ref nsxvpc_GroupVersion "Subnet" "net2")) "None" "None" None [] []]
    [mkVirtualMachineNetworkVLANSpec "vlan1" 7 "net1"; mkVirtualMachineNetworkVLANSpec "vlan2" 7 "net2"]) sample_vm_object.
Lemma accepted_network_configured_witness : vm_network_of (sample_network sample_vlans) networked_vm.
Proof.
  apply (accepted_network_configured nsxtVPCNetworkProvider vpc_context (networked_machine sample_vlans) sample_vm_object vpc_run.1
           networked_vm vpc_run.2.2 "spec.network"); [by vm_compute|].
  replace (Ok networked_vm, vpc_run.2.2) with vpc_run.2 by (vm_compute; reflexivity).
  apply exec_runs.
Defined.

(** The same ID twice on a link, and a name of an interface, are refused. *)
Example vlan_id_refused :
  validateNetwork "VPC" (sample_network [mkVLANSpec "vlan1" (Some 7) "net1"; mkVLANSpec "vlan2" (Some 7) "net1"]) "spec.network" =
    [Invalid "spec.network.vlans[1].id" (BadNumber 7) (sprintf "VLAN ID %d is already used by VLAN %q on the same link %q" [AZ 7; AS "vlan1"; AS "net1"])].
Proof. by vm_compute. Qed.
Example vlan_name_refused :
  validateNetwork "VPC" (sample_network [mkVLANSpec "net2" (Some 7) "net1"]) "spec.network" =
    [Invalid "spec.network.vlans[0].name" (BadText "net2") "VLAN name is already in use by a secondary interface"].
Proof. by vm_compute. Qed.
Example primary_name_refused :
  validateNetwork "VPC" (mkVSphereMachineNetworkSpec (mkInterfaceSpec (mkInterfaceNetworkReference "" "" "") 0 [])
      [subnet_interface PrimaryInterfaceName] []) "spec.network" =
    [Invalid "spec.network.interfaces.secondary[0].name" (BadText PrimaryInterfaceName) "interface name is already in use"].
Proof. by vm_compute. Qed.
Example TrimSpace_trims : TrimSpace ("  a b " +:+ bytes_of [226; 128; 131; 10]%nat) = "a b".
Proof. by vm_compute. Qed.

End VmwareWebhooks.
